(* ===== verification/_CoqProject ===== *)
-Q . S2P
Prelude.v
Eff.v
PyStr.v
PyText.v
PyFloat.v
PyCsv.v
PyRe.v
PyVal.v
PyDict.v
Json.v
Sha256.v
PyConv.v
Trace.v
World.v
Files.v
Probe.v
Collector.v
Bracket.v
Slo.v
RenderCell.v
K8s.v
Pilot.v
PilotThm.v
PilotLab.v
Campaign.v
Monotonic.v
Bundle.v
Lock.v
Fs.v
Cache.v
CacheThm.v
CacheLab.v
Stats.v
StatsThm.v
Design.v
Workloads.v
CellRun.v
CollectorData.v
CellRunThm.v
CellWaits.v
CellComplete.v
Analyze.v
AnalyzeThm.v
StoredRows.v
FreezePolicies.v
PilotData.v
AnalyzeData.v
Quota.v
SchedGates.v
Edk2.v
Scripts.v
Worker.v
SchedScenarios.v
SchedHost.v
SchedMatrix.v
SchedNodeThm.v
SchedMatrixThm.v
SchedLab.v
DeltaAnalyze.v
DeltaAnalyzeThm.v
ModeScenarios.v
ModeMatrix.v
ModeThm.v
ModeLab.v
ModeAnalyze.v
ModeAnalyzeThm.v
KernelSource.v
KernelSourceThm.v
KernelHarness.v
KernelHarnessThm.v
PyNormal.v
SchedAnalysis.v
StepDown.v
SampleSize.v
Factorial.v
Families.v
FactorialSize.v
FactorialThm.v
PruneData.v
