(* ===== verification/Prelude.v ===== *)
(** * Verification of the k8labs Python code

    k8labs is a Kubernetes research lab.  Its Python code locks and caches the
    artifacts a cluster is built from ([src/scripts/]) and plans, runs and
    evaluates CPU-limit experiments on it ([src/research/]).  This library models
    the parts of that code with logic of their own as Rocq functions and proves
    what makes them correct.  No axiom is used.

    ** How Python is modelled

    A function that may raise returns a [result]; exceptions carry their class,
    and [except] clauses test the subclass relation of [Prelude.v].  Functions
    that act on the world are programs of the state and exception monad of
    [Eff.v], in two instances:

    - [World.v] (pilot, cell runner, probe, collector, analysis): every action
      (HTTP request, process, clock, file) is an operation answered by an
      arbitrary environment, [Env], and recorded in a history, so theorems hold
      for every behaviour of cluster, load generator and clock, and speak about
      what was done;
    - [Fs.v] (cache, firmware scripts, kernel build harness): a file system, every
      state of which is kept, whose changing calls may fail at any point; network
      answers, temporary names and [skopeo] belong to an arbitrary [Machine];
    - [Worker.v] (the two scheduler studies): a node whose setting files, module,
      cgroups and child processes are state, everything else being asked of an
      arbitrary [Node]; any call may raise, which is also how a signal is seen.

    Floats are IEEE binary64 ([SpecFloat]; [PyFloat.v]), integers are
    unbounded, strings hold the code points U+0000 to U+00FF ([PyStr.v]).  JSON,
    URLs, CSV, regular expressions, number formatting and SHA-256 are executable
    models of the standard library ([Json.v], [PyText.v], [PyCsv.v], [PyRe.v],
    [PyConv.v], [Sha256.v]); [Json.v] proves that printing and parsing
    are inverse, [PyCsv.v] that a written table reads back.  A text file is read
    and written as a whole, a scraping thread is seen when it is joined, and
    [int] has no limit on digits.  Third-party code and what is outside
    Python is a parameter: the YAML loader, the API server, [kubectl], the load
    generator, [skopeo], the functions of the C library ([Stats.Libm]), the
    random generator ([Campaign.Rng], whose only law is that a draw is in range).
    [argparse] is left out: a [main] starts from the parsed arguments.

    ** The components

    Phase 8 of the CPU-limit research ([src/research/cpu-limits/phase8/]) finds
    the smallest CPU limit under which a service meets its objectives.  The pilot
    plans limits, renders and deploys a cell per limit, drives load, judges the
    measurement and derives a bracket; later steps design a campaign, fit a
    monotone response and publish a model bundle.

    - [Bracket.v], [campaign/bracket.py]: [plan_limits_sound] (plans are bounded,
      ascending and within the cap for every growth factor),
      [evaluate_trials_sound] and [_total] (the bracket is the right one, and
      when there is none).
    - [Slo.v], [campaign/slo.py]: when a cell meets its objectives, and how a run
      the generator declared invalid is judged.
    - [RenderCell.v], [manifests/render-cell.py]: a rendered manifest has no
      placeholder left and requests within limits.
    - [K8s.v], [campaign/k8s.py]: cells, kubeconfig, API requests, the
      port-forward child, CPU quantities.
    - [Pilot.v], [campaign/pilot.py]; its theorems in [PilotThm.v] (no cell is
      leaked on any path, the child process is released, waits end, the report
      says what was measured), concrete worlds and the failures no handler
      catches in [PilotLab.v].
    - [Campaign.v], [campaign/campaign.py]: plans fit their budget and are
      permutations or samples of the full design.
    - [Monotonic.v], [model/monotonic.py]: pool-adjacent-violators leaves no
      inversion; fits are monotone; predictions stay in the measured range.
    - [Bundle.v], [model/bundle.py]: the hash binds every field, dumps read back,
      an accepted bundle has the documented form.

    The lab's supply chain ([src/scripts/]): the cache is keyed by the digest of
    the lock and published by writing [complete.json] last.

    - [Lock.v], [lock.py]: nothing mutable is referenced, artifacts are distinct
      and pinned, the upgrade matrix has no gap.
    - [Cache.v], [cache.py]; [CacheThm.v]: what an accepted cache holds, that a
      download never exposes an unverified file and leaves no temporary one, that
      an interrupted population is not accepted once it has removed the old record
      of completion, that pruning removes exactly other locks; [CacheLab.v]:
      the inventories of a loaded lock never fail, and a machine on which a
      population runs to a cache that validates.
    - [Edk2.v], [edk2_esl.py] and [edk2_wire_enroll.py]: signature lists read back
      in the firmware's format; wiring is idempotent.
    - [Scripts.v], [normalize_manifest.py] and [offline.py]: defaults are resolved
      in place; the offline gate fails closed.

    The CPU-limit experiments ([src/research/cpu-limits/]): a block design is
    scheduled, every cell is deployed and measured by [run-cell.py], which runs
    the cgroup probe, scrapes the collector and appends to CSV files; a pilot
    of such cells freezes the limit policies and the analysis decides the planned
    contrasts.

    - [Design.v], [experiments/design.py]: every block of a schedule is a
      permutation of the cells that the plan freezes, and every order can be drawn.
    - [Workloads.v], [workloads/render.py]: the Pods of a cell.
    - [Trace.v], [capture/parse_trace.py]: the summary of a scheduler trace, from
      which event to which its intervals reach, and what the event filter keeps.
    - [Probe.v], [experiments/cgroup_probe.py]: the levels of a Pod's cgroup, counters and
      their exact differences; nothing is written.
    - [Collector.v], [observers/collector.py]; [CollectorData.v]:
      the exposition text that is scraped reads back in the runner.
    - [CellRun.v], [experiments/run-cell.py]; [CellRunThm.v] (the Pods of a cell
      are removed on every path, a record of the probe is accepted),
      [CellWaits.v] (waits make progress and end), [CellComplete.v] (a cell
      reported complete has its rows stored, and a cluster on which a
      cell runs).
    - [StoredRows.v]: the rows of a cell as the readers of the tables see them.
    - [FreezePolicies.v], [experiments/freeze_policies.py]: the limits frozen
      from a pilot; [PilotData.v]: what it computes from the stored rows of the
      probe's records.
    - [Stats.v], [Analyze.v], [analysis/stats.py], [analyze.py] and
      [cgroup_mapping.py]; [StatsThm.v] (the Holm correction equals its
      declarative definition, the t quantile ends), [AnalyzeThm.v] (contrasts and
      decisions), [AnalyzeData.v] (a stored cell is analyzed as one cell).

    The scheduler studies:

    - [SchedScenarios.v], [SchedHost.v], [SchedMatrix.v], the modules
      [scenarios.py] and [run_matrix.py] of [sched-core-delta/experiments/]: the
      scenarios, what is read of the node, and the program.  [SchedNodeThm.v]:
      loading, unloading and restoring the steal governor, and removing trees of
      cgroups.  [SchedMatrixThm.v]: the node is restored from every point at
      which a run is cut short, no workload is left running, the rows written are
      those of the plan.  [SchedLab.v]: a node on which the program runs.
    - [DeltaAnalyze.v], [sched-core-delta/analysis/analyze.py];
      [DeltaAnalyzeThm.v]: the rows written are the rows read, medians, pairs of
      blocks, and what a verdict rests on.
    - [ModeScenarios.v], [ModeMatrix.v], the same modules of the sibling study of
      cgroup modes, [sched-core-modes/experiments/], whose runner switches the
      kernel between weight models; its functions that are textually those of the
      other runner are the definitions of [SchedMatrix.v].  [ModeScenarios.v]
      also proves that expected shares computed in floats are the rounded
      quotients of the (unclipped) weights, up to 128 CPUs.  [ModeThm.v]: the mode,
      which every repetition sets back, is restored wherever a run is cut short
      and no cgroup or workload is left, rows are measured in the mode they name.
      [ModeLab.v]: a node on which it runs, and what it does not prevent.
    - [ModeAnalyze.v], [sched-core-modes/experiments/analyze.py];
      [ModeAnalyzeThm.v]: a complete run is read back and accepted, and what the
      reported shares are.
    - [Quota.v], [linux-sched/experiments/cgroup_stats.py] and [freeze_quota.py]:
      windows of merged counters, what frozen quotas guarantee.
    - [SchedGates.v], [runtime_gate.py], [cgroup_manifest.py],
      [cpu_limit_policy.py] and [quota_calibration.py] of the same directory.
    - [KernelSource.v], [kernel_source_gate.py] of the same directory;
      [KernelSourceThm.v]: a source passes exactly when every probe of its files
      and the head of its repository agree with the lock.
    - [KernelHarness.v], [kernel_build_harness.py]; [KernelHarnessThm.v]: hashes
      of fragments and artifacts, names of packages, locks written and read
      back, and what a pass of the check means.

    The data of the scheduler campaign ([src/research/linux-sched/analysis/]):

    - [SchedAnalysis.v], [sched_analysis.py]: paired contrasts against the control
      scheduler, Holm's correction over a predeclared family, the bootstrap, the
      verdicts and both summaries.  [StepDown.v]: the correction is the textbook
      one over the order of the statistics, and a missing contrast does not help
      the others at equal degrees of freedom, as long as the critical values do not
      grow along the family.
    - [SampleSize.v], [sample_size.py]: the counts frozen from a pilot; the search for a count finds the least one, and the
      analysis enforces the counts of the record that the plan writes.
    - [Factorial.v], [FactorialSize.v], [factorial_analysis.py] and
      [factorial_sample_size.py]: the same for schedulers crossed with quotas;
      what those modules repeat word for word is taken from [SchedAnalysis.v] and
      [SampleSize.v].  [Families.v]: a decision depends on its own family only,
      and is Holm's with the planned size of the family.
      [FactorialThm.v]: what every verdict rests on, a campaign that is analysed,
      and inputs that end the analysis.  [FactorialSize.v] also shows that the
      counts of the plan are read back, and where plan and analysis differ.
    - [PruneData.v], [prune_data.py]: on a disk that may fail at
      any call, only raw evidence of superseded blocks is removed, in either layout
      of the data.

    [PyNormal.v] holds the means, powers and normal quantile of Python's standard
    library that these use.

    ** Interfaces

    [World.Env], [Fs.Machine] and [Worker.Node] are what programs may assume of
    their surroundings, [Campaign.Rng], [Stats.Libm] and [PyNormal.Pow] of
    generator and C library, [ModeMatrix.Mounts] of the mount points of the
    kernel's file systems; theorems are proved against the classes, and
    [PilotLab.v], [CacheLab.v], [CellComplete.v], [SchedLab.v], [ModeLab.v] and
    [PyNormal.v] (exponential and logarithm by series) give instances.  Both
    runners of the scheduler studies are proved against [Worker.Node]; the mode of the second
    also needs that the kernel shows the mode that was written
    ([ModeThm.mode_file_law]).
    [CacheLab.loaded_inventories] discharges what [cache.py] needs of [lock.py];
    [CellRunThm.probe_record_accepted], [PilotData.pilot_sample_exact] and
    [AnalyzeData.stored_cell_summarized] follow a record of the probe through the
    runner and its tables to the two programs that read them;
    [DeltaAnalyzeThm.rows_read_back] and [ModeAnalyzeThm.run_accepted] join the
    runners of the scheduler studies to their analyses, and
    [SampleSize.frozen_counts_read] the plan of a campaign to its analysis.

    ** Fuel

    Loops over data are structural.  Polling loops take fuel;
    [PilotThm.waits_terminate] and [CellWaits.v] show that they end with enough of
    it when pauses take time, and the other theorems hold for every amount,
    running out being one more failure ([FuelExhausted]).  The JSON parser's fuel
    is twice the length of the text, enough for every printed value.
    [plan_limits] uses [max_cells], as its loop does; the t quantile doubles its
    upper end at most [DOUBLINGS] times, which reaches the end of the floats; a
    tree of cgroups is removed with its depth as fuel; the search for a sample
    size takes as many turns as there are counts up to its limit.

    ** Not modelled

    - Reports and plots ([generate-*.py], [report.py], [plot.py] and the Markdown
      of the studies): formatting without decisions of its own.
    - The dry run, run summary, metrics and image contract of [linux-sched/], the
      observers of its campaign and [host_agent.py]: calls of other programs,
      kernel trace sources and an HTTP service, whose behaviour is that of code
      outside the repository.  What the modelled programs print is left out where
      nothing reads it.
    - [bootstrap_management.py], add-ons, image loading and the phases before
      phase 8: they are sequences of [kubectl], [helm] and [ssh] calls.
    - Rust, shell and C code, cluster and image definitions, tests.

    ** This file

    Exceptions and results, loops that may raise, stable sorting, adjacent pairs,
    and the tactics and hints the other files share. *)

From Stdlib Require Import ZArith Bool Ascii String Lia Sorted.
From stdpp Require Import base list strings option.

(** ** Exceptions

    The exception classes the modelled code raises or catches, with the
    subclass relation that decides which [except] clause handles them. *)

Inductive exn_class : Type :=
  | Exception
  | ValueError
  | JSONDecodeError
  | UnicodeError
  | BundleError
  | BudgetExceeded
  | TypeError
  | LookupError
  | KeyError
  | IndexError
  | ArithmeticError
  | OverflowError
  | ZeroDivisionError
  | AttributeError
  | NameError
  | UnboundLocalError
  | AssertionError
  | RuntimeError
  | PilotError
  | KubernetesError
  | CellRunError
  | LFSUnavailableError
  | HashMismatchError
  | RenderError
  | CsvError
  | YAMLError
  | OSError
  | FileNotFoundError
  | NotADirectoryError
  | SubprocessError
  | TimeoutExpired
  | HTTPException
  | SystemExit
  | FuelExhausted.

#[export] Instance exn_class_eq_dec : EqDecision exn_class.
Proof. solve_decision. Defined.

(** The direct base class; [None] for the roots of the model.  [FuelExhausted]
    is no Python class: it marks a loop cut off by the model's fuel, and no
    [except] clause of the code names it. *)
Definition base_class (c : exn_class) : option exn_class :=
  match c with
  | Exception | SystemExit | FuelExhausted => None
  | ValueError | TypeError | LookupError | ArithmeticError | AttributeError
  | NameError | AssertionError | RuntimeError | RenderError | CsvError | YAMLError | OSError
  | SubprocessError | HTTPException =>
      Some Exception
  | JSONDecodeError | UnicodeError | BundleError | BudgetExceeded | HashMismatchError => Some ValueError
  | KeyError | IndexError => Some LookupError
  | OverflowError | ZeroDivisionError => Some ArithmeticError
  | UnboundLocalError => Some NameError
  | PilotError | KubernetesError | CellRunError | LFSUnavailableError => Some RuntimeError
  | FileNotFoundError | NotADirectoryError => Some OSError
  | TimeoutExpired => Some SubprocessError
  end.

(** [issubclass c d]: the hierarchy above is at most three deep. *)
Definition issubclass (c d : exn_class) : bool :=
  bool_decide (c = d) ||
  match base_class c with
  | None => false
  | Some b =>
      bool_decide (b = d) ||
      match base_class b with
      | None => false
      | Some b' => bool_decide (b' = d)
      end
  end.

Record exn : Type := Exn { exn_cls : exn_class; exn_msg : string }.

#[export] Instance exn_eq_dec : EqDecision exn.
Proof. solve_decision. Defined.

(** [except (c1, ..., cn)] as a test on the raised exception. *)
Definition caught_by (cs : list exn_class) (e : exn) : bool :=
  existsb (issubclass (exn_cls e)) cs.

(** ** Results: a value or a raised exception *)

Inductive result (A : Type) : Type :=
  | Ok (a : A)
  | Raise (e : exn).
Arguments Ok {A} a.
Arguments Raise {A} e.

Definition rbind {A B} (m : result A) (k : A -> result B) : result B :=
  match m with Ok a => k a | Raise e => Raise e end.

Declare Scope py_scope.
Delimit Scope py_scope with py.

Notation "'let*' x ':=' m 'in' k" := (rbind m (fun x => k))
  (at level 10, x pattern, m at level 100, k at level 200,
   format "'let*'  x  ':='  m  'in' '//' k") : py_scope.
Notation "m ';;;' k" := (rbind m (fun _ => k))
  (at level 199, right associativity, format "m  ';;;' '//' k") : py_scope.
Open Scope py_scope.

(** [if b: raise c(msg)] *)
Definition raise_if (b : bool) (c : exn_class) (msg : string) : result unit :=
  if b then Raise (Exn c msg) else Ok tt.

Definition is_ok {A} (r : result A) : bool :=
  match r with Ok _ => true | Raise _ => false end.

Lemma rbind_Ok {A B} (m : result A) (k : A -> result B) y :
  rbind m k = Ok y <-> exists x, m = Ok x /\ k x = Ok y.
Proof.
  destruct m as [a|e]; simpl; split; [eauto| | |]; try done.
  - by intros (x & [= ->] & ?).
  - by intros (x & ? & ?).
Qed.

Lemma raise_if_Ok b c msg u : raise_if b c msg = Ok u <-> b = false.
Proof. destruct b, u; simpl; split; done. Qed.

(** A program run to a value the kernel can compute, its final state left as it is. *)
Lemma ran {A S} (m : result A * S) (a : A) : fst m = Ok a -> m = (Ok a, snd m).
Proof. intros <-. apply surjective_pairing. Qed.

Lemma Ok_inj {A} (a b : A) : Ok a = Ok b -> a = b.
Proof. congruence. Qed.

Lemma Ok_fst {A B} (a a' : A) (b b' : B) : Ok (a, b) = Ok (a', b') -> a = a'.
Proof. by intros [= -> ->]. Qed.

Lemma raise_if_false b c msg : b = false -> raise_if b c msg = Ok tt.
Proof. by intros ->. Qed.

Lemma raise_if_error b c msg e : raise_if b c msg = Raise e -> exn_cls e = c.
Proof. destruct b; simpl; [by intros [= <-]|done]. Qed.

(** Takes apart a hypothesis that says a monadic program returned. *)
Ltac ok_step :=
  match goal with
  | H : rbind _ _ = Ok _ |- _ =>
      let x := fresh "x" in let Hx := fresh "Hx" in
      apply rbind_Ok in H as (x & Hx & H); cbv beta in H
  | H : raise_if _ _ _ = Ok _ |- _ => apply raise_if_Ok in H
  | H : Ok _ = Ok _ |- _ => injection H as H; subst
  | H : Raise _ = Ok _ |- _ => discriminate H
  | H : Ok _ = Raise _ |- _ => discriminate H
  end.
Ltac inv_ok := repeat ok_step.

(** Splits boolean connectives in hypotheses. *)
Ltac bool_hyps :=
  repeat match goal with
  | H : _ || _ = false |- _ => apply orb_false_iff in H as [? ?]
  | H : _ && _ = true |- _ => apply andb_true_iff in H as [? ?]
  | H : negb _ = true |- _ => apply negb_true_iff in H
  | H : negb _ = false |- _ => apply negb_false_iff in H
  | H : (_ <? _)%Z = false |- _ => apply Z.ltb_ge in H
  | H : (_ <? _)%Z = true |- _ => apply Z.ltb_lt in H
  | H : (_ <=? _)%Z = false |- _ => apply Z.leb_gt in H
  | H : (_ <=? _)%Z = true |- _ => apply Z.leb_le in H
  | H : (_ =? _)%Z = true |- _ => apply Z.eqb_eq in H
  | H : (_ =? _)%Z = false |- _ => apply Z.eqb_neq in H
  | H : String.eqb _ _ = true |- _ => apply String.eqb_eq in H
  | H : String.eqb _ _ = false |- _ => apply String.eqb_neq in H
  end.

(** ** Loops that may raise *)

Section Loops.
Context {A B S : Type}.

(** [for x in l: body] where the body only raises. *)
Fixpoint iterM (f : A -> result unit) (l : list A) : result unit :=
  match l with
  | [] => Ok tt
  | x :: l' => f x ;;; iterM f l'
  end.

(** [[f(x) for x in l]] *)
Fixpoint mapM (f : A -> result B) (l : list A) : result (list B) :=
  match l with
  | [] => Ok []
  | x :: l' => let* y := f x in let* ys := mapM f l' in Ok (y :: ys)
  end.

(** [for x in l: s = f(s, x)] *)
Fixpoint foldM (f : S -> A -> result S) (s : S) (l : list A) : result S :=
  match l with
  | [] => Ok s
  | x :: l' => let* s' := f s x in foldM f s' l'
  end.

Lemma iterM_Ok f l u : iterM f l = Ok u <-> Forall (fun x => f x = Ok tt) l.
Proof.
  destruct u. induction l as [|x l IH]; simpl; [naive_solver|].
  rewrite rbind_Ok, Forall_cons_iff, <- IH. split.
  - intros ([] & ? & ?). done.
  - intros [? ?]. by exists tt.
Qed.

Lemma mapM_Ok f l ys : mapM f l = Ok ys <-> Forall2 (fun x y => f x = Ok y) l ys.
Proof.
  revert ys. induction l as [|x l IH]; intros ys; simpl.
  - split; [intros [= <-]; constructor | inversion 1; done].
  - rewrite rbind_Ok. split.
    + intros (y & Hy & H). inv_ok. constructor; [done|]. by apply IH.
    + inversion 1 as [|? y ? ys' Hy Hys]; subst. exists y. split; [done|].
      apply IH in Hys. by rewrite Hys.
Qed.

(** Invariant rule for a fold that returned. *)
Lemma foldM_inv (I : S -> Prop) f s l s' :
  (forall s1 x s2, x ∈ l -> I s1 -> f s1 x = Ok s2 -> I s2) ->
  I s -> foldM f s l = Ok s' -> I s'.
Proof.
  revert s. induction l as [|x l IH]; intros s Hstep Hs H; simpl in H; inv_ok; [done|].
  eapply (IH _ _ _ H). Unshelve.
  - intros s1 y s2 Hy. apply Hstep. by right.
  - eapply Hstep; [left|exact Hs|exact Hx].
Qed.

Lemma foldM_app f s l1 l2 :
  foldM f s (l1 ++ l2) = let* s' := foldM f s l1 in foldM f s' l2.
Proof.
  revert s. induction l1 as [|x l1 IH]; intros s; simpl; [done|].
  destruct (f s x); simpl; [apply IH|done].
Qed.
End Loops.

Lemma mapM_length {A B} (f : A -> result B) l ys : mapM f l = Ok ys -> length ys = length l.
Proof. intros H%mapM_Ok. symmetry. by eapply Forall2_length. Qed.

Lemma iterM_error {A} (P : exn -> Prop) (f : A -> result unit) l e :
  (forall x e', f x = Raise e' -> P e') -> iterM f l = Raise e -> P e.
Proof.
  intros Hf. induction l as [|x l IH]; simpl; [done|].
  destruct (f x) eqn:E; simpl; [done|]. intros [= <-]. eauto.
Qed.

(** [enumerate(l)] *)
Definition enumerate {A} (l : list A) : list (nat * A) := imap pair l.

Lemma enumerate_snd {A} (l : list A) : snd <$> enumerate l = l.
Proof.
  unfold enumerate. rewrite fmap_imap. rewrite (imap_ext _ (fun _ x => x)); [|done].
  induction l as [|x l IH] using rev_ind; [done|]. by rewrite imap_app, IH.
Qed.

Lemma Forall_enumerate {A} (P : A -> Prop) (l : list A) :
  Forall (fun p => P (snd p)) (enumerate l) <-> Forall P l.
Proof. rewrite <- (enumerate_snd l) at 2. by rewrite Forall_fmap. Qed.

Lemma Forall2_elem_l {A B} (R : A -> B -> Prop) l k x : Forall2 R l k -> x ∈ l -> exists y, y ∈ k /\ R x y.
Proof.
  induction 1 as [|a b l k HR _ IH]; [by intros ?%not_elem_of_nil|].
  intros [->|Hx]%list.elem_of_cons; [exists b; split; [by left|done]|].
  destruct (IH Hx) as (y & ? & ?). exists y. split; [by right|done].
Qed.

(** Filters that keep nothing. *)
Lemma filter_none {A} (f : A -> bool) l : Forall (fun x => f x = false) l -> List.filter f l = [].
Proof. induction 1 as [|x l Hx _ IH]; [done|]. cbn. by rewrite Hx. Qed.

(** ** Membership tests *)

Definition mem_string (s : string) (l : list string) : bool :=
  existsb (String.eqb s) l.

Lemma mem_string_spec s l : mem_string s l = true <-> s ∈ l.
Proof.
  unfold mem_string. rewrite existsb_exists, list_elem_of_In. setoid_rewrite String.eqb_eq.
  split; [by intros (x & ? & ->)|by exists s].
Qed.

Lemma mem_string_false s l : mem_string s l = false <-> s ∉ l.
Proof. rewrite <- mem_string_spec. destruct (mem_string s l); naive_solver. Qed.

(** [len(l) != len(set(l))]: whether a list of strings has a repeated element. *)
Fixpoint has_dup (l : list string) : bool :=
  match l with [] => false | x :: l' => mem_string x l' || has_dup l' end.

Lemma has_dup_false l : has_dup l = false <-> NoDup l.
Proof.
  induction l as [|x l IH]; simpl; [by split; [constructor|]|].
  rewrite orb_false_iff, list.NoDup_cons, mem_string_false, IH. done.
Qed.

(** ** Stable sorting

    Python's [sorted] is stable; on a list it is the insertion sort below. *)

Section Sort.
Context {A : Type} (leb : A -> A -> bool).

Fixpoint insert_sorted (x : A) (l : list A) : list A :=
  match l with
  | [] => [x]
  | y :: l' => if leb x y then x :: l else y :: insert_sorted x l'
  end.

Definition sort_by (l : list A) : list A := foldr insert_sorted [] l.

Lemma insert_sorted_perm x l : insert_sorted x l ≡ₚ x :: l.
Proof.
  induction l as [|y l IH]; simpl; [done|].
  destruct (leb x y); [done|]. rewrite IH. constructor.
Qed.

Lemma sort_by_perm l : sort_by l ≡ₚ l.
Proof. induction l as [|x l IH]; simpl; [done|]. by rewrite insert_sorted_perm, IH. Qed.

Hypothesis leb_total : forall x y, leb x y = true \/ leb y x = true.
Hypothesis leb_trans : forall x y z, leb x y = true -> leb y z = true -> leb x z = true.

Lemma insert_sorted_sorted x l :
  StronglySorted (fun a b => leb a b = true) l ->
  StronglySorted (fun a b => leb a b = true) (insert_sorted x l).
Proof.
  induction 1 as [|y l Hs IH Hf]; simpl; [repeat constructor|].
  destruct (leb x y) eqn:E.
  - constructor; [by constructor|]. constructor; [done|].
    eapply Forall_impl; [|exact Hf]. simpl. eauto.
  - constructor; [exact IH|]. rewrite insert_sorted_perm.
    constructor; [|done]. destruct (leb_total x y); congruence.
Qed.

Lemma sort_by_sorted l : StronglySorted (fun a b => leb a b = true) (sort_by l).
Proof. induction l; simpl; [constructor|]. by apply insert_sorted_sorted. Qed.

Lemma insert_sorted_head x l :
  Forall (fun y => leb x y = true) l -> insert_sorted x l = x :: l.
Proof. destruct l as [|y l]; [done|]. simpl. inversion 1; subst. by rewrite H2. Qed.

(** Sorting keeps a sorted list, and dropping elements before or after sorting
    is the same. *)
Lemma sort_by_id l : StronglySorted (fun a b => leb a b = true) l -> sort_by l = l.
Proof.
  induction 1 as [|x l Hs IH Hf]; simpl; [done|]. rewrite IH. by apply insert_sorted_head.
Qed.

Lemma filter_insert_sorted (f : A -> bool) x l :
  StronglySorted (fun a b => leb a b = true) l ->
  List.filter f (insert_sorted x l) =
  if f x then insert_sorted x (List.filter f l) else List.filter f l.
Proof.
  induction 1 as [|y l Hs IH Hf]; simpl; [by destruct (f x)|].
  destruct (leb x y) eqn:E; simpl.
  - destruct (f x) eqn:Ex; [|by rewrite ?Ex].
    rewrite insert_sorted_head; [done|]. apply List.Forall_forall. intros z Hz.
    assert (In z (y :: l)) as [<-|Hin]; [|done|].
    { destruct (f y); [destruct Hz as [<-|Hz]; [by left|]|]; right; by apply List.filter_In in Hz as [? _]. }
    rewrite List.Forall_forall in Hf. eauto.
  - rewrite IH. destruct (f y) eqn:Ey, (f x); simpl; rewrite ?E; done.
Qed.

Lemma filter_sort_by (f : A -> bool) l : List.filter f (sort_by l) = sort_by (List.filter f l).
Proof.
  induction l as [|x l IH]; simpl; [done|].
  rewrite filter_insert_sorted by apply sort_by_sorted. rewrite IH. by destruct (f x).
Qed.
End Sort.

(** ** Adjacent pairs: [zip(l, l[1:])] *)

Definition adjacent {A} (l : list A) : list (A * A) := zip l (tail l).

Lemma adjacent_cons {A} (x y : A) l : adjacent (x :: y :: l) = (x, y) :: adjacent (y :: l).
Proof. done. Qed.

Lemma adjacent_Forall_Sorted {A} (R : A -> A -> Prop) (l : list A) :
  Forall (fun p => R (fst p) (snd p)) (adjacent l) <-> Sorted R l.
Proof.
  induction l as [|x l IH]; [split; constructor|].
  destruct l as [|y l].
  - split; repeat constructor.
  - rewrite adjacent_cons, Forall_cons_iff, IH. simpl. split.
    + intros [? ?]. constructor; [done|]. by constructor.
    + inversion 1 as [|? ? ? Hd]; subst. inversion Hd; subst. done.
Qed.

(** ** Strictly sorted lists *)

Lemma StronglySorted_snoc {A} (R : A -> A -> Prop) (l : list A) x :
  StronglySorted R l -> Forall (fun a => R a x) l -> StronglySorted R (l ++ [x]).
Proof.
  induction 1 as [|y l Hs IH Hf]; intros H; simpl; [repeat constructor|].
  inversion H; subst. constructor; [by apply IH|].
  apply Forall_app. split; [done|by constructor].
Qed.

Lemma sorted_lt_last (l : list Z) p :
  StronglySorted Z.lt l -> list.last l = Some p -> Forall (fun a => (a <= p)%Z) l.
Proof.
  intros Hs Hl. apply last_Some in Hl as [l' ->].
  induction l' as [|y l' IH]; simpl in *; [by repeat constructor|].
  inversion Hs as [|? ? Hs' Hf]; subst. constructor; [|by apply IH].
  apply Forall_app in Hf as [_ Hp]. inversion Hp; subst. lia.
Qed.

Lemma sorted_lt_snoc (l : list Z) x :
  StronglySorted Z.lt l ->
  (match list.last l with Some p => (x <=? p)%Z | None => false end) = false ->
  StronglySorted Z.lt (l ++ [x]).
Proof.
  intros Hs Hl. apply StronglySorted_snoc; [done|].
  destruct (list.last l) as [p|] eqn:E.
  - bool_hyps. eapply Forall_impl; [|by apply sorted_lt_last]. simpl. lia.
  - by apply last_None in E as ->.
Qed.

Create HintDb k8 discriminated.
#[export] Hint Resolve Permutation_refl insert_sorted_perm sort_by_perm : k8.
