(* ===== verification/Eff.v ===== *)
(** Stateful programs that may raise: a state is threaded through, and an
    exception keeps the state reached.  Instantiated with histories of
    operations ([World.v]) and with file systems ([Fs.v]). *)

From Stdlib Require Import ZArith Bool Ascii String Lia.
From stdpp Require Import base list strings option.
From S2P Require Import Prelude.

Open Scope string_scope.
Open Scope Z_scope.

Definition ST (St A : Type) : Type := St -> result A * St.

Section Monad.
Context {St : Type}.
Implicit Types h : St.

Definition ret {A} (a : A) : ST St A := fun h => (Ok a, h).
Definition throw {A} (c : exn_class) (msg : string) : ST St A := fun h => (Raise (Exn c msg), h).
Definition lift {A} (r : result A) : ST St A := fun h => (r, h).
Definition mbindM {A B} (m : ST St A) (k : A -> ST St B) : ST St B :=
  fun h => match m h with
           | (Ok a, h') => k a h'
           | (Raise e, h') => (Raise e, h')
           end.
(** [try: m except (cs) as e: handler e] *)
Definition try_except {A} (m : ST St A) (cs : list exn_class) (handler : exn -> ST St A) : ST St A :=
  fun h => match m h with
           | (Raise e, h') => if caught_by cs e then handler e h' else (Raise e, h')
           | r => r
           end.
(** [try: m finally: f]: an exception of [f] replaces the outcome of [m]. *)
Definition try_finally {A} (m : ST St A) (f : ST St unit) : ST St A :=
  fun h => let '(r, h1) := m h in
           match f h1 with
           | (Ok _, h2) => (r, h2)
           | (Raise e, h2) => (Raise e, h2)
           end.

End Monad.

Notation "'let!' x ':=' m 'in' k" := (mbindM m (fun x => k))
  (at level 10, x pattern, m at level 100, k at level 200,
   format "'let!'  x  ':='  m  'in' '//' k") : py_scope.
Notation "m '>>>' k" := (mbindM m (fun _ => k))
  (at level 199, right associativity, format "m  '>>>' '//' k") : py_scope.

Section Programs.
Context {St : Type}.
Implicit Types h : St.

(** [if b: raise c(msg)] *)
Definition throw_if (b : bool) (c : exn_class) (msg : string) : ST St unit :=
  if b then throw c msg else ret tt.

(** [for x in l: body] *)
Fixpoint forM {A} (l : list A) (body : A -> ST St unit) : ST St unit :=
  match l with
  | [] => ret tt
  | x :: l' => body x >>> forM l' body
  end.

(** [while ...: ...]: the body continues with [inl] a new state or leaves the
    loop with [inr] its result. *)
Fixpoint loop {S A} (fuel : nat) (body : S -> ST St (S + A)) (s : S) : ST St A :=
  match fuel with
  | O => throw FuelExhausted ""
  | S f =>
      let! r := body s in
      match r with
      | inl s' => loop f body s'
      | inr a => ret a
      end
  end.

Lemma bind_ret {A B} (a : A) (k : A -> ST St B) h : mbindM (ret a) k h = k a h.
Proof. done. Qed.

Lemma bindM_Ok {A B} (m : ST St A) (k : A -> ST St B) h y h' :
  mbindM m k h = (Ok y, h') <-> exists x h1, m h = (Ok x, h1) /\ k x h1 = (Ok y, h').
Proof.
  unfold mbindM. destruct (m h) as [[a|e] h1]; split; try done.
  - intros Hk. by exists a, h1.
  - by intros (x & h2 & [= -> ->] & ?).
  - by intros (x & h2 & ? & ?).
Qed.

Lemma liftM_Ok {A} (r : result A) h a h' : lift r h = (Ok a, h') <-> r = Ok a /\ h' = h.
Proof. unfold lift. split; [intros [= -> ->]|intros [-> ->]]; done. Qed.

Lemma retM_Ok {A} (x a : A) h h' : ret x h = (Ok a, h') <-> a = x /\ h' = h.
Proof. unfold ret. split; [intros [= -> ->]|intros [-> ->]]; done. Qed.

Lemma throw_if_Ok b c msg h u h' : throw_if b c msg h = (Ok u, h') <-> b = false /\ h' = h.
Proof. destruct b, u; unfold throw_if, throw, ret; split; naive_solver. Qed.

Lemma try_finally_Ok {A} (m : ST St A) f h a h' :
  try_finally m f h = (Ok a, h') <->
  exists h1, m h = (Ok a, h1) /\ f h1 = (Ok tt, h').
Proof.
  unfold try_finally. destruct (m h) as [r h1]. destruct (f h1) as [[[]|e] h2] eqn:E; split.
  - intros [= -> ->]. by exists h1.
  - intros (h3 & [= -> ->] & Hf). rewrite E in Hf. by injection Hf as ->.
  - done.
  - intros (h3 & [= -> ->] & Hf). rewrite E in Hf. done.
Qed.

Lemma try_except_Ok {A} (m : ST St A) cs f h a h' :
  try_except m cs f h = (Ok a, h') ->
  m h = (Ok a, h') \/ exists e h1, m h = (Raise e, h1) /\ caught_by cs e = true /\ f e h1 = (Ok a, h').
Proof.
  unfold try_except. destruct (m h) as [[x|e] h1]; [by left|].
  destruct (caught_by cs e) eqn:E; [|done]. right. eauto.
Qed.

End Programs.

(** Takes apart a hypothesis that says an effectful program returned. *)
Ltac run_step :=
  match goal with
  | H : mbindM _ _ _ = (Ok _, _) |- _ =>
      let x := fresh "x" in let h := fresh "h" in let Hx := fresh "Hx" in
      apply bindM_Ok in H as (x & h & Hx & H); cbv beta in H
  | H : lift _ _ = (Ok _, _) |- _ => apply liftM_Ok in H as [H ->]
  | H : ret _ _ = (Ok _, _) |- _ => apply retM_Ok in H as [-> ->]
  | H : throw_if _ _ _ _ = (Ok _, _) |- _ => apply throw_if_Ok in H as [H ->]
  | H : try_finally _ _ _ = (Ok _, _) |- _ =>
      let h := fresh "h" in let Hf := fresh "Hf" in apply try_finally_Ok in H as (h & H & Hf)
  | H : throw _ _ _ = (Ok _, _) |- _ => discriminate H
  end.
Ltac run_hyps := repeat run_step.
