(* ===== verification/PyStr.v ===== *)
(** The Python [str] and [int] methods the modelled code calls.

    A [str] is a [string] whose characters stand for the code points U+0000 to
    U+00FF; classification ([isspace], [isdigit], [\d]) and case follow the
    Unicode tables on that range.  [bytes] values use the same type, one
    character per byte. *)

From Stdlib Require Import ZArith Bool Ascii String Lia.
From stdpp Require Import base list strings option pretty.
From S2P Require Import Prelude.

Open Scope string_scope.
#[global] Arguments String.append !s1 s2 / : simpl nomatch.

(** ** Characters *)

Definition code (c : ascii) : Z := Z.of_N (N_of_ascii c).
Definition chr (n : Z) : ascii := ascii_of_N (Z.to_N n).
Definition char_str (c : ascii) : string := String c EmptyString.

Definition between (lo hi n : Z) : bool := (lo <=? n)%Z && (n <=? hi)%Z.

(** [0-9]; on this range also what [\d] matches. *)
Definition is_digit (c : ascii) : bool := between 48 57 (code c).
(** [str.isdigit] also accepts the superscripts two, three and one. *)
Definition isdigit_char (c : ascii) : bool :=
  is_digit c || (code c =? 178)%Z || (code c =? 179)%Z || (code c =? 185)%Z.
Definition is_space (c : ascii) : bool :=
  between 9 13 (code c) || between 28 32 (code c) || (code c =? 133)%Z || (code c =? 160)%Z.
Definition is_lower_az (c : ascii) : bool := between 97 122 (code c).
Definition is_upper_az (c : ascii) : bool := between 65 90 (code c).
Definition digit_val (c : ascii) : Z := (code c - 48)%Z.

(** [str.lower] on one character. *)
Definition lower_char (c : ascii) : ascii :=
  if is_upper_az c || (between 192 222 (code c) && negb (code c =? 215)%Z)
  then chr (code c + 32) else c.

(** [str.upper] on an ASCII character; other characters are left as they are,
    which the callers (tests for ASCII words) cannot observe. *)
Definition upper_char (c : ascii) : ascii :=
  if is_lower_az c then chr (code c - 32) else c.

Fixpoint str_map (f : ascii -> ascii) (s : string) : string :=
  match s with EmptyString => EmptyString | String c s' => String (f c) (str_map f s') end.
Fixpoint str_forallb (f : ascii -> bool) (s : string) : bool :=
  match s with EmptyString => true | String c s' => f c && str_forallb f s' end.

Definition str_lower : string -> string := str_map lower_char.
Definition str_upper : string -> string := str_map upper_char.
(** [s.isdigit()] *)
Definition str_isdigit (s : string) : bool :=
  negb (String.eqb s "") && str_forallb isdigit_char s.

Definition slen (s : string) : Z := Z.of_nat (String.length s).
Definition is_empty (s : string) : bool := String.eqb s "".

(** ** Slices *)

Fixpoint str_take (n : nat) (s : string) : string :=
  match n, s with
  | S n', String c s' => String c (str_take n' s')
  | _, _ => EmptyString
  end.
Fixpoint str_drop (n : nat) (s : string) : string :=
  match n, s with
  | S n', String _ s' => str_drop n' s'
  | _, _ => s
  end.
(** [s[:-n]] for [n >= 1] *)
Definition drop_last (n : nat) (s : string) : string := str_take (String.length s - n) s.
(** [s[-n:]] for [n >= 1] *)
Definition take_last (n : nat) (s : string) : string := str_drop (String.length s - n) s.

(** ** Searching *)

Definition startswith (p s : string) : bool := String.prefix p s.
Definition endswith (p s : string) : bool :=
  (String.length p <=? String.length s)%nat && String.eqb (take_last (String.length p) s) p.
Fixpoint contains (sub s : string) : bool :=
  String.prefix sub s ||
  match s with EmptyString => false | String _ s' => contains sub s' end.
(** [s.count(c)] for a one-character argument *)
Fixpoint count_char (c : ascii) (s : string) : Z :=
  match s with
  | EmptyString => 0
  | String d s' => (if Ascii.eqb c d then 1 else 0) + count_char c s'
  end%Z.

(** ** Splitting and joining *)

Fixpoint join (sep : string) (l : list string) : string :=
  match l with
  | [] => ""
  | [x] => x
  | x :: l' => x +:+ sep +:+ join sep l'
  end.

(** [s.split(sep)]: [skip] counts the separator's characters left to pass. *)
Fixpoint split_go (sep : string) (skip : nat) (s : string) : list string :=
  match s with
  | EmptyString => [""]
  | String c s' =>
      match skip with
      | S k => split_go sep k s'
      | O =>
          if String.prefix sep s
          then "" :: split_go sep (String.length sep - 1) s'
          else match split_go sep 0 s' with
               | h :: t => String c h :: t
               | [] => []
               end
      end
  end.
Definition split_on (sep s : string) : list string := split_go sep 0 s.

(** [s.split(sep, 1)[0]] is the head of the full split. *)
Definition split_head (sep s : string) : string := hd "" (split_on sep s).

(** [s.replace(old, new)] *)
Definition replace_all (old new s : string) : string := join new (split_on old s).
(** [s.replace(old, new, 1)] *)
Fixpoint replace_once (old new s : string) : string :=
  if String.prefix old s then new +:+ str_drop (String.length old) s
  else match s with
       | EmptyString => EmptyString
       | String c s' => String c (replace_once old new s')
       end.

(** [s.rpartition(sep)]: [None] when [sep] does not occur, else what precedes
    and follows the last occurrence. *)
Fixpoint rpartition (sep s : string) : option (string * string) :=
  match s with
  | EmptyString => if String.prefix sep "" then Some ("", "") else None
  | String c s' =>
      match rpartition sep s' with
      | Some (a, b) => Some (String c a, b)
      | None =>
          if String.prefix sep s then Some ("", str_drop (String.length sep) s) else None
      end
  end.

(** [s.split()] *)
Fixpoint words_go (s : string) : bool * list string :=
  (* whether the text starts inside a word, and the words *)
  match s with
  | EmptyString => (false, [])
  | String c s' =>
      let '(open, ws) := words_go s' in
      if is_space c then (false, ws)
      else match open, ws with
           | true, w :: ws' => (true, String c w :: ws')
           | _, _ => (true, char_str c :: ws)
           end
  end.
Definition words (s : string) : list string := snd (words_go s).

Definition is_linebreak (c : ascii) : bool :=
  between 10 13 (code c) || between 28 30 (code c) || (code c =? 133)%Z.
(** [s.splitlines()]: [\r\n] is one break and no empty last line is added. *)
Fixpoint splitlines_go (cur : option string) (s : string) : list string :=
  match s with
  | EmptyString => match cur with Some l => [l] | None => [] end
  | String c s' =>
      if is_linebreak c then
        default "" cur ::
        match (code c =? 13)%Z, s' with
        | true, String d s'' =>
            if (code d =? 10)%Z then splitlines_go None s'' else splitlines_go None s'
        | _, _ => splitlines_go None s'
        end
      else splitlines_go (Some (default "" cur +:+ char_str c)) s'
  end.
Definition splitlines (s : string) : list string := splitlines_go None s.

(** ** Stripping *)

Fixpoint lstrip (s : string) : string :=
  match s with
  | EmptyString => EmptyString
  | String c s' => if is_space c then lstrip s' else s
  end.
Fixpoint rstrip (s : string) : string :=
  match s with
  | EmptyString => EmptyString
  | String c s' =>
      match rstrip s' with
      | EmptyString => if is_space c then EmptyString else char_str c
      | r => String c r
      end
  end.
Definition strip (s : string) : string := rstrip (lstrip s).
(** [not s.strip()] *)
Definition is_blank (s : string) : bool := is_empty (strip s).

(** ** Integers *)

(** [str(z)] *)
Definition str_of_Z (z : Z) : string := pretty z.

Fixpoint digits_go (s : string) (acc : Z) : option Z :=
  match s with
  | EmptyString => Some acc
  | String c s' =>
      if is_digit c then digits_go s' (10 * acc + digit_val c)
      else if Ascii.eqb c "_" then
        match s' with
        | String d s'' =>
            if is_digit d then digits_go s'' (10 * acc + digit_val d) else None
        | EmptyString => None
        end
      else None
  end%Z.
Definition parse_nat (s : string) : option Z :=
  match s with
  | EmptyString => None
  | String c _ => if is_digit c then digits_go s 0 else None
  end.
(** [int(s)] in base ten: surrounding blanks, a sign, digits with single
    underscores between them; [None] where Python raises [ValueError]. *)
Definition py_int (s : string) : option Z :=
  match strip s with
  | String c s' =>
      if Ascii.eqb c "-" then Z.opp <$> parse_nat s'
      else if Ascii.eqb c "+" then parse_nat s'
      else parse_nat (String c s')
  | EmptyString => None
  end.

(** Two lowercase hexadecimal digits: [f"{n:02x}"] for a byte. *)
Definition hex_digit (n : Z) : ascii := if (n <? 10)%Z then chr (48 + n) else chr (87 + n).
Definition hex2 (n : Z) : string := String (hex_digit (n / 16)) (char_str (hex_digit (n mod 16))).
Definition hex_val (c : ascii) : option Z :=
  let n := code c in
  if between 48 57 n then Some (n - 48)%Z
  else if between 97 102 n then Some (n - 87)%Z
  else if between 65 70 n then Some (n - 55)%Z
  else None.
(** [0-9a-f] *)
Definition is_lower_hex (c : ascii) : bool :=
  between 48 57 (code c) || between 97 102 (code c).

(** [repr(s)]: single quotes unless the text has one and no double quote. *)
Definition repr_char (quote : ascii) (c : ascii) : string :=
  let n := code c in
  if Ascii.eqb c quote || (n =? 92)%Z then String "\" (char_str c)
  else if (n =? 10)%Z then "\n" else if (n =? 13)%Z then "\r" else if (n =? 9)%Z then "\t"
  else if (n <? 32)%Z || between 127 160 n || (n =? 173)%Z then "\x" +:+ hex2 n
  else char_str c.
Fixpoint concat_map_str (f : ascii -> string) (s : string) : string :=
  match s with EmptyString => "" | String c s' => f c +:+ concat_map_str f s' end.
Definition dquote : ascii := chr 34.
Definition squote : ascii := chr 39.
Definition repr_str (s : string) : string :=
  let q := if contains (char_str squote) s && negb (contains (char_str dquote) s)
           then dquote else squote in
  char_str q +:+ concat_map_str (repr_char q) s +:+ char_str q.
Definition newline : string := char_str (chr 10).

(** ** Lemmas *)

Lemma str_app_nil_r s : s +:+ "" = s.
Proof. induction s; simpl; congruence. Qed.

Lemma str_app_assoc a b c : (a +:+ b) +:+ c = a +:+ b +:+ c.
Proof. induction a; simpl; congruence. Qed.

Lemma length_str_app a b : String.length (a +:+ b) = (String.length a + String.length b)%nat.
Proof. induction a; simpl; congruence. Qed.

Lemma slen_app a b : slen (a +:+ b) = (slen a + slen b)%Z.
Proof. unfold slen. rewrite length_str_app. lia. Qed.

Lemma slen_nonneg s : (0 <= slen s)%Z.
Proof. unfold slen. lia. Qed.

Lemma prefix_app p s : String.prefix p (p +:+ s) = true.
Proof. induction p as [|c p IH]; [by destruct s|]. simpl. by destruct (ascii_dec c c). Qed.

Lemma prefix_true p s : String.prefix p s = true -> s = p +:+ str_drop (String.length p) s.
Proof.
  revert s. induction p as [|c p IH]; intros s; simpl; [done|].
  destruct s as [|d s]; [done|]. simpl. destruct (ascii_dec c d) as [->|]; [|done].
  intros H. f_equal. by apply IH.
Qed.

Lemma str_drop_app a b : str_drop (String.length a) (a +:+ b) = b.
Proof. induction a; simpl; [by destruct b|done]. Qed.

Lemma str_take_app a b : str_take (String.length a) (a +:+ b) = a.
Proof. induction a; simpl; congruence. Qed.

Lemma contains_prefix sub s : String.prefix sub s = true -> contains sub s = true.
Proof. destruct s; cbn [contains]; intros ->; done. Qed.

Lemma contains_app_r sub a b : contains sub b = true -> contains sub (a +:+ b) = true.
Proof. intros H. induction a; [done|]. cbn [contains String.append]. rewrite IHa. by rewrite orb_true_r. Qed.

Lemma contains_spec sub s : contains sub s = true <-> exists a b, s = a +:+ sub +:+ b.
Proof.
  split.
  - induction s as [|c s IH]; cbn [contains]; rewrite orb_true_iff.
    + intros [H|]; [|done]. apply prefix_true in H. exists "". eauto.
    + intros [H|H].
      * apply prefix_true in H. exists "". eauto.
      * destruct (IH H) as (a & b & ->). by exists (String c a), b.
  - intros (a & b & ->). apply contains_app_r, contains_prefix, prefix_app.
Qed.

(** Cutting a separator out and joining with it again gives the text back. *)
Lemma split_go_join sep skip s :
  sep <> "" -> join sep (split_go sep skip s) = str_drop skip s /\ split_go sep skip s <> [].
Proof.
  intros Hsep. revert skip. induction s as [|c s IH]; intros skip; [by destruct skip|].
  destruct skip as [|k]; [|apply IH].
  cbn [split_go]. destruct (String.prefix sep (String c s)) eqn:E.
  - destruct (IH (String.length sep - 1)%nat) as [HJ Hne]. split; [|done].
    destruct (split_go sep _ s) as [|h t] eqn:Es; [done|].
    change (join sep ("" :: h :: t)) with (sep +:+ join sep (h :: t)). rewrite HJ.
    apply prefix_true in E.
    destruct sep as [|d sep]; [done|]. simpl in *. rewrite Nat.sub_0_r. by rewrite E at 1.
  - destruct (IH 0%nat) as [HJ Hne]. destruct (split_go sep 0 s) as [|h t]; [done|].
    split; [|done]. change (str_drop 0 (String c s)) with (String c (str_drop 0 s)).
    rewrite <- HJ. by destruct t.
Qed.

Lemma split_on_join sep s : sep <> "" -> join sep (split_on sep s) = s.
Proof. intros H. apply (split_go_join sep 0 s H). Qed.

Lemma endswith_app a p : endswith p (a +:+ p) = true.
Proof.
  unfold endswith, take_last. rewrite length_str_app, Nat.add_sub, str_drop_app, String.eqb_refl.
  rewrite andb_true_r. apply Nat.leb_le. lia.
Qed.

Lemma drop_last_app a p : drop_last (String.length p) (a +:+ p) = a.
Proof. unfold drop_last. by rewrite length_str_app, Nat.add_sub, str_take_app. Qed.

Lemma endswith_char s c :
  endswith (char_str c) s = true -> s = drop_last 1 s +:+ char_str c.
Proof.
  unfold endswith, drop_last, take_last, char_str. intros H. bool_hyps.
  rewrite <- H0. simpl. clear H H0.
  generalize (String.length s - 1)%nat as n. clear c.
  intros n. revert n. induction s as [|c s IH]; intros [|n]; simpl; [done..|].
  by rewrite <- IH.
Qed.

(** *** Decimal printing and [int] are inverse *)

Lemma digits_char_spec (x : N) :
  (x < 10)%N -> is_digit (pretty_N_char x) = true /\ digit_val (pretty_N_char x) = Z.of_N x.
Proof.
  intros H.
  assert (x = 0 \/ x = 1 \/ x = 2 \/ x = 3 \/ x = 4 \/ x = 5 \/ x = 6 \/ x = 7 \/ x = 8 \/ x = 9)%N
    as Hx by lia.
  repeat destruct Hx as [->|Hx]; try subst x; by split.
Qed.

Definition head_digit (s : string) : bool :=
  match s with String c _ => is_digit c | EmptyString => false end.

Lemma digits_go_pretty (x : N) s :
  digits_go (pretty_N_go x s) 0 = digits_go s (Z.of_N x) /\
  ((0 < x)%N \/ head_digit s = true -> head_digit (pretty_N_go x s) = true) /\
  (str_forallb is_digit s = true -> str_forallb is_digit (pretty_N_go x s) = true).
Proof.
  revert s. induction (N.lt_wf_0 x) as [x _ IH]. intros s.
  destruct (decide (x = 0)%N) as [->|Hx].
  { rewrite pretty_N_go_0. split; [done|]. split; [intros [|]; [lia|done]|done]. }
  rewrite pretty_N_go_step by lia.
  destruct (digits_char_spec (x `mod` 10)) as [Hd Hv]; [by apply N.mod_lt|].
  destruct (IH (x `div` 10)%N ltac:(apply N.div_lt; lia)
              (String (pretty_N_char (x `mod` 10)) s)) as (IH1 & IH2 & IH3).
  split; [|split].
  - rewrite IH1. cbn [digits_go]. rewrite Hd, Hv. f_equal.
    pose proof (N.div_mod x 10 ltac:(lia)). lia.
  - intros _. apply IH2. right. exact Hd.
  - intros Hs. apply IH3. simpl. by rewrite Hd, Hs.
Qed.

Lemma pretty_N_digits (x : N) :
  parse_nat (pretty x) = Some (Z.of_N x) /\ str_forallb is_digit (pretty x) = true /\
  head_digit (pretty x) = true.
Proof.
  unfold pretty, pretty_N. case_decide as E; [by subst|].
  destruct (digits_go_pretty x "") as (H1 & H2 & H3).
  assert (head_digit (pretty_N_go x "") = true) as Hh by (apply H2; lia).
  split; [|by split; [apply H3|]].
  unfold parse_nat. destruct (pretty_N_go x "") as [|c t] eqn:Ep; [done|].
  simpl in Hh. rewrite Hh. rewrite H1. done.
Qed.

Lemma digit_not_space c : is_digit c = true -> is_space c = false.
Proof. unfold is_digit, is_space, between. intros H. bool_hyps. lia. Qed.

Lemma lstrip_id s : str_forallb (fun c => negb (is_space c)) s = true -> lstrip s = s.
Proof. destruct s as [|c s]; simpl; [done|]. intros H. bool_hyps. by rewrite H. Qed.

Lemma rstrip_id s : str_forallb (fun c => negb (is_space c)) s = true -> rstrip s = s.
Proof.
  induction s as [|c s IH]; simpl; [done|]. intros H. bool_hyps.
  rewrite (IH H0). rewrite H. by destruct s.
Qed.

Lemma strip_id s : str_forallb (fun c => negb (is_space c)) s = true -> strip s = s.
Proof. intros H. unfold strip. by rewrite lstrip_id, rstrip_id. Qed.

Lemma str_forallb_impl (f g : ascii -> bool) s :
  (forall c, f c = true -> g c = true) -> str_forallb f s = true -> str_forallb g s = true.
Proof. intros Hfg. induction s; simpl; [done|]. intros H. bool_hyps. rewrite Hfg, IHs; auto. Qed.

Lemma str_of_Z_nonneg z : (0 <= z)%Z -> str_of_Z z = pretty (Z.to_N z).
Proof. intros H. unfold str_of_Z. by destruct z. Qed.

Lemma str_of_Z_digits z : (0 <= z)%Z -> str_forallb is_digit (str_of_Z z) = true.
Proof. intros H. rewrite str_of_Z_nonneg by done. apply pretty_N_digits. Qed.

Lemma py_int_digits s z :
  head_digit s = true -> str_forallb is_digit s = true -> parse_nat s = Some z -> py_int s = Some z.
Proof.
  intros Hh Hd Hp. unfold py_int. rewrite strip_id.
  - destruct s as [|c s]; [done|]. simpl in Hh.
    assert (Ascii.eqb c "-" = false /\ Ascii.eqb c "+" = false) as [-> ->]; [|done].
    split; apply Ascii.eqb_neq; intros ->; done.
  - eapply str_forallb_impl; [|exact Hd]. intros c Hc. by rewrite digit_not_space.
Qed.

Lemma py_int_str_of_Z z : (0 <= z)%Z -> py_int (str_of_Z z) = Some z.
Proof.
  intros H. rewrite str_of_Z_nonneg by done.
  destruct (pretty_N_digits (Z.to_N z)) as (H1 & H2 & H3).
  apply py_int_digits; [done..|]. rewrite H1. f_equal. lia.
Qed.

(** A positive number prints without a leading zero. *)
Lemma pretty_head19 (x : N) s :
  (0 < x)%N ->
  match pretty_N_go x s with
  | String c _ => between 49 57 (code c) = true
  | EmptyString => False
  end.
Proof.
  revert s. induction (N.lt_wf_0 x) as [x _ IH]. intros s Hx.
  rewrite pretty_N_go_step by lia.
  destruct (decide (x < 10)%N) as [Hlt|].
  - rewrite (N.div_small x 10), pretty_N_go_0, (N.mod_small x 10) by lia.
    destruct (digits_char_spec x) as [_ Hv]; [lia|]. unfold digit_val in Hv.
    unfold between. apply andb_true_iff. split; apply Z.leb_le; lia.
  - apply IH; [apply N.div_lt; lia|]. apply N.div_str_pos. lia.
Qed.

Lemma str_of_Z_head19 z :
  (0 < z)%Z ->
  match str_of_Z z with
  | String c t => between 49 57 (code c) && str_forallb is_digit t = true
  | EmptyString => False
  end.
Proof.
  intros Hz. pose proof (str_of_Z_digits z ltac:(lia)) as Hd.
  rewrite str_of_Z_nonneg in * by lia. unfold pretty, pretty_N in *.
  case_decide as E; [lia|]. pose proof (pretty_head19 (Z.to_N z) "" ltac:(lia)) as Hh.
  destruct (pretty_N_go (Z.to_N z) "") as [|c t]; [done|]. simpl in Hd. bool_hyps.
  by rewrite Hh.
Qed.

Lemma str_forallb_app f a b : str_forallb f (a +:+ b) = str_forallb f a && str_forallb f b.
Proof. induction a; simpl; [done|]. by rewrite IHa, andb_assoc. Qed.

#[export] Hint Resolve prefix_app slen_nonneg str_app_assoc py_int_str_of_Z : k8.

(** ** The order of strings *)

Lemma ascii_compare_trans a b c o :
  Ascii.compare a b = o -> Ascii.compare b c = o -> o <> Eq -> Ascii.compare a c = o.
Proof.
  unfold Ascii.compare. intros H1 H2 Ho. destruct o; [done| |].
  - rewrite N.compare_lt_iff in *. lia.
  - rewrite N.compare_gt_iff in *. lia.
Qed.

Lemma string_leb_trans a b c :
  String.leb a b = true -> String.leb b c = true -> String.leb a c = true.
Proof.
  unfold String.leb. revert b c. induction a as [|x a IH]; intros b c; [by destruct c|].
  destruct b as [|y b]; [done|]. destruct c as [|z c]; simpl; [done|].
  destruct (Ascii.compare x y) eqn:E1; [|..]; [| |done].
  - apply Ascii.compare_eq_iff in E1 as ->. destruct (Ascii.compare y z); [apply IH|done|done].
  - intros _. destruct (Ascii.compare y z) eqn:E2; [| |done].
    + apply Ascii.compare_eq_iff in E2 as ->. by rewrite E1.
    + intros _. by rewrite (ascii_compare_trans x y z Lt).
Qed.

(** ** Encoding *)

(** UTF-8 on the code points of the model: a text with code points above U+00FF
    counts as one that does not decode. *)
Fixpoint utf8_encode (s : string) : string :=
  match s with
  | EmptyString => ""
  | String c s' =>
      if (code c <? 128)%Z then String c (utf8_encode s')
      else String (chr (192 + code c / 64)) (String (chr (128 + code c mod 64)) (utf8_encode s'))
  end.
Fixpoint utf8_decode (s : string) : option string :=
  match s with
  | EmptyString => Some ""
  | String c s' =>
      if (code c <? 128)%Z then String c <$> utf8_decode s'
      else match s' with
           | String c2 s'' =>
               if between 194 195 (code c) && between 128 191 (code c2)
               then String (chr ((code c - 192) * 64 + (code c2 - 128))) <$> utf8_decode s''
               else None
           | EmptyString => None
           end
  end.
