(* ===== verification/PyText.v ===== *)
(** Splitting, cutting and replacing at one character; URLs and paths. *)

From Stdlib Require Import ZArith Bool Ascii String Lia.
From stdpp Require Import base list strings option.
From S2P Require Import Prelude PyStr.

Open Scope string_scope.

(** The character does not occur. *)
Definition without (c : ascii) (s : string) : bool := str_forallb (fun d => negb (Ascii.eqb c d)) s.

Lemma without_app c a b : without c (a +:+ b) = without c a && without c b.
Proof. apply str_forallb_app. Qed.

Lemma str_forallb_concat f g s : (forall c, str_forallb f (g c) = true) -> str_forallb f (concat_map_str g s) = true.
Proof. intros Hg. induction s as [|c s IH]; [done|]. cbn [concat_map_str]. by rewrite str_forallb_app, Hg, IH. Qed.

Lemma str_forallb_concat_in f g h s :
  (forall c, h c = true -> str_forallb f (g c) = true) -> str_forallb h s = true -> str_forallb f (concat_map_str g s) = true.
Proof.
  intros Hg. induction s as [|c s IH]; [done|]. cbn [concat_map_str str_forallb]. intros [Hc Hs]%andb_true_iff.
  by rewrite str_forallb_app, (Hg c Hc), IH.
Qed.

(** ** [split] and [partition] *)

Lemma prefix_char c d s : String.prefix (char_str c) (String d s) = Ascii.eqb c d.
Proof. cbn. destruct (Ascii.eqb_spec c d), (ascii_dec c d); by destruct s. Qed.

Lemma split_on_none c s : without c s = true -> split_on (char_str c) s = [s].
Proof.
  unfold split_on. induction s as [|d s IH]; [done|]. intros [Hd Hs]%andb_true_iff. cbn [split_go].
  apply negb_true_iff in Hd. by rewrite prefix_char, Hd, IH.
Qed.

Lemma split_on_cons c a b : without c a = true -> split_on (char_str c) (a +:+ char_str c +:+ b) = a :: split_on (char_str c) b.
Proof.
  unfold split_on. induction a as [|d a IH].
  - intros _. cbn [append]. change (char_str c +:+ b) with (String c b). cbn [split_go].
    by rewrite prefix_char, Ascii.eqb_refl.
  - intros [Hd Ha]%andb_true_iff. apply negb_true_iff in Hd. cbn [append split_go]. by rewrite prefix_char, Hd, IH.
Qed.

Lemma split_on_joined c l : l <> [] -> Forall (fun s => without c s = true) l -> split_on (char_str c) (join (char_str c) l) = l.
Proof.
  intros Hl Hf. induction Hf as [|s l Hs Hf IH]; [done|]. destruct l as [|s' l]; [by apply split_on_none|].
  change (join (char_str c) (s :: s' :: l)) with (s +:+ char_str c +:+ join (char_str c) (s' :: l)).
  by rewrite split_on_cons, IH.
Qed.

(** ** [replace] of one character *)

Lemma concat_map_concat f g s : concat_map_str f (concat_map_str g s) = concat_map_str (fun c => concat_map_str f (g c)) s.
Proof.
  induction s as [|c s IH]; [done|]. cbn [concat_map_str]. rewrite <- IH.
  generalize (concat_map_str g s). intros t. induction (g c) as [|d u IHu]; [done|].
  cbn [append concat_map_str]. by rewrite IHu, str_app_assoc.
Qed.

Lemma concat_map_ext f g s : (forall c, f c = g c) -> concat_map_str f s = concat_map_str g s.
Proof. intros E. induction s as [|c s IH]; [done|]. cbn [concat_map_str]. by rewrite E, IH. Qed.

Lemma replace_char c new s :
  replace_all (char_str c) new s = concat_map_str (fun d => if Ascii.eqb c d then new else char_str d) s.
Proof.
  unfold replace_all, split_on. induction s as [|d s IH]; [done|]. cbn [split_go concat_map_str].
  rewrite prefix_char. destruct (split_go_join (char_str c) 0 s) as [_ Hne]; [done|].
  destruct (Ascii.eqb c d); cbn [char_str String.length Nat.sub]; fold (char_str c); rewrite <- IH.
  - by destruct (split_go (char_str c) 0 s).
  - destruct (split_go (char_str c) 0 s) as [|h [|h' t]]; done.
Qed.

(** ** Lines *)

Definition one_line (s : string) : bool := str_forallb (fun c => negb (is_linebreak c)) s.

Lemma splitlines_go_line l rest : forall cur, one_line l = true ->
  splitlines_go cur (l +:+ newline +:+ rest) = (default "" cur +:+ l) :: splitlines_go None rest.
Proof.
  induction l as [|c l IH]; intros cur Hl.
  - rewrite str_app_nil_r. cbn [append]. change (newline +:+ rest) with (String (chr 10) rest).
    cbn [splitlines_go]. by destruct rest.
  - apply andb_true_iff in Hl as [Hc Hl]. apply negb_true_iff in Hc. cbn [append splitlines_go]. rewrite Hc, IH by done.
    f_equal. exact (str_app_assoc (default "" cur) (char_str c) l).
Qed.

(** The lines of a text that was written line by line. *)
Lemma splitlines_lines ls : ls <> [] -> Forall (fun l => one_line l = true) ls -> splitlines (join newline ls +:+ newline) = ls.
Proof.
  unfold splitlines. intros Hn Hf. induction Hf as [|l ls Hl Hf IH]; [done|]. destruct ls as [|l' ls].
  - cbn [join]. rewrite <- (str_app_nil_r newline). by rewrite splitlines_go_line.
  - change (join newline (l :: l' :: ls)) with (l +:+ newline +:+ join newline (l' :: ls)).
    rewrite !str_app_assoc, splitlines_go_line by done. by rewrite IH.
Qed.

Lemma strip_blank_before s : str_forallb (fun c => negb (is_space c)) s = true -> strip (" " +:+ s) = s.
Proof. intros H. unfold strip. cbn [append lstrip]. rewrite (lstrip_id s H). by apply rstrip_id. Qed.

Lemma is_prefix_app c s t : startswith (char_str c) s = true -> startswith (char_str c) (s +:+ t) = true.
Proof. destruct s as [|d s]; [done|]. unfold startswith. cbn [append]. by rewrite !prefix_char. Qed.

(** ** Text without blanks *)

Open Scope Z_scope.

Lemma rstrip_newline s : str_forallb (fun c => negb (is_space c)) s = true -> s ≠ "" -> rstrip (s +:+ newline) = s.
Proof.
  induction s as [|c s IH]; [done|]. cbn [str_forallb]. intros [Hc Hs]%andb_prop _.
  change (String c s +:+ newline) with (String c (s +:+ newline)). cbn [rstrip]. destruct s as [|d s].
  - cbn. by destruct (is_space c).
  - rewrite IH by done. done.
Qed.
Lemma strip_newline s : str_forallb (fun c => negb (is_space c)) s = true -> s ≠ "" -> strip (s +:+ newline) = s.
Proof.
  intros Hs Hne. unfold strip. destruct s as [|c s]; [done|]. pose proof Hs as Hs'. cbn [str_forallb] in Hs'. apply andb_prop in Hs' as [Hc _].
  change (String c s +:+ newline) with (String c (s +:+ newline)). cbn [lstrip]. apply negb_true_iff in Hc. rewrite Hc.
  change (String c (s +:+ newline)) with (String c s +:+ newline). by apply rstrip_newline.
Qed.

Lemma digits_no_space s : str_forallb is_digit s = true -> str_forallb (fun c => negb (is_space c)) s = true.
Proof. apply str_forallb_impl. intros c Hc. by rewrite digit_not_space. Qed.
Lemma int_str z : str_forallb (fun c => negb (is_space c)) (str_of_Z z) = true /\ str_of_Z z ≠ "" /\ py_int (str_of_Z z) = Some z.
Proof.
  destruct (Z_le_gt_dec 0 z) as [Hz|Hz].
  - split; [apply digits_no_space, str_of_Z_digits; lia|]. split; [|by apply py_int_str_of_Z].
    intros E. pose proof (py_int_str_of_Z z Hz) as Ep. by rewrite E in Ep.
  - assert (str_of_Z z = String "-" (str_of_Z (- z))) as E by (by destruct z).
    assert (str_forallb (fun c => negb (is_space c)) (str_of_Z (- z)) = true) as Hs by (apply digits_no_space, str_of_Z_digits; lia).
    pose proof (py_int_str_of_Z (- z) ltac:(lia)) as Ep. rewrite E.
    assert (str_forallb (fun c => negb (is_space c)) (String "-" (str_of_Z (- z))) = true) as Hm by (cbn [str_forallb]; by rewrite Hs).
    split; [done|]. split; [done|]. unfold py_int. rewrite strip_id by done.
    change (Ascii.eqb "-" "-") with true. cbv iota.
    assert (parse_nat (str_of_Z (- z)) = Some (- z)) as ->; [|cbn; f_equal; lia].
    rewrite str_of_Z_nonneg by lia. destruct (pretty_N_digits (Z.to_N (- z))) as (H1 & _ & _). rewrite H1. f_equal. lia.
Qed.
Lemma one_line_app s t : one_line (s +:+ t) = one_line s && one_line t.
Proof. apply str_forallb_app. Qed.
Lemma one_line_no_space s : str_forallb (fun c => negb (is_space c)) s = true -> one_line s = true.
Proof.
  apply str_forallb_impl. intros c. destruct c as [[] [] [] [] [] [] [] []]; vm_compute; congruence.
Qed.

Lemma rstrip_closed s c : is_space c = false -> rstrip (s +:+ char_str c) = s +:+ char_str c.
Proof.
  intros Hc. induction s as [|d s IH]; [cbn; by rewrite Hc|]. change (String d s +:+ char_str c) with (String d (s +:+ char_str c)).
  cbn [rstrip]. rewrite IH. by destruct s.
Qed.

(** ** [urllib.parse.urlsplit] and paths.

    Scheme, network location and path of a URL; the query and fragment are cut
    off.  The stripping of control characters, the check for NFKC lookalikes
    and the check that a bracketed host is an IP address are left out. *)

Fixpoint cut_at (stop : ascii -> bool) (s : string) : string * string :=
  match s with
  | EmptyString => ("", "")
  | String c s' => if stop c then ("", s) else let '(a, b) := cut_at stop s' in (String c a, b)
  end.

Definition is_scheme_char (c : ascii) : bool :=
  is_lower_az c || is_upper_az c || is_digit c || mem_string (char_str c) ["+"; "-"; "."].

(** [s.partition(c)]: what precedes the first [c], whether there is one, what
    follows it. *)
Definition partition_char (c : ascii) (s : string) : string * bool * string :=
  let '(a, b) := cut_at (Ascii.eqb c) s in (a, negb (is_empty b), str_drop 1 b).

Definition split_scheme (url : string) : string * string :=
  let '(a, found, rest) := partition_char ":" url in
  match a with
  | String c _ =>
      if found && (is_lower_az c || is_upper_az c) && str_forallb is_scheme_char a
      then (str_lower a, rest) else ("", url)
  | EmptyString => ("", url)
  end.

Record split_url : Type := { scheme : string; netloc : string; url_path : string }.

Definition urlsplit (url : string) : result split_url :=
  let '(sch, rest) := split_scheme url in
  let stop c := mem_string (char_str c) ["/"; "?"; "#"] in
  let '(loc, rest) := if startswith "//" rest then cut_at stop (str_drop 2 rest) else ("", rest) in
  raise_if (xorb (contains "[" loc) (contains "]" loc)) ValueError "Invalid IPv6 URL" ;;;
  let '(rest, _, _) := partition_char "#" rest in
  let '(path, _, _) := partition_char "?" rest in
  Ok {| scheme := sch; netloc := loc; url_path := path |}.

(** The host and port texts of a network location. *)
Definition host_port (loc : string) : string * string :=
  let info := match rpartition "@" loc with Some (_, i) => i | None => loc end in
  let '(_, have_open_br, bracketed) := partition_char "[" info in
  if have_open_br then
    let '(host, _, rest) := partition_char "]" bracketed in
    let '(_, _, port) := partition_char ":" rest in (host, port)
  else let '(host, _, port) := partition_char ":" info in (host, port).
(** [.hostname], empty for [None]; a zone keeps its case. *)
Definition hostname (u : split_url) : string :=
  let '(h, found, zone) := partition_char "%" (fst (host_port (netloc u))) in
  str_lower h +:+ (if found then "%" +:+ zone else "").
(** [.port]: [None] without a port. *)
Definition port (u : split_url) : result (option Z) :=
  let p := snd (host_port (netloc u)) in
  if is_empty p then Ok None
  else if str_forallb is_digit p then
    match py_int p with
    | Some n => if n <=? 65535 then Ok (Some n) else Raise (Exn ValueError "Port out of range 0-65535")
    | None => Raise (Exn ValueError "Port could not be cast to integer value")
    end
  else Raise (Exn ValueError "Port could not be cast to integer value").


(** ** [pathlib.Path] of a text *)

(** The parts of a relative path; empty ones and [.] are dropped. *)
Definition path_parts (s : string) : list string :=
  List.filter (fun p => negb (is_empty p || String.eqb p ".")) (split_on "/" s).
Definition path_absolute (s : string) : bool := startswith "/" s.
