(* ===== verification/PyFloat.v ===== *)
(** Python [float]: IEEE 754 binary64 with round-to-nearest-even.

    Values and arithmetic are the Standard Library's executable specification
    [SpecFloat] at 53 bits of precision; this file adds the conversions,
    exceptions and text formats of the Python type. *)

From Stdlib Require Import ZArith Bool Ascii String Lia SpecFloat.
From stdpp Require Import base list strings option.
From S2P Require Import Prelude PyStr.

Open Scope string_scope.
Open Scope Z_scope.

Definition float : Type := spec_float.
Definition prec : Z := 53.
Definition emax : Z := 1024.

#[export] Instance float_eq_dec : EqDecision float.
Proof. unfold float. solve_decision. Defined.

Definition fadd : float -> float -> float := SFadd prec emax.
Definition fsub : float -> float -> float := SFsub prec emax.
Definition fmul : float -> float -> float := SFmul prec emax.
Definition fdiv_ieee : float -> float -> float := SFdiv prec emax.
Definition fopp : float -> float := SFopp.
Definition fabs : float -> float := SFabs.
Definition fsqrt : float -> float := SFsqrt prec emax.

Definition feqb : float -> float -> bool := SFeqb.
Definition fltb : float -> float -> bool := SFltb.
Definition fleb : float -> float -> bool := SFleb.

Definition is_nan (x : float) : bool := match x with S754_nan => true | _ => false end.
(** [math.isfinite] *)
Definition isfinite (x : float) : bool :=
  match x with S754_zero _ | S754_finite _ _ _ => true | _ => false end.

Definition fzero : float := S754_zero false.

(** The correctly rounded quotient of two integers, [d > 0]. *)
Definition ratio_to_float (n d : Z) : float :=
  match n with
  | Z0 => fzero
  | Zpos p =>
      let '(q, e, l) := SFdiv_core_binary prec emax (Zpos p) 0 d 0 in
      binary_round_aux prec emax false q e l
  | Zneg p =>
      let '(q, e, l) := SFdiv_core_binary prec emax (Zpos p) 0 d 0 in
      binary_round_aux prec emax true q e l
  end.

(** A decimal literal [n/d] of the source, [d] a power of ten. *)
Definition flit (n d : Z) : float := ratio_to_float n d.

(** [float(n)] for an integer: exact or rounded to nearest, never infinite. *)
Definition float_of_Z (n : Z) : result float :=
  let x := binary_normalize prec emax n 0 false in
  if isfinite x then Ok x else Raise (Exn OverflowError "int too large to convert to float").

(** [a / b] on integers. *)
Definition truediv (a b : Z) : result float :=
  if b =? 0 then Raise (Exn ZeroDivisionError "division by zero")
  else let x := if 0 <? b then ratio_to_float a b else ratio_to_float (- a) (- b) in
       if isfinite x then Ok x
       else Raise (Exn OverflowError "integer division result too large for a float").

Lemma truediv_finite a b x : truediv a b = Ok x -> isfinite x = true.
Proof. unfold truediv. destruct (b =? 0); [done|]. destruct (isfinite _) eqn:E; [|done]. by intros [= <-]. Qed.

(** [x / y] on floats. *)
Definition fdiv (x y : float) : result float :=
  match y with
  | S754_zero _ => Raise (Exn ZeroDivisionError "float division by zero")
  | _ => Ok (fdiv_ieee x y)
  end.

(** [int(x)]: truncation towards zero. *)
Definition int_of_float (x : float) : result Z :=
  match x with
  | S754_nan => Raise (Exn ValueError "cannot convert float NaN to integer")
  | S754_infinity _ => Raise (Exn OverflowError "cannot convert float infinity to integer")
  | S754_zero _ => Ok 0
  | S754_finite s m e =>
      let a := if 0 <=? e then Zpos m * 2 ^ e else Zpos m / 2 ^ (- e) in
      Ok (if s then - a else a)
  end.

(** Exact comparison of a float with an integer, as Python does it. *)
Definition fcompare_Z (x : float) (n : Z) : option comparison :=
  match x with
  | S754_nan => None
  | S754_infinity s => Some (if s then Lt else Gt)
  | S754_zero _ => Some (0 ?= n)
  | S754_finite s m e =>
      let v := cond_Zopp s (Zpos m) in
      Some (if 0 <=? e then v * 2 ^ e ?= n else v ?= n * 2 ^ (- e))
  end.
Definition fleb_Z (x : float) (n : Z) : bool :=
  match fcompare_Z x n with Some (Lt | Eq) => true | _ => false end.
Definition fltb_Z (x : float) (n : Z) : bool :=
  match fcompare_Z x n with Some Lt => true | _ => false end.
Definition fgeb_Z (x : float) (n : Z) : bool :=
  match fcompare_Z x n with Some (Gt | Eq) => true | _ => false end.
Definition fgtb_Z (x : float) (n : Z) : bool :=
  match fcompare_Z x n with Some Gt => true | _ => false end.

(** [min(a, b)] and [max(a, b)]: the first argument wins unless the second
    compares strictly better, so a NaN in second place is dropped. *)
Definition fmin (a b : float) : float := if fltb b a then b else a.
Definition fmax (a b : float) : float := if fltb a b then b else a.

(** ** Text formats *)

(** Round half to even of [n/d], [n >= 0], [d > 0]. *)
Definition div_half_even (n d : Z) : Z :=
  let q := n / d in
  match 2 * (n mod d) ?= d with
  | Lt => q
  | Gt => q + 1
  | Eq => if Z.even q then q else q + 1
  end.

(** Numerator and denominator of the magnitude [m * 2^e]. *)
Definition magnitude (m : positive) (e : Z) : Z * Z :=
  if 0 <=? e then (Zpos m * 2 ^ e, 1) else (Zpos m, 2 ^ (- e)).

Fixpoint zeros (n : nat) : string :=
  match n with O => "" | S k => String "0" (zeros k) end.
(** [str(z)] padded with zeros on the left to [n] characters, [z >= 0]. *)
Definition pad0 (n : nat) (z : Z) : string :=
  let s := str_of_Z z in zeros (n - String.length s) +:+ s.

(** [f"{x:.nf}"] *)
Definition format_f (n : nat) (x : float) : string :=
  let body (q : Z) : string :=
    match n with
    | O => str_of_Z q
    | _ => str_of_Z (q / 10 ^ Z.of_nat n) +:+ "." +:+ pad0 n (q mod 10 ^ Z.of_nat n)
    end in
  match x with
  | S754_nan => "nan"
  | S754_infinity s => if s then "-inf" else "inf"
  | S754_zero s => (if s then "-" else "") +:+ body 0
  | S754_finite s m e =>
      let '(a, d) := magnitude m e in
      (if s then "-" else "") +:+ body (div_half_even (a * 10 ^ Z.of_nat n) d)
  end.
(** [f"{x:.n%}"] *)
Definition format_pct (n : nat) (x : float) : string :=
  format_f n (fmul x (flit 100 1)) +:+ "%".

(** [floor(log10(n/d))] for positive [n] and [d]; binary64 magnitudes lie
    between 10^-324 and 10^309, so the fuel of the two searches is enough. *)
Fixpoint log10_up (fuel : nat) (n d k : Z) : Z :=
  match fuel with
  | O => k
  | S f => if 10 * d <=? n then log10_up f n (10 * d) (k + 1) else k
  end.
Fixpoint log10_down (fuel : nat) (n d k : Z) : Z :=
  match fuel with
  | O => k
  | S f => if n <? d then log10_down f (10 * n) d (k - 1) else k
  end.
Definition ilog10 (n d : Z) : Z :=
  if d <=? n then log10_up 330 n d 0 else log10_down 330 n d 0.

(** [n/d * 10^k] as a fraction. *)
Definition scale10 (n d k : Z) : Z * Z :=
  if 0 <=? k then (n * 10 ^ k, d) else (n, d * 10 ^ (- k)).
(** The float nearest to [q * 10^k]. *)
Definition float_of_dec (q k : Z) : float :=
  let '(n, d) := scale10 q 1 k in ratio_to_float n d.

(** The shortest digit string that reads back as [x > 0]: [Some (q, k)] for
    [q * 10^k]; of two candidates of one length the nearer wins. *)
Definition try_digits (x : float) (n d : Z) (k : Z) : option (Z * Z) :=
  let '(a, b) := scale10 n d (- k) in
  let q0 := div_half_even a b in
  let q1 := a / b in
  let q2 := q1 + 1 in
  if bool_decide (float_of_dec q0 k = x) then Some (q0, k)
  else if bool_decide (float_of_dec q1 k = x) then Some (q1, k)
  else if bool_decide (float_of_dec q2 k = x) then Some (q2, k)
  else None.
Fixpoint shortest_go (fuel : nat) (x : float) (n d k : Z) : Z * Z :=
  match fuel with
  | O => (0, 0)
  | S f =>
      match try_digits x n d k with
      | Some r => r
      | None => shortest_go f x n d (k - 1)
      end
  end.

Fixpoint strip_zeros_go (fuel : nat) (q k : Z) : Z * Z :=
  match fuel with
  | O => (q, k)
  | S f => if (q mod 10 =? 0) && negb (q =? 0) then strip_zeros_go f (q / 10) (k + 1) else (q, k)
  end.

(** Exponent notation of the digits [ds] with decimal exponent [ex]. *)
Definition exp_form (ds : string) (ex : Z) : string :=
  let mant := match ds with
              | String c EmptyString => ds
              | String c t => String c ("." +:+ t)
              | EmptyString => ds
              end in
  mant +:+ "e" +:+ (if ex <? 0 then "-" else "+") +:+ pad0 2 (Z.abs ex).
(** Plain notation of [q * 10^k], with [frac0] as the fraction of an integer. *)
Definition fixed_form (frac0 : string) (q k : Z) : string :=
  if 0 <=? k then str_of_Z (q * 10 ^ k) +:+ frac0
  else str_of_Z (q / 10 ^ (- k)) +:+ "." +:+ pad0 (Z.to_nat (- k)) (q mod 10 ^ (- k)).

(** [repr(x)] *)
Definition repr_float (x : float) : string :=
  match x with
  | S754_nan => "nan"
  | S754_infinity s => if s then "-inf" else "inf"
  | S754_zero s => if s then "-0.0" else "0.0"
  | S754_finite s m e =>
      let '(a, d) := magnitude m e in
      let '(q, k) := shortest_go 17 (S754_finite false m e) a d (ilog10 a d) in
      let '(q, k) := strip_zeros_go 20 q k in
      let ds := str_of_Z q in
      let decpt := slen ds + k in
      (if s then "-" else "") +:+
      (if (16 <? decpt) || (decpt <? -3) then exp_form ds (decpt - 1) else fixed_form ".0" q k)
  end.

(** [f"{x:.pg}"]: [p] significant digits, trailing zeros dropped. *)
Definition format_gn (p : Z) (x : float) : string :=
  match x with
  | S754_nan => "nan"
  | S754_infinity s => if s then "-inf" else "inf"
  | S754_zero s => if s then "-0" else "0"
  | S754_finite s m e =>
      let '(a, d) := magnitude m e in
      let ex := ilog10 a d in
      let '(n1, d1) := scale10 a d (p - 1 - ex) in
      let q := div_half_even n1 d1 in
      let ex := if 10 ^ p <=? q then ex + 1 else ex in
      let '(q, k) := strip_zeros_go 20 q (ilog10 a d - (p - 1)) in
      (if s then "-" else "") +:+
      (if (ex <? -4) || (p <=? ex) then exp_form (str_of_Z q) ex else fixed_form "" q k)
  end.
(** [f"{x:g}"] *)
Definition format_g : float -> string := format_gn 6.

(** ** Order *)

Lemma fcompare_swap (x y : float) : SFcompare y x = CompOpp <$> SFcompare x y.
Proof.
  destruct x as [sx|sx| |sx mx ex], y as [sy|sy| |sy my ey]; simpl;
    try destruct sx; try destruct sy; try done.
  all: rewrite (Z.compare_antisym ex ey); destruct (ex ?= ey) eqn:E; simpl; try done.
  all: rewrite (Pos.compare_cont_antisym mx my); simpl.
  all: by destruct (Pos.compare_cont _ _ _).
Qed.

Lemma fcompare_None (x y : float) : SFcompare x y = None <-> is_nan x || is_nan y = true.
Proof.
  destruct x as [sx|sx| |sx mx ex], y as [sy|sy| |sy my ey]; simpl; by split.
Qed.

Lemma not_flt_fle (x y : float) :
  is_nan x = false -> is_nan y = false -> fltb y x = false <-> fleb x y = true.
Proof.
  intros Hx Hy. unfold fltb, fleb, SFltb, SFleb. rewrite (fcompare_swap x y).
  destruct (SFcompare x y) as [c|] eqn:E.
  - by destruct c.
  - apply fcompare_None in E. by rewrite Hx, Hy in E.
Qed.

Lemma isfinite_not_nan x : isfinite x = true -> is_nan x = false.
Proof. by destruct x. Qed.

(** The comparison is a lexicographic one on (sign, exponent, significand). *)
Lemma fcompare_lt_trans (x y z : float) :
  SFcompare x y = Some Lt -> SFcompare y z = Some Lt -> SFcompare x z = Some Lt.
Proof.
  destruct x as [sx|sx| |sx mx ex], y as [sy|sy| |sy my ey], z as [sz|sz| |sz mz ez]; simpl;
    try destruct sx; try destruct sy; try destruct sz; try done.
  all: intros H1 H2.
  all: destruct (Z.compare_spec ex ey), (Z.compare_spec ey ez), (Z.compare_spec ex ez);
    try done; try lia.
  all: rewrite ?Pos.compare_cont_spec in *; injection H1 as H1; injection H2 as H2; f_equal.
  all: try (rewrite <- !Pos.compare_antisym in * ).
  all: destruct (Pos.compare_spec mx my), (Pos.compare_spec my mz), (Pos.compare_spec mx mz);
    simpl in *; try done; try lia.
Qed.

Lemma flt_trans x y z : fltb x y = true -> fltb y z = true -> fltb x z = true.
Proof.
  unfold fltb, SFltb. destruct (SFcompare x y) as [[]|] eqn:E1; try done.
  destruct (SFcompare y z) as [[]|] eqn:E2; try done. by rewrite (fcompare_lt_trans x y z).
Qed.

Lemma flt_not_eq x y : fltb x y = true -> feqb x y = false /\ fltb y x = false.
Proof.
  unfold fltb, SFltb, feqb, SFeqb. rewrite (fcompare_swap x y). by destruct (SFcompare x y) as [[]|].
Qed.

Lemma feq_not_lt x y : feqb x y = true -> fltb x y = false /\ fltb y x = false.
Proof.
  unfold fltb, SFltb, feqb, SFeqb. rewrite (fcompare_swap x y). by destruct (SFcompare x y) as [[]|].
Qed.

Lemma feq_refl x : is_nan x = false -> feqb x x = true.
Proof.
  intros Hn. unfold feqb, SFeqb. pose proof (fcompare_swap x x) as Hs.
  destruct (SFcompare x x) as [[]|] eqn:E; try done. apply fcompare_None in E. by rewrite Hn in E.
Qed.

(** The three cases of two comparable floats. *)
Lemma fcases x y : is_nan x = false -> is_nan y = false ->
  fltb x y = true \/ feqb x y = true \/ fltb y x = true.
Proof.
  intros Hx Hy. unfold fltb, SFltb, feqb, SFeqb. rewrite (fcompare_swap x y).
  destruct (SFcompare x y) as [[]|] eqn:E; auto. apply fcompare_None in E. by rewrite Hx, Hy in E.
Qed.

Lemma flt_opp x y : fltb (fopp x) (fopp y) = fltb y x.
Proof.
  unfold fltb, SFltb, fopp. destruct x as [sx|sx| |sx mx ex], y as [sy|sy| |sy my ey]; simpl;
    try destruct sx; try destruct sy; try done.
  all: rewrite (Z.compare_antisym ex ey); destruct (ex ?= ey); simpl; try done.
  all: pose proof (Pos.compare_cont_antisym mx my Eq) as Ha; simpl in Ha; rewrite <- ?Ha.
  all: by destruct (Pos.compare_cont Eq mx my).
Qed.

Example repr_tenth : repr_float (flit 1 10) = "0.1". Proof. vm_compute. reflexivity. Qed.
Example repr_third : repr_float (ratio_to_float 1 3) = "0.3333333333333333".
Proof. vm_compute. reflexivity. Qed.
Example repr_big : repr_float (flit (10 ^ 16) 1) = "1e+16". Proof. vm_compute. reflexivity. Qed.
Example repr_small : repr_float (flit 1 100000) = "1e-05". Proof. vm_compute. reflexivity. Qed.
Example repr_int : repr_float (flit 2500 1) = "2500.0". Proof. vm_compute. reflexivity. Qed.
Example repr_pow : repr_float (flit 1 (2 ^ 44)) = "5.684341886080802e-14".
Proof. vm_compute. reflexivity. Qed.
Example repr_denorm : repr_float (S754_finite false 1 (-1074)) = "5e-324".
Proof. vm_compute. reflexivity. Qed.
Example fmt_half : format_f 1 (flit 25 100) = "0.2". Proof. vm_compute. reflexivity. Qed.
Example fmt_pct : format_pct 1 (flit 5 10) = "50.0%". Proof. vm_compute. reflexivity. Qed.
Example fmt_g : format_g (flit 1 100) = "0.01". Proof. vm_compute. reflexivity. Qed.
Example fmt_g15 : format_gn 15 (flit 1 3) = "0.333333333333333" /\ format_gn 15 (flit 123456789 1) = "123456789" /\
  format_gn 15 (flit (12 * 10 ^ 20) 1) = "1.2e+21".
Proof. vm_compute. by repeat split. Qed.
Example fmt_g_big : format_g (flit 1234567 1) = "1.23457e+06". Proof. vm_compute. reflexivity. Qed.

(** ** Sums and means

    The parts of [math] and [statistics] the analysis code uses: exact sums,
    means and standard deviations of floats (Python 3.11). *)

(** A finite float as a multiple of [2^-1074], the smallest positive float. *)
Definition units (x : float) : Z :=
  match x with
  | S754_finite s m e => (if s then -1 else 1) * Zpos m * 2 ^ (e + 1074)
  | _ => 0
  end.
Definition UNIT : Z := 2 ^ 1074.

Definition sum_Z (l : list Z) : Z := fold_left Z.add l 0.

(** [sum(l)]: left to right, starting from 0. *)
Definition py_sum (l : list float) : float := fold_left fadd l fzero.

Definition float_len {A} (l : list A) : float := flit (Z.of_nat (length l)) 1.

(** [math.fsum(l)] for finite values: the exact sum, rounded once. *)
Definition fsum (l : list float) : result float := truediv (sum_Z (units <$> l)) UNIT.

(** [statistics.fmean(l)] *)
Definition fmean (l : list float) : result float :=
  match l with
  | [] => Raise (Exn ValueError "fmean requires at least one data point")
  | _ => let* s := fsum l in fdiv s (float_len l)
  end.

(** [statistics._float_sqrt_of_frac]: the square root of [n/m], rounded once. *)
Definition isqrt_rto (n m : Z) : Z :=
  let a := Z.sqrt (n / m) in
  Z.lor a (if a * a * m =? n then 0 else 1).
Definition bit_length (n : Z) : Z := if n =? 0 then 0 else Z.log2 n + 1.
Definition float_sqrt_of_frac (n m : Z) : result float :=
  let q := (bit_length n - bit_length m - 109) / 2 in
  if 0 <=? q then truediv (Z.shiftl (isqrt_rto n (Z.shiftl m (2 * q))) q) 1
  else truediv (isqrt_rto (Z.shiftl n (- 2 * q)) m) (Z.shiftl 1 (- q)).

(** The sum of squared deviations of [l] from its mean, as a multiple of
    [UNIT^-2 / len(l)]. *)
Definition squared_deviations (l : list float) : Z :=
  let xs := units <$> l in
  Z.of_nat (length l) * sum_Z ((fun x => x * x) <$> xs) - sum_Z xs * sum_Z xs.

(** The root of the squared deviations over [len(l) * d]; a value that is not
    finite ends in a float without a [numerator]. *)
Definition deviation (l : list float) (d : Z) : result float :=
  if forallb isfinite l then
    let n := squared_deviations l in
    let m := Z.of_nat (length l) * d * UNIT * UNIT in
    let g := Z.gcd n m in
    float_sqrt_of_frac (n / g) (m / g)
  else Raise (Exn AttributeError "numerator").

(** [statistics.pstdev(l)] and [statistics.stdev(l)] *)
Definition pstdev (l : list float) : result float :=
  match l with
  | [] => Raise (Exn ValueError "pstdev requires at least one data point")
  | _ => deviation l (Z.of_nat (length l))
  end.
Definition stdev (l : list float) : result float :=
  match l with
  | [] | [_] => Raise (Exn ValueError "stdev requires at least two data points")
  | _ => deviation l (Z.of_nat (length l) - 1)
  end.

(** [round(x, k)] for a finite float. *)
Definition round_digits (k : Z) (x : float) : float :=
  match x with
  | S754_finite s m e =>
      let '(n, d) := magnitude m e in
      let r := float_of_dec (div_half_even (n * 10 ^ k) d) (- k) in
      if s then fopp r else r
  | _ => x
  end.
Definition round2 : float -> float := round_digits 2.

Example pstdev_values :
  pstdev [flit 1 1; flit 2 1; flit 3 1; flit 4 1] = Ok (flit 1118033988749895 (10 ^ 15)) /\
  stdev [flit 15 10; flit 25 10; flit 25 10; flit 275 100; flit 325 100; flit 475 100] =
    Ok (flit 10810874155219827 (10 ^ 16)).
Proof. split; vm_compute; reflexivity. Qed.
Example fsum_exact : fsum (replicate 10 (flit 1 10)) = Ok (flit 1 1).
Proof. vm_compute. reflexivity. Qed.
