(* ===== verification/PyCsv.v ===== *)
(** The [csv] module: the reader's character machine, [DictReader] rows, and the
    writer of the default dialect, with their round trip.

    A text file opened with [newline=""] is a list of lines that keep their
    ends, followed by an exception if reading stopped early. *)

From Stdlib Require Import ZArith Bool Ascii String Lia.
From stdpp Require Import base list strings option.
From S2P Require Import Prelude PyStr.

Open Scope string_scope.

Definition CR : ascii := chr 13.
Definition LF : ascii := chr 10.
Definition comma : ascii := ",".
Definition crlf : string := String CR (char_str LF).

(** ** Lines *)

(** Whether a line ends with [c] when [rest] follows. *)
Definition line_end (c : ascii) (rest : string) : bool :=
  Ascii.eqb c LF || (Ascii.eqb c CR && negb (String.prefix (char_str LF) rest)) || is_empty rest.

Fixpoint text_lines (s : string) : list string :=
  match s with
  | EmptyString => []
  | String c rest =>
      if line_end c rest then char_str c :: text_lines rest
      else match text_lines rest with
           | l :: ls => String c l :: ls
           | [] => [char_str c]
           end
  end.

(** ** The reader *)

Inductive csv_state : Type :=
  | START_RECORD | START_FIELD | IN_FIELD | IN_QUOTED_FIELD | QUOTE_IN_QUOTED_FIELD | EAT_CRNL.

#[export] Instance csv_state_eq_dec : EqDecision csv_state.
Proof. solve_decision. Defined.

Record csv_reader : Type := Reader { rd_state : csv_state; rd_field : string; rd_fields : list string }.

Definition csv_reset : csv_reader := Reader START_RECORD "" [].

Definition csv_field_limit : Z := 131072.

Definition save_field (st : csv_state) (r : csv_reader) : csv_reader :=
  Reader st "" (rd_fields r ++ [rd_field r])%list.
Definition add_char (st : csv_state) (c : ascii) (r : csv_reader) : result csv_reader :=
  raise_if (csv_field_limit <=? slen (rd_field r))%Z CsvError "field larger than field limit (131072)" ;;;
  Ok (Reader st (rd_field r +:+ char_str c) (rd_fields r)).
Definition with_state (st : csv_state) (r : csv_reader) : csv_reader := Reader st (rd_field r) (rd_fields r).

Definition is_newline (c : ascii) : bool := Ascii.eqb c LF || Ascii.eqb c CR.

(** One character, or [None] for the end of a line. *)
Definition process_start_field (r : csv_reader) (c : option ascii) : result csv_reader :=
  match c with
  | None => Ok (save_field START_RECORD r)
  | Some c =>
      if is_newline c then Ok (save_field EAT_CRNL r)
      else if Ascii.eqb c dquote then Ok (with_state IN_QUOTED_FIELD r)
      else if Ascii.eqb c comma then Ok (save_field START_FIELD r)
      else add_char IN_FIELD c r
  end.

Definition process_char (strict : bool) (r : csv_reader) (c : option ascii) : result csv_reader :=
  match rd_state r with
  | START_RECORD =>
      match c with
      | None => Ok r
      | Some c' => if is_newline c' then Ok (with_state EAT_CRNL r) else process_start_field r c
      end
  | START_FIELD => process_start_field r c
  | IN_FIELD =>
      match c with
      | None => Ok (save_field START_RECORD r)
      | Some c =>
          if is_newline c then Ok (save_field EAT_CRNL r)
          else if Ascii.eqb c comma then Ok (save_field START_FIELD r)
          else add_char IN_FIELD c r
      end
  | IN_QUOTED_FIELD =>
      match c with
      | None => Ok r
      | Some c => if Ascii.eqb c dquote then Ok (with_state QUOTE_IN_QUOTED_FIELD r) else add_char IN_QUOTED_FIELD c r
      end
  | QUOTE_IN_QUOTED_FIELD =>
      match c with
      | None => Ok (save_field START_RECORD r)
      | Some c =>
          if Ascii.eqb c dquote then add_char IN_QUOTED_FIELD c r
          else if Ascii.eqb c comma then Ok (save_field START_FIELD r)
          else if is_newline c then Ok (save_field EAT_CRNL r)
          else if strict then Raise (Exn CsvError ("',' expected after '" +:+ char_str dquote +:+ "'"))
          else add_char IN_FIELD c r
      end
  | EAT_CRNL =>
      match c with
      | None => Ok (with_state START_RECORD r)
      | Some c =>
          if is_newline c then Ok r
          else Raise (Exn CsvError "new-line character seen in unquoted field - do you need to open the file with newline=''?")
      end
  end.

(** The characters of a line and its end. *)
Fixpoint process_line (strict : bool) (r : csv_reader) (l : string) : result csv_reader :=
  match l with
  | EmptyString => process_char strict r None
  | String c l' => let* r' := process_char strict r (Some c) in process_line strict r' l'
  end.

(** What iterating over a reader gives: the records, and the exception that
    ended the iteration, if one did. *)
Definition records : Type := list (list string) * option exn.
Definition record_cons (row : list string) (rs : records) : records := (row :: fst rs, snd rs).

Fixpoint csv_rows (strict : bool) (stop : option exn) (r : csv_reader) (ls : list string) : records :=
  match ls with
  | [] =>
      match stop with
      | Some e => ([], Some e)
      | None =>
          if negb (is_empty (rd_field r)) || bool_decide (rd_state r = IN_QUOTED_FIELD) then
            if strict then ([], Some (Exn CsvError "unexpected end of data"))
            else ([rd_fields r ++ [rd_field r]]%list, None)
          else ([], None)
      end
  | l :: ls' =>
      match process_line strict r l with
      | Raise e => ([], Some e)
      | Ok r' =>
          if bool_decide (rd_state r' = START_RECORD)
          then record_cons (rd_fields r') (csv_rows strict stop csv_reset ls')
          else csv_rows strict stop r' ls'
      end
  end.

(** A stream that is read to its end. *)
Definition csv_read (strict : bool) (text : string) : records :=
  csv_rows strict None csv_reset (text_lines text).

(** ** [DictReader]

    A short row has [None] for the missing columns.  The rest of a long row is
    kept under the key [None], which no caller asks for. *)

Abbreviation csv_row := (list (string * option string)).

Fixpoint zip_row (names values : list string) : csv_row :=
  match names, values with
  | n :: names', v :: values' => (n, Some v) :: zip_row names' values'
  | n :: names', [] => (n, None) :: zip_row names' []
  | [], _ => []
  end.

(** [row.get(k)]: of repeated column names the last one counts. *)
Fixpoint row_get (k : string) (row : csv_row) : option (option string) :=
  match row with
  | [] => None
  | (k', v) :: row' => match row_get k row' with
                       | Some x => Some x
                       | None => if String.eqb k k' then Some v else None
                       end
  end.

(** The rows of a [DictReader] with these column names: blank lines are
    skipped. *)
Definition dict_rows (names : list string) (rows : list (list string)) : list csv_row :=
  zip_row names <$> List.filter (fun r => match r with [] => false | _ => true end) rows.

(** ** The writer *)

Definition special (c : ascii) : bool := Ascii.eqb c comma || Ascii.eqb c dquote || is_newline c.
Definition quote_char (c : ascii) : string :=
  if Ascii.eqb c dquote then String dquote (char_str dquote) else char_str c.
Definition csv_field (s : string) : string :=
  if str_forallb (fun c => negb (special c)) s then s
  else String dquote (concat_map_str quote_char s +:+ char_str dquote).
Definition csv_line (row : list string) : string :=
  match row with
  | [EmptyString] => String dquote (char_str dquote)
  | _ => join "," (csv_field <$> row)
  end.
Definition csv_write (rows : list (list string)) : string :=
  join "" ((fun row => csv_line row +:+ crlf) <$> rows).

(** ** Writing and reading back *)

Lemma text_lines_cons s : s <> "" -> exists l ls, text_lines s = l :: ls.
Proof.
  destruct s as [|c s]; [done|]. intros _. simpl.
  destruct (line_end c s); [eauto|]. destruct (text_lines s); eauto.
Qed.

Lemma line_end_not_empty c s : line_end c s = false -> s <> "".
Proof. unfold line_end. intros H ->. by rewrite !orb_true_r in H. Qed.

Lemma line_end_ordinary c s : is_newline c = false -> s <> "" -> line_end c s = false.
Proof.
  unfold is_newline, line_end. intros [-> ->]%orb_false_iff Hs. simpl.
  unfold is_empty. by apply String.eqb_neq.
Qed.

Section Reading.
Context (strict : bool) (stop : option exn).

Notation run r s := (csv_rows strict stop r (text_lines s)).

(** A character inside a line. *)
Lemma run_mid r c s r' :
  line_end c s = false -> process_char strict r (Some c) = Ok r' -> run r (String c s) = run r' s.
Proof.
  intros He Hp. destruct (text_lines_cons s) as (l & ls & E); [by eapply line_end_not_empty|].
  cbn [text_lines]. rewrite He, E. cbn [csv_rows process_line]. rewrite Hp. done.
Qed.

(** The last character of a line. *)
Lemma run_end r c s r1 r2 :
  line_end c s = true -> process_char strict r (Some c) = Ok r1 -> process_char strict r1 None = Ok r2 ->
  run r (String c s) =
    if bool_decide (rd_state r2 = START_RECORD) then record_cons (rd_fields r2) (run csv_reset s) else run r2 s.
Proof.
  intros He Hp Hq. cbn [text_lines]. rewrite He. unfold char_str. cbn [csv_rows process_line].
  rewrite Hp. cbn [rbind]. by rewrite Hq.
Qed.

Definition in_line (st : csv_state) : Prop := st = START_RECORD \/ st = START_FIELD \/ st = IN_FIELD.

Lemma add_char_Ok st c r :
  (slen (rd_field r) < csv_field_limit)%Z -> add_char st c r = Ok (Reader st (rd_field r +:+ char_str c) (rd_fields r)).
Proof. intros H. unfold add_char. by rewrite raise_if_false by (apply Z.leb_gt; exact H). Qed.

Lemma slen_cons c s : slen (String c s) = (1 + slen s)%Z.
Proof. unfold slen. simpl. lia. Qed.

Lemma str_app_char a c s : (a +:+ char_str c) +:+ s = a +:+ String c s.
Proof. by rewrite str_app_assoc. Qed.

Lemma run_plain s : forall st f fs rest,
  str_forallb (fun c => negb (special c)) s = true -> in_line st -> rest <> "" ->
  (slen f + slen s <= csv_field_limit)%Z ->
  run (Reader st f fs) (s +:+ rest) = run (Reader (if is_empty s then st else IN_FIELD) (f +:+ s) fs) rest.
Proof.
  induction s as [|c s IH]; intros st f fs rest Hs Hst Hr Hlen.
  - by rewrite str_app_nil_r.
  - simpl in Hs. apply andb_true_iff in Hs as [Hc Hs]. apply negb_true_iff in Hc.
    unfold special in Hc. apply orb_false_iff in Hc as [[Hcomma Hq]%orb_false_iff Hn].
    rewrite slen_cons in Hlen. pose proof (slen_nonneg s).
    change (String c s +:+ rest) with (String c (s +:+ rest)).
    rewrite (run_mid _ _ _ (Reader IN_FIELD (f +:+ char_str c) fs)).
    + rewrite IH; [|done|by right; right|done|rewrite slen_app; unfold char_str at 1; rewrite slen_cons; change (slen "") with 0%Z; lia].
      rewrite str_app_char. cbn [is_empty String.eqb]. destruct (is_empty s); done.
    + apply line_end_ordinary; [done|]. by destruct s.
    + destruct Hst as [->|[->| ->]]; unfold process_char; cbn [rd_state]; rewrite ?Hn;
        unfold process_start_field; rewrite ?Hn, ?Hq, Hcomma; apply add_char_Ok; simpl; lia.
Qed.

Lemma run_quoted s : forall f fs rest,
  rest <> "" -> (slen f + slen s <= csv_field_limit)%Z ->
  run (Reader IN_QUOTED_FIELD f fs) (concat_map_str quote_char s +:+ String dquote rest) =
  run (Reader QUOTE_IN_QUOTED_FIELD (f +:+ s) fs) rest.
Proof.
  induction s as [|c s IH]; intros f fs rest Hr Hlen.
  - rewrite str_app_nil_r. cbn [concat_map_str]. apply run_mid; [|done].
    by apply line_end_ordinary.
  - rewrite slen_cons in Hlen. pose proof (slen_nonneg s).
    assert (run (Reader IN_QUOTED_FIELD (f +:+ char_str c) fs) (concat_map_str quote_char s +:+ String dquote rest)
            = run (Reader QUOTE_IN_QUOTED_FIELD (f +:+ String c s) fs) rest) as Hgo.
    { rewrite IH; [by rewrite str_app_char|done|].
      rewrite slen_app. unfold char_str. rewrite slen_cons. change (slen "") with 0%Z. lia. }
    cbn [concat_map_str]. rewrite str_app_assoc. unfold quote_char at 1.
    destruct (Ascii.eqb c dquote) eqn:Hq.
    + apply Ascii.eqb_eq in Hq as ->. unfold char_str at 1. cbn [String.append].
      rewrite (run_mid _ _ _ (Reader QUOTE_IN_QUOTED_FIELD f fs)); [|by apply line_end_ordinary|done].
      rewrite (run_mid _ _ _ (Reader IN_QUOTED_FIELD (f +:+ char_str dquote) fs)); [done| |].
      * apply line_end_ordinary; [done|]. by destruct (concat_map_str quote_char s).
      * apply add_char_Ok. simpl. lia.
    + unfold char_str at 1. cbn [String.append].
      assert (process_char strict (Reader IN_QUOTED_FIELD f fs) (Some c) =
              Ok (Reader IN_QUOTED_FIELD (f +:+ char_str c) fs)) as Hp.
      { unfold process_char. cbn [rd_state]. rewrite Hq. apply add_char_Ok. simpl. lia. }
      destruct (line_end c (concat_map_str quote_char s +:+ String dquote rest)) eqn:He.
      * by rewrite (run_end _ _ _ _ _ He Hp eq_refl).
      * by rewrite (run_mid _ _ _ _ He Hp).
Qed.

(** A written field, up to the character after it: the reader holds the field. *)
Lemma run_field s st fs rest :
  st = START_RECORD \/ st = START_FIELD -> rest <> "" -> (slen s <= csv_field_limit)%Z ->
  exists st', run (Reader st "" fs) (csv_field s +:+ rest) = run (Reader st' s fs) rest /\
    (st' = IN_FIELD \/ st' = QUOTE_IN_QUOTED_FIELD \/ (st' = st /\ s = "")).
Proof.
  intros Hst Hr Hlen. unfold csv_field. destruct (str_forallb _ s) eqn:Hs.
  - rewrite run_plain; [|done|destruct Hst; subst; unfold in_line; auto|done|done].
    exists (if is_empty s then st else IN_FIELD). split; [done|].
    unfold is_empty. destruct (String.eqb_spec s ""); auto.
  - exists QUOTE_IN_QUOTED_FIELD. split; [|auto]. cbn [String.append].
    rewrite str_app_assoc. rewrite (run_mid _ _ _ (Reader IN_QUOTED_FIELD "" fs)).
    + unfold char_str. cbn [String.append]. by rewrite run_quoted.
    + apply line_end_ordinary; [done|]. by destruct (concat_map_str quote_char s).
    + by destruct Hst as [->| ->].
Qed.

Lemma run_comma st s fs rest :
  st <> EAT_CRNL -> st <> IN_QUOTED_FIELD -> rest <> "" ->
  run (Reader st s fs) (String comma rest) = run (Reader START_FIELD "" (fs ++ [s])) rest.
Proof.
  intros H1 H2 Hr. apply run_mid; [by apply line_end_ordinary|]. by destruct st.
Qed.

Lemma run_crlf st s fs rest :
  st <> EAT_CRNL -> st <> IN_QUOTED_FIELD -> st <> START_RECORD ->
  run (Reader st s fs) (crlf +:+ rest) = record_cons (fs ++ [s])%list (run csv_reset rest).
Proof.
  intros H1 H2 H3. unfold crlf, char_str. cbn [String.append].
  rewrite (run_mid _ _ _ (Reader EAT_CRNL "" (fs ++ [s])%list)); [|by destruct rest|by destruct st].
  by rewrite (run_end _ _ _ (Reader EAT_CRNL "" (fs ++ [s])%list) (Reader START_RECORD "" (fs ++ [s])%list)).
Qed.

Definition fits (s : string) : Prop := (slen s <= csv_field_limit)%Z.

Lemma run_fields row : forall x st fs rest,
  st = START_RECORD \/ st = START_FIELD -> Forall fits (x :: row) ->
  (st = START_RECORD -> x :: row <> [""]) ->
  run (Reader st "" fs) (join "," (csv_field <$> x :: row) +:+ crlf +:+ rest) =
  record_cons (fs ++ x :: row)%list (run csv_reset rest).
Proof.
  induction row as [|y row IH]; intros x st fs rest Hst Hf Hne; apply Forall_cons_iff in Hf as [Hx Hf].
  - destruct (run_field x st fs (crlf +:+ rest)) as (st' & Hrun & Hst'); [done|done|done|].
    cbn [fmap list_fmap join]. rewrite Hrun. apply run_crlf; destruct Hst' as [->|[->|[-> ->]]], Hst as [->| ->]; try done;
      specialize (Hne eq_refl); done.
  - destruct (run_field x st fs (String comma (join "," (csv_field <$> y :: row) +:+ crlf +:+ rest)))
      as (st' & Hrun & Hst'); [done|done|done|].
    change (join "," (csv_field <$> x :: y :: row)) with (csv_field x +:+ String comma (join "," (csv_field <$> y :: row))).
    rewrite str_app_assoc. cbn [String.append]. rewrite Hrun.
    rewrite run_comma; [|destruct Hst' as [->|[->|[-> _]]], Hst as [->| ->]; done..|].
    + rewrite IH; [by rewrite <- app_assoc|by right|done|done].
    + by destruct (join "," (csv_field <$> y :: row)).
Qed.

Lemma run_line row rest :
  row <> [] -> Forall fits row ->
  run csv_reset (csv_line row +:+ crlf +:+ rest) = record_cons row (run csv_reset rest).
Proof.
  intros Hne Hf. destruct row as [|x row]; [done|].
  destruct (decide (x :: row = [""])) as [E|E].
  - injection E as -> ->. cbn [csv_line]. unfold char_str. cbn [String.append].
    rewrite (run_mid _ _ _ (Reader IN_QUOTED_FIELD "" [])); [|done|done].
    rewrite (run_mid _ _ _ (Reader QUOTE_IN_QUOTED_FIELD "" [])); [|done|done].
    by rewrite run_crlf.
  - replace (csv_line (x :: row)) with (join "," (csv_field <$> x :: row)) by by destruct x, row.
    by rewrite (run_fields row x START_RECORD []); [|left|..].
Qed.

End Reading.

(** What the writer wrote is read back, by strict and by lenient readers. *)
Lemma csv_roundtrip strict rows :
  Forall (fun row => row <> [] /\ Forall fits row) rows -> csv_read strict (csv_write rows) = (rows, None).
Proof.
  intros H. unfold csv_read. induction H as [|row rows [Hne Hf] _ IH]; [done|].
  unfold csv_write in *. cbn [fmap list_fmap].
  assert (forall x l, join "" (x :: l) = x +:+ join "" l) as Hj.
  { intros x l. destruct l; [by rewrite str_app_nil_r|done]. }
  rewrite Hj, str_app_assoc, run_line by done. by rewrite IH.
Qed.

(** ** Reading never gives a field over the limit *)

Definition reader_fits (r : csv_reader) : Prop := fits (rd_field r) /\ Forall fits (rd_fields r).

Lemma fits_empty : fits "".
Proof. unfold fits. change (slen "") with 0%Z. unfold csv_field_limit. lia. Qed.

Lemma save_field_fits st r : reader_fits r -> reader_fits (save_field st r).
Proof.
  intros [H1 H2]. split; [apply fits_empty|]. simpl. apply Forall_app. split; [done|by constructor].
Qed.
Lemma add_char_fits st c r r' : reader_fits r -> add_char st c r = Ok r' -> reader_fits r'.
Proof.
  intros [H1 H2] H. unfold add_char in H. inv_ok. apply Z.leb_gt in Hx.
  split; [|done]. unfold fits. simpl. rewrite slen_app. unfold char_str. rewrite slen_cons.
  change (slen "") with 0%Z. lia.
Qed.
Lemma with_state_fits st r : reader_fits r -> reader_fits (with_state st r).
Proof. done. Qed.

Lemma process_char_fits strict r c r' : reader_fits r -> process_char strict r c = Ok r' -> reader_fits r'.
Proof.
  intros Hr H. unfold process_char, process_start_field in H.
  repeat match type of H with
  | context [match ?x with _ => _ end] => destruct x
  end; try (by injection H as <-); try discriminate H;
    (injection H as <-; first [by apply save_field_fits|by apply with_state_fits]) || (eapply add_char_fits; eassumption).
Qed.

Lemma process_line_fits strict l : forall r r', reader_fits r -> process_line strict r l = Ok r' -> reader_fits r'.
Proof.
  induction l as [|c l IH]; intros r r' Hr H; simpl in H; [by eapply process_char_fits|].
  inv_ok. eapply IH; [|exact H]. by eapply process_char_fits.
Qed.

Lemma reset_fits : reader_fits csv_reset.
Proof. split; [apply fits_empty|constructor]. Qed.

Lemma csv_rows_fits strict stop ls : forall r,
  reader_fits r -> Forall (Forall fits) (fst (csv_rows strict stop r ls)).
Proof.
  induction ls as [|l ls IH]; intros r Hr; simpl.
  - destruct stop; [constructor|]. destruct (_ || _); [|constructor].
    destruct strict; [constructor|]. constructor; [|constructor].
    destruct Hr. apply Forall_app. split; [done|by constructor].
  - destruct (process_line strict r l) as [r'|e] eqn:E; [|constructor].
    pose proof (process_line_fits _ _ _ _ Hr E) as Hr'.
    case_bool_decide; [|by apply IH]. simpl. constructor; [apply Hr'|]. apply IH, reset_fits.
Qed.

(** ** Columns *)

Lemma row_get_absent k names : forall values, k ∉ names -> row_get k (zip_row names values) = None.
Proof.
  induction names as [|n names IH]; intros values H; [done|].
  apply not_elem_of_cons in H as [Hn H]. apply String.eqb_neq in Hn.
  destruct values; simpl; by rewrite IH, Hn.
Qed.

Lemma row_get_elem k names x : forall values,
  row_get k (zip_row names values) = Some (Some x) -> x ∈ values.
Proof.
  induction names as [|n names IH]; intros values H; [done|].
  destruct values as [|v values]; simpl in H.
  - destruct (row_get k (zip_row names [])) eqn:E; [injection H as ->; by apply IH in E|].
    by destruct (k =? n)%string.
  - destruct (row_get k (zip_row names values)) eqn:E; [injection H as ->; right; by apply IH|].
    destruct (k =? n)%string; [|done]. injection H as ->. by left.
Qed.
