(* ===== verification/PyRe.v ===== *)
(** The [re] module: a backtracking matcher for the patterns the code uses, with
    Python's priorities (greedy and lazy repetition, ordered alternatives).
    Patterns that match the empty text are not repeated or searched for. *)

From Stdlib Require Import ZArith Bool Ascii String Lia.
From stdpp Require Import base list strings option.
From S2P Require Import Prelude PyStr.

Open Scope string_scope.

Inductive re : Type :=
  | Eps
  | Set_ (p : ascii -> bool)              (* one character of a class *)
  | Seq (a b : re)
  | Alt (a b : re)                        (* a|b *)
  | Star (greedy : bool) (a : re)         (* a* and a*? *)
  | Group (n : nat) (a : re)
  | Bol | Eol                             (* ^ and $ with re.MULTILINE *)
  | Bos | Eos                             (* ^ and $ without it *)
  | WordEdge                              (* \b *)
  | NotAhead (a : re).                    (* (?!a) *)

Definition Plus (a : re) : re := Seq a (Star true a).
Definition Opt (a : re) : re := Alt a Eps.
Fixpoint Lit (s : string) : re :=
  match s with EmptyString => Eps | String c s' => Seq (Set_ (Ascii.eqb c)) (Lit s') end.

Declare Scope re_scope.
Delimit Scope re_scope with re.
Infix "·" := Seq (at level 40, left associativity) : re_scope.

Definition is_word (c : ascii) : bool :=
  is_digit c || is_lower_az c || is_upper_az c || Ascii.eqb c "_" ||
  mem_string (char_str c) (char_str <$> (chr <$> [170; 178; 179; 181; 185; 186; 188; 189; 190]%Z)) ||
  (between 192 255 (code c) && negb (code c =? 215)%Z && negb (code c =? 247)%Z).

Definition digit : re := Set_ is_digit.                                          (* \d, [0-9] *)
Definition space : re := Set_ is_space.                                          (* \s *)
Definition nonspace : re := Set_ (fun c => negb (is_space c)).                   (* \S *)
Definition numeral : re := Set_ (fun c => is_digit c || Ascii.eqb c ".").        (* [0-9.] *)
Definition anychar : re := Set_ (fun c => negb (code c =? 10)%Z).                (* . *)

Abbreviation groups := (list (nat * string)).

(** The text between a position and a later one, as suffixes of the input. *)
Definition consumed (s s' : string) : string := str_take (String.length s - String.length s') s.

Definition starts_with_newline (s : string) : bool :=
  match s with String c _ => (code c =? 10)%Z | EmptyString => false end.
Definition head_is_word (s : string) : bool :=
  match s with String c _ => is_word c | EmptyString => false end.

(** [prev] is the character before the position [s]; [k] matches what follows. *)
Fixpoint rmatch (r : re) (prev : option ascii) (s : string) (g : groups)
    (k : option ascii -> string -> groups -> option (string * groups)) : option (string * groups) :=
  match r with
  | Eps => k prev s g
  | Set_ p => match s with
              | String c s' => if p c then k (Some c) s' g else None
              | EmptyString => None
              end
  | Seq a b => rmatch a prev s g (fun prev' s' g' => rmatch b prev' s' g' k)
  | Alt a b => match rmatch a prev s g k with
               | Some x => Some x
               | None => rmatch b prev s g k
               end
  | Star greedy a =>
      (fix go (n : nat) (prev : option ascii) (s : string) (g : groups) : option (string * groups) :=
         match n with
         | O => k prev s g
         | S n' =>
             let more := fun _ : unit =>
               rmatch a prev s g (fun prev' s' g' =>
                 if (String.length s' <? String.length s)%nat then go n' prev' s' g' else None) in
             if greedy
             then match more tt with Some x => Some x | None => k prev s g end
             else match k prev s g with Some x => Some x | None => more tt end
         end) (String.length s) prev s g
  | Group n a => rmatch a prev s g (fun prev' s' g' => k prev' s' ((n, consumed s s') :: g'))
  | Bol => match prev with
           | None => k prev s g
           | Some c => if (code c =? 10)%Z then k prev s g else None
           end
  | Eol => if is_empty s || starts_with_newline s then k prev s g else None
  | Bos => match prev with None => k prev s g | Some _ => None end
  | Eos => if is_empty s || String.eqb s newline then k prev s g else None
  | WordEdge =>
      let before := match prev with Some c => is_word c | None => false end in
      if xorb before (head_is_word s) then k prev s g else None
  | NotAhead a => match rmatch a prev s g (fun _ s' g' => Some (s', g')) with
                  | Some _ => None
                  | None => k prev s g
                  end
  end.

(** A match: the text before it, the matched text, the text after it. *)
Record re_found : Type := Found { before : string; matched : string; after : string; found_groups : groups }.

(** [m.group(n)]; [""] for a group that took no part. *)
Definition group (n : nat) (m : re_found) : string :=
  match List.find (fun p => Nat.eqb (fst p) n) (found_groups m) with Some p => snd p | None => "" end.
(** [m.group(n)] as a value: [None] for a group that took no part. *)
Definition group_opt (n : nat) (m : re_found) : option string :=
  snd <$> List.find (fun p => Nat.eqb (fst p) n) (found_groups m).

Definition match_at (r : re) (prev : option ascii) (s : string) : option re_found :=
  '(s', g) ← rmatch r prev s [] (fun _ s' g => Some (s', g));
  Some (Found "" (consumed s s') s' g).

(** [re.match(r, s)] and [re.fullmatch(r, s)] *)
Definition re_match (r : re) (s : string) : option re_found := match_at r None s.
Definition re_fullmatch (r : re) (s : string) : option re_found :=
  '(s', g) ← rmatch r None s [] (fun _ s' g => if is_empty s' then Some (s', g) else None);
  Some (Found "" s s' g).

(** [re.search(r, s)], from a position whose previous character is [prev]. *)
Fixpoint search_from (r : re) (prev : option ascii) (s : string) : option re_found :=
  match match_at r prev s with
  | Some m => Some m
  | None => match s with
            | EmptyString => None
            | String c s' =>
                m ← search_from r (Some c) s';
                Some (Found (String c (before m)) (matched m) (after m) (found_groups m))
            end
  end.
Definition re_search (r : re) (s : string) : option re_found := search_from r None s.

Fixpoint last_char (prev : option ascii) (s : string) : option ascii :=
  match s with EmptyString => prev | String c s' => last_char (Some c) s' end.

(** [re.finditer(r, s)]; [before] is the text since the previous match. *)
Fixpoint finditer_go (fuel : nat) (r : re) (prev : option ascii) (s : string) : list re_found :=
  match fuel with
  | O => []
  | S f =>
      match search_from r prev s with
      | None => []
      | Some m => m :: finditer_go f r (last_char prev (before m +:+ matched m)) (after m)
      end
  end.
Definition re_finditer (r : re) (s : string) : list re_found := finditer_go (S (String.length s)) r None s.

(** [re.sub(r, new, s)] for a constant [new]. *)
Fixpoint sub_go (fuel : nat) (r : re) (new : string) (prev : option ascii) (s : string) : string :=
  match fuel with
  | O => s
  | S f =>
      match search_from r prev s with
      | None => s
      | Some m => before m +:+ new +:+ sub_go f r new (last_char prev (before m +:+ matched m)) (after m)
      end
  end.
Definition re_sub (r : re) (new s : string) : string := sub_go (S (String.length s)) r new None s.

(** [re.split(r, s)] *)
Definition re_split (r : re) (s : string) : list string :=
  let ms := re_finditer r s in
  ((before <$> ms) ++ [match list.last ms with Some m => after m | None => s end])%list.

(** ** What a match is *)

(** Every match is a split of the searched text. *)
Definition suffix_of (s' s : string) : Prop := exists p, s = p +:+ s'.

Lemma suffix_refl s : suffix_of s s.
Proof. by exists "". Qed.
Lemma suffix_trans a b c : suffix_of a b -> suffix_of b c -> suffix_of a c.
Proof. intros [p ->] [q ->]. exists (q +:+ p). by rewrite str_app_assoc. Qed.
Lemma suffix_cons c s s' : suffix_of s' s -> suffix_of s' (String c s).
Proof. intros [p ->]. by exists (String c p). Qed.
#[local] Hint Resolve suffix_refl suffix_trans suffix_cons : core.

Lemma rmatch_suffix r : forall prev s g k x,
  rmatch r prev s g k = Some x -> exists prev' s' g', suffix_of s' s /\ k prev' s' g' = Some x.
Proof.
  induction r as [|p|a IHa b IHb|a IHa b IHb|greedy a IHa|n a IHa| | | | | |a IHa];
    intros prev s g k x H; cbn [rmatch] in H; try (by eauto 10).
  - destruct s as [|c s]; [done|]. destruct (p c); [|done]. eauto 10.
  - apply IHa in H as (p1 & s1 & g1 & H1 & H). apply IHb in H as (p2 & s2 & g2 & H2 & H). eauto 10.
  - destruct (rmatch a prev s g k) eqn:E; [|by eauto]. injection H as ->. eauto.
  - remember (String.length s) as n eqn:En. clear En. revert prev s g H.
    induction n as [|n IHn]; intros prev s g H; [by eauto 10|].
    destruct greedy; cbv beta iota zeta in H.
    + destruct (rmatch a prev s g _) eqn:E; [|by eauto 10]. injection H as ->.
      apply IHa in E as (p1 & s1 & g1 & H1 & E). destruct (_ <? _)%nat; [|done].
      apply IHn in E as (p2 & s2 & g2 & H2 & E). eauto 10.
    + destruct (k prev s g) eqn:E; [injection H as ->; by eauto 10|].
      apply IHa in H as (p1 & s1 & g1 & H1 & H). destruct (_ <? _)%nat; [|done].
      apply IHn in H as (p2 & s2 & g2 & H2 & H). eauto 10.
  - apply IHa in H as (p1 & s1 & g1 & H1 & H). eauto 10.
  - destruct prev as [c|]; [destruct (code c =? 10)%Z; [|done]|]; eauto 10.
  - destruct (is_empty s || starts_with_newline s); [|done]. eauto 10.
  - destruct prev; [done|]. eauto 10.
  - destruct (is_empty s || (s =? newline)%string); [|done]. eauto 10.
  - destruct (xorb _ _); [|done]. eauto 10.
  - destruct (rmatch a prev s g _); [done|]. eauto 10.
Qed.

Lemma consumed_suffix s s' : suffix_of s' s -> s = consumed s s' +:+ s'.
Proof.
  intros [p ->]. unfold consumed. rewrite length_str_app, Nat.add_sub. by rewrite str_take_app.
Qed.

Lemma match_at_split r prev s m : match_at r prev s = Some m -> s = before m +:+ matched m +:+ after m.
Proof.
  unfold match_at. intros ([s' g] & H & [= <-])%bind_Some. simpl.
  apply rmatch_suffix in H as (p1 & s1 & g1 & H1 & [= -> ->]). by apply consumed_suffix.
Qed.

Lemma search_split r s : forall prev m, search_from r prev s = Some m -> s = before m +:+ matched m +:+ after m.
Proof.
  induction s as [|c s IH]; intros prev m H; cbn [search_from] in H.
  - destruct (match_at r prev "") eqn:E; [|done]. injection H as ->. by apply match_at_split in E.
  - destruct (match_at r prev (String c s)) eqn:E.
    + injection H as ->. by apply match_at_split in E.
    + apply bind_Some in H as (m' & H & [= <-]). apply IH in H. simpl. by rewrite <- H.
Qed.

(** ** Replacing the runs of a character class *)

Section Class.
Context (p : ascii -> bool).
Notation run_re := (Plus (Set_ p)).

Lemma star_some prev s g k : (forall a b c, k a b c <> None) -> rmatch (Star true (Set_ p)) prev s g k <> None.
Proof.
  intros Hk. cbn [rmatch]. generalize (String.length s) at 1. intros n. revert prev s g.
  induction n as [|n IH]; intros prev s g; [apply Hk|].
  destruct s as [|c s]; cbv beta iota zeta; [apply Hk|].
  destruct (p c); [|apply Hk].
  match goal with |- match ?x with _ => _ end <> None => destruct x; [done|apply Hk] end.
Qed.

Lemma match_at_class prev c s :
  (match_at run_re prev (String c s) = None -> p c = false) /\
  (forall m, match_at run_re prev (String c s) = Some m -> before m = "" /\ (String.length (after m) <= String.length s)%nat).
Proof.
  unfold match_at. change (rmatch run_re prev (String c s) []) with
    (fun k => if p c then rmatch (Star true (Set_ p)) (Some c) s [] k else None). cbv beta. split.
  - destruct (p c); [|done]. intros [H|([a b] & H & ?)]%bind_None; [|done]. by apply star_some in H.
  - intros m. destruct (p c); [|done]. intros ([s' g] & H & [= <-])%bind_Some.
    apply rmatch_suffix in H as (p1 & s1 & g1 & [q ->] & [= -> ->]). simpl. split; [done|].
    rewrite length_str_app. lia.
Qed.

Lemma match_at_class_nil prev : match_at run_re prev "" = None.
Proof. done. Qed.

Lemma search_class s : forall prev,
  match search_from run_re prev s with
  | None => str_forallb (fun c => negb (p c)) s = true
  | Some m => str_forallb (fun c => negb (p c)) (before m) = true /\ (String.length (after m) < String.length s)%nat
  end.
Proof.
  induction s as [|c s IH]; intros prev; [done|]. cbn [search_from].
  destruct (match_at_class prev c s) as [H1 H2].
  destruct (match_at run_re prev (String c s)) as [m|]; [destruct (H2 m eq_refl) as [-> ?]; split; [done|simpl; lia]|].
  specialize (IH (Some c)). destruct (search_from run_re (Some c) s) as [m|]; simpl.
  - destruct IH as [IH1 IH2]. rewrite H1, IH1 by done. split; [done|lia].
  - by rewrite H1, IH.
Qed.

(** The result has the characters outside the class and those of the new text. *)
Lemma sub_class (q : ascii -> bool) new :
  (forall c, p c = false -> q c = true) -> str_forallb q new = true ->
  forall s, str_forallb q (re_sub run_re new s) = true.
Proof.
  intros Hq Hn s. unfold re_sub.
  assert (forall fuel prev s, (String.length s < fuel)%nat -> str_forallb q (sub_go fuel run_re new prev s) = true) as H;
    [|apply H; lia].
  assert (forall t, str_forallb (fun c => negb (p c)) t = true -> str_forallb q t = true) as Ht.
  { intros t. apply str_forallb_impl. intros c Hc. apply Hq. by apply negb_true_iff. }
  induction fuel as [|f IH]; intros prev s0 Hf; [lia|]. cbn [sub_go].
  pose proof (search_class s0 prev) as Hs. destruct (search_from run_re prev s0) as [m|]; [|by apply Ht].
  destruct Hs as [Hb Hl]. rewrite !str_forallb_app, Hn, (Ht _ Hb), IH; [done|lia].
Qed.
End Class.
