(* ===== verification/PyVal.v ===== *)
(** Dynamically typed Python values: what [json.loads] and [yaml.safe_load]
    return for documents built from mappings with string keys, sequences,
    strings, numbers, booleans and null.

    A [dict] is its items in insertion order, keys pairwise different. *)

From Stdlib Require Import ZArith Bool Ascii String Lia SpecFloat.
From stdpp Require Import base list strings option.
From S2P Require Import Prelude PyStr PyFloat.

Open Scope string_scope.
Open Scope Z_scope.

Inductive pyval : Type :=
  | VNone
  | VBool (b : bool)
  | VInt (z : Z)
  | VFloat (f : float)
  | VStr (s : string)
  | VList (l : list pyval)
  | VDict (d : list (string * pyval)).

Abbreviation pydict := (list (string * pyval)).

Section PyvalInd.
Variable P : pyval -> Prop.
Hypothesis HNone : P VNone.
Hypothesis HBool : forall b, P (VBool b).
Hypothesis HInt : forall z, P (VInt z).
Hypothesis HFloat : forall f, P (VFloat f).
Hypothesis HStr : forall s, P (VStr s).
Hypothesis HList : forall l, Forall P l -> P (VList l).
Hypothesis HDict : forall d, Forall (fun p => P (snd p)) d -> P (VDict d).

Fixpoint pyval_nested_ind (v : pyval) : P v :=
  match v with
  | VNone => HNone
  | VBool b => HBool b
  | VInt z => HInt z
  | VFloat f => HFloat f
  | VStr s => HStr s
  | VList l =>
      HList l ((fix go (l : list pyval) : Forall P l :=
                  match l with
                  | [] => @List.Forall_nil _ P
                  | x :: l' => @List.Forall_cons _ P x l' (pyval_nested_ind x) (go l')
                  end) l)
  | VDict d =>
      HDict d ((fix go (d : pydict) : Forall (fun p => P (snd p)) d :=
                  match d with
                  | [] => @List.Forall_nil _ _
                  | p :: d' => @List.Forall_cons _ (fun p => P (snd p)) p d' (pyval_nested_ind (snd p)) (go d')
                  end) d)
  end.
End PyvalInd.

(** ** Dictionaries *)

(** [d.get(k)] as an option; [None] when the key is absent. *)
Fixpoint dget (k : string) (d : pydict) : option pyval :=
  match d with
  | [] => None
  | (k', v) :: d' => if String.eqb k k' then Some v else dget k d'
  end.
(** [d.get(k)] as Python returns it. *)
Definition dget_none (k : string) (d : pydict) : pyval := default VNone (dget k d).
(** [d.get(k, v0)] *)
Definition dget_or (k : string) (v0 : pyval) (d : pydict) : pyval := default v0 (dget k d).
(** [k in d] *)
Definition dmem (k : string) (d : pydict) : bool :=
  match dget k d with Some _ => true | None => false end.
(** [d[k] = v] *)
Fixpoint dset (k : string) (v : pyval) (d : pydict) : pydict :=
  match d with
  | [] => [(k, v)]
  | (k', v') :: d' => if String.eqb k k' then (k', v) :: d' else (k', v') :: dset k v d'
  end.
(** [d.pop(k, None)] *)
Definition ddel (k : string) (d : pydict) : pydict :=
  List.filter (fun p => negb (String.eqb k (fst p))) d.
(** [d[k]] *)
Definition dindex (k : string) (d : pydict) : result pyval :=
  match dget k d with Some v => Ok v | None => Raise (Exn KeyError k) end.

Definition dkeys (d : pydict) : list string := fst <$> d.

Lemma dget_dset k v d : dget k (dset k v d) = Some v.
Proof.
  induction d as [|[k' v'] d IH]; simpl; [by rewrite String.eqb_refl|].
  destruct (String.eqb k k') eqn:E; simpl; by rewrite E.
Qed.

Lemma dget_dset_ne k k' v d : k ≠ k' -> dget k (dset k' v d) = dget k d.
Proof.
  intros Hne. induction d as [|[k1 v1] d IH]; cbn [dset dget].
  - by rewrite (proj2 (String.eqb_neq _ _) Hne).
  - destruct (String.eqb_spec k' k1) as [<-|]; cbn [dget]; [by rewrite (proj2 (String.eqb_neq _ _) Hne)|]. by rewrite IH.
Qed.

(** ** Types and truth *)

Definition is_str (v : pyval) : bool := match v with VStr _ => true | _ => false end.
Definition is_dict (v : pyval) : bool := match v with VDict _ => true | _ => false end.
Definition is_list (v : pyval) : bool := match v with VList _ => true | _ => false end.
Definition is_bool (v : pyval) : bool := match v with VBool _ => true | _ => false end.
(** [isinstance(v, int)]: a [bool] is an [int]. *)
Definition is_int (v : pyval) : bool := match v with VInt _ | VBool _ => true | _ => false end.
(** [isinstance(v, (int, float))] *)
Definition is_number (v : pyval) : bool :=
  match v with VInt _ | VBool _ | VFloat _ => true | _ => false end.

Definition b2z (b : bool) : Z := if b then 1 else 0.

Definition truthy (v : pyval) : bool :=
  match v with
  | VNone => false
  | VBool b => b
  | VInt z => negb (z =? 0)
  | VFloat f => match f with S754_zero _ => false | _ => true end
  | VStr s => negb (is_empty s)
  | VList l => match l with [] => false | _ => true end
  | VDict d => match d with [] => false | _ => true end
  end.

(** [a or b] *)
Definition py_or (a b : pyval) : pyval := if truthy a then a else b.

(** [v.get(k)] where [v] need not be a [dict]. *)
Definition attr_get (k : string) (v : pyval) : result pyval :=
  match v with VDict d => Ok (dget_none k d) | _ => Raise (Exn AttributeError "get") end.
Definition attr_get_or (k : string) (v0 v : pyval) : result pyval :=
  match v with VDict d => Ok (dget_or k v0 d) | _ => Raise (Exn AttributeError "get") end.
(** [v[k]] with a string key. *)
Definition py_index (k : string) (v : pyval) : result pyval :=
  match v with VDict d => dindex k d | _ => Raise (Exn TypeError "not subscriptable by a string") end.
(** The values a [for] loop over [v] visits; a [dict] yields its keys. *)
Definition py_iter (v : pyval) : result (list pyval) :=
  match v with
  | VList l => Ok l
  | VDict d => Ok (VStr <$> dkeys d)
  | VStr s => Ok ((fun c => VStr (char_str c)) <$> String.list_ascii_of_string s)
  | _ => Raise (Exn TypeError "object is not iterable")
  end.

(** ** Equality and order of numbers *)

(** [a == b]: booleans and integers are one type, integers and floats compare
    exactly, dictionaries compare without order. *)
Fixpoint py_eq (a b : pyval) : bool :=
  match a, b with
  | VNone, VNone => true
  | VBool x, VBool y => Bool.eqb x y
  | VBool x, VInt y => b2z x =? y
  | VInt x, VBool y => x =? b2z y
  | VInt x, VInt y => x =? y
  | VFloat x, VFloat y => feqb x y
  | VFloat x, VInt y => match fcompare_Z x y with Some Eq => true | _ => false end
  | VInt x, VFloat y => match fcompare_Z y x with Some Eq => true | _ => false end
  | VFloat x, VBool y => match fcompare_Z x (b2z y) with Some Eq => true | _ => false end
  | VBool x, VFloat y => match fcompare_Z y (b2z x) with Some Eq => true | _ => false end
  | VStr x, VStr y => String.eqb x y
  | VList l, VList l' =>
      (fix go (l l' : list pyval) : bool :=
         match l, l' with
         | [], [] => true
         | x :: l, y :: l' => py_eq x y && go l l'
         | _, _ => false
         end) l l'
  | VDict d, VDict d' =>
      (length d =? length d')%nat &&
      (fix go (d : pydict) : bool :=
         match d with
         | [] => true
         | (k, v) :: d =>
             match dget k d' with Some v' => py_eq v v' | None => false end && go d
         end) d
  | _, _ => false
  end.

(** [float(v)] for a number. *)
Definition float_of_num (v : pyval) : result float :=
  match v with
  | VInt z => float_of_Z z
  | VBool b => float_of_Z (b2z b)
  | VFloat f => Ok f
  | _ => Raise (Exn TypeError "float() argument must be a string or a real number")
  end.

(** Comparison of two numbers; [None] when one is NaN. *)
Definition num_compare (a b : pyval) : result (option comparison) :=
  let z v := match v with VInt z => Some z | VBool b => Some (b2z b) | _ => None end in
  match z a, z b, a, b with
  | Some x, Some y, _, _ => Ok (Some (x ?= y))
  | Some x, _, _, VFloat y => Ok (CompOpp <$> fcompare_Z y x)
  | _, Some y, VFloat x, _ => Ok (fcompare_Z x y)
  | _, _, VFloat x, VFloat y => Ok (SFcompare x y)
  | _, _, _, _ => Raise (Exn TypeError "'<' not supported between these operands")
  end.
Definition py_lt (a b : pyval) : result bool :=
  let* c := num_compare a b in Ok (match c with Some Lt => true | _ => false end).
Definition py_le (a b : pyval) : result bool :=
  let* c := num_compare a b in Ok (match c with Some (Lt | Eq) => true | _ => false end).
Definition py_gt (a b : pyval) : result bool := py_lt b a.

(** ** [repr] and [str] *)

Fixpoint py_repr (v : pyval) : string :=
  match v with
  | VNone => "None"
  | VBool b => if b then "True" else "False"
  | VInt z => str_of_Z z
  | VFloat f => repr_float f
  | VStr s => repr_str s
  | VList l => "[" +:+ join ", " (py_repr <$> l) +:+ "]"
  | VDict d =>
      "{" +:+ join ", " ((fun p => repr_str (fst p) +:+ ": " +:+ py_repr (snd p)) <$> d) +:+ "}"
  end.
Definition py_str (v : pyval) : string := match v with VStr s => s | _ => py_repr v end.

