(* ===== verification/PyDict.v ===== *)
(** Dictionaries with keys of any type, in insertion order: assigning to a key
    that is there keeps its place. *)

From Stdlib Require Import Bool.
From stdpp Require Import base list option.
From S2P Require Import Prelude.

Section Assoc.
Context {K V : Type} `{EqDecision K}.
Implicit Types d : list (K * V).

Fixpoint assoc_set (k : K) (v : V) d : list (K * V) :=
  match d with
  | [] => [(k, v)]
  | (k', v') :: d' => if decide (k = k') then (k, v) :: d' else (k', v') :: assoc_set k v d'
  end.
Definition assoc_has (k : K) d : bool := existsb (fun p => bool_decide (k = fst p)) d.

(** The keys stay without repetition, and the values come from the arguments. *)
Lemma assoc_set_elem k v d p : p ∈ assoc_set k v d -> p = (k, v) \/ p ∈ d.
Proof.
  induction d as [|[k' v'] d IH]; cbn [assoc_set].
  - intros ->%list_elem_of_singleton. by left.
  - destruct (decide (k = k')) as [<-|Hne]; intros [->|Hp]%list.elem_of_cons; auto using list_elem_of_here, list_elem_of_further.
    destruct (IH Hp); auto using list_elem_of_further.
Qed.

Lemma assoc_set_keys k v d : NoDup (fst <$> d) -> NoDup (fst <$> assoc_set k v d).
Proof.
  induction d as [|[k' v'] d IH]; cbn [assoc_set fmap list_fmap].
  { intros _. apply NoDup_singleton. }
  intros [Hn Hd]%list.NoDup_cons. destruct (decide (k = k')) as [<-|Hne]; cbn [fmap list_fmap];
    apply list.NoDup_cons; split; auto.
  intros ([k1 v1] & E & Hp)%list_elem_of_fmap. cbn in E. subst k1.
  apply assoc_set_elem in Hp as [[= -> ->]|Hp]; [done|]. apply Hn, list_elem_of_fmap. by exists (k', v1).
Qed.

(** A new key is put at the end. *)
Lemma assoc_set_fresh k v d : k ∉ fst <$> d -> assoc_set k v d = (d ++ [(k, v)])%list.
Proof.
  induction d as [|[k' v'] d IH]; cbn [assoc_set fmap list_fmap fst]; [done|].
  intros [Hne Hn]%list.not_elem_of_cons. rewrite decide_False by done. cbn. by rewrite IH.
Qed.
End Assoc.

(** ** Looking up *)

(** [d.get(k)] *)
Definition assoc_get {K V} `{EqDecision K} (k : K) (d : list (K * V)) : option V := snd <$> List.find (fun p => bool_decide (k = fst p)) d.

Lemma assoc_get_set {K V} `{EqDecision K} (k k' : K) (v : V) d :
  assoc_get k (assoc_set k' v d) = if decide (k = k') then Some v else assoc_get k d.
Proof.
  unfold assoc_get. induction d as [|[k1 v1] d IH]; cbn [assoc_set List.find].
  - cbn [fst]. destruct (decide (k = k')) as [->|Hne]; [by rewrite bool_decide_true|by rewrite bool_decide_false].
  - destruct (decide (k' = k1)) as [<-|Hne1]; cbn [List.find fst].
    + destruct (decide (k = k')) as [->|Hne]; [by rewrite bool_decide_true|by rewrite bool_decide_false].
    + destruct (decide (k = k1)) as [->|Hne].
      * rewrite bool_decide_true by done. by rewrite decide_False by done.
      * by rewrite bool_decide_false by done.
Qed.
Lemma assoc_get_elem {K V} `{EqDecision K} (k : K) (v : V) d : NoDup (fst <$> d) -> (k, v) ∈ d <-> assoc_get k d = Some v.
Proof.
  unfold assoc_get. induction d as [|[k1 v1] d IH]; cbn [fmap list_fmap fst List.find]; intros Hn.
  - split; [by intros []%not_elem_of_nil|done].
  - apply list.NoDup_cons in Hn as [H1 Hn]. rewrite list.elem_of_cons, IH by done. case_bool_decide as E; cbn.
    + subst k1. split; [intros [[= ->]|H]; [done|]|by intros [= ->]; left].
      destruct H1. apply IH in H; [|done]. apply list_elem_of_fmap. by exists (k, v).
    + split; [intros [[= -> ->]|H]; done|by right].
Qed.
Lemma assoc_has_get {K V} `{EqDecision K} (k : K) (d : list (K * V)) : assoc_has k d = true <-> is_Some (assoc_get k d).
Proof.
  unfold assoc_has, assoc_get. induction d as [|[k1 v1] d IH]; cbn [existsb List.find fst]; [split; [done|by intros [? ?]]|].
  case_bool_decide; cbn; [by split; [eexists|]|exact IH].
Qed.
Lemma assoc_get_none {K V} `{EqDecision K} (k : K) (d : list (K * V)) : assoc_has k d = false <-> assoc_get k d = None.
Proof.
  pose proof (assoc_has_get k d) as H. destruct (assoc_has k d), (assoc_get k d) as [x|]; try done.
  - destruct (proj1 H eq_refl). done.
  - assert (false = true) by (apply H; by exists x). done.
Qed.

(** Dictionaries without repeated keys, whose values satisfy [Q]. *)
Definition dict_wf {K V} (Q : V -> Prop) (d : list (K * V)) : Prop := NoDup (fst <$> d) /\ forall k v, (k, v) ∈ d -> Q v.
Section DictWf.
Context {K V : Type} `{EqDecision K} (Q : V -> Prop).
Implicit Types d : list (K * V).

Lemma dict_wf_nil : dict_wf Q ([] : list (K * V)).
Proof. split; [constructor|by intros k v ?%not_elem_of_nil]. Qed.
Lemma dict_wf_set k v d : dict_wf Q d -> Q v -> dict_wf Q (assoc_set k v d).
Proof.
  intros [Hn Hd] Hv. split; [by apply assoc_set_keys|]. intros k' v' [[= -> ->]|H]%assoc_set_elem; [done|by eapply Hd].
Qed.
Lemma dict_wf_get k v d : dict_wf Q d -> assoc_get k d = Some v -> Q v.
Proof. intros [Hn Hd] H. eapply Hd. by apply assoc_get_elem. Qed.
Lemma dict_wf_elem k v d : dict_wf Q d -> (k, v) ∈ d <-> assoc_get k d = Some v.
Proof. intros [Hn _]. by apply assoc_get_elem. Qed.
End DictWf.
