(* ===== verification/Json.v ===== *)
(** [json.dumps] and [json.loads] for the values of [PyVal]: printing in the
    styles the code uses, an executable parser, and their round trip. *)

From Stdlib Require Import ZArith Bool Ascii String Lia SpecFloat Sorted.
From stdpp Require Import base list strings option pretty.
From S2P Require Import Prelude PyStr PyFloat PyVal.

Open Scope string_scope.
Open Scope Z_scope.

(** ** Printing *)

(** A character of a string under [ensure_ascii]. *)
Definition json_char (c : ascii) : string :=
  let n := code c in
  if n =? 34 then String "\" (char_str dquote)
  else if n =? 92 then "\\"
  else if n =? 10 then "\n" else if n =? 13 then "\r" else if n =? 9 then "\t"
  else if n =? 12 then "\f" else if n =? 8 then "\b"
  else if (n <? 32) || (126 <? n) then "\u00" +:+ hex2 n
  else char_str c.
Definition json_string (s : string) : string :=
  char_str dquote +:+ concat_map_str json_char s +:+ char_str dquote.
Definition json_float (f : float) : string :=
  match f with
  | S754_nan => "NaN"
  | S754_infinity s => if s then "-Infinity" else "Infinity"
  | _ => repr_float f
  end.

Definition key_leb {A} (p q : string * A) : bool := String.leb (fst p) (fst q).
(** The items of a dictionary in the order they are printed. *)
Definition order_items {A} (sorted : bool) (d : list (string * A)) : list (string * A) :=
  if sorted then sort_by key_leb d else d.

(** The layout parameters of [json.dumps]: whether keys are sorted, and the
    blanks after an opening bracket, after a comma, after a colon and before
    a closing bracket, as functions of the nesting depth. *)
Record json_style : Type := {
  js_sorted : bool;
  js_open : nat -> string;
  js_comma : nat -> string;
  js_colon : string;
  js_close : nat -> string
}.

Fixpoint json_text (st : json_style) (lvl : nat) (v : pyval) : string :=
  match v with
  | VNone => "null"
  | VBool b => if b then "true" else "false"
  | VInt z => str_of_Z z
  | VFloat f => json_float f
  | VStr s => json_string s
  | VList [] => "[]"
  | VList l =>
      "[" +:+ js_open st lvl +:+
      join ("," +:+ js_comma st lvl) (json_text st (S lvl) <$> l) +:+ js_close st lvl +:+ "]"
  | VDict [] => "{}"
  | VDict d =>
      "{" +:+ js_open st lvl +:+
      join ("," +:+ js_comma st lvl)
        ((fun p => json_string (fst p) +:+ ":" +:+ js_colon st +:+ snd p) <$>
           order_items (js_sorted st) ((fun p => (fst p, json_text st (S lvl) (snd p))) <$> d))
      +:+ js_close st lvl +:+ "}"
  end.

Fixpoint spaces (n : nat) : string := match n with O => "" | S k => String " " (spaces k) end.

(** [sort_keys=True, separators=(",", ":")] *)
Definition canonical_style : json_style :=
  {| js_sorted := true; js_open := fun _ => ""; js_comma := fun _ => "";
     js_colon := ""; js_close := fun _ => "" |}.
(** the default separators *)
Definition plain_style (sorted : bool) : json_style :=
  {| js_sorted := sorted; js_open := fun _ => ""; js_comma := fun _ => " ";
     js_colon := " "; js_close := fun _ => "" |}.
(** [indent=2] *)
Definition indent_style (sorted : bool) : json_style :=
  let brk n := newline +:+ spaces (2 * n) in
  {| js_sorted := sorted; js_open := fun l => brk (S l); js_comma := fun l => brk (S l);
     js_colon := " "; js_close := brk |}.

Definition json_canonical (v : pyval) : string := json_text canonical_style 0 v.
Definition json_plain (sorted : bool) (v : pyval) : string := json_text (plain_style sorted) 0 v.
Definition json_indent (sorted : bool) (v : pyval) : string := json_text (indent_style sorted) 0 v.

(** ** Parsing *)

Definition is_ws (c : ascii) : bool :=
  (code c =? 32) || (code c =? 9) || (code c =? 10) || (code c =? 13).
Fixpoint skip_ws (s : string) : string :=
  match s with String c s' => if is_ws c then skip_ws s' else s | EmptyString => "" end.

(** One character of a string literal; [None] at the closing quote, a control
    character, a bad escape, or a code point above U+00FF. *)
Definition parse_char (s : string) : option (ascii * string) :=
  match s with
  | String c s' =>
      if code c =? 92 then
        match s' with
        | String e s'' =>
            let n := code e in
            if (n =? 34) || (n =? 92) || (n =? 47) then Some (e, s'')
            else if n =? 110 then Some (chr 10, s'') else if n =? 114 then Some (chr 13, s'')
            else if n =? 116 then Some (chr 9, s'') else if n =? 102 then Some (chr 12, s'')
            else if n =? 98 then Some (chr 8, s'')
            else if n =? 117 then
              match s'' with
              | String a (String b (String c' (String d r))) =>
                  match hex_val a, hex_val b, hex_val c', hex_val d with
                  | Some 0, Some 0, Some x, Some y => Some (chr (16 * x + y), r)
                  | _, _, _, _ => None
                  end
              | _ => None
              end
            else None
        | EmptyString => None
        end
      else if (code c <? 32) || (code c =? 34) then None
      else Some (c, s')
  | EmptyString => None
  end.

(** The rest of a string literal after its opening quote. *)
Fixpoint parse_string (fuel : nat) (s : string) : option (string * string) :=
  match fuel with
  | O => None
  | S f =>
      match s with
      | String c s' =>
          if code c =? 34 then Some ("", s')
          else match parse_char s with
               | Some (d, r) =>
                   match parse_string f r with
                   | Some (t, r') => Some (String d t, r')
                   | None => None
                   end
               | None => None
               end
      | EmptyString => None
      end
  end.

Fixpoint span_while (f : ascii -> bool) (s : string) : string * string :=
  match s with
  | String c s' =>
      if f c then let '(a, r) := span_while f s' in (String c a, r) else ("", s)
  | EmptyString => ("", "")
  end.

Definition digits_value (s : string) : Z := default 0 (digits_go s 0).

(** The optional fraction and exponent of a number. *)
Definition parse_frac (s : string) : string * string :=
  match s with
  | String c s' =>
      if Ascii.eqb c "." then
        let '(d, r) := span_while is_digit s' in
        if is_empty d then ("", s) else (d, r)
      else ("", s)
  | EmptyString => ("", "")
  end.
Definition parse_exp (s : string) : option Z * string :=
  match s with
  | String c s' =>
      if Ascii.eqb c "e" || Ascii.eqb c "E" then
        let '(sgn, t) := match s' with
                         | String d t => if Ascii.eqb d "-" then (-1, t)
                                         else if Ascii.eqb d "+" then (1, t) else (1, s')
                         | EmptyString => (1, s')
                         end in
        let '(d, r) := span_while is_digit t in
        if is_empty d then (None, s) else (Some (sgn * digits_value d), r)
      else (None, s)
  | EmptyString => (None, "")
  end.

(** A number without its sign. *)
Definition parse_number (neg : bool) (s : string) : option (pyval * string) :=
  let '(ip, r) :=
    match s with
    | String c s' =>
        if Ascii.eqb c "0" then ("0", s') else span_while is_digit s
    | EmptyString => ("", "")
    end in
  if is_empty ip then None
  else
    let '(fr, r1) := parse_frac r in
    let '(ex, r2) := parse_exp r1 in
    if is_empty fr && match ex with None => true | Some _ => false end
    then Some (VInt (if neg then - digits_value ip else digits_value ip), r)
    else
      let x := float_of_dec (digits_value (ip +:+ fr)) (default 0 ex - slen fr) in
      Some (VFloat (if neg then fopp x else x), r2).

Fixpoint parse_value (fuel : nat) (s : string) : option (pyval * string) :=
  match fuel with
  | O => None
  | S f =>
      match s with
      | EmptyString => None
      | String c s' =>
          if code c =? 34 then
            match parse_string (S (String.length s')) s' with
            | Some (t, r) => Some (VStr t, r)
            | None => None
            end
          else if Ascii.eqb c "[" then
            match skip_ws s' with
            | String d r => if Ascii.eqb d "]" then Some (VList [], r)
                            else parse_items f (String d r) []
            | EmptyString => None
            end
          else if Ascii.eqb c "{" then
            match skip_ws s' with
            | String d r => if Ascii.eqb d "}" then Some (VDict [], r)
                            else parse_members f (String d r) []
            | EmptyString => None
            end
          else if startswith "null" s then Some (VNone, str_drop 4 s)
          else if startswith "true" s then Some (VBool true, str_drop 4 s)
          else if startswith "false" s then Some (VBool false, str_drop 5 s)
          else if startswith "NaN" s then Some (VFloat S754_nan, str_drop 3 s)
          else if startswith "Infinity" s then Some (VFloat (S754_infinity false), str_drop 8 s)
          else if startswith "-Infinity" s then Some (VFloat (S754_infinity true), str_drop 9 s)
          else if Ascii.eqb c "-" then parse_number true s'
          else if is_digit c then parse_number false s
          else None
      end
  end
(** Items of an array, after the bracket and blanks. *)
with parse_items (fuel : nat) (s : string) (acc : list pyval) : option (pyval * string) :=
  match fuel with
  | O => None
  | S f =>
      match parse_value f s with
      | Some (v, r) =>
          match skip_ws r with
          | String c r' =>
              if Ascii.eqb c "]" then Some (VList (acc ++ [v])%list, r')
              else if Ascii.eqb c "," then parse_items f (skip_ws r') (acc ++ [v])%list
              else None
          | EmptyString => None
          end
      | None => None
      end
  end
(** Members of an object; a repeated key keeps its place and takes the last value. *)
with parse_members (fuel : nat) (s : string) (acc : pydict) : option (pyval * string) :=
  match fuel with
  | O => None
  | S f =>
      match s with
      | String c s' =>
          if code c =? 34 then
            match parse_string (S (String.length s')) s' with
            | Some (k, r) =>
                match skip_ws r with
                | String c2 r2 =>
                    if Ascii.eqb c2 ":" then
                      match parse_value f (skip_ws r2) with
                      | Some (v, r3) =>
                          match skip_ws r3 with
                          | String c4 r4 =>
                              if Ascii.eqb c4 "}" then Some (VDict (dset k v acc), r4)
                              else if Ascii.eqb c4 "," then
                                parse_members f (skip_ws r4) (dset k v acc)
                              else None
                          | EmptyString => None
                          end
                      | None => None
                      end
                    else None
                | EmptyString => None
                end
            | None => None
            end
          else None
      | EmptyString => None
      end
  end.

(** [json.loads(s)] *)
Definition json_loads (s : string) : result pyval :=
  match parse_value (2 * String.length s + 2) (skip_ws s) with
  | Some (v, r) =>
      if is_empty (skip_ws r) then Ok v else Raise (Exn JSONDecodeError "Extra data")
  | None => Raise (Exn JSONDecodeError "Expecting value")
  end.

(** ** Round trip *)

(** What parsing a printed value gives: the keys in printed order. *)
Fixpoint json_norm (sorted : bool) (v : pyval) : pyval :=
  match v with
  | VList l => VList (json_norm sorted <$> l)
  | VDict d => VDict (order_items sorted ((fun p => (fst p, json_norm sorted (snd p))) <$> d))
  | _ => v
  end.

(** Whether the text of a float reads back as that float.  Python documents
    that [repr] always does; here it is a test. *)
Definition float_reads (f : float) : bool :=
  let back (p : option (pyval * string)) :=
    match p with
    | Some (VFloat g, r) => bool_decide (g = f) && is_empty r
    | _ => false
    end in
  match json_float f with
  | String c t => if Ascii.eqb c "-" then back (parse_number true t)
                  else back (parse_number false (String c t))
  | EmptyString => false
  end.

(** Values whose floats read back and whose dictionaries have no repeated key. *)
Fixpoint json_wf (v : pyval) : bool :=
  match v with
  | VFloat f => float_reads f
  | VList l => forallb json_wf l
  | VDict d => negb (has_dup (dkeys d)) && forallb (fun p => json_wf (snd p)) d
  | _ => true
  end.

Definition style_ok (st : json_style) : Prop :=
  (forall l, str_forallb is_ws (js_open st l) = true) /\
  (forall l, str_forallb is_ws (js_comma st l) = true) /\
  str_forallb is_ws (js_colon st) = true /\
  (forall l, str_forallb is_ws (js_close st l) = true).

(** What may follow a number without changing how it reads. *)
Definition rest_ok (s : string) : bool :=
  match s with
  | EmptyString => true
  | String c _ => negb (is_digit c || Ascii.eqb c "." || Ascii.eqb c "e" || Ascii.eqb c "E")
  end.

Lemma skip_ws_app w s : str_forallb is_ws w = true -> skip_ws (w +:+ s) = skip_ws s.
Proof.
  induction w as [|c w IH]; [done|]. cbn [str_forallb String.append skip_ws].
  intros H. bool_hyps. rewrite H. auto.
Qed.

Lemma rest_ok_ws w c s :
  str_forallb is_ws w = true -> rest_ok (String c s) = true -> rest_ok (w +:+ String c s) = true.
Proof.
  destruct w as [|d w]; [done|]. cbn [str_forallb String.append rest_ok]. intros H _.
  bool_hyps. clear H0. destruct d as [[] [] [] [] [] [] [] []]; try discriminate H; reflexivity.
Qed.

Lemma parse_char_json c r :
  exists a t, json_char c +:+ r = String a t /\ (code a =? 34) = false /\
              parse_char (json_char c +:+ r) = Some (c, r).
Proof.
  destruct c as [[] [] [] [] [] [] [] []]; do 2 eexists;
    (split; [reflexivity|]); split; reflexivity.
Qed.

Lemma parse_string_json fuel k r :
  (String.length k < fuel)%nat ->
  parse_string fuel (concat_map_str json_char k +:+ String dquote r) = Some (k, r).
Proof.
  revert k. induction fuel as [|fuel IH]; intros k Hk; [lia|].
  destruct k as [|c k]; [reflexivity|].
  cbn [concat_map_str]. rewrite str_app_assoc. simpl in Hk.
  destruct (parse_char_json c (concat_map_str json_char k +:+ String dquote r))
    as (a & t & Heq & Ha & Hp).
  cbn [parse_string]. rewrite Heq, Ha, <- Heq, Hp, IH by lia. done.
Qed.

Lemma length_json_chars k : (String.length k <= String.length (concat_map_str json_char k))%nat.
Proof.
  induction k as [|c k IH]; [done|]. cbn [concat_map_str String.length]. rewrite length_str_app.
  assert (1 <= String.length (json_char c))%nat; [|lia].
  destruct (parse_char_json c "") as (a & t & Heq & _). rewrite str_app_nil_r in Heq.
  rewrite Heq. simpl. lia.
Qed.

Lemma span_digits_app s r :
  str_forallb is_digit s = true -> rest_ok r = true -> span_while is_digit (s +:+ r) = (s, r).
Proof.
  intros Hs Hr. induction s as [|c s IH]; cbn [String.append str_forallb span_while] in *.
  - destruct r as [|c r]; [done|]. cbn [rest_ok span_while] in *. bool_hyps. by rewrite H.
  - bool_hyps. rewrite H. by rewrite IH.
Qed.

Lemma digits_value_pretty (n : N) : digits_value (pretty n) = Z.of_N n.
Proof.
  destruct (pretty_N_digits n) as (H & _ & Hh). unfold digits_value, parse_nat in *.
  destruct (pretty n) as [|c t]; [done|]. simpl in Hh. rewrite Hh in H. by rewrite H.
Qed.

Lemma parse_number_pretty neg (n : N) r :
  rest_ok r = true ->
  parse_number neg (pretty n +:+ r) = Some (VInt (if neg then - Z.of_N n else Z.of_N n), r).
Proof.
  intros Hr.
  assert (parse_frac r = ("", r)) as Hf.
  { destruct r as [|c r]; [done|]. cbn [rest_ok parse_frac] in *. bool_hyps. by rewrite H2. }
  assert (parse_exp r = (None, r)) as He.
  { destruct r as [|c r]; [done|]. cbn [rest_ok parse_exp] in *. bool_hyps. by rewrite H0, H1. }
  assert (forall p : string * string, p = (pretty n, r) ->
    (let '(ip, r) := p in
     if is_empty ip then None
     else let '(fr, r1) := parse_frac r in let '(ex, r2) := parse_exp r1 in
       if is_empty fr && match ex with None => true | Some _ => false end
       then Some (VInt (if neg then - digits_value ip else digits_value ip), r)
       else let x := float_of_dec (digits_value (ip +:+ fr)) (default 0 ex - slen fr) in
            Some (VFloat (if neg then fopp x else x), r2))
    = Some (VInt (if neg then - Z.of_N n else Z.of_N n), r)) as Hgo.
  { intros p ->. destruct (pretty_N_digits n) as (_ & _ & Hh).
    assert (is_empty (pretty n) = false) as -> by by destruct (pretty n).
    rewrite Hf, He. simpl. by rewrite digits_value_pretty. }
  unfold parse_number. apply Hgo. clear Hgo Hf He.
  destruct (pretty_N_digits n) as (_ & Hd & Hh).
  destruct (decide (n = 0%N)) as [->|Hn]; [reflexivity|].
  assert (match pretty n with String c _ => between 49 57 (code c) = true | "" => False end) as H19.
  { unfold pretty, pretty_N. case_decide; [done|]. apply pretty_head19. lia. }
  destruct (pretty n) as [|c t] eqn:Ep; [done|]. cbn [String.append].
  destruct (Ascii.eqb_spec c "0") as [->|]; [done|].
  change (String c (t +:+ r)) with (String c t +:+ r). by apply span_digits_app.
Qed.

Lemma str_of_Z_text z :
  str_of_Z z = if z <? 0 then "-" +:+ pretty (Z.to_N (- z)) else pretty (Z.to_N z).
Proof. by destruct z. Qed.

Lemma parse_int_text fuel z r :
  rest_ok r = true -> parse_value (S fuel) (str_of_Z z +:+ r) = Some (VInt z, r).
Proof.
  intros Hr. rewrite str_of_Z_text. destruct (z <? 0) eqn:E; bool_hyps.
  - pose proof (parse_number_pretty true (Z.to_N (- z)) r Hr) as Hp.
    rewrite Z2N.id, Z.opp_involutive in Hp by lia. rewrite <- Hp.
    destruct (pretty_N_digits (Z.to_N (- z))) as (_ & _ & Hh).
    destruct (pretty (Z.to_N (- z))) as [|c t]; [done|]. simpl in Hh. clear Hp.
    destruct c as [[] [] [] [] [] [] [] []]; try discriminate Hh; reflexivity.
  - pose proof (parse_number_pretty false (Z.to_N z) r Hr) as Hp.
    rewrite Z2N.id in Hp by lia. rewrite <- Hp.
    destruct (pretty_N_digits (Z.to_N z)) as (_ & _ & Hh).
    destruct (pretty (Z.to_N z)) as [|c t]; [done|]. simpl in Hh. clear Hp.
    destruct c as [[] [] [] [] [] [] [] []]; try discriminate Hh; reflexivity.
Qed.

Lemma span_while_app s r :
  rest_ok r = true ->
  span_while is_digit (s +:+ r) =
  (fst (span_while is_digit s), snd (span_while is_digit s) +:+ r).
Proof.
  intros Hr. induction s as [|c s IH].
  - cbn [String.append span_while fst snd]. destruct r as [|c r]; [done|]. cbn [rest_ok] in Hr.
    cbn [span_while]. destruct (is_digit c); [done|done].
  - cbn [String.append span_while]. destruct (is_digit c); [|done]. rewrite IH.
    by destruct (span_while is_digit s).
Qed.

Lemma parse_frac_app s r :
  rest_ok r = true -> parse_frac (s +:+ r) = (fst (parse_frac s), snd (parse_frac s) +:+ r).
Proof.
  intros Hr. destruct s as [|c s].
  - cbn [String.append parse_frac fst snd]. destruct r as [|c r]; [done|]. cbn [rest_ok parse_frac] in *.
    destruct (Ascii.eqb c "."); [|done]. by rewrite orb_true_r in Hr.
  - cbn [String.append parse_frac]. destruct (Ascii.eqb c "."); [|done].
    rewrite span_while_app by done. destruct (span_while is_digit s) as [d q]. cbn [fst snd].
    by destruct (is_empty d).
Qed.

Lemma parse_exp_app s r :
  rest_ok r = true -> snd (parse_exp s) = "" -> parse_exp (s +:+ r) = (fst (parse_exp s), r).
Proof.
  intros Hr. destruct s as [|c s].
  - intros _. cbn [String.append parse_exp fst]. destruct r as [|c r]; [done|]. cbn [rest_ok parse_exp] in *.
    destruct (Ascii.eqb c "e"), (Ascii.eqb c "E"); rewrite ?orb_true_r in Hr; done.
  - cbn [String.append parse_exp]. destruct (_ || _); [|done].
    destruct s as [|d s]; [done|]. cbn [String.append].
    destruct (if Ascii.eqb d "-" then _ else _) as [sgn t] eqn:E.
    assert ((if Ascii.eqb d "-" then (-1, s +:+ r)
             else if Ascii.eqb d "+" then (1, s +:+ r) else (1, String d (s +:+ r))) = (sgn, t +:+ r)) as ->.
    { destruct (Ascii.eqb d "-"), (Ascii.eqb d "+"); by injection E as <- <-. }
    rewrite span_while_app by done. destruct (span_while is_digit t) as [ds q]. cbn [fst snd].
    destruct (is_empty ds); [done|]. cbn [fst snd]. by intros ->.
Qed.

(** A number that was read to the end of a text reads the same before
    anything that does not continue it. *)
Lemma parse_number_app neg s v r :
  rest_ok r = true -> parse_number neg s = Some (v, "") -> parse_number neg (s +:+ r) = Some (v, r).
Proof.
  intros Hr. unfold parse_number.
  assert (forall p : string * string,
    p = (match s with
         | String c s' => if Ascii.eqb c "0" then ("0", s') else span_while is_digit s
         | EmptyString => ("", "")
         end) ->
    s <> "" ->
    (match s +:+ r with
     | String c s' => if Ascii.eqb c "0" then ("0", s') else span_while is_digit (s +:+ r)
     | EmptyString => ("", "")
     end) = (fst p, snd p +:+ r)) as Hp.
  { intros p -> Hs. destruct s as [|c s]; [done|]. cbn [String.append].
    destruct (Ascii.eqb c "0"); [done|]. exact (span_while_app (String c s) r Hr). }
  destruct s as [|c s]; [done|]. specialize (Hp _ eq_refl ltac:(done)). rewrite Hp. clear Hp.
  destruct (if Ascii.eqb c "0" then _ else _) as [ip q]. cbn [fst snd].
  destruct (is_empty ip); [done|]. rewrite parse_frac_app by done.
  destruct (parse_frac q) as [fr r1] eqn:Ef. cbn [fst snd].
  destruct (parse_exp r1) as [ex r2] eqn:Ee. intros E.
  assert (r2 = "" /\ (is_empty fr && match ex with None => true | Some _ => false end = true -> q = ""))
    as [-> Hq].
  { destruct (is_empty fr && _) eqn:Eb; injection E as _ E; [|by split].
    subst q. cbn in Ef. injection Ef as <- <-. cbn in Ee. by injection Ee as <- <-. }
  rewrite parse_exp_app by (done || by rewrite Ee). rewrite Ee. cbn [fst].
  destruct (is_empty fr && _); [|by injection E as <-].
  specialize (Hq eq_refl). subst q. by injection E as <-.
Qed.

Lemma float_reads_text f :
  float_reads f = true ->
  (exists t, json_float f = String "-" t /\ parse_number true t = Some (VFloat f, "")) \/
  (exists c t, json_float f = String c t /\ is_digit c = true /\
               parse_number false (String c t) = Some (VFloat f, "")).
Proof.
  unfold float_reads. destruct (json_float f) as [|c t]; [done|].
  destruct (Ascii.eqb_spec c "-") as [->|].
  - intros Hb. left. exists t. split; [done|].
    destruct (parse_number true t) as [[v r]|]; [|done]. destruct v; try done. bool_hyps.
    case_bool_decide; [|done]. subst. by destruct r.
  - intros Hb. right. exists c, t. split; [done|].
    destruct (parse_number false (String c t)) as [[v r]|] eqn:E; [|done]. split.
    + unfold parse_number in E. destruct (Ascii.eqb_spec c "0") as [->|]; [done|].
      cbn [span_while] in E. by destruct (is_digit c).
    + destruct v; try done. bool_hyps. case_bool_decide; [|done]. subst. by destruct r.
Qed.

Lemma parse_float_text fuel f r :
  float_reads f = true -> rest_ok r = true ->
  parse_value (S fuel) (json_float f +:+ r) = Some (VFloat f, r).
Proof.
  intros Hf Hr. destruct (float_reads_text f Hf) as [(t & -> & Hp)|(c & t & -> & Hc & Hp)].
  - pose proof (parse_number_app true t _ r Hr Hp) as Ha. cbn [String.append]. rewrite <- Ha.
    destruct t as [|d t]; [done|].
    assert (is_digit d = true) as Hd.
    { unfold parse_number in Hp. destruct (Ascii.eqb_spec d "0") as [->|]; [done|].
      cbn [span_while] in Hp. by destruct (is_digit d). }
    clear -Hd. destruct d as [[] [] [] [] [] [] [] []]; try discriminate Hd; reflexivity.
  - pose proof (parse_number_app false _ _ r Hr Hp) as Ha. cbn [String.append] in *. rewrite <- Ha.
    clear -Hc. destruct c as [[] [] [] [] [] [] [] []]; try discriminate Hc; reflexivity.
Qed.

(** A printed value starts with a character that is neither blank nor a
    closing bracket. *)
Definition good_head (s : string) : Prop :=
  exists c t, s = String c t /\ is_ws c = false /\ Ascii.eqb c "]" = false.

Lemma json_text_head st lvl v : json_wf v = true -> good_head (json_text st lvl v).
Proof.
  unfold good_head. destruct v as [|b|z|f|s|l|d]; intros Hwf; try done.
  - by do 2 eexists.
  - destruct b; by do 2 eexists.
  - cbn [json_text]. rewrite str_of_Z_text. destruct (z <? 0); [by do 2 eexists|].
    destruct (pretty_N_digits (Z.to_N z)) as (_ & _ & Hh).
    destruct (pretty (Z.to_N z)) as [|c t]; [done|]. exists c, t. split; [done|]. simpl in Hh.
    clear -Hh. destruct c as [[] [] [] [] [] [] [] []]; try discriminate Hh; by split.
  - cbn [json_text json_wf] in *. destruct (float_reads_text f Hwf) as [(t & -> & _)|(c & t & -> & Hc & _)].
    + by do 2 eexists.
    + exists c, t. clear -Hc. destruct c as [[] [] [] [] [] [] [] []]; try discriminate Hc; by split.
  - by do 2 eexists.
  - destruct l; by do 2 eexists.
  - destruct d; by do 2 eexists.
Qed.

Lemma join_cons_head sep x l : exists t, join sep (x :: l) = x +:+ t.
Proof. destruct l; [exists ""; by rewrite str_app_nil_r|by eexists]. Qed.

Lemma good_head_join sep x l : good_head x -> good_head (join sep (x :: l)).
Proof.
  intros (c & t & -> & ? & ?). destruct (join_cons_head sep (String c t) l) as [u ->].
  by exists c, (t +:+ u).
Qed.

Lemma skip_ws_head s r : good_head s -> skip_ws (s +:+ r) = s +:+ r.
Proof. intros (c & t & -> & Hw & _). simpl. by rewrite Hw. Qed.

(** Sorting by key does not look at the values. *)
Lemma insert_sorted_map {A B} (f : A -> B) (x : string * A) l :
  insert_sorted key_leb (fst x, f (snd x)) ((fun p => (fst p, f (snd p))) <$> l) =
  (fun p => (fst p, f (snd p))) <$> insert_sorted key_leb x l.
Proof.
  induction l as [|y l IH]; [done|]. cbn [fmap list_fmap insert_sorted].
  unfold key_leb at 1 3. cbn [fst]. destruct (String.leb (fst x) (fst y)); [done|].
  cbn [fmap list_fmap]. f_equal. exact IH.
Qed.

Lemma order_items_map {A B} (f : A -> B) sorted (d : list (string * A)) :
  order_items sorted ((fun p => (fst p, f (snd p))) <$> d) =
  (fun p => (fst p, f (snd p))) <$> order_items sorted d.
Proof.
  destruct sorted; [|done]. unfold order_items, sort_by.
  induction d as [|x d IH]; [done|]. cbn [fmap list_fmap foldr].
  rewrite <- insert_sorted_map. f_equal. exact IH.
Qed.

Lemma order_items_perm {A} sorted (d : list (string * A)) : order_items sorted d ≡ₚ d.
Proof. destruct sorted; [apply sort_by_perm|done]. Qed.

Lemma dset_fresh k v d : k ∉ dkeys d -> dset k v d = (d ++ [(k, v)])%list.
Proof.
  unfold dkeys. induction d as [|[k' v'] d IH]; [done|].
  cbn [dset fmap list_fmap fst]. rewrite not_elem_of_cons. intros [Hne Hni].
  apply String.eqb_neq in Hne. rewrite Hne. by rewrite IH.
Qed.

Section RoundTrip.
Variable st : json_style.
Hypothesis Hst : style_ok st.

(** Printing then parsing one value, whatever follows it. *)
Definition reads_back (v : pyval) : Prop :=
  forall lvl fuel r,
    (2 * String.length (json_text st lvl v) < fuel)%nat -> rest_ok r = true ->
    parse_value fuel (json_text st lvl v +:+ r) = Some (json_norm (js_sorted st) v, r).

Lemma parse_items_text l lvl fuel acc close r :
  l <> [] -> Forall (fun v => json_wf v = true /\ reads_back v) l ->
  str_forallb is_ws close = true ->
  let text := join ("," +:+ js_comma st lvl) (json_text st (S lvl) <$> l) in
  (2 * String.length text + 1 < fuel)%nat ->
  parse_items fuel (text +:+ close +:+ "]" +:+ r) acc =
  Some (VList (acc ++ (json_norm (js_sorted st) <$> l)), r).
Proof.
  destruct Hst as (_ & Hcomma & _ & _). intros Hne Hall Hc. revert fuel acc.
  induction l as [|v l IH]; [done|]. intros fuel acc text Hfuel.
  inversion Hall as [|? ? [Hwf Hv] Hl]; subst. clear Hall.
  destruct fuel as [|fuel]; [lia|]. destruct l as [|w l].
  - subst text. cbn [fmap list_fmap join] in *. cbn [parse_items].
    rewrite Hv; [|lia|by apply rest_ok_ws].
    rewrite skip_ws_app by done. reflexivity.
  - assert (text = json_text st (S lvl) v +:+ "," +:+ js_comma st lvl +:+
      join ("," +:+ js_comma st lvl) (json_text st (S lvl) <$> (w :: l))) as Htext.
    { subst text. cbn [fmap list_fmap join]. by rewrite str_app_assoc. }
    rewrite Htext in *. clear Htext text. rewrite !length_str_app in Hfuel.
    cbn [parse_items]. rewrite !str_app_assoc. rewrite Hv; [|lia|done].
    change (skip_ws ("," +:+ ?x)) with ("," +:+ x). cbn [String.append].
    rewrite skip_ws_app by done.
    assert (good_head (join ("," +:+ js_comma st lvl) (json_text st (S lvl) <$> (w :: l)))) as Hh.
    { inversion Hl as [|? ? [Hwfw _] _]; subst. by apply good_head_join, json_text_head. }
    rewrite skip_ws_head by done.
    simpl (String.length ",") in Hfuel.
    etransitivity.
    { exact (IH ltac:(done) Hl fuel (acc ++ [json_norm (js_sorted st) v])%list ltac:(lia)). }
    by rewrite <- app_assoc.
Qed.

Definition member_text (lvl : nat) (p : string * pyval) : string :=
  json_string (fst p) +:+ ":" +:+ js_colon st +:+ json_text st (S lvl) (snd p).

Lemma parse_members_text d lvl fuel acc close r :
  d <> [] -> Forall (fun p => json_wf (snd p) = true /\ reads_back (snd p)) d ->
  NoDup (dkeys acc ++ dkeys d) -> str_forallb is_ws close = true ->
  let text := join ("," +:+ js_comma st lvl) (member_text lvl <$> d) in
  (2 * String.length text + 1 < fuel)%nat ->
  parse_members fuel (text +:+ close +:+ "}" +:+ r) acc =
  Some (VDict (acc ++ ((fun p => (fst p, json_norm (js_sorted st) (snd p))) <$> d)), r).
Proof.
  destruct Hst as (_ & Hcomma & Hcolon & _). intros Hne Hall Hnd Hc. revert fuel acc Hnd.
  induction d as [|[k v] d IH]; [done|]. intros fuel acc Hnd text Hfuel.
  inversion Hall as [|? ? [Hwf Hv] Hl]; subst. cbn [fst snd] in *. clear Hall.
  destruct fuel as [|fuel]; [lia|].
  assert (k ∉ dkeys acc) as Hk.
  { apply NoDup_app in Hnd as (_ & Hdis & _). intros Hin. apply (Hdis k Hin). left. }
  (* one member, whatever follows *)
  assert (forall tail, rest_ok tail = true ->
    (2 * String.length (member_text lvl (k, v)) < fuel)%nat ->
    parse_members (S fuel) (member_text lvl (k, v) +:+ tail) acc =
    match skip_ws tail with
    | String c4 r4 =>
        if Ascii.eqb c4 "}" then
          Some (VDict (acc ++ [(k, json_norm (js_sorted st) v)]), r4)
        else if Ascii.eqb c4 "," then
          parse_members fuel (skip_ws r4) (acc ++ [(k, json_norm (js_sorted st) v)])
        else None
    | EmptyString => None
    end) as Hone.
  { intros tail Htail Hlen. unfold member_text, json_string in *. cbn [fst snd] in *.
    rewrite !str_app_assoc. rewrite !length_str_app in Hlen. cbn [String.append char_str parse_members].
    change (code dquote =? 34) with true. cbn iota.
    rewrite parse_string_json.
    2: { rewrite !length_str_app. pose proof (length_json_chars k). lia. }
    change (skip_ws (String ":" ?x)) with (String ":" x). cbn iota.
    change (Ascii.eqb ":" ":") with true. cbn iota.
    rewrite skip_ws_app, skip_ws_head by (done || by apply json_text_head).
    rewrite Hv by (done || lia). by rewrite dset_fresh. }
  destruct d as [|[k2 v2] d].
  - subst text. cbn [fmap list_fmap join] in *.
    rewrite Hone; [|by apply rest_ok_ws|lia]. rewrite skip_ws_app by done. reflexivity.
  - assert (text = member_text lvl (k, v) +:+ "," +:+ js_comma st lvl +:+
      join ("," +:+ js_comma st lvl) (member_text lvl <$> ((k2, v2) :: d))) as Htext.
    { subst text. cbn [fmap list_fmap join]. by rewrite str_app_assoc. }
    rewrite Htext in *. clear Htext text. rewrite !length_str_app in Hfuel.
    rewrite !str_app_assoc. rewrite Hone; [|done|lia].
    change (skip_ws ("," +:+ ?x)) with ("," +:+ x). cbn [String.append].
    change (Ascii.eqb "," "}") with false. change (Ascii.eqb "," ",") with true. cbn iota.
    rewrite skip_ws_app by done. rewrite skip_ws_head.
    2: { apply good_head_join. by do 2 eexists. }
    simpl (String.length ",") in Hfuel.
    etransitivity.
    { refine (IH ltac:(done) Hl fuel (acc ++ [(k, json_norm (js_sorted st) v)])%list _ ltac:(lia)).
      unfold dkeys in *. rewrite fmap_app. simpl. rewrite <- app_assoc. exact Hnd. }
    by rewrite <- app_assoc.
Qed.

Lemma json_reads_back v : json_wf v = true -> reads_back v.
Proof.
  induction v as [|b|z|f|s|l IHl|d IHd] using pyval_nested_ind; intros Hwf lvl fuel r Hfuel Hr;
    try done; (destruct fuel as [|fuel]; [lia|]).
  - by destruct r.
  - destruct b; by destruct r.
  - by apply parse_int_text.
  - by apply parse_float_text.
  - cbn [json_text json_norm]. unfold json_string. rewrite !str_app_assoc.
    cbn [char_str String.append parse_value].
    change (code dquote =? 34) with true. cbn iota. rewrite parse_string_json; [done|].
    rewrite !length_str_app. pose proof (length_json_chars s). lia.
  - destruct l as [|v l]; [reflexivity|]. cbn [json_wf] in Hwf.
    assert (Forall (fun v => json_wf v = true /\ reads_back v) (v :: l)) as Hall.
    { rewrite forallb_forall in Hwf. rewrite list.Forall_forall in IHl |- *. intros w Hw.
      assert (json_wf w = true) by (by apply Hwf, list_elem_of_In). split; [done|]. by apply IHl. }
    cbn [json_text] in *. rewrite !length_str_app in Hfuel. simpl (String.length "[") in Hfuel.
    rewrite !str_app_assoc. cbn [String.append parse_value].
    change (code "[" =? 34) with false. change (Ascii.eqb "[" "[") with true. cbn iota.
    destruct Hst as (Hopen & _ & _ & Hclose). rewrite skip_ws_app by done.
    set (text := join _ (json_text st (S lvl) <$> (v :: l))) in *.
    assert (good_head text) as Hh.
    { inversion Hall as [|? ? [Hw _] _]; subst. by apply good_head_join, json_text_head. }
    rewrite skip_ws_head by done.
    pose proof (parse_items_text (v :: l) lvl fuel [] (js_close st lvl) r ltac:(done) Hall
      (Hclose lvl) ltac:(fold text; lia)) as Hp. cbv zeta in Hp. fold text in Hp.
    destruct Hh as (c & t & Ht & _ & Hc). rewrite Ht in *. cbn [String.append] in *.
    rewrite Hc. exact Hp.
  - destruct d as [|p0 d0]; [by unfold json_norm; destruct (js_sorted st)|]. set (d := p0 :: d0) in *. cbn [json_wf] in Hwf. bool_hyps.
    set (d' := order_items (js_sorted st) d).
    assert (d' ≡ₚ d) as Hperm by apply order_items_perm.
    assert (Forall (fun p => json_wf (snd p) = true /\ reads_back (snd p)) d') as Hall.
    { rewrite Hperm. rewrite forallb_forall in H0. rewrite list.Forall_forall in IHd |- *.
      intros w Hw. assert (json_wf (snd w) = true) by (by apply H0, list_elem_of_In).
      split; [done|]. by apply IHd. }
    assert (NoDup (dkeys d')) as Hnd.
    { unfold dkeys. rewrite Hperm. by apply has_dup_false. }
    assert (d' <> []) as Hne.
    { intros E. rewrite E in Hperm. by apply Permutation_nil in Hperm. }
    cbn [json_text json_norm] in *. subst d. cbv zeta in *.
    rewrite (order_items_map (json_text st (S lvl))) in *.
    rewrite (order_items_map (json_norm (js_sorted st))).
    fold d' in Hfuel |- *. rewrite <- list_fmap_compose in *.
    set (text := join _ (_ <$> d')) in *.
    assert (text = join ("," +:+ js_comma st lvl) (member_text lvl <$> d')) as Htext by done.
    clearbody text.
    rewrite !length_str_app in Hfuel. simpl (String.length "{") in Hfuel.
    rewrite !str_app_assoc. cbn [String.append parse_value].
    change (code "{" =? 34) with false. change (Ascii.eqb "{" "[") with false.
    change (Ascii.eqb "{" "{") with true. cbn iota.
    destruct Hst as (Hopen & _ & _ & Hclose). rewrite skip_ws_app by done.
    pose proof (parse_members_text d' lvl fuel [] (js_close st lvl) r Hne Hall Hnd
      (Hclose lvl) ltac:(rewrite <- Htext; lia)) as Hp. cbv zeta in Hp. rewrite <- Htext in Hp.
    assert (exists t, text = String dquote t) as [t Ht].
    { rewrite Htext. destruct d' as [|p d']; [done|].
      destruct (join_cons_head ("," +:+ js_comma st lvl) (member_text lvl p) (member_text lvl <$> d'))
        as [u Hu]. rewrite fmap_cons, Hu. by eexists. }
    rewrite Ht in *. exact Hp.
Qed.
End RoundTrip.

Lemma canonical_style_ok : style_ok canonical_style.
Proof. by repeat split. Qed.
Lemma plain_style_ok sorted : style_ok (plain_style sorted).
Proof. by repeat split. Qed.
Lemma indent_style_ok sorted : style_ok (indent_style sorted).
Proof.
  assert (forall n, str_forallb is_ws (newline +:+ spaces n) = true) as H.
  { intros n. rewrite str_forallb_app. simpl. by induction n. }
  repeat split; intros; apply H.
Qed.
#[export] Hint Resolve canonical_style_ok plain_style_ok indent_style_ok : k8.

(** Loading a printed document followed by blanks, as the files are written. *)
Lemma json_loads_text st v w :
  style_ok st -> json_wf v = true -> str_forallb is_ws w = true ->
  json_loads (json_text st 0 v +:+ w) = Ok (json_norm (js_sorted st) v).
Proof.
  intros Hst Hwf Hw. unfold json_loads.
  rewrite skip_ws_head by by apply json_text_head.
  rewrite (json_reads_back st Hst v Hwf).
  - pose proof (skip_ws_app w "" Hw) as Hs. rewrite str_app_nil_r in Hs. by rewrite Hs.
  - rewrite length_str_app. lia.
  - destruct w as [|c w]; [done|]. cbn [str_forallb] in Hw. bool_hyps. clear H0.
    destruct c as [[] [] [] [] [] [] [] []]; try discriminate H; reflexivity.
Qed.

(** ** The printed order *)

Lemma key_leb_total {A} (p q : string * A) : key_leb p q = true \/ key_leb q p = true.
Proof. apply String.leb_total. Qed.
Lemma key_leb_trans {A} (p q r : string * A) :
  key_leb p q = true -> key_leb q r = true -> key_leb p r = true.
Proof. apply string_leb_trans. Qed.

Lemma order_items_idem {A} sorted (d : list (string * A)) :
  order_items sorted (order_items sorted d) = order_items sorted d.
Proof.
  destruct sorted; [|done]. unfold order_items. apply sort_by_id.
  apply sort_by_sorted; [apply key_leb_total|apply key_leb_trans].
Qed.

(** A normalised value prints like the value. *)
Lemma json_text_norm st lvl v :
  json_text st lvl (json_norm (js_sorted st) v) = json_text st lvl v.
Proof.
  revert lvl. induction v as [|b|z|f|s|l IHl|d IHd] using pyval_nested_ind; intros lvl; try done.
  - destruct l as [|x l]; [done|].
    assert (json_text st (S lvl) <$> (json_norm (js_sorted st) <$> (x :: l)) =
            json_text st (S lvl) <$> (x :: l)) as E.
    { rewrite <- list_fmap_compose. apply list_fmap_ext. intros i y Hy.
      rewrite list.Forall_forall in IHl. simpl. apply IHl. by apply (list_elem_of_lookup_2 _ i). }
    change (json_norm (js_sorted st) (VList (x :: l))) with
      (VList (json_norm (js_sorted st) x :: (json_norm (js_sorted st) <$> l))).
    cbn [json_text]. change (json_norm (js_sorted st) x :: (json_norm (js_sorted st) <$> l)) with
      (json_norm (js_sorted st) <$> (x :: l)). by rewrite E.
  - cbn [json_norm]. set (d' := order_items _ _).
    assert (order_items (js_sorted st) ((fun p => (fst p, json_text st (S lvl) (snd p))) <$> d') =
            order_items (js_sorted st) ((fun p => (fst p, json_text st (S lvl) (snd p))) <$> d)) as E.
    { unfold d'. rewrite <- (order_items_map (json_text st (S lvl))), order_items_idem.
      f_equal. rewrite <- list_fmap_compose. apply list_fmap_ext. intros i y Hy.
      rewrite list.Forall_forall in IHd. simpl. f_equal. apply IHd. by apply (list_elem_of_lookup_2 _ i). }
    assert (d' ≡ₚ (fun p => (fst p, json_norm (js_sorted st) (snd p))) <$> d) as Hp
      by apply order_items_perm.
    destruct d as [|p0 d]; [apply Permutation_nil_r in Hp; by rewrite Hp|].
    destruct d' as [|q0 d''] eqn:Ed; [by apply Permutation_nil in Hp|].
    cbn [json_text]. by rewrite E.
Qed.

(** ** Looking up in a parsed document *)

Lemma dget_elem k v d : NoDup (dkeys d) -> dget k d = Some v <-> (k, v) ∈ d.
Proof.
  induction d as [|[k' v'] d IH]; simpl; intros Hnd; [by split; [|intros ?%not_elem_of_nil]|].
  apply list.NoDup_cons in Hnd as [Hni Hnd]. rewrite list.elem_of_cons. destruct (String.eqb_spec k k') as [->|Hne].
  - split; [intros [= ->]; by left|]. intros [[= ->]|Hin]; [done|]. exfalso. apply Hni.
    apply list_elem_of_fmap. by exists (k', v).
  - rewrite IH by done. split; [by right|]. intros [[= -> ->]|?]; [done|done].
Qed.

Lemma dget_perm k d d' : NoDup (dkeys d) -> d ≡ₚ d' -> dget k d = dget k d'.
Proof.
  intros Hnd Hp. assert (NoDup (dkeys d')) as Hnd' by (unfold dkeys in *; by rewrite <- Hp).
  apply option_eq. intros v. rewrite !dget_elem by done. by rewrite Hp.
Qed.

Lemma dget_map k (f : pyval -> pyval) d : dget k ((fun p => (fst p, f (snd p))) <$> d) = f <$> dget k d.
Proof. induction d as [|[k' v] d IH]; simpl; [done|]. by destruct (k =? k')%string. Qed.

(** What is found in a dictionary that was printed and parsed. *)
Lemma dget_json_norm sorted k d d' :
  json_wf (VDict d) = true -> json_norm sorted (VDict d) = VDict d' ->
  dget k d' = json_norm sorted <$> dget k d.
Proof.
  intros Hwf [= <-]. cbn [json_wf] in Hwf. apply andb_true_iff in Hwf as [Hnd _].
  apply negb_true_iff, has_dup_false in Hnd. rewrite <- (dget_map k (json_norm sorted)). symmetry.
  apply dget_perm; [|symmetry; apply order_items_perm].
  unfold dkeys. rewrite <- list_fmap_compose. exact Hnd.
Qed.

Lemma json_wf_dget k d v : json_wf (VDict d) = true -> dget k d = Some v -> json_wf v = true.
Proof.
  cbn [json_wf]. intros [_ Hf]%andb_true_iff. induction d as [|[k' v'] d IH]; simpl; [done|].
  simpl in Hf. apply andb_true_iff in Hf as [Hv Hf]. destruct (k =? k')%string; [by intros [= <-]|auto].
Qed.
