(* ===== verification/PyConv.v ===== *)
(** Conversions of dynamically typed values: [int(v)], [float(v)] and the
    fixed-point format; what [format] prints, [float()] reads. *)

From Stdlib Require Import ZArith Bool Ascii String Lia SpecFloat.
From stdpp Require Import base list strings option pretty.
From S2P Require Import Prelude PyStr PyFloat PyVal Json.

Open Scope string_scope.
Open Scope Z_scope.

(** Removes underscores that stand between two digits; [None] for any other
    underscore. *)
Fixpoint drop_underscores (prev : bool) (s : string) : option string :=
  match s with
  | EmptyString => Some ""
  | String c s' =>
      if Ascii.eqb c "_" then
        match s' with
        | String d _ => if prev && is_digit d then drop_underscores false s' else None
        | EmptyString => None
        end
      else String c <$> drop_underscores (is_digit c) s'
  end.

(** An unsigned decimal literal or name, all of the text. *)
Definition parse_ufloat (s : string) : option float :=
  let t := str_lower s in
  if mem_string t ["inf"; "infinity"] then Some (S754_infinity false)
  else if String.eqb t "nan" then Some S754_nan
  else
    let '(ip, r) := span_while is_digit s in
    let '(fr, r1) :=
      match r with
      | String c r' => if Ascii.eqb c "." then span_while is_digit r' else ("", r)
      | EmptyString => ("", "")
      end in
    let '(ex, r2) := parse_exp r1 in
    if is_empty (ip +:+ fr) || negb (is_empty r2) then None
    else Some (float_of_dec (digits_value (ip +:+ fr)) (default 0 ex - slen fr)).

(** [float(s)]; [None] where Python raises [ValueError]. *)
Definition py_float (s : string) : option float :=
  match drop_underscores false (strip s) with
  | None => None
  | Some t =>
      match t with
      | String c t' =>
          if Ascii.eqb c "-" then fopp <$> parse_ufloat t'
          else if Ascii.eqb c "+" then parse_ufloat t'
          else parse_ufloat t
      | EmptyString => None
      end
  end.

(** [float(v)] *)
Definition float_of_val (v : pyval) : result float :=
  match v with
  | VStr s =>
      match py_float s with
      | Some x => Ok x
      | None => Raise (Exn ValueError ("could not convert string to float: " +:+ repr_str s))
      end
  | _ => float_of_num v
  end.

(** [int(v)] *)
Definition int_of_val (v : pyval) : result Z :=
  match v with
  | VInt z => Ok z
  | VBool b => Ok (b2z b)
  | VFloat f => int_of_float f
  | VStr s =>
      match py_int s with
      | Some z => Ok z
      | None => Raise (Exn ValueError ("invalid literal for int() with base 10: " +:+ repr_str s))
      end
  | _ => Raise (Exn TypeError "int() argument must be a string, a bytes-like object or a real number")
  end.

(** [f"{v:.nf}"] *)
Definition format_val_f (n : nat) (v : pyval) : result string :=
  match v with
  | VStr _ => Raise (Exn ValueError "Unknown format code 'f' for object of type 'str'")
  | VInt _ | VBool _ | VFloat _ => let* x := float_of_num v in Ok (format_f n x)
  | _ => Raise (Exn TypeError "unsupported format string passed to __format__")
  end.

(** [k in v] for a string key. *)
Definition py_in (k : string) (v : pyval) : result bool :=
  match v with
  | VDict d => Ok (dmem k d)
  | VStr s => Ok (contains k s)
  | VList l => Ok (existsb (py_eq (VStr k)) l)
  | _ => Raise (Exn TypeError "argument is not iterable")
  end.

Example py_float_examples :
  py_float " -1_0.5e-1 " = Some (fopp (flit 105 100)) /\ py_float "1__0" = None /\
  py_float ".5" = Some (flit 1 2) /\ py_float "." = None /\ py_float "-inf" = Some (S754_infinity true).
Proof. vm_compute. repeat split. Qed.

(** ** Texts of numbers

    What [format] prints, [float()] reads. *)

(** ** Decimal texts

    Digits, perhaps a fraction, perhaps an exponent. *)

Definition digits (s : string) : bool := str_forallb is_digit s.
Inductive frac_text : string -> Prop :=
  | no_frac : frac_text ""
  | some_frac d : digits d = true -> frac_text ("." +:+ d).
Inductive exp_text : string -> Prop :=
  | no_exp : exp_text ""
  | some_exp (sign : ascii) d : sign = "-"%char \/ sign = "+"%char -> digits d = true -> is_empty d = false ->
      exp_text ("e" +:+ String sign d).
Inductive decimal_text : string -> Prop :=
  | decimal_intro i f e : digits i = true -> is_empty i = false -> frac_text f -> exp_text e -> decimal_text (i +:+ f +:+ e).

(** The characters of such texts. *)
Definition decimal_char (c : ascii) : bool := is_digit c || mem_string (char_str c) ["."; "e"; "-"; "+"].

Lemma digits_decimal s : digits s = true -> str_forallb decimal_char s = true.
Proof. apply str_forallb_impl. intros c Hc. unfold decimal_char. by rewrite Hc. Qed.

Lemma decimal_text_chars s : decimal_text s -> str_forallb decimal_char s = true.
Proof.
  intros [i f e Hi _ Hf He]. rewrite !str_forallb_app, (digits_decimal i Hi). cbn [andb].
  destruct Hf as [|d Hd], He as [|sign x Hs Hx _]; cbn [append str_forallb];
    rewrite ?(digits_decimal d), ?str_forallb_app by done; cbn [append str_forallb];
    rewrite ?(digits_decimal x) by done; try done; by destruct Hs as [->| ->].
Qed.

Lemma decimal_char_code c : decimal_char c = true -> 48 <= code c <= 57 \/ code c ∈ [46; 101; 45; 43].
Proof.
  unfold decimal_char. intros [Hd|Hm]%orb_true_iff.
  - left. unfold is_digit, between in Hd. apply andb_true_iff in Hd as [?%Z.leb_le ?%Z.leb_le]. lia.
  - right. apply mem_string_spec in Hm. unfold char_str in Hm. rewrite !list.elem_of_cons in *.
    destruct Hm as [E|[E|[E|[E|E%not_elem_of_nil]]]]; [| | | |done]; injection E as ->; vm_compute; tauto.
Qed.

Lemma decimal_char_not_space c : decimal_char c = true -> is_space c = false.
Proof.
  intros H%decimal_char_code. unfold is_space, between. rewrite !list.elem_of_cons in H.
  destruct H as [H|[H|[H|[H|[H|H%not_elem_of_nil]]]]]; [| | | | |done]; try (rewrite H; reflexivity).
  rewrite (proj2 (Z.leb_gt (code c) 13)), (proj2 (Z.leb_gt (code c) 32)), !(proj2 (Z.eqb_neq _ _)) by lia.
  by rewrite !andb_false_r.
Qed.

Lemma drop_underscores_none s : forall prev, str_forallb decimal_char s = true -> drop_underscores prev s = Some s.
Proof.
  induction s as [|c s IH]; intros prev H; [done|]. cbn [str_forallb] in H. apply andb_true_iff in H as [Hc Hs].
  cbn [drop_underscores]. destruct (Ascii.eqb_spec c "_") as [->|_]; [done|]. by rewrite (IH _ Hs).
Qed.

Lemma digit_code c : is_digit c = true -> 48 <= code c <= 57.
Proof. unfold is_digit, between. intros [?%Z.leb_le ?%Z.leb_le]%andb_true_iff. lia. Qed.

Lemma digit_lower c : is_digit c = true -> lower_char c = c.
Proof.
  intros Hc%digit_code. unfold lower_char, is_upper_az, between.
  by rewrite (proj2 (Z.leb_gt 65 _)), (proj2 (Z.leb_gt 192 _)) by lia.
Qed.

(** ** Reading them *)

Lemma span_digits s r : digits s = true -> match r with String c _ => is_digit c = false | EmptyString => True end ->
  span_while is_digit (s +:+ r) = (s, r).
Proof.
  intros Hs Hr. induction s as [|c s IH]; cbn [append str_forallb span_while digits] in *.
  - destruct r as [|c r]; [done|]. cbn [span_while]. by rewrite Hr.
  - apply andb_true_iff in Hs as [-> Hs]. by rewrite IH.
Qed.

Lemma frac_text_read f e : frac_text f -> exp_text e ->
  exists d, (match f +:+ e with
             | String c r' => if Ascii.eqb c "." then span_while is_digit r' else ("", f +:+ e)
             | EmptyString => ("", "")
             end) = (d, e).
Proof.
  intros Hf He. destruct Hf as [|d Hd].
  - exists "". destruct He; done.
  - exists d. cbn [append]. rewrite Ascii.eqb_refl. apply span_digits; [done|]. by destruct He.
Qed.

Lemma exp_text_read e : exp_text e -> snd (parse_exp e) = "".
Proof.
  intros [|sign d Hs Hd Hn]; [done|]. cbn [append parse_exp]. rewrite Ascii.eqb_refl. cbn [orb].
  assert (span_while is_digit d = (d, "")) as E by (rewrite <- (str_app_nil_r d) at 1; by apply span_digits).
  destruct Hs as [->| ->]; cbn; rewrite E, Hn; done.
Qed.

Lemma parse_ufloat_decimal s : decimal_text s -> is_Some (parse_ufloat s).
Proof.
  intros [i f e Hi Hn Hf He]. unfold parse_ufloat.
  destruct i as [|c i]; [done|]. pose proof Hi as Hc. cbn [digits str_forallb] in Hc. apply andb_true_iff in Hc as [Hc _].
  assert (exists t, str_lower (String c i +:+ f +:+ e) = String c t) as [t ->].
  { eexists. cbn [append str_lower str_map]. by rewrite digit_lower. }
  assert (mem_string (String c t) ["inf"; "infinity"] = false) as ->.
  { apply mem_string_false. rewrite !not_elem_of_cons. repeat split; try apply not_elem_of_nil; by intros [= -> ->]. }
  assert (String.eqb (String c t) "nan" = false) as -> by (apply String.eqb_neq; by intros [= -> ->]).
  rewrite span_digits; [|done|by destruct Hf, He]. destruct (frac_text_read f e Hf He) as [d E].
  destruct (match f +:+ e with String _ _ => _ | EmptyString => _ end) as [fr r1] eqn:E'. injection E as -> ->.
  pose proof (exp_text_read e He) as Hx. destruct (parse_exp e) as [ex r2]. cbn [snd] in Hx. subst r2.
  cbn. by eexists.
Qed.

(** An optional sign before such a text. *)
Lemma py_float_decimal (sign : bool) s : decimal_text s ->
  is_Some (py_float ((if sign then "-" else "") +:+ s)) /\
  str_forallb decimal_char ((if sign then "-" else "") +:+ s) = true.
Proof.
  intros Hs. pose proof (decimal_text_chars s Hs) as Hc.
  assert (str_forallb decimal_char ((if sign then "-" else "") +:+ s) = true) as Ha.
  { rewrite str_forallb_app, Hc. by destruct sign. }
  split; [|done]. unfold py_float. rewrite strip_id, drop_underscores_none; [|done|].
  2: { eapply str_forallb_impl; [|exact Ha]. intros c Hd. by rewrite decimal_char_not_space. }
  destruct sign; cbn [append].
  - rewrite Ascii.eqb_refl. destruct (parse_ufloat_decimal s Hs) as [x ->]. by eexists.
  - pose proof (parse_ufloat_decimal s Hs) as Hp. clear Ha Hc. destruct Hs as [i f e Hi Hn _ _]. destruct i as [|c i]; [done|]. cbn [digits str_forallb] in Hi.
    apply andb_true_iff in Hi as [Hi _]. cbn [append].
    destruct (Ascii.eqb_spec c "-") as [->|_]; [done|]. destruct (Ascii.eqb_spec c "+") as [->|_]; [done|].
    exact Hp.
Qed.

(** ** Printing them *)

Lemma magnitude_nonneg m e a d : magnitude m e = (a, d) -> 0 <= a /\ 0 < d.
Proof. unfold magnitude. destruct (Z.leb_spec 0 e); intros [= <- <-]; split; lia. Qed.

Lemma scale10_nonneg n d k n1 d1 : 0 <= n -> 0 < d -> scale10 n d k = (n1, d1) -> 0 <= n1 /\ 0 < d1.
Proof.
  intros Hn Hd. unfold scale10.
  destruct (Z.leb_spec 0 k); intros [= <- <-].
  - assert (0 < 10 ^ k) by (apply Z.pow_pos_nonneg; lia). split; nia.
  - assert (0 < 10 ^ (- k)) by (apply Z.pow_pos_nonneg; lia). split; nia.
Qed.

Lemma div_half_even_nonneg n d : 0 <= n -> 0 < d -> 0 <= div_half_even n d.
Proof.
  intros Hn Hd. pose proof (Z.div_pos n d Hn Hd). unfold div_half_even.
  destruct (2 * (n mod d) ?= d); [destruct (Z.even (n / d))| |]; lia.
Qed.

Lemma strip_zeros_nonneg fuel : forall q k q' k', 0 <= q -> strip_zeros_go fuel q k = (q', k') -> 0 <= q'.
Proof.
  induction fuel as [|fuel IH]; intros q k q' k' Hq; cbn [strip_zeros_go]; [by intros [= <- _]|].
  destruct (_ && _); [|by intros [= <- _]]. apply IH, Z.div_pos; lia.
Qed.

Lemma str_of_Z_nonempty z : 0 <= z -> digits (str_of_Z z) = true /\ is_empty (str_of_Z z) = false.
Proof.
  intros Hz. split; [by apply str_of_Z_digits|]. rewrite (str_of_Z_nonneg z Hz).
  destruct (pretty_N_digits (Z.to_N z)) as (_ & _ & Hh). by destruct (pretty (Z.to_N z)).
Qed.

Lemma pad0_digits n z : 0 <= z -> digits (pad0 n z) = true.
Proof.
  intros Hz. unfold pad0, digits. rewrite str_forallb_app. apply andb_true_iff. split; [|by apply str_of_Z_digits].
  generalize (n - String.length (str_of_Z z))%nat. intros k. by induction k.
Qed.

Lemma pad0_nonempty n z : 0 <= z -> is_empty (pad0 n z) = false.
Proof.
  intros Hz. unfold pad0. destruct (str_of_Z_nonempty z Hz) as [_ Hn].
  destruct (zeros _); [exact Hn|done].
Qed.

Lemma exp_form_decimal q ex : 0 <= q -> decimal_text (exp_form (str_of_Z q) ex).
Proof.
  intros Hq. destruct (str_of_Z_nonempty q Hq) as [Hd Hn]. unfold exp_form.
  assert (exp_text ("e" +:+ (if ex <? 0 then "-" else "+") +:+ pad0 2 (Z.abs ex))) as He.
  { pose proof (pad0_digits 2 (Z.abs ex) (Z.abs_nonneg ex)). pose proof (pad0_nonempty 2 (Z.abs ex) (Z.abs_nonneg ex)).
    destruct (ex <? 0); cbn [append]; constructor; auto. }
  destruct (str_of_Z q) as [|c t]; [done|]. cbn [digits str_forallb] in Hd. apply andb_true_iff in Hd as [Hc Ht].
  assert (digits (char_str c) = true) as Hc1 by (cbn; by rewrite Hc).
  destruct t as [|c' t].
  - apply (decimal_intro (char_str c) "" _); auto. constructor.
  - pose proof (decimal_intro (char_str c) ("." +:+ String c' t) _ Hc1 eq_refl (some_frac _ Ht) He) as H.
    cbn [char_str append] in *. exact H.
Qed.

Lemma fixed_form_decimal q k : 0 <= q -> decimal_text (fixed_form "" q k).
Proof.
  intros Hq. unfold fixed_form. destruct (Z.leb_spec 0 k).
  - destruct (str_of_Z_nonempty (q * 10 ^ k)) as [Hd Hn]; [assert (0 < 10 ^ k) by (apply Z.pow_pos_nonneg; lia); nia|].
    apply (decimal_intro _ "" ""); auto; constructor.
  - assert (0 < 10 ^ (- k)) by (apply Z.pow_pos_nonneg; lia).
    destruct (str_of_Z_nonempty (q / 10 ^ (- k))) as [Hd Hn]; [by apply Z.div_pos|].
    pose proof (pad0_digits (Z.to_nat (- k)) (q mod 10 ^ (- k))) as Hp.
    pose proof (decimal_intro _ ("." +:+ pad0 (Z.to_nat (- k)) (q mod 10 ^ (- k))) "" Hd Hn) as H'.
    rewrite str_app_nil_r in H'. apply H'; constructor. apply Hp. by apply Z.mod_pos_bound.
Qed.

(** [float(f"{x:.pg}")] gives a number for every finite [x]; its characters are
    decimal ones. *)
Lemma format_gn_reads p x : isfinite x = true ->
  is_Some (py_float (format_gn p x)) /\ str_forallb decimal_char (format_gn p x) = true.
Proof.
  intros Hx. destruct x as [s|s| |s m e]; try done.
  - by destruct s; split; [vm_compute; eexists| |vm_compute; eexists|].
  - unfold format_gn. destruct (magnitude m e) as [a d] eqn:Em. destruct (magnitude_nonneg _ _ _ _ Em) as [Ha Hd].
    destruct (scale10 a d _) as [n1 d1] eqn:Es. destruct (scale10_nonneg _ _ _ _ _ Ha Hd Es) as [Hn1 Hd1].
    destruct (strip_zeros_go _ _ _) as [q k] eqn:Ez.
    pose proof (strip_zeros_nonneg _ _ _ _ _ (div_half_even_nonneg n1 d1 Hn1 Hd1) Ez) as Hq. cbv zeta.
    apply py_float_decimal. destruct (_ || _); [by apply exp_form_decimal|by apply fixed_form_decimal].
Qed.
