(* ===== verification/Trace.v ===== *)
(** [cpu-limits/capture/parse_trace.py]: scheduler traces and [perf sched]
    reports of one cell.

    The loop of [summarize_trace] is a state machine over the events in time
    order; its state holds, per task, the wakeup not yet served and the start of
    the current stay on or off the CPU. *)

From Stdlib Require Import ZArith Bool Ascii String Lia Sorted.
From stdpp Require Import base list strings option gmap pretty.
From S2P Require Import Prelude PyStr PyFloat PyVal Json PyConv PyCsv PyRe.

Open Scope string_scope.
Open Scope Z_scope.

(** ** Fields *)

Definition TRACE_COLUMNS : list string :=
  ["protocol"; "run_id"; "block_id"; "cell_id"; "source"; "event"; "ts_ns"; "cpu"; "pid"; "tgid"; "comm";
   "target_pid"; "latency_ns"; "runtime_ns"; "prev_state"; "cgroup_path"].
Definition WAKEUP_EVENTS : list string := ["sched_wakeup"; "sched_wakeup_new"].
Definition THROTTLE_EVENTS : list string := ["throttle_cfs_rq"; "throttle_cfs_rq_work"; "unthrottle_cfs_rq"].

(** The pattern [ns|us|µs|ms|s]. *)
Definition unit_re : re :=
  Alt (Lit "ns") (Alt (Lit "us") (Alt (Lit (String (chr 181) "s")) (Alt (Lit "ms") (Lit "s")))).
(** [\d+(?:\.\d+)?] *)
Definition decimal_re : re := (Plus digit · Opt (Lit "." · Plus digit))%re.
Definition DURATION_RE : re :=
  (Bos · Star true space · Group 1 decimal_re · Star true space · Opt (Group 2 unit_re) · Star true space · Eos)%re.
Definition DURATION_TOKEN_RE : re :=
  (Group 1 decimal_re · Star true space · Group 2 unit_re · WordEdge)%re.
Definition PID_RE : re :=
  (Alt Bos (Set_ (fun c => Ascii.eqb c "/" || Ascii.eqb c ":")) · Group 1 (Plus digit) · Alt WordEdge Eos)%re.

Record TraceEvent : Type := {
  event : string; ts_ns : Z; pid : Z; target_pid : option Z; runtime_ns : option Z; row : list (string * string)
}.

Definition optional_int (value : string) : option Z :=
  let stripped := strip value in if is_empty stripped then None else py_int stripped.

Definition unit_scale (u : string) : Z :=
  if String.eqb u "ns" then 1
  else if String.eqb u "us" || String.eqb u (String (chr 181) "s") then 1000
  else if String.eqb u "ms" then 1000000
  else 1000000000.

(** [_duration_ns(value)] with the default unit [ms]. *)
Definition duration_ns (value : string) : result (option Z) :=
  match re_match DURATION_RE value with
  | None => Ok None
  | Some m =>
      let multiplier := unit_scale (default "ms" (group_opt 2 m)) in
      match py_float (group 1 m) with
      | None => Raise (Exn ValueError ("could not convert string to float: " +:+ repr_str (group 1 m)))
      | Some x => let* n := int_of_float (fmul x (flit multiplier 1)) in Ok (Some n)
      end
  end.

(** ** Reading a trace *)

Definition row_text (k : string) (r : csv_row) : string := default "" (default None (row_get k r)).

(** One record, [None] if it is skipped. *)
Definition event_of_row (ts_column : string) (header values : list string) : option TraceEvent :=
  if negb (Nat.eqb (length values) (length header)) then None
  else
    let r := zip_row header values in
    let name := strip (row_text "event" r) in
    match optional_int (row_text ts_column r), optional_int (row_text "pid" r) with
    | Some ts, Some p =>
        if is_empty name || (ts <? 0) || (p <? 0) then None
        else
          let t := row_text "target_pid" r in
          let target_text := if is_empty t then row_text "next_pid" r else t in
          Some {| event := name; ts_ns := ts; pid := p; target_pid := optional_int target_text;
                  runtime_ns := optional_int (row_text "runtime_ns" r);
                  row := (fun column => (column, row_text column r)) <$> TRACE_COLUMNS |}
    | _, _ => None
    end.

Definition header_ts (header : list string) : string :=
  if mem_string "ts_ns" header then "ts_ns" else "timestamp".

Definition events_of_records (rows : list (list string)) : list TraceEvent :=
  match rows with
  | [] => []
  | header :: rest =>
      let ts_column := header_ts header in
      if forallb (fun c => mem_string c header) ["event"; ts_column; "pid"]
      then omap (event_of_row ts_column header) rest
      else []
  end.

(** The file is its lines and the exception that stopped reading, or the
    exception of [open].  What was read before an error is kept. *)
Definition parse_trace_csv (stream : result (list string * option exn)) : result (list TraceEvent) :=
  let handled := [OSError; UnicodeError; CsvError] in
  match stream with
  | Raise e => if caught_by handled e then Ok [] else Raise e
  | Ok (lines, stop) =>
      let '(rows, err) := csv_rows true stop csv_reset lines in
      match err with
      | Some e => if caught_by handled e then Ok (events_of_records rows) else Raise e
      | None => Ok (events_of_records rows)
      end
  end.

(** ** Intervals *)

Section Targets.
Context (target_pids : gset Z).

Definition in_targets (o : option Z) : bool :=
  match o with Some p => bool_decide (p ∈ target_pids) | None => false end.

Definition related (e : TraceEvent) : bool := in_targets (Some (pid e)) || in_targets (target_pid e).

Definition target_from_wakeup (e : TraceEvent) : option Z :=
  let candidate := default (pid e) (target_pid e) in
  if in_targets (Some candidate) then Some candidate else None.

Definition switch_in_pid (e : TraceEvent) : option Z :=
  if in_targets (target_pid e) then target_pid e
  else if bool_decide (target_pid e = None) && in_targets (Some (pid e)) then Some (pid e)
  else None.

Definition switch_out_pid (e : TraceEvent) : option Z :=
  if in_targets (Some (pid e)) && negb (bool_decide (target_pid e = Some (pid e))) then Some (pid e) else None.

Record interval : Type := Interval { iv_pid : Z; iv_start : Z; iv_end : Z; iv_duration : Z }.

Record trace_state : Type := State {
  delays : list interval; on_cpu : list interval; off_cpu : list interval;
  throttle_events : list (Z * string * Z); runtime_samples : list (Z * Z * Z);
  switches : gmap Z Z; pending_wakeups : gmap Z Z; on_cpu_start : gmap Z Z; off_cpu_start : gmap Z Z
}.

Definition trace_init : trace_state := State [] [] [] [] [] ∅ ∅ ∅ ∅.

(** The interval that an event at [ts] closes, if one was open and is not in the
    future. *)
Definition closed (p ts : Z) (start : option Z) : list interval :=
  match start with
  | Some s => if s <=? ts then [Interval p s ts (ts - s)] else []
  | None => []
  end.

Definition switch_out (p ts : Z) (st : trace_state) : trace_state :=
  State (delays st) (on_cpu st ++ closed p ts (on_cpu_start st !! p)) (off_cpu st)
    (throttle_events st) (runtime_samples st) (switches st) (pending_wakeups st)
    (delete p (on_cpu_start st)) (<[p := ts]> (off_cpu_start st)).

Definition switch_in (p ts : Z) (st : trace_state) : trace_state :=
  State (delays st ++ closed p ts (pending_wakeups st !! p)) (on_cpu st)
    (off_cpu st ++ closed p ts (off_cpu_start st !! p))
    (throttle_events st) (runtime_samples st) (<[p := default 0 (switches st !! p) + 1]> (switches st))
    (delete p (pending_wakeups st)) (<[p := ts]> (on_cpu_start st)) (delete p (off_cpu_start st)).

Definition wake (p ts : Z) (st : trace_state) : trace_state :=
  State (delays st) (on_cpu st) (off_cpu st) (throttle_events st) (runtime_samples st) (switches st)
    (<[p := ts]> (pending_wakeups st)) (on_cpu_start st) (off_cpu_start st).

Definition add_runtime (p ts n : Z) (st : trace_state) : trace_state :=
  State (delays st) (on_cpu st) (off_cpu st) (throttle_events st) (runtime_samples st ++ [(p, ts, n)])
    (switches st) (pending_wakeups st) (on_cpu_start st) (off_cpu_start st).

Definition add_throttle (p ts : Z) (name : string) (st : trace_state) : trace_state :=
  State (delays st) (on_cpu st) (off_cpu st) (throttle_events st ++ [(p, name, ts)]) (runtime_samples st)
    (switches st) (pending_wakeups st) (on_cpu_start st) (off_cpu_start st).

(** The task an accounting event is about. *)
Definition subject (e : TraceEvent) : Z := if in_targets (target_pid e) then default 0 (target_pid e) else pid e.

Definition on_task (p : option Z) (f : Z -> trace_state -> trace_state) (st : trace_state) : trace_state :=
  match p with Some p => f p st | None => st end.

(** The body of the loop. *)
Definition trace_step (st : trace_state) (e : TraceEvent) : trace_state :=
  if negb (related e) then st
  else if mem_string (event e) WAKEUP_EVENTS then
    on_task (target_from_wakeup e) (fun p => wake p (ts_ns e)) st
  else if String.eqb (event e) "sched_switch" then
    on_task (switch_in_pid e) (fun p => switch_in p (ts_ns e))
      (on_task (switch_out_pid e) (fun p => switch_out p (ts_ns e)) st)
  else
    match String.eqb (event e) "sched_stat_runtime", runtime_ns e with
    | true, Some n => if in_targets (Some (subject e)) then add_runtime (subject e) (ts_ns e) n st else st
    | _, _ =>
        if mem_string (event e) THROTTLE_EVENTS && in_targets (Some (subject e))
        then add_throttle (subject e) (ts_ns e) (event e) st else st
    end.

Definition by_time (a b : TraceEvent) : bool := ts_ns a <=? ts_ns b.

Definition run_trace (events : list TraceEvent) : trace_state :=
  fold_left trace_step (sort_by by_time events) trace_init.

(** ** The summary *)

Definition interval_value (start end_ duration : string) (i : interval) : pyval :=
  VDict [("pid", VInt (iv_pid i)); (start, VInt (iv_start i)); (end_, VInt (iv_end i)); (duration, VInt (iv_duration i))].

Definition summarize_trace (events : list TraceEvent) : pydict :=
  let st := run_trace events in
  [("protocol", VStr "cpu-limits-v1");
   ("target_pids", VList (VInt <$> sort_by Z.leb (elements target_pids)));
   ("run_queue_delays_ns", VList (interval_value "wakeup_ts_ns" "switch_ts_ns" "delay_ns" <$> delays st));
   ("on_cpu_intervals_ns", VList (interval_value "start_ts_ns" "end_ts_ns" "duration_ns" <$> on_cpu st));
   ("off_cpu_intervals_ns", VList (interval_value "start_ts_ns" "end_ts_ns" "duration_ns" <$> off_cpu st));
   ("context_switches", VDict ((fun p => (str_of_Z p, VInt (default 0 (switches st !! p)))) <$>
                               sort_by Z.leb (elements (dom (switches st)))));
   ("throttle_events", VList ((fun t => let '(p, name, ts) := t in
      VDict [("pid", VInt p); ("event", VStr name); ("ts_ns", VInt ts)]) <$> throttle_events st));
   ("runtime_samples_ns", VList ((fun t => let '(p, ts, n) := t in
      VDict [("pid", VInt p); ("ts_ns", VInt ts); ("runtime_ns", VInt n)]) <$> runtime_samples st))].

(** ** [perf sched] reports *)

(** One line of [perf sched latency]. *)
Definition latency_row (line : string) : result (option pyval) :=
  match strip <$> split_on "|" line with
  | f0 :: f1 :: f2 :: f3 :: f4 :: _ =>
      match re_search PID_RE f0 with
      | None => Ok None
      | Some m =>
          let p := default 0 (py_int (group 1 m)) in
          if negb (in_targets (Some p)) then Ok None
          else
            let* runtime := duration_ns f1 in
            let switches := optional_int f2 in
            let* average := duration_ns f3 in
            let* maximum := duration_ns f4 in
            Ok (match runtime, switches, average, maximum with
                | Some r, Some s, Some a, Some x =>
                    Some (VDict [("pid", VInt p); ("runtime_ns", VInt r); ("switches", VInt s);
                                 ("average_delay_ns", VInt a); ("maximum_delay_ns", VInt x)])
                | _, _, _, _ => None
                end)
      end
  | _ => Ok None
  end.

Definition parse_perf_latency (text : string) : result (list pyval) :=
  let* rows := mapM latency_row (splitlines text) in Ok (omap id rows).

(** One line of [perf sched timehist]. *)
Definition timehist_row (line : string) : result (option pyval) :=
  match list.last (re_finditer PID_RE line) with
  | None => Ok None
  | Some m =>
      let p := default 0 (py_int (group 1 m)) in
      if negb (in_targets (Some p)) then Ok None
      else
        let* durations := mapM (fun t => duration_ns (matched t)) (re_finditer DURATION_TOKEN_RE (after m)) in
        Ok (match rev (omap id durations) with
            | run_time :: sched_delay :: wait :: _ =>
                Some (VDict [("pid", VInt p); ("wait_ns", VInt wait); ("sched_delay_ns", VInt sched_delay);
                             ("run_time_ns", VInt run_time)])
            | _ => None
            end)
  end.

Definition parse_perf_timehist (text : string) : result (list pyval) :=
  let* rows := mapM timehist_row (splitlines text) in Ok (omap id rows).

(** ** Writing *)

(** The text that is compressed into [filtered-trace.csv.gz]. *)
Definition filtered_trace (events : list TraceEvent) : string :=
  csv_write (TRACE_COLUMNS :: ((fun e => snd <$> row e) <$> List.filter related (sort_by by_time events))).

(** The summary and the texts of the two files. *)
Definition parse_and_write (stream : result (list string * option exn)) (perf_latency perf_timehist : string) :
    result (pydict * string * string) :=
  let* events := parse_trace_csv stream in
  let summary := summarize_trace events in
  let* latency := parse_perf_latency perf_latency in
  let* timehist := parse_perf_timehist perf_timehist in
  let summary := (summary ++ [("perf_latency", VList latency); ("perf_timehist", VList timehist)])%list in
  Ok (summary, json_indent true (VDict summary) +:+ newline, filtered_trace events).

End Targets.

(** ** The machine as a step relation *)

Section Machine.
Context (T : gset Z).

(** What one event at time [ts] does to the state. *)
Inductive move (ts : Z) (st : trace_state) : trace_state -> Prop :=
  | Skip : move ts st st
  | Wake p : p ∈ T -> move ts st (wake p ts st)
  | SwitchOut p : p ∈ T -> move ts st (switch_out p ts st)
  | SwitchIn p : p ∈ T -> move ts st (switch_in p ts st)
  | Runtime p n : p ∈ T -> move ts st (add_runtime p ts n st)
  | Throttle p name : p ∈ T -> move ts st (add_throttle p ts name st).

(** The states after events between [lo] and [now]. *)
Inductive reach (lo : Z) : Z -> trace_state -> Prop :=
  | reach_init : reach lo lo trace_init
  | reach_move now ts st st' : reach lo now st -> now <= ts -> move ts st st' -> reach lo ts st'.

Lemma in_targets_Some p : in_targets T (Some p) = true <-> p ∈ T.
Proof. apply bool_decide_eq_true. Qed.

Lemma switch_in_pid_target e p : switch_in_pid T e = Some p -> p ∈ T.
Proof.
  unfold switch_in_pid. destruct (in_targets T (target_pid e)) eqn:E.
  - destruct (target_pid e); [|done]. intros [= <-]. by apply in_targets_Some.
  - destruct (bool_decide _ && _) eqn:E2; [|done]. intros [= <-]. bool_hyps. by apply in_targets_Some.
Qed.
Lemma switch_out_pid_target e p : switch_out_pid T e = Some p -> p ∈ T.
Proof.
  unfold switch_out_pid. destruct (_ && _) eqn:E; [|done]. intros [= <-]. bool_hyps. by apply in_targets_Some.
Qed.
Lemma target_from_wakeup_target e p : target_from_wakeup T e = Some p -> p ∈ T.
Proof.
  unfold target_from_wakeup. destruct (in_targets _ _) eqn:E; [|done]. intros [= <-]. by apply in_targets_Some.
Qed.

Lemma on_task_move (p : option Z) f ts st :
  (forall q, p = Some q -> move ts st (f q st)) -> move ts st (on_task p f st).
Proof. destruct p; simpl; [auto|]. constructor. Qed.

(** An event makes at most two moves, the switch out before the switch in. *)
Lemma trace_step_moves st e :
  exists st1, move (ts_ns e) st st1 /\ move (ts_ns e) st1 (trace_step T st e).
Proof.
  unfold trace_step. destruct (negb (related T e)); [exists st; split; constructor|].
  destruct (mem_string (event e) WAKEUP_EVENTS).
  { exists st. split; [constructor|]. apply on_task_move. intros q Hq.
    constructor. by eapply target_from_wakeup_target. }
  destruct (String.eqb (event e) "sched_switch").
  { eexists. split; apply on_task_move; intros q Hq; constructor;
      [by eapply switch_out_pid_target|by eapply switch_in_pid_target]. }
  exists st. split; [constructor|].
  destruct (String.eqb _ _); [destruct (runtime_ns e)|];
    repeat match goal with |- context [if ?b then _ else _] => destruct b eqn:? end; try constructor;
    bool_hyps; by apply in_targets_Some.
Qed.

Lemma run_reach lo events now st :
  reach lo now st -> StronglySorted (fun a b => by_time a b = true) events ->
  Forall (fun e => now <= ts_ns e) events ->
  exists now', reach lo now' (fold_left (trace_step T) events st) /\
    (now' = now \/ exists e, e ∈ events /\ now' = ts_ns e).
Proof.
  intros Hr Hs. revert now st Hr. induction Hs as [|e l Hs IH Hf]; intros now st Hr Hnow; [by eauto|].
  apply Forall_cons_iff in Hnow as [He _].
  destruct (trace_step_moves st e) as (st1 & H1 & H2).
  destruct (IH (ts_ns e) (trace_step T st e)) as (now' & Hr' & Hn').
  - eapply reach_move; [|reflexivity|exact H2]. eapply reach_move; [exact Hr|exact He|exact H1].
  - eapply Forall_impl; [exact Hf|]. unfold by_time. intros x Hx. by apply Z.leb_le.
  - exists now'. split; [done|]. right.
    destruct Hn' as [->|(x & Hx & ->)]; [exists e; split; [by left|done]|exists x; split; [by right|done]].
Qed.

(** ** Invariants of the machine *)

Definition marker (st : trace_state) (p : Z) : option Z :=
  match on_cpu_start st !! p with Some s => Some s | None => off_cpu_start st !! p end.

Definition wf_interval (now : Z) (i : interval) : Prop :=
  iv_pid i ∈ T /\ iv_start i <= iv_end i <= now /\ iv_duration i = iv_end i - iv_start i.

(** Of one task, [i] is over when [j] begins. *)
Definition precedes (i j : interval) : Prop := iv_pid i = iv_pid j -> iv_end i <= iv_start j.

Definition time_of (p : Z) (l : list interval) : Z :=
  foldr (fun i a => if iv_pid i =? p then iv_duration i + a else a) 0 l.
Definition stays_of (p : Z) (l : list interval) : Z :=
  foldr (fun i a => if iv_pid i =? p then 1 + a else a) 0 l.

Definition over_by (p s : Z) (l : list interval) : Prop := Forall (fun i => iv_pid i = p -> iv_end i <= s) l.
Definition absent (p : Z) (l : list interval) : Prop := Forall (fun i => iv_pid i <> p) l.

Record trace_inv (lo now : Z) (st : trace_state) : Prop := {
  ti_time : lo <= now;
  ti_delays : Forall (wf_interval now) (delays st);
  ti_stays : Forall (wf_interval now) (on_cpu st ++ off_cpu st);
  ti_pending : forall p s, pending_wakeups st !! p = Some s -> s <= now;
  ti_one : forall p, on_cpu_start st !! p = None \/ off_cpu_start st !! p = None;
  ti_marker : forall p s, marker st p = Some s ->
    lo <= s <= now /\ over_by p s (on_cpu st ++ off_cpu st) /\ time_of p (on_cpu st ++ off_cpu st) <= s - lo;
  ti_none : forall p, marker st p = None -> absent p (on_cpu st ++ off_cpu st);
  ti_on : StronglySorted precedes (on_cpu st);
  ti_off : StronglySorted precedes (off_cpu st);
  ti_apart : Forall (fun i => Forall (fun j => precedes i j \/ precedes j i) (off_cpu st)) (on_cpu st);
  ti_count : forall p,
    stays_of p (on_cpu st) + (if on_cpu_start st !! p then 1 else 0) <= default 0 (switches st !! p)
}.

Lemma time_of_app p l1 l2 : time_of p (l1 ++ l2) = time_of p l1 + time_of p l2.
Proof. induction l1 as [|i l IH]; simpl; [done|]. destruct (_ =? _); lia. Qed.
Lemma stays_of_app p l1 l2 : stays_of p (l1 ++ l2) = stays_of p l1 + stays_of p l2.
Proof. induction l1 as [|i l IH]; simpl; [done|]. destruct (_ =? _); lia. Qed.
Lemma absent_time p l : absent p l -> time_of p l = 0.
Proof.
  induction 1 as [|i l Hi _ IH]; simpl; [done|]. by rewrite (proj2 (Z.eqb_neq _ _) Hi).
Qed.
Lemma absent_over p s l : absent p l -> over_by p s l.
Proof. intros H. eapply Forall_impl; [exact H|]. done. Qed.
Lemma over_by_le p s s' l : over_by p s l -> s <= s' -> over_by p s' l.
Proof. intros H Hs. eapply Forall_impl; [exact H|]. intros i Hi E. specialize (Hi E). lia. Qed.
Lemma wf_later now now' l : now <= now' -> Forall (wf_interval now) l -> Forall (wf_interval now') l.
Proof.
  intros H Hl. eapply Forall_impl; [exact Hl|]. unfold wf_interval. intros i (? & ? & ?). repeat split; lia || done.
Qed.

(** The interval that is closed, when the open one started in the past. *)
Lemma closed_past p ts m : (forall s, m = Some s -> s <= ts) ->
  closed p ts m = match m with Some s => [Interval p s ts (ts - s)] | None => [] end.
Proof. destruct m as [s|]; simpl; [|done]. intros H. by rewrite (proj2 (Z.leb_le _ _) (H s eq_refl)). Qed.

Lemma closed_wf p ts m : p ∈ T -> (forall s, m = Some s -> s <= ts) -> Forall (wf_interval ts) (closed p ts m).
Proof.
  intros Hp Hm. rewrite closed_past by done. destruct m as [s|]; [|constructor].
  constructor; [|constructor]. specialize (Hm s eq_refl). unfold wf_interval. simpl. repeat split; lia || done.
Qed.

(** What [closed] adds to the lists of a task and of the others. *)
Lemma closed_others p q ts m : q <> p -> absent q (closed p ts m).
Proof. intros H. destruct m as [s|]; simpl; [destruct (s <=? ts)|]; repeat constructor. simpl. congruence. Qed.

Lemma closed_stays p ts m : stays_of p (closed p ts m) <= if m then 1 else 0.
Proof. destruct m as [s|]; simpl; [|lia]. destruct (s <=? ts); simpl; [rewrite Z.eqb_refl|]; lia. Qed.

Lemma absent_stays p l : absent p l -> stays_of p l = 0.
Proof. induction 1 as [|i l Hi _ IH]; simpl; [done|]. by rewrite (proj2 (Z.eqb_neq _ _) Hi). Qed.

Lemma over_app p s l1 l2 : over_by p s (l1 ++ l2) <-> over_by p s l1 /\ over_by p s l2.
Proof. apply Forall_app. Qed.
Lemma absent_app p l1 l2 : absent p (l1 ++ l2) <-> absent p l1 /\ absent p l2.
Proof. apply Forall_app. Qed.

Section Close.
Context (lo now ts : Z) (st : trace_state) (I : trace_inv lo now st) (Hts : now <= ts) (p : Z) (m : option Z).
Context (Hm : forall s, m = Some s -> marker st p = Some s).

Lemma close_start s : m = Some s -> s <= ts.
Proof. intros E. apply Hm in E. apply (ti_marker _ _ _ I) in E as [? _]. lia. Qed.

Lemma close_last : Forall (fun j => Forall (precedes j) (closed p ts m)) (on_cpu st ++ off_cpu st).
Proof.
  rewrite closed_past by apply close_start. destruct m as [s|] eqn:E; [|by apply Forall_true].
  destruct (ti_marker _ _ _ I p s (Hm s eq_refl)) as (_ & Ho & _).
  eapply Forall_impl; [exact Ho|]. intros j Hj. by constructor.
Qed.

(** After closing, everything of the task is over by [ts] and fits. *)
Lemma close_over : over_by p ts (on_cpu st ++ off_cpu st) /\ over_by p ts (closed p ts m).
Proof.
  split.
  - destruct (marker st p) as [s|] eqn:E.
    + destruct (ti_marker _ _ _ I p s E) as (? & ? & _). eapply over_by_le; [done|lia].
    + apply absent_over. by apply (ti_none _ _ _ I).
  - rewrite closed_past by apply close_start. destruct m; repeat constructor. simpl. lia.
Qed.

Lemma close_time : time_of p (on_cpu st ++ off_cpu st) + time_of p (closed p ts m) <= ts - lo.
Proof.
  pose proof (ti_time _ _ _ I). rewrite closed_past by apply close_start. destruct m as [s|] eqn:E; simpl.
  - rewrite Z.eqb_refl. destruct (ti_marker _ _ _ I p s (Hm s eq_refl)) as (? & _ & ?). lia.
  - destruct (marker st p) as [s|] eqn:E2.
    + destruct (ti_marker _ _ _ I p s E2) as (? & _ & ?). lia.
    + rewrite absent_time; [lia|]. by apply (ti_none _ _ _ I).
Qed.
End Close.

Lemma StronglySorted_closed (l : list interval) p ts m :
  StronglySorted precedes l -> Forall (fun j => Forall (precedes j) (closed p ts m)) l ->
  StronglySorted precedes (l ++ closed p ts m).
Proof.
  destruct m as [s|]; simpl; [destruct (s <=? ts)|]; intros Hs Hf; rewrite ?app_nil_r; try done.
  apply StronglySorted_snoc; [done|]. eapply Forall_impl; [exact Hf|]. intros j Hj. by inversion Hj.
Qed.

Lemma marker_out p ts st q :
  marker (switch_out p ts st) q = if bool_decide (q = p) then Some ts else marker st q.
Proof.
  unfold marker, switch_out. simpl. case_bool_decide as E.
  - subst. by rewrite lookup_delete_eq, lookup_insert_eq.
  - by rewrite lookup_delete_ne, lookup_insert_ne by done.
Qed.
Lemma marker_in p ts st q :
  marker (switch_in p ts st) q = if bool_decide (q = p) then Some ts else marker st q.
Proof.
  unfold marker, switch_in. simpl. case_bool_decide as E.
  - subst. by rewrite lookup_insert_eq.
  - by rewrite lookup_insert_ne, lookup_delete_ne by done.
Qed.

(** The clauses about markers, when intervals of [p] were added to either list
    and the marker of [p] is now [ts]. *)
Lemma markers_kept lo now ts st p m on' off' mk :
  trace_inv lo now st -> now <= ts -> (forall s, m = Some s -> marker st p = Some s) ->
  (forall q, mk q = if bool_decide (q = p) then Some ts else marker st q) ->
  (on' = (on_cpu st ++ closed p ts m)%list /\ off' = off_cpu st \/
   on' = on_cpu st /\ off' = (off_cpu st ++ closed p ts m)%list) ->
  (forall q s, mk q = Some s ->
     lo <= s <= ts /\ over_by q s (on' ++ off') /\ time_of q (on' ++ off') <= s - lo) /\
  (forall q, mk q = None -> absent q (on' ++ off')).
Proof.
  intros I Hts Hm Hmk Hl. pose proof (ti_time _ _ _ I).
  destruct (close_over lo now ts st I Hts p m Hm) as [[Ho1 Ho2]%over_app Ho3].
  pose proof (close_time lo now ts st I Hts p m Hm) as Ht. rewrite time_of_app in Ht.
  split.
  - intros q s. rewrite Hmk. case_bool_decide as E.
    + intros [= <-]. subst q. split; [lia|].
      destruct Hl as [[-> ->]|[-> ->]]; rewrite !over_app, !time_of_app; repeat split; done || lia.
    + intros Hq. destruct (ti_marker _ _ _ I q s Hq) as (? & [? ?]%over_app & Hqt). rewrite time_of_app in Hqt.
      pose proof (closed_others p q ts m E) as Hc. split; [lia|].
      destruct Hl as [[-> ->]|[-> ->]]; rewrite !over_app, !time_of_app, (absent_time q (closed p ts m)) by done;
        repeat split; try done; try lia; by apply absent_over.
  - intros q. rewrite Hmk. case_bool_decide as E; [done|]. intros Hq.
    pose proof (closed_others p q ts m E). apply (ti_none _ _ _ I) in Hq as [? ?]%absent_app.
    destruct Hl as [[-> ->]|[-> ->]]; by rewrite !absent_app.
Qed.

Lemma inv_switch_out lo now ts st p :
  trace_inv lo now st -> now <= ts -> p ∈ T -> trace_inv lo ts (switch_out p ts st).
Proof.
  intros I Hts Hp.
  assert (forall s, on_cpu_start st !! p = Some s -> marker st p = Some s) as Hm by (unfold marker; by intros s ->).
  pose proof (close_last lo now ts st I Hts p _ Hm) as [Hl1 Hl2]%Forall_app.
  pose proof (ti_stays _ _ _ I) as [Hw1 Hw2]%(Forall_app (wf_interval now)).
  destruct (markers_kept lo now ts st p _ (on_cpu st ++ closed p ts (on_cpu_start st !! p))%list (off_cpu st) _ I Hts Hm
              (marker_out p ts st) (or_introl (conj eq_refl eq_refl))) as [Hk1 Hk2].
  split; simpl.
  - pose proof (ti_time _ _ _ I). lia.
  - eapply wf_later; [exact Hts|]. apply (ti_delays _ _ _ I).
  - rewrite !Forall_app. repeat split; try (eapply wf_later; eassumption).
    apply closed_wf; [done|]. eapply close_start; eassumption.
  - intros q s Hq. apply (ti_pending _ _ _ I) in Hq. lia.
  - intros q. destruct (decide (q = p)) as [->|Hne]; [left; apply lookup_delete_eq|].
    rewrite lookup_delete_ne, lookup_insert_ne by done. apply (ti_one _ _ _ I).
  - exact Hk1.
  - exact Hk2.
  - apply StronglySorted_closed; [apply (ti_on _ _ _ I)|done].
  - apply (ti_off _ _ _ I).
  - apply Forall_app. split; [apply (ti_apart _ _ _ I)|].
    rewrite closed_past by (eapply close_start; eassumption). rewrite closed_past in Hl2 by (eapply close_start; eassumption).
    destruct (on_cpu_start st !! p); constructor; [|constructor].
    eapply Forall_impl; [exact Hl2|]. intros j Hj. right. by inversion Hj.
  - intros q. rewrite stays_of_app. pose proof (ti_count _ _ _ I q) as Hc.
    destruct (decide (q = p)) as [->|Hne].
    + rewrite lookup_delete_eq. pose proof (closed_stays p ts (on_cpu_start st !! p)). lia.
    + rewrite lookup_delete_ne by done. rewrite (absent_stays q (closed _ _ _)) by by apply closed_others. lia.
Qed.

Lemma inv_switch_in lo now ts st p :
  trace_inv lo now st -> now <= ts -> p ∈ T -> trace_inv lo ts (switch_in p ts st).
Proof.
  intros I Hts Hp.
  assert (forall s, off_cpu_start st !! p = Some s -> marker st p = Some s) as Hm.
  { unfold marker. intros s E. destruct (ti_one _ _ _ I p) as [->|E']; [done|congruence]. }
  pose proof (close_last lo now ts st I Hts p _ Hm) as [Hl1 Hl2]%Forall_app.
  pose proof (ti_stays _ _ _ I) as [Hw1 Hw2]%(Forall_app (wf_interval now)).
  destruct (markers_kept lo now ts st p _ (on_cpu st) (off_cpu st ++ closed p ts (off_cpu_start st !! p))%list _ I Hts Hm
              (marker_in p ts st) (or_intror (conj eq_refl eq_refl))) as [Hk1 Hk2].
  split; simpl.
  - pose proof (ti_time _ _ _ I). lia.
  - apply Forall_app. split; [eapply wf_later; [exact Hts|]; apply (ti_delays _ _ _ I)|].
    apply closed_wf; [done|]. intros s Hs. apply (ti_pending _ _ _ I) in Hs. lia.
  - rewrite !Forall_app. repeat split; try (eapply wf_later; eassumption).
    apply closed_wf; [done|]. eapply close_start; eassumption.
  - intros q s. rewrite lookup_delete_Some. intros [_ Hq]. apply (ti_pending _ _ _ I) in Hq. lia.
  - intros q. destruct (decide (q = p)) as [->|Hne]; [right; apply lookup_delete_eq|].
    rewrite lookup_delete_ne, lookup_insert_ne by done. apply (ti_one _ _ _ I).
  - exact Hk1.
  - exact Hk2.
  - apply (ti_on _ _ _ I).
  - apply StronglySorted_closed; [apply (ti_off _ _ _ I)|done].
  - pose proof (ti_apart _ _ _ I) as Ha. rewrite Forall_forall in Ha, Hl1. apply Forall_forall. intros i Hi.
    apply Forall_app. split; [by apply Ha|]. eapply Forall_impl; [by apply Hl1|]. intros j Hj. by left.
  - intros q. pose proof (ti_count _ _ _ I q) as Hc.
    destruct (decide (q = p)) as [->|Hne].
    + rewrite !lookup_insert_eq. simpl. destruct (on_cpu_start st !! p); lia.
    + by rewrite !lookup_insert_ne by done.
Qed.

(** Moves that leave the stays alone. *)
Lemma inv_same_stays lo now ts st st' :
  trace_inv lo now st -> now <= ts -> delays st' = delays st -> on_cpu st' = on_cpu st -> off_cpu st' = off_cpu st ->
  on_cpu_start st' = on_cpu_start st -> off_cpu_start st' = off_cpu_start st -> switches st' = switches st ->
  (forall p s, pending_wakeups st' !! p = Some s -> s <= ts) ->
  trace_inv lo ts st'.
Proof.
  intros [] Hts E1 E2 E3 E4 E5 E6 Hp. split; unfold marker in *; rewrite ?E1, ?E2, ?E3, ?E4, ?E5, ?E6; try done.
  - lia.
  - by eapply wf_later.
  - by eapply wf_later.
  - intros p s Hs. destruct (ti_marker0 p s Hs) as (? & ? & ?). repeat split; done || lia.
Qed.

Lemma reach_inv lo now st : reach lo now st -> trace_inv lo now st.
Proof.
  induction 1 as [|now ts st st' _ I Hts Hmv].
  - split; simpl; try done; try lia; repeat constructor; intros; try (by rewrite lookup_empty in *); by left.
  - assert (forall p s, pending_wakeups st !! p = Some s -> s <= ts) as Hp.
    { intros p s Hs. apply (ti_pending _ _ _ I) in Hs. lia. }
    destruct Hmv as [|p Hin|p Hin|p Hin|p n Hin|p name Hin];
      [|eapply inv_same_stays; try done|by eapply inv_switch_out|by eapply inv_switch_in| |];
      try (by eapply inv_same_stays).
    simpl. intros q s [[? ?]|[? ?]]%lookup_insert_Some; [lia|eauto].
Qed.

End Machine.

(** What the invariant says of a whole trace. *)
Lemma trace_intervals (T : gset Z) (events : list TraceEvent) (lo hi : Z) :
  lo <= hi -> Forall (fun e => lo <= ts_ns e <= hi) events ->
  let st := run_trace T events in
  Forall (wf_interval T hi) (delays st ++ on_cpu st ++ off_cpu st) /\
  StronglySorted precedes (on_cpu st) /\ StronglySorted precedes (off_cpu st) /\
  (forall i j, i ∈ on_cpu st -> j ∈ off_cpu st -> precedes i j \/ precedes j i) /\
  (forall p, time_of p (on_cpu st) + time_of p (off_cpu st) <= hi - lo /\
             stays_of p (on_cpu st) <= default 0 (switches st !! p)).
Proof.
  intros Hlh Hb st.
  destruct (run_reach T lo (sort_by by_time events) lo trace_init) as (now & Hr & Hnow).
  { constructor. }
  { apply sort_by_sorted; unfold by_time; intros; rewrite ?Z.leb_le in *; lia. }
  { rewrite sort_by_perm. eapply Forall_impl; [exact Hb|]. simpl. lia. }
  assert (now <= hi) as Hhi.
  { destruct Hnow as [->|(e & He & ->)]; [done|]. rewrite sort_by_perm in He.
    rewrite Forall_forall in Hb. specialize (Hb e He). lia. }
  apply reach_inv in Hr. change (fold_left _ _ _) with st in Hr. destruct Hr. repeat split.
  - apply Forall_app. split; by eapply wf_later.
  - done.
  - done.
  - intros i j Hi Hj. rewrite Forall_forall in ti_apart0. specialize (ti_apart0 i Hi).
    rewrite Forall_forall in ti_apart0. by apply ti_apart0.
  - rewrite <- time_of_app. destruct (marker st p) as [s|] eqn:E.
    + destruct (ti_marker0 p s E) as (? & _ & ?). lia.
    + rewrite absent_time by by apply ti_none0. lia.
  - specialize (ti_count0 p). destruct (on_cpu_start st !! p); lia.
Qed.

(** ** A reference for the one-pass algorithm

    The interval that an event closes, found by searching backwards through the
    earlier events, newest first. *)

Section Reference.
Context (T : gset Z).

Definition switching (e : TraceEvent) : bool := related T e && String.eqb (event e) "sched_switch".
Definition wakes (p : Z) (e : TraceEvent) : bool :=
  related T e && mem_string (event e) WAKEUP_EVENTS && bool_decide (target_from_wakeup T e = Some p).
Definition enters (p : Z) (e : TraceEvent) : bool := switching e && bool_decide (switch_in_pid T e = Some p).
Definition leaves (p : Z) (e : TraceEvent) : bool := switching e && bool_decide (switch_out_pid T e = Some p).

(** The latest event that starts ([Some (Some ts)]) or ends ([Some None]) a
    condition decides. *)
Fixpoint since (mark : TraceEvent -> option (option Z)) (seen : list TraceEvent) : option Z :=
  match seen with
  | [] => None
  | e :: seen' => match mark e with Some r => r | None => since mark seen' end
  end.

Definition waiting (p : Z) (e : TraceEvent) : option (option Z) :=
  if wakes p e then Some (Some (ts_ns e)) else if enters p e then Some None else None.
Definition running (p : Z) (e : TraceEvent) : option (option Z) :=
  if enters p e then Some (Some (ts_ns e)) else if leaves p e then Some None else None.
Definition stopped (p : Z) (e : TraceEvent) : option (option Z) :=
  if enters p e then Some None else if leaves p e then Some (Some (ts_ns e)) else None.

Definition for_task (p : option Z) (f : Z -> list interval) : list interval :=
  match p with Some p => f p | None => [] end.

Definition delay_part (seen : list TraceEvent) (e : TraceEvent) : list interval :=
  if switching e then for_task (switch_in_pid T e) (fun p => closed p (ts_ns e) (since (waiting p) seen)) else [].
Definition on_part (seen : list TraceEvent) (e : TraceEvent) : list interval :=
  if switching e then for_task (switch_out_pid T e) (fun p => closed p (ts_ns e) (since (running p) seen)) else [].
Definition off_part (seen : list TraceEvent) (e : TraceEvent) : list interval :=
  if switching e then for_task (switch_in_pid T e) (fun p =>
    closed p (ts_ns e) (if leaves p e then Some (ts_ns e) else since (stopped p) seen)) else [].

Fixpoint gather (part : list TraceEvent -> TraceEvent -> list interval) (seen l : list TraceEvent) : list interval :=
  match l with
  | [] => []
  | e :: l' => (part seen e ++ gather part (e :: seen) l')%list
  end.

Definition agrees (seen : list TraceEvent) (st : trace_state) : Prop := forall p,
  pending_wakeups st !! p = since (waiting p) seen /\
  on_cpu_start st !! p = since (running p) seen /\
  off_cpu_start st !! p = since (stopped p) seen.

Lemma insert_since (m : gmap Z Z) q v p : <[q := v]> m !! p = if bool_decide (Some q = Some p) then Some v else m !! p.
Proof.
  destruct (decide (q = p)) as [->|Hne]; [by rewrite lookup_insert_eq, bool_decide_true|].
  rewrite lookup_insert_ne by done. by rewrite bool_decide_false by congruence.
Qed.
Lemma delete_since (m : gmap Z Z) q p : delete q m !! p = if bool_decide (Some q = Some p) then None else m !! p.
Proof.
  destruct (decide (q = p)) as [->|Hne]; [by rewrite lookup_delete_eq, bool_decide_true|].
  rewrite lookup_delete_ne by done. by rewrite bool_decide_false by congruence.
Qed.

Lemma switch_not_wakeup e : String.eqb (event e) "sched_switch" = true -> mem_string (event e) WAKEUP_EVENTS = false.
Proof. by intros ->%String.eqb_eq. Qed.

Lemma agrees_step seen st e : agrees seen st ->
  agrees (e :: seen) (trace_step T st e) /\
  delays (trace_step T st e) = (delays st ++ delay_part seen e)%list /\
  on_cpu (trace_step T st e) = (on_cpu st ++ on_part seen e)%list /\
  off_cpu (trace_step T st e) = (off_cpu st ++ off_part seen e)%list.
Proof.
  intros A. unfold agrees, trace_step, delay_part, on_part, off_part.
  cbn [since]. unfold waiting, running, stopped, wakes, enters, leaves.
  unfold switching. destruct (related T e) eqn:Hrel; cbn [negb andb]; [|by rewrite !app_nil_r].
  destruct (String.eqb (event e) "sched_switch") eqn:Hs.
  - rewrite (switch_not_wakeup e Hs). cbn [andb].
    destruct (switch_out_pid T e) as [po|] eqn:Eo, (switch_in_pid T e) as [pi|] eqn:Ei;
      cbn [on_task for_task]; unfold switch_in, switch_out; cbn [delays on_cpu off_cpu pending_wakeups on_cpu_start off_cpu_start];
      rewrite ?app_nil_r.
    + destruct (A pi) as (Ap & _ & Af). destruct (A po) as (_ & Ao & _).
      rewrite Ap, Ao, insert_since, Af. repeat split; destruct (A p) as (Hp & Hon & Hoff);
        rewrite ?insert_since, ?delete_since, ?insert_since, ?Hp, ?Hon, ?Hoff; repeat case_bool_decide; done.
    + destruct (A po) as (_ & Ao & _). rewrite Ao. repeat split; destruct (A p) as (Hp & Hon & Hoff);
        rewrite ?insert_since, ?delete_since, ?Hp, ?Hon, ?Hoff; repeat case_bool_decide; done.
    + destruct (A pi) as (Ap & _ & Af). rewrite Ap, Af. repeat split; destruct (A p) as (Hp & Hon & Hoff);
        rewrite ?insert_since, ?delete_since, ?Hp, ?Hon, ?Hoff; repeat case_bool_decide; done.
    + repeat split; destruct (A p) as (Hp & Hon & Hoff); done.
  - cbn [andb]. rewrite !app_nil_r. destruct (mem_string (event e) WAKEUP_EVENTS).
    + destruct (target_from_wakeup T e) as [q|]; cbn [on_task]; unfold wake;
        cbn [delays on_cpu off_cpu pending_wakeups on_cpu_start off_cpu_start]; repeat split;
        destruct (A p) as (Hp & Hon & Hoff); rewrite ?insert_since, ?Hp; repeat case_bool_decide; done.
    + cbn [andb]. destruct (String.eqb (event e) "sched_stat_runtime"); [destruct (runtime_ns e)|];
        repeat match goal with |- context [if in_targets ?a ?b then _ else _] => destruct (in_targets a b)
               | |- context [if ?b && _ then _ else _] => destruct b; cbn [andb] end; done.
Qed.

Lemma gather_run l seen st : agrees seen st ->
  delays (fold_left (trace_step T) l st) = (delays st ++ gather delay_part seen l)%list /\
  on_cpu (fold_left (trace_step T) l st) = (on_cpu st ++ gather on_part seen l)%list /\
  off_cpu (fold_left (trace_step T) l st) = (off_cpu st ++ gather off_part seen l)%list.
Proof.
  revert seen st. induction l as [|e l IH]; intros seen st A; simpl; [by rewrite !app_nil_r|].
  destruct (agrees_step seen st e A) as (A' & E1 & E2 & E3).
  destruct (IH _ _ A') as (-> & -> & ->). by rewrite E1, E2, E3, !app_assoc.
Qed.
End Reference.

(** The one pass of [summarize_trace] over its dictionaries computes what
    searching backwards from every switch computes: a run-queue delay runs from
    the latest wakeup of the task since it last entered a CPU, a stay on the CPU
    from its latest entry since it last left, a stay off the CPU from its latest
    departure since it last entered. *)
Lemma summarize_trace_reference (T : gset Z) (events : list TraceEvent) :
  let l := sort_by by_time events in
  delays (run_trace T events) = gather (delay_part T) [] l /\
  on_cpu (run_trace T events) = gather (on_part T) [] l /\
  off_cpu (run_trace T events) = gather (off_part T) [] l.
Proof. apply (gather_run T _ [] trace_init). intros p. repeat split; apply lookup_empty. Qed.

(** ** From event to event *)

(** *** The events of a task

    A wake-up names the task in [target_pid], or else in [pid]; a switch to a task
    names it in [target_pid], or in [pid] when there is no [target_pid]; a switch
    away from it names it in [pid], with another [target_pid]. *)

Section Events.
Context (T : gset Z) (p : Z).

Definition woken (e : TraceEvent) : Prop :=
  event e ∈ ["sched_wakeup"; "sched_wakeup_new"] /\ p ∈ T /\ (target_pid e = Some p \/ target_pid e = None /\ pid e = p).
Definition switched_to (e : TraceEvent) : Prop :=
  event e = "sched_switch" /\ p ∈ T /\ (target_pid e = Some p \/ target_pid e = None /\ pid e = p).
Definition switched_from (e : TraceEvent) : Prop :=
  event e = "sched_switch" /\ p ∈ T /\ pid e = p /\ target_pid e <> Some p.

Lemma wakes_woken e : wakes T p e = true <-> woken e.
Proof.
  unfold wakes, woken, target_from_wakeup. rewrite !andb_true_iff, mem_string_spec, bool_decide_eq_true.
  unfold related. rewrite orb_true_iff. split.
  - intros ((_ & ?) & Hc). destruct (in_targets T _) eqn:E in Hc; [|done]. injection Hc as Hc. rewrite Hc, in_targets_Some in E.
    split_and!; [done|done|]. destruct (target_pid e); cbn in H; [left|right]; by subst.
  - intros (? & Hp & H). assert (default (pid e) (target_pid e) = p) as -> by (by destruct H as [->|[-> ->]]).
    rewrite (proj2 (in_targets_Some T p) Hp). split; [|done]. split; [|done].
    destruct H as [->|[_ ->]]; [right|left]; by apply in_targets_Some.
Qed.

Lemma enters_switched e : enters T p e = true <-> switched_to e.
Proof.
  unfold enters, switched_to, switching, switch_in_pid, related. rewrite !andb_true_iff, orb_true_iff, String.eqb_eq, bool_decide_eq_true. split.
  - intros ((_ & ->) & H). destruct (target_pid e) as [q|] eqn:E; [cbn [default] in *|];
      [destruct (in_targets T (Some q)) eqn:Hq|destruct (in_targets T (Some (pid e))) eqn:Hq]; try done; cbn in H; rewrite ?Hq in H; try done.
    + injection H as ->. apply in_targets_Some in Hq. auto.
    + injection H as <-. apply in_targets_Some in Hq. auto.
  - intros (-> & Hp%in_targets_Some & [->|[-> ->]]); rewrite Hp; cbn; rewrite ?Hp; auto.
Qed.

Lemma leaves_switched e : leaves T p e = true <-> switched_from e.
Proof.
  unfold leaves, switched_from, switching, switch_out_pid, related. rewrite !andb_true_iff, orb_true_iff, String.eqb_eq, bool_decide_eq_true. split.
  - intros ((_ & ->) & H). destruct (in_targets T (Some (pid e))) eqn:Hq; [|done]. cbn in H. case_bool_decide as E; [done|].
    injection H as H. rewrite H in *. apply in_targets_Some in Hq. auto.
  - intros (-> & Hp%in_targets_Some & -> & Ht). rewrite Hp. cbn. rewrite bool_decide_false by done. auto.
Qed.
End Events.

(** An interval from an event that opens it to a later one that closes it, with
    no event of interest between them. *)
Definition spans (opens closes busy : TraceEvent -> Prop) (l : list TraceEvent) (s t : Z) : Prop :=
  exists l1 o l2 c l3, l = (l1 ++ o :: l2 ++ c :: l3)%list /\ opens o /\ closes c /\ ts_ns o = s /\ ts_ns c = t /\
    Forall (fun e => ~ busy e) l2.

Section Spans.
Context (T : gset Z).

Lemma gather_elem part l d : forall seen, d ∈ gather part seen l <->
  exists l1 e l2, l = (l1 ++ e :: l2)%list /\ d ∈ part (rev l1 ++ seen)%list e.
Proof.
  induction l as [|e l IH]; intros seen; cbn [gather].
  { split; [by intros ?%not_elem_of_nil|]. by intros ([|? ?] & ? & ? & [=] & _). }
  rewrite elem_of_app, IH. split.
  - intros [H|(l1 & e' & l2 & -> & H)]; [by exists [], e, l|]. exists (e :: l1), e', l2. split; [done|]. cbn [rev]. by rewrite <- app_assoc.
  - intros ([|x l1] & e' & l2 & [= -> ->] & H); [by left|]. right. exists l1, e', l2. split; [done|]. cbn [rev] in H. by rewrite <- app_assoc in H.
Qed.

Lemma since_rev (A B : TraceEvent -> bool) mark l s :
  (forall e, mark e = if A e then Some (Some (ts_ns e)) else if B e then Some None else None) ->
  since mark (rev l) = Some s <->
  exists a o b, l = (a ++ o :: b)%list /\ A o = true /\ ts_ns o = s /\ Forall (fun e => A e = false /\ B e = false) b.
Proof.
  intros Hm. induction l as [|e l IH] using rev_ind; [split; [done|]; by intros ([|? ?] & ? & ? & [=] & _)|].
  rewrite rev_app_distr. cbn [rev app since]. rewrite Hm. split.
  - destruct (A e) eqn:EA; [intros [= <-]; by exists l, e, []|]. destruct (B e) eqn:EB; [done|]. rewrite IH.
    intros (a & o & b & -> & Ho & Hs & Hb). exists a, o, (b ++ [e])%list. rewrite <- app_assoc. split; [done|]. split; [done|]. split; [done|].
    apply Forall_app. split; [done|]. by repeat constructor.
  - intros (a & o & b & E & Ho & Hs & Hb). destruct b as [|e' b _] using rev_ind.
    + apply app_inj_tail in E as [-> ->]. by rewrite Ho, Hs.
    + change (a ++ o :: b ++ [e'])%list with (a ++ (o :: b) ++ [e'])%list in E. rewrite app_assoc in E. apply app_inj_tail in E as [-> ->].
      apply Forall_app in Hb as [Hb He]. apply Forall_cons_iff in He as [[-> ->] _]. apply IH. by exists a, o, b.
Qed.

Lemma sorted_apart l1 o l2 c l3 : StronglySorted (fun a b => by_time a b = true) (l1 ++ o :: l2 ++ c :: l3) -> ts_ns o <= ts_ns c.
Proof.
  induction l1 as [|x l1 IH]; cbn [app]; intros [Hs Hf]%StronglySorted_inv; [|by apply IH].
  rewrite List.Forall_forall in Hf. apply Z.leb_le, Hf, in_app_iff. right. by left.
Qed.

(** What is gathered, with the closing events that [skip] passes over, are the
    spans of the tasks that are switched. *)
Lemma gather_spans (A B skip : Z -> TraceEvent -> bool) (opens closes busy : Z -> TraceEvent -> Prop)
    (who : TraceEvent -> option Z) part mark l d :
  StronglySorted (fun a b => by_time a b = true) l ->
  (forall p e, mark p e = if A p e then Some (Some (ts_ns e)) else if B p e then Some None else None) ->
  (forall seen e, part seen e = if switching T e then for_task (who e) (fun p =>
     if skip p e then [] else closed p (ts_ns e) (since (mark p) seen)) else []) ->
  (forall p e, A p e = true <-> opens p e) ->
  (forall p e, switching T e = true /\ who e = Some p /\ skip p e = false <-> closes p e) ->
  (forall p e, A p e = false /\ B p e = false <-> ~ busy p e) ->
  d ∈ gather part [] l <-> exists p s t, d = Interval p s t (t - s) /\ spans (opens p) (closes p) (busy p) l s t.
Proof.
  intros Hl Hm Hp HA HC HB. rewrite gather_elem. split.
  - intros (l1 & c & l3 & -> & H). rewrite app_nil_r, Hp in H. destruct (switching T c) eqn:Ec; [|by apply not_elem_of_nil in H].
    destruct (who c) as [p|] eqn:Ew; cbn [for_task] in H; [|by apply not_elem_of_nil in H].
    destruct (skip p c) eqn:Esk; [by apply not_elem_of_nil in H|].
    destruct (since (mark p) (rev l1)) as [s|] eqn:Es; cbn [closed] in H; [|by apply not_elem_of_nil in H].
    destruct (s <=? ts_ns c); [|by apply not_elem_of_nil in H]. apply list_elem_of_singleton in H as ->.
    apply (since_rev (A p) (B p)) in Es as (a & o & b & -> & Ho & Hs & Hb); [|done]. exists p, s, (ts_ns c). split; [done|].
    exists a, o, b, c, l3. rewrite <- app_assoc. split_and!; [done|by apply HA|by apply HC|done|done|].
    eapply Forall_impl; [exact Hb|]. intros e. apply HB.
  - intros (p & s & t & -> & l1 & o & l2 & c & l3 & -> & Ho & (Hsw & Hw & Hsk)%HC & <- & <- & Hb). exists (l1 ++ o :: l2)%list, c, l3.
    split; [by rewrite <- app_assoc|]. rewrite app_nil_r, Hp. pose proof (sorted_apart _ _ _ _ _ Hl) as Hle.
    rewrite Hsw, Hw. cbn [for_task]. rewrite Hsk.
    assert (since (mark p) (rev (l1 ++ o :: l2)) = Some (ts_ns o)) as ->.
    { apply (since_rev (A p) (B p)); [done|]. exists l1, o, l2. split_and!; [done|by apply HA|done|].
      eapply Forall_impl; [exact Hb|]. intros e. apply HB. }
    cbn [closed]. rewrite (proj2 (Z.leb_le _ _) Hle). by apply list_elem_of_singleton.
Qed.

Lemma switching_enters p e : switching T e = true /\ switch_in_pid T e = Some p <-> switched_to T p e.
Proof. rewrite <- enters_switched. unfold enters. by rewrite andb_true_iff, bool_decide_eq_true. Qed.
Lemma switching_leaves p e : switching T e = true /\ switch_out_pid T e = Some p <-> switched_from T p e.
Proof. rewrite <- leaves_switched. unfold leaves. by rewrite andb_true_iff, bool_decide_eq_true. Qed.

Lemma neither (a b : bool) (P Q : Prop) : (a = true <-> P) -> (b = true <-> Q) -> a = false /\ b = false <-> ~ (P \/ Q).
Proof. intros HP HQ. rewrite <- HP, <- HQ. destruct a, b; naive_solver. Qed.

Context (l : list TraceEvent) (Hl : StronglySorted (fun a b => by_time a b = true) l).

Lemma delays_span d : d ∈ gather (delay_part T) [] l <-> exists p s t, d = Interval p s t (t - s) /\
  spans (woken T p) (switched_to T p) (fun e => woken T p e \/ switched_to T p e) l s t.
Proof.
  apply (gather_spans (wakes T) (enters T) (fun _ _ => false) _ _ (fun p e => woken T p e \/ switched_to T p e)
           (switch_in_pid T) _ (waiting T)); try done.
  - intros p e. apply wakes_woken.
  - intros p e. rewrite <- switching_enters. tauto.
  - intros p e. by apply neither; [apply wakes_woken|apply enters_switched].
Qed.

Lemma on_cpu_span d : d ∈ gather (on_part T) [] l <-> exists p s t, d = Interval p s t (t - s) /\
  spans (switched_to T p) (switched_from T p) (fun e => switched_to T p e \/ switched_from T p e) l s t.
Proof.
  apply (gather_spans (enters T) (leaves T) (fun _ _ => false) _ _ (fun p e => switched_to T p e \/ switched_from T p e)
           (switch_out_pid T) _ (running T)); try done.
  - intros p e. apply enters_switched.
  - intros p e. rewrite <- switching_leaves. tauto.
  - intros p e. by apply neither; [apply enters_switched|apply leaves_switched].
Qed.

(** The stays off the CPU, apart from those of no length. *)
Definition away_part (seen : list TraceEvent) (e : TraceEvent) : list interval :=
  if switching T e then for_task (switch_in_pid T e) (fun p =>
    if leaves T p e then [] else closed p (ts_ns e) (since (stopped T p) seen)) else [].

Lemma off_part_elem seen e d : d ∈ off_part T seen e <->
  d ∈ away_part seen e \/ exists p, d = Interval p (ts_ns e) (ts_ns e) 0 /\ switched_from T p e /\ switched_to T p e.
Proof.
  unfold off_part, away_part. destruct (switching T e) eqn:Es.
  - destruct (switch_in_pid T e) as [p|] eqn:Ei; cbn [for_task].
    + assert (switched_to T p e) as Ht by by apply switching_enters. destruct (leaves T p e) eqn:Ele.
      * assert (switched_from T p e) by by apply leaves_switched.
        cbn [closed]. rewrite Z.leb_refl, Z.sub_diag, list_elem_of_singleton. split; [intros ->; right; by exists p|].
        intros [?%not_elem_of_nil|(q & -> & _ & Hq)]; [done|]. apply switching_enters in Hq as [_ Hq]. congruence.
      * split; [by left|]. intros [?|(q & _ & Hf & Hq)]; [done|]. apply switching_enters in Hq as [_ Hq].
        apply leaves_switched in Hf. congruence.
    + split; [by intros ?%not_elem_of_nil|]. intros [?%not_elem_of_nil|(q & _ & _ & Hq)]; [done|].
      apply switching_enters in Hq as [_ Hq]. congruence.
  - split; [by intros ?%not_elem_of_nil|]. intros [?%not_elem_of_nil|(q & _ & _ & Hq)]; [done|].
    apply switching_enters in Hq as [Hq _]. congruence.
Qed.

Lemma away_span d : d ∈ gather away_part [] l <-> exists p s t, d = Interval p s t (t - s) /\
  spans (fun e => switched_from T p e /\ ~ switched_to T p e) (fun e => switched_to T p e /\ ~ switched_from T p e)
    (fun e => switched_from T p e \/ switched_to T p e) l s t.
Proof.
  apply (gather_spans (fun p e => leaves T p e && negb (enters T p e)) (enters T) (leaves T)
           (fun p e => switched_from T p e /\ ~ switched_to T p e) (fun p e => switched_to T p e /\ ~ switched_from T p e)
           (fun p e => switched_from T p e \/ switched_to T p e) (switch_in_pid T) _ (stopped T)); try done.
  - intros p e. unfold stopped. by destruct (enters T p e), (leaves T p e).
  - intros p e. by rewrite andb_true_iff, negb_true_iff, leaves_switched, <- not_true_iff_false, enters_switched.
  - intros p e. rewrite <- switching_enters, <- not_true_iff_false, leaves_switched. tauto.
  - intros p e. rewrite <- (neither (leaves T p e) (enters T p e)) by first [apply leaves_switched|apply enters_switched].
    destruct (leaves T p e), (enters T p e); naive_solver.
Qed.

Lemma off_cpu_span d : d ∈ gather (off_part T) [] l <->
  (exists p s t, d = Interval p s t (t - s) /\
     spans (fun e => switched_from T p e /\ ~ switched_to T p e) (fun e => switched_to T p e /\ ~ switched_from T p e)
       (fun e => switched_from T p e \/ switched_to T p e) l s t) \/
  (exists p e, d = Interval p (ts_ns e) (ts_ns e) 0 /\ e ∈ l /\ switched_from T p e /\ switched_to T p e).
Proof.
  rewrite <- away_span, !gather_elem. split.
  - intros (l1 & e & l2 & -> & [H|(p & -> & ? & ?)]%off_part_elem); [left; by exists l1, e, l2|].
    right. exists p, e. split_and!; try done. apply elem_of_app. right. by left.
  - intros [(l1 & e & l2 & -> & H)|(p & e & -> & (l1 & l2 & ->)%list_elem_of_split & ? & ?)]; exists l1, e, l2; split; try done;
      apply off_part_elem; [by left|]. right. by exists p.
Qed.

Lemma spans_from lo opens closes busy s t : Forall (fun e => lo <= ts_ns e) l -> spans opens closes busy l s t -> lo <= s.
Proof.
  intros H (l1 & o & l2 & c & l3 & -> & _ & _ & <- & _). by apply Forall_app in H as [_ [? _]%Forall_cons_iff].
Qed.
End Spans.

(** An interval of a requested task within the trace. *)
Definition within (T : gset Z) (lo hi : Z) (i : interval) : Prop :=
  iv_pid i ∈ T /\ lo <= iv_start i <= iv_end i /\ iv_end i <= hi /\ iv_duration i = iv_end i - iv_start i.

(** C37: The intervals of a trace summary, for every set of tasks and every list
    of events between [lo] and [hi], in any order and however incomplete.  In the
    order of their times, the run-queue delays are exactly the times from a
    wake-up of a requested task to the next switch to it, counted from its last
    wake-up before that; the stays on the CPU are exactly the times from a switch
    to the task to the next event that switches it, which switches away from it;
    the stays off the CPU are the times from a switch away from it to the next
    event that switches it, which switches to it, and a stay of no length for
    every event that does both (a switch without a target).  All lie within the
    trace and carry the difference as duration; of one task, the stays on the CPU
    are listed in order without overlap, so are those off the CPU, and no stay on
    the CPU overlaps one off the CPU; the stays of a task take no longer than the
    trace, and there are no more stays on the CPU than context switches. *)
Theorem summarize_trace_sound (T : gset Z) (events : list TraceEvent) (lo hi : Z) :
  lo <= hi -> Forall (fun e => lo <= ts_ns e <= hi) events ->
  let st := run_trace T events in
  let l := sort_by by_time events in
  (forall d, d ∈ delays st <-> exists p s t, d = Interval p s t (t - s) /\
     spans (woken T p) (switched_to T p) (fun e => woken T p e \/ switched_to T p e) l s t) /\
  (forall d, d ∈ on_cpu st <-> exists p s t, d = Interval p s t (t - s) /\
     spans (switched_to T p) (switched_from T p) (fun e => switched_to T p e \/ switched_from T p e) l s t) /\
  (forall d, d ∈ off_cpu st <->
     (exists p s t, d = Interval p s t (t - s) /\
        spans (fun e => switched_from T p e /\ ~ switched_to T p e) (fun e => switched_to T p e /\ ~ switched_from T p e)
          (fun e => switched_from T p e \/ switched_to T p e) l s t) \/
     (exists p e, d = Interval p (ts_ns e) (ts_ns e) 0 /\ e ∈ l /\ switched_from T p e /\ switched_to T p e)) /\
  Forall (within T lo hi) (delays st ++ on_cpu st ++ off_cpu st) /\
  StronglySorted precedes (on_cpu st) /\ StronglySorted precedes (off_cpu st) /\
  (forall i j, i ∈ on_cpu st -> j ∈ off_cpu st -> precedes i j \/ precedes j i) /\
  (forall p, time_of p (on_cpu st) + time_of p (off_cpu st) <= hi - lo /\
             stays_of p (on_cpu st) <= default 0 (switches st !! p)).
Proof.
  intros Hlh Hb st l. destruct (trace_intervals T events lo hi Hlh Hb) as (Hwf & Hrest). fold st in Hwf, Hrest.
  assert (Sorted : StronglySorted (fun a b => by_time a b = true) l)
    by (apply sort_by_sorted; unfold by_time; intros; rewrite ?Z.leb_le in *; lia).
  assert (Hlo : Forall (fun e => lo <= ts_ns e) l).
  { unfold l. rewrite sort_by_perm. eapply Forall_impl; [exact Hb|]. simpl. lia. }
  destruct (summarize_trace_reference T events) as (E1 & E2 & E3). fold st l in E1, E2, E3.
  assert (forall d, d ∈ (delays st ++ on_cpu st ++ off_cpu st)%list -> lo <= iv_start d) as Hstart.
  { intros d. rewrite !elem_of_app, E1, E2, E3.
    intros [(p & s & t & -> & H)%delays_span|[(p & s & t & -> & H)%on_cpu_span|
      [(p & s & t & -> & H)|(p & e & -> & He & _)]%off_cpu_span]]; try done; try (by eapply spans_from).
    rewrite Forall_forall in Hlo. by apply Hlo. }
  split; [intros d; rewrite E1; by apply delays_span|]. split; [intros d; rewrite E2; by apply on_cpu_span|].
  split; [intros d; rewrite E3; by apply off_cpu_span|]. split; [|exact Hrest].
  rewrite Forall_forall in Hwf. apply Forall_forall. intros i Hi. destruct (Hwf i Hi) as (? & ? & ?). specialize (Hstart i Hi).
  unfold within. split_and!; try done; lia.
Qed.

(** ** Reading the filtered trace again *)

Lemma row_text_absent k header values : k ∉ header -> row_text k (zip_row header values) = "".
Proof. intros H. unfold row_text. by rewrite row_get_absent. Qed.

Lemma row_text_fits k header values : Forall fits values -> fits (row_text k (zip_row header values)).
Proof.
  intros H. unfold row_text. destruct (row_get k _) as [[x|]|] eqn:E; try apply fits_empty.
  apply row_get_elem in E. rewrite Forall_forall in H. by apply H.
Qed.

(** The row kept with an event gives its text back, column by column. *)
Definition kept_values (r : csv_row) : list string := (fun c => row_text c r) <$> TRACE_COLUMNS.

Lemma kept_column c r : c ∈ TRACE_COLUMNS -> row_text c (zip_row TRACE_COLUMNS (kept_values r)) = row_text c r.
Proof.
  intros H. unfold TRACE_COLUMNS in H. repeat (apply elem_of_cons in H as [->|H]; [reflexivity|]).
  by apply not_elem_of_nil in H.
Qed.

Lemma event_of_row_kept ts_column header values e :
  event_of_row ts_column header values = Some e ->
  snd <$> row e = kept_values (zip_row header values) /\
  row e = (fun c => (c, row_text c (zip_row header values))) <$> TRACE_COLUMNS.
Proof.
  unfold event_of_row. intros H. destruct (negb _); [done|]. cbv zeta in H.
  destruct (optional_int _); [|done]. destruct (optional_int _); [|done]. destruct (_ || _); [done|].
  injection H as <-. by split.
Qed.

Lemma event_replayed header values e :
  "next_pid" ∉ header -> event_of_row "ts_ns" header values = Some e ->
  event_of_row "ts_ns" TRACE_COLUMNS (snd <$> row e) = Some e.
Proof.
  intros Hn H. destruct (event_of_row_kept _ _ _ _ H) as [-> Hrow]. revert H. unfold event_of_row.
  set (r := zip_row header values) in *. set (r' := zip_row TRACE_COLUMNS (kept_values r)).
  assert (forall c, c ∈ TRACE_COLUMNS -> row_text c r' = row_text c r) as Hc by (intros c Hin; apply (kept_column c r Hin)).
  assert (row_text "next_pid" r = "") as Hnp by by apply row_text_absent.
  assert (row_text "next_pid" r' = "") as Hnp' by reflexivity.
  replace (Nat.eqb (length (kept_values r)) (length TRACE_COLUMNS)) with true by reflexivity.
  rewrite !Hc by (apply mem_string_spec; reflexivity). rewrite Hnp, Hnp'.
  destruct (Nat.eqb _ _); [|done]. cbn [negb].
  replace ((fun c => (c, row_text c r')) <$> TRACE_COLUMNS) with ((fun c => (c, row_text c r)) <$> TRACE_COLUMNS); [done|].
  apply list_fmap_ext. intros i c Hi. by rewrite Hc by (by eapply list_elem_of_lookup_2).
Qed.

Lemma events_of_records_spec header rest e :
  e ∈ events_of_records (header :: rest) ->
  exists values, values ∈ rest /\ event_of_row (header_ts header) header values = Some e.
Proof.
  unfold events_of_records. destruct (forallb _ _); [|by intros ?%not_elem_of_nil].
  by intros (v & ? & ?)%list_elem_of_omap; eauto.
Qed.

Lemma omap_all {A B C} (f : B -> option C) (g : A -> B) (h : A -> C) l :
  Forall (fun x => f (g x) = Some (h x)) l -> omap f (g <$> l) = h <$> l.
Proof. induction 1 as [|x l Hx _ IH]; [done|]. cbn. rewrite Hx. by f_equal. Qed.
Lemma omap_none {A B C} (f : B -> option C) (g : A -> B) l :
  Forall (fun x => f (g x) = None) l -> omap f (g <$> l) = [].
Proof. induction 1 as [|x l Hx _ IH]; [done|]. cbn. by rewrite Hx. Qed.

Lemma read_filtered T events :
  Forall (fun e => exists header values, Forall fits values /\ snd <$> row e = kept_values (zip_row header values)) events ->
  parse_trace_csv (Ok (text_lines (filtered_trace T events), None)) =
  Ok (omap (event_of_row "ts_ns" TRACE_COLUMNS) ((fun e => snd <$> row e) <$> List.filter (related T) (sort_by by_time events))).
Proof.
  intros H. unfold parse_trace_csv, filtered_trace.
  pose proof (csv_roundtrip true (TRACE_COLUMNS :: ((fun e => snd <$> row e) <$> List.filter (related T) (sort_by by_time events)))) as Hrt.
  unfold csv_read in Hrt. rewrite Hrt; [done|]. constructor.
  - split; [done|]. unfold TRACE_COLUMNS. repeat constructor; unfold fits, csv_field_limit; vm_compute; discriminate.
  - apply Forall_fmap, List.Forall_forall. intros e He. apply List.filter_In in He as [He _].
    rewrite <- list_elem_of_In, sort_by_perm in He. rewrite Forall_forall in H.
    destruct (H e He) as (header & values & Hf & E). simpl. rewrite E. split; [done|].
    unfold kept_values. apply Forall_fmap, Forall_true. intros c. by apply row_text_fits.
Qed.

(** Reading the filtered trace back.  For a trace with the columns of the
    stable format, the filtered trace parses to exactly the events about the
    requested tasks, in time order.  For a trace whose time column is called
    [timestamp], as the bpftrace probes write it, the filtered trace has lost
    every time stamp and parses to nothing. *)
Theorem filtered_trace_reads_back T lines stop header rest err events :
  csv_rows true stop csv_reset lines = (header :: rest, err) ->
  parse_trace_csv (Ok (lines, stop)) = Ok events ->
  let again := parse_trace_csv (Ok (text_lines (filtered_trace T events), None)) in
  ("ts_ns" ∈ header -> "next_pid" ∉ header -> again = Ok (List.filter (related T) (sort_by by_time events))) /\
  ("ts_ns" ∉ header -> again = Ok []).
Proof.
  intros Hrows Hp again.
  assert (events = events_of_records (header :: rest)) as ->.
  { unfold parse_trace_csv in Hp. rewrite Hrows in Hp. destruct err as [e|]; [destruct (caught_by _ e)|]; by inv_ok. }
  pose proof (csv_rows_fits true stop lines csv_reset reset_fits) as Hfit. rewrite Hrows in Hfit. simpl in Hfit.
  apply Forall_cons_iff in Hfit as [_ Hfit]. rewrite Forall_forall in Hfit.
  set (es := events_of_records (header :: rest)) in *.
  assert (forall e, e ∈ es -> exists values, Forall fits values /\ event_of_row (header_ts header) header values = Some e) as Hes.
  { intros e (values & Hv & He)%events_of_records_spec. eauto. }
  assert (again = Ok (omap (event_of_row "ts_ns" TRACE_COLUMNS) ((fun e => snd <$> row e) <$> List.filter (related T) (sort_by by_time es)))) as Ha.
  { apply read_filtered, Forall_forall. intros e (values & Hv & He%event_of_row_kept)%Hes. destruct He. eauto. }
  assert (forall e, In e (List.filter (related T) (sort_by by_time es)) -> e ∈ es) as Hin.
  { intros e [He _]%List.filter_In. by rewrite <- list_elem_of_In, sort_by_perm in He. }
  rewrite Ha. split.
  - intros Hts Hn. f_equal. rewrite (omap_all _ _ id); [apply list_fmap_id|].
    apply List.Forall_forall. intros e (values & _ & He)%Hin%Hes. unfold header_ts in He.
    rewrite (proj2 (mem_string_spec _ _) Hts) in He. by eapply event_replayed.
  - intros Hts. f_equal. apply omap_none, List.Forall_forall. intros e (values & _ & He)%Hin%Hes.
    destruct (event_of_row_kept _ _ _ _ He) as [-> _]. unfold event_of_row.
    replace (Nat.eqb (length (kept_values _)) (length TRACE_COLUMNS)) with true by reflexivity. cbn [negb].
    rewrite (kept_column "ts_ns") by (apply mem_string_spec; reflexivity). by rewrite row_text_absent.
Qed.

(** ** Concrete traces *)

Definition probe_text : string :=
  join newline
    ["timestamp,event,cpu,pid,comm,prev_state,next_pid,next_comm,runtime_ns,cgroup_id";
     "100,sched_wakeup,0,1,waker,,123,worker,,1"; "160,sched_switch,0,1,waker,0,123,worker,,1";
     "210,sched_switch,0,123,worker,0,1,waker,,1"; "230,sched_wakeup,0,1,waker,,123,worker,,1";
     "260,sched_switch,0,1,waker,0,123,worker,,1"; ""].
Definition stable_text : string :=
  join newline
    ["event,ts_ns,pid,target_pid"; "sched_switch,210,123,77"; "sched_switch,160,77,123"; "sched_switch,170,1,2"; ""].

Definition events_in (text : string) : list TraceEvent :=
  match parse_trace_csv (Ok (text_lines text, None)) with Ok es => es | Raise _ => [] end.
Definition records_in (text : string) : list (list string) := fst (csv_read true text).

Lemma summarize_trace_sound_witness :
  on_cpu (run_trace {[123]} (events_in probe_text)) = [Interval 123 160 210 50] /\
  time_of 123 (on_cpu (run_trace {[123]} (events_in probe_text))) +
  time_of 123 (off_cpu (run_trace {[123]} (events_in probe_text))) <= 260 - 100.
Proof.
  split; [vm_compute; reflexivity|].
  refine (proj1 (proj2 (proj2 (proj2 (proj2 (proj2 (proj2 (proj2 (summarize_trace_sound {[123]} (events_in probe_text) 100 260 _ _))))))) 123)); [lia|].
  vm_compute. repeat constructor; discriminate.
Defined.

Lemma filtered_trace_reads_back_witness :
  length (events_in probe_text) = 5%nat /\
  parse_trace_csv (Ok (text_lines (filtered_trace {[123]} (events_in probe_text)), None)) = Ok [] /\
  ts_ns <$> events_in (filtered_trace {[123]} (events_in stable_text)) = [160; 210].
Proof.
  split; [vm_compute; reflexivity|]. split.
  - apply (filtered_trace_reads_back {[123]} (text_lines probe_text) None (hd [] (records_in probe_text))
             (tl (records_in probe_text)) None (events_in probe_text)).
    + vm_compute. reflexivity.
    + vm_compute. reflexivity.
    + rewrite <- mem_string_false. vm_compute. reflexivity.
  - vm_compute. reflexivity.
Defined.
