(* ===== verification/World.v ===== *)
(** The world outside the process, for the code that waits, calls servers and
    runs commands.

    An operation of the world is a value of [op R], [R] the type of its answer.
    [Env] is an oracle that answers an operation from the history of operations
    so far, with a value or an exception; a theorem about every [Env] covers
    every behaviour of clocks, servers, files and child processes.  Effectful
    code is the state monad [M] over the history. *)

From Stdlib Require Import ZArith Bool Ascii String Lia SpecFloat.
From stdpp Require Import base list strings option.
From S2P Require Import Prelude Eff PyStr PyFloat PyVal.

Open Scope string_scope.
Open Scope Z_scope.

(** A UTC time: year, month, day, hour, minute, second, microsecond. *)
Record datetime : Type := {
  dt_year : Z; dt_month : Z; dt_day : Z; dt_hour : Z; dt_minute : Z; dt_second : Z; dt_micro : Z
}.

(** A finished child process. *)
Record completed : Type := { returncode : Z; stdout : string; stderr : string }.

Inductive op : Type -> Type :=
  (* time.monotonic(), time.sleep(d), datetime.now(utc), secrets.token_hex(n) *)
  | Monotonic : op float
  | Sleep (d : float) : op unit
  | UtcNow : op datetime
  | TokenHex (n : Z) : op string
  (* one request to the API server: status and body *)
  | HttpRequest (method path : string) (content_type payload : option string) : op (Z * string)
  (* urllib.request.urlopen: status and body *)
  | UrlOpen (url : string) (timeout : Z) : op (Z * string)
  (* subprocess.run with captured output *)
  | Run (argv : list string) (timeout : option pyval) : op completed
  (* the port-forward child process *)
  | Popen (argv : list string) : op unit
  | Poll : op bool                                 (* whether it has exited *)
  | ReadStderr : op string
  | ProbeGet (port : Z) (path : string) : op unit
  | Terminate : op unit
  | Wait (timeout : Z) : op unit
  | Kill : op unit
  (* files *)
  | ReadText (path : string) : op string
  | WriteText (path text : string) : op unit
  | MakeDirs (path : string) : op unit
  | MkdTemp (prefix : string) : op string
  | WriteBase64 (path : string) (data : pyval) : op unit   (* write_bytes(b64decode(data)) *)
  | Chmod (path : string) (mode : Z) : op unit
  (* ssl.create_default_context and load_cert_chain *)
  | LoadTls (cafile certfile keyfile : string) : op unit
  (* a message on standard error *)
  | Log (message : string) : op unit
  (* pathlib: is_file, is_dir, exists, the names of iterdir, all paths below (rglob), resolve, append *)
  | IsFile (path : string) : op bool
  | IsDir (path : string) : op bool
  | PathExists (path : string) : op bool
  | IterDir (path : string) : op (list string)
  | WalkTree (path : string) : op (list string)
  | Resolve (path : string) : op string
  | AppendText (path text : string) : op unit
  (* subprocess.run(argv, input=text, check=True) *)
  | RunInput (argv : list string) (input : option string) : op completed
  (* communicate() with the child process: its exit status and output *)
  | Communicate (timeout : option Z) : op completed
  (* starting and joining the thread that scrapes a URL: what its requests gave, each a text
     and the time it was read or an exception, and whether it still runs *)
  | StartScraper (url : string) : op unit
  | JoinScraper (url : string) (timeout : Z) : op (list (result (string * datetime)) * bool).

Record event : Type := Event { event_type : Type; event_op : op event_type }.
Arguments Event {_} _.

Abbreviation history := (list event).

Class Env : Type := answer : forall R, op R -> history -> result R.
Arguments answer {_} R o h.

(** ** The monad *)

Abbreviation M := (ST history).

Definition perform `{Env} {R} (o : op R) : M R := fun h => (answer R o h, (h ++ [Event o])%list).
(** ** What a program does to the history

    [emits Q m]: from any history [h], [m] only appends, and the appended
    operations and the outcome satisfy [Q]. *)

Definition emits {A} (Q : history -> result A -> Prop) (m : M A) : Prop :=
  forall h, exists ev, snd (m h) = (h ++ ev)%list /\ Q ev (fst (m h)).

(** Every operation that [m] performs satisfies [P]. *)
Definition only (P : event -> Prop) {A} (m : M A) : Prop := emits (fun ev _ => Forall P ev) m.

Section Emits.
Context `{Env}.

Lemma emits_weaken {A} (Q Q' : history -> result A -> Prop) m :
  (forall ev r, Q ev r -> Q' ev r) -> emits Q m -> emits Q' m.
Proof. intros HQ Hm h. destruct (Hm h) as (ev & ? & ?). exists ev. eauto. Qed.

Lemma emits_bind {A B} (Q1 : history -> result A -> Prop) (Q2 : A -> history -> result B -> Prop)
    (Q : history -> result B -> Prop) m k :
  emits Q1 m -> (forall a, emits (Q2 a) (k a)) ->
  (forall ev1 a ev2 r, Q1 ev1 (Ok a) -> Q2 a ev2 r -> Q (ev1 ++ ev2)%list r) ->
  (forall ev e, Q1 ev (Raise e) -> Q ev (Raise e)) ->
  emits Q (mbindM m k).
Proof.
  intros Hm Hk Hok Herr h. unfold mbindM. destruct (Hm h) as (ev1 & E1 & H1).
  destruct (m h) as [[a|e] h1]; cbn [fst snd] in *; subst h1.
  - destruct (Hk a (h ++ ev1)%list) as (ev2 & E2 & H2). exists (ev1 ++ ev2)%list.
    rewrite app_assoc. eauto.
  - exists ev1. eauto.
Qed.

Lemma emits_finally {A} (Q1 : history -> result A -> Prop) (Q2 : history -> result unit -> Prop)
    (Q : history -> result A -> Prop) m f :
  emits Q1 m -> emits Q2 f ->
  (forall ev1 r ev2, Q1 ev1 r -> Q2 ev2 (Ok tt) -> Q (ev1 ++ ev2)%list r) ->
  (forall ev1 r ev2 e, Q1 ev1 r -> Q2 ev2 (Raise e) -> Q (ev1 ++ ev2)%list (Raise e)) ->
  emits Q (try_finally m f).
Proof.
  intros Hm Hf Hok Herr h. unfold try_finally. destruct (Hm h) as (ev1 & E1 & H1).
  destruct (m h) as [r h1]. cbn [fst snd] in *. subst h1.
  destruct (Hf (h ++ ev1)%list) as (ev2 & E2 & H2).
  exists (ev1 ++ ev2)%list. rewrite app_assoc.
  destruct (f (h ++ ev1)%list) as [[[]|e] h2]; cbn [fst snd] in *; eauto.
Qed.

Context (P : event -> Prop).

Lemma only_ret {A} (a : A) : only P (ret a).
Proof. intros h. exists []. by rewrite app_nil_r. Qed.
Lemma only_throw {A} c msg : only P (throw c msg : M A).
Proof. intros h. exists []. by rewrite app_nil_r. Qed.
Lemma only_lift {A} (r : result A) : only P (lift r).
Proof. intros h. exists []. by rewrite app_nil_r. Qed.
Lemma only_throw_if b c msg : only P (throw_if b c msg).
Proof. destruct b; [apply only_throw|apply only_ret]. Qed.
Lemma only_perform {R} (o : op R) : P (Event o) -> only P (perform o).
Proof. intros Ho h. exists [Event o]. split; [done|]. by constructor. Qed.
Lemma only_bind {A B} (m : M A) (k : A -> M B) :
  only P m -> (forall a, only P (k a)) -> only P (mbindM m k).
Proof.
  intros Hm Hk.
  apply (emits_bind (fun ev _ => Forall P ev) (fun _ ev _ => Forall P ev)); try done.
  intros. by apply Forall_app.
Qed.
(** The continuation may use what the first part returns. *)
Lemma only_bind_value {A B} (m : M A) (k : A -> M B) :
  only P m -> (forall h a h', m h = (Ok a, h') -> only P (k a)) -> only P (mbindM m k).
Proof.
  intros Hm Hk h. unfold mbindM. destruct (Hm h) as (ev1 & E1 & H1).
  destruct (m h) as [[a|e] h1] eqn:Em; cbn [fst snd] in *; subst h1; [|by exists ev1].
  destruct (Hk _ _ _ Em (h ++ ev1)%list) as (ev2 & E2 & H2). exists (ev1 ++ ev2)%list.
  rewrite app_assoc. split; [done|]. by apply Forall_app.
Qed.
Lemma only_try {A} (m : M A) cs f :
  only P m -> (forall e, only P (f e)) -> only P (try_except m cs f).
Proof.
  intros Hm Hf h. unfold try_except. destruct (Hm h) as (ev1 & E1 & H1).
  destruct (m h) as [[a|e] h1]; cbn [fst snd] in *; subst h1; [by exists ev1|].
  destruct (caught_by cs e); [|by exists ev1].
  destruct (Hf e (h ++ ev1)%list) as (ev2 & E2 & H2). exists (ev1 ++ ev2)%list.
  rewrite app_assoc. split; [done|]. by apply Forall_app.
Qed.
Lemma only_finally {A} (m : M A) f : only P m -> only P f -> only P (try_finally m f).
Proof.
  intros Hm Hf.
  apply (emits_finally (fun ev _ => Forall P ev) (fun ev _ => Forall P ev)); try done;
    intros; by apply Forall_app.
Qed.
Lemma only_forM {A} (l : list A) body : (forall x, only P (body x)) -> only P (forM l body).
Proof.
  intros Hb. induction l as [|x l IH]; [apply only_ret|]. by apply only_bind.
Qed.
Lemma only_loop {S A} fuel (body : S -> M (S + A)) s :
  (forall s, only P (body s)) -> only P (loop fuel body s).
Proof.
  intros Hb. revert s. induction fuel as [|f IH]; intros s; [apply only_throw|].
  apply only_bind; [done|]. intros [s'|a]; [apply IH|apply only_ret].
Qed.
End Emits.

#[export] Hint Resolve only_ret only_throw only_lift only_throw_if only_perform only_bind only_try
  only_finally only_forM only_loop : k8.

(** Proves [only P m] by following the structure of [m]. *)
Ltac solve_only :=
  repeat match goal with
  | |- only _ (ret _) => apply only_ret
  | |- only _ (throw _ _) => apply only_throw
  | |- only _ (lift _) => apply only_lift
  | |- only _ (throw_if _ _ _) => apply only_throw_if
  | |- only _ (perform _) => apply only_perform
  | |- only _ (mbindM _ _) => apply only_bind; [|intros ?]
  | |- only _ (try_except _ _ _) => apply only_try; [|intros ?]
  | |- only _ (try_finally _ _) => apply only_finally
  | |- only _ (forM _ _) => apply only_forM; intros ?
  | |- only _ (loop _ _ _) => apply only_loop; intros ?
  | |- only _ (if ?b then _ else _) => destruct b
  | |- only _ (match ?x with _ => _ end) => destruct x
  | |- only _ (let '(_, _) := ?x in _) => destruct x
  | |- _ => progress (cbv beta zeta)
  end; eauto with k8.

(** ** Weakest preconditions from one history *)

Definition emits_at {A} (h : history) (Q : history -> result A -> Prop) (m : M A) : Prop :=
  exists ev, snd (m h) = (h ++ ev)%list /\ Q ev (fst (m h)).

Section EmitsAt.
Context `{Env} (h : history).

Lemma emits_at_intro {A} (Q : history -> result A -> Prop) m : emits Q m -> emits_at h Q m.
Proof. intros Hm. apply Hm. Qed.
Lemma emits_at_weaken {A} (Q Q' : history -> result A -> Prop) m :
  (forall ev r, Q ev r -> Q' ev r) -> emits_at h Q m -> emits_at h Q' m.
Proof. intros HQ (ev & E & ?). exists ev. auto. Qed.
Lemma emits_at_perform {R} (Q : history -> result R -> Prop) (o : op R) :
  Q [Event o] (answer R o h) -> emits_at h Q (perform o).
Proof. intros HQ. by exists [Event o]. Qed.
Lemma emits_at_pure {A} (Q : history -> result A -> Prop) (r : result A) :
  Q [] r -> emits_at h Q (lift r).
Proof. intros HQ. exists []. by rewrite app_nil_r. Qed.
Lemma emits_at_bind {A B} (Q : history -> result B -> Prop) (m : M A) (k : A -> M B) :
  emits_at h (fun ev r => match r with
                          | Ok a => emits_at (h ++ ev)%list (fun ev2 => Q (ev ++ ev2)%list) (k a)
                          | Raise e => Q ev (Raise e)
                          end) m ->
  emits_at h Q (mbindM m k).
Proof.
  intros (ev & E & HQ). unfold emits_at, mbindM. destruct (m h) as [[a|e] h1]; cbn [fst snd] in *; subst h1.
  - destruct HQ as (ev2 & E2 & HQ). exists (ev ++ ev2)%list. by rewrite app_assoc.
  - by exists ev.
Qed.
Lemma emits_at_finally {A} (Q : history -> result A -> Prop) (m : M A) f :
  emits_at h (fun ev r =>
    emits_at (h ++ ev)%list (fun ev2 r2 => Q (ev ++ ev2)%list
                               (match r2 with Ok _ => r | Raise e => Raise e end)) f) m ->
  emits_at h Q (try_finally m f).
Proof.
  intros (ev & E & ev2 & E2 & HQ). unfold emits_at, try_finally.
  destruct (m h) as [r h1]. cbn [fst snd] in *. subst h1. exists (ev ++ ev2)%list. rewrite app_assoc.
  destruct (f (h ++ ev)%list) as [[[]|e] h2]; cbn [fst snd] in *; by subst h2.
Qed.
Lemma emits_at_try {A} (Q : history -> result A -> Prop) (m : M A) cs f :
  emits_at h (fun ev r => match r with
                          | Raise e => if caught_by cs e
                                       then emits_at (h ++ ev)%list (fun ev2 => Q (ev ++ ev2)%list) (f e)
                                       else Q ev (Raise e)
                          | r => Q ev r
                          end) m ->
  emits_at h Q (try_except m cs f).
Proof.
  intros (ev & E & HQ). unfold emits_at, try_except.
  destruct (m h) as [[a|e] h1]; cbn [fst snd] in *; subst h1; [by exists ev|].
  destruct (caught_by cs e); [|by exists ev].
  destruct HQ as (ev2 & E2 & HQ). exists (ev ++ ev2)%list. by rewrite app_assoc.
Qed.
End EmitsAt.

(** ** Loops that end

    [steady r]: the outcome is not the model's fuel marker. *)

Definition steady {A} (r : result A) : Prop :=
  match r with Ok _ => True | Raise e => exn_cls e <> FuelExhausted end.

Lemma steady_Ok {A} (a : A) : steady (Ok a).
Proof. done. Qed.
Lemma steady_Raise {A} c msg : c <> FuelExhausted -> @steady A (Raise (Exn c msg)).
Proof. done. Qed.
Lemma steady_bind {A B} (m : result A) (k : A -> result B) :
  steady m -> (forall a, steady (k a)) -> steady (rbind m k).
Proof. destruct m; simpl; auto. Qed.
Lemma steady_mapM {A B} (f : A -> result B) l : (forall x, steady (f x)) -> steady (mapM f l).
Proof.
  intros Hf. induction l as [|x l IH]; [done|]. simpl. apply steady_bind; [done|intros y].
  by apply steady_bind.
Qed.
Lemma steady_raise_if b c msg : c <> FuelExhausted -> steady (raise_if b c msg).
Proof. by destruct b. Qed.
Lemma steady_iterM {A} (f : A -> result unit) l : (forall x, steady (f x)) -> steady (iterM f l).
Proof. intros Hf. induction l as [|x l IH]; [done|]. by apply steady_bind. Qed.
#[export] Hint Resolve steady_Ok steady_bind steady_mapM steady_raise_if steady_iterM : k8.

(** Proves [steady r] by following the structure of [r]. *)
Ltac solve_steady :=
  repeat match goal with
  | |- steady (Ok _) => apply steady_Ok
  | |- steady (Raise (Exn _ _)) => apply steady_Raise; discriminate
  | |- steady (rbind _ _) => apply steady_bind; [|intros ?]
  | |- steady (raise_if _ _ _) => apply steady_raise_if; discriminate
  | |- steady (mapM _ _) => apply steady_mapM; intros ?
  | |- steady (iterM _ _) => apply steady_iterM; intros ?
  | |- steady (if ?b then _ else _) => destruct b
  | |- steady (match ?x with _ => _ end) => destruct x
  | |- _ => progress (cbv beta zeta)
  end; auto with k8.

(** A program whose outcome is steady from every history. *)
Definition steadyM {A} (m : M A) : Prop := emits (fun _ r => steady r) m.

(** The world raises Python exceptions only. *)
Class SteadyEnv `{Env} : Prop := answer_steady : forall R (o : op R) h, steady (answer R o h).

(** The number of pauses of length [d]. *)
Definition is_pause (d : float) (e : event) : bool :=
  match event_op e with Sleep x => bool_decide (x = d) | _ => false end.
Definition pauses (d : float) (ev : history) : nat := length (List.filter (is_pause d) ev).

Lemma pauses_app d ev1 ev2 : pauses d (ev1 ++ ev2) = (pauses d ev1 + pauses d ev2)%nat.
Proof. unfold pauses. by rewrite List.filter_app, length_app. Qed.

(** Time passes: [n] pauses of length [d] take at least [timeout]. *)
Class Paced `{Env} (d timeout : float) (n : nat) : Prop :=
  paced : forall h ev t t',
    answer float Monotonic h = Ok t -> (n <= pauses d ev)%nat ->
    answer float Monotonic (h ++ ev) = Ok t' -> fltb t' (fadd t timeout) = false.

Section PacedLoops.
Context `{HE : Env}.

Lemma steadyM_ret {A} (a : A) : steadyM (ret a).
Proof. intros h. exists []. by rewrite app_nil_r. Qed.
Lemma steadyM_throw {A} c msg : c <> FuelExhausted -> steadyM (throw c msg : M A).
Proof. intros Hc h. exists []. by rewrite app_nil_r. Qed.
Lemma steadyM_lift {A} (r : result A) : steady r -> steadyM (lift r).
Proof. intros Hr h. exists []. by rewrite app_nil_r. Qed.
Lemma steadyM_throw_if b c msg : c <> FuelExhausted -> steadyM (throw_if b c msg).
Proof. destruct b; [apply steadyM_throw|intros; apply steadyM_ret]. Qed.
Lemma steadyM_perform `{@SteadyEnv HE} {R} (o : op R) : steadyM (perform o).
Proof. intros h. exists [Event o]. split; [done|]. apply answer_steady. Qed.
Lemma steadyM_bind {A B} (m : M A) (k : A -> M B) :
  steadyM m -> (forall a, steadyM (k a)) -> steadyM (mbindM m k).
Proof.
  intros Hm Hk. apply (emits_bind (fun _ r => steady r) (fun _ _ r => steady r)); done.
Qed.
Lemma steadyM_try {A} (m : M A) cs f :
  steadyM m -> (forall e, steadyM (f e)) -> steadyM (try_except m cs f).
Proof.
  intros Hm Hf h. unfold try_except. destruct (Hm h) as (ev1 & E1 & H1).
  destruct (m h) as [[a|e] h1]; cbn [fst snd] in *; subst h1; [by exists ev1|].
  destruct (caught_by cs e); [|by exists ev1].
  destruct (Hf e (h ++ ev1)%list) as (ev2 & E2 & H2). exists (ev1 ++ ev2)%list.
  by rewrite app_assoc.
Qed.

Definition steadyM_at {A} (m : M A) (h : history) : Prop := steady (fst (m h)).

Lemma steadyM_at_bind {A B} (m : M A) (k : A -> M B) h :
  steadyM_at m h -> (forall a, steadyM (k a)) -> steadyM_at (mbindM m k) h.
Proof.
  unfold steadyM_at, mbindM. intros Hm Hk. destruct (m h) as [[a|e] h1]; [|done].
  destruct (Hk a h1) as (ev & _ & ?). done.
Qed.

(** A turn that goes on has paused. *)
Definition pausing {S A} (d : float) (ev : history) (r : result (S + A)) : Prop :=
  steady r /\ forall s', r = Ok (inl s') -> (0 < pauses d ev)%nat.

Context `{@SteadyEnv HE} {S A : Type} (d timeout : float) (n : nat) `{!Paced d timeout n}.
Context (act : S -> M (S + A)) (stop : S -> A) (body : S -> M (S + A)) (t0 : float).
Hypothesis body_shape : forall s,
  body s = let! now := perform Monotonic in
           if fltb now (fadd t0 timeout) then act s else ret (inr (stop s)).
Hypothesis act_pausing : forall s, emits (pausing d) (act s).

(** A loop that reads the clock on every turn, and pauses on every turn that
    goes on, ends within [n + 1] turns. *)
Lemma paced_loop h0 ev s fuel :
  answer float Monotonic h0 = Ok t0 -> (n - pauses d ev < fuel)%nat ->
  steadyM_at (loop fuel body s) (h0 ++ ev)%list.
Proof.
  intros Ht. revert ev s. induction fuel as [|fuel IH]; intros ev s Hn; [lia|].
  unfold steadyM_at. cbn [loop]. rewrite body_shape. unfold mbindM at 1, mbindM at 1, perform.
  pose proof (answer_steady float Monotonic (h0 ++ ev)%list) as Hc.
  destruct (answer float Monotonic (h0 ++ ev)%list) as [t'|e] eqn:E; [|done].
  destruct (fltb t' (fadd t0 timeout)) eqn:Hlt; [|done].
  assert (pauses d ev < n)%nat as Hp.
  { destruct (decide (pauses d ev < n)%nat); [done|].
    rewrite (paced h0 ev t0 t') in Hlt by (done || lia). done. }
  rewrite <- app_assoc.
  destruct (act_pausing s (h0 ++ ev ++ [Event Monotonic])%list) as (ev' & E' & Hs & Hpos).
  destruct (act s (h0 ++ ev ++ [Event Monotonic])%list) as [[[s'|a]|e] h']; cbn [fst snd] in *;
    [|done|done].
  subst h'. rewrite <- !app_assoc. apply IH. rewrite !pauses_app.
  specialize (Hpos s' eq_refl). lia.
Qed.
End PacedLoops.

Section Pausing.
Context `{HE : Env} `{@SteadyEnv HE} {S A : Type} (d : float).

Lemma pausing_bind {B} (m : M B) (k : B -> M (S + A)) :
  steadyM m -> (forall b, emits (pausing d) (k b)) -> emits (pausing d) (mbindM m k).
Proof.
  intros Hm Hk. eapply (emits_bind (fun _ r => steady r) (fun _ => pausing d)); [exact Hm|done| |].
  - intros ev1 b ev2 r _ [Hs Hp]. split; [done|]. intros s' E. rewrite pauses_app.
    specialize (Hp s' E). lia.
  - intros ev e He. by split.
Qed.
Lemma pausing_leave (a : A) : emits (pausing d) (ret (inr a) : M (S + A)).
Proof. intros h. exists []. by rewrite app_nil_r. Qed.
Lemma pausing_throw c msg : c <> FuelExhausted -> emits (pausing d) (throw c msg : M (S + A)).
Proof. intros Hc h. exists []. by rewrite app_nil_r. Qed.
Lemma pausing_sleep (s : S) : emits (pausing d) (perform (Sleep d) >>> ret (inl s) : M (S + A)).
Proof.
  intros h. exists [Event (Sleep d)]. unfold mbindM, perform, ret.
  pose proof (answer_steady unit (Sleep d) h) as Hs.
  assert (pauses d [Event (Sleep d)] = 1%nat) as Hp.
  { unfold pauses, is_pause. cbn. by rewrite bool_decide_true by done. }
  destruct (answer unit (Sleep d) h); split; try done; split; try done. intros. lia.
Qed.
Lemma pausing_try (m : M (S + A)) cs f :
  emits (pausing d) m -> (forall e, emits (pausing d) (f e)) ->
  emits (pausing d) (try_except m cs f).
Proof.
  intros Hm Hf h. unfold try_except. destruct (Hm h) as (ev1 & E1 & H1).
  destruct (m h) as [[a|e] h1]; cbn [fst snd] in *; subst h1; [by exists ev1|].
  destruct (caught_by cs e); [|by exists ev1].
  destruct (Hf e (h ++ ev1)%list) as (ev2 & E2 & H2 & H3). exists (ev1 ++ ev2)%list.
  rewrite app_assoc. split; [done|]. split; [done|]. intros s' Hs. rewrite pauses_app.
  specialize (H3 s' Hs). lia.
Qed.
End Pausing.


(** ** Times *)

(** [f"{d:%m%d%H%M%S}"] and [d.isoformat()] for UTC. *)
Definition stamp (d : datetime) : string :=
  join "" (pad0 2 <$> [dt_month d; dt_day d; dt_hour d; dt_minute d; dt_second d]).
Definition isoformat (d : datetime) : string :=
  pad0 4 (dt_year d) +:+ "-" +:+ pad0 2 (dt_month d) +:+ "-" +:+ pad0 2 (dt_day d) +:+ "T" +:+
  pad0 2 (dt_hour d) +:+ ":" +:+ pad0 2 (dt_minute d) +:+ ":" +:+ pad0 2 (dt_second d) +:+
  (if dt_micro d =? 0 then "" else "." +:+ pad0 6 (dt_micro d)) +:+ "+00:00".
