(* ===== verification/Files.v ===== *)
(** Files and paths of the programs that read tables. *)

From Stdlib Require Import ZArith Bool Ascii String Lia.
From stdpp Require Import base list strings option.
From S2P Require Import Prelude Eff PyStr PyCsv PyFloat PyVal World.

Open Scope string_scope.
Open Scope Z_scope.

(** The components of a path. *)
Definition path_parts (p : string) : list string :=
  List.filter (fun s => negb (is_empty s) && negb (String.eqb s ".")) (split_on "/" p).
(** [path.parent], for a path with a directory. *)
Definition parent (path : string) : string :=
  match rev (split_on "/" path) with
  | _ :: (_ :: _) as d => join "/" (rev (List.tl d))
  | _ => "."
  end.

(** The lines of a text file, and the exception that ends the reading. *)
Abbreviation csv_stream := (result (list string * option exn)).

(** [for row in reader: ...] with a state. *)
Definition over_rows {S} (step : S -> csv_row -> result S) (s : S) (rows : list csv_row * option exn) : result S :=
  let* s' := foldM step s (fst rows) in
  match snd rows with Some e => Raise e | None => Ok s' end.

Section Open.
Context `{Env}.

(** A file as a stream of lines. *)
Definition open_text (path : string) : M csv_stream :=
  fun h => let '(r, h') := perform (ReadText path) h in
           (Ok (let* text := r in Ok (text_lines text, None)), h').
End Open.
