(* ===== verification/Probe.v ===== *)
(** [cpu-limits/experiments/cgroup_probe.py]: the record of a Pod's cgroups and
    the differences between two records.

    Every look at the cgroup file system is an operation of [World.v], so values
    may change between any two of them. *)

From Stdlib Require Import ZArith Bool Ascii String Lia.
From stdpp Require Import base list strings option pretty.
From S2P Require Import Prelude Eff PyStr PyRe PyFloat PyVal Json World.

Open Scope string_scope.
Open Scope Z_scope.

Definition PROTOCOL : string := "cpu-limits-v1".
Definition QOS_CLASSES : list string := ["guaranteed"; "burstable"; "besteffort"].
Definition CPU_STAT_KEYS : list string := ["usage_usec"; "nr_periods"; "nr_throttled"; "throttled_usec"].
Definition REQUIRED_FILES : list string :=
  ["cpu.weight"; "cpu.max"; "cpu.stat"; "cpu.pressure"; "memory.current"; "memory.peak"; "cgroup.type";
   "cgroup.controllers"].

(** ** Paths *)

Definition hex_class : re := Set_ (fun c => is_digit c || between 97 102 (code c) || between 65 70 (code c)).
Fixpoint times (n : nat) (r : re) : re := match n with O => Eps | S n' => Seq r (times n' r) end.
Definition UID_RE : re :=
  (times 8 hex_class · Lit "-" · times 4 hex_class · Lit "-" · times 4 hex_class · Lit "-" ·
   times 4 hex_class · Lit "-" · times 12 hex_class)%re.

Definition normalize_pod_uid (pod_uid : string) : result string :=
  match re_fullmatch UID_RE pod_uid with
  | None => Raise (Exn ValueError ("invalid pod UID: " +:+ repr_str pod_uid))
  | Some _ => Ok (replace_all "-" "_" pod_uid)
  end.

(** [p / s] for a relative [s]. *)
Definition path_join (p s : string) : string := if String.eqb p "/" then p +:+ s else p +:+ "/" +:+ s.

Section Probe.
Context `{Env}.

Definition cgroup_root_of (cgroup_root : string) : M string :=
  let! root := perform (Resolve cgroup_root) in
  let! dir := perform (IsDir root) in
  throw_if (negb dir) NotADirectoryError ("cgroup root is not a directory: " +:+ root) >>>
  ret root.

Definition qos_slice_path (root qos : string) : string :=
  path_join (path_join root "kubepods.slice") ("kubepods-" +:+ qos +:+ ".slice").
Definition pod_slice_path (root qos escaped_uid : string) : string :=
  path_join (qos_slice_path root qos) ("kubepods-" +:+ qos +:+ "-pod" +:+ escaped_uid +:+ ".slice").

(** The classes whose slice exists, with the loop of [resolve_pod_slice]. *)
Fixpoint matching_slices (root escaped_uid : string) (classes : list string) : M (list string) :=
  match classes with
  | [] => ret []
  | qos :: rest =>
      let! dir := perform (IsDir (pod_slice_path root qos escaped_uid)) in
      let! found := matching_slices root escaped_uid rest in
      ret (if dir then qos :: found else found)
  end.

(** The QoS slice and the Pod slice: [pod_slice.parent] is the former. *)
Definition resolve_pod_slice (cgroup_root pod_uid : string) : M (string * string) :=
  let! root := cgroup_root_of cgroup_root in
  let! escaped_uid := lift (normalize_pod_uid pod_uid) in
  let! matches := matching_slices root escaped_uid QOS_CLASSES in
  match matches with
  | [] => throw FileNotFoundError ("Pod slice not found for UID " +:+ pod_uid)
  | [qos] => ret (qos_slice_path root qos, pod_slice_path root qos escaped_uid)
  | _ => throw RuntimeError
           ("Pod UID " +:+ pod_uid +:+ " has multiple slices: " +:+
            join ", " ((fun qos => pod_slice_path root qos escaped_uid) <$> matches))
  end.

(** ** Values *)

(** [s.rstrip("\n")] *)
Fixpoint rstrip_newlines (s : string) : string :=
  match s with
  | EmptyString => EmptyString
  | String c s' => match rstrip_newlines s' with
                   | EmptyString => if (code c =? 10)%Z then EmptyString else char_str c
                   | r => String c r
                   end
  end.

Definition read_required (path : string) : M string :=
  let! file := perform (IsFile path) in
  throw_if (negb file) FileNotFoundError ("missing required cgroup file: " +:+ path) >>>
  let! text := perform (ReadText path) in
  ret (rstrip_newlines text).

End Probe.

Definition parse_integer (value source : string) : result Z :=
  match py_int value with
  | Some n => Ok n
  | None => Raise (Exn ValueError ("invalid integer in " +:+ source +:+ ": " +:+ repr_str value))
  end.

Definition parse_cpu_max (value : string) : result (option Z * Z) :=
  match words value with
  | [q; p] =>
      let* quota := if String.eqb q "max" then Ok None else let* n := parse_integer q "cpu.max" in Ok (Some n) in
      let* period := parse_integer p "cpu.max" in
      raise_if (match quota with Some n => n <? 0 | None => false end) ValueError
        ("cpu.max quota must not be negative: " +:+ repr_str value) ;;;
      raise_if (period <=? 0) ValueError ("cpu.max period must be positive: " +:+ repr_str value) ;;;
      Ok (quota, period)
  | _ => Raise (Exn ValueError ("invalid cpu.max value: " +:+ repr_str value))
  end.

Definition key_value (source : string) (parsed : list (string * Z)) (line : string) : result (list (string * Z)) :=
  match words line with
  | [key; raw_number] =>
      raise_if (mem_string key (fst <$> parsed)) ValueError ("duplicate " +:+ source +:+ " key: " +:+ key) ;;;
      let* n := parse_integer raw_number source in
      Ok (parsed ++ [(key, n)])%list
  | _ => Raise (Exn ValueError ("invalid " +:+ source +:+ " line: " +:+ repr_str line))
  end.
Definition parse_key_values (value source : string) : result (list (string * Z)) :=
  foldM (key_value source) [] (splitlines value).

Definition zget (k : string) (d : list (string * Z)) : option Z :=
  snd <$> List.find (fun p => String.eqb k (fst p)) d.

Definition parse_cpu_stat (value : string) : result (list (string * Z)) :=
  let* parsed := parse_key_values value "cpu.stat" in
  let missing := List.filter (fun k => negb (mem_string k (fst <$> parsed))) CPU_STAT_KEYS in
  raise_if (match missing with [] => false | _ => true end) ValueError
    ("cpu.stat is missing required counters: " +:+ join ", " missing) ;;;
  Ok ((fun k => (k, default 0 (zget k parsed))) <$> CPU_STAT_KEYS).

(** [dict(field.split("=", 1) for field in fields if "=" in field)["total"]] *)
Definition pressure_total (fields : list string) : option string :=
  list.last (omap (fun f => match split_on "=" f with
                            | k :: v :: vs => if String.eqb k "total" then Some (join "=" (v :: vs)) else None
                            | _ => None
                            end) fields).
Definition pressure_line (totals : list (string * Z)) (line : string) : result (list (string * Z)) :=
  match words line with
  | [] => Ok totals
  | category :: fields =>
      match pressure_total fields with
      | None => Raise (Exn ValueError ("cpu.pressure line has no total: " +:+ repr_str line))
      | Some total =>
          raise_if (mem_string category (fst <$> totals)) ValueError
            ("duplicate cpu.pressure category: " +:+ category) ;;;
          let* n := parse_integer total "cpu.pressure" in
          Ok (totals ++ [(category, n)])%list
      end
  end.
Definition parse_cpu_pressure (value : string) : result (Z * Z) :=
  let* totals := foldM pressure_line [] (splitlines value) in
  let missing := List.filter (fun k => negb (mem_string k (fst <$> totals))) ["some"; "full"] in
  raise_if (match missing with [] => false | _ => true end) ValueError
    ("cpu.pressure is missing categories: " +:+ join ", " missing) ;;;
  Ok (default 0 (zget "some" totals), default 0 (zget "full" totals)).

(** ** The record *)

Definition zdict (d : list (string * Z)) : pyval := VDict ((fun p => (fst p, VInt (snd p))) <$> d).
Definition opt_int (o : option Z) : pyval := match o with Some n => VInt n | None => VNone end.

(** The level of a path from the texts of its files, in the order of
    [REQUIRED_FILES]. *)
Definition level_of (path kind : string) (scope_type : option string) (raw : list (string * string)) : result pyval :=
  let get name := default "" (snd <$> List.find (fun p => String.eqb name (fst p)) raw) in
  let* (quota, period) := parse_cpu_max (get "cpu.max") in
  let* weight := parse_integer (get "cpu.weight") "cpu.weight" in
  let* cpu_stat := parse_cpu_stat (get "cpu.stat") in
  let* (some, full) := parse_cpu_pressure (get "cpu.pressure") in
  let* current := parse_integer (get "memory.current") "memory.current" in
  let* peak := parse_integer (get "memory.peak") "memory.peak" in
  Ok (VDict ([("kind", VStr kind); ("path", VStr path); ("cpu_weight", VInt weight);
              ("cpu_max_quota_us", opt_int quota); ("cpu_max_period_us", VInt period);
              ("cpu_stat", zdict cpu_stat);
              ("cpu_pressure", zdict [("some_total_usec", some); ("full_total_usec", full)]);
              ("memory", zdict [("current_bytes", current); ("peak_bytes", peak)]);
              ("cgroup_type", VStr (get "cgroup.type")); ("cgroup_controllers", VStr (get "cgroup.controllers"));
              ("raw", VDict ((fun p => (fst p, VStr (snd p))) <$> raw))] ++
             match scope_type with Some t => [("scope_type", VStr t)] | None => [] end)%list).

Section Capture.
Context `{Env}.

Fixpoint read_files (path : string) (names : list string) : M (list (string * string)) :=
  match names with
  | [] => ret []
  | name :: rest =>
      let! text := read_required (path_join path name) in
      let! texts := read_files path rest in
      ret ((name, text) :: texts)
  end.

Definition level (path kind : string) (scope_type : option string) : M pyval :=
  let! raw := read_files path REQUIRED_FILES in lift (level_of path kind scope_type raw).

Fixpoint scope_names (pod_slice : string) (names : list string) : M (list string) :=
  match names with
  | [] => ret []
  | name :: rest =>
      let! dir := perform (IsDir (path_join pod_slice name)) in
      let! found := scope_names pod_slice rest in
      ret (if dir && endswith ".scope" name then name :: found else found)
  end.
Definition scope_paths (pod_slice : string) : M (list string) :=
  let! names := perform (IterDir pod_slice) in
  scope_names pod_slice (sort_by String.leb names).

(** The levels of the containers. *)
Fixpoint scope_levels (pod_slice : string) (names : list string) : M (list pyval) :=
  match names with
  | [] => ret []
  | name :: rest =>
      let scope := path_join pod_slice name in
      let! l := level scope "container_scope" (Some (if startswith "crio-" name then "crio" else "systemd")) in
      let leaf := path_join scope "container" in
      let! dir := perform (IsDir leaf) in
      let! ls := (if dir then let! l := level leaf "container_leaf" None in ret [l] else ret []) in
      let! rest_levels := scope_levels pod_slice rest in
      ret (l :: ls ++ rest_levels)%list
  end.

Record probe_args : Type := {
  pa_run_id : string; pa_block_id : Z; pa_cell_id : string; pa_node : string; pa_scheduler : string
}.

(** [datetime.now(UTC).isoformat().replace("+00:00", "Z")] *)
Definition utc_now : M string :=
  let! d := perform UtcNow in ret (replace_all "+00:00" "Z" (isoformat d)).

Definition capture (cgroup_root pod_uid : string) (args : probe_args) : M pydict :=
  let! (qos_slice, pod_slice) := resolve_pod_slice cgroup_root pod_uid in
  let! qos_level := level qos_slice "qos_slice" None in
  let! pod_level := level pod_slice "pod_slice" None in
  let! scopes := scope_paths pod_slice in
  let! container_levels := scope_levels pod_slice scopes in
  let! timestamp := utc_now in
  ret [("protocol", VStr PROTOCOL); ("captured_at", VStr timestamp); ("run_id", VStr (pa_run_id args));
       ("block_id", VInt (pa_block_id args)); ("cell_id", VStr (pa_cell_id args)); ("node", VStr (pa_node args));
       ("pod_uid", VStr pod_uid);
       ("scheduler", VDict [("name", VStr (pa_scheduler args)); ("parameters", VDict [])]);
       ("levels", VList (qos_level :: pod_level :: container_levels))].

End Capture.

(** ** Differences *)

Definition levels (record : pydict) : result (list pydict) :=
  match dget "levels" record with
  | Some (VList ls) =>
      match mapM (fun l => match l with VDict d => Ok d | _ => Raise (Exn TypeError "") end) ls with
      | Ok ds => Ok ds
      | Raise _ => Raise (Exn TypeError "probe record has a non-object level")
      end
  | _ => Raise (Exn TypeError "probe record has no levels list")
  end.

Definition cpu_stat (level : pydict) : result pydict :=
  match dget "cpu_stat" level with
  | Some (VDict d) => Ok d
  | _ => Raise (Exn TypeError ("level has no cpu_stat mapping: " +:+ py_repr (dget_none "path" level)))
  end.

(** [str(level.get("path"))] *)
Definition level_path (level : pydict) : string := py_str (dget_none "path" level).

Definition int_value (v : pyval) : option Z :=
  match v with VInt n => Some n | VBool b => Some (b2z b) | _ => None end.

Definition counter_delta (path : string) (before_stat after_stat : pydict) (key : string) : result (string * Z) :=
  match dget key before_stat, dget key after_stat with
  | Some b, Some a =>
      match int_value b, int_value a with
      | Some b, Some a =>
          raise_if (a <? b) ValueError ("cgroup level " +:+ path +:+ " counter decreased: " +:+ key) ;;;
          Ok (key, a - b)
      | _, _ => Raise (Exn TypeError ("cgroup level " +:+ path +:+ " has a non-integer cpu.stat counter: " +:+ key))
      end
  | _, _ => Raise (Exn ValueError ("cgroup level " +:+ path +:+ " is missing cpu.stat counter: " +:+ key))
  end.

(** A dictionary of levels by path: assignment and [pop]. *)
Abbreviation level_map := (list (string * pydict)).
Fixpoint lset (k : string) (v : pydict) (d : level_map) : level_map :=
  match d with
  | [] => [(k, v)]
  | (k', v') :: d' => if String.eqb k k' then (k, v) :: d' else (k', v') :: lset k v d'
  end.
Definition lget (k : string) (d : level_map) : option pydict :=
  snd <$> List.find (fun p => String.eqb k (fst p)) d.
Definition lpop (k : string) (d : level_map) : level_map :=
  List.filter (fun p => negb (String.eqb k (fst p))) d.

Definition level_delta (st : level_map * list pydict) (after_level : pydict) : result (level_map * list pydict) :=
  let '(before_by_path, deltas) := st in
  let path := level_path after_level in
  match lget path before_by_path with
  | None => Raise (Exn ValueError ("after record has unknown cgroup level: " +:+ path))
  | Some before_level =>
      let* before_stat := cpu_stat before_level in
      let* after_stat := cpu_stat after_level in
      let* counters := mapM (counter_delta path before_stat after_stat) CPU_STAT_KEYS in
      Ok (lpop path before_by_path,
          (deltas ++ [[("kind", dget_none "kind" after_level); ("path", VStr path); ("cpu_stat", zdict counters)]])%list)
  end.

Definition cpu_stat_deltas (before after : pydict) : result (list pydict) :=
  let* before_levels := levels before in
  let before_by_path := fold_left (fun d l => lset (level_path l) l d) before_levels [] in
  let* after_levels := levels after in
  let* (left_over, deltas) := foldM level_delta (before_by_path, []) after_levels in
  raise_if (match left_over with [] => false | _ => true end) ValueError
    ("after record is missing cgroup levels: " +:+ join ", " (sort_by String.leb (fst <$> left_over))) ;;;
  Ok deltas.

(** [main]: the printed text. *)
Definition probe_main `{Env} (cgroup_root pod_uid : string) (before : option string) (args : probe_args) : M string :=
  let! record := capture cgroup_root pod_uid args in
  let! record :=
    match before with
    | None => ret record
    | Some path =>
        let! text := perform (ReadText path) in
        let! v := lift (json_loads text) in
        match v with
        | VDict d =>
            let! deltas := lift (cpu_stat_deltas d record) in
            ret (dset "deltas" (VList (VDict <$> deltas)) record)
        | _ => throw ValueError "prior probe JSON record must be an object"
        end
    end in
  ret (json_plain true (VDict record) +:+ newline).

(** ** Types

    The shape that readers of a record rely on. *)

Definition str_field (k : string) (d : pydict) : bool :=
  match dget k d with Some (VStr _) => true | _ => false end.
Definition int_field (k : string) (d : pydict) : bool :=
  match dget k d with Some (VInt _) => true | _ => false end.
Definition counters_field (k : string) (keys : list string) (d : pydict) : bool :=
  match dget k d with Some (VDict c) => forallb (fun key => int_field key c) keys | _ => false end.

Definition typed_level (d : pydict) : bool :=
  str_field "kind" d && str_field "path" d && int_field "cpu_weight" d &&
  match dget "cpu_max_quota_us" d with Some VNone => true | Some (VInt n) => 0 <=? n | _ => false end &&
  match dget "cpu_max_period_us" d with Some (VInt n) => 0 <? n | _ => false end &&
  counters_field "cpu_stat" CPU_STAT_KEYS d &&
  counters_field "cpu_pressure" ["some_total_usec"; "full_total_usec"] d &&
  counters_field "memory" ["current_bytes"; "peak_bytes"] d.

Definition typed_level_value (v : pyval) : bool := match v with VDict d => typed_level d | _ => false end.

Definition typed_record (r : pydict) : bool :=
  str_field "captured_at" r &&
  match dget "levels" r with
  | Some (VList (l :: ls)) => forallb typed_level_value (l :: ls)
  | _ => false
  end.

Lemma zdict_dkeys d : dkeys ((fun p : string * Z => (fst p, VInt (snd p))) <$> d) = fst <$> d.
Proof. unfold dkeys. by rewrite <- list_fmap_compose. Qed.

Lemma json_wf_dict d : json_wf (VDict d) = negb (has_dup (dkeys d)) && forallb (fun p => json_wf (snd p)) d.
Proof. reflexivity. Qed.

Lemma zdict_wf d : has_dup (fst <$> d) = false -> json_wf (zdict d) = true.
Proof.
  intros H. cbn [json_wf zdict]. rewrite zdict_dkeys, H. simpl.
  by induction d as [|p d IH]; [|simpl; apply IH; simpl in H; apply orb_false_iff in H as [_ ?]].
Qed.

Lemma parse_cpu_max_Ok value quota period :
  parse_cpu_max value = Ok (quota, period) ->
  0 < period /\ match quota with Some n => 0 <= n | None => True end.
Proof.
  unfold parse_cpu_max. destruct (words value) as [|q [|p [|]]]; try done. intros H. inv_ok. bool_hyps.
  split; [done|]. destruct quota; [|done]. by bool_hyps.
Qed.

Lemma parse_cpu_stat_keys value st : parse_cpu_stat value = Ok st -> fst <$> st = CPU_STAT_KEYS.
Proof. unfold parse_cpu_stat. intros H. inv_ok. reflexivity. Qed.

Lemma level_of_typed path kind scope_type raw l :
  level_of path kind scope_type raw = Ok l -> fst <$> raw = REQUIRED_FILES ->
  typed_level_value l = true /\ json_wf l = true.
Proof.
  unfold level_of. intros H Hraw. apply rbind_Ok in H as ([quota period] & Hmax & H).
  apply rbind_Ok in H as (w & _ & H). apply rbind_Ok in H as (x1 & Hst & H).
  apply rbind_Ok in H as ([some full] & _ & H). inv_ok. clear Hx Hx0.
  apply parse_cpu_max_Ok in Hmax as [Hp Hq]. pose proof (parse_cpu_stat_keys _ _ Hst) as Hk.
  assert (forallb (fun key => int_field key ((fun p => (fst p, VInt (snd p))) <$> x1)) CPU_STAT_KEYS = true) as Hc.
  { unfold CPU_STAT_KEYS in Hk. destruct x1 as [|[k1 n1] [|[k2 n2] [|[k3 n3] [|[k4 n4] [|]]]]]; try done.
    injection Hk as -> -> -> ->. reflexivity. }
  split.
  - apply Z.ltb_lt in Hp. cbn [typed_level_value]. unfold typed_level, counters_field, zdict.
    change (dget "cpu_stat" _) with (Some (VDict ((fun p : string * Z => (fst p, VInt (snd p))) <$> x1))).
    change (dget "cpu_max_period_us" _) with (Some (VInt period)).
    change (dget "cpu_max_quota_us" _) with (Some (opt_int quota)).
    cbv iota. rewrite Hp, Hc. destruct quota as [n|]; [|reflexivity].
    apply Z.leb_le in Hq. cbn [opt_int]. rewrite Hq. reflexivity.
  - assert (json_wf (VDict ((fun p => (fst p, VStr (snd p))) <$> raw)) = true) as Hr.
    { cbn [json_wf]. unfold dkeys. rewrite <- list_fmap_compose.
      change (fst ∘ (fun p : string * string => (fst p, VStr (snd p)))) with (@fst string string).
      rewrite Hraw. simpl. clear. induction raw as [|p raw IH]; [done|]. simpl. done. }
    assert (json_wf (zdict x1) = true) as Hz by (apply zdict_wf; by rewrite Hk).
    assert (forall o, json_wf (opt_int o) = true) as Ho by by intros [].
    destruct scope_type; rewrite json_wf_dict; (apply andb_true_iff; split; [reflexivity|]);
      cbn [app forallb snd]; rewrite Hz, Hr, Ho, !zdict_wf by reflexivity; reflexivity.
Qed.

Section CaptureThm.
Context `{Env}.

Lemma read_files_names path names : forall h raw h',
  read_files path names h = (Ok raw, h') -> fst <$> raw = names.
Proof.
  induction names as [|n names IH]; intros h raw h' Hr; cbn [read_files] in Hr; run_hyps; [done|].
  simpl. by erewrite IH.
Qed.

Definition typed_wf (l : pyval) : Prop := typed_level_value l = true /\ json_wf l = true.

Lemma level_typed path kind scope_type h l h' : level path kind scope_type h = (Ok l, h') -> typed_wf l.
Proof.
  unfold level. intros Hl. run_hyps. eapply level_of_typed; [exact Hl|]. by eapply read_files_names.
Qed.

Lemma scope_levels_typed pod_slice names : forall h ls h',
  scope_levels pod_slice names h = (Ok ls, h') -> Forall typed_wf ls.
Proof.
  induction names as [|n names IH]; intros h ls h' Hs; cbn [scope_levels] in Hs; run_hyps; [constructor|].
  constructor; [by eapply level_typed|]. apply Forall_app. split; [|by eapply IH].
  destruct x0; run_hyps; [|constructor]. constructor; [|constructor]. by eapply level_typed.
Qed.

Lemma capture_typed_wf cgroup_root pod_uid args h r h' :
  capture cgroup_root pod_uid args h = (Ok r, h') -> typed_record r = true /\ json_wf (VDict r) = true.
Proof.
  unfold capture. intros Hc. run_hyps. destruct x as [qos pod]. run_hyps.
  apply level_typed in Hx0 as [H1 H2], Hx1 as [H3 H4]. apply scope_levels_typed in Hx3.
  assert (forallb typed_level_value x2 = true /\ forallb json_wf x2 = true) as [H5 H6].
  { clear -Hx3. induction Hx3 as [|l ls [Ha Hb] _ [IH1 IH2]]; [done|]. simpl. by rewrite Ha, Hb. }
  unfold typed_record. cbn -[typed_level_value]. by rewrite H1, H2, H3, H4, H5, H6.
Qed.

(** ** What a capture does *)

Definition is_look (e : event) : bool :=
  match event_op e with
  | Resolve _ | IsDir _ | IsFile _ | IterDir _ | ReadText _ | UtcNow => true
  | _ => false
  end.

Lemma read_files_only path names : only is_look (read_files path names).
Proof. unfold read_required. induction names as [|n names IH]; cbn [read_files]; unfold read_required; solve_only. Qed.
Lemma level_only path kind scope_type : only is_look (level path kind scope_type).
Proof. unfold level. solve_only. apply read_files_only. Qed.
Lemma matching_only root uid classes : only is_look (matching_slices root uid classes).
Proof. induction classes; cbn [matching_slices]; solve_only. Qed.
Lemma scope_names_only pod_slice names : only is_look (scope_names pod_slice names).
Proof. induction names; cbn [scope_names]; solve_only. Qed.
Lemma scope_levels_only pod_slice names : only is_look (scope_levels pod_slice names).
Proof. induction names; cbn [scope_levels]; solve_only; apply level_only. Qed.
Lemma capture_only cgroup_root pod_uid args : only is_look (capture cgroup_root pod_uid args).
Proof.
  unfold capture, resolve_pod_slice, cgroup_root_of, scope_paths, utc_now. solve_only;
    first [apply level_only|apply matching_only|apply scope_names_only|apply scope_levels_only].
Qed.

End CaptureThm.

(** A probe only looks: whatever the machine answers, it performs nothing but
    path queries, directory listings, file reads and one look at the clock. *)
Theorem probe_read_only (E : Env) cgroup_root pod_uid before args :
  only is_look (probe_main cgroup_root pod_uid before args).
Proof. unfold probe_main. solve_only. apply capture_only. Qed.

(** ** Differences between two records *)

(** The counters [c] are the growth of the counters of level [b] to level [a]. *)
Definition growth (bs asx : pydict) (k : string) (p : string * Z) : Prop :=
  exists x y, (dget k bs ≫= int_value) = Some x /\ (dget k asx ≫= int_value) = Some y /\
              x <= y /\ p = (k, y - x).
Definition counters_between (b a : pydict) (c : list (string * Z)) : Prop :=
  exists bs asx, cpu_stat b = Ok bs /\ cpu_stat a = Ok asx /\ Forall2 (growth bs asx) CPU_STAT_KEYS c.

Definition by_path (bl : list pydict) : level_map := fold_left (fun d l => lset (level_path l) l d) bl [].

Definition delta_of (m : level_map) (a d : pydict) : Prop :=
  exists b c, lget (level_path a) m = Some b /\ counters_between b a c /\
    d = [("kind", dget_none "kind" a); ("path", VStr (level_path a)); ("cpu_stat", zdict c)].

Lemma counter_delta_Ok path bs asx k p : counter_delta path bs asx k = Ok p <-> growth bs asx k p.
Proof.
  unfold counter_delta, growth. destruct (dget k bs) as [b|]; [|split; [done|by intros (x & y & ? & _)]].
  destruct (dget k asx) as [a|]; [|split; [done|by intros (x & y & _ & ? & _)]]. simpl.
  destruct (int_value b) as [x|]; [|split; [done|by intros (? & ? & ? & _)]].
  destruct (int_value a) as [y|]; [|split; [done|by intros (? & ? & _ & ? & _)]].
  rewrite rbind_Ok. split.
  - intros ([] & Hr & E). inv_ok. bool_hyps. by exists x, y.
  - intros (x' & y' & [= <-] & [= <-] & Hle & ->). exists tt. split; [|done].
    apply raise_if_false. by apply Z.ltb_ge.
Qed.

Lemma level_delta_Ok m ds a m' ds' :
  level_delta (m, ds) a = Ok (m', ds') <->
  exists d, delta_of m a d /\ m' = lpop (level_path a) m /\ ds' = (ds ++ [d])%list.
Proof.
  unfold level_delta, delta_of, counters_between. destruct (lget (level_path a) m) as [b|].
  - split.
    + intros H. apply rbind_Ok in H as (bs & Hb & H). apply rbind_Ok in H as (asx & Ha & H).
      apply rbind_Ok in H as (c & Hc & [= <- <-]). apply mapM_Ok in Hc.
      eexists. split; [|done]. exists b, c. split; [done|]. split; [|done]. exists bs, asx. split; [done|]. split; [done|].
      eapply Forall2_impl; [exact Hc|]. intros k p Hp. by apply counter_delta_Ok in Hp.
    + intros (d & (b' & c & [= <-] & (bs & asx & Hb & Ha & Hc) & ->) & -> & ->).
      rewrite Hb, Ha. cbn [rbind].
      assert (mapM (counter_delta (level_path a) bs asx) CPU_STAT_KEYS = Ok c) as ->; [|done]. apply mapM_Ok.
      eapply Forall2_impl; [exact Hc|]. intros k p Hp. by apply counter_delta_Ok.
  - split; [done|]. intros (d & (b' & c & ? & _) & _). done.
Qed.

Lemma lget_lpop k p m : lget k (lpop p m) = if String.eqb k p then None else lget k m.
Proof.
  unfold lget, lpop. induction m as [|[k' v] m IH]; simpl; [by destruct (k =? p)%string|].
  destruct (String.eqb_spec p k') as [->|Hne]; simpl.
  - rewrite IH. destruct (String.eqb_spec k k'); done.
  - destruct (String.eqb_spec k k') as [->|Hk]; simpl; [|apply IH].
    by rewrite (proj2 (String.eqb_neq k' p)) by congruence.
Qed.

Lemma delta_of_lpop p m a d : level_path a <> p -> delta_of (lpop p m) a d <-> delta_of m a d.
Proof. intros H. unfold delta_of. by rewrite lget_lpop, (proj2 (String.eqb_neq _ _) H). Qed.
Lemma delta_of_popped p m a d : delta_of (lpop p m) a d -> level_path a <> p.
Proof. intros (b & c & Hg & _) E. by rewrite lget_lpop, E, String.eqb_refl in Hg. Qed.

Lemma lpop_keys k p m : k ∈ fst <$> lpop p m <-> k <> p /\ k ∈ fst <$> m.
Proof.
  unfold lpop. rewrite !list_elem_of_fmap. setoid_rewrite list_elem_of_In. setoid_rewrite List.filter_In.
  split.
  - intros (x & -> & ? & Hn). apply negb_true_iff, String.eqb_neq in Hn. split; [done|]. eauto.
  - intros (Hn & x & -> & Hx). exists x. split; [done|]. split; [done|].
    apply negb_true_iff, String.eqb_neq. congruence.
Qed.

Lemma level_deltas_Ok al : forall m ds m' ds',
  foldM level_delta (m, ds) al = Ok (m', ds') <->
  NoDup (level_path <$> al) /\ exists ds1, Forall2 (delta_of m) al ds1 /\ ds' = (ds ++ ds1)%list /\
    m' = fold_left (fun m a => lpop (level_path a) m) al m.
Proof.
  induction al as [|a al IH]; intros m ds m' ds'; cbn [foldM fmap list_fmap fold_left].
  - split.
    + intros [= -> ->]. split; [constructor|]. exists []. by rewrite app_nil_r.
    + intros (_ & ds1 & Hf & -> & ->). inversion Hf; subst. by rewrite app_nil_r.
  - rewrite rbind_Ok. split.
    + intros ([m1 ds1] & H1 & H2). apply level_delta_Ok in H1 as (d & Hd & -> & ->).
      apply IH in H2 as (Hnd & ds2 & Hf & -> & ->). split.
      * apply list.NoDup_cons. split; [|done]. rewrite list_elem_of_fmap. intros (a' & E & Ha').
        destruct (Forall2_elem_l _ _ _ _ Hf Ha') as (d' & _ & Hd'). apply delta_of_popped in Hd'. congruence.
      * exists (d :: ds2). split; [|by rewrite <- app_assoc]. constructor; [done|].
        eapply Forall2_impl; [exact Hf|]. intros a' d' Hd'. pose proof (delta_of_popped _ _ _ _ Hd').
        by eapply delta_of_lpop.
    + intros (Hnd & ds1 & Hf & -> & ->). apply list.NoDup_cons in Hnd as [Hni Hnd].
      inversion Hf as [|? d ? ds2 Hd Hf']; subst. exists (lpop (level_path a) m, (ds ++ [d])%list). split.
      * apply level_delta_Ok. eauto.
      * apply IH. split; [done|]. exists ds2. split; [|by rewrite <- app_assoc].
        clear -Hf' Hni. induction Hf' as [|a' d' al' ds' Hd' _ IH]; [constructor|].
        cbn in Hni. apply not_elem_of_cons in Hni as [? ?]. constructor; [|by apply IH].
        apply delta_of_lpop; [congruence|done].
Qed.

Lemma popped_keys al : forall m k,
  k ∈ fst <$> fold_left (fun m a => lpop (level_path a) m) al m <-> k ∉ level_path <$> al /\ k ∈ fst <$> m.
Proof.
  induction al as [|a al IH]; intros m k; cbn [fold_left fmap list_fmap].
  - split; [intros ?; split; [apply not_elem_of_nil|done]|by intros [_ ?]].
  - rewrite IH, lpop_keys, not_elem_of_cons. tauto.
Qed.

Lemma lset_keys k p v m : k ∈ fst <$> lset p v m <-> k = p \/ k ∈ fst <$> m.
Proof.
  induction m as [|[k' v'] m IH]; cbn.
  { rewrite list_elem_of_singleton. split; [by left|]. intros [?|?%not_elem_of_nil]; done. }
  destruct (String.eqb_spec p k') as [->|]; cbn; rewrite !list.elem_of_cons; [tauto|]. rewrite IH. tauto.
Qed.
Lemma by_path_keys bl k : k ∈ fst <$> by_path bl <-> k ∈ level_path <$> bl.
Proof.
  unfold by_path. assert (forall m, k ∈ fst <$> fold_left (fun d l => lset (level_path l) l d) bl m <->
    k ∈ level_path <$> bl \/ k ∈ fst <$> m) as ->.
  { induction bl as [|b bl IH]; intros m; cbn [fold_left fmap list_fmap].
    - split; [by right|]. intros [?%not_elem_of_nil|?]; done.
    - rewrite IH, lset_keys, list.elem_of_cons. tauto. }
  split; [|by left]. intros [?|?%not_elem_of_nil]; done.
Qed.

Lemma cpu_stat_deltas_Ok before after bl al ds :
  levels before = Ok bl -> levels after = Ok al ->
  cpu_stat_deltas before after = Ok ds <->
  NoDup (level_path <$> al) /\ (forall p, p ∈ level_path <$> al <-> p ∈ level_path <$> bl) /\
  Forall2 (delta_of (by_path bl)) al ds.
Proof.
  intros Hb Ha. unfold cpu_stat_deltas. rewrite Hb, Ha. cbn [rbind]. fold (by_path bl). rewrite rbind_Ok.
  assert (forall al' ds', Forall2 (delta_of (by_path bl)) al' ds' -> forall p, p ∈ level_path <$> al' -> p ∈ level_path <$> bl) as Hin.
  { intros al' ds' Hf p (a & -> & Hal)%list_elem_of_fmap. destruct (Forall2_elem_l _ _ _ _ Hf Hal) as (d & _ & b & c & Hg & _).
    apply by_path_keys. unfold lget in Hg. apply fmap_Some in Hg as ([k v] & Hfind & _).
    apply List.find_some in Hfind as [Hk E%String.eqb_eq]. simpl in E. subst k.
    apply list_elem_of_fmap. eexists. split; [|by apply list_elem_of_In]. done. }
  split.
  - intros ([m' ds'] & Hf & H). inv_ok. apply level_deltas_Ok in Hf as (Hnd & ds1 & Hd & -> & ->).
    split; [done|]. split; [|done]. intros p. split; [by eapply Hin|]. intros Hp.
    destruct (decide (p ∈ level_path <$> al)) as [|Hno]; [done|exfalso].
    assert (p ∈ fst <$> fold_left (fun m a => lpop (level_path a) m) al (by_path bl)) as Hkey.
    { apply popped_keys. split; [done|]. by apply by_path_keys. }
    destruct (fold_left _ al _); [by apply not_elem_of_nil in Hkey|done].
  - intros (Hnd & Hp & Hd). eexists (_, ds). split; [apply level_deltas_Ok; eauto|].
    cbv beta iota. rewrite raise_if_false; [done|].
    destruct (fold_left _ al _) as [|[k v] rest] eqn:E; [done|exfalso].
    assert (k ∈ fst <$> fold_left (fun m a => lpop (level_path a) m) al (by_path bl)) as Hkey by (rewrite E; left).
    apply popped_keys in Hkey as [Hno Hk]. apply Hno, Hp. by apply by_path_keys.
Qed.

(** [cpu_stat_deltas] returns exactly when the two records are about the same
    cgroups, each once in the later record, and no required counter is missing,
    no integer or smaller than before; its result then has, level by level of
    the later record, the growth of the four counters since the (last) earlier
    level of the same path. *)
Theorem cpu_stat_deltas_exact before after bl al ds :
  levels before = Ok bl -> levels after = Ok al ->
  cpu_stat_deltas before after = Ok ds <->
  NoDup (level_path <$> al) /\ (forall p, p ∈ level_path <$> al <-> p ∈ level_path <$> bl) /\
  Forall2 (delta_of (by_path bl)) al ds.
Proof. apply cpu_stat_deltas_Ok. Qed.

(** ** A printed record keeps its types *)

Section Norm.
Context (sorted : bool).

Lemma str_field_norm k d d' : json_wf (VDict d) = true -> json_norm sorted (VDict d) = VDict d' ->
  str_field k d' = str_field k d.
Proof. intros Hw Hn. unfold str_field. rewrite (dget_json_norm sorted k d d' Hw Hn). by destruct (dget k d) as [[]|]. Qed.
Lemma int_field_norm k d d' : json_wf (VDict d) = true -> json_norm sorted (VDict d) = VDict d' ->
  int_field k d' = int_field k d.
Proof. intros Hw Hn. unfold int_field. rewrite (dget_json_norm sorted k d d' Hw Hn). by destruct (dget k d) as [[]|]. Qed.
Lemma counters_field_norm k keys d d' : json_wf (VDict d) = true -> json_norm sorted (VDict d) = VDict d' ->
  counters_field k keys d' = counters_field k keys d.
Proof.
  intros Hw Hn. unfold counters_field. rewrite (dget_json_norm sorted k d d' Hw Hn).
  destruct (dget k d) as [v|] eqn:E; [|done]. simpl. destruct v as [| | | | | |c]; try done.
  pose proof (json_wf_dget _ _ _ Hw E) as Hc.
  set (c' := order_items sorted ((fun p => (fst p, json_norm sorted (snd p))) <$> c)).
  assert (json_norm sorted (VDict c) = VDict c') as Hn' by done. rewrite Hn'.
  induction keys as [|key keys IH]; [done|]. cbn [forallb]. by rewrite IH, (int_field_norm key c c' Hc Hn').
Qed.

Lemma typed_level_norm v : json_wf v = true -> typed_level_value (json_norm sorted v) = typed_level_value v.
Proof.
  intros Hw. destruct v as [| | | | | |d]; try done.
  set (d' := order_items sorted ((fun p => (fst p, json_norm sorted (snd p))) <$> d)).
  assert (json_norm sorted (VDict d) = VDict d') as Hn by done. rewrite Hn. cbn [typed_level_value]. unfold typed_level.
  rewrite !(str_field_norm _ d d' Hw Hn), (int_field_norm _ d d' Hw Hn), !(counters_field_norm _ _ d d' Hw Hn).
  rewrite !(dget_json_norm sorted _ d d' Hw Hn).
  by destruct (dget "cpu_max_quota_us" d) as [[]|], (dget "cpu_max_period_us" d) as [[]|].
Qed.

Lemma typed_record_norm r r' :
  json_wf (VDict r) = true -> json_norm sorted (VDict r) = VDict r' -> typed_record r' = typed_record r.
Proof.
  intros Hw Hn. unfold typed_record. rewrite (str_field_norm _ r r' Hw Hn), (dget_json_norm sorted _ r r' Hw Hn).
  destruct (dget "levels" r) as [v|] eqn:E; [|done]. pose proof (json_wf_dget _ _ _ Hw E) as Hv.
  destruct v as [| | | | |ls|]; try done. destruct ls as [|l ls]; [done|].
  change (json_norm sorted <$> Some (VList (l :: ls))) with (Some (VList (json_norm sorted <$> l :: ls))).
  cbn [fmap list_fmap]. f_equal. cbn [json_wf] in Hv. revert Hv.
  change (json_norm sorted l :: (json_norm sorted <$> ls)) with (json_norm sorted <$> l :: ls).
  generalize (l :: ls). intros vs Hv. induction vs as [|x vs IH]; [done|]. simpl in Hv.
  apply andb_true_iff in Hv as [Hx Hv]. cbn [fmap list_fmap forallb]. by rewrite typed_level_norm, IH.
Qed.
End Norm.
