(* ===== verification/Collector.v ===== *)
(** [cpu-limits/observers/collector.py]: the exporter of cgroup counters.

    The targets come from a JSON fixture or from the Pods of the API server; the
    state of a collector is its inventory, which the Kubernetes one reloads.
    Files, the API server and the clock are operations with arbitrary answers. *)

From Stdlib Require Import ZArith Bool Ascii String Lia SpecFloat.
From stdpp Require Import base list strings option pretty.
From S2P Require Import Prelude Eff PyStr PyText PyFloat PyVal PyDict Json PyConv World Files Probe.

Open Scope string_scope.
Open Scope Z_scope.

(** Name, help text and type. *)
Definition METRICS : list (string * string * string) :=
  [("container_cpu_usage_seconds_total", "Cumulative CPU time used by the target cgroup.", "counter");
   ("container_cpu_cfs_periods_total", "Cumulative CPU quota periods for the target cgroup.", "counter");
   ("container_cpu_cfs_throttled_periods_total", "Cumulative throttled CPU quota periods for the target cgroup.", "counter");
   ("container_cpu_cfs_throttled_seconds_total", "Cumulative CPU throttled time for the target cgroup.", "counter");
   ("container_memory_working_set_bytes", "Memory current minus inactive file cache for the target cgroup.", "gauge");
   ("container_pressure_cpu_waiting_seconds_total", "Cumulative CPU pressure waiting time for the target cgroup.", "counter");
   ("k8labs_cgroup_cpu_weight", "Exact cgroup v2 cpu.weight value.", "gauge");
   ("k8labs_cgroup_cpu_max_quota", "Exact numeric cgroup v2 cpu.max quota in microseconds.", "gauge");
   ("k8labs_cgroup_cpu_max_period", "Exact cgroup v2 cpu.max period in microseconds.", "gauge");
   ("k8labs_cgroup_cpu_usage_seconds_total", "Exact cgroup v2 cpu.stat usage time in seconds.", "counter")].

Definition alnum (c : ascii) : bool := is_digit c || between 97 122 (code c) || between 65 90 (code c).
Definition uid_char (c : ascii) : bool := alnum c || mem_string (char_str c) ["_"; "."; "-"].
(** [UID_PATTERN.fullmatch] *)
Definition valid_uid (uid : string) : bool :=
  match uid with
  | String c rest => alnum c && str_forallb uid_char rest && (slen rest <=? 255)
  | EmptyString => false
  end.

Record CgroupTarget : Type := {
  ct_uid : string; ct_namespace : string; ct_pod : string; ct_container : string; ct_qos : string;
  ct_level : string; ct_cell_id : string; ct_cgroup_path : string
}.

(** [labels], in the order of the dictionary. *)
Definition labels (t : CgroupTarget) (node : string) : list (string * string) :=
  [("node", node); ("namespace", ct_namespace t); ("pod", ct_pod t); ("pod_uid", ct_uid t);
   ("container", ct_container t); ("qos", ct_qos t); ("level", ct_level t); ("cell_id", ct_cell_id t)].

(** ** The fixture *)

(** [InventoryFormatError] is a [TypeError]. *)
Definition format_error {A} (msg : string) : result A := Raise (Exn TypeError msg).

Definition required_text (values : pydict) (key : string) : result string :=
  match dget key values with
  | Some (VStr s) => if is_empty s then Raise (Exn ValueError ("inventory entry needs non-empty " +:+ key)) else Ok s
  | _ => Raise (Exn ValueError ("inventory entry needs non-empty " +:+ key))
  end.

Fixpoint optional_text (values : pydict) (keys : list string) : string :=
  match keys with
  | [] => ""
  | key :: rest => match dget key values with Some (VStr s) => s | _ => optional_text values rest end
  end.

Definition list_cgroup_item (uid : string) (entry : pyval) : result (string * pyval) :=
  match entry with
  | VDict entry =>
      match dget "level" entry, dget "path" entry with
      | Some (VStr level), Some (VStr path) => Ok (level, VStr path)
      | _, _ => format_error ("inventory pod " +:+ uid +:+ ": cgroup needs level and path")
      end
  | _ => format_error ("inventory pod " +:+ uid +:+ ": cgroup must be a JSON object")
  end.

Definition cgroup_items (uid : string) (cgroups : option pyval) : result (list (string * pyval)) :=
  match cgroups with
  | Some (VDict d) => Ok d
  | Some (VList l) => mapM (list_cgroup_item uid) l
  | _ => format_error ("inventory pod " +:+ uid +:+ ": cgroups must be an object or list")
  end.

Definition fixture_container (uid namespace pod qos cell_id : string) (container_data : pyval) : result (list CgroupTarget) :=
  match container_data with
  | VDict data =>
      let container := optional_text data ["name"; "container"] in
      let* items := cgroup_items uid (dget "cgroups" data) in
      mapM (fun item : string * pyval =>
        match snd item with
        | VStr path => Ok {| ct_uid := uid; ct_namespace := namespace; ct_pod := pod; ct_container := container;
                             ct_qos := qos; ct_level := fst item; ct_cell_id := cell_id; ct_cgroup_path := path |}
        | _ => format_error ("inventory pod " +:+ uid +:+ ": invalid cgroup entry")
        end) items
  | _ => format_error ("inventory pod " +:+ uid +:+ ": container must be a JSON object")
  end.

Definition fixture_pod (pod_data : pyval) : result (list CgroupTarget) :=
  match pod_data with
  | VDict data =>
      let* uid := required_text data "uid" in
      let namespace := optional_text data ["namespace"] in
      let pod := optional_text data ["pod"; "name"] in
      let qos := optional_text data ["qos"; "qos_class"] in
      let cell_id := optional_text data ["cell_id"] in
      match dget "containers" data with
      | Some (VList containers) =>
          let* ts := mapM (fixture_container uid namespace pod qos cell_id) containers in Ok (concat ts)
      | _ => format_error ("inventory pod " +:+ uid +:+ ": containers must be a JSON list")
      end
  | _ => format_error "inventory pod entries must be JSON objects"
  end.

(** [FixtureInventory.from_data] *)
Definition from_data (data : pydict) : result (list CgroupTarget) :=
  let pods := match dget "pods" data with Some v => Some v | None => dget "items" data end in
  match pods with
  | Some (VList pods) => let* ts := mapM fixture_pod pods in Ok (concat ts)
  | _ => format_error "inventory pods must be a JSON list"
  end.

(** [self._by_uid] and [targets_for_uid] *)
Definition by_uid (targets : list CgroupTarget) : list (string * list CgroupTarget) :=
  fold_left (fun d t =>
    let old := match List.find (fun p => String.eqb (ct_uid t) (fst p)) d with Some p => snd p | None => [] end in
    assoc_set (ct_uid t) (old ++ [t])%list d) targets [].
Definition targets_for_uid (targets : list CgroupTarget) (uid : string) : list CgroupTarget :=
  match List.find (fun p => String.eqb uid (fst p)) (by_uid targets) with Some p => snd p | None => [] end.

(** ** Paths *)

(** [str] of a relative path with these components. *)
Definition relative_text (parts : list string) : string := match parts with [] => "." | _ => join "/" parts end.
Fixpoint strip_parts (root p : list string) : option (list string) :=
  match root, p with
  | [], _ => Some p
  | r :: root, x :: p => if String.eqb r x then strip_parts root p else None
  | _ :: _, [] => None
  end.
(** [path.relative_to(root).parts] of absolute paths. *)
Definition relative_to (root path : string) : result (list string) :=
  match strip_parts (path_parts root) (path_parts path) with
  | Some parts => Ok parts
  | None => Raise (Exn ValueError (repr_str path +:+ " is not in the subpath of " +:+ repr_str root))
  end.
(** [root / relative] *)
Definition join_path (root relative : string) : string :=
  if startswith "/" relative then relative
  else match path_parts relative with [] => root | parts => path_join root (join "/" parts) end.

(** ** Targets of Pods *)

Definition metadata_cell_id (labels annotations : pydict) : string :=
  let keys := ["cpu-limits.k8labs.io/cell-id"; "k8labs.io/cell-id"; "cell_id"] in
  let find d := list.head (omap (fun key => match dget key d with Some (VStr s) => Some s | _ => None end) keys) in
  match find labels with
  | Some s => s
  | None => default "" (find annotations)
  end.

Definition container_for_path (name : string) (containers : list string) : string :=
  default "" (List.find (fun c => negb (is_empty c) && contains c name) containers).

(** The position of the QoS slice among the components. *)
Fixpoint qos_index (parts : list string) : option nat :=
  match parts with
  | [] => None
  | part :: rest => if startswith "kubepods" part && endswith ".slice" part then Some O else S <$> qos_index rest
  end.

(** What the targets of a Pod share. *)
Record pod_facts : Type := { pf_uid : string; pf_namespace : string; pf_pod : string; pf_qos : string; pf_cell_id : string }.

Definition target_for_path (f : pod_facts) (container level : string) (parts : list string) : CgroupTarget :=
  {| ct_uid := pf_uid f; ct_namespace := pf_namespace f; ct_pod := pf_pod f; ct_container := container;
     ct_qos := pf_qos f; ct_level := level; ct_cell_id := pf_cell_id f; ct_cgroup_path := relative_text parts |}.

(** The targets of one path of a Pod with these child directories. *)
Definition pod_path_targets (f : pod_facts) (containers parts children : list string) : list CgroupTarget :=
  ((match qos_index parts with
    | Some i => [target_for_path f "" "qos_slice" (take (S i) parts)]
    | None => []
    end) ++
   target_for_path f "" "pod_slice" parts ::
   ((fun child => target_for_path f (container_for_path child containers)
                    (if endswith ".scope" child then "container_scope" else "container_leaf") (parts ++ [child])%list)
      <$> children))%list.

(** One target per level and path: the last one, at the place of the first. *)
Definition unique_targets (targets : list CgroupTarget) : list CgroupTarget :=
  snd <$> fold_left (fun d t => assoc_set (ct_level t, ct_cgroup_path t) t d) targets [].

Section Discovery.
Context `{Env}.

(** The directories whose name contains a form of the UID. *)
Fixpoint uid_directories (uid_forms candidates : list string) : M (list string) :=
  match candidates with
  | [] => ret []
  | c :: rest =>
      let! dir := perform (IsDir c) in
      let! found := uid_directories uid_forms rest in
      ret (if dir && existsb (fun form => contains form (default "" (list.last (path_parts c)))) uid_forms
           then c :: found else found)
  end.

Fixpoint child_directories (path : string) (names : list string) : M (list string) :=
  match names with
  | [] => ret []
  | name :: rest =>
      let! dir := perform (IsDir (path_join path name)) in
      let! found := child_directories path rest in
      ret (if dir then name :: found else found)
  end.
Definition safe_child_directories (path : string) : M (list string) :=
  try_except (let! names := perform (IterDir path) in child_directories path names) [OSError] (fun _ => ret []).

Fixpoint targets_of_matches (f : pod_facts) (containers : list string) (root : string) (matches : list string) :
    M (list CgroupTarget) :=
  match matches with
  | [] => ret []
  | pod_path :: rest =>
      let! parts := lift (relative_to root pod_path) in
      let! children := safe_child_directories pod_path in
      let! more := targets_of_matches f containers root rest in
      ret (pod_path_targets f containers parts children ++ more)%list
  end.

Definition discover_targets (cgroup_root : string) (f : pod_facts) (containers : list string) : M (list CgroupTarget) :=
  let! root := perform (Resolve cgroup_root) in
  let uid_forms := [pf_uid f; replace_all "-" "_" (pf_uid f)] in
  let! matches := try_except (let! candidates := perform (WalkTree root) in
                              let! found := uid_directories uid_forms candidates in ret (Some found))
                    [OSError] (fun _ => ret None) in
  match matches with
  | None => ret []
  | Some matches => let! targets := targets_of_matches f containers root matches in ret (unique_targets targets)
  end.

Definition mapping_or_empty (v : option pyval) : pydict := match v with Some (VDict d) => d | _ => [] end.

Definition targets_from_kubernetes_pod (pod_data : pydict) (cgroup_root : string) : M (list CgroupTarget) :=
  match dget "metadata" pod_data, dget "status" pod_data, dget "spec" pod_data with
  | Some (VDict metadata), Some (VDict status), Some (VDict spec) =>
      match dget "uid" metadata with
      | Some (VStr uid) =>
          if negb (valid_uid uid) then ret []
          else
            let f := {| pf_uid := uid; pf_namespace := optional_text metadata ["namespace"];
                        pf_pod := optional_text metadata ["name"]; pf_qos := optional_text status ["qosClass"];
                        pf_cell_id := metadata_cell_id (mapping_or_empty (dget "labels" metadata))
                                        (mapping_or_empty (dget "annotations" metadata)) |} in
            match dget "containers" spec with
            | Some (VList containers) =>
                discover_targets cgroup_root f
                  (omap (fun c => match c with VDict c => Some (optional_text c ["name"]) | _ => None end) containers)
            | _ => ret []
            end
      | _ => ret []
      end
  | _, _, _ => ret []
  end.

Fixpoint targets_of_items (cgroup_root : string) (items : list pyval) : M (list CgroupTarget) :=
  match items with
  | [] => ret []
  | VDict item :: rest =>
      let! ts := targets_from_kubernetes_pod item cgroup_root in
      let! more := targets_of_items cgroup_root rest in
      ret (ts ++ more)%list
  | _ :: rest => targets_of_items cgroup_root rest
  end.

(** ** The inventory of the API server *)

(** The environment of the process. *)
Record collector_env : Type := {
  ce_host : string; ce_port : string; ce_namespace : string; ce_node : string
}.

Definition TOKEN_PATH : string := "/var/run/secrets/kubernetes.io/serviceaccount/token".
Definition CA_PATH : string := "/var/run/secrets/kubernetes.io/serviceaccount/ca.crt".

Definition pods_url (e : collector_env) : string :=
  "https://" +:+ ce_host e +:+ ":" +:+ ce_port e +:+ "/api/v1/namespaces/" +:+ ce_namespace e +:+ "/pods" +:+
  (if is_empty (ce_node e) then "" else "?fieldSelector=spec.nodeName%3D" +:+ ce_node e).

(** [from_service_account] *)
Definition from_service_account (e : collector_env) (cgroup_root : string) : M (list CgroupTarget) :=
  let! raw := perform (ReadText TOKEN_PATH) in
  throw_if (is_empty (strip raw)) ValueError "mounted Kubernetes service-account token is empty" >>>
  throw_if (is_empty (ce_host e) || negb (negb (is_empty (ce_port e)) && str_forallb is_digit (ce_port e))) ValueError
    "Kubernetes service host or HTTPS port is invalid" >>>
  throw_if (is_empty (ce_namespace e)) ValueError "POD_NAMESPACE is required for the Pod inventory" >>>
  let! certificate := perform (IsFile CA_PATH) in
  perform (LoadTls (if certificate then CA_PATH else "") "" "") >>>
  let! (_, body) := perform (UrlOpen (pods_url e) 10) in
  let! payload := lift (json_loads body) in
  match payload with
  | VDict payload =>
      match dget "items" payload with
      | Some (VList items) => targets_of_items cgroup_root items
      | _ => throw TypeError "Kubernetes API Pod inventory has no items list"
      end
  | _ => throw TypeError "Kubernetes API returned an invalid Pod inventory"
  end.

(** A fixture, or the targets of the API server with the time they were read. *)
Inductive inventory : Type :=
  | Fixture (targets : list CgroupTarget)
  | Refreshing (e : collector_env) (cgroup_root : string) (refresh_seconds last : float) (targets : list CgroupTarget).

(** [targets]: those of the inventory, reloaded when they are old. *)
Definition inventory_targets (i : inventory) : M (list CgroupTarget * inventory) :=
  match i with
  | Fixture targets => ret (targets, i)
  | Refreshing e root seconds last targets =>
      let! now := perform Monotonic in
      if fltb (fsub now last) seconds then ret (targets, i)
      else let! targets := from_service_account e root in ret (targets, Refreshing e root seconds now targets)
  end.
End Discovery.

(** ** Reading the counters *)

(** [line.split(maxsplit=1)], with two parts: the word and the rest, whose blanks
    at the end are kept. *)
Fixpoint cut_word (s : string) : string * string :=
  match s with
  | EmptyString => ("", "")
  | String c s' => if is_space c then ("", s) else let '(a, b) := cut_word s' in (String c a, b)
  end.
Definition stat_field (line : string) : option (string * string) :=
  let '(key, rest) := cut_word (lstrip line) in
  let value := lstrip rest in
  if is_empty key || is_empty value then None else Some (key, value).

Definition isdecimal (s : string) : bool := negb (is_empty s) && str_forallb is_digit s.
Definition nonnegative_int (value : option string) : option Z :=
  match value with
  | Some v => if isdecimal v then parse_nat v else None
  | None => None
  end.

(** [cpu_stat.get(key)]: the last line of a key counts. *)
Definition stat_get (key : string) (stats : list (string * string)) : option string :=
  list.last (omap (fun p => if String.eqb key (fst p) then Some (snd p) else None) stats).

Definition cpu_max_of (text : string) : option Z * option Z :=
  match words text with
  | [q; p] => (if String.eqb q "max" then None else nonnegative_int (Some q), nonnegative_int (Some p))
  | _ => (None, None)
  end.

Definition field_total (field : string) : option string :=
  match split_on "=" field with
  | k :: v :: vs => if String.eqb k "total" then Some (join "=" (v :: vs)) else None
  | _ => None
  end.
(** The first [total] of the first [some] line that has one. *)
Definition some_total (line : string) : option string :=
  match words line with
  | kind :: fields => if String.eqb kind "some" then list.head (omap field_total fields) else None
  | [] => None
  end.
Definition pressure_of (text : string) : option Z :=
  match list.head (omap some_total (splitlines text)) with
  | Some v => nonnegative_int (Some v)
  | None => None
  end.

(** A value is an integer or a float. *)
Abbreviation number := (Z + float)%type.
Abbreviation values := (list (string * number)).

(** Labels, and a value with them. *)
Abbreviation label_list := (list (string * string)).
Abbreviation sample := (label_list * number)%type.

(** [value / scale] as the value of a metric. *)
Definition scaled (metric : string) (value : option Z) (scale : Z) : result values :=
  match value with
  | Some n => let* x := truediv n scale in Ok [(metric, inr x)]
  | None => Ok []
  end.
Definition counted (metric : string) (value : option Z) : values :=
  match value with Some n => [(metric, inl n)] | None => [] end.

Definition usage_values (cpu_stat : list (string * string)) : result values :=
  match nonnegative_int (stat_get "usage_usec" cpu_stat) with
  | Some usage =>
      let* seconds := truediv usage 1000000 in
      Ok [("container_cpu_usage_seconds_total", inr seconds); ("k8labs_cgroup_cpu_usage_seconds_total", inr seconds)]
  | None => Ok []
  end.

Definition memory_values (current : option Z) (memory_stat : list (string * string)) : values :=
  match current with
  | Some n => [("container_memory_working_set_bytes",
                inl (Z.max 0 (n - default 0 (nonnegative_int (stat_get "inactive_file" memory_stat)))))]
  | None => []
  end.

Section Reading.
Context `{Env}.

(** A file's text; [None] if it cannot be read. *)
Definition read_file (path : string) : M (option string) :=
  try_except (let! text := perform (ReadText path) in ret (Some text)) [OSError] (fun _ => ret None).
Definition read_stat_file (path : string) : M (list (string * string)) :=
  let! text := read_file path in
  ret (match text with Some text => omap stat_field (splitlines text) | None => [] end).
Definition read_integer (path : string) : M (option Z) :=
  let! text := read_file path in
  ret (match text with Some text => nonnegative_int (Some (strip text)) | None => None end).
Definition read_cpu_max (path : string) : M (option Z * option Z) :=
  let! text := read_file path in
  ret (match text with Some text => cpu_max_of text | None => (None, None) end).
Definition read_cpu_pressure (path : string) : M (option Z) :=
  let! text := read_file path in
  ret (match text with Some text => pressure_of text | None => None end).

Definition read_target_metrics (path : string) : M values :=
  let! cpu_stat := read_stat_file (path_join path "cpu.stat") in
  let! memory_stat := read_stat_file (path_join path "memory.stat") in
  let! usage := lift (usage_values cpu_stat) in
  let stat key := nonnegative_int (stat_get key cpu_stat) in
  let! periods := lift (scaled "container_cpu_cfs_periods_total" (stat "nr_periods") 1) in
  let! throttled := lift (scaled "container_cpu_cfs_throttled_periods_total" (stat "nr_throttled") 1) in
  let! throttled_time := lift (scaled "container_cpu_cfs_throttled_seconds_total" (stat "throttled_usec") 1000000) in
  let! weight := read_integer (path_join path "cpu.weight") in
  let! (quota, period) := read_cpu_max (path_join path "cpu.max") in
  let! current := read_integer (path_join path "memory.current") in
  let! pressure := read_cpu_pressure (path_join path "cpu.pressure") in
  let! waiting := lift (scaled "container_pressure_cpu_waiting_seconds_total" pressure 1000000) in
  ret (usage ++ periods ++ throttled ++ throttled_time ++ counted "k8labs_cgroup_cpu_weight" weight ++
       counted "k8labs_cgroup_cpu_max_quota" quota ++ counted "k8labs_cgroup_cpu_max_period" period ++
       memory_values current memory_stat ++ waiting)%list.

(** [_safe_cgroup_path]: the resolved path with its components below the root. *)
Definition safe_cgroup_path (root relative_path : string) : M (option (string * list string)) :=
  try_except
    (let! resolved := perform (Resolve (join_path root relative_path)) in
     let! parts := lift (relative_to root resolved) in
     ret (match parts with [] => None | _ => Some (resolved, parts) end))
    [OSError; ValueError] (fun _ => ret None).

(** ** The text format *)

Fixpoint read_samples (root node : string) (targets : list CgroupTarget) : M (list (string * sample)) :=
  match targets with
  | [] => ret []
  | t :: rest =>
      let! path := safe_cgroup_path root (ct_cgroup_path t) in
      let! here := match path with
                   | Some (path, _) =>
                       let! vs := read_target_metrics path in
                       ret ((fun p : string * number => (fst p, (labels t node, snd p))) <$> vs)
                   | None => ret []
                   end in
      let! more := read_samples root node rest in
      ret (here ++ more)%list
  end.
End Reading.

Definition sorted_labels (l : label_list) : label_list := sort_by (fun a b => String.leb (fst a) (fst b)) l.

(** The order of tuples of texts. *)
Fixpoint texts_leb (a b : list string) : bool :=
  match a, b with
  | [], _ => true
  | _ :: _, [] => false
  | x :: a, y :: b => if String.eqb x y then texts_leb a b else String.leb x y
  end.
Definition sample_sort_key (s : sample) : list string := snd <$> sorted_labels (fst s).

Definition escape_label (value : string) : string :=
  replace_all (char_str dquote) (String "\" (char_str dquote))
    (replace_all newline (String "\" "n") (replace_all "\" "\\" value)).
Definition render_label (l : string * string) : string :=
  fst l +:+ "=" +:+ char_str dquote +:+ escape_label (snd l) +:+ char_str dquote.
Definition render_labels (l : label_list) : string := "{" +:+ join "," (render_label <$> sorted_labels l) +:+ "}".

Definition render_value (v : number) : result string :=
  match v with
  | inr x => Ok (format_gn 15 x)
  | inl n => let* x := float_of_Z n in Ok (format_gn 15 x)
  end.

Definition sample_line (metric : string) (s : sample) : result string :=
  let* v := render_value (snd s) in Ok (metric +:+ render_labels (fst s) +:+ " " +:+ v).

Definition samples_of (metric : string) (samples : list (string * sample)) : list sample :=
  sort_by (fun a b => texts_leb (sample_sort_key a) (sample_sort_key b))
    (omap (fun p => if String.eqb metric (fst p) then Some (snd p) else None) samples).

Definition metric_lines (samples : list (string * sample)) (m : string * string * string) : result (list string) :=
  let '(metric, help_text, metric_type) := m in
  let* ls := mapM (sample_line metric) (samples_of metric samples) in
  Ok (("# HELP " +:+ metric +:+ " " +:+ help_text) :: ("# TYPE " +:+ metric +:+ " " +:+ metric_type) :: ls).

Definition exposition (samples : list (string * sample)) : result string :=
  let* ls := mapM (metric_lines samples) METRICS in Ok (join newline (concat ls) +:+ newline).

(** ** The collector *)

(** The resolved root, the node and the inventory, which a request may reload. *)
Record collector : Type := { co_root : string; co_node : string; co_inventory : inventory }.

Section Serving.
Context `{Env}.

Definition make_collector (cgroup_root node : string) (i : inventory) : M collector :=
  let! root := perform (Resolve cgroup_root) in
  ret {| co_root := root; co_node := node; co_inventory := i |}.

Definition with_inventory (c : collector) (i : inventory) : collector :=
  {| co_root := co_root c; co_node := co_node c; co_inventory := i |}.

Definition render_metrics (c : collector) : M (string * collector) :=
  let! (targets, i) := inventory_targets (co_inventory c) in
  let! samples := read_samples (co_root c) (co_node c) targets in
  let! text := lift (exposition samples) in
  ret (text, with_inventory c i).

Definition cgroup_record (t : CgroupTarget) (parts : list string) : pyval :=
  VDict [("path", VStr (relative_text parts)); ("level", VStr (ct_level t)); ("container", VStr (ct_container t));
         ("namespace", VStr (ct_namespace t)); ("pod", VStr (ct_pod t)); ("qos", VStr (ct_qos t));
         ("cell_id", VStr (ct_cell_id t))].

Fixpoint cgroup_records (root : string) (targets : list CgroupTarget) : M (list pyval) :=
  match targets with
  | [] => ret []
  | t :: rest =>
      let! path := safe_cgroup_path root (ct_cgroup_path t) in
      let! more := cgroup_records root rest in
      ret (match path with Some (_, parts) => cgroup_record t parts :: more | None => more end)
  end.

Definition cgroups_for_uid (c : collector) (uid : string) : M (list pyval * collector) :=
  if negb (valid_uid uid) then ret ([], c)
  else
    let! (targets, i) := inventory_targets (co_inventory c) in
    let! records := cgroup_records (co_root c) (targets_for_uid targets uid) in
    ret (records, with_inventory c i).

(** [do_GET] of a path with the [uid] of its query: status, content type, body. *)
Definition do_GET (c : collector) (path uid : string) : M ((Z * string * string) * collector) :=
  if mem_string path ["/healthz"; "/readyz"] then ret ((200, "text/plain; charset=utf-8", "ok" +:+ newline), c)
  else if String.eqb path "/metrics" then
    let! (text, c) := render_metrics c in ret ((200, "text/plain; version=0.0.4; charset=utf-8", text), c)
  else if String.eqb path "/cgroups" then
    let! (records, c) := cgroups_for_uid c uid in
    ret ((200, "application/json; charset=utf-8",
          json_plain true (VDict [("uid", VStr uid); ("cgroups", VList records)])), c)
  else ret ((404, "text/plain; charset=utf-8", "not found" +:+ newline), c).
End Serving.

(** ** What the collector reads and what it answers. *)

(** ** Targets by UID *)

Lemma find_assoc_set {V} k k' (v : V) d :
  List.find (fun p => String.eqb k (fst p)) (assoc_set k' v d) =
  if String.eqb k k' then Some (k', v) else List.find (fun p => String.eqb k (fst p)) d.
Proof.
  induction d as [|[k1 v1] d IH]; cbn [assoc_set].
  - cbn [List.find fst]. by destruct (String.eqb k k').
  - destruct (decide (k' = k1)) as [<-|Hne]; cbn [List.find fst].
    + by destruct (String.eqb k k').
    + destruct (String.eqb_spec k k1) as [->|]; [|exact IH].
      by rewrite (proj2 (String.eqb_neq k1 k')) by congruence.
Qed.

(** The targets of a UID are those of the inventory with it, in order. *)
Lemma targets_for_uid_filter targets uid :
  targets_for_uid targets uid = List.filter (fun t => String.eqb uid (ct_uid t)) targets.
Proof.
  unfold targets_for_uid, by_uid.
  assert (forall d : list (string * list CgroupTarget),
    match List.find (fun p => String.eqb uid (fst p))
      (fold_left (fun d t => let old := match List.find (fun p => String.eqb (ct_uid t) (fst p)) d with Some p => snd p | None => [] end in
                             assoc_set (ct_uid t) (old ++ [t])%list d) targets d) with Some p => snd p | None => [] end =
    (match List.find (fun p => String.eqb uid (fst p)) d with Some p => snd p | None => [] end ++
     List.filter (fun t => String.eqb uid (ct_uid t)) targets)%list) as ->; [|done].
  induction targets as [|t ts IH]; intros d; cbn [fold_left List.filter]; [by rewrite app_nil_r|].
  rewrite IH, find_assoc_set. destruct (String.eqb_spec uid (ct_uid t)) as [->|]; [|done]. cbn [snd]. by rewrite <- app_assoc.
Qed.

(** ** Paths below the root *)

Definition below (root path : string) : Prop :=
  exists parts, strip_parts (path_parts root) (path_parts path) = Some parts /\ parts <> [].

Definition COUNTER_FILES : list string := ["cpu.stat"; "memory.stat"; "cpu.weight"; "cpu.max"; "memory.current"; "cpu.pressure"].

(** An operation on behalf of a target: a path is resolved, or a counter file of
    a directory below the root is read. *)
Definition target_read (root : string) (ev : event) : Prop :=
  match event_op ev with
  | Resolve _ => True
  | ReadText p => exists dir f, p = path_join dir f /\ f ∈ COUNTER_FILES /\ below root dir
  | _ => False
  end.

(** An operation that lists the Pods and their directories. *)
Definition list_pods (e : collector_env) (ev : event) : Prop :=
  match event_op ev with
  | ReadText p => p = TOKEN_PATH
  | IsFile p => p = CA_PATH
  | UrlOpen url _ => url = pods_url e
  | Monotonic | LoadTls _ _ _ | Resolve _ | WalkTree _ | IsDir _ | IterDir _ => True
  | _ => False
  end.

Definition collector_event (c : collector) (ev : event) : Prop :=
  target_read (co_root c) ev \/
  match co_inventory c with Fixture _ => False | Refreshing e _ _ _ _ => list_pods e ev end.

Section Reads.
Context `{Env}.

Lemma safe_cgroup_path_only root p : only (target_read root) (safe_cgroup_path root p).
Proof. unfold safe_cgroup_path. solve_only. done. Qed.

Lemma safe_cgroup_path_below root p h path parts h' : safe_cgroup_path root p h = (Ok (Some (path, parts)), h') ->
  parts <> [] /\ strip_parts (path_parts root) (path_parts path) = Some parts.
Proof.
  unfold safe_cgroup_path. intros [H0|(e & h1 & _ & _ & H1)]%try_except_Ok; [|by apply retM_Ok in H1 as [? _]].
  apply bindM_Ok in H0 as (resolved & h1 & _ & H0). cbv beta in H0.
  apply bindM_Ok in H0 as (ps & h2 & Hps & H0). cbv beta in H0.
  apply liftM_Ok in Hps as [Hps _]. apply retM_Ok in H0 as [H0 _]. unfold relative_to in Hps.
  destruct (strip_parts (path_parts root) (path_parts resolved)) as [ps'|] eqn:E; [|done]. injection Hps as ->.
  destruct ps; [done|]. by injection H0 as -> ->.
Qed.

Lemma read_target_only root path : below root path -> only (target_read root) (read_target_metrics path).
Proof.
  intros Hb. unfold read_target_metrics, read_stat_file, read_integer, read_cpu_max, read_cpu_pressure, read_file.
  assert (forall f, f ∈ COUNTER_FILES -> target_read root (Event (ReadText (path_join path f)))) as Hr.
  { intros f Hf. exists path, f. done. }
  solve_only; apply Hr; unfold COUNTER_FILES; rewrite !list.elem_of_cons; tauto.
Qed.

Lemma read_samples_only root node ts : only (target_read root) (read_samples root node ts).
Proof.
  induction ts as [|t ts IH]; cbn [read_samples]; [apply only_ret|].
  apply only_bind_value; [apply safe_cgroup_path_only|]. intros h p h' Hp.
  apply only_bind; [|intros ?; apply only_bind; [done|intros ?; apply only_ret]].
  destruct p as [[path parts]|]; [|apply only_ret]. apply safe_cgroup_path_below in Hp as [Hne Hp].
  apply only_bind; [|intros ?; apply only_ret]. apply read_target_only. by exists parts.
Qed.

Lemma cgroup_records_only root ts : only (target_read root) (cgroup_records root ts).
Proof. induction ts as [|t ts IH]; cbn [cgroup_records]; solve_only. apply safe_cgroup_path_only. Qed.

Lemma discover_only e root f containers : only (list_pods e) (discover_targets root f containers).
Proof.
  assert (forall forms cs, only (list_pods e) (uid_directories forms cs)) as H1.
  { intros forms cs. induction cs; cbn [uid_directories]; solve_only; done. }
  assert (forall path names, only (list_pods e) (child_directories path names)) as H2.
  { intros path names. induction names; cbn [child_directories]; solve_only; done. }
  assert (forall path, only (list_pods e) (safe_child_directories path)) as H3.
  { intros path. unfold safe_child_directories. solve_only; done. }
  assert (forall r ms, only (list_pods e) (targets_of_matches f containers r ms)) as H4.
  { intros r ms. induction ms; cbn [targets_of_matches]; solve_only; done. }
  unfold discover_targets. solve_only; done.
Qed.

Lemma from_service_account_only e root : only (list_pods e) (from_service_account e root).
Proof.
  assert (forall item, only (list_pods e) (targets_from_kubernetes_pod item root)) as H1.
  { intros item. unfold targets_from_kubernetes_pod. solve_only; apply discover_only. }
  assert (forall items, only (list_pods e) (targets_of_items root items)) as H2.
  { intros items. induction items as [|v items IH]; cbn [targets_of_items]; [apply only_ret|]. destruct v; solve_only. }
  unfold from_service_account. solve_only; done.
Qed.

Lemma inventory_only c : only (collector_event c) (inventory_targets (co_inventory c)).
Proof.
  unfold inventory_targets. destruct (co_inventory c) as [ts|e root seconds last ts] eqn:E; [apply only_ret|].
  assert (forall A (m : M A), only (list_pods e) m -> only (collector_event c) m) as Hw.
  { intros A m Hm. eapply emits_weaken; [|exact Hm]. intros ev r Hf. eapply List.Forall_impl; [|exact Hf].
    intros ev' Hev. right. by rewrite E. }
  apply only_bind; [apply Hw, only_perform; done|]. intros now. destruct (fltb _ _); [apply only_ret|].
  apply only_bind; [apply Hw, from_service_account_only|]. intros ?. apply only_ret.
Qed.

Lemma collector_target c {A} (m : M A) : only (target_read (co_root c)) m -> only (collector_event c) m.
Proof.
  intros Hm. eapply emits_weaken; [|exact Hm]. intros ev r Hf. eapply List.Forall_impl; [|exact Hf]. intros ev' Hev. by left.
Qed.

Lemma do_GET_events c path uid : only (collector_event c) (do_GET c path uid).
Proof.
  unfold do_GET, render_metrics, cgroups_for_uid. solve_only;
    first [apply inventory_only|apply collector_target, read_samples_only|apply collector_target, cgroup_records_only].
Qed.
End Reads.

(** Whatever is requested, the collector only reads: the counter files of
    cgroups strictly below its root, and, to list the Pods, its token, the
    certificate file, the one address of the API server and directories. *)
Theorem collector_reads_only (E : Env) c path uid : only (collector_event c) (do_GET c path uid).
Proof. apply do_GET_events. Qed.

(** ** The listing of a UID *)

Section Listing.
Context `{Env}.

Lemma cgroup_records_spec root ts : forall h records h', cgroup_records root ts h = (Ok records, h') ->
  exists kept : list (CgroupTarget * list string), records = (fun k => cgroup_record (fst k) (snd k)) <$> kept /\
    (fst <$> kept) `sublist_of` ts /\ Forall (fun k => snd k <> []) kept.
Proof.
  induction ts as [|t ts IH]; intros h records h' Hr; cbn [cgroup_records] in Hr.
  - apply retM_Ok in Hr as [-> _]. exists []. repeat constructor.
  - apply bindM_Ok in Hr as (p & h1 & Hp & Hr). cbv beta in Hr. apply bindM_Ok in Hr as (more & h2 & Hm & Hr).
    apply retM_Ok in Hr as [-> _]. destruct (IH _ _ _ Hm) as (kept & -> & Hs & Hf).
    destruct p as [[path parts]|]; [|exists kept; split; [done|]; split; [by apply sublist_cons|done]].
    exists ((t, parts) :: kept). split; [done|]. split; [by apply sublist_skip|].
    constructor; [|done]. by apply safe_cgroup_path_below in Hp as [? _].
Qed.

(** The cgroups listed for a UID are those of targets with this UID, each below
    the root. *)
Theorem cgroups_for_uid_spec c uid h records c' h' : cgroups_for_uid c uid h = (Ok (records, c'), h') ->
  (valid_uid uid = false /\ records = [] /\ c' = c) \/
  exists targets i h1 (kept : list (CgroupTarget * list string)),
    inventory_targets (co_inventory c) h = (Ok (targets, i), h1) /\ c' = with_inventory c i /\
    (fst <$> kept) `sublist_of` List.filter (fun t => String.eqb uid (ct_uid t)) targets /\
    Forall (fun k => snd k <> []) kept /\ records = (fun k => cgroup_record (fst k) (snd k)) <$> kept.
Proof.
  unfold cgroups_for_uid. destruct (valid_uid uid); cbn [negb].
  - intros Hr. right. apply bindM_Ok in Hr as ([targets i] & h1 & Hi & Hr). cbv beta iota in Hr.
    apply bindM_Ok in Hr as (rs & h2 & Hs & Hr). apply retM_Ok in Hr as [E _]. injection E as -> ->.
    rewrite targets_for_uid_filter in Hs. destruct (cgroup_records_spec _ _ _ _ _ Hs) as (kept & -> & ? & ?).
    exists targets, i, h1, kept. done.
  - intros [E _]%retM_Ok. injection E as -> ->. by left.
Qed.
End Listing.
