(* ===== verification/Bracket.v ===== *)
(** [phase8/campaign/bracket.py]: the bracketed search for the CPU limit at
    which a workload stops meeting its service-level objective. *)

From Stdlib Require Import ZArith Bool String Lia Sorted SpecFloat.
From stdpp Require Import base list strings option.
From S2P Require Import Prelude PyStr PyFloat.

Open Scope string_scope.
Open Scope Z_scope.

Inductive Outcome : Type := MEETS_SLO | BREACHES_SLO | INVALID.
#[export] Instance Outcome_eq_dec : EqDecision Outcome.
Proof. solve_decision. Defined.

Definition outcome_value (o : Outcome) : string :=
  match o with
  | MEETS_SLO => "meets-slo"
  | BREACHES_SLO => "breaches-slo"
  | INVALID => "invalid"
  end.

Inductive StopReason : Type := STOP_MEETS_SLO | CAPACITY_REACHED | INVALID_ONLY.
#[export] Instance StopReason_eq_dec : EqDecision StopReason.
Proof. solve_decision. Defined.

Definition stop_value (s : StopReason) : string :=
  match s with
  | STOP_MEETS_SLO => "meets-slo"
  | CAPACITY_REACHED => "capacity-reached"
  | INVALID_ONLY => "invalid-only"
  end.

(** ** [plan_limits] *)

(** The rounding of one step: to 10m from 100m on, to 1m below. *)
Definition round_limit (current : float) : result Z :=
  if fgeb_Z current 100 then
    let* q := int_of_float (fadd (fdiv_ieee current (flit 10 1)) (flit 5 10)) in
    Ok (q * 10)
  else int_of_float (fadd current (flit 5 10)).

(** The [while len(limits) < max_cells] loop; [fuel] is the number of cells
    that still fit, so running out of it is the loop condition failing. *)
Fixpoint plan_loop (fuel : nat) (min_limit max_limit : Z) (growth : float)
    (limits : list Z) (current : float) : result (list Z) :=
  match fuel with
  | O => Ok limits
  | S fuel' =>
      let* raw := round_limit current in
      let limit := Z.min (Z.max raw min_limit) max_limit in
      let stalled := match list.last limits with Some prev => limit <=? prev | None => false end in
      if stalled then Ok limits
      else
        let limits := (limits ++ [limit])%list in
        if max_limit <=? limit then Ok limits
        else plan_loop fuel' min_limit max_limit growth limits (fmul current growth)
  end.

Definition plan_limits (min_limit_millicores max_limit_millicores : Z) (growth : float)
    (max_cells : Z) : result (list Z) :=
  raise_if (min_limit_millicores <? 1) ValueError "min_limit_millicores must be at least 1" ;;;
  raise_if (max_limit_millicores <? min_limit_millicores) ValueError
    "max_limit_millicores must be at least min_limit_millicores" ;;;
  raise_if (fleb growth (flit 1 1)) ValueError
    "growth must be greater than 1 or the plan never grows" ;;;
  raise_if (max_cells <? 1) ValueError "max_cells must be at least 1" ;;;
  let* current := float_of_Z min_limit_millicores in
  plan_loop (Z.to_nat max_cells) min_limit_millicores max_limit_millicores growth [] current.

(** ** Trials and the bracket *)

Record Trial : Type := {
  limit_millicores : Z;
  outcome : Outcome;
  reason : string
}.

Record Bracket : Type := {
  passing_millicores : Z;
  failing_below_millicores : option Z;
  trials : list Trial;
  stop : StopReason;
  node_capacity_millicores : Z
}.

Definition is_outcome (o : Outcome) (t : Trial) : bool := bool_decide (outcome t = o).

(** The loop that keeps the last breaching limit below the passing one and
    leaves at the first trial that is not below it. *)
Fixpoint failing_below_loop (passing : Z) (acc : option Z) (ts : list Trial) : option Z :=
  match ts with
  | [] => acc
  | t :: ts' =>
      if passing <=? limit_millicores t then acc
      else failing_below_loop passing
             (if is_outcome BREACHES_SLO t then Some (limit_millicores t) else acc) ts'
  end.

Definition evaluate_trials (ts : list Trial) (node_capacity : Z) : result Bracket :=
  raise_if (match ts with [] => true | _ => false end) PilotError "no trials were recorded" ;;;
  iterM (fun '(earlier, later) =>
           raise_if (limit_millicores later <=? limit_millicores earlier) PilotError
             ("trial limits must strictly increase: " +:+ str_of_Z (limit_millicores earlier)
              +:+ "m then " +:+ str_of_Z (limit_millicores later) +:+ "m"))
        (adjacent ts) ;;;
  iterM (fun trial =>
           raise_if (node_capacity <? limit_millicores trial) PilotError
             ("trial limit " +:+ str_of_Z (limit_millicores trial) +:+ "m exceeds node capacity "
              +:+ str_of_Z node_capacity +:+ "m; the result would describe an unschedulable limit"))
        ts ;;;
  match List.find (is_outcome MEETS_SLO) ts with
  | None =>
      let invalid := List.filter (is_outcome INVALID) ts in
      if negb (bool_decide (invalid = [])) && (length invalid =? length ts)%nat then
        Raise (Exn PilotError
          "every trial was invalid; the measurement chain never produced usable data")
      else
        Raise (Exn PilotError
          ("unsatisfiable: no admissible limit met the SLO, highest tried was "
           +:+ match list.last ts with Some t => str_of_Z (limit_millicores t) | None => "" end
           +:+ "m against node capacity " +:+ str_of_Z node_capacity +:+ "m"))
  | Some passing =>
      Ok {| passing_millicores := limit_millicores passing;
            failing_below_millicores := failing_below_loop (limit_millicores passing) None ts;
            trials := ts;
            stop := if node_capacity <=? limit_millicores passing
                    then CAPACITY_REACHED else STOP_MEETS_SLO;
            node_capacity_millicores := node_capacity |}
  end.

(** ** Specification *)

(** What a bracket promises about the trials it was derived from. *)
Record is_bracket (ts : list Trial) (cap : Z) (b : Bracket) : Prop := {
  bracket_passing :
    exists t, t ∈ ts /\ outcome t = MEETS_SLO /\ limit_millicores t = passing_millicores b;
  bracket_smallest :
    forall t, t ∈ ts -> outcome t = MEETS_SLO -> passing_millicores b <= limit_millicores t;
  bracket_capacity : passing_millicores b <= cap;
  bracket_failing :
    match failing_below_millicores b with
    | Some f =>
        (exists t, t ∈ ts /\ outcome t = BREACHES_SLO /\ limit_millicores t = f) /\
        f < passing_millicores b /\
        forall t, t ∈ ts -> outcome t = BREACHES_SLO ->
          limit_millicores t < passing_millicores b -> limit_millicores t <= f
    | None =>
        forall t, t ∈ ts -> outcome t = BREACHES_SLO ->
          passing_millicores b <= limit_millicores t
    end;
  bracket_stop : stop b = CAPACITY_REACHED <-> passing_millicores b = cap
}.

Definition ascending (ts : list Trial) : Prop := StronglySorted Z.lt (limit_millicores <$> ts).

(** ** Lemmas *)

Lemma plan_loop_sound fuel lo hi growth limits current ls :
  lo <= hi ->
  StronglySorted Z.lt limits -> Forall (fun l => lo <= l <= hi) limits ->
  plan_loop fuel lo hi growth limits current = Ok ls ->
  StronglySorted Z.lt ls /\ Forall (fun l => lo <= l <= hi) ls /\
  (length limits <= length ls <= length limits + fuel)%nat /\
  (limits = [] -> (0 < fuel)%nat -> ls <> []).
Proof.
  intros Hlohi. revert limits current. induction fuel as [|fuel IH]; intros limits current Hs Hf H.
  { simpl in H. inv_ok. repeat split; [done|done|lia|lia|]. intros; lia. }
  cbn [plan_loop] in H. inv_ok. cbv zeta in H.
  set (limit := Z.min (Z.max x lo) hi) in *.
  destruct (match list.last limits with Some prev => limit <=? prev | None => false end) eqn:E.
  { inv_ok. repeat split; [done|done|lia|lia|]. intros -> _. done. }
  assert (StronglySorted Z.lt (limits ++ [limit])) as Hs' by by apply sorted_lt_snoc.
  assert (Forall (fun l => lo <= l <= hi) (limits ++ [limit])) as Hf'.
  { apply Forall_app. split; [done|]. repeat constructor; subst limit; lia. }
  destruct (hi <=? limit).
  - inv_ok. rewrite length_app. simpl. repeat split; [done|done|lia|lia|].
    intros _ _. by destruct limits.
  - destruct (IH _ _ Hs' Hf' H) as (H1 & H2 & H3 & _). rewrite length_app in H3. simpl in H3.
    repeat split; [done|done|lia|lia|]. intros _ _ ->. simpl in H3. lia.
Qed.

Lemma ascending_adjacent ts :
  Forall (fun p => limit_millicores (fst p) < limit_millicores (snd p)) (adjacent ts) <->
  ascending ts.
Proof.
  rewrite (adjacent_Forall_Sorted (fun a b => limit_millicores a < limit_millicores b)).
  unfold ascending. split.
  - intros H. apply Sorted_StronglySorted; [intros ???; lia|].
    induction H as [|t ts Hs IH Hd]; simpl; constructor; [done|].
    destruct Hd; simpl; by constructor.
  - intros H. apply StronglySorted_Sorted in H.
    induction ts as [|t ts IH]; [constructor|]. simpl in H. inversion H as [|? ? Hs Hd]; subst.
    constructor; [by apply IH|]. destruct ts; [constructor|]. inversion Hd; subst. by constructor.
Qed.

Lemma find_first (f : Trial -> bool) ts t :
  List.find f ts = Some t <->
  exists pre post, ts = (pre ++ t :: post)%list /\ f t = true /\ Forall (fun u => f u = false) pre.
Proof.
  induction ts as [|u ts IH]; simpl.
  - split; [done|]. by intros ([] & post & ? & _).
  - destruct (f u) eqn:E.
    + split.
      * intros [= ->]. exists [], ts. by repeat constructor.
      * intros ([|v pre] & post & Heq & Ht & Hp); simpl in Heq; injection Heq as -> ->; [done|].
        inversion Hp; subst. congruence.
    + rewrite IH. split.
      * intros (pre & post & -> & Ht & Hp). exists (u :: pre), post. by repeat constructor.
      * intros ([|v pre] & post & Heq & Ht & Hp); simpl in Heq; injection Heq as -> ->; [congruence|].
        inversion Hp; subst. eauto.
Qed.

(** The loop's result on an ascending list: the largest breach below. *)
Lemma failing_below_spec passing acc ts :
  ascending ts ->
  (forall a, acc = Some a -> Forall (fun t => a < limit_millicores t) ts) ->
  match failing_below_loop passing acc ts with
  | Some f =>
      (acc = Some f \/
       exists t, t ∈ ts /\ outcome t = BREACHES_SLO /\ limit_millicores t = f /\ f < passing) /\
      forall t, t ∈ ts -> outcome t = BREACHES_SLO -> limit_millicores t < passing ->
        limit_millicores t <= f
  | None =>
      acc = None /\
      forall t, t ∈ ts -> outcome t = BREACHES_SLO -> passing <= limit_millicores t
  end.
Proof.
  revert acc. induction ts as [|t ts IH]; intros acc Hasc Hacc; simpl.
  { destruct acc; (split; [by auto|]); intros t Ht; by apply elem_of_nil in Ht. }
  unfold ascending in Hasc. simpl in Hasc. inversion Hasc as [|? ? Hs Hf]; subst.
  rewrite Forall_fmap in Hf. rewrite list.Forall_forall in Hf. simpl in Hf.
  destruct (passing <=? limit_millicores t) eqn:E; bool_hyps.
  { assert (forall u, u ∈ t :: ts -> passing <= limit_millicores u) as Hall.
    { intros u [->|Hu]%elem_of_cons; [done|]. specialize (Hf u Hu). simpl in Hf. lia. }
    destruct acc as [a|]; (split; [by auto|]); intros u Hu Ho; specialize (Hall u Hu); lia. }
  set (acc' := if is_outcome BREACHES_SLO t then Some (limit_millicores t) else acc).
  assert (forall a, acc' = Some a -> Forall (fun u => a < limit_millicores u) ts) as Hacc'.
  { intros a Ha. unfold acc' in Ha. destruct (is_outcome BREACHES_SLO t).
    - injection Ha as <-. rewrite list.Forall_forall. exact Hf.
    - specialize (Hacc a Ha). by inversion Hacc. }
  specialize (IH acc' Hs Hacc').
  destruct (failing_below_loop passing acc' ts) as [f|] eqn:Ef.
  - destruct IH as [Hex Hmax]. unfold acc', is_outcome in *. split.
    + destruct Hex as [Hacc1|(u & Hu & ? & ? & ?)]; [|right; exists u; by rewrite elem_of_cons; auto].
      case_bool_decide as Ho; [|by left]. injection Hacc1 as <-.
      right. exists t. rewrite elem_of_cons. auto.
    + intros u [->|Hu]%elem_of_cons Ho Hlt; [|by apply Hmax].
      rewrite bool_decide_eq_true_2 in * by done.
      destruct Hex as [[= <-]|(v & Hv & ? & <- & ?)]; [lia|]. specialize (Hf v Hv). simpl in Hf. lia.
  - destruct IH as [Hn Hall]. unfold acc', is_outcome in Hn. case_bool_decide as Ho; [done|].
    split; [done|]. intros u [->|Hu]%elem_of_cons Hu'; [done|by apply Hall].
Qed.

(** What the two validation loops of [evaluate_trials] establish. *)
Lemma evaluate_guards ts cap :
  iterM (fun '(earlier, later) =>
           raise_if (limit_millicores later <=? limit_millicores earlier) PilotError
             ("trial limits must strictly increase: " +:+ str_of_Z (limit_millicores earlier)
              +:+ "m then " +:+ str_of_Z (limit_millicores later) +:+ "m")) (adjacent ts) = Ok tt /\
  iterM (fun trial =>
           raise_if (cap <? limit_millicores trial) PilotError
             ("trial limit " +:+ str_of_Z (limit_millicores trial) +:+ "m exceeds node capacity "
              +:+ str_of_Z cap +:+ "m; the result would describe an unschedulable limit")) ts = Ok tt <->
  ascending ts /\ Forall (fun t => limit_millicores t <= cap) ts.
Proof.
  rewrite !iterM_Ok, <- ascending_adjacent. f_equiv; apply Forall_proper; try done.
  - intros [a b]. rewrite raise_if_Ok, Z.leb_gt. done.
  - intros t. rewrite raise_if_Ok, Z.ltb_ge. done.
Qed.

Lemma meets_find ts :
  (exists t, t ∈ ts /\ outcome t = MEETS_SLO) <-> List.find (is_outcome MEETS_SLO) ts <> None.
Proof.
  split.
  - intros (t & Ht & Ho) Hn. apply list_elem_of_In in Ht.
    pose proof (List.find_none _ _ Hn t Ht) as H. unfold is_outcome in H.
    by rewrite bool_decide_eq_true_2 in H.
  - destruct (List.find _ ts) as [t|] eqn:E; [|done]. intros _.
    apply List.find_some in E as [Hin Ho]. exists t. split; [by apply list_elem_of_In|].
    by apply bool_decide_eq_true_1 in Ho.
Qed.

Lemma evaluate_trials_Ok_iff ts cap :
  is_ok (evaluate_trials ts cap) = true <->
  ascending ts /\ Forall (fun t => limit_millicores t <= cap) ts /\
  exists t, t ∈ ts /\ outcome t = MEETS_SLO.
Proof.
  rewrite meets_find, (assoc and), <- evaluate_guards. unfold evaluate_trials.
  destruct ts as [|t0 ts0]; [simpl; naive_solver|].
  set (ts := t0 :: ts0). cbn [raise_if rbind].
  destruct (iterM _ (adjacent ts)) as [[]|e]; cbn [rbind]; [|naive_solver].
  destruct (iterM _ ts) as [[]|e]; cbn [rbind]; [|naive_solver].
  destruct (List.find _ ts); [naive_solver|]. destruct (_ && _); naive_solver.
Qed.

Lemma plan_limits_props lo hi growth max_cells ls :
  plan_limits lo hi growth max_cells = Ok ls ->
  ls <> [] /\ Z.of_nat (length ls) <= max_cells /\ StronglySorted Z.lt ls /\
  Forall (fun l => lo <= l <= hi) ls.
Proof.
  unfold plan_limits. intros H. inv_ok. bool_hyps.
  destruct (plan_loop_sound _ _ _ _ _ _ _ Hx0 (SSorted_nil _) (List.Forall_nil _) H)
    as (Hs & Hf & Hlen & Hne).
  simpl in Hlen. repeat split; [apply Hne; [done|lia]|lia|done|done].
Qed.

Lemma evaluate_trials_bracket ts cap b :
  evaluate_trials ts cap = Ok b ->
  is_bracket ts cap b /\ trials b = ts /\ node_capacity_millicores b = cap /\ ascending ts.
Proof.
  intros H.
  assert (is_ok (evaluate_trials ts cap) = true) as Hok by by rewrite H.
  apply evaluate_trials_Ok_iff in Hok as (Hasc & Hcap & _).
  unfold evaluate_trials in H. inv_ok. destruct (List.find _ ts) as [t|] eqn:E.
  2: { destruct (_ && _) in H; done. }
  inv_ok. simpl. repeat split; try done; simpl.
  - apply List.find_some in E as [Hin Ho]. exists t.
    by rewrite list_elem_of_In, <- (bool_decide_eq_true (outcome t = MEETS_SLO)).
  - intros u Hu Ho. apply find_first in E as (pre & post & -> & Ht & Hpre).
    apply elem_of_app in Hu as [Hu|[->|Hu]%elem_of_cons]; [|lia|].
    + rewrite list.Forall_forall in Hpre. specialize (Hpre u Hu). unfold is_outcome in Hpre.
      by rewrite bool_decide_eq_true_2 in Hpre.
    + unfold ascending in Hasc. rewrite fmap_app, fmap_cons in Hasc. clear -Hasc Hu.
      induction (limit_millicores <$> pre) as [|z zs IH]; simpl in Hasc;
        inversion Hasc as [|? ? Hs Hf]; subst; [|by apply IH].
      rewrite Forall_fmap, list.Forall_forall in Hf. specialize (Hf u Hu). simpl in Hf. lia.
  - rewrite list.Forall_forall in Hcap. apply Hcap.
    apply List.find_some in E as [Hin _]. by apply list_elem_of_In.
  - pose proof (failing_below_spec (limit_millicores t) None ts Hasc ltac:(done)) as Hspec.
    destruct (failing_below_loop _ None ts) as [f|]; [|apply Hspec].
    destruct Hspec as [[?|(u & ? & ? & ? & ?)] Hmax]; [done|].
    split; [by exists u|]. split; [lia|]. intros v Hv. by apply Hmax.
  - destruct (cap <=? limit_millicores t) eqn:Ec; [|done]. bool_hyps. intros _.
    rewrite list.Forall_forall in Hcap. apply List.find_some in E as [Hin _].
    apply list_elem_of_In in Hin. specialize (Hcap t Hin). simpl in Hcap. lia.
  - intros <-. by rewrite Z.leb_refl.
Qed.

(** ** Theorems *)

(** C23: whatever growth factor it is given, a plan that [plan_limits] returns
    is non-empty, has at most [max_cells] entries, is strictly ascending, and
    every entry lies between the minimum limit and the node cap. *)
Theorem plan_limits_sound lo hi growth max_cells ls :
  plan_limits lo hi growth max_cells = Ok ls ->
  ls <> [] /\ Z.of_nat (length ls) <= max_cells /\ StronglySorted Z.lt ls /\
  Forall (fun l => lo <= l <= hi) ls.
Proof. apply plan_limits_props. Qed.

Lemma plan_limits_sound_witness :
  plan_limits 50 250 (flit 2 1) 3 = Ok [50; 100; 200] /\
  StronglySorted Z.lt [50; 100; 200] /\ Forall (fun l => 50 <= l <= 250) [50; 100; 200].
Proof.
  split; [vm_compute; reflexivity|].
  apply (plan_limits_sound 50 250 (flit 2 1) 3 [50; 100; 200]). vm_compute. reflexivity.
Defined.

(** A finite growth factor above 1 can still end the plan with an
    [OverflowError]: the current value is multiplied past the largest float
    before the loop tests it against the cap. *)
Theorem plan_limits_overflow :
  isfinite (flit (10 ^ 308) 1) = true /\
  fltb (flit 1 1) (flit (10 ^ 308) 1) = true /\
  plan_limits 50 250 (flit (10 ^ 308) 1) 2 =
    Raise (Exn OverflowError "cannot convert float infinity to integer").
Proof. split; [|split]; vm_compute; reflexivity. Qed.

(** C24: the bracket that [evaluate_trials] returns has as passing limit the
    smallest one that met the SLO, within the node capacity, and as failing
    bound the largest breaching limit below it (or none when there is none);
    the stop reason says whether the passing limit is the capacity. *)
Theorem evaluate_trials_sound ts cap b :
  evaluate_trials ts cap = Ok b ->
  is_bracket ts cap b /\ trials b = ts /\ node_capacity_millicores b = cap /\ ascending ts.
Proof. apply evaluate_trials_bracket. Qed.

Definition sample_trials : list Trial :=
  [ {| limit_millicores := 50; outcome := BREACHES_SLO; reason := "" |};
    {| limit_millicores := 100; outcome := INVALID; reason := "" |};
    {| limit_millicores := 200; outcome := MEETS_SLO; reason := "" |} ].

Lemma evaluate_trials_sound_witness :
  exists b, evaluate_trials sample_trials 1000 = Ok b /\ is_bracket sample_trials 1000 b /\
    passing_millicores b = 200 /\ failing_below_millicores b = Some 50.
Proof.
  eexists. split; [vm_compute; reflexivity|]. split; [|by split].
  apply (evaluate_trials_sound sample_trials 1000). vm_compute. reflexivity.
Defined.

(** [evaluate_trials] returns a bracket exactly when the trials are
    strictly ascending, none exceeds the node capacity and one met the SLO;
    in every other case it raises [PilotError] and nothing else. *)
Theorem evaluate_trials_total ts cap :
  match evaluate_trials ts cap with
  | Ok _ => ascending ts /\ Forall (fun t => limit_millicores t <= cap) ts /\
            exists t, t ∈ ts /\ outcome t = MEETS_SLO
  | Raise e => exn_cls e = PilotError /\
               ~ (ascending ts /\ Forall (fun t => limit_millicores t <= cap) ts /\
                  exists t, t ∈ ts /\ outcome t = MEETS_SLO)
  end.
Proof.
  destruct (evaluate_trials ts cap) as [b|e] eqn:E.
  - apply evaluate_trials_Ok_iff. by rewrite E.
  - split; [|by rewrite <- evaluate_trials_Ok_iff, E].
    unfold evaluate_trials in E.
    destruct (raise_if _ _ _) eqn:E1 in E; simpl in E; [|injection E as <-; by eapply raise_if_error].
    destruct (iterM _ (adjacent ts)) eqn:E2 in E; simpl in E.
    2: { injection E as <-. eapply (iterM_error (fun e => exn_cls e = PilotError)); [|exact E2].
         intros [? ?] e'. apply raise_if_error. }
    destruct (iterM _ ts) eqn:E3 in E; simpl in E.
    2: { injection E as <-. eapply (iterM_error (fun e => exn_cls e = PilotError)); [|exact E3].
         intros ? e'. apply raise_if_error. }
    destruct (List.find _ ts); [done|]. destruct (_ && _); by injection E as <-.
Qed.
