(* ===== verification/Slo.v ===== *)
(** [phase8/campaign/slo.py]: the verdict on one measured cell. *)

From Stdlib Require Import ZArith Bool Ascii String Lia SpecFloat.
From stdpp Require Import base list strings option.
From S2P Require Import Prelude PyStr PyFloat Bracket.

Open Scope string_scope.
Open Scope Z_scope.

Definition DEFAULT_INVALID_ERROR_SHARE : float := flit 5 10.

Record Slo : Type := {
  max_p99_latency_ms : float;
  min_throughput_rps : float;
  max_error_ratio : float;
  min_availability_ratio : float
}.

(** [0 <= r <= 1] *)
Definition in_unit (r : float) : bool := fgeb_Z r 0 && fleb_Z r 1.

(** The constructor with its [__post_init__] checks. *)
Definition make_slo (p99 rps err avail : float) : result Slo :=
  raise_if (fleb_Z p99 0) ValueError "max_p99_latency_ms must be positive" ;;;
  raise_if (fltb_Z rps 0) ValueError "min_throughput_rps must not be negative" ;;;
  raise_if (negb (in_unit err)) ValueError "max_error_ratio must be within 0..=1" ;;;
  raise_if (negb (in_unit avail)) ValueError "min_availability_ratio must be within 0..=1" ;;;
  Ok {| max_p99_latency_ms := p99; min_throughput_rps := rps;
        max_error_ratio := err; min_availability_ratio := avail |}.

Record Observation : Type := {
  p50_latency_ms : option float;
  p99_latency_ms : option float;
  throughput_rps : option float;
  error_ratio : option float;
  availability_ratio : option float;
  cpu_usage_millicores : option float;
  throttled_ms_per_second : option float;
  completed_requests : Z;
  loadgen_valid : bool;
  loadgen_invalid_reason : string;
  target_reached : option bool
}.

Definition is_none {A} (o : option A) : bool := match o with None => true | Some _ => false end.

(** [getattr(self, name) is None] *)
Definition attr_is_none (o : Observation) (name : string) : result bool :=
  if String.eqb name "p50_latency_ms" then Ok (is_none (p50_latency_ms o))
  else if String.eqb name "p99_latency_ms" then Ok (is_none (p99_latency_ms o))
  else if String.eqb name "throughput_rps" then Ok (is_none (throughput_rps o))
  else if String.eqb name "error_ratio" then Ok (is_none (error_ratio o))
  else if String.eqb name "availability_ratio" then Ok (is_none (availability_ratio o))
  else if String.eqb name "cpu_usage_millicores" then Ok (is_none (cpu_usage_millicores o))
  else if String.eqb name "throttled_ms_per_second" then Ok (is_none (throttled_ms_per_second o))
  else if String.eqb name "completed_requests" then Ok false
  else if String.eqb name "loadgen_valid" then Ok false
  else if String.eqb name "loadgen_invalid_reason" then Ok false
  else if String.eqb name "target_reached" then Ok (is_none (target_reached o))
  else Raise (Exn AttributeError name).

Fixpoint missing_fields (o : Observation) (required : list string) : result (list string) :=
  match required with
  | [] => Ok []
  | name :: rest =>
      let* absent := attr_is_none o name in
      let* ms := missing_fields o rest in
      Ok (if absent then name :: ms else ms)
  end.

(** The longest run of digits at the start, and the rest. *)
Fixpoint span_digits (s : string) : string * string :=
  match s with
  | String c s' =>
      if is_digit c then let '(d, r) := span_digits s' in (String c d, r) else ("", s)
  | EmptyString => ("", "")
  end.

(** [FAILED_REQUESTS_PATTERN.search]: the two groups, as integers. *)
Definition match_failed_requests (s : string) : option (Z * Z) :=
  let '(d1, r1) := span_digits s in
  if negb (is_empty d1) && startswith " of " r1 then
    let '(d2, r2) := span_digits (str_drop 4 r1) in
    if negb (is_empty d2) && startswith " requests failed" r2 then
      match py_int d1, py_int d2 with
      | Some a, Some b => Some (a, b)
      | _, _ => None
      end
    else None
  else None.

Definition failed_request_share (reason : string) : result (option float) :=
  match match_failed_requests reason with
  | None => Ok None
  | Some (a, b) => let* q := truediv a b in Ok (Some q)
  end.

Definition service_breach_share (o : Observation) : result (option float) :=
  if loadgen_valid o || negb (bool_decide (target_reached o = Some true)) then Ok None
  else failed_request_share (loadgen_invalid_reason o).

Definition default_required_fields : list string :=
  ["p50_latency_ms"; "p99_latency_ms"; "throughput_rps"; "error_ratio";
   "availability_ratio"; "cpu_usage_millicores"; "throttled_ms_per_second"].

Definition assert_some (o : option float) : result float :=
  match o with Some x => Ok x | None => Raise (Exn AssertionError "") end.

(** The first of the named values that is not finite. *)
Definition first_not_finite (l : list (string * float)) : option (string * float) :=
  List.find (fun p => negb (isfinite (snd p))) l.

Definition breach_list (p99 rps err avail : float) (slo : Slo) : list string :=
  ((if fltb (max_p99_latency_ms slo) p99
    then ["p99 " +:+ format_f 1 p99 +:+ " ms > " +:+ format_f 1 (max_p99_latency_ms slo) +:+ " ms"]
    else []) ++
   (if fltb rps (min_throughput_rps slo)
    then ["throughput " +:+ format_f 1 rps +:+ " rps < " +:+ format_f 1 (min_throughput_rps slo) +:+ " rps"]
    else []) ++
   (if fltb (max_error_ratio slo) err
    then ["error ratio " +:+ format_f 4 err +:+ " > " +:+ format_f 4 (max_error_ratio slo)]
    else []) ++
   (if fltb avail (min_availability_ratio slo)
    then ["availability " +:+ format_f 4 avail +:+ " < " +:+ format_f 4 (min_availability_ratio slo)]
    else []))%list.

Definition verdict_with (o : Observation) (slo : Slo) (required_fields : list string)
    (invalid_error_share : float) : result (Outcome * string) :=
  raise_if (negb (in_unit invalid_error_share)) ValueError
    "invalid_error_share must be within 0..=1" ;;;
  if negb (loadgen_valid o) then
    let reason := if is_empty (loadgen_invalid_reason o)
                  then "load generator reported the run invalid"
                  else loadgen_invalid_reason o in
    if completed_requests o <? 1 then Ok (INVALID, "load generator invalid: " +:+ reason)
    else
      let* share := service_breach_share o in
      match share with
      | Some q =>
          if fleb invalid_error_share q then
            Ok (BREACHES_SLO,
                "service failed " +:+ format_pct 1 q +:+ " of offered requests, at or above the "
                +:+ format_pct 0 invalid_error_share +:+ " breach threshold: " +:+ reason)
          else Ok (INVALID, "load generator invalid: " +:+ reason)
      | None => Ok (INVALID, "load generator invalid: " +:+ reason)
      end
  else if completed_requests o <? 1 then
    Ok (INVALID, "no requests completed in the measured window")
  else
    let* missing := missing_fields o required_fields in
    match missing with
    | _ :: _ => Ok (INVALID, "missing measurement(s): " +:+ join ", " missing)
    | [] =>
        let* p99 := assert_some (p99_latency_ms o) in
        let* rps := assert_some (throughput_rps o) in
        let* err := assert_some (error_ratio o) in
        let* avail := assert_some (availability_ratio o) in
        match first_not_finite [("p99_latency_ms", p99); ("throughput_rps", rps);
                                ("error_ratio", err); ("availability_ratio", avail)] with
        | Some (name, value) =>
            Ok (INVALID, name +:+ " is not finite (" +:+ repr_float value +:+ ")")
        | None =>
            match breach_list p99 rps err avail slo with
            | [] => Ok (MEETS_SLO, "all objectives met")
            | breaches => Ok (BREACHES_SLO, join "; " breaches)
            end
        end
    end.

Definition verdict (o : Observation) (slo : Slo) : result (Outcome * string) :=
  verdict_with o slo default_required_fields DEFAULT_INVALID_ERROR_SHARE.

(** ** Specification *)

(** Every measurement that is required was taken, and the four that have an
    objective are finite numbers. *)
Record measured (o : Observation) (p99 rps err avail : float) : Prop := {
  measured_p50 : is_Some (p50_latency_ms o);
  measured_p99 : p99_latency_ms o = Some p99;
  measured_rps : throughput_rps o = Some rps;
  measured_err : error_ratio o = Some err;
  measured_avail : availability_ratio o = Some avail;
  measured_cpu : is_Some (cpu_usage_millicores o);
  measured_throttled : is_Some (throttled_ms_per_second o);
  measured_finite : isfinite p99 && isfinite rps && isfinite err && isfinite avail = true
}.

Definition objectives_met (p99 rps err avail : float) (slo : Slo) : Prop :=
  fleb p99 (max_p99_latency_ms slo) = true /\ fleb (min_throughput_rps slo) rps = true /\
  fleb err (max_error_ratio slo) = true /\ fleb (min_availability_ratio slo) avail = true.

(** ** Lemmas *)

Lemma missing_fields_nil o l ms :
  missing_fields o l = Ok ms -> ms = [] <-> Forall (fun n => attr_is_none o n = Ok false) l.
Proof.
  revert ms. induction l as [|n l IH]; intros ms H; simpl in H; inv_ok.
  - split; [constructor|done].
  - rewrite Forall_cons_iff, Hx, <- (IH _ Hx0). destruct x; split; try done.
    + by intros [[=] _].
    + by intros [_ ->].
Qed.

Lemma is_none_false {A} (o : option A) : Ok (is_none o) = Ok false <-> is_Some o.
Proof. by destruct o. Qed.

Lemma missing_default o :
  exists ms, missing_fields o default_required_fields = Ok ms /\
  (ms = [] <-> is_Some (p50_latency_ms o) /\ is_Some (p99_latency_ms o) /\
    is_Some (throughput_rps o) /\ is_Some (error_ratio o) /\ is_Some (availability_ratio o) /\
    is_Some (cpu_usage_millicores o) /\ is_Some (throttled_ms_per_second o)).
Proof.
  assert (exists ms, missing_fields o default_required_fields = Ok ms) as [ms Hms]
    by (eexists; reflexivity).
  exists ms. split; [done|]. rewrite (missing_fields_nil o default_required_fields) by done.
  unfold default_required_fields. rewrite !Forall_cons_iff, <- !is_none_false.
  split; [by intros (? & ? & ? & ? & ? & ? & ? & _)|].
  intros (? & ? & ? & ? & ? & ? & ?). by repeat (split; [done|]).
Qed.

Lemma in_unit_not_nan x : in_unit x = true -> is_nan x = false.
Proof. by destruct x. Qed.

Lemma breach_list_nil p99 rps err avail slo :
  breach_list p99 rps err avail slo = [] <->
  fltb (max_p99_latency_ms slo) p99 = false /\ fltb rps (min_throughput_rps slo) = false /\
  fltb (max_error_ratio slo) err = false /\ fltb avail (min_availability_ratio slo) = false.
Proof.
  unfold breach_list. repeat rewrite app_nil.
  repeat match goal with |- context [if ?b then _ else _] => destruct b end; by split; intros; destruct_and?.
Qed.

Lemma first_not_finite_None a b c d na nb nc nd :
  first_not_finite [(na, a); (nb, b); (nc, c); (nd, d)] = None <->
  isfinite a && isfinite b && isfinite c && isfinite d = true.
Proof.
  unfold first_not_finite. cbn [List.find snd].
  destruct (isfinite a), (isfinite b), (isfinite c), (isfinite d); simpl; by split.
Qed.

(** The verdict on a cell whose generator kept control, as one case split. *)
Lemma verdict_valid o slo :
  loadgen_valid o = true -> 1 <= completed_requests o ->
  (exists out msg, verdict o slo = Ok (out, msg) /\
    (out = MEETS_SLO <-> exists p99 rps err avail,
      measured o p99 rps err avail /\ breach_list p99 rps err avail slo = [])).
Proof.
  intros Hv Hc. unfold verdict, verdict_with.
  rewrite raise_if_false by (vm_compute; reflexivity). cbn [rbind].
  rewrite Hv. cbn [negb]. destruct (_ <? 1) eqn:E; bool_hyps; [lia|]. clear E.
  destruct (missing_default o) as (ms & -> & Hms). cbn [rbind].
  destruct ms as [|m ms].
  2: { do 2 eexists. split; [done|]. split; [done|]. intros (? & ? & ? & ? & [] & _).
       assert (m :: ms = []) by (apply Hms; repeat split; eauto). done. }
  destruct Hms as [Hms _]. specialize (Hms eq_refl).
  destruct Hms as (H50 & [p99 H99] & [rps Hr] & [err He] & [avail Ha] & Hcpu & Hth).
  rewrite H99, Hr, He, Ha. cbn [assert_some rbind].
  destruct (first_not_finite _) as [[name v]|] eqn:Ef.
  { do 2 eexists. split; [done|]. split; [done|]. intros (? & ? & ? & ? & [] & _).
    simplify_eq. apply (first_not_finite_None _ _ _ _ "p99_latency_ms" "throughput_rps"
      "error_ratio" "availability_ratio") in measured_finite0. congruence. }
  apply first_not_finite_None in Ef.
  destruct (breach_list p99 rps err avail slo) as [|m bs] eqn:Eb; do 2 eexists; (split; [done|]).
  - split; [|done]. intros _. exists p99, rps, err, avail. split; [by constructor|done].
  - split; [done|]. intros (? & ? & ? & ? & [] & Hb). simplify_eq. congruence.
Qed.

Lemma verdict_meets_measured o slo msg :
  verdict o slo = Ok (MEETS_SLO, msg) ->
  loadgen_valid o = true /\ 1 <= completed_requests o /\
  exists p99 rps err avail,
    measured o p99 rps err avail /\ breach_list p99 rps err avail slo = [].
Proof.
  intros H.
  assert (loadgen_valid o = true /\ 1 <= completed_requests o) as [Hv Hc].
  { unfold verdict, verdict_with in H. inv_ok.
    destruct (loadgen_valid o) eqn:Ev; cbn [negb] in H.
    - destruct (_ <? 1) eqn:Ec; bool_hyps; [done|]. split; [done|lia].
    - destruct (_ <? 1); [done|]. inv_ok. destruct x0 as [q|]; [|done].
      by destruct (fleb _ q). }
  split; [done|]. split; [done|].
  destruct (verdict_valid o slo Hv Hc) as (out & msg' & Heq & Hiff).
  rewrite H in Heq. injection Heq as <- <-. by apply Hiff.
Qed.

Lemma make_slo_ok p99 rps err avail slo :
  make_slo p99 rps err avail = Ok slo ->
  in_unit (max_error_ratio slo) = true /\ in_unit (min_availability_ratio slo) = true.
Proof. unfold make_slo. intros H. inv_ok. bool_hyps. done. Qed.

(** ** Theorems *)

(** C28: Under an SLO that the constructor accepted and whose latency and throughput
    thresholds are not NaN (it accepts those, [slo_accepts_nan]), a cell is judged
    [MEETS_SLO] exactly when the load generator kept control, at least one request
    completed, the seven required measurements are present, the 99th percentile,
    the throughput, the error ratio and the availability are finite, and each of
    these four is within its objective. *)
Theorem verdict_meets_iff p99' rps' err' avail' slo o :
  make_slo p99' rps' err' avail' = Ok slo ->
  is_nan (max_p99_latency_ms slo) = false -> is_nan (min_throughput_rps slo) = false ->
  (exists msg, verdict o slo = Ok (MEETS_SLO, msg)) <->
  loadgen_valid o = true /\ 1 <= completed_requests o /\
  exists p99 rps err avail,
    measured o p99 rps err avail /\ objectives_met p99 rps err avail slo.
Proof.
  intros Hslo Hn1 Hn2. apply make_slo_ok in Hslo as [Hu1 Hu2].
  apply in_unit_not_nan in Hu1, Hu2.
  assert (forall p99 rps err avail, measured o p99 rps err avail ->
    breach_list p99 rps err avail slo = [] <-> objectives_met p99 rps err avail slo) as Hobj.
  { intros ? ? ? ? [??????? Hf]. bool_hyps.
    rewrite breach_list_nil. unfold objectives_met.
    rewrite !not_flt_fle by (try done; by apply isfinite_not_nan). done. }
  split.
  - intros [msg H].
    apply verdict_meets_measured in H as (Hv & Hc & p & r & e & a & Hm & Hb).
    split; [done|]. split; [done|].
    exists p, r, e, a. split; [done|]. by apply Hobj.
  - intros (Hv & Hc & p & r & e & a & Hm & Hob).
    destruct (verdict_valid o slo Hv Hc) as (out & msg' & -> & Hiff). exists msg'. do 2 f_equal.
    apply Hiff. exists p, r, e, a. split; [done|]. by apply Hobj.
Qed.

Definition sample_slo : Slo :=
  {| max_p99_latency_ms := flit 100 1; min_throughput_rps := flit 45 1;
     max_error_ratio := flit 1 100; min_availability_ratio := flit 99 100 |}.
Definition sample_obs : Observation :=
  {| p50_latency_ms := Some (flit 10 1); p99_latency_ms := Some (flit 80 1);
     throughput_rps := Some (flit 50 1); error_ratio := Some fzero;
     availability_ratio := Some (flit 1 1); cpu_usage_millicores := Some (flit 120 1);
     throttled_ms_per_second := Some fzero; completed_requests := 500;
     loadgen_valid := true; loadgen_invalid_reason := ""; target_reached := None |}.

Lemma verdict_meets_iff_witness : exists msg, verdict sample_obs sample_slo = Ok (MEETS_SLO, msg).
Proof.
  apply (verdict_meets_iff (flit 100 1) (flit 45 1) (flit 1 100) (flit 99 100));
    [vm_compute; reflexivity..|].
  split; [reflexivity|]. split; [simpl; lia|].
  exists (flit 80 1), (flit 50 1), fzero, (flit 1 1). split.
  - constructor; try (eexists; reflexivity); vm_compute; reflexivity.
  - repeat split; vm_compute; reflexivity.
Defined.

Lemma verdict_invalid_cases o slo out msg :
  loadgen_valid o = false -> verdict o slo = Ok (out, msg) ->
  (out = BREACHES_SLO <->
     1 <= completed_requests o /\ target_reached o = Some true /\
     exists q, failed_request_share (loadgen_invalid_reason o) = Ok (Some q) /\
               fleb DEFAULT_INVALID_ERROR_SHARE q = true) /\
  (out = BREACHES_SLO \/ out = INVALID).
Proof.
  intros Hv H. unfold verdict, verdict_with in H. inv_ok. clear Hx.
  rewrite Hv in H. cbn [negb] in H. destruct (_ <? 1) eqn:Ec; bool_hyps.
  { inv_ok. split; [|by right]. split; [done|]. intros (? & _). lia. }
  inv_ok. unfold service_breach_share in Hx. rewrite Hv in Hx. cbn [orb] in Hx.
  case_bool_decide as Ht; cbn [negb] in Hx.
  - destruct x0 as [q|].
    + destruct (fleb _ q) eqn:Eq; apply Ok_fst in H as <-; (split; [|auto]); split.
      * intros _. split; [lia|]. split; [assumption|]. eauto.
      * intros _. reflexivity.
      * discriminate.
      * intros (_ & _ & q' & Hq' & Hle). rewrite Hx in Hq'. simplify_eq. congruence.
    + inv_ok. split; [|auto]. split; [done|]. intros (_ & _ & q' & Hq' & _). rewrite Hx in Hq'. done.
  - inv_ok. split; [|auto]. split; [done|]. by intros (_ & ? & _).
Qed.

(** When the load generator declared its own run invalid the cell is never
    judged passing; it is a breach exactly when requests completed, the target
    had been reached and the reported share of failed requests is at or above
    the threshold, and it is invalid in every other case. *)
Theorem verdict_generator_invalid o slo out msg :
  loadgen_valid o = false -> verdict o slo = Ok (out, msg) ->
  (out = BREACHES_SLO <->
     1 <= completed_requests o /\ target_reached o = Some true /\
     exists q, failed_request_share (loadgen_invalid_reason o) = Ok (Some q) /\
               fleb DEFAULT_INVALID_ERROR_SHARE q = true) /\
  (out = BREACHES_SLO \/ out = INVALID).
Proof. apply verdict_invalid_cases. Qed.

Definition failing_obs : Observation :=
  {| p50_latency_ms := None; p99_latency_ms := None; throughput_rps := None;
     error_ratio := None; availability_ratio := None; cpu_usage_millicores := None;
     throttled_ms_per_second := None; completed_requests := 80; loadgen_valid := false;
     loadgen_invalid_reason := "60 of 80 requests failed; overload"; target_reached := Some true |}.

Lemma verdict_generator_invalid_witness :
  exists msg, verdict failing_obs sample_slo = Ok (BREACHES_SLO, msg) /\
              target_reached failing_obs = Some true.
Proof.
  eexists. split; [vm_compute; reflexivity|].
  refine (proj1 (proj2 (proj1 (proj1 (verdict_generator_invalid failing_obs sample_slo
    BREACHES_SLO _ eq_refl _)) eq_refl))). vm_compute. reflexivity.
Defined.

(** An SLO whose latency threshold is NaN passes the constructor's checks,
    and under it no latency, however large, counts as a breach. *)
Theorem slo_accepts_nan :
  exists slo, make_slo S754_nan (flit 45 1) (flit 1 100) (flit 99 100) = Ok slo /\
  forall p99 : float, fltb (max_p99_latency_ms slo) p99 = false.
Proof. eexists. split; [vm_compute; reflexivity|]. done. Qed.
