(* ===== verification/RenderCell.v ===== *)
(** [phase8/manifests/render-cell.py]: validation of a cell's values and
    substitution into the workload template. *)

From Stdlib Require Import ZArith Bool Ascii String Lia.
From stdpp Require Import base list strings option.
From S2P Require Import Prelude PyStr PyFloat PyVal.

Open Scope string_scope.
Open Scope Z_scope.

(** ** The value patterns, as tests for [re.fullmatch] *)

Definition is_digit19 (c : ascii) : bool := between 49 57 (code c).
Definition is_cell_char (c : ascii) : bool := is_lower_az c || is_digit c || Ascii.eqb c "-".

(** [[1-9][0-9]{lo,hi}] *)
Definition match_number (lo hi : Z) (s : string) : bool :=
  match s with
  | String c t => is_digit19 c && str_forallb is_digit t && between lo hi (slen t)
  | EmptyString => false
  end.
(** [[1-9][0-9]*] *)
Definition match_positive (s : string) : bool :=
  match s with
  | String c t => is_digit19 c && str_forallb is_digit t
  | EmptyString => false
  end.
(** [[a-z0-9][a-z0-9-]{0,40}] *)
Definition match_cell (s : string) : bool :=
  match s with
  | String c t =>
      (is_lower_az c || is_digit c) && str_forallb is_cell_char t && (slen t <=? 40)
  | EmptyString => false
  end.
Definition match_mix (s : string) : bool :=
  mem_string s ["read-heavy"; "write-heavy"; "balanced"; "cpu-heavy"].
(** [0(\.\d+)?|1(\.0+)?] *)
Definition match_ratio (s : string) : bool :=
  match s with
  | String c t =>
      let tail (digit : ascii -> bool) :=
        match t with
        | EmptyString => true
        | String d u => Ascii.eqb d "." && negb (is_empty u) && str_forallb digit u
        end in
      (Ascii.eqb c "0" && tail is_digit) ||
      (Ascii.eqb c "1" && tail (fun d => Ascii.eqb d "0"))
  | EmptyString => false
  end.
(** [[1-9][0-9]{1,4}m] *)
Definition match_quantity (s : string) : bool :=
  endswith "m" s && match_number 1 4 (drop_last 1 s).

Definition PLACEHOLDERS : list (string * (string * (string -> bool))) :=
  [ ("CELL", ("^[a-z0-9][a-z0-9-]{0,40}$", match_cell));
    ("MIX", ("^(read-heavy|write-heavy|balanced|cpu-heavy)$", match_mix));
    ("CPU_ITERATIONS", ("^[1-9][0-9]{2,7}$", match_number 2 7));
    ("POSTGRES_POOL_SIZE", ("^[1-9][0-9]?$", match_number 0 1));
    ("REDIS_POOL_SIZE", ("^[1-9][0-9]?$", match_number 0 1));
    ("TRACE_SAMPLE_RATIO", ("^(0(\.\d+)?|1(\.0+)?)$", match_ratio));
    ("CPU_REQUEST", ("^[1-9][0-9]{1,4}m$", match_quantity));
    ("CPU_LIMIT", ("^[1-9][0-9]{1,4}m$", match_quantity));
    ("SIDECAR_CPU_REQUEST", ("^[1-9][0-9]{1,4}m$", match_quantity));
    ("SIDECAR_CPU_LIMIT", ("^[1-9][0-9]{1,4}m$", match_quantity)) ].

Definition placeholder_names : list string := fst <$> PLACEHOLDERS.

(** ** [parse_quantity_millicores] *)

Definition parse_quantity_millicores (value : string) : result Z :=
  let unsupported := Raise (Exn RenderError ("unsupported CPU quantity: " +:+ repr_str value)) in
  if endswith "m" value then
    let digits := drop_last 1 value in
    if negb (match_positive digits) then unsupported
    else match py_int digits with Some n => Ok n | None => Raise (Exn ValueError "int") end
  else if match_positive value then
    match py_int value with Some n => Ok (n * 1000) | None => Raise (Exn ValueError "int") end
  else unsupported.

(** ** Placeholder substitution *)

Definition is_name_char (c : ascii) : bool := is_upper_az c || Ascii.eqb c "_".

Fixpoint span_name (s : string) : string * string :=
  match s with
  | String c s' =>
      if is_name_char c then let '(n, r) := span_name s' in (String c n, r) else ("", s)
  | EmptyString => ("", "")
  end.

(** A match of [\{\{([A-Z_]+)\}\}] at the start of the text: the group. *)
Definition match_placeholder (s : string) : option string :=
  if startswith "{{" s then
    let '(name, rest) := span_name (str_drop 2 s) in
    if negb (is_empty name) && startswith "}}" rest then Some name else None
  else None.

(** [PLACEHOLDER_PATTERN.sub]: [skip] counts the characters of the current
    match that are still to be passed over. *)
Fixpoint substitute_all (value_of : string -> result string) (skip : nat) (s : string)
    : result string :=
  match s with
  | EmptyString => Ok ""
  | String c s' =>
      match skip with
      | S k => substitute_all value_of k s'
      | O =>
          match match_placeholder s with
          | Some name =>
              let* v := value_of name in
              let* r := substitute_all value_of (String.length name + 3) s' in
              Ok (v +:+ r)
          | None =>
              let* r := substitute_all value_of 0 s' in
              Ok (String c r)
          end
      end
  end.

(** [PLACEHOLDER_PATTERN.findall] *)
Fixpoint findall_placeholders (skip : nat) (s : string) : list string :=
  match s with
  | EmptyString => []
  | String _ s' =>
      match skip with
      | S k => findall_placeholders k s'
      | O =>
          match match_placeholder s with
          | Some name => name :: findall_placeholders (String.length name + 3) s'
          | None => findall_placeholders 0 s'
          end
      end
  end.

(** ** [render] *)

Abbreviation strdict := (list (string * string)).

Fixpoint sget (k : string) (d : strdict) : option string :=
  match d with
  | [] => None
  | (k', v) :: d' => if String.eqb k k' then Some v else sget k d'
  end.
Definition sindex (k : string) (d : strdict) : result string :=
  match sget k d with Some v => Ok v | None => Raise (Exn KeyError k) end.

(** [sorted(set(xs) - set(ys))] *)
Definition sorted_difference (xs ys : list string) : list string :=
  sort_by String.leb (remove_dups (List.filter (fun x => negb (mem_string x ys)) xs)).

Definition check_value (values : strdict) (entry : string * (string * (string -> bool)))
    : result unit :=
  let '(key, (pattern, matches)) := entry in
  let* v := sindex key values in
  raise_if (negb (matches v)) RenderError
    ("placeholder " +:+ key +:+ " has invalid value " +:+ repr_str v +:+ "; expected " +:+ pattern).

Definition render (values : strdict) (template : string) : result string :=
  let unknown := sorted_difference (fst <$> values) placeholder_names in
  raise_if (negb (bool_decide (unknown = []))) RenderError
    ("unknown placeholder(s): " +:+ join ", " unknown) ;;;
  let missing := sorted_difference placeholder_names (fst <$> values) in
  raise_if (negb (bool_decide (missing = []))) RenderError
    ("missing placeholder(s): " +:+ join ", " missing) ;;;
  iterM (check_value values) PLACEHOLDERS ;;;
  let* v := sindex "CPU_REQUEST" values in
  let* cpu_request := parse_quantity_millicores v in
  let* v := sindex "CPU_LIMIT" values in
  let* cpu_limit := parse_quantity_millicores v in
  raise_if (cpu_limit <? cpu_request) RenderError
    ("CPU_REQUEST (" +:+ str_of_Z cpu_request +:+ "m) exceeds CPU_LIMIT (" +:+ str_of_Z cpu_limit
     +:+ "m); Kubernetes rejects this and the cell would never start") ;;;
  let* v := sindex "SIDECAR_CPU_REQUEST" values in
  let* sidecar_request := parse_quantity_millicores v in
  let* v := sindex "SIDECAR_CPU_LIMIT" values in
  let* sidecar_limit := parse_quantity_millicores v in
  raise_if (sidecar_limit <? sidecar_request) RenderError
    ("SIDECAR_CPU_REQUEST (" +:+ str_of_Z sidecar_request +:+ "m) exceeds SIDECAR_CPU_LIMIT ("
     +:+ str_of_Z sidecar_limit +:+ "m)") ;;;
  let* rendered := substitute_all (fun name => sindex name values) 0 template in
  let leftover := findall_placeholders 0 rendered in
  raise_if (negb (bool_decide (leftover = []))) RenderError
    ("unsubstituted placeholder(s): " +:+ join ", " (sort_by String.leb (remove_dups leftover))) ;;;
  Ok rendered.

(** The renderer's command line: exit status, text written, message on
    standard error.  [values] is the parsed JSON, [None] for invalid JSON. *)
Definition render_main (values : option pyval) (template : string)
    : result (Z * option string * string) :=
  match values with
  | None => Ok (2, None, "values file is not valid JSON: ")
  | Some (VDict d) =>
      match render ((fun p => (fst p, py_str (snd p))) <$> d) template with
      | Ok rendered => Ok (0, Some rendered, "")
      | Raise e =>
          if caught_by [RenderError] e then Ok (1, None, "cannot render cell: " +:+ exn_msg e)
          else Raise e
      end
  | Some _ => Ok (2, None, "values must be a JSON object")
  end.

(** ** Specification: a template as literal text and placeholders *)

Inductive segment : Type := Lit (s : string) | Hole (name : string).

Definition segment_text (g : segment) : string :=
  match g with Lit s => s | Hole n => "{{" +:+ n +:+ "}}" end.
Definition segment_ok (g : segment) : bool :=
  match g with
  | Lit s => str_forallb (fun c => negb (Ascii.eqb c "{")) s
  | Hole n => negb (is_empty n) && str_forallb is_name_char n
  end.
Definition segment_value (value_of : string -> result string) (g : segment) : result string :=
  match g with Lit s => Ok s | Hole n => value_of n end.

Fixpoint template_text (gs : list segment) : string :=
  match gs with [] => "" | g :: gs' => segment_text g +:+ template_text gs' end.
Fixpoint template_value (value_of : string -> result string) (gs : list segment) : result string :=
  match gs with
  | [] => Ok ""
  | g :: gs' =>
      let* v := segment_value value_of g in
      let* r := template_value value_of gs' in
      Ok (v +:+ r)
  end.

(** ** Lemmas *)

Lemma span_name_app n r :
  str_forallb is_name_char n = true -> span_name (n +:+ String "}" r) = (n, String "}" r).
Proof.
  induction n as [|c n IH]; [done|]. cbn [str_forallb String.append span_name].
  intros H. bool_hyps. rewrite H. by rewrite IH.
Qed.

Lemma match_placeholder_hole n r :
  negb (is_empty n) && str_forallb is_name_char n = true ->
  match_placeholder ("{{" +:+ n +:+ "}}" +:+ r) = Some n.
Proof.
  intros H. bool_hyps. unfold match_placeholder.
  change (startswith "{{" ("{{" +:+ n +:+ "}}" +:+ r)) with (String.prefix "" (n +:+ "}}" +:+ r)).
  assert (String.prefix "" (n +:+ "}}" +:+ r) = true) as -> by by destruct (n +:+ "}}" +:+ r).
  change (str_drop 2 ("{{" +:+ n +:+ "}}" +:+ r)) with (n +:+ String "}" ("}" +:+ r)).
  rewrite span_name_app by done. rewrite H.
  change (String "}" ("}" +:+ r)) with ("}}" +:+ r). unfold startswith. by rewrite (prefix_app "}}" r).
Qed.

Lemma substitute_skip f a b : substitute_all f (String.length a) (a +:+ b) = substitute_all f 0 b.
Proof. induction a; simpl; done. Qed.

Lemma rbind_assoc {A B C} (m : result A) (k : A -> result B) (h : B -> result C) :
  rbind (rbind m k) h = rbind m (fun x => rbind (k x) h).
Proof. by destruct m. Qed.

Lemma substitute_hole f n r :
  negb (is_empty n) && str_forallb is_name_char n = true ->
  substitute_all f 0 ("{{" +:+ n +:+ "}}" +:+ r) =
  let* v := f n in let* t := substitute_all f 0 r in Ok (v +:+ t).
Proof.
  intros H. pose proof (match_placeholder_hole n r H) as Hm.
  change ("{{" +:+ n +:+ "}}" +:+ r) with (String "{" ("{" +:+ n +:+ "}}" +:+ r)) in *.
  cbn [substitute_all]. rewrite Hm.
  replace (String.length n + 3)%nat with (String.length ("{" +:+ n +:+ "}}"))
    by (rewrite !length_str_app; simpl; lia).
  replace ("{" +:+ n +:+ "}}" +:+ r) with (("{" +:+ n +:+ "}}") +:+ r) by by rewrite !str_app_assoc.
  by rewrite substitute_skip.
Qed.

Lemma substitute_lit f s r :
  str_forallb (fun c => negb (Ascii.eqb c "{")) s = true ->
  substitute_all f 0 (s +:+ r) = let* t := substitute_all f 0 r in Ok (s +:+ t).
Proof.
  induction s as [|c s IH]; [intros _; change ("" +:+ r) with r; by destruct (substitute_all f 0 r)|].
  cbn [str_forallb String.append substitute_all]. intros H. bool_hyps.
  assert (match_placeholder (String c (s +:+ r)) = None) as ->.
  { unfold match_placeholder, startswith. cbn [String.prefix].
    destruct (ascii_dec "{" c) as [<-|]; [done|done]. }
  rewrite IH by done. by destruct (substitute_all f 0 r).
Qed.

Lemma endswith_m_digits s : str_forallb is_digit s = true -> endswith "m" s = false.
Proof.
  intros H. destruct (endswith "m" s) eqn:E; [|done].
  apply (endswith_char s "m") in E. rewrite E, str_forallb_app in H. bool_hyps. done.
Qed.

Lemma match_positive_spec s :
  match_positive s = true -> exists n, py_int s = Some n /\ 1 <= n /\ str_forallb is_digit s = true.
Proof.
  destruct s as [|c t]; [done|]. simpl. intros H. bool_hyps.
  assert (is_digit c = true) as Hc by (unfold is_digit19, is_digit, between in *; bool_hyps; lia).
  assert (forall t acc, str_forallb is_digit t = true -> 1 <= acc ->
            exists n, digits_go t acc = Some n /\ 1 <= n) as Hgo.
  { clear. induction t as [|d t IH]; intros acc H Ha; simpl in *; [by eauto|].
    bool_hyps. rewrite H. apply IH; [done|].
    assert (0 <= digit_val d); [|lia]. unfold digit_val, is_digit, between in *. bool_hyps. lia. }
  destruct (Hgo t (digit_val c) H0) as (n & Hn & Hn1).
  { unfold digit_val, is_digit19, between in *. bool_hyps. lia. }
  exists n. split; [|by rewrite Hc, H0]. apply py_int_digits; simpl; [done|by rewrite Hc, H0|].
  by rewrite Hc.
Qed.

Lemma digits_go_bounds t acc n :
  0 <= acc -> str_forallb is_digit t = true -> digits_go t acc = Some n ->
  acc * 10 ^ slen t <= n < (acc + 1) * 10 ^ slen t.
Proof.
  revert acc. induction t as [|c t IH]; intros acc Ha Hd Hn; cbn [digits_go str_forallb] in *.
  { injection Hn as <-. unfold slen. simpl. lia. }
  bool_hyps. rewrite H in Hn.
  assert (0 <= digit_val c <= 9) as Hv.
  { unfold digit_val, is_digit, between in *. bool_hyps. lia. }
  specialize (IH (10 * acc + digit_val c) ltac:(lia) H0 Hn). unfold slen in *. cbn [String.length].
  rewrite Nat2Z.inj_succ, Z.pow_succ_r by lia. nia.
Qed.

Lemma match_quantity_bounds s n :
  match_quantity s = true -> parse_quantity_millicores s = Ok n -> 10 <= n <= 99999.
Proof.
  unfold match_quantity, parse_quantity_millicores. intros H. bool_hyps. rewrite H.
  destruct (drop_last 1 s) as [|c t] eqn:E; [done|].
  cbn [match_number] in H0. bool_hyps. cbn [match_positive]. rewrite H0, H2. cbn [andb negb].
  assert (is_digit c = true) as Hc by (unfold is_digit19, is_digit, between in *; bool_hyps; lia).
  destruct (match_positive_spec (String c t)) as (n' & Hn' & _ & _).
  { cbn [match_positive]. by rewrite H0, H2. }
  rewrite Hn'. intros [= ->].
  assert (digits_go t (digit_val c) = Some n) as Hgo.
  { unfold py_int in Hn'. rewrite strip_id in Hn'.
    2: { eapply str_forallb_impl; [|simpl; rewrite Hc, H2; reflexivity].
         intros d Hd. by rewrite digit_not_space. }
    destruct (Ascii.eqb_spec c "-") as [->|]; [done|].
    destruct (Ascii.eqb_spec c "+") as [->|]; [done|].
    unfold parse_nat in Hn'. rewrite Hc in Hn'. cbn [digits_go] in Hn'. by rewrite Hc in Hn'. }
  assert (1 <= digit_val c <= 9) as Hv.
  { unfold digit_val, is_digit19, between in *. bool_hyps. lia. }
  pose proof (digits_go_bounds t (digit_val c) n ltac:(lia) H2 Hgo) as Hb.
  unfold between in H1. bool_hyps. set (k := slen t) in *.
  assert (10 ^ 1 <= 10 ^ k) by (apply Z.pow_le_mono_r; lia).
  assert (10 ^ k <= 10 ^ 4) by (apply Z.pow_le_mono_r; lia).
  change (10 ^ 1) with 10 in *. change (10 ^ 4) with 10000 in *. nia.
Qed.

Lemma sorted_difference_nil xs ys : sorted_difference xs ys = [] <-> forall x, x ∈ xs -> x ∈ ys.
Proof.
  unfold sorted_difference. split.
  - intros H x Hx. destruct (mem_string x ys) eqn:E; [by apply mem_string_spec|].
    assert (x ∈ sort_by String.leb
      (remove_dups (List.filter (fun x => negb (mem_string x ys)) xs))) as Hin.
    { rewrite sort_by_perm. apply elem_of_remove_dups, list_elem_of_In, List.filter_In.
      rewrite E. split; [by apply list_elem_of_In|done]. }
    rewrite H in Hin. by apply elem_of_nil in Hin.
  - intros H. replace (List.filter _ xs) with (@nil string); [done|].
    induction xs as [|x xs IH]; [done|]. simpl.
    assert (mem_string x ys = true) as ->; [|apply IH; intros y Hy; apply H; by right].
    apply mem_string_spec, H. left.
Qed.

Lemma check_value_quantity values key pat :
  check_value values (key, (pat, match_quantity)) = Ok tt ->
  exists s, sget key values = Some s /\ match_quantity s = true.
Proof.
  unfold check_value, sindex. intros H. destruct (sget key values) as [s|]; [|done].
  inv_ok. simplify_eq. bool_hyps. eauto.
Qed.

(** ** Theorems *)

(** On a template of literal text (without an opening brace) and
    placeholders, [PLACEHOLDER_PATTERN.sub] replaces every placeholder by its
    value and copies everything else, raising what the lookup raises. *)
Theorem substitute_template value_of gs :
  forallb segment_ok gs = true ->
  substitute_all value_of 0 (template_text gs) = template_value value_of gs.
Proof.
  induction gs as [|[s|n] gs IH]; [done|..]; cbn [forallb template_text template_value segment_text
    segment_value segment_ok]; intros H; apply andb_true_iff in H as [H1 H2].
  - rewrite substitute_lit by done. rewrite IH by done. done.
  - rewrite !str_app_assoc, substitute_hole by done. by rewrite IH.
Qed.

Lemma substitute_template_witness :
  substitute_all (fun n => Ok ("<" +:+ n +:+ ">")) 0
    (template_text [Lit "cpu: "; Hole "CPU_LIMIT"; Lit " end"]) = Ok "cpu: <CPU_LIMIT> end".
Proof. rewrite (substitute_template _ [Lit "cpu: "; Hole "CPU_LIMIT"; Lit " end"]); reflexivity. Defined.

(** A positive millicore count printed with the suffix [m] reads back as
    itself, and a bare positive count reads back as that many cores. *)
Theorem parse_quantity_roundtrip n :
  1 <= n ->
  parse_quantity_millicores (str_of_Z n +:+ "m") = Ok n /\
  parse_quantity_millicores (str_of_Z n) = Ok (n * 1000).
Proof.
  intros Hn. pose proof (str_of_Z_head19 n ltac:(lia)) as Hh.
  assert (match_positive (str_of_Z n) = true) as Hm by by destruct (str_of_Z n).
  pose proof (py_int_str_of_Z n ltac:(lia)) as Hp.
  unfold parse_quantity_millicores. split.
  - rewrite endswith_app. change 1%nat with (String.length "m").
    rewrite drop_last_app, Hm. cbn [negb]. by rewrite Hp.
  - rewrite endswith_m_digits by (apply str_of_Z_digits; lia). by rewrite Hm, Hp.
Qed.

Lemma parse_quantity_roundtrip_witness : parse_quantity_millicores "250m" = Ok 250.
Proof. apply (parse_quantity_roundtrip 250). lia. Defined.

(** Every quantity the renderer accepts is positive, and any other text is
    refused with [RenderError]: no spelling is silently read as zero or
    negative. *)
Theorem parse_quantity_range value :
  match parse_quantity_millicores value with
  | Ok n => 1 <= n
  | Raise e => exn_cls e = RenderError
  end.
Proof.
  unfold parse_quantity_millicores. destruct (endswith "m" value).
  - destruct (match_positive (drop_last 1 value)) eqn:E; simpl; [|done].
    apply match_positive_spec in E as (n & -> & ? & _). done.
  - destruct (match_positive value) eqn:E; simpl; [|done].
    apply match_positive_spec in E as (n & -> & ? & _). lia.
Qed.

(** A manifest that [render] returns was produced from exactly the declared
    placeholders, every value matching its pattern; it contains no placeholder
    any more, and its CPU request and limit lie in 10m..99999m with the request
    at most the limit, for the application and for the sidecar. *)
Theorem render_sound values template out :
  render values template = Ok out ->
  (forall k, k ∈ fst <$> values <-> k ∈ placeholder_names) /\
  Forall (fun e => exists v, sget (fst e) values = Some v /\ snd (snd e) v = true) PLACEHOLDERS /\
  findall_placeholders 0 out = [] /\
  (exists rq lm r l, sget "CPU_REQUEST" values = Some rq /\ sget "CPU_LIMIT" values = Some lm /\
    parse_quantity_millicores rq = Ok r /\ parse_quantity_millicores lm = Ok l /\
    10 <= r <= l /\ l <= 99999) /\
  (exists rq lm r l, sget "SIDECAR_CPU_REQUEST" values = Some rq /\
    sget "SIDECAR_CPU_LIMIT" values = Some lm /\
    parse_quantity_millicores rq = Ok r /\ parse_quantity_millicores lm = Ok l /\
    10 <= r <= l /\ l <= 99999).
Proof.
  unfold render. intros H. inv_ok. bool_hyps.
  repeat match goal with
  | H : bool_decide _ = true |- _ => apply bool_decide_eq_true_1 in H
  | H : sindex _ _ = Ok _ |- _ =>
      unfold sindex in H; destruct (sget _ values) eqn:?; [injection H as ->|done]
  end.
  rewrite iterM_Ok in Hx1.
  assert (Forall (fun e => exists v, sget (fst e) values = Some v /\ snd (snd e) v = true)
            PLACEHOLDERS) as Hall.
  { eapply Forall_impl; [|exact Hx1]. intros [key [pat m]] Hk. unfold check_value, sindex in Hk.
    destruct (sget key values) as [s|] eqn:E; [|done]. inv_ok. simplify_eq. bool_hyps. eauto. }
  split.
  { intros k. split; revert k; by apply sorted_difference_nil. }
  split; [done|]. split; [done|].
  unfold PLACEHOLDERS in Hall. rewrite !Forall_cons_iff in Hall. cbn [fst snd] in Hall.
  destruct Hall as (_ & _ & _ & _ & _ & _ & (? & E1 & M1) & (? & E2 & M2) & (? & E3 & M3) &
    (? & E4 & M4) & _). simplify_eq.
  pose proof (match_quantity_bounds _ _ M1 ltac:(eassumption)).
  pose proof (match_quantity_bounds _ _ M2 ltac:(eassumption)).
  pose proof (match_quantity_bounds _ _ M3 ltac:(eassumption)).
  pose proof (match_quantity_bounds _ _ M4 ltac:(eassumption)).
  split; do 4 eexists; (repeat split; [eassumption..| | |]); lia.
Qed.

Definition sample_values : strdict :=
  [ ("CELL", "p1-50m"); ("MIX", "balanced"); ("CPU_ITERATIONS", "20000");
    ("POSTGRES_POOL_SIZE", "16"); ("REDIS_POOL_SIZE", "16"); ("TRACE_SAMPLE_RATIO", "0");
    ("CPU_REQUEST", "50m"); ("CPU_LIMIT", "100m");
    ("SIDECAR_CPU_REQUEST", "50m"); ("SIDECAR_CPU_LIMIT", "100m") ].

Lemma render_sound_witness :
  render sample_values "cpu: {{CPU_LIMIT}}" = Ok "cpu: 100m" /\
  findall_placeholders 0 "cpu: 100m" = [].
Proof.
  split; [vm_compute; reflexivity|].
  apply (render_sound sample_values "cpu: {{CPU_LIMIT}}"). vm_compute. reflexivity.
Defined.
