(* ===== verification/K8s.v ===== *)
(** [phase8/campaign/k8s.py]: cell specifications, the reading of Kubernetes
    objects, kubeconfig selection, the calls to the API server and the
    port-forward child process.  [yaml] is a third-party package: what its two
    loaders return is a parameter. *)

From Stdlib Require Import ZArith Bool Ascii String Lia SpecFloat.
From stdpp Require Import base list strings option.
From S2P Require Import Prelude Eff PyStr PyFloat PyVal PyText Json World RenderCell.

Open Scope string_scope.
Open Scope Z_scope.

Definition NAMESPACE : string := "cpu-limit-autoscale".

(** ** [CellSpec] *)

Record CellSpec : Type := {
  cell : string;
  mix : string;
  cpu_limit_millicores : Z;
  cpu_request_millicores : Z;
  cpu_iterations : Z;
  postgres_pool_size : Z;
  redis_pool_size : Z;
  trace_sample_ratio : float;
  sidecar_cpu_request_millicores : Z;
  sidecar_cpu_limit_millicores : Z
}.

(** A cell with the class's default values for the unmeasured fields. *)
Definition make_cell (name m : string) (limit request iterations : Z) : CellSpec :=
  {| cell := name; mix := m; cpu_limit_millicores := limit;
     cpu_request_millicores := request; cpu_iterations := iterations;
     postgres_pool_size := 16; redis_pool_size := 16; trace_sample_ratio := fzero;
     sidecar_cpu_request_millicores := 50; sidecar_cpu_limit_millicores := 100 |}.

Definition render_values (c : CellSpec) : strdict :=
  [ ("CELL", cell c);
    ("MIX", mix c);
    ("CPU_ITERATIONS", str_of_Z (cpu_iterations c));
    ("POSTGRES_POOL_SIZE", str_of_Z (postgres_pool_size c));
    ("REDIS_POOL_SIZE", str_of_Z (redis_pool_size c));
    ("TRACE_SAMPLE_RATIO", format_g (trace_sample_ratio c));
    ("CPU_REQUEST", str_of_Z (cpu_request_millicores c) +:+ "m");
    ("CPU_LIMIT", str_of_Z (cpu_limit_millicores c) +:+ "m");
    ("SIDECAR_CPU_REQUEST", str_of_Z (sidecar_cpu_request_millicores c) +:+ "m");
    ("SIDECAR_CPU_LIMIT", str_of_Z (sidecar_cpu_limit_millicores c) +:+ "m") ].

Definition manifest (template : string) (c : CellSpec) : result string :=
  render (render_values c) template.

(** ** Reading Kubernetes objects *)

(** [all(f(x) for x in l)] and [any(...)], stopping at the deciding element. *)
Fixpoint allM {A} (f : A -> result bool) (l : list A) : result bool :=
  match l with
  | [] => Ok true
  | x :: l' => let* b := f x in if b then allM f l' else Ok false
  end.
Fixpoint anyM {A} (f : A -> result bool) (l : list A) : result bool :=
  match l with
  | [] => Ok false
  | x :: l' => let* b := f x in if b then Ok true else anyM f l'
  end.

Definition is_None (v : pyval) : bool := match v with VNone => true | _ => false end.

(** The pod of a cell, [VNone] for an absent one. *)
Definition pod_ready (pod : pyval) : result bool :=
  if is_None pod then Ok false
  else
    let* status := attr_get_or "status" (VDict []) pod in
    let* phase := attr_get "phase" status in
    if negb (py_eq phase (VStr "Running")) then Ok false
    else
      let* status := attr_get_or "status" (VDict []) pod in
      let* cs := attr_get "containerStatuses" status in
      let statuses := py_or cs (VList []) in
      if truthy statuses then
        let* l := py_iter statuses in
        allM (fun s => let* r := attr_get "ready" s in Ok (truthy r)) l
      else Ok false.

Definition pod_node (pod : pyval) : result pyval :=
  let* spec := attr_get_or "spec" (VDict []) pod in
  attr_get_or "nodeName" (VStr "") spec.

Definition pod_uid (pod : pyval) : result pyval :=
  let* metadata := py_index "metadata" pod in py_index "uid" metadata.

(** [v.startswith(p)] where [v] need not be a string. *)
Definition val_startswith (p : string) (v : pyval) : result bool :=
  match v with VStr s => Ok (startswith p s) | _ => Raise (Exn AttributeError "startswith") end.

Definition is_request_only_node (taints : list pyval) : result bool :=
  anyM (fun taint =>
          let* key := attr_get_or "key" (VStr "") taint in
          val_startswith "node-role.kubernetes.io/control-plane" key) taints.

Definition parse_cpu_quantity (value : string) : result Z :=
  let invalid := Raise (Exn ValueError "invalid literal for int() with base 10") in
  if endswith "m" value then
    match py_int (drop_last 1 value) with Some n => Ok n | None => invalid end
  else if str_isdigit value then
    match py_int value with Some n => Ok (n * 1000) | None => invalid end
  else Raise (Exn KubernetesError
                ("unsupported CPU quantity from the API server: " +:+ repr_str value)).

(** ** Kubeconfig selection *)

(** [server], and the paths [ssl] reads. *)
Record Kubeconfig : Type := {
  server : pyval;
  cacert : string;
  cert : string;
  key : string
}.

(** [next((e[field] for e in entries if e.get("name") == name), None)] *)
Fixpoint find_named (field : string) (name : pyval) (entries : list pyval) : result pyval :=
  match entries with
  | [] => Ok VNone
  | e :: rest =>
      let* n := attr_get "name" e in
      if py_eq n name then py_index field e else find_named field name rest
  end.

(** The loop over the contexts: cluster and user names of the selected one,
    [None] when it does not occur. *)
Fixpoint find_context (selected : pyval) (entries : list pyval)
    : result (option (pyval * pyval)) :=
  match entries with
  | [] => Ok None
  | e :: rest =>
      let* n := attr_get "name" e in
      if py_eq n selected then
        let* ctx := py_index "context" e in
        let* cl := py_index "cluster" ctx in
        let* us := attr_get "user" ctx in
        Ok (Some (cl, us))
      else find_context selected rest
  end.

(** [document.get(k) or []], iterated. *)
Definition entries_of (k : string) (document : pyval) : result (list pyval) :=
  let* v := attr_get k document in py_iter (py_or v (VList [])).

(** The cluster's name and the cluster and user entries of the selected
    context; [path] only enters messages. *)
Definition kubeconfig_select (document : pyval) (context : pyval) (path : string)
    : result (pyval * pyval * pyval) :=
  let* active := attr_get "current-context" document in
  let selected := if is_None context then active else context in
  let* contexts := entries_of "contexts" document in
  let* found := find_context selected contexts in
  let '(cluster_name, user_name) := default (context, VNone) found in
  raise_if (is_None cluster_name) KubernetesError
    ("context " +:+ py_repr selected +:+ " not found in " +:+ path) ;;;
  let* clusters := entries_of "clusters" document in
  let* cluster := find_named "cluster" cluster_name clusters in
  raise_if (is_None cluster) KubernetesError
    ("cluster " +:+ py_repr cluster_name +:+ " not found in " +:+ path) ;;;
  let* users := entries_of "users" document in
  let* user := find_named "user" user_name users in
  raise_if (is_None user) KubernetesError
    ("user " +:+ py_repr user_name +:+ " not found in " +:+ path) ;;;
  Ok (cluster_name, cluster, user).

(** [Path(v)] *)
Definition path_of (v : pyval) : result string :=
  match v with VStr s => Ok s | _ => Raise (Exn TypeError "expected str, bytes or os.PathLike object") end.

Section ReadKubeconfig.
Context `{Env}.

Definition materialise (scratch : string) (user : pyval) (field data_field : string) : M string :=
  let! f := lift (attr_get field user) in
  if truthy f then lift (let* p := py_index field user in path_of p)
  else
    let! d := lift (attr_get data_field user) in
    if truthy d then
      let target := scratch +:+ "/" +:+ field in
      let! d := lift (py_index data_field user) in
      perform (WriteBase64 target d) >>>
      perform (Chmod target 384) >>>
      ret target
    else throw KubernetesError
           ("kubeconfig user has neither " +:+ field +:+ " nor " +:+ data_field).

(** [Kubeconfig.read] once the text is parsed. *)
Definition kubeconfig_read (document : pyval) (context : pyval) (path : string) : M Kubeconfig :=
  let! (cluster_name, cluster, user) := lift (kubeconfig_select document context path) in
  let! scratch := perform (MkdTemp "cpu-limit-kubeconfig-") in
  let! ca := lift (attr_get "certificate-authority" cluster) in
  let! cacert :=
    (if truthy ca then lift (path_of ca)
     else
       let! ca_data := lift (attr_get "certificate-authority-data" cluster) in
       if truthy ca_data then
         perform (WriteBase64 (scratch +:+ "/ca.crt") ca_data) >>> ret (scratch +:+ "/ca.crt")
       else throw KubernetesError "kubeconfig cluster has no certificate authority") in
  let! server := lift (attr_get "server" cluster) in
  throw_if (negb (truthy server)) KubernetesError
    ("cluster " +:+ py_repr cluster_name +:+ " has no server address") >>>
  let! cert := materialise scratch user "client-certificate" "client-certificate-data" in
  let! key := materialise scratch user "client-key" "client-key-data" in
  ret {| server := server; cacert := cacert; cert := cert; key := key |}.
End ReadKubeconfig.

(** [s.rstrip("/")] *)
Fixpoint rstrip_slash (s : string) : string :=
  match s with
  | EmptyString => ""
  | String c s' =>
      let r := rstrip_slash s' in
      if is_empty r && Ascii.eqb c "/" then "" else String c r
  end.

(** ** [ApiClient] *)

Record ApiClient : Type := { host : string; api_port : Z; base_path : string }.

(** The constructor on the kubeconfig's settings, after the TLS context. *)
Definition make_client (settings : Kubeconfig) : result ApiClient :=
  match server settings with
  | VStr address =>
      let* parsed := urlsplit address in
      raise_if (negb (String.eqb (scheme parsed) "https") || is_empty (hostname parsed))
        KubernetesError ("unsupported API server address: " +:+ repr_str address) ;;;
      let* p := port parsed in
      Ok {| host := hostname parsed;
            api_port := match p with Some n => if n =? 0 then 443 else n | None => 443 end;
            base_path := rstrip_slash (url_path parsed) |}
  | _ => Raise (Exn AttributeError "decode")
  end.

Section Client.
Context `{Env}.
(** [yaml.safe_load] and [yaml.safe_load_all]. *)
Context (yaml_load : string -> result pyval) (yaml_load_all : string -> result (list pyval)).

Definition ApiClient_init (kubeconfig : string) (context : pyval) : M ApiClient :=
  let! text := perform (ReadText kubeconfig) in
  let! document := lift (yaml_load text) in
  let! settings := kubeconfig_read document context kubeconfig in
  perform (LoadTls (cacert settings) (cert settings) (key settings)) >>>
  lift (make_client settings).

(** The body of a request: absent, a dictionary sent as JSON, or text. *)
Inductive request_body : Type := NoBody | JsonBody (v : pyval) | TextBody (s : string).

Definition decode_body (raw : string) : result pyval :=
  if is_empty raw then Ok (VDict [])
  else match json_loads raw with
       | Raise e => if caught_by [JSONDecodeError] e then Ok (VDict [("raw", VStr raw)]) else Raise e
       | r => r
       end.

Definition request (client : ApiClient) (method path : string) (body : request_body)
    (content_type : option string) : M (Z * pyval) :=
  let payload :=
    match body with
    | NoBody => None
    | TextBody s => Some s
    | JsonBody v => Some (json_plain false v)
    end in
  let header :=
    match payload with
    | None => None
    | Some _ => Some (match content_type with
                      | Some t => if is_empty t then "application/json" else t
                      | None => "application/json"
                      end)
    end in
  let! (status, raw) := perform (HttpRequest method (base_path client +:+ path) header payload) in
  let! decoded := lift (decode_body raw) in
  ret (status, decoded).

Definition expect (client : ApiClient) (method path : string) (body : request_body) : M pyval :=
  let! (status, decoded) := request client method path body None in
  let message := match decoded with VDict d => dget_none "message" d | _ => VNone end in
  throw_if (300 <=? status) KubernetesError
    (method +:+ " " +:+ path +:+ " -> " +:+ str_of_Z status +:+ ": " +:+ py_str (py_or message decoded)) >>>
  ret decoded.

(** [document["kind"]] and [document["metadata"]["name"]] select the path. *)
Definition apply_path (document : pyval) : result (pyval * pyval * string) :=
  let* kind := py_index "kind" document in
  let* metadata := py_index "metadata" document in
  let* name := py_index "name" metadata in
  let query := "?fieldManager=cpu-limit-pilot&force=true" in
  if py_eq kind (VStr "Deployment") then
    Ok (kind, name, "/apis/apps/v1/namespaces/" +:+ NAMESPACE +:+ "/deployments/" +:+ py_str name +:+ query)
  else if py_eq kind (VStr "Service") then
    Ok (kind, name, "/api/v1/namespaces/" +:+ NAMESPACE +:+ "/services/" +:+ py_str name +:+ query)
  else Raise (Exn KubernetesError ("refusing to apply unsupported kind " +:+ py_repr kind)).

Definition apply_document (client : ApiClient) (document : pyval) : M unit :=
  let! (kind, name, path) := lift (apply_path document) in
  let! (status, decoded) :=
    request client "PATCH" path (JsonBody document) (Some "application/apply-patch+yaml") in
  let message := match decoded with VDict d => dget_none "message" d | _ => decoded end in
  throw_if (300 <=? status) KubernetesError
    ("applying " +:+ py_str kind +:+ " " +:+ py_str name +:+ " failed: " +:+ str_of_Z status
     +:+ ": " +:+ py_str message).

Definition documents (text : string) : result (list pyval) :=
  let* docs := yaml_load_all text in Ok (List.filter truthy docs).

Definition delete_argv (kubectl kubeconfig manifest_path : string) : list string :=
  [kubectl; "--kubeconfig=" +:+ kubeconfig; "-n"; NAMESPACE; "delete"; "--ignore-not-found";
   "--wait=true"; "-f"; manifest_path].

Definition delete_cell (kubectl kubeconfig manifest_path : string) : M unit :=
  let! _ := perform (Run (delete_argv kubectl kubeconfig manifest_path) None) in ret tt.

(** The listing need not have the shape the code expects. *)
Definition cell_pod (client : ApiClient) (cell : string) : M pyval :=
  let! listing := expect client "GET"
    ("/api/v1/namespaces/" +:+ NAMESPACE +:+ "/pods?labelSelector=cpu-limit-autoscale/cell=" +:+ cell) NoBody in
  lift (let* pods := attr_get_or "items" (VList []) listing in
        if negb (truthy pods) then Ok VNone
        else match pods with
             | VList [pod] => Ok pod
             | VList ((pod :: _) as l) =>
                 let* names := mapM (fun p => let* m := py_index "metadata" p in py_index "name" m) l in
                 if forallb is_str names then
                   Raise (Exn KubernetesError
                            ("cell " +:+ cell +:+ " has more than one pod: " +:+ join ", " (py_str <$> names)))
                 else Raise (Exn TypeError "sequence item: expected str instance")
             | VStr s => if slen s =? 1 then Ok pods
                         else Raise (Exn TypeError "string indices must be integers")
             | VDict [_] => Raise (Exn KeyError "0")
             | _ => Raise (Exn TypeError "not a list of pods")
             end).

(** [parse_cpu_quantity] on a value that need not be a string. *)
Definition parse_cpu_value (v : pyval) : result Z :=
  match v with VStr s => parse_cpu_quantity s | _ => Raise (Exn AttributeError "endswith") end.

Definition allocatable_cpu (node_object : pyval) : result Z :=
  let* status := py_index "status" node_object in
  let* allocatable := py_index "allocatable" status in
  let* quantity := py_index "cpu" allocatable in
  parse_cpu_value quantity.

Definition node_capacity_millicores (client : ApiClient) (node : string) : M Z :=
  let! node_object := expect client "GET" ("/api/v1/nodes/" +:+ node) NoBody in
  lift (allocatable_cpu node_object).

(** [node.get("spec", {}).get("taints", []) or []] *)
Definition taints_of (node_object : pyval) : result (list pyval) :=
  let* spec := attr_get_or "spec" (VDict []) node_object in
  let* taints := attr_get_or "taints" (VList []) spec in
  py_iter (py_or taints (VList [])).

Definition node_taints (client : ApiClient) (node : string) : M (list pyval) :=
  let! node_object := expect client "GET" ("/api/v1/nodes/" +:+ node) NoBody in
  lift (taints_of node_object).

(** ** [PortForward] *)

Record PortForward : Type := {
  pf_kubectl : string; pf_kubeconfig : string; pf_target : string; pf_remote_port : Z;
  pf_local_port : Z; pf_ready_path : string; pf_namespace : string
}.

Definition pf_argv (p : PortForward) : list string :=
  [pf_kubectl p; "--kubeconfig=" +:+ pf_kubeconfig p; "-n"; pf_namespace p; "port-forward";
   pf_target p; str_of_Z (pf_local_port p) +:+ ":" +:+ str_of_Z (pf_remote_port p)].

Definition pf_exit : M unit :=
  perform Terminate >>>
  try_except (perform (Wait 10)) [TimeoutExpired] (fun _ => perform Kill >>> perform (Wait 10)).

Definition pf_where (p : PortForward) : string :=
  "port-forward to " +:+ pf_target p +:+ ":" +:+ str_of_Z (pf_remote_port p).

(** One turn of the readiness loop; the loop is left with [true] when the
    forward answered, with [false] at the deadline. *)
Definition pf_turn (p : PortForward) (deadline : float) : M (unit + bool) :=
  let! now := perform Monotonic in
  if fltb now deadline then
    let! exited := perform Poll in
    if exited then
      let! text := perform ReadStderr in
      let details := strip text in
      throw KubernetesError
        (pf_where p +:+ " exited immediately" +:+
         (if is_empty details then "" else ": " +:+ str_take 500 details))
    else
      try_except (perform (ProbeGet (pf_local_port p) (pf_ready_path p)) >>> ret (inr true)) [OSError]
        (fun _ => perform (Sleep (flit 1 10)) >>> ret (inl tt))
  else ret (inr false).

Definition pf_enter (fuel : nat) (p : PortForward) : M unit :=
  perform (Popen (pf_argv p)) >>>
  let! now := perform Monotonic in
  let deadline := fadd now (flit 30 1) in
  let! ready := loop fuel (fun _ => pf_turn p deadline) tt in
  if (ready : bool) then ret tt
  else pf_exit >>> throw KubernetesError (pf_where p +:+ " did not become ready").

(** [with PortForward(...): body] *)
Definition with_port_forward {A} (fuel : nat) (p : PortForward) (body : M A) : M A :=
  pf_enter fuel p >>> try_finally body pf_exit.
End Client.

(** ** Theorems *)

(** The quantities a node reports read back exactly: [n] millicores printed
    with the suffix [m], and [n] whole cores printed bare. *)
Theorem parse_cpu_quantity_roundtrip n :
  0 <= n ->
  parse_cpu_quantity (str_of_Z n +:+ "m") = Ok n /\ parse_cpu_quantity (str_of_Z n) = Ok (n * 1000).
Proof.
  intros Hn. pose proof (py_int_str_of_Z n Hn) as Hp. pose proof (str_of_Z_digits n Hn) as Hd.
  unfold parse_cpu_quantity. split.
  - rewrite endswith_app. change 1%nat with (String.length "m"). by rewrite drop_last_app, Hp.
  - rewrite endswith_m_digits by done. assert (str_isdigit (str_of_Z n) = true) as ->; [|by rewrite Hp].
    unfold str_isdigit. apply andb_true_iff. split.
    + by destruct (str_of_Z n).
    + eapply str_forallb_impl; [|exact Hd]. intros c Hc. unfold isdigit_char. by rewrite Hc.
Qed.

Lemma parse_cpu_quantity_roundtrip_witness : parse_cpu_quantity "1900m" = Ok 1900.
Proof. apply (parse_cpu_quantity_roundtrip 1900). lia. Defined.

(** Texts that are no Kubernetes quantity are not all refused with
    [KubernetesError]: a negative count, underscores and inner blanks before the
    suffix are accepted, and a bare suffix raises [ValueError], which the
    pilot's handler does not catch. *)
Theorem parse_cpu_quantity_surprises :
  parse_cpu_quantity "-5m" = Ok (-5) /\ parse_cpu_quantity "1_0m" = Ok 10 /\
  parse_cpu_quantity " 7 m" = Ok 7 /\
  exists e, parse_cpu_quantity "m" = Raise e /\
            caught_by [KubernetesError; OSError; RuntimeError] e = false.
Proof. repeat (split; [vm_compute; reflexivity|]). eexists. split; vm_compute; reflexivity. Qed.
