(* ===== verification/Pilot.v ===== *)
(** [phase8/campaign/pilot.py]: deploying, measuring and judging one cell, and
    the pilot that walks the planned limits and derives a bracket.

    [argparse] is outside the model: [main] starts from the parsed arguments. *)

From Stdlib Require Import ZArith Bool Ascii String Lia SpecFloat Sorted.
From stdpp Require Import base list strings option.
From S2P Require Import Prelude Eff PyStr PyFloat PyVal PyText Json PyConv World Bracket Slo RenderCell K8s.

Open Scope string_scope.
Open Scope Z_scope.

Definition USEC_PER_SECOND : Z := 1000000.

Record CgroupSample : Type := {
  at_seconds : float;
  nr_periods : Z;
  nr_throttled : Z;
  throttled_usec : Z;
  usage_usec : Z
}.

Record CellResult : Type := {
  cr_cell : string;
  cr_limit_millicores : Z;
  cr_request_millicores : Z;
  cr_node : pyval;
  cr_node_capacity_millicores : Z;
  cr_outcome : string;
  cr_reason : string;
  cr_loadgen : pyval;
  cr_cgroup : pydict;
  cr_wall_seconds : float
}.

(** ** Counters of the cell's control group *)

(** One line of [cpu.stat]: lines without two fields, or whose second field is
    no number, are skipped. *)
Definition cpu_stat_line (values : pydict) (line : string) : pydict :=
  match words line with
  | [key; value] => match py_int value with Some n => dset key (VInt n) values | None => values end
  | _ => values
  end.

Definition parse_cpu_stat (raw : string) : pydict :=
  fold_left cpu_stat_line (splitlines raw) [].

Definition required_counters : list string :=
  ["usage_usec"; "nr_periods"; "nr_throttled"; "throttled_usec"].

(** A counter that is known to be present. *)
Definition counter (k : string) (values : pydict) : result Z :=
  match dget k values with Some (VInt n) => Ok n | _ => Raise (Exn KeyError k) end.

Definition check_counters (raw : string) (values : pydict) : result unit :=
  iterM (fun required =>
           raise_if (negb (dmem required values)) KubernetesError
             ("cpu.stat is missing " +:+ required +:+ ": " +:+ str_take 200 (strip raw)))
        required_counters.

(** [n / x] for an integer and a float. *)
Definition div_int_float (n : Z) (x : float) : result float :=
  let* f := float_of_Z n in fdiv f x.

Definition derive_cpu_metrics (before after : CgroupSample) (limit_millicores : Z) : result pydict :=
  let elapsed := fsub (at_seconds after) (at_seconds before) in
  raise_if (fleb_Z elapsed 0) KubernetesError "cgroup samples are not ordered in time" ;;;
  let throttled_delta := throttled_usec after - throttled_usec before in
  let usage_delta := usage_usec after - usage_usec before in
  let periods_delta := nr_periods after - nr_periods before in
  raise_if ((throttled_delta <? 0) || (usage_delta <? 0) || (periods_delta <? 0)) KubernetesError
    "cgroup counters decreased; the container was replaced" ;;;
  let* usec := float_of_Z USEC_PER_SECOND in
  let* ratio := div_int_float throttled_delta (fmul elapsed usec) in
  let* thr := div_int_float throttled_delta elapsed in
  let* thr := fdiv thr (flit 1000 1) in
  let* usage := div_int_float usage_delta elapsed in
  let* usage := fdiv usage (flit 1000 1) in
  let* limit := float_of_Z limit_millicores in
  let* periods := float_of_Z periods_delta in
  let* throttled := float_of_Z (nr_throttled after - nr_throttled before) in
  Ok [ ("throttle_ratio", VFloat (fmin (flit 1 1) ratio));
       ("throttled_ms_per_second", VFloat thr);
       ("cpu_usage_millicores", VFloat usage);
       ("cpu_limit_millicores", VFloat limit);
       ("periods", VFloat periods);
       ("periods_throttled", VFloat throttled);
       ("elapsed_seconds", VFloat elapsed) ].

(** ** From the load generator's report to an observation *)

(** [float(v[k]) if k in v else None] *)
Definition optional_float (k : string) (v : pyval) : result (option float) :=
  let* present := py_in k v in
  if present then let* x := py_index k v in let* f := float_of_val x in Ok (Some f) else Ok None.

(** [cpu.get(k)] in the dictionary of floats. *)
Definition cpu_get (k : string) (cpu : pydict) : option float :=
  match dget k cpu with Some (VFloat f) => Some f | _ => None end.

(** [target_reached] is a parameter of the Python function as well; its body
    does not use it.  The local [availability] is only bound when requests
    completed. *)
Definition observation_from (loadgen : pyval) (cpu : pydict) (target_reached : option bool)
    : result Observation :=
  let* l := attr_get "latency_ms" loadgen in
  let latency := py_or l (VDict []) in
  let* c := attr_get_or "completed" (VInt 0) loadgen in
  let* completed := int_of_val c in
  let* e := attr_get_or "errors" (VInt 0) loadgen in
  let* errors := int_of_val e in
  let* availability :=
    (if 0 <? completed then
       let* q := truediv errors completed in Ok (Some (fsub (flit 1 1) q))
     else Ok None) in
  let* p50 := optional_float "p50" latency in
  let* p99 := optional_float "p99" latency in
  let* rps := optional_float "achieved_rate_rps" loadgen in
  let* err := optional_float "error_ratio" loadgen in
  match availability with
  | None => Raise (Exn UnboundLocalError "availability")
  | Some a =>
      let* valid := attr_get_or "valid" (VBool false) loadgen in
      let* reason := attr_get "invalid_reason" loadgen in
      Ok {| p50_latency_ms := p50; p99_latency_ms := p99; throughput_rps := rps;
            error_ratio := err; availability_ratio := Some a;
            cpu_usage_millicores := cpu_get "cpu_usage_millicores" cpu;
            throttled_ms_per_second := cpu_get "throttled_ms_per_second" cpu;
            completed_requests := completed; loadgen_valid := truthy valid;
            loadgen_invalid_reason := py_str (py_or reason (VStr ""));
            Slo.target_reached := None |}
  end.

(** [f"{v}"] of [s.get('state', {}).get('waiting', {}) or {}).get('reason', ...)] *)
Definition describe_container (s : pyval) : result string :=
  let* name := attr_get "name" s in
  let* state := attr_get_or "state" (VDict []) s in
  let* waiting := attr_get_or "waiting" (VDict []) state in
  let* reason := attr_get_or "reason" (VStr "not-ready") (py_or waiting (VDict [])) in
  Ok (py_str name +:+ "=" +:+ py_str reason).

Definition describe_pod_state (pod : pyval) : result string :=
  if is_None pod then Ok "pod absent"
  else
    let* status := attr_get_or "status" (VDict []) pod in
    let* phase := attr_get_or "phase" (VStr "unknown") status in
    let* cs := attr_get "containerStatuses" status in
    let* statuses := py_iter (py_or cs (VList [])) in
    let* waits := mapM describe_container statuses in
    let text := join "," waits in
    Ok ("phase=" +:+ py_str phase +:+ " containers=" +:+ (if is_empty text then "none" else text)).

(** [workdir / name] for a name without a slash. *)
Definition path_join (dir name : string) : string :=
  if endswith "/" dir then dir +:+ name else dir +:+ "/" +:+ name.
(** [path.parent] *)
Definition path_parent (path : string) : string :=
  match rpartition "/" path with
  | Some (p, _) => if is_empty p then "/" else p
  | None => "."
  end.

(** [min(t, max(0.1, deadline - now))] for the time left before a deadline. *)
Definition remaining (deadline now : float) : float := fmax (flit 1 10) (fsub deadline now).

Definition load_argv (binary url mix : string) (rate : float)
    (duration_seconds warmup_seconds timeout_ms : Z) : list string :=
  [binary; "--url"; url; "--mode"; "open"; "--rate"; format_g rate;
   "--duration-secs"; str_of_Z duration_seconds; "--warmup-secs"; str_of_Z warmup_seconds;
   "--mix"; mix; "--timeout-ms"; str_of_Z timeout_ms].

(** The timeout of the load generator's process. *)
Definition process_timeout (duration_seconds warmup_seconds : Z) (timeout_seconds : option float)
    : result pyval :=
  let t := VInt (duration_seconds + warmup_seconds + 120) in
  match timeout_seconds with
  | None => Ok t
  | Some s =>
      let b := VFloat (fmax (flit 1 10) s) in
      let* less := py_lt b t in Ok (if less then b else t)
  end.

Definition exec_argv (kube_bin kubeconfig pod_name container : string) (command : list string)
    : list string :=
  ([kube_bin; "--kubeconfig=" +:+ kubeconfig; "-n"; NAMESPACE; "exec"; pod_name; "-c"; container; "--"]
   ++ command)%list.

Section Pilot.
Context `{Env}.
Context (yaml_load : string -> result pyval) (yaml_load_all : string -> result (list pyval)).
(** Fuel of the waiting loops, and the text of the workload template. *)
Context (fuel : nat) (template : string).

Definition log (message : string) : M unit := perform (Log ("[pilot] " +:+ message)).

Definition find_kubectl : M string :=
  let! c := perform (Run ["bash"; "-lc"; "command -v kubectl"] None) in
  let binary := strip (stdout c) in
  throw_if (is_empty binary) SystemExit "kubectl was not found on PATH" >>>
  ret binary.

(** [any(subset.get("addresses") for subset in ...)] as the loop finds it. *)
Definition has_addresses (endpoints : pyval) : result bool :=
  let* subsets := attr_get "subsets" endpoints in
  let* l := py_iter (py_or subsets (VList [])) in
  anyM (fun s => let* a := attr_get "addresses" s in Ok (truthy a)) l.

Definition endpoints_turn (client : ApiClient) (service : string) (deadline : float)
    : M (unit + bool) :=
  let! now := perform Monotonic in
  if fltb now deadline then
    let! endpoints := expect client "GET"
      ("/api/v1/namespaces/" +:+ NAMESPACE +:+ "/endpoints/" +:+ service) NoBody in
    let! found := lift (has_addresses endpoints) in
    if (found : bool) then ret (inr true)
    else perform (Sleep (flit 1 2)) >>> ret (inl tt)
  else ret (inr false).

Definition wait_for_endpoints (client : ApiClient) (service : string) (timeout_seconds : float)
    : M unit :=
  let! now := perform Monotonic in
  let deadline := fadd now timeout_seconds in
  let! found := loop fuel (fun _ => endpoints_turn client service deadline) tt in
  throw_if (negb found) KubernetesError
    ("service " +:+ service +:+ " has no ready endpoints after " +:+ format_f 0 timeout_seconds +:+ "s").

(** The state of the loop is [last_state]; it is left with the ready pod, or
    with [inr] the last state at the deadline. *)
Definition cell_turn (client : ApiClient) (cell : string) (deadline : float) (last_state : string)
    : M (string + (pyval + string)) :=
  let! now := perform Monotonic in
  if fltb now deadline then
    let! pod := cell_pod client cell in
    if is_None pod then perform (Sleep (flit 1 1)) >>> ret (inl "not created")
    else
      let! ready := lift (pod_ready pod) in
      if (ready : bool) then ret (inr (inl pod))
      else
        let! state := lift (describe_pod_state pod) in
        perform (Sleep (flit 1 1)) >>> ret (inl state)
  else ret (inr (inr last_state)).

Definition wait_for_cell (client : ApiClient) (cell : string) (timeout_seconds : float) : M pyval :=
  let! now := perform Monotonic in
  let deadline := fadd now timeout_seconds in
  let! r := loop fuel (cell_turn client cell deadline) "not created" in
  match r with
  | inl pod => ret pod
  | inr last_state =>
      throw KubernetesError
        ("cell " +:+ cell +:+ " not ready after " +:+ format_f 0 timeout_seconds +:+ "s: " +:+ last_state)
  end.

Definition warm_up (url : string) (samples : nat) : M unit :=
  forM (replicate samples tt) (fun _ =>
    let! (status, _) := perform (UrlOpen (url +:+ "/work") 10) in
    throw_if (negb (status =? 200)) KubernetesError
      ("warm-up request returned " +:+ str_of_Z status +:+ "; the cell is not serving")).

Definition fetch_meta (url : string) : M pyval :=
  let! (_, body) := perform (UrlOpen (url +:+ "/meta") 10) in lift (json_loads body).

Definition run_loadgen (binary url mix : string) (rate : float)
    (duration_seconds warmup_seconds timeout_ms : Z) (timeout_seconds : option float) : M pyval :=
  let! t := lift (process_timeout duration_seconds warmup_seconds timeout_seconds) in
  let! c := perform (Run (load_argv binary url mix rate duration_seconds warmup_seconds timeout_ms) (Some t)) in
  throw_if (negb ((returncode c =? 0) || (returncode c =? 3))) KubernetesError
    ("load generator failed: exit " +:+ str_of_Z (returncode c) +:+ ": " +:+ str_take 2000 (strip (stderr c))) >>>
  throw_if (is_empty (strip (stdout c))) KubernetesError
    ("load generator produced no report: " +:+ str_take 2000 (strip (stderr c))) >>>
  lift (json_loads (stdout c)).

Definition exec_in_container (kube_bin kubeconfig pod_name container : string) (command : list string)
    : M string :=
  let! c := perform (Run (exec_argv kube_bin kubeconfig pod_name container command) (Some (VInt 30))) in
  throw_if (negb (returncode c =? 0)) KubernetesError
    ("exec " +:+ py_repr (VList (VStr <$> command)) +:+ " in " +:+ pod_name +:+ "/" +:+ container
     +:+ " failed: " +:+ str_take 500 (strip (stderr c))) >>>
  ret (stdout c).

Definition sample_cgroup (kube_bin kubeconfig pod_name : string) : M CgroupSample :=
  let! raw := exec_in_container kube_bin kubeconfig pod_name "app" ["cat"; "/sys/fs/cgroup/cpu.stat"] in
  let values := parse_cpu_stat raw in
  lift (check_counters raw values) >>>
  let! now := perform Monotonic in
  lift (let* p := counter "nr_periods" values in
        let* t := counter "nr_throttled" values in
        let* tu := counter "throttled_usec" values in
        let* u := counter "usage_usec" values in
        Ok {| at_seconds := now; nr_periods := p; nr_throttled := t; throttled_usec := tu;
              usage_usec := u |}).

(** [min(t, max(0.1, deadline - time.monotonic()))] when there is a deadline. *)
Definition bounded_timeout (t : float) (deadline : option float) : M float :=
  match deadline with
  | None => ret t
  | Some d => let! now := perform Monotonic in ret (fmin t (remaining d now))
  end.

(** [while True: try: meta = fetch_meta(url); break except OSError: ...] *)
Definition meta_turn (url : string) (ready_deadline : float) : M (unit + pyval) :=
  try_except (let! meta := fetch_meta url in ret (inr meta)) [OSError]
    (fun _ =>
       let! now := perform Monotonic in
       throw_if (fltb ready_deadline now) KubernetesError "service /meta did not answer" >>>
       perform (Sleep (flit 1 2)) >>> ret (inl tt)).

(** What the measurement inside the port-forward yields. *)
Record measurement : Type := {
  ms_report : pyval;
  ms_before : CgroupSample;
  ms_after : CgroupSample
}.

(** The body of [with PortForward(...)]. *)
Definition measure_served (kube_bin kubeconfig loadgen : string) (cell : CellSpec) (pod : pyval)
    (rate_rps : float) (duration_seconds warmup_seconds local_port timeout_ms : Z)
    (deadline : option float) : M measurement :=
  let url := "http://127.0.0.1:" +:+ str_of_Z local_port in
  let! now := perform Monotonic in
  let t := fadd now (flit 60 1) in
  let ready_deadline := match deadline with Some d => fmin t d | None => t end in
  let! meta := loop fuel (fun _ => meta_turn url ready_deadline) tt in
  let! m := lift (attr_get "mix" meta) in
  throw_if (negb (py_eq m (VStr (mix cell)))) KubernetesError
    ("service reports mix " +:+ py_repr m +:+ " but the cell declares " +:+ repr_str (mix cell)) >>>
  warm_up url 30 >>>
  let! pod_name := lift (let* md := py_index "metadata" pod in
                         let* name := py_index "name" md in path_of name) in
  let! before := sample_cgroup kube_bin kubeconfig pod_name in
  let! time_left :=
    match deadline with
    | Some d => let! now := perform Monotonic in ret (Some (remaining d now))
    | None => ret None
    end in
  let! report := run_loadgen loadgen url (mix cell) rate_rps duration_seconds warmup_seconds
                   timeout_ms time_left in
  let! after := sample_cgroup kube_bin kubeconfig pod_name in
  ret {| ms_report := report; ms_before := before; ms_after := after |}.

(** The body of [try: ... finally: delete_cell(...)]. *)
Definition deploy_and_measure (kube_bin kubeconfig loadgen : string) (client : ApiClient)
    (cell : CellSpec) (manifest_path : string) (rate_rps : float)
    (duration_seconds warmup_seconds local_port timeout_ms : Z) (deadline : option float)
    : M (pyval * Z * measurement) :=
  let! text := perform (ReadText manifest_path) in
  let! docs := lift (documents yaml_load_all text) in
  forM docs (apply_document client) >>>
  let! readiness_timeout := bounded_timeout (flit 240 1) deadline in
  let! pod := wait_for_cell client (K8s.cell cell) readiness_timeout in
  let! node := lift (pod_node pod) in
  let! node_capacity := node_capacity_millicores client (py_str node) in
  let! endpoint_timeout := bounded_timeout (flit 60 1) deadline in
  wait_for_endpoints client ("bench-" +:+ K8s.cell cell) endpoint_timeout >>>
  let! m := with_port_forward fuel
    {| pf_kubectl := kube_bin; pf_kubeconfig := kubeconfig;
       pf_target := "svc/bench-" +:+ K8s.cell cell; pf_remote_port := 8080;
       pf_local_port := local_port; pf_ready_path := "/healthz"; pf_namespace := NAMESPACE |}
    (measure_served kube_bin kubeconfig loadgen cell pod rate_rps duration_seconds warmup_seconds
       local_port timeout_ms deadline) in
  ret (node, node_capacity, m).

(** The verdict on a finished measurement. *)
Definition judge (cell : CellSpec) (slo : Slo) (m : measurement)
    : result (pydict * Outcome * string) :=
  let* cpu := derive_cpu_metrics (ms_before m) (ms_after m) (cpu_limit_millicores cell) in
  let* observation := observation_from (ms_report m) cpu (Some true) in
  let* (outcome, reason) := verdict observation slo in
  Ok (cpu, outcome, reason).

Definition measure_cell (kube_bin kubeconfig loadgen : string) (cell : CellSpec) (rate_rps : float)
    (slo : Slo) (duration_seconds warmup_seconds local_port timeout_ms : Z) (workdir : string)
    (deadline : option float) : M CellResult :=
  let! started := perform Monotonic in
  let manifest_path := path_join workdir (K8s.cell cell +:+ ".yaml") in
  let! text := lift (manifest template cell) in
  perform (WriteText manifest_path text) >>>
  let! client := ApiClient_init yaml_load kubeconfig VNone in
  let! (node, node_capacity, m) :=
    try_finally
      (deploy_and_measure kube_bin kubeconfig loadgen client cell manifest_path rate_rps
         duration_seconds warmup_seconds local_port timeout_ms deadline)
      (delete_cell kube_bin kubeconfig manifest_path) in
  let! (cpu, outcome, reason) := lift (judge cell slo m) in
  let! now := perform Monotonic in
  ret {| cr_cell := K8s.cell cell; cr_limit_millicores := cpu_limit_millicores cell;
         cr_request_millicores := cpu_request_millicores cell; cr_node := node;
         cr_node_capacity_millicores := node_capacity; cr_outcome := outcome_value outcome;
         cr_reason := reason; cr_loadgen := ms_report m; cr_cgroup := cpu;
         cr_wall_seconds := fsub now started |}.

(** ** The pilot *)

(** [workers.sort(key=lambda item: item[1], reverse=True)], stable. *)
Definition by_capacity (x y : pyval * Z) : bool := snd y <=? snd x.

Fixpoint collect_workers (nodes : list pyval) (workers : list (pyval * Z)) : M (list (pyval * Z)) :=
  match nodes with
  | [] => ret workers
  | node :: rest =>
      let! name := lift (let* md := py_index "metadata" node in py_index "name" md) in
      let! request_only := lift (let* taints := taints_of node in is_request_only_node taints) in
      if (request_only : bool) then
        log ("skipping control-plane node " +:+ py_str name) >>> collect_workers rest workers
      else
        let! cpu := lift (allocatable_cpu node) in
        collect_workers rest (workers ++ [(name, cpu)])
  end.

Definition cluster_capacity (client : ApiClient) : M (list (pyval * Z)) :=
  let! listing := expect client "GET" "/api/v1/nodes" NoBody in
  let! nodes := lift (let* items := py_index "items" listing in py_iter items) in
  let! workers := collect_workers nodes [] in
  ret (sort_by by_capacity workers).

Record Args : Type := {
  a_kubeconfig : string;
  a_loadgen : string;
  a_mix : string;
  a_rate : float;
  a_duration_seconds : Z;
  a_warmup_seconds : Z;
  a_timeout_ms : Z;
  a_slo_p99_ms : float;
  a_slo_min_rps : option float;
  a_slo_max_error_ratio : float;
  a_slo_min_availability : float;
  a_min_limit_millicores : Z;
  a_max_limit_millicores : Z;
  a_growth : float;
  a_max_cells : Z;
  a_deadline_seconds : float;
  a_cpu_request_millicores : option Z;
  a_cpu_iterations : Z;
  a_out : string;
  a_workdir : string
}.

(** The bounds on the arguments. *)
Definition check_args (args : Args) : result unit :=
  raise_if (negb (fgtb_Z (a_deadline_seconds args) 0 && fleb_Z (a_deadline_seconds args) 60))
    SystemExit "--deadline-seconds must be greater than 0 and at most 60" ;;;
  raise_if ((a_max_cells args <? 1) || (2 <? a_max_cells args))
    SystemExit "--max-cells must be between 1 and 2 for the bounded pilot" ;;;
  raise_if (negb ((0 <? a_max_limit_millicores args) && (a_max_limit_millicores args <=? 250)))
    SystemExit "--max-limit-millicores must be between 1m and 250m".

Definition slo_of_args (args : Args) : result Slo :=
  let min_rps := match a_slo_min_rps args with
                 | Some r => r
                 | None => fmul (a_rate args) (flit 95 100)
                 end in
  make_slo (a_slo_p99_ms args) min_rps (a_slo_max_error_ratio args) (a_slo_min_availability args).

(** [args.cpu_request_millicores or limits[0]], with its two checks. *)
Definition choose_request (args : Args) (limits : list Z) : result Z :=
  let* smallest := match limits with l :: _ => Ok l | [] => Raise (Exn IndexError "") end in
  let request := match a_cpu_request_millicores args with
                 | Some r => if r =? 0 then smallest else r
                 | None => smallest
                 end in
  raise_if (300 <? request) SystemExit
    "--cpu-request-millicores exceeds the 300m active pilot budget" ;;;
  raise_if (smallest <? request) SystemExit
    ("--cpu-request-millicores (" +:+ str_of_Z request +:+ "m) exceeds the smallest planned limit ("
     +:+ str_of_Z smallest +:+ "m); the API server would reject every cell") ;;;
  Ok request.

Definition outcome_of_value (s : string) : result Outcome :=
  if String.eqb s "meets-slo" then Ok MEETS_SLO
  else if String.eqb s "breaches-slo" then Ok BREACHES_SLO
  else if String.eqb s "invalid" then Ok INVALID
  else Raise (Exn ValueError (repr_str s +:+ " is not a valid Outcome")).

Definition trial_of (item : CellResult) : result Trial :=
  let* o := outcome_of_value (cr_outcome item) in
  Ok {| limit_millicores := cr_limit_millicores item; outcome := o; reason := cr_reason item |}.

(** [try: bracket = evaluate_trials(...) except PilotError as error: ...] *)
Definition try_bracket (results : list CellResult) (node_capacity : Z)
    : result (option Bracket * string) :=
  let* trials := mapM trial_of results in
  match evaluate_trials trials node_capacity with
  | Ok b => Ok (Some b, "")
  | Raise e => if caught_by [PilotError] e then Ok (None, exn_msg e) else Raise e
  end.

(** The progress message on a measured cell. *)
Definition progress (r : CellResult) : result string :=
  let* latency := attr_get_or "latency_ms" (VDict []) (cr_loadgen r) in
  let* p99 := attr_get "p99" latency in
  let* rps := attr_get_or "achieved_rate_rps" (VInt 0) (cr_loadgen r) in
  let* rps := format_val_f 1 rps in
  let* thr := format_val_f 0 (dget_or "throttled_ms_per_second" (VInt 0) (cr_cgroup r)) in
  Ok ("  -> " +:+ cr_outcome r +:+ ": p99=" +:+ py_str p99 +:+ "ms rps=" +:+ rps
      +:+ " throttled=" +:+ thr +:+ "ms/s [" +:+ cr_reason r +:+ "]").

Definition failed_cell (cell : CellSpec) (limit node_capacity : Z) (e : exn) : CellResult :=
  {| cr_cell := K8s.cell cell; cr_limit_millicores := limit;
     cr_request_millicores := cpu_request_millicores cell; cr_node := VStr "";
     cr_node_capacity_millicores := node_capacity; cr_outcome := outcome_value INVALID;
     cr_reason := "measurement failed: " +:+ exn_msg e; cr_loadgen := VDict []; cr_cgroup := [];
     cr_wall_seconds := fzero |}.

(** What the loop over the limits leaves: results, bracket, pilot error. *)
Definition walked : Type := (list CellResult * option Bracket * string)%type.

Fixpoint walk_limits (args : Args) (kube_bin run_id : string) (slo : Slo)
    (request node_capacity : Z) (deadline : float) (total : nat)
    (todo : list (nat * Z)) (results : list CellResult) : M walked :=
  match todo with
  | [] => ret (results, None, "")
  | (index, limit) :: rest =>
      let! now := perform Monotonic in
      if fleb deadline now then
        ret (results, None, "pilot end-to-end deadline reached before starting next cell")
      else
        let cell := make_cell (run_id +:+ "-" +:+ str_of_Z limit +:+ "m") (a_mix args) limit
                      (Z.min request limit) (a_cpu_iterations args) in
        log ("cell " +:+ str_of_Z (Z.of_nat index + 1) +:+ "/" +:+ str_of_Z (Z.of_nat total)
             +:+ ": limit=" +:+ str_of_Z limit +:+ "m request="
             +:+ str_of_Z (cpu_request_millicores cell) +:+ "m") >>>
        let! measured :=
          try_except
            (let! r := measure_cell kube_bin (a_kubeconfig args) (a_loadgen args) cell (a_rate args)
                         slo (a_duration_seconds args) (a_warmup_seconds args) 18080
                         (a_timeout_ms args) (a_workdir args) (Some deadline) in
             ret (inl r))
            [KubernetesError; OSError; RuntimeError]
            (fun e =>
               log ("cell " +:+ str_of_Z limit +:+ "m failed to measure: " +:+ exn_msg e) >>>
               ret (inr (failed_cell cell limit node_capacity e))) in
        match measured with
        | inr failed =>
            walk_limits args kube_bin run_id slo request node_capacity deadline total rest
              (results ++ [failed])
        | inl result =>
            let results := (results ++ [result])%list in
            let! message := lift (progress result) in
            log message >>>
            if String.eqb (cr_outcome result) (outcome_value MEETS_SLO) then
              let! (bracket, pilot_error) := lift (try_bracket results node_capacity) in
              (if is_none bracket then log ("bracket unavailable: " +:+ pilot_error) else ret tt) >>>
              ret (results, bracket, pilot_error)
            else
              walk_limits args kube_bin run_id slo request node_capacity deadline total rest results
        end
  end.

Definition cell_json (r : CellResult) : pyval :=
  VDict [ ("cell", VStr (cr_cell r)); ("limit_millicores", VInt (cr_limit_millicores r));
          ("request_millicores", VInt (cr_request_millicores r)); ("node", cr_node r);
          ("node_capacity_millicores", VInt (cr_node_capacity_millicores r));
          ("outcome", VStr (cr_outcome r)); ("reason", VStr (cr_reason r));
          ("loadgen", cr_loadgen r); ("cgroup", VDict (cr_cgroup r));
          ("wall_seconds", VFloat (cr_wall_seconds r)) ].

Definition slo_json (s : Slo) : pyval :=
  VDict [ ("max_p99_latency_ms", VFloat (max_p99_latency_ms s));
          ("min_throughput_rps", VFloat (min_throughput_rps s));
          ("max_error_ratio", VFloat (max_error_ratio s));
          ("min_availability_ratio", VFloat (min_availability_ratio s)) ].

Definition bracket_json (b : option Bracket) : pyval :=
  match b with
  | None => VNone
  | Some b =>
      VDict [ ("passing_millicores", VInt (passing_millicores b));
              ("failing_below_millicores",
                match failing_below_millicores b with Some f => VInt f | None => VNone end);
              ("stop", VStr (stop_value (stop b)));
              ("node_capacity_millicores", VInt (Bracket.node_capacity_millicores b)) ]
  end.

Definition pilot_report (args : Args) (run_id created_at : string) (slo : Slo) (limits : list Z)
    (request node_capacity : Z) (workers : list (pyval * Z)) (results : list CellResult)
    (bracket : option Bracket) (pilot_error : string) : pyval :=
  VDict [ ("run_id", VStr run_id); ("created_at", VStr created_at);
          ("mixed", VDict [ ("slo", slo_json slo); ("rate_rps", VFloat (a_rate args));
                            ("duration_seconds", VInt (a_duration_seconds args));
                            ("warmup_seconds", VInt (a_warmup_seconds args));
                            ("cpu_iterations", VInt (a_cpu_iterations args));
                            ("planned_limits_millicores", VList (VInt <$> limits));
                            ("deadline_seconds", VFloat (a_deadline_seconds args));
                            ("max_active_request_millicores", VInt request);
                            ("node_capacity_millicores", VInt node_capacity) ]);
          ("workers", VList ((fun w => VDict [("name", fst w); ("allocatable_millicores", VInt (snd w))])
                              <$> workers));
          ("cells", VList (cell_json <$> results));
          ("bracket", bracket_json bracket);
          ("error", if is_empty pilot_error then VNone else VStr pilot_error) ].

(** The final message and the exit status. *)
Definition conclude (bracket : option Bracket) (pilot_error : string) : M Z :=
  match bracket with
  | None => log ("pilot produced no bracket: " +:+ pilot_error) >>> ret 4
  | Some b =>
      let failing := match failing_below_millicores b with
                     | Some f => str_of_Z f +:+ "m"
                     | None => "not measured"
                     end in
      log ("bracket: passing " +:+ str_of_Z (passing_millicores b) +:+ "m, failing below "
           +:+ failing +:+ ", stop=" +:+ stop_value (stop b)) >>>
      ret 0
  end.

Definition main (args : Args) : M Z :=
  lift (check_args args) >>>
  let! now := perform Monotonic in
  let deadline := fadd now (a_deadline_seconds args) in
  let! kube_bin := find_kubectl in
  perform (MakeDirs (a_workdir args)) >>>
  let! slo := lift (slo_of_args args) in
  let! client := ApiClient_init yaml_load (a_kubeconfig args) VNone in
  let! workers := cluster_capacity client in
  let! node_capacity :=
    match workers with
    | [] => throw SystemExit "no schedulable worker nodes found"
    | (_, c) :: _ => ret c
    end in
  log ("worker nodes (allocatable CPU): "
       +:+ join ", " ((fun w => py_str (fst w) +:+ "=" +:+ str_of_Z (snd w) +:+ "m") <$> workers)) >>>
  let! limits := lift (plan_limits (a_min_limit_millicores args)
                         (Z.min node_capacity (a_max_limit_millicores args)) (a_growth args)
                         (a_max_cells args)) in
  log ("planned limits: " +:+ join ", " ((fun l => str_of_Z l +:+ "m") <$> limits)) >>>
  let! request := lift (choose_request args limits) in
  let! now := perform UtcNow in
  let! token := perform (TokenHex 2) in
  let run_id := "p" +:+ stamp now +:+ token in
  let! (results, bracket, pilot_error) :=
    walk_limits args kube_bin run_id slo request node_capacity deadline (length limits)
      (enumerate limits) [] in
  let! (bracket, pilot_error) :=
    (if is_none bracket && is_empty pilot_error then lift (try_bracket results node_capacity)
     else ret (bracket, pilot_error)) in
  let! created := perform UtcNow in
  perform (MakeDirs (path_parent (a_out args))) >>>
  perform (WriteText (a_out args)
    (json_indent false (pilot_report args run_id (isoformat created) slo limits request node_capacity
       workers results bracket pilot_error) +:+ newline)) >>>
  log ("wrote " +:+ a_out args) >>>
  conclude bracket pilot_error.
End Pilot.
