(* ===== verification/PilotThm.v ===== *)
(** What holds of the pilot ([Pilot.v]) against every world: cells and
    port-forwards are released on every path, a cell's outcome is the verdict
    on what was measured, and the planned limits always give a bracket. *)

From Stdlib Require Import ZArith Bool Ascii String Lia SpecFloat Sorted.
From stdpp Require Import base list strings option.
From S2P Require Import Prelude Eff PyStr PyFloat PyVal PyText Json PyConv World Bracket Slo RenderCell K8s Pilot.

Open Scope string_scope.
Open Scope Z_scope.

(** ** Kinds of operations *)

(** A server-side apply of an object of the cell. *)
Definition is_apply (e : event) : bool :=
  match event_op e with HttpRequest method _ _ _ => String.eqb method "PATCH" | _ => false end.

Definition quiet (e : event) : Prop := is_apply e = false.

(** Every operation of kind [start] is followed by one of kind [release]. *)
Definition released (start release : event -> Prop) (ev : history) : Prop :=
  forall pre e post, ev = (pre ++ e :: post)%list -> start e -> Exists release post.

Section Released.
Context (start release : event -> Prop).

Lemma released_none ev : Forall (fun e => ~ start e) ev -> released start release ev.
Proof.
  intros Hn pre e post -> He. apply Forall_app in Hn as [_ Hn].
  inversion Hn; subst. contradiction.
Qed.

Lemma released_app ev1 ev2 :
  released start release ev1 -> released start release ev2 -> released start release (ev1 ++ ev2).
Proof.
  intros H1 H2 pre e post E He. symmetry in E. apply app_eq_app in E as [k [[-> E]|[-> E]]].
  - by eapply H2.
  - destruct k as [|x k]; simpl in E.
    + eapply (H2 []); [by symmetry|done].
    + injection E as <- ->. apply Exists_app. left. by eapply H1.
Qed.

(** A release at the end covers everything before it. *)
Lemma released_snoc ev r : release r -> ~ start r -> released start release (ev ++ [r]).
Proof.
  intros Hr Hs pre e post E He. destruct post as [|x post] using rev_ind.
  - apply app_inj_tail in E as [-> ->]. contradiction.
  - clear IHpost. rewrite app_comm_cons, app_assoc in E. apply app_inj_tail in E as [_ <-].
    apply Exists_app. right. by constructor.
Qed.
End Released.

(** ** No part of the code but [apply_document] applies anything *)

Section Quiet.
Context `{Env}.
Context (yaml_load : string -> result pyval) (yaml_load_all : string -> result (list pyval)).
Context (fuel : nat) (template : string).

Lemma quiet_request client method path body ct :
  String.eqb method "PATCH" = false -> only quiet (request client method path body ct).
Proof. intros Hm. unfold request. solve_only; done. Qed.

Lemma quiet_expect client path body : only quiet (expect client "GET" path body).
Proof. unfold expect. apply only_bind; [by apply quiet_request|intros [? ?]]. solve_only. Qed.

Lemma quiet_pf_exit : only quiet pf_exit.
Proof. unfold pf_exit. solve_only; done. Qed.

Lemma quiet_with_pf {A} p (body : M A) : only quiet body -> only quiet (with_port_forward fuel p body).
Proof.
  intros Hb. unfold with_port_forward, pf_enter, pf_turn. pose proof quiet_pf_exit.
  solve_only; done.
Qed.

Lemma quiet_wait_for_cell client cell t : only quiet (wait_for_cell fuel client cell t).
Proof.
  unfold wait_for_cell, cell_turn, cell_pod. pose proof quiet_expect. solve_only; done.
Qed.

Lemma quiet_wait_for_endpoints client service t : only quiet (wait_for_endpoints fuel client service t).
Proof. unfold wait_for_endpoints, endpoints_turn. pose proof quiet_expect. solve_only; done. Qed.

Lemma quiet_sample kube_bin kubeconfig pod : only quiet (sample_cgroup kube_bin kubeconfig pod).
Proof. unfold sample_cgroup, exec_in_container. solve_only; done. Qed.

Lemma quiet_measure_served kube_bin kubeconfig loadgen cell pod rate d w port tms dl :
  only quiet (measure_served fuel kube_bin kubeconfig loadgen cell pod rate d w port tms dl).
Proof.
  unfold measure_served, meta_turn, fetch_meta, warm_up, run_loadgen. pose proof quiet_sample.
  solve_only; done.
Qed.

Lemma quiet_client kubeconfig context : only quiet (ApiClient_init yaml_load kubeconfig context).
Proof. unfold ApiClient_init, kubeconfig_read, materialise. solve_only; done. Qed.
End Quiet.

(** ** Cells are removed *)

(** The [kubectl delete] of the cell's manifest. *)
Definition deletes (kube_bin kubeconfig manifest_path : string) (e : event) : Prop :=
  e = Event (Run (delete_argv kube_bin kubeconfig manifest_path) None).

Section Cleanup.
Context `{Env}.
Context (start release : event -> Prop).

Lemma emits_released_bind {A B} (m : M A) (k : A -> M B) :
  emits (fun ev _ => released start release ev) m ->
  (forall a, emits (fun ev _ => released start release ev) (k a)) ->
  emits (fun ev _ => released start release ev) (mbindM m k).
Proof.
  intros Hm Hk. eapply (emits_bind _ (fun _ ev _ => released start release ev)); [exact Hm|done| |done].
  intros. by apply released_app.
Qed.

Lemma only_released {A} (m : M A) :
  only (fun e => ~ start e) m -> emits (fun ev _ => released start release ev) m.
Proof. apply emits_weaken. intros ev _. apply released_none. Qed.
End Cleanup.

Lemma only_weaken {A} (P P' : event -> Prop) (m : M A) :
  (forall e, P e -> P' e) -> only P m -> only P' m.
Proof. intros HP. apply emits_weaken. intros ev _. by apply Forall_impl. Qed.

Section CellCleanup.
Context `{Env}.
Context (yaml_load : string -> result pyval) (yaml_load_all : string -> result (list pyval)).
Context (fuel : nat) (template : string).

Lemma quiet_any {A} (m : M A) : only quiet m -> only (fun _ => True) m.
Proof. by apply only_weaken. Qed.

Lemma deploy_and_measure_appends kube_bin kubeconfig loadgen client cell path rate d w port tms dl :
  only (fun _ => True)
    (deploy_and_measure yaml_load_all fuel kube_bin kubeconfig loadgen client cell path rate d w
       port tms dl).
Proof.
  unfold deploy_and_measure, apply_document, request, bounded_timeout, node_capacity_millicores.
  pose proof quiet_wait_for_cell. pose proof quiet_wait_for_endpoints. pose proof quiet_expect.
  solve_only; try done; apply quiet_any; auto. apply quiet_with_pf, quiet_measure_served.
Qed.

Lemma delete_cell_emits kube_bin kubeconfig path :
  emits (fun ev _ => ev = [Event (Run (delete_argv kube_bin kubeconfig path) None)])
    (delete_cell kube_bin kubeconfig path).
Proof.
  intros h. unfold delete_cell, mbindM, perform.
  destruct (answer _ _ _); eexists; split; reflexivity.
Qed.

Lemma measure_cell_releases kube_bin kubeconfig loadgen cell rate slo d w port tms workdir dl :
  emits (fun ev _ => released (fun e => is_apply e = true)
           (deletes kube_bin kubeconfig (path_join workdir (K8s.cell cell +:+ ".yaml"))) ev)
    (measure_cell yaml_load yaml_load_all fuel template kube_bin kubeconfig loadgen cell rate slo
       d w port tms workdir dl).
Proof.
  assert (forall A (m : M A), only quiet m ->
    emits (fun ev _ => released (fun e => is_apply e = true)
      (deletes kube_bin kubeconfig (path_join workdir (K8s.cell cell +:+ ".yaml"))) ev) m) as Hq.
  { intros A m Hm. apply only_released. revert Hm. apply only_weaken. unfold quiet. congruence. }
  unfold measure_cell. apply emits_released_bind; [apply Hq; solve_only; done|intros started].
  apply emits_released_bind; [apply Hq; solve_only|intros text].
  apply emits_released_bind; [apply Hq; solve_only; done|intros _].
  apply emits_released_bind; [apply Hq, quiet_client|intros client].
  apply emits_released_bind.
  - pose proof (deploy_and_measure_appends kube_bin kubeconfig loadgen client cell
      (path_join workdir (K8s.cell cell +:+ ".yaml")) rate d w port tms dl) as Hb.
    eapply emits_finally; [exact Hb|apply delete_cell_emits| |];
      intros ev1 r ev2; cbv beta; intros; subst ev2; by apply released_snoc.
  - intros [[node cap] m]. apply Hq. solve_only; done.
Qed.

(** C1: however the world behaves, and on every path through [measure_cell],
    failures included, each object applied for a cell is followed by a
    [kubectl delete] of that cell's manifest. *)
Theorem measure_cell_never_leaks kube_bin kubeconfig loadgen cell rate slo d w port tms workdir dl h :
  exists ev,
    snd (measure_cell yaml_load yaml_load_all fuel template kube_bin kubeconfig loadgen cell rate
           slo d w port tms workdir dl h) = (h ++ ev)%list /\
    released (fun e => is_apply e = true)
      (deletes kube_bin kubeconfig (path_join workdir (K8s.cell cell +:+ ".yaml"))) ev.
Proof. apply measure_cell_releases. Qed.
End CellCleanup.

(** ** The waits end *)

Section Steady.
Context `{HE : Env} `{@SteadyEnv HE}.

Lemma steady_attr_get k v : steady (attr_get k v).
Proof. by destruct v. Qed.
Lemma steady_attr_get_or k v0 v : steady (attr_get_or k v0 v).
Proof. by destruct v. Qed.
Lemma steady_py_index k v : steady (py_index k v).
Proof. destruct v; try done. simpl. unfold dindex. by destruct (dget _ _). Qed.
Lemma steady_py_iter v : steady (py_iter v).
Proof. by destruct v. Qed.
Lemma steady_allM {A} (f : A -> result bool) l : (forall x, steady (f x)) -> steady (allM f l).
Proof.
  intros Hf. induction l as [|x l IH]; [done|]. apply steady_bind; [done|]. by intros [].
Qed.
Lemma steady_anyM {A} (f : A -> result bool) l : (forall x, steady (f x)) -> steady (anyM f l).
Proof.
  intros Hf. induction l as [|x l IH]; [done|]. apply steady_bind; [done|]. by intros [].
Qed.
#[local] Hint Resolve steady_attr_get steady_attr_get_or steady_py_index steady_py_iter : k8.

Lemma steady_decode_body raw : steady (decode_body raw).
Proof.
  unfold decode_body, json_loads. destruct (is_empty raw); [done|].
  destruct (parse_value _ _) as [[v r]|]; [destruct (is_empty (skip_ws r))|]; done.
Qed.

Lemma steady_expect client path : steadyM (expect client "GET" path NoBody).
Proof.
  unfold expect, request. pose proof steady_decode_body.
  apply steadyM_bind; [|intros [status decoded]; apply steadyM_bind;
    [by apply steadyM_throw_if|intros; apply steadyM_ret]].
  apply steadyM_bind; [apply steadyM_perform|intros [status raw]].
  apply steadyM_bind; [by apply steadyM_lift|intros; apply steadyM_ret].
Qed.

Lemma steady_pod_ready pod : steady (pod_ready pod).
Proof. unfold pod_ready. solve_steady. apply steady_allM. intros. solve_steady. Qed.

Lemma steady_describe pod : steady (describe_pod_state pod).
Proof. unfold describe_pod_state, describe_container. solve_steady. Qed.

Lemma steady_has_addresses v : steady (has_addresses v).
Proof. unfold has_addresses. solve_steady. apply steady_anyM. intros. solve_steady. Qed.

Lemma steady_cell_pod client cell : steadyM (cell_pod client cell).
Proof.
  unfold cell_pod. apply steadyM_bind; [apply steady_expect|intros listing].
  apply steadyM_lift. solve_steady.
Qed.

Lemma wait_for_cell_ends n timeout client cell fuel h :
  Paced (flit 1 1) timeout n -> (n < fuel)%nat ->
  steadyM_at (wait_for_cell fuel client cell timeout) h.
Proof.
  intros Hpaced Hn. unfold wait_for_cell, steadyM_at. unfold mbindM at 1, perform.
  pose proof (answer_steady float Monotonic h) as Hc.
  destruct (answer float Monotonic h) as [t0|e] eqn:E; [|done].
  apply steadyM_at_bind.
  - eapply (paced_loop (flit 1 1) timeout n); [by intros| |exact E|].
    + intros s. apply pausing_bind; [apply steady_cell_pod|intros pod].
      destruct (is_None pod); [apply pausing_sleep|].
      apply pausing_bind; [apply steadyM_lift, steady_pod_ready|intros [|]];
        [apply pausing_leave|].
      apply pausing_bind; [apply steadyM_lift, steady_describe|intros state].
      apply pausing_sleep.
    + lia.
  - intros [pod|last]; [apply steadyM_ret|by apply steadyM_throw].
Qed.

Lemma wait_for_endpoints_ends n timeout client service fuel h :
  Paced (flit 1 2) timeout n -> (n < fuel)%nat ->
  steadyM_at (wait_for_endpoints fuel client service timeout) h.
Proof.
  intros Hpaced Hn. unfold wait_for_endpoints, steadyM_at. unfold mbindM at 1, perform.
  pose proof (answer_steady float Monotonic h) as Hc.
  destruct (answer float Monotonic h) as [t0|e] eqn:E; [|done].
  apply steadyM_at_bind.
  - eapply (paced_loop (flit 1 2) timeout n _ (fun _ => false)); [by intros| |exact E|].
    + intros s. apply pausing_bind; [apply steady_expect|intros endpoints].
      apply pausing_bind; [apply steadyM_lift, steady_has_addresses|intros [|]];
        [apply pausing_leave|apply pausing_sleep].
    + lia.
  - intros b. by apply steadyM_throw_if.
Qed.

(** C39: the two waits of a cell end: if the world raises Python exceptions only
    and [n] pauses take at least the timeout, then with fuel for [n + 1] turns
    they return or raise a Python exception. *)
Theorem waits_terminate n timeout fuel :
  Paced (flit 1 1) timeout n -> Paced (flit 1 2) timeout n -> (n < fuel)%nat ->
  forall client name h,
    steadyM_at (wait_for_cell fuel client name timeout) h /\
    steadyM_at (wait_for_endpoints fuel client name timeout) h.
Proof.
  intros Hp1 Hp2 Hn client name h.
  split; [by apply (wait_for_cell_ends n)|by apply (wait_for_endpoints_ends n)].
Qed.
End Steady.

(** ** Port-forwards are released *)

(** How the parts of the world a port-forward uses behave: the clock, the
    pause and the poll answer, and a probe fails with an [OSError] only. *)
Class ForwardEnv `{Env} : Prop := {
  clock_answers : forall h, is_ok (answer float Monotonic h) = true;
  sleep_answers : forall d h, is_ok (answer unit (Sleep d) h) = true;
  poll_answers : forall h, is_ok (answer bool Poll h) = true;
  probe_fails : forall port path h e,
    answer unit (ProbeGet port path) h = Raise e -> caught_by [OSError] e = true
}.

Section Forward.
Context `{HE : Env} `{@SteadyEnv HE} `{@ForwardEnv HE}.

(** A poll reported that the child has exited. *)
Definition polled_exit (h ev : history) : Prop :=
  exists ev1 ev2, ev = (ev1 ++ Event Poll :: ev2)%list /\ answer bool Poll (h ++ ev1)%list = Ok true.

Lemma polled_exit_app h ev ev' : polled_exit (h ++ ev)%list ev' -> polled_exit h (ev ++ ev')%list.
Proof.
  intros (ev1 & ev2 & -> & Ha). exists (ev ++ ev1)%list, ev2. by rewrite <- !app_assoc in *.
Qed.

Lemma polled_exit_l h ev ev' : polled_exit h ev -> polled_exit h (ev ++ ev')%list.
Proof.
  intros (ev1 & ev2 & -> & Ha). exists ev1, (ev2 ++ ev')%list. by rewrite <- app_assoc.
Qed.

Definition exits_only {A} (h ev : history) (r : result A) : Prop :=
  is_ok r = true \/ polled_exit h ev.

(** A turn answers, unless it found the child exited. *)
Lemma pf_turn_cases p deadline h : emits_at h (exits_only h) (pf_turn p deadline).
Proof.
  unfold pf_turn. apply emits_at_bind, emits_at_perform.
  pose proof (clock_answers h) as Hc. destruct (answer float Monotonic h) as [now|]; [|done].
  destruct (fltb now deadline); [|apply emits_at_pure; by left].
  apply emits_at_bind, emits_at_perform.
  set (h1 := (h ++ [Event Monotonic])%list).
  pose proof (poll_answers h1) as Hp. destruct (answer bool Poll h1) as [[|]|] eqn:Ep; [| |done].
  - assert (forall ev A (r : result A), exits_only h ([Event Monotonic] ++ [Event Poll] ++ ev) r) as He.
    { intros. right. by exists [Event Monotonic], ev. }
    apply emits_at_bind, emits_at_perform. destruct (answer string ReadStderr _); [|apply He].
    apply emits_at_pure, He.
  - apply emits_at_try, emits_at_bind, emits_at_perform.
    destruct (answer unit (ProbeGet _ _) _) as [[]|e] eqn:Eo; [apply emits_at_pure; by left|].
    rewrite (probe_fails _ _ _ _ Eo). apply emits_at_bind, emits_at_perform.
    match goal with |- context [answer unit (Sleep ?d) ?x] => pose proof (sleep_answers d x) as Hs;
      destruct (answer unit (Sleep d) x); [|done] end.
    apply emits_at_pure. by left.
Qed.

Lemma pf_loop_cases fuel p deadline h :
  emits_at h (fun ev r => exits_only h ev r \/ r = Raise (Exn FuelExhausted ""))
    (loop fuel (fun _ => pf_turn p deadline) tt).
Proof.
  revert h. induction fuel as [|fuel IH]; intros h; cbn [loop].
  - apply (emits_at_pure h _ (Raise _)). by right.
  - apply emits_at_bind. eapply emits_at_weaken; [|apply pf_turn_cases]. intros ev [[[]|b]|e] Hr.
    + eapply emits_at_weaken; [|apply IH]. intros ev2 r [[?|?]|?]; [left; by left| |by right].
      left. right. by apply polled_exit_app.
    + apply (emits_at_pure _ _ (Ok _)). left. by left.
    + by left.
Qed.

Lemma pf_exit_terminates h : emits_at h (fun ev _ => Event Terminate ∈ ev) pf_exit.
Proof.
  apply emits_at_bind, emits_at_perform. destruct (answer unit Terminate h); [|left].
  eapply emits_at_weaken; [|apply emits_at_intro, (only_try (fun _ => True))].
  - intros. left.
  - by apply only_perform.
  - intros. by apply only_bind; [apply only_perform|intros; apply only_perform].
Qed.

Lemma pf_loop_steady n fuel p h t0 :
  Paced (flit 1 10) (flit 30 1) n -> (n < fuel)%nat -> answer float Monotonic h = Ok t0 ->
  steadyM_at (loop fuel (fun _ => pf_turn p (fadd t0 (flit 30 1))) tt) (h ++ [Event Monotonic])%list.
Proof.
  intros Hp Hn E.
  eapply (paced_loop (flit 1 10) (flit 30 1) n _ (fun _ => false)); [by intros| |exact E|].
  - intros s. apply pausing_bind; [apply steadyM_perform|intros [|]].
    + apply pausing_bind; [apply steadyM_perform|intros text]. by apply pausing_throw.
    + apply pausing_try; [|intros; apply pausing_sleep].
      apply pausing_bind; [apply steadyM_perform|intros; apply pausing_leave].
  - lia.
Qed.

(** What is known of the child when a port-forward is over. *)
Definition child_released (p : PortForward) (h ev : history) : Prop :=
  (exists e, answer unit (Popen (pf_argv p)) h = Raise e) \/
  polled_exit h ev \/ Event Terminate ∈ ev.

Lemma child_released_end p h ev1 ev2 : Event Terminate ∈ ev2 -> child_released p h (ev1 ++ ev2).
Proof. intros. right. right. apply elem_of_app. by right. Qed.

(** Entering fails only when the child is gone. *)
Lemma pf_enter_cases n fuel p h :
  Paced (flit 1 10) (flit 30 1) n -> (n < fuel)%nat ->
  emits_at h (fun ev r => is_ok r = true \/ child_released p h ev) (pf_enter fuel p).
Proof.
  intros Hp Hn. apply emits_at_bind, emits_at_perform.
  destruct (answer unit (Popen (pf_argv p)) h) as [[]|e] eqn:Ep.
  2: { right. left. eauto. }
  set (h0 := (h ++ _)%list). apply emits_at_bind, emits_at_perform.
  pose proof (clock_answers h0) as Hc. destruct (answer float Monotonic h0) as [t0|] eqn:Et; [|done].
  pose proof (pf_loop_steady n fuel p h0 t0 Hp Hn Et) as Hs.
  apply emits_at_bind. destruct (pf_loop_cases fuel p (fadd t0 (flit 30 1)) (h0 ++ [Event Monotonic])%list)
    as (ev & E & Hcases). exists ev. split; [exact E|].
  unfold steadyM_at in Hs. destruct (fst (loop _ _ _ _)) as [[|]|e].
  - apply (emits_at_pure _ _ (Ok tt)). by left.
  - apply emits_at_bind. eapply emits_at_weaken; [|apply pf_exit_terminates].
    intros ev2 [[]|e] Ht; [apply (emits_at_pure _ _ (Raise _))|]; right;
      apply child_released_end; rewrite !elem_of_app; auto.
  - right. right. left. destruct Hcases as [[?|Hpe]|[= ->]]; [done| |done].
    rewrite app_assoc. apply polled_exit_app. subst h0. by rewrite <- app_assoc in Hpe.
Qed.

(** Under [with PortForward(...)], if the clock, the pause and the poll
    answer, a probe fails with an [OSError] only and the pauses take time, the
    [kubectl] child was never started, or was seen to have exited, or is sent
    a terminate signal, whatever the body of the block does. *)
Theorem port_forward_released {A} n fuel p (body : M A) h :
  Paced (flit 1 10) (flit 30 1) n -> (n < fuel)%nat -> only (fun _ => True) body ->
  emits_at h (fun ev _ => child_released p h ev) (with_port_forward fuel p body).
Proof.
  intros Hp Hn Hb. apply emits_at_bind.
  eapply emits_at_weaken; [|by apply (pf_enter_cases n)]. intros ev [[]|e] Hr.
  - apply emits_at_finally. eapply emits_at_weaken; [|apply emits_at_intro, Hb]. intros ev1 r _.
    eapply emits_at_weaken; [|apply pf_exit_terminates]. intros ev2 r2 Ht.
    apply child_released_end. rewrite !elem_of_app. auto.
  - by destruct Hr.
Qed.
End Forward.

(** ** What a measured cell means *)

Section Measured.
Context `{Env}.
Context (yaml_load : string -> result pyval) (yaml_load_all : string -> result (list pyval)).
Context (fuel : nat) (template : string).

Lemma judge_Ok cell slo m cpu out reason :
  judge cell slo m = Ok (cpu, out, reason) ->
  derive_cpu_metrics (ms_before m) (ms_after m) (cpu_limit_millicores cell) = Ok cpu /\
  exists o, observation_from (ms_report m) cpu (Some true) = Ok o /\ verdict o slo = Ok (out, reason).
Proof.
  unfold judge. intros Hj. apply rbind_Ok in Hj as (cpu' & Hc & Hj).
  apply rbind_Ok in Hj as (o & Ho & Hj). apply rbind_Ok in Hj as ([out' reason'] & Hv & Hj).
  injection Hj as <- <- <-. eauto.
Qed.

Lemma measure_cell_Ok kube_bin kubeconfig loadgen cell rate slo d w port tms workdir dl h r h' :
  measure_cell yaml_load yaml_load_all fuel template kube_bin kubeconfig loadgen cell rate slo
    d w port tms workdir dl h = (Ok r, h') ->
  cr_cell r = K8s.cell cell /\ cr_limit_millicores r = cpu_limit_millicores cell /\
  exists before after o out,
    derive_cpu_metrics before after (cpu_limit_millicores cell) = Ok (cr_cgroup r) /\
    observation_from (cr_loadgen r) (cr_cgroup r) (Some true) = Ok o /\
    verdict o slo = Ok (out, cr_reason r) /\ cr_outcome r = outcome_value out.
Proof.
  intros Hm. unfold measure_cell in Hm.
  repeat match type of Hm with
  | mbindM _ (fun _ => mbindM _ _) _ = _ =>
      apply bindM_Ok in Hm as (? & ? & _ & Hm); cbv beta in Hm
  end.
  apply bindM_Ok in Hm as ([[node cap] m] & h2 & _ & Hm).
  apply bindM_Ok in Hm as ([[cpu out] reason] & h3 & Hj & Hm).
  apply liftM_Ok in Hj as [Hj ->]. apply judge_Ok in Hj as (Hc & o & Ho & Hv).
  apply bindM_Ok in Hm as (now & h4 & _ & Hm). apply retM_Ok in Hm as [-> _].
  cbn [cr_cell cr_limit_millicores cr_cgroup cr_loadgen cr_reason cr_outcome].
  split; [done|]. split; [done|]. exists (ms_before m), (ms_after m), o, out. done.
Qed.

Lemma outcome_value_inj a b : outcome_value a = outcome_value b -> a = b.
Proof. by destruct a, b. Qed.

Lemma outcome_of_value_inv o : outcome_of_value (outcome_value o) = Ok o.
Proof. by destruct o. Qed.

(** ** The walk over the limits *)

Definition meets (r : CellResult) : Prop := cr_outcome r = outcome_value MEETS_SLO.

Definition judged (r : CellResult) : Prop := exists o, cr_outcome r = outcome_value o.

(** How a walk ends: at the first cell that meets the SLO, with the bracket
    derived there, or without such a cell and without a bracket. *)
Definition walk_ends (cap : Z) (results new : list CellResult) (br : option Bracket) (err : string)
    : Prop :=
  (exists pre r, new = (pre ++ [r])%list /\ meets r /\ Forall (fun r => ~ meets r) pre /\
                 try_bracket (results ++ new) cap = Ok (br, err)) \/
  (Forall (fun r => ~ meets r) new /\ br = None).

Lemma walk_ends_cons cap results r new br err :
  ~ meets r -> walk_ends cap (results ++ [r]) new br err -> walk_ends cap results (r :: new) br err.
Proof.
  intros Hr [(pre & x & -> & Hx & Hpre & Hb)|[Hn ->]].
  - left. exists (r :: pre), x. rewrite <- app_assoc in Hb. repeat split; [done| |done]. by constructor.
  - right. split; [by constructor|done].
Qed.

Lemma walk_limits_spec args kube_bin run_id slo request cap deadline total todo :
  forall results h rs br err h',
  walk_limits yaml_load yaml_load_all fuel template args kube_bin run_id slo request cap deadline
    total todo results h = (Ok (rs, br, err), h') ->
  exists new, rs = (results ++ new)%list /\
    (cr_limit_millicores <$> new) `prefix_of` (snd <$> todo) /\ Forall judged new /\
    walk_ends cap results new br err.
Proof.
  induction todo as [|[index limit] rest IH]; intros results h rs br err h' Hw; cbn [walk_limits] in Hw.
  { apply retM_Ok in Hw as [[= -> -> ->] _]. exists []. rewrite app_nil_r.
    repeat split; [apply prefix_nil|constructor|]. right. split; [constructor|done]. }
  apply bindM_Ok in Hw as (now & h1 & _ & Hw). destruct (fleb deadline now).
  { apply retM_Ok in Hw as [[= -> -> ->] _]. exists []. rewrite app_nil_r.
    repeat split; [apply prefix_nil|constructor|]. right. split; [constructor|done]. }
  apply bindM_Ok in Hw as (? & h2 & _ & Hw). apply bindM_Ok in Hw as (measured & h3 & Hm & Hw).
  assert (forall r, measured = inl r -> cr_limit_millicores r = limit /\ judged r) as Hinl.
  { intros r ->. apply try_except_Ok in Hm as [Hm|(e & h4 & _ & _ & Hm)].
    - apply bindM_Ok in Hm as (r' & h4 & Hm & Hr). apply retM_Ok in Hr as [[= ->] _].
      apply measure_cell_Ok in Hm as (_ & Hl & ? & ? & ? & out & _ & _ & _ & Ho).
      split; [done|]. by exists out.
    - apply bindM_Ok in Hm as (? & h5 & _ & Hm). by apply retM_Ok in Hm as [? _]. }
  assert (forall r, measured = inr r ->
    cr_limit_millicores r = limit /\ cr_outcome r = outcome_value INVALID) as Hinr.
  { intros r ->. apply try_except_Ok in Hm as [Hm|(e & h4 & _ & _ & Hm)].
    - apply bindM_Ok in Hm as (r' & h4 & _ & Hr). by apply retM_Ok in Hr as [? _].
    - apply bindM_Ok in Hm as (? & h5 & _ & Hm). by apply retM_Ok in Hm as [[= ->] _]. }
  assert (forall r : CellResult, cr_limit_millicores r = limit -> judged r -> ~ meets r ->
    forall h, walk_limits yaml_load yaml_load_all fuel template args kube_bin run_id slo request cap
      deadline total rest (results ++ [r]) h = (Ok (rs, br, err), h') ->
    exists new, rs = (results ++ new)%list /\
      (cr_limit_millicores <$> new) `prefix_of` (limit :: (snd <$> rest)) /\ Forall judged new /\
      walk_ends cap results new br err) as Hnext.
  { intros r Hl Hj Hn h0 Hr. apply IH in Hr as (new & -> & Hp & Hjs & He). exists (r :: new).
    rewrite <- app_assoc. repeat split; [|by constructor|by apply walk_ends_cons].
    rewrite fmap_cons, Hl. by apply prefix_cons. }
  cbn [fmap list_fmap snd]. destruct measured as [r|r].
  - destruct (Hinl r eq_refl) as [Hl Hj].
    apply bindM_Ok in Hw as (? & h5 & _ & Hw). apply bindM_Ok in Hw as (? & h6 & _ & Hw).
    destruct (String.eqb _ _) eqn:E; bool_hyps; [|by apply (Hnext r Hl Hj E h6)].
    apply bindM_Ok in Hw as ([br' err'] & h7 & Hb & Hw). apply liftM_Ok in Hb as [Hb ->].
    apply bindM_Ok in Hw as (? & h8 & _ & Hw). apply retM_Ok in Hw as [[= -> -> ->] _].
    exists [r]. repeat split; [|by constructor|].
    + simpl. rewrite Hl. apply prefix_cons, prefix_nil.
    + left. exists [], r. repeat split; [done|constructor|done].
  - destruct (Hinr r eq_refl) as [Hl Ho]. apply (Hnext r Hl) in Hw; [done|by exists INVALID|].
    unfold meets. by rewrite Ho.
Qed.

(** ** From results to the bracket *)

Lemma trials_of_results rs :
  Forall judged rs ->
  exists ts, mapM trial_of rs = Ok ts /\ (limit_millicores <$> ts) = (cr_limit_millicores <$> rs) /\
    ((exists t, t ∈ ts /\ outcome t = MEETS_SLO) <-> Exists meets rs).
Proof.
  induction 1 as [|r rs [o Ho] Hrs (ts & E & El & Hm)].
  { exists []. split; [done|]. split; [done|]. split; [by intros (? & ?%not_elem_of_nil & _)|by inversion 1]. }
  assert (trial_of r = Ok {| limit_millicores := cr_limit_millicores r; outcome := o;
    reason := cr_reason r |}) as Ht.
  { unfold trial_of. by rewrite Ho, outcome_of_value_inv. }
  eexists. cbn [mapM]. rewrite Ht, E. cbn [rbind]. split; [done|]. cbn [fmap list_fmap limit_millicores].
  rewrite El. split; [done|]. rewrite Exists_cons, <- Hm. unfold meets. rewrite Ho. split.
  - intros (t & [->|Hin]%elem_of_cons & Hout); [left; simpl in Hout; by rewrite Hout|eauto].
  - intros [Hout%outcome_value_inj|(t & Hin & Hout)]; [eexists; split; [left|exact Hout]|].
    exists t. split; [by right|done].
Qed.

Lemma prefix_ascending (l k : list Z) : l `prefix_of` k -> StronglySorted Z.lt k -> StronglySorted Z.lt l.
Proof.
  intros [z ->]. induction l as [|x l IH]; intros Hs; [constructor|]. inversion Hs as [|? ? Hs' Hf]; subst.
  constructor; [by apply IH|]. by apply Forall_app in Hf as [? _].
Qed.

Lemma prefix_Forall {A} (P : A -> Prop) (l k : list A) : l `prefix_of` k -> Forall P k -> Forall P l.
Proof. intros [z ->] Hf. by apply Forall_app in Hf as [? _]. Qed.

(** Results at a prefix of an admissible plan have a bracket exactly when one
    of them met the SLO. *)
Lemma try_bracket_plan rs limits cap br err :
  Forall judged rs -> (cr_limit_millicores <$> rs) `prefix_of` limits ->
  StronglySorted Z.lt limits -> Forall (fun l => l <= cap) limits ->
  try_bracket rs cap = Ok (br, err) ->
  (br = None <-> ~ Exists meets rs) /\
  forall b, br = Some b -> exists ts, mapM trial_of rs = Ok ts /\ is_bracket ts cap b.
Proof.
  intros Hj Hp Hs Hc. unfold try_bracket. destruct (trials_of_results rs Hj) as (ts & -> & El & Hm).
  cbn [rbind]. pose proof (evaluate_trials_Ok_iff ts cap) as Hiff.
  assert (ascending ts /\ Forall (fun t => limit_millicores t <= cap) ts) as [Ha Hcap].
  { unfold ascending. rewrite El. split; [by eapply prefix_ascending|].
    rewrite <- (Forall_fmap limit_millicores (fun l => l <= cap)), El. by eapply prefix_Forall. }
  rewrite Hm in Hiff. destruct (evaluate_trials ts cap) as [b|e] eqn:Ev.
  - intros [= <- <-]. split; [|intros b' [= ->]].
    + split; [done|]. destruct Hiff as [(_ & _ & ?) _]; done.
    + apply evaluate_trials_bracket in Ev as [? _]. eauto.
  - destruct (caught_by _ e); [|done]. intros [= <- <-]. split; [|done].
    split; [|done]. intros _ Hex. destruct Hiff as [_ Hiff]. by discriminate Hiff.
Qed.

(** A cell that [measure_cell] reports as meeting the SLO was measured
    under a load generator that kept control, completed requests, gave every
    required measurement as a finite number, and breached no objective; the
    CPU figures are those derived from the two counter samples taken around
    the run. *)
Theorem measure_cell_meets kube_bin kubeconfig loadgen cell rate slo d w port tms workdir dl h r h' :
  measure_cell yaml_load yaml_load_all fuel template kube_bin kubeconfig loadgen cell rate slo
    d w port tms workdir dl h = (Ok r, h') ->
  cr_outcome r = "meets-slo" ->
  cr_limit_millicores r = cpu_limit_millicores cell /\
  exists before after o p99 rps err avail,
    derive_cpu_metrics before after (cpu_limit_millicores cell) = Ok (cr_cgroup r) /\
    observation_from (cr_loadgen r) (cr_cgroup r) (Some true) = Ok o /\
    loadgen_valid o = true /\ 1 <= completed_requests o /\
    measured o p99 rps err avail /\ breach_list p99 rps err avail slo = [].
Proof.
  intros Hm Ho. apply measure_cell_Ok in Hm as (_ & Hl & before & after & o & out & Hc & Hobs & Hv & Hout).
  rewrite Ho in Hout. apply (outcome_value_inj MEETS_SLO) in Hout as <-.
  apply verdict_meets_measured in Hv as (Hval & Hcomp & p & r' & e & a & Hms & Hb).
  split; [done|]. exists before, after, o, p, r', e, a. done.
Qed.

Lemma report_written {A B} (o : op A) h u h1 message (m : M B) r h' :
  perform o h = (Ok u, h1) -> only (fun _ => True) m ->
  (log message >>> m) h1 = (r, h') -> Event o ∈ h'.
Proof.
  unfold perform. intros [= _ <-] Hm E.
  assert (only (fun _ => True) (log message >>> m)) as Hl.
  { unfold log. solve_only; done. }
  destruct (Hl (h ++ [Event o])%list) as (ev & E2 & _). rewrite E in E2. simpl in E2. subst h'.
  rewrite !elem_of_app. left. right. left.
Qed.

Lemma conclude_appends br err : only (fun _ => True) (conclude br err).
Proof. unfold conclude, log. solve_only; done. Qed.

Lemma conclude_Ok br err h code h' :
  conclude br err h = (Ok code, h') -> code = if is_none br then 4 else 0.
Proof.
  unfold conclude. destruct br; intros Hc; apply bindM_Ok in Hc as (? & ? & _ & Hc);
    by apply retM_Ok in Hc as [-> _].
Qed.

Lemma check_args_Ok args :
  check_args args = Ok tt -> a_max_cells args <= 2 /\ a_max_limit_millicores args <= 250.
Proof. unfold check_args. intros Ha. inv_ok. bool_hyps. lia. Qed.

(** The second chance to derive a bracket changes nothing. *)
Lemma walk_verdict results limits cap br0 err0 br err (h h' : history) :
  Forall judged results -> (cr_limit_millicores <$> results) `prefix_of` limits ->
  StronglySorted Z.lt limits -> Forall (fun l => l <= cap) limits ->
  walk_ends cap [] results br0 err0 ->
  (if is_none br0 && is_empty err0 then lift (try_bracket results cap) else ret (br0, err0)) h
    = (Ok (br, err), h') ->
  let code := if is_none br then 4 else 0 in
  (code = 0 /\ Exists meets results /\
     exists b ts, br = Some b /\ mapM trial_of results = Ok ts /\ is_bracket ts cap b) \/
  (code = 4 /\ br = None /\ Forall (fun r => ~ meets r) results).
Proof.
  intros Hj Hp Hs Hc He Hb code. subst code.
  destruct He as [(pre & r & -> & Hr & _ & Ht)|[Hn ->]].
  - simpl in Ht. destruct (try_bracket_plan _ _ _ _ _ Hj Hp Hs Hc Ht) as [Hnone Hsome].
    assert (Exists meets (pre ++ [r])) as Hex by (apply Exists_app; right; by constructor).
    destruct br0 as [b|]; [|by destruct Hnone as [Hnone _]; destruct (Hnone eq_refl)].
    apply retM_Ok in Hb as [[= -> ->] _]. left. split; [done|]. split; [done|].
    destruct (Hsome b eq_refl) as (ts & ? & ?). eauto.
  - assert (br = None) as ->.
    { cbn [is_none andb] in Hb. destruct (is_empty err0); [|by apply retM_Ok in Hb as [[= ? _] _]].
      apply liftM_Ok in Hb as [Hb _]. apply (try_bracket_plan _ _ _ _ _ Hj Hp Hs Hc Hb).
      by apply Forall_not_Exists. }
    by right.
Qed.

(** C26: when the pilot returns, it has written its report; the measured limits
    are a prefix of a strictly ascending plan of at most two limits, none above
    250m or the largest worker's allocatable CPU; and its status is 0 exactly
    when a cell met the SLO, with the bracket that [evaluate_trials] derives
    from the cells, and 4 otherwise. *)
Theorem main_reports args h code h' :
  main yaml_load yaml_load_all fuel template args h = (Ok code, h') ->
  exists run_id created slo limits request cap workers results bracket err,
    Event (WriteText (a_out args)
      (json_indent false (pilot_report args run_id created slo limits request cap workers results
         bracket err) +:+ newline)) ∈ h' /\
    (cr_limit_millicores <$> results) `prefix_of` limits /\ StronglySorted Z.lt limits /\
    (length limits <= 2)%nat /\ Forall (fun l => l <= 250 /\ l <= cap) limits /\
    ((code = 0 /\ Exists meets results /\
       exists b ts, bracket = Some b /\ mapM trial_of results = Ok ts /\ is_bracket ts cap b) \/
     (code = 4 /\ bracket = None /\ Forall (fun r => ~ meets r) results)).
Proof.
  intros Hm. unfold main in Hm.
  apply bindM_Ok in Hm as ([] & ? & Hargs & Hm). apply liftM_Ok in Hargs as [Hargs ->].
  do 6 (apply bindM_Ok in Hm as (? & ? & _ & Hm); cbv beta in Hm).
  apply bindM_Ok in Hm as (cap & ? & _ & Hm).
  apply bindM_Ok in Hm as (? & ? & _ & Hm).
  apply bindM_Ok in Hm as (limits & ? & Hl & Hm). apply liftM_Ok in Hl as [Hl ->].
  apply bindM_Ok in Hm as (? & ? & _ & Hm).
  do 3 (apply bindM_Ok in Hm as (? & ? & _ & Hm); cbv beta in Hm).
  apply bindM_Ok in Hm as ([[results br0] err0] & ? & Hw & Hm).
  apply bindM_Ok in Hm as ([br err] & ? & Hb & Hm).
  do 2 (apply bindM_Ok in Hm as (? & ? & _ & Hm); cbv beta in Hm).
  apply bindM_Ok in Hm as (? & ? & Hwrite & Hm).
  pose proof Hw as Hspec. apply walk_limits_spec in Hspec as (new & Enew & Hp & Hj & He).
  simpl in Enew. subst new. rewrite enumerate_snd in Hp.
  apply plan_limits_props in Hl as (_ & Hlen & Hs & Hf).
  do 10 eexists. split; [|split; [exact Hp|split; [exact Hs|]]].
  { eapply report_written; [exact Hwrite|apply conclude_appends|exact Hm]. }
  apply check_args_Ok in Hargs as [Hcells Hmax]. split; [lia|].
  split; [eapply Forall_impl; [|exact Hf]; simpl; lia|].
  assert (Forall (fun l => l <= cap) limits) as Hcap.
  { eapply Forall_impl; [|exact Hf]. simpl. lia. }
  apply bindM_Ok in Hm as (? & ? & _ & Hm). apply conclude_Ok in Hm as ->.
  eapply walk_verdict; [exact Hj|exact Hp|exact Hs|exact Hcap|exact He|exact Hb].
Qed.

(** The load generator's own [valid] flag decides alone: of a run it
    declares invalid the pilot never reports a breach, whatever share of the
    requests failed, because the observation never records that the target was
    reached. *)
Theorem pilot_never_reports_invalid_breach cell slo m cpu out reason :
  (exists d v, ms_report m = VDict d /\ dget_or "valid" (VBool false) d = v /\ truthy v = false) ->
  judge cell slo m = Ok (cpu, out, reason) -> out = INVALID.
Proof.
  intros (d & v & Hr & Hv & Hf) Hj. apply judge_Ok in Hj as (_ & o & Ho & Hverd).
  assert (loadgen_valid o = false /\ target_reached o = None) as [Hval Ht].
  { unfold observation_from in Ho. rewrite Hr in Ho.
    repeat (apply rbind_Ok in Ho as (? & _ & Ho)).
    destruct x4; [|done]. cbn [attr_get_or rbind] in Ho.
    apply rbind_Ok in Ho as (? & _ & Ho). injection Ho as <-. cbn. by rewrite Hv. }
  destruct (verdict_invalid_cases o slo out reason Hval Hverd) as [[Hb _] [->|]]; [|done].
  destruct (Hb eq_refl) as (_ & Ht' & _). congruence.
Qed.
End Measured.
