(* ===== verification/PilotLab.v ===== *)
(** A simulated cluster in which the pilot runs to its end: the concrete world
    behind the witnesses, and the runs in which the pilot is aborted. *)

From Stdlib Require Import ZArith Bool Ascii String Lia SpecFloat Sorted.
From stdpp Require Import base list strings option.
From S2P Require Import Prelude Eff PyStr PyFloat PyVal PyText Json PyConv World Bracket Slo RenderCell K8s Pilot PilotThm.

Open Scope string_scope.
Open Scope Z_scope.

Definition str_dict (l : list (string * string)) : pyval := VDict ((fun p => (fst p, VStr (snd p))) <$> l).

Definition lab_pod : pyval :=
  VDict [ ("metadata", str_dict [("name", "bench-0"); ("uid", "u1")]);
          ("spec", str_dict [("nodeName", "n1")]);
          ("status", VDict [ ("phase", VStr "Running");
                             ("containerStatuses", VList [VDict [("name", VStr "app"); ("ready", VBool true)]]) ]) ].

Definition lab_node (name cpu : string) (taints : list pyval) : pyval :=
  VDict [ ("metadata", str_dict [("name", name)]); ("spec", VDict [("taints", VList taints)]);
          ("status", VDict [("allocatable", str_dict [("cpu", cpu)])]) ].

Definition lab_nodes : pyval :=
  VDict [("items", VList [ lab_node "cp" "4" [str_dict [("key", "node-role.kubernetes.io/control-plane")]];
                           lab_node "n1" "1900m" [] ])].

Definition lab_api (path : string) : pyval :=
  if String.eqb path "/api/v1/nodes" then lab_nodes
  else if startswith "/api/v1/nodes/" path then lab_node "n1" "1900m" []
  else if contains "/pods?" path then VDict [("items", VList [lab_pod])]
  else if contains "/endpoints/" path then
    VDict [("subsets", VList [VDict [("addresses", VList [VStr "10.0.0.1"])]])]
  else VDict [].

Definition lab_cpu_stat : string :=
  join newline ["usage_usec 100"; "nr_periods 10"; "nr_throttled 1"; "throttled_usec 5"].

Definition lab_report (completed : Z) : pyval :=
  VDict [ ("latency_ms", VDict [("p50", VInt 5); ("p99", VInt 20)]);
          ("completed", VInt completed); ("errors", VInt 0); ("achieved_rate_rps", VInt 50);
          ("error_ratio", VInt 0); ("valid", VBool true) ].

Definition succeeded (text : string) : completed := {| returncode := 0; stdout := text; stderr := "" |}.

(** The world, given what the load generator does. *)
Definition lab (loadgen : result completed) : Env := fun R o =>
  match o in op R return history -> result R with
  | Monotonic => fun h => Ok (flit (Z.of_nat (length h)) 1000)
  | Sleep _ => fun _ => Ok tt
  | UtcNow => fun _ => Ok {| dt_year := 2026; dt_month := 7; dt_day := 9; dt_hour := 10; dt_minute := 11;
                             dt_second := 12; dt_micro := 0 |}
  | TokenHex _ => fun _ => Ok "beef"
  | HttpRequest _ path _ _ => fun _ => Ok (200, json_plain false (lab_api path))
  | UrlOpen url _ => fun _ => Ok (200, json_plain false (str_dict [("mix", "balanced")]))
  | Run argv _ => fun _ =>
      match argv with
      | "bash" :: _ => Ok (succeeded "/usr/bin/kubectl")
      | "loadgen" :: _ => loadgen
      | _ => Ok (succeeded lab_cpu_stat)
      end
  | Popen _ => fun _ => Ok tt
  | Poll => fun _ => Ok false
  | ReadStderr => fun _ => Ok ""
  | ProbeGet _ _ => fun _ => Ok tt
  | Terminate => fun _ => Ok tt
  | Wait _ => fun _ => Ok tt
  | Kill => fun _ => Ok tt
  | ReadText _ => fun _ => Ok ""
  | WriteText _ _ => fun _ => Ok tt
  | MakeDirs _ => fun _ => Ok tt
  | MkdTemp _ => fun _ => Ok "/tmp/kc"
  | WriteBase64 _ _ => fun _ => Ok tt
  | Chmod _ _ => fun _ => Ok tt
  | LoadTls _ _ _ => fun _ => Ok tt
  | Log _ => fun _ => Ok tt
  | IsFile _ | IsDir _ | PathExists _ => fun _ => Ok false
  | IterDir _ => fun _ => Ok []
  | WalkTree _ => fun _ => Ok []
  | Resolve p => fun _ => Ok p
  | AppendText _ _ => fun _ => Ok tt
  | RunInput _ _ | Communicate _ => fun _ => Ok (succeeded "")
  | StartScraper _ => fun _ => Ok tt
  | JoinScraper _ _ => fun _ => Ok ([], false)
  end.

Definition lab_kubeconfig : pyval :=
  VDict [ ("current-context", VStr "lab");
          ("contexts", VList [VDict [("name", VStr "lab"); ("context", str_dict [("cluster", "c"); ("user", "u")])]]);
          ("clusters", VList [VDict [("name", VStr "c");
             ("cluster", str_dict [("server", "https://10.0.0.1:6443"); ("certificate-authority", "/ca")])]]);
          ("users", VList [VDict [("name", VStr "u");
             ("user", str_dict [("client-certificate", "/cert"); ("client-key", "/key")])]]) ].

Definition lab_yaml (_ : string) : result pyval := Ok lab_kubeconfig.
Definition lab_yaml_all (_ : string) : result (list pyval) :=
  Ok [VDict [("kind", VStr "Deployment"); ("metadata", str_dict [("name", "bench")])];
      VDict [("kind", VStr "Service"); ("metadata", str_dict [("name", "bench")])]].

Definition lab_args (min_limit : Z) : Args :=
  {| a_kubeconfig := "kubeconfig"; a_loadgen := "loadgen"; a_mix := "balanced"; a_rate := flit 50 1;
     a_duration_seconds := 10; a_warmup_seconds := 5; a_timeout_ms := 5000; a_slo_p99_ms := flit 100 1;
     a_slo_min_rps := None; a_slo_max_error_ratio := fzero; a_slo_min_availability := flit 99 100;
     a_min_limit_millicores := min_limit; a_max_limit_millicores := 250; a_growth := flit 2 1;
     a_max_cells := 2; a_deadline_seconds := flit 60 1; a_cpu_request_millicores := None;
     a_cpu_iterations := 20000; a_out := "out/report.json"; a_workdir := "/tmp/pilot" |}.

Definition lab_main (loadgen : result completed) (min_limit : Z) : result Z * history :=
  @main (lab loadgen) lab_yaml lab_yaml_all 10 "cell {{CELL}}" (lab_args min_limit) [].

Definition good_loadgen : result completed := Ok (succeeded (json_plain false (lab_report 500))).

(** The report is what [main] writes to [--out]. *)
Definition writes_report (e : event) : bool :=
  match event_op e with WriteText path _ => String.eqb path "out/report.json" | _ => false end.

Definition timed_out : result completed := Raise (Exn TimeoutExpired "loadgen").
Definition nothing_completed : result completed := Ok (succeeded (json_plain false (lab_report 0))).

(** Three failures of a single cell are not among the exceptions that
    [main] records as an invalid cell, and abort the pilot with no report
    written: a load generator that outlives its timeout ([TimeoutExpired]), a
    load generator that completed no request ([UnboundLocalError], the local
    [availability] is read unbound), and a planned limit below 10m
    ([RenderError]). *)
Theorem uncaught_failures_abort :
  (fst (lab_main timed_out 50) = Raise (Exn TimeoutExpired "loadgen") /\
   existsb writes_report (snd (lab_main timed_out 50)) = false) /\
  (fst (lab_main nothing_completed 50) = Raise (Exn UnboundLocalError "availability") /\
   existsb writes_report (snd (lab_main nothing_completed 50)) = false) /\
  (match fst (lab_main good_loadgen 5) with Raise e => exn_cls e = RenderError | Ok _ => False end /\
   existsb writes_report (snd (lab_main good_loadgen 5)) = false).
Proof. split; [split|split; [split|split]]; vm_compute; reflexivity. Qed.

(** In the simulated cluster the pilot returns 0. *)
Lemma lab_run : fst (lab_main good_loadgen 50) = Ok 0.
Proof. vm_compute. reflexivity. Qed.

Lemma main_reports_witness :
  exists run_id created slo limits request cap workers results bracket err,
    Event (WriteText "out/report.json"
      (json_indent false (pilot_report (lab_args 50) run_id created slo limits request cap workers results
         bracket err) +:+ newline)) ∈ snd (lab_main good_loadgen 50) /\ Exists meets results.
Proof.
  destruct (@main_reports (lab good_loadgen) lab_yaml lab_yaml_all 10 "cell {{CELL}}" (lab_args 50) []
    0 (snd (lab_main good_loadgen 50)))
    as (ri & cr & sl & li & re & ca & wo & rs & br & er & Hev & _ & _ & _ & _ & [(_ & Hex & _)|[? _]]).
  - rewrite <- lab_run. apply surjective_pairing.
  - do 10 eexists. split; [exact Hev|exact Hex].
  - discriminate.
Defined.

Definition lab_cell : CellSpec := make_cell "c1" "balanced" 100 50 20000.
Definition lab_slo : Slo :=
  {| max_p99_latency_ms := flit 100 1; min_throughput_rps := flit 45 1;
     max_error_ratio := fzero; min_availability_ratio := flit 99 100 |}.
Definition lab_measure : result CellResult * history :=
  @measure_cell (lab good_loadgen) lab_yaml lab_yaml_all 10 "cell {{CELL}}" "kubectl" "kubeconfig"
    "loadgen" lab_cell (flit 50 1) lab_slo 10 5 18080 5000 "/tmp/pilot" None [].

Lemma measure_cell_meets_witness :
  exists r o, fst lab_measure = Ok r /\
    observation_from (cr_loadgen r) (cr_cgroup r) (Some true) = Ok o /\ loadgen_valid o = true.
Proof.
  destruct (fst lab_measure) as [r|e] eqn:E; [|exfalso; vm_compute in E; discriminate E].
  assert (cr_outcome r = "meets-slo") as Ho.
  { apply (f_equal (fun x => match x with Ok r => cr_outcome r | Raise _ => "" end)) in E.
    etransitivity; [symmetry; exact E|]. vm_compute. reflexivity. }
  destruct (@measure_cell_meets (lab good_loadgen) lab_yaml lab_yaml_all 10 "cell {{CELL}}" "kubectl"
    "kubeconfig" "loadgen" lab_cell (flit 50 1) lab_slo 10 5 18080 5000 "/tmp/pilot" None [] r
    (snd lab_measure)) as (_ & b & a & o & p & q & er & av & _ & Hobs & Hval & _).
  - rewrite <- E. apply surjective_pairing.
  - exact Ho.
  - exists r, o. split; [reflexivity|]. split; [exact Hobs|exact Hval].
Defined.

(** A finished run the generator declared invalid: 60 of 80 requests failed. *)
Definition overloaded : measurement :=
  let sample t := {| at_seconds := t; nr_periods := 1; nr_throttled := 0; throttled_usec := 0;
                     usage_usec := 0 |} in
  {| ms_report := VDict [ ("completed", VInt 80); ("errors", VInt 60); ("valid", VBool false);
                          ("invalid_reason", VStr "60 of 80 requests failed; overload") ];
     ms_before := sample fzero; ms_after := sample (flit 1 1) |}.

Lemma pilot_never_reports_invalid_breach_witness :
  exists cpu reason, judge lab_cell lab_slo overloaded = Ok (cpu, INVALID, reason).
Proof.
  destruct (judge lab_cell lab_slo overloaded) as [[[cpu out] reason]|e] eqn:E;
    [|exfalso; vm_compute in E; discriminate E].
  assert (out = INVALID) as ->.
  { refine (pilot_never_reports_invalid_breach lab_cell lab_slo overloaded cpu out reason _ E).
    exists [ ("completed", VInt 80); ("errors", VInt 60); ("valid", VBool false);
             ("invalid_reason", VStr "60 of 80 requests failed; overload") ], (VBool false).
    repeat split. }
  exists cpu, reason. reflexivity.
Defined.

(** ** A world in which time passes

    The clock is far in the future after the first pause. *)
Definition slept (h : history) : bool :=
  existsb (fun e => match event_op e with Sleep _ => true | _ => false end) h.

Definition patient : Env := fun R o =>
  match o in op R return history -> result R with
  | Monotonic => fun h => Ok (if slept h then S754_infinity false else fzero)
  | o => lab good_loadgen _ o
  end.

#[local] Instance patient_steady : @SteadyEnv patient.
Proof.
  intros R o h. destruct o; try done. cbn.
  repeat match goal with |- context [match ?x with _ => _ end] => destruct x end; done.
Qed.

#[local] Instance patient_forward : @ForwardEnv patient.
Proof. split; done. Qed.

Lemma slept_app h ev : slept (h ++ ev) = slept h || slept ev.
Proof. apply existsb_app. Qed.

Lemma pauses_slept d ev : (0 < pauses d ev)%nat -> slept ev = true.
Proof.
  unfold pauses, is_pause, slept. induction ev as [|e ev IH]; [simpl; lia|]. cbn [List.filter existsb].
  destruct (event_op e); simpl; auto.
Qed.

Lemma patient_paced d timeout : @Paced patient d timeout 1.
Proof.
  intros h ev t t' Ht Hp Ht'. cbn in Ht, Ht'. rewrite slept_app, (pauses_slept d ev) in Ht' by lia.
  rewrite orb_true_r in Ht'. injection Ht' as <-. injection Ht as <-.
  by destruct (fadd _ timeout) as [|[]| |].
Qed.

Lemma waits_terminate_witness :
  steadyM_at (@wait_for_cell patient 2 {| host := ""; api_port := 443; base_path := "" |} "c" (flit 240 1)) [].
Proof.
  apply (@waits_terminate patient patient_steady 1 (flit 240 1) 2); [| |lia];
    apply patient_paced.
Defined.

Lemma port_forward_released_witness :
  let p := {| pf_kubectl := "kubectl"; pf_kubeconfig := "k"; pf_target := "svc/x"; pf_remote_port := 8080;
              pf_local_port := 18080; pf_ready_path := "/healthz"; pf_namespace := NAMESPACE |} in
  @emits_at unit [] (fun ev _ => @child_released patient p [] ev)
    (@with_port_forward patient _ 2 p (throw KubernetesError "body failed")).
Proof.
  apply (@port_forward_released patient patient_steady patient_forward unit 1 2); [|lia|apply only_throw].
  apply patient_paced.
Defined.
