(* ===== verification/Campaign.v ===== *)
(** [phase8/campaign/campaign.py]: the seeded factorial design and its budget
    guard.

    [random.Random(seed)] is a stream of draws that depends on the seed only:
    [randbelow seed k n] is the [k]-th draw of [_randbelow], asked for a number
    below [n]; that it is below [n] is the law of the class [Rng]. *)

From Stdlib Require Import ZArith Bool Ascii String Lia SpecFloat.
From stdpp Require Import base list strings option.
From S2P Require Import Prelude PyStr PyFloat PyVal Json.

Open Scope string_scope.
Open Scope Z_scope.

Class Rng : Type := {
  randbelow : Z -> nat -> nat -> nat;
  randbelow_lt : forall seed k n, (0 < n)%nat -> (randbelow seed k n < n)%nat
}.

Record Factor : Type := { f_name : string; levels : list pyval }.

Record CampaignConfig : Type := {
  repetitions : Z;
  seed : Z;
  budget_cap : Z;
  confirmed : bool;
  allow_fractional : bool;
  seconds_per_trial : Z;
  cpu_millicores_per_trial : Z
}.

Record CampaignPlan : Type := {
  design : string;
  full_cells : Z;
  cells : list pydict;
  total_trials : Z;
  preview : list (string * Z);
  plan_seed : Z;
  plan_repetitions : Z
}.

(** ** Shuffling *)

(** [x[i], x[j] = x[j], x[i]] for two positions of the list. *)
Definition swap {A} (i j : nat) (l : list A) : list A :=
  match l !! i, l !! j with
  | Some a, Some b => <[i := b]> (<[j := a]> l)
  | _, _ => l
  end.

(** [for i in reversed(range(1, len(x)))]: [i] positions are left, [k] draws
    were made. *)
Fixpoint shuffle_loop {A} (draw : nat -> nat -> nat) (k i : nat) (l : list A) : list A :=
  match i with
  | O => l
  | S i' => shuffle_loop draw (S k) i' (swap i (draw k (S i)) l)
  end.

Definition shuffle `{Rng} {A} (seed : Z) (l : list A) : list A :=
  shuffle_loop (randbelow seed) 0 (length l - 1) l.

(** ** The design *)

(** [itertools.product]: the last factor varies fastest. *)
Fixpoint product {A} (ls : list (list A)) : list (list A) :=
  match ls with
  | [] => [[]]
  | l :: ls' => flat_map (fun x => (cons x) <$> product ls') l
  end.

(** [set(levels)] needs hashable levels. *)
Definition hashable (v : pyval) : bool := match v with VList _ | VDict _ => false | _ => true end.

(** [len(set(l)) != len(l)] for hashable values. *)
Fixpoint has_dup_val (l : list pyval) : bool :=
  match l with [] => false | x :: l' => existsb (py_eq x) l' || has_dup_val l' end.

Definition bad_levels (f : Factor) : result bool :=
  if (Z.of_nat (length (levels f)) <? 2) then Ok true
  else if forallb hashable (levels f) then Ok (has_dup_val (levels f))
  else Raise (Exn TypeError "unhashable type").

Fixpoint any_bad_levels (fs : list Factor) : result bool :=
  match fs with
  | [] => Ok false
  | f :: fs' => let* b := bad_levels f in if b then Ok true else any_bad_levels fs'
  end.

Definition all_cells (factors : list Factor) : list pydict :=
  (fun values => zip (f_name <$> factors) values) <$> product (levels <$> factors).

Definition count_cells (factors : list Factor) : Z :=
  fold_left (fun n f => n * Z.of_nat (length (levels f))) factors 1.

Definition check_config (config : CampaignConfig) (factors : list Factor) : result unit :=
  raise_if (repetitions config <? 1) ValueError "repetitions must be at least 1" ;;;
  raise_if (budget_cap config <? 1) ValueError "budget_cap must be at least 1" ;;;
  raise_if ((seconds_per_trial config <? 1) || (cpu_millicores_per_trial config <? 1)) ValueError
    "trial resource estimates must be positive" ;;;
  raise_if (match factors with [] => true | _ => false end || has_dup (f_name <$> factors)) ValueError
    "factors must have unique names and cannot be empty" ;;;
  let* bad := any_bad_levels factors in
  raise_if bad ValueError "each factor must have at least two unique levels".

Section Plan.
Context `{Rng}.

(** The cells before the final shuffle. *)
Definition choose_cells (config : CampaignConfig) (use_fractional : bool) (all : list pydict)
    : result (list pydict) :=
  if use_fractional then
    match all with
    | [] => Raise (Exn IndexError "list index out of range")
    | baseline :: rest =>
        let rest := shuffle (seed config) rest in
        let max_cells := budget_cap config / repetitions config in
        raise_if (max_cells <? 2) BudgetExceeded "budget cannot fit baseline and one fractional cell" ;;;
        Ok (baseline :: take (Z.to_nat (max_cells - 1)) rest)
    end
  else Ok all.

Definition order_cells (config : CampaignConfig) (use_fractional : bool) (cells : list pydict)
    : list pydict :=
  if use_fractional then
    match cells with [] => [] | c :: remainder => c :: shuffle (seed config) remainder end
  else shuffle (seed config) cells.

Definition plan_campaign (factors : list Factor) (config : CampaignConfig) : result CampaignPlan :=
  check_config config factors ;;;
  let full_cells := count_cells factors in
  let full_trials := full_cells * repetitions config in
  let use_fractional := (budget_cap config <? full_trials) && allow_fractional config in
  let design := if use_fractional then "fractional" else "full" in
  let* cells := choose_cells config use_fractional (all_cells factors) in
  let total_trials := Z.of_nat (length cells) * repetitions config in
  raise_if ((budget_cap config <? total_trials) && negb (confirmed config)) BudgetExceeded
    (design +:+ " design requires " +:+ str_of_Z total_trials +:+ " trials, above budget cap "
     +:+ str_of_Z (budget_cap config) +:+ "; explicit confirmation is required") ;;;
  Ok {| design := design; full_cells := full_cells;
        cells := order_cells config use_fractional cells; total_trials := total_trials;
        preview := [ ("full_trials", full_trials); ("planned_trials", total_trials);
                     ("estimated_seconds", total_trials * seconds_per_trial config);
                     ("estimated_cpu_millicore_seconds",
                       total_trials * seconds_per_trial config * cpu_millicores_per_trial config) ];
        plan_seed := seed config; plan_repetitions := repetitions config |}.

Definition plan_document (plan : CampaignPlan) : pyval :=
  VDict [ ("design", VStr (design plan)); ("seed", VInt (plan_seed plan));
          ("repetitions", VInt (plan_repetitions plan)); ("full_cells", VInt (full_cells plan));
          ("planned_cells", VInt (Z.of_nat (length (cells plan))));
          ("total_trials", VInt (total_trials plan));
          ("preview", VDict ((fun p => (fst p, VInt (snd p))) <$> preview plan));
          ("cells", VList (VDict <$> cells plan)) ].

(** [main]: the text of [--factors] to the text of [--output]; [parser.error]
    exits with a message. *)
Definition campaign_main (text : string) (config : CampaignConfig) : result string :=
  let* raw := json_loads text in
  match raw with
  | VDict d =>
      raise_if (negb (forallb (fun p => is_list (snd p)) d)) SystemExit
        "--factors must contain a JSON object of arrays" ;;;
      let factors := (fun p => {| f_name := fst p;
                                  levels := match snd p with VList l => l | _ => [] end |}) <$> d in
      match plan_campaign factors config with
      | Ok plan => Ok (json_indent true (plan_document plan) +:+ newline)
      | Raise e => if caught_by [ValueError; JSONDecodeError] e then Raise (Exn SystemExit (exn_msg e))
                   else Raise e
      end
  | _ => Raise (Exn SystemExit "--factors must contain a JSON object of arrays")
  end.
End Plan.

(** ** Lemmas *)

Lemma swap_perm {A} i j (l : list A) : swap i j l ≡ₚ l.
Proof.
  unfold swap. destruct (l !! i) as [a|] eqn:Ei; [|done]. destruct (l !! j) as [b|] eqn:Ej; [|done].
  by apply Permutation_insert_swap.
Qed.

Lemma shuffle_loop_perm {A} draw k i (l : list A) : shuffle_loop draw k i l ≡ₚ l.
Proof.
  revert k l. induction i as [|i IH]; intros k l; [done|]. cbn [shuffle_loop]. rewrite IH. apply swap_perm.
Qed.

Lemma shuffle_perm `{Rng} {A} sd (l : list A) : shuffle sd l ≡ₚ l.
Proof. apply shuffle_loop_perm. Qed.
#[export] Hint Resolve swap_perm shuffle_perm : k8.

Lemma length_product {A} (ls : list (list A)) :
  length (product ls) = foldr (fun l n => (length l * n)%nat) 1%nat ls.
Proof.
  induction ls as [|l ls IH]; [done|]. cbn [product foldr]. rewrite <- IH.
  induction l as [|x l IHl]; [done|]. cbn [flat_map length]. rewrite length_app, IHl, length_fmap. lia.
Qed.

Lemma count_cells_product fs : count_cells fs = Z.of_nat (length (all_cells fs)).
Proof.
  unfold count_cells, all_cells. rewrite length_fmap, length_product.
  rewrite <- (Z.mul_1_l (Z.of_nat _)). generalize 1.
  induction fs as [|f fs IH]; intros n; cbn [fold_left fmap list_fmap foldr]; [lia|].
  rewrite IH, Nat2Z.inj_mul. lia.
Qed.

(** Every factor at its first level. *)
Fixpoint first_levels (fs : list Factor) : option (list pyval) :=
  match fs with
  | [] => Some []
  | f :: fs' =>
      match levels f, first_levels fs' with
      | x :: _, Some xs => Some (x :: xs)
      | _, _ => None
      end
  end.

Lemma head_product (fs : list Factor) :
  Forall (fun f => levels f <> []) fs ->
  exists vs rest, product (levels <$> fs) = vs :: rest /\ first_levels fs = Some vs.
Proof.
  induction 1 as [|f fs Hf Hfs (vs & rest & E & Ef)]; [by do 2 eexists|].
  cbn [fmap list_fmap product first_levels]. rewrite E, Ef.
  destruct (levels f) as [|x l]; [done|]. by do 2 eexists.
Qed.

Lemma check_config_levels config fs :
  check_config config fs = Ok tt ->
  1 <= repetitions config /\ 1 <= budget_cap config /\ fs <> [] /\
  Forall (fun f => levels f <> []) fs.
Proof.
  unfold check_config. intros Hc. inv_ok. bool_hyps. split; [lia|]. split; [lia|].
  split; [by destruct fs|]. subst. clear -Hx3.
  induction fs as [|f fs IH]; [constructor|]. cbn [any_bad_levels] in Hx3. inv_ok.
  destruct x; [done|]. constructor; [|by apply IH].
  unfold bad_levels in Hx. destruct (levels f); [done|discriminate].
Qed.

(** What a plan must be. *)
Record sound_plan (fs : list Factor) (config : CampaignConfig) (p : CampaignPlan) : Prop := {
  sp_trials : total_trials p = Z.of_nat (length (cells p)) * repetitions config;
  sp_full : full_cells p = Z.of_nat (length (all_cells fs));
  sp_budget : total_trials p <= budget_cap config \/ confirmed config = true;
  sp_cells :
    (design p = "full" /\ cells p ≡ₚ all_cells fs) \/
    (design p = "fractional" /\ allow_fractional config = true /\
     cells p ⊆+ all_cells fs /\ total_trials p <= budget_cap config /\
     Z.of_nat (length (cells p)) = budget_cap config / repetitions config /\
     exists vs, first_levels fs = Some vs /\ head (cells p) = Some (zip (f_name <$> fs) vs))
}.

Section PlanLemmas.
Context `{Rng}.

Lemma choose_fractional config fs cs :
  check_config config fs = Ok tt ->
  budget_cap config < count_cells fs * repetitions config ->
  choose_cells config true (all_cells fs) = Ok cs ->
  exists baseline rest vs, cs = baseline :: rest /\ cs ⊆+ all_cells fs /\
    Z.of_nat (length cs) = budget_cap config / repetitions config /\
    first_levels fs = Some vs /\ baseline = zip (f_name <$> fs) vs.
Proof.
  intros Hc Hover Hcs. apply check_config_levels in Hc as (Hr & Hb & _ & Hl).
  rewrite count_cells_product in Hover. unfold all_cells in *.
  destruct (head_product fs Hl) as (vs & rest & E & Ef). rewrite E in *. clear E.
  cbn [fmap list_fmap choose_cells] in *. inv_ok. bool_hyps.
  set (others := (fun values : list pyval => zip (f_name <$> fs) values) <$> rest) in *. set (mx := budget_cap config / repetitions config) in *.
  assert (length (shuffle (seed config) others) = length others) as Elen
    by (apply Permutation_length, shuffle_perm).
  assert (mx * repetitions config <= budget_cap config) by (rewrite Z.mul_comm; apply Z.mul_div_le; lia).
  simpl length in Hover. assert (mx < Z.of_nat (S (length others))) by nia.
  do 3 eexists. split; [reflexivity|]. split; [|split; [|done]].
  - apply submseteq_skip. etransitivity; [|rewrite <- (shuffle_perm (seed config) others); reflexivity].
    apply sublist_submseteq, sublist_take.
  - simpl. rewrite length_take, Elen. lia.
Qed.

Lemma order_cells_perm config fr cs : order_cells config fr cs ≡ₚ cs.
Proof. unfold order_cells. destruct fr; [destruct cs|]; auto with k8. Qed.
End PlanLemmas.

(** ** Theorems *)

(** A campaign that [plan_campaign] returns fits its budget unless it was
    confirmed; a full design is a permutation of all level combinations; a
    fractional one starts with the baseline of first levels, has exactly
    [budget_cap // repetitions] cells, all of them combinations of the design
    and none taken twice, and never exceeds the budget. *)
Theorem plan_campaign_sound `{Rng} fs config p :
  plan_campaign fs config = Ok p -> sound_plan fs config p.
Proof.
  unfold plan_campaign. intros Hp. inv_ok. destruct x.
  set (fr := (budget_cap config <? _) && _) in *.
  pose proof (order_cells_perm config fr x0) as Hperm.
  assert (length (order_cells config fr x0) = length x0) as Elen by (by rewrite Hperm).
  pose proof (check_config_levels _ _ Hx) as (Hr & _).
  split; cbn [total_trials cells full_cells design]; rewrite ?Elen.
  - done.
  - apply count_cells_product.
  - apply andb_false_iff in Hx1 as [?|?]; bool_hyps; auto.
  - destruct fr eqn:Efr.
    + right. subst fr. bool_hyps.
      destruct (choose_fractional _ _ _ Hx ltac:(eassumption) Hx0)
        as (b & rest & vs & -> & Hsub & Hlen & Hf & ->).
      split; [done|]. split; [done|]. split; [by rewrite Hperm|]. rewrite Hlen.
      split; [rewrite Z.mul_comm; apply Z.mul_div_le; lia|]. split; [done|].
      exists vs. done.
    + left. split; [done|]. cbn [choose_cells] in Hx0. inv_ok. exact Hperm.
Qed.

#[local] Instance first_rng : Rng.
Proof. refine {| randbelow := fun _ _ _ => 0%nat |}. done. Defined.

Definition sample_factors : list Factor :=
  [ {| f_name := "limit"; levels := [VInt 50; VInt 100; VInt 200] |};
    {| f_name := "mix"; levels := [VStr "balanced"; VStr "cpu-heavy"] |} ].
Definition sample_config : CampaignConfig :=
  {| repetitions := 2; seed := 1; budget_cap := 9; confirmed := false; allow_fractional := true;
     seconds_per_trial := 600; cpu_millicores_per_trial := 500 |}.

Lemma plan_campaign_sound_witness :
  exists p, plan_campaign sample_factors sample_config = Ok p /\ length (cells p) = 4%nat /\
            sound_plan sample_factors sample_config p.
Proof.
  eexists. split; [vm_compute; reflexivity|]. split; [reflexivity|].
  apply plan_campaign_sound. vm_compute. reflexivity.
Defined.

(** A design over its budget that is neither confirmed nor allowed to be
    fractional is always refused with [BudgetExceeded]. *)
Theorem plan_campaign_guard `{Rng} fs config :
  check_config config fs = Ok tt ->
  budget_cap config < Z.of_nat (length (all_cells fs)) * repetitions config ->
  confirmed config = false -> allow_fractional config = false ->
  exists msg, plan_campaign fs config = Raise (Exn BudgetExceeded msg).
Proof.
  intros Hc Hover Hconf Hfrac. unfold plan_campaign. rewrite Hc, Hconf, Hfrac, andb_false_r.
  cbn [rbind choose_cells negb]. apply Z.ltb_lt in Hover. rewrite Hover. by eexists.
Qed.

Lemma plan_campaign_guard_witness :
  let config := {| repetitions := 2; seed := 1; budget_cap := 9; confirmed := false;
                   allow_fractional := false; seconds_per_trial := 600;
                   cpu_millicores_per_trial := 500 |} in
  exists msg, plan_campaign sample_factors config = Raise (Exn BudgetExceeded msg).
Proof. intros config. apply (plan_campaign_guard sample_factors config); reflexivity. Defined.
