(* ===== verification/Monotonic.v ===== *)
(** [phase8/model/monotonic.py]: the pool-adjacent-violators fit and its
    bounded interpolation. *)

From Stdlib Require Import ZArith Bool Ascii String Lia SpecFloat Sorted.
From stdpp Require Import base list strings option.
From S2P Require Import Prelude PyStr PyFloat PyVal Json.

Open Scope string_scope.
Open Scope Z_scope.

(** The [Observation] of this module. *)
Record Point : Type := { px : float; pvalue : float }.

Record MonotonicFit : Type := {
  direction : string;
  x_min : float;
  x_max : float;
  xs : list float;
  values : list float;
  lower : list float;
  upper : list float;
  sample_count : Z
}.

(** [self.values[self.xs.index(x)]], when [x in self.xs]. *)
Fixpoint value_at (x : float) (ks vs : list float) : option (result float) :=
  match ks, vs with
  | [], _ => None
  | k :: ks', v :: vs' => if feqb k x then Some (Ok v) else value_at x ks' vs'
  | k :: ks', [] => if feqb k x then Some (Raise (Exn IndexError "tuple index out of range"))
                    else value_at x ks' []
  end.

(** The loop over adjacent knots. *)
Fixpoint interpolate (x : float) (ks vs : list float) : result float :=
  match ks, vs with
  | lo :: ks', lo_value :: vs' =>
      match ks', vs' with
      | hi :: _, hi_value :: _ =>
          if fleb lo x && fleb x hi then
            let* fraction := fdiv (fsub x lo) (fsub hi lo) in
            Ok (fadd lo_value (fmul fraction (fsub hi_value lo_value)))
          else interpolate x ks' vs'
      | _, _ => Raise (Exn AssertionError "bounded interpolation failed")
      end
  | _, _ => Raise (Exn AssertionError "bounded interpolation failed")
  end.

Definition predict (fit : MonotonicFit) (x : float) : result float :=
  raise_if (fltb x (x_min fit) || fltb (x_max fit) x) ValueError
    ("x=" +:+ repr_float x +:+ " is outside measured range [" +:+ repr_float (x_min fit) +:+ ", "
     +:+ repr_float (x_max fit) +:+ "]") ;;;
  match value_at x (xs fit) (values fit) with
  | Some r => r
  | None => interpolate x (xs fit) (values fit)
  end.

(** ** Pool adjacent violators

    Blocks are kept with the newest first; [mean] is the mean of a block. *)

Fixpoint merge_back (mean : list float -> float) (block : list float) (blocks : list (list float))
    : list (list float) :=
  match blocks with
  | [] => [block]
  | prev :: rest =>
      if fltb (mean block) (mean prev) then merge_back mean (prev ++ block)%list rest
      else block :: blocks
  end.

Definition pool (mean : list float -> float) (signed : list float) : list (list float) :=
  fold_left (fun blocks value => merge_back mean [value] blocks) signed [].

(** [sum(block) / len(block)]; a block is never empty. *)
Definition block_mean (block : list float) : float := fdiv_ieee (py_sum block) (float_len block).

Definition flatten_blocks (mean : list float -> float) (blocks : list (list float)) : list float :=
  flat_map (fun block => replicate (length block) (mean block)) (rev blocks).

Definition pav_with (mean : list float -> float) (vs : list float) (decreasing : bool) : list float :=
  let signed := if decreasing then fopp <$> vs else vs in
  let fitted := flatten_blocks mean (pool mean signed) in
  if decreasing then fopp <$> fitted else fitted.

Definition pav : list float -> bool -> list float := pav_with block_mean.

(** ** The fit *)

Definition z_score (confidence : float) : float :=
  let c := round2 confidence in
  if feqb c (flit 90 100) then flit 1645 1000
  else if feqb c (flit 95 100) then flit 1960 1000
  else if feqb c (flit 99 100) then flit 2576 1000
  else flit 1960 1000.

(** [sorted(key=x)] *)
Definition by_x (a b : Point) : bool := negb (fltb (px b) (px a)).

Definition residuals (raw fitted : list float) : list float :=
  (fun p => fsub (fst p) (snd p)) <$> zip raw fitted.

Definition spread_of (raw fitted : list float) : result float :=
  match residuals raw fitted with
  | _ :: _ :: _ => pstdev (residuals raw fitted)
  | _ => match raw with
         | r :: _ => Ok (fmul (fabs r) (flit 5 100))
         | [] => Raise (Exn IndexError "list index out of range")
         end
  end.

Definition check_points (ordered : list Point) : result unit :=
  raise_if (negb (forallb (fun p => isfinite (px p) && isfinite (pvalue p)) ordered)) ValueError
    "observations must be finite" ;;;
  raise_if (existsb (fun '(l, r) => fleb (px r) (px l)) (adjacent ordered)) ValueError
    "x values must be strictly increasing".

(** [observations[i].x] for an index that exists. *)
Definition x_of (p : option Point) : result float :=
  match p with Some p => Ok (px p) | None => Raise (Exn IndexError "list index out of range") end.

Definition fit_monotonic (observations : list Point) (direction : string) (confidence : float)
    : result MonotonicFit :=
  raise_if (negb (mem_string direction ["lower"; "higher"])) ValueError
    "direction must be lower or higher" ;;;
  raise_if (match observations with [] => true | _ => false end) ValueError
    "at least one observation is required" ;;;
  raise_if (negb (fltb (flit 5 10) confidence && fltb confidence (flit 1 1))) ValueError
    "confidence must be between 0.5 and 1" ;;;
  let ordered := sort_by by_x observations in
  check_points ordered ;;;
  let raw := pvalue <$> ordered in
  let values := pav raw (String.eqb direction "lower") in
  let* spread := spread_of raw values in
  let margin := fmul (z_score confidence) spread in
  let* x_min := x_of (head ordered) in
  let* x_max := x_of (list.last ordered) in
  Ok {| direction := direction; x_min := x_min; x_max := x_max; xs := px <$> ordered;
        values := values;
        lower := (fun v => fmax fzero (fsub v margin)) <$> values;
        upper := (fun v => fadd v margin) <$> values; sample_count := 0 |}.

(** ** From rows of measurements *)

Abbreviation groups := (list (float * list float)).

(** [grouped.setdefault(x, []).append(v)] *)
Fixpoint group_add (x v : float) (g : groups) : groups :=
  match g with
  | [] => [(x, [v])]
  | (k, vs) :: g' => if feqb k x then (k, (vs ++ [v])%list) :: g' else (k, vs) :: group_add x v g'
  end.
Fixpoint group_get (x : float) (g : groups) : result (list float) :=
  match g with
  | [] => Raise (Exn KeyError (repr_float x))
  | (k, vs) :: g' => if feqb k x then Ok vs else group_get x g'
  end.

Definition add_row (x_key y_key : string) (g : groups) (row : pydict) : result groups :=
  match dget "valid" row with
  | Some (VBool true) =>
      let bound := dget_or "dependency_bound" (VStr "no") row in
      if negb (py_eq bound VNone || py_eq bound (VStr "no")) then Ok g
      else
        let x := dget_none x_key row in
        let v := dget_none y_key row in
        if negb (is_number x) || negb (is_number v) then Ok g
        else
          let* fx := float_of_num x in
          if negb (isfinite fx) then Ok g
          else
            let* fv := float_of_num v in
            if negb (isfinite fv) then Ok g else Ok (group_add fx fv g)
  | _ => Ok g
  end.

Definition usable_points (min_samples : Z) (g : groups) : result (list Point) :=
  mapM (fun p => let* m := fmean (snd p) in Ok {| px := fst p; pvalue := m |})
    (List.filter (fun p => min_samples <=? Z.of_nat (length (snd p)))
       (sort_by (fun a b : float * list float => negb (fltb (fst b) (fst a))) g)).

(** The margin of one cell: [z * stdev / sqrt(n)]. *)
Definition cell_bounds (g : groups) (z : float) (x fitted fit_low fit_high : float)
    : result (float * float) :=
  let* samples := group_get x g in
  let* sd := stdev samples in
  let* standard_error := fdiv sd (fsqrt (float_len samples)) in
  let margin := fmul z standard_error in
  Ok (fmax fzero (fmin fit_low (fsub fitted margin)), fmax fit_high (fadd fitted margin)).

Fixpoint bounds_loop (g : groups) (z : float) (ks vs los his : list float)
    : result (list (float * float)) :=
  match ks, vs, los, his with
  | x :: ks', v :: vs', lo :: los', hi :: his' =>
      let* b := cell_bounds g z x v lo hi in
      let* bs := bounds_loop g z ks' vs' los' his' in
      Ok (b :: bs)
  | _, _, _, _ => Ok []
  end.

Definition fit_response_table (rows : list pydict) (x_key y_key direction : string) (min_samples : Z)
    (confidence : float) : result MonotonicFit :=
  raise_if (min_samples <? 2) ValueError
    "min_samples must be at least two for confidence estimation" ;;;
  let* grouped := foldM (add_row x_key y_key) [] rows in
  let* usable := usable_points min_samples grouped in
  raise_if (Z.of_nat (length usable) <? 2) ValueError
    ("insufficient usable measured cells: need at least two levels with " +:+ str_of_Z min_samples
     +:+ " samples each") ;;;
  let* fit := fit_monotonic usable direction confidence in
  let* bounds := bounds_loop grouped (z_score confidence) (xs fit) (values fit) (lower fit) (upper fit) in
  let* counts := mapM (fun x => let* s := group_get x grouped in Ok (Z.of_nat (length s))) (xs fit) in
  Ok {| direction := Monotonic.direction fit; x_min := x_min fit; x_max := x_max fit; xs := xs fit;
        values := values fit; lower := fst <$> bounds; upper := snd <$> bounds;
        sample_count := sum_Z counts |}.

(** ** Lemmas: the pooled blocks *)

Definition no_inversion (a b : float) : Prop := fltb b a = false.

Section Pool.
Context (mean : list float -> float).

(** The means of the blocks, newest first, never show an inversion. *)
Definition ordered_blocks (blocks : list (list float)) : Prop :=
  Sorted (fun newer older => no_inversion (mean older) (mean newer)) blocks.

Lemma merge_back_ordered block blocks :
  ordered_blocks blocks -> ordered_blocks (merge_back mean block blocks).
Proof.
  revert block. induction blocks as [|prev rest IH]; intros block Ho; [by repeat constructor|].
  cbn [merge_back]. destruct (fltb (mean block) (mean prev)) eqn:E.
  - apply IH. by inversion Ho.
  - constructor; [done|]. by constructor.
Qed.

Lemma merge_back_concat block blocks :
  concat (rev (merge_back mean block blocks)) = (concat (rev blocks) ++ block)%list.
Proof.
  revert block. induction blocks as [|prev rest IH]; intros block; [simpl; by rewrite app_nil_r|].
  cbn [merge_back]. destruct (fltb _ _).
  - rewrite IH. cbn [rev]. rewrite concat_app. simpl. by rewrite app_nil_r, <- app_assoc.
  - cbn [rev]. rewrite !concat_app. simpl. by rewrite !app_nil_r.
Qed.

Lemma merge_back_nonempty block blocks :
  block <> [] -> Forall (fun b => b <> []) blocks ->
  Forall (fun b => b <> []) (merge_back mean block blocks).
Proof.
  revert block. induction blocks as [|prev rest IH]; intros block Hb Hf; [by apply Forall_singleton|].
  inversion Hf; subst. cbn [merge_back]. destruct (fltb _ _); [|by apply Forall_cons_2].
  apply IH; [|done]. by destruct prev.
Qed.

(** The pooled blocks are the values in their order, cut into non-empty
    blocks without inversion. *)
Lemma pool_spec vs :
  ordered_blocks (pool mean vs) /\ concat (rev (pool mean vs)) = vs /\
  Forall (fun b => b <> []) (pool mean vs).
Proof.
  unfold pool. induction vs as [|v vs (Ho & Hc & Hn)] using rev_ind; [by repeat constructor|].
  rewrite fold_left_app. cbn [fold_left]. split; [by apply merge_back_ordered|].
  split; [by rewrite merge_back_concat, Hc|by apply merge_back_nonempty].
Qed.

Lemma length_flatten blocks :
  length (flatten_blocks mean blocks) = length (concat (rev blocks)).
Proof.
  unfold flatten_blocks. induction (rev blocks) as [|b bs IH]; [done|].
  cbn [flat_map concat]. by rewrite !length_app, length_replicate, IH.
Qed.

Lemma flt_irrefl x : fltb x x = false.
Proof. destruct (fltb x x) eqn:E; [|done]. destruct (flt_not_eq _ _ E). congruence. Qed.

Lemma sorted_replicate n x l :
  Sorted no_inversion l -> HdRel no_inversion x l -> Sorted no_inversion (replicate n x ++ l)%list.
Proof.
  intros Hl Hd. induction n as [|n IH]; [done|]. cbn [replicate app]. constructor; [done|].
  destruct n; [done|]. constructor. apply flt_irrefl.
Qed.

Lemma flatten_sorted blocks :
  Forall (fun b => b <> []) blocks ->
  Sorted (fun a b => no_inversion (mean a) (mean b)) blocks ->
  Sorted no_inversion (flat_map (fun b => replicate (length b) (mean b)) blocks) /\
  forall x, match blocks with [] => True | b :: _ => no_inversion x (mean b) end ->
    HdRel no_inversion x (flat_map (fun b => replicate (length b) (mean b)) blocks).
Proof.
  induction blocks as [|b bs IH]; intros Hn Hs; [by split; [constructor|constructor]|].
  inversion Hn; subst. inversion Hs as [|? ? Hs' Hd]; subst. destruct IH as [IH1 IH2]; [done..|].
  cbn [flat_map]. split.
  - apply sorted_replicate; [done|]. apply IH2. destruct bs; [done|]. by inversion Hd.
  - intros x Hx. destruct b; [done|]. by constructor.
Qed.
End Pool.

Lemma Sorted_rev {A} (R : A -> A -> Prop) (l : list A) :
  Sorted (fun a b => R b a) l -> Sorted R (rev l).
Proof.
  intros Hs. induction Hs as [|x l Hs IH Hd]; [constructor|]. cbn [rev].
  destruct l as [|y l]; [by repeat constructor|]. inversion Hd; subst. cbn [rev] in *.
  clear -IH H0. induction (rev l) as [|z zs IHz]; cbn [app] in *.
  - repeat constructor. done.
  - inversion IH as [|? ? Hs Hd]; subst. constructor; [by apply IHz|].
    destruct zs; cbn [app] in *; inversion Hd; by constructor.
Qed.

Lemma pav_increasing mean vs :
  Sorted no_inversion (flatten_blocks mean (pool mean vs)) /\
  length (flatten_blocks mean (pool mean vs)) = length vs.
Proof.
  destruct (pool_spec mean vs) as (Ho & Hc & Hn). split.
  - apply flatten_sorted; [by apply Forall_rev|]. by apply Sorted_rev.
  - by rewrite length_flatten, Hc.
Qed.

(** ** Lemmas: the bounded interpolation *)

Definition increasing (ks : list float) : Prop := Sorted (fun a b => fltb a b = true) ks.

Lemma increasing_Forall k ks : increasing (k :: ks) -> Forall (fun y => fltb k y = true) ks.
Proof.
  intros Hs. apply Sorted_StronglySorted in Hs.
  - by inversion Hs.
  - intros a b c. apply flt_trans.
Qed.

(** The head of an increasing list is not above any element, the last one not
    below. *)
Lemma increasing_bounds ks i x :
  increasing ks -> ks !! i = Some x ->
  (forall a, head ks = Some a -> fltb x a = false) /\
  (forall b, list.last ks = Some b -> fltb b x = false).
Proof.
  revert i. induction ks as [|k ks IH]; intros i Hs Hi; [done|].
  pose proof (increasing_Forall _ _ Hs) as Hf. rewrite list.Forall_forall in Hf.
  inversion Hs as [|? ? Hs' _]; subst. destruct i as [|i]; simpl in Hi.
  - injection Hi as ->. split; [intros a [= <-]; apply flt_irrefl|].
    intros b Hb. destruct ks as [|y ks]; [injection Hb as <-; apply flt_irrefl|].
    assert (b ∈ y :: ks) as Hin by (apply last_Some_elem_of; exact Hb).
    by destruct (flt_not_eq _ _ (Hf b Hin)).
  - split.
    + intros a [= <-]. apply list_elem_of_lookup_2 in Hi. by destruct (flt_not_eq _ _ (Hf x Hi)).
    + intros b Hb. destruct ks as [|y ks]; [done|]. by apply (IH i).
Qed.

Lemma value_at_knot ks vs i x v :
  increasing ks -> Forall (fun k => is_nan k = false) ks ->
  ks !! i = Some x -> vs !! i = Some v -> value_at x ks vs = Some (Ok v).
Proof.
  revert vs i. induction ks as [|k ks IH]; intros vs i Hs Hn Hi Hv; [done|].
  inversion Hn; subst. destruct vs as [|w vs]; [done|]. destruct i as [|i]; simpl in Hi, Hv.
  - simplify_eq. cbn [value_at]. by rewrite feq_refl.
  - pose proof (increasing_Forall _ _ Hs) as Hf. rewrite list.Forall_forall in Hf.
    inversion Hs; subst. cbn [value_at].
    destruct (flt_not_eq k x) as [-> _]; [by apply Hf, (list_elem_of_lookup_2 _ i)|]. by apply (IH _ i).
Qed.

(** Between the first and the last knot one interval holds the argument. *)
Lemma interpolate_total x ks vs :
  length ks = length vs -> Forall (fun k => is_nan k = false) ks -> is_nan x = false ->
  value_at x ks vs = None ->
  (forall a, head ks = Some a -> fltb x a = false) ->
  (forall b, list.last ks = Some b -> fltb b x = false) -> ks <> [] ->
  interpolate x ks vs <> Raise (Exn AssertionError "bounded interpolation failed").
Proof.
  revert vs. induction ks as [|k ks IH]; intros vs Hlen Hn Hx Hv Hh Hl Hne; [done|].
  inversion Hn as [|? ? Hk Hks]; subst. destruct vs as [|v vs]; [done|]. cbn [value_at] in Hv.
  destruct (feqb k x) eqn:Ek; [done|]. specialize (Hh k eq_refl).
  assert (fltb k x = true) as Hlt by (destruct (fcases k x Hk Hx) as [?|[?|?]]; congruence).
  destruct ks as [|k2 ks]; [rewrite (Hl k eq_refl) in Hlt; done|]. destruct vs as [|v2 vs]; [done|].
  cbn [interpolate]. assert (fleb k x = true) as ->.
  { apply not_flt_fle; [done|done|]. by destruct (flt_not_eq _ _ Hlt). }
  cbn [andb]. inversion Hks; subst. destruct (fleb x k2) eqn:E2.
  - unfold fdiv. by destruct (fsub k2 k).
  - apply (IH (v2 :: vs)); [simpl in *; lia|done..| |done|done].
    intros a [= <-]. destruct (fltb x k2) eqn:E3; [|done].
    destruct (not_flt_fle x k2) as [Hle _]; [done..|]. destruct (flt_not_eq _ _ E3) as [_ E4].
    rewrite (Hle E4) in E2. done.
Qed.

Lemma pav_spec mean vs decreasing :
  length (pav_with mean vs decreasing) = length vs /\
  Sorted (fun a b => if decreasing then fltb a b = false else fltb b a = false)
    (pav_with mean vs decreasing).
Proof.
  unfold pav_with. destruct decreasing.
  - destruct (pav_increasing mean (fopp <$> vs)) as [Hs Hl]. rewrite length_fmap in *. split; [done|].
    clear Hl. induction Hs as [|x l Hs IH Hd]; [constructor|]. rewrite fmap_cons. constructor; [apply IH|].
    inversion Hd; subst; [constructor|]. rewrite fmap_cons. constructor. by rewrite flt_opp.
  - by destruct (pav_increasing mean vs).
Qed.

(** What a fit must be. *)
Record sound_fit (observations : list Point) (dir : string) (fit : MonotonicFit) : Prop := {
  sf_direction : direction fit = dir;
  sf_xs : xs fit ≡ₚ px <$> observations;
  sf_increasing : increasing (xs fit);
  sf_finite : Forall (fun x => isfinite x = true) (xs fit);
  sf_ends : head (xs fit) = Some (x_min fit) /\ list.last (xs fit) = Some (x_max fit);
  sf_lengths : length (values fit) = length (xs fit) /\ length (lower fit) = length (xs fit) /\
               length (upper fit) = length (xs fit);
  sf_monotone : Sorted (fun a b => if String.eqb dir "lower" then fltb a b = false
                                   else fltb b a = false) (values fit);
  sf_lower : Forall (fun l => fltb l fzero = false) (lower fit)
}.

Lemma check_points_Ok ps :
  check_points ps = Ok tt ->
  increasing (px <$> ps) /\ Forall (fun x => isfinite x = true) (px <$> ps).
Proof.
  unfold check_points. intros Hc. inv_ok. bool_hyps. rewrite forallb_forall in Hx.
  assert (forall p, p ∈ ps -> is_nan (px p) = false) as Hn.
  { intros p Hp. apply list_elem_of_In, Hx in Hp. bool_hyps. by apply isfinite_not_nan. }
  split.
  - unfold increasing. induction ps as [|p ps IH]; [constructor|]. rewrite fmap_cons. constructor.
    + apply IH; [intros q Hq; apply Hx; by right| |intros q Hq; apply Hn; by right].
      destruct ps; [done|]. rewrite adjacent_cons in Hc. cbn [existsb] in Hc. by bool_hyps.
    + destruct ps as [|q ps]; [constructor|]. rewrite fmap_cons. constructor.
      rewrite adjacent_cons in Hc. cbn [existsb] in Hc. bool_hyps.
      destruct (not_flt_fle (px q) (px p)) as [Hle _]; [apply Hn; rewrite !elem_of_cons; auto..|].
      destruct (fltb (px p) (px q)); [done|]. rewrite Hle in H; done.
  - rewrite Forall_fmap, list.Forall_forall. intros p Hp. apply list_elem_of_In, Hx in Hp. by bool_hyps.
Qed.

Lemma fmax_zero y : fltb (fmax fzero y) fzero = false.
Proof.
  unfold fmax. destruct (fltb fzero y) eqn:E; [by destruct (flt_not_eq _ _ E)|done].
Qed.

Lemma fit_monotonic_fit observations dir confidence fit :
  fit_monotonic observations dir confidence = Ok fit -> sound_fit observations dir fit.
Proof.
  unfold fit_monotonic. intros Hf. inv_ok. destruct x2.
  set (ordered := sort_by by_x observations) in *.
  apply check_points_Ok in Hx2 as [Hi Hfin].
  destruct (pav_spec block_mean (pvalue <$> ordered) (String.eqb dir "lower")) as [Hl Hs].
  rewrite length_fmap in Hl.
  split; cbn [direction xs values lower upper x_min x_max]; rewrite ?length_fmap.
  - done.
  - unfold ordered. by rewrite sort_by_perm.
  - done.
  - done.
  - rewrite fmap_last. clearbody ordered. unfold x_of in *.
    destruct (list.last ordered), ordered; simplify_eq/=; done.
  - unfold pav. by rewrite Hl.
  - exact Hs.
  - rewrite Forall_fmap, list.Forall_forall. intros v _. apply fmax_zero.
Qed.

(** ** Theorems *)

(** Whatever the mean of a block is, pool-adjacent-violators gives one
    fitted value per input, in an order without inversions: never falling for
    an increasing fit, never rising for a decreasing one. *)
Theorem pav_monotone mean vs decreasing :
  length (pav_with mean vs decreasing) = length vs /\
  Sorted (fun a b => if decreasing then fltb a b = false else fltb b a = false)
    (pav_with mean vs decreasing).
Proof. apply pav_spec. Qed.

(** C38: a fit has the observed levels as its strictly increasing, finite knots,
    one value and two bounds per knot, values monotone in the requested
    direction, and lower bounds that are not negative. *)
Theorem fit_monotonic_sound observations dir confidence fit :
  fit_monotonic observations dir confidence = Ok fit -> sound_fit observations dir fit.
Proof. apply fit_monotonic_fit. Qed.

Definition sample_points : list Point :=
  [ {| px := flit 200 1; pvalue := flit 20 1 |}; {| px := flit 50 1; pvalue := flit 90 1 |};
    {| px := flit 100 1; pvalue := flit 95 1 |} ].

Lemma fit_monotonic_sound_witness :
  exists fit, fit_monotonic sample_points "lower" (flit 95 100) = Ok fit /\
    xs fit = [flit 50 1; flit 100 1; flit 200 1] /\ increasing (xs fit).
Proof.
  destruct (fit_monotonic sample_points "lower" (flit 95 100)) as [fit|e] eqn:E;
    [|exfalso; vm_compute in E; discriminate E].
  exists fit. split; [reflexivity|]. split.
  - apply (f_equal (fun r => match r with Ok f => xs f | Raise _ => [] end)) in E.
    rewrite <- E. vm_compute. reflexivity.
  - apply (fit_monotonic_sound sample_points "lower" (flit 95 100) fit E).
Defined.

(** On a fit, [predict] refuses every number outside the measured range
    with [ValueError], returns the fitted value itself at a knot, and inside
    the range always finds an interval: its [AssertionError] is unreachable. *)
Theorem predict_bounded observations dir confidence fit x :
  fit_monotonic observations dir confidence = Ok fit -> is_nan x = false ->
  (fltb x (x_min fit) = true \/ fltb (x_max fit) x = true ->
     exists msg, predict fit x = Raise (Exn ValueError msg)) /\
  (forall i v, xs fit !! i = Some x -> values fit !! i = Some v -> predict fit x = Ok v) /\
  (fltb x (x_min fit) = false -> fltb (x_max fit) x = false ->
     predict fit x <> Raise (Exn AssertionError "bounded interpolation failed")).
Proof.
  intros Hf Hx. apply fit_monotonic_fit in Hf as [_ _ Hi Hfin [Hh Hl] (Hlen & _ & _) _ _].
  assert (Forall (fun k => is_nan k = false) (xs fit)) as Hn.
  { eapply Forall_impl; [|exact Hfin]. apply isfinite_not_nan. }
  unfold predict. split; [|split].
  - intros [-> | ->]; rewrite ?orb_true_r; by eexists.
  - intros i v Hxi Hvi. destruct (increasing_bounds _ _ _ Hi Hxi) as [H1 H2].
    rewrite (H1 _ Hh), (H2 _ Hl). cbn [orb raise_if rbind]. by rewrite (value_at_knot _ _ i x v).
  - intros H1 H2. rewrite H1, H2. cbn [orb raise_if rbind].
    destruct (value_at x (xs fit) (values fit)) as [r|] eqn:Ev.
    + clear -Ev. revert Ev. generalize (values fit). induction (xs fit) as [|k ks IH]; intros vs Ev; [done|].
      cbn [value_at] in Ev. destruct vs; destruct (feqb k x);
        try (injection Ev as <-; discriminate); by eapply IH.
    + apply interpolate_total; try done.
      * intros a Ha. congruence.
      * intros b Hb. congruence.
      * by destruct (xs fit).
Qed.

Lemma predict_bounded_witness :
  exists fit, fit_monotonic sample_points "lower" (flit 95 100) = Ok fit /\
    exists msg, predict fit (flit 300 1) = Raise (Exn ValueError msg).
Proof.
  destruct (fit_monotonic sample_points "lower" (flit 95 100)) as [fit|e] eqn:E;
    [|exfalso; vm_compute in E; discriminate E].
  exists fit. split; [reflexivity|].
  apply (predict_bounded sample_points "lower" (flit 95 100) fit (flit 300 1) E); [reflexivity|].
  right. apply (f_equal (fun r => match r with Ok f => x_max f | Raise _ => fzero end)) in E.
  rewrite <- E. vm_compute. reflexivity.
Defined.
