(* ===== verification/Bundle.v ===== *)
(** [phase8/model/bundle.py]: building, hashing and validating model bundles. *)

From Stdlib Require Import ZArith Bool Ascii String Lia SpecFloat.
From stdpp Require Import base list strings option.
From S2P Require Import Prelude PyStr PyFloat PyVal Json PyConv Sha256 RenderCell.

Open Scope string_scope.
Open Scope Z_scope.

Definition REQUIRED_FIELDS : list string :=
  ["schema_version"; "model_id"; "model_hash"; "created_at"; "provenance"; "workload"; "telemetry";
   "factors"; "slo"; "policy_defaults"; "response"; "exclusions"].

Definition canonical_json (document : pydict) : string := json_canonical (VDict document).

Definition hash_input (document : pydict) : pydict := ddel "model_hash" document.

Definition expected_hash (document : pydict) : string :=
  "sha256:" +:+ sha256_hex (bytes_of_string (canonical_json (hash_input document))).

Definition verify_model_hash (document : pydict) : bool :=
  py_eq (dget_none "model_hash" document) (VStr (expected_hash document)).

(** ** Checks *)

Definition bundle_error {A} (msg : string) : result A := Raise (Exn BundleError msg).

Definition require_mapping (document : pydict) (field : string) : result pydict :=
  match dget_none field document with
  | VDict d => Ok d
  | _ => bundle_error (field +:+ " must be an object")
  end.

Definition reject_unknown (mapping : pydict) (allowed : list string) (field : string) : result unit :=
  let unknown := sorted_difference (dkeys mapping) allowed in
  raise_if (negb (bool_decide (unknown = []))) BundleError
    (field +:+ " contains unsupported fields: " +:+ join ", " unknown).

Definition finite_number (value : pyval) (field : string) : result unit :=
  raise_if (negb (is_number value) || is_bool value) BundleError (field +:+ " must be a number") ;;;
  let* x := float_of_num value in
  raise_if (negb (isfinite x)) BundleError (field +:+ " must be finite").

(** [isinstance(v, str) and v] *)
Definition nonempty_str (v : pyval) : bool := match v with VStr s => negb (is_empty s) | _ => false end.

(** [v in {s1, ..., sn}]: a set lookup needs a hashable value. *)
Definition in_str_set (v : pyval) (l : list string) : result bool :=
  match v with
  | VList _ | VDict _ => Raise (Exn TypeError "unhashable type")
  | VStr s => Ok (mem_string s l)
  | _ => Ok false
  end.

(** [lo <= v <= hi] for integer bounds. *)
Definition within (lo : Z) (v : pyval) (hi : Z) : result bool :=
  let* a := py_le (VInt lo) v in
  if a then py_le v (VInt hi) else Ok false.

Definition require_key (mapping : pydict) (field prefix : string) : result unit :=
  raise_if (negb (dmem field mapping)) BundleError (prefix +:+ field +:+ " is required").

Definition check_top (document : pydict) : result unit :=
  let missing := List.filter (fun f => negb (dmem f document)) REQUIRED_FIELDS in
  raise_if (negb (bool_decide (missing = []))) BundleError
    ("missing required fields: " +:+ join ", " missing) ;;;
  reject_unknown document REQUIRED_FIELDS "bundle" ;;;
  let* version := dindex "schema_version" document in
  raise_if (negb (py_eq version (VStr "cpu-limit-model/v1"))) BundleError "unsupported schema_version" ;;;
  let* model_id := dindex "model_id" document in
  raise_if (match model_id with
            | VStr s => is_empty s || (128 <? slen s)
            | _ => true
            end) BundleError "model_id must be a non-empty string of at most 128 characters" ;;;
  let* model_hash := dindex "model_hash" document in
  raise_if (negb (is_str model_hash) || negb (verify_model_hash document)) BundleError
    "model_hash does not match canonical bundle content".

(** A non-negative [int] that is no [bool]. *)
Definition count_of (mapping : pydict) (field : string) : result Z :=
  match dget_none field mapping with
  | VInt z => if z <? 0 then bundle_error ("provenance." +:+ field +:+ " must be a non-negative integer")
              else Ok z
  | _ => bundle_error ("provenance." +:+ field +:+ " must be a non-negative integer")
  end.

Definition check_provenance (document : pydict) : result unit :=
  let* provenance := require_mapping document "provenance" in
  reject_unknown provenance
    ["generator"; "campaign_id"; "protocol_version"; "git_revision"; "trials_total"; "trials_usable";
     "cluster_baseline"] "provenance" ;;;
  iterM (fun field =>
           raise_if (negb (nonempty_str (dget_none field provenance))) BundleError
             ("provenance." +:+ field +:+ " is required"))
        ["generator"; "campaign_id"; "protocol_version"] ;;;
  let* total := count_of provenance "trials_total" in
  let* usable := count_of provenance "trials_usable" in
  raise_if (total <? usable) BundleError "provenance.trials_usable cannot exceed trials_total" ;;;
  if dmem "cluster_baseline" provenance then
    let* baseline := require_mapping provenance "cluster_baseline" in
    reject_unknown baseline ["kubernetes_version"; "container_runtime"] "provenance.cluster_baseline" ;;;
    iterM (fun field =>
             raise_if (negb (is_str (dget_none field baseline))) BundleError
               ("provenance.cluster_baseline." +:+ field +:+ " is required"))
          ["kubernetes_version"; "container_runtime"]
  else Ok tt.

(** One container; [names] are the names before it. *)
Definition check_container (names : list string) (container : pyval) : result (list string) :=
  match container with
  | VDict c =>
      reject_unknown c ["name"; "role"] "workload.containers" ;;;
      match dget_none "name" c with
      | VStr name =>
          raise_if (is_empty name) BundleError "workload.containers.name is required" ;;;
          let* ok := in_str_set (dget_none "role" c) ["app"; "sidecar"] in
          raise_if (negb ok) BundleError "workload.containers.role is invalid" ;;;
          raise_if (mem_string name names) BundleError "workload container names must be unique" ;;;
          Ok (name :: names)
      | _ => bundle_error "workload.containers.name is required"
      end
  | _ => bundle_error "workload.containers entries must be objects"
  end.

Definition check_workload (document : pydict) : result (list string) :=
  let* workload := require_mapping document "workload" in
  reject_unknown workload ["profile"; "contract_version"; "containers"] "workload" ;;;
  iterM (fun field => require_key workload field "workload.")
        ["profile"; "contract_version"; "containers"] ;;;
  raise_if (negb (py_eq (dget_none "contract_version" workload) (VStr "db-cache-mixed/v1"))) BundleError
    "unsupported workload.contract_version" ;;;
  match dget_none "containers" workload with
  | VList (c :: cs) => foldM check_container [] (c :: cs)
  | _ => bundle_error "workload.containers must be non-empty"
  end.

Definition check_telemetry (document : pydict) : result unit :=
  let* telemetry := require_mapping document "telemetry" in
  reject_unknown telemetry ["contract_version"; "required_signals"] "telemetry" ;;;
  raise_if (negb (py_eq (dget_none "contract_version" telemetry) (VStr "cpu-limit-telemetry/v1")))
    BundleError "unsupported telemetry.contract_version" ;;;
  match dget_none "required_signals" telemetry with
  | VList (s :: ss) =>
      iterM (fun signal =>
               raise_if (match signal with
                         | VStr t => negb (mem_string (split_head "." t)
                                             ["request"; "dependency"; "resource"; "hpa"])
                         | _ => true
                         end) BundleError "telemetry.required_signals contains an invalid signal")
            (s :: ss)
  | _ => bundle_error "telemetry.required_signals must be non-empty"
  end.

Definition check_range (factors : pydict) (field : string) : result unit :=
  let* factor_range := require_mapping factors field in
  reject_unknown factor_range ["min"; "max"] ("factors." +:+ field) ;;;
  finite_number (dget_none "min" factor_range) ("factors." +:+ field +:+ ".min") ;;;
  finite_number (dget_none "max" factor_range) ("factors." +:+ field +:+ ".max") ;;;
  let* above := py_gt (dget_none "min" factor_range) (dget_none "max" factor_range) in
  raise_if above BundleError ("factors." +:+ field +:+ " min exceeds max").

Definition range_fields : list string :=
  ["cpu_limit_millicores"; "replicas"; "request_rate_per_second"; "cpu_request_millicores";
   "node_capacity_millicores"].

Definition check_factors (document : pydict) : result unit :=
  let* factors := require_mapping document "factors" in
  reject_unknown factors
    (range_fields ++ ["mix"; "contention"; "postgres_capacity"; "redis_capacity"])%list "factors" ;;;
  iterM (check_range factors) range_fields ;;;
  iterM (fun field =>
           raise_if (match dget_none field factors with
                     | VList (l :: ls) => negb (forallb nonempty_str (l :: ls))
                     | _ => true
                     end) BundleError ("factors." +:+ field +:+ " must contain non-empty levels"))
        ["mix"; "contention"].

Definition slo_fields : list string :=
  ["max_p99_latency_ms"; "min_throughput_rps"; "max_error_ratio"; "min_availability_ratio"].

Definition check_slo (document : pydict) : result unit :=
  let* slo := require_mapping document "slo" in
  reject_unknown slo slo_fields "slo" ;;;
  iterM (fun field => finite_number (dget_none field slo) ("slo." +:+ field)) slo_fields ;;;
  let* bad :=
    (let* a := py_le (dget_none "max_p99_latency_ms" slo) (VInt 0) in
     if a then Ok true else
     let* b := py_lt (dget_none "min_throughput_rps" slo) (VInt 0) in
     if b then Ok true else
     let* c := within 0 (dget_none "max_error_ratio" slo) 1 in
     if negb c then Ok true else
     let* d := within 0 (dget_none "min_availability_ratio" slo) 1 in
     Ok (negb d)) in
  raise_if bad BundleError "slo values are outside allowed ranges".

(** [isinstance(v, int) and v >= 1]; a [bool] is an [int]. *)
Definition positive_int (v : pyval) : result bool :=
  if is_int v then py_le (VInt 1) v else Ok false.

Definition check_policy (document : pydict) : result unit :=
  let* policy := require_mapping document "policy_defaults" in
  reject_unknown policy
    ["confidence_level"; "latency_margin_ratio"; "headroom_ratio"; "min_replicas"; "max_replicas"]
    "policy_defaults" ;;;
  let confidence := dget_none "confidence_level" policy in
  finite_number confidence "policy_defaults.confidence_level" ;;;
  let* c := float_of_num confidence in
  raise_if (negb (fltb (flit 5 10) c && fleb c (flit 999 1000))) BundleError
    "policy_defaults.confidence_level must be above 0.5" ;;;
  iterM (fun field =>
           finite_number (dget_none field policy) ("policy_defaults." +:+ field) ;;;
           let* ok := within 0 (dget_none field policy) 1 in
           raise_if (negb ok) BundleError ("policy_defaults." +:+ field +:+ " is outside [0, 1]"))
        ["latency_margin_ratio"; "headroom_ratio"] ;;;
  let* ok :=
    (let* a := positive_int (dget_none "min_replicas" policy) in
     if a then
       let* b := positive_int (dget_none "max_replicas" policy) in
       if b then
         let* above := py_gt (dget_none "min_replicas" policy) (dget_none "max_replicas" policy) in
         Ok (negb above)
       else Ok false
     else Ok false) in
  raise_if (negb ok) BundleError "policy replica bounds are invalid".

Definition row_fields : list string :=
  ["conditions"; "cpu_limit_millicores"; "cpu_request_millicores"; "replicas";
   "request_rate_per_second"; "contention"; "p50_latency_ms"; "p99_latency_ms"; "p99_upper_ms";
   "throughput_rps"; "error_ratio"; "availability_ratio"; "cpu_usage_millicores"; "throttle_ratio";
   "throttled_ms_per_second"; "dependency_bound"; "samples"; "valid"; "invalid_reason"].

Definition check_conditions (at_row : string) (conditions : pyval) : result unit :=
  match conditions with
  | VDict c =>
      reject_unknown c ["mix"; "postgres_capacity"; "redis_capacity"; "node_capacity_millicores"]
        (at_row +:+ ".conditions") ;;;
      iterM (fun field =>
               raise_if (negb (nonempty_str (dget_none field c))) BundleError
                 (at_row +:+ ".conditions." +:+ field +:+ " is required"))
            ["mix"; "postgres_capacity"; "redis_capacity"] ;;;
      let* ok := positive_int (dget_none "node_capacity_millicores" c) in
      raise_if (negb ok) BundleError (at_row +:+ ".conditions.node_capacity_millicores is invalid")
  | _ => bundle_error (at_row +:+ ".conditions must be an object")
  end.

Definition check_row (entry : nat * pyval) : result unit :=
  let at_row := "response[" +:+ str_of_Z (Z.of_nat (fst entry)) +:+ "]" in
  match snd entry with
  | VDict row =>
      reject_unknown row row_fields at_row ;;;
      iterM (fun field => require_key row field (at_row +:+ ".")) ["conditions"; "samples"; "valid"] ;;;
      let* ok := positive_int (dget_none "samples" row) in
      raise_if (negb ok) BundleError (at_row +:+ ".samples must be positive") ;;;
      raise_if (negb (is_bool (dget_none "valid" row))) BundleError (at_row +:+ ".valid must be boolean") ;;;
      let* known := in_str_set (dget_or "dependency_bound" (VStr "no") row)
                      ["no"; "postgres"; "redis"; "load_generator"; "unknown"] in
      raise_if (negb known) BundleError (at_row +:+ ".dependency_bound is invalid") ;;;
      check_conditions at_row (dget_none "conditions" row) ;;;
      iterM (fun field =>
               require_key row field (at_row +:+ ".") ;;;
               finite_number (dget_none field row) (at_row +:+ "." +:+ field))
            ["cpu_limit_millicores"; "cpu_request_millicores"; "replicas"; "request_rate_per_second";
             "p99_latency_ms"; "p99_upper_ms"; "throughput_rps"; "error_ratio"; "availability_ratio"] ;;;
      iterM (fun field =>
               let* ok := positive_int (dget_none field row) in
               raise_if (negb ok) BundleError (at_row +:+ "." +:+ field +:+ " must be a positive integer"))
            ["cpu_limit_millicores"; "cpu_request_millicores"; "replicas"] ;;;
      iterM (fun field =>
               let* ok := within 0 (dget_none field row) 1 in
               raise_if (negb ok) BundleError (at_row +:+ "." +:+ field +:+ " is outside [0, 1]"))
            ["error_ratio"; "availability_ratio"]
  | _ => bundle_error (at_row +:+ " must be an object")
  end.

Definition check_response (document : pydict) : result unit :=
  match dget_none "response" document with
  | VList (r :: rs) => iterM check_row (enumerate (r :: rs))
  | _ => bundle_error "response must be non-empty"
  end.

Definition validate_bundle (document : pydict) : result unit :=
  check_top document ;;;
  check_provenance document ;;;
  check_workload document ;;;
  check_telemetry document ;;;
  check_factors document ;;;
  check_slo document ;;;
  check_policy document ;;;
  check_response document.

Definition build_bundle (model_id created_at : string)
    (provenance workload telemetry factors slo policy_defaults : pydict)
    (response exclusions : list pydict) : result pydict :=
  let document :=
    [ ("schema_version", VStr "cpu-limit-model/v1"); ("model_id", VStr model_id);
      ("model_hash", VStr ""); ("created_at", VStr created_at); ("provenance", VDict provenance);
      ("workload", VDict workload); ("telemetry", VDict telemetry); ("factors", VDict factors);
      ("slo", VDict slo); ("policy_defaults", VDict policy_defaults);
      ("response", VList (VDict <$> response)); ("exclusions", VList (VDict <$> exclusions)) ] in
  let document := dset "model_hash" (VStr (expected_hash document)) document in
  validate_bundle document ;;;
  Ok document.

Definition dump_bundle (document : pydict) : result string :=
  validate_bundle document ;;;
  Ok (json_indent true (VDict document) +:+ newline).

(** ** Lemmas: dictionaries *)

Lemma ddel_dset k v d : ddel k (dset k v d) = ddel k d.
Proof.
  unfold ddel. induction d as [|[k' v'] d IH]; simpl; [by rewrite String.eqb_refl|].
  destruct (String.eqb k k') eqn:E; simpl; rewrite E; simpl; [done|]. by rewrite IH.
Qed.

(** The items of a normalised dictionary. *)
Definition norm_items (d : pydict) : pydict :=
  order_items true ((fun p => (fst p, json_norm true (snd p))) <$> d).

Lemma norm_items_spec d : json_norm true (VDict d) = VDict (norm_items d).
Proof. done. Qed.

Lemma hash_input_norm d : hash_input (norm_items d) = norm_items (hash_input d).
Proof.
  unfold hash_input, ddel, norm_items, order_items.
  rewrite filter_sort_by by (apply key_leb_total || apply key_leb_trans). f_equal.
  induction d as [|p d IH]; [done|]. cbn [fmap list_fmap List.filter fst]. destruct (negb _); [|done].
  rewrite fmap_cons. by f_equal.
Qed.

Lemma canonical_norm d : canonical_json (norm_items d) = canonical_json d.
Proof.
  unfold canonical_json, json_canonical. rewrite <- norm_items_spec.
  apply (json_text_norm canonical_style).
Qed.

Lemma expected_hash_norm d : expected_hash (norm_items d) = expected_hash d.
Proof. unfold expected_hash. by rewrite hash_input_norm, canonical_norm. Qed.

Lemma verify_norm d :
  NoDup (dkeys d) -> verify_model_hash (norm_items d) = verify_model_hash d.
Proof.
  intros Hn. unfold verify_model_hash. rewrite expected_hash_norm.
  assert (dget "model_hash" (norm_items d) = json_norm true <$> dget "model_hash" d) as E.
  { rewrite <- dget_map. symmetry. apply dget_perm; [|unfold norm_items; by rewrite order_items_perm].
    unfold dkeys in *. rewrite <- list_fmap_compose. exact Hn. }
  unfold dget_none. rewrite E. by destruct (dget "model_hash" d) as [[]|].
Qed.

Lemma code_inj a b : code a = code b -> a = b.
Proof.
  unfold code. intros E. apply N2Z.inj in E. rewrite <- (ascii_N_embedding a), E.
  apply ascii_N_embedding.
Qed.

Lemma bytes_of_string_inj s t : bytes_of_string s = bytes_of_string t -> s = t.
Proof.
  unfold bytes_of_string. intros E.
  assert (String.list_ascii_of_string s = String.list_ascii_of_string t) as El.
  { revert E. generalize (String.list_ascii_of_string t).
    induction (String.list_ascii_of_string s) as [|a l IH]; intros [|b l'] E; try done.
    injection E as Ea El. f_equal; [by apply code_inj|by apply IH]. }
  rewrite <- (string_of_list_ascii_of_string s), El. apply string_of_list_ascii_of_string.
Qed.

Lemma verify_spec d :
  verify_model_hash d = true <-> dget "model_hash" d = Some (VStr (expected_hash d)).
Proof.
  unfold verify_model_hash, dget_none. destruct (dget "model_hash" d) as [[]|]; simpl; try done.
  rewrite String.eqb_eq. split; [by intros ->|by intros [= ->]].
Qed.

Lemma dget_ddel k k' d : k <> k' -> dget k (ddel k' d) = dget k d.
Proof.
  intros Hne. unfold ddel. induction d as [|[k1 v1] d IH]; [done|]. cbn [List.filter fst].
  destruct (String.eqb_spec k' k1) as [<-|]; cbn [negb dget]; [by rewrite (proj2 (String.eqb_neq _ _) Hne)|]. by rewrite IH.
Qed.

Lemma json_wf_ddel k d : json_wf (VDict d) = true -> json_wf (VDict (ddel k d)) = true.
Proof.
  cbn [json_wf]. rewrite !andb_true_iff, !negb_true_iff, !has_dup_false, !forallb_forall. unfold ddel. intros [Hn Hf]. split.
  - unfold dkeys in *. clear Hf. induction d as [|p d IH]; [done|]. cbn in Hn |- *. apply list.NoDup_cons in Hn as [Hp Hn].
    destruct (negb _); [|by apply IH]. cbn. apply list.NoDup_cons. split; [|by apply IH].
    intros (q & E & Hq)%list_elem_of_fmap. apply Hp. rewrite E. apply list_elem_of_fmap. exists q. split; [done|].
    rewrite list_elem_of_In in *. by apply List.filter_In in Hq as [? _].
  - intros p [Hp _]%List.filter_In. by apply Hf.
Qed.

(** ** Theorems *)

(** Two different texts with one SHA-256 digest. *)
Definition collide (s s' : string) : Prop :=
  s <> s' /\ sha256_hex (bytes_of_string s) = sha256_hex (bytes_of_string s').

(** C40: The model hash binds the whole document: two documents that verify under
    one hash agree in every field (the same fields, with values that are equal up
    to the order of the keys of nested mappings), or the canonical texts of the
    two documents without their hash collide under SHA-256.  The keys of a
    mapping are distinct and the text of each float reads back as that float. *)
Theorem bundle_hash_binds d d' :
  json_wf (VDict d) = true -> json_wf (VDict d') = true ->
  verify_model_hash d = true -> verify_model_hash d' = true ->
  dget "model_hash" d = dget "model_hash" d' ->
  (forall field, json_norm true <$> dget field d = json_norm true <$> dget field d') \/
  collide (json_canonical (VDict (ddel "model_hash" d))) (json_canonical (VDict (ddel "model_hash" d'))).
Proof.
  rewrite !verify_spec. intros Hw Hw' H1 H2 Heq. pose proof Heq as E. rewrite H1, H2 in E. injection E as E.
  set (s := json_canonical (VDict (ddel "model_hash" d))). set (s' := json_canonical (VDict (ddel "model_hash" d'))).
  destruct (decide (s = s')) as [Es|Hne]; [left|by right].
  intros field. destruct (decide (field = "model_hash")) as [->|Hf]; [by rewrite Heq|].
  apply (json_wf_ddel "model_hash") in Hw, Hw'.
  pose proof (json_loads_text canonical_style _ "" canonical_style_ok Hw eq_refl) as L.
  pose proof (json_loads_text canonical_style _ "" canonical_style_ok Hw' eq_refl) as L'.
  rewrite !str_app_nil_r in L, L'.
  change (json_loads s = Ok (json_norm true (VDict (ddel "model_hash" d)))) in L.
  change (json_loads s' = Ok (json_norm true (VDict (ddel "model_hash" d')))) in L'.
  rewrite Es, L' in L. apply Ok_inj in L.
  rewrite <- (dget_ddel field "model_hash" d), <- (dget_ddel field "model_hash" d') by done.
  rewrite <- (dget_json_norm true field _ _ Hw eq_refl), <- (dget_json_norm true field _ _ Hw' eq_refl).
  change (VDict (norm_items (ddel "model_hash" d')) = VDict (norm_items (ddel "model_hash" d))) in L. injection L as L.
  change (dget field (norm_items (ddel "model_hash" d)) = dget field (norm_items (ddel "model_hash" d'))). by rewrite L.
Qed.

(** A document that [dump_bundle] writes reads back, keys in sorted order
    and content unchanged, and still verifies against its hash. *)
Theorem dump_bundle_roundtrip d text :
  dump_bundle d = Ok text -> json_wf (VDict d) = true ->
  exists d', json_loads text = Ok (VDict d') /\ VDict d' = json_norm true (VDict d) /\
    dump_bundle d = Ok text /\ verify_model_hash d' = true.
Proof.
  intros Hd Hw. pose proof Hd as Hd'. unfold dump_bundle in Hd. inv_ok. exists (norm_items d).
  split; [|split; [done|split; [done|]]].
  - unfold json_indent. rewrite <- norm_items_spec.
    exact (json_loads_text (indent_style true) (VDict d) newline (indent_style_ok true) Hw eq_refl).
  - cbn [json_wf] in Hw. bool_hyps. rewrite verify_norm by by apply has_dup_false.
    unfold validate_bundle, check_top in Hx. inv_ok. by bool_hyps.
Qed.

(** ** What a valid bundle guarantees *)

(** The field is a mapping, as [_require_mapping] returns it. *)
Definition field_dict (field : string) (d m : pydict) : Prop := dget_none field d = VDict m.

Record valid_bundle (d : pydict) : Prop := {
  vb_keys : forall k, k ∈ dkeys d -> k ∈ REQUIRED_FIELDS;
  vb_hash : verify_model_hash d = true;
  vb_trials : exists p total usable, field_dict "provenance" d p /\
    dget_none "trials_total" p = VInt total /\ dget_none "trials_usable" p = VInt usable /\
    0 <= usable <= total;
  vb_containers : exists w cs names, field_dict "workload" d w /\ dget_none "containers" w = VList cs /\
    cs <> [] /\ NoDup names /\
    Forall2 (fun c n => exists e, c = VDict e /\ dget_none "name" e = VStr n /\ n <> "") cs names;
  vb_ranges : exists f, field_dict "factors" d f /\
    Forall (fun field => exists r, field_dict field f r /\
              py_gt (dget_none "min" r) (dget_none "max" r) = Ok false) range_fields;
  vb_confidence : exists p c, field_dict "policy_defaults" d p /\
    float_of_num (dget_none "confidence_level" p) = Ok c /\
    fltb (flit 5 10) c = true /\ fleb c (flit 999 1000) = true;
  vb_rows : exists rows, dget_none "response" d = VList rows /\ rows <> [] /\
    Forall (fun v => exists row, v = VDict row /\
              within 0 (dget_none "error_ratio" row) 1 = Ok true /\
              within 0 (dget_none "availability_ratio" row) 1 = Ok true) rows
}.

Lemma require_mapping_Ok d field m : require_mapping d field = Ok m -> field_dict field d m.
Proof. unfold require_mapping, field_dict. by destruct (dget_none field d); intros [= ->]. Qed.

Lemma reject_unknown_Ok m allowed field u :
  reject_unknown m allowed field = Ok u -> forall k, k ∈ dkeys m -> k ∈ allowed.
Proof.
  unfold reject_unknown. intros Hr. inv_ok. bool_hyps. apply bool_decide_eq_true_1 in Hr.
  by apply sorted_difference_nil.
Qed.

Lemma count_of_Ok m field z : count_of m field = Ok z -> dget_none field m = VInt z /\ 0 <= z.
Proof.
  unfold count_of. destruct (dget_none field m) as [| |n| | | |]; try done.
  destruct (n <? 0) eqn:E; [done|]. bool_hyps. by intros [= ->].
Qed.

Lemma check_provenance_Ok d :
  check_provenance d = Ok tt ->
  exists p total usable, field_dict "provenance" d p /\ dget_none "trials_total" p = VInt total /\
    dget_none "trials_usable" p = VInt usable /\ 0 <= usable <= total.
Proof.
  unfold check_provenance. intros Hc. inv_ok. apply require_mapping_Ok in Hx.
  apply count_of_Ok in Hx2 as [? ?], Hx3 as [? ?]. bool_hyps. do 3 eexists. repeat split; try done; lia.
Qed.

Lemma check_container_Ok names c names' :
  check_container names c = Ok names' ->
  exists e n, c = VDict e /\ dget_none "name" e = VStr n /\ n <> "" /\ names' = n :: names /\ n ∉ names.
Proof.
  unfold check_container. destruct c as [| | | | | |e]; try done. intros Hc. inv_ok.
  destruct (dget_none "name" e) as [| | | |n| |] eqn:E; try done. inv_ok. bool_hyps.
  exists e, n. repeat split; try done; [by destruct n|by apply mem_string_false].
Qed.

Lemma check_containers_Ok cs names names' :
  foldM check_container names cs = Ok names' -> NoDup names ->
  exists new, names' = (rev new ++ names)%list /\ NoDup (rev new ++ names)%list /\
    Forall2 (fun c n => exists e, c = VDict e /\ dget_none "name" e = VStr n /\ n <> "") cs new.
Proof.
  revert names. induction cs as [|c cs IH]; intros names Hf Hn; cbn [foldM] in Hf; inv_ok.
  - exists []. by repeat constructor.
  - apply check_container_Ok in Hx as (e & n & -> & Hname & Hne & -> & Hnew).
    destruct (IH (n :: names) Hf) as (new & -> & Hd & H2); [by constructor|].
    exists (n :: new). cbn [rev]. rewrite <- !app_assoc. split; [done|]. split; [done|].
    constructor; [|done]. by exists e.
Qed.

Lemma check_workload_Ok d names :
  check_workload d = Ok names ->
  exists w cs names, field_dict "workload" d w /\ dget_none "containers" w = VList cs /\
    cs <> [] /\ NoDup names /\
    Forall2 (fun c n => exists e, c = VDict e /\ dget_none "name" e = VStr n /\ n <> "") cs names.
Proof.
  unfold check_workload. intros Hc. inv_ok. apply require_mapping_Ok in Hx.
  destruct (dget_none "containers" x) as [| | | | |[|c cs]|] eqn:E; try done.
  destruct (check_containers_Ok _ _ _ Hc) as (new & -> & Hd & H2); [constructor|].
  exists x, (c :: cs), new. repeat split; try done.
  rewrite app_nil_r in Hd. by rewrite <- (Permutation_rev new) in Hd.
Qed.

Lemma check_factors_Ok d :
  check_factors d = Ok tt ->
  exists f, field_dict "factors" d f /\
    Forall (fun field => exists r, field_dict field f r /\
              py_gt (dget_none "min" r) (dget_none "max" r) = Ok false) range_fields.
Proof.
  unfold check_factors. intros Hc. inv_ok. apply require_mapping_Ok in Hx. exists x. split; [done|].
  rewrite iterM_Ok in Hx1. eapply Forall_impl; [|exact Hx1]. intros field Hf. unfold check_range in Hf.
  inv_ok. apply require_mapping_Ok in Hx2. subst. eauto.
Qed.

Lemma check_policy_Ok d :
  check_policy d = Ok tt ->
  exists p c, field_dict "policy_defaults" d p /\ float_of_num (dget_none "confidence_level" p) = Ok c /\
    fltb (flit 5 10) c = true /\ fleb c (flit 999 1000) = true.
Proof.
  unfold check_policy. intros Hc. inv_ok. bool_hyps. apply require_mapping_Ok in Hx.
  do 2 eexists. by repeat split.
Qed.

Lemma check_row_Ok i v :
  check_row (i, v) = Ok tt ->
  exists row, v = VDict row /\ within 0 (dget_none "error_ratio" row) 1 = Ok true /\
              within 0 (dget_none "availability_ratio" row) 1 = Ok true.
Proof.
  unfold check_row. cbn [fst snd]. destruct v as [| | | | | |row]; try done. intros Hc. exists row.
  split; [done|].
  do 10 (apply rbind_Ok in Hc as (? & _ & Hc)).
  cbn [iterM] in Hc. inv_ok. bool_hyps. by subst.
Qed.

Lemma check_response_Ok d :
  check_response d = Ok tt ->
  exists rows, dget_none "response" d = VList rows /\ rows <> [] /\
    Forall (fun v => exists row, v = VDict row /\ within 0 (dget_none "error_ratio" row) 1 = Ok true /\
              within 0 (dget_none "availability_ratio" row) 1 = Ok true) rows.
Proof.
  unfold check_response. destruct (dget_none "response" d) as [| | | | |[|r rs]|]; try done. intros Hc.
  exists (r :: rs). split; [done|]. split; [done|]. apply iterM_Ok in Hc.
  rewrite <- Forall_enumerate. eapply Forall_impl; [|exact Hc]. intros [i v]. apply check_row_Ok.
Qed.

(** A document that [validate_bundle] accepts has only the known fields,
    verifies against its hash, counts no more usable trials than trials, has
    uniquely named containers, factor ranges whose minimum does not exceed the
    maximum, a confidence level in (0.5, 0.999], and at least one response row,
    each with error and availability ratios in [0, 1]. *)
Theorem validate_bundle_sound d : validate_bundle d = Ok tt -> valid_bundle d.
Proof.
  unfold validate_bundle. intros Hv.
  apply rbind_Ok in Hv as ([] & Htop & Hv). apply rbind_Ok in Hv as ([] & Hp & Hv).
  apply rbind_Ok in Hv as (names & Hw & Hv). apply rbind_Ok in Hv as ([] & _ & Hv).
  apply rbind_Ok in Hv as ([] & Hf & Hv). apply rbind_Ok in Hv as ([] & _ & Hv).
  apply rbind_Ok in Hv as ([] & Hpol & Hr).
  assert ((forall k, k ∈ dkeys d -> k ∈ REQUIRED_FIELDS) /\ verify_model_hash d = true) as [Hk Hh].
  { unfold check_top in Htop. inv_ok. bool_hyps. split; [by eapply reject_unknown_Ok|done]. }
  split; eauto using check_provenance_Ok, check_workload_Ok, check_factors_Ok, check_policy_Ok,
    check_response_Ok.
Qed.

(** ** A sample bundle *)

Definition sdict (l : list (string * string)) : pydict := (fun p => (fst p, VStr (snd p))) <$> l.
Definition range (lo hi : Z) : pyval := VDict [("min", VInt lo); ("max", VInt hi)].

Definition sample_row : pydict :=
  [ ("conditions", VDict (sdict [("mix", "balanced"); ("postgres_capacity", "small");
                                 ("redis_capacity", "small")] ++ [("node_capacity_millicores", VInt 1900)])%list);
    ("cpu_limit_millicores", VInt 200); ("cpu_request_millicores", VInt 100); ("replicas", VInt 1);
    ("request_rate_per_second", VInt 50); ("p99_latency_ms", VFloat (flit 405 10));
    ("p99_upper_ms", VFloat (flit 483 10)); ("throughput_rps", VInt 50); ("error_ratio", VInt 0);
    ("availability_ratio", VFloat (flit 999 1000)); ("samples", VInt 3); ("valid", VBool true) ].

Definition sample_build (container : pydict) (row : pydict) : result pydict :=
  build_bundle "m1" "2026-07-09T10:11:12+00:00"
    (sdict [("generator", "pilot"); ("campaign_id", "c1"); ("protocol_version", "1")] ++
       [("trials_total", VInt 4); ("trials_usable", VInt 3)])%list
    [("profile", VStr "mixed"); ("contract_version", VStr "db-cache-mixed/v1");
     ("containers", VList [VDict container])]
    [("contract_version", VStr "cpu-limit-telemetry/v1"); ("required_signals", VList [VStr "request.latency"])]
    (((fun f => (f, range 1 500)) <$> range_fields) ++
       [("mix", VList [VStr "balanced"]); ("contention", VList [VStr "none"])])%list
    [("max_p99_latency_ms", VInt 100); ("min_throughput_rps", VInt 45); ("max_error_ratio", VInt 0);
     ("min_availability_ratio", VFloat (flit 99 100))]
    [("confidence_level", VFloat (flit 95 100)); ("latency_margin_ratio", VInt 0);
     ("headroom_ratio", VFloat (flit 1 10)); ("min_replicas", VInt 1); ("max_replicas", VInt 3)]
    [row] [].

Definition sample_container : pydict := sdict [("name", "app"); ("role", "app")].

Definition ok_or {A} (r : result A) (a : A) : A := match r with Ok x => x | Raise _ => a end.

Definition sample_bundle : pydict := ok_or (sample_build sample_container sample_row) [].

Lemma sample_bundle_dumps : is_ok (dump_bundle sample_bundle) = true.
Proof. vm_compute. reflexivity. Qed.

(** The same bundle with its fields in another order. *)
Definition sample_reordered : pydict := rev sample_bundle.

Lemma bundle_hash_binds_witness :
  sample_bundle <> sample_reordered /\
  ((forall field, json_norm true <$> dget field sample_bundle = json_norm true <$> dget field sample_reordered) \/
   collide (json_canonical (VDict (ddel "model_hash" sample_bundle))) (json_canonical (VDict (ddel "model_hash" sample_reordered)))).
Proof. split; [vm_compute; discriminate|]. apply (bundle_hash_binds sample_bundle sample_reordered); vm_compute; reflexivity. Defined.

(** A bundle whose response was changed does not verify. *)
Example changed_bundle_rejected : verify_model_hash (dset "response" (VList []) sample_bundle) = false.
Proof. vm_compute. reflexivity. Qed.

Lemma dump_bundle_roundtrip_witness :
  exists text d', json_loads text = Ok (VDict d') /\ dump_bundle sample_bundle = Ok text /\
                  verify_model_hash d' = true.
Proof.
  pose proof sample_bundle_dumps as Hd.
  destruct (dump_bundle sample_bundle) as [text|e] eqn:E; [|discriminate Hd].
  destruct (dump_bundle_roundtrip sample_bundle text E) as (d' & H1 & _ & _ & H2); [vm_compute; reflexivity|].
  exists text, d'. split; [exact H1|]. split; [reflexivity|exact H2].
Defined.

Lemma sample_bundle_valid : validate_bundle sample_bundle = Ok tt.
Proof. vm_compute. reflexivity. Qed.

Lemma validate_bundle_sound_witness : valid_bundle sample_bundle.
Proof. exact (validate_bundle_sound sample_bundle sample_bundle_valid). Defined.

(** Some malformed documents are not refused with [BundleError]: a container
    role that is a list raises [TypeError] and an integer beyond the range of
    floats raises [OverflowError]; and [True] is accepted as a count of
    replicas. *)
Theorem validate_bundle_surprises :
  (exists msg, sample_build [("name", VStr "app"); ("role", VList [])] sample_row = Raise (Exn TypeError msg)) /\
  (exists msg, sample_build sample_container (dset "throughput_rps" (VInt (10 ^ 400)) sample_row)
     = Raise (Exn OverflowError msg)) /\
  positive_int (VBool true) = Ok true.
Proof. split; [|split]; [eexists; vm_compute; reflexivity..|reflexivity]. Qed.
