(* ===== verification/Lock.v ===== *)
(** [scripts/lock.py]: validation of the dependency lock.  The YAML loader is a
    third-party package; [load_lock] starts from the document it returned. *)

From Stdlib Require Import ZArith Bool Ascii String Lia.
From stdpp Require Import base list strings option.
From S2P Require Import Prelude PyStr PyFloat PyText PyVal Json Sha256.

Open Scope string_scope.
Open Scope Z_scope.

Definition REQUIRED_PATHS : list (list string) :=
  [ ["fedora"; "kernel"]; ["kubernetes"; "version"]; ["kubernetes"; "cri_o"]; ["kubernetes"; "crun"];
    ["cilium"; "version"]; ["cluster_api"; "version"]; ["kind"; "version"]; ["kind"; "node_image"];
    ["packer"; "version"]; ["cloud_hypervisor"; "version"] ].
Definition LOCK_SCHEMA_VERSION : Z := 2.

(** ** The patterns *)

Definition is_sep (c : ascii) : bool := mem_string (char_str c) ["/"; ":"; "@"].

(** [$] or a separator. *)
Definition word_ends (s : string) : bool :=
  match s with
  | EmptyString => true
  | String c s' => is_sep c || (Ascii.eqb c (chr 10) && is_empty s')
  end.

(** One of the words at the start of the text, in any case. *)
Definition mutable_word (s : string) : bool :=
  existsb (fun w => startswith w (str_lower s) && word_ends (str_drop (String.length w) s))
    ["latest"; "main"; "master"].

(** [MUTABLE_REFERENCE.search]: [boundary] says whether a word may start here. *)
Fixpoint mutable_from (boundary : bool) (s : string) : bool :=
  (boundary && mutable_word s) ||
  match s with
  | EmptyString => false
  | String c s' => mutable_from (is_sep c) s'
  end.
Definition mutable_reference (s : string) : bool := mutable_from true s.

Definition is_sha_text (s : string) : bool := (slen s =? 64) && str_forallb is_lower_hex s.

(** [DIGEST_REFERENCE.search]: [$] also matches before a final newline. *)
Definition ends_with_digest (s : string) : bool :=
  let u := take_last 72 s in startswith "@sha256:" u && is_sha_text (str_drop 8 u).
Definition digest_reference (s : string) : bool :=
  ends_with_digest s || (endswith newline s && ends_with_digest (drop_last 1 s)).

(** [KUBERNETES_VERSION.fullmatch]: the minor. *)
Definition kubernetes_minor (s : string) : option Z :=
  if startswith "v1." s then
    match split_on "." (str_drop 3 s) with
    | [minor; patch] =>
        if negb (is_empty minor) && str_forallb is_digit minor &&
           negb (is_empty patch) && str_forallb is_digit patch
        then py_int minor else None
    | _ => None
    end
  else None.

(** ** Checks *)

Definition type_error {A} (msg : string) : result A := Raise (Exn TypeError msg).
Definition value_error {A} (msg : string) : result A := Raise (Exn ValueError msg).

(** [isinstance(v, str) and v.strip()] *)
Definition nonblank (v : pyval) : bool :=
  match v with VStr s => negb (is_empty (strip s)) | _ => false end.

(** [d[k]], or [None] when [v] is no mapping with that key. *)
Definition subfield (k : string) (v : pyval) : option pyval :=
  match v with VDict d => dget k d | _ => None end.

Fixpoint follow (keys : list string) (v : pyval) : option pyval :=
  match keys with
  | [] => Some v
  | k :: ks => match subfield k v with Some v' => follow ks v' | None => None end
  end.

Definition check_required (data : pydict) (keys : list string) : result unit :=
  match follow keys (VDict data) with
  | None => value_error ("missing lock field: " +:+ join "." keys)
  | Some v => raise_if (negb (nonblank v)) ValueError
                ("lock field must be a non-empty string: " +:+ join "." keys)
  end.

(** Every string of the document, in the order [walk_mutable] visits them. *)
Fixpoint walk_mutable (location : string) (v : pyval) : result unit :=
  match v with
  | VStr s =>
      raise_if (mutable_reference s) ValueError
        ("mutable reference at " +:+ (if is_empty location then "<root>" else location) +:+ ": " +:+ s)
  | VDict d =>
      (fix go (d : pydict) : result unit :=
         match d with
         | [] => Ok tt
         | (k, child) :: d' =>
             walk_mutable (if is_empty location then k else location +:+ "." +:+ k) child ;;; go d'
         end) d
  | VList l =>
      (fix go (i : Z) (l : list pyval) : result unit :=
         match l with
         | [] => Ok tt
         | child :: l' =>
             walk_mutable (location +:+ "[" +:+ str_of_Z i +:+ "]") child ;;; go (i + 1) l'
         end) 0 l
  | _ => Ok tt
  end.

Definition check_provider (data : pydict) : result unit :=
  match dget_none "cluster_api_hypervisor" data with
  | VNone => value_error "missing lock field: cluster_api_hypervisor"
  | VDict provider =>
      raise_if (negb (py_eq (dget_none "version" provider) (VStr "v0.3.17"))) ValueError
        "cluster_api_hypervisor.version must be v0.3.17" ;;;
      raise_if (match dget_none "commit" provider with
                | VStr c => negb ((slen c =? 40) && str_forallb is_lower_hex c)
                | _ => true
                end) ValueError "cluster_api_hypervisor.commit must be a full immutable Git commit" ;;;
      match dget_none "source" provider with
      | VDict source =>
          raise_if (negb (is_str (dget_none "url" source)) || negb (is_str (dget_none "sha256" source)))
            TypeError "cluster_api_hypervisor.source requires string url and sha256" ;;;
          match dget_none "image" provider with
          | VDict image =>
              match dget_none "reference" image with
              | VStr r => raise_if (negb (digest_reference r)) ValueError
                            "cluster_api_hypervisor.image.reference must be pinned by a sha256 digest"
              | _ => type_error "cluster_api_hypervisor.image.reference must be a string"
              end
          | _ => type_error "cluster_api_hypervisor.image must be a mapping"
          end
      | _ => type_error "cluster_api_hypervisor.source must be a mapping"
      end
  | _ => type_error "cluster_api_hypervisor must be a mapping"
  end.

Definition check_image (entry : nat * pyval) : result unit :=
  let location := "lock.oci_images[" +:+ str_of_Z (Z.of_nat (fst entry)) +:+ "]" in
  match snd entry with
  | VDict e =>
      match dget_none "reference" e with
      | VStr r =>
          raise_if (negb (digest_reference r)) ValueError
            (location +:+ ".reference must be pinned by a sha256 digest") ;;;
          raise_if (negb (py_eq (dget_none "platform" e) (VStr "linux/amd64"))) ValueError
            (location +:+ ".platform must be linux/amd64")
      | _ => type_error (location +:+ ".reference must be a string")
      end
  | _ => type_error (location +:+ " must be a mapping")
  end.

Definition check_images (data : pydict) : result unit :=
  match dget_none "oci_images" data with
  | VList images => iterM check_image (enumerate images)
  | _ => type_error "lock.oci_images must be a list"
  end.

(** The sets and the dictionary of [validate_artifacts]. *)
Record seen : Type := {
  seen_ids : list string;
  seen_paths : list string;
  by_id : list (string * pydict)
}.

(** [result[k] = v] for the dictionary of artifacts. *)
Fixpoint aset (k : string) (v : pydict) (d : list (string * pydict)) : list (string * pydict) :=
  match d with
  | [] => [(k, v)]
  | (k', v') :: d' => if String.eqb k k' then (k', v) :: d' else (k', v') :: aset k v d'
  end.
Fixpoint aget (k : string) (d : list (string * pydict)) : option pydict :=
  match d with
  | [] => None
  | (k', v) :: d' => if String.eqb k k' then Some v else aget k d'
  end.

(** An optional field that must not be blank. *)
Definition check_optional (artifact : pydict) (location field : string) : result unit :=
  match dget field artifact with
  | Some v => raise_if (negb (nonblank v)) ValueError (location +:+ "." +:+ field +:+ " must be a non-empty string")
  | None => Ok tt
  end.

Definition check_url (v : pyval) (location : string) : result unit :=
  match v with
  | VStr url =>
      let* u := urlsplit url in
      raise_if (negb (String.eqb (scheme u) "https") || is_empty (netloc u)) ValueError
        (location +:+ ".url must use HTTPS")
  | _ => value_error (location +:+ ".url must use HTTPS")
  end.

Definition check_artifact (group_name : string) (s : seen) (entry : nat * pyval) : result seen :=
  let location := "lock." +:+ group_name +:+ "[" +:+ str_of_Z (Z.of_nat (fst entry)) +:+ "]" in
  match snd entry with
  | VDict artifact =>
      match dget_none "id" artifact with
      | VStr artifact_id =>
          raise_if (is_empty (strip artifact_id)) ValueError (location +:+ ".id must be a non-empty string") ;;;
          raise_if (mem_string artifact_id (seen_ids s)) ValueError ("duplicate artifact id: " +:+ artifact_id) ;;;
          match dget_none "cache_path" artifact with
          | VStr cache_path =>
              raise_if (is_empty (strip cache_path)) ValueError
                (location +:+ ".cache_path must be a non-empty relative path") ;;;
              raise_if (path_absolute cache_path || mem_string ".." (path_parts cache_path)) ValueError
                (location +:+ ".cache_path must be a relative path and stay inside cache") ;;;
              raise_if (mem_string cache_path (seen_paths s)) ValueError
                ("duplicate artifact cache path: " +:+ cache_path) ;;;
              raise_if (match dget_none "sha256" artifact with
                        | VStr h => negb (is_sha_text h)
                        | _ => true
                        end) ValueError
                (location +:+ ".sha256 must be a lowercase hexadecimal SHA-256 digest") ;;;
              check_url (dget_none "url" artifact) location ;;;
              iterM (check_optional artifact location) ["component"; "version"] ;;;
              Ok {| seen_ids := artifact_id :: seen_ids s; seen_paths := cache_path :: seen_paths s;
                    by_id := aset artifact_id artifact (by_id s) |}
          | _ => value_error (location +:+ ".cache_path must be a non-empty relative path")
          end
      | _ => value_error (location +:+ ".id must be a non-empty string")
      end
  | _ => type_error (location +:+ " must be a mapping")
  end.

Definition check_group (s : seen) (group : string * pyval) : result seen :=
  match snd group with
  | VList l => foldM (check_artifact (fst group)) s (enumerate l)
  | _ => type_error ("lock." +:+ fst group +:+ " must be a list")
  end.

Definition validate_artifacts_full (data : pydict) : result seen :=
  foldM check_group {| seen_ids := []; seen_paths := []; by_id := [] |}
    [ ("artifacts", dget_none "artifacts" data);
      ("guest_upgrade_artifacts", dget_or "guest_upgrade_artifacts" (VList []) data) ].

Definition validate_artifacts (data : pydict) : result (list (string * pydict)) :=
  let* s := validate_artifacts_full data in Ok (by_id s).

(** ** The upgrade matrix *)

Definition stage_version (stage : pydict) (location field : string) : result (Z * string) :=
  match dget_none field stage with
  | VStr v =>
      match kubernetes_minor v with
      | Some minor => Ok (minor, v)
      | None => value_error (location +:+ "." +:+ field +:+ " must be a v1.<minor>.<patch> version")
      end
  | _ => value_error (location +:+ "." +:+ field +:+ " must be a v1.<minor>.<patch> version")
  end.

Definition expected_components : list (string * string) :=
  [ ("kubelet_artifact", "kubelet"); ("control_plane_artifact", "kubernetes-control-plane");
    ("cri_o_artifact", "cri-o") ].

Definition check_reference (artifacts : list (string * pydict)) (stage : pydict)
    (location kubernetes_version crio_version : string) (ref : string * string) : result unit :=
  let '(reference_field, component) := ref in
  match (match dget_none reference_field stage with VStr i => aget i artifacts | _ => None end) with
  | None => value_error (location +:+ "." +:+ reference_field +:+ " must reference a locked artifact")
  | Some artifact =>
      let expected_version := if String.eqb reference_field "cri_o_artifact"
                              then crio_version else kubernetes_version in
      raise_if (negb (py_eq (dget_none "component" artifact) (VStr component)) ||
                negb (py_eq (dget_none "version" artifact) (VStr expected_version))) ValueError
        (location +:+ "." +:+ reference_field +:+ " must reference " +:+ component +:+ " " +:+ expected_version)
  end.

Definition check_stage (artifacts : list (string * pydict)) (entry : nat * pyval) : result Z :=
  let location := "lock.kubernetes_upgrade_matrix[" +:+ str_of_Z (Z.of_nat (fst entry)) +:+ "]" in
  match snd entry with
  | VDict stage =>
      let* (kubernetes_minor, kubernetes_version) := stage_version stage location "kubernetes" in
      let* (crio_minor, crio_version) := stage_version stage location "cri_o" in
      raise_if (negb (kubernetes_minor =? crio_minor)) ValueError
        (location +:+ " Kubernetes and CRI-O versions must use the same minor") ;;;
      iterM (check_reference artifacts stage location kubernetes_version crio_version) expected_components ;;;
      Ok kubernetes_minor
  | _ => type_error (location +:+ " must be a mapping")
  end.

(** [list(range(a, b))] *)
Definition py_range (a b : Z) : list Z := (fun i => a + Z.of_nat i) <$> seq 0 (Z.to_nat (b - a)).

(** [data[a][b]] *)
Definition index2 (a b : string) (data : pydict) : result pyval :=
  let* v := dindex a data in py_index b v.

Definition validate_upgrade_matrix (data : pydict) (artifacts : list (string * pydict)) : result unit :=
  match dget_none "kubernetes_upgrade_matrix" data with
  | VList ((s0 :: rest) as matrix) =>
      let* stage_minors := mapM (check_stage artifacts) (enumerate matrix) in
      let* target := index2 "kubernetes" "version" data in
      match target with
      | VStr target_version =>
          match kubernetes_minor target_version with
          | None => value_error "kubernetes.version must be a v1.<minor>.<patch> version"
          | Some target_minor =>
              let first_minor := default 0 (head stage_minors) in
              raise_if (negb (bool_decide (stage_minors = py_range first_minor (target_minor + 1))))
                ValueError
                "lock.kubernetes_upgrade_matrix must include each Kubernetes minor exactly once" ;;;
              let last_stage := List.last matrix VNone in
              let* lk := py_index "kubernetes" last_stage in
              let* bad :=
                (if negb (py_eq lk (VStr target_version)) then Ok true
                 else
                   let* lc := py_index "cri_o" last_stage in
                   let* tc := index2 "kubernetes" "cri_o" data in
                   Ok (negb (py_eq lc tc))) in
              raise_if bad ValueError "last upgrade matrix stage must match the locked target versions"
          end
      | _ => type_error "expected string or bytes-like object"
      end
  | _ => value_error "lock.kubernetes_upgrade_matrix must be a non-empty list"
  end.

(** [load_lock] on the parsed document. *)
Definition load_lock (document : pyval) : result pydict :=
  match document with
  | VDict data =>
      iterM (check_required data) REQUIRED_PATHS ;;;
      walk_mutable "" document ;;;
      raise_if (negb (py_eq (dget_none "schema_version" data) (VInt LOCK_SCHEMA_VERSION))) ValueError
        ("lock.schema_version " +:+ str_of_Z LOCK_SCHEMA_VERSION +:+ " is required") ;;;
      let* node_image := index2 "kind" "node_image" data in
      raise_if (match node_image with VStr s => negb (digest_reference s) | _ => true end) ValueError
        "kind.node_image must be pinned by a sha256 digest" ;;;
      check_provider data ;;;
      check_images data ;;;
      let* artifacts := validate_artifacts data in
      validate_upgrade_matrix data artifacts ;;;
      Ok data
  | _ => type_error "lock must contain a mapping"
  end.

(** The bytes of the canonical form, and the lock's digest. *)
Definition lock_canonical_json (data : pydict) : string := json_canonical (VDict data) +:+ newline.
Definition lock_digest (data : pydict) : string := sha256_hex (bytes_of_string (lock_canonical_json data)).

(** [main]: what is printed, for a document that was read and parsed. *)
Definition lock_main (document : pyval) (emit_json : bool) : result string :=
  match load_lock document with
  | Ok data => Ok (if emit_json then lock_canonical_json data
                   else "lock_sha256=" +:+ lock_digest data +:+ newline)
  | Raise e => if caught_by [OSError; TypeError; ValueError] e then Raise (Exn SystemExit (exn_msg e))
               else Raise e
  end.

(** ** Lemmas: mutable references *)

(** The strings that occur in a document as values. *)
Fixpoint strings_of (v : pyval) : list string :=
  match v with
  | VStr s => [s]
  | VDict d => flat_map (fun p => strings_of (snd p)) d
  | VList l => flat_map strings_of l
  | _ => []
  end.

Lemma walk_mutable_Ok v : forall location,
  walk_mutable location v = Ok tt -> Forall (fun s => mutable_reference s = false) (strings_of v).
Proof.
  induction v as [|b|z|f|s|l IHl|d IHd] using pyval_nested_ind; intros location Hw; try by constructor.
  - cbn [walk_mutable] in Hw. inv_ok. by repeat constructor.
  - cbn [walk_mutable strings_of] in *. revert Hw. generalize 0.
    induction IHl as [|x l Hx Hl IH]; intros i Hw; [constructor|]. cbn [flat_map].
    apply rbind_Ok in Hw as ([] & H1 & H2). apply Forall_app. split; [by eapply Hx|by eapply IH].
  - cbn [walk_mutable strings_of] in *. revert Hw.
    induction IHd as [|[k x] d Hx Hd IH]; intros Hw; [constructor|]. cbn [flat_map snd].
    apply rbind_Ok in Hw as ([] & H1 & H2). apply Forall_app. split; [by eapply Hx|by apply IH].
Qed.

(** A word between boundaries: what [MUTABLE_REFERENCE] is meant to find. *)
Definition mentions_mutable (s : string) : Prop :=
  exists pre w post, s = pre +:+ w +:+ post /\ str_lower w ∈ ["latest"; "main"; "master"] /\
    (pre = "" \/ exists q c, pre = q +:+ char_str c /\ is_sep c = true) /\ word_ends post = true.

Lemma str_lower_app a b : str_lower (a +:+ b) = str_lower a +:+ str_lower b.
Proof. unfold str_lower. induction a as [|c a IH]; [done|]. simpl. by rewrite <- IH. Qed.

Lemma length_str_lower a : String.length (str_lower a) = String.length a.
Proof. unfold str_lower. induction a as [|c a IH]; [done|]. simpl. by rewrite IH. Qed.

Lemma mutable_word_found w post :
  str_lower w ∈ ["latest"; "main"; "master"] -> word_ends post = true ->
  mutable_word (w +:+ post) = true.
Proof.
  intros Hw Hp. unfold mutable_word. apply existsb_exists. exists (str_lower w).
  split; [by apply list_elem_of_In|]. rewrite str_lower_app, length_str_lower, str_drop_app, Hp.
  unfold startswith. by rewrite prefix_app.
Qed.

Lemma mutable_from_found pre w post b :
  str_lower w ∈ ["latest"; "main"; "master"] -> word_ends post = true ->
  (pre = "" /\ b = true) \/ (exists q c, pre = q +:+ char_str c /\ is_sep c = true) ->
  mutable_from b (pre +:+ w +:+ post) = true.
Proof.
  intros Hw Hp. revert b. induction pre as [|a pre IH]; intros b Hb.
  - destruct Hb as [[_ ->]|([|? ?] & c & ? & _)]; [|done|done].
    pose proof (mutable_word_found w post Hw Hp) as Hm. change ("" +:+ w +:+ post) with (w +:+ post).
    destruct (w +:+ post); cbn [mutable_from]; by rewrite Hm.
  - cbn [String.append mutable_from]. apply orb_true_iff. right. apply IH.
    destruct Hb as [[? _]|(q & c & E & Hc)]; [done|]. destruct q as [|a' q]; simpl in E; injection E as -> ->.
    + by left.
    + right. eauto.
Qed.

Lemma mutable_reference_complete s : mentions_mutable s -> mutable_reference s = true.
Proof.
  intros (pre & w & post & -> & Hw & Hpre & Hp). apply mutable_from_found; [done|done|].
  destruct Hpre as [->|?]; auto.
Qed.

(** ** Lemmas: the parts of [load_lock] *)

Lemma load_lock_parts doc data :
  load_lock doc = Ok data ->
  doc = VDict data /\ Forall (fun keys => check_required data keys = Ok tt) REQUIRED_PATHS /\
  walk_mutable "" doc = Ok tt /\ check_provider data = Ok tt /\ check_images data = Ok tt /\
  exists s, validate_artifacts_full data = Ok s /\ validate_upgrade_matrix data (by_id s) = Ok tt.
Proof.
  unfold load_lock. destruct doc as [| | | | | |d]; try done. intros Hl. inv_ok.
  repeat match goal with u : unit |- _ => destruct u end. rewrite iterM_Ok in Hx.
  unfold validate_artifacts in *. inv_ok. repeat split; eauto.
Qed.

(** A stage of the matrix, with its minor. *)
Record sound_stage (artifacts : list (string * pydict)) (stage : pyval) (minor : Z) : Prop := {
  stage_dict : exists d k c, stage = VDict d /\ dget_none "kubernetes" d = VStr k /\
    dget_none "cri_o" d = VStr c /\ kubernetes_minor k = Some minor /\ kubernetes_minor c = Some minor /\
    Forall (fun ref : string * string => exists i a, dget_none (fst ref) d = VStr i /\
        aget i artifacts = Some a /\ dget_none "component" a = VStr (snd ref) /\
        dget_none "version" a = VStr (if String.eqb (fst ref) "cri_o_artifact" then c else k))
      expected_components
}.

Lemma py_eq_str v s : py_eq v (VStr s) = true -> v = VStr s.
Proof. destruct v; simpl; try done. intros E. by apply String.eqb_eq in E as ->. Qed.

Lemma stage_version_Ok stage location field minor v :
  stage_version stage location field = Ok (minor, v) ->
  dget_none field stage = VStr v /\ kubernetes_minor v = Some minor.
Proof.
  unfold stage_version. destruct (dget_none field stage) as [| | | |s| |]; try done.
  destruct (kubernetes_minor s) eqn:E; [|done]. by intros [= -> ->].
Qed.

Lemma check_stage_Ok artifacts i v minor :
  check_stage artifacts (i, v) = Ok minor -> sound_stage artifacts v minor.
Proof.
  unfold check_stage. cbn [fst snd]. destruct v as [| | | | | |d]; try done. intros Hc.
  apply rbind_Ok in Hc as ([km k] & Hk & Hc). apply rbind_Ok in Hc as ([cm c] & Hcv & Hc).
  apply stage_version_Ok in Hk as [Hk Hkm], Hcv as [Hcv Hcm]. inv_ok. bool_hyps. subst cm.
  constructor. exists d, k, c. repeat split; try done. destruct x0. apply iterM_Ok in Hx0.
  eapply Forall_impl; [|exact Hx0]. intros [field comp] Hr. unfold check_reference in Hr. cbn [fst snd].
  destruct (dget_none field d) as [| | | |a| |]; try done.
  destruct (aget a artifacts) as [art|] eqn:Ea; [|done]. inv_ok. bool_hyps.
  exists a, art. repeat split; try done; by apply py_eq_str.
Qed.

(** What the upgrade matrix of a loaded lock is. *)
Record sound_matrix (artifacts : list (string * pydict)) (data : pydict) : Prop := {
  sm : exists stages first target version,
    dget_none "kubernetes_upgrade_matrix" data = VList stages /\ stages <> [] /\
    index2 "kubernetes" "version" data = Ok (VStr version) /\ kubernetes_minor version = Some target /\
    Forall2 (sound_stage artifacts) stages (py_range first (target + 1)) /\
    exists stage, list.last stages = Some (VDict stage) /\ dget_none "kubernetes" stage = VStr version
}.

Lemma last_List_last {A} (l : list A) x0 : l <> [] -> list.last l = Some (List.last l x0).
Proof. induction l as [|x [|y l] IH]; [done|done|]. intros _. by apply IH. Qed.

Lemma validate_upgrade_matrix_Ok data artifacts :
  validate_upgrade_matrix data artifacts = Ok tt -> sound_matrix artifacts data.
Proof.
  unfold validate_upgrade_matrix.
  destruct (dget_none "kubernetes_upgrade_matrix" data) as [| | | | |[|s0 rest]|] eqn:E; try done.
  set (matrix := s0 :: rest) in *. intros Hm. apply rbind_Ok in Hm as (minors & Hminors & Hm).
  apply rbind_Ok in Hm as (target & Ht & Hm). destruct target as [| | | |version| |]; try done.
  destruct (kubernetes_minor version) as [target|] eqn:Ev; [|done].
  apply rbind_Ok in Hm as ([] & Hrange & Hm). apply rbind_Ok in Hm as (lk & Hlk & Hm).
  apply rbind_Ok in Hm as (bad & Hbad & Hm). inv_ok. bool_hyps.
  apply bool_decide_eq_true_1 in Hrange. apply mapM_Ok in Hminors.
  assert (Forall2 (sound_stage artifacts) matrix minors) as Hst.
  { rewrite <- (enumerate_snd matrix), Forall2_fmap_l. revert Hminors. apply Forall2_impl.
    intros [i v] m. apply check_stage_Ok. }
  constructor. rewrite Hrange in Hst. eexists matrix, _, target, version.
  do 4 (split; [done|]). split; [exact Hst|].
  assert (list.last matrix = Some (List.last matrix VNone)) as Hl by by apply last_List_last.
  destruct (List.last matrix VNone) as [| | | | | |stage]; try done. exists stage. split; [done|].
  cbn [py_index] in Hlk. unfold dindex, dget_none in *. destruct (dget "kubernetes" stage); [|done].
  injection Hlk as ->. simpl. destruct (py_eq lk (VStr version)) eqn:Ep; [by apply py_eq_str|].
  cbn [negb] in Hbad. injection Hbad as <-. done.
Qed.

(** ** Lemmas: the artifacts *)

Record sound_artifact (a : pydict) (i p : string) : Prop := {
  sa_id : dget_none "id" a = VStr i;
  sa_id_nonblank : is_empty (strip i) = false;
  sa_path : dget_none "cache_path" a = VStr p;
  sa_path_nonblank : is_empty (strip p) = false;
  sa_path_inside : path_absolute p = false /\ ".." ∉ path_parts p;
  sa_sha : exists h, dget_none "sha256" a = VStr h /\ is_sha_text h = true;
  sa_url : exists url u, dget_none "url" a = VStr url /\ urlsplit url = Ok u /\ scheme u = "https" /\
                         netloc u <> ""
}.

Lemma check_artifact_Ok g s i v s' :
  check_artifact g s (i, v) = Ok s' ->
  exists a id p, v = VDict a /\ sound_artifact a id p /\ id ∉ seen_ids s /\ p ∉ seen_paths s /\
    s' = {| seen_ids := id :: seen_ids s; seen_paths := p :: seen_paths s; by_id := aset id a (by_id s) |}.
Proof.
  unfold check_artifact. cbn [fst snd]. destruct v as [| | | | | |a]; try done.
  destruct (dget_none "id" a) as [| | | |id| |] eqn:Ei; try done. intros Hc.
  apply rbind_Ok in Hc as ([] & Hid & Hc). apply rbind_Ok in Hc as ([] & Hnew & Hc).
  destruct (dget_none "cache_path" a) as [| | | |p| |] eqn:Ep; try done.
  apply rbind_Ok in Hc as ([] & Hp & Hc). apply rbind_Ok in Hc as ([] & Hin & Hc).
  apply rbind_Ok in Hc as ([] & Hpnew & Hc). apply rbind_Ok in Hc as ([] & Hsha & Hc).
  apply rbind_Ok in Hc as ([] & Hurl & Hc). apply rbind_Ok in Hc as (u & _ & Hc). injection Hc as <-.
  apply raise_if_Ok in Hid, Hnew, Hp, Hin, Hpnew, Hsha. bool_hyps.
  exists a, id, p. split; [done|]. split; [|split; [by apply mem_string_false|split; [by apply mem_string_false|done]]].
  constructor; try done.
  - split; [done|]. by apply mem_string_false.
  - destruct (dget_none "sha256" a) as [| | | |h| |]; try done. bool_hyps. eauto.
  - unfold check_url in Hurl. destruct (dget_none "url" a) as [| | | |url| |]; try done. inv_ok. bool_hyps.
    exists url, x. repeat split; try done. by destruct (netloc x).
Qed.

Lemma aget_aset_eq k v d : aget k (aset k v d) = Some v.
Proof.
  induction d as [|[k' v'] d IH]; simpl; [by rewrite String.eqb_refl|].
  destruct (String.eqb k k') eqn:E; simpl; by rewrite E.
Qed.
Lemma aget_aset_ne k k' v d : k <> k' -> aget k (aset k' v d) = aget k d.
Proof.
  intros Hne. apply String.eqb_neq in Hne. induction d as [|[k2 v2] d IH]; simpl; [by rewrite Hne|].
  destruct (String.eqb_spec k' k2) as [<-|E]; simpl; [by rewrite Hne|by rewrite IH].
Qed.

(** The artifacts checked so far: distinct identifiers and paths, each sound and
    found under its identifier. *)
Record sound_seen (arts : list (pydict * string * string)) (s : seen) : Prop := {
  ss_ids : seen_ids s = rev ((fun t => snd (fst t)) <$> arts);
  ss_paths : seen_paths s = rev (snd <$> arts);
  ss_ids_nodup : NoDup (seen_ids s);
  ss_paths_nodup : NoDup (seen_paths s);
  ss_sound : Forall (fun t => sound_artifact (fst (fst t)) (snd (fst t)) (snd t) /\
                              aget (snd (fst t)) (by_id s) = Some (fst (fst t))) arts
}.

Lemma check_artifacts_fold g entries arts s s' :
  sound_seen arts s -> foldM (check_artifact g) s entries = Ok s' ->
  exists new, sound_seen (arts ++ new) s' /\ (snd <$> entries) = ((fun t => VDict (fst (fst t))) <$> new).
Proof.
  revert arts s. induction entries as [|[i v] entries IH]; intros arts s Hs Hf; cbn [foldM] in Hf.
  { injection Hf as <-. exists []. by rewrite app_nil_r. }
  apply rbind_Ok in Hf as (s1 & Hc & Hf).
  apply check_artifact_Ok in Hc as (a & id & p & -> & Ha & Hid & Hp & ->).
  destruct Hs as [E1 E2 N1 N2 Hs].
  apply (IH (arts ++ [(a, id, p)])%list) in Hf as (new & Hnew & Hmap).
  - exists ((a, id, p) :: new). rewrite <- app_assoc in Hnew. split; [exact Hnew|].
    cbn [fmap list_fmap snd fst]. f_equal. exact Hmap.
  - split; cbn [seen_ids seen_paths by_id].
    + by rewrite fmap_app, rev_app_distr, E1.
    + by rewrite fmap_app, rev_app_distr, E2.
    + by constructor.
    + by constructor.
    + apply Forall_app. split; [|constructor; [|constructor]; cbn [fst snd]; auto using aget_aset_eq].
      rewrite list.Forall_forall in Hs |- *. intros [[a' id'] p'] Hin. cbn [fst snd].
      destruct (Hs _ Hin) as [Hsa Hget]. split; [done|]. rewrite aget_aset_ne; [done|]. intros ->.
      apply Hid. rewrite E1. rewrite <- Permutation_rev. apply list_elem_of_fmap. by exists (a', id, p').
Qed.

(** The two artifact groups of a lock. *)
Lemma validate_artifacts_Ok data s :
  validate_artifacts_full data = Ok s ->
  exists arts1 arts2, sound_seen (arts1 ++ arts2) s /\
    dget_none "artifacts" data = VList ((fun t => VDict (fst (fst t))) <$> arts1) /\
    dget_or "guest_upgrade_artifacts" (VList []) data = VList ((fun t => VDict (fst (fst t))) <$> arts2).
Proof.
  unfold validate_artifacts_full. intros Hf. cbn [foldM] in Hf.
  apply rbind_Ok in Hf as (s1 & H1 & Hf). apply rbind_Ok in Hf as (s2 & H2 & Hf). injection Hf as <-.
  unfold check_group in H1, H2. cbn [fst snd] in H1, H2.
  destruct (dget_none "artifacts" data) as [| | | | |l1|]; try done.
  destruct (dget_or "guest_upgrade_artifacts" _ data) as [| | | | |l2|]; try done.
  apply (check_artifacts_fold _ _ []) in H1 as (arts1 & Hs1 & E1); [|by repeat constructor].
  apply (check_artifacts_fold _ _ arts1) in H2 as (arts2 & Hs2 & E2); [|done].
  rewrite enumerate_snd in E1, E2. exists arts1, arts2. by rewrite E1, E2.
Qed.

(** ** Theorems *)

(** No string of a lock that loads mentions [latest], [main] or [master],
    in any case, as a component between separators. *)
Theorem load_lock_pinned doc data :
  load_lock doc = Ok data -> Forall (fun s => ~ mentions_mutable s) (strings_of doc).
Proof.
  intros Hl. apply load_lock_parts in Hl as (_ & _ & Hw & _). apply walk_mutable_Ok in Hw.
  eapply Forall_impl; [|exact Hw]. intros s Hs Hm. apply mutable_reference_complete in Hm. congruence.
Qed.

(** The upgrade matrix of a lock that loads goes through every Kubernetes
    minor from its first stage to the locked target without a gap; at each
    stage CRI-O has the same minor and the three referenced artifacts are
    locked ones of the right component and version; the last stage is the
    target version. *)
Theorem load_lock_matrix doc data :
  load_lock doc = Ok data ->
  exists s, validate_artifacts_full data = Ok s /\ sound_matrix (by_id s) data.
Proof.
  intros Hl. apply load_lock_parts in Hl as (_ & _ & _ & _ & _ & s & Hs & Hm).
  exists s. split; [done|]. by apply validate_upgrade_matrix_Ok.
Qed.

(** The artifacts of a lock that loads have pairwise different identifiers
    and cache paths; each has a full lowercase SHA-256 digest, an HTTPS URL and
    a relative path without a parent component, and is found under its
    identifier. *)
Theorem load_lock_artifacts doc data :
  load_lock doc = Ok data ->
  exists s arts1 arts2, validate_artifacts_full data = Ok s /\ sound_seen (arts1 ++ arts2) s /\
    dget_none "artifacts" data = VList ((fun t => VDict (fst (fst t))) <$> arts1) /\
    dget_or "guest_upgrade_artifacts" (VList []) data = VList ((fun t => VDict (fst (fst t))) <$> arts2).
Proof.
  intros Hl. apply load_lock_parts in Hl as (_ & _ & _ & _ & _ & s & Hs & _).
  destruct (validate_artifacts_Ok _ _ Hs) as (arts1 & arts2 & ? & ? & ?). eauto 7.
Qed.

(** ** A small lock *)

(** [n] copies of a character: digests of the sample. *)
Definition repeated (n : nat) (c : string) : string := String.concat "" (repeat c n).
Definition sample_digest (c : string) : string := repeated 64 c.

Definition sample_artifact (i component version digit : string) : pyval :=
  VDict [ ("id", VStr i); ("component", VStr component); ("version", VStr version);
          ("cache_path", VStr ("artifacts/" +:+ i)); ("sha256", VStr (sample_digest digit));
          ("url", VStr ("https://example.org/" +:+ i)) ].

Definition sample_stage (k c kubelet control crio : string) : pyval :=
  VDict [ ("kubernetes", VStr k); ("cri_o", VStr c); ("kubelet_artifact", VStr kubelet);
          ("control_plane_artifact", VStr control); ("cri_o_artifact", VStr crio) ].

(** A lock with two stages; the artifacts of the first are for guest upgrades. *)
Definition sample_lock : pydict :=
  [ ("schema_version", VInt 2);
    ("fedora", VDict [("kernel", VStr "6.14.0")]);
    ("kubernetes", VDict [("version", VStr "v1.34.1"); ("cri_o", VStr "v1.34.0"); ("crun", VStr "1.20")]);
    ("cilium", VDict [("version", VStr "1.18.0")]);
    ("cluster_api", VDict [("version", VStr "v1.10.0")]);
    ("kind", VDict [("version", VStr "v0.29.0");
                    ("node_image", VStr ("kindest/node:v1.34.1@sha256:" +:+ sample_digest "a"))]);
    ("packer", VDict [("version", VStr "1.13.0")]);
    ("cloud_hypervisor", VDict [("version", VStr "v46.0")]);
    ("cluster_api_hypervisor",
     VDict [ ("version", VStr "v0.3.17"); ("commit", VStr (repeated 40 "b"));
             ("source", VDict [("url", VStr "https://example.org/p"); ("sha256", VStr (sample_digest "c"))]);
             ("image", VDict [("reference", VStr ("ghcr.io/p@sha256:" +:+ sample_digest "d"))]) ]);
    ("oci_images",
     VList [VDict [ ("id", VStr "pause"); ("cache_path", VStr "oci/pause"); ("platform", VStr "linux/amd64");
                    ("reference", VStr ("registry.k8s.io/pause:3.10@sha256:" +:+ sample_digest "e")) ]]);
    ("artifacts",
     VList [ sample_artifact "kubelet-34" "kubelet" "v1.34.1" "1";
             sample_artifact "control-34" "kubernetes-control-plane" "v1.34.1" "2";
             sample_artifact "crio-34" "cri-o" "v1.34.0" "3" ]);
    ("guest_upgrade_artifacts",
     VList [ sample_artifact "kubelet-33" "kubelet" "v1.33.2" "4";
             sample_artifact "control-33" "kubernetes-control-plane" "v1.33.2" "5";
             sample_artifact "crio-33" "cri-o" "v1.33.0" "6" ]);
    ("kubernetes_upgrade_matrix",
     VList [ sample_stage "v1.33.2" "v1.33.0" "kubelet-33" "control-33" "crio-33";
             sample_stage "v1.34.1" "v1.34.0" "kubelet-34" "control-34" "crio-34" ]) ].

Lemma sample_lock_loads : load_lock (VDict sample_lock) = Ok sample_lock.
Proof. vm_compute. reflexivity. Qed.

Lemma load_lock_pinned_witness :
  Forall (fun s => ~ mentions_mutable s) (strings_of (VDict sample_lock)).
Proof. exact (load_lock_pinned (VDict sample_lock) sample_lock sample_lock_loads). Defined.

Lemma load_lock_matrix_witness :
  exists s, validate_artifacts_full sample_lock = Ok s /\ sound_matrix (by_id s) sample_lock.
Proof. exact (load_lock_matrix (VDict sample_lock) sample_lock sample_lock_loads). Defined.

Lemma load_lock_artifacts_witness :
  exists s arts1 arts2, validate_artifacts_full sample_lock = Ok s /\ sound_seen (arts1 ++ arts2) s /\
    dget_none "artifacts" sample_lock = VList ((fun t => VDict (fst (fst t))) <$> arts1) /\
    dget_or "guest_upgrade_artifacts" (VList []) sample_lock = VList ((fun t => VDict (fst (fst t))) <$> arts2).
Proof. exact (load_lock_artifacts (VDict sample_lock) sample_lock sample_lock_loads). Defined.
