(* ===== verification/Fs.v ===== *)
(** File systems: the calls of [pathlib], [os] and [shutil] that
    [scripts/cache.py] and [scripts/edk2_wire_enroll.py] make.

    A file system maps absolute paths, as lists of components, to files and
    directories; there are no links and no permissions.  A program runs on a
    [disk], which keeps every state the file system went through, so a theorem
    can speak about a process killed between any two calls.  A call that changes
    something may fail with [OSError] ([strike]); a write that fails may have
    written a part.  Calls that only read fail when the file is missing or a
    directory, and not otherwise.  No other process changes the files. *)

From Stdlib Require Import ZArith Bool Ascii String Lia.
From stdpp Require Import base list strings option gmap.
From S2P Require Import Prelude Eff PyStr PyText.

Open Scope string_scope.

Definition path : Type := list string.

Inductive node : Type :=
  | File (data : string)
  | Dir.

#[export] Instance node_eq_dec : EqDecision node.
Proof. solve_decision. Defined.

Notation fs := (gmap path node).

Record disk : Type := { now : fs; past : list fs; printed : list string }.

Definition states (d : disk) : list fs := now d :: past d.

Definition F : Type -> Type := ST disk.

(** What the machine does beyond the files: whether the next change fails (with
    its message and how much of a write was done), what a URL answers (the
    chunks that were read and how the stream ended), the random part of a
    temporary name, and the [skopeo] program: its outcome and the files after
    it.  [skopeo] writes nothing outside its destination. *)
Inductive outcome : Type :=
  | Done
  | NoProgram
  | NotStarted (msg : string)
  | Failed (stderr stdout : string).

Class Machine : Type := {
  strike : disk -> option (string * nat);
  urlopen : disk -> string -> result (list string * option exn);
  tmp_suffix : disk -> string;
  skopeo : disk -> list string -> path -> outcome * fs;
  skopeo_local : forall d argv destination p,
    ~ destination `prefix_of` p -> snd (skopeo d argv destination) !! p = now d !! p
}.

(** ** Reading *)

Definition is_file (m : fs) (p : path) : bool :=
  match m !! p with Some (File _) => true | _ => false end.
Definition is_dir (m : fs) (p : path) : bool :=
  match p, m !! p with
  | [], _ => true
  | _, Some Dir => true
  | _, _ => false
  end.
Definition present (m : fs) (p : path) : bool := is_file m p || is_dir m p.

Definition parent (p : path) : path := take (length p - 1) p.
(** [p / s] for a text [s]: an absolute one replaces the path. *)
Definition slash (p : path) (s : string) : path :=
  if path_absolute s then path_parts s else (p ++ path_parts s)%list.
(** [p.with_name(f(p.name))] *)
Definition with_name (p : path) (f : string -> string) : result path :=
  match list.last p with
  | Some n => Ok (parent p ++ [f n])%list
  | None => Raise (Exn ValueError "PosixPath('/') has an empty name")
  end.
Definition path_text (p : path) : string := "/" +:+ join "/" p.

Definition os_error {A} (msg : string) (p : path) : result A :=
  Raise (Exn OSError (msg +:+ ": " +:+ repr_str (path_text p))).
Definition not_found {A} (p : path) : result A :=
  Raise (Exn FileNotFoundError ("[Errno 2] No such file or directory: " +:+ repr_str (path_text p))).

(** The bytes of a file. *)
Definition read_bytes (m : fs) (p : path) : result string :=
  match m !! p with
  | Some (File s) => Ok s
  | Some Dir => os_error "[Errno 21] Is a directory" p
  | None => not_found p
  end.

(** [read_text(encoding="utf-8")]; a text that does not decode raises
    [UnicodeDecodeError], a [ValueError].  The translation of line ends is left
    out: the callers parse JSON or split lines, which it does not affect. *)
Definition read_text (m : fs) (p : path) : result string :=
  let* s := read_bytes m p in
  match utf8_decode s with
  | Some t => Ok t
  | None => Raise (Exn ValueError "'utf-8' codec can't decode")
  end.

(** The paths of a tree, children before their parents. *)
Definition tree (p : path) (m : fs) : list path :=
  sort_by (fun a b => Nat.leb (length b) (length a))
    (List.filter (fun k => bool_decide (p `prefix_of` k)) (fst <$> map_to_list m)).

(** [p.iterdir()] *)
Definition children (p : path) (m : fs) : list path :=
  List.filter (fun k => bool_decide (parent k = p) && negb (bool_decide (k = p))) (fst <$> map_to_list m).

(** ** Changing *)

Section Calls.
Context {Mach : Machine}.

Definition files : F fs := fun d => (Ok (now d), d).
Definition print (s : string) : F unit :=
  fun d => (Ok tt, {| now := now d; past := past d; printed := (printed d ++ [s])%list |}).

Definition change (f : fs -> fs) (d : disk) : disk :=
  {| now := f (now d); past := states d; printed := printed d |}.

(** A call that changes the files, or fails and does not. *)
Definition call (f : fs -> fs) : F unit :=
  fun d => match strike d with
           | Some (msg, _) => (Raise (Exn OSError msg), d)
           | None => (Ok tt, change f d)
           end.

Definition contents (m : fs) (p : path) : string :=
  match m !! p with Some (File s) => s | _ => "" end.

Definition append (p : path) (s : string) : F unit :=
  fun d => let write t m := <[p := File (contents m p +:+ t)]> m in
           match strike d with
           | Some (msg, n) => (Raise (Exn OSError msg), change (write (str_take n s)) d)
           | None => (Ok tt, change (write s) d)
           end.

(** [open(p, "w")]: an empty file. *)
Definition create (p : path) : F unit :=
  let! m := files in
  if is_dir m p then lift (os_error "[Errno 21] Is a directory" p)
  else if negb (is_dir m (parent p)) then lift (not_found p)
  else call (fun m => <[p := File ""]> m).

Definition write_bytes (p : path) (s : string) : F unit := create p >>> append p s.
Definition write_text (p : path) (s : string) : F unit := write_bytes p (utf8_encode s).

Definition mkdir (p : path) : F unit :=
  let! m := files in
  if is_dir m p then ret tt
  else if is_file m p then lift (os_error "[Errno 17] File exists" p)
  else if negb (is_dir m (parent p)) then lift (not_found p)
  else call (fun m => <[p := Dir]> m).

(** [p.mkdir(parents=True, exist_ok=True)] *)
Definition mkdirs (p : path) : F unit :=
  forM ((fun n => take n p) <$> seq 1 (length p)) mkdir.

(** [p.unlink(missing_ok=True)] *)
Definition unlink (p : path) : F unit :=
  let! m := files in
  match m !! p with
  | None => ret tt
  | Some Dir => lift (os_error "[Errno 21] Is a directory" p)
  | Some (File _) => call (delete p)
  end.

(** A tree moved: the path below [src] is put below [dst]. *)
Definition rebase (src dst p : path) : path :=
  if bool_decide (src `prefix_of` p) then (dst ++ drop (length src) p)%list else p.
Definition move (src dst : path) (m : fs) : fs :=
  list_to_map ((fun kv => (rebase src dst (fst kv), snd kv)) <$> map_to_list (delete dst m)).

(** [os.replace(src, dst)] *)
Definition replace (src dst : path) : F unit :=
  let! m := files in
  match m !! src with
  | None => lift (not_found src)
  | Some (File s) =>
      if is_dir m dst then lift (os_error "[Errno 21] Is a directory" dst)
      else if negb (is_dir m (parent dst)) then lift (not_found dst)
      else call (fun m => <[dst := File s]> (delete src m))
  | Some Dir =>
      if is_file m dst then lift (os_error "[Errno 20] Not a directory" dst)
      else if bool_decide (src `prefix_of` dst) then lift (os_error "[Errno 22] Invalid argument" dst)
      else if existsb (fun k => negb (bool_decide (k = dst))) (tree dst m)
      then lift (os_error "[Errno 39] Directory not empty" dst)
      else if negb (is_dir m (parent dst)) then lift (not_found dst)
      else call (move src dst)
  end.

(** [os.unlink] or [os.rmdir] of one entry. *)
Definition remove (p : path) : F unit :=
  let! m := files in
  match children p m with
  | [] => call (delete p)
  | _ => lift (os_error "[Errno 39] Directory not empty" p)
  end.

(** [shutil.rmtree(p)] *)
Definition rmtree (p : path) : F unit :=
  let! m := files in
  if is_dir m p then forM (tree p m) remove
  else if is_file m p then lift (os_error "[Errno 20] Not a directory" p)
  else lift (not_found p).
Definition rmtree_ignore_errors (p : path) : F unit :=
  let! m := files in
  if is_dir m p then forM (tree p m) (fun k => try_except (remove k) [OSError] (fun _ => ret tt))
  else ret tt.

(** [tempfile.mkdtemp(prefix=prefix, dir=p)] *)
Definition mkdtemp (prefix : string) (p : path) : F path :=
  let! suffix := (fun d => (Ok (tmp_suffix d), d)) in
  let t := slash p (prefix +:+ suffix) in
  let! m := files in
  if present m t then lift (os_error "[Errno 17] No usable temporary directory name found" t)
  else if negb (is_dir m (parent t)) then lift (not_found t)
  else call (fun m => <[t := Dir]> m) >>> ret t.

(** [subprocess.run] of [skopeo] *)
Definition run_skopeo (argv : list string) (destination : path) : F outcome :=
  fun d => let '(o, m) := skopeo d argv destination in
           (Ok o, change (fun _ => m) d).

End Calls.

(** ** Reasoning: every state on the way satisfies [I], and the end satisfies [Q] *)

Definition wp {A : Type} (I : fs -> Prop) (f : F A) (Q : result A -> disk -> Prop) (d : disk) : Prop :=
  (exists new, states (snd (f d)) = (new ++ states d)%list /\ Forall I new) /\
  Q (fst (f d)) (snd (f d)).

Section Rules.
Context {Mach : Machine} (I : fs -> Prop).

Lemma wp_stay {A} (r : result A) Q d : Q r d -> wp I (fun d => (r, d)) Q d.
Proof. intros HQ. split; [|exact HQ]. by exists []. Qed.
Lemma wp_ret {A} (a : A) Q d : Q (Ok a) d -> wp I (ret a) Q d.
Proof. apply wp_stay. Qed.
Lemma wp_lift {A} (r : result A) Q d : Q r d -> wp I (lift r) Q d.
Proof. apply wp_stay. Qed.
Lemma wp_throw {A} c msg (Q : result A -> disk -> Prop) d : Q (Raise (Exn c msg)) d -> wp I (throw c msg) Q d.
Proof. apply wp_stay. Qed.

Lemma wp_mono {A} (f : F A) Q Q' d : wp I f Q d -> (forall r d', Q r d' -> Q' r d') -> wp I f Q' d.
Proof. intros [H HQ] Hm. split; auto. Qed.

(** Two runs in a row. *)
Lemma wp_then {B} (Q : result B -> disk -> Prop) d d1 (out : result B * disk) :
  (exists new, states d1 = (new ++ states d)%list /\ Forall I new) ->
  ((exists new, states (snd out) = (new ++ states d1)%list /\ Forall I new) /\ Q (fst out) (snd out)) ->
  (exists new, states (snd out) = (new ++ states d)%list /\ Forall I new) /\ Q (fst out) (snd out).
Proof.
  intros (n1 & E1 & H1) [(n2 & E2 & H2) HQ]. split; [|exact HQ].
  exists (n2 ++ n1)%list. rewrite E2, E1, app_assoc. split; [done|]. by apply Forall_app.
Qed.

Lemma wp_bind {A B} (m : F A) (k : A -> F B) Q d :
  wp I m (fun r d' => match r with Ok a => wp I (k a) Q d' | Raise e => Q (Raise e) d' end) d ->
  wp I (mbindM m k) Q d.
Proof.
  intros [H HQ]. unfold wp, mbindM. destruct (m d) as [[a|e] d1] eqn:E; cbn [fst snd] in *; [|by split].
  by apply (wp_then Q d d1).
Qed.

Lemma wp_try_except {A} (m : F A) cs h Q d :
  wp I m (fun r d' => match r with
                      | Ok a => Q (Ok a) d'
                      | Raise e => if caught_by cs e then wp I (h e) Q d' else Q (Raise e) d'
                      end) d ->
  wp I (try_except m cs h) Q d.
Proof.
  intros [H HQ]. unfold wp, try_except. destruct (m d) as [[a|e] d1] eqn:E; cbn [fst snd] in *; [by split|].
  destruct (caught_by cs e); [|by split].
  by apply (wp_then Q d d1).
Qed.

Lemma wp_try_finally {A} (m : F A) f Q d :
  wp I m (fun r d' => wp I f (fun r' d'' => Q (match r' with Ok _ => r | Raise e => Raise e end) d'') d') d ->
  wp I (try_finally m f) Q d.
Proof.
  intros [H HQ]. unfold wp, try_finally. destruct (m d) as [r d1] eqn:E; cbn [fst snd] in *.
  apply (wp_then Q d d1); [exact H|].
  destruct HQ as [Hf HQ]. destruct (f d1) as [[u|e] d2]; by split.
Qed.

Lemma wp_forM {A} (J : disk -> Prop) (l : list A) body Q d :
  (forall x d, x ∈ l -> J d ->
     wp I (body x) (fun r d' => match r with Ok _ => J d' | Raise e => Q (Raise e) d' end) d) ->
  (forall d, J d -> Q (Ok tt) d) -> J d -> wp I (forM l body) Q d.
Proof.
  revert d. induction l as [|x l IH]; intros d Hb HQ HJ; cbn [forM]; [apply wp_ret; auto|].
  apply wp_bind. eapply wp_mono; [apply Hb; [left|done]|]. intros [u|e] d1 H1; [|done].
  apply IH; [|done|done]. intros y d2 Hy. apply Hb. by right.
Qed.

Lemma wp_files {A} (k : fs -> F A) Q d : wp I (k (now d)) Q d -> wp I (mbindM files k) Q d.
Proof. by intros. Qed.

Lemma wp_change {A} (r : result A) f Q d :
  I (f (now d)) -> Q r (change f d) -> wp I (fun d => (r, change f d)) Q d.
Proof. intros HI HQ. split; [|exact HQ]. exists [f (now d)]. by repeat constructor. Qed.

Lemma wp_call f Q d :
  (forall msg, Q (Raise (Exn OSError msg)) d) -> I (f (now d)) -> Q (Ok tt) (change f d) ->
  wp I (call f) Q d.
Proof.
  intros HR HI HQ. unfold wp, call. destruct (strike d) as [[msg n]|]; [by apply wp_stay|].
  by apply (wp_change (Ok tt)).
Qed.

Lemma wp_append p s Q d :
  (forall t, I (<[p := File (contents (now d) p +:+ t)]> (now d))) ->
  (forall msg t, Q (Raise (Exn OSError msg)) (change (fun m => <[p := File (contents m p +:+ t)]> m) d)) ->
  Q (Ok tt) (change (fun m => <[p := File (contents m p +:+ s)]> m) d) -> wp I (append p s) Q d.
Proof.
  intros HI HR HQ. unfold wp, append.
  destruct (strike d) as [[msg n]|]; [apply (wp_change (Raise (Exn OSError msg)))|apply (wp_change (Ok tt))];
    auto.
Qed.

Lemma wp_print s Q d :
  Q (Ok tt) {| now := now d; past := past d; printed := (printed d ++ [s])%list |} -> wp I (print s) Q d.
Proof. intros HQ. split; [|exact HQ]. by exists []. Qed.

Lemma wp_create p Q d :
  (forall e, Q (Raise e) d) -> I (<[p := File ""]> (now d)) ->
  (is_dir (now d) p = false -> Q (Ok tt) (change (fun m => <[p := File ""]> m) d)) ->
  wp I (create p) Q d.
Proof.
  intros HR HI HQ. unfold create. apply wp_files. destruct (is_dir (now d) p) eqn:E; [apply wp_lift, HR|].
  destruct (negb _); [apply wp_lift, HR|]. apply wp_call; auto.
Qed.

Lemma wp_mkdir p Q d :
  (forall e, Q (Raise e) d) -> (is_dir (now d) p = true -> Q (Ok tt) d) ->
  (now d !! p = None -> p <> [] -> I (<[p := Dir]> (now d)) /\ Q (Ok tt) (change (fun m => <[p := Dir]> m) d)) ->
  wp I (mkdir p) Q d.
Proof.
  intros HR HD HQ. unfold mkdir. apply wp_files. destruct (is_dir (now d) p) eqn:E1; [apply wp_ret; auto|].
  destruct (is_file (now d) p) eqn:E2; [apply wp_lift, HR|]. destruct (negb _); [apply wp_lift, HR|].
  assert (now d !! p = None /\ p <> []) as [Hn Hne].
  { unfold is_dir, is_file in *. destruct p; [done|]. by destruct (now d !! _) as [[]|]. }
  destruct (HQ Hn Hne). apply wp_call; auto.
Qed.

Lemma wp_unlink p Q d :
  (forall e, Q (Raise e) d) -> (now d !! p = None -> Q (Ok tt) d) -> I (delete p (now d)) ->
  Q (Ok tt) (change (delete p) d) -> wp I (unlink p) Q d.
Proof.
  intros HR HN HI HQ. unfold unlink. apply wp_files. destruct (now d !! p) as [[s|]|];
    [apply wp_call; auto|apply wp_lift, HR|apply wp_ret; auto].
Qed.

Lemma wp_replace_file src dst s Q d :
  now d !! src = Some (File s) -> (forall e, Q (Raise e) d) ->
  I (<[dst := File s]> (delete src (now d))) ->
  Q (Ok tt) (change (fun m => <[dst := File s]> (delete src m)) d) ->
  wp I (replace src dst) Q d.
Proof.
  intros Hs HR HI HQ. unfold replace. apply wp_files. rewrite Hs.
  destruct (is_dir _ dst); [apply wp_lift, HR|]. destruct (negb _); [apply wp_lift, HR|]. apply wp_call; auto.
Qed.

Lemma wp_remove p Q d :
  (forall e, exn_cls e = OSError -> Q (Raise e) d) -> I (delete p (now d)) -> Q (Ok tt) (change (delete p) d) ->
  wp I (remove p) Q d.
Proof.
  intros HR HI HQ. unfold remove. apply wp_files.
  destruct (children p (now d)); [apply wp_call; auto|by apply wp_lift, HR].
Qed.

(** What [mkdirs p] leaves at a path: what was there, or a new directory. *)
Definition grown (p : path) (m m' : fs) (q : path) : Prop :=
  m' !! q = m !! q \/ (m !! q = None /\ m' !! q = Some Dir /\ q `prefix_of` p /\ q <> []).

Lemma wp_mkdirs p Q d :
  (forall m, (forall q, grown p (now d) m q) -> I m) ->
  (forall r d', (forall q, grown p (now d) (now d') q) -> Q r d') ->
  wp I (mkdirs p) Q d.
Proof.
  intros HI HQ. unfold mkdirs.
  apply (wp_forM (fun d' => forall q, grown p (now d) (now d') q)); [|by auto|by left].
  intros x d1 Hx Hg. apply list_elem_of_fmap in Hx as (n & -> & _).
  apply wp_mkdir; [by intros; apply HQ|done|]. intros Hn Hne.
  assert (forall q, grown p (now d) (<[take n p := Dir]> (now d1)) q) as Hnew.
  { intros q. destruct (decide (q = take n p)) as [->|Hq]; unfold grown.
    - right. rewrite lookup_insert_eq. destruct (Hg (take n p)) as [E|(_ & E & _)]; [|congruence].
      rewrite <- E. split; [done|]. split; [done|]. split; [|done]. exists (drop n p). by rewrite take_drop.
    - rewrite lookup_insert_ne by congruence. apply Hg. }
  auto.
Qed.

End Rules.

Lemma wp_weaken {A : Type} (I I' : fs -> Prop) (f : F A) Q d :
  (forall m, I m -> I' m) -> wp I f Q d -> wp I' f Q d.
Proof. intros HI [(new & E & Hn) HQ]. split; [|exact HQ]. exists new. split; [done|]. by eapply Forall_impl. Qed.

(** A program on its own: the states it goes through and its outcome. *)
Lemma wp_run {A} I (f : F A) Q d r d' :
  wp I f Q d -> f d = (r, d') ->
  (exists new, states d' = (new ++ states d)%list /\ Forall I new) /\ Q r d'.
Proof. intros [H HQ] E. rewrite E in H, HQ. done. Qed.

Lemma parent_prefix p : parent p `prefix_of` p.
Proof. exists (drop (length p - 1) p). unfold parent. by rewrite take_drop. Qed.

Lemma not_prefix_parent p : p <> [] -> ~ p `prefix_of` parent p.
Proof.
  intros Hne [k Hk]. apply (f_equal length) in Hk. unfold parent in Hk. rewrite length_app, length_take in Hk.
  destruct p; simpl in *; [done|lia].
Qed.

(** ** Invariants *)

Definition keeps {A : Type} (I : fs -> Prop) (f : F A) : Prop :=
  forall d, I (now d) -> wp I f (fun _ d' => I (now d')) d.

(** An invariant that deletions and new directories do not break, nor changes of
    the paths in [P]. *)
Record tolerant (I : fs -> Prop) (P : path -> Prop) : Prop := {
  tol_delete : forall m q, I m -> I (delete q m);
  tol_dir : forall m q, I m -> m !! q = None -> I (<[q := Dir]> m);
  tol_insert : forall m q x, P q -> I m -> I (<[q := x]> m)
}.

Section Keeps.
Context {Mach : Machine} (I : fs -> Prop).

Lemma keeps_lift {A : Type} (r : result A) : keeps I (lift r).
Proof. intros d Hd. by apply wp_lift. Qed.
Lemma keeps_ret {A : Type} (a : A) : keeps I (ret a).
Proof. intros d Hd. by apply wp_ret. Qed.
Lemma keeps_throw {A : Type} c msg : keeps I (throw c msg : F A).
Proof. intros d Hd. by apply wp_throw. Qed.
Lemma keeps_print s : keeps I (print s).
Proof. intros d Hd. by apply wp_print. Qed.
Lemma keeps_bind {A B : Type} (m : F A) (k : A -> F B) :
  keeps I m -> (forall a, keeps I (k a)) -> keeps I (mbindM m k).
Proof.
  intros Hm Hk d Hd. apply wp_bind. eapply wp_mono; [by apply Hm|]. intros [a|e] d' H'; [by apply Hk|done].
Qed.
Lemma keeps_files {B : Type} (k : fs -> F B) : (forall m, I m -> keeps I (k m)) -> keeps I (mbindM files k).
Proof. intros Hk d Hd. apply wp_files. by apply Hk. Qed.
Lemma keeps_try_except {A : Type} (m : F A) cs h :
  keeps I m -> (forall e, keeps I (h e)) -> keeps I (try_except m cs h).
Proof.
  intros Hm Hh d Hd. apply wp_try_except. eapply wp_mono; [by apply Hm|]. intros [a|e] d' H'; [done|].
  destruct (caught_by cs e); [by apply Hh|done].
Qed.
Lemma keeps_try_finally {A : Type} (m : F A) f : keeps I m -> keeps I f -> keeps I (try_finally m f).
Proof.
  intros Hm Hf d Hd. apply wp_try_finally. eapply wp_mono; [by apply Hm|]. intros r d' H'. by apply Hf.
Qed.
Lemma keeps_forM {A : Type} (l : list A) body : (forall x, x ∈ l -> keeps I (body x)) -> keeps I (forM l body).
Proof.
  intros Hb d Hd. apply (wp_forM I (fun d' => I (now d'))); [|done|done].
  intros x d1 Hx H1. eapply wp_mono; [by apply Hb|]. by intros [] d'.
Qed.
Lemma keeps_call f : (forall m, I m -> I (f m)) -> keeps I (call f).
Proof. intros Hf d Hd. apply wp_call; [done|..]; cbn [now change]; auto. Qed.

Context (P : path -> Prop) (HI : tolerant I P).

Lemma keeps_mkdir p : keeps I (mkdir p).
Proof.
  intros d Hd. apply wp_mkdir; [done|done|]. intros Hn Hne. split; by apply (tol_dir _ _ HI).
Qed.
Lemma keeps_mkdirs p : keeps I (mkdirs p).
Proof. apply keeps_forM. intros x _. apply keeps_mkdir. Qed.
Lemma keeps_unlink p : keeps I (unlink p).
Proof. intros d Hd. apply wp_unlink; try done; by apply (tol_delete _ _ HI). Qed.
Lemma keeps_remove p : keeps I (remove p).
Proof. intros d Hd. apply wp_remove; try done; by apply (tol_delete _ _ HI). Qed.
Lemma keeps_rmtree p : keeps I (rmtree p).
Proof.
  apply keeps_files. intros m _. destruct (is_dir m p); [|destruct (is_file m p); apply keeps_lift].
  apply keeps_forM. intros x _. apply keeps_remove.
Qed.
Lemma keeps_rmtree_ignore_errors p : keeps I (rmtree_ignore_errors p).
Proof.
  apply keeps_files. intros m _. destruct (is_dir m p); [|apply keeps_ret]. apply keeps_forM. intros x _.
  apply keeps_try_except; [apply keeps_remove|]. intros e. apply keeps_ret.
Qed.
Lemma keeps_append p s : P p -> keeps I (append p s).
Proof. intros Hp d Hd. apply wp_append; intros; by apply (tol_insert _ _ HI). Qed.
Lemma keeps_create p : P p -> keeps I (create p).
Proof. intros Hp d Hd. apply wp_create; intros; try done; by apply (tol_insert _ _ HI). Qed.
Lemma keeps_write_bytes p s : P p -> keeps I (write_bytes p s).
Proof. intros Hp. apply keeps_bind; [by apply keeps_create|]. intros _. by apply keeps_append. Qed.

(** A file put in place; moving a tree is a matter of [move]. *)
Lemma keeps_replace src dst :
  P dst -> (forall m, I m -> I (move src dst m)) -> keeps I (replace src dst).
Proof.
  intros Hp Hm. apply keeps_files. intros m _. destruct (m !! src) as [[s|]|]; [..|apply keeps_lift].
  - destruct (is_dir m dst); [apply keeps_lift|]. destruct (negb _); [apply keeps_lift|].
    apply keeps_call. intros m1 H1. apply (tol_insert _ _ HI); [done|]. by apply (tol_delete _ _ HI).
  - destruct (is_file m dst); [apply keeps_lift|]. destruct (bool_decide _); [apply keeps_lift|].
    destruct (existsb _ _); [apply keeps_lift|]. destruct (negb _); [apply keeps_lift|]. by apply keeps_call.
Qed.
Lemma wp_mkdtemp prefix p Q d :
  I (now d) -> (forall e, Q (Raise e) d) ->
  (forall s d', I (now d') -> Q (Ok (slash p (prefix +:+ s))) d' /\ forall e, Q (Raise e) d') ->
  wp I (mkdtemp prefix p) Q d.
Proof.
  intros Hd HR HQ. apply wp_bind, wp_stay. set (t := slash p _). apply wp_files.
  destruct (present (now d) t) eqn:E; [apply wp_lift, HR|].
  destruct (negb _); [apply wp_lift, HR|]. apply wp_bind.
  assert (I (<[t := Dir]> (now d))) as Hi.
  { apply (tol_dir _ _ HI); [done|]. unfold present, is_file, is_dir in E.
    destruct t, (now d !! _) as [[]|]; done. }
  apply wp_call; [done|done|]. apply wp_ret. by apply HQ.
Qed.
Lemma keeps_write_text p s : P p -> keeps I (write_text p s).
Proof. apply keeps_write_bytes. Qed.

End Keeps.

(** A path away from both trees is not affected by a move. *)
Lemma lookup_move src dst m q :
  ~ src `prefix_of` q -> ~ dst `prefix_of` q -> move src dst m !! q = m !! q.
Proof.
  intros Hs Hd. unfold move. set (l := map_to_list (delete dst m)).
  assert (forall v, (q, v) ∈ ((fun kv => (rebase src dst (fst kv), snd kv)) <$> l) <-> m !! q = Some v) as Hin.
  { intros v. rewrite list_elem_of_fmap. unfold rebase. split.
    - intros ([k w] & E & Hk). cbn [fst snd] in E. injection E as E ->. apply elem_of_map_to_list in Hk.
      case_bool_decide; [by destruct Hd; rewrite E; apply prefix_app_r|]. subst k.
      by apply lookup_delete_Some in Hk as [_ ?].
    - intros Hq. exists (q, v). cbn [fst snd]. rewrite bool_decide_eq_false_2 by done. split; [done|].
      apply elem_of_map_to_list. apply lookup_delete_Some. split; [|done]. intros ->. by destruct Hd. }
  destruct (m !! q) as [v|] eqn:E.
  - apply elem_of_list_to_map'; [|by apply Hin]. intros w _ Hw. apply Hin in Hw. congruence.
  - apply not_elem_of_list_to_map. intros Hq. apply list_elem_of_fmap in Hq as ([k w] & -> & Hk).
    apply Hin in Hk. done.
Qed.
