(* ===== verification/Cache.v ===== *)
(** [scripts/cache.py]: the lock-keyed cache of artifacts and OCI images, over
    the file system of [Fs.v]. *)

From Stdlib Require Import ZArith Bool Ascii String Lia.
From stdpp Require Import base list strings option gmap.
From S2P Require Import Prelude Eff PyStr PyText PyVal Json Sha256 Lock Fs.

Open Scope string_scope.
Open Scope Z_scope.

Definition OCI_LAYOUT_VERSION : Z := 1.

(** ** Inventories *)

Record artifact_item : Type := {
  ai_id : string; ai_path : string; ai_sha256 : string; ai_url : string
}.
Record image_item : Type := {
  im_id : string; im_path : string; im_reference : string; im_digest : string; im_platform : string
}.

Definition artifact_json (i : artifact_item) : pyval :=
  VDict [ ("id", VStr (ai_id i)); ("cache_path", VStr (ai_path i)); ("sha256", VStr (ai_sha256 i));
          ("url", VStr (ai_url i)) ].
Definition image_json (i : image_item) : pyval :=
  VDict [ ("id", VStr (im_id i)); ("cache_path", VStr (im_path i)); ("reference", VStr (im_reference i));
          ("manifest_digest", VStr (im_digest i)); ("platform", VStr (im_platform i)) ].

Definition cache_dir (lock : pydict) (root : path) : path := (root ++ ["locks"; lock_digest lock])%list.

(** [_is_sha256] on a string: upper case is accepted. *)
Definition is_sha256 (s : string) : bool := (slen s =? 64) && str_forallb is_lower_hex (str_lower s).

Definition safe_cache_path (v : pyval) (location : string) : result string :=
  match v with
  | VStr s =>
      raise_if (is_empty s) ValueError (location +:+ " must be a non-empty relative path") ;;;
      raise_if (path_absolute s || mem_string ".." (path_parts s)) ValueError
        (location +:+ " must stay inside the cache") ;;;
      Ok s
  | _ => value_error (location +:+ " must be a non-empty relative path")
  end.

Definition sha256_of (data : string) : string := sha256_hex (bytes_of_string data).

Definition artifact_entry (group : string) (entry : nat * pyval) : result artifact_item :=
  let location := "lock." +:+ group +:+ "[" +:+ str_of_Z (Z.of_nat (fst entry)) +:+ "]" in
  match snd entry with
  | VDict artifact =>
      let* relative_path := safe_cache_path (dget_none "cache_path" artifact) (location +:+ ".cache_path") in
      match dget_none "id" artifact with
      | VStr artifact_id =>
          raise_if (is_empty artifact_id) ValueError (location +:+ ".id must be a non-empty string") ;;;
          match dget_none "sha256" artifact with
          | VStr digest =>
              raise_if (negb (is_sha256 digest)) ValueError
                (location +:+ ".sha256 must be a hexadecimal SHA-256 digest") ;;;
              match dget_none "url" artifact with
              | VStr url =>
                  let* u := urlsplit url in
                  raise_if (negb (String.eqb (scheme u) "https")) ValueError
                    (location +:+ ".url must use HTTPS") ;;;
                  Ok {| ai_id := artifact_id; ai_path := relative_path; ai_sha256 := str_lower digest;
                        ai_url := url |}
              | _ => value_error (location +:+ ".url must use HTTPS")
              end
          | _ => value_error (location +:+ ".sha256 must be a hexadecimal SHA-256 digest")
          end
      | _ => value_error (location +:+ ".id must be a non-empty string")
      end
  | _ => type_error (location +:+ " must be a mapping")
  end.

Definition artifact_inventory (lock : pydict) (group : string) : result (list artifact_item) :=
  match dget_or group (VList []) lock with
  | VList artifacts => mapM (artifact_entry group) (enumerate artifacts)
  | _ => type_error ("lock." +:+ group +:+ " must be a list")
  end.

Definition inventory (lock : pydict) : result (list artifact_item) := artifact_inventory lock "artifacts".
Definition guest_upgrade_inventory (lock : pydict) : result (list artifact_item) :=
  artifact_inventory lock "guest_upgrade_artifacts".

(** The dictionary of artifacts by identifier: a later one replaces an earlier
    one. *)
Definition index_artifact (by_id : list (string * pydict)) (v : pyval) : list (string * pydict) :=
  match v with
  | VDict a => match dget_none "id" a with VStr i => aset i a by_id | _ => by_id end
  | _ => by_id
  end.

(** The artifacts chosen so far and their identifiers. *)
Definition select_field (by_id : list (string * pydict)) (location : string) (stage : pydict)
    (s : list pyval * list string) (field : string) : result (list pyval * list string) :=
  match dget_none field stage with
  | VStr artifact_id =>
      match aget artifact_id by_id with
      | Some a => Ok (if mem_string artifact_id (snd s) then s
                      else ((fst s ++ [VDict a])%list, artifact_id :: snd s))
      | None => value_error (location +:+ "." +:+ field +:+ " must reference a locked artifact")
      end
  | _ => value_error (location +:+ "." +:+ field +:+ " must reference a locked artifact")
  end.

Definition select_stage (by_id : list (string * pydict)) (s : list pyval * list string)
    (entry : nat * pyval) : result (list pyval * list string) :=
  let location := "lock.kubernetes_upgrade_matrix[" +:+ str_of_Z (Z.of_nat (fst entry)) +:+ "]" in
  match snd entry with
  | VDict stage =>
      foldM (select_field by_id location stage) s ["kubelet_artifact"; "control_plane_artifact"; "cri_o_artifact"]
  | _ => type_error (location +:+ " must be a mapping")
  end.

Definition kubernetes_upgrade_inventory (lock : pydict) : result (list artifact_item) :=
  let* _ := inventory lock in
  let* _ := guest_upgrade_inventory lock in
  match dget_or "artifacts" (VList []) lock, dget_or "guest_upgrade_artifacts" (VList []) lock with
  | VList normal, VList guest =>
      match dget_none "kubernetes_upgrade_matrix" lock with
      | VList ((_ :: _) as matrix) =>
          let by_id := fold_left index_artifact (normal ++ guest)%list [] in
          let* selected := foldM (select_stage by_id) ([], []) (enumerate matrix) in
          artifact_inventory [("matrix_artifacts", VList (fst selected))] "matrix_artifacts"
      | _ => value_error "lock.kubernetes_upgrade_matrix must be a non-empty list"
      end
  | _, _ => type_error "lock artifact groups must be lists"
  end.

(** The repository of a reference without its tag. *)
Definition untagged (repository : string) : string :=
  let strip_tag name := match rpartition ":" name with Some (n, _) => n | None => name end in
  match rpartition "/" repository with
  | Some (repository_path, name) => repository_path +:+ "/" +:+ strip_tag name
  | None => strip_tag repository
  end.

Definition image_entry (entry : nat * pyval) : result image_item :=
  let location := "lock.oci_images[" +:+ str_of_Z (Z.of_nat (fst entry)) +:+ "]" in
  match snd entry with
  | VDict image =>
      let* relative_path := safe_cache_path (dget_none "cache_path" image) (location +:+ ".cache_path") in
      match dget_none "id" image with
      | VStr image_id =>
          raise_if (is_empty image_id) ValueError (location +:+ ".id must be a non-empty string") ;;;
          match dget_none "reference" image with
          | VStr reference =>
              match rpartition "@sha256:" reference with
              | Some (repository, digest) =>
                  raise_if (is_empty repository || negb (is_sha256 digest)) ValueError
                    (location +:+ ".reference must end with a full sha256 digest") ;;;
                  match dget_none "platform" image with
                  | VStr platform =>
                      raise_if (negb (count_char "/" platform =? 1)) ValueError
                        (location +:+ ".platform must be OS/architecture") ;;;
                      Ok {| im_id := image_id; im_path := relative_path;
                            im_reference := untagged repository +:+ "@sha256:" +:+ str_lower digest;
                            im_digest := "sha256:" +:+ str_lower digest; im_platform := platform |}
                  | _ => value_error (location +:+ ".platform must be OS/architecture")
                  end
              | None => value_error (location +:+ ".reference must be pinned by a sha256 digest")
              end
          | _ => value_error (location +:+ ".reference must be pinned by a sha256 digest")
          end
      | _ => value_error (location +:+ ".id must be a non-empty string")
      end
  | _ => type_error (location +:+ " must be a mapping")
  end.

Definition oci_inventory (lock : pydict) : result (list image_item) :=
  match dget_or "oci_images" (VList []) lock with
  | VList images => mapM image_entry (enumerate images)
  | _ => type_error "lock.oci_images must be a list"
  end.

(** ** Validation

    The list of problems is threaded through; a missing value is [VNone]. *)

Definition read_json (m : fs) (p : path) (description : string) (problems : list string)
    : result (pyval * list string) :=
  match (let* text := read_text m p in json_loads text) with
  | Ok v => Ok (v, problems)
  | Raise e =>
      if caught_by [JSONDecodeError; OSError] e
      then Ok (VNone, (problems ++ ["invalid " +:+ description +:+ ": " +:+ exn_msg e])%list)
      else Raise e
  end.

Definition is_oci_digest (v : pyval) : option string :=
  match v with
  | VStr s => if startswith "sha256:" s && is_sha256 (str_drop 7 s) then Some (str_drop 7 s) else None
  | _ => None
  end.

Definition validate_blob (m : fs) (root : path) (digest : pyval) (description : string)
    (problems : list string) : option path * list string :=
  match is_oci_digest digest with
  | None => (None, (problems ++ ["invalid OCI digest for " +:+ description +:+ ": " +:+ py_repr digest])%list)
  | Some hex =>
      let blob := (root ++ ["blobs"; "sha256"; hex])%list in
      match m !! blob with
      | Some (File data) =>
          if String.eqb (sha256_of data) hex then (Some blob, problems)
          else (None, (problems ++ ["checksum mismatch for OCI blob " +:+ description +:+ ": " +:+ py_str digest])%list)
      | _ => (None, (problems ++ ["missing OCI blob for " +:+ description +:+ ": " +:+ py_str digest])%list)
      end
  end.

Definition validate_layer (m : fs) (directory : path) (item : image_item) (problems : list string)
    (entry : nat * pyval) : list string :=
  let index := str_of_Z (Z.of_nat (fst entry)) in
  match snd entry with
  | VDict layer =>
      snd (validate_blob m directory (dget_none "digest" layer)
             ("layer " +:+ index +:+ " for " +:+ im_id item) problems)
  | _ => (problems ++ ["invalid OCI layer descriptor " +:+ index +:+ " for " +:+ im_id item])%list
  end.

(** From the manifest's configuration on. *)
Definition validate_manifest (m : fs) (directory : path) (item : image_item) (manifest config : pydict)
    (problems : list string) : result (list string) :=
  let '(config_path, problems) :=
    validate_blob m directory (dget_none "digest" config) ("config " +:+ im_id item) problems in
  let* layers := py_iter (dget_or "layers" (VList []) manifest) in
  let problems := fold_left (validate_layer m directory item) (enumerate layers) problems in
  match config_path with
  | None => Ok problems
  | Some config_path =>
      let* (config_data, problems) := read_json m config_path ("OCI config for " +:+ im_id item) problems in
      match config_data with
      | VDict c =>
          let platform := py_str (dget_none "os" c) +:+ "/" +:+ py_str (dget_none "architecture" c) in
          Ok (if String.eqb platform (im_platform item) then problems
              else (problems ++ ["OCI platform mismatch for " +:+ im_id item +:+ ": got " +:+ platform +:+
                                 ", want " +:+ im_platform item])%list)
      | _ => Ok problems
      end
  end.

(** From the only descriptor of the index on. *)
Definition validate_descriptor (m : fs) (directory : path) (item : image_item) (descriptor : pydict)
    (problems : list string) : result (list string) :=
  let digest := dget_none "digest" descriptor in
  let problems :=
    if py_eq digest (VStr (im_digest item)) then problems
    else (problems ++ ["OCI manifest digest mismatch for " +:+ im_id item +:+ ": got " +:+ py_repr digest +:+
                       ", want " +:+ im_digest item])%list in
  let '(manifest_path, problems) :=
    validate_blob m directory digest ("manifest " +:+ im_id item) problems in
  match manifest_path with
  | None => Ok problems
  | Some manifest_path =>
      let* (manifest, problems) := read_json m manifest_path ("OCI manifest for " +:+ im_id item) problems in
      match manifest with
      | VDict manifest =>
          match dget_none "config" manifest with
          | VDict config => validate_manifest m directory item manifest config problems
          | _ => Ok (problems ++ ["OCI manifest for " +:+ im_id item +:+ " has no config descriptor"])%list
          end
      | _ => Ok problems
      end
  end.

Definition validate_oci_layout (m : fs) (item : image_item) (directory : path) : result (list string) :=
  let* (layout, problems) :=
    read_json m (directory ++ ["oci-layout"])%list ("OCI layout marker for " +:+ im_id item) [] in
  let problems :=
    if py_eq layout (VDict [("imageLayoutVersion", VStr "1.0.0")]) then problems
    else (problems ++ ["invalid OCI layout marker for " +:+ im_id item])%list in
  let* (index, problems) :=
    read_json m (directory ++ ["index.json"])%list ("OCI index for " +:+ im_id item) problems in
  match index with
  | VDict index =>
      match dget_none "manifests" index with
      | VList [VDict descriptor] => validate_descriptor m directory item descriptor problems
      | _ => Ok (problems ++ ["OCI index for " +:+ im_id item +:+ " must contain exactly one manifest"])%list
      end
  | _ => Ok problems
  end.

Definition metadata_names : list string :=
  ["lock.json"; "checksums.txt"; "artifacts.json"; "oci-images.json"; "complete.json"].

Definition checksum_line (i : artifact_item) : string := ai_sha256 i +:+ "  " +:+ ai_path i.

(** One file of an inventory; [kind] is the wording for a missing one. *)
Definition check_file (kind : string) (m : fs) (directory : path) (problems : list string)
    (i : artifact_item) : list string :=
  match m !! slash directory (ai_path i) with
  | Some (File data) =>
      if String.eqb (sha256_of data) (ai_sha256 i) then problems
      else (problems ++ ["checksum mismatch: " +:+ ai_id i +:+ " (" +:+ ai_path i +:+ ")"])%list
  | _ => (problems ++ ["missing " +:+ kind +:+ ": " +:+ ai_id i +:+ " (" +:+ ai_path i +:+ ")"])%list
  end.

Definition check_complete (lock : pydict) (artifacts : list artifact_item) (images : list image_item)
    (v : pyval) : bool :=
  match v with
  | VDict c => py_eq (dget_none "lock_sha256" c) (VStr (lock_digest lock)) &&
               py_eq (dget_none "artifact_count" c) (VInt (Z.of_nat (length artifacts))) &&
               py_eq (dget_none "oci_image_count" c) (VInt (Z.of_nat (length images)))
  | _ => false
  end.

(** [if cond: problems.append(msg)] *)
Definition note_if (b : bool) (msg : string) (problems : list string) : list string :=
  if b then (problems ++ [msg])%list else problems.

Definition missing_metadata (m : fs) (directory : path) : list string :=
  (fun n => "missing cache metadata: " +:+ n) <$>
  List.filter (fun n => negb (is_file m (directory ++ [n])%list)) metadata_names.

Definition validate_images (m : fs) (directory : path) (problems : list string) (item : image_item)
    : result (list string) :=
  let* more := validate_oci_layout m item (slash directory (im_path item)) in
  Ok (problems ++ more)%list.

Definition validate_cache (lock : pydict) (root : path) (m : fs) : result (list string) :=
  let directory := cache_dir lock root in
  if negb (is_dir m directory) then Ok ["cache directory is missing: " +:+ path_text directory]
  else match missing_metadata m directory with
  | (_ :: _) as problems => Ok problems
  | [] =>
      let* (v, problems) := read_json m (directory ++ ["lock.json"])%list "lock.json" [] in
      let problems := note_if (negb (py_eq v (VDict lock))) "lock.json does not match the active lock" problems in
      let* expected_artifacts := inventory lock in
      let* (v, problems) := read_json m (directory ++ ["artifacts.json"])%list "artifacts.json" problems in
      let problems := note_if (negb (py_eq v (VList (artifact_json <$> expected_artifacts))))
                        "artifacts.json does not match the active lock inventory" problems in
      let* expected_images := oci_inventory lock in
      let* (v, problems) := read_json m (directory ++ ["oci-images.json"])%list "oci-images.json" problems in
      let problems := note_if (negb (py_eq v (VList (image_json <$> expected_images))))
                        "oci-images.json does not match the active lock inventory" problems in
      let* text := read_text m (directory ++ ["checksums.txt"])%list in
      let problems := note_if (negb (bool_decide (splitlines text = (checksum_line <$> expected_artifacts))))
                        "checksums.txt does not match the active lock inventory" problems in
      let problems := fold_left (check_file "artifact" m directory) expected_artifacts problems in
      let* problems := foldM (validate_images m directory) problems expected_images in
      let* (v, problems) := read_json m (directory ++ ["complete.json"])%list "complete.json" problems in
      Ok (note_if (negb (check_complete lock expected_artifacts expected_images v))
            "complete.json does not describe the active lock" problems)
  end.

Definition validate_guest_upgrade_cache (lock : pydict) (root : path) (m : fs) : result (list string) :=
  let* items := guest_upgrade_inventory lock in
  Ok (fold_left (check_file "guest upgrade artifact" m (cache_dir lock root)) items []).

Definition validate_kubernetes_upgrade_cache (lock : pydict) (root : path) (m : fs) : result (list string) :=
  let* items := kubernetes_upgrade_inventory lock in
  Ok (fold_left (check_file "Kubernetes upgrade artifact" m (cache_dir lock root)) items []).

(** ** Changing the cache *)

Section Populate.
Context {Mach : Machine}.

(** [.name.tmp] beside a path *)
Definition temporary_of (p : path) : result path := with_name p (fun n => "." +:+ n +:+ ".tmp").

Definition write_json (p : path) (data : pyval) : F unit :=
  let! temporary := lift (temporary_of p) in
  write_text temporary (json_indent false data +:+ newline) >>>
  replace temporary p.

Definition complete_json (lock : pydict) (artifacts : list artifact_item) (images : list image_item) : pyval :=
  VDict [ ("schema_version", VInt OCI_LAYOUT_VERSION); ("lock_sha256", VStr (lock_digest lock));
          ("artifact_count", VInt (Z.of_nat (length artifacts)));
          ("oci_image_count", VInt (Z.of_nat (length images))) ].

Definition checksums_text (artifacts : list artifact_item) : string :=
  join "" ((fun i => checksum_line i +:+ newline) <$> artifacts).

Definition write_metadata (lock : pydict) (root : path) : F path :=
  let directory := cache_dir lock root in
  let at_ n := (directory ++ [n])%list in
  mkdirs directory >>>
  let! artifacts := lift (inventory lock) in
  let! images := lift (oci_inventory lock) in
  write_bytes (at_ ".lock.json.tmp") (lock_canonical_json lock) >>>
  replace (at_ ".lock.json.tmp") (at_ "lock.json") >>>
  write_json (at_ "artifacts.json") (VList (artifact_json <$> artifacts)) >>>
  write_json (at_ "oci-images.json") (VList (image_json <$> images)) >>>
  write_text (at_ ".checksums.txt.tmp") (checksums_text artifacts) >>>
  replace (at_ ".checksums.txt.tmp") (at_ "checksums.txt") >>>
  write_json (at_ "complete.json") (complete_json lock artifacts images) >>>
  ret directory.

(** The loop over the response: each chunk is written and hashed. *)
Fixpoint receive (temporary : path) (received : string) (chunks : list string) (broken : option exn) : F string :=
  match chunks with
  | [] => match broken with Some e => lift (Raise e) | None => ret received end
  | chunk :: chunks' =>
      if is_empty chunk then ret received
      else append temporary chunk >>> receive temporary (received +:+ chunk) chunks' broken
  end.

Definition fetch (url : string) (temporary : path) : F string :=
  let! (chunks, broken) := (fun d => (urlopen d url, d)) in
  create temporary >>>
  receive temporary "" chunks broken.

Definition download (item : artifact_item) (directory : path) : F unit :=
  let destination := slash directory (ai_path item) in
  let! m := files in
  if is_file m destination && String.eqb (sha256_of (contents m destination)) (ai_sha256 item) then ret tt
  else
    mkdirs (parent destination) >>>
    let! temporary := lift (temporary_of destination) in
    let! received :=
      try_except (fetch (ai_url item) temporary) [OSError]
        (fun e => unlink temporary >>>
                  throw RuntimeError ("failed to download " +:+ ai_id item +:+ ": " +:+ exn_msg e)) in
    if String.eqb (sha256_of received) (ai_sha256 item) then replace temporary destination
    else unlink temporary >>>
         throw RuntimeError ("checksum mismatch while downloading " +:+ ai_id item).

(** [_run]: the first of the streams that is not blank is the detail. *)
Definition run (argv : list string) (destination : path) : F unit :=
  let! o := run_skopeo argv destination in
  match o with
  | Done => ret tt
  | NoProgram => throw RuntimeError ("required command not found: " +:+ hd "" argv)
  | NotStarted msg => throw OSError msg
  | Failed stderr stdout =>
      let detail := if negb (is_empty (strip stderr)) then strip stderr
                    else if negb (is_empty (strip stdout)) then strip stdout
                    else "Command returned non-zero exit status" in
      throw RuntimeError ("command failed (" +:+ join " " argv +:+ "): " +:+ detail)
  end.

Definition skopeo_argv (item : image_item) (stage : path) : list string :=
  [ "skopeo"; "copy"; "--override-os"; split_head "/" (im_platform item); "--override-arch";
    join "/" (tail (split_on "/" (im_platform item))); "docker://" +:+ im_reference item;
    "oci:" +:+ path_text stage +:+ ":" +:+ im_id item ].

(** The body of the [try]. *)
Definition stage_and_publish (item : image_item) (stage destination : path) : F unit :=
  run (skopeo_argv item stage) stage >>>
  let! m := files in
  let! problems := lift (validate_oci_layout m item stage) in
  match problems with
  | _ :: _ => throw RuntimeError (join "; " problems)
  | [] =>
      (if present m destination then rmtree destination else ret tt) >>>
      mkdirs (parent destination) >>>
      replace stage destination
  end.

Definition populate_oci_image (item : image_item) (directory : path) : F unit :=
  let destination := slash directory (im_path item) in
  let! m := files in
  let! problems := (if is_dir m destination then lift (validate_oci_layout m item destination)
                    else ret ["no directory"]) in
  match problems with
  | [] => ret tt
  | _ =>
      let stage_parent := (directory ++ [".staging"])%list in
      mkdirs stage_parent >>>
      let! holder := mkdtemp (im_id item +:+ "-") stage_parent in
      let stage := (holder ++ ["layout"])%list in
      try_finally (stage_and_publish item stage destination) (rmtree_ignore_errors holder)
  end.

Definition populate (lock : pydict) (root : path) : F path :=
  let directory := cache_dir lock root in
  mkdirs directory >>>
  unlink (directory ++ ["complete.json"])%list >>>
  let! artifacts := lift (inventory lock) in
  forM artifacts (fun item => download item directory) >>>
  let! images := lift (oci_inventory lock) in
  forM images (fun item => populate_oci_image item directory) >>>
  write_metadata lock root.

Definition populate_guest_upgrade_artifacts (lock : pydict) (root : path) : F path :=
  let directory := cache_dir lock root in
  let! items := lift (guest_upgrade_inventory lock) in
  forM items (fun item => download item directory) >>>
  ret directory.

Definition populate_kubernetes_upgrade_artifacts (lock : pydict) (root : path) : F path :=
  let directory := cache_dir lock root in
  let! items := lift (kubernetes_upgrade_inventory lock) in
  forM items (fun item => download item directory) >>>
  ret directory.

(** The caches of other locks among the entries of [locks]. *)
Fixpoint prune_entries (active : string) (candidates : list path) (removed : list path) : F (list path) :=
  match candidates with
  | [] => ret removed
  | candidate :: candidates' =>
      let! m := files in
      if is_dir m candidate && negb (bool_decide (list.last candidate = Some active))
      then rmtree candidate >>> prune_entries active candidates' (removed ++ [candidate])%list
      else prune_entries active candidates' removed
  end.

Definition prune (lock : pydict) (root : path) : F (list path) :=
  let locks := (root ++ ["locks"])%list in
  let! m := files in
  if is_dir m locks then prune_entries (lock_digest lock) (children locks m) [] else ret [].

(** ** The command line *)

Record cache_args : Type := {
  ca_root : option path; ca_check : bool; ca_populate : bool; ca_check_upgrade : bool;
  ca_populate_upgrade : bool; ca_write_metadata : bool; ca_prune : bool
}.
(** [OFFLINE], [XDG_CACHE_HOME] and the home directory. *)
Record cache_env : Type := { ce_offline : option string; ce_xdg : option string; ce_home : path }.

Definition parser_error {A} (msg : string) : F A := throw SystemExit msg.

Definition offline_set (env : cache_env) : bool :=
  String.eqb (default "0" (ce_offline env)) "1".

Definition cache_root_of (args : cache_args) (env : cache_env) : path :=
  match ca_root args with
  | Some r => r
  | None =>
      (match ce_xdg env with
       | Some t => slash [] t
       | None => ce_home env ++ [".cache"]
       end ++ ["k8labs"])%list
  end.

(** A population guarded by [OFFLINE]; a [RuntimeError] ends the command. *)
Definition guarded (env : cache_env) (refusal : string) (m : F path) : F unit :=
  if offline_set env then parser_error refusal
  else
    try_except (let! p := m in print (path_text p)) [RuntimeError]
      (fun e => parser_error (exn_msg e)).

(** Prints the problems; whether there were any. *)
Definition report_problems (problems : list string) (ready : string) : F bool :=
  match problems with
  | [] => print ready >>> ret false
  | _ => forM problems (fun p => print ("ERROR: " +:+ p)) >>> ret true
  end.

Definition cache_main (document : pyval) (args : cache_args) (env : cache_env) : F Z :=
  let! lock := lift (load_lock document) in
  let root := cache_root_of args env in
  (if ca_populate args
   then guarded env "OFFLINE=1 forbids cache population from the network" (populate lock root)
   else ret tt) >>>
  (if ca_populate_upgrade args
   then guarded env "OFFLINE=1 forbids Kubernetes upgrade artifact downloads"
          (populate_kubernetes_upgrade_artifacts lock root)
   else if ca_write_metadata args then let! p := write_metadata lock root in print (path_text p)
   else ret tt) >>>
  (if ca_prune args
   then let! removed := prune lock root in forM removed (fun p => print ("removed " +:+ path_text p))
   else ret tt) >>>
  let normal_check := ca_check args ||
    negb (ca_write_metadata args || ca_prune args || ca_populate_upgrade args || ca_check_upgrade args) in
  let! m := files in
  let! failed :=
    (if normal_check
     then let! problems := lift (validate_cache lock root m) in
          report_problems problems ("artifact cache ready: " +:+ path_text (cache_dir lock root))
     else ret false) in
  if failed then ret 1
  else
    let! failed :=
      (if ca_check_upgrade args
       then let! problems := lift (validate_kubernetes_upgrade_cache lock root m) in
            report_problems problems ("guest upgrade artifacts ready: " +:+ path_text (cache_dir lock root))
       else ret false) in
    ret (if failed then 1 else 0).

End Populate.
