(* ===== verification/CacheThm.v ===== *)
(** Theorems about the artifact cache of [Cache.v]: what an accepted cache
    holds, what a download, an interrupted population and a pruning leave. *)

From Stdlib Require Import ZArith Bool Ascii String Lia.
From stdpp Require Import base list strings option gmap.
From S2P Require Import Prelude Eff PyStr PyText PyVal Json Sha256 Lock Fs Cache.

Open Scope string_scope.
Open Scope Z_scope.

#[local] Opaque sha256_hex.

(** ** Problem lists only grow *)

Lemma app_cons_ne {A} (l : list A) x : (l ++ [x])%list <> [].
Proof. by destruct l. Qed.

Lemma read_json_nil m p desc problems v :
  read_json m p desc problems = Ok (v, []) -> problems = [].
Proof.
  unfold read_json. destruct (rbind _ _) as [v'|e]; [by intros [= -> ->]|].
  destruct (caught_by _ e); [|done]. intros [= _ E]. by apply app_cons_ne in E.
Qed.

Lemma validate_blob_nil m root digest desc problems b :
  validate_blob m root digest desc problems = (b, []) ->
  problems = [] /\ exists s hex data, digest = VStr s /\ s = "sha256:" +:+ hex /\
    b = Some (root ++ ["blobs"; "sha256"; hex])%list /\
    m !! (root ++ ["blobs"; "sha256"; hex])%list = Some (File data) /\ sha256_of data = hex.
Proof.
  unfold validate_blob, is_oci_digest.
  destruct digest as [| | | |s| |]; try (intros [= _ E]; by apply app_cons_ne in E).
  destruct (startswith "sha256:" s && is_sha256 (str_drop 7 s)) eqn:E; [|intros [= _ E2]; by apply app_cons_ne in E2].
  destruct (m !! _) as [[data|]|] eqn:Em; try (intros [= _ E2]; by apply app_cons_ne in E2).
  destruct (String.eqb (sha256_of data) (str_drop 7 s)) eqn:Eh; [|intros [= _ E2]; by apply app_cons_ne in E2].
  intros [= <- ->]. bool_hyps. split; [done|]. exists s, (str_drop 7 s), data.
  split; [done|]. split; [by apply (prefix_true "sha256:")|]. done.
Qed.

Lemma note_if_nil b msg problems : note_if b msg problems = [] -> b = false /\ problems = [].
Proof. destruct b; simpl; [intros E; by apply app_cons_ne in E|done]. Qed.

(** A blob named by a digest is there and has that digest. *)
Definition good_blob (m : fs) (root : path) (digest : pyval) : Prop :=
  exists hex data, digest = VStr ("sha256:" +:+ hex) /\
    m !! (root ++ ["blobs"; "sha256"; hex])%list = Some (File data) /\ sha256_of data = hex.

Lemma validate_blob_good m root digest desc problems b :
  validate_blob m root digest desc problems = (b, []) -> problems = [] /\ good_blob m root digest.
Proof.
  intros H. apply validate_blob_nil in H as (-> & s & hex & data & -> & -> & _ & Hm & Hh).
  split; [done|]. by exists hex, data.
Qed.

Lemma fold_left_nil {A} (f : list string -> A -> list string) (P : A -> Prop) l :
  (forall ps x, f ps x = [] -> ps = [] /\ P x) ->
  forall ps, fold_left f l ps = [] -> ps = [] /\ Forall P l.
Proof.
  intros Hf. induction l as [|x l IH]; intros ps; cbn [fold_left]; [intros ->; by repeat constructor|].
  intros H. apply IH in H as [H HP]. apply Hf in H as [-> Hx]. split; [done|by constructor].
Qed.

(** ** Accepted layouts *)

(** The JSON document in a file. *)
Definition json_at (m : fs) (p : path) (v : pyval) : Prop :=
  exists text, read_text m p = Ok text /\ json_loads text = Ok v.

Lemma read_json_at m p desc problems v :
  read_json m p desc problems = Ok (v, []) -> problems = [] /\ json_at m p v.
Proof.
  intros H. split; [by apply read_json_nil in H|]. revert H. unfold read_json, json_at.
  destruct (read_text m p) as [text|e]; cbn [rbind].
  - destruct (json_loads text) as [v'|e] eqn:Ej; [intros [= -> _]; eauto|].
    destruct (caught_by [_; _] e); [|done]. intros [= _ E]. by apply app_cons_ne in E.
  - destruct (caught_by [_; _] e); [|done]. intros [= _ E]. by apply app_cons_ne in E.
Qed.

(** What an OCI layout that validates is.  Each document is looked into only
    if it is a mapping: one manifest with the locked digest, whose configuration
    and layers are present with their digests, for the locked platform. *)
Definition good_config (item : image_item) (v : pyval) : Prop :=
  forall c, v = VDict c ->
  py_str (dget_none "os" c) +:+ "/" +:+ py_str (dget_none "architecture" c) = im_platform item.

Definition good_manifest (m : fs) (item : image_item) (directory : path) (v : pyval) : Prop :=
  forall manifest, v = VDict manifest ->
  exists config hex data layers,
    dget_none "config" manifest = VDict config /\ dget_none "digest" config = VStr ("sha256:" +:+ hex) /\
    good_blob m directory (dget_none "digest" config) /\
    json_at m (directory ++ ["blobs"; "sha256"; hex])%list data /\ good_config item data /\
    py_iter (dget_or "layers" (VList []) manifest) = Ok layers /\
    Forall (fun l => exists d, l = VDict d /\ good_blob m directory (dget_none "digest" d)) layers.

Definition good_index (m : fs) (item : image_item) (directory : path) (v : pyval) : Prop :=
  forall index, v = VDict index ->
  exists descriptor hex data,
    dget_none "manifests" index = VList [VDict descriptor] /\
    dget_none "digest" descriptor = VStr (im_digest item) /\ im_digest item = "sha256:" +:+ hex /\
    good_blob m directory (VStr (im_digest item)) /\
    json_at m (directory ++ ["blobs"; "sha256"; hex])%list data /\ good_manifest m item directory data.

Record good_layout (m : fs) (item : image_item) (directory : path) : Prop := {
  gl_marker : exists v, json_at m (directory ++ ["oci-layout"])%list v /\
    py_eq v (VDict [("imageLayoutVersion", VStr "1.0.0")]) = true;
  gl_index : exists v, json_at m (directory ++ ["index.json"])%list v /\ good_index m item directory v
}.

Lemma validate_layer_nil m directory item ps entry :
  validate_layer m directory item ps entry = [] ->
  ps = [] /\ exists d, snd entry = VDict d /\ good_blob m directory (dget_none "digest" d).
Proof.
  unfold validate_layer. destruct (snd entry) as [| | | | | |d]; try (intros E; by apply app_cons_ne in E).
  destruct (validate_blob _ _ _ _ _) as [b ps'] eqn:E. cbn [snd]. intros ->.
  apply validate_blob_good in E as [-> ?]. split; [done|]. by exists d.
Qed.

Lemma validate_manifest_nil m directory item manifest config ps :
  dget_none "config" manifest = VDict config ->
  validate_manifest m directory item manifest config ps = Ok [] ->
  ps = [] /\ good_manifest m item directory (VDict manifest).
Proof.
  intros Hc. unfold validate_manifest.
  destruct (validate_blob m directory _ _ ps) as [b ps1] eqn:Eb. intros H.
  apply rbind_Ok in H as (layers & Hl & H).
  assert (fold_left (validate_layer m directory item) (enumerate layers) ps1 = [] /\
    forall p, b = Some p -> exists data, json_at m p data /\ good_config item data) as [Hf Hb].
  { destruct b as [p|]; [|by injection H as ->]. apply rbind_Ok in H as ([data ps2] & Hr & H).
    assert (ps2 = []) as ->.
    { destruct data; try (by injection H as ->). destruct (String.eqb _ _); injection H as H; [done|].
      by apply app_cons_ne in H. }
    apply read_json_at in Hr as [Hr Hj]. split; [done|]. intros ? [= <-]. exists data. split; [done|].
    intros c ->. destruct (String.eqb _ _) eqn:E; bool_hyps; [done|]. injection H as H. done. }
  apply (fold_left_nil _ _ _ (validate_layer_nil m directory item)) in Hf as [-> Hl2].
  apply validate_blob_nil in Eb as (-> & s & hex & data & Hd & -> & -> & Hm & Hh). split; [done|].
  destruct (Hb _ eq_refl) as (doc & Hj & Hg). intros ? [= <-]. exists config, hex, doc, layers.
  do 2 (split; [done|]). split; [by exists hex, data|]. do 3 (split; [done|]).
  rewrite <- (enumerate_snd layers), Forall_fmap. exact Hl2.
Qed.

Lemma validate_descriptor_nil m directory item index descriptor ps :
  dget_none "manifests" index = VList [VDict descriptor] ->
  validate_descriptor m directory item descriptor ps = Ok [] ->
  ps = [] /\ good_index m item directory (VDict index).
Proof.
  intros Hi. unfold validate_descriptor.
  set (ps0 := if py_eq _ _ then ps else _). destruct (validate_blob m directory _ _ ps0) as [b ps1] eqn:Eb.
  intros H.
  assert (ps1 = [] /\ forall p, b = Some p -> exists data, json_at m p data /\ good_manifest m item directory data)
    as [-> Hb].
  { destruct b as [p|]; [|by injection H as ->]. apply rbind_Ok in H as ([data ps2] & Hr & H).
    assert (ps2 = [] /\ good_manifest m item directory data) as [-> Hg].
    { destruct data; try (injection H as ->; split; [done|intros ? [=]]).
      destruct (dget_none "config" d) eqn:Ec; try (injection H as H; by apply app_cons_ne in H).
      by apply validate_manifest_nil in H. }
    apply read_json_at in Hr as [Hr Hj]. split; [done|]. intros ? [= <-]. by exists data. }
  apply validate_blob_nil in Eb as (E0 & s & hex & data & Hd & -> & -> & Hm & Hh).
  unfold ps0 in E0. destruct (py_eq _ _) eqn:Ep; [|by apply app_cons_ne in E0]. split; [done|].
  apply py_eq_str in Ep. rewrite Ep in Hd. injection Hd as Hd.
  destruct (Hb _ eq_refl) as (doc & Hj & Hg). intros ? [= <-]. exists descriptor, hex, doc.
  do 3 (split; [done|]). split; [by exists hex, data; rewrite Hd|]. done.
Qed.

Lemma validate_oci_layout_nil m item directory :
  validate_oci_layout m item directory = Ok [] -> good_layout m item directory.
Proof.
  unfold validate_oci_layout. intros H. apply rbind_Ok in H as ([layout ps0] & Hlayout & H).
  apply rbind_Ok in H as ([index ps2] & Hindex & H).
  assert (ps2 = [] /\ good_index m item directory index) as [-> Hg].
  { destruct index; try (injection H as ->; split; [done|intros ? [=]]).
    destruct (dget_none "manifests" d) as [| | | | |[|[| | | | | |x] [|y l]]|] eqn:Em;
      try (injection H as H; by apply app_cons_ne in H).
    by apply (validate_descriptor_nil m directory item d) in H. }
  apply read_json_at in Hindex as [E Hindex].
  destruct (py_eq layout _) eqn:Ep; [subst ps0|by apply app_cons_ne in E].
  apply read_json_at in Hlayout as [_ Hlayout]. split; [by exists layout|by exists index].
Qed.

(** ** Accepted caches *)

Definition good_file (m : fs) (directory : path) (i : artifact_item) : Prop :=
  exists data, m !! slash directory (ai_path i) = Some (File data) /\ sha256_of data = ai_sha256 i.

Lemma check_file_nil kind m directory ps i :
  check_file kind m directory ps i = [] -> ps = [] /\ good_file m directory i.
Proof.
  unfold check_file, good_file. destruct (m !! _) as [[data|]|]; try (intros E; by apply app_cons_ne in E).
  destruct (String.eqb _ _) eqn:E; [|intros E2; by apply app_cons_ne in E2].
  bool_hyps. intros ->. split; [done|]. by exists data.
Qed.

Lemma validate_images_nil m directory images ps :
  foldM (validate_images m directory) ps images = Ok [] ->
  ps = [] /\ Forall (fun i => good_layout m i (slash directory (im_path i))) images.
Proof.
  revert ps. induction images as [|i images IH]; intros ps H; cbn [foldM] in H; [injection H as ->; by constructor|].
  apply rbind_Ok in H as (ps1 & H1 & H). apply IH in H as [-> H]. unfold validate_images in H1.
  apply rbind_Ok in H1 as (more & Hm & H1). injection H1 as H1. apply app_eq_nil in H1 as [-> ->].
  split; [done|]. constructor; [by apply validate_oci_layout_nil|done].
Qed.

Lemma missing_metadata_nil m directory n :
  missing_metadata m directory = [] -> n ∈ metadata_names -> is_file m (directory ++ [n])%list = true.
Proof.
  unfold missing_metadata. intros H Hn. apply fmap_nil_inv in H.
  destruct (is_file m (directory ++ [n])%list) eqn:E; [done|]. exfalso.
  assert (In n (List.filter (fun n => negb (is_file m (directory ++ [n])%list)) metadata_names)) as Hin.
  { apply List.filter_In. split; [by apply list_elem_of_In|by rewrite E]. }
  by rewrite H in Hin.
Qed.

Definition metadata_file (lock : pydict) (root : path) (name : string) : path :=
  (cache_dir lock root ++ [name])%list.

(** A cache that serves a lock. *)
Record good_cache (lock : pydict) (root : path) (m : fs) (artifacts : list artifact_item)
    (images : list image_item) : Prop := {
  gc_inventory : inventory lock = Ok artifacts;
  gc_images : oci_inventory lock = Ok images;
  gc_lock : exists v, json_at m (metadata_file lock root "lock.json") v /\ py_eq v (VDict lock) = true;
  gc_files : Forall (good_file m (cache_dir lock root)) artifacts;
  gc_layouts : Forall (fun i => good_layout m i (slash (cache_dir lock root) (im_path i))) images;
  gc_checksums : exists text, read_text m (metadata_file lock root "checksums.txt") = Ok text /\
                              splitlines text = (checksum_line <$> artifacts);
  gc_complete : exists c, json_at m (metadata_file lock root "complete.json") (VDict c) /\
                          check_complete lock artifacts images (VDict c) = true
}.

(** C30: A cache that [validate_cache] accepts holds the active lock, every artifact
    of it with its locked SHA-256 digest, the lock's checksums and a completion
    record for it.  For every image it holds a layout with an index, and, where
    the index, the manifest and the configuration are JSON mappings, a single
    manifest of the locked digest, with the configuration and layers it names
    present under their digests, for the locked platform.  (A document that is
    JSON but no mapping is accepted without a further look,
    [validate_oci_layout_gap].) *)
Theorem validate_cache_sound lock root m :
  validate_cache lock root m = Ok [] ->
  exists artifacts images, good_cache lock root m artifacts images.
Proof.
  unfold validate_cache. destruct (negb _); [done|]. destruct (missing_metadata _ _); [|done]. intros H.
  apply rbind_Ok in H as ([v1 ps1] & H1 & H). apply rbind_Ok in H as (artifacts & Ha & H).
  apply rbind_Ok in H as ([v2 ps2] & H2 & H). apply rbind_Ok in H as (images & Hi & H).
  apply rbind_Ok in H as ([v3 ps3] & H3 & H). apply rbind_Ok in H as (text & Ht & H).
  apply rbind_Ok in H as (ps5 & H5 & H). apply rbind_Ok in H as ([v6 ps6] & H6 & H).
  injection H as H. apply note_if_nil in H as [Hc ->]. apply read_json_at in H6 as [-> H6].
  apply validate_images_nil in H5 as [Hf Hl].
  apply (fold_left_nil _ _ _ (check_file_nil _ _ _)) in Hf as [Hf Hfiles].
  apply note_if_nil in Hf as [Hsum Hf]. apply note_if_nil in Hf as [_ ->].
  apply read_json_at in H3 as [H3 _].
  apply note_if_nil in H3 as [_ ->]. apply read_json_at in H2 as [H2 _].
  apply note_if_nil in H2 as [Hlock ->]. apply read_json_at in H1 as [_ H1]. bool_hyps.
  exists artifacts, images. constructor; try done; eauto.
  - exists text. split; [done|]. by apply bool_decide_eq_true_1 in Hsum.
  - destruct v6 as [| | | | | |c]; try done. eauto.
Qed.

(** The check of an image accepts a layout without any image: when
    [index.json] or the manifest is JSON but no mapping, the function returns
    without a problem. *)
Theorem validate_oci_layout_gap item :
  let marker := File (json_plain false (VDict [("imageLayoutVersion", VStr "1.0.0")])) in
  validate_oci_layout {[ ["d"; "oci-layout"] := marker; ["d"; "index.json"] := File "[]" ]} item ["d"] = Ok [] /\
  validate_oci_layout {[ ["d"; "oci-layout"] := marker ]} item ["d"] <> Ok [].
Proof. split; [by vm_compute|]. vm_compute. done. Qed.

(** ** Downloads *)

Section Downloads.
Context {Mach : Machine}.

Lemma temporary_ne (p t : path) : temporary_of p = Ok t -> p <> [] /\ t <> p.
Proof.
  unfold temporary_of, with_name. destruct (list.last p) as [n|] eqn:E; [|done]. intros [= <-].
  apply last_Some in E as [l ->]. split; [by destruct l|]. unfold parent.
  rewrite length_app, Nat.add_sub, take_app_length. intros H. apply app_inj_1 in H as [_ H]; [|done].
  injection H as H. apply (f_equal String.length) in H. change (S (String.length (n +:+ ".tmp")) = String.length n) in H.
  rewrite length_str_app in H. lia.
Qed.

(** Writing the chunks: the file holds what was hashed. *)
Lemma wp_receive I temp broken chunks : forall acc Q d,
  (forall m x, I m -> I (<[temp := File x]> m)) -> I (now d) -> now d !! temp = Some (File acc) ->
  (forall e d', I (now d') -> Q (Raise e) d') ->
  (forall s d', I (now d') -> now d' !! temp = Some (File s) -> Q (Ok s) d') ->
  wp I (receive temp acc chunks broken) Q d.
Proof.
  induction chunks as [|c chunks IH]; intros acc Q d HI Hd Ht HR HQ; cbn [receive].
  - destruct broken; [apply wp_lift|apply wp_ret]; auto.
  - destruct (is_empty c); [apply wp_ret; auto|]. apply wp_bind.
    apply wp_append; [auto..|]; cbn [now change]; intros.
    + apply HR. cbn [now change]. auto.
    + apply IH; cbn [now change]; auto. unfold contents. by rewrite Ht, lookup_insert_eq.
Qed.

Lemma wp_fetch I url temp Q d :
  (forall m x, I m -> I (<[temp := File x]> m)) -> I (now d) ->
  (forall e d', I (now d') -> Q (Raise e) d') ->
  (forall s d', I (now d') -> now d' !! temp = Some (File s) -> Q (Ok s) d') ->
  wp I (fetch url temp) Q d.
Proof.
  intros HI Hd HR HQ. unfold fetch. apply wp_bind. apply wp_stay.
  destruct (urlopen d url) as [[chunks broken]|e]; [|auto]. apply wp_bind.
  apply wp_create; [auto..|]. intros _. apply wp_receive; cbn [now change]; auto.
  by rewrite lookup_insert_eq.
Qed.

(** What a download leaves away from its two files. *)
Definition kept (directory : path) (item : artifact_item) (m m' : fs) : Prop :=
  let destination := slash directory (ai_path item) in
  forall q, q <> destination -> temporary_of destination <> Ok q -> grown (parent destination) m m' q.

Definition untouched (directory : path) (item : artifact_item) (m m' : fs) : Prop :=
  kept directory item m m' /\ m' !! slash directory (ai_path item) = m !! slash directory (ai_path item).

Lemma untouched_temp directory item m m' temp o :
  temporary_of (slash directory (ai_path item)) = Ok temp ->
  untouched directory item m m' -> untouched directory item m (partial_alter (fun _ => o) temp m').
Proof.
  intros Ht [Hk Hd]. split.
  - intros q Hq Hq'. unfold grown. rewrite lookup_partial_alter_ne by congruence. by apply Hk.
  - rewrite lookup_partial_alter_ne; [done|]. by apply temporary_ne in Ht as [_ ?].
Qed.

(** Dropping the temporary file and raising. *)
Lemma wp_give_up {A : Type} (U I : fs -> Prop) temp msg (Q : result A -> disk -> Prop) d :
  (forall m, U m -> I m) -> (forall m, U m -> U (delete temp m)) -> U (now d) ->
  (forall e d', U (now d') -> Q (Raise e) d') ->
  wp I (unlink temp >>> throw RuntimeError msg) Q d.
Proof.
  intros HI HU Hd HQ. apply wp_bind. apply wp_unlink; [auto|..|auto|].
  - intros _. apply wp_throw. auto.
  - apply wp_throw. apply HQ. cbn [now change]. auto.
Qed.

Definition download_inv (item : artifact_item) (directory : path) (m0 m : fs) : Prop :=
  kept directory item m0 m /\
  (m !! slash directory (ai_path item) = m0 !! slash directory (ai_path item) \/ good_file m directory item).
(** Nothing was fetched, or the temporary file is gone. *)
Definition tidy (item : artifact_item) (directory : path) (m0 m : fs) : Prop :=
  m = m0 \/ forall temp, temporary_of (slash directory (ai_path item)) = Ok temp -> m !! temp = None.
Definition download_post (item : artifact_item) (directory : path) (m0 : fs) (r : result unit) (d' : disk) : Prop :=
  download_inv item directory m0 (now d') /\ (r = Ok tt -> good_file (now d') directory item /\ tidy item directory m0 (now d')).

Lemma untouched_inv item directory m0 m : untouched directory item m0 m -> download_inv item directory m0 m.
Proof. intros [? ?]. split; auto. Qed.

Lemma untouched_post item directory m0 e d' :
  untouched directory item m0 (now d') -> download_post item directory m0 (Raise e) d'.
Proof. intros H. split; [by apply untouched_inv|done]. Qed.

Lemma untouched_mkdirs item directory m0 m :
  (forall q, grown (parent (slash directory (ai_path item))) m0 m q) -> untouched directory item m0 m.
Proof.
  intros Hm. split; [intros q _ _; apply Hm|].
  destruct (Hm (slash directory (ai_path item))) as [Hq|(_ & _ & Hp & Hne)]; [done|].
  by destruct (not_prefix_parent _ Hne).
Qed.

(** From the temporary file on. *)
Lemma wp_publish item directory temp m0 d :
  temporary_of (slash directory (ai_path item)) = Ok temp -> untouched directory item m0 (now d) ->
  wp (download_inv item directory m0)
    (let! received :=
       try_except (fetch (ai_url item) temp) [OSError]
         (fun e => unlink temp >>>
                   throw RuntimeError ("failed to download " +:+ ai_id item +:+ ": " +:+ exn_msg e)) in
     if String.eqb (sha256_of received) (ai_sha256 item) then replace temp (slash directory (ai_path item))
     else unlink temp >>> throw RuntimeError ("checksum mismatch while downloading " +:+ ai_id item))
    (download_post item directory m0) d.
Proof.
  intros Et H0.
  pose proof (untouched_inv item directory m0) as HI. pose proof (untouched_post item directory m0) as HR.
  assert (forall m, untouched directory item m0 m -> untouched directory item m0 (delete temp m)) as Hdel.
  { intros m. by apply untouched_temp. }
  apply wp_bind, wp_try_except. apply wp_mono with
    (Q := fun r d' => untouched directory item m0 (now d') /\
            forall s, r = Ok s -> now d' !! temp = Some (File s)).
  { eapply wp_weaken; [exact HI|]. apply wp_fetch; [intros m x; by apply untouched_temp|done|by split|].
    intros s d' ? ?. split; [done|]. by intros ? [= <-]. }
  intros [s|e] d2 [H2 Hs].
  - destruct (String.eqb (sha256_of s) (ai_sha256 item)) eqn:Eh;
      [|eapply wp_give_up; [exact HI|exact Hdel|exact H2|exact HR]].
    apply String.eqb_eq in Eh.
    assert (good_file (<[slash directory (ai_path item) := File s]> (delete temp (now d2))) directory item) as Hgood.
    { exists s. by rewrite lookup_insert_eq. }
    assert (download_inv item directory m0 (<[slash directory (ai_path item) := File s]> (delete temp (now d2)))) as HI2.
    { split; [|by right]. intros q Hq Hq'. unfold grown. rewrite lookup_insert_ne by congruence.
      by apply (Hdel _ H2). }
    eapply wp_replace_file; [by apply Hs|auto|exact HI2|]. split; [done|]. intros _. split; [done|]. right. intros t Et'.
    assert (t = temp) as -> by congruence. cbn [now change]. apply temporary_ne in Et as [_ Hne].
    by rewrite lookup_insert_ne, lookup_delete_eq.
  - destruct (caught_by [OSError] e); [|by apply HR].
    eapply wp_give_up; [exact HI|exact Hdel|exact H2|]. intros e' d' H'. by apply HR.
Qed.

Lemma wp_download item directory d :
  wp (download_inv item directory (now d)) (download item directory)
    (download_post item directory (now d)) d.
Proof.
  unfold download. apply wp_files. set (dest := slash directory (ai_path item)).
  destruct (is_file (now d) dest && _) eqn:E.
  { apply wp_ret. split; [apply untouched_inv; split; [intros q _ _; by left|reflexivity]|]. intros _. split; [|by left].
    apply andb_true_iff in E as [E1 E2]. apply String.eqb_eq in E2. unfold good_file. fold dest.
    unfold is_file in E1. unfold contents in E2. destruct (now d !! dest) as [[s|]|].
    all: try discriminate E1. exists s. by split. }
  clear E. apply wp_bind. apply wp_mkdirs; [intros m Hm; by apply untouched_inv, untouched_mkdirs|].
  intros r d1 Hg. apply untouched_mkdirs in Hg. destruct r as [u|e]; [|by apply untouched_post].
  apply wp_bind, wp_lift. destruct (temporary_of dest) as [temp|e] eqn:Et; [|by apply untouched_post].
  by apply wp_publish.
Qed.

End Downloads.

(** C29: whatever the network answers and whichever call fails, in every state a
    download goes through the destination holds what it held before or a file
    with the locked digest, and away from the destination and its temporary file
    it only adds missing parent directories; it returns only with such a file in
    place, and then it changed nothing or has left no temporary file. *)
Theorem download_sound {Mach : Machine} item directory d :
  let '(r, d') := download item directory d in
  exists new, states d' = (new ++ states d)%list /\
    Forall (download_inv item directory (now d)) new /\
    (r = Ok tt -> good_file (now d') directory item /\ tidy item directory (now d) (now d')).
Proof.
  destruct (download item directory d) as [r d'] eqn:E.
  destruct (wp_run _ _ _ _ _ _ (wp_download item directory d) E) as [(new & H1 & H2) [_ H3]].
  by exists new.
Qed.

(** ** Interrupted populations *)

(** The paths and identifiers of an inventory. *)
Lemma safe_cache_path_Ok v location p :
  safe_cache_path v location = Ok p -> v = VStr p /\ p <> "" /\ path_absolute p = false /\ ".." ∉ path_parts p.
Proof.
  unfold safe_cache_path. destruct v as [| | | |s| |]; try done. intros H. inv_ok. bool_hyps.
  split; [done|]. split; [by intros ->|]. split; [done|]. by apply mem_string_false.
Qed.

Lemma artifact_entry_Ok group entry i :
  artifact_entry group entry = Ok i -> path_absolute (ai_path i) = false /\ ".." ∉ path_parts (ai_path i).
Proof.
  unfold artifact_entry. destruct (snd entry) as [| | | | | |a]; try done. intros H.
  apply rbind_Ok in H as (p & Hp & H). apply safe_cache_path_Ok in Hp as (_ & _ & Hp).
  destruct (dget_none "id" a) as [| | | |id| |]; try done.
  destruct (dget_none "sha256" a) as [| | | |h| |]; try (by inv_ok).
  destruct (dget_none "url" a) as [| | | |u| |]; by inv_ok.
Qed.

Lemma inventory_Ok lock group items :
  artifact_inventory lock group = Ok items ->
  Forall (fun i => path_absolute (ai_path i) = false /\ ".." ∉ path_parts (ai_path i)) items.
Proof.
  unfold artifact_inventory. destruct (dget_or group _ lock) as [| | | | |l|]; try done.
  rewrite mapM_Ok. induction 1 as [|x y l1 l2 Hx _ IH]; constructor; [by apply artifact_entry_Ok in Hx|done].
Qed.

Lemma oci_inventory_Ok lock items :
  oci_inventory lock = Ok items ->
  Forall (fun i => path_absolute (im_path i) = false /\ im_id i <> "") items.
Proof.
  unfold oci_inventory. destruct (dget_or _ _ lock) as [| | | | |l|]; try done.
  rewrite mapM_Ok. induction 1 as [|[n v] i l1 l2 Hx _ IH]; constructor; [|done].
  unfold image_entry in Hx. cbn [snd] in Hx. destruct v as [| | | | | |a]; try done.
  apply rbind_Ok in Hx as (p & Hp & H). apply safe_cache_path_Ok in Hp as (_ & _ & Hp & _).
  destruct (dget_none "id" a) as [| | | |id| |]; try done.
  apply rbind_Ok in H as ([] & Hid & H). apply raise_if_Ok in Hid.
  destruct (dget_none "reference" a) as [| | | |r| |]; try done.
  destruct (rpartition _ r) as [[repo h]|]; [|done]. apply rbind_Ok in H as ([] & _ & H).
  destruct (dget_none "platform" a) as [| | | |pl| |]; try done. inv_ok. cbn. split; [done|].
  by intros ->.
Qed.

(** The lock keeps [complete.json] free and its image identifiers are names. *)
Definition clear_artifact (i : artifact_item) : Prop := path_parts (ai_path i) <> ["complete.json"].
Definition clear_image (i : image_item) : Prop :=
  path_parts (im_path i) <> [] /\ path_parts (im_path i) <> ["complete.json"] /\
  contains "/" (im_id i) = false.
Definition clear_lock (lock : pydict) : Prop :=
  (forall items, inventory lock = Ok items -> Forall clear_artifact items) /\
  (forall items, oci_inventory lock = Ok items -> Forall clear_image items).

Lemma slash_relative p s : path_absolute s = false -> slash p s = (p ++ path_parts s)%list.
Proof. unfold slash. by intros ->. Qed.

Lemma not_absolute_name s t : s <> "" -> contains "/" s = false -> path_absolute (s +:+ t) = false.
Proof.
  destruct s as [|c s]; [done|]. intros _ H. unfold path_absolute, startswith. cbn [String.append].
  apply not_true_is_false. intros Hp. apply not_true_iff_false in H. apply H. apply contains_prefix.
  cbn [String.prefix] in *. destruct (ascii_dec _ c); [by destruct s|done].
Qed.

Section Interrupted.
Context {Mach : Machine} (lock : pydict) (root : path).
#[local] Notation directory := (cache_dir lock root).
#[local] Notation cj := (metadata_file lock root "complete.json").

Definition unfinished (m : fs) : Prop := is_file m cj = false.

Lemma unfinished_invalid m : unfinished m -> validate_cache lock root m <> Ok [].
Proof.
  intros Hu. unfold validate_cache. destruct (negb _); [done|].
  destruct (missing_metadata m directory) eqn:E; [|done].
  apply (missing_metadata_nil _ _ "complete.json") in E; [unfold unfinished, metadata_file in Hu; congruence|].
  apply list_elem_of_In. simpl. tauto.
Qed.

Lemma unfinished_tolerant : tolerant unfinished (fun q => q <> cj).
Proof.
  constructor; unfold unfinished, is_file; intros m q.
  - destruct (decide (q = cj)) as [->|]; [by rewrite lookup_delete_eq|by rewrite lookup_delete_ne].
  - intros H Hn. destruct (decide (q = cj)) as [->|]; [by rewrite lookup_insert_eq|by rewrite lookup_insert_ne].
  - intros x Hq H. by rewrite lookup_insert_ne.
Qed.

Lemma unfinished_eq m m' : m' !! cj = m !! cj -> unfinished m -> unfinished m'.
Proof. unfold unfinished, is_file. by intros ->. Qed.

Lemma unfinished_grown p m m' : grown p m m' cj -> unfinished m -> unfinished m'.
Proof.
  intros [E|(_ & E & _)] H; [by eapply unfinished_eq|]. unfold unfinished, is_file. by rewrite E.
Qed.

Lemma temporary_not_cj p : temporary_of p <> Ok cj.
Proof.
  unfold temporary_of, with_name. destruct (list.last p) as [n|]; [|done]. intros [= E].
  unfold metadata_file in E. apply app_inj_2 in E as [_ E]; [|done]. done.
Qed.

Lemma under_cj parts : (directory ++ parts)%list `prefix_of` cj -> parts = [] \/ parts = ["complete.json"].
Proof.
  intros [k Hk]. unfold metadata_file in Hk. rewrite <- app_assoc in Hk. apply app_inv_head in Hk.
  destruct parts as [|x [|y l]]; [by left| |done]. right. by injection Hk as <-.
Qed.

Lemma keeps_download i :
  path_absolute (ai_path i) = false -> clear_artifact i -> keeps unfinished (download i directory).
Proof.
  intros Ha Hc d Hd.
  assert (cj <> slash directory (ai_path i)) as Hne.
  { rewrite slash_relative by done. intros E. destruct (under_cj (path_parts (ai_path i))) as [E2|E2].
    - by rewrite E.
    - unfold metadata_file in E. rewrite E2 in E. apply (f_equal length) in E. rewrite !length_app in E.
      simpl in E. lia.
    - done. }
  assert (forall m, download_inv i directory (now d) m -> unfinished m) as HU.
  { intros m [Hk _]. eapply unfinished_grown; [|exact Hd]. apply Hk; [done|apply temporary_not_cj]. }
  eapply wp_weaken; [exact HU|]. eapply wp_mono; [apply wp_download|]. intros r d' [H _]. auto.
Qed.

Lemma keeps_run argv stage : ~ stage `prefix_of` cj -> keeps unfinished (run argv stage).
Proof.
  intros Hs. apply keeps_bind.
  - intros d Hd. unfold run_skopeo, wp. pose proof (skopeo_local d argv stage cj Hs) as Hl.
    destruct (skopeo d argv stage) as [o m]. cbn [fst snd] in *.
    assert (unfinished m) as Hm by by eapply unfinished_eq.
    split; [|done]. exists [m]. by repeat constructor.
  - intros []; [apply keeps_ret|apply keeps_throw..].
Qed.

Lemma keeps_stage_and_publish i stage :
  path_absolute (im_path i) = false -> clear_image i -> ~ stage `prefix_of` cj ->
  keeps unfinished (stage_and_publish i stage (slash directory (im_path i))).
Proof.
  intros Ha (Hc1 & Hc2 & _) Hs. pose proof unfinished_tolerant as HT. set (dest := slash _ _).
  assert (~ dest `prefix_of` cj) as Hd.
  { unfold dest. rewrite slash_relative by done. intros H. by apply under_cj in H as [?|?]. }
  apply keeps_bind; [by apply keeps_run|]. intros _. apply keeps_files. intros m _.
  apply keeps_bind; [apply keeps_lift|]. intros [|]; [|apply keeps_throw].
  apply keeps_bind; [destruct (present m dest); [by eapply keeps_rmtree|apply keeps_ret]|]. intros _.
  apply keeps_bind; [by eapply keeps_mkdirs|]. intros _.
  eapply keeps_replace; [exact HT|by intros E; rewrite E in Hd|].
  intros m1. apply unfinished_eq. by apply lookup_move.
Qed.

Lemma keeps_populate_oci_image i :
  path_absolute (im_path i) = false -> im_id i <> "" -> clear_image i ->
  keeps unfinished (populate_oci_image i directory).
Proof.
  intros Ha Hid Hc. pose proof unfinished_tolerant as HT. unfold populate_oci_image. apply keeps_files. intros m _.
  apply keeps_bind; [destruct (is_dir m _); [apply keeps_lift|apply keeps_ret]|].
  intros [|]; [apply keeps_ret|]. apply keeps_bind; [by eapply keeps_mkdirs|]. intros _ d Hd.
  apply wp_bind. eapply wp_mkdtemp; [exact HT|done|done|]. intros suffix d' H'. split; [|done].
  apply keeps_try_finally; [|by eapply keeps_rmtree_ignore_errors|done].
  apply keeps_stage_and_publish; [done|done|]. rewrite str_app_assoc, slash_relative.
  - rewrite <- !app_assoc. intros H. apply under_cj in H as [?|?]; done.
  - apply not_absolute_name; [done|apply Hc].
Qed.

(** Every state satisfies the invariant, but for the last one of a run that
    returns. *)
Definition finishes {A : Type} (I : fs -> Prop) (f : F A) : Prop :=
  forall d, I (now d) ->
  exists new, states (snd (f d)) = (new ++ states d)%list /\
              Forall I (if is_ok (fst (f d)) then tail new else new).

(** A first part that establishes the invariant, and the rest. *)
Lemma finishes_after {A B : Type} (I : fs -> Prop) (m : F A) (k : A -> F B) d :
  wp I m (fun r d' => is_ok r = true -> I (now d')) d -> (forall a, finishes I (k a)) ->
  exists new, states (snd (mbindM m k d)) = (new ++ states d)%list /\
              Forall I (if is_ok (fst (mbindM m k d)) then tail new else new).
Proof.
  intros [(n1 & E1 & H1) Hp] Hk. unfold mbindM.
  destruct (m d) as [[a|e] d1]; cbn [fst snd is_ok] in *; [|by exists n1].
  destruct (Hk a d1 (Hp eq_refl)) as (n2 & E2 & H2). exists (n2 ++ n1)%list. rewrite E2, E1, app_assoc.
  split; [done|]. destruct (is_ok _); [|by apply Forall_app].
  destruct n2 as [|x n2]; simpl in *; [by destruct H1; simpl|by apply Forall_app].
Qed.

Lemma finishes_bind {A B : Type} I (m : F A) (k : A -> F B) :
  keeps I m -> (forall a, finishes I (k a)) -> finishes I (mbindM m k).
Proof. intros Hm Hk d Hd. apply finishes_after; [|done]. eapply wp_mono; [by apply Hm|done]. Qed.

Lemma finishes_lift {A B : Type} I (r : result A) (k : A -> F B) :
  (forall a, r = Ok a -> finishes I (k a)) -> finishes I (mbindM (lift r) k).
Proof.
  intros Hk. destruct r as [a|e]; [by apply Hk|]. intros d Hd. by exists [].
Qed.

Lemma finishes_assoc {A B C : Type} I (a : F A) (b : A -> F B) (c : B -> F C) :
  finishes I (mbindM a (fun x => mbindM (b x) c)) -> finishes I (mbindM (mbindM a b) c).
Proof.
  intros H d Hd. specialize (H d Hd). unfold mbindM in *. by destruct (a d) as [[x|e] d1].
Qed.

Lemma finishes_keeps {A : Type} I (f : F A) : keeps I f -> finishes I f.
Proof.
  intros Hf d Hd. destruct (Hf d Hd) as [(new & E & H) _]. exists new. split; [done|].
  destruct (is_ok _); [|done]. by destruct H.
Qed.

Lemma finishes_call {B : Type} I f (x : B) : finishes I (call f >>> ret x).
Proof.
  intros d Hd. unfold mbindM, call. destruct (strike d) as [[msg n]|]; cbn [fst snd is_ok ret].
  - by exists [].
  - by exists [f (now d)].
Qed.

Lemma finishes_replace {B : Type} I src dst (x : B) : finishes I (replace src dst >>> ret x).
Proof.
  apply finishes_assoc. intros d Hd. unfold mbindM at 1 2, files.
  assert (forall r : result unit, finishes I (lift r >>> ret x)) as HL.
  { intros r. apply finishes_keeps. apply keeps_bind; [apply keeps_lift|]. intros _. apply keeps_ret. }
  assert (forall m, finishes I ((match m !! src with
    | None => lift (not_found src)
    | Some (File s) =>
        if is_dir m dst then lift (os_error "[Errno 21] Is a directory" dst)
        else if negb (is_dir m (parent dst)) then lift (not_found dst)
        else call (fun m => <[dst := File s]> (delete src m))
    | Some Dir =>
        if is_file m dst then lift (os_error "[Errno 20] Not a directory" dst)
        else if bool_decide (src `prefix_of` dst) then lift (os_error "[Errno 22] Invalid argument" dst)
        else if existsb (fun k => negb (bool_decide (k = dst))) (tree dst m)
        then lift (os_error "[Errno 39] Directory not empty" dst)
        else if negb (is_dir m (parent dst)) then lift (not_found dst)
        else call (move src dst)
    end) >>> ret x)) as HM; [|by apply (HM (now d) d)].
  intros m. destruct (m !! src) as [[s|]|]; repeat case_match; try apply HL; apply finishes_call.
Qed.

Lemma at_not_cj n : n <> "complete.json" -> (directory ++ [n])%list <> cj.
Proof. intros Hn E. unfold metadata_file in E. apply app_inv_head in E. congruence. Qed.

Lemma move_unfinished a b m :
  a <> "complete.json" -> b <> "complete.json" -> unfinished m ->
  unfinished (move (directory ++ [a])%list (directory ++ [b])%list m).
Proof.
  intros Ha Hb. apply unfinished_eq. apply lookup_move; intros H; apply under_cj in H as [?|?]; congruence.
Qed.

Lemma keeps_put a b : a <> "complete.json" -> b <> "complete.json" ->
  keeps unfinished (replace (directory ++ [a])%list (directory ++ [b])%list).
Proof.
  intros Ha Hb. eapply keeps_replace; [apply unfinished_tolerant|by apply at_not_cj|].
  intros m. by apply move_unfinished.
Qed.

Lemma temporary_at n : temporary_of (directory ++ [n])%list = Ok (directory ++ ["." +:+ n +:+ ".tmp"])%list.
Proof.
  unfold temporary_of, with_name, parent. by rewrite last_snoc, length_app, Nat.add_sub, take_app_length.
Qed.

Lemma write_json_at n v :
  let temp := (directory ++ ["." +:+ n +:+ ".tmp"])%list in
  write_json (directory ++ [n])%list v =
  (write_text temp (json_indent false v +:+ newline) >>> replace temp (directory ++ [n])%list).
Proof. unfold write_json. by rewrite temporary_at. Qed.

Lemma keeps_write_json n v : n <> "complete.json" -> keeps unfinished (write_json (directory ++ [n])%list v).
Proof.
  intros Hn. rewrite write_json_at. apply keeps_bind; [|by intros; apply keeps_put].
  eapply keeps_write_text; [apply unfinished_tolerant|by apply at_not_cj].
Qed.

Lemma finishes_write_metadata : finishes unfinished (write_metadata lock root).
Proof.
  pose proof unfinished_tolerant as HT. unfold write_metadata.
  apply finishes_bind; [by eapply keeps_mkdirs|]. intros _.
  apply finishes_bind; [apply keeps_lift|]. intros artifacts.
  apply finishes_bind; [apply keeps_lift|]. intros images.
  apply finishes_bind; [by eapply keeps_write_bytes; [exact HT|apply at_not_cj]|]. intros _.
  apply finishes_bind; [by apply keeps_put|]. intros _.
  apply finishes_bind; [by apply keeps_write_json|]. intros _.
  apply finishes_bind; [by apply keeps_write_json|]. intros _.
  apply finishes_bind; [by eapply keeps_write_text; [exact HT|apply at_not_cj]|]. intros _.
  apply finishes_bind; [by apply keeps_put|]. intros _.
  rewrite write_json_at. apply finishes_assoc. apply finishes_bind; [|intros _; apply finishes_replace].
  by eapply keeps_write_text; [exact HT|apply at_not_cj].
Qed.

(** Everything after [complete.json] is gone. *)
Lemma finishes_population :
  clear_lock lock ->
  finishes unfinished
    (let! artifacts := lift (inventory lock) in
     forM artifacts (fun item => download item directory) >>>
     let! images := lift (oci_inventory lock) in
     forM images (fun item => populate_oci_image item directory) >>>
     write_metadata lock root).
Proof.
  intros [Hca Hci]. apply finishes_lift. intros artifacts Ha.
  apply finishes_bind; [apply keeps_forM; intros i Hi|intros _].
  { pose proof (proj1 (list.Forall_forall _ _) (inventory_Ok _ _ _ Ha) i Hi) as [? _].
    pose proof (proj1 (list.Forall_forall _ _) (Hca _ Ha) i Hi). by apply keeps_download. }
  apply finishes_lift. intros images Hi. apply finishes_bind; [|intros _; apply finishes_write_metadata].
  apply keeps_forM. intros i Hin.
  pose proof (proj1 (list.Forall_forall _ _) (oci_inventory_Ok _ _ Hi) i Hin) as [? ?].
  pose proof (proj1 (list.Forall_forall _ _) (Hci _ Hi) i Hin). by apply keeps_populate_oci_image.
Qed.

End Interrupted.

(** C3: A population that is killed or fails leaves no cache that looks complete.
    The states that a population goes through fall in two parts.  Until the old
    [complete.json] is removed nothing is changed but missing directories added
    (so an old cache that was accepted still stands as it was); from its removal
    on [validate_cache] accepts none of the states, except the last one of a run
    that returns.  This is for a lock whose artifacts and images are not placed
    at [complete.json] itself and whose image identifiers are names
    ([clear_lock]); [load_lock] does not enforce that. *)
Theorem populate_interrupted {Mach : Machine} lock root d :
  clear_lock lock ->
  let '(r, d') := populate lock root d in
  exists during before,
    states d' = (during ++ before ++ states d)%list /\
    Forall (fun m => forall q, grown (cache_dir lock root) (now d) m q) before /\
    Forall (fun m => validate_cache lock root m <> Ok []) (if is_ok r then tail during else during).
Proof.
  intros Hc. destruct (populate lock root d) as [r d'] eqn:E. unfold populate in E.
  set (rest := mbindM (lift (inventory lock)) _) in E.
  pose proof (finishes_population lock root Hc) as Hrest. fold rest in Hrest.
  destruct (wp_mkdirs (fun m => forall q, grown (cache_dir lock root) (now d) m q) (cache_dir lock root)
    (fun _ _ => True) d) as [(before & E1 & H1) _]; [done|done|].
  unfold mbindM at 1 in E. destruct (mkdirs _ d) as [[u|e] d1]; cbn [snd] in E1.
  2: { injection E as <- <-. exists [], before. cbn. rewrite E1. by repeat split. }
  destruct (finishes_after (unfinished lock root) (unlink (metadata_file lock root "complete.json"))
    (fun _ => rest) d1) as (during & E2 & H2); [|done|].
  { apply wp_unlink; [done|..]; cbn [now change]; unfold unfinished, is_file; rewrite ?lookup_delete_eq; try done.
    by intros ->. }
  unfold metadata_file in E2, H2. rewrite E in E2, H2. cbn [fst snd] in E2, H2.
  exists during, before. rewrite E2, E1. do 2 (split; [done|]).
  eapply Forall_impl; [exact H2|]. intros m. apply unfinished_invalid.
Qed.

(** ** Pruning *)

Lemma children_spec p m k :
  k ∈ children p m <-> (exists v, m !! k = Some v) /\ exists x, k = (p ++ [x])%list.
Proof.
  unfold children. rewrite list_elem_of_In, List.filter_In, <- list_elem_of_In, andb_true_iff, negb_true_iff.
  rewrite bool_decide_eq_true, bool_decide_eq_false.
  assert (k ∈ (fst <$> map_to_list m) <-> exists v, m !! k = Some v) as ->.
  { rewrite list_elem_of_fmap. setoid_rewrite <- elem_of_map_to_list. split.
    - intros ([k' v] & -> & ?). by exists v.
    - intros [v ?]. by exists (k, v). }
  split; intros [? Hk]; (split; [done|]).
  - destruct Hk as [<- Hne]. destruct k as [|x k] using rev_ind; [done|]. exists x. unfold parent.
    by rewrite length_app, Nat.add_sub, take_app_length.
  - destruct Hk as [x ->]. unfold parent. rewrite length_app, Nat.add_sub, take_app_length. split; [done|].
    intros E. apply (f_equal length) in E. rewrite length_app in E. simpl in E. lia.
Qed.

Lemma children_entries p m : Forall (fun c => exists x, c = (p ++ [x])%list) (children p m).
Proof. apply list.Forall_forall. intros c Hc. by apply children_spec in Hc as [_ ?]. Qed.

Lemma tree_spec p m k : k ∈ tree p m <-> (exists v, m !! k = Some v) /\ p `prefix_of` k.
Proof.
  unfold tree. rewrite sort_by_perm, list_elem_of_In, List.filter_In, <- list_elem_of_In, bool_decide_eq_true.
  rewrite list_elem_of_fmap. setoid_rewrite <- elem_of_map_to_list. split; intros [Hk ?]; (split; [|done]).
  - destruct Hk as ([k' v] & -> & ?). by exists v.
  - destruct Hk as [v ?]. by exists (k, v).
Qed.

Section Pruning.
Context {Mach : Machine} (locks : path) (active : string) (m0 : fs).

(** Below an entry of [locks] other than the active one. *)
Definition stale (q : path) : Prop := exists x, x <> active /\ (locks ++ [x])%list `prefix_of` q.
Definition pruned (m : fs) : Prop := forall q, m !! q = m0 !! q \/ (m !! q = None /\ stale q).
(** The tree of an entry as it was in another state, and gone. *)
Definition same_tree (x : string) (m m' : fs) : Prop := forall q, (locks ++ [x])%list `prefix_of` q -> m' !! q = m !! q.
Definition no_tree (x : string) (m : fs) : Prop := forall q, (locks ++ [x])%list `prefix_of` q -> m !! q = None.

Lemma same_tree_entry x m m' : same_tree x m m' -> m' !! (locks ++ [x])%list = m !! (locks ++ [x])%list.
Proof. intros H. by apply H. Qed.

Lemma pruned_delete m q : stale q -> pruned m -> pruned (delete q m).
Proof.
  intros Hq Hm k. destruct (decide (k = q)) as [->|Hne].
  - right. by rewrite lookup_delete_eq.
  - rewrite lookup_delete_ne by done. apply Hm.
Qed.

(** A list of entries removed: nothing else is, and all are gone if the removal
    returns. *)
Lemma wp_remove_all l d :
  Forall stale l -> pruned (now d) ->
  wp pruned (forM l remove)
    (fun r d' => pruned (now d') /\
       (forall q, now d' !! q = now d !! q \/ (now d' !! q = None /\ q ∈ l)) /\
       (r = Ok tt -> forall k, k ∈ l -> now d' !! k = None)) d.
Proof.
  intros Hl. revert d. induction Hl as [|q l Hq Hl IH]; intros d Hd; cbn [forM].
  { apply wp_ret. split; [done|]. split; [by left|]. intros _ k Hk. by apply elem_of_nil in Hk. }
  pose proof (pruned_delete _ _ Hq Hd) as Hd1.
  apply wp_bind, wp_remove; [intros e _; by split; [|split; [left|]]|done|].
  eapply wp_mono; [by apply IH|]. intros r d' (H1 & H2 & H3). cbn [now change] in *.
  split; [done|]. split.
  - intros k. destruct (decide (k = q)) as [->|Hne].
    + right. split; [|left]. destruct (H2 q) as [->|[-> _]]; [by rewrite lookup_delete_eq|done].
    + destruct (H2 k) as [->|[-> Hk]]; [left; by rewrite lookup_delete_ne|right; split; [done|by right]].
  - intros Hr k [->|Hk]%elem_of_cons; [|by apply H3]. destruct (H2 q) as [->|[-> _]]; [|done].
    by rewrite lookup_delete_eq.
Qed.

Lemma is_dir_entry (m : fs) x : is_dir m (locks ++ [x])%list = bool_decide (m !! (locks ++ [x])%list = Some Dir).
Proof. unfold is_dir. destruct (locks ++ [x])%list eqn:E; [by destruct locks|]. by destruct (m !! _) as [[]|]. Qed.

Lemma wp_rmtree_stale x d :
  x <> active -> now d !! (locks ++ [x])%list = Some Dir -> pruned (now d) ->
  wp pruned (rmtree (locks ++ [x])%list)
    (fun r d' => pruned (now d') /\ (forall y, y <> x -> same_tree y (now d) (now d')) /\
       (r = Ok tt -> no_tree x (now d'))) d.
Proof.
  intros Hx Hdir Hd. unfold rmtree. apply wp_files.
  rewrite is_dir_entry, bool_decide_eq_true_2 by done.
  eapply wp_mono; [apply wp_remove_all; [|done]|].
  - apply list.Forall_forall. intros q Hq. apply tree_spec in Hq as [_ Hq]. by exists x.
  - intros r d' (H1 & H2 & H3). split; [done|]. split.
    + intros y Hy q Hq. destruct (H2 q) as [?|[_ Hin]]; [done|].
      apply tree_spec in Hin as [_ Hp]. destruct Hq as [k ->], Hp as [k' E]. rewrite <- !app_assoc in E.
      apply app_inv_head in E. cbn in E. congruence.
    + intros Hr q Hq. destruct (H2 q) as [E|[? _]]; [|done]. destruct (now d !! q) as [f|] eqn:Ef; [|exact (eq_trans E Ef)].
      apply H3; [done|]. apply tree_spec. eauto.
Qed.

(** What pruning a list of entries reports and removes. *)
Definition prune_post (candidates removed : list path) (d : disk) (r : result (list path)) (d' : disk) : Prop :=
  pruned (now d') /\
  (forall y, (locks ++ [y])%list ∉ candidates -> same_tree y (now d) (now d')) /\
  forall out, r = Ok out -> exists more, out = (removed ++ more)%list /\ (forall c, c ∈ more -> c ∈ candidates) /\
    forall x, (locks ++ [x])%list ∈ candidates ->
      ((locks ++ [x])%list ∈ more <-> x <> active /\ now d !! (locks ++ [x])%list = Some Dir) /\
      ((locks ++ [x])%list ∈ more -> no_tree x (now d')).

Lemma entry_inj x y : (locks ++ [x])%list = (locks ++ [y])%list -> x = y.
Proof. intros E. apply app_inv_head in E. by injection E. Qed.

(** An entry that is kept, and one that is removed before the others. *)
Lemma prune_post_skip x cs removed d r d' :
  (locks ++ [x])%list ∉ cs -> ~ (x <> active /\ now d !! (locks ++ [x])%list = Some Dir) ->
  prune_post cs removed d r d' -> prune_post ((locks ++ [x])%list :: cs) removed d r d'.
Proof.
  intros Hx Hk (H1 & H2 & H3). split; [done|]. split.
  - intros y Hy. apply H2. rewrite not_elem_of_cons in Hy. tauto.
  - intros out Hout. destruct (H3 out Hout) as (more & -> & Hm & Hiff). exists more. split; [done|].
    split; [intros c Hc; right; auto|]. intros z [Hz|Hz]%elem_of_cons; [|by apply Hiff].
    apply entry_inj in Hz as ->. split; [split; [intros Hc; by apply Hm in Hc|done]|intros Hc; by apply Hm in Hc].
Qed.

Lemma prune_post_take x cs removed d d1 r d' :
  (locks ++ [x])%list ∉ cs -> x <> active -> now d !! (locks ++ [x])%list = Some Dir ->
  (forall y, y <> x -> same_tree y (now d) (now d1)) ->
  no_tree x (now d1) ->
  prune_post cs (removed ++ [(locks ++ [x])%list]) d1 r d' ->
  prune_post ((locks ++ [x])%list :: cs) removed d r d'.
Proof.
  intros Hx Ha Hdir Hother Hgone (H1 & H2 & H3). split; [done|]. split.
  - intros y [Hy1 Hy2]%not_elem_of_cons q Hq. rewrite (H2 y Hy2 q Hq). apply (Hother y); [by intros ->|done].
  - intros out Hout. destruct (H3 out Hout) as (more & -> & Hm & Hiff).
    exists ((locks ++ [x])%list :: more). rewrite <- app_assoc. split; [done|].
    split; [intros c [->|Hc]%elem_of_cons; [by left|right; auto]|].
    intros z Hz. destruct (decide (z = x)) as [->|Hne].
    + split; [split; [done|by left]|]. intros _ q Hq. rewrite (H2 x Hx q Hq). by apply Hgone.
    + assert ((locks ++ [z])%list ∈ cs) as Hin.
      { apply elem_of_cons in Hz as [Hz|Hz]; [|done]. by apply entry_inj in Hz. }
      destruct (Hiff z Hin) as [Hi Hn]. rewrite (same_tree_entry _ _ _ (Hother z Hne)) in Hi. rewrite elem_of_cons.
      assert ((locks ++ [z])%list = (locks ++ [x])%list <-> False) as -> by (split; [by intros ?%entry_inj|done]).
      tauto.
Qed.

Lemma wp_prune_entries candidates : forall removed d,
  NoDup candidates -> Forall (fun c => exists x, c = (locks ++ [x])%list) candidates -> pruned (now d) ->
  wp pruned (prune_entries active candidates removed) (prune_post candidates removed d) d.
Proof.
  induction candidates as [|c cs IH]; intros removed d Hnd Hc Hd; cbn [prune_entries].
  { apply wp_ret. split; [done|]. split; [done|]. intros out [= <-]. exists []. rewrite app_nil_r.
    split; [done|]. split; [done|]. intros x Hx. by apply elem_of_nil in Hx. }
  apply list.NoDup_cons in Hnd as [Hni Hnd]. apply Forall_cons_iff in Hc as [[x ->] Hc]. apply wp_files.
  rewrite is_dir_entry, last_snoc. case_bool_decide as Hdir; cbn [andb].
  2: { eapply wp_mono; [by apply IH|]. intros r d'. apply prune_post_skip; tauto. }
  case_bool_decide as Hact; cbn [negb].
  { injection Hact as ->. eapply wp_mono; [by apply IH|]. intros r d'. apply prune_post_skip; tauto. }
  assert (x <> active) as Hne by congruence. apply wp_bind.
  eapply wp_mono; [by apply (wp_rmtree_stale x)|]. intros [[]|e] d1 (H1 & H2 & H3).
  - eapply wp_mono; [by apply IH|]. intros r d'. apply prune_post_take; auto.
  - split; [done|]. split; [|done]. intros y [Hy _]%not_elem_of_cons. apply H2. by intros ->.
Qed.

End Pruning.

Lemma NoDup_children p m : NoDup (children p m).
Proof.
  unfold children. apply base.NoDup_ListNoDup, List.NoDup_filter, base.NoDup_ListNoDup. apply NoDup_fst_map_to_list.
Qed.

(** C20: Pruning touches nothing but the trees of other locks, in every state it
    goes through, also when a removal fails: every other path, the active lock's
    own tree included, holds what it held before.  When it returns (and there is
    a directory of locks), it reports exactly the directories of other locks, and
    nothing of their trees is left. *)
Theorem prune_sound {Mach : Machine} lock root d :
  let '(r, d') := prune lock root d in
  let locks := (root ++ ["locks"])%list in
  exists new, states d' = (new ++ states d)%list /\
    Forall (pruned locks (lock_digest lock) (now d)) new /\
    forall removed, r = Ok removed -> is_dir (now d) locks = true ->
      forall x, ((locks ++ [x])%list ∈ removed <-> x <> lock_digest lock /\ now d !! (locks ++ [x])%list = Some Dir) /\
                ((locks ++ [x])%list ∈ removed -> forall q, (locks ++ [x])%list `prefix_of` q -> now d' !! q = None).
Proof.
  destruct (prune lock root d) as [r d'] eqn:E. cbv zeta. set (locks := (root ++ ["locks"])%list).
  unfold prune in E. fold locks in E. unfold mbindM, files in E. destruct (is_dir (now d) locks) eqn:El.
  2: { injection E as <- <-. by exists []. }
  destruct (wp_run _ _ _ _ _ _ (wp_prune_entries locks (lock_digest lock) (now d) (children locks (now d)) [] d
    (NoDup_children _ _) (children_entries _ _) (fun q => or_introl eq_refl)) E) as [(new & Hs & Hn) (_ & _ & H3)].
  exists new. do 2 (split; [done|]). intros removed Hr _ x. destruct (H3 removed Hr) as (more & -> & Hm & Hiff).
  change ([] ++ more)%list with more.
  destruct (decide ((locks ++ [x])%list ∈ children locks (now d))) as [Hin|Hni]; [by apply Hiff|].
  split; [split|]; [intros Hc; by apply Hm in Hc|intros [_ Hd]|intros Hc; by apply Hm in Hc].
  destruct Hni. apply children_spec. eauto.
Qed.
