(* ===== verification/CacheLab.v ===== *)
(** The cache and the lock together: the inventories of a loaded lock, and a
    concrete machine on which the theorems of [CacheThm.v] are instantiated. *)

From Stdlib Require Import ZArith Bool Ascii String Lia.
From stdpp Require Import base list strings option gmap.
From S2P Require Import Prelude Eff PyStr PyText PyVal Json Sha256 Lock Fs Cache CacheThm.

Open Scope string_scope.
Open Scope Z_scope.

#[local] Opaque sha256_hex.

(** ** Artifacts that [load_lock] accepts enter the inventories *)

Lemma lower_hex_fixed c : is_lower_hex c = true -> lower_char c = c.
Proof. destruct c as [[] [] [] [] [] [] [] []]; vm_compute; done. Qed.

Lemma str_lower_hex s : str_forallb is_lower_hex s = true -> str_lower s = s.
Proof.
  unfold str_lower. induction s as [|c s IH]; [done|]. cbn [str_forallb str_map]. intros H. bool_hyps.
  rewrite lower_hex_fixed, IH; done.
Qed.

Lemma sha_text_is_sha256 s : is_sha_text s = true -> is_sha256 s = true.
Proof.
  unfold is_sha_text, is_sha256. intros H. apply andb_true_iff in H as [-> H]. by rewrite str_lower_hex.
Qed.

Definition enters (v : pyval) : Prop :=
  exists a i p, v = VDict a /\ sound_artifact a i p.

Lemma nonblank_nonempty s : is_empty (strip s) = false -> is_empty s = false.
Proof. by destruct s. Qed.

Lemma artifact_entry_enters group n v : enters v -> exists i, artifact_entry group (n, v) = Ok i.
Proof.
  intros (a & i & p & -> & [Hi Hni Hp Hnp [Habs Hdots] (h & Hh & Hsha) (url & u & Hurl & Hu & Hs & Hn)]).
  unfold artifact_entry. cbn [fst snd]. rewrite Hp, Hi, Hh, Hurl. unfold safe_cache_path.
  rewrite (nonblank_nonempty p), (nonblank_nonempty i) by done. rewrite Habs.
  apply mem_string_false in Hdots. rewrite Hdots, sha_text_is_sha256, Hu by done. cbn [rbind raise_if orb negb].
  rewrite Hs. eexists. reflexivity.
Qed.

Lemma mapM_total {A B} (f : A -> result B) l :
  (forall x, x ∈ l -> exists y, f x = Ok y) -> exists ys, mapM f l = Ok ys /\ length ys = length l.
Proof.
  induction l as [|x l IH]; intros Hf; [by exists []|]. destruct (Hf x) as [y Hy]; [left|].
  destruct IH as (ys & Hys & Hl); [intros z Hz; apply Hf; by right|].
  exists (y :: ys). cbn [mapM]. rewrite Hy, Hys. cbn. by rewrite Hl.
Qed.

Lemma inventory_enters lock group l :
  dget_or group (VList []) lock = VList l -> Forall enters l ->
  exists items, artifact_inventory lock group = Ok items /\ length items = length l.
Proof.
  intros Hl Hf. unfold artifact_inventory. rewrite Hl.
  destruct (mapM_total (artifact_entry group) (enumerate l)) as (items & Hi & Hlen).
  - intros [n v] Hx. apply artifact_entry_enters.
    assert (v ∈ (snd <$> enumerate l)) as Hv by (apply list_elem_of_fmap; by exists (n, v)).
    rewrite enumerate_snd in Hv. by apply (proj1 (list.Forall_forall _ _) Hf).
  - exists items. split; [done|]. rewrite Hlen. unfold enumerate. by rewrite length_imap.
Qed.

(** ** The two dictionaries of artifacts are the same *)

Lemma check_artifact_index g s n v s' :
  check_artifact g s (n, v) = Ok s' -> by_id s' = index_artifact (by_id s) v /\ enters v.
Proof.
  intros H. apply check_artifact_Ok in H as (a & i & p & -> & Ha & _ & _ & ->). cbn [by_id]. unfold index_artifact.
  rewrite (sa_id _ _ _ Ha). split; [done|]. by exists a, i, p.
Qed.

Lemma check_artifacts_index g entries : forall s s',
  foldM (check_artifact g) s entries = Ok s' ->
  by_id s' = fold_left index_artifact (snd <$> entries) (by_id s) /\ Forall (fun e => enters (snd e)) entries.
Proof.
  induction entries as [|[n v] entries IH]; intros s s' H; cbn [foldM] in H; [by injection H as <-|].
  apply rbind_Ok in H as (s1 & H1 & H). apply check_artifact_index in H1 as [E Hv]. apply IH in H as [-> Hf].
  cbn [fmap list_fmap fold_left snd]. rewrite E. split; [done|by constructor].
Qed.

Lemma validate_artifacts_index data s :
  validate_artifacts_full data = Ok s ->
  exists l1 l2, dget_none "artifacts" data = VList l1 /\ dget_or "artifacts" (VList []) data = VList l1 /\
    dget_or "guest_upgrade_artifacts" (VList []) data = VList l2 /\
    Forall enters l1 /\ Forall enters l2 /\ by_id s = fold_left index_artifact (l1 ++ l2)%list [].
Proof.
  unfold validate_artifacts_full. intros Hf. cbn [foldM] in Hf.
  apply rbind_Ok in Hf as (s1 & H1 & Hf). apply rbind_Ok in Hf as (s2 & H2 & Hf). injection Hf as <-.
  unfold check_group in H1, H2. cbn [fst snd] in H1, H2.
  destruct (dget_none "artifacts" data) as [| | | | |l1|] eqn:E1; try done.
  destruct (dget_or "guest_upgrade_artifacts" _ data) as [| | | | |l2|] eqn:E2; try done.
  apply check_artifacts_index in H1 as [B1 F1], H2 as [B2 F2]. rewrite enumerate_snd in B1, B2.
  apply (Forall_enumerate enters) in F1, F2. exists l1, l2. split; [done|].
  split; [unfold dget_or, dget_none in *; by destruct (dget "artifacts" data)|].
  do 3 (split; [done|]). by rewrite fold_left_app, B2, B1.
Qed.

Lemma index_enters l : forall d,
  Forall enters l -> Forall (fun kv => enters (VDict (snd kv))) d ->
  Forall (fun kv => enters (VDict (snd kv))) (fold_left index_artifact l d).
Proof.
  induction l as [|v l IH]; intros d Hl Hd; cbn [fold_left]; [done|].
  apply Forall_cons_iff in Hl as [Hv Hl]. apply IH; [done|]. unfold index_artifact.
  destruct v as [| | | | | |a]; try done. destruct (dget_none "id" a) as [| | | |i| |]; try done.
  induction Hd as [|[k w] d Hw Hd IHd]; cbn [aset]; [by repeat constructor|].
  destruct (String.eqb i k); constructor; done.
Qed.

Lemma aget_elem k d a : aget k d = Some a -> exists k', (k', a) ∈ d.
Proof.
  induction d as [|[k' v] d IH]; cbn [aget]; [done|]. destruct (String.eqb k k').
  - intros [= ->]. exists k'. left.
  - intros H. destruct (IH H) as [k2 ?]. exists k2. by right.
Qed.

(** ** The matrix *)

Lemma select_field_total by_id location stage s field :
  Forall (fun kv => enters (VDict (snd kv))) by_id -> Forall enters (fst s) ->
  (exists i a, dget_none field stage = VStr i /\ aget i by_id = Some a) ->
  exists s', select_field by_id location stage s field = Ok s' /\ Forall enters (fst s').
Proof.
  intros Hb Hs (i & a & Hi & Ha). unfold select_field. rewrite Hi, Ha. eexists. split; [done|].
  destruct (mem_string i (snd s)); [done|]. apply Forall_app. split; [done|]. constructor; [|constructor].
  apply aget_elem in Ha as [k Hk]. apply (proj1 (list.Forall_forall _ _) Hb (k, a) Hk).
Qed.

Lemma foldM_total {A S} (I : S -> Prop) (f : S -> A -> result S) l : forall s,
  (forall s x, x ∈ l -> I s -> exists s', f s x = Ok s' /\ I s') -> I s ->
  exists s', foldM f s l = Ok s' /\ I s'.
Proof.
  induction l as [|x l IH]; intros s Hf Hs; [by exists s|].
  destruct (Hf s x) as (s1 & E1 & H1); [left|done|]. cbn [foldM]. rewrite E1.
  apply IH; [|done]. intros s2 y Hy. apply Hf. by right.
Qed.

Lemma select_stages_total by_id stages minors :
  Forall (fun kv => enters (VDict (snd kv))) by_id -> Forall2 (sound_stage by_id) stages minors ->
  exists s, foldM (select_stage by_id) ([], []) (enumerate stages) = Ok s /\ Forall enters (fst s).
Proof.
  intros Hb Hst. apply (foldM_total (fun s => Forall enters (fst s))); [|constructor].
  intros s [n v] Hx Hs.
  assert (v ∈ stages) as Hv.
  { rewrite <- (enumerate_snd stages). apply list_elem_of_fmap. by exists (n, v). }
  apply list_elem_of_lookup in Hv as [j Hj]. destruct (Forall2_lookup_l _ _ _ _ _ Hst Hj) as (m & _ & [Hv]).
  destruct Hv as (d & k & c & -> & _ & _ & _ & _ & Hrefs). unfold select_stage. cbn [fst snd].
  apply (foldM_total (fun s => Forall enters (fst s))); [|done].
  intros s1 field Hf Hs1. apply select_field_total; [done|done|].
  change (field ∈ (fst <$> expected_components)) in Hf. apply list_elem_of_fmap in Hf as (ref & -> & Href).
  destruct (proj1 (list.Forall_forall _ _) Hrefs ref Href) as (i & a & Hi & Ha & _). eauto.
Qed.

(** The artifact inventories never fail on a lock that loads: the bootstrap
    and guest inventories list every artifact of their group, and the artifacts
    of the upgrade matrix can be selected. *)
Theorem loaded_inventories doc lock :
  load_lock doc = Ok lock ->
  exists normal guest upgrade l1 l2,
    dget_none "artifacts" lock = VList l1 /\ dget_or "guest_upgrade_artifacts" (VList []) lock = VList l2 /\
    inventory lock = Ok normal /\ length normal = length l1 /\
    guest_upgrade_inventory lock = Ok guest /\ length guest = length l2 /\
    kubernetes_upgrade_inventory lock = Ok upgrade.
Proof.
  intros Hl. apply load_lock_parts in Hl as (_ & _ & _ & _ & _ & s & Hs & Hm).
  apply validate_upgrade_matrix_Ok in Hm as [(stages & first & target & version & Hst & Hne & _ & _ & Hf2 & _)].
  destruct (validate_artifacts_index _ _ Hs) as (l1 & l2 & E0 & E1 & E2 & F1 & F2 & Hidx).
  destruct (inventory_enters _ _ _ E1 F1) as (normal & Hn & Ln).
  destruct (inventory_enters _ _ _ E2 F2) as (guest & Hg & Lg).
  assert (Forall (fun kv => enters (VDict (snd kv))) (by_id s)) as Hb.
  { rewrite Hidx. apply index_enters; [by apply Forall_app|constructor]. }
  destruct (select_stages_total _ _ _ Hb Hf2) as (sel & Hsel & Hes).
  destruct (inventory_enters [("matrix_artifacts", VList (fst sel))] "matrix_artifacts" (fst sel) eq_refl Hes)
    as (up & Hup & _).
  exists normal, guest, up, l1, l2.
  do 6 (split; [done|]). unfold kubernetes_upgrade_inventory, inventory, guest_upgrade_inventory.
  rewrite Hn, Hg, E1, E2, Hst. cbn [rbind]. destruct stages as [|s0 stages]; [done|].
  rewrite <- Hidx, Hsel. exact Hup.
Qed.

(** ** A machine and a lock that fit together *)

#[local] Transparent sha256_hex.

(** The image a registry serves: configuration, one layer, manifest, index. *)
Definition lab_config : string :=
  Eval vm_compute in json_plain false (VDict [("os", VStr "linux"); ("architecture", VStr "amd64")]).
Definition lab_layer : string := "layer".
Definition digest_json (s : string) : pyval := VDict [("digest", VStr ("sha256:" +:+ sha256_of s))].
Definition lab_manifest : string :=
  Eval vm_compute in json_plain false (VDict [("config", digest_json lab_config); ("layers", VList [digest_json lab_layer])]).
Definition lab_index : string :=
  Eval vm_compute in json_plain false (VDict [("manifests", VList [digest_json lab_manifest])]).
Definition lab_marker : string :=
  Eval vm_compute in json_plain false (VDict [("imageLayoutVersion", VStr "1.0.0")]).
Definition lab_blob (s : string) : list string * string := (["blobs"; "sha256"; sha256_of s], s).
Definition lab_image : list (list string * string) :=
  Eval vm_compute in
  [(["oci-layout"], lab_marker); (["index.json"], lab_index);
   lab_blob lab_config; lab_blob lab_layer; lab_blob lab_manifest].

Definition lab_skopeo (d : disk) (argv : list string) (destination : path) : outcome * fs :=
  (Done, foldr (fun kv m => <[(destination ++ fst kv)%list := File (snd kv)]> m)
           (<[destination := Dir]> (now d)) lab_image).

Lemma lab_skopeo_local d argv destination p :
  ~ destination `prefix_of` p -> snd (lab_skopeo d argv destination) !! p = now d !! p.
Proof.
  intros Hp. unfold lab_skopeo. cbn [snd]. induction lab_image as [|kv l IH]; cbn [foldr].
  - apply lookup_insert_ne. by intros ->.
  - rewrite lookup_insert_ne; [exact IH|]. intros <-. apply Hp. by apply prefix_app_r.
Qed.

(** A URL answers with its own text in two chunks. *)
Definition lab : Machine := {|
  strike := fun _ => None;
  urlopen := fun _ url => Ok ([str_take 5 url; str_drop 5 url], None);
  tmp_suffix := fun _ => "x7";
  skopeo := lab_skopeo;
  skopeo_local := lab_skopeo_local
|}.

(** The sample lock with the digests of what this machine serves. *)
Definition with_digest (v : pyval) : pyval :=
  match v with
  | VDict a => match dget_none "url" a with
               | VStr url => VDict (dset "sha256" (VStr (sha256_of url)) a)
               | _ => v
               end
  | _ => v
  end.
Definition served (group : string) (l : pydict) : pydict :=
  match dget_none group l with VList g => dset group (VList (with_digest <$> g)) l | _ => l end.
Definition lab_lock : pydict :=
  Eval vm_compute in
  dset "oci_images"
    (VList [VDict [ ("id", VStr "pause"); ("cache_path", VStr "oci/pause"); ("platform", VStr "linux/amd64");
                    ("reference", VStr ("registry.k8s.io/pause:3.10@sha256:" +:+ sha256_of lab_manifest)) ]])
    (served "artifacts" (served "guest_upgrade_artifacts" sample_lock)).

Definition empty_disk : disk := {| now := ∅; past := []; printed := [] |}.
Definition lab_root : path := ["cache"].
Definition lab_run : result path * disk := @populate lab lab_lock lab_root empty_disk.

(** Populating an empty cache gives one that validates. *)
Lemma lab_populates :
  is_ok (fst lab_run) = true /\ validate_cache lab_lock lab_root (now (snd lab_run)) = Ok [].
Proof. split; vm_compute; reflexivity. Qed.

Lemma lab_clear : clear_lock lab_lock.
Proof.
  split; intros items H; vm_compute in H; injection H as <-; repeat constructor; vm_compute; done.
Qed.

Lemma validate_cache_sound_witness :
  exists artifacts images, good_cache lab_lock lab_root (now (snd lab_run)) artifacts images.
Proof. exact (validate_cache_sound lab_lock lab_root (now (snd lab_run)) (proj2 lab_populates)). Defined.

Lemma populate_interrupted_witness :
  let '(r, d') := @populate lab lab_lock lab_root empty_disk in
  exists during before,
    states d' = (during ++ before ++ states empty_disk)%list /\
    Forall (fun m => forall q, grown (cache_dir lab_lock lab_root) (now empty_disk) m q) before /\
    Forall (fun m => validate_cache lab_lock lab_root m <> Ok []) (if is_ok r then tail during else during).
Proof. exact (@populate_interrupted lab lab_lock lab_root empty_disk lab_clear). Defined.

Lemma loaded_inventories_witness :
  exists normal guest upgrade l1 l2,
    dget_none "artifacts" sample_lock = VList l1 /\
    dget_or "guest_upgrade_artifacts" (VList []) sample_lock = VList l2 /\
    inventory sample_lock = Ok normal /\ length normal = length l1 /\
    guest_upgrade_inventory sample_lock = Ok guest /\ length guest = length l2 /\
    kubernetes_upgrade_inventory sample_lock = Ok upgrade.
Proof. exact (loaded_inventories (VDict sample_lock) sample_lock sample_lock_loads). Defined.

(** A lock with an image without identifier and path, and one with an artifact at
    [complete.json]. *)
Definition bare_image_lock : pydict :=
  dset "oci_images" (VList [VDict [ ("platform", VStr "linux/amd64");
                                    ("reference", VStr ("p@sha256:" +:+ sample_digest "e")) ]]) lab_lock.
Definition colliding_lock : pydict :=
  dset "artifacts" (match dget_none "artifacts" lab_lock with
                    | VList (VDict a :: l) => VList (VDict (dset "cache_path" (VStr "complete.json") a) :: l)
                    | v => v
                    end) lab_lock.
Definition colliding_run : result path * disk := @populate lab colliding_lock lab_root empty_disk.

(** [load_lock] does not check what the cache needs of the images, nor that
    the cache's own files stay free: a lock whose image has no path loads, but
    has no inventory of images; a lock that puts an artifact at [complete.json]
    loads and can be populated, but the result does not validate. *)
Theorem loaded_lock_gaps :
  is_ok (load_lock (VDict bare_image_lock)) = true /\
  (exists msg, oci_inventory bare_image_lock = Raise (Exn ValueError msg)) /\
  is_ok (load_lock (VDict colliding_lock)) = true /\
  is_ok (fst colliding_run) = true /\
  validate_cache colliding_lock lab_root (now (snd colliding_run)) <> Ok [].
Proof.
  split; [vm_compute; reflexivity|]. split; [eexists; vm_compute; reflexivity|].
  split; [vm_compute; reflexivity|]. split; vm_compute; [reflexivity|discriminate].
Qed.
