(* ===== verification/Stats.v ===== *)
(** [cpu-limits/analysis/stats.py]: the paired statistics of the campaign.

    The functions of the C library are parameters; everything around them is
    computed in binary64 as the program does. *)

From Stdlib Require Import ZArith Bool Ascii String Lia SpecFloat.
From stdpp Require Import base list strings option.
From S2P Require Import Prelude PyStr PyFloat Campaign.

Open Scope string_scope.
Open Scope Z_scope.

(** [log], [log1p], [exp] and [lgamma] on finite arguments in their domain. *)
Class Libm : Type := { c_log : float -> float; c_log1p : float -> float; c_exp : float -> float; c_lgamma : float -> float }.

Definition zero : float := fzero.
Definition one : float := flit 1 1.
Definition two : float := flit 2 1.
Definition half : float := flit 1 2.

Definition domain_error {A} : result A := Raise (Exn ValueError "math domain error").
Definition range_error {A} : result A := Raise (Exn OverflowError "math range error").

Section Math.
Context `{Libm}.

(** [math.log], [math.log1p], [math.exp], [math.lgamma]: the arguments outside
    the domain, and the results that are too large. *)
Definition math_log (x : float) : result float :=
  match x with
  | S754_nan | S754_infinity false => Ok x
  | S754_finite false _ _ => Ok (c_log x)
  | _ => domain_error
  end.
Definition math_log1p (x : float) : result float :=
  match x with
  | S754_nan | S754_infinity false => Ok x
  | _ => if fltb (fopp one) x then Ok (c_log1p x) else domain_error
  end.
Definition math_exp (x : float) : result float :=
  match x with
  | S754_nan | S754_infinity false => Ok x
  | S754_infinity true => Ok zero
  | _ => match c_exp x with S754_infinity _ => range_error | y => Ok y end
  end.
Definition math_lgamma (x : float) : result float :=
  match x with
  | S754_nan => Ok x
  | S754_infinity _ => Ok (S754_infinity false)
  | _ => match c_lgamma x with S754_infinity _ => range_error | y => Ok y end
  end.
End Math.

(** ** Records *)

Record PairedLogRatios : Type := {
  log_ratios : list float; paired_blocks : list string; missing_blocks : list string
}.
Record RatioInterval : Type := { ri_estimate : float; ri_low : float; ri_high : float; ri_n : Z }.
Record HolmDecision : Type := { hd_p_value : float; hd_threshold : float; hd_rejected : bool }.

(** [PairedLogRatios.complete] *)
Definition complete (p : PairedLogRatios) : bool := match missing_blocks p with [] => true | _ => false end.

Definition require_positive (value : float) (name : string) : result unit :=
  raise_if (negb (isfinite value) || fleb value zero) ValueError (name +:+ " must be strictly positive and finite").

(** ** Pairs *)

(** A value per block: the blocks in the order of insertion. *)
Abbreviation block_values := (list (string * option float)).
Definition block_get (d : block_values) (block : string) : option float :=
  match List.find (fun p => String.eqb block (fst p)) d with Some (_, v) => v | None => None end.

Definition add_pair (ratio : float) (block : string) (p : PairedLogRatios) : PairedLogRatios :=
  {| log_ratios := ratio :: log_ratios p; paired_blocks := block :: paired_blocks p; missing_blocks := missing_blocks p |}.
Definition add_missing (block : string) (p : PairedLogRatios) : PairedLogRatios :=
  {| log_ratios := log_ratios p; paired_blocks := paired_blocks p; missing_blocks := block :: missing_blocks p |}.
Definition no_pairs : PairedLogRatios := {| log_ratios := []; paired_blocks := []; missing_blocks := [] |}.

(** The blocks of both, sorted. *)
Definition all_blocks (control treatment : block_values) : list string :=
  sort_by String.leb (remove_dups (fst <$> (control ++ treatment)%list)).

Section Estimates.
Context `{Libm}.

Fixpoint pair_blocks (control treatment : block_values) (blocks : list string) : result PairedLogRatios :=
  match blocks with
  | [] => Ok no_pairs
  | block :: rest =>
      match block_get control block, block_get treatment block with
      | Some c, Some t =>
          require_positive c block ;;;
          require_positive t block ;;;
          let* quotient := fdiv t c in
          let* ratio := math_log quotient in
          let* p := pair_blocks control treatment rest in
          Ok (add_pair ratio block p)
      | _, _ => let* p := pair_blocks control treatment rest in Ok (add_missing block p)
      end
  end.
Definition paired_log_ratios (control treatment : block_values) : result PairedLogRatios :=
  pair_blocks control treatment (all_blocks control treatment).

Definition geometric_mean (values : list float) : result float :=
  match values with
  | [] => Raise (Exn ValueError "geometric mean requires at least one value")
  | _ =>
      iterM (fun v => require_positive v "value") values ;;;
      let* logs := mapM math_log values in
      let* m := fmean logs in math_exp m
  end.

Definition finite_logs (logs : list float) : result (list float) :=
  raise_if (negb (forallb isfinite logs)) ValueError "log ratios must be finite" ;;; Ok logs.

Definition geometric_mean_from_logs (logs : list float) : result float :=
  match logs with
  | [] => Raise (Exn ValueError "geometric mean requires at least one log ratio")
  | _ => let* logs := finite_logs logs in let* m := fmean logs in math_exp m
  end.

(** ** Student's t distribution *)

Definition tiny : float := flit 1 (10 ^ 300).
Definition tolerance : float := flit 3 (10 ^ 14).
Definition at_least_tiny (d : float) : float := if fltb (fabs d) tiny then tiny else d.

(** One half step of the continued fraction: [c], [d] with this coefficient. *)
Definition fraction_step (coefficient c d : float) : result (float * float) :=
  let d := at_least_tiny (fadd one (fmul coefficient d)) in
  let* q := fdiv coefficient c in
  let c := at_least_tiny (fadd one q) in
  let* d := fdiv one d in
  Ok (c, d).

(** The iterations from [iteration], at most [n] of them. *)
Fixpoint beta_loop (n : nat) (iteration : Z) (a b x c d result_ : float) : result float :=
  match n with
  | O => Raise (Exn ArithmeticError "incomplete beta fraction did not converge")
  | S n' =>
      let i := flit iteration 1 in
      let twice := flit (2 * iteration) 1 in
      let* even := fdiv (fmul (fmul i (fsub b i)) x) (fmul (fsub (fadd a twice) one) (fadd a twice)) in
      let* (c, d) := fraction_step even c d in
      let result_ := fmul result_ (fmul d c) in
      let* odd := fdiv (fmul (fmul (fopp (fadd a i)) (fadd (fadd a b) i)) x) (fmul (fadd a twice) (fadd (fadd a twice) one)) in
      let* (c, d) := fraction_step odd c d in
      let change := fmul d c in
      let result_ := fmul result_ change in
      if fltb (fabs (fsub change one)) tolerance then Ok result_
      else beta_loop n' (iteration + 1) a b x c d result_
  end.
Definition beta_fraction (a b x : float) : result float :=
  let* q := fdiv (fmul (fadd a b) x) (fadd a one) in
  let* d := fdiv one (at_least_tiny (fsub one q)) in
  beta_loop 200 1 a b x one d d.

Definition regularized_incomplete_beta (x a b : float) : result float :=
  if fleb x zero then Ok zero
  else if fleb one x then Ok one
  else
    let* g1 := math_lgamma (fadd a b) in
    let* g2 := math_lgamma a in
    let* g3 := math_lgamma b in
    let* l1 := math_log x in
    let* l2 := math_log1p (fopp x) in
    let* front := math_exp (fadd (fadd (fsub (fsub g1 g2) g3) (fmul a l1)) (fmul b l2)) in
    let* cut := fdiv (fadd a one) (fadd (fadd a b) two) in
    if fltb x cut then let* f := beta_fraction a b x in fdiv (fmul front f) a
    else let* f := beta_fraction b a (fsub one x) in
         let* q := fdiv (fmul front f) b in Ok (fsub one q).

Definition student_t_cdf (value : float) (degrees_of_freedom : Z) : result float :=
  if feqb value zero then Ok half
  else
    let* df := float_of_Z degrees_of_freedom in
    let* x := fdiv df (fadd df (fmul value value)) in
    let* a := truediv degrees_of_freedom 2 in
    let* beta := regularized_incomplete_beta x a half in
    let* b2 := fdiv beta two in
    Ok (if fltb zero value then fsub one b2 else b2).

(** Doubling until the CDF reaches the probability; [fuel] bounds the
    doublings. *)
Fixpoint upper_end (fuel : nat) (probability : float) (df : Z) (high : float) : result float :=
  match fuel with
  | O => Raise (Exn FuelExhausted "")
  | S f =>
      let* p := student_t_cdf high df in
      if fltb p probability then upper_end f probability df (fmul high two) else Ok high
  end.
Fixpoint bisect (n : nat) (probability : float) (df : Z) (low high : float) : result (float * float) :=
  match n with
  | O => Ok (low, high)
  | S n' =>
      let* middle := fdiv (fadd low high) two in
      let* p := student_t_cdf middle df in
      if fltb p probability then bisect n' probability df middle high else bisect n' probability df low middle
  end.

Definition DOUBLINGS : nat := 514.
(** [depth] bounds the calls for the other tail. *)
Fixpoint student_t_quantile (depth : nat) (probability : float) (df : Z) : result float :=
  raise_if (negb (fltb zero probability && fltb probability one)) ValueError "probability must be between zero and one" ;;;
  raise_if (df <? 1) ValueError "degrees of freedom must be at least one" ;;;
  if feqb probability half then Ok zero
  else if fltb probability half then
    match depth with
    | O => Raise (Exn FuelExhausted "")
    | S d => let* x := student_t_quantile d (fsub one probability) df in Ok (fopp x)
    end
  else
    let* high := upper_end DOUBLINGS probability df one in
    let* (low, high) := bisect 80 probability df zero high in
    fdiv (fadd low high) two.

(** ** Intervals *)

Definition fraction_ok (x : float) : bool := fltb zero x && fltb x one.

Definition paired_t_interval (logs : list float) (confidence : float) : result RatioInterval :=
  let* logs := finite_logs logs in
  let n := Z.of_nat (length logs) in
  raise_if (n <? 2) ValueError "paired-t interval requires at least two paired blocks" ;;;
  raise_if (negb (fraction_ok confidence)) ValueError "confidence must be between zero and one" ;;;
  let* mean := fmean logs in
  let* sd := stdev logs in
  let* standard_error := fdiv sd (fsqrt (flit n 1)) in
  let* c2 := fdiv confidence two in
  let* t := student_t_quantile 1 (fadd half c2) (n - 1) in
  let half_width := fmul t standard_error in
  let* estimate := math_exp mean in
  let* low := math_exp (fsub mean half_width) in
  let* high := math_exp (fadd mean half_width) in
  Ok {| ri_estimate := estimate; ri_low := low; ri_high := high; ri_n := n |}.
End Estimates.

(** ** The bootstrap

    [generator.randrange(size)] is the draw with the next number of a generator
    with this seed. *)

Fixpoint resample_means (draw : nat -> nat -> nat) (logs : list float) (resamples first : nat) : result (list float) :=
  match resamples with
  | O => Ok []
  | S r =>
      let size := length logs in
      let* m := fmean ((fun k => default zero (logs !! draw (first + k)%nat size)) <$> seq 0 size) in
      let* ms := resample_means draw logs r (first + size) in
      Ok (m :: ms)
  end.

(** [means[math.floor(x)]] *)
Definition at_floor (means : list float) (x : float) : result float :=
  let* i := int_of_float x in
  match means !! Z.to_nat i with
  | Some m => Ok m
  | None => Raise (Exn IndexError "list index out of range")
  end.

Definition block_bootstrap_interval `{Libm} `{Rng} (logs : list float) (resamples seed : Z) (confidence : float) :
    result RatioInterval :=
  let* logs := finite_logs logs in
  raise_if (match logs with [] => true | _ => false end) ValueError "block bootstrap requires at least one paired block" ;;;
  raise_if (resamples <? 1) ValueError "resamples must be at least one" ;;;
  raise_if (negb (fraction_ok confidence)) ValueError "confidence must be between zero and one" ;;;
  let* means := resample_means (randbelow seed) logs (Z.to_nat resamples) 0 in
  let means := sort_by (fun a b => negb (fltb b a)) means in
  let* tail := fdiv (fsub one confidence) two in
  let* last := float_of_Z (resamples - 1) in
  let* low := at_floor means (fmul tail last) in
  let* high := at_floor means (fmul (fsub one tail) last) in
  let* mean := fmean logs in
  let* estimate := math_exp mean in
  let* low := math_exp low in
  let* high := math_exp high in
  Ok {| ri_estimate := estimate; ri_low := low; ri_high := high; ri_n := Z.of_nat (length logs) |}.

(** ** Holm's step-down correction *)

(** [sorted(range(n), key=values.__getitem__)] *)
Definition value_at (values : list float) (i : nat) : float := default zero (values !! i).
Definition index_order (values : list float) : list nat :=
  sort_by (fun i j => negb (fltb (value_at values j) (value_at values i))) (seq 0 (length values)).

(** The state of the loop: the position, the lists and whether it has stopped. *)
Record holm_state : Type := { hs_position : Z; hs_thresholds : list float; hs_rejected : list bool; hs_stopped : bool }.

(** [alpha / (planned_family_size - position)] *)
Definition holm_threshold (planned : Z) (alpha : float) (position : Z) : result float :=
  let* k := float_of_Z (planned - position) in fdiv alpha k.

Definition holm_step (values : list float) (planned : Z) (alpha : float) (s : holm_state) (index : nat) : result holm_state :=
  let* threshold := holm_threshold planned alpha (hs_position s) in
  let reject := negb (hs_stopped s) && fleb (value_at values index) threshold in
  Ok {| hs_position := hs_position s + 1;
        hs_thresholds := <[index := threshold]> (hs_thresholds s);
        hs_rejected := if reject then <[index := true]> (hs_rejected s) else hs_rejected s;
        hs_stopped := negb reject |}.

Definition valid_p_value (p : float) : bool := fleb zero p && fleb p one && isfinite p.

Fixpoint decisions_of (values thresholds : list float) (rejected : list bool) : list HolmDecision :=
  match values, thresholds, rejected with
  | v :: vs, t :: ts, r :: rs => {| hd_p_value := v; hd_threshold := t; hd_rejected := r |} :: decisions_of vs ts rs
  | _, _, _ => []
  end.

Definition check_family (values : list float) (planned : Z) (alpha : float) : result unit :=
  raise_if (planned <? Z.of_nat (length values)) ValueError "planned family size cannot be smaller than observed size" ;;;
  raise_if (planned <? 1) ValueError "planned family size must be at least one" ;;;
  raise_if (negb (fraction_ok alpha)) ValueError "alpha must be between zero and one" ;;;
  iterM (fun v => raise_if (negb (valid_p_value v)) ValueError "p-values must be finite and between zero and one") values.

Definition holm_decisions (values : list float) (planned : Z) (alpha : float) : result (list HolmDecision) :=
  check_family values planned alpha ;;;
  let n := length values in
  let* s := foldM (holm_step values planned alpha)
              {| hs_position := 0; hs_thresholds := replicate n zero; hs_rejected := replicate n false; hs_stopped := false |}
              (index_order values) in
  Ok (decisions_of values (hs_thresholds s) (hs_rejected s)).

Definition holm_step_down (values : list float) (planned : Z) (alpha : float) : result (list bool) :=
  let* ds := holm_decisions values planned alpha in Ok (hd_rejected <$> ds).
