(* ===== verification/StatsThm.v ===== *)
(** The step-down correction against its definition by ranks, and the
    inversion of the t distribution. *)

From Stdlib Require Import ZArith Bool Ascii String Lia SpecFloat Sorted.
From stdpp Require Import base list strings option.
From S2P Require Import Prelude PyStr PyFloat World Campaign Stats.

Open Scope string_scope.
Open Scope Z_scope.

(** ** The order of floats *)

Lemma feq_lt_trans x y z : feqb x y = true -> fltb y z = true -> fltb x z = true.
Proof.
  unfold feqb, fltb, SFeqb, SFltb.
  destruct x as [sx|sx| |sx mx ex], y as [sy|sy| |sy my ey], z as [sz|sz| |sz mz ez]; simpl;
    try destruct sx; try destruct sy; try destruct sz; try done.
  all: destruct (Z.compare_spec ex ey); try done; subst.
  all: rewrite ?Pos.compare_cont_spec; destruct (Pos.compare_spec mx my); simpl; try done; by subst.
Qed.

Lemma feq_sym x y : feqb x y = feqb y x.
Proof. unfold feqb, SFeqb. rewrite (fcompare_swap y x). by destruct (SFcompare y x) as [[]|]. Qed.

Lemma flt_weak_trans x y z : is_nan x = false -> is_nan y = false -> is_nan z = false ->
  fltb x z = true -> fltb x y = true \/ fltb y z = true.
Proof.
  intros Hx Hy Hz H. destruct (fcases x y Hx Hy) as [|[E|L]]; [by left| |].
  - right. rewrite feq_sym in E. by eapply feq_lt_trans.
  - right. by eapply flt_trans.
Qed.

(** ** Ranks *)

(** Index [j] comes before [i]: its value is less, or not greater and its index
    is. *)
Definition before (values : list float) (j i : nat) : bool :=
  fltb (value_at values j) (value_at values i) ||
  (negb (fltb (value_at values i) (value_at values j)) && (j <? i)%nat).
Definition rank (values : list float) (i : nat) : nat :=
  length (List.filter (fun j => before values j i) (seq 0 (length values))).

Section Order.
Context (values : list float) (Hnan : Forall (fun v => is_nan v = false) values).
#[local] Notation v := (value_at values).
#[local] Notation lt i j := (before values i j = true).

Lemma value_not_nan i : is_nan (v i) = false.
Proof.
  unfold value_at. destruct (values !! i) as [x|] eqn:E; [|done]. rewrite List.Forall_forall in Hnan.
  apply Hnan, list_elem_of_In. by eapply list_elem_of_lookup_2.
Qed.

Lemma before_irrefl i : before values i i = false.
Proof.
  unfold before. rewrite Nat.ltb_irrefl, andb_false_r, orb_false_r. destruct (fltb (v i) (v i)) eqn:E; [|done].
  destruct (flt_not_eq _ _ E). congruence.
Qed.

Lemma before_asym i j : lt i j -> before values j i = false.
Proof.
  unfold before. destruct (fltb (v i) (v j)) eqn:E1; cbn [orb].
  - intros _. destruct (flt_not_eq _ _ E1) as [_ ->]. done.
  - intros [H1 H2]%andb_true_iff. apply negb_true_iff in H1. rewrite H1. cbn [orb negb].
    apply Nat.ltb_lt in H2. by rewrite (proj2 (Nat.ltb_ge j i)) by lia.
Qed.

(** Inserting an index into sorted greater ones. *)
Lemma insert_before x l : StronglySorted (fun i j => lt i j) l -> Forall (fun y => (x < y)%nat) l ->
  StronglySorted (fun i j => lt i j) (insert_sorted (fun i j => negb (fltb (v j) (v i))) x l).
Proof.
  induction 1 as [|y l Hl IH Hy]; intros Hx; cbn [insert_sorted]; [by repeat constructor|].
  apply Forall_cons_iff in Hx as [Hxy Hx]. destruct (negb (fltb (v y) (v x))) eqn:E.
  - apply negb_true_iff in E. constructor; [by constructor|].
    apply List.Forall_forall. intros z Hz. unfold before. destruct Hz as [<-|Hz].
    + rewrite E. cbn [negb andb]. rewrite (proj2 (Nat.ltb_lt x y)) by done. by destruct (fltb (v x) (v y)).
    + rewrite List.Forall_forall in Hy, Hx. specialize (Hy _ Hz). specialize (Hx _ Hz).
      assert (fltb (v z) (v x) = false) as ->.
      { destruct (fltb (v z) (v x)) eqn:Ez; [|done]. exfalso.
        destruct (flt_weak_trans (v z) (v y) (v x)) as [H|H]; try apply value_not_nan; [done| |congruence].
        apply before_asym in Hy. unfold before in Hy. by rewrite H in Hy. }
      cbn [negb andb]. rewrite (proj2 (Nat.ltb_lt x z)) by done. by destruct (fltb (v x) (v z)).
  - apply negb_false_iff in E. constructor; [by apply IH|].
    apply List.Forall_forall. intros z Hz. rewrite List.Forall_forall in Hy.
    assert (z ∈ x :: l) as Hz'.
    { apply list_elem_of_In in Hz. by rewrite insert_sorted_perm in Hz. }
    apply list.elem_of_cons in Hz' as [->|Hz']; [unfold before; by rewrite E|]. apply Hy. by apply list_elem_of_In.
Qed.

Lemma index_order_sorted : StronglySorted (fun i j => lt i j) (index_order values).
Proof.
  unfold index_order, sort_by. generalize 0%nat. generalize (length values). intros n.
  induction n as [|n IH]; intros k; cbn [seq foldr]; [constructor|].
  apply insert_before; [apply IH|]. apply List.Forall_forall. intros y Hy%list_elem_of_In.
  fold (sort_by (fun i j => negb (fltb (v j) (v i))) (seq (S k) n)) in Hy. rewrite sort_by_perm in Hy.
  apply elem_of_seq in Hy. lia.
Qed.

Lemma index_order_perm : index_order values ≡ₚ seq 0 (length values).
Proof. apply sort_by_perm. Qed.

Lemma filter_length_perm {A} (f : A -> bool) l l' : l ≡ₚ l' -> length (List.filter f l) = length (List.filter f l').
Proof.
  induction 1 as [|x l l' _ IH|x y l|l1 l2 l3 _ IH1 _ IH2]; cbn [List.filter]; [done| | |congruence].
  - destruct (f x); cbn; congruence.
  - by destruct (f x), (f y).
Qed.
Lemma filter_all {A} (f : A -> bool) l : Forall (fun x => f x = true) l -> List.filter f l = l.
Proof. induction 1 as [|x l Hx _ IH]; [done|]. cbn. by rewrite Hx, IH. Qed.
Lemma sorted_split {A} (R : A -> A -> Prop) l1 x l2 : StronglySorted R (l1 ++ x :: l2)%list ->
  Forall (fun y => R y x) l1 /\ Forall (fun y => R x y) l2.
Proof.
  induction l1 as [|y l1 IH]; cbn [app]; intros H; apply StronglySorted_inv in H as [Hs Hf].
  - split; [constructor|done].
  - destruct (IH Hs) as [H1 H2]. split; [|done]. constructor; [|done].
    apply Forall_app in Hf as [_ Hf]. by apply Forall_cons_iff in Hf as [? _].
Qed.

(** The index at a position of the order has this rank. *)
Lemma rank_of_order pre i post : index_order values = (pre ++ i :: post)%list -> rank values i = length pre.
Proof.
  intros E. unfold rank. rewrite <- (filter_length_perm _ _ _ index_order_perm), E, filter_app, length_app.
  pose proof index_order_sorted as Hs. rewrite E in Hs. destruct (sorted_split _ _ _ _ Hs) as [H1 H2].
  rewrite (filter_all _ pre) by done. cbn [List.filter]. rewrite before_irrefl, filter_none; [cbn; lia|].
  eapply List.Forall_impl; [|exact H2]. intros y Hy. by apply before_asym.
Qed.
End Order.

(** ** Holm's procedure by ranks

    The smallest value is compared with [alpha / m], the next with
    [alpha / (m - 1)] and so on; a hypothesis is rejected if its value and all
    before it pass. *)

Section Reference.
Context (values : list float) (planned : Z) (alpha : float).

Definition meets (i : nat) : bool :=
  match holm_threshold planned alpha (Z.of_nat (rank values i)) with
  | Ok t => fleb (value_at values i) t
  | Raise _ => false
  end.
(** All values of a rank below [k] pass. *)
Definition passes (k : nat) : bool :=
  forallb (fun i => negb (rank values i <? k)%nat || meets i) (seq 0 (length values)).
Definition holm_decision (i : nat) : result HolmDecision :=
  let* t := holm_threshold planned alpha (Z.of_nat (rank values i)) in
  Ok {| hd_p_value := value_at values i; hd_threshold := t; hd_rejected := passes (S (rank values i)) |}.
Definition holm_reference : result (list HolmDecision) :=
  check_family values planned alpha ;;; mapM holm_decision (seq 0 (length values)).
End Reference.

Section Holm.
Context (values : list float) (planned : Z) (alpha : float) (Hnan : Forall (fun v => is_nan v = false) values).
#[local] Notation n := (length values).
#[local] Notation rk := (rank values).
#[local] Notation th i := (holm_threshold planned alpha (Z.of_nat (rk i))).
#[local] Notation passed := (passes values planned alpha).

(** The state after the indices of ranks below [k]. *)
Definition holm_inv (k : nat) (s : holm_state) : Prop :=
  hs_position s = Z.of_nat k /\ hs_stopped s = negb (passed k) /\
  length (hs_thresholds s) = n /\ length (hs_rejected s) = n /\
  forall i, (i < n)%nat ->
    (exists t, hs_thresholds s !! i = Some t /\ ((rk i < k)%nat -> th i = Ok t)) /\
    hs_rejected s !! i = Some ((rk i <? k)%nat && passed (S (rk i))).

Lemma passes_next k i : (i < n)%nat -> rk i = k -> (forall j, (j < n)%nat -> rk j = k -> j = i) ->
  passed (S k) = passed k && meets values planned alpha i.
Proof.
  intros Hi Hk Hu. apply eq_true_iff_eq. rewrite andb_true_iff. unfold passes. rewrite !List.forallb_forall.
  setoid_rewrite in_seq. setoid_rewrite orb_true_iff. setoid_rewrite negb_true_iff. setoid_rewrite Nat.ltb_ge. split.
  - intros H. split; [intros j Hj; destruct (H j Hj); [left; lia|by right]|].
    destruct (H i) as [?|Hm]; [lia|lia|exact Hm].
  - intros [H Hm] j Hj. destruct (decide (rk j = k)) as [E|]; [right; rewrite (Hu j); [exact Hm|lia|done]|].
    destruct (H j Hj); [|by right]. left. lia.
Qed.

Lemma order_unique pre i post : index_order values = (pre ++ i :: post)%list ->
  (i < n)%nat /\ rk i = length pre /\ forall j, (j < n)%nat -> rk j = length pre -> j = i.
Proof.
  intros E. pose proof (index_order_perm values) as Hp. rewrite E in Hp.
  assert (i ∈ seq 0 n) as Hi by (rewrite <- Hp; apply elem_of_app; right; left).
  apply elem_of_seq in Hi. split; [lia|]. pose proof (rank_of_order values Hnan _ _ _ E) as Hr. split; [done|].
  intros j Hj Hrj. assert (j ∈ (pre ++ i :: post)%list) as Hin by (rewrite Hp; apply elem_of_seq; lia).
  apply elem_of_app in Hin as [Hin|[->|Hin]%list.elem_of_cons]; [|done|]; exfalso.
  - apply list_elem_of_split in Hin as (a & b & ->). rewrite <- app_assoc in E. cbn in E.
    pose proof (rank_of_order values Hnan _ _ _ E) as Hj'. rewrite length_app in Hrj. cbn in Hrj. lia.
  - apply list_elem_of_split in Hin as (a & b & ->).
    assert (index_order values = (pre ++ i :: a) ++ j :: b)%list as E' by by rewrite E, <- app_assoc.
    pose proof (rank_of_order values Hnan _ _ _ E') as Hj'. rewrite length_app in Hj'. cbn in Hj'. lia.
Qed.

Lemma holm_step_inv pre i post s t : index_order values = (pre ++ i :: post)%list -> holm_inv (length pre) s ->
  th i = Ok t -> exists s', holm_step values planned alpha s i = Ok s' /\ holm_inv (S (length pre)) s'.
Proof.
  intros E (Hp & Hs & Ht & Hr & Hi) Hth. destruct (order_unique _ _ _ E) as (Hin & Hrk & Hu).
  pose proof (passes_next _ _ Hin Hrk Hu) as Hnext. unfold holm_step. rewrite Hp, <- Hrk, Hth. cbn [rbind].
  eexists. split; [done|]. set (reject := _ && _).
  assert (reject = passed (S (rk i))) as Erej.
  { unfold reject. rewrite Hrk, Hnext, Hs, negb_involutive. unfold meets. by rewrite Hth. }
  unfold holm_inv. cbn [hs_position hs_stopped hs_thresholds hs_rejected]. rewrite Erej, Hrk in *. split; [lia|].
  split; [done|]. split; [by rewrite length_insert|]. split; [destruct (passed (S (length pre))); [rewrite length_insert|]; exact Hr|].
  intros j Hj. destruct (Hi j Hj) as [(tj & Htj & Hjt) Hjr]. destruct (decide (j = i)) as [->|Hne].
  - split; [exists t; split; [by rewrite list_lookup_insert_eq by lia|by rewrite Hrk]|].
    rewrite Hrk, (proj2 (Nat.ltb_lt _ (S _))) by lia. cbn [andb].
    destruct (passed (S (length pre))) eqn:Ep; [by rewrite list_lookup_insert_eq by lia|].
    rewrite Hjr, Hrk. by rewrite Nat.ltb_irrefl.
  - assert (rk j <> length pre) as Hrj by (intros Hc; by apply Hne, Hu).
    split; [exists tj; split; [by rewrite list_lookup_insert_ne by done|intros ?; apply Hjt; lia]|].
    assert ((rk j <? S (length pre))%nat = (rk j <? length pre)%nat) as ->.
    { apply eq_true_iff_eq. rewrite !Nat.ltb_lt. lia. }
    destruct (passed (S (length pre))); [rewrite list_lookup_insert_ne by done|]; done.
Qed.

Lemma holm_fold_inv post : forall pre s, index_order values = (pre ++ post)%list -> holm_inv (length pre) s ->
  Forall (fun i => exists t, th i = Ok t) post ->
  exists s', foldM (holm_step values planned alpha) s post = Ok s' /\ holm_inv n s'.
Proof.
  induction post as [|i post IH]; intros pre s E Hinv Hf.
  - exists s. split; [done|]. rewrite app_nil_r in E. rewrite <- E in Hinv.
    by rewrite (Permutation_length (index_order_perm values)), length_seq in Hinv.
  - apply Forall_cons_iff in Hf as [[t Ht] Hf]. destruct (holm_step_inv _ _ _ _ _ E Hinv Ht) as (s' & Hs & Hinv').
    cbn [foldM]. rewrite Hs. cbn [rbind]. apply (IH (pre ++ [i])%list); [by rewrite <- app_assoc| |done].
    rewrite length_app. cbn. by rewrite Nat.add_1_r.
Qed.

(** A fold that returns has found all thresholds. *)
Lemma holm_fold_thresholds post : forall pre s s', index_order values = (pre ++ post)%list ->
  hs_position s = Z.of_nat (length pre) -> foldM (holm_step values planned alpha) s post = Ok s' ->
  Forall (fun i => exists t, th i = Ok t) post.
Proof.
  induction post as [|i post IH]; intros pre s s' E Hp H; [constructor|]. cbn [foldM] in H.
  apply rbind_Ok in H as (s1 & Hs & H). destruct (order_unique _ _ _ E) as (_ & Hrk & _).
  unfold holm_step in Hs. rewrite Hp, <- Hrk in Hs. apply rbind_Ok in Hs as (t & Ht & Hs). apply Ok_inj in Hs. subst s1.
  constructor; [by exists t|]. apply (IH (pre ++ [i])%list) in H; [done|by rewrite <- app_assoc|].
  cbn. rewrite Hrk, length_app. cbn. lia.
Qed.

Definition holm_start : holm_state :=
  {| hs_position := 0; hs_thresholds := replicate n zero; hs_rejected := replicate n false; hs_stopped := false |}.
Lemma holm_start_inv : holm_inv 0 holm_start.
Proof.
  unfold holm_inv, holm_start. cbn. split; [done|]. split.
  - symmetry. apply negb_false_iff. unfold passes. apply List.forallb_forall. by intros i _.
  - rewrite !length_replicate. split; [done|]. split; [done|]. intros i Hi. rewrite !lookup_replicate_2 by done.
    split; [|done]. exists zero. split; [done|]. lia.
Qed.

Lemma decisions_lookup vs ts rs i : length ts = length vs -> length rs = length vs ->
  decisions_of vs ts rs !! i = match vs !! i, ts !! i, rs !! i with
                               | Some v, Some t, Some r => Some {| hd_p_value := v; hd_threshold := t; hd_rejected := r |}
                               | _, _, _ => None
                               end.
Proof.
  revert ts rs i. induction vs as [|v vs IH]; intros [|t ts] [|r rs] i Ht Hr; try done.
  destruct i as [|i]; [done|]. cbn in *. apply IH; congruence.
Qed.

Lemma holm_inv_result s : holm_inv n s -> (forall i, (i < n)%nat -> (rk i < n)%nat) ->
  mapM (holm_decision values planned alpha) (seq 0 n) = Ok (decisions_of values (hs_thresholds s) (hs_rejected s)).
Proof.
  intros (_ & _ & Ht & Hr & Hi) Hlt. apply mapM_Ok. apply Forall2_same_length_lookup_2.
  - assert (forall vs ts rs, length ts = length vs -> length rs = length vs -> length (decisions_of vs ts rs) = length vs) as Hl.
    { induction vs as [|x vs IH]; intros [|t ts] [|r rs] ? ?; try done. cbn in *. f_equal. apply IH; congruence. }
    by rewrite Hl, length_seq.
  - intros k i d Hk Hd. rewrite lookup_seq in Hk. destruct Hk as [-> Hk]. cbn [Nat.add] in *.
    rewrite decisions_lookup in Hd by done. destruct (Hi _ Hk) as [(t & Ht' & Hth) Hr']. rewrite Ht', Hr' in Hd.
    destruct (values !! k) as [x|] eqn:Ex; [|done]. injection Hd as <-. unfold holm_decision. rewrite (Hth (Hlt _ Hk)). cbn [rbind].
    unfold value_at. rewrite Ex. by rewrite (proj2 (Nat.ltb_lt _ _) (Hlt _ Hk)).
Qed.

Lemma rank_lt i : (i < n)%nat -> (rk i < n)%nat.
Proof.
  intros Hi. assert (i ∈ index_order values) as Hin by (rewrite index_order_perm; apply elem_of_seq; lia).
  apply list_elem_of_split in Hin as (a & b & E). rewrite (rank_of_order values Hnan _ _ _ E).
  pose proof (Permutation_length (index_order_perm values)) as Hl. rewrite E, length_seq, length_app in Hl. cbn in Hl. lia.
Qed.

Lemma holm_fold_iff ds :
  (let* s := foldM (holm_step values planned alpha) holm_start (index_order values) in
   Ok (decisions_of values (hs_thresholds s) (hs_rejected s))) = Ok ds <->
  mapM (holm_decision values planned alpha) (seq 0 n) = Ok ds.
Proof.
  split.
  - intros H. apply rbind_Ok in H as (s & Hs & H). apply Ok_inj in H. subst ds.
    pose proof (holm_fold_thresholds _ [] holm_start s eq_refl eq_refl Hs) as Hf.
    destruct (holm_fold_inv _ [] _ eq_refl holm_start_inv Hf) as (s' & Hs' & Hinv). rewrite Hs in Hs'. injection Hs' as <-.
    apply holm_inv_result; [done|apply rank_lt].
  - intros H. assert (Forall (fun i => exists t, th i = Ok t) (index_order values)) as Hf.
    { rewrite index_order_perm. apply mapM_Ok in H. apply List.Forall_forall. intros i Hi%list_elem_of_In.
      destruct (Forall2_elem_l _ _ _ _ H Hi) as (d & _ & Hd). unfold holm_decision in Hd.
      apply rbind_Ok in Hd as (t & Ht & _). by exists t. }
    destruct (holm_fold_inv _ [] _ eq_refl holm_start_inv Hf) as (s' & Hs' & Hinv). rewrite Hs'. cbn [rbind].
    rewrite <- H. symmetry. apply holm_inv_result; [done|apply rank_lt].
Qed.
End Holm.

Lemma valid_not_nan p : valid_p_value p = true -> is_nan p = false.
Proof. unfold valid_p_value. rewrite !andb_true_iff. intros [_ H]. by apply isfinite_not_nan. Qed.

Lemma check_family_valid values planned alpha u : check_family values planned alpha = Ok u ->
  Forall (fun p => valid_p_value p = true) values /\ Z.of_nat (length values) <= planned.
Proof.
  unfold check_family. intros H. apply rbind_Ok in H as (u1 & H1 & H). apply rbind_Ok in H as (u2 & H2 & H).
  apply rbind_Ok in H as (u3 & H3 & H). apply raise_if_Ok in H1. apply iterM_Ok in H. split; [|lia].
  eapply List.Forall_impl; [|exact H]. intros p Hp. cbv beta in Hp. apply raise_if_Ok in Hp. by apply negb_false_iff in Hp.
Qed.

Lemma holm_iff values planned alpha ds :
  holm_decisions values planned alpha = Ok ds <-> holm_reference values planned alpha = Ok ds.
Proof.
  unfold holm_decisions, holm_reference. destruct (check_family values planned alpha) as [u|e] eqn:Hc; [|done].
  cbn [rbind]. apply holm_fold_iff. destruct (check_family_valid _ _ _ _ Hc) as [Hv _].
  eapply List.Forall_impl; [|exact Hv]. apply valid_not_nan.
Qed.

Lemma holm_decisions_length values planned alpha ds : holm_decisions values planned alpha = Ok ds -> length ds = length values.
Proof.
  intros E%holm_iff. apply rbind_Ok in E as (u & _ & E). apply mapM_Ok, Forall2_length in E. by rewrite length_seq in E.
Qed.

(** C34: The correction decides as its definition by ranks: the results are those of
    Holm's procedure, in the order of the arguments, with ties broken by
    position; the two return for the same arguments. *)
Theorem holm_is_reference values planned alpha ds :
  holm_decisions values planned alpha = Ok ds <-> holm_reference values planned alpha = Ok ds.
Proof. apply holm_iff. Qed.

(** ** Quantiles of the t distribution *)

Section Quantile.
Context `{Libm}.

Lemma fdiv_steady x y : steady (fdiv x y).
Proof. by destruct y. Qed.
Lemma float_of_Z_steady z : steady (float_of_Z z).
Proof. unfold float_of_Z. by destruct (isfinite _). Qed.
Lemma truediv_steady a b : steady (truediv a b).
Proof. unfold truediv. destruct (b =? 0); [done|]. by destruct (isfinite _). Qed.
Lemma math_log_steady x : steady (math_log x).
Proof. by destruct x as [s|[]| |[] m e]. Qed.
Lemma math_log1p_steady x : steady (math_log1p x).
Proof. unfold math_log1p. destruct x as [s|[]| |s m e]; try done; by destruct (fltb _ _). Qed.
Lemma math_exp_steady x : steady (math_exp x).
Proof. unfold math_exp. destruct x as [s|[]| |s m e]; try done; by destruct (c_exp _). Qed.
Lemma math_lgamma_steady x : steady (math_lgamma x).
Proof. unfold math_lgamma. destruct x as [s|s| |s m e]; try done; by destruct (c_lgamma _). Qed.

Hint Resolve fdiv_steady float_of_Z_steady truediv_steady math_log_steady math_log1p_steady math_exp_steady math_lgamma_steady : k8.
Lemma fraction_step_steady co c d : steady (fraction_step co c d).
Proof. unfold fraction_step. solve_steady. Qed.
Hint Resolve fraction_step_steady : k8.
Lemma beta_loop_steady n : forall i a b x c d r, steady (beta_loop n i a b x c d r).
Proof. induction n as [|n IH]; intros; cbn [beta_loop]; [done|]. solve_steady. Qed.
Hint Resolve beta_loop_steady : k8.
Lemma beta_fraction_steady a b x : steady (beta_fraction a b x).
Proof. unfold beta_fraction. solve_steady. Qed.
Hint Resolve beta_fraction_steady : k8.
Lemma student_t_cdf_steady x df : steady (student_t_cdf x df).
Proof. unfold student_t_cdf, regularized_incomplete_beta. solve_steady. Qed.

(** Far out the CDF is one: the ratio of the degrees of freedom to the square
    of the argument is zero. *)
Definition far : float := flit (2 ^ 512) 1.
Lemma float_of_Z_finite z x : float_of_Z z = Ok x -> isfinite x = true.
Proof. unfold float_of_Z. destruct (isfinite _) eqn:E; [|done]. by intros [= <-]. Qed.
Lemma over_infinity x : isfinite x = true -> exists s, fdiv x (fadd x (S754_infinity false)) = Ok (S754_zero s).
Proof. destruct x as [s|s| |s m e]; try done; by eexists. Qed.

Lemma cdf_far df p : student_t_cdf far df = Ok p -> p = one.
Proof.
  unfold student_t_cdf. assert (feqb far zero = false) as -> by by vm_compute.
  intros H0. apply rbind_Ok in H0 as (x & Hx & H0).
  assert (fmul far far = S754_infinity false) as E by (by vm_compute). rewrite E in H0.
  destruct (over_infinity x (float_of_Z_finite _ _ Hx)) as [s Es].
  rewrite Es in H0. cbn [rbind] in H0. apply rbind_Ok in H0 as (a & _ & H0).
  assert (regularized_incomplete_beta (S754_zero s) a half = Ok zero) as Eb by by destruct s.
  rewrite Eb in H0. cbn [rbind] in H0. apply Ok_inj in H0. subst p. by vm_compute.
Qed.

Lemma doubled_far : Nat.iter 512 (fun x => fmul x two) one = far.
Proof. vm_compute. reflexivity. Qed.

(** The search for the upper end ends there at the latest. *)
Lemma upper_end_steady p df k : (k <= 512)%nat -> fltb one p = false ->
  steady (upper_end (S k) p df (Nat.iter (512 - k) (fun x => fmul x two) one)).
Proof.
  intros Hk Hp. induction k as [|k IH]; cbn [upper_end].
  - rewrite Nat.sub_0_r, doubled_far. destruct (student_t_cdf far df) as [c|e] eqn:E; cbn [rbind].
    + apply cdf_far in E as ->. by rewrite Hp.
    + pose proof (student_t_cdf_steady far df) as Hs. by rewrite E in Hs.
  - pose proof (student_t_cdf_steady (Nat.iter (512 - S k) (fun x => fmul x two) one) df) as Hs.
    destruct (student_t_cdf _ df) as [c|e]; cbn [rbind]; [|done]. destruct (fltb c p); [|done].
    assert (512 - k = S (512 - S k))%nat as E by lia. rewrite E in IH. apply IH. lia.
Qed.

Lemma upper_end_reaches p df fuel : forall high x, upper_end fuel p df high = Ok x ->
  exists c, student_t_cdf x df = Ok c /\ fltb c p = false.
Proof.
  induction fuel as [|fuel IH]; intros high x; cbn [upper_end]; [done|]. intros H0.
  apply rbind_Ok in H0 as (c & Hc & H0). destruct (fltb c p) eqn:E; [by eapply IH|]. apply Ok_inj in H0. subst x. by exists c.
Qed.

Lemma bisect_steady n p df : forall low high, steady (bisect n p df low high).
Proof. induction n as [|n IH]; intros; cbn [bisect]; solve_steady; apply student_t_cdf_steady. Qed.

(** The CDF is below the probability at the low end, and not at the high one. *)
Definition bracketed (p : float) (df : Z) (low high : float) : Prop :=
  (exists c, student_t_cdf low df = Ok c /\ fltb c p = true) /\
  (exists c, student_t_cdf high df = Ok c /\ fltb c p = false).

Lemma bisect_bracketed n p df : forall low high low' high', bracketed p df low high ->
  bisect n p df low high = Ok (low', high') -> bracketed p df low' high'.
Proof.
  induction n as [|n IH]; intros low high low' high' [Hl Hh]; cbn [bisect].
  - intros E. apply Ok_inj in E. by injection E as <- <-.
  - intros H0. apply rbind_Ok in H0 as (middle & _ & H0). apply rbind_Ok in H0 as (c & Hc & H0).
    destruct (fltb c p) eqn:E; eapply IH; [|exact H0| |exact H0]; split; try done; by exists c.
Qed.

Lemma quantile_upper p df : fltb half p = true -> fltb p one = true -> 1 <= df -> forall depth,
  student_t_quantile depth p df =
    let* high := upper_end DOUBLINGS p df one in
    let* (low, high) := bisect 80 p df zero high in
    fdiv (fadd low high) two.
Proof.
  intros Hh H1 Hdf depth. assert (feqb p half = false /\ fltb p half = false) as [E1 E2].
  { rewrite feq_sym. by apply flt_not_eq. }
  assert (fltb zero p = true) as H0 by (eapply flt_trans; [|exact Hh]; by vm_compute).
  assert (df <? 1 = false) as Ed by lia.
  destruct depth; cbn [student_t_quantile]; rewrite H0, H1, Ed, E1, E2; done.
Qed.

Lemma quantile_ends p df : fltb half p = true -> fltb p one = true -> 1 <= df ->
  steady (student_t_quantile 1 p df) /\
  forall x, student_t_quantile 1 p df = Ok x ->
    exists low high, bracketed p df low high /\ fdiv (fadd low high) two = Ok x.
Proof.
  intros Hh H1 Hdf. rewrite quantile_upper by done.
  assert (fltb one p = false) as H1' by by apply flt_not_eq in H1 as [_ ?]. split.
  - apply World.steady_bind; [|intros high; apply World.steady_bind; [apply bisect_steady|intros [low high']; apply fdiv_steady]].
    assert (forall fuel k high, (k <= fuel)%nat -> steady (upper_end k p df high) -> steady (upper_end fuel p df high)) as Hmore.
    { induction fuel as [|fuel IH]; intros k high Hk; [by assert (k = O) as -> by lia|].
      destruct k as [|k]; [cbn; congruence|].
      cbn [upper_end]. destruct (student_t_cdf high df) as [c|e]; cbn [rbind]; [|done].
      destruct (fltb c p); [apply IH; lia|done]. }
    apply (Hmore _ 513%nat); [unfold DOUBLINGS; lia|]. by apply (upper_end_steady p df 512).
  - intros x H0. apply rbind_Ok in H0 as (high & Hu & H0). apply rbind_Ok in H0 as ([low high'] & Hb & H0).
    exists low, high'. split; [|exact H0]. eapply bisect_bracketed; [|exact Hb]. split.
    + exists half. split; [by vm_compute|done].
    + by eapply upper_end_reaches.
Qed.
End Quantile.

(** The inversion of the t distribution ends, whatever the functions of the C
    library give: at most 513 doublings are tried, as the CDF is one at
    [2 ^ 512].  A quantile it returns is the middle of two points between which
    the computed CDF crosses the probability. *)
Theorem student_t_quantile_ends (L : Libm) p df : fltb half p = true -> fltb p one = true -> 1 <= df ->
  steady (student_t_quantile 1 p df) /\
  forall x, student_t_quantile 1 p df = Ok x ->
    exists low high, bracketed p df low high /\ fdiv (fadd low high) two = Ok x.
Proof. apply quantile_ends. Qed.

(** Functions that are exact enough to run the program: a rational
    approximation would do; constants suffice to reach every step. *)
#[local] Instance flat_libm : Libm := {| c_log _ := zero; c_log1p _ := zero; c_exp _ := one; c_lgamma _ := zero |}.

Lemma student_t_quantile_ends_witness :
  steady (student_t_quantile 1 (flit 975 1000) 2) /\
  forall x, student_t_quantile 1 (flit 975 1000) 2 = Ok x ->
    exists low high, bracketed (flit 975 1000) 2 low high /\ fdiv (fadd low high) two = Ok x.
Proof. refine (student_t_quantile_ends flat_libm (flit 975 1000) 2 _ _ _); vm_compute; first [reflexivity|discriminate]. Defined.

Example flat_quantile : exists x, student_t_quantile 1 (flit 975 1000) 2 = Ok x.
Proof. eexists. vm_compute. reflexivity. Qed.
