(* ===== verification/Design.v ===== *)
(** [cpu-limits/experiments/design.py]: the frozen block design of the CPU-limit
    experiments and its seeded schedule.  Draws are those of [Campaign.v]. *)

From Stdlib Require Import ZArith Bool Ascii String Lia.
From stdpp Require Import base list strings option pretty.
From S2P Require Import Prelude PyStr PyVal Json Campaign.

Open Scope string_scope.
Open Scope Z_scope.

Definition WORKLOADS : list string := ["cpu-bound"; "io-bound"; "memory-bound"; "hybrid"].
Definition POLICIES : list string :=
  ["fit"; "best-effort"; "request-low"; "request-high"; "guaranteed-low"; "burstable-low"].
Definition CONDITIONS : list string := ["solo"; "contention"].
Definition SOLO_POLICIES : list string := ["fit"; "best-effort"; "request-low"; "burstable-low"].
Definition CONTENTION_POLICIES : list string :=
  ["fit"; "request-low"; "request-high"; "guaranteed-low"; "burstable-low"].

(** The millicores of a workload: fit and low. *)
Definition CPU_VALUES : list (string * (Z * Z)) :=
  [("cpu-bound", (2000, 500)); ("io-bound", (1000, 250)); ("memory-bound", (1000, 500)); ("hybrid", (1000, 500))].
Definition LOW_REQUEST_MILLICORES : Z := 100.

Record Cell : Type := {
  cell_id : string; workload : string; policy : string; condition : string;
  request_millicores : option Z; limit_millicores : option Z
}.

Definition cpu_values (workload : string) : result (Z * Z) :=
  match List.find (fun p => String.eqb (fst p) workload) CPU_VALUES with
  | Some p => Ok (snd p)
  | None => Raise (Exn KeyError workload)
  end.

Definition resources_for (workload policy : string) : result (option Z * option Z) :=
  raise_if (negb (mem_string workload WORKLOADS)) ValueError ("unknown workload: " +:+ workload) ;;;
  raise_if (negb (mem_string policy POLICIES)) ValueError ("unknown policy: " +:+ policy) ;;;
  let* (fit, low) := cpu_values workload in
  Ok (if String.eqb policy "fit" then (Some fit, Some fit)
      else if String.eqb policy "best-effort" then (None, None)
      else if String.eqb policy "request-low" then (Some LOW_REQUEST_MILLICORES, None)
      else if String.eqb policy "request-high" then (Some fit, None)
      else if String.eqb policy "guaranteed-low" then (Some low, Some low)
      else (Some LOW_REQUEST_MILLICORES, Some low)).

Definition policies_by_condition (condition : string) : list string :=
  if String.eqb condition "solo" then SOLO_POLICIES else CONTENTION_POLICIES.

Definition make_design_cell (c : string * string * string) : result Cell :=
  let '(condition, workload, policy) := c in
  let* (request, limit) := resources_for workload policy in
  Ok {| cell_id := condition +:+ "-" +:+ workload +:+ "-" +:+ policy; workload := workload; policy := policy;
        condition := condition; request_millicores := request; limit_millicores := limit |}.

(** The three nested loops. *)
Definition design_cells : result (list Cell) :=
  mapM make_design_cell
    (flat_map (fun condition => flat_map (fun workload =>
       (fun policy => (condition, workload, policy)) <$> policies_by_condition condition) WORKLOADS) CONDITIONS).

(** [CELLS = cells()] at import. *)
Definition CELLS : list Cell := match design_cells with Ok l => l | Raise _ => [] end.

(** ** The schedule *)

(** [random.sample(population, k=len(population))] for a population of at most
    277: the pool is copied, and each chosen element is replaced by the last one
    not chosen.  [k] draws were made, [m] elements are left. *)
Fixpoint sample_pool {A} (draw : nat -> nat -> nat) (k m : nat) (pool : list A) : list A :=
  match m with
  | O => []
  | S m' =>
      match pool !! draw k m, pool !! m' with
      | Some x, Some y => x :: sample_pool draw (S k) m' (<[draw k m := y]> pool)
      | _, _ => []
      end
  end.

(** [n] samples in a row from one generator. *)
Fixpoint samples {A} (draw : nat -> nat -> nat) (k n : nat) (population : list A) : list (list A) :=
  match n with
  | O => []
  | S n' => sample_pool draw k (length population) population ::
            samples draw (k + length population) n' population
  end.

Definition schedule `{Rng} (blocks seed : Z) : result (list (list Cell)) :=
  raise_if (blocks <? 1) ValueError "blocks must be at least one" ;;;
  Ok (samples (randbelow seed) 0 (Z.to_nat blocks) CELLS).

(** ** Validation *)

Definition expected_counts : list (string * nat) := [("solo", 16%nat); ("contention", 20%nat)].

Definition str_of_nat (n : nat) : string := str_of_Z (Z.of_nat n).

(** [if b: errors.append(msg)] *)
Definition error_if (b : bool) (msg : string) : list string := if b then [msg] else [].

Definition count_errors (cs : list Cell) (e : string * nat) : list string :=
  let n := length (List.filter (fun c => String.eqb (condition c) (fst e)) cs) in
  error_if (negb (n =? snd e)%nat)
    (fst e +:+ " must contain " +:+ str_of_nat (snd e) +:+ " cells, found " +:+ str_of_nat n).

Definition cell_errors (c : Cell) : list string :=
  let name := cell_id c in
  let allowed := if String.eqb (condition c) "solo" then SOLO_POLICIES else CONTENTION_POLICIES in
  let negative v := match v with Some n => n <? 0 | None => false end in
  (error_if (negb (mem_string (workload c) WORKLOADS)) (name +:+ ": unknown workload") ++
   error_if (negb (mem_string (policy c) POLICIES)) (name +:+ ": unknown policy") ++
   error_if (negb (mem_string (condition c) CONDITIONS)) (name +:+ ": unknown condition") ++
   error_if (negb (mem_string (policy c) allowed)) (name +:+ ": policy is not valid for condition") ++
   error_if (negative (request_millicores c)) (name +:+ ": negative request") ++
   error_if (negative (limit_millicores c)) (name +:+ ": negative limit") ++
   error_if (match request_millicores c, limit_millicores c with
             | Some r, Some l => l <? r
             | _, _ => false
             end) (name +:+ ": request exceeds limit"))%list.

Definition validate_cells (cs : list Cell) : list string :=
  (error_if (negb (length cs =? 36)%nat) ("expected 36 cells, found " +:+ str_of_nat (length cs)) ++
   error_if (has_dup (cell_id <$> cs)) "cell identifiers are not unique" ++
   flat_map (count_errors cs) expected_counts ++
   flat_map cell_errors cs)%list.
Definition validate_design : list string := validate_cells CELLS.

(** ** The command line *)

Record design_args : Type := { da_validate : bool; da_blocks : Z; da_seed : Z; da_json : bool }.

Definition opt_int (v : option Z) : pyval := match v with Some n => VInt n | None => VNone end.
Definition cell_dict (c : Cell) : pyval :=
  VDict [ ("cell_id", VStr (cell_id c)); ("workload", VStr (workload c)); ("policy", VStr (policy c));
          ("condition", VStr (condition c)); ("request_millicores", opt_int (request_millicores c));
          ("limit_millicores", opt_int (limit_millicores c)) ].

(** [f"{n:02d}"] for a positive number. *)
Definition two_digits (n : nat) : string := if (n <? 10)%nat then "0" +:+ str_of_nat n else str_of_nat n.

Definition cell_line (index : nat) (c : Cell) : string :=
  let show v := match v with Some n => str_of_Z n | None => "none" end in
  "block-" +:+ two_digits index +:+ " " +:+ cell_id c +:+ " request=" +:+ show (request_millicores c) +:+
  "m limit=" +:+ show (limit_millicores c) +:+ "m".

(** [enumerate(blocks, start=1)] *)
Definition numbered {A} (l : list A) : list (nat * A) := (fun p => (S (fst p), snd p)) <$> enumerate l.

(** The exit status and the printed lines. *)
Definition design_main `{Rng} (args : design_args) : result (Z * list string) :=
  let errors := validate_design in
  if da_validate args then
    let ok := match errors with [] => true | _ => false end in
    Ok (if ok then 0 else 1,
        if da_json args then
          [json_plain true (VDict [ ("valid", VBool ok); ("errors", VList (VStr <$> errors));
                                    ("cell_count", VInt (Z.of_nat (length CELLS))) ])]
        else if ok then ["VALID: 36 cells"] else ["INVALID"; join newline errors])
  else
    match schedule (da_blocks args) (da_seed args) with
    | Raise e => if caught_by [ValueError] e then Raise (Exn SystemExit (exn_msg e)) else Raise e
    | Ok blocks =>
        Ok (0,
            if da_json args then
              [json_plain true (VDict [ ("seed", VInt (da_seed args));
                 ("blocks", VList ((fun b => VDict [("block", VInt (Z.of_nat (fst b)));
                                                    ("cells", VList (cell_dict <$> snd b))]) <$> numbered blocks)) ])]
            else flat_map (fun b => cell_line (fst b) <$> snd b) (numbered blocks))
    end.

(** ** Theorems *)

Lemma CELLS_ok : design_cells = Ok CELLS.
Proof. reflexivity. Qed.

(** The chosen element and those that are left. *)
Lemma pool_step {A} (pool : list A) j m x y :
  pool !! j = Some x -> pool !! m = Some y -> (j <= m)%nat -> x :: take m (<[j := y]> pool) ≡ₚ take (S m) pool.
Proof.
  intros Hx Hy Hj. rewrite (take_S_r pool m y Hy). apply lookup_lt_Some in Hy as Hm.
  destruct (decide (j = m)) as [->|Hne].
  - rewrite take_insert_ge by lia. assert (x = y) as -> by congruence. by rewrite Permutation_cons_append.
  - rewrite take_insert_lt by lia. rewrite <- Permutation_cons_append.
    assert (take m pool !! j = Some x) as Htx by (rewrite lookup_take_lt by lia; done).
    rewrite (insert_take_drop _ j) by (rewrite length_take; lia).
    rewrite <- (take_drop_middle _ _ _ Htx) at 3. rewrite <- !Permutation_middle.
    constructor.
Qed.

Definition fair (draw : nat -> nat -> nat) : Prop := forall k n, (0 < n)%nat -> (draw k n < n)%nat.

(** A draw below the number of elements left picks each of them once. *)
Lemma sample_pool_perm {A} (draw : nat -> nat -> nat) m : forall k (pool : list A),
  fair draw -> (m <= length pool)%nat -> sample_pool draw k m pool ≡ₚ take m pool.
Proof.
  induction m as [|m IH]; intros k pool Hd Hm; cbn [sample_pool]; [done|].
  pose proof (Hd k (S m) ltac:(lia)) as Hj. set (j := draw k (S m)) in *.
  destruct (lookup_lt_is_Some_2 pool j) as [x Hx]; [lia|]. destruct (lookup_lt_is_Some_2 pool m) as [y Hy]; [lia|].
  rewrite Hx, Hy, IH; [|done|rewrite length_insert; lia]. by apply pool_step; [| |lia].
Qed.

Lemma sample_pool_ext {A} (draw draw' : nat -> nat -> nat) m : forall k (pool : list A),
  (forall k' n, (k <= k')%nat -> draw k' n = draw' k' n) -> sample_pool draw k m pool = sample_pool draw' k m pool.
Proof.
  induction m as [|m IH]; intros k pool He; cbn [sample_pool]; [done|]. rewrite (He k) by lia.
  destruct (pool !! draw' k (S m)) as [x|]; [|done]. destruct (pool !! m) as [y|]; [|done]. f_equal. apply IH. intros k' n' Hk. apply He. lia.
Qed.

(** Every order can be drawn. *)
Lemma sample_pool_onto {A} m : forall k (pool l : list A),
  (m <= length pool)%nat -> l ≡ₚ take m pool -> exists draw, fair draw /\ sample_pool draw k m pool = l.
Proof.
  induction m as [|m IH]; intros k pool l Hm Hl.
  { exists (fun _ _ => 0%nat). split; [intros ? ? ?; lia|]. symmetry. by apply Permutation_nil_r. }
  pose proof (Permutation_length Hl) as Hlen. rewrite length_take in Hlen. destruct l as [|x l]; [cbn [length] in Hlen; lia|].
  assert (x ∈ take (S m) pool) as (j & Hj)%list_elem_of_lookup_1 by (rewrite <- Hl; by left).
  apply lookup_take_Some in Hj as [Hx Hj]. destruct (lookup_lt_is_Some_2 pool m) as [y Hy]; [lia|].
  destruct (IH (S k) (<[j := y]> pool) l) as (draw & Hd & E).
  { rewrite length_insert. lia. }
  { apply (Permutation_cons_inv (a := x)). rewrite Hl. symmetry. apply pool_step; [done|done|lia]. }
  exists (fun k' n => if decide (k' = k /\ n = S m) then j else draw k' n). split.
  - intros k' n Hn. case_decide as Hk; [lia|]. by apply Hd.
  - cbn [sample_pool]. rewrite decide_True, Hx, Hy by done. f_equal. rewrite <- E. apply sample_pool_ext.
    intros k' n Hk. rewrite decide_False; [done|lia].
Qed.

Lemma samples_perm {A} (draw : nat -> nat -> nat) (population : list A) n : forall k,
  fair draw ->
  length (samples draw k n population) = n /\ Forall (fun b => b ≡ₚ population) (samples draw k n population).
Proof.
  intros k Hd. revert k. induction n as [|n IH]; intros k; cbn [samples]; [by split|].
  destruct (IH (k + length population)%nat) as [Hl Hf]. cbn [length]. split; [by rewrite Hl|].
  constructor; [|done]. rewrite sample_pool_perm by done. by rewrite take_ge.
Qed.

(** *** The design as the plan freezes it

    Every workload with its fit and low millicores, alone under four policies and
    under contention under five. *)

Definition planned_workloads : list (string * Z * Z) :=
  [("cpu-bound", 2000, 500); ("io-bound", 1000, 250); ("memory-bound", 1000, 500); ("hybrid", 1000, 500)].
Definition planned_policies : list (string * string) :=
  [("solo", "fit"); ("solo", "best-effort"); ("solo", "request-low"); ("solo", "burstable-low");
   ("contention", "fit"); ("contention", "request-low"); ("contention", "request-high");
   ("contention", "guaranteed-low"); ("contention", "burstable-low")].
(** A policy's request and limit, from the workload's fit and low. *)
Definition planned_resources (fit low : Z) : list (string * option Z * option Z) :=
  [("fit", Some fit, Some fit); ("best-effort", None, None); ("request-low", Some 100, None); ("request-high", Some fit, None);
   ("guaranteed-low", Some low, Some low); ("burstable-low", Some 100, Some low)].

Definition planned (c : Cell) : Prop :=
  (condition c, policy c) ∈ planned_policies /\
  Exists (fun w => workload c = fst (fst w) /\
     (policy c, request_millicores c, limit_millicores c) ∈ planned_resources (snd (fst w)) (snd w)) planned_workloads /\
  cell_id c = condition c +:+ "-" +:+ workload c +:+ "-" +:+ policy c.

#[local] Instance Cell_eq_dec : EqDecision Cell.
Proof. solve_decision. Defined.

Lemma CELLS_planned c : c ∈ CELLS <-> planned c.
Proof.
  split.
  - unfold planned. revert c. apply Forall_forall, (bool_decide_unpack _). vm_compute. exact I.
  - intros (Hp & (((w0 & fit) & low) & Hin & Hw & Hr)%Exists_exists & Hid). destruct c as [i w p cond r l]. cbn in *. subst i.
    unfold planned_policies, planned_workloads, planned_resources in *.
    repeat first [apply list.elem_of_cons in Hp as [[= -> ->]|Hp]|by apply not_elem_of_nil in Hp];
    repeat first [apply list.elem_of_cons in Hin as [[= -> -> ->]|Hin]|by apply not_elem_of_nil in Hin]; subst w;
    repeat first [apply list.elem_of_cons in Hr as [E|Hr]; [try discriminate E; injection E as -> ->|]|by apply not_elem_of_nil in Hr].
    all: apply (bool_decide_unpack _); vm_compute; exact I.
Qed.

(** C21: Whatever the generator draws, a schedule has the requested number of
    blocks, each a permutation of the cells: the 36 that the plan freezes, no
    other, each once, with the request and limit that the plan gives it; they
    pass the design's own validation.  Every order of the cells can be drawn.
    Fewer than one block is refused with [ValueError]. *)
Theorem schedule_sound `{Rng} blocks seed :
  (forall c, c ∈ CELLS <-> planned c) /\
  length CELLS = 36%nat /\ NoDup (cell_id <$> CELLS) /\ validate_design = [] /\
  (forall order, order ≡ₚ CELLS -> exists R : Rng, @schedule R 1 seed = Ok [order]) /\
  match schedule blocks seed with
  | Ok bs => 1 <= blocks /\ Z.of_nat (length bs) = blocks /\ Forall (fun b => b ≡ₚ CELLS) bs
  | Raise e => blocks < 1 /\ exn_cls e = ValueError
  end.
Proof.
  split; [exact CELLS_planned|].
  split; [reflexivity|]. split; [apply has_dup_false; reflexivity|]. split; [reflexivity|]. split.
  { intros order Ho. destruct (sample_pool_onto (length CELLS) 0 CELLS order) as (draw & Hd & E); [done|by rewrite take_ge|].
    exists {| randbelow := fun _ => draw; randbelow_lt := fun _ => Hd |}. unfold schedule. cbn [raise_if rbind].
    change (Z.to_nat 1) with 1%nat. cbn [samples randbelow]. by rewrite E. }
  unfold schedule. destruct (blocks <? 1) eqn:E; cbn [raise_if rbind]; bool_hyps; [by split|].
  destruct (samples_perm (randbelow seed) CELLS (Z.to_nat blocks) 0 (randbelow_lt seed)) as [Hl Hf].
  split; [lia|]. split; [rewrite Hl; lia|done].
Qed.

(** ** A concrete schedule *)

(** Always the first of those that are left. *)
#[local] Instance first_rng : Rng.
Proof. refine {| randbelow := fun _ _ _ => 0%nat |}. done. Defined.

Lemma schedule_sound_witness :
  match schedule 2 7 with
  | Ok bs => 1 <= 2 /\ Z.of_nat (length bs) = 2 /\ Forall (fun b => b ≡ₚ CELLS) bs
  | Raise e => 2 < 1 /\ exn_cls e = ValueError
  end.
Proof. apply (schedule_sound 2 7). Defined.
