(* ===== verification/Workloads.v ===== *)
(** [cpu-limits/workloads/render.py]: Pod names, CPU resources of a policy and
    the rendering of a workload manifest.  [yaml.safe_load_all] is a parameter;
    reading the manifest file is the result it is given. *)

From Stdlib Require Import ZArith Bool Ascii String Lia.
From stdpp Require Import base list strings option pretty.
From S2P Require Import Prelude PyStr PyRe PyVal Sha256 Campaign Design.

Open Scope string_scope.
Open Scope Z_scope.

(** ** [hashlib.sha1] *)

Module Sha1.
Definition rotl (n x : Z) : Z := Z.lor (wrap32 (Z.shiftl x n)) (Z.shiftr x (32 - n)).
Definition start_hash : list Z := [1732584193; 4023233417; 2562383102; 271733878; 3285377520].

Fixpoint expand (k : nat) (ws : list Z) : list Z :=
  match k with
  | O => ws
  | S k' =>
      let w i := nth i ws 0 in
      expand k' (rotl 1 (Z.lxor (Z.lxor (w 2%nat) (w 7%nat)) (Z.lxor (w 13%nat) (w 15%nat))) :: ws)
  end.
Definition word_schedule (block : list Z) : list Z := rev (expand 64 (rev (word_of_bytes <$> chunks 16 4 block))).

Definition step_of (t : nat) (b c d : Z) : Z * Z :=
  if (t <? 20)%nat then (ch b c d, 1518500249)
  else if (t <? 40)%nat then (Z.lxor b (Z.lxor c d), 1859775393)
  else if (t <? 60)%nat then (maj b c d, 2400959708)
  else (Z.lxor b (Z.lxor c d), 3395469782).
Definition sha1_step (s : list Z) (tw : nat * Z) : list Z :=
  match s with
  | [a; b; c; d; e] =>
      let '(f, k) := step_of (fst tw) b c d in
      [add32 (add32 (rotl 5 a) f) (add32 e (add32 k (snd tw))); a; rotl 30 b; c; d]
  | _ => s
  end.
Definition sha1_block (hash block : list Z) : list Z :=
  zip_with add32 hash (fold_left sha1_step (enumerate (word_schedule block)) hash).
Definition sha1 (msg : list Z) : list Z :=
  let padded := pad msg in
  flat_map (bytes_of_word 4) (fold_left sha1_block (chunks (length padded) 64 padded) start_hash).
(** [hashlib.sha1(data).hexdigest()] *)
Definition sha1_hex (msg : list Z) : string := join "" (hex2 <$> sha1 msg).

Example sha1_abc : sha1_hex (bytes_of_string "abc") = "a9993e364706816aba3e25717850c26c9cd0d89d".
Proof. vm_compute. reflexivity. Qed.
Example sha1_two_blocks :
  sha1_hex (bytes_of_string "abcdbcdecdefdefgefghfghighijhijkijkljklmklmnlmnomnopnopq") =
  "84983e441c3bd26ebaae4aa1f95129e5e54670f1".
Proof. vm_compute. reflexivity. Qed.
End Sha1.

Module Render.

Definition WORKLOADS : list string := ["cpu-bound"; "io-bound"; "memory-bound"; "hybrid"].
Definition POLICIES : list string :=
  ["fit"; "best-effort"; "request-low"; "request-high"; "guaranteed-low"; "burstable-low"].
Definition PLACEHOLDERS : list string := ["__NAME__"; "__NODE__"; "__RUN_ID__"; "__WORKLOAD__"; "__RESOURCES__"].

(** [__[A-Z][A-Z0-9_]*__] *)
Definition PLACEHOLDER_RE : re :=
  (Lit "__" · Set_ is_upper_az · Star true (Set_ (fun c => is_upper_az c || is_digit c || Ascii.eqb c "_")) · Lit "__")%re.
Definition blank_re : re := Set_ (fun c => Ascii.eqb c " " || (code c =? 9)).
(** A line of blanks (group 1), the placeholder key, an optional [{}] and blanks. *)
Definition RESOURCES_LINE_RE : re :=
  (Bol · Group 1 (Star true blank_re) · Lit "__RESOURCES__:" · Star true blank_re · Opt (Lit "{}") ·
   Star true blank_re · Eol)%re.

(** ** Names *)

Definition name_char (c : ascii) : bool := is_lower_az c || is_digit c || Ascii.eqb c "." || Ascii.eqb c "-".
(** [[^a-z0-9.-]+] *)
Definition OTHER_RE : re := Plus (Set_ (fun c => negb (name_char c))).

Definition is_dash (c : ascii) : bool := Ascii.eqb c "-".
(** [s.strip("-")] *)
Fixpoint lstrip_dashes (s : string) : string :=
  match s with String c s' => if is_dash c then lstrip_dashes s' else s | EmptyString => s end.
Fixpoint rstrip_dashes (s : string) : string :=
  match s with
  | EmptyString => EmptyString
  | String c s' => match rstrip_dashes s' with
                   | EmptyString => if is_dash c then EmptyString else char_str c
                   | r => String c r
                   end
  end.

Definition pod_name (workload policy run_id : string) : string :=
  let normalized := rstrip_dashes (lstrip_dashes (re_sub OTHER_RE "-" (str_lower run_id))) in
  let name := "cl-" +:+ workload +:+ "-" +:+ policy +:+ "-" +:+ normalized in
  if (slen name <=? 63) then name
  else str_take 54 name +:+ "-" +:+ str_take 8 (Sha1.sha1_hex (bytes_of_string name)).

(** ** Resources *)

(** A CPU value is a text or an integer. *)
Definition cpu_value (value : string + Z) (name : string) : result string :=
  match value with
  | inr n => raise_if (n <=? 0) ValueError (name +:+ " CPU must be positive") ;;; Ok (str_of_Z n +:+ "m")
  | inl s => raise_if (is_blank s) ValueError (name +:+ " CPU must be a non-empty quantity") ;;; Ok s
  end.

(** The limit and the request, each of them optional. *)
Record resources : Type := { res_limit : option string; res_request : option string }.

Definition resources_for (policy : string) (fit_cpu low_cpu : string + Z) : result resources :=
  raise_if (negb (mem_string policy POLICIES)) ValueError ("unknown policy: " +:+ policy) ;;;
  let* fit := cpu_value fit_cpu "fit" in
  let* low := cpu_value low_cpu "low" in
  Ok (if String.eqb policy "best-effort" then {| res_limit := None; res_request := None |}
      else if String.eqb policy "fit" then {| res_limit := Some fit; res_request := Some fit |}
      else if String.eqb policy "request-low" then {| res_limit := None; res_request := Some "100m" |}
      else if String.eqb policy "request-high" then {| res_limit := None; res_request := Some fit |}
      else if String.eqb policy "guaranteed-low" then {| res_limit := Some low; res_request := Some low |}
      else {| res_limit := Some low; res_request := Some "100m" |}).

Definition section_lines (section : string) (value : option string) : list string :=
  match value with
  | Some cpu => ["  " +:+ section +:+ ":"; "    cpu: " +:+ char_str dquote +:+ cpu +:+ char_str dquote]
  | None => []
  end.
Definition resources_yaml (r : resources) : string :=
  match res_limit r, res_request r with
  | None, None => "resources: {}"
  | _, _ => join newline ("resources:" :: section_lines "limits" (res_limit r) ++ section_lines "requests" (res_request r))
  end.

(** ** Templates *)

(** A line that starts with [---], with blanks after it. *)
Definition SEPARATOR_RE : re := (Bol · Lit "---" · Star true space · Eol)%re.

Definition read_template (source : result string) (path workload : string) : result string :=
  match source with
  | Raise e => if caught_by [OSError] e then Raise (Exn ValueError ("cannot read manifest: " +:+ path)) else Raise e
  | Ok source =>
      let documents := re_split SEPARATOR_RE source in
      if Nat.eqb (length documents) 1 then Ok source
      else
        let marker := "app.kubernetes.io/name: " +:+ workload in
        match List.filter (contains marker) documents with
        | [d] => Ok d
        | _ => Raise (Exn ValueError ("manifest needs exactly one " +:+ workload +:+ " document"))
        end
  end.

(** [s.count(sub)] *)
Definition count_sub (sub s : string) : Z := Z.of_nat (length (split_on sub s)) - 1.

Definition check_count (template placeholder : string) : result unit :=
  let count := count_sub placeholder template in
  if String.eqb placeholder "__RESOURCES__" then
    raise_if (count <? 1) ValueError "placeholder __RESOURCES__ must occur at least once"
  else
    raise_if (negb (count =? 1)) ValueError
      ("placeholder " +:+ placeholder +:+ " must occur exactly once, found " +:+ str_of_Z count).

Definition validate_placeholders (template : string) : result unit :=
  let found := matched <$> re_finditer PLACEHOLDER_RE template in
  match sort_by String.leb (List.filter (fun p => negb (mem_string p PLACEHOLDERS)) found) with
  | p :: _ => Raise (Exn ValueError ("unknown placeholder: " +:+ p))
  | [] => iterM (check_count template) PLACEHOLDERS
  end.

(** The matches are replaced from the last to the first, so that positions stay
    valid: together, every matched line is replaced. *)
Definition resource_block (resources : string) (m : re_found) : string :=
  group 1 m +:+ replace_all newline (newline +:+ group 1 m) resources.
Definition replace_resources (template resources : string) : result string :=
  match re_finditer RESOURCES_LINE_RE template with
  | [] => Raise (Exn ValueError "__RESOURCES__ must occupy one indented YAML line")
  | ms => Ok (join "" ((fun m => before m +:+ resource_block resources m) <$> ms) +:+
              match list.last ms with Some m => after m | None => "" end)
  end.

Section RenderManifest.
Context (yaml_load_all : string -> result (list pyval)).

Definition render (workload policy node run_id : string) (fit_cpu low_cpu : string + Z)
    (source : result string) (path : string) : result string :=
  raise_if (negb (mem_string workload WORKLOADS)) ValueError ("unknown workload: " +:+ workload) ;;;
  raise_if (negb (mem_string policy POLICIES)) ValueError ("unknown policy: " +:+ policy) ;;;
  raise_if (is_empty node) ValueError "node must not be empty" ;;;
  raise_if (is_empty run_id) ValueError "run id must not be empty" ;;;
  let* template := read_template source path workload in
  validate_placeholders template ;;;
  let* res := resources_for policy fit_cpu low_cpu in
  let* rendered := replace_resources template (resources_yaml res) in
  let replacements := [("__NAME__", pod_name workload policy run_id); ("__NODE__", node); ("__RUN_ID__", run_id);
                       ("__WORKLOAD__", workload)] in
  let rendered := fold_left (fun text r => replace_once (fst r) (snd r) text) replacements rendered in
  match re_search PLACEHOLDER_RE rendered with
  | Some m => Raise (Exn ValueError ("unresolved placeholder: " +:+ matched m))
  | None =>
      match yaml_load_all rendered with
      | Raise e => if caught_by [YAMLError] e then Raise (Exn ValueError "rendered manifest is invalid YAML") else Raise e
      | Ok [VDict _] => Ok rendered
      | Ok _ => Raise (Exn ValueError "rendered manifest must contain exactly one mapping document")
      end
  end.
End RenderManifest.

(** ** Names fit and are made of name characters *)

Lemma lstrip_dashes_chars q s : str_forallb q s = true -> str_forallb q (lstrip_dashes s) = true.
Proof. induction s as [|c s IH]; simpl; [done|]. intros H. destruct (is_dash c); [|done]. bool_hyps. auto. Qed.
Lemma rstrip_dashes_chars q s : str_forallb q s = true -> str_forallb q (rstrip_dashes s) = true.
Proof.
  induction s as [|c s IH]; simpl; [done|]. intros [Hc Hs]%andb_true_iff. specialize (IH Hs).
  destruct (rstrip_dashes s); [destruct (is_dash c); [done|]|]; unfold char_str; cbn [str_forallb]; by rewrite Hc.
Qed.

Lemma str_take_chars q s : forall n, str_forallb q s = true -> str_forallb q (str_take n s) = true.
Proof.
  induction s as [|c s IH]; intros [|n]; simpl; try done. intros [Hc Hs]%andb_true_iff. by rewrite Hc, IH.
Qed.
Lemma slen_take n s : (slen (str_take n s) <= Z.of_nat n)%Z.
Proof.
  unfold slen. revert n. induction s as [|c s IH]; intros [|n]; simpl; try lia. specialize (IH n). lia.
Qed.

Lemma bytes_of_word_range n w : Forall (fun b => 0 <= b < 256) (bytes_of_word n w).
Proof.
  induction n as [|n IH]; simpl; constructor; [|done].
  change 255 with (Z.ones 8). rewrite Z.land_ones by lia. apply Z.mod_pos_bound. lia.
Qed.

Lemma hex2_chars b : 0 <= b < 256 -> str_forallb name_char (hex2 b) = true.
Proof.
  intros Hb. assert (forall k, (k < 256)%nat -> str_forallb name_char (hex2 (Z.of_nat k)) = true) as H.
  { intros k Hk. assert (Forall (fun k => str_forallb name_char (hex2 (Z.of_nat k)) = true) (seq 0 256)) as Hf.
    { apply (bool_decide_unpack _). vm_compute. exact I. }
    rewrite Forall_forall in Hf. apply Hf. apply elem_of_seq. lia. }
  rewrite <- (Z2Nat.id b) by lia. apply H. lia.
Qed.

Lemma sha1_hex_chars msg : str_forallb name_char (Sha1.sha1_hex msg) = true.
Proof.
  unfold Sha1.sha1_hex, Sha1.sha1. generalize (fold_left Sha1.sha1_block (chunks (length (pad msg)) 64 (pad msg)) Sha1.start_hash).
  intros ws. assert (Forall (fun b => 0 <= b < 256) (flat_map (bytes_of_word 4) ws)) as H.
  { induction ws as [|w ws IH]; [constructor|]. cbn [flat_map]. apply Forall_app. split; [apply bytes_of_word_range|done]. }
  induction H as [|b bs Hb _ IH]; [done|]. cbn [fmap list_fmap].
  destruct bs as [|b' bs]; [by apply hex2_chars|].
  change (join "" (hex2 b :: (hex2 <$> b' :: bs))) with (hex2 b +:+ "" +:+ join "" (hex2 <$> b' :: bs)).
  by rewrite str_forallb_app, hex2_chars.
Qed.

(** A Pod name has at most 63 characters, all of them letters, digits, dots and
    dashes, for every run identifier. *)
Lemma pod_name_chars workload policy run_id :
  str_forallb name_char workload = true -> str_forallb name_char policy = true ->
  (slen (pod_name workload policy run_id) <= 63)%Z /\
  str_forallb name_char (pod_name workload policy run_id) = true /\
  startswith "cl-" (pod_name workload policy run_id) = true.
Proof.
  intros Hw Hp. unfold pod_name.
  set (normalized := rstrip_dashes _).
  assert (str_forallb name_char normalized = true) as Hn.
  { apply rstrip_dashes_chars, lstrip_dashes_chars, sub_class; [|done]. intros c Hc. by apply negb_false_iff. }
  set (tail_ := workload +:+ _). set (name := "cl-" +:+ tail_).
  assert (str_forallb name_char name = true) as Hname.
  { unfold name, tail_. by rewrite !str_forallb_app, Hw, Hp, Hn. }
  destruct (slen name <=? 63) eqn:E; [apply Z.leb_le in E; split; [exact E|split; [exact Hname|apply prefix_app]]|]. split; [|split].
  - rewrite !slen_app. change (slen "-") with 1.
    pose proof (slen_take 54 name). pose proof (slen_take 8 (Sha1.sha1_hex (bytes_of_string name))). lia.
  - rewrite !str_forallb_app, !str_take_chars by (done || apply sha1_hex_chars). done.
  - exact (prefix_app "cl-" (str_take 51 tail_ +:+ "-" +:+ str_take 8 (Sha1.sha1_hex (bytes_of_string name)))).
Qed.

End Render.

(** ** The manifests and the design agree *)

(** The resources that a rendered manifest asks for are those of the frozen
    design: for every workload and policy for which the design has a request and
    a limit, rendering with the design's CPU values gives the same request and
    limit in millicores, and is absent where the design has none. *)
Theorem resources_match_design (workload policy : string) (request limit : option Z) (fit low : Z) :
  Design.resources_for workload policy = Ok (request, limit) -> cpu_values workload = Ok (fit, low) ->
  Render.resources_for policy (inr fit) (inr low) =
  Ok {| Render.res_limit := (fun n => str_of_Z n +:+ "m") <$> limit;
        Render.res_request := (fun n => str_of_Z n +:+ "m") <$> request |}.
Proof.
  unfold Design.resources_for. intros H Hv. rewrite Hv in H. inv_ok.
  assert (0 < fit /\ 0 < low) as [Hf Hlow].
  { unfold cpu_values in Hv. destruct (List.find _ CPU_VALUES) as [[w v]|] eqn:E; [|done]. apply Ok_inj in Hv. simpl in Hv. subst v.
    apply List.find_some in E as [E _]. simpl in E. decompose [or] E; try done; simplify_eq; simpl; lia. }
  unfold Render.resources_for, Render.cpu_value.
  rewrite raise_if_false by done. rewrite !raise_if_false by (apply Z.leb_gt; lia). cbn [rbind].
  apply negb_false_iff, mem_string_spec in Hx0. unfold POLICIES in Hx0.
  repeat (apply list.elem_of_cons in Hx0 as [->|Hx0]; [cbn in H |- *; by simplify_eq|]).
  by apply not_elem_of_nil in Hx0.
Qed.

Lemma resources_match_design_witness :
  Design.resources_for "hybrid" "burstable-low" = Ok (Some 100, Some 500) /\
  Render.resources_for "burstable-low" (inr 1000) (inr 500) =
  Ok {| Render.res_limit := Some "500m"; Render.res_request := Some "100m" |}.
Proof.
  split; [vm_compute; reflexivity|].
  apply (resources_match_design "hybrid" "burstable-low" (Some 100) (Some 500) 1000 500); vm_compute; reflexivity.
Defined.

(** A run identifier without a name character gives a name that ends with a
    dash, which is no DNS name. *)
Example pod_name_trailing_dash : Render.pod_name "io-bound" "fit" "__" = "cl-io-bound-fit-".
Proof. vm_compute. reflexivity. Qed.
