(* ===== verification/CellRun.v ===== *)
(** [cpu-limits/experiments/run-cell.py]: one cell of the CPU-limit experiments,
    from its Pods to its rows.

    The runner is a program of [World.v]: [kubectl], files, the clock, the trace
    capture and the scraping thread are operations with arbitrary answers.  The
    thread shares no state with the runner before it is joined, so joining it
    answers with what its requests gave.  The YAML reader and writer are
    parameters. *)

From Stdlib Require Import ZArith Bool Ascii String Lia SpecFloat.
From stdpp Require Import base list strings option pretty.
From S2P Require Import Prelude Eff PyStr PyRe PyFloat PyVal Json PyConv PyCsv World Probe Campaign Design Workloads.

Open Scope string_scope.
Open Scope Z_scope.

Definition BLOCK_COLUMNS : list string :=
  ["protocol"; "phase"; "run_id"; "block_id"; "seed"; "position"; "cell_id"; "workload"; "policy"; "condition";
   "node"; "pod_uid"; "status"; "started_at"; "finished_at"].
Definition CGROUP_COLUMNS : list string :=
  ["protocol"; "run_id"; "block_id"; "cell_id"; "captured_at"; "window"; "level"; "path"; "key"; "value"; "unit"].
Definition METRIC_COLUMNS : list string :=
  ["protocol"; "run_id"; "block_id"; "cell_id"; "timestamp"; "source"; "metric"; "value"; "unit"; "labels_json"].
Definition REQUIRED_METRICS : list string :=
  ["container_cpu_usage_seconds_total"; "container_cpu_cfs_periods_total";
   "container_cpu_cfs_throttled_periods_total"; "container_cpu_cfs_throttled_seconds_total";
   "container_memory_working_set_bytes"; "container_pressure_cpu_waiting_seconds_total"].

Definition cell_error {A} (msg : string) : result A := Raise (Exn CellRunError msg).

Definition cell_from_id (id : string) : result Cell :=
  match List.find (fun c => String.eqb (cell_id c) id) CELLS with
  | Some c => Ok c
  | None => Raise (Exn ValueError ("unknown cell id: " +:+ id))
  end.

(** ** Pods *)

Definition pod_uid (pod : pydict) : result string :=
  match dget "metadata" pod with
  | Some (VDict metadata) =>
      match dget "uid" metadata with
      | Some (VStr uid) => if is_empty uid then cell_error "Pod UID is missing" else Ok uid
      | _ => cell_error "Pod UID is missing"
      end
  | _ => cell_error "Pod has no metadata"
  end.

Definition pod_ip (pod : pydict) : result string :=
  match dget "status" pod with
  | Some (VDict status) =>
      match dget "podIP" status with
      | Some (VStr address) => if is_empty address then cell_error "Pod IP is missing" else Ok address
      | _ => cell_error "Pod IP is missing"
      end
  | _ => cell_error "Pod has no status"
  end.

(** ** Output of the load generators *)

Abbreviation metrics := (list (string * (float * string))).

Definition float_text (s : string) : result float :=
  match py_float s with
  | Some x => Ok x
  | None => Raise (Exn ValueError ("could not convert string to float: " +:+ repr_str s))
  end.

Definition micro_s : string := String (chr 181) "s".
Definition ms_unit_re : re := Alt (Lit "us") (Alt (Lit micro_s) (Alt (Lit "ms") (Lit "s"))).
Definition duration_ms (value unit_ : string) : result float :=
  let scale := if String.eqb unit_ "us" || String.eqb unit_ micro_s then flit 1 1000
               else if String.eqb unit_ "ms" then flit 1 1 else flit 1000 1 in
  let* x := float_text value in Ok (fmul x scale).

Definition REQUEST_RATE_RE : re := (Lit "Requests/sec:" · Star true space · Group 1 (Plus numeral))%re.
Definition percentile_re (p : string) : re :=
  (Bol · Star true space · Lit (p +:+ "%") · Plus space · Group 1 (Plus numeral) · Group 2 ms_unit_re ·
   Star true space · Eol)%re.
Definition HISTOGRAM_RE : re :=
  (Bos · Star true space · Group 1 (Plus numeral) · Plus space · Group 2 (Plus numeral) · Plus space ·
   Group 3 (Plus digit) · Plus space · Group 4 (Alt (Plus numeral) (Lit "inf")) · Star true space · Eos)%re.

Definition histogram_row (line : string) : result (option (float * float)) :=
  match re_match HISTOGRAM_RE line with
  | None => Ok None
  | Some m => let* v := float_text (group 1 m) in let* p := float_text (group 2 m) in Ok (Some (v, p))
  end.

(** [min(rows, key=lambda item: abs(item[1] - target))]: the first of the nearest. *)
Definition nearer (target : float) (best row : float * float) : float * float :=
  if fltb (fabs (fsub (snd row) target)) (fabs (fsub (snd best) target)) then row else best.
Definition nearest (target : float) (r : float * float) (rows : list (float * float)) : float * float :=
  fold_left (nearer target) rows r.

Definition parse_wrk2 (text : string) : result metrics :=
  match re_search REQUEST_RATE_RE text with
  | None => cell_error "wrk2 output has no Requests/sec"
  | Some m =>
      let* rate := float_text (group 1 m) in
      let base := [("requests_per_second", (rate, "requests/s"))] in
      match re_search (percentile_re "50") text, re_search (percentile_re "99") text with
      | Some p50, Some p99 =>
          let* x := duration_ms (group 1 p50) (group 2 p50) in
          let* y := duration_ms (group 1 p99) (group 2 p99) in
          Ok (base ++ [("latency_p50_ms", (x, "ms")); ("latency_p99_ms", (y, "ms"))])%list
      | _, _ =>
          let* rows := mapM histogram_row (splitlines text) in
          match omap id rows with
          | [] => cell_error "wrk2 output has no latency histogram"
          | r :: rows =>
              Ok (base ++ [("latency_p50_ms", (fst (nearest (flit 1 2) r rows), "ms"));
                           ("latency_p99_ms", (fst (nearest (flit 99 100) r rows), "ms"))])%list
          end
      end
  end.

Definition BOGO_INLINE_RE : re := (Group 1 (Plus numeral) · Plus space · Lit "bogo ops/s")%re.
Definition BOGO_TABLE_RE : re :=
  (Bol · Lit "stress-ng: info:" · Plus space · Lit "[" · Plus digit · Lit "]" · Plus space · Plus nonspace ·
   Plus space · Group 1 (Plus digit) · Plus space · Group 2 (Plus numeral) · Plus space · Group 3 (Plus numeral) ·
   Plus space · Group 4 (Plus numeral) · Plus space · Group 5 (Plus numeral) · Plus space ·
   Group 6 (Plus numeral) · Star true space · Eol)%re.

Definition parse_stress_ng (text : string) : result metrics :=
  match re_search BOGO_INLINE_RE text with
  | Some m => let* x := float_text (group 1 m) in Ok [("bogo_ops_per_second", (x, "ops/s"))]
  | None =>
      match re_search BOGO_TABLE_RE text with
      | None => cell_error "stress-ng output has no bogo ops/s"
      | Some m => let* x := float_text (group 5 m) in Ok [("bogo_ops_per_second", (x, "ops/s"))]
      end
  end.

Definition FPS_RE : re := (Lit "fps=" · Star true space · Group 1 (Plus numeral))%re.
Definition parse_ffmpeg (text : string) : result metrics :=
  match list.last (re_finditer FPS_RE text) with
  | None => cell_error "ffmpeg output has no fps"
  | Some m => let* x := float_text (group 1 m) in Ok [("frames_per_second", (x, "frames/s"))]
  end.

(** ** Samples of the collector *)

Record metric_row : Type := {
  mr_timestamp : string; mr_source : string; mr_metric : string; mr_value : string; mr_unit : string;
  mr_labels : string
}.

(** The value of hexadecimal digits, as far as it is a code point up to U+00FF. *)
Definition hex_code (digits : list ascii) : option Z :=
  let add n c := match n, hex_val c with Some n, Some a => Some (16 * n + a) | _, _ => None end in
  match fold_left add digits (Some 0) with
  | Some n => if n <=? 255 then Some n else None
  | None => None
  end.

Definition octal_val (c : ascii) : option Z := if between 48 55 (code c) then Some (code c - 48) else None.

(** [bytes.decode("unicode_escape")]; [None] where it raises [UnicodeDecodeError]
    or gives a code point above U+00FF, as a character named by [\N] may be. *)
Fixpoint unicode_escape (s : string) : option string :=
  match s with
  | EmptyString => Some ""
  | String c r =>
      if negb (code c =? 92) then String c <$> unicode_escape r
      else
        match r with
        | EmptyString => None
        | String d r1 =>
            let keep x := String (chr x) <$> unicode_escape r1 in
            let n := code d in
            if n =? 10 then unicode_escape r1
            else if (n =? 92) || (n =? 39) || (n =? 34) then keep n
            else if n =? 98 then keep 8
            else if n =? 102 then keep 12
            else if n =? 116 then keep 9
            else if n =? 110 then keep 10
            else if n =? 114 then keep 13
            else if n =? 118 then keep 11
            else if n =? 97 then keep 7
            else if n =? 120 then
              match r1 with
              | String h1 (String h2 r3) =>
                  match hex_val h1, hex_val h2 with
                  | Some a, Some b => String (chr (16 * a + b)) <$> unicode_escape r3
                  | _, _ => None
                  end
              | _ => None
              end
            else if n =? 117 then
              match r1 with
              | String h1 (String h2 (String h3 (String h4 r5))) =>
                  match hex_code [h1; h2; h3; h4] with Some a => String (chr a) <$> unicode_escape r5 | None => None end
              | _ => None
              end
            else if n =? 85 then
              match r1 with
              | String h1 (String h2 (String h3 (String h4 (String h5 (String h6 (String h7 (String h8 r9))))))) =>
                  match hex_code [h1; h2; h3; h4; h5; h6; h7; h8] with Some a => String (chr a) <$> unicode_escape r9 | None => None end
              | _ => None
              end
            else if n =? 78 then None
            else
              match octal_val d with
              | None => String c <$> (String d <$> unicode_escape r1)
              | Some a =>
                  match r1 with
                  | String o2 r2 =>
                      match octal_val o2 with
                      | None => keep a
                      | Some b =>
                          match r2 with
                          | String o3 r3 =>
                              match octal_val o3 with
                              | None => String (chr (8 * a + b)) <$> unicode_escape r2
                              | Some e => if 3 <? a then None
                                          else String (chr (64 * a + 8 * b + e)) <$> unicode_escape r3
                              end
                          | EmptyString => String (chr (8 * a + b)) <$> unicode_escape r2
                          end
                      end
                  | EmptyString => keep a
                  end
              end
        end
  end.

(** [s.partition(sep)] when [sep] occurs. *)
Definition partition (sep s : string) : option (string * string) :=
  match split_on sep s with
  | a :: b :: rest => Some (a, join sep (b :: rest))
  | _ => None
  end.

Definition quote_s : string := char_str dquote.
Definition label_of (metric item : string) : result (string * pyval) :=
  let bad := cell_error ("invalid Prometheus label in " +:+ metric) in
  match partition "=" item with
  | None => bad
  | Some (key, encoded) =>
      if (slen encoded <? 2) || negb (startswith quote_s encoded) || negb (endswith quote_s encoded) then bad
      else
        match unicode_escape (utf8_encode (str_drop 1 (drop_last 1 encoded))) with
        | Some v => Ok (key, VStr v)
        | None => Raise (Exn UnicodeError "'unicodeescape' codec can't decode")
        end
  end.

(** One line: [None] if it is skipped, else its metric and row. *)
Definition metric_line (cell_id_ timestamp line : string) : result (option (string * metric_row)) :=
  if is_empty line || startswith "#" line then Ok None
  else
    match partition "{" line with
    | None => Ok None
    | Some (metric, rest) =>
        match partition "}" rest with
        | None => Ok None
        | Some (labels_text, value) =>
            let* pairs := mapM (label_of metric) (split_on "," labels_text) in
            let labels := fold_left (fun d p => dset (fst p) (snd p) d) pairs [] in
            if negb (match dget "cell_id" labels with Some (VStr c) => String.eqb c cell_id_ | _ => false end)
            then Ok None
            else
              let raw_value := strip value in
              match py_float raw_value with
              | None => cell_error ("metric " +:+ metric +:+ " has no numeric value")
              | Some _ =>
                  Ok (Some (metric,
                    {| mr_timestamp := timestamp; mr_source := "collector"; mr_metric := metric; mr_value := raw_value;
                       mr_unit := if endswith "_seconds_total" metric then "seconds" else "count";
                       mr_labels := json_plain true (VDict labels) |}))
              end
        end
    end.

Definition parse_metrics (text cell_id_ timestamp : string) : result (list metric_row) :=
  let* rows := mapM (metric_line cell_id_ timestamp) (splitlines text) in
  let found := omap id rows in
  let missing := sort_by String.leb (List.filter (fun m => negb (mem_string m (fst <$> found))) REQUIRED_METRICS) in
  raise_if (match missing with [] => false | _ => true end) CellRunError
    ("collector is missing required metric(s): " +:+ join ", " missing) ;;;
  Ok (snd <$> found).

(** The loop of the scraping thread over what its requests gave: the samples,
    and the error that ended it.  An exception that is not caught ends the
    thread without an error. *)
Fixpoint scraper_run (cell_id_ : string) (answers : list (result (string * datetime))) : list metric_row * option exn :=
  match answers with
  | [] => ([], None)
  | a :: rest =>
      let turn := let* (payload, at_) := a in
                  parse_metrics payload cell_id_ (replace_all "+00:00" "Z" (isoformat at_)) in
      match turn with
      | Ok rows => let '(more, e) := scraper_run cell_id_ rest in ((rows ++ more)%list, e)
      | Raise e =>
          if caught_by [OSError; UnicodeError; CellRunError] e
          then ([], Some (Exn CellRunError ("metrics scrape failed: " +:+ exn_msg e)))
          else ([], None)
      end
  end.

(** ** Rows of a record *)

Record cgroup_row : Type := {
  cg_captured_at : string; cg_window : string; cg_level : string; cg_path : string; cg_key : string;
  cg_value : string; cg_unit : string
}.

Definition counter_unit (key : string) : string := if endswith "usec" key then "microseconds" else "count".

(** The values of a level that are recorded: key, value and unit. *)
Definition level_values (level cpu_stat pressure memory : pydict) : list (string * pyval * string) :=
  let quota := match dget_none "cpu_max_quota_us" level with VNone => VStr "max" | q => q end in
  ([("cpu.weight", dget_none "cpu_weight" level, "weight"); ("cpu.max.quota", quota, "microseconds");
    ("cpu.max.period", dget_none "cpu_max_period_us" level, "microseconds")] ++
   ((fun key => ("cpu.stat." +:+ key, dget_none key cpu_stat, counter_unit key)) <$> CPU_STAT_KEYS) ++
   ((fun key => ("cpu.pressure." +:+ key, dget_none key pressure, "microseconds")) <$>
      ["some_total_usec"; "full_total_usec"]) ++
   ((fun key => ("memory." +:+ key, dget_none key memory, "bytes")) <$> ["current_bytes"; "peak_bytes"]))%list.

Definition value_row (captured_at window kind path : string) (v : string * pyval * string) : result cgroup_row :=
  let '(key, value, unit_) := v in
  match value with
  | VNone => cell_error ("cgroup snapshot is missing " +:+ key)
  | _ => Ok {| cg_captured_at := captured_at; cg_window := window; cg_level := kind; cg_path := path; cg_key := key;
               cg_value := py_str value; cg_unit := unit_ |}
  end.

Definition level_rows (captured_at window : string) (level : pyval) : result (list cgroup_row) :=
  match level with
  | VDict level =>
      match dget "kind" level, dget "path" level with
      | Some (VStr kind), Some (VStr path) =>
          match dget "cpu_stat" level, dget "cpu_pressure" level, dget "memory" level with
          | Some (VDict cpu_stat), Some (VDict pressure), Some (VDict memory) =>
              mapM (value_row captured_at window kind path) (level_values level cpu_stat pressure memory)
          | _, _, _ => cell_error "cgroup snapshot is missing required counters"
          end
      | _, _ => cell_error "cgroup snapshot level is missing kind or path"
      end
  | _ => cell_error "cgroup snapshot has an invalid level"
  end.

Definition cgroup_rows (record : pydict) (window : string) : result (list cgroup_row) :=
  match dget "captured_at" record, dget "levels" record with
  | Some (VStr captured_at), Some (VList ls) =>
      let* rows := mapM (level_rows captured_at window) ls in Ok (concat rows)
  | _, _ => cell_error "cgroup snapshot is incomplete"
  end.

Definition delta_level_rows (captured_at : string) (delta : pydict) : result (list cgroup_row) :=
  match dget "path" delta, dget "kind" delta, dget "cpu_stat" delta with
  | Some (VStr path), Some (VStr kind), Some (VDict stats) =>
      mapM (fun key =>
        match dget key stats with
        | Some v =>
            if is_int v
            then Ok {| cg_captured_at := captured_at; cg_window := "measurement_delta"; cg_level := kind; cg_path := path;
                       cg_key := "cpu.stat." +:+ key; cg_value := py_str v; cg_unit := counter_unit key |}
            else cell_error ("cgroup delta is missing " +:+ key)
        | None => cell_error ("cgroup delta is missing " +:+ key)
        end) CPU_STAT_KEYS
  | _, _, _ => cell_error "cgroup delta is incomplete"
  end.

Definition delta_rows (before_ after_ : pydict) : result (list cgroup_row) :=
  match dget "captured_at" after_ with
  | Some (VStr captured_at) =>
      match cpu_stat_deltas before_ after_ with
      | Raise e => if caught_by [TypeError; ValueError] e
                   then cell_error ("cannot calculate cgroup deltas: " +:+ exn_msg e) else Raise e
      | Ok deltas => let* rows := mapM (delta_level_rows captured_at) deltas in Ok (concat rows)
      end
  | _ => cell_error "end cgroup snapshot has no timestamp"
  end.

(** ** The runner *)

Record cell_args : Type := {
  ca_phase : string; ca_cell_id : string; ca_run_id : string; ca_block_id : Z; ca_position : Z; ca_seed : Z;
  ca_node : string; ca_data_root : string; ca_collector_url : string; ca_collector_pod : string;
  ca_namespace : string; ca_kubeconfig : option string; ca_ready_timeout : Z; ca_warmup_seconds : Z;
  ca_measure_seconds : Z; ca_trace : bool
}.

(** [parse_args] after [argparse]: an error message, if one is given. *)
Definition check_args (args : cell_args) : result unit :=
  raise_if ((ca_block_id args <? 1) || (ca_position args <? 1)) SystemExit
    "--block-id and --position must be positive" ;;;
  raise_if ((ca_ready_timeout args <? 1) || (ca_warmup_seconds args <? 0) || (ca_measure_seconds args <? 1)) SystemExit
    "timeouts and measurement duration must be positive" ;;;
  match cell_from_id (ca_cell_id args) with
  | Ok _ => Ok tt
  | Raise e => Raise (Exn SystemExit (exn_msg e))
  end.

Section Runner.
Context `{Env} (yaml_load : string -> result pyval) (yaml_load_all : string -> result (list pyval))
        (yaml_dump : pyval -> string).

Definition kubectl_argv (args : cell_args) (arguments : list string) : list string :=
  ("kubectl" :: match ca_kubeconfig args with Some k => ["--kubeconfig"; k] | None => [] end ++
   "-n" :: ca_namespace args :: arguments)%list.

(** [str(error)] of a [CalledProcessError]; signals are not named. *)
Definition exit_text (argv : list string) (status : Z) : string :=
  "Command " +:+ repr_str (py_repr (VList (VStr <$> argv))) +:+ " returned non-zero exit status " +:+ str_of_Z status +:+ ".".

Definition or_text (a b : string) : string := if is_empty a then b else a.

Definition kubectl (args : cell_args) (arguments : list string) (input : option string) : M string :=
  let argv := kubectl_argv args arguments in
  let! done_ := try_except (perform (RunInput argv input)) [FileNotFoundError]
                  (fun _ => throw CellRunError "kubectl is required") in
  throw_if (negb (returncode done_ =? 0)) CellRunError
    ("kubectl command failed: " +:+
     or_text (strip (stderr done_)) (or_text (strip (stdout done_)) (exit_text argv (returncode done_)))) >>>
  ret (stdout done_).

Definition target_name (cell : Cell) (run_id : string) : string :=
  Render.pod_name (workload cell) (policy cell) run_id.
Definition support_name (kind : string) (cell : Cell) (run_id : string) : string :=
  Render.pod_name kind (cell_id cell) run_id.

Definition STRESS_IMAGE : string :=
  "polinux/stress-ng@sha256:aa26e8ffd2c0a1192de691a22401a5fd008a940bb8f30dc2a4ddfe72e0dfdc10".
Definition pod_manifest (name node run_id cell_id_ : string) (command : list string) : string :=
  yaml_dump (VDict
    [("apiVersion", VStr "v1"); ("kind", VStr "Pod");
     ("metadata", VDict [("name", VStr name);
        ("labels", VDict [("app.kubernetes.io/name", VStr "cpu-limits-support");
                          ("cpu-limits.k8labs.io/run-id", VStr run_id);
                          ("cpu-limits.k8labs.io/cell-id", VStr cell_id_)])]);
     ("spec", VDict [("nodeName", VStr node); ("restartPolicy", VStr "Never");
        ("containers", VList [VDict [("name", VStr "stress-ng"); ("image", VStr STRESS_IMAGE);
           ("args", VList (VStr <$> command));
           ("resources", VDict [("requests", VDict [("cpu", VStr "1000m")])])]])])]).

Definition MANIFEST_PATH : string := "workloads/manifests.yaml".

(** The target's manifest with the label of its cell. *)
Definition label_target (cell : Cell) (text : string) : result string :=
  let* document := yaml_load text in
  match document with
  | VDict document =>
      match dget "metadata" document with
      | Some (VDict metadata) =>
          match dget_or "labels" (VDict []) metadata with
          | VDict labels =>
              let labels := dset "cpu-limits.k8labs.io/cell-id" (VStr (cell_id cell)) labels in
              Ok (yaml_dump (VDict (dset "metadata" (VDict (dset "labels" (VDict labels) metadata)) document)))
          | _ => cell_error "rendered target labels are invalid"
          end
      | _ => cell_error "rendered target manifest has no metadata"
      end
  | _ => cell_error "rendered target manifest is not an object"
  end.
(** The result of an operation as a value: exceptions too. *)
Definition catch {A} (m : M A) : M (result A) := fun h => let '(r, h') := m h in (Ok r, h').

Definition target_manifest (cell : Cell) (node run_id : string) : M string :=
  let! (fit, low) := lift (cpu_values (workload cell)) in
  (* render looks at its arguments before it reads the file *)
  let! source := (if is_empty node || is_empty run_id then ret (Ok "") else catch (perform (ReadText MANIFEST_PATH))) in
  let! text := lift (Render.render yaml_load_all (workload cell) (policy cell) node run_id (inr fit) (inr low)
                       source MANIFEST_PATH) in
  lift (label_target cell text).

Definition pod_json (args : cell_args) (name : string) : M pydict :=
  let! output := kubectl args ["get"; "pod"; name; "-o"; "json"] None in
  match json_loads output with
  | Raise e => if caught_by [JSONDecodeError] e then throw CellRunError ("Pod " +:+ name +:+ " returned invalid JSON")
               else lift (Raise e)
  | Ok (VDict d) => ret d
  | Ok _ => throw CellRunError ("Pod " +:+ name +:+ " JSON is not an object")
  end.

(** [value in {"Failed", "Succeeded"}]: a list or a dictionary has no hash. *)
Definition is_terminal (phase : pyval) : result bool :=
  match phase with
  | VStr s => Ok (String.eqb s "Failed" || String.eqb s "Succeeded")
  | VList _ => Raise (Exn TypeError "unhashable type: 'list'")
  | VDict _ => Raise (Exn TypeError "unhashable type: 'dict'")
  | _ => Ok false
  end.

Definition is_ready_condition (c : pyval) : bool :=
  match c with
  | VDict d => py_eq (dget_none "type" d) (VStr "Ready") && py_eq (dget_none "status" d) (VStr "True")
  | _ => false
  end.

Definition one_second : float := flit 1 1.

(** A turn of [wait_for_ready] before the deadline. *)
Definition poll_ready (args : cell_args) (name : string) : M (unit + pydict) :=
  let! pod := pod_json args name in
  match dget "status" pod with
  | Some (VDict status) =>
      let phase := dget_none "phase" status in
      let! terminal := lift (is_terminal phase) in
      throw_if terminal CellRunError ("Pod " +:+ name +:+ " reached terminal phase " +:+ py_str phase) >>>
      if match dget "conditions" status with Some (VList cs) => existsb is_ready_condition cs | _ => false end
      then ret (inr pod)
      else perform (Sleep one_second) >>> ret (inl tt)
  | _ => throw CellRunError ("Pod " +:+ name +:+ " has no status")
  end.

(** A loop until the deadline; [None] when it passes. *)
Definition until_deadline {A} (timeout : Z) (fuel : nat) (turn : M (unit + A)) : M (option A) :=
  let! t0 := perform Monotonic in
  loop fuel (fun _ : unit =>
    let! now := perform Monotonic in
    if fltb now (fadd t0 (flit timeout 1))
    then let! r := turn in ret (match r with inl u => inl u | inr a => inr (Some a) end)
    else ret (inr None)) tt.

Definition wait_for_ready (args : cell_args) (fuel : nat) (name : string) (timeout : Z) : M pydict :=
  let! found := until_deadline timeout fuel (poll_ready args name) in
  match found with
  | Some pod => ret pod
  | None => throw CellRunError ("Pod " +:+ name +:+ " was not Ready within " +:+ str_of_Z timeout +:+ " seconds")
  end.

Definition poll_terminal (args : cell_args) (name : string) : M (unit + unit) :=
  let! pod := pod_json args name in
  let! terminal := match dget "status" pod with
                   | Some (VDict status) => lift (is_terminal (dget_none "phase" status))
                   | _ => ret false
                   end in
  if terminal then ret (inr tt) else perform (Sleep one_second) >>> ret (inl tt).

Definition wait_for_terminal (args : cell_args) (fuel : nat) (name : string) (timeout : Z) : M unit :=
  let! found := until_deadline timeout fuel (poll_terminal args name) in
  match found with
  | Some _ => ret tt
  | None => throw CellRunError ("Pod " +:+ name +:+ " did not finish within " +:+ str_of_Z timeout +:+ " seconds")
  end.

Definition snapshot_argv (args : cell_args) (uid : string) : list string :=
  ["exec"; ca_collector_pod args; "--"; "python3"; "/opt/cpu-limits/cgroup_probe.py"; "/host/sys/fs/cgroup"; uid;
   "--run-id"; ca_run_id args; "--block-id"; str_of_Z (ca_block_id args); "--cell-id"; ca_cell_id args;
   "--node"; ca_node args].
Definition snapshot_pod (args : cell_args) (uid : string) : M pydict :=
  let! output := kubectl args (snapshot_argv args uid) None in
  match json_loads output with
  | Raise e => if caught_by [JSONDecodeError] e then throw CellRunError "collector cgroup snapshot is not JSON"
               else lift (Raise e)
  | Ok (VDict record) =>
      match dget "levels" record with
      | Some (VList (_ :: _)) => ret record
      | _ => throw CellRunError "collector cgroup snapshot has no levels"
      end
  | Ok _ => throw CellRunError "collector cgroup snapshot is not an object"
  end.

Definition load_metrics (args : cell_args) (cell : Cell) (target_name : string) (target : pydict) :
    M (metrics * string) :=
  let measure := ca_measure_seconds args in
  if mem_string (workload cell) ["io-bound"; "hybrid"] then
    let! address := lift (pod_ip target) in
    let! output := kubectl args ["exec"; ca_collector_pod args; "--"; "wrk2"; "-t2"; "-c16"; "-d";
                                 str_of_Z measure +:+ "s"; "-R"; "400"; "--latency"; "http://" +:+ address +:+ "/"] None in
    let! ms := lift (parse_wrk2 output) in
    if String.eqb (workload cell) "hybrid" then
      let! ffmpeg_log := kubectl args ["logs"; target_name; "-c"; "ffmpeg"] None in
      let! fps := lift (parse_ffmpeg ffmpeg_log) in
      ret ((ms ++ fps)%list, output)
    else ret (ms, output)
  else perform (Sleep (flit measure 1)) >>> ret ([], "").

(** [MetricsScraper.stop] *)
Definition scraper_stop (args : cell_args) (cell : Cell) : M (list metric_row) :=
  let! (answers, alive) := perform (JoinScraper (ca_collector_url args) 5) in
  throw_if alive CellRunError "metrics scraper did not stop" >>>
  let '(samples, error) := scraper_run (cell_id cell) answers in
  match error, samples with
  | Some e, _ => lift (Raise e)
  | None, [] => throw CellRunError "metrics scraper recorded no samples"
  | None, _ => ret samples
  end.

(** [append_csv]: the header only if the file is new. *)
Definition append_csv (dir name : string) (columns : list string) (rows : list (list string)) : M unit :=
  let path := path_join dir name in
  match rows with
  | [] => ret tt
  | _ =>
      perform (MakeDirs dir) >>>
      let! exists_ := perform (PathExists path) in
      perform (AppendText path (csv_write (if exists_ then rows else columns :: rows)))
  end.

Definition delete_argv (name : string) : list string := ["delete"; "pod"; name; "--ignore-not-found"; "--wait=true"].
Definition delete_pod (args : cell_args) (name : string) : M bool :=
  try_except (kubectl args (delete_argv name) None >>> ret true) [CellRunError] (fun _ => ret false).

(** ** [run_cell] *)

(** The variables of the [try] block that the later clauses look at: the UID,
    whether the scraper and the trace process are set. *)
Record locals : Type := { lo_pod_uid : string; lo_scraper : bool; lo_trace : bool }.

(** A statement of the [try] block: an exception leaves the block with the
    current values of the variables. *)
Definition attempt {A} (l : locals) (m : M A) (k : A -> M (locals * option exn)) : M (locals * option exn) :=
  let! r := catch m in
  match r with Ok a => k a | Raise e => ret (l, Some e) end.
Notation "'let?' x ':=' m 'at' l 'in' k" := (attempt l m (fun x => k))
  (at level 10, x pattern, m at level 100, l at level 9, k at level 200).

Definition cell_root (args : cell_args) : string := path_join (ca_data_root args) (ca_phase args).
Definition cell_dir (args : cell_args) (cell : Cell) : string :=
  path_join (path_join (path_join (cell_root args) "cells") ("block-" +:+ pad0 3 (ca_block_id args))) (cell_id cell).

Definition owned_names (args : cell_args) (cell : Cell) : list string :=
  target_name cell (ca_run_id args) ::
  (if String.eqb (condition cell) "contention" then [support_name "noise" cell (ca_run_id args)] else []).

Definition noise_command : list string := ["--cpu"; "1"; "--cpu-method"; "matrixprod"; "--timeout"; "25s"].

(** The noisy neighbour of a contention cell. *)
Definition start_noise (args : cell_args) (cell : Cell) (fuel : nat) : M unit :=
  if String.eqb (condition cell) "contention" then
    let name := support_name "noise" cell (ca_run_id args) in
    kubectl args ["apply"; "-f"; "-"]
      (Some (pod_manifest name (ca_node args) (ca_run_id args) (cell_id cell) noise_command)) >>>
    wait_for_ready args fuel name (ca_ready_timeout args) >>> ret tt
  else ret tt.

Definition trace_argv (args : cell_args) (cell : Cell) : list string :=
  (["capture/capture-cell.sh"; "--collector-pod"; ca_collector_pod args; "--namespace"; ca_namespace args;
    "--duration"; str_of_Z (Z.min 5 (ca_measure_seconds args)); "--out-dir"; path_join (cell_dir args cell) "trace"] ++
   match ca_kubeconfig args with Some k => ["--kubeconfig"; k] | None => [] end)%list.

Definition identity (args : cell_args) (cell : Cell) : list string :=
  [PROTOCOL; ca_run_id args; str_of_Z (ca_block_id args); cell_id cell].
Definition cgroup_line (args : cell_args) (cell : Cell) (r : cgroup_row) : list string :=
  (identity args cell ++ [cg_captured_at r; cg_window r; cg_level r; cg_path r; cg_key r; cg_value r; cg_unit r])%list.
Definition metric_line_of (args : cell_args) (cell : Cell) (r : metric_row) : list string :=
  (identity args cell ++ [mr_timestamp r; mr_source r; mr_metric r; mr_value r; mr_unit r; mr_labels r])%list.

Definition load_row (cell : Cell) (timestamp : string) (m : string * (float * string)) : metric_row :=
  {| mr_timestamp := timestamp; mr_source := "loadgen"; mr_metric := fst m; mr_value := repr_float (fst (snd m));
     mr_unit := snd (snd m); mr_labels := json_plain true (VDict [("cell_id", VStr (cell_id cell))]) |}.

Definition record_rows (before_ after_ : pydict) : result (list cgroup_row) :=
  let* a := cgroup_rows before_ "start" in
  let* b := cgroup_rows after_ "end" in
  let* c := delta_rows before_ after_ in
  Ok (a ++ b ++ c)%list.

(** The end of the [try] block, once the load is over. *)
Definition record_cell (args : cell_args) (cell : Cell) (fuel : nat) (name : string) (l : locals)
    (before_ : pydict) (samples : list metric_row) (loads : metrics) (output : string) : M (locals * option exn) :=
  let? after_ := snapshot_pod args (lo_pod_uid l) at l in
  let? _ := perform (WriteText (path_join (cell_dir args cell) "cgroup-end.json")
                       (json_indent true (VDict after_) +:+ newline)) at l in
  let? (loads, output) :=
    (if mem_string (workload cell) ["cpu-bound"; "memory-bound"] then
       wait_for_terminal args fuel name 12 >>>
       let! log := kubectl args ["logs"; name] None in
       let! ms := lift (parse_stress_ng log) in
       ret (ms, log)
     else ret (loads, output)) at l in
  let? _ := perform (WriteText (path_join (cell_dir args cell) "load.txt") output) at l in
  let? timestamp := utc_now at l in
  let rows := (samples ++ (load_row cell timestamp <$> loads))%list in
  let? cgroups := lift (record_rows before_ after_) at l in
  let? _ := append_csv (cell_root args) "cgroups.csv" CGROUP_COLUMNS (cgroup_line args cell <$> cgroups) at l in
  let? _ := append_csv (cell_root args) "metrics.csv" METRIC_COLUMNS (metric_line_of args cell <$> rows) at l in
  ret (l, None).

(** The [try] block. *)
Definition measure (args : cell_args) (cell : Cell) (fuel : nat) : M (locals * option exn) :=
  let name := target_name cell (ca_run_id args) in
  let dir := cell_dir args cell in
  let l := {| lo_pod_uid := ""; lo_scraper := false; lo_trace := false |} in
  let? _ := (let! manifest := target_manifest cell (ca_node args) (ca_run_id args) in
             kubectl args ["apply"; "-f"; "-"] (Some manifest)) at l in
  let? _ := start_noise args cell fuel at l in
  let? target := wait_for_ready args fuel name (ca_ready_timeout args) at l in
  let? uid := lift (pod_uid target) at l in
  let l := {| lo_pod_uid := uid; lo_scraper := false; lo_trace := false |} in
  let inventory := [("protocol", VStr PROTOCOL); ("pod_uid", VStr uid); ("pod", VStr name);
                    ("node", VStr (ca_node args)); ("cell_id", VStr (cell_id cell))] in
  let? _ := perform (WriteText (path_join dir "pods.json") (json_indent false (VDict inventory) +:+ newline)) at l in
  let? before_ := snapshot_pod args uid at l in
  let? _ := perform (WriteText (path_join dir "cgroup-start.json") (json_indent true (VDict before_) +:+ newline)) at l in
  let l := {| lo_pod_uid := uid; lo_scraper := true; lo_trace := false |} in
  let? _ := perform (StartScraper (ca_collector_url args)) at l in
  let? _ := perform (Sleep (flit (ca_warmup_seconds args) 1)) at l in
  let? _ := (if ca_trace args then perform (Popen (trace_argv args cell)) else ret tt) at l in
  let l := {| lo_pod_uid := uid; lo_scraper := true; lo_trace := ca_trace args |} in
  let? (loads, output) := load_metrics args cell name target at l in
  let? samples := scraper_stop args cell at l in
  let l := {| lo_pod_uid := uid; lo_scraper := false; lo_trace := ca_trace args |} in
  let? _ := (if ca_trace args then
               let! c := perform (Communicate (Some 30)) in
               throw_if (negb (returncode c =? 0)) CellRunError ("trace capture failed: " +:+ strip (stderr c))
             else ret tt) at l in
  let l := {| lo_pod_uid := uid; lo_scraper := false; lo_trace := false |} in
  record_cell args cell fuel name l before_ samples loads output.

(** The [except] clause: the error text, or the exception that goes on. *)
Definition handle (args : cell_args) (cell : Cell) (l : locals) (e : exn) : M (option string) :=
  if caught_by [CellRunError; OSError; ValueError; YAMLError] e then
    if lo_scraper l then
      try_except (scraper_stop args cell >>> ret (Some (exn_msg e))) [CellRunError]
        (fun e2 => ret (Some (exn_msg e +:+ "; " +:+ exn_msg e2)))
    else ret (Some (exn_msg e))
  else lift (Raise e).
(** [error_text] when the [except] clause itself raised: the text of [e], if it was entered. *)
Definition error_text (e : option exn) : option string :=
  match e with
  | Some e => if caught_by [CellRunError; OSError; ValueError; YAMLError] e then Some (exn_msg e) else None
  | None => None
  end.

(** The [finally] clause up to the deletions. *)
Definition stop_trace (l : locals) : M unit :=
  if lo_trace l then
    let! exited := perform Poll in
    if exited then ret tt
    else
      perform Terminate >>>
      try_except (perform (Communicate (Some 10)) >>> ret tt) [TimeoutExpired]
        (fun _ => perform Kill >>> perform (Communicate None) >>> ret tt)
  else ret tt.

Fixpoint delete_pods (args : cell_args) (names : list string) : M (list string) :=
  match names with
  | [] => ret []
  | name :: rest =>
      let! ok := delete_pod args name in
      let! failed := delete_pods args rest in
      ret (if ok then failed else name :: failed)
  end.

Record CellResult : Type := {
  cr_status : string; cr_pod_uid : string; cr_started_at : string; cr_finished_at : string;
  cr_error : option string; cr_teardown : string
}.

Definition opt_text (o : option string) : pyval := match o with Some s => VStr s | None => VNone end.
(** [asdict(result)] *)
Definition result_value (r : CellResult) : pyval :=
  VDict [("status", VStr (cr_status r)); ("pod_uid", VStr (cr_pod_uid r)); ("started_at", VStr (cr_started_at r));
         ("finished_at", VStr (cr_finished_at r)); ("error", opt_text (cr_error r)); ("teardown", VStr (cr_teardown r))].

Definition block_line (args : cell_args) (cell : Cell) (r : CellResult) : list string :=
  [PROTOCOL; ca_phase args; ca_run_id args; str_of_Z (ca_block_id args); str_of_Z (ca_seed args);
   str_of_Z (ca_position args); cell_id cell; workload cell; policy cell; condition cell; ca_node args; cr_pod_uid r;
   cr_status r; cr_started_at r; cr_finished_at r].

(** The result that is stored. *)
Definition conclude_cell (status uid started finished : string) (error : option string) (failed_deletes : list string) :
    CellResult :=
  match failed_deletes with
  | [] => {| cr_status := status; cr_pod_uid := uid; cr_started_at := started; cr_finished_at := finished;
             cr_error := error; cr_teardown := "complete" |}
  | _ => {| cr_status := "failed"; cr_pod_uid := uid; cr_started_at := started; cr_finished_at := finished;
            cr_error := Some (default ("could not delete owned Pod(s): " +:+ join ", " failed_deletes) error);
            cr_teardown := "failed" |}
  end.

(** The [finally] clause after the trace was stopped. *)
Definition finish_cell (args : cell_args) (cell : Cell) (status uid started : string) (error : option string) : M CellResult :=
  let! failed_deletes := delete_pods args (owned_names args cell) in
  let! finished := utc_now in
  let r := conclude_cell status uid started finished error failed_deletes in
  perform (WriteText (path_join (cell_dir args cell) "status.json") (json_indent false (result_value r) +:+ newline)) >>>
  append_csv (cell_root args) "blocks.csv" BLOCK_COLUMNS [block_line args cell r] >>>
  ret r.

Definition run_cell (args : cell_args) (fuel : nat) : M CellResult :=
  let! cell := lift (cell_from_id (ca_cell_id args)) in
  perform (MakeDirs (cell_dir args cell)) >>>
  let! started := utc_now in
  let! (l, e) := measure args cell fuel in
  (* except *)
  let! handled := match e with
                  | None => ret (Ok None)
                  | Some e => catch (handle args cell l e)
                  end in
  (* finally *)
  stop_trace l >>>
  match handled with
  | Ok error =>
      finish_cell args cell (match error with None => "complete" | Some _ => "failed" end) (lo_pod_uid l) started error
  | Raise e' => finish_cell args cell "failed" (lo_pod_uid l) started (error_text e) >>> lift (Raise e')
  end.

Definition run_main (args : cell_args) (fuel : nat) : M (Z * string) :=
  lift (check_args args) >>>
  let! r := run_cell args fuel in
  ret (if String.eqb (cr_status r) "complete" then 0 else 1, json_plain true (result_value r)).

End Runner.
