(* ===== verification/CollectorData.v ===== *)
(** The text of the collector as the cell runner reads it: [collector.py]'s
    exposition against [run-cell.py]'s [parse_metrics]. *)

From Stdlib Require Import ZArith Bool Ascii String Lia SpecFloat.
From stdpp Require Import base list strings option pretty.
From S2P Require Import Prelude Eff PyStr PyText PyFloat PyVal PyDict Json PyConv World Files Probe Collector Workloads CellRun.

Open Scope string_scope.
Open Scope Z_scope.

(** ** What is read *)

(** A text whose exposition can be read: ASCII, no line breaks but line feeds,
    no comma and no closing brace. *)
Definition plain_char (c : ascii) : bool :=
  (code c <? 128) && (negb (is_linebreak c) || (code c =? 10)) && negb (Ascii.eqb "," c) && negb (Ascii.eqb "}" c).
Definition plain (s : string) : bool := str_forallb plain_char s.
Definition plain_labels (l : label_list) : bool := forallb (fun p => plain (snd p)) l.

(** The samples that a target gives: its labels, and a finite value. *)
Definition finite_number (v : number) : bool :=
  match v with inl _ => true | inr x => isfinite x end.
Definition plain_sample (p : string * sample) : Prop :=
  plain_labels (fst (snd p)) = true /\ finite_number (snd (snd p)) = true /\
  exists t node, fst (snd p) = labels t node.

Definition has_cell (id : string) (s : sample) : bool :=
  match List.find (fun l => String.eqb "cell_id" (fst l)) (fst s) with Some (_, c) => String.eqb c id | None => false end.

(** The samples of a cell, in the order in which they are printed. *)
Definition cell_samples_of (id : string) (samples : list (string * sample)) (m : string * string * string) : list (string * sample) :=
  pair (fst (fst m)) <$> List.filter (has_cell id) (samples_of (fst (fst m)) samples).
Definition cell_samples (id : string) (samples : list (string * sample)) : list (string * sample) :=
  concat (cell_samples_of id samples <$> METRICS).

(** The row of a sample. *)
Definition row_of (timestamp : string) (p : string * sample) : result metric_row :=
  let* v := render_value (snd (snd p)) in
  Ok {| mr_timestamp := timestamp; mr_source := "collector"; mr_metric := fst p; mr_value := v;
        mr_unit := if endswith "_seconds_total" (fst p) then "seconds" else "count";
        mr_labels := json_plain true (VDict ((fun l : string * string => (fst l, VStr (snd l))) <$> sorted_labels (fst (snd p)))) |}.

Definition missing_metrics (metrics : list string) : list string :=
  sort_by String.leb (List.filter (fun m => negb (mem_string m metrics)) REQUIRED_METRICS).

(** ** Label values *)

Definition escape_char (c : ascii) : string :=
  if Ascii.eqb "\" c then "\\" else if Ascii.eqb (chr 10) c then "\n"
  else if Ascii.eqb dquote c then String "\" (char_str dquote) else char_str c.

Lemma escape_label_chars v : escape_label v = concat_map_str escape_char v.
Proof.
  unfold escape_label. change newline with (char_str (chr 10)).
  change (replace_all "\" "\\" v) with (replace_all (char_str "\") "\\" v).
  rewrite !replace_char, !concat_map_concat. apply concat_map_ext. intros c. unfold escape_char.
  by destruct c as [[] [] [] [] [] [] [] []].
Qed.

(** The characters of an escaped label. *)
Definition label_char (c : ascii) : bool :=
  (code c <? 128) && negb (is_linebreak c) && negb (Ascii.eqb "," c) && negb (Ascii.eqb "}" c).

Lemma escape_char_ok c : plain_char c = true -> str_forallb label_char (escape_char c) = true.
Proof. by destruct c as [[] [] [] [] [] [] [] []]. Qed.

Lemma escape_plain v : plain v = true -> str_forallb label_char (escape_label v) = true.
Proof. intros H. rewrite escape_label_chars. eapply str_forallb_concat_in; [apply escape_char_ok|exact H]. Qed.

Lemma utf8_ascii s : str_forallb label_char s = true -> utf8_encode s = s.
Proof.
  induction s as [|c s IH]; [done|]. cbn [str_forallb utf8_encode]. unfold label_char at 1.
  intros [Hc Hs]%andb_true_iff. rewrite !andb_true_iff in Hc. destruct Hc as [[[-> _] _] _]. by rewrite IH.
Qed.

Lemma unescape_char c r : plain_char c = true -> unicode_escape (escape_char c +:+ r) = String c <$> unicode_escape r.
Proof. by destruct c as [[] [] [] [] [] [] [] []]. Qed.

(** The escapes of the exporter are read back. *)
Lemma unescape_label v : plain v = true -> unicode_escape (utf8_encode (escape_label v)) = Some v.
Proof.
  intros Hv. rewrite utf8_ascii by by apply escape_plain. rewrite escape_label_chars.
  induction v as [|c v IH]; [done|]. unfold plain in Hv. cbn [str_forallb] in Hv. apply andb_true_iff in Hv as [Hc Hv].
  cbn [concat_map_str]. rewrite unescape_char by done. by rewrite IH.
Qed.

(** ** Names *)

Definition word_char (c : ascii) : bool := alnum c || Ascii.eqb "_" c.
Definition word (s : string) : bool := negb (is_empty s) && str_forallb word_char s.

Lemma word_char_not c d : word_char c = true -> word_char d = false -> Ascii.eqb d c = false.
Proof. intros Hc Hd. apply Ascii.eqb_neq. intros ->. congruence. Qed.
Lemma word_without d s : word s = true -> word_char d = false -> without d s = true.
Proof.
  intros [_ Hs]%andb_true_iff Hd. eapply str_forallb_impl; [|exact Hs]. intros c Hc. by rewrite (word_char_not c d).
Qed.
Lemma word_one_line s : word s = true -> one_line s = true.
Proof.
  intros [_ Hs]%andb_true_iff. eapply str_forallb_impl; [|exact Hs]. intros c. by destruct c as [[] [] [] [] [] [] [] []].
Qed.

Lemma metric_words : Forall (fun m => word (fst (fst m)) = true) METRICS.
Proof. repeat constructor. Qed.

(** ** A line *)

(** The text of the labels of a sample, without the braces. *)
Definition labels_text (l : label_list) : string := join "," (render_label <$> sorted_labels l).

Lemma partition_char c a b : without c a = true -> partition (char_str c) (a +:+ char_str c +:+ b) = Some (a, b).
Proof.
  intros Ha. unfold partition. rewrite split_on_cons by done.
  destruct (split_go_join (char_str c) 0 b) as [_ Hne]; [done|].
  pose proof (split_on_join (char_str c) b ltac:(done)) as Hj. unfold split_on in *.
  destruct (split_go (char_str c) 0 b) as [|x l]; [done|]. by rewrite Hj.
Qed.

Lemma render_label_read metric k v : word k = true -> plain v = true ->
  label_of metric (render_label (k, v)) = Ok (k, VStr v).
Proof.
  intros Hk Hv. unfold label_of, render_label. cbn [fst snd].
  rewrite (partition_char "=" k) by by apply word_without. cbv beta iota.
  set (e := escape_label v). change (char_str dquote +:+ e +:+ char_str dquote) with (quote_s +:+ e +:+ quote_s).
  assert (slen (quote_s +:+ e +:+ quote_s) <? 2 = false) as ->.
  { apply Z.ltb_ge. rewrite !slen_app. pose proof (slen_nonneg e). change (slen quote_s) with 1. lia. }
  assert (startswith quote_s (quote_s +:+ e +:+ quote_s) = true) as -> by apply prefix_app.
  rewrite <- str_app_assoc, endswith_app. cbn [negb orb].
  change 1%nat with (String.length quote_s). rewrite drop_last_app, str_drop_app. unfold e. by rewrite unescape_label.
Qed.

(** The characters of a printed label, and those of the text of the labels. *)
Lemma render_label_chars f k v : str_forallb f k = true -> plain v = true -> f "="%char = true -> f dquote = true ->
  (forall c, label_char c = true -> f c = true) -> str_forallb f (render_label (k, v)) = true.
Proof.
  intros Hk Hv He Hq Hf. unfold render_label. cbn [fst snd]. rewrite !str_forallb_app. cbn [char_str str_forallb].
  rewrite Hk, He, Hq, (str_forallb_impl _ _ _ Hf (escape_plain v Hv)). done.
Qed.

Lemma str_forallb_join f l : f ","%char = true -> Forall (fun s => str_forallb f s = true) l -> str_forallb f (join "," l) = true.
Proof.
  intros Hc Hl. induction Hl as [|s l Hs Hl IH]; [done|]. destruct l as [|s' l]; [done|].
  change (join "," (s :: s' :: l)) with (s +:+ "," +:+ join "," (s' :: l)).
  rewrite !str_forallb_app, Hs, IH. cbn. by rewrite Hc.
Qed.

Lemma labels_parts t node : exists l, sorted_labels (labels t node) = l /\ l <> [] /\
  Forall (fun p => word (fst p) = true) l /\ NoDup (fst <$> l) /\ l ≡ₚ labels t node.
Proof.
  eexists. split; [reflexivity|]. split; [done|]. split; [by repeat constructor|]. split.
  - cbn. apply has_dup_false. done.
  - apply sort_by_perm.
Qed.

Lemma plain_perm l l' : l ≡ₚ l' -> plain_labels l' = true -> Forall (fun p => plain (snd p) = true) l.
Proof.
  intros Hp H. rewrite Hp. apply List.Forall_forall. unfold plain_labels in H. by rewrite List.forallb_forall in H.
Qed.

Lemma labels_text_chars (f : ascii -> bool) l : f ","%char = true -> f "="%char = true -> f dquote = true ->
  (forall c, label_char c = true -> f c = true) -> (forall c, word_char c = true -> f c = true) ->
  Forall (fun p => word (fst p) = true) l -> Forall (fun p => plain (snd p) = true) l ->
  Forall (fun s => str_forallb f s = true) (render_label <$> l).
Proof.
  intros Hc He Hq Hf Hw Hk Hv. rewrite Forall_fmap. rewrite List.Forall_forall in *. intros [k v] Hin.
  specialize (Hk _ Hin). specialize (Hv _ Hin). cbn in Hk, Hv. apply render_label_chars; [|done..].
  apply andb_true_iff in Hk as [_ Hk]. by eapply str_forallb_impl.
Qed.

Lemma mapM_labels metric l : Forall (fun p => word (fst p) = true) l -> Forall (fun p => plain (snd p) = true) l ->
  mapM (label_of metric) (render_label <$> l) = Ok ((fun p : string * string => (fst p, VStr (snd p))) <$> l).
Proof.
  intros Hk Hv. induction l as [|[k v] l IH]; [done|]. inversion Hk; inversion Hv; subst.
  cbn [fmap list_fmap mapM]. rewrite render_label_read by done. cbn [rbind].
  change (list_fmap _ _ render_label l) with (render_label <$> l). by rewrite IH.
Qed.

Lemma fold_dset (l : pydict) : NoDup (dkeys l) -> forall d, (forall k, k ∈ dkeys l -> k ∉ dkeys d) ->
  fold_left (fun d p => dset (fst p) (snd p) d) l d = (d ++ l)%list.
Proof.
  induction l as [|[k v] l IH]; intros Hnd d Hd; cbn [fold_left fst snd]; [by rewrite app_nil_r|].
  unfold dkeys in Hnd. cbn in Hnd. apply list.NoDup_cons in Hnd as [Hk Hnd].
  rewrite dset_fresh by (apply Hd; unfold dkeys; cbn; left). rewrite IH; [by rewrite <- app_assoc|done|].
  intros k' Hk'. unfold dkeys. rewrite fmap_app, not_elem_of_app. cbn. rewrite list_elem_of_singleton. split.
  - apply Hd. unfold dkeys. cbn. by right.
  - intros ->. done.
Qed.

Lemma render_value_reads v t : finite_number v = true -> render_value v = Ok t ->
  is_Some (py_float t) /\ str_forallb decimal_char t = true.
Proof.
  destruct v as [n|x]; cbn [render_value finite_number]; intros Hf Ht.
  - inv_ok. apply format_gn_reads. unfold float_of_Z in *. by destruct (isfinite (binary_normalize prec emax n 0 false)) eqn:E; simplify_eq.
  - inv_ok. by apply format_gn_reads.
Qed.

Lemma char_classes c : (word_char c = true -> is_linebreak c = false /\ Ascii.eqb "," c = false /\ Ascii.eqb "}" c = false) /\
  (decimal_char c = true -> is_linebreak c = false) /\
  (label_char c = true -> is_linebreak c = false /\ Ascii.eqb "," c = false /\ Ascii.eqb "}" c = false).
Proof. by destruct c as [[] [] [] [] [] [] [] []]. Qed.

Lemma has_cell_labels id t node v : has_cell id (labels t node, v) = String.eqb (ct_cell_id t) id.
Proof. done. Qed.

(** The text of the labels: one line without a closing brace, whose items have
    no comma. *)
Lemma labels_text_read metric (l : label_list) t node : l = labels t node -> plain_labels l = true ->
  one_line (labels_text l) = true /\ without "}" (labels_text l) = true /\
  mapM (label_of metric) (split_on "," (labels_text l)) =
    Ok ((fun p : string * string => (fst p, VStr (snd p))) <$> sorted_labels l) /\
  fold_left (fun d p => dset (fst p) (snd p) d) ((fun p : string * string => (fst p, VStr (snd p))) <$> sorted_labels l) [] =
    ((fun p : string * string => (fst p, VStr (snd p))) <$> sorted_labels l).
Proof.
  intros -> Hp. destruct (labels_parts t node) as (l & El & Hne & Hk & Hnd & Hperm). unfold labels_text. rewrite El.
  pose proof (plain_perm _ _ Hperm Hp) as Hv. clear El Hperm.
  assert (forall f : ascii -> bool, f "="%char = true -> f dquote = true ->
    (forall c, label_char c = true -> f c = true) -> (forall c, word_char c = true -> f c = true) ->
    f ","%char = true -> str_forallb f (join "," (render_label <$> l)) = true) as Hall.
  { intros f He Hq Hf Hw Hc. apply str_forallb_join; [done|]. by apply labels_text_chars. }
  split; [|split; [|split]].
  - apply Hall; try done; intros c Hc; destruct (char_classes c) as (H1 & _ & H2);
      [by destruct (H2 Hc) as [-> _]|by destruct (H1 Hc) as [-> _]].
  - apply Hall; try done; intros c Hc; destruct (char_classes c) as (H1 & _ & H2);
      [by destruct (H2 Hc) as (_ & _ & ->)|by destruct (H1 Hc) as (_ & _ & ->)].
  - change "," with (char_str ","). rewrite split_on_joined; [by apply mapM_labels|by destruct l|].
    rewrite Forall_fmap, List.Forall_forall. intros [k v] Hin. rewrite List.Forall_forall in *.
    specialize (Hk _ Hin). specialize (Hv _ Hin). cbn in Hk, Hv. apply render_label_chars; [|done..|].
    + apply (word_without "," k Hk). done.
    + intros c Hc. destruct (char_classes c) as (_ & _ & H2). by destruct (H2 Hc) as (_ & -> & _).
  - apply fold_dset; [|by intros k _ ?%not_elem_of_nil].
    unfold dkeys. rewrite <- list_fmap_compose. exact Hnd.
Qed.

Lemma sample_line_read id timestamp m s line : word m = true -> plain_sample (m, s) -> sample_line m s = Ok line ->
  exists row, row_of timestamp (m, s) = Ok row /\ one_line line = true /\
    metric_line id timestamp line = Ok (if has_cell id s then Some (m, row) else None).
Proof.
  intros Hm (Hp & Hf & t & node & El) H. destruct s as [l v]. cbn [fst snd] in *. unfold sample_line in H.
  cbn [fst snd] in H. apply rbind_Ok in H as (text & Ht & H). apply Ok_inj in H. subst line. destruct (render_value_reads _ _ Hf Ht) as [[x Hx] Hd].
  destruct (labels_text_read m l t node El Hp) as (Hl1 & Hl2 & Hl3 & Hl4).
  unfold row_of. cbn [fst snd]. rewrite Ht. cbn [rbind]. eexists. split; [done|].
  change (render_labels l) with ("{" +:+ labels_text l +:+ "}").
  assert (m +:+ ("{" +:+ labels_text l +:+ "}") +:+ " " +:+ text = m +:+ char_str "{" +:+ (labels_text l +:+ char_str "}" +:+ " " +:+ text)) as ->.
  { cbn [char_str]. by rewrite !str_app_assoc. }
  split.
  - unfold one_line. rewrite !str_forallb_app. fold (one_line m) (one_line (labels_text l)).
    rewrite (word_one_line m Hm), Hl1. cbn. eapply str_forallb_impl; [|exact Hd]. intros c Hc.
    destruct (char_classes c) as (_ & H2 & _). by rewrite H2.
  - unfold metric_line. assert (exists c r, m = String c r /\ Ascii.eqb "#" c = false) as (c & r & Em & Hc).
    { apply andb_true_iff in Hm as [Hn Hw]. destruct m as [|c r]; [done|]. exists c, r. split; [done|].
      cbn [str_forallb] in Hw. apply andb_true_iff in Hw as [Hw _]. by apply word_char_not. }
    assert (is_empty (m +:+ char_str "{" +:+ (labels_text l +:+ char_str "}" +:+ " " +:+ text)) ||
            startswith "#" (m +:+ char_str "{" +:+ (labels_text l +:+ char_str "}" +:+ " " +:+ text)) = false) as ->.
    { rewrite Em. cbn [append is_empty String.eqb orb]. unfold startswith. change "#" with (char_str "#"). by rewrite prefix_char. }
    change "{" with (char_str "{"). rewrite partition_char by by apply word_without. cbv beta iota.
    change "}" with (char_str "}"). rewrite partition_char by done. cbv beta iota.
    rewrite Hl3. cbn [rbind]. cbv zeta. rewrite Hl4.
    assert (strip (" " +:+ text) = text) as ->.
    { apply strip_blank_before. eapply str_forallb_impl; [|exact Hd]. intros d Hd'. by rewrite decimal_char_not_space. }
    rewrite El, has_cell_labels. rewrite Hx.
    change (match dget "cell_id" ((fun p : string * string => (fst p, VStr (snd p))) <$> sorted_labels (labels t node)) with
            | Some (VStr c0) => String.eqb c0 id | _ => false end) with (String.eqb (ct_cell_id t) id).
    by destruct (String.eqb (ct_cell_id t) id).
Qed.

(** ** The whole text *)

Section Exposition.
Context (cell timestamp : string) (samples : list (string * sample)).
Hypothesis Hplain : Forall plain_sample samples.

(** What the lines of a part of the text give. *)
Definition reads_as (ls : list string) (ps : list (string * sample)) : Prop :=
  Forall (fun l => one_line l = true) ls /\
  exists rs rows, Forall2 (fun l r => metric_line cell timestamp l = Ok r) ls rs /\
    Forall2 (fun p row => row_of timestamp p = Ok row) ps rows /\
    omap Datatypes.id rs = (fun row => (mr_metric row, row)) <$> rows.

Lemma reads_as_nil : reads_as [] [].
Proof. split; [constructor|]. by exists [], []; repeat split; constructor. Qed.
Lemma reads_as_app ls1 ps1 ls2 ps2 : reads_as ls1 ps1 -> reads_as ls2 ps2 -> reads_as (ls1 ++ ls2) (ps1 ++ ps2).
Proof.
  intros [Ho1 (rs1 & rows1 & H1 & H2 & H3)] [Ho2 (rs2 & rows2 & H4 & H5 & H6)]. split; [by apply Forall_app|].
  exists (rs1 ++ rs2)%list, (rows1 ++ rows2)%list. split; [by apply Forall2_app|]. split; [by apply Forall2_app|].
  by rewrite omap_app, fmap_app, H3, H6.
Qed.
Lemma reads_as_skip l : one_line l = true -> metric_line cell timestamp l = Ok None -> reads_as [l] [].
Proof. intros Ho Hl. split; [by repeat constructor|]. exists [None], []. by repeat constructor. Qed.

Lemma reads_as_sample m s line : word m = true -> plain_sample (m, s) -> sample_line m s = Ok line ->
  reads_as [line] (if has_cell cell s then [(m, s)] else []).
Proof.
  intros Hm Hs Hl. destruct (sample_line_read cell timestamp m s line Hm Hs Hl) as (row & Hrow & Ho & Hr).
  split; [by repeat constructor|]. exists [if has_cell cell s then Some (m, row) else None].
  exists (if has_cell cell s then [row] else []). split; [by repeat constructor|].
  assert (mr_metric row = m) as Em.
  { unfold row_of in Hrow. apply rbind_Ok in Hrow as (v & _ & Hv). apply Ok_inj in Hv. by subst row. }
  destruct (has_cell cell s); (split; [by repeat constructor|]); cbn; by rewrite ?Em.
Qed.

Lemma reads_as_samples m ss : word m = true -> Forall (fun s => plain_sample (m, s)) ss -> forall ls,
  mapM (sample_line m) ss = Ok ls -> reads_as ls (pair m <$> List.filter (has_cell cell) ss).
Proof.
  intros Hm Hf ls H%mapM_Ok. induction H as [|s l ss ls Hl H IH]; [apply reads_as_nil|].
  apply Forall_cons_iff in Hf as [Hs Hf]. cbn [List.filter].
  pose proof (reads_as_app _ _ _ _ (reads_as_sample m s l Hm Hs Hl) (IH Hf)) as Ha.
  by destruct (has_cell cell s).
Qed.

Lemma samples_of_plain m : Forall (fun s => plain_sample (m, s)) (samples_of m samples).
Proof.
  unfold samples_of. rewrite sort_by_perm. apply List.Forall_forall. intros s Hs%list_elem_of_In.
  apply list_elem_of_omap in Hs as ([m' s'] & Hin & E). cbn [fst snd] in E. destruct (m =? m')%string; [|done].
  injection E as ->. rewrite List.Forall_forall in Hplain. specialize (Hplain (m', s)).
  apply list_elem_of_In in Hin. exact (Hplain Hin).
Qed.

Lemma metric_lines_read m ls : m ∈ METRICS -> metric_lines samples m = Ok ls -> reads_as ls (cell_samples_of cell samples m).
Proof.
  intros Hin H. assert (word (fst (fst m)) = true) as Hw.
  { pose proof metric_words as Hw. rewrite List.Forall_forall in Hw. apply Hw. by apply list_elem_of_In. }
  assert (one_line ("# HELP " +:+ fst (fst m) +:+ " " +:+ snd (fst m)) = true /\
          one_line ("# TYPE " +:+ fst (fst m) +:+ " " +:+ snd m) = true) as [Hh Ht].
  { assert (Forall (fun m => one_line ("# HELP " +:+ fst (fst m) +:+ " " +:+ snd (fst m)) = true /\
              one_line ("# TYPE " +:+ fst (fst m) +:+ " " +:+ snd m) = true) METRICS) as Hall by (repeat constructor).
    rewrite List.Forall_forall in Hall. apply Hall. by apply list_elem_of_In. }
  destruct m as [[m help] type]. cbn [fst snd] in *. unfold metric_lines in H. cbn [fst snd] in H.
  apply rbind_Ok in H as (sls & Hs & H). apply Ok_inj in H. subst ls.
  change (?h :: ?t :: sls) with ([h] ++ ([t] ++ sls))%list.
  apply (reads_as_app _ []); [by apply reads_as_skip|]. apply (reads_as_app _ []); [by apply reads_as_skip|].
  apply reads_as_samples; [done|apply samples_of_plain|done].
Qed.

Lemma metrics_lines_read ms lss : Forall (fun m => m ∈ METRICS) ms -> mapM (metric_lines samples) ms = Ok lss ->
  reads_as (concat lss) (concat (cell_samples_of cell samples <$> ms)).
Proof.
  intros Hms H%mapM_Ok. induction H as [|m ls ms lss Hl H IH]; [apply reads_as_nil|].
  apply Forall_cons_iff in Hms as [Hm Hms]. cbn [fmap list_fmap concat].
  apply reads_as_app; [by apply metric_lines_read|by apply IH].
Qed.

Lemma exposition_read text : exposition samples = Ok text ->
  exists rows, mapM (row_of timestamp) (cell_samples cell samples) = Ok rows /\
  parse_metrics text cell timestamp =
    match missing_metrics (fst <$> cell_samples cell samples) with
    | [] => Ok rows
    | missing => Raise (Exn CellRunError ("collector is missing required metric(s): " +:+ join ", " missing))
    end.
Proof.
  unfold exposition. intros H. apply rbind_Ok in H as (lss & Hl & H). apply Ok_inj in H. subst text.
  destruct (metrics_lines_read METRICS lss) as [Ho (rs & rows & Hr & Hp & Hf)]; [by apply List.Forall_forall; intros m ?%list_elem_of_In|done|].
  exists rows. split; [by apply mapM_Ok|]. unfold parse_metrics.
  assert (concat lss <> []) as Hne.
  { apply mapM_Ok in Hl. inversion Hl as [|m ls ms lss' H1 H2]; subst. unfold metric_lines in H1. cbn [fst snd] in H1.
    apply rbind_Ok in H1 as (x & _ & H1). apply Ok_inj in H1. by subst ls. }
  rewrite splitlines_lines by done. rewrite (proj2 (mapM_Ok _ _ _) Hr). cbn [rbind]. cbv zeta.
  change (omap id rs) with (omap Datatypes.id rs). rewrite Hf.
  assert (fst <$> ((fun row => (mr_metric row, row)) <$> rows) = fst <$> cell_samples cell samples) as ->.
  { rewrite <- list_fmap_compose. clear -Hp. unfold cell_samples. induction Hp as [|p row ps rows Hrow Hp IH]; [done|].
    cbn [fmap list_fmap compose]. f_equal; [|exact IH]. unfold row_of in Hrow.
    apply rbind_Ok in Hrow as (v & _ & Hv). apply Ok_inj in Hv. by subst row. }
  fold (missing_metrics (fst <$> cell_samples cell samples)).
  assert (snd <$> ((fun row => (mr_metric row, row)) <$> rows) = rows) as ->.
  { rewrite <- list_fmap_compose. by apply list_fmap_id. }
  by destruct (missing_metrics _).
Qed.
End Exposition.

(** ** From the targets to the rows *)

Definition plain_target (node : string) (t : CgroupTarget) : Prop := plain_labels (labels t node) = true.

Section Scrape.
Context `{Env}.

Lemma scaled_finite metric v scale vs : scaled metric v scale = Ok vs -> Forall (fun p => finite_number (snd p) = true) vs.
Proof.
  destruct v as [n|]; [|intros [= <-]; constructor]. cbn [scaled]. intros H1. apply rbind_Ok in H1 as (x & Hx & H1).
  apply Ok_inj in H1. subst vs. repeat constructor. cbn. by eapply truediv_finite.
Qed.

Lemma usage_finite stat vs : usage_values stat = Ok vs -> Forall (fun p => finite_number (snd p) = true) vs.
Proof.
  unfold usage_values. destruct (nonnegative_int _); [|intros [= <-]; constructor]. intros H1.
  apply rbind_Ok in H1 as (x & Hx & H1). apply Ok_inj in H1. subst vs. apply truediv_finite in Hx. by repeat constructor.
Qed.

Lemma counted_finite metric v : Forall (fun p => finite_number (snd p) = true) (counted metric v).
Proof. destruct v; by repeat constructor. Qed.
Lemma memory_finite current stat : Forall (fun p => finite_number (snd p) = true) (memory_values current stat).
Proof. unfold memory_values. destruct current; by repeat constructor. Qed.

Lemma read_target_finite path h vs h' : read_target_metrics path h = (Ok vs, h') -> Forall (fun p => finite_number (snd p) = true) vs.
Proof.
  unfold read_target_metrics. intros H0. repeat match goal with
    | H : mbindM (lift _) _ _ = (Ok _, _) |- _ =>
        let x := fresh "vs" in let h := fresh "h" in let Hx := fresh "Hvs" in
        apply bindM_Ok in H as (x & h & Hx & H); apply liftM_Ok in Hx as [Hx ->]; cbv beta in H
    | H : mbindM _ _ _ = (Ok _, _) |- _ =>
        let x := fresh "x" in let h := fresh "h" in
        apply bindM_Ok in H as (x & h & _ & H); cbv beta zeta in H
    | H : (let '(_, _) := ?x in _) _ = _ |- _ => destruct x
    end.
  apply retM_Ok in H0 as [-> _].
  repeat apply Forall_app_2; eauto using scaled_finite, usage_finite, counted_finite, memory_finite.
Qed.
Lemma read_samples_plain root node ts : Forall (plain_target node) ts -> forall h ss h',
  read_samples root node ts h = (Ok ss, h') -> Forall plain_sample ss.
Proof.
  induction 1 as [|t ts Ht Hts IH]; intros h ss h' Hr; cbn [read_samples] in Hr.
  - apply retM_Ok in Hr as [-> _]. constructor.
  - apply bindM_Ok in Hr as (p & h1 & Hp & Hr). cbv beta in Hr. apply bindM_Ok in Hr as (here & h2 & Hh & Hr). cbv beta in Hr.
    apply bindM_Ok in Hr as (more & h3 & Hm & Hr). apply retM_Ok in Hr as [-> _]. apply Forall_app_2; [|by eapply IH].
    destruct p as [[path parts]|]; [|apply retM_Ok in Hh as [-> _]; constructor].
    apply bindM_Ok in Hh as (vs & h4 & Hv & Hh). apply retM_Ok in Hh as [-> _]. rewrite Forall_fmap.
    apply read_target_finite in Hv. eapply List.Forall_impl; [|exact Hv]. intros [m v] Hf. cbn in *.
    split; [exact Ht|]. split; [exact Hf|]. by exists t, node.
Qed.

Lemma render_metrics_read c h text c' h' : render_metrics c h = (Ok (text, c'), h') ->
  exists targets i h1 samples h2, inventory_targets (co_inventory c) h = (Ok (targets, i), h1) /\
    read_samples (co_root c) (co_node c) targets h1 = (Ok samples, h2) /\ exposition samples = Ok text /\ h' = h2.
Proof.
  unfold render_metrics. intros Hr. apply bindM_Ok in Hr as ([targets i] & h1 & Hi & Hr). cbv beta iota in Hr.
  apply bindM_Ok in Hr as (ss & h2 & Hs & Hr). cbv beta in Hr. apply bindM_Ok in Hr as (t & h3 & Ht & Hr).
  apply liftM_Ok in Ht as [Ht ->]. apply retM_Ok in Hr as [E ->]. injection E as -> ->. naive_solver.
Qed.
End Scrape.

(** C32: What the collector answers is read by the cell runner sample by sample: if
    the labels of the targets are plain (ASCII, without a comma, a closing
    brace or a line break other than the newline; with a comma the reading
    fails), [parse_metrics] gives for a cell
    exactly the rows of its samples, in the printed order and with the printed
    value, and otherwise only the error that names the required metrics the
    cell has no sample of; no label and no number is refused. *)
Theorem scrape_is_read (E : Env) c h text c' h' cell timestamp :
  render_metrics c h = (Ok (text, c'), h') ->
  (forall targets i h1, inventory_targets (co_inventory c) h = (Ok (targets, i), h1) -> Forall (plain_target (co_node c)) targets) ->
  exists targets i h1 samples rows, inventory_targets (co_inventory c) h = (Ok (targets, i), h1) /\
    read_samples (co_root c) (co_node c) targets h1 = (Ok samples, h') /\
    mapM (row_of timestamp) (cell_samples cell samples) = Ok rows /\
    parse_metrics text cell timestamp =
      match missing_metrics (fst <$> cell_samples cell samples) with
      | [] => Ok rows
      | missing => Raise (Exn CellRunError ("collector is missing required metric(s): " +:+ join ", " missing))
      end.
Proof.
  intros Hr Hp. destruct (render_metrics_read _ _ _ _ _ Hr) as (targets & i & h1 & ss & h2 & Hi & Hs & Ht & ->).
  destruct (exposition_read cell timestamp ss (read_samples_plain _ _ _ (Hp _ _ _ Hi) _ _ _ Hs) text Ht) as (rows & Hrows & Hread).
  by exists targets, i, h1, ss, rows.
Qed.

(** ** A node with two cells *)

Definition counter_text (name : string) : result string :=
  if String.eqb name "cpu.stat" then
    Ok ("usage_usec 2500000" +:+ newline +:+ "nr_periods 25" +:+ newline +:+ "nr_throttled 4" +:+ newline +:+ "throttled_usec 160000" +:+ newline)
  else if String.eqb name "cpu.weight" then Ok ("100" +:+ newline)
  else if String.eqb name "cpu.max" then Ok ("100000 100000" +:+ newline)
  else if String.eqb name "cpu.pressure" then Ok ("some avg10=0.00 avg60=0.00 avg300=0.00 total=12" +:+ newline)
  else if String.eqb name "memory.current" then Ok ("8192" +:+ newline)
  else if String.eqb name "memory.stat" then Ok ("anon 1" +:+ newline +:+ "inactive_file 4096" +:+ newline)
  else Raise (Exn OSError "no such file").

Definition node_env : Env := fun R o _ =>
  match o in op R return result R with
  | Resolve p => Ok p
  | ReadText p => counter_text (default "" (list.last (split_on "/" p)))
  | _ => Raise (Exn OSError "")
  end.

Definition lab_target (cell level path : string) : CgroupTarget :=
  {| ct_uid := "uid-" +:+ cell; ct_namespace := "bench"; ct_pod := "pod " +:+ char_str dquote +:+ cell +:+ char_str dquote;
     ct_container := "work\load"; ct_qos := "Burstable"; ct_level := level; ct_cell_id := cell; ct_cgroup_path := path |}.
Definition lab_collector : collector :=
  {| co_root := "/sys/fs/cgroup"; co_node := "worker-0";
     co_inventory := Fixture [lab_target "cpu-flat" "pod_slice" "kubepods.slice/a"; lab_target "io-burst" "pod_slice" "kubepods.slice/b";
                              lab_target "cpu-flat" "container_scope" "kubepods.slice/a/c.scope"] |}.
Definition lab_text : string :=
  match fst (@render_metrics node_env lab_collector []) with Ok (text, _) => text | Raise _ => "" end.

Lemma lab_renders : exists c' h', @render_metrics node_env lab_collector [] = (Ok (lab_text, c'), h').
Proof. eexists _, _. vm_compute. reflexivity. Qed.

(** The rows of a cell: ten metrics of two cgroups. *)
Example lab_rows : match parse_metrics lab_text "cpu-flat" "2025-06-01T12:00:00Z" with
                   | Ok rows => (length rows, (fun r => (mr_metric r, mr_value r)) <$> take 3 rows)
                   | Raise _ => (O, [])
                   end = (20%nat, [("container_cpu_usage_seconds_total", "2.5"); ("container_cpu_usage_seconds_total", "2.5");
                                   ("container_cpu_cfs_periods_total", "25")]).
Proof. vm_compute. reflexivity. Qed.

(** A label with a comma, of any Pod, makes the text unreadable for every cell. *)
Example comma_is_refused : parse_metrics ("m{cell_id=" +:+ quote_s +:+ "a,b" +:+ quote_s +:+ "} 1") "cpu-flat" "now" =
  cell_error "invalid Prometheus label in m".
Proof. vm_compute. reflexivity. Qed.

Lemma scrape_is_read_witness : exists c' h', @render_metrics node_env lab_collector [] = (Ok (lab_text, c'), h') /\
  exists targets i h1 samples rows,
    @inventory_targets node_env (co_inventory lab_collector) [] = (Ok (targets, i), h1) /\
    @read_samples node_env (co_root lab_collector) (co_node lab_collector) targets h1 = (Ok samples, h') /\
    mapM (row_of "now") (cell_samples "cpu-flat" samples) = Ok rows /\
    parse_metrics lab_text "cpu-flat" "now" =
      match missing_metrics (fst <$> cell_samples "cpu-flat" samples) with
      | [] => Ok rows
      | missing => Raise (Exn CellRunError ("collector is missing required metric(s): " +:+ join ", " missing))
      end.
Proof.
  destruct lab_renders as (c' & h' & Hr). exists c', h'. split; [exact Hr|].
  refine (scrape_is_read node_env lab_collector [] lab_text c' h' "cpu-flat" "now" Hr _).
  intros targets i h1 E. injection E as <- _ _. repeat constructor.
Defined.
