(* ===== verification/CellRunThm.v ===== *)
(** Theorems about the cell runner of [CellRun.v], for every behaviour of
    cluster, files, clock and threads. *)

From Stdlib Require Import ZArith Bool Ascii String Lia SpecFloat.
From stdpp Require Import base list strings option pretty.
From S2P Require Import Prelude Eff PyStr PyRe PyFloat PyVal Json PyConv PyCsv World Probe Campaign Design Workloads CellRun.

Open Scope string_scope.
Open Scope Z_scope.

(** ** Statements of a [try] block *)

Section Attempts.
Context `{Env}.

(** A program that raises nothing. *)
Definition total {A} (m : M A) : Prop := forall h, exists a, fst (m h) = Ok a.

Lemma only_catch P {A} (m : M A) : only P m -> only P (catch m).
Proof. intros Hm h. destruct (Hm h) as (ev & E & HP). exists ev. unfold catch. by destruct (m h). Qed.

Lemma only_attempt P {A} l (m : M A) k : only P m -> (forall a, only P (k a)) -> only P (attempt l m k).
Proof.
  intros Hm Hk. unfold attempt. apply only_bind; [by apply only_catch|]. intros [a|e]; [apply Hk|apply only_ret].
Qed.

Lemma total_attempt {A} l (m : M A) k : (forall a, total (k a)) -> total (attempt l m k).
Proof.
  intros Hk h. unfold attempt, catch, mbindM. destruct (m h) as [[a|e] h']; [apply Hk|by exists (l, Some e)].
Qed.

Lemma total_ret {A} (a : A) : total (ret a).
Proof. intros h. by exists a. Qed.

Lemma total_catch {A} (m : M A) : total (catch m).
Proof. intros h. unfold catch. destruct (m h) as [r h']. by exists r. Qed.

(** The block ended without an exception: so did its first statement. *)
Lemma attempt_None {A} l (m : M A) k h l' h' :
  attempt l m k h = (Ok (l', None), h') -> exists a h1, m h = (Ok a, h1) /\ k a h1 = (Ok (l', None), h').
Proof. unfold attempt, catch, mbindM. destruct (m h) as [[a|e] h1]; [eauto|done]. Qed.
End Attempts.
#[export] Hint Resolve only_catch only_attempt total_ret total_catch total_attempt : k8.

(** Proves [only P m] through [try] blocks, too. *)
Ltac solve_only_try :=
  repeat match goal with
  | |- only _ (attempt _ _ _) => apply only_attempt; [|intros ?]
  | |- only _ (catch _) => apply only_catch
  | |- only _ (ret _) => apply only_ret
  | |- only _ (throw _ _) => apply only_throw
  | |- only _ (lift _) => apply only_lift
  | |- only _ (throw_if _ _ _) => apply only_throw_if
  | |- only _ (perform _) => apply only_perform
  | |- only _ (mbindM _ _) => apply only_bind; [|intros ?]
  | |- only _ (try_except _ _ _) => apply only_try; [|intros ?]
  | |- only _ (loop _ _ _) => apply only_loop; intros ?
  | |- only _ (if ?b then _ else _) => destruct b
  | |- only _ (match ?x with _ => _ end) => destruct x
  | |- only _ (let '(_, _) := ?x in _) => destruct x
  | |- _ => progress (cbv beta zeta)
  end; try reflexivity; eauto with k8.

Section Runner.
Context (E : Env) (yaml_load : string -> result pyval) (yaml_load_all : string -> result (list pyval))
        (yaml_dump : pyval -> string) (args : cell_args).

(** ** Pods are removed *)

(** The calls that create and delete Pods. *)
Definition applies (e : event) : bool :=
  match event_op e with RunInput argv (Some _) => true | _ => false end.
Definition delete_event (name : string) : event := Event (RunInput (kubectl_argv args (delete_argv name)) None).

(** The operations of the clean-up: stopping the trace and deleting Pods. *)
Definition cleans (names : list string) (e : event) : Prop :=
  match event_op e with
  | Poll | Terminate | Kill | Communicate _ => True
  | _ => exists n, n ∈ names /\ e = delete_event n
  end.

Definition silent (e : event) : Prop := applies e = false.

Lemma kubectl_silent arguments : only silent (kubectl args arguments None).
Proof. unfold kubectl. solve_only_try. Qed.
Lemma append_silent dir name columns rows : only silent (append_csv dir name columns rows).
Proof. unfold append_csv. solve_only_try. Qed.
Lemma utc_now_silent : only silent utc_now.
Proof. unfold utc_now. solve_only_try. Qed.

(** One deletion is one call. *)
Lemma delete_pod_calls name : emits (fun ev r => ev = [delete_event name] /\ True) (delete_pod args name).
Proof.
  intros h. exists [delete_event name]. split; [|done].
  unfold delete_pod, kubectl, try_except, mbindM, perform, throw_if, throw, ret, delete_event.
  destruct (answer completed _ h) as [c|e]; [|destruct (caught_by [FileNotFoundError] e)]; cbn [fst snd].
  - destruct (negb (returncode c =? 0)); [|done]. cbn. done.
  - done.
  - by destruct (caught_by [CellRunError] e).
Qed.

Definition deleted (names : list string) (ev : history) : Prop := forall n, n ∈ names -> delete_event n ∈ ev.

(** A clean-up of [names]: it did nothing else, and if it returned, all are
    deleted; if it raised, it was in one of its calls. *)
Definition cleanup (all names : list string) {A} (ev : history) (r : result A) : Prop :=
  Forall (cleans all) ev /\ Forall silent ev /\
  match r with Ok _ => deleted names ev | Raise _ => ev <> [] end.

Lemma delete_pods_calls names all : names ⊆ all -> emits (cleanup all names) (delete_pods args names).
Proof.
  induction names as [|n names IH]; intros Hall; cbn [delete_pods].
  - intros h. exists []. rewrite app_nil_r. repeat split; try constructor. intros m ?%not_elem_of_nil. done.
  - assert (cleans all (delete_event n)) as Hc by (exists n; split; [apply Hall; left|done]).
    apply (emits_bind (fun ev _ => ev = [delete_event n] /\ True) (fun _ => cleanup all names)).
    + apply delete_pod_calls.
    + intros ok. apply (emits_bind (cleanup all names) (fun failed ev r => ev = [] /\ exists x, r = Ok x)).
      * apply IH. intros m Hm. apply Hall. by right.
      * intros failed h. exists []. rewrite app_nil_r. split; [done|]. split; [done|]. by eexists.
      * intros ev1 a ev2 r Hq (-> & x & ->). by rewrite app_nil_r.
      * intros ev e Hq. exact Hq.
    + intros ev1 ok ev2 r [-> _] (H1 & H2 & H3). split; [by constructor|]. split; [by constructor|].
      destruct r; [|done]. intros m [->|Hm]%list.elem_of_cons; [by left|]. right. by apply H3.
    + intros ev e [-> _]. split; [by constructor|]. split; [by constructor|done].
Qed.

Lemma stop_trace_calls l names : emits (cleanup names []) (stop_trace l).
Proof.
  assert (forall ev, deleted [] ev) as Hd by (intros ev n ?%not_elem_of_nil; done).
  intros h. unfold stop_trace. destruct (lo_trace l).
  2:{ exists []. rewrite app_nil_r. repeat split; try constructor. apply Hd. }
  unfold try_except, mbindM, perform, ret.
  destruct (answer bool Poll h) as [[|]|e].
  - exists [Event Poll]. repeat split; try (by repeat constructor). apply Hd.
  - destruct (answer unit Terminate (h ++ [Event Poll])%list) as [u|e].
    2:{ exists [Event Poll; Event Terminate]. rewrite <- app_assoc. repeat split; by repeat constructor. }
    destruct (answer completed (Communicate (Some 10)) _) as [c|e].
    { exists [Event Poll; Event Terminate; Event (Communicate (Some 10))]. rewrite <- !app_assoc.
      repeat split; try (by repeat constructor). apply Hd. }
    destruct (caught_by [TimeoutExpired] e).
    2:{ exists [Event Poll; Event Terminate; Event (Communicate (Some 10))]. rewrite <- !app_assoc.
        repeat split; by repeat constructor. }
    destruct (answer unit Kill _) as [u'|e'].
    2:{ exists [Event Poll; Event Terminate; Event (Communicate (Some 10)); Event Kill]. rewrite <- !app_assoc.
        repeat split; by repeat constructor. }
    exists [Event Poll; Event Terminate; Event (Communicate (Some 10)); Event Kill; Event (Communicate None)].
    destruct (answer completed (Communicate None) _); cbn [fst snd]; rewrite <- !app_assoc;
      repeat split; try (by repeat constructor); apply Hd.
  - exists [Event Poll]. repeat split; by repeat constructor.
Qed.

(** A clean-up that was cut short by one of its own calls. *)
Definition cut_short (names : list string) {A} (ev : history) (r : result A) : Prop :=
  exists e o pre, r = Raise e /\ ev = (pre ++ [o])%list /\ cleans names o.

Lemma cut_short_intro names {A} ev (e : exn) :
  Forall (cleans names) ev -> ev <> [] -> cut_short names ev (@Raise A e).
Proof.
  intros Hf Hne. destruct (exists_last Hne) as (pre & o & ->). exists e, o, pre. repeat split.
  apply Forall_app in Hf as [_ Hf]. by inversion Hf.
Qed.
Lemma cut_short_app names {A} ev1 ev2 (r : result A) : cut_short names ev2 r -> cut_short names (ev1 ++ ev2)%list r.
Proof. intros (e & o & pre & -> & -> & Ho). exists e, o, (ev1 ++ pre)%list. by rewrite app_assoc. Qed.

Lemma finish_cell_deletes cell status uid started error :
  emits (fun ev r => Forall silent ev /\
           (deleted (owned_names args cell) ev \/ cut_short (owned_names args cell) ev r))
    (finish_cell args cell status uid started error).
Proof.
  unfold finish_cell.
  apply (emits_bind (cleanup (owned_names args cell) (owned_names args cell)) (fun _ ev _ => Forall silent ev)).
  - by apply delete_pods_calls.
  - intros failed. apply only_bind; [apply utc_now_silent|intros finished]. cbv zeta.
    apply only_bind; [by apply only_perform|intros _]. apply only_bind; [apply append_silent|intros _; apply only_ret].
  - intros ev1 failed ev2 r (H1 & H2 & H3) H4. split; [by apply Forall_app|]. left.
    intros n Hn. apply elem_of_app. left. by apply H3.
  - intros ev e (H1 & H2 & H3). split; [done|]. right. by apply cut_short_intro.
Qed.

(** ** Programs only append to the history *)

Definition anything (e : event) : Prop := True.

Lemma anything_perform {R} (o : op R) : only anything (perform o).
Proof. by apply only_perform. Qed.
#[local] Hint Resolve anything_perform : k8.

Lemma kubectl_any arguments input : only anything (kubectl args arguments input).
Proof. unfold kubectl. solve_only_try. Qed.
#[local] Hint Resolve kubectl_any : k8.
Lemma pod_json_any name : only anything (pod_json args name).
Proof. unfold pod_json. solve_only_try. Qed.
#[local] Hint Resolve pod_json_any : k8.
Lemma wait_for_ready_any fuel name timeout : only anything (wait_for_ready args fuel name timeout).
Proof. unfold wait_for_ready, until_deadline, poll_ready. solve_only_try. Qed.
Lemma wait_for_terminal_any fuel name timeout : only anything (wait_for_terminal args fuel name timeout).
Proof. unfold wait_for_terminal, until_deadline, poll_terminal. solve_only_try. Qed.
Lemma snapshot_pod_any uid : only anything (snapshot_pod args uid).
Proof. unfold snapshot_pod. solve_only_try. Qed.
Lemma utc_now_any : only anything utc_now.
Proof. unfold utc_now. solve_only_try. Qed.
Lemma append_csv_any dir name columns rows : only anything (append_csv dir name columns rows).
Proof. unfold append_csv. solve_only_try. Qed.
Lemma scraper_stop_any cell : only anything (scraper_stop args cell).
Proof. unfold scraper_stop. solve_only_try. Qed.
#[local] Hint Resolve wait_for_ready_any wait_for_terminal_any snapshot_pod_any utc_now_any append_csv_any scraper_stop_any : k8.
Lemma load_metrics_any cell name target : only anything (load_metrics args cell name target).
Proof. unfold load_metrics. solve_only_try. Qed.
Lemma target_manifest_any cell node run_id :
  only anything (target_manifest yaml_load yaml_load_all yaml_dump cell node run_id).
Proof. unfold target_manifest. solve_only_try. Qed.
Lemma start_noise_any cell fuel : only anything (start_noise yaml_dump args cell fuel).
Proof. unfold start_noise. solve_only_try. Qed.
#[local] Hint Resolve load_metrics_any target_manifest_any start_noise_any : k8.
Lemma record_cell_any cell fuel name l before_ samples loads output :
  only anything (record_cell args cell fuel name l before_ samples loads output).
Proof. unfold record_cell. solve_only_try. Qed.
#[local] Hint Resolve record_cell_any : k8.
Lemma measure_any cell fuel : only anything (measure yaml_load yaml_load_all yaml_dump args cell fuel).
Proof. unfold measure. solve_only_try. Qed.
Lemma handle_any cell l e : only anything (handle args cell l e).
Proof. unfold handle. solve_only_try. Qed.

Lemma measure_total cell fuel : total (measure yaml_load yaml_load_all yaml_dump args cell fuel).
Proof.
  unfold measure, record_cell. cbv zeta. repeat (apply total_attempt; intros ?; repeat case_match); apply total_ret.
Qed.

Lemma emits_total {A} (m : M A) : only anything m -> total m -> emits (fun _ r => exists a, r = Ok a) m.
Proof. intros Hm Ht h. destruct (Hm h) as (ev & He & _). exists ev. split; [done|apply Ht]. Qed.

(** The end of a run: no Pod is created any more, and every owned Pod is deleted
    unless the clean-up itself was cut short. *)
Definition tail_ok (cell : Cell) {A} (ev : history) (r : result A) : Prop :=
  Forall silent ev /\ deleted (owned_names args cell) ev \/ cut_short (owned_names args cell) ev r.
Definition ends_clean (cell : Cell) {A} (ev : history) (r : result A) : Prop :=
  exists ev1 ev2, ev = (ev1 ++ ev2)%list /\ tail_ok cell ev2 r.

Lemma ends_clean_app cell {A} ev1 ev2 (r : result A) : ends_clean cell ev2 r -> ends_clean cell (ev1 ++ ev2)%list r.
Proof. intros (eva & evb & -> & H). exists (ev1 ++ eva)%list, evb. by rewrite app_assoc. Qed.

Lemma tail_deleted cell {A B} ev1 ev2 (r : result A) (r' : result B) :
  Forall silent ev1 -> Forall silent ev2 -> deleted (owned_names args cell) ev2 ->
  tail_ok cell (ev1 ++ ev2)%list r'.
Proof.
  intros H1 H2 Hd. left. split; [by apply Forall_app|]. intros n Hn. apply elem_of_app. right. by apply Hd.
Qed.

Lemma finish_then cell status uid started error {B} (k : CellResult -> M B) :
  (forall r, emits (fun ev _ => ev = []) (k r)) ->
  emits (tail_ok cell) (let! r := finish_cell args cell status uid started error in k r).
Proof.
  intros Hk. eapply (emits_bind _ (fun _ ev _ => ev = [])); [apply finish_cell_deletes|exact Hk| |].
  - intros ev1 a ev2 r [H1 H2] ->. rewrite app_nil_r.
    destruct H2 as [H2|(e & o & pre & ? & _)]; [by left|done].
  - intros ev e [H1 [H2|H2]]; [by left|]. right.
    destruct H2 as (e' & o & pre & [= <-] & -> & Ho). by exists e, o, pre.
Qed.

Lemma stop_then cell l {B} (m : M B) : emits (tail_ok cell) m -> emits (tail_ok cell) (stop_trace l >>> m).
Proof.
  intros Hm. eapply (emits_bind _ (fun _ => tail_ok cell)); [apply (stop_trace_calls l (owned_names args cell))|done| |].
  - intros ev1 a ev2 r (H1 & H2 & _) [[H3 H4]|H3]; [by eapply (tail_deleted cell ev1 ev2 r)|].
    right. by apply cut_short_app.
  - intros ev e (H1 & H2 & H3). right. by apply cut_short_intro.
Qed.

Lemma total_then cell {A B} (m : M A) (k : A -> M B) :
  only anything m -> total m -> (forall a, emits (ends_clean cell) (k a)) -> emits (ends_clean cell) (mbindM m k).
Proof.
  intros Hm Ht Hk. eapply (emits_bind _ (fun _ => ends_clean cell)); [by apply emits_total|done| |].
  - intros. by apply ends_clean_app.
  - by intros ev e [a ?].
Qed.

Lemma emits_nothing {A} (r : result A) : emits (fun ev _ => ev = []) (lift r).
Proof. intros h. exists []. by rewrite app_nil_r. Qed.

Lemma emits_lift_Ok {A B} Q (a : A) (k : A -> M B) : emits Q (k a) -> emits Q (mbindM (lift (Ok a)) k).
Proof. done. Qed.

Lemma run_cell_clean cell fuel : cell_from_id (ca_cell_id args) = Ok cell ->
  emits (fun ev r => Forall silent ev \/ ends_clean cell ev r)
    (run_cell yaml_load yaml_load_all yaml_dump args fuel).
Proof.
  intros Hc. unfold run_cell. rewrite Hc.
  assert (forall {A B} (m : M A) (k : A -> M B), only silent m ->
    (forall a, emits (fun ev r => Forall silent ev \/ ends_clean cell ev r) (k a)) ->
    emits (fun ev r => Forall silent ev \/ ends_clean cell ev r) (mbindM m k)) as Hpre.
  { intros A B m k Hm Hk. eapply (emits_bind _ (fun _ ev r => _ \/ _)); [exact Hm|exact Hk| |by left].
    intros ev1 a ev2 r H1 [H2|H2]; [left; by apply Forall_app|right; by apply ends_clean_app]. }
  apply emits_lift_Ok. apply Hpre; [by apply only_perform|intros _].
  apply Hpre; [apply utc_now_silent|intros started].
  eapply emits_weaken; [intros ev r Hr; right; exact Hr|].
  apply total_then; [apply measure_any|apply measure_total|intros [l e]].
  apply total_then.
  { destruct e; [apply only_catch, handle_any|apply only_ret]. }
  { destruct e; [apply total_catch|apply total_ret]. }
  intros handled. eapply emits_weaken; [intros ev r Hr; exists [], ev; split; [done|exact Hr]|].
  apply stop_then. destruct handled as [error|e'].
  - pose proof (finish_then cell (match error with None => "complete" | Some _ => "failed" end) (lo_pod_uid l) started error
      ret (fun r => emits_nothing (Ok r))) as Hf. intros h. specialize (Hf h).
    unfold mbindM, ret in Hf. by destruct (finish_cell _ _ _ _ _ _ h) as [[r|e''] h'].
  - apply finish_then. intros _. apply emits_nothing.
Qed.
End Runner.

(** C25: The runner removes every Pod it owns: on every path, failures included,
    the last part of a run creates no Pod and deletes the target and, in a
    contention cell, the noise Pod.  A run that created nothing need not, and the
    only other exception is a clean-up that was itself cut short by one of its
    own calls (stopping the trace, or [kubectl] failing to run at all). *)
Theorem run_cell_removes_pods (E : Env) yaml_load yaml_load_all yaml_dump (args : cell_args) (fuel : nat) (cell : Cell) :
  cell_from_id (ca_cell_id args) = Ok cell ->
  emits (fun ev r =>
           Forall silent ev \/
           exists ev1 ev2, ev = (ev1 ++ ev2)%list /\
             (Forall silent ev2 /\ (forall n, n ∈ owned_names args cell -> delete_event args n ∈ ev2) \/
              cut_short args (owned_names args cell) ev2 r))
    (run_cell yaml_load yaml_load_all yaml_dump args fuel).
Proof. apply run_cell_clean. Qed.

(** ** Rows of a typed record *)

(** Integers and the text [max]: what a row may hold. *)
Definition plain_value (v : pyval) : Prop := (exists n, v = VInt n) \/ v = VStr "max".

Lemma int_field_get k d : int_field k d = true -> exists n, dget k d = Some (VInt n).
Proof. unfold int_field. destruct (dget k d) as [[]|]; try done. eauto. Qed.
Lemma str_field_get k d : str_field k d = true -> exists s, dget k d = Some (VStr s).
Proof. unfold str_field. destruct (dget k d) as [[]|]; try done. eauto. Qed.
Lemma counters_field_get k keys d : counters_field k keys d = true ->
  exists c, dget k d = Some (VDict c) /\ Forall (fun key => exists n, dget key c = Some (VInt n)) keys.
Proof.
  unfold counters_field. destruct (dget k d) as [[]|]; try done. intros H. eexists. split; [done|].
  apply List.Forall_forall. intros key Hk. rewrite forallb_forall in H. by apply int_field_get, H.
Qed.

Lemma dget_none_plain k d n : dget k d = Some (VInt n) -> plain_value (dget_none k d).
Proof. unfold dget_none. intros ->. left. by exists n. Qed.

(** What the reader of a typed level finds. *)
Lemma typed_level_get d : typed_level d = true ->
  exists kind path c p m, dget "kind" d = Some (VStr kind) /\ dget "path" d = Some (VStr path) /\
    dget "cpu_stat" d = Some (VDict c) /\ dget "cpu_pressure" d = Some (VDict p) /\ dget "memory" d = Some (VDict m) /\
    Forall (fun v => plain_value (snd (fst v))) (level_values d c p m) /\
    Forall (fun key => exists n, dget key c = Some (VInt n)) CPU_STAT_KEYS.
Proof.
  unfold typed_level. intros H. repeat (apply andb_true_iff in H as [H ?]).
  apply str_field_get in H as [kind Hk].
  repeat match goal with
  | Hx : str_field _ _ = true |- _ => apply str_field_get in Hx as [? ?]
  | Hx : int_field _ _ = true |- _ => apply int_field_get in Hx as [? ?]
  | Hx : counters_field _ _ _ = true |- _ => apply counters_field_get in Hx as (? & ? & ?)
  end.
  do 5 eexists. repeat (split; [eassumption|]). split; [|assumption].
  unfold level_values. cbn [fmap list_fmap app CPU_STAT_KEYS].
  repeat match goal with
  | Hx : Forall _ (_ :: _) |- _ => apply Forall_cons_iff in Hx as [[? ?] ?]
  | Hx : Forall _ CPU_STAT_KEYS |- _ => unfold CPU_STAT_KEYS in Hx
  end.
  repeat (apply List.Forall_cons; [cbn [fst snd]; try (eapply dget_none_plain; eassumption)|]); try apply List.Forall_nil.
  - unfold dget_none. destruct (dget "cpu_max_quota_us" d) as [[]|]; try done; [by right|left; eauto].
  - unfold dget_none. destruct (dget "cpu_max_period_us" d) as [[]|]; try done. left; eauto.
Qed.

Lemma value_rows_Ok captured_at window kind path vs :
  Forall (fun v => plain_value (snd (fst v))) vs ->
  exists rows, mapM (value_row captured_at window kind path) vs = Ok rows /\
    Forall2 (fun v r => r = {| cg_captured_at := captured_at; cg_window := window; cg_level := kind; cg_path := path;
                               cg_key := fst (fst v); cg_value := py_str (snd (fst v)); cg_unit := snd v |}) vs rows.
Proof.
  induction 1 as [|[[key v] u] vs Hv _ (rows & E & IH)]; [by exists []|].
  cbn [mapM]. rewrite E. destruct Hv as [[n Hn]|Hn]; cbn in Hn; subst v;
    eexists; (split; [reflexivity|]); constructor; done.
Qed.

(** A typed level gives eleven rows. *)
Lemma level_rows_Ok captured_at window v : typed_level_value v = true ->
  exists rows, level_rows captured_at window v = Ok rows /\ length rows = 11%nat.
Proof.
  destruct v as [| | | | | |d]; try done. intros H.
  destruct (typed_level_get d H) as (kind & path & c & p & m & H1 & H2 & H3 & H4 & H5 & H6 & _).
  cbn [level_rows]. rewrite H1, H2, H3, H4, H5.
  destruct (value_rows_Ok captured_at window kind path _ H6) as (rows & E & Hr). rewrite E.
  exists rows. split; [done|]. symmetry. apply (Forall2_length _ _ _ Hr).
Qed.

Lemma cgroup_rows_Ok record window : typed_record record = true ->
  exists ls rows, dget "levels" record = Some (VList ls) /\ cgroup_rows record window = Ok rows /\
    length rows = (11 * length ls)%nat /\ ls <> [].
Proof.
  unfold typed_record. intros [H1 H2]%andb_true_iff. apply str_field_get in H1 as [t Ht].
  destruct (dget "levels" record) as [[| | | | |[|l ls]|]|] eqn:El; try done.
  exists (l :: ls). unfold cgroup_rows. rewrite Ht, El.
  assert (exists rss, mapM (level_rows t window) (l :: ls) = Ok rss /\ length (concat rss) = (11 * length (l :: ls))%nat)
    as (rss & -> & Hlen).
  { clear El. revert H2. generalize (l :: ls). intros vs H2. induction vs as [|v vs IH]; [by exists []|].
    cbn [forallb] in H2. apply andb_true_iff in H2 as [Hv Hvs]. destruct (IH Hvs) as (rss & E & Hl).
    destruct (level_rows_Ok t window v Hv) as (rows & E' & Hl'). exists (rows :: rss). cbn [mapM]. rewrite E', E.
    split; [done|]. cbn [concat]. rewrite length_app, Hl, Hl'. simpl. lia. }
  eexists. split; [done|]. split; [reflexivity|]. done.
Qed.

(** C36: The types agree across the two programs.  Whatever the machine answers,
    a record that the probe captures is printed as JSON that the runner's
    [snapshot_pod] accepts when [kubectl exec] hands it over, and the accepted
    record gives eleven rows for each of its levels, none of them missing a
    value. *)
Theorem probe_record_accepted (E E' : Env) root uid pa h record h' (args : cell_args) window h2 :
  @capture E root uid pa h = (Ok record, h') ->
  let text := json_plain true (VDict record) +:+ newline in
  @answer E' completed (RunInput (kubectl_argv args (snapshot_argv args uid)) None) h2 =
    Ok {| returncode := 0; stdout := text; stderr := "" |} ->
  exists read h3 ls rows, @snapshot_pod E' args uid h2 = (Ok read, h3) /\ typed_record read = true /\
    dget "levels" read = Some (VList ls) /\ cgroup_rows read window = Ok rows /\ length rows = (11 * length ls)%nat.
Proof.
  intros Hc text Hk. apply capture_typed_wf in Hc as [Ht Hw].
  assert (json_loads text = Ok (json_norm true (VDict record))) as Hl.
  { apply (json_loads_text (plain_style true)); [apply plain_style_ok|done|done]. }
  set (read := order_items true ((fun p => (fst p, json_norm true (snd p))) <$> record)).
  assert (json_norm true (VDict record) = VDict read) as Hn by done. rewrite Hn in Hl.
  assert (typed_record read = true) as Ht' by by rewrite (typed_record_norm true record read Hw Hn).
  destruct (cgroup_rows_Ok read window Ht') as (ls & rows & Hls & Hrows & Hlen & Hne).
  eexists read, _, ls, rows. split; [|done].
  unfold snapshot_pod, kubectl, try_except, mbindM, perform, throw_if, ret. rewrite Hk.
  cbn [returncode stdout stderr negb Z.eqb]. rewrite Hl. cbv beta iota. rewrite Hls.
  destruct ls; [done|]. reflexivity.
Qed.
