(* ===== verification/CellWaits.v ===== *)
(** The waits of the cell runner ([wait_for_ready] and [wait_for_terminal] of
    [cpu-limits/experiments/run-cell.py]): they end, and they see what they wait
    for. *)

From Stdlib Require Import ZArith Bool Ascii String Lia SpecFloat.
From stdpp Require Import base list strings option pretty.
From S2P Require Import Prelude Eff PyStr PyFloat PyVal Json PyConv World Probe Design Workloads CellRun.

Open Scope string_scope.
Open Scope Z_scope.

(** ** The waits end *)

Section Ends.
Context `{HE : Env} `{@SteadyEnv HE} (args : cell_args).

Lemma steady_json_loads text : steady (json_loads text).
Proof. unfold json_loads. solve_steady. Qed.

Lemma steady_is_terminal phase : steady (is_terminal phase).
Proof. unfold is_terminal. solve_steady. Qed.

Lemma kubectl_steady arguments input : steadyM (kubectl args arguments input).
Proof.
  unfold kubectl. cbv zeta. apply steadyM_bind; [|intros c].
  - apply steadyM_try; [apply steadyM_perform|]. intros e. by apply steadyM_throw.
  - apply steadyM_bind; [by apply steadyM_throw_if|intros _; apply steadyM_ret].
Qed.

Lemma pod_json_steady name : steadyM (pod_json args name).
Proof.
  unfold pod_json. apply steadyM_bind; [apply kubectl_steady|intros output].
  pose proof (steady_json_loads output) as Hs. destruct (json_loads output) as [[]|e];
    try (by apply steadyM_throw); [apply steadyM_ret|].
  destruct (caught_by _ e); [by apply steadyM_throw|by apply steadyM_lift].
Qed.

(** A wait whose turns pause before the next one ends. *)
Lemma until_deadline_ends {A} n timeout fuel (turn : M (unit + A)) h :
  Paced one_second (flit timeout 1) n -> (n < fuel)%nat -> emits (pausing one_second) turn ->
  steadyM_at (until_deadline timeout fuel turn) h.
Proof.
  intros Hp Hn Ht. unfold until_deadline, steadyM_at. unfold mbindM at 1, perform.
  pose proof (answer_steady float Monotonic h) as Hc.
  destruct (answer float Monotonic h) as [t0|e] eqn:E; [|done].
  eapply (paced_loop one_second (flit timeout 1) n
    (fun _ => let! r := turn in ret (match r with inl u => inl u | inr a => inr (Some a) end))
    (fun _ => None)); [by intros| |exact E|lia].
  intros _ h'. unfold mbindM, ret. destruct (Ht h') as (ev & Ee & Hs & Hpos). exists ev.
  destruct (turn h') as [[[u|a]|e] h'']; cbn [fst snd] in *; split; try done; split; try done.
  intros s' _. by apply (Hpos u).
Qed.

Lemma poll_ready_pausing name : emits (pausing one_second) (poll_ready args name).
Proof.
  unfold poll_ready. apply pausing_bind; [apply pod_json_steady|intros pod].
  destruct (dget "status" pod) as [[]|]; try (by apply pausing_throw). cbv zeta.
  apply pausing_bind; [apply steadyM_lift, steady_is_terminal|intros terminal].
  apply pausing_bind; [by apply steadyM_throw_if|intros _].
  case_match; [apply pausing_leave|apply pausing_sleep].
Qed.

Lemma poll_terminal_pausing name : emits (pausing one_second) (poll_terminal args name).
Proof.
  unfold poll_terminal. apply pausing_bind; [apply pod_json_steady|intros pod].
  apply pausing_bind.
  - destruct (dget "status" pod) as [[]|]; try apply steadyM_ret. apply steadyM_lift, steady_is_terminal.
  - intros [|]; [apply pausing_leave|apply pausing_sleep].
Qed.

(** The two waits of a cell end: if the world raises Python exceptions only
    and [n] pauses of a second take at least the timeout, then with fuel for
    [n + 1] turns each of them returns or raises a Python exception. *)
Theorem cell_waits_terminate n timeout fuel name h :
  Paced one_second (flit timeout 1) n -> (n < fuel)%nat ->
  steadyM_at (wait_for_ready args fuel name timeout) h /\
  steadyM_at (wait_for_terminal args fuel name timeout) h.
Proof.
  intros Hp Hn. split; (apply steadyM_at_bind; [eapply until_deadline_ends; [exact Hp|exact Hn|]|]).
  - apply poll_ready_pausing.
  - intros [pod|]; [apply steadyM_ret|by apply steadyM_throw].
  - apply poll_terminal_pausing.
  - intros [u|]; [apply steadyM_ret|by apply steadyM_throw].
Qed.
End Ends.

(** ** A Pod that becomes ready is seen *)

(** What the API server says of a Pod: it runs or waits, and whether it is
    ready. *)
Definition running (pod : pydict) : bool :=
  match dget "status" pod with
  | Some (VDict status) => match is_terminal (dget_none "phase" status) with Ok b => negb b | Raise _ => false end
  | _ => false
  end.
Definition ready (pod : pydict) : bool :=
  match dget "status" pod with
  | Some (VDict status) => match dget "conditions" status with Some (VList cs) => existsb is_ready_condition cs | _ => false end
  | _ => false
  end.

Definition get_argv (args : cell_args) (name : string) : list string :=
  kubectl_argv args ["get"; "pod"; name; "-o"; "json"].

(** What [kubectl get] reports after [h]: the Pod [pod]. *)
Definition reports `{Env} (args : cell_args) (name : string) (h : history) (pod : pydict) : Prop :=
  exists text err, answer completed (RunInput (get_argv args name) None) h =
    Ok {| returncode := 0; stdout := text; stderr := err |} /\ json_loads text = Ok (VDict pod).

(** From [h] on, and until [k] pauses have passed, clock and pause answer, the
    deadline does not come, and the Pod is neither failed nor finished; after [k]
    pauses it is ready. *)
Record becomes_ready `{Env} (args : cell_args) (name : string) (timeout : Z) (h : history) (k : nat) : Prop := {
  br_clock : exists t0, answer float Monotonic h = Ok t0 /\
    forall ev, (pauses one_second ev <= k)%nat ->
      exists t, answer float Monotonic (h ++ ev)%list = Ok t /\ fltb t (fadd t0 (flit timeout 1)) = true;
  br_sleep : forall ev, (pauses one_second ev < k)%nat -> exists u, answer unit (Sleep one_second) (h ++ ev)%list = Ok u;
  br_pod : forall ev, (pauses one_second ev <= k)%nat ->
    exists pod, reports args name (h ++ ev)%list pod /\ running pod = true /\
      (pauses one_second ev = k -> ready pod = true)
}.

Section Progress.
Context `{HE : Env} (args : cell_args) (name : string).

Lemma pod_json_reports h pod : reports args name h pod ->
  pod_json args name h = (Ok pod, (h ++ [Event (RunInput (get_argv args name) None)])%list).
Proof.
  intros (text & err & Ha & Hl). unfold pod_json, kubectl, try_except, mbindM, perform, throw_if, ret.
  unfold get_argv in *. rewrite Ha. cbn [returncode stdout stderr negb Z.eqb]. by rewrite Hl.
Qed.

Lemma pauses_other d ev e : is_pause d e = false -> pauses d (ev ++ [e])%list = pauses d ev.
Proof. intros He. rewrite pauses_app. unfold pauses at 2. cbn [List.filter]. rewrite He. simpl. lia. Qed.
Lemma pauses_pause d ev : pauses d (ev ++ [Event (Sleep d)])%list = S (pauses d ev).
Proof.
  rewrite pauses_app. unfold pauses at 2, is_pause. cbn. rewrite bool_decide_true by done. simpl. lia.
Qed.

(** One turn: a ready Pod ends the wait, another one costs a pause. *)
Lemma poll_ready_turn h pod :
  reports args name h pod -> running pod = true ->
  let h1 := (h ++ [Event (RunInput (get_argv args name) None)])%list in
  poll_ready args name h =
    if ready pod then (Ok (inr pod), h1) else (perform (Sleep one_second) >>> ret (inl tt)) h1.
Proof.
  intros Hr Hrun h1. unfold poll_ready. unfold mbindM at 1. rewrite (pod_json_reports h pod Hr).
  unfold running, ready in *. destruct (dget "status" pod) as [[| | | | | |status]|]; try done. cbv zeta.
  unfold mbindM at 1, lift. destruct (is_terminal _) as [[|]|]; try done.
  unfold mbindM at 1, throw_if, ret at 1. by repeat case_match.
Qed.

(** The loop, [ev] after the start. *)
Lemma ready_loop timeout h k t0 :
  answer float Monotonic h = Ok t0 -> becomes_ready args name timeout h k ->
  forall fuel ev, (pauses one_second ev <= k)%nat -> (k - pauses one_second ev < fuel)%nat ->
  exists pod ev', loop fuel (fun _ : unit =>
      let! now := perform Monotonic in
      if fltb now (fadd t0 (flit timeout 1))
      then let! r := poll_ready args name in ret (match r with inl u => inl u | inr a => inr (Some a) end)
      else ret (inr None)) tt (h ++ ev)%list = (Ok (Some pod), (h ++ ev ++ ev')%list) /\
    ready pod = true /\ (pauses one_second (ev ++ ev') <= k)%nat.
Proof.
  intros Ht [(t0' & Ht' & Hclock) Hsleep Hpod]. rewrite Ht in Ht'. injection Ht' as <-.
  match goal with |- context [loop _ ?b] => set (body := b) end.
  induction fuel as [|fuel IH]; intros ev Hle Hf; [lia|]. cbn [loop].
  unfold body at 1. unfold mbindM at 1, mbindM at 1, perform at 1.
  destruct (Hclock ev Hle) as (t & -> & ->). rewrite <- app_assoc.
  set (ev1 := (ev ++ [Event Monotonic])%list).
  assert (pauses one_second ev1 = pauses one_second ev) as E1 by by apply pauses_other.
  destruct (Hpod ev1) as (pod & Hr & Hrun & Hk); [lia|].
  unfold mbindM at 1. rewrite (poll_ready_turn _ pod Hr Hrun). rewrite <- app_assoc.
  set (ev2 := (ev1 ++ [Event (RunInput (get_argv args name) None)])%list).
  assert (pauses one_second ev2 = pauses one_second ev) as E2 by (rewrite <- E1; by apply pauses_other).
  destruct (ready pod) eqn:Hready.
  - exists pod, [Event Monotonic; Event (RunInput (get_argv args name) None)]. split; [|split; [done|]].
    + unfold ret, ev2, ev1. by rewrite <- !app_assoc.
    + unfold ev2, ev1 in E2. rewrite <- app_assoc in E2. simpl in E2. lia.
  - assert (pauses one_second ev < k)%nat as Hlt.
    { destruct (decide (pauses one_second ev = k)) as [Heq|]; [|lia].
      assert (false = true) by (apply Hk; lia). done. }
    unfold mbindM at 1, perform. destruct (Hsleep ev2) as (u & ->); [lia|]. unfold ret. rewrite <- app_assoc.
    set (ev3 := (ev2 ++ [Event (Sleep one_second)])%list).
    assert (pauses one_second ev3 = S (pauses one_second ev)) as E3.
    { rewrite <- E2. apply pauses_pause. }
    destruct (IH ev3) as (pod' & ev' & -> & Hp' & Hle'); [lia|lia|].
    exists pod', ([Event Monotonic; Event (RunInput (get_argv args name) None); Event (Sleep one_second)] ++ ev')%list.
    unfold ev3, ev2, ev1 in *. rewrite <- !app_assoc in *. done.
Qed.
End Progress.

(** A Pod that becomes ready is seen.  If clock and pause answer, the Pod is
    never reported as failed or finished, and it is ready by the [k]-th pause,
    before the deadline, then the wait returns a ready Pod, after at most [k]
    pauses. *)
Theorem wait_for_ready_progress (E : Env) (args : cell_args) (name : string) (timeout : Z) (h : history) (k fuel : nat) :
  becomes_ready args name timeout h k -> (k < fuel)%nat ->
  exists pod ev, wait_for_ready args fuel name timeout h = (Ok pod, (h ++ ev)%list) /\ ready pod = true /\
    (pauses one_second ev <= k)%nat.
Proof.
  intros Hb Hf. pose proof Hb as [(t0 & Ht & _) _ _].
  assert (pauses one_second [Event Monotonic] = 0%nat) as H0 by done.
  destruct (ready_loop args name timeout h k t0 Ht Hb fuel [Event Monotonic]) as (pod & ev' & Hl & Hr & Hp); [lia|lia|].
  exists pod, (Event Monotonic :: ev'). split; [|done].
  unfold wait_for_ready, until_deadline. unfold mbindM at 1, mbindM at 1, perform at 1. rewrite Ht.
  by rewrite Hl.
Qed.

(** ** A world for the witnesses

    A Pod that is pending until the first pause and ready from then on; the
    clock shows the pauses that have passed. *)

Definition sample_args : cell_args :=
  {| ca_phase := "pilot"; ca_cell_id := "io-bound--no-limit--solo"; ca_run_id := "r1"; ca_block_id := 1; ca_position := 1;
     ca_seed := 7; ca_node := "n1"; ca_data_root := "data"; ca_collector_url := "http://c"; ca_collector_pod := "collector";
     ca_namespace := "ns"; ca_kubeconfig := None; ca_ready_timeout := 120; ca_warmup_seconds := 5; ca_measure_seconds := 10;
     ca_trace := false |}.

Definition pod_status (phase : string) (conditions : list pyval) : pyval :=
  VDict [("metadata", VDict [("uid", VStr "u1")]);
         ("status", VDict [("phase", VStr phase); ("podIP", VStr "10.0.0.7"); ("conditions", VList conditions)])].
Definition ready_condition : pyval := VDict [("type", VStr "Ready"); ("status", VStr "True")].

Definition one_pause : Env := fun R o =>
  match o in op R return history -> result R with
  | Monotonic => fun h => Ok (flit (Z.of_nat (pauses one_second h)) 1)
  | Sleep _ => fun _ => Ok tt
  | RunInput _ _ => fun h => Ok {| returncode := 0; stderr := ""; stdout := json_plain true
      (if decide (0 < pauses one_second h)%nat then pod_status "Running" [ready_condition] else pod_status "Pending" []) |}
  | _ => fun _ => Raise (Exn OSError "")
  end.

Lemma wait_for_ready_progress_witness :
  exists pod ev, @wait_for_ready one_pause sample_args 2 "p" 120 [] = (Ok pod, ev) /\ ready pod = true.
Proof.
  destruct (wait_for_ready_progress one_pause sample_args "p" 120 [] 1 2) as (pod & ev & E & Hr & _); [|lia|by exists pod, ev].
  split.
  - exists fzero. split; [done|]. intros ev Hle. eexists. split; [reflexivity|]. simpl.
    destruct (pauses one_second ev) as [|[|]]; [reflexivity|reflexivity|lia].
  - intros ev _. by exists tt.
  - intros ev Hle. unfold reports. cbn [answer one_pause app].
    change (answer completed) with (one_pause completed). cbn [one_pause].
    destruct (decide (0 < pauses one_second ev)%nat).
    + eexists. split; [eexists _, _; split; [reflexivity|vm_compute; reflexivity]|]. by split.
    + eexists. split; [eexists _, _; split; [reflexivity|vm_compute; reflexivity]|]. split; [done|lia].
Defined.

(** A clock that jumps at the first pause, so that one pause outlasts every
    timeout. *)
Definition hasty : Env := fun R o =>
  match o in op R return history -> result R with
  | Monotonic => fun h => Ok (if decide (0 < pauses one_second h)%nat then S754_infinity false else fzero)
  | o => one_pause _ o
  end.

Lemma cell_waits_terminate_witness : steadyM_at (@wait_for_ready hasty sample_args 2 "p" 120) [].
Proof.
  assert (@SteadyEnv hasty) as Hs by (intros R o h; destruct o; done).
  apply (@cell_waits_terminate hasty Hs sample_args 1 120 2 "p" []); [|lia].
  intros h ev t t' Ht Hp Ht'. unfold answer in Ht, Ht'. cbn [hasty] in Ht, Ht'. rewrite pauses_app in Ht'.
  rewrite decide_True in Ht' by (clear - Hp; lia). injection Ht' as <-.
  destruct (decide _); injection Ht as <-; reflexivity.
Defined.
