(* ===== verification/CellComplete.v ===== *)
(** What a cell that is reported complete has recorded, and how the runner
    reports it. *)

From Stdlib Require Import ZArith Bool Ascii String Lia SpecFloat.
From stdpp Require Import base list strings option pretty.
From S2P Require Import Prelude Eff PyStr PyFloat PyCsv PyRe PyVal Json PyConv World Probe Design Workloads CellRun CellRunThm CellWaits.

Open Scope string_scope.
Open Scope Z_scope.

(** ** Operations of a part of a run *)

(** [e] was performed between the histories [h] and [h']. *)
Definition since (h h' : history) (e : event) : Prop := exists ev, h' = (h ++ ev)%list /\ e ∈ ev.
(** [h'] continues [h]. *)
Definition continues (h h' : history) : Prop := exists ev, h' = (h ++ ev)%list.

#[export] Instance continues_preorder : PreOrder continues.
Proof.
  split; [intros h; exists []; by rewrite app_nil_r|].
  intros h1 h2 h3 [ev1 ->] [ev2 ->]. exists (ev1 ++ ev2)%list. by rewrite app_assoc.
Qed.

Lemma since_before h0 h h' e : continues h0 h -> since h h' e -> since h0 h' e.
Proof.
  intros [ev1 ->] (ev2 & -> & He). exists (ev1 ++ ev2)%list. split; [by rewrite app_assoc|].
  apply elem_of_app. by right.
Qed.
Lemma since_after h h1 h' e : since h h1 e -> continues h1 h' -> since h h' e.
Proof.
  intros (ev1 & -> & He) [ev2 ->]. exists (ev1 ++ ev2)%list. split; [by rewrite app_assoc|].
  apply elem_of_app. by left.
Qed.

Lemma emits_continues {A} Q (m : M A) h r h' : emits Q m -> m h = (r, h') -> continues h h'.
Proof. intros Hm E. destruct (Hm h) as (ev & He & _). rewrite E in He. by exists ev. Qed.
Lemma only_continues {A} (m : M A) h r h' : only anything m -> m h = (r, h') -> continues h h'.
Proof. apply emits_continues. Qed.
Lemma perform_continues `{Env} {R} (o : op R) h r h' : perform o h = (r, h') -> continues h h'.
Proof. unfold perform. intros [= _ <-]. by eexists. Qed.

Lemma perform_since `{Env} {R} (o : op R) h a h' : perform o h = (Ok a, h') -> since h h' (Event o).
Proof. unfold perform. intros [= _ <-]. exists [Event o]. split; [done|left]. Qed.

(** A CSV file got these rows, under a header if it was new. *)
Definition csv_appended (h h' : history) (dir name : string) (columns : list string) (rows : list (list string)) : Prop :=
  exists header : bool,
    since h h' (Event (AppendText (path_join dir name) (csv_write (if header then columns :: rows else rows)))).

Lemma append_csv_appended `{Env} dir name columns rows h u h' :
  append_csv dir name columns rows h = (Ok u, h') -> rows <> [] -> csv_appended h h' dir name columns rows.
Proof.
  unfold append_csv. destruct rows as [|r rows]; [done|]. intros Hm _. run_hyps.
  apply perform_continues in Hx, Hx0.
  apply perform_since in Hm. exists (negb x0). eapply since_before; [|destruct x0; exact Hm]. by etrans.
Qed.

(** ** Samples *)

Lemma metric_line_metric cid ts line m r : metric_line cid ts line = Ok (Some (m, r)) -> mr_metric r = m.
Proof.
  unfold metric_line. destruct (_ || _); [done|]. destruct (partition "{" line) as [[metric rest]|]; [|done].
  destruct (partition "}" rest) as [[labels value]|]; [|done].
  destruct (mapM _ _) as [pairs|]; [|done]. cbn [rbind]. destruct (negb _); [done|].
  destruct (py_float _); [|done]. by intros [= <- <-].
Qed.

(** A scrape that is accepted has every required metric. *)
Lemma parse_metrics_required text cid ts rows : parse_metrics text cid ts = Ok rows ->
  forall m, m ∈ REQUIRED_METRICS -> m ∈ (mr_metric <$> rows).
Proof.
  unfold parse_metrics. intros H m Hm. apply rbind_Ok in H as (found & Hf & H).
  cbv zeta in H. apply rbind_Ok in H as (u & Hr & H). apply Ok_inj in H as <-. apply raise_if_Ok in Hr.
  assert (m ∈ (fst <$> omap id found)) as Hin.
  { destruct (sort_by _ _) as [|? ?] eqn:Es in Hr; [|done].
    apply mem_string_spec. apply not_false_iff_true. intros Hn.
    pose proof (sort_by_perm String.leb (List.filter (fun m => negb (mem_string m (fst <$> omap id found))) REQUIRED_METRICS)) as Hp.
    rewrite Es in Hp. apply Permutation_nil_l in Hp.
    assert (In m (List.filter (fun m => negb (mem_string m (fst <$> omap id found))) REQUIRED_METRICS)) as Hi.
    { apply filter_In. split; [by apply list_elem_of_In|]. by rewrite Hn. }
    rewrite <- Hp in Hi. done. }
  apply list_elem_of_fmap in Hin as ([m' r] & -> & Hin). cbn [fst].
  apply list_elem_of_omap in Hin as (o & Ho & Eo). unfold id in Eo. subst o.
  apply mapM_Ok in Hf. apply Forall2_flip in Hf. destruct (Forall2_elem_l _ _ _ _ Hf Ho) as (line & _ & Hl).
  apply metric_line_metric in Hl. rewrite <- Hl. apply list_elem_of_fmap. exists r. split; [done|].
  apply list_elem_of_fmap. exists (m', r). split; [done|]. apply list_elem_of_omap. by exists (Some (m', r)).
Qed.

(** So do the samples of a scraper that recorded any. *)
Lemma scraper_run_required cid answers samples e : scraper_run cid answers = (samples, e) -> samples <> [] ->
  forall m, m ∈ REQUIRED_METRICS -> m ∈ (mr_metric <$> samples).
Proof.
  destruct answers as [|a rest]; cbn [scraper_run]; [by intros [= <- _]|]. cbv zeta.
  destruct (rbind a _) as [rows|e'] eqn:Ea; [|destruct (caught_by _ e'); by intros [= <- _]].
  destruct (scraper_run cid rest) as [more e'] eqn:Er. intros [= <- <-] _ m Hm.
  apply rbind_Ok in Ea as ([payload at_] & _ & Hp). rewrite fmap_app. apply elem_of_app. left.
  by eapply parse_metrics_required.
Qed.

Lemma scraper_stop_required `{Env} args cell h samples h' :
  scraper_stop args cell h = (Ok samples, h') ->
  forall m, m ∈ REQUIRED_METRICS -> m ∈ (mr_metric <$> samples).
Proof.
  unfold scraper_stop. intros Hs. run_hyps. destruct x as [answers alive]. run_hyps.
  destruct (scraper_run (cell_id cell) answers) as [found e] eqn:Er.
  destruct e as [e|]; [by apply liftM_Ok in Hs as [? _]|].
  destruct found as [|r found]; [done|]. apply retM_Ok in Hs as [-> ->].
  by eapply scraper_run_required.
Qed.

(** ** Successful commands *)

(** [kubectl] was run with these arguments, and exited with status 0. *)
Definition kubectl_done `{Env} (args : cell_args) (arguments : list string) (input : option string) (h h' : history) : Prop :=
  exists h1 c, continues h h1 /\ answer completed (RunInput (kubectl_argv args arguments) input) h1 = Ok c /\
    returncode c = 0 /\ continues (h1 ++ [Event (RunInput (kubectl_argv args arguments) input)])%list h'.

Lemma kubectl_done_before `{Env} args arguments input h0 h h' :
  continues h0 h -> kubectl_done args arguments input h h' -> kubectl_done args arguments input h0 h'.
Proof. intros Hc (h1 & c & H1 & H2 & H3 & H4). exists h1, c. repeat split; try done. by etrans. Qed.
Lemma kubectl_done_after `{Env} args arguments input h h1 h' :
  kubectl_done args arguments input h h1 -> continues h1 h' -> kubectl_done args arguments input h h'.
Proof. intros (h2 & c & H1 & H2 & H3 & H4) Hc. exists h2, c. repeat split; try done. by etrans. Qed.

Lemma kubectl_Ok `{Env} args arguments input h out h' :
  kubectl args arguments input h = (Ok out, h') -> kubectl_done args arguments input h h'.
Proof.
  unfold kubectl. intros Hk. run_hyps. apply try_except_Ok in Hx as [Hx|(e & h2 & _ & _ & Hx)]; [|done].
  exists h, x. unfold perform in Hx. injection Hx as Ha <-. repeat split; try done.
  by apply negb_false_iff, Z.eqb_eq in Hx0.
Qed.

Lemma delete_pods_done `{Env} args names h h' :
  delete_pods args names h = (Ok [], h') -> forall n, n ∈ names -> kubectl_done args (delete_argv n) None h h'.
Proof.
  revert h. induction names as [|n names IH]; intros h Hd m Hm; [by apply not_elem_of_nil in Hm|].
  cbn [delete_pods] in Hd. apply bindM_Ok in Hd as (ok & h1 & Hx & Hd). apply bindM_Ok in Hd as (failed & h2 & Hf & Hd).
  apply retM_Ok in Hd as [Hd ->]. destruct ok; [|done]. subst failed.
  assert (continues h h1) as Hc0 by (eapply emits_continues; [apply delete_pod_calls|exact Hx]).
  assert (continues h1 h2) as Hc1 by (eapply emits_continues; [apply (delete_pods_calls _ args names names); reflexivity|exact Hf]).
  apply list.elem_of_cons in Hm as [->|Hm].
  - eapply kubectl_done_after; [|exact Hc1]. clear IH. unfold delete_pod in Hx.
    apply try_except_Ok in Hx as [Hx|(e & h3 & _ & _ & Hx)]; [|done].
    apply bindM_Ok in Hx as (out & h4 & Hk & Hx). apply retM_Ok in Hx as [_ ->]. by eapply kubectl_Ok.
  - eapply kubectl_done_before; [exact Hc0|]. by apply IH.
Qed.

(** ** A complete cell *)

Lemma cgroup_rows_nonempty record window rows l ls :
  cgroup_rows record window = Ok rows -> dget "levels" record = Some (VList (l :: ls)) -> rows <> [].
Proof.
  unfold cgroup_rows. intros H E. rewrite E in H. destruct (dget "captured_at" record) as [[]|]; try done.
  apply rbind_Ok in H as (rss & Hm & [= <-]). cbn [mapM] in Hm.
  apply rbind_Ok in Hm as (r & Hr & Hm). apply rbind_Ok in Hm as (rs & _ & [= <-]). cbn [concat].
  destruct l as [| | | | | |level]; try done. cbn [level_rows] in Hr.
  repeat (case_match; try done). apply mapM_length in Hr. destruct r; [done|]. done.
Qed.

Lemma snapshot_levels `{Env} args uid h record h' : snapshot_pod args uid h = (Ok record, h') ->
  exists l ls, dget "levels" record = Some (VList (l :: ls)).
Proof.
  unfold snapshot_pod. intros Hs. run_hyps. destruct (json_loads x) as [[]|e].
  all: try done; try (by destruct (caught_by _ e)).
  destruct (dget "levels" d) as [[| | | | |[|l ls]|]|] eqn:El; try done. apply retM_Ok in Hs as [-> _]. eauto.
Qed.

Section Complete.
Context (E : Env) (yaml_load : string -> result pyval) (yaml_load_all : string -> result (list pyval))
        (yaml_dump : pyval -> string) (args : cell_args) (cell : Cell).

(** What the end of the block recorded between [h] and [h']; [measured]: what
    the load gave, which for the stress workloads is read from their log. *)
Definition rows_recorded (h h' : history) (before_ after_ : pydict) (samples : list metric_row) (measured : metrics) : Prop :=
  exists a b d loads timestamp,
    (mem_string (workload cell) ["cpu-bound"; "memory-bound"] = false -> loads = measured) /\
    cgroup_rows before_ "start" = Ok a /\ cgroup_rows after_ "end" = Ok b /\ delta_rows before_ after_ = Ok d /\
    csv_appended h h' (cell_root args) "cgroups.csv" CGROUP_COLUMNS (cgroup_line args cell <$> (a ++ b ++ d)%list) /\
    csv_appended h h' (cell_root args) "metrics.csv" METRIC_COLUMNS
      (metric_line_of args cell <$> (samples ++ (load_row cell timestamp <$> loads))%list).

Lemma csv_appended_before h0 h h' dir name columns rows :
  continues h0 h -> csv_appended h h' dir name columns rows -> csv_appended h0 h' dir name columns rows.
Proof. intros Hc [header Hs]. exists header. by eapply since_before. Qed.
Lemma csv_appended_after h h1 h' dir name columns rows :
  csv_appended h h1 dir name columns rows -> continues h1 h' -> csv_appended h h' dir name columns rows.
Proof. intros [header Hs] Hc. exists header. by eapply since_after. Qed.

Lemma rows_recorded_after h h1 h' before_ after_ samples ms :
  rows_recorded h h1 before_ after_ samples ms -> continues h1 h' -> rows_recorded h h' before_ after_ samples ms.
Proof.
  intros (a & b & d & loads & t & H0 & H1 & H2 & H3 & H4 & H5) Hc. exists a, b, d, loads, t.
  repeat split; try done; by eapply csv_appended_after.
Qed.

#[local] Hint Resolve anything_perform kubectl_any pod_json_any wait_for_ready_any wait_for_terminal_any snapshot_pod_any
  utc_now_any append_csv_any scraper_stop_any load_metrics_any target_manifest_any start_noise_any : k8.

(** The next statement of a block that ended without an exception; the history
    it reaches continues the one before. *)
Ltac next H a h Hx := let Hc := fresh "Hc" in
  apply attempt_None in H as (a & h & Hx & H); cbv beta iota zeta in H;
  assert (continues _ h) as Hc by (eapply only_continues; [|exact Hx]; solve_only_try).
Ltac solve_continues :=
  repeat first [reflexivity | match goal with Hc : continues ?a _ |- continues ?a _ => etrans; [exact Hc|clear Hc] end].

Lemma record_cell_complete fuel name l before_ samples loads output h l' h' :
  record_cell args cell fuel name l before_ samples loads output h = (Ok (l', None), h') ->
  (exists x ls, dget "levels" before_ = Some (VList (x :: ls))) -> samples <> [] ->
  l' = l /\ exists after_ h1, snapshot_pod args (lo_pod_uid l) h = (Ok after_, h1) /\
    rows_recorded h1 h' before_ after_ samples loads.
Proof.
  unfold record_cell. intros Hr (x & ls & Hb) Hs.
  next Hr after_ h1 Hsnap. next Hr u1 h2 Hw1. next Hr ld h3 Hload. destruct ld as [loads' output'].
  next Hr u2 h4 Hw2. next Hr ts h5 Hts. next Hr cgs h6 Hrec. next Hr u3 h7 Hcg. next Hr u4 h8 Hme.
  apply retM_Ok in Hr as [[= ->] ->]. split; [done|]. exists after_, h1. split; [exact Hsnap|].
  assert (mem_string (workload cell) ["cpu-bound"; "memory-bound"] = false -> loads' = loads) as Hkept.
  { intros Hw. rewrite Hw in Hload. by apply retM_Ok in Hload as [[= -> _] _]. }
  apply liftM_Ok in Hrec as [Hrec ->]. unfold record_rows in Hrec.
  apply rbind_Ok in Hrec as (ra & Ha & Hrec). apply rbind_Ok in Hrec as (rb & Hb' & Hrec).
  apply rbind_Ok in Hrec as (rd & Hd & [= <-]). exists ra, rb, rd, loads', ts.
  assert (ra <> []) as Hne by (by eapply cgroup_rows_nonempty).
  repeat split; try done.
  - eapply csv_appended_after; [|exact Hc6]. apply append_csv_appended in Hcg; [|by destruct ra].
    eapply csv_appended_before; [|exact Hcg]. solve_continues.
  - apply append_csv_appended in Hme; [|by destruct samples].
    eapply csv_appended_before; [|exact Hme]. solve_continues.
Qed.

(** What the block of a complete cell did, one step of the run after the other:
    the first snapshot, the load, the samples, the second snapshot, the rows. *)
Definition block_recorded (h h' : history) (uid : string) : Prop :=
  uid <> "" /\ exists before_ after_ samples pod ms output ha hb hc hd he hf hg,
    continues h ha /\ snapshot_pod args uid ha = (Ok before_, hb) /\
    continues hb hc /\ load_metrics args cell (target_name cell (ca_run_id args)) pod hc = (Ok (ms, output), hd) /\
    scraper_stop args cell hd = (Ok samples, he) /\
    continues he hf /\ snapshot_pod args uid hf = (Ok after_, hg) /\
    (forall m, m ∈ REQUIRED_METRICS -> m ∈ (mr_metric <$> samples)) /\
    rows_recorded hg h' before_ after_ samples ms.

Lemma pod_uid_nonempty pod uid : pod_uid pod = Ok uid -> uid <> "".
Proof. unfold pod_uid. intros Hu. repeat (case_match; try done). injection Hu as ->. by intros ->. Qed.

Lemma measure_complete fuel h l h' :
  measure yaml_load yaml_load_all yaml_dump args cell fuel h = (Ok (l, None), h') ->
  block_recorded h h' (lo_pod_uid l) /\ lo_trace l = false.
Proof.
  unfold measure. cbv zeta. intros Hm.
  next Hm u1 h1 Happly. next Hm u2 h2 Hnoise. next Hm target h3 Hready. next Hm uid h4 Huid.
  next Hm u3 h5 Hinv. next Hm before_ h6 Hbefore. next Hm u4 h7 Hstart. next Hm u5 h8 Hscraper. next Hm u6 h9 Hwarm.
  next Hm u7 h10 Htrace. next Hm ld h11 Hload. destruct ld as [loads output].
  next Hm found h12 Hstop. next Hm u8 h13 Hcom.
  assert (found <> []) as Hne.
  { pose proof (scraper_stop_required args cell _ _ _ Hstop "container_cpu_usage_seconds_total") as Hreq.
    intros ->. apply (not_elem_of_nil "container_cpu_usage_seconds_total"). apply Hreq. left. }
  apply record_cell_complete in Hm as [-> (after_ & h14 & Hafter & Hrows)]; [|by eapply snapshot_levels|done].
  cbn [lo_pod_uid lo_trace] in *. split; [|done]. split.
  { apply liftM_Ok in Huid as [Huid _]. by eapply pod_uid_nonempty. }
  exists before_, after_, found, target, loads, output, h5, h6, h10, h11, h12, h13, h14.
  split_and!; try done; [solve_continues..|by apply scraper_stop_required with (1 := Hstop)].
Qed.

Lemma handle_error l e h r h' : handle args cell l e h = (Ok r, h') -> exists text, r = Some text.
Proof.
  unfold handle. destruct (caught_by _ e); [|done]. destruct (lo_scraper l); [|intros [= <- _]; eauto].
  intros Ht. apply try_except_Ok in Ht as [Ht|(e2 & h1 & _ & _ & Ht)].
  - apply bindM_Ok in Ht as (s & h1 & _ & [-> _]%retM_Ok). eauto.
  - injection Ht as <- _. eauto.
Qed.

Lemma finish_cell_complete uid started error h r h' :
  finish_cell args cell (match error with None => "complete" | Some _ => "failed" end) uid started error h = (Ok r, h') ->
  cr_status r = "complete" ->
  error = None /\ cr_pod_uid r = uid /\ cr_error r = None /\ cr_teardown r = "complete" /\
  csv_appended h h' (cell_root args) "blocks.csv" BLOCK_COLUMNS [block_line args cell r] /\
  since h h' (Event (WriteText (path_join (cell_dir args cell) "status.json")
                       (json_indent false (result_value r) +:+ newline))) /\
  forall n, n ∈ owned_names args cell -> kubectl_done args (delete_argv n) None h h'.
Proof.
  unfold finish_cell. cbv zeta. intros Hf Hs.
  apply bindM_Ok in Hf as (failed & h1 & Hdel & Hf). apply bindM_Ok in Hf as (finished & h2 & Hnow & Hf).
  apply bindM_Ok in Hf as (u & h3 & Hst & Hf). apply bindM_Ok in Hf as (u' & h4 & Hap & Hf).
  apply retM_Ok in Hf as [-> ->].
  assert (continues h h1) as Hc1.
  { eapply emits_continues; [apply (delete_pods_calls E args (owned_names args cell) (owned_names args cell)); reflexivity|exact Hdel]. }
  assert (continues h1 h2) as Hc2 by (eapply only_continues; [apply utc_now_any|exact Hnow]).
  assert (continues h2 h3) as Hc3 by (by eapply perform_continues).
  assert (continues h3 h4) as Hc4 by (eapply only_continues; [apply append_csv_any|exact Hap]).
  destruct failed as [|f failed]; [|done]. cbn [conclude_cell cr_status] in *.
  destruct error as [error|]; [done|]. repeat split.
  - apply append_csv_appended in Hap; [|done]. eapply csv_appended_before; [|exact Hap]. solve_continues.
  - apply perform_since in Hst. eapply since_after; [|exact Hc4]. eapply since_before; [|exact Hst]. solve_continues.
  - intros n Hn. eapply kubectl_done_after; [by eapply delete_pods_done|]. solve_continues.
Qed.

Lemma stop_trace_off l h : lo_trace l = false -> stop_trace l h = (Ok tt, h).
Proof. intros H. unfold stop_trace. by rewrite H. Qed.

Lemma block_recorded_extend h0 h h' h'' uid :
  continues h0 h -> continues h' h'' -> block_recorded h h' uid -> block_recorded h0 h'' uid.
Proof.
  intros H1 H2 (Hu & b & a & s & pod & ms & o & ha & hb & hc & hd & he & hf & hg & Hca & Hb & Hcc & Hl & Hs & Hcf & Ha & Hr & Hrows).
  split; [done|]. exists b, a, s, pod, ms, o, ha, hb, hc, hd, he, hf, hg. split_and!; try done; [by etrans|by eapply rows_recorded_after].
Qed.

Lemma run_cell_recorded fuel h r h' : cell_from_id (ca_cell_id args) = Ok cell ->
  run_cell yaml_load yaml_load_all yaml_dump args fuel h = (Ok r, h') -> cr_status r = "complete" ->
  block_recorded h h' (cr_pod_uid r) /\ cr_error r = None /\ cr_teardown r = "complete" /\
  csv_appended h h' (cell_root args) "blocks.csv" BLOCK_COLUMNS [block_line args cell r] /\
  forall n, n ∈ owned_names args cell -> kubectl_done args (delete_argv n) None h h'.
Proof.
  intros Hcell Hr Hs. unfold run_cell in Hr. rewrite Hcell in Hr.
  apply bindM_Ok in Hr as (c & h0 & [[= <-] ->]%liftM_Ok & Hr).
  apply bindM_Ok in Hr as (u & h1 & Hmk & Hr). apply bindM_Ok in Hr as (started & h2 & Hnow & Hr).
  apply bindM_Ok in Hr as ([l e] & h3 & Hm & Hr). apply bindM_Ok in Hr as (handled & h4 & Hh & Hr).
  assert (continues h h1) as Hc1 by (by eapply perform_continues).
  assert (continues h1 h2) as Hc2 by (eapply only_continues; [apply utc_now_any|exact Hnow]).
  assert (continues h2 h3) as Hc3 by (eapply only_continues; [apply measure_any|exact Hm]).
  apply bindM_Ok in Hr as (u' & h5 & Hstop & Hr).
  destruct handled as [error|e']; [|by apply bindM_Ok in Hr as (? & ? & _ & [? _]%liftM_Ok)].
  apply finish_cell_complete in Hr as (-> & -> & He & Ht & Hb & _ & Hdel); [|done].
  destruct e as [e|].
  { unfold catch in Hh. destruct (handle args cell l e h3) as [[r'|] h6] eqn:Eh; [|done].
    injection Hh as -> _. apply handle_error in Eh as [text ?]. done. }
  apply retM_Ok in Hh as [_ ->]. apply measure_complete in Hm as [Hrec Htrace].
  rewrite stop_trace_off in Hstop by done. injection Hstop as _ <-.
  assert (continues h3 h') as Hc4.
  { destruct Hb as (header & ev & -> & _). by exists ev. }
  split; [|split; [done|split; [done|split]]].
  - eapply block_recorded_extend; [|exact Hc4|exact Hrec]. solve_continues.
  - eapply csv_appended_before; [|exact Hb]. solve_continues.
  - intros n Hn. eapply kubectl_done_before; [|by apply Hdel]. solve_continues.
Qed.
End Complete.

(** C2: "complete" means complete.  When the runner reports a cell as complete,
    it took, one after the other, a snapshot of a Pod with a UID, the load, the
    samples of the collector and a second snapshot of the Pod; after the second
    one it stored the rows of both and of their difference in [cgroups.csv], and
    these samples, with every required metric, and the values of the load in
    [metrics.csv]; it recorded the cell in [blocks.csv] without
    an error, and every Pod it owns was deleted by a command that succeeded. *)
Theorem complete_cell_is_recorded (E : Env) yaml_load yaml_load_all yaml_dump (args : cell_args) (cell : Cell) (fuel : nat) h r h' :
  cell_from_id (ca_cell_id args) = Ok cell ->
  run_cell yaml_load yaml_load_all yaml_dump args fuel h = (Ok r, h') -> cr_status r = "complete" ->
  block_recorded E args cell h h' (cr_pod_uid r) /\ cr_error r = None /\ cr_teardown r = "complete" /\
  csv_appended h h' (cell_root args) "blocks.csv" BLOCK_COLUMNS [block_line args cell r] /\
  forall n, n ∈ owned_names args cell -> kubectl_done args (delete_argv n) None h h'.
Proof. apply run_cell_recorded. Qed.

(** ** A small cluster

    A cluster for the theorems about the cell runner: a node whose cgroup
    files the probe reads, and a cluster in which a contention cell runs to its
    end.  The probe is run on the node, and its output is what the runner gets
    from [kubectl exec]. *)

Definition noon : datetime :=
  {| dt_year := 2025; dt_month := 6; dt_day := 1; dt_hour := 12; dt_minute := 0; dt_second := 0; dt_micro := 0 |}.

(** ** The node *)

Definition base_name (path : string) : string := default "" (list.last (split_on "/" path)).

(** The files of a cgroup after [n] measurements. *)
Definition cgroup_file (n : Z) (name : string) : option string :=
  match List.find (fun p => String.eqb name (fst p))
    [("cpu.max", "50000 100000"); ("cpu.weight", "4");
     ("cpu.stat", join newline ["usage_usec " +:+ str_of_Z (1000 + 500000 * n); "user_usec 1"; "nr_periods " +:+ str_of_Z (10 * n);
        "nr_throttled " +:+ str_of_Z (3 * n); "throttled_usec " +:+ str_of_Z (70000 * n)]);
     ("cpu.pressure", join newline ["some avg10=0.00 total=" +:+ str_of_Z (9 * n); "full avg10=0.00 total=0"]);
     ("memory.current", "4096"); ("memory.peak", "8192"); ("cgroup.type", "domain");
     ("cgroup.controllers", "cpu memory")] with
  | Some p => Some (snd p +:+ newline)
  | None => None
  end.

Definition sample_uid : string := "12345678-1234-1234-1234-123456789abc".

Definition node_world (n : Z) : Env := fun R o =>
  match o in op R return history -> result R with
  | Resolve p => fun _ => Ok p
  | IsDir p => fun _ => Ok (negb (contains "guaranteed" p) && negb (contains "besteffort" p) && negb (endswith "/container" p))
  | IsFile p => fun _ => Ok (match cgroup_file n (base_name p) with Some _ => true | None => false end)
  | ReadText p => fun _ => match cgroup_file n (base_name p) with Some t => Ok t | None => Raise (Exn FileNotFoundError p) end
  | IterDir _ => fun _ => Ok ["crio-abc.scope"; "cpu.stat"]
  | UtcNow => fun _ => Ok noon
  | _ => fun _ => Raise (Exn OSError "")
  end.

Definition lab_probe_args : probe_args :=
  {| pa_run_id := "r1"; pa_block_id := 1; pa_cell_id := "c"; pa_node := "n1"; pa_scheduler := "eevdf" |}.
Definition probe_record (n : Z) : pydict :=
  match fst (@capture (node_world n) "/host/sys/fs/cgroup" sample_uid lab_probe_args []) with
  | Ok r => r
  | Raise _ => []
  end.
Definition probe_text (n : Z) : string := json_plain true (VDict (probe_record n)) +:+ newline.

(** ** The cluster *)

Definition lab_args : cell_args :=
  {| ca_phase := "pilot"; ca_cell_id := "contention-cpu-bound-burstable-low"; ca_run_id := "r1"; ca_block_id := 1;
     ca_position := 1; ca_seed := 7; ca_node := "n1"; ca_data_root := "data"; ca_collector_url := "http://c";
     ca_collector_pod := "collector"; ca_namespace := "ns"; ca_kubeconfig := None; ca_ready_timeout := 120;
     ca_warmup_seconds := 5; ca_measure_seconds := 10; ca_trace := false |}.

(** The snapshots taken so far. *)
Definition is_exec (e : event) : bool := match event_op e with RunInput argv _ => mem_string "exec" argv | _ => false end.
Definition snapshots (h : history) : Z := Z.of_nat (length (List.filter is_exec h)).

(** A Pod is ready at once, and finished after the second snapshot. *)
Definition lab_pod (h : history) : pyval :=
  VDict [("metadata", VDict [("uid", VStr sample_uid)]);
         ("status", VDict [("phase", VStr (if 2 <=? snapshots h then "Succeeded" else "Running")); ("podIP", VStr "10.0.0.7");
            ("conditions", VList [VDict [("type", VStr "Ready"); ("status", VStr "True")]])])].

Definition lab_kubectl (argv : list string) (h : history) : string :=
  if mem_string "get" argv then json_plain false (lab_pod h)
  else if mem_string "exec" argv then probe_text (snapshots h)
  else if mem_string "logs" argv then "stress-ng: info:  [1] 4000.25 bogo ops/s"
  else "".

Definition lab_scrape : string :=
  join newline ((fun m => m +:+ "{cell_id=" +:+ quote_s +:+ ca_cell_id lab_args +:+ quote_s +:+ "} 12.5") <$> REQUIRED_METRICS).

Definition lab_template : string :=
  join newline ["kind: Pod"; "metadata:"; "  name: __NAME__"; "  labels:"; "    run: __RUN_ID__"; "    app: __WORKLOAD__";
                "spec:"; "  nodeName: __NODE__"; "  containers:"; "  - name: main"; "    __RESOURCES__: {}"; ""].

Definition cluster : Env := fun R o =>
  match o in op R return history -> result R with
  | Monotonic => fun _ => Ok fzero
  | Sleep _ | MakeDirs _ | WriteText _ _ | AppendText _ _ | StartScraper _ => fun _ => Ok tt
  | UtcNow => fun _ => Ok noon
  | PathExists _ => fun _ => Ok false
  | ReadText _ => fun _ => Ok lab_template
  | RunInput argv _ => fun h => Ok {| returncode := 0; stdout := lab_kubectl argv h; stderr := "" |}
  | JoinScraper _ _ => fun _ => Ok ([Ok (lab_scrape, noon)], false)
  | _ => fun _ => Raise (Exn OSError "")
  end.

(** A reader and a writer of YAML: every text is a Pod's manifest. *)
Definition lab_yaml : pyval := VDict [("metadata", VDict [("name", VStr "p")])].
Definition lab_run (E : Env) : M CellResult :=
  @run_cell E (fun _ => Ok lab_yaml) (fun _ => Ok [lab_yaml]) (json_plain false) lab_args 3.

(** ** Witnesses *)

Lemma probe_record_accepted_witness :
  exists read h3 ls rows, @snapshot_pod cluster lab_args sample_uid [] = (Ok read, h3) /\ typed_record read = true /\
    dget "levels" read = Some (VList ls) /\ cgroup_rows read "start" = Ok rows /\ length rows = (11 * length ls)%nat.
Proof.
  destruct (@capture (node_world 0) "/host/sys/fs/cgroup" sample_uid lab_probe_args []) as [[record|e] h'] eqn:Ec.
  - refine (probe_record_accepted (node_world 0) cluster _ _ _ _ record h' lab_args "start" [] Ec _).
    assert (record = probe_record 0) as -> by (unfold probe_record; by rewrite Ec). reflexivity.
  - exfalso. assert (is_ok (fst (@capture (node_world 0) "/host/sys/fs/cgroup" sample_uid lab_probe_args [])) = true) as Hok
      by (vm_compute; reflexivity). by rewrite Ec in Hok.
Defined.

Lemma cpu_stat_deltas_exact_witness :
  exists ds al bl, cpu_stat_deltas (probe_record 0) (probe_record 1) = Ok ds /\ levels (probe_record 1) = Ok al /\
    levels (probe_record 0) = Ok bl /\ length al = 3%nat /\ Forall2 (delta_of (by_path bl)) al ds.
Proof.
  destruct (cpu_stat_deltas (probe_record 0) (probe_record 1)) as [ds|] eqn:Ed; [|vm_compute in Ed; discriminate Ed].
  destruct (levels (probe_record 1)) as [al|] eqn:Ea; [|vm_compute in Ea; discriminate Ea].
  destruct (levels (probe_record 0)) as [bl|] eqn:Eb; [|vm_compute in Eb; discriminate Eb].
  exists ds, al, bl. split; [done|]. split; [done|]. split; [done|]. split.
  - assert (match levels (probe_record 1) with Ok al => length al | Raise _ => 0%nat end = 3%nat) as H by (vm_compute; reflexivity).
    by rewrite Ea in H.
  - apply (proj1 (cpu_stat_deltas_exact (probe_record 0) (probe_record 1) bl al ds Eb Ea) Ed).
Defined.

(** The cell that the laboratory runs. *)
Definition lab_cell : Cell := default {| cell_id := ""; workload := ""; policy := ""; condition := "";
  request_millicores := None; limit_millicores := None |} (List.find (fun c => String.eqb (cell_id c) (ca_cell_id lab_args)) CELLS).

Lemma lab_cell_from_id : cell_from_id (ca_cell_id lab_args) = Ok lab_cell.
Proof. vm_compute. reflexivity. Qed.

Lemma complete_cell_is_recorded_witness :
  exists r h', lab_run cluster [] = (Ok r, h') /\ cr_error r = None /\ cr_teardown r = "complete" /\
    length (owned_names lab_args lab_cell) = 2%nat /\
    csv_appended [] h' "data/pilot" "blocks.csv" BLOCK_COLUMNS [block_line lab_args lab_cell r].
Proof.
  assert (match fst (lab_run cluster []) with Ok r => cr_status r | Raise _ => "" end = "complete") as Hs
    by (vm_compute; reflexivity).
  destruct (lab_run cluster []) as [[r|e] h'] eqn:Er; [|done]. cbn [fst] in Hs. exists r, h'.
  destruct (complete_cell_is_recorded cluster _ _ _ lab_args lab_cell 3 [] r h' lab_cell_from_id Er Hs)
    as (_ & H1 & H2 & H3 & _).
  split; [done|]. split; [done|]. split; [done|]. split; [vm_compute; reflexivity|exact H3].
Defined.

Lemma run_cell_removes_pods_witness :
  @emits CellResult (fun ev r =>
    Forall silent ev \/
    exists ev1 ev2, ev = (ev1 ++ ev2)%list /\
      (Forall silent ev2 /\ (forall n, n ∈ owned_names lab_args lab_cell -> delete_event lab_args n ∈ ev2) \/
       cut_short lab_args (owned_names lab_args lab_cell) ev2 r)) (lab_run cluster).
Proof. exact (run_cell_removes_pods cluster _ _ _ lab_args 3 lab_cell lab_cell_from_id). Defined.

(** The rows of the difference, as they are stored: a third of the periods of
    the Pod was throttled. *)
Example lab_throttling :
  List.filter (fun r => String.eqb (cg_level r) "pod_slice" && startswith "cpu.stat.nr" (cg_key r))
    (match delta_rows (probe_record 0) (probe_record 1) with Ok rows => rows | Raise _ => [] end) =
  (fun kv => {| cg_captured_at := "2025-06-01T12:00:00Z"; cg_window := "measurement_delta"; cg_level := "pod_slice";
     cg_path := pod_slice_path "/host/sys/fs/cgroup" "burstable" "12345678_1234_1234_1234_123456789abc";
     cg_key := fst kv; cg_value := snd kv; cg_unit := "count" |}) <$>
  [("cpu.stat.nr_periods", "10"); ("cpu.stat.nr_throttled", "3")].
Proof. vm_compute. reflexivity. Qed.
