(* ===== verification/Analyze.v ===== *)
(** [cpu-limits/analysis/analyze.py] and [cgroup_mapping.py]: the analysis of a
    campaign's tables. *)

From Stdlib Require Import ZArith Bool Ascii String Lia SpecFloat.
From stdpp Require Import base list strings option.
From S2P Require Import Prelude Eff PyStr PyCsv PyFloat PyVal PyDict Json PyConv World Files Probe Stats Design.

Open Scope string_scope.
Open Scope Z_scope.

Definition PROTOCOL : string := "cpu-limits-v1".
Definition MIN_BLOCKS : Z := 3.
Definition PERFORMANCE_MARGIN : float := flit 5 100.
Definition THROTTLE_MARGIN : float := flit 10 100.

Definition BLOCK_COLUMNS : list string :=
  ["protocol"; "phase"; "run_id"; "block_id"; "seed"; "position"; "cell_id"; "workload"; "policy"; "condition";
   "node"; "pod_uid"; "status"; "started_at"; "finished_at"].
Definition CGROUP_COLUMNS : list string :=
  ["protocol"; "run_id"; "block_id"; "cell_id"; "captured_at"; "window"; "level"; "path"; "key"; "value"; "unit"].
Definition METRIC_COLUMNS : list string :=
  ["protocol"; "run_id"; "block_id"; "cell_id"; "timestamp"; "source"; "metric"; "value"; "unit"; "labels_json"].

(** A predeclared comparison. *)
Record Family : Type := {
  fa_name : string; fa_control : string; fa_treatment : string; fa_condition : string; fa_margin : float; fa_planned : Z
}.
Definition FAMILIES : list Family :=
  [{| fa_name := "limit_effect"; fa_control := "fit"; fa_treatment := "burstable-low"; fa_condition := "solo";
      fa_margin := PERFORMANCE_MARGIN; fa_planned := 4 |};
   {| fa_name := "request_weight"; fa_control := "request-high"; fa_treatment := "request-low"; fa_condition := "contention";
      fa_margin := PERFORMANCE_MARGIN; fa_planned := 4 |};
   {| fa_name := "guaranteed_vs_burstable"; fa_control := "burstable-low"; fa_treatment := "guaranteed-low";
      fa_condition := "contention"; fa_margin := PERFORMANCE_MARGIN; fa_planned := 4 |};
   {| fa_name := "throttle_gap"; fa_control := "fit"; fa_treatment := "burstable-low"; fa_condition := "solo";
      fa_margin := THROTTLE_MARGIN; fa_planned := 8 |}].

Definition THROUGHPUT_METRICS (workload : string) : list string :=
  if String.eqb workload "cpu-bound" then ["bogo_ops_per_second"; "ops_per_second"; "throughput"]
  else if String.eqb workload "io-bound" then ["requests_per_second"; "throughput"]
  else if String.eqb workload "memory-bound" then ["bogo_ops_per_second"; "ops_per_second"; "throughput"]
  else if String.eqb workload "hybrid" then ["frames_per_second"; "throughput"]
  else [].

(** ** Rows *)

(** The value of a column that the header has: [None] in a short row. *)
Definition column (row : csv_row) (k : string) : option string :=
  match row_get k row with Some v => v | None => None end.
(** [row[k].strip()] *)
Definition stripped (row : csv_row) (k : string) : result string :=
  match column row k with
  | Some s => Ok (strip s)
  | None => Raise (Exn AttributeError "'NoneType' object has no attribute 'strip'")
  end.
Definition repr_opt (v : option string) : string := match v with Some s => repr_str s | None => "None" end.
(** [str(v)] *)
Definition str_opt (v : option string) : string := default "None" v.
(** [v == s] *)
Definition is_text (v : option string) (s : string) : bool := match v with Some x => String.eqb x s | None => false end.

Definition str_list (l : list string) : string := "[" +:+ join ", " (repr_str <$> l) +:+ "]".

(** [_read_csv] on a stream of lines. *)
Definition csv_table (path : string) (required : list string) (stream : csv_stream) : result (list csv_row) :=
  let* (lines, stop) := stream in
  let '(rows, err) := csv_rows false stop csv_reset lines in
  let* (names, rows) := match rows, err with
                        | [], Some e => Raise e
                        | [], None => Ok ([], [])
                        | names :: rows, _ => Ok (names, rows)
                        end in
  let missing := sort_by String.leb (List.filter (fun c => negb (mem_string c names)) required) in
  raise_if (match missing with [] => false | _ => true end) ValueError
    (path +:+ ": missing required column(s): " +:+ str_list missing) ;;;
  match err with Some e => Raise e | None => Ok tt end ;;;
  let rows := dict_rows names rows in
  iterM (fun row => raise_if (negb (is_text (column row "protocol") PROTOCOL)) ValueError
                      (path +:+ ": unsupported protocol " +:+ repr_opt (column row "protocol"))) rows ;;;
  Ok rows.

Definition number (value : option string) (name : string) : result float :=
  match value with
  | None => Raise (Exn TypeError "float() argument must be a string or a real number, not 'NoneType'")
  | Some s =>
      match py_float s with
      | None => Raise (Exn ValueError (name +:+ " must be numeric"))
      | Some x => raise_if (negb (isfinite x) || fltb x zero) ValueError (name +:+ " must be finite and non-negative") ;;; Ok x
      end
  end.

Definition pilot_path (path : string) : bool := mem_string "pilot" (str_lower <$> path_parts path).

(** [_metric_values]: of each metric the sample with the latest time; of equal
    times the last one. *)
Abbreviation metric_values := (list (string * float)).
Definition metric_step (values : list (string * (string * float))) (row : csv_row) : result (list (string * (string * float))) :=
  let* metric := stripped row "metric" in
  raise_if (is_empty metric) ValueError "metrics CSV has an empty metric name" ;;;
  let* timestamp := stripped row "timestamp" in
  let* value := number (column row "value") ("metric " +:+ metric) in
  let newer := match List.find (fun p => String.eqb metric (fst p)) values with
               | None => true
               | Some (_, (old, _)) => String.leb old timestamp
               end in
  Ok (if newer then assoc_set metric (timestamp, value) values else values).
Definition values_of_metrics (rows : list csv_row) : result metric_values :=
  let* values := foldM metric_step [] rows in Ok ((fun p => (fst p, snd (snd p))) <$> values).

(** ** The cgroup counters of a cell *)

Record cgroup_summary : Type := {
  cpu_usage_seconds : option float; quota_utilization : option float; throttled_period_ratio : option float;
  throttled_time_seconds : option float; psi_some_seconds : option float; psi_full_seconds : option float
}.

(** The values by window and key, and the parameters. *)
Record cgroup_values : Type := {
  cv_values : list ((option string * option string) * float); cv_parameters : list (string * string)
}.
Definition get_value (v : cgroup_values) (window key : string) : option float :=
  match List.find (fun p => bool_decide ((Some window, Some key) = fst p)) (cv_values v) with Some (_, x) => Some x | None => None end.
Definition get_parameter (v : cgroup_values) (key : string) : option string :=
  match List.find (fun p => String.eqb key (fst p)) (cv_parameters v) with Some (_, s) => Some s | None => None end.

Definition PARAMETERS : list string := ["cpu.weight"; "cpu.max.period"; "cpu.max.quota"].

Definition cgroup_step (v : cgroup_values) (row : csv_row) : result cgroup_values :=
  let key := column row "key" in
  let window := column row "window" in
  let* raw := stripped row "value" in
  if is_text key "cpu.max.quota" && String.eqb raw "max"
  then Ok {| cv_values := cv_values v; cv_parameters := assoc_set "cpu.max.quota" raw (cv_parameters v) |}
  else
    let* value := number (Some raw) ("cgroup " +:+ str_opt key) in
    let parameters :=
      match key with
      | Some k => if mem_string k PARAMETERS && existsb (is_text window) ["start"; "end"]
                  then assoc_set k raw (cv_parameters v) else cv_parameters v
      | None => cv_parameters v
      end in
    Ok {| cv_values := assoc_set (window, key) value (cv_values v); cv_parameters := parameters |}.

Definition delta (v : cgroup_values) (key : string) : option float :=
  match get_value v "measurement_delta" key with
  | Some x => Some x
  | None => match get_value v "start" key, get_value v "end" key with
            | Some s, Some e => Some (fsub e s)
            | _, _ => None
            end
  end.

Definition seconds (usec : option float) : result (option float) :=
  match usec with
  | None => Ok None
  | Some x => let* y := fdiv x (flit 1000000 1) in Ok (Some y)
  end.

Definition utilization (v : cgroup_values) (usage periods : option float) : result (option float) :=
  match usage, periods, get_parameter v "cpu.max.quota", get_parameter v "cpu.max.period" with
  | Some usage, Some periods, Some quota, Some _ =>
      if String.eqb quota "max" then Ok None
      else
        let* numeric_quota := number (Some quota) "cpu.max.quota" in
        if fltb zero numeric_quota && fltb zero periods
        then let* u := fdiv usage (fmul numeric_quota periods) in Ok (Some u)
        else Ok None
  | _, _, _, _ => Ok None
  end.

Definition throttled_ratio_of (periods throttled : option float) : result (option float) :=
  match periods, throttled with
  | Some p, Some t => if feqb p zero then Ok None else let* r := fdiv t p in Ok (Some r)
  | _, _ => Ok None
  end.

Definition summarize (v : cgroup_values) : result cgroup_summary :=
  let usage := delta v "cpu.stat.usage_usec" in
  let periods := delta v "cpu.stat.nr_periods" in
  let throttled_periods := delta v "cpu.stat.nr_throttled" in
  let* quota_utilization := utilization v usage periods in
  raise_if (match periods, throttled_periods with Some p, Some t => fltb p t | _, _ => false end)
    ValueError "nr_throttled exceeds nr_periods" ;;;
  let* usage := seconds usage in
  let* ratio := throttled_ratio_of periods throttled_periods in
  let* time := seconds (delta v "cpu.stat.throttled_usec") in
  let* some := seconds (delta v "cpu.pressure.some_total_usec") in
  let* full := seconds (delta v "cpu.pressure.full_total_usec") in
  Ok {| cpu_usage_seconds := usage; quota_utilization := quota_utilization; throttled_period_ratio := ratio;
        throttled_time_seconds := time; psi_some_seconds := some; psi_full_seconds := full |}.

(** The rows of the first of the three levels that has any. *)
Definition rows_of_level (rows : list csv_row) (level : string) : list csv_row :=
  List.filter (fun row => is_text (column row "level") level) rows.
Definition selected_rows (rows : list csv_row) : option (list csv_row) :=
  list.head (List.filter (fun rs => match rs with [] => false | _ => true end)
          (rows_of_level rows <$> ["container_leaf"; "container_scope"; "pod_slice"])).

(** [_cgroup_summary]: no summary at all without a known level. *)
Definition summary_of_rows (rows : list csv_row) : result (option cgroup_summary * list (string * string)) :=
  match selected_rows rows with
  | None => Ok (None, [])
  | Some rows =>
      let* v := foldM cgroup_step {| cv_values := []; cv_parameters := [] |} rows in
      let* s := summarize v in
      Ok (Some s, cv_parameters v)
  end.

(** ** The cells of a campaign *)

Record cell_summary : Type := {
  cs_block : option string; cs_cell : option string; cs_workload : option string; cs_policy : option string;
  cs_condition : option string; cs_cgroup : option cgroup_summary; cs_throughput : option float;
  cs_latency : option float; cs_metrics : metric_values; cs_parameters : list (string * string)
}.
Record incomplete_cell : Type := { ic_block : option string; ic_cell : option string; ic_status : option string }.
Record campaign_cells : Type := { cc_cells : list cell_summary; cc_incomplete : list incomplete_cell }.

Abbreviation cell_key := (option string * option string)%type.
Definition row_key (row : csv_row) : cell_key := (column row "block_id", column row "cell_id").

Definition block_step (expected_phase : string) (s : list (cell_key * csv_row) * list incomplete_cell) (row : csv_row) :
    result (list (cell_key * csv_row) * list incomplete_cell) :=
  let '(complete, incomplete) := s in
  let* phase := stripped row "phase" in
  raise_if (String.eqb phase "pilot" && String.eqb expected_phase "confirmatory") ValueError
    "confirmatory analysis refuses pilot rows" ;;;
  raise_if (negb (String.eqb phase expected_phase)) ValueError
    ("blocks CSV has " +:+ repr_str phase +:+ " row in " +:+ repr_str expected_phase +:+ " analysis") ;;;
  let key := row_key row in
  raise_if (assoc_has key complete) ValueError
    ("duplicate scheduled cell block=" +:+ repr_opt (fst key) +:+ " cell=" +:+ repr_opt (snd key)) ;;;
  Ok (if is_text (column row "status") "complete" then (complete ++ [(key, row)], incomplete)%list
      else (complete, incomplete ++ [{| ic_block := fst key; ic_cell := snd key; ic_status := column row "status" |}])%list).

(** The order of the keys; two keys whose first different parts are a text and
    [None] cannot be compared. *)
Definition opt_leb (a b : option string) : bool :=
  match a, b with Some a, Some b => String.leb a b | None, _ => true | Some _, None => false end.
Definition key_leb (a b : cell_key) : bool :=
  if bool_decide (fst a = fst b) then opt_leb (snd a) (snd b) else opt_leb (fst a) (fst b).
Definition mixed (a b : option string) : bool := match a, b with Some _, None | None, Some _ => true | _, _ => false end.
Definition incomparable (a b : cell_key) : bool :=
  if bool_decide (fst a = fst b) then mixed (snd a) (snd b) else mixed (fst a) (fst b).
Definition sorted_items {A} (d : list (cell_key * A)) : result (list (cell_key * A)) :=
  raise_if (existsb (fun a => existsb (fun b => incomparable (fst a) (fst b)) d) d) TypeError
    "'<' not supported between instances of 'NoneType' and 'str'" ;;;
  Ok (sort_by (fun a b => key_leb (fst a) (fst b)) d).

Definition metric_get (values : metric_values) (name : string) : option float :=
  match List.find (fun p => String.eqb name (fst p)) values with Some (_, x) => Some x | None => None end.
Definition first_metric (values : metric_values) (names : list string) : option float :=
  list.head (omap (metric_get values) names).

Definition rows_of_key (rows : list csv_row) (key : cell_key) : list csv_row :=
  List.filter (fun row => bool_decide (row_key row = key)) rows.

Definition cell_of (cgroups metrics : list csv_row) (item : cell_key * csv_row) : result cell_summary :=
  let '(key, row) := item in
  let* (summary, parameters) := summary_of_rows (rows_of_key cgroups key) in
  let* values := values_of_metrics (rows_of_key metrics key) in
  Ok {| cs_block := fst key; cs_cell := snd key; cs_workload := column row "workload"; cs_policy := column row "policy";
        cs_condition := column row "condition"; cs_cgroup := summary;
        cs_throughput := match column row "workload" with
                         | Some w => first_metric values (THROUGHPUT_METRICS w)
                         | None => None
                         end;
        cs_latency := first_metric values ["latency_p99_ms"; "p99_latency_ms"];
        cs_metrics := values; cs_parameters := parameters |}.

Definition cell_leb (a b : cell_summary) : bool :=
  if String.eqb (str_opt (cs_block a)) (str_opt (cs_block b)) then String.leb (str_opt (cs_cell a)) (str_opt (cs_cell b))
  else String.leb (str_opt (cs_block a)) (str_opt (cs_block b)).

(** [load_campaign] on the three tables. *)
Definition load_tables (expected_phase : string) (blocks cgroups metrics : list csv_row) : result campaign_cells :=
  let* (complete, incomplete) := foldM (block_step expected_phase) ([], []) blocks in
  let* items := sorted_items complete in
  let* cells := mapM (cell_of cgroups metrics) items in
  Ok {| cc_cells := sort_by cell_leb cells; cc_incomplete := incomplete |}.

(** ** The contrasts *)

Record Contrast : Type := {
  ct_family : string; ct_workload : string; ct_metric : string; ct_control : string; ct_treatment : string;
  ct_condition : string; ct_margin : float; ct_planned : Z; ct_paired : list string; ct_missing : list string;
  ct_decision : string; ct_interval : option RatioInterval; ct_p_value : option float; ct_holm : option HolmDecision
}.

(** [_outcome]: the metric, its value, and whether lower is better. *)
Definition outcome (cell : cell_summary) (family : string) : result (string * option float * bool) :=
  if String.eqb family "throttle_gap" then
    match cs_cgroup cell with
    | Some s => Ok ("throttled_period_ratio", throttled_period_ratio s, false)
    | None => Raise (Exn KeyError "'throttled_period_ratio'")
    end
  else
    match existsb (is_text (cs_workload cell)) ["io-bound"; "hybrid"], cs_latency cell with
    | true, Some latency => Ok ("latency_p99_ms", Some latency, true)
    | _, _ => Ok ("throughput", cs_throughput cell, false)
    end.

(** The loop over the cells of one family and workload. *)
Record sides : Type := { si_control : block_values; si_treatment : block_values; si_metric : string; si_lower : bool }.
Definition side_step (f : Family) (workload : string) (s : sides) (cell : cell_summary) : result sides :=
  if negb (is_text (cs_workload cell) workload && is_text (cs_condition cell) (fa_condition f)) then Ok s
  else
    let* (metric, value, lower) := outcome cell (fa_name f) in
    let block := str_opt (cs_block cell) in
    let put policy side := if is_text (cs_policy cell) policy then assoc_set block value side else side in
    Ok {| si_control := put (fa_control f) (si_control s); si_treatment := put (fa_treatment f) (si_treatment s);
          si_metric := metric; si_lower := lower |}.

(** Values that are not positive count as missing. *)
Definition positive_only (d : block_values) : block_values :=
  (fun p => (fst p, match snd p with Some v => if fltb zero v then Some v else None | None => None end)) <$> d.

Section Analysis.
Context `{Libm}.

Definition p_value_of (logs : list float) : result float :=
  if (length logs <? 2)%nat then Ok one
  else
    let n := Z.of_nat (length logs) in
    let* mean := fmean logs in
    let* sd := stdev logs in
    let* standard_error := fdiv sd (fsqrt (flit n 1)) in
    if feqb standard_error zero then Ok (if negb (feqb mean zero) then zero else one)
    else
      let* q := fdiv mean standard_error in
      let* c := student_t_cdf (fabs q) (n - 1) in
      Ok (fmin one (fmul two (fsub one c))).

Definition confidence : float := flit 95 100.

(** The contrast of one family and workload. *)
Definition contrast_of (phase : string) (cells : list cell_summary) (f : Family) (workload : string) : result Contrast :=
  let* s := foldM (side_step f workload)
              {| si_control := []; si_treatment := []; si_metric := "throughput"; si_lower := false |} cells in
  let positive d := if String.eqb phase "pilot" && String.eqb (fa_name f) "throttle_gap" then positive_only d else d in
  let* paired := paired_log_ratios (positive (si_control s)) (positive (si_treatment s)) in
  let row decision interval p :=
    {| ct_family := fa_name f; ct_workload := workload; ct_metric := si_metric s; ct_control := fa_control f;
       ct_treatment := fa_treatment f; ct_condition := fa_condition f; ct_margin := fa_margin f;
       ct_planned := fa_planned f; ct_paired := paired_blocks paired; ct_missing := missing_blocks paired;
       ct_decision := decision; ct_interval := interval; ct_p_value := p; ct_holm := None |} in
  if negb (complete paired) || (Z.of_nat (length (log_ratios paired)) <? MIN_BLOCKS) then Ok (row "incomplete" None None)
  else
    let logs := if si_lower s then fopp <$> log_ratios paired else log_ratios paired in
    let* interval := paired_t_interval logs confidence in
    let* p := p_value_of logs in
    Ok (row (if String.eqb phase "pilot" then "pilot descriptive" else "inconclusive") (Some interval) (Some p)).

(** [sorted({str(cell["workload"]) for cell in cells})] *)
Definition workloads (cells : list cell_summary) : list string :=
  sort_by String.leb (remove_dups ((fun c => str_opt (cs_workload c)) <$> cells)).

Definition family_contrasts (phase : string) (cells : list cell_summary) (f : Family) : result (list Contrast) :=
  mapM (contrast_of phase cells f) (workloads cells).

(** ** The decisions *)

Definition with_decision (c : Contrast) (decision : string) (holm : HolmDecision) : Contrast :=
  {| ct_family := ct_family c; ct_workload := ct_workload c; ct_metric := ct_metric c; ct_control := ct_control c;
     ct_treatment := ct_treatment c; ct_condition := ct_condition c; ct_margin := ct_margin c;
     ct_planned := ct_planned c; ct_paired := ct_paired c; ct_missing := ct_missing c; ct_decision := decision;
     ct_interval := ct_interval c; ct_p_value := ct_p_value c; ct_holm := Some holm |}.

(** The interval lies within the margin, on the log scale. *)
Definition within (band : float) (i : RatioInterval) : result bool :=
  let* low := math_log (ri_low i) in
  if negb (fleb (fopp band) low) then Ok false
  else let* high := math_log (ri_high i) in Ok (fleb high band).

Definition decide_contrast (c : Contrast) (i : RatioInterval) (margin : float) (holm : HolmDecision) : result Contrast :=
  let* band := math_log (fadd one margin) in
  let* floor := fdiv one (fadd one margin) in
  let* decision :=
    if hd_rejected holm && fleb (fadd one margin) (ri_estimate i) then Ok "improvement"
    else if hd_rejected holm && fleb (ri_estimate i) floor then Ok "regression"
    else let* w := within band i in Ok (if w then "equivalent" else ct_decision c) in
  Ok (with_decision c decision holm).

Definition eligible (f : Family) (c : Contrast) : bool :=
  String.eqb (ct_family c) (fa_name f) && negb (String.eqb (ct_decision c) "incomplete").

(** The rows of the family get the decisions one after another. *)
Fixpoint decide_rows (f : Family) (rows : list Contrast) (ds : list HolmDecision) : result (list Contrast) :=
  match rows with
  | [] => Ok []
  | c :: rest =>
      if eligible f c then
        match ds, ct_interval c with
        | d :: ds, Some i =>
            let* c := decide_contrast c i (fa_margin f) d in
            let* rest := decide_rows f rest ds in Ok (c :: rest)
        | _, _ => let* rest := decide_rows f rest ds in Ok (c :: rest)
        end
      else let* rest := decide_rows f rest ds in Ok (c :: rest)
  end.

Definition decide_family (contrasts : list Contrast) (f : Family) : result (list Contrast) :=
  let* ds := holm_decisions (omap ct_p_value (List.filter (eligible f) contrasts)) (fa_planned f) (flit 5 100) in
  decide_rows f contrasts ds.

Record analysis : Type := { an_phase : string; an_cells : campaign_cells; an_contrasts : list Contrast }.

Definition analyze (cells : campaign_cells) (phase : string) : result analysis :=
  raise_if (negb (mem_string phase ["pilot"; "confirmatory"])) ValueError ("unsupported analysis phase: " +:+ repr_str phase) ;;;
  let* contrasts := mapM (family_contrasts phase (cc_cells cells)) FAMILIES in
  let contrasts := concat contrasts in
  let* contrasts := if String.eqb phase "pilot" then Ok contrasts else foldM decide_family contrasts FAMILIES in
  Ok {| an_phase := phase; an_cells := cells; an_contrasts := contrasts |}.
End Analysis.

(** ** The outputs *)

Definition opt_float (v : option float) : pyval := match v with Some x => VFloat x | None => VNone end.
Definition opt_str (v : option string) : pyval := match v with Some s => VStr s | None => VNone end.
Definition str_values (l : list (string * string)) : pyval := VDict ((fun p => (fst p, VStr (snd p))) <$> l).

Definition cgroup_fields (s : cgroup_summary) : list (string * option float) :=
  [("cpu_usage_seconds", cpu_usage_seconds s); ("quota_utilization", quota_utilization s);
   ("throttled_period_ratio", throttled_period_ratio s); ("throttled_time_seconds", throttled_time_seconds s);
   ("psi_some_seconds", psi_some_seconds s); ("psi_full_seconds", psi_full_seconds s)].

Definition cell_value (c : cell_summary) : pyval :=
  VDict ([("block_id", opt_str (cs_block c)); ("cell_id", opt_str (cs_cell c)); ("workload", opt_str (cs_workload c));
          ("policy", opt_str (cs_policy c)); ("condition", opt_str (cs_condition c))] ++
         match cs_cgroup c with Some s => (fun p => (fst p, opt_float (snd p))) <$> cgroup_fields s | None => [] end ++
         [("throughput", opt_float (cs_throughput c)); ("latency_p99_ms", opt_float (cs_latency c));
          ("metrics", VDict ((fun p => (fst p, VFloat (snd p))) <$> cs_metrics c));
          ("cgroup_parameters", str_values (cs_parameters c))])%list.
Definition incomplete_value (c : incomplete_cell) : pyval :=
  VDict [("block_id", opt_str (ic_block c)); ("cell_id", opt_str (ic_cell c)); ("status", opt_str (ic_status c))].

Definition contrast_value (c : Contrast) : pyval :=
  VDict ([("family", VStr (ct_family c)); ("workload", VStr (ct_workload c)); ("metric", VStr (ct_metric c));
          ("control", VStr (ct_control c)); ("treatment", VStr (ct_treatment c)); ("condition", VStr (ct_condition c));
          ("margin", VFloat (ct_margin c)); ("planned_family_size", VInt (ct_planned c));
          ("paired_blocks", VList (VStr <$> ct_paired c)); ("missing_blocks", VList (VStr <$> ct_missing c));
          ("decision", VStr (ct_decision c))] ++
         match ct_interval c with
         | Some i => [("estimate", VFloat (ri_estimate i)); ("ci_low", VFloat (ri_low i)); ("ci_high", VFloat (ri_high i));
                      ("p_value", opt_float (ct_p_value c)); ("oriented", VBool true)]
         | None => [("estimate", VNone); ("ci_low", VNone); ("ci_high", VNone)]
         end ++
         match ct_holm c with
         | Some d => [("holm_threshold", VFloat (hd_threshold d)); ("holm_rejected", VBool (hd_rejected d))]
         | None => []
         end)%list.

Definition analysis_value (a : analysis) (trace_rows : option (list pyval)) : pydict :=
  ([("protocol", VStr PROTOCOL); ("phase", VStr (an_phase a));
    ("cells", VList (cell_value <$> cc_cells (an_cells a))); ("contrasts", VList (contrast_value <$> an_contrasts a));
    ("incomplete_cells", VList (incomplete_value <$> cc_incomplete (an_cells a)))] ++
   match trace_rows with Some rows => [("trace_rows", VList rows)] | None => [] end)%list.

(** A [DictWriter] whose lines end in a line feed: a carriage return alone does
    not make it quote a field. *)
Definition lf_field (s : string) : string :=
  if str_forallb (fun c => negb (Ascii.eqb c comma || Ascii.eqb c dquote || Ascii.eqb c LF)) s then s
  else String dquote (concat_map_str quote_char s +:+ char_str dquote).
Definition lf_line (row : list string) : string := join "," (lf_field <$> row) +:+ newline.

Definition SUMMARY_COLUMNS : list string :=
  ["block_id"; "cell_id"; "workload"; "policy"; "condition"; "cpu_usage_seconds"; "quota_utilization";
   "throttled_period_ratio"; "throttled_time_seconds"; "psi_some_seconds"; "psi_full_seconds"; "throughput";
   "latency_p99_ms"; "cgroup_parameters"].

Definition float_cell (v : option float) : string := match v with Some x => repr_float x | None => "" end.
Definition summary_row (c : cell_summary) : result (list string) :=
  match cs_cgroup c with
  | None => Raise (Exn KeyError "'cpu_usage_seconds'")
  | Some s =>
      Ok ([default "" (cs_block c); default "" (cs_cell c); default "" (cs_workload c); default "" (cs_policy c);
           default "" (cs_condition c)] ++ (float_cell ∘ snd <$> cgroup_fields s) ++
          [float_cell (cs_throughput c); float_cell (cs_latency c); json_plain true (str_values (cs_parameters c))])%list
  end.

(** What is written before the first cell without a summary, and its error. *)
Fixpoint summary_lines (cells : list cell_summary) : string * result unit :=
  match cells with
  | [] => ("", Ok tt)
  | c :: rest =>
      match summary_row c with
      | Raise e => ("", Raise e)
      | Ok row => let '(text, r) := summary_lines rest in (lf_line row +:+ text, r)
      end
  end.

Definition contrast_line (c : Contrast) : string :=
  "| " +:+ ct_family c +:+ " | " +:+ ct_workload c +:+ " | " +:+ ct_metric c +:+ " | " +:+ ct_decision c +:+ " | " +:+
  str_of_Z (Z.of_nat (length (ct_paired c))) +:+ " |".
Definition summary_md (a : analysis) : string :=
  let is_pilot := String.eqb (an_phase a) "pilot" in
  let lines :=
    (["# CPU-limits " +:+ an_phase a +:+ " " +:+ (if is_pilot then "descriptive summary" else "summary"); "";
      "Complete cells: " +:+ str_of_Z (Z.of_nat (length (cc_cells (an_cells a))));
      "Incomplete cells: " +:+ str_of_Z (Z.of_nat (length (cc_incomplete (an_cells a)))); "";
      "## " +:+ (if is_pilot then "Pilot descriptive contrast availability" else "Contrasts"); "";
      "| family | workload | metric | " +:+ (if is_pilot then "pilot label" else "decision") +:+ " | paired blocks |";
      "|---|---|---|---|---:|"] ++ (contrast_line <$> an_contrasts a))%list in
  join newline lines +:+ newline.

Section Commands.
Context `{Env} `{Libm}.

Definition read_csv (path : string) (required : list string) : M (list csv_row) :=
  let! stream := open_text path in lift (csv_table path required stream).

Definition load_campaign (blocks_path cgroups_path metrics_path expected_phase : string) : M campaign_cells :=
  throw_if (String.eqb expected_phase "confirmatory" && existsb pilot_path [blocks_path; cgroups_path; metrics_path])
    ValueError "confirmatory analysis rejects rows from a pilot tree" >>>
  let! blocks := read_csv blocks_path BLOCK_COLUMNS in
  let! cgroups := read_csv cgroups_path CGROUP_COLUMNS in
  let! metrics := read_csv metrics_path METRIC_COLUMNS in
  lift (load_tables expected_phase blocks cgroups metrics).

Definition write_outputs (output_dir : string) (a : analysis) (trace_rows : option (list pyval)) : M unit :=
  perform (MakeDirs output_dir) >>>
  let '(text, r) := summary_lines (cc_cells (an_cells a)) in
  perform (WriteText (path_join output_dir "summary.csv") (lf_line SUMMARY_COLUMNS +:+ text)) >>>
  lift r >>>
  perform (WriteText (path_join output_dir "summary.json")
             (json_indent true (VDict (analysis_value a trace_rows)) +:+ newline)) >>>
  perform (WriteText (path_join output_dir "summary.md") (summary_md a)).

Definition read_trace_rows (path : option string) : M (option (list pyval)) :=
  match path with
  | None => ret None
  | Some path =>
      let! text := perform (ReadText path) in
      let! payload := lift (json_loads text) in
      match payload with
      | VDict d =>
          match dget "trace_rows" d with
          | None => ret (Some [])
          | Some (VList rows) => ret (Some rows)
          | Some _ => throw ValueError "trace rows must contain a trace_rows list"
          end
      | _ => throw ValueError "trace rows must contain a JSON object"
      end
  end.

(** [main]: the exit status and the printed line. *)
Definition analyze_main (phase blocks cgroups metrics : string) (trace_rows : option string) (output_dir : string) :
    M (Z * string) :=
  let! cells := load_campaign blocks cgroups metrics phase in
  let! a := lift (analyze cells phase) in
  let! trace_rows := read_trace_rows trace_rows in
  write_outputs output_dir a trace_rows >>>
  ret (0, "wrote " +:+ str_of_Z (Z.of_nat (length (cc_cells (an_cells a)))) +:+ " complete cell summaries").
End Commands.

(** ** The mapping of policies to cgroup parameters *)

Definition PARAMETER_KEYS : list string := ["cpu.weight"; "cpu.max.quota"; "cpu.max.period"].
Definition LEVELS : list string := ["pod_slice"; "container_scope"; "container_leaf"].

(** [_value]: one value, or all that occur. *)
Definition stable_value (values : list (option string)) : result (option string) :=
  match remove_dups values with
  | [v] => Ok v
  | vs =>
      raise_if (existsb (fun v => match v with None => true | Some _ => false end) vs) TypeError
        "'<' not supported between instances of 'NoneType' and 'str'" ;;;
      Ok (Some (join ", " (sort_by String.leb (omap id vs))))
  end.

(** The values recorded at a level and key for a workload and policy. *)
Abbreviation recorded_values := (list (string * list (option string))).
Abbreviation recorded := (list ((string * string) * recorded_values)).
Definition values_under (values : recorded_values) (name : string) : list (option string) :=
  match List.find (fun p => String.eqb name (fst p)) values with Some (_, l) => l | None => [] end.
Definition record_value (group : string * string) (name : string) (value : option string) (r : recorded) : recorded :=
  let values := match List.find (fun p => bool_decide (group = fst p)) r with Some (_, vs) => vs | None => [] end in
  assoc_set group (assoc_set name (values_under values name ++ [value])%list values) r.

(** [row[k]] in a table whose header is not checked. *)
Definition item_of (row : csv_row) (k : string) : result (option string) :=
  match row_get k row with Some v => Ok v | None => Raise (Exn KeyError (repr_str k)) end.

(** The completed cells of a phase. *)
Definition completed_step (phase : string) (d : list (cell_key * csv_row)) (row : csv_row) : result (list (cell_key * csv_row)) :=
  if negb (is_text (column row "phase") phase && is_text (column row "status") "complete") then Ok d
  else let* b := item_of row "block_id" in let* c := item_of row "cell_id" in Ok (assoc_set (b, c) row d).

Definition parameter_step (completed : list (cell_key * csv_row)) (r : recorded) (row : csv_row) : result recorded :=
  let* b := item_of row "block_id" in
  let* c := item_of row "cell_id" in
  match List.find (fun p => bool_decide ((b, c) = fst p)) completed with
  | None => Ok r
  | Some (_, cell) =>
      match is_text (column row "window") "end", column row "level", column row "key" with
      | true, Some level, Some key =>
          if mem_string level LEVELS && mem_string key PARAMETER_KEYS then
            let* w := item_of cell "workload" in
            let* p := item_of cell "policy" in
            let* v := item_of row "value" in
            Ok (record_value (str_opt w, str_opt p) (level +:+ "." +:+ key) v r)
          else Ok r
      | _, _, _ => Ok r
      end
  end.

Definition pair_leb (a b : string * string) : bool :=
  if String.eqb (fst a) (fst b) then String.leb (snd a) (snd b) else String.leb (fst a) (fst b).

Definition mapping_level (values : recorded_values) (level prefix : string) : result pydict :=
  let get key := values_under values (level +:+ "." +:+ key) in
  let* weight := match get "cpu.weight" with
                 | [] => Ok (Some "not recorded")
                 | l => stable_value l
                 end in
  let* cpu_max := match get "cpu.max.quota", get "cpu.max.period" with
                  | [], _ | _, [] => Ok "not recorded"
                  | q, p => let* q := stable_value q in let* p := stable_value p in Ok (str_opt q +:+ " " +:+ str_opt p)
                  end in
  Ok [(prefix +:+ "_cpu_weight", opt_str weight); (prefix +:+ "_cpu_max", VStr cpu_max)].

Definition opt_int (v : option Z) : pyval := match v with Some n => VInt n | None => VNone end.
Definition mapping_row (item : (string * string) * recorded_values) : result pyval :=
  let '((workload, policy), values) := item in
  let* (request, limit) := resources_for workload policy in
  let* pod := mapping_level values "pod_slice" "pod" in
  let* container := mapping_level values "container_leaf" "container" in
  Ok (VDict ([("workload", VStr workload); ("policy", VStr policy); ("request_millicores", opt_int request);
              ("limit_millicores", opt_int limit)] ++ pod ++ container)%list).

(** The rows of a table without a check of its header. *)
Definition plain_table (stream : csv_stream) : result (list csv_row) :=
  let* (lines, stop) := stream in
  let '(rows, err) := csv_rows false stop csv_reset lines in
  match rows, err with
  | _, Some e => Raise e
  | [], None => Ok []
  | names :: rows, None => Ok (dict_rows names rows)
  end.

Section Mapping.
Context `{Env}.

Definition summarize_cgroup_mapping (blocks_path cgroups_path phase : string) : M (list pyval) :=
  let! blocks := open_text blocks_path in
  let! completed := lift (let* rows := plain_table blocks in foldM (completed_step phase) [] rows) in
  let! cgroups := open_text cgroups_path in
  lift (let* rows := plain_table cgroups in
        let* parameters := foldM (parameter_step completed) [] rows in
        mapM mapping_row (sort_by (fun a b => pair_leb (fst a) (fst b)) parameters)).

Definition mapping_main (blocks cgroups phase output : string) : M (Z * string) :=
  let! mapping := summarize_cgroup_mapping blocks cgroups phase in
  perform (MakeDirs (parent output)) >>>
  perform (WriteText output (json_indent true (VList mapping) +:+ newline)) >>>
  ret (0, "wrote " +:+ str_of_Z (Z.of_nat (length mapping)) +:+ " cgroup mapping rows").
End Mapping.
