(* ===== verification/AnalyzeThm.v ===== *)
(** What the decisions of the analysis rest on. *)

From Stdlib Require Import ZArith Bool Ascii String Lia SpecFloat.
From stdpp Require Import base list strings option.
From S2P Require Import Prelude Eff PyStr PyCsv PyFloat PyVal PyDict Json World Files Stats StatsThm Analyze.

Open Scope string_scope.
Open Scope Z_scope.

(** ** Pairs *)

(** Both sides have a value. *)
Definition both (control treatment : block_values) (block : string) : bool :=
  match block_get control block, block_get treatment block with Some _, Some _ => true | _, _ => false end.

Section Pairs.
Context `{Libm}.

Lemma pair_blocks_spec control treatment blocks : forall p, pair_blocks control treatment blocks = Ok p ->
  paired_blocks p = List.filter (both control treatment) blocks /\
  missing_blocks p = List.filter (fun b => negb (both control treatment b)) blocks /\
  Forall2 (fun b x => exists c t q, block_get control b = Some c /\ block_get treatment b = Some t /\
             fleb c zero = false /\ fleb t zero = false /\ fdiv t c = Ok q /\ math_log q = Ok x)
          (paired_blocks p) (log_ratios p).
Proof.
  induction blocks as [|b blocks IH]; intros p; cbn [pair_blocks List.filter].
  - intros E. apply Ok_inj in E. subst p. by repeat constructor.
  - destruct (both control treatment b) eqn:Eb; unfold both in Eb;
      destruct (block_get control b) as [c|] eqn:Ec, (block_get treatment b) as [t|] eqn:Et; try discriminate Eb; cbn [negb].
    + intros E. apply rbind_Ok in E as (u1 & H1 & E). apply rbind_Ok in E as (u2 & H2 & E).
      apply rbind_Ok in E as (q & Hq & E). apply rbind_Ok in E as (x & Hx & E). apply rbind_Ok in E as (p' & Hp & E).
      apply Ok_inj in E. subst p. destruct (IH p' Hp) as (I1 & I2 & I3). cbn [paired_blocks missing_blocks log_ratios add_pair].
      rewrite I1, I2 in *. repeat split; try done. constructor; [|done].
      apply raise_if_Ok, orb_false_iff in H1 as [_ H1]. apply raise_if_Ok, orb_false_iff in H2 as [_ H2].
      by exists c, t, q.
    + intros (p' & Hp & E)%rbind_Ok. apply Ok_inj in E. subst p. destruct (IH p' Hp) as (I1 & I2 & I3).
      cbn [paired_blocks missing_blocks log_ratios add_missing]. by rewrite I1, I2 in *.
    + intros (p' & Hp & E)%rbind_Ok. apply Ok_inj in E. subst p. destruct (IH p' Hp) as (I1 & I2 & I3).
      cbn [paired_blocks missing_blocks log_ratios add_missing]. by rewrite I1, I2 in *.
    + intros (p' & Hp & E)%rbind_Ok. apply Ok_inj in E. subst p. destruct (IH p' Hp) as (I1 & I2 & I3).
      cbn [paired_blocks missing_blocks log_ratios add_missing]. by rewrite I1, I2 in *.
Qed.

(** A block with two values of which one is not positive ends the pairing. *)
Lemma pair_blocks_zero control treatment blocks b c t : b ∈ blocks ->
  block_get control b = Some c -> block_get treatment b = Some t -> fleb c zero || fleb t zero = true ->
  forall p, pair_blocks control treatment blocks <> Ok p.
Proof.
  intros Hin Hc Ht Hz p Hp. destruct (pair_blocks_spec _ _ _ _ Hp) as (E & _ & Hf). rewrite E in Hf.
  assert (b ∈ List.filter (both control treatment) blocks) as Hb.
  { apply list_elem_of_In, List.filter_In. split; [by apply list_elem_of_In|]. unfold both. by rewrite Hc, Ht. }
  destruct (Forall2_elem_l _ _ _ _ Hf Hb) as (x & _ & c' & t' & q & E1 & E2 & Z1 & Z2 & _).
  rewrite Hc in E1. rewrite Ht in E2. injection E1 as <-. injection E2 as <-. by rewrite Z1, Z2 in Hz.
Qed.
End Pairs.

Lemma all_blocks_elem b v control treatment : block_get control b = Some v -> b ∈ all_blocks control treatment.
Proof.
  unfold block_get, all_blocks. rewrite sort_by_perm, elem_of_remove_dups.
  destruct (List.find _ control) as [[k x]|] eqn:E; [|done]. intros _.
  apply List.find_some in E as [Hin Hk]. apply String.eqb_eq in Hk. cbn in Hk. subst k.
  rewrite fmap_app. apply elem_of_app. left. apply list_elem_of_fmap. exists (b, x). split; [done|]. by apply list_elem_of_In.
Qed.

(** ** The values of the cells *)

(** The cells that a contrast compares: those of its workload and condition. *)
Definition compared (f : Family) (w : string) (c : cell_summary) : bool :=
  is_text (cs_workload c) w && is_text (cs_condition c) (fa_condition f).
(** The cell that stands for a policy in a block: the last one. *)
Definition side_cell (f : Family) (w policy block : string) (cells : list cell_summary) : option cell_summary :=
  list.last (List.filter (fun c => compared f w c && (is_text (cs_policy c) policy && String.eqb block (str_opt (cs_block c)))) cells).
(** The tail latency is compared where requests are served and it was measured. *)
Definition by_latency (c : cell_summary) : bool :=
  existsb (is_text (cs_workload c)) ["io-bound"; "hybrid"] && bool_decide (is_Some (cs_latency c)).
(** The value of a cell for a family, and the value that is compared: in a pilot
    a ratio of throttled periods that is not positive counts as missing. *)
Definition measured_value (f : Family) (c : cell_summary) : option float :=
  if String.eqb (fa_name f) "throttle_gap" then cs_cgroup c ≫= throttled_period_ratio
  else if by_latency c then cs_latency c else cs_throughput c.
Definition compared_value (phase : string) (f : Family) (c : cell_summary) : option float :=
  match measured_value f c with
  | Some v => if String.eqb phase "pilot" && String.eqb (fa_name f) "throttle_gap" && negb (fltb zero v) then None else Some v
  | None => None
  end.
Definition side_value (phase : string) (f : Family) (w policy block : string) (cells : list cell_summary) : option float :=
  side_cell f w policy block cells ≫= compared_value phase f.
Definition metric_of (f : Family) (c : cell_summary) : string :=
  if String.eqb (fa_name f) "throttle_gap" then "throttled_period_ratio"
  else if by_latency c then "latency_p99_ms" else "throughput".
Definition lower_of (f : Family) (c : cell_summary) : bool := negb (String.eqb (fa_name f) "throttle_gap") && by_latency c.

Lemma outcome_value c f m v l : outcome c (fa_name f) = Ok (m, v, l) -> m = metric_of f c /\ v = measured_value f c /\ l = lower_of f c.
Proof.
  unfold outcome, metric_of, measured_value, lower_of, by_latency. destruct (String.eqb (fa_name f) "throttle_gap"); cbn [negb andb].
  - destruct (cs_cgroup c); [|done]. by intros [= <- <- <-].
  - destruct (existsb _ _), (cs_latency c); cbn; by intros [= <- <- <-].
Qed.

(** A value per block, as a function: the value of the last insertion. *)
Definition has_block (b : string) (d : block_values) : Prop := b ∈ fst <$> d.

Lemma block_get_set b b' v d : block_get (assoc_set b' v d) b = if String.eqb b b' then v else block_get d b.
Proof.
  unfold block_get. induction d as [|[k x] d IH]; cbn [assoc_set List.find fst].
  - by destruct (String.eqb b b').
  - destruct (decide (b' = k)) as [<-|Hne]; cbn [List.find fst]; [by destruct (String.eqb b b')|].
    destruct (String.eqb_spec b k) as [->|]; [by rewrite (proj2 (String.eqb_neq k b')) by congruence|]. exact IH.
Qed.
Lemma has_block_set b b' v d : has_block b (assoc_set b' v d) <-> b = b' \/ has_block b d.
Proof.
  unfold has_block. induction d as [|[k x] d IH]; cbn [assoc_set fmap list_fmap fst].
  - rewrite list_elem_of_singleton, list.elem_of_nil. tauto.
  - destruct (decide (b' = k)) as [<-|Hne]; cbn [fmap list_fmap fst]; rewrite !list.elem_of_cons; [tauto|]. rewrite IH. tauto.
Qed.

Section Sides.
Context (f : Family) (w : string).

(** What one side holds after the loop. *)
Definition side_holds (policy : string) (cells : list cell_summary) (before after : block_values) : Prop :=
  forall b, block_get after b = match side_cell f w policy b cells with Some c => measured_value f c | None => block_get before b end /\
    (has_block b after <-> has_block b before \/ is_Some (side_cell f w policy b cells)).

Lemma side_cell_snoc policy b cells c : side_cell f w policy b (cells ++ [c]) =
  if compared f w c && (is_text (cs_policy c) policy && String.eqb b (str_opt (cs_block c))) then Some c else side_cell f w policy b cells.
Proof. unfold side_cell. rewrite List.filter_app. cbn [List.filter]. case_match; [by rewrite last_snoc|by rewrite app_nil_r]. Qed.

Lemma side_put policy cells c v d0 d : compared f w c = true -> v = measured_value f c -> side_holds policy cells d0 d ->
  side_holds policy (cells ++ [c]) d0 (if is_text (cs_policy c) policy then assoc_set (str_opt (cs_block c)) v d else d).
Proof.
  intros Hc -> Hd b. rewrite side_cell_snoc, Hc. cbn [andb]. destruct (Hd b) as [H1 H2].
  destruct (is_text (cs_policy c) policy); cbn [andb]; [|done]. rewrite block_get_set, has_block_set.
  destruct (String.eqb_spec b (str_opt (cs_block c))) as [->|Hne]; [|rewrite H1, H2; split; [done|tauto]].
  split; [done|]. split; [intros _; right; by eexists|by left].
Qed.
Lemma side_skip policy cells c d0 d : compared f w c = false -> side_holds policy cells d0 d -> side_holds policy (cells ++ [c]) d0 d.
Proof. intros Hc Hd b. by rewrite side_cell_snoc, Hc. Qed.

Lemma sides_spec cells : forall s s', foldM (side_step f w) s cells = Ok s' ->
  side_holds (fa_control f) cells (si_control s) (si_control s') /\
  side_holds (fa_treatment f) cells (si_treatment s) (si_treatment s') /\
  (si_metric s', si_lower s') = match list.last (List.filter (compared f w) cells) with
                                | Some c => (metric_of f c, lower_of f c) | None => (si_metric s, si_lower s) end.
Proof.
  induction cells as [|c cells IH] using rev_ind; intros s s' E.
  { cbn in E. apply Ok_inj in E. subst s'. split_and!; [| |done]; intros b; cbn; (split; [done|]); split; [by left| |by left|];
      intros [|[? [=]]]; done. }
  rewrite foldM_app in E. apply rbind_Ok in E as (s1 & E1 & E2). destruct (IH _ _ E1) as (H1 & H2 & H3).
  cbn [foldM] in E2. apply rbind_Ok in E2 as (s2 & E2 & <-%Ok_inj). rewrite List.filter_app. cbn [List.filter].
  unfold side_step in E2. fold (compared f w c) in E2. destruct (compared f w c) eqn:Hc; cbn [negb] in E2.
  - apply rbind_Ok in E2 as ([[m v] l] & Ho & <-%Ok_inj). apply outcome_value in Ho as (-> & Hv & ->).
    cbn [si_control si_treatment si_metric si_lower]. rewrite last_snoc. split_and!; [by apply side_put..|done].
  - apply Ok_inj in E2 as <-. rewrite app_nil_r. split_and!; [by apply side_skip..|done].
Qed.
End Sides.

(** In a pilot the throttled ratios that are not positive are left out. *)
Definition kept_values (phase : string) (f : Family) (d : block_values) : block_values :=
  if String.eqb phase "pilot" && String.eqb (fa_name f) "throttle_gap" then positive_only d else d.
Lemma kept_spec phase f d b :
  block_get (kept_values phase f d) b =
    match block_get d b with
    | Some v => if String.eqb phase "pilot" && String.eqb (fa_name f) "throttle_gap" && negb (fltb zero v) then None else Some v
    | None => None
    end /\ (has_block b (kept_values phase f d) <-> has_block b d).
Proof.
  unfold kept_values, has_block. destruct (String.eqb phase "pilot" && String.eqb (fa_name f) "throttle_gap"); cbn [andb].
  2:{ split; [|done]. by destruct (block_get d b). }
  unfold positive_only. rewrite <- list_fmap_compose. split; [|done].
  unfold block_get. induction d as [|[k v] d IH]; [done|]. cbn [fmap list_fmap List.find fst snd].
  destruct (String.eqb b k); [|exact IH]. destruct v as [x|]; [|done]. by destruct (fltb zero x).
Qed.

(** ** What a contrast rests on *)

Section Rests.
Context `{Libm} (phase : string) (cells : list cell_summary) (f : Family).

(** The blocks of a contrast are those with a cell on one side; they are paired
    when both sides have a value.  The metric is that of the last cell that is
    compared.  An estimate is that of the logarithms of the ratios of treatment to
    control in the paired blocks, which are turned where lower is better. *)
Definition rests_on (c : Contrast) : Prop :=
  let w := ct_workload c in
  let value policy b := side_value phase f w policy b cells in
  let both_have b := is_Some (value (fa_control f) b) /\ is_Some (value (fa_treatment f) b) in
  let last := list.last (List.filter (compared f w) cells) in
  let lower := match last with Some l => lower_of f l | None => false end in
  NoDup (ct_paired c) /\
  (forall b, b ∈ ct_paired c <-> both_have b) /\
  (forall b, b ∈ ct_missing c <->
     (is_Some (side_cell f w (fa_control f) b cells) \/ is_Some (side_cell f w (fa_treatment f) b cells)) /\ ~ both_have b) /\
  ct_metric c = match last with Some l => metric_of f l | None => "throughput" end /\
  forall i p, ct_interval c = Some i -> ct_p_value c = Some p -> exists logs,
    Forall2 (fun b x => exists control treatment q y, value (fa_control f) b = Some control /\ value (fa_treatment f) b = Some treatment /\
               fleb control zero = false /\ fleb treatment zero = false /\ fdiv treatment control = Ok q /\ math_log q = Ok y /\
               x = if lower then fopp y else y) (ct_paired c) logs /\
    paired_t_interval logs (flit 95 100) = Ok i /\ p_value_of logs = Ok p.

Lemma both_spec control treatment b : both control treatment b = true <-> is_Some (block_get control b) /\ is_Some (block_get treatment b).
Proof.
  unfold both. destruct (block_get control b), (block_get treatment b); (split; [|]); try done.
  all: by intros [[? [=]] [? [=]]].
Qed.

Lemma all_blocks_has control treatment b : b ∈ all_blocks control treatment <-> has_block b control \/ has_block b treatment.
Proof. unfold all_blocks, has_block. by rewrite sort_by_perm, elem_of_remove_dups, fmap_app, elem_of_app. Qed.

Lemma side_value_cell w policy b : is_Some (side_value phase f w policy b cells) -> is_Some (side_cell f w policy b cells).
Proof. unfold side_value. destruct (side_cell f w policy b cells); [by eexists|by intros [? [=]]]. Qed.
Lemma turned {A} (P : A -> float -> Prop) (Q : A -> float -> Prop) (lower : bool) l logs :
  (forall a y, P a y -> Q a (if lower then fopp y else y)) -> Forall2 P l logs ->
  Forall2 Q l (if lower then fopp <$> logs else logs).
Proof. intros HPQ. induction 1 as [|a y l logs Ha _ IH]; [by destruct lower; constructor|]. specialize (HPQ a y Ha). destruct lower; by constructor. Qed.

Lemma contrast_rests w c : contrast_of phase cells f w = Ok c -> rests_on c.
Proof.
  unfold contrast_of. intros (s & Hs & (p & Hp & E)%rbind_Ok)%rbind_Ok.
  apply sides_spec in Hs as (Hcs & Hts & Hm). cbn [si_control si_treatment si_metric si_lower] in *.
  unfold paired_log_ratios in Hp. fold (kept_values phase f (si_control s)) (kept_values phase f (si_treatment s)) in Hp.
  assert (forall policy d, side_holds f w policy cells [] d -> forall b,
    block_get (kept_values phase f d) b = side_value phase f w policy b cells /\
    (has_block b (kept_values phase f d) <-> is_Some (side_cell f w policy b cells))) as Hside.
  { intros policy d Hd b. destruct (kept_spec phase f d b) as [K1 K2], (Hd b) as [D1 D2]. rewrite K1, K2, D1, D2.
    unfold side_value, compared_value. split.
    - by destruct (side_cell f w policy b cells).
    - split; [intros [Hx|]; [by apply not_elem_of_nil in Hx|done]|by right]. }
  pose proof (Hside _ _ Hcs) as Hc. pose proof (Hside _ _ Hts) as Ht. clear Hside Hcs Hts.
  set (control := kept_values phase f (si_control s)) in *. set (treatment := kept_values phase f (si_treatment s)) in *.
  apply pair_blocks_spec in Hp as (Hpair & Hmiss & Hlogs).
  assert (forall d, ct_workload d = w -> ct_paired d = paired_blocks p -> ct_missing d = missing_blocks p -> ct_metric d = si_metric s ->
    (forall i x, ct_interval d = Some i -> ct_p_value d = Some x ->
       paired_t_interval (if si_lower s then fopp <$> log_ratios p else log_ratios p) (flit 95 100) = Ok i /\
       p_value_of (if si_lower s then fopp <$> log_ratios p else log_ratios p) = Ok x) -> rests_on d) as Hrest.
  { intros d Hw Hdp Hdm Hdmetric Hest. unfold rests_on. rewrite Hw, Hdp, Hdm, Hdmetric. split_and!.
    - rewrite Hpair. apply NoDup_ListNoDup, List.NoDup_filter, NoDup_ListNoDup. unfold all_blocks. rewrite sort_by_perm. apply NoDup_remove_dups.
    - intros b. rewrite Hpair, list_elem_of_In, List.filter_In, <- list_elem_of_In, both_spec, all_blocks_has.
      rewrite (proj1 (Hc b)), (proj1 (Ht b)), (proj2 (Hc b)), (proj2 (Ht b)). split; [tauto|]. intros Hb. split; [|done].
      left. by apply side_value_cell with (1 := proj1 Hb).
    - intros b. rewrite Hmiss, list_elem_of_In, List.filter_In, <- list_elem_of_In, negb_true_iff, <- not_true_iff_false, both_spec, all_blocks_has.
      by rewrite (proj1 (Hc b)), (proj1 (Ht b)), (proj2 (Hc b)), (proj2 (Ht b)).
    - by destruct (list.last _); injection Hm.
    - intros i x Hi Hx. destruct (Hest i x Hi Hx) as [E1 E2]. eexists. split; [|by split].
      assert (si_lower s = match list.last (List.filter (compared f w) cells) with Some l => lower_of f l | None => false end) as <-
        by (by destruct (list.last _); injection Hm).
      eapply turned; [|exact Hlogs]. cbn beta. intros b y (a & t & q & H1 & H2 & H3). exists a, t, q, y.
      rewrite <- (proj1 (Hc b)), <- (proj1 (Ht b)). tauto. }
  destruct (negb (complete p) || _); [apply Ok_inj in E as <-; by apply Hrest|].
  apply rbind_Ok in E as (i & Hi & (x & Hx & <-%Ok_inj)%rbind_Ok). apply Hrest; try done.
  cbn [ct_interval ct_p_value]. intros i' x' [= <-] [= <-]. by split.
Qed.
End Rests.

(** ** Decisions *)

(** The rule for a contrast with an interval, a margin and the outcome of the
    correction. *)
Section Verdict.
Context `{Libm} (margin : float) (i : RatioInterval) (rejected : bool).

Definition better : bool := rejected && fleb (fadd one margin) (ri_estimate i).
Definition worse : bool := rejected && match fdiv one (fadd one margin) with Ok f => fleb (ri_estimate i) f | Raise _ => false end.
(** Both ends of the interval lie within the margin. *)
Definition inside : bool :=
  match math_log (fadd one margin), math_log (ri_low i), math_log (ri_high i) with
  | Ok band, Ok low, Ok high => fleb (fopp band) low && fleb high band
  | _, _, _ => false
  end.

Definition contrast_verdict : string :=
  if better then "improvement" else if worse then "regression" else if inside then "equivalent" else "inconclusive".
End Verdict.

Lemma verdict_complete `{Libm} margin i rejected : String.eqb (contrast_verdict margin i rejected) "incomplete" = false.
Proof. unfold contrast_verdict. by repeat case_match. Qed.

Section Decisions.
Context `{Libm}.

Lemma decide_contrast_verdict c i margin d c' : ct_decision c = "inconclusive" -> decide_contrast c i margin d = Ok c' ->
  c' = with_decision c (contrast_verdict margin i (hd_rejected d)) d.
Proof.
  intros Hc E. unfold decide_contrast in E. apply rbind_Ok in E as (band & Hb & E). apply rbind_Ok in E as (floor & Hf & E).
  apply rbind_Ok in E as (decision & Hd & E). apply Ok_inj in E. subst c'. f_equal.
  unfold contrast_verdict, better, worse, inside. rewrite Hb, Hf.
  destruct (hd_rejected d && fleb (fadd one margin) (ri_estimate i)); [by injection Hd as <-|].
  destruct (hd_rejected d && fleb (ri_estimate i) floor); [by injection Hd as <-|].
  apply rbind_Ok in Hd as (w & Hw & Hd). apply Ok_inj in Hd. subst decision. unfold within in Hw.
  apply rbind_Ok in Hw as (low & Hl & Hw). rewrite Hl. destruct (fleb (fopp band) low); cbn [negb andb] in *.
  - apply rbind_Ok in Hw as (high & Hh & Hw). rewrite Hh. apply Ok_inj in Hw. subst w. by destruct (fleb high band).
  - apply Ok_inj in Hw. subst w. by destruct (math_log (ri_high i)).
Qed.

(** ** One contrast *)

(** What is known of a contrast before the correction. *)
Definition incomplete (c : Contrast) : Prop :=
  ct_decision c = "incomplete" /\ (ct_missing c <> [] \/ (length (ct_paired c) < 3)%nat) /\
  ct_interval c = None /\ ct_p_value c = None /\ ct_holm c = None.
(** Its estimate rests on at least three complete blocks. *)
Definition estimated (c : Contrast) (i : RatioInterval) (p : float) : Prop :=
  ct_missing c = [] /\ (3 <= length (ct_paired c))%nat /\ ct_interval c = Some i /\ ct_p_value c = Some p.
Definition of_family (f : Family) (c : Contrast) : Prop :=
  ct_family c = fa_name f /\ ct_margin c = fa_margin f /\ ct_control c = fa_control f /\
  ct_treatment c = fa_treatment f /\ ct_condition c = fa_condition f.

Lemma contrast_of_spec phase cells f w c : contrast_of phase cells f w = Ok c ->
  of_family f c /\ ct_workload c = w /\
  (incomplete c \/ exists i p, estimated c i p /\ ct_holm c = None /\
     ct_decision c = if String.eqb phase "pilot" then "pilot descriptive" else "inconclusive").
Proof.
  unfold contrast_of. intros E. apply rbind_Ok in E as (s & Hs & E). apply rbind_Ok in E as (p & Hp & E).
  apply pair_blocks_spec in Hp as (_ & _ & Hlen). apply Forall2_length in Hlen.
  destruct (negb (complete p) || (Z.of_nat (length (log_ratios p)) <? MIN_BLOCKS)) eqn:Hi.
  - apply Ok_inj in E. subst c. split; [done|]. split; [done|]. left. repeat split. cbn [ct_missing ct_paired].
    apply orb_true_iff in Hi as [Hi|Hi].
    + left. unfold complete in Hi. by destruct (missing_blocks p).
    + right. apply Z.ltb_lt in Hi. unfold MIN_BLOCKS in Hi. lia.
  - apply rbind_Ok in E as (i & Hint & E). apply rbind_Ok in E as (x & Hx & E). apply Ok_inj in E. subst c.
    split; [done|]. split; [done|]. right. exists i, x. split; [|done]. apply orb_false_iff in Hi as [Hc Hn].
    unfold complete in Hc. unfold estimated. cbn [ct_missing ct_paired ct_interval ct_p_value]. repeat split.
    + by destruct (missing_blocks p).
    + apply Z.ltb_ge in Hn. unfold MIN_BLOCKS in Hn. lia.
Qed.

(** ** The correction of a family *)

(** A contrast of the family [f] before and after its decisions. *)
Definition undecided (c : Contrast) : Prop :=
  incomplete c \/ exists i p, estimated c i p /\ ct_holm c = None /\ ct_decision c = "inconclusive".
Definition decided (c : Contrast) : Prop :=
  incomplete c \/ exists i p d, estimated c i p /\ ct_holm c = Some d /\
    ct_decision c = contrast_verdict (ct_margin c) i (hd_rejected d).

Lemma undecided_eligible f c : undecided c -> of_family f c -> eligible f c = true <-> exists p, ct_p_value c = Some p.
Proof.
  intros Hu (Hf & _). unfold eligible. rewrite Hf, String.eqb_refl. cbn [andb]. destruct Hu as [(-> & _ & _ & -> & _)|(i & p & He & _ & ->)].
  - split; [done|by intros []].
  - destruct He as (_ & _ & _ & Hp). split; [by exists p|done].
Qed.

Lemma decide_rows_spec f rows : forall ds rows',
  Forall (fun c => of_family f c /\ undecided c \/ ct_family c <> fa_name f) rows ->
  length ds = length (omap ct_p_value (List.filter (eligible f) rows)) ->
  decide_rows f rows ds = Ok rows' ->
  Forall2 (fun c c' => if String.eqb (ct_family c) (fa_name f)
                       then of_family f c' /\ ct_workload c' = ct_workload c /\ decided c' /\ eligible f c' = eligible f c /\
                            ct_p_value c' = ct_p_value c
                       else c' = c) rows rows' /\
  omap ct_holm (List.filter (eligible f) rows') = ds.
Proof.
  induction rows as [|c rows IH]; intros ds rows' Hf Hl E; cbn [decide_rows] in E.
  { apply Ok_inj in E. subst rows'. split; [constructor|]. by destruct ds. }
  apply Forall_cons_iff in Hf as [Hc Hf]. cbn [List.filter] in Hl. destruct (eligible f c) eqn:He.
  - assert (String.eqb (ct_family c) (fa_name f) = true) as Hfam by by apply andb_true_iff in He as [? _].
    destruct Hc as [[Hof Hu]|Hne]; [|by apply String.eqb_eq in Hfam].
    destruct Hu as [(Hd & _)|(i & p & Hest & Hh & Hd)]; [unfold eligible in He; by rewrite Hd, andb_false_r in He|].
    destruct Hest as (Hm & Hn & Hi & Hp). cbn [omap list_omap] in Hl. rewrite Hp in Hl. destruct ds as [|d ds]; [done|].
    rewrite Hi in E. apply rbind_Ok in E as (c1 & Hc1 & E). apply rbind_Ok in E as (rest & Hr & E). apply Ok_inj in E. subst rows'.
    apply (decide_contrast_verdict _ _ _ _ _ Hd) in Hc1. subst c1.
    destruct (IH ds rest Hf ltac:(cbn in Hl; by injection Hl) Hr) as [I1 I2].
    assert (eligible f (with_decision c (contrast_verdict (fa_margin f) i (hd_rejected d)) d) = true) as He'.
    { unfold eligible. cbn [ct_family ct_decision with_decision]. by rewrite Hfam, verdict_complete. }
    split.
    + constructor; [|done]. rewrite Hfam. split; [exact Hof|]. split; [done|]. split; [|by rewrite He', He].
      right. exists i, p, d. split; [done|]. split; [done|]. cbn [ct_margin ct_decision with_decision].
      by destruct Hof as (_ & -> & _).
    + cbn [List.filter]. rewrite He'. cbn [omap list_omap ct_holm with_decision]. by rewrite I2.
  - apply rbind_Ok in E as (rest & Hr & E). apply Ok_inj in E. subst rows'. destruct (IH ds rest Hf Hl Hr) as [I1 I2].
    split; [|cbn [List.filter]; by rewrite He]. constructor; [|done].
    destruct (String.eqb (ct_family c) (fa_name f)) eqn:Hfam; [|done].
    destruct Hc as [[Hof Hu]|Hne]; [|by apply String.eqb_eq in Hfam]. split; [exact Hof|]. split; [done|].
    split; [|done]. destruct Hu as [Hu|(i & p & _ & _ & Hd)]; [by left|]. unfold eligible in He. by rewrite Hfam, Hd in He.
Qed.
End Decisions.

(** ** All families *)

(** Names tell the families apart. *)
Lemma family_unique f f' : f ∈ FAMILIES -> f' ∈ FAMILIES -> fa_name f = fa_name f' -> f = f'.
Proof.
  unfold FAMILIES. rewrite !list.elem_of_cons. intros H H'.
  repeat (destruct H as [->|H]); repeat (destruct H' as [->|H']);
    try (by apply not_elem_of_nil in H); try (by apply not_elem_of_nil in H'); by intros [=].
Qed.

Section Families.
Context `{Libm}.

Definition p_values (f : Family) (rows : list Contrast) : list float := omap ct_p_value (List.filter (eligible f) rows).
Definition corrections (f : Family) (rows : list Contrast) : list HolmDecision := omap ct_holm (List.filter (eligible f) rows).
(** The corrections of a family are those of its p-values. *)
Definition corrected (f : Family) (rows : list Contrast) : Prop :=
  holm_decisions (p_values f rows) (fa_planned f) (flit 5 100) = Ok (corrections f rows).

Definition row_inv (finished : list string) (c : Contrast) : Prop :=
  exists f, f ∈ FAMILIES /\ of_family f c /\ if mem_string (fa_name f) finished then decided c else undecided c.
Definition place (c : Contrast) : string * string := (ct_family c, ct_workload c).

Lemma untouched_family f f' rows rows' : fa_name f <> fa_name f' ->
  Forall2 (fun c c' => if String.eqb (ct_family c) (fa_name f')
                       then of_family f' c' /\ ct_workload c' = ct_workload c /\ decided c' /\ eligible f' c' = eligible f' c /\
                            ct_p_value c' = ct_p_value c
                       else c' = c) rows rows' ->
  List.filter (eligible f) rows' = List.filter (eligible f) rows.
Proof.
  intros Hne. induction 1 as [|c c' rows rows' Hc _ IH]; [done|]. cbn [List.filter]. rewrite IH.
  destruct (String.eqb_spec (ct_family c) (fa_name f')) as [E|_]; [|by subst c'].
  destruct Hc as [[E' _] _]. unfold eligible. by rewrite E, E', (proj2 (String.eqb_neq (fa_name f') (fa_name f))) by congruence.
Qed.

Lemma same_p_values f rows rows' :
  Forall2 (fun c c' => if String.eqb (ct_family c) (fa_name f)
                       then of_family f c' /\ ct_workload c' = ct_workload c /\ decided c' /\ eligible f c' = eligible f c /\
                            ct_p_value c' = ct_p_value c
                       else c' = c) rows rows' ->
  p_values f rows' = p_values f rows.
Proof.
  unfold p_values. induction 1 as [|c c' rows rows' Hc _ IH]; [done|]. cbn [List.filter].
  destruct (String.eqb (ct_family c) (fa_name f)); [|by subst c'; destruct (eligible f c); cbn [omap list_omap]; rewrite ?IH].
  destruct Hc as (_ & _ & _ & -> & Hp). destruct (eligible f c); [|done]. cbn [omap list_omap]. by rewrite Hp, IH.
Qed.

Lemma decide_family_step finished f rows rows' : f ∈ FAMILIES -> mem_string (fa_name f) finished = false ->
  Forall (row_inv finished) rows -> decide_family rows f = Ok rows' ->
  Forall (row_inv (fa_name f :: finished)) rows' /\ place <$> rows' = place <$> rows /\ corrected f rows' /\
  forall f', fa_name f' <> fa_name f -> corrected f' rows -> corrected f' rows'.
Proof.
  intros Hin Hfin Hinv E. unfold decide_family in E. apply rbind_Ok in E as (ds & Hds & E).
  destruct (decide_rows_spec f rows ds rows') as [Hrows Hcorr]; [|by eapply holm_decisions_length|exact E|].
  { eapply List.Forall_impl; [|exact Hinv]. intros c (f' & Hf' & Hof & Hd).
    destruct (decide (ct_family c = fa_name f)) as [Hn|]; [left|by right].
    assert (f' = f) as -> by (apply family_unique; [done|done|]; destruct Hof as [<- _]; done).
    by rewrite Hfin in Hd. }
  split; [|split; [|split]].
  - clear -Hrows Hinv Hin. induction Hrows as [|c c' rows rows' Hc _ IH]; [constructor|].
    apply Forall_cons_iff in Hinv as [(f' & Hf' & Hof & Hd) Hinv]. constructor; [|by apply IH].
    destruct (String.eqb_spec (ct_family c) (fa_name f)) as [E|Hne].
    + destruct Hc as (Hof' & _ & Hdec & _). exists f. split; [done|]. split; [done|].
      rewrite (proj2 (mem_string_spec _ _)) by left. done.
    + subst c'. exists f'. split; [done|]. split; [done|].
      assert (fa_name f' <> fa_name f) as Hne' by (destruct Hof as [<- _]; done).
      assert (mem_string (fa_name f') (fa_name f :: finished) = mem_string (fa_name f') finished) as ->; [|done].
      apply eq_true_iff_eq. rewrite !mem_string_spec, list.elem_of_cons. naive_solver.
  - clear -Hrows. induction Hrows as [|c c' rows rows' Hc _ IH]; [done|]. cbn [fmap list_fmap]. f_equal; [|exact IH].
    destruct (String.eqb_spec (ct_family c) (fa_name f)) as [E|_]; [|by subst]. destruct Hc as ([E' _] & E'' & _).
    unfold place. by rewrite E, E', E''.
  - unfold corrected. rewrite (same_p_values _ _ _ Hrows). unfold corrections. by rewrite Hcorr.
  - intros f' Hne. unfold corrected, p_values, corrections. by rewrite (untouched_family f' f rows rows' Hne Hrows).
Qed.

Lemma decide_families todo : forall finished rows rows',
  Forall (fun f => f ∈ FAMILIES /\ mem_string (fa_name f) finished = false) todo -> NoDup (fa_name <$> todo) ->
  Forall (row_inv finished) rows -> foldM decide_family rows todo = Ok rows' ->
  Forall (row_inv (rev (fa_name <$> todo) ++ finished)) rows' /\ place <$> rows' = place <$> rows /\
  (forall f, f ∈ todo -> corrected f rows') /\
  forall f, fa_name f ∉ fa_name <$> todo -> corrected f rows -> corrected f rows'.
Proof.
  induction todo as [|f todo IH]; intros finished rows rows' Hf Hnd Hinv E; cbn [foldM fmap list_fmap rev app] in *.
  { apply Ok_inj in E. subst rows'. repeat split; try done. by intros f ?%not_elem_of_nil. }
  apply Forall_cons_iff in Hf as [[Hin Hfin] Hf]. apply list.NoDup_cons in Hnd as [Hni Hnd].
  apply rbind_Ok in E as (rows1 & H1 & E). destruct (decide_family_step _ _ _ _ Hin Hfin Hinv H1) as (I1 & P1 & C1 & K1).
  assert (Forall (fun f' => f' ∈ FAMILIES /\ mem_string (fa_name f') (fa_name f :: finished) = false) todo) as Hf'.
  { apply List.Forall_forall. intros f' Hf'. rewrite List.Forall_forall in Hf. destruct (Hf f' Hf') as [? Hm]. split; [done|].
    apply mem_string_false. apply mem_string_false in Hm. apply not_elem_of_cons. split; [|done]. intros Ec. apply Hni.
    apply list_elem_of_fmap. exists f'. split; [done|]. by apply list_elem_of_In. }
  destruct (IH _ _ _ Hf' Hnd I1 E) as (I2 & P2 & C2 & K2). split; [by rewrite <- app_assoc|]. split; [by rewrite P2|]. split.
  - intros f' [->|Hf'']%list.elem_of_cons; [|by apply C2]. apply K2; [exact Hni|exact C1].
  - intros f' [Hne Hni']%not_elem_of_cons Hc. apply K2; [done|]. by apply K1.
Qed.

(** What the decisions do not change. *)
Definition basis (c : Contrast) :=
  (ct_family c, ct_workload c, ct_metric c, (ct_control c, ct_treatment c, ct_condition c, ct_margin c),
   (ct_planned c, ct_paired c, ct_missing c, ct_interval c, ct_p_value c)).
Lemma decide_rows_basis f rows : forall ds rows', decide_rows f rows ds = Ok rows' -> basis <$> rows' = basis <$> rows.
Proof.
  induction rows as [|c rows IH]; intros ds rows'; cbn [decide_rows]; [by intros <-%Ok_inj|].
  assert (forall ds, (let* rest := decide_rows f rows ds in Ok (c :: rest)) = Ok rows' -> basis <$> rows' = basis <$> (c :: rows)) as Hsame.
  { intros ds' (rest & Hr & <-%Ok_inj)%rbind_Ok. cbn [fmap list_fmap]. f_equal. exact (IH _ _ Hr). }
  destruct (eligible f c); [|apply Hsame]. destruct ds as [|d ds]; [apply Hsame|]. destruct (ct_interval c) as [i|] eqn:Ei; [|apply Hsame].
  intros (c' & Hc & (rest & Hr & <-%Ok_inj)%rbind_Ok)%rbind_Ok. cbn [fmap list_fmap]. f_equal; [|exact (IH _ _ Hr)].
  unfold decide_contrast in Hc. by apply rbind_Ok in Hc as (? & _ & (? & _ & (? & _ & <-%Ok_inj)%rbind_Ok)%rbind_Ok).
Qed.
Lemma decide_families_basis fs : forall rows rows', foldM decide_family rows fs = Ok rows' -> basis <$> rows' = basis <$> rows.
Proof.
  induction fs as [|f fs IH]; intros rows rows'; cbn [foldM]; [by intros <-%Ok_inj|].
  intros (rows1 & H1 & H2)%rbind_Ok. rewrite (IH _ _ H2). unfold decide_family in H1. apply rbind_Ok in H1 as (ds & _ & H1).
  by eapply decide_rows_basis.
Qed.

(** The contrasts rest on the cells, before and after the decisions. *)
Definition grounded (phase : string) (cells : list cell_summary) (c : Contrast) : Prop :=
  exists f, f ∈ FAMILIES /\ of_family f c /\ rests_on phase cells f c.
Lemma grounded_basis phase cells c c' : basis c' = basis c -> grounded phase cells c -> grounded phase cells c'.
Proof.
  intros E (f & Hf & Hof & Hr). exists f. split; [done|]. revert Hof Hr. unfold of_family, rests_on.
  injection E; intros; repeat match goal with H : ?p c' = ?p c |- _ => rewrite H; clear H end. by split.
Qed.
Lemma grounded_contrasts phase cells fs rowss : Forall (fun f => f ∈ FAMILIES) fs ->
  mapM (family_contrasts phase cells) fs = Ok rowss -> Forall (grounded phase cells) (concat rowss).
Proof.
  intros Hfs E%mapM_Ok. induction E as [|f rows fs rowss Hc _ IH]; [constructor|].
  apply Forall_cons_iff in Hfs as [Hf Hfs]. cbn [concat]. apply Forall_app. split; [|by apply IH].
  unfold family_contrasts in Hc. apply mapM_Ok in Hc. induction Hc as [|w c ws rows Hc _ IHc]; [constructor|].
  constructor; [|exact IHc]. exists f. split; [done|]. split; [by apply contrast_of_spec in Hc as [Hof _]|by apply contrast_rests in Hc].
Qed.
Lemma grounded_decided phase cells rows rows' : basis <$> rows' = basis <$> rows ->
  Forall (grounded phase cells) rows -> Forall (grounded phase cells) rows'.
Proof.
  revert rows'. induction rows as [|c rows IH]; intros [|c' rows'] E Hg; try done. cbn [fmap list_fmap] in E.
  assert (basis c' = basis c /\ basis <$> rows' = basis <$> rows) as [E1 E2]
    by (split; [exact (f_equal (fun l => match l with x :: _ => x | [] => basis c' end) E)|exact (f_equal tail E)]).
  apply Forall_cons_iff in Hg as [Hc Hg]. constructor; [by eapply grounded_basis|by apply IH].
Qed.

Lemma family_contrasts_spec phase cells f rows : family_contrasts phase cells f = Ok rows ->
  place <$> rows = pair (fa_name f) <$> workloads cells /\
  Forall (fun c => of_family f c /\ (incomplete c \/ exists i p, estimated c i p /\ ct_holm c = None /\
     ct_decision c = if String.eqb phase "pilot" then "pilot descriptive" else "inconclusive")) rows.
Proof.
  unfold family_contrasts. intros E%mapM_Ok. induction E as [|w c ws rows Hc _ IH]; [by repeat constructor|].
  destruct IH as [I1 I2]. apply contrast_of_spec in Hc as (Hof & Hw & Hd). split; [|by constructor].
  cbn [fmap list_fmap]. f_equal; [|exact I1]. unfold place. destruct Hof as [-> _]. by rewrite Hw.
Qed.

Lemma all_contrasts_spec phase cells fs rowss : Forall (fun f => f ∈ FAMILIES) fs ->
  mapM (family_contrasts phase cells) fs = Ok rowss ->
  place <$> concat rowss = concat ((fun f => pair (fa_name f) <$> workloads cells) <$> fs) /\
  Forall (fun c => exists f, f ∈ FAMILIES /\ of_family f c /\
     (incomplete c \/ exists i p, estimated c i p /\ ct_holm c = None /\
     ct_decision c = if String.eqb phase "pilot" then "pilot descriptive" else "inconclusive")) (concat rowss).
Proof.
  intros Hfs E%mapM_Ok. induction E as [|f rows fs rowss Hc _ IH]; [by repeat constructor|].
  apply Forall_cons_iff in Hfs as [Hf Hfs]. destruct (IH Hfs) as [I1 I2]. apply family_contrasts_spec in Hc as [C1 C2].
  cbn [fmap list_fmap concat]. rewrite fmap_app, C1. split; [by f_equal|]. apply Forall_app. split; [|done].
  eapply List.Forall_impl; [|exact C2]. intros c [? ?]. by exists f.
Qed.

(** What a finished analysis says of a contrast. *)
Definition reported (phase : string) (cells : list cell_summary) (c : Contrast) : Prop :=
  exists f, f ∈ FAMILIES /\ of_family f c /\ rests_on phase cells f c /\
    if String.eqb phase "pilot"
    then incomplete c \/ exists i p, estimated c i p /\ ct_holm c = None /\ ct_decision c = "pilot descriptive"
    else decided c.

Lemma analyze_spec cells phase a : analyze cells phase = Ok a ->
  an_phase a = phase /\ an_cells a = cells /\
  place <$> an_contrasts a = concat ((fun f => pair (fa_name f) <$> workloads (cc_cells cells)) <$> FAMILIES) /\
  Forall (reported phase (cc_cells cells)) (an_contrasts a) /\
  (String.eqb phase "pilot" = false -> forall f, f ∈ FAMILIES -> corrected f (an_contrasts a)).
Proof.
  unfold analyze. intros E. apply rbind_Ok in E as (u & _ & E). apply rbind_Ok in E as (rowss & Hr & E).
  apply rbind_Ok in E as (rows & Hd & E). apply Ok_inj in E. subst a. cbn [an_phase an_cells an_contrasts].
  destruct (all_contrasts_spec _ _ FAMILIES _ ltac:(by apply List.Forall_forall; intros f ?%list_elem_of_In) Hr) as [P1 R1].
  pose proof (grounded_contrasts _ _ FAMILIES _ ltac:(by apply List.Forall_forall; intros f ?%list_elem_of_In) Hr) as G1.
  assert (forall P : Family -> Contrast -> Prop, Forall (fun c => exists f, f ∈ FAMILIES /\ of_family f c /\ P f c) rows ->
    Forall (grounded phase (cc_cells cells)) rows ->
    Forall (fun c => exists f, f ∈ FAMILIES /\ of_family f c /\ rests_on phase (cc_cells cells) f c /\ P f c) rows) as Hboth.
  { intros P HP HG. rewrite List.Forall_forall in *. intros c Hc. destruct (HP c Hc) as (f & Hf & Hof & HPc), (HG c Hc) as (f' & Hf' & Hof' & Hrest).
    assert (f' = f) as -> by (apply family_unique; [done..|]; destruct Hof as [<- _]; by destruct Hof' as [<- _]). by exists f. }
  split; [done|]. split; [done|]. unfold reported. destruct (String.eqb phase "pilot").
  - apply Ok_inj in Hd. subst rows. split; [done|]. split; [|done].
    apply (Hboth (fun f c => incomplete c \/ exists i p, estimated c i p /\ ct_holm c = None /\ ct_decision c = "pilot descriptive")); done.
  - destruct (decide_families FAMILIES [] (concat rowss) rows) as (I & P & C & _); [| | |exact Hd|].
    + apply List.Forall_forall. by intros f ?%list_elem_of_In.
    + apply has_dup_false. reflexivity.
    + eapply List.Forall_impl; [|exact R1]. intros c (f & Hf & Hof & Hu). by exists f.
    + split; [by rewrite P|]. split; [|by intros _]. apply (Hboth (fun f c => decided c)); [|by eapply grounded_decided; [eapply decide_families_basis|]].
      eapply List.Forall_impl; [|exact I].
      intros c (f & Hf & Hof & Hu). exists f. split; [done|]. split; [done|].
      assert (mem_string (fa_name f) (rev (fa_name <$> FAMILIES) ++ []) = true) as Hm; [|by rewrite Hm in Hu].
      apply mem_string_spec. rewrite app_nil_r, list_elem_of_In, <- in_rev, <- list_elem_of_In. by apply list_elem_of_fmap_2.
Qed.
End Families.

(** C33: An analysis that returns has one contrast for every planned comparison and
    workload, in order.  A contrast compares the last cells of the two policies,
    for its workload and condition, in each block: a block is paired when both
    sides have a value and missing when only a cell is there.  It is incomplete
    when a block is missing or fewer than three are paired, and has then no
    estimate.  Otherwise its interval and p-value are those of the logarithms of
    the ratios of treatment to control in the paired blocks, with their signs
    turned where lower is better, and its decision follows from the interval, the
    margin and Holm's correction of its family, whose decisions are those of the
    p-values of the family; a pilot is only described. *)
Theorem analyze_sound (L : Libm) cells phase a : analyze cells phase = Ok a ->
  an_phase a = phase /\ an_cells a = cells /\
  place <$> an_contrasts a = concat ((fun f => pair (fa_name f) <$> workloads (cc_cells cells)) <$> FAMILIES) /\
  Forall (reported phase (cc_cells cells)) (an_contrasts a) /\
  (String.eqb phase "pilot" = false -> forall f, f ∈ FAMILIES -> corrected f (an_contrasts a)).
Proof. apply analyze_spec. Qed.

(** ** Throttling that does not occur *)

Definition THROTTLE_GAP : Family :=
  {| fa_name := "throttle_gap"; fa_control := "fit"; fa_treatment := "burstable-low"; fa_condition := "solo";
     fa_margin := THROTTLE_MARGIN; fa_planned := 8 |}.

(** A cell of this workload and policy that ran alone in this block. *)
Definition ran_alone (workload policy block : string) (c : cell_summary) : bool :=
  is_text (cs_workload c) workload && is_text (cs_condition c) "solo" && is_text (cs_policy c) policy &&
  String.eqb block (str_opt (cs_block c)).
Definition has_ratio (ratio : float) (c : cell_summary) : Prop :=
  exists s, cs_cgroup c = Some s /\ throttled_period_ratio s = Some ratio.
(** There is such a cell, and all of them have the ratio. *)
Definition measured (cells : list cell_summary) (workload policy block : string) (ratio : float) : Prop :=
  Exists (fun c => ran_alone workload policy block c = true) cells /\
  Forall (fun c => ran_alone workload policy block c = true -> has_ratio ratio c) cells.

Lemma throttle_sides w b v cells : forall s s', foldM (side_step THROTTLE_GAP w) s cells = Ok s' ->
  (Forall (fun c => ran_alone w "fit" b c = true -> has_ratio v c) cells ->
   block_get (si_control s') b = if existsb (ran_alone w "fit" b) cells then Some v else block_get (si_control s) b) /\
  (Forall (fun c => ran_alone w "burstable-low" b c = true -> has_ratio v c) cells ->
   block_get (si_treatment s') b = if existsb (ran_alone w "burstable-low" b) cells then Some v else block_get (si_treatment s) b).
Proof.
  induction cells as [|c cells IH]; intros s s' E; cbn [foldM existsb] in *.
  { apply Ok_inj in E. by subst s'. }
  apply rbind_Ok in E as (s1 & H1 & E). destruct (IH _ _ E) as [I1 I2].
  unfold side_step in H1. assert (forall p, ran_alone w p b c = is_text (cs_workload c) w && is_text (cs_condition c) "solo" &&
    (is_text (cs_policy c) p && String.eqb b (str_opt (cs_block c)))) as Hran by (intros p; unfold ran_alone; by rewrite andb_assoc).
  change (fa_condition THROTTLE_GAP) with "solo" in H1.
  destruct (is_text (cs_workload c) w && is_text (cs_condition c) "solo") eqn:Hm; cbn [negb andb orb] in *.
  - apply rbind_Ok in H1 as ([[metric value] lower] & Ho & H1). apply Ok_inj in H1. subst s1.
    cbn [si_control si_treatment fa_control fa_treatment THROTTLE_GAP] in I1, I2. unfold outcome in Ho. cbn [fa_name THROTTLE_GAP] in Ho.
    change (String.eqb "throttle_gap" "throttle_gap") with true in Ho. cbv iota in Ho.
    destruct (cs_cgroup c) as [g|] eqn:Hg; [|done]. apply Ok_inj in Ho. injection Ho as <- <- <-.
    assert (forall policy, (ran_alone w policy b c = true -> has_ratio v c) ->
      is_text (cs_policy c) policy && String.eqb b (str_opt (cs_block c)) = true -> throttled_period_ratio g = Some v) as Hval.
    { intros policy Hr Hp. destruct Hr as (g' & Hg' & Hv); [rewrite Hran; exact Hp|]. congruence. }
    split; intros Hf; apply Forall_cons_iff in Hf as [Hc Hf]; rewrite Hran; cbn [andb].
    + rewrite (I1 Hf). destruct (existsb (ran_alone w "fit" b) cells); rewrite ?orb_true_r, ?orb_false_r; [done|].
      destruct (is_text (cs_policy c) "fit") eqn:Hp; [|done]. cbn [andb]. rewrite block_get_set.
      destruct (String.eqb b (str_opt (cs_block c))) eqn:Hb; [|done]. apply (Hval "fit" Hc). by rewrite Hp.
    + rewrite (I2 Hf). destruct (existsb (ran_alone w "burstable-low" b) cells); rewrite ?orb_true_r, ?orb_false_r; [done|].
      destruct (is_text (cs_policy c) "burstable-low") eqn:Hp; [|done]. cbn [andb]. rewrite block_get_set.
      destruct (String.eqb b (str_opt (cs_block c))) eqn:Hb; [|done]. apply (Hval "burstable-low" Hc). by rewrite Hp.
  - apply Ok_inj in H1. subst s1. split; intros Hf; apply Forall_cons_iff in Hf as [_ Hf]; rewrite Hran; auto.
Qed.

Lemma workload_in w policy b cells : Exists (fun c => ran_alone w policy b c = true) cells -> w ∈ workloads cells.
Proof.
  intros (c & Hc & Hr)%Exists_exists. unfold workloads. rewrite sort_by_perm, elem_of_remove_dups.
  apply list_elem_of_fmap. exists c. split; [|by apply list_elem_of_In]. unfold ran_alone in Hr. rewrite !andb_true_iff in Hr.
  destruct Hr as [[[Hw _] _] _]. destruct (cs_workload c) as [x|]; [|done]. by apply String.eqb_eq in Hw.
Qed.

Lemma exists_existsb {A} (f : A -> bool) l : Exists (fun x => f x = true) l -> existsb f l = true.
Proof. induction 1 as [x l Hx|x l _ IH]; cbn; [by rewrite Hx|]. by rewrite IH, orb_true_r. Qed.

(** C35: A confirmatory analysis never returns when, for some workload and block,
    both policies of the throttling comparison were measured alone, each with one
    throttled-period ratio in all its cells, and one of the two ratios is zero: a
    cell that was not throttled at all, as the fitting limit is meant to be, ends
    the analysis of all families.  (When only one side was measured, the block is
    missing and the contrast incomplete.) *)
Theorem unthrottled_cell_ends_analysis (L : Libm) (cells : campaign_cells) w b fit low :
  measured (cc_cells cells) w "fit" b fit -> measured (cc_cells cells) w "burstable-low" b low ->
  fleb fit zero || fleb low zero = true -> forall a, analyze cells "confirmatory" <> Ok a.
Proof.
  intros [Ex1 F1] [Ex2 F2] Hz a E. unfold analyze in E. apply rbind_Ok in E as (u & _ & E).
  apply rbind_Ok in E as (rowss & Hr & _). apply mapM_Ok in Hr.
  assert (THROTTLE_GAP ∈ FAMILIES) as Hin by (unfold FAMILIES; do 3 right; left).
  destruct (Forall2_elem_l _ _ _ _ Hr Hin) as (rows & _ & Hrows). apply mapM_Ok in Hrows.
  destruct (Forall2_elem_l _ _ _ _ Hrows (workload_in _ _ _ _ Ex1)) as (c & _ & Hc).
  unfold contrast_of in Hc. apply rbind_Ok in Hc as (s & Hs & Hc). apply rbind_Ok in Hc as (p & Hp & _).
  destruct (throttle_sides w b fit (cc_cells cells) _ _ Hs) as [Hc1 _]. destruct (throttle_sides w b low (cc_cells cells) _ _ Hs) as [_ Hc2].
  specialize (Hc1 F1). specialize (Hc2 F2). rewrite (exists_existsb _ _ Ex1) in Hc1. rewrite (exists_existsb _ _ Ex2) in Hc2.
  change (String.eqb "confirmatory" "pilot") with false in Hp. cbn [andb] in Hp.
  eapply (pair_blocks_zero (si_control s) (si_treatment s)); [|exact Hc1|exact Hc2|exact Hz|exact Hp].
  by eapply all_blocks_elem.
Qed.

(** ** A small campaign *)

(** The tangents of the functions at one and at zero. *)
#[local] Instance tangent_libm : Libm :=
  {| c_log x := fsub x one; c_log1p x := x; c_exp x := fadd one x; c_lgamma _ := zero |}.

Definition sample_cell (block policy : string) (throughput : Z) (ratio : float) : cell_summary :=
  {| cs_block := Some block; cs_cell := Some ("cell-" +:+ policy); cs_workload := Some "cpu-bound"; cs_policy := Some policy;
     cs_condition := Some "solo";
     cs_cgroup := Some {| cpu_usage_seconds := None; quota_utilization := None; throttled_period_ratio := Some ratio;
                          throttled_time_seconds := None; psi_some_seconds := None; psi_full_seconds := None |};
     cs_throughput := Some (flit throughput 100); cs_latency := None; cs_metrics := []; cs_parameters := [] |}.
Definition sample_block (fit_ratio : float) (block : string) (fit low : Z) : list cell_summary :=
  [sample_cell block "fit" fit fit_ratio; sample_cell block "burstable-low" low (flit 60 100)].
Definition sample_campaign (fit_ratio : float) : campaign_cells :=
  {| cc_cells := sample_block fit_ratio "b1" 100 120 ++ sample_block fit_ratio "b2" 100 121 ++ sample_block fit_ratio "b3" 100 122;
     cc_incomplete := [] |}.

Definition contrast_names (r : result analysis) : list (string * string * Z * bool) :=
  match r with
  | Ok a => (fun c => (ct_family c, ct_decision c, Z.of_nat (length (ct_paired c)), bool_decide (is_Some (ct_interval c)))) <$> an_contrasts a
  | Raise _ => []
  end.

Example sample_contrasts : contrast_names (analyze (sample_campaign (flit 50 100)) "confirmatory") =
  [("limit_effect", "improvement", 3, true); ("request_weight", "incomplete", 0, false);
   ("guaranteed_vs_burstable", "incomplete", 0, false); ("throttle_gap", "improvement", 3, true)].
Proof. vm_compute. reflexivity. Qed.

Definition sample_analysis : analysis :=
  match analyze (sample_campaign (flit 50 100)) "confirmatory" with
  | Ok a => a
  | Raise _ => {| an_phase := ""; an_cells := sample_campaign zero; an_contrasts := [] |}
  end.

Lemma analyze_sound_witness :
  analyze (sample_campaign (flit 50 100)) "confirmatory" = Ok sample_analysis /\
  forall f, f ∈ FAMILIES -> corrected f (an_contrasts sample_analysis).
Proof.
  assert (analyze (sample_campaign (flit 50 100)) "confirmatory" = Ok sample_analysis) as E by (vm_compute; reflexivity).
  split; [exact E|]. destruct (analyze_sound tangent_libm _ _ _ E) as (_ & _ & _ & _ & Hc). exact (Hc eq_refl).
Defined.

Lemma unthrottled_cell_ends_analysis_witness :
  fleb zero zero || fleb (flit 60 100) zero = true /\ forall a, analyze (sample_campaign zero) "confirmatory" <> Ok a.
Proof.
  split; [reflexivity|].
  refine (unthrottled_cell_ends_analysis tangent_libm (sample_campaign zero) "cpu-bound" "b2" zero (flit 60 100) _ _ eq_refl).
  - split; [do 2 apply Exists_cons_tl; apply Exists_cons_hd; reflexivity|].
    repeat constructor; intros Hr; first [discriminate Hr|eexists; split; reflexivity].
  - split; [do 3 apply Exists_cons_tl; apply Exists_cons_hd; reflexivity|].
    repeat constructor; intros Hr; first [discriminate Hr|eexists; split; reflexivity].
Defined.
