(* ===== verification/StoredRows.v ===== *)
(** What a complete cell stores in the tables: the rows of two records of the
    probe and of their difference, level by level. *)

From Stdlib Require Import ZArith Bool Ascii String Lia SpecFloat.
From stdpp Require Import base list strings option pretty.
From S2P Require Import Prelude Eff PyStr PyVal Json PyCsv PyDict World Files Probe Design CellRun CellRunThm.

Open Scope string_scope.
Open Scope Z_scope.

(** A file with these rows. *)
Definition csv_file (rows : list (list string)) : csv_stream := Ok (text_lines (csv_write rows), None).

(** ** Reading a written file *)

Definition fitting (rows : list (list string)) : Prop := Forall (fun row => row <> [] /\ Forall fits row) rows.

Lemma dict_rows_all names rows : fitting rows -> dict_rows names rows = zip_row names <$> rows.
Proof.
  intros H. unfold dict_rows. f_equal. induction H as [|row rows [Hne _] _ IH]; [done|].
  cbn [List.filter]. destruct row; [done|]. by rewrite IH.
Qed.

(** What is read back from it. *)
Lemma csv_file_rows rows : fitting rows -> csv_rows false None csv_reset (text_lines (csv_write rows)) = (rows, None).
Proof. apply (csv_roundtrip false). Qed.

(** A text that is not changed by [strip] and not empty. *)
Definition plain_text (s : string) : Prop := strip s = s /\ is_empty s = false.

Lemma str_of_Z_plain z : 0 <= z -> plain_text (str_of_Z z).
Proof.
  intros Hz. split.
  - apply strip_id. eapply str_forallb_impl; [|exact (str_of_Z_digits _ Hz)]. intros x Hx. by rewrite digit_not_space.
  - pose proof (py_int_str_of_Z z Hz) as H. by destruct (str_of_Z z).
Qed.

(** ** The levels of a kind *)

(** The level's kind. *)
Definition kind_is (kind : string) (level : pydict) : bool :=
  match dget "kind" level with Some (VStr k) => String.eqb k kind | _ => false end.
(** The last level of a kind. *)
Definition last_of (kind : string) (ls : list pydict) : option pydict := list.last (List.filter (kind_is kind) ls).

Lemma last_app_ne {A} (l k : list A) x : list.last k = Some x -> list.last (l ++ k) = Some x.
Proof. intros H. apply last_Some in H as [k' ->]. apply last_Some. exists (l ++ k')%list. by rewrite app_assoc. Qed.

Lemma last_cons_hit {A B} (f : A -> option B) x l :
  list.last (omap f (x :: l)) = match list.last (omap f l) with Some v => Some v | None => f x end.
Proof.
  cbn [omap list_omap]. destruct (f x) as [v|]; [|by destruct (list.last _)].
  destruct (omap f l) as [|y k]; [done|]. cbn [list.last]. by destruct (list.last (y :: k)) eqn:E; [|apply last_None in E].
Qed.

(** When every level of a kind gives one value and the others give none, the last
    value is that of the last level of the kind. *)
Lemma last_hits {A B V} (f : B -> option V) (q : A -> bool) (v : A -> V -> Prop) levels rss :
  Forall2 (fun a rs => if q a then exists x, v a x /\ omap f rs = [x] else omap f rs = []) levels rss ->
  match list.last (List.filter q levels) with
  | Some a => exists x, list.last (omap f (concat rss)) = Some x /\ v a x
  | None => omap f (concat rss) = []
  end.
Proof.
  induction 1 as [|a rs levels rss Ha _ IH]; [done|]. cbn [List.filter concat]. rewrite omap_app.
  assert (forall a', list.last (List.filter q levels) = Some a' ->
    exists x, list.last (omap f rs ++ omap f (concat rss)) = Some x /\ v a' x) as Hlater.
  { intros a' E. rewrite E in IH. destruct IH as (x & Hx & Hv). exists x. split; [by apply last_app_ne|done]. }
  destruct (q a); [|rewrite Ha; cbn [app]; exact IH].
  destruct Ha as (x & Hv & Hrs). destruct (List.filter q levels) as [|a' l] eqn:E.
  - cbn [list.last] in *. rewrite IH, Hrs. by exists x.
  - change (list.last (a :: a' :: l)) with (list.last (a' :: l)).
    destruct (list.last (a' :: l)) as [a''|] eqn:El; [by apply Hlater|]. by apply last_None in El.
Qed.

(** The value of a row of this level and key. *)
Definition keyed (level key : string) (r : cgroup_row) : option string :=
  if String.eqb (cg_level r) level && String.eqb (cg_key r) key then Some (cg_value r) else None.

(** ** Windows *)

Lemma mapM_window f w rss (ls : list pyval) : (forall l rows, f l = Ok rows -> Forall (fun r => cg_window r = w) rows) ->
  mapM f ls = Ok rss -> Forall (fun r => cg_window r = w) (concat rss).
Proof.
  intros Hf H%mapM_Ok. induction H as [|l rows ls rss Hl _ IH]; [constructor|]. cbn [concat]. apply Forall_app. eauto.
Qed.

Lemma value_row_window t w k p v r : value_row t w k p v = Ok r -> cg_window r = w.
Proof. destruct v as [[key value] u]. unfold value_row. destruct value; try done; intros H; apply Ok_inj in H as <-; done. Qed.

Lemma cgroup_rows_window record w rows : cgroup_rows record w = Ok rows -> Forall (fun r => cg_window r = w) rows.
Proof.
  unfold cgroup_rows. destruct (dget "captured_at" record) as [[| | | |t| |]|]; try done.
  destruct (dget "levels" record) as [[| | | | |ls|]|]; try done. intros H. apply rbind_Ok in H as (rss & Hm & [= <-]).
  eapply mapM_window; [|exact Hm]. intros l rs Hl. unfold level_rows in Hl. repeat (case_match; try done).
  apply mapM_Ok in Hl. induction Hl as [|v r vs rs Hv _ IH]; constructor; [by eapply value_row_window|done].
Qed.

Lemma levels_list record al : levels record = Ok al -> dget "levels" record = Some (VList (VDict <$> al)).
Proof.
  unfold levels. destruct (dget "levels" record) as [[| | | | |ls|]|]; try done.
  destruct (mapM _ ls) as [ds|] eqn:E; [|done]. intros [= <-]. do 2 f_equal. apply mapM_Ok in E.
  induction E as [|l d ls ds Hl _ IH]; [done|]. cbn [fmap list_fmap]. rewrite IH. by destruct l; simplify_eq.
Qed.

(** ** One level *)

(** The quota, the period and the stall times of a level as they are stored. *)
Definition quota_text (level : pydict) : string :=
  py_str (match dget_none "cpu_max_quota_us" level with VNone => VStr "max" | q => q end).
Definition period_text (level : pydict) : string := py_str (dget_none "cpu_max_period_us" level).
Definition pressure_text (key : string) (level : pydict) : string :=
  py_str (match dget "cpu_pressure" level with Some (VDict p) => dget_none key p | _ => VNone end).

Definition SNAPSHOT_KEYS : list string :=
  ["cpu.max.quota"; "cpu.max.period"; "cpu.pressure.some_total_usec"; "cpu.pressure.full_total_usec"].
Definition snapshot_text (key : string) (level : pydict) : string :=
  if String.eqb key "cpu.max.quota" then quota_text level
  else if String.eqb key "cpu.max.period" then period_text level
  else if String.eqb key "cpu.pressure.some_total_usec" then pressure_text "some_total_usec" level
  else pressure_text "full_total_usec" level.

(** The value of a key among the values of a level. *)
Definition value_hit (key : string) (v : string * pyval * string) : option string :=
  if String.eqb (fst (fst v)) key then Some (py_str (snd (fst v))) else None.

Lemma value_hits t w kind path vs rows K key :
  Forall2 (fun v r => r = {| cg_captured_at := t; cg_window := w; cg_level := kind; cg_path := path;
                             cg_key := fst (fst v); cg_value := py_str (snd (fst v)); cg_unit := snd v |}) vs rows ->
  omap (keyed K key) rows = if String.eqb kind K then omap (value_hit key) vs else [].
Proof.
  intros Hf. induction Hf as [|v r vs rows -> _ IH]; [by destruct (String.eqb kind K)|].
  cbn [omap list_omap]. rewrite IH. unfold keyed, value_hit. cbn [cg_level cg_key cg_value].
  by destruct (String.eqb kind K), (String.eqb (fst (fst v)) key).
Qed.

Lemma level_values_keyed key d cs p m : dget "cpu_pressure" d = Some (VDict p) -> key ∈ SNAPSHOT_KEYS ->
  omap (value_hit key) (level_values d cs p m) = [snapshot_text key d].
Proof.
  intros Hp. unfold SNAPSHOT_KEYS, snapshot_text, pressure_text. rewrite Hp.
  intros [->|[->|[->|[->|[]%not_elem_of_nil]%list.elem_of_cons]%list.elem_of_cons]%list.elem_of_cons]%list.elem_of_cons;
    reflexivity.
Qed.

(** The rows of a typed level. *)
Lemma level_rows_keyed t w d rows key : typed_level d = true -> level_rows t w (VDict d) = Ok rows ->
  key ∈ SNAPSHOT_KEYS -> forall K,
  omap (keyed K key) rows = if kind_is K d then [snapshot_text key d] else [].
Proof.
  intros Ht Hr Hkey K. destruct (typed_level_get d Ht) as (kind & path & cs & p & m & H1 & H2 & H3 & H4 & H5 & H6 & _).
  cbn [level_rows] in Hr. rewrite H1, H2, H3, H4, H5 in Hr.
  destruct (value_rows_Ok t w kind path _ H6) as (rows' & E & Hrows). rewrite Hr in E. injection E as <-.
  unfold kind_is. rewrite H1, (value_hits _ _ _ _ _ _ _ _ Hrows). by rewrite level_values_keyed.
Qed.

(** The growth [n] of a counter of level [a] since the earlier level of its path. *)
Definition grown (m : level_map) (k : string) (a : pydict) (n : Z) : Prop :=
  exists lb bs asx, lget (level_path a) m = Some lb /\ cpu_stat lb = Ok bs /\ cpu_stat a = Ok asx /\ growth bs asx k (k, n).

Lemma grown_nonneg m k a n : grown m k a n -> 0 <= n.
Proof. intros (lb & bs & asx & _ & _ & _ & x & y & _ & _ & Hle & [= ->]). lia. Qed.

Lemma grown_unique m k a n n' : grown m k a n -> grown m k a n' -> n = n'.
Proof.
  intros (lb & bs & asx & H1 & H2 & H3 & x & y & Hx & Hy & _ & [= ->])
         (lb' & bs' & asx' & H1' & H2' & H3' & x' & y' & Hx' & Hy' & _ & [= ->]). simplify_eq. congruence.
Qed.

(** The stored rows of a difference. *)
Lemma delta_level_keyed m a d t rows K k :
  delta_of m a d -> delta_level_rows t d = Ok rows -> k ∈ CPU_STAT_KEYS ->
  exists n, grown m k a n /\ omap (keyed K ("cpu.stat." +:+ k)) rows = if kind_is K a then [str_of_Z n] else [].
Proof.
  intros (lb & c & Hl & (bs & asx & Hb & Ha & Hc) & ->) Hr Hk.
  unfold CPU_STAT_KEYS in Hc.
  destruct c as [|[k1 n1] [|[k2 n2] [|[k3 n3] [|[k4 n4] [|]]]]]; try (by apply Forall2_length in Hc).
  repeat (apply list.Forall2_cons in Hc as [? Hc]).
  assert (k1 = "usage_usec" /\ k2 = "nr_periods" /\ k3 = "nr_throttled" /\ k4 = "throttled_usec") as (-> & -> & -> & ->).
  { repeat match goal with Hg : growth _ _ _ _ |- _ => destruct Hg as (? & ? & _ & _ & _ & [= -> _]) end. done. }
  unfold delta_level_rows in Hr.
  change (dget "path" _) with (Some (VStr (level_path a))) in Hr.
  change (dget "kind" _) with (Some (dget_none "kind" a)) in Hr.
  change (dget "cpu_stat" _) with (Some (zdict [("usage_usec", n1); ("nr_periods", n2); ("nr_throttled", n3); ("throttled_usec", n4)])) in Hr.
  unfold kind_is. unfold dget_none in Hr. destruct (dget "kind" a) as [[| | | |kind| |]|]; try done.
  unfold zdict in Hr. apply Ok_inj in Hr as <-.
  unfold CPU_STAT_KEYS in Hk.
  apply list.elem_of_cons in Hk as [->|[->|[->|[->|[]%not_elem_of_nil]%list.elem_of_cons]%list.elem_of_cons]%list.elem_of_cons];
    [exists n1|exists n2|exists n3|exists n4]; (split; [by exists lb, bs, asx|]); cbn [omap list_omap]; unfold keyed;
    cbn [cg_level cg_key cg_value]; destruct (String.eqb kind K); reflexivity.
Qed.

(** ** Values that can be read *)

Definition level_quota (l : pydict) : option Z := match dget "cpu_max_quota_us" l with Some (VInt n) => Some n | _ => None end.
Definition level_period (l : pydict) : option Z := match dget "cpu_max_period_us" l with Some (VInt n) => Some n | _ => None end.

Lemma typed_level_limits l : typed_level l = true ->
  (quota_text l = "max" /\ level_quota l = None \/
   exists n, quota_text l = str_of_Z n /\ level_quota l = Some n /\ 0 <= n) /\
  exists n, period_text l = str_of_Z n /\ level_period l = Some n /\ 0 < n.
Proof.
  unfold typed_level, quota_text, period_text, level_quota, level_period, dget_none. intros H. bool_hyps.
  repeat match goal with Hx : (_ && _) = true |- _ => apply andb_true_iff in Hx as [? ?] end. split.
  - destruct (dget "cpu_max_quota_us" l) as [[| |n| | | |]|]; try done; [by left|]. right. exists n.
    repeat split. by apply Z.leb_le.
  - destruct (dget "cpu_max_period_us" l) as [[| |n| | | |]|]; try done. exists n. repeat split. by apply Z.ltb_lt.
Qed.

(** ** Two records *)

Lemma typed_levels record ls : levels record = Ok ls -> typed_record record = true -> Forall (fun l => typed_level l = true) ls.
Proof.
  intros Hl%levels_list Ht. unfold typed_record in Ht. apply andb_true_iff in Ht as [_ Ht]. rewrite Hl in Ht.
  assert (forallb typed_level_value (VDict <$> ls) = true) as Hf by (destruct ls; [done|exact Ht]).
  clear -Hf. induction ls as [|l ls IH]; [constructor|]. cbn [fmap list_fmap forallb] in Hf.
  apply andb_true_iff in Hf as [? ?]. constructor; [done|by apply IH].
Qed.

(** The first kind of which there is a level, and its last level. *)
Fixpoint pick_level (kinds : list string) (ls : list pydict) : option (string * pydict) :=
  match kinds with
  | [] => None
  | K :: rest => match last_of K ls with Some l => Some (K, l) | None => pick_level rest ls end
  end.

Lemma last_of_typed record ls K l : levels record = Ok ls -> typed_record record = true -> last_of K ls = Some l ->
  typed_level l = true.
Proof.
  intros Hl Ht Hlast. pose proof (typed_levels _ _ Hl Ht) as Hall. unfold last_of in Hlast.
  apply last_Some_elem_of in Hlast. apply list_elem_of_In, List.filter_In in Hlast as [Hin _].
  rewrite Forall_forall in Hall. by apply Hall, list_elem_of_In.
Qed.

(** The rows of a snapshot, level by level. *)
Lemma snapshot_level_rows record ls w rows : levels record = Ok ls -> cgroup_rows record w = Ok rows ->
  exists t rss, Forall2 (fun l rs => level_rows t w (VDict l) = Ok rs) ls rss /\ rows = concat rss.
Proof.
  intros Hl%levels_list Hr. unfold cgroup_rows in Hr. rewrite Hl in Hr.
  destruct (dget "captured_at" record) as [[| | | |t| |]|]; try done.
  apply rbind_Ok in Hr as (rss & Hm & [= <-]). apply mapM_Ok, Forall2_fmap_l in Hm. by exists t, rss.
Qed.

Lemma snapshot_keyed record ls w rows key K :
  levels record = Ok ls -> typed_record record = true -> cgroup_rows record w = Ok rows -> key ∈ SNAPSHOT_KEYS ->
  match last_of K ls with
  | Some l => list.last (omap (keyed K key) rows) = Some (snapshot_text key l)
  | None => omap (keyed K key) rows = []
  end.
Proof.
  intros Hl Ht Hr Hk. pose proof (typed_levels record ls Hl Ht) as Hall.
  destruct (snapshot_level_rows record ls w rows Hl Hr) as (t & rss & Hm & ->).
  assert (Forall2 (fun l rs => if kind_is K l then exists x, x = snapshot_text key l /\ omap (keyed K key) rs = [x]
                               else omap (keyed K key) rs = []) ls rss) as H2.
  { clear -Hm Hall Hk. induction Hm as [|l rs ls rss E _ IH]; [constructor|]. apply Forall_cons_iff in Hall as [Hl Hall].
    constructor; [|by apply IH]. rewrite (level_rows_keyed t w l rs key Hl E Hk K). destruct (kind_is K l); [|done]. by eexists. }
  pose proof (last_hits (keyed K key) (kind_is K) (fun l x => x = snapshot_text key l) ls rss H2) as H3.
  unfold last_of. destruct (list.last _); [|done]. by destruct H3 as (x & -> & ->).
Qed.

Section Difference.
Context (before after : pydict) (bl al : list pydict) (d : list cgroup_row).
Hypothesis before_levels : levels before = Ok bl.
Hypothesis after_levels : levels after = Ok al.
Hypothesis difference : delta_rows before after = Ok d.

Lemma delta_rows_levels : exists t ds rss, Forall2 (delta_of (by_path bl)) al ds /\
  Forall2 (fun x rs => delta_level_rows t x = Ok rs) ds rss /\ d = concat rss.
Proof.
  unfold delta_rows in difference. destruct (dget "captured_at" after) as [[| | | |t| |]|]; try done.
  destruct (cpu_stat_deltas before after) as [ds|e] eqn:Ed; [|by destruct (caught_by _ e)].
  apply (cpu_stat_deltas_Ok before after bl al ds before_levels after_levels) in Ed as (_ & _ & Hd).
  apply rbind_Ok in difference as (rss & Hm & [= <-]). apply mapM_Ok in Hm. by exists t, ds, rss.
Qed.

Lemma delta_keyed k K : k ∈ CPU_STAT_KEYS ->
  match last_of K al with
  | Some l => exists n, list.last (omap (keyed K ("cpu.stat." +:+ k)) d) = Some (str_of_Z n) /\ grown (by_path bl) k l n
  | None => omap (keyed K ("cpu.stat." +:+ k)) d = []
  end.
Proof.
  intros Hk. destruct delta_rows_levels as (t & ds & rss & Hd & Hr & ->).
  assert (Forall2 (fun l rs => if kind_is K l then exists x, (exists n, grown (by_path bl) k l n /\ x = str_of_Z n) /\
      omap (keyed K ("cpu.stat." +:+ k)) rs = [x] else omap (keyed K ("cpu.stat." +:+ k)) rs = []) al rss) as H2.
  { clear -Hd Hr Hk. revert rss Hr. induction Hd as [|l x ls ds Hx _ IH]; intros rss Hr.
    - apply Forall2_nil_inv_l in Hr as ->. constructor.
    - apply Forall2_cons_inv_l in Hr as (rs & rss' & Hr & Hrs & ->). constructor; [|by apply IH].
      destruct (delta_level_keyed _ _ _ _ _ K k Hx Hr Hk) as (n & Hn & E). rewrite E.
      destruct (kind_is K l); [|done]. exists (str_of_Z n). split; [by exists n|done]. }
  pose proof (last_hits (keyed K ("cpu.stat." +:+ k)) (kind_is K) _ al rss H2) as H3.
  unfold last_of. destruct (list.last _); [|done]. destruct H3 as (x & Hx & n & Hn & ->). by exists n.
Qed.

Lemma delta_rows_window : Forall (fun r => cg_window r = "measurement_delta") d.
Proof.
  destruct delta_rows_levels as (t & ds & rss & _ & Hr & ->). clear -Hr.
  induction Hr as [|x rs ds rss Hx _ IH]; [constructor|]. cbn [concat]. apply Forall_app. split; [|done].
  unfold delta_level_rows in Hx. repeat (case_match; try done). apply mapM_Ok in Hx.
  clear -Hx. induction Hx as [|k r ks rs Hk _ IH]; constructor; [|done].
  repeat (case_match; try done). by apply Ok_inj in Hk as <-.
Qed.
End Difference.

(** ** The laboratory's rows *)

Lemma fitting_true rows :
  forallb (fun row => negb (match row with [] => true | _ => false end) && forallb (fun s => slen s <=? csv_field_limit) row) rows
  = true -> fitting rows.
Proof.
  intros H. apply Forall_forall. intros row Hrow. rewrite forallb_forall in H.
  specialize (H row (proj1 (list_elem_of_In _ _) Hrow)). apply andb_true_iff in H as [Hne Hf]. split; [by destruct row|].
  apply Forall_forall. intros s Hs. rewrite forallb_forall in Hf. apply Z.leb_le, Hf. by apply list_elem_of_In.
Qed.

Lemma cell_from_id_in cid cell : cell_from_id cid = Ok cell -> cell ∈ CELLS.
Proof.
  unfold cell_from_id. destruct (List.find _ CELLS) as [c|] eqn:E; [|done]. intros [= <-].
  apply List.find_some in E as [Hin _]. by apply list_elem_of_In.
Qed.

Definition ok_or {A} (d : A) (r : result A) : A := match r with Ok a => a | Raise _ => d end.
