(* ===== verification/FreezePolicies.v ===== *)
(** [cpu-limits/experiments/freeze_policies.py]: the fit and low CPU values that
    the rows of the pilot support.

    The two CSV files are read as lines of text; a file that cannot be opened
    or decoded is an exception in place of its lines. *)

From Stdlib Require Import ZArith Bool Ascii String Lia SpecFloat.
From stdpp Require Import base list strings option pretty gmap.
From S2P Require Import Prelude Eff PyStr PyFloat PyVal Json PyConv PyCsv PyDict World Files Probe Design.

Open Scope string_scope.
Open Scope Z_scope.

Definition THROTTLE_MIN : float := flit 10 100.
Definition THROTTLE_MAX : float := flit 40 100.
Definition THROTTLE_TARGET : float := flit 25 100.

Record PilotSample : Type := {
  ps_block_id : string; ps_cell_id : string; ps_level : string; ps_workload : string; ps_policy : string;
  ps_quota_us : option Z; ps_period_us : option Z; ps_periods : Z; ps_throttled_periods : Z
}.

Definition value_error {A} (msg : string) : result A := Raise (Exn ValueError msg).

Definition throttled_ratio (s : PilotSample) : result float :=
  raise_if (ps_periods s <=? 0) ValueError "nr_periods must be positive for calibration" ;;;
  raise_if ((ps_throttled_periods s <? 0) || (ps_periods s <? ps_throttled_periods s)) ValueError
    "nr_throttled must be within nr_periods" ;;;
  truediv (ps_throttled_periods s) (ps_periods s).

(** [round(x)]: to the nearest integer, ties to even. *)
Definition round_int (x : float) : result Z :=
  match x with
  | S754_finite s m e => let '(n, d) := magnitude m e in
                         Ok (if s then - div_half_even n d else div_half_even n d)
  | _ => int_of_float x
  end.

Definition millicores (s : PilotSample) : result (option Z) :=
  match ps_quota_us s, ps_period_us s with
  | Some quota, Some period =>
      if period <=? 0 then Ok None
      else
        raise_if (quota <=? 0) ValueError "cpu.max quota must be positive" ;;;
        let* x := truediv (1000 * quota) period in
        let* n := round_int x in
        Ok (Some n)
  | _, _ => Ok None
  end.

(** ** Reading the files *)

(** A [DictReader] over the stream with the check of its columns: the rows, and
    the exception that the iteration ends with. *)
Definition open_rows (required : list string) (missing : string) (stream : csv_stream) :
    result (list csv_row * option exn) :=
  let* (lines, stop) := stream in
  let '(rows, err) := csv_rows false stop csv_reset lines in
  match rows with
  | [] => match err with Some e => Raise e | None => value_error missing end
  | names :: rows =>
      raise_if (negb (forallb (fun c => mem_string c names) required)) ValueError missing ;;;
      Ok (dict_rows names rows, err)
  end.

(** A short row has [None] for a column, which has no [strip]. *)
Definition required (row : csv_row) (key : string) : result string :=
  let* value := match row_get key row with
                | None => Ok ""
                | Some None => Raise (Exn AttributeError "'NoneType' object has no attribute 'strip'")
                | Some (Some v) => Ok (strip v)
                end in
  raise_if (is_empty value) ValueError ("cgroups CSV row is missing " +:+ key) ;;;
  Ok value.

Definition as_int (value key : string) : result Z :=
  match py_int value with
  | None => value_error (key +:+ " must be an integer")
  | Some n => raise_if (n <? 0) ValueError (key +:+ " must not be negative") ;;; Ok n
  end.

(** Workload and policy of a block and cell. *)
Abbreviation cell_workloads := (list ((string * string) * (string * string))).

(** [row.get(column)] as a text, if it is one. *)
Definition cell_text (column : string) (row : csv_row) : option string :=
  match row_get column row with Some (Some v) => Some v | _ => None end.

Definition block_row (result_ : cell_workloads) (row : csv_row) : result cell_workloads :=
  if negb (bool_decide (cell_text "status" row = Some "complete")) then Ok result_
  else
    let* block_id := required row "block_id" in
    let* cell_id_ := required row "cell_id" in
    let* workload_ := required row "workload" in
    let* policy_ := required row "policy" in
    raise_if (negb (mem_string workload_ WORKLOADS)) ValueError ("blocks CSV has unknown workload: " +:+ workload_) ;;;
    Ok (assoc_set (block_id, cell_id_) (workload_, policy_) result_).

Definition workloads_by_cell (blocks : csv_stream) : result cell_workloads :=
  let* rows := open_rows ["block_id"; "cell_id"; "workload"; "policy"; "status"]
                 "blocks CSV is missing required columns" blocks in
  over_rows block_row [] rows.

(** The observations: block, cell, level and key. *)
Abbreviation observations := (gmap (string * string * string * string) string).

Definition LEVELS : list string := ["container_leaf"; "container_scope"; "pod_slice"].
Definition DELTA_KEYS : list string := ["cpu.stat.nr_periods"; "cpu.stat.nr_throttled"].
Definition LIMIT_KEYS : list string := ["cpu.max.quota"; "cpu.max.period"].

(** Whether a key counts in a window. *)
Definition wanted (key window : string) : bool :=
  if mem_string key DELTA_KEYS then String.eqb window "measurement_delta"
  else mem_string key LIMIT_KEYS && mem_string window ["start"; "end"].

Definition cgroup_row_step (workloads : cell_workloads) (values : observations) (row : csv_row) : result observations :=
  match row_get "block_id" row, row_get "cell_id" row with
  | Some (Some block_id), Some (Some cell_id_) =>
      if negb (assoc_has (block_id, cell_id_) workloads) then Ok values
      else
        match cell_text "level" row, cell_text "key" row, cell_text "window" row with
        | Some level, Some key, Some window =>
            if mem_string level LEVELS && wanted key window
            then let* value := required row "value" in Ok (<[(block_id, cell_id_, level, key) := value]> values)
            else Ok values
        | _, _, _ => Ok values
        end
  | _, _ => Ok values
  end.

(** The sample of a cell from the first level with both counters; [get] looks up
    an observation of the cell by level and key. *)
Fixpoint level_sample (get : string -> string -> option string) (block_id cell_id_ workload_ policy_ : string)
    (levels : list string) : result (option PilotSample) :=
  match levels with
  | [] => Ok None
  | level :: rest =>
      match get level "cpu.stat.nr_periods", get level "cpu.stat.nr_throttled" with
      | Some periods_text, Some throttled_text =>
          let quota_text := default "" (get level "cpu.max.quota") in
          let period_text := default "" (get level "cpu.max.period") in
          let* quota := if String.eqb quota_text "max" then Ok None
                        else let* n := as_int quota_text "cpu.max.quota" in Ok (Some n) in
          let* period := if is_empty period_text then Ok None
                         else let* n := as_int period_text "cpu.max.period" in Ok (Some n) in
          let* periods := as_int periods_text "cpu.stat.nr_periods" in
          let* throttled := as_int throttled_text "cpu.stat.nr_throttled" in
          Ok (Some {| ps_block_id := block_id; ps_cell_id := cell_id_; ps_level := level; ps_workload := workload_;
                      ps_policy := policy_; ps_quota_us := quota; ps_period_us := period; ps_periods := periods;
                      ps_throttled_periods := throttled |})
      | _, _ => level_sample get block_id cell_id_ workload_ policy_ rest
      end
  end.

Definition cell_sample (values : observations) (c : (string * string) * (string * string)) : result (option PilotSample) :=
  let '((block_id, cell_id_), (workload_, policy_)) := c in
  level_sample (fun level key => values !! (block_id, cell_id_, level, key)) block_id cell_id_ workload_ policy_ LEVELS.

Definition read_pilot_samples (cgroups blocks : csv_stream) : result (list PilotSample) :=
  let* workloads := workloads_by_cell blocks in
  let* rows := open_rows ["block_id"; "cell_id"; "window"; "level"; "key"; "value"]
                 "cgroups CSV is missing required columns" cgroups in
  let* values := over_rows (cgroup_row_step workloads) ∅ rows in
  let* samples := mapM (cell_sample values) workloads in
  Ok (omap id samples).

(** ** Freezing *)

Record FrozenPolicy : Type := {
  fp_workload : string; fp_fit_millicores : Z; fp_low_millicores : Z; fp_status : string;
  fp_evidence : list pydict; fp_limitation : option string
}.

(** [if ...] of a comprehension that may raise. *)
Fixpoint filterM {A} (f : A -> result bool) (l : list A) : result (list A) :=
  match l with
  | [] => Ok []
  | x :: l' => let* b := f x in let* r := filterM f l' in Ok (if b then x :: r else r)
  end.

(** A sample of the policy [fit] with a quota that is not zero. *)
Definition fit_candidate (s : PilotSample) : result bool :=
  if String.eqb (ps_policy s) "fit"
  then let* m := millicores s in Ok (match m with Some n => negb (n =? 0) | None => false end)
  else Ok false.

Definition in_band (ratio : float) : bool := fleb THROTTLE_MIN ratio && fleb ratio THROTTLE_MAX.

Definition evidence_of (s : PilotSample) : result pydict :=
  let who := [("block_id", VStr (ps_block_id s)); ("cell_id", VStr (ps_cell_id s)); ("level", VStr (ps_level s));
              ("policy", VStr (ps_policy s))] in
  match (let* ratio := throttled_ratio s in let* m := millicores s in Ok (ratio, m)) with
  | Ok (ratio, m) =>
      Ok (who ++ [("quota_millicores", opt_int m); ("throttled_period_ratio", VFloat ratio);
                  ("in_target_band", VBool (in_band ratio))])%list
  | Raise e =>
      if caught_by [ValueError] e then Ok (who ++ [("status", VStr "invalid"); ("reason", VStr (exn_msg e))])%list
      else Raise e
  end.

Definition low_candidate (s : PilotSample) : result bool :=
  let* m := millicores s in
  match m with
  | None => Ok false
  | Some _ => let* ratio := throttled_ratio s in Ok (in_band ratio)
  end.

(** The key of [min]: the distance from the target, then the millicores. *)
Definition low_key (s : PilotSample) : result (float * Z) :=
  let* ratio := throttled_ratio s in
  let* m := millicores s in
  Ok (fabs (fsub ratio THROTTLE_TARGET), default 0 m).
Definition key_less (a b : float * Z) : bool :=
  if feqb (fst a) (fst b) then snd a <? snd b else fltb (fst a) (fst b).
Definition better (best s : (float * Z) * PilotSample) : (float * Z) * PilotSample :=
  if key_less (fst s) (fst best) then s else best.

(** The first of the candidates with the least key. *)
Definition choose_low (s : PilotSample) (rest : list PilotSample) : result PilotSample :=
  let* keyed := mapM (fun s => let* k := low_key s in Ok (k, s)) (s :: rest) in
  match keyed with
  | k :: ks => Ok (snd (fold_left better ks k))
  | [] => Ok s
  end.

Definition NO_CALIBRATION : string :=
  "pilot calibration did not produce a finite quota with a 10 to 40 percent " +:+
  "throttled-period ratio; approved defaults remain in use".

Definition freeze_values (workload_ : string) (samples : list PilotSample) : result FrozenPolicy :=
  raise_if (negb (mem_string workload_ WORKLOADS)) ValueError ("unknown workload: " +:+ workload_) ;;;
  let* (default_fit, default_low) := cpu_values workload_ in
  let sample_list := List.filter (fun s => String.eqb (ps_workload s) workload_) samples in
  let* fit_candidates := filterM fit_candidate sample_list in
  let* fits_ := mapM millicores fit_candidates in
  let fit := match omap id fits_ with [] => default_fit | n :: ns => fold_left Z.max ns n end in
  let* evidence := mapM evidence_of sample_list in
  let* low_candidates := filterM low_candidate sample_list in
  match low_candidates with
  | [] => Ok {| fp_workload := workload_; fp_fit_millicores := default_fit; fp_low_millicores := default_low;
                fp_status := "FAIL"; fp_evidence := evidence; fp_limitation := Some NO_CALIBRATION |}
  | s :: rest =>
      let* chosen := choose_low s rest in
      let* low := millicores chosen in
      match low with
      | None => Raise (Exn AssertionError "")
      | Some low => Ok {| fp_workload := workload_; fp_fit_millicores := fit; fp_low_millicores := low;
                          fp_status := "PASS"; fp_evidence := evidence; fp_limitation := None |}
      end
  end.

(** [asdict(policy)] *)
Definition policy_value (p : FrozenPolicy) : pyval :=
  VDict [("workload", VStr (fp_workload p)); ("fit_millicores", VInt (fp_fit_millicores p));
         ("low_millicores", VInt (fp_low_millicores p)); ("status", VStr (fp_status p));
         ("evidence", VList (VDict <$> fp_evidence p));
         ("limitation", match fp_limitation p with Some t => VStr t | None => VNone end)].

Definition all_pass (policies : list FrozenPolicy) : bool := forallb (fun p => String.eqb (fp_status p) "PASS") policies.

Definition policies_payload (policies : list FrozenPolicy) : pydict :=
  [("protocol", VStr PROTOCOL); ("status", VStr (if all_pass policies then "PASS" else "FAIL"));
   ("throttled_period_ratio_target", VDict [("minimum", VFloat THROTTLE_MIN); ("maximum", VFloat THROTTLE_MAX)]);
   ("policies", VList (policy_value <$> policies))].

(** The record for input that cannot be used. *)
Definition failed_policy (error workload_ : string) : result FrozenPolicy :=
  let* (fit, low) := cpu_values workload_ in
  Ok {| fp_workload := workload_; fp_fit_millicores := fit; fp_low_millicores := low; fp_status := "FAIL";
        fp_evidence := []; fp_limitation := Some ("pilot calibration input failed: " +:+ error) |}.

(** The policies of [main]. *)
Definition calibrate (cgroups blocks : csv_stream) : result (list FrozenPolicy) :=
  match (let* samples := read_pilot_samples cgroups blocks in
         mapM (fun w => freeze_values w samples) WORKLOADS) with
  | Raise e => if caught_by [OSError; ValueError] e then mapM (failed_policy (exn_msg e)) WORKLOADS else Raise e
  | r => r
  end.

Section Main.
Context `{Env}.

Definition write_policies (path : string) (policies : list FrozenPolicy) : M pydict :=
  let payload := policies_payload policies in
  perform (MakeDirs (parent path)) >>>
  perform (WriteText path (json_indent true (VDict payload) +:+ newline)) >>>
  ret payload.

(** [args.cgroups or default] *)
Definition path_or (given : option string) (other : string) : string :=
  match given with Some p => p | None => other end.

(** [main]: the exit status and the printed line.  The blocks are read first; the
    other file is not opened when they are of no use. *)
Definition freeze_main (data_root : string) (cgroups blocks output : option string) : M (Z * string) :=
  let! blocks := open_text (path_or blocks (path_join (path_join data_root "pilot") "blocks.csv")) in
  let! cgroups := (match workloads_by_cell blocks with
                   | Ok _ => open_text (path_or cgroups (path_join (path_join data_root "pilot") "cgroups.csv"))
                   | Raise e => ret (Raise e)
                   end) in
  let! policies := lift (calibrate cgroups blocks) in
  let! payload := write_policies (path_or output (path_join data_root "policies.json")) policies in
  ret (if all_pass policies then 0 else 1, json_plain true (VDict payload)).
End Main.

(** ** The order of the keys *)

(** Floats that compare equal compare alike. *)
Lemma fcompare_eq_l x y z : SFcompare x y = Some Eq -> SFcompare x z = SFcompare y z.
Proof.
  destruct x as [sx|sx| |sx mx ex], y as [sy|sy| |sy my ey]; simpl; try done;
    try (destruct sx; done); try (destruct sy; done); try (destruct sx, sy; done).
  intros H. assert (sx = sy /\ mx = my /\ ex = ey) as (-> & -> & ->); [|done].
  destruct sx, sy; try done; destruct (Z.compare_spec ex ey); try done; subst; injection H as H.
  - assert (Pos.compare_cont Eq mx my = Eq) as E by (by destruct (Pos.compare_cont Eq mx my)).
    apply Pos.compare_eq in E. by subst.
  - apply Pos.compare_eq in H. by subst.
Qed.

Lemma key_less_trans a b c : key_less a b = true -> key_less b c = true -> key_less a c = true.
Proof.
  destruct a as [x i], b as [y j], c as [z k]. unfold key_less, feqb, SFeqb, fltb, SFltb. cbn [fst snd].
  destruct (SFcompare x y) as [[| |]|] eqn:E1; try done.
  - rewrite (fcompare_eq_l x y z E1). destruct (SFcompare y z) as [[| |]|]; try done.
    rewrite !Z.ltb_lt. lia.
  - intros _. destruct (SFcompare y z) as [[| |]|] eqn:E2; try done.
    + intros _. pose proof (fcompare_eq_l y z x E2) as Hc.
      rewrite (fcompare_swap x y), (fcompare_swap x z), E1 in Hc. by destruct (SFcompare x z) as [[| |]|].
    + by rewrite (fcompare_lt_trans x y z).
Qed.

(** ** What is frozen *)

Lemma filterM_Ok {A} (f : A -> result bool) l r : filterM f l = Ok r ->
  (forall x, x ∈ r <-> x ∈ l /\ f x = Ok true) /\ Forall (fun x => is_ok (f x) = true) l.
Proof.
  revert r. induction l as [|x l IH]; intros r; cbn [filterM].
  { intros [= <-]. split; [|constructor]. intros x. split; [by intros ?%not_elem_of_nil|by intros [?%not_elem_of_nil _]]. }
  intros H. apply rbind_Ok in H as (b & Hb & H). apply rbind_Ok in H as (r' & Hr & H). apply Ok_inj in H as <-.
  destruct (IH r' Hr) as [Hi Hf]. split; [|constructor; [by rewrite Hb|done]].
  intros y. destruct b; rewrite ?list.elem_of_cons, Hi; split.
  - intros [->|[? ?]]; [split; [by left|done]|split; [by right|done]].
  - intros [[->|?] ?]; [by left|right; done].
  - intros [? ?]. split; [by right|done].
  - intros [[->|?] Hy]; [by rewrite Hb in Hy|done].
Qed.

(** A sample ran under a quota of [n] millicores: the quota over the period,
    rounded. *)
Definition quota_of (s : PilotSample) (n : Z) : Prop :=
  exists quota period x, ps_quota_us s = Some quota /\ ps_period_us s = Some period /\ 0 < quota /\ 0 < period /\
    truediv (1000 * quota) period = Ok x /\ round_int x = Ok n.
(** The share of its periods that were throttled. *)
Definition ratio_of (s : PilotSample) (ratio : float) : Prop :=
  0 < ps_periods s /\ 0 <= ps_throttled_periods s <= ps_periods s /\ truediv (ps_throttled_periods s) (ps_periods s) = Ok ratio.
(** A sample that supports the low value [n]: its ratio is from 10 to 40 percent. *)
Definition supports (w : string) (s : PilotSample) (n : Z) (ratio : float) : Prop :=
  ps_workload s = w /\ quota_of s n /\ ratio_of s ratio /\ fleb (flit 10 100) ratio = true /\ fleb ratio (flit 40 100) = true.

Lemma millicores_spec s n : millicores s = Ok (Some n) <-> quota_of s n.
Proof.
  unfold millicores, quota_of. destruct (ps_quota_us s) as [quota|]; [|split; [done|by intros (? & ? & ? & ? & _)]].
  destruct (ps_period_us s) as [period|]; [|split; [done|by intros (? & ? & ? & ? & ? & _)]].
  destruct (Z.leb_spec period 0) as [Hp|Hp]; [split; [done|intros (? & ? & ? & [= <-] & [= <-] & _ & ? & _); lia]|].
  unfold raise_if. destruct (Z.leb_spec quota 0) as [Hq|Hq]; [split; [done|intros (? & ? & ? & [= <-] & [= <-] & ? & _); lia]|].
  cbn [rbind]. split.
  - intros (x & Hx & (k & Hk & [= <-])%rbind_Ok)%rbind_Ok. exists quota, period, x. by split_and!.
  - intros (? & ? & x & [= <-] & [= <-] & _ & _ & -> & Hk). cbn [rbind]. by rewrite Hk.
Qed.
Lemma throttled_ratio_spec s ratio : throttled_ratio s = Ok ratio <-> ratio_of s ratio.
Proof.
  unfold throttled_ratio, ratio_of, raise_if. destruct (Z.leb_spec (ps_periods s) 0) as [H1|H1]; [split; [done|lia]|]. cbn [rbind].
  destruct (Z.ltb_spec (ps_throttled_periods s) 0) as [H2|H2]; cbn [orb]; [split; [done|lia]|].
  destruct (Z.ltb_spec (ps_periods s) (ps_throttled_periods s)) as [H3|H3]; cbn [rbind]; [split; [done|lia]|].
  split; [intros H; split_and!; done || lia|tauto].
Qed.
Lemma in_band_spec ratio : in_band ratio = true <-> fleb (flit 10 100) ratio = true /\ fleb ratio (flit 40 100) = true.
Proof. unfold in_band, THROTTLE_MIN, THROTTLE_MAX. apply andb_true_iff. Qed.

Definition distance (ratio : float) : float := fabs (fsub ratio THROTTLE_TARGET).

Lemma low_candidate_Ok s : low_candidate s = Ok true <-> exists n ratio, supports (ps_workload s) s n ratio.
Proof.
  unfold low_candidate, supports. setoid_rewrite <- millicores_spec. setoid_rewrite <- throttled_ratio_spec.
  setoid_rewrite <- in_band_spec. destruct (millicores s) as [[n|]|e]; cbn [rbind].
  2,3: split; [done|]; by intros (n & r & _ & ? & _).
  destruct (throttled_ratio s) as [ratio|e]; cbn [rbind].
  - split; [intros [= H]; by exists n, ratio|]. by intros (n' & r & _ & _ & [= <-] & ->).
  - split; [done|]. by intros (n' & r & _ & _ & ? & _).
Qed.

Lemma key_less_irrefl a : key_less a a = false.
Proof.
  destruct a as [x i]. unfold key_less. cbn [fst snd]. destruct (feqb x x); [apply Z.ltb_irrefl|].
  destruct (fltb x x) eqn:E; [|done]. destruct (flt_not_eq x x E) as [_ ?]. congruence.
Qed.

(** What does not beat the best of some does not beat the best of more. *)
Lemma fold_better_keeps a ks : forall k,
  key_less a (fst k) = false -> key_less a (fst (fold_left better ks k)) = false.
Proof.
  induction ks as [|k' ks IH]; intros k Ha; [done|]. apply IH. unfold better.
  destruct (key_less (fst k') (fst k)) eqn:E; [|done]. apply not_true_is_false. intros Hlt.
  by rewrite (key_less_trans _ _ _ Hlt E) in Ha.
Qed.

Lemma fold_better ks : forall k,
  fold_left better ks k ∈ k :: ks /\
  Forall (fun x => key_less (fst x) (fst (fold_left better ks k)) = false) (k :: ks).
Proof.
  induction ks as [|k' ks IH]; intros k; cbn [fold_left].
  { split; [left|]. constructor; [apply key_less_irrefl|constructor]. }
  destruct (IH (better k k')) as [Hin Hle]. apply Forall_cons_iff in Hle as [_ Hle]. split.
  - apply list.elem_of_cons in Hin as [->|?]; [|by right; right].
    unfold better. destruct (key_less _ _); [right; left|left].
  - constructor; [|constructor; [|done]]; apply fold_better_keeps; unfold better;
      destruct (key_less (fst k') (fst k)) eqn:E; try done; try apply key_less_irrefl.
    apply not_true_is_false. intros Hlt. pose proof (key_less_trans _ _ _ Hlt E) as Hkk.
    by rewrite key_less_irrefl in Hkk.
Qed.

Lemma choose_low_Ok s rest c : choose_low s rest = Ok c ->
  c ∈ s :: rest /\ exists k, low_key c = Ok k /\
    forall x kx, x ∈ s :: rest -> low_key x = Ok kx -> key_less kx k = false.
Proof.
  unfold choose_low. intros H. apply rbind_Ok in H as (keyed & Hk & H). apply mapM_Ok in Hk.
  assert (Forall2 (fun x kx => low_key x = Ok (fst kx) /\ snd kx = x) (s :: rest) keyed) as Hf.
  { eapply Forall2_impl; [exact Hk|]. intros x kx Hx. by apply rbind_Ok in Hx as (k & E & [= <-]). }
  destruct keyed as [|k ks]; [by inversion Hf|]. apply Ok_inj in H as <-.
  destruct (fold_better ks k) as [Hin Hle]. set (best := fold_left better ks k) in *.
  apply Forall2_flip in Hf. destruct (Forall2_elem_l _ _ _ _ Hf Hin) as (x & Hx & Ek & ->).
  split; [done|]. exists (fst best). split; [done|]. intros y ky Hy Eky.
  apply Forall2_flip in Hf. destruct (Forall2_elem_l _ _ _ _ Hf Hy) as (kx & Hkx & E & _).
  rewrite Eky in E. injection E as ->. rewrite Forall_forall in Hle. by apply Hle.
Qed.

Lemma max_fold ns : forall n, fold_left Z.max ns n ∈ n :: ns /\ Forall (fun m => m <= fold_left Z.max ns n) (n :: ns).
Proof.
  induction ns as [|m ns IH]; intros n; cbn [fold_left]; [split; [left|repeat constructor; lia]|].
  destruct (IH (Z.max n m)) as [Hin Hle]. apply Forall_cons_iff in Hle as [Hm Hle]. split.
  - apply list.elem_of_cons in Hin as [->|?]; [|by right; right]. destruct (Z.max_spec n m) as [[_ ->]|[_ ->]]; [right|]; left.
  - repeat (constructor; [lia|]). done.
Qed.

(** A quota that a sample of the policy [fit] ran under. *)
Definition fit_quota (w : string) (samples : list PilotSample) (n : Z) : Prop :=
  exists s, s ∈ samples /\ ps_workload s = w /\ ps_policy s = "fit" /\ quota_of s n /\ n <> 0.
(** The fit value: the largest such quota, and the default only if there is none. *)
Definition fit_of (w : string) (samples : list PilotSample) (default_fit fit : Z) : Prop :=
  (fit_quota w samples fit /\ forall n, fit_quota w samples n -> n <= fit) \/
  ((forall n, ~ fit_quota w samples n) /\ fit = default_fit).

Lemma fit_candidate_Ok s : fit_candidate s = Ok true <->
  ps_policy s = "fit" /\ exists n, millicores s = Ok (Some n) /\ n <> 0.
Proof.
  unfold fit_candidate. destruct (String.eqb_spec (ps_policy s) "fit") as [Hp|Hp]; [|split; [done|by intros [? _]]].
  destruct (millicores s) as [[n|]|e]; cbn [rbind].
  - split.
    + intros [= H]. apply negb_true_iff, Z.eqb_neq in H. split; [done|]. by exists n.
    + intros (_ & m & [= <-] & Hm). f_equal. by apply negb_true_iff, Z.eqb_neq.
  - split; [done|]. by intros (_ & m & ? & _).
  - split; [done|]. by intros (_ & m & ? & _).
Qed.

Lemma of_workload w samples s :
  s ∈ List.filter (fun s => String.eqb (ps_workload s) w) samples <-> s ∈ samples /\ ps_workload s = w.
Proof. rewrite !list_elem_of_In, List.filter_In, String.eqb_eq. done. Qed.

Lemma fit_of_candidates w samples candidates ms d :
  filterM fit_candidate (List.filter (fun s => String.eqb (ps_workload s) w) samples) = Ok candidates ->
  mapM millicores candidates = Ok ms ->
  fit_of w samples d (match omap id ms with [] => d | n :: ns => fold_left Z.max ns n end).
Proof.
  intros [Hc _]%filterM_Ok Hm%mapM_Ok.
  assert (forall n, n ∈ omap id ms <-> exists s, s ∈ candidates /\ millicores s = Ok (Some n)) as Hn.
  { intros n. rewrite list_elem_of_omap. split.
    - intros (o & Ho & E). unfold id in E. subst o. apply Forall2_flip in Hm.
      destruct (Forall2_elem_l _ _ _ _ Hm Ho) as (s & Hs & E). eauto.
    - intros (s & Hs & E). destruct (Forall2_elem_l _ _ _ _ Hm Hs) as (o & Ho & E').
      rewrite E in E'. injection E' as <-. by exists (Some n). }
  assert (forall n, n ∈ omap id ms <-> fit_quota w samples n) as Hq.
  { intros n. rewrite Hn. unfold fit_quota. split; intros (s & Hs); exists s; revert Hs; rewrite Hc, of_workload, fit_candidate_Ok, <- millicores_spec.
    - intros [((H1 & H2) & H3 & m & E & Hm') E']. rewrite E' in E. injection E as <-. by split_and!.
    - intros (H1 & H2 & H3 & E & Hm'). split_and!; try done. by exists n. }
  destruct (omap id ms) as [|n ns].
  - right. split; [|done]. intros n Hf. apply (not_elem_of_nil n). by apply Hq.
  - left. destruct (max_fold ns n) as [Hin Hle]. split; [by apply Hq|]. intros m Hm'. rewrite Forall_forall in Hle. by apply Hle, Hq.
Qed.

(** C31: What is frozen.  A [PASS] has a low value that a sample of the workload
    supports with a throttled ratio in the band; no other supporting sample is
    nearer to the target, nor as near with fewer millicores; and the fit value
    is the largest quota of the [fit] samples of the workload, or the default when
    none of them ran under a quota.  A [FAIL] keeps both
    defaults, and no sample supports any low value. *)
Theorem freeze_values_sound w samples p :
  freeze_values w samples = Ok p ->
  exists fit low, cpu_values w = Ok (fit, low) /\ fp_workload p = w /\
  ((fp_status p = "PASS" /\ fp_limitation p = None /\ fit_of w samples fit (fp_fit_millicores p) /\
    exists s ratio, s ∈ samples /\ supports w s (fp_low_millicores p) ratio /\
      forall s' n r, s' ∈ samples -> supports w s' n r ->
        key_less (distance r, n) (distance ratio, fp_low_millicores p) = false) \/
   (fp_status p = "FAIL" /\ fp_fit_millicores p = fit /\ fp_low_millicores p = low /\
    forall s n r, s ∈ samples -> ~ supports w s n r)).
Proof.
  unfold freeze_values. intros H. apply rbind_Ok in H as (u & _ & H). apply rbind_Ok in H as ([fit low] & Hv & H).
  apply rbind_Ok in H as (fcs & Hfc & H). apply rbind_Ok in H as (ms & Hms & H).
  apply rbind_Ok in H as (evidence & _ & H). apply rbind_Ok in H as (lcs & Hlc & H).
  apply filterM_Ok in Hlc as [Hlc _]. exists fit, low. split; [done|].
  assert (forall s n r, s ∈ samples -> supports w s n r -> s ∈ lcs) as Hin.
  { intros s n r Hs Hsup. apply Hlc. pose proof Hsup as [Hw _]. split; [by apply of_workload|].
    apply low_candidate_Ok. rewrite Hw. eauto. }
  destruct lcs as [|s rest].
  - apply Ok_inj in H as <-. split; [done|]. right. repeat split. intros s n r Hs Hsup.
    by apply Hin, not_elem_of_nil in Hsup.
  - apply rbind_Ok in H as (chosen & Hch & H). apply rbind_Ok in H as ([n|] & Hn & H); [|done].
    apply Ok_inj in H as <-. cbn [fp_workload fp_status fp_limitation fp_fit_millicores fp_low_millicores].
    split; [done|]. left. split; [done|]. split; [done|]. split; [by eapply fit_of_candidates|].
    apply choose_low_Ok in Hch as (Hc & k & Hk & Hbest). pose proof Hc as Hc'. apply Hlc in Hc' as [Hw Hcand].
    apply of_workload in Hw as [Hcs Hw]. apply low_candidate_Ok in Hcand as (n' & ratio & _ & Hm & Hr & Hb).
    pose proof Hm as Hm'. apply millicores_spec in Hm'. rewrite Hn in Hm'. injection Hm' as <-.
    exists chosen, ratio. split; [done|]. split; [done|].
    assert (forall x m r, quota_of x m -> ratio_of x r -> low_key x = Ok (distance r, m)) as Hkey.
    { intros x m r E1%millicores_spec E2%throttled_ratio_spec. unfold low_key. by rewrite E2, E1. }
    rewrite (Hkey chosen n ratio Hm Hr) in Hk. injection Hk as <-.
    intros s' m r Hs' Hsup. pose proof Hsup as (_ & Hm' & Hr' & _).
    eapply Hbest; [by eapply Hin|by apply Hkey].
Qed.

(** ** A sample without an elapsed period *)

Lemma throttled_ratio_idle s : ps_periods s <= 0 ->
  throttled_ratio s = value_error "nr_periods must be positive for calibration".
Proof. intros H. unfold throttled_ratio. by rewrite (proj2 (Z.leb_le _ _) H). Qed.

Lemma freeze_values_idle w samples s n p :
  s ∈ samples -> ps_workload s = w -> millicores s = Ok (Some n) -> ps_periods s <= 0 -> freeze_values w samples <> Ok p.
Proof.
  intros Hs Hw Hm Hp H. unfold freeze_values in H. apply rbind_Ok in H as (u & _ & H).
  apply rbind_Ok in H as ([fit low] & _ & H). apply rbind_Ok in H as (fcs & _ & H). apply rbind_Ok in H as (ms & _ & H).
  apply rbind_Ok in H as (evidence & _ & H). apply rbind_Ok in H as (lcs & Hlc & H).
  apply filterM_Ok in Hlc as [_ Hlc]. rewrite Forall_forall in Hlc.
  specialize (Hlc s (proj2 (of_workload w samples s) (conj Hs Hw))). unfold low_candidate in Hlc.
  by rewrite Hm, throttled_ratio_idle in Hlc.
Qed.

Lemma failed_policies_FAIL msg ws ps : mapM (failed_policy msg) ws = Ok ps ->
  Forall (fun p => fp_status p = "FAIL" /\ fp_evidence p = []) ps.
Proof.
  intros H%mapM_Ok. induction H as [|w p ws ps Hp _ IH]; constructor; [|done].
  unfold failed_policy in Hp. apply rbind_Ok in Hp as ([fit low] & _ & [= <-]). done.
Qed.

(** One idle sample discards the whole calibration.  The evidence of a sample
    with a finite quota and no elapsed period is a record of status [invalid],
    but the choice of the low value then raises on the same sample: if the
    program goes on at all, every workload fails, and no evidence is kept. *)
Theorem idle_sample_discards_calibration cgroups blocks samples s n ps :
  read_pilot_samples cgroups blocks = Ok samples -> s ∈ samples -> ps_workload s ∈ WORKLOADS ->
  millicores s = Ok (Some n) -> ps_periods s <= 0 -> calibrate cgroups blocks = Ok ps ->
  (exists ev, evidence_of s = Ok ev /\ dget "status" ev = Some (VStr "invalid")) /\
  Forall (fun p => fp_status p = "FAIL" /\ fp_evidence p = []) ps.
Proof.
  intros Hread Hs Hw Hm Hp Hc. split.
  { eexists. unfold evidence_of. rewrite throttled_ratio_idle by done. cbn. split; [reflexivity|reflexivity]. }
  unfold calibrate in Hc. rewrite Hread in Hc. cbn [rbind] in Hc.
  destruct (mapM _ WORKLOADS) as [ps'|e] eqn:E.
  - exfalso. apply mapM_Ok in E. destruct (Forall2_elem_l _ _ _ _ E Hw) as (p & _ & Hf).
    by eapply (freeze_values_idle _ _ s n p).
  - destruct (caught_by _ e); [|done]. by eapply failed_policies_FAIL.
Qed.

(** ** Sample files *)

Definition sample_line (cell window level key value : string) : list string := ["1"; cell; window; level; key; value].
Definition sample_cgroups (periods throttled : string) : csv_stream :=
  let c := "solo-cpu-bound-burstable-low" in
  Ok (text_lines (csv_write
    [["block_id"; "cell_id"; "window"; "level"; "key"; "value"];
     sample_line c "measurement_delta" "container_scope" "cpu.stat.nr_periods" periods;
     sample_line c "measurement_delta" "container_scope" "cpu.stat.nr_throttled" throttled;
     sample_line c "start" "container_scope" "cpu.max.quota" "50000";
     sample_line c "end" "container_scope" "cpu.max.period" "100000"]), None).
Definition sample_blocks : csv_stream :=
  Ok (text_lines (csv_write
    [["block_id"; "cell_id"; "workload"; "policy"; "status"];
     ["1"; "solo-cpu-bound-burstable-low"; "cpu-bound"; "burstable-low"; "complete"];
     ["2"; "solo-cpu-bound-burstable-low"; "cpu-bound"; "burstable-low"; "failed"]]), None).

Definition sample_of (periods throttled : Z) : PilotSample :=
  {| ps_block_id := "1"; ps_cell_id := "solo-cpu-bound-burstable-low"; ps_level := "container_scope";
     ps_workload := "cpu-bound"; ps_policy := "burstable-low"; ps_quota_us := Some 50000; ps_period_us := Some 100000;
     ps_periods := periods; ps_throttled_periods := throttled |}.

Lemma freeze_values_sound_witness :
  exists p, freeze_values "cpu-bound" [sample_of 100 33] = Ok p /\ fp_status p = "PASS" /\ fp_low_millicores p = 500 /\
  exists s ratio, s ∈ [sample_of 100 33] /\ supports "cpu-bound" s (fp_low_millicores p) ratio.
Proof.
  eexists. split; [vm_compute; reflexivity|]. split; [done|]. split; [done|].
  destruct (freeze_values_sound "cpu-bound" [sample_of 100 33] _ ltac:(vm_compute; reflexivity))
    as (fit & low & _ & _ & [(_ & _ & _ & s & ratio & Hs & Hsup & _)|(Hst & _)]); [|discriminate Hst].
  exists s, ratio. by split.
Defined.

Lemma idle_sample_discards_calibration_witness :
  exists ps, calibrate (sample_cgroups "0" "0") sample_blocks = Ok ps /\ length ps = 4%nat /\
  Forall (fun p => fp_status p = "FAIL" /\ fp_evidence p = []) ps.
Proof.
  destruct (calibrate (sample_cgroups "0" "0") sample_blocks) as [ps|e] eqn:E; [|vm_compute in E; discriminate E].
  exists ps. split; [done|]. split; [vm_compute in E; injection E as <-; reflexivity|].
  refine (proj2 (idle_sample_discards_calibration (sample_cgroups "0" "0") sample_blocks [sample_of 0 0] (sample_of 0 0) 500 ps _ _ _ _ _ E)).
  - vm_compute. reflexivity.
  - left.
  - apply mem_string_spec. vm_compute. reflexivity.
  - vm_compute. reflexivity.
  - cbn. lia.
Defined.
