(* ===== verification/PilotData.v ===== *)
(** From the cell runner to the frozen policies: the rows that [run-cell.py]
    stores are what [freeze_policies.py] reads. *)

From Stdlib Require Import ZArith Bool Ascii String Lia SpecFloat.
From stdpp Require Import base list strings option pretty gmap.
From S2P Require Import Prelude Eff PyStr PyFloat PyVal Json PyConv PyCsv PyDict World Files Probe Design Workloads CellRun CellRunThm CellComplete FreezePolicies StoredRows.

Open Scope string_scope.
Open Scope Z_scope.

Lemma open_rows_file cols missing names rows :
  fitting (names :: rows) -> forallb (fun c => mem_string c names) cols = true ->
  open_rows cols missing (csv_file (names :: rows)) = Ok (zip_row names <$> rows, None).
Proof.
  intros Hf Hc. unfold open_rows, csv_file. cbn [rbind].
  rewrite csv_file_rows, Hc by done. cbn.
  apply Forall_cons_iff in Hf as [_ Hf]. by rewrite dict_rows_all.
Qed.

(** ** The observations of one cell *)

(** The value of a row that counts for a level and a key. *)
Definition hit (level key : string) (r : cgroup_row) : option string :=
  if String.eqb (cg_level r) level && String.eqb (cg_key r) key && wanted key (cg_window r) then Some (cg_value r) else None.
(** The last one counts. *)
Definition observed (rows : list cgroup_row) (level key : string) : option string := list.last (omap (hit level key) rows).

Definition readable (r : cgroup_row) : Prop := wanted (cg_key r) (cg_window r) = true -> plain_text (cg_value r).

Lemma required_plain row key v : row_get key row = Some (Some v) -> plain_text v -> required row key = Ok v.
Proof. intros H [Hs He]. unfold required. rewrite H. cbn [rbind]. by rewrite Hs, He. Qed.

Section OneCell.
Context (args : cell_args) (cell : Cell).
Let b := str_of_Z (ca_block_id args).
Let c := cell_id cell.

Lemma cgroup_line_step workloads values r : assoc_has (b, c) workloads = true -> readable r ->
  cgroup_row_step workloads values (zip_row CGROUP_COLUMNS (cgroup_line args cell r)) =
  Ok (if mem_string (cg_level r) LEVELS && wanted (cg_key r) (cg_window r)
      then <[(b, c, cg_level r, cg_key r) := cg_value r]> values else values).
Proof.
  intros Ha Hr. set (row := zip_row CGROUP_COLUMNS (cgroup_line args cell r)).
  assert (row_get "block_id" row = Some (Some b) /\ row_get "cell_id" row = Some (Some c) /\
    row_get "level" row = Some (Some (cg_level r)) /\ row_get "key" row = Some (Some (cg_key r)) /\
    row_get "window" row = Some (Some (cg_window r)) /\ row_get "value" row = Some (Some (cg_value r)))
    as (H1 & H2 & H3 & H4 & H5 & H6) by (repeat split; reflexivity).
  unfold cgroup_row_step, cell_text. rewrite H1, H2, Ha, H3, H4, H5. cbn [negb].
  destruct (mem_string (cg_level r) LEVELS); [|done]. cbn [andb].
  destruct (wanted (cg_key r) (cg_window r)) eqn:Hw; [|done].
  by rewrite (required_plain row "value" (cg_value r) H6 (Hr Hw)).
Qed.

Lemma observed_cons r rows level key :
  observed (r :: rows) level key = match observed rows level key with Some v => Some v | None => hit level key r end.
Proof. apply last_cons_hit. Qed.

Lemma cgroup_lines_fold workloads rows : assoc_has (b, c) workloads = true -> Forall readable rows ->
  forall values, exists values',
    foldM (cgroup_row_step workloads) values (zip_row CGROUP_COLUMNS <$> (cgroup_line args cell <$> rows)) = Ok values' /\
    forall level key, level ∈ LEVELS ->
      values' !! (b, c, level, key) = match observed rows level key with Some v => Some v | None => values !! (b, c, level, key) end.
Proof.
  intros Ha. induction 1 as [|r rows Hr _ IH]; intros values; [by exists values|].
  cbn [fmap list_fmap foldM]. rewrite (cgroup_line_step _ _ _ Ha Hr). cbn [rbind].
  destruct (IH (if mem_string (cg_level r) LEVELS && wanted (cg_key r) (cg_window r)
      then <[(b, c, cg_level r, cg_key r) := cg_value r]> values else values)) as (values' & E & Hv).
  exists values'. split; [exact E|]. intros level key Hl. rewrite (Hv level key Hl), observed_cons.
  destruct (observed rows level key); [done|]. unfold hit.
  destruct (String.eqb_spec (cg_level r) level) as [<-|Hne]; cbn [andb].
  - rewrite (proj2 (mem_string_spec _ _) Hl). cbn [andb].
    destruct (String.eqb_spec (cg_key r) key) as [<-|Hne]; cbn [andb].
    + destruct (wanted _ _); [|done]. by rewrite lookup_insert_eq.
    + destruct (wanted _ _); [|done]. rewrite lookup_insert_ne; [done|]. congruence.
  - destruct (_ && _); [|done]. rewrite lookup_insert_ne; [done|]. congruence.
Qed.

(** The workloads of a file with one complete cell. *)
Lemma one_block_workloads r : cell ∈ CELLS -> 0 <= ca_block_id args -> cr_status r = "complete" ->
  fitting [BLOCK_COLUMNS; block_line args cell r] ->
  workloads_by_cell (csv_file [BLOCK_COLUMNS; block_line args cell r]) = Ok [((b, c), (workload cell, policy cell))].
Proof.
  intros Hcell Hb Hs Hf. unfold workloads_by_cell.
  rewrite open_rows_file by (done || reflexivity). cbn [rbind]. unfold over_rows. cbn [fst snd fmap list_fmap foldM].
  set (row := zip_row BLOCK_COLUMNS (block_line args cell r)).
  assert (row_get "block_id" row = Some (Some b) /\ row_get "cell_id" row = Some (Some c) /\
    row_get "workload" row = Some (Some (workload cell)) /\ row_get "policy" row = Some (Some (policy cell)) /\
    row_get "status" row = Some (Some (cr_status r))) as (H1 & H2 & H3 & H4 & H5) by (repeat split; reflexivity).
  assert (Forall (fun cell => plain_text (cell_id cell) /\ plain_text (workload cell) /\ plain_text (policy cell) /\
    mem_string (workload cell) WORKLOADS = true) CELLS) as Hall.
  { apply (bool_decide_unpack _). vm_compute. exact I. }
  rewrite Forall_forall in Hall. destruct (Hall cell Hcell) as (P1 & P2 & P3 & P4).
  pose proof (str_of_Z_plain _ Hb) as P0. fold b in P0.
  unfold block_row, cell_text. rewrite H5, Hs. cbn [negb]. rewrite bool_decide_true by done. cbn [negb].
  rewrite (required_plain row _ _ H1 P0), (required_plain row _ _ H2 P1), (required_plain row _ _ H3 P2),
    (required_plain row _ _ H4 P3). cbn [rbind]. rewrite P4. done.
Qed.

(** The samples of a written pair of files. *)
Lemma read_written r rows : cell ∈ CELLS -> 0 <= ca_block_id args -> cr_status r = "complete" ->
  fitting [BLOCK_COLUMNS; block_line args cell r] -> fitting (CGROUP_COLUMNS :: (cgroup_line args cell <$> rows)) ->
  Forall readable rows ->
  read_pilot_samples (csv_file (CGROUP_COLUMNS :: (cgroup_line args cell <$> rows)))
    (csv_file [BLOCK_COLUMNS; block_line args cell r]) =
  let* s := level_sample (observed rows) b c (workload cell) (policy cell) LEVELS in
  Ok (match s with Some s => [s] | None => [] end).
Proof.
  intros Hcell Hb Hs Hf1 Hf2 Hr. unfold read_pilot_samples. rewrite one_block_workloads by done. cbn [rbind].
  rewrite open_rows_file by (done || reflexivity). cbn [rbind]. unfold over_rows. cbn [fst snd].
  destruct (cgroup_lines_fold [((b, c), (workload cell, policy cell))] rows) with (values := ∅ : observations)
    as (values & -> & Hv); [|done|].
  { cbn. by rewrite bool_decide_true. }
  cbn [rbind mapM cell_sample].
  assert (forall levels, levels ⊆ LEVELS ->
    level_sample (fun level key => values !! (b, c, level, key)) b c (workload cell) (policy cell) levels =
    level_sample (observed rows) b c (workload cell) (policy cell) levels) as Hlev.
  { induction levels as [|level levels IH]; intros Hl; [done|]. cbn [level_sample].
    assert (level ∈ LEVELS) as Hin by (apply Hl; left).
    assert (forall key, values !! (b, c, level, key) = observed rows level key) as E.
    { intros key. rewrite (Hv level key Hin). rewrite lookup_empty. by destruct (observed rows level key). }
    rewrite !E, IH; [done|]. intros x Hx. apply Hl. by right. }
  rewrite Hlev by done. destruct (level_sample _ _ _ _ _ _) as [[s|]|e]; done.
Qed.
End OneCell.

(** ** The rows of two records *)

Lemma hit_unwanted level key r : wanted key (cg_window r) = false -> hit level key r = None.
Proof. intros H. unfold hit. by rewrite H, andb_false_r. Qed.

Lemma no_hits level key rows : Forall (fun r => wanted key (cg_window r) = false) rows -> omap (hit level key) rows = [].
Proof. induction 1 as [|r rows Hr _ IH]; [done|]. cbn [omap list_omap]. by rewrite (hit_unwanted _ _ _ Hr). Qed.

(** In one window the rows count or they do not. *)
Lemma hits_keyed w level key rows : Forall (fun r => cg_window r = w) rows ->
  omap (hit level key) rows = if wanted key w then omap (keyed level key) rows else [].
Proof.
  induction 1 as [|r rows Hr _ IH]; [by destruct (wanted key w)|]. cbn [omap list_omap]. rewrite IH. unfold hit, keyed.
  rewrite Hr. by destruct (String.eqb (cg_level r) level), (String.eqb (cg_key r) key), (wanted key w).
Qed.

Definition limit_text (key : string) (level : pydict) : string :=
  if String.eqb key "cpu.max.quota" then quota_text level else period_text level.

Lemma limit_snapshot key l : key ∈ LIMIT_KEYS -> key ∈ SNAPSHOT_KEYS /\ snapshot_text key l = limit_text key l.
Proof.
  unfold LIMIT_KEYS. intros [->|[->|[]%not_elem_of_nil]%list.elem_of_cons]%list.elem_of_cons;
    (split; [apply mem_string_spec; reflexivity|reflexivity]).
Qed.

Lemma wanted_limit key w : key ∈ LIMIT_KEYS -> mem_string w ["start"; "end"] = true -> wanted key w = true.
Proof.
  unfold LIMIT_KEYS, wanted. intros [->|[->|[]%not_elem_of_nil]%list.elem_of_cons]%list.elem_of_cons Hw; exact Hw.
Qed.

Definition PERIOD_COUNTERS : list string := ["nr_periods"; "nr_throttled"].
Lemma period_counter k : k ∈ PERIOD_COUNTERS ->
  k ∈ CPU_STAT_KEYS /\ wanted ("cpu.stat." +:+ k) "measurement_delta" = true /\
  wanted ("cpu.stat." +:+ k) "start" = false /\ wanted ("cpu.stat." +:+ k) "end" = false.
Proof.
  unfold PERIOD_COUNTERS. intros [->|[->|[]%not_elem_of_nil]%list.elem_of_cons]%list.elem_of_cons;
    (split; [apply mem_string_spec; reflexivity|done]).
Qed.

Lemma limit_text_plain key l : typed_level l = true -> plain_text (limit_text key l).
Proof.
  intros [Hq (n & Hp & _ & Hn)]%typed_level_limits. unfold limit_text. destruct (String.eqb key "cpu.max.quota").
  - destruct Hq as [[-> _]|(m & -> & _ & Hm)]; [by split; vm_compute|by apply str_of_Z_plain].
  - rewrite Hp. apply str_of_Z_plain. lia.
Qed.

Lemma as_int_str n key : 0 <= n -> as_int (str_of_Z n) key = Ok n.
Proof. intros H. unfold as_int. rewrite py_int_str_of_Z by done. by rewrite raise_if_false by by apply Z.ltb_ge. Qed.

Lemma str_of_Z_not_max n : 0 <= n -> String.eqb (str_of_Z n) "max" = false.
Proof.
  intros H. apply String.eqb_neq. intros E. pose proof (py_int_str_of_Z n H) as Hp. rewrite E in Hp. discriminate Hp.
Qed.

Lemma limits_read l : typed_level l = true ->
  (if String.eqb (quota_text l) "max" then Ok None
   else let* n := as_int (quota_text l) "cpu.max.quota" in Ok (Some n)) = Ok (level_quota l) /\
  (if is_empty (period_text l) then Ok None
   else let* n := as_int (period_text l) "cpu.max.period" in Ok (Some n)) = Ok (level_period l).
Proof.
  intros [Hq (n & Hp & Hp' & Hn)]%typed_level_limits. split.
  - destruct Hq as [[-> ->]|(m & -> & -> & Hm)]; [done|]. by rewrite str_of_Z_not_max, as_int_str.
  - rewrite Hp, Hp', (proj2 (str_of_Z_plain n ltac:(lia))), as_int_str by lia. done.
Qed.

(** Rows are readable when the observations are. *)
Lemma readable_hits rows : (forall K key, Forall plain_text (omap (hit K key) rows)) -> Forall readable rows.
Proof.
  intros H. apply Forall_forall. intros r Hr Hw. specialize (H (cg_level r) (cg_key r)). rewrite Forall_forall in H.
  apply H. apply list_elem_of_omap. exists r. split; [done|]. unfold hit. by rewrite !String.eqb_refl, Hw.
Qed.

Lemma concat_hits {A} (f : cgroup_row -> option string) (q : A -> bool) ls rss :
  Forall2 (fun l rs => exists x, plain_text x /\ omap f rs = if q l then [x] else []) ls rss ->
  Forall plain_text (omap f (concat rss)).
Proof.
  induction 1 as [|l rs ls rss (x & Hx & E) _ IH]; [constructor|]. cbn [concat]. rewrite omap_app, E.
  apply Forall_app. split; [|done]. destruct (q l); [apply Forall_singleton; done|apply Forall_nil; done].
Qed.

Lemma wanted_key key w : wanted key w = true ->
  w = "measurement_delta" /\ key ∈ DELTA_KEYS \/ mem_string w ["start"; "end"] = true /\ key ∈ LIMIT_KEYS.
Proof.
  unfold wanted. destruct (mem_string key DELTA_KEYS) eqn:E.
  - intros ->%String.eqb_eq. left. split; [done|]. by apply mem_string_spec.
  - intros [Hk Hw]%andb_true_iff. right. split; [done|]. by apply mem_string_spec.
Qed.

Section TwoRecords.
Context (before after : pydict) (bl al : list pydict) (a b d : list cgroup_row).
Hypothesis before_levels : levels before = Ok bl.
Hypothesis after_levels : levels after = Ok al.
Hypothesis before_typed : typed_record before = true.
Hypothesis after_typed : typed_record after = true.
Hypothesis before_rows : cgroup_rows before "start" = Ok a.
Hypothesis after_rows : cgroup_rows after "end" = Ok b.
Hypothesis difference : delta_rows before after = Ok d.

Lemma snapshot_hits record ls w rows key K :
  levels record = Ok ls -> typed_record record = true -> cgroup_rows record w = Ok rows ->
  mem_string w ["start"; "end"] = true -> key ∈ LIMIT_KEYS ->
  match last_of K ls with
  | Some l => list.last (omap (hit K key) rows) = Some (limit_text key l)
  | None => omap (hit K key) rows = []
  end.
Proof.
  intros Hl Ht Hr Hw Hk. rewrite (hits_keyed w), wanted_limit by (done || by eapply cgroup_rows_window).
  pose proof (snapshot_keyed record ls w rows key K Hl Ht Hr (proj1 (limit_snapshot key record Hk))) as H.
  destruct (last_of K ls) as [l|]; [|done]. by rewrite H, (proj2 (limit_snapshot key l Hk)).
Qed.

Lemma delta_hits k K : k ∈ PERIOD_COUNTERS ->
  match last_of K al with
  | Some l => exists n, list.last (omap (hit K ("cpu.stat." +:+ k)) d) = Some (str_of_Z n) /\ grown (by_path bl) k l n
  | None => omap (hit K ("cpu.stat." +:+ k)) d = []
  end.
Proof.
  intros (Hk & Hw & _)%period_counter.
  rewrite (hits_keyed "measurement_delta"), Hw by exact (delta_rows_window before after bl al d before_levels after_levels difference).
  exact (delta_keyed before after bl al d before_levels after_levels difference k K Hk).
Qed.

(** All rows are readable. *)
Lemma snapshot_readable record ls w rows :
  levels record = Ok ls -> typed_record record = true -> cgroup_rows record w = Ok rows ->
  mem_string w ["start"; "end"] = true -> Forall readable rows.
Proof.
  intros Hl Ht Hr Hw. apply readable_hits. intros K key. rewrite (hits_keyed w) by by eapply cgroup_rows_window.
  destruct (wanted key w) eqn:Hwant; [|constructor]. apply wanted_key in Hwant as [[-> _]|[_ Hkey]]; [done|].
  pose proof (typed_levels record ls Hl Ht) as Hall. destruct (snapshot_level_rows record ls w rows Hl Hr) as (t & rss & Hm & ->).
  apply (concat_hits _ (kind_is K) ls). clear -Hm Hall Hkey.
  induction Hm as [|l rs ls rss E _ IH]; [constructor|]. apply Forall_cons_iff in Hall as [Hl Hall].
  destruct (limit_snapshot key l Hkey) as [Hk Hs]. constructor; [|by apply IH]. exists (limit_text key l).
  split; [by apply limit_text_plain|]. by rewrite (level_rows_keyed t w l rs key Hl E Hk K), Hs.
Qed.

Lemma delta_readable : Forall readable d.
Proof.
  apply readable_hits. intros K key.
  rewrite (hits_keyed "measurement_delta") by exact (delta_rows_window before after bl al d before_levels after_levels difference).
  destruct (wanted key "measurement_delta") eqn:Hwant; [|constructor].
  assert (exists k, k ∈ PERIOD_COUNTERS /\ key = "cpu.stat." +:+ k) as (k & Hk & ->).
  { apply wanted_key in Hwant as [[_ Hkey]|[? _]]; [|done]. unfold DELTA_KEYS in Hkey.
    apply list.elem_of_cons in Hkey as [->|[->|[]%not_elem_of_nil]%list.elem_of_cons];
      eexists; (split; [|reflexivity]); apply mem_string_spec; reflexivity. }
  destruct (delta_rows_levels before after bl al d before_levels after_levels difference) as (t & ds & rss & Hd & Hr & ->).
  apply (concat_hits _ (kind_is K) al). apply period_counter in Hk as (Hk & _).
  clear -Hd Hr Hk. revert rss Hr. induction Hd as [|l x ls ds Hx _ IH]; intros rss Hr.
  - apply Forall2_nil_inv_l in Hr as ->. constructor.
  - apply Forall2_cons_inv_l in Hr as (rs & rss' & Hr & Hrs & ->). constructor; [|by apply IH].
    destruct (delta_level_keyed _ _ _ _ _ K k Hx Hr Hk) as (n & Hn & E). exists (str_of_Z n). split; [|done].
    by apply str_of_Z_plain, (grown_nonneg _ _ _ _ Hn).
Qed.

Lemma rows_readable : Forall readable (a ++ b ++ d).
Proof.
  apply Forall_app. split; [exact (snapshot_readable before bl "start" a before_levels before_typed before_rows eq_refl)|].
  apply Forall_app. split; [exact (snapshot_readable after al "end" b after_levels after_typed after_rows eq_refl)|].
  apply delta_readable.
Qed.

(** What is observed of the cell. *)
Lemma observed_delta k K : k ∈ PERIOD_COUNTERS ->
  match last_of K al with
  | Some l => exists n, grown (by_path bl) k l n /\ observed (a ++ b ++ d) K ("cpu.stat." +:+ k) = Some (str_of_Z n)
  | None => observed (a ++ b ++ d) K ("cpu.stat." +:+ k) = None
  end.
Proof.
  intros Hk. pose proof (delta_hits k K Hk) as Hd. apply period_counter in Hk as (_ & _ & Hs & He). unfold observed. rewrite !omap_app.
  rewrite (hits_keyed "start" K _ a (cgroup_rows_window _ _ _ before_rows)), (hits_keyed "end" K _ b (cgroup_rows_window _ _ _ after_rows)), Hs, He.
  cbn [app]. destruct (last_of K al) as [l|]; [|by rewrite Hd]. destruct Hd as (n & -> & Hn). by exists n.
Qed.

Lemma observed_limit key K l : key ∈ LIMIT_KEYS -> last_of K al = Some l ->
  observed (a ++ b ++ d) K key = Some (limit_text key l).
Proof.
  intros Hk Hl. pose proof (snapshot_hits after al "end" b key K after_levels after_typed after_rows eq_refl Hk) as Hb.
  rewrite Hl in Hb. unfold observed. rewrite !omap_app. apply last_app_ne.
  rewrite (hits_keyed "measurement_delta" K key d) by exact (delta_rows_window before after bl al d before_levels after_levels difference).
  assert (wanted key "measurement_delta" = false) as ->; [|by rewrite app_nil_r].
  unfold LIMIT_KEYS in Hk. by apply list.elem_of_cons in Hk as [->|[->|[]%not_elem_of_nil]%list.elem_of_cons].
Qed.
End TwoRecords.

(** ** The sample of a cell *)

Lemma sample_of_levels before after bl al a b d block_id cell_id_ workload_ policy_ kinds :
  levels before = Ok bl -> levels after = Ok al -> typed_record after = true ->
  cgroup_rows before "start" = Ok a -> cgroup_rows after "end" = Ok b -> delta_rows before after = Ok d ->
  match pick_level kinds al with
  | None => level_sample (observed (a ++ b ++ d)) block_id cell_id_ workload_ policy_ kinds = Ok None
  | Some (K, l) => exists n t, grown (by_path bl) "nr_periods" l n /\ grown (by_path bl) "nr_throttled" l t /\
      level_sample (observed (a ++ b ++ d)) block_id cell_id_ workload_ policy_ kinds =
      Ok (Some {| ps_block_id := block_id; ps_cell_id := cell_id_; ps_level := K; ps_workload := workload_;
                  ps_policy := policy_; ps_quota_us := level_quota l; ps_period_us := level_period l; ps_periods := n;
                  ps_throttled_periods := t |})
  end.
Proof.
  intros Hb Ha Ht Hra Hrb Hd. induction kinds as [|K kinds IH]; [done|]. cbn [pick_level level_sample].
  pose proof (observed_delta before after bl al a b d Hb Ha Hra Hrb Hd "nr_periods" K ltac:(left)) as H1.
  pose proof (observed_delta before after bl al a b d Hb Ha Hra Hrb Hd "nr_throttled" K ltac:(right; left)) as H2.
  destruct (last_of K al) as [l|] eqn:El; cbn [append] in H1, H2; [|by rewrite H1].
  destruct H1 as (n & Hn & ->), H2 as (t & Ht' & ->). exists n, t. split; [done|]. split; [done|].
  rewrite (observed_limit before after bl al a b d Hb Ha Ht Hrb Hd "cpu.max.quota" K l ltac:(left) El).
  rewrite (observed_limit before after bl al a b d Hb Ha Ht Hrb Hd "cpu.max.period" K l ltac:(right; left) El).
  cbn [default]. destruct (limits_read l (last_of_typed _ _ _ _ Ha Ht El)) as [Hq Hp].
  change (limit_text "cpu.max.quota" l) with (quota_text l). change (limit_text "cpu.max.period" l) with (period_text l).
  unfold id. rewrite Hq, Hp, (as_int_str n), (as_int_str t) by by eapply grown_nonneg. done.
Qed.

(** C4: What the pilot stores is what is frozen on.  When the files hold the rows
    that a complete cell stores for two records of the probe, the freezing
    program reads exactly one sample of the cell (none if no level has a kind it
    knows): of the last level of the first kind among leaf, scope and Pod, with
    that level's quota and period at the end, and the growth of its periods and
    throttled periods between the two records. *)
Theorem pilot_sample_exact (args : cell_args) (cell : Cell) (r : CellResult) before after bl al a b d :
  cell ∈ CELLS -> 0 <= ca_block_id args -> cr_status r = "complete" ->
  typed_record before = true -> typed_record after = true -> levels before = Ok bl -> levels after = Ok al ->
  cgroup_rows before "start" = Ok a -> cgroup_rows after "end" = Ok b -> delta_rows before after = Ok d ->
  fitting [BLOCK_COLUMNS; block_line args cell r] ->
  fitting (CGROUP_COLUMNS :: (cgroup_line args cell <$> (a ++ b ++ d)%list)) ->
  let read := read_pilot_samples (csv_file (CGROUP_COLUMNS :: (cgroup_line args cell <$> (a ++ b ++ d)%list)))
                (csv_file [BLOCK_COLUMNS; block_line args cell r]) in
  match pick_level LEVELS al with
  | None => read = Ok []
  | Some (K, l) => exists n t, grown (by_path bl) "nr_periods" l n /\ grown (by_path bl) "nr_throttled" l t /\
      read = Ok [{| ps_block_id := str_of_Z (ca_block_id args); ps_cell_id := cell_id cell; ps_level := K;
                    ps_workload := workload cell; ps_policy := policy cell; ps_quota_us := level_quota l;
                    ps_period_us := level_period l; ps_periods := n; ps_throttled_periods := t |}]
  end.
Proof.
  intros Hcell Hblk Hst Htb Hta Hlb Hla Hra Hrb Hd Hf1 Hf2 read. unfold read.
  rewrite read_written by (done || by eapply (rows_readable before after)).
  pose proof (sample_of_levels before after bl al a b d (str_of_Z (ca_block_id args)) (cell_id cell) (workload cell)
    (policy cell) LEVELS Hlb Hla Hta Hra Hrb Hd) as Hs.
  destruct (pick_level LEVELS al) as [[K l]|]; [|by rewrite Hs].
  destruct Hs as (n & t & Hn & Ht & E). exists n, t. split; [done|]. split; [done|]. by rewrite E.
Qed.

(** ** The laboratory's cell *)

Definition lab_result : CellResult :=
  {| cr_status := "complete"; cr_pod_uid := sample_uid; cr_started_at := "s"; cr_finished_at := "f"; cr_error := None;
     cr_teardown := "complete" |}.
Definition lab_rows : list cgroup_row :=
  (ok_or [] (cgroup_rows (probe_record 0) "start") ++ ok_or [] (cgroup_rows (probe_record 1) "end") ++
   ok_or [] (delta_rows (probe_record 0) (probe_record 1)))%list.

Lemma pilot_sample_exact_witness :
  exists l n t, pick_level LEVELS (ok_or [] (levels (probe_record 1))) = Some ("container_scope", l) /\
    grown (by_path (ok_or [] (levels (probe_record 0)))) "nr_periods" l n /\
    read_pilot_samples (csv_file (CGROUP_COLUMNS :: (cgroup_line lab_args lab_cell <$> lab_rows)))
      (csv_file [BLOCK_COLUMNS; block_line lab_args lab_cell lab_result]) =
    Ok [{| ps_block_id := "1"; ps_cell_id := "contention-cpu-bound-burstable-low"; ps_level := "container_scope";
           ps_workload := "cpu-bound"; ps_policy := "burstable-low"; ps_quota_us := level_quota l;
           ps_period_us := level_period l; ps_periods := n; ps_throttled_periods := t |}].
Proof.
  pose proof (pilot_sample_exact lab_args lab_cell lab_result (probe_record 0) (probe_record 1)
    (ok_or [] (levels (probe_record 0))) (ok_or [] (levels (probe_record 1)))
    (ok_or [] (cgroup_rows (probe_record 0) "start")) (ok_or [] (cgroup_rows (probe_record 1) "end"))
    (ok_or [] (delta_rows (probe_record 0) (probe_record 1)))) as H.
  assert (exists l, pick_level LEVELS (ok_or [] (levels (probe_record 1))) = Some ("container_scope", l)) as [l Hl]
    by (eexists; vm_compute; reflexivity).
  rewrite Hl in H. destruct H as (n & t & Hn & _ & Hread).
  - exact (cell_from_id_in _ _ lab_cell_from_id).
  - vm_compute. discriminate.
  - reflexivity.
  - vm_compute. reflexivity.
  - vm_compute. reflexivity.
  - vm_compute. reflexivity.
  - vm_compute. reflexivity.
  - vm_compute. reflexivity.
  - vm_compute. reflexivity.
  - vm_compute. reflexivity.
  - apply fitting_true. vm_compute. reflexivity.
  - apply fitting_true. vm_compute. reflexivity.
  - exists l, n, t. split; [exact Hl|]. split; [exact Hn|]. exact Hread.
Defined.

(** Its throttling is in the band: the low value is supported. *)
Example lab_freeze :
  let read := read_pilot_samples (csv_file (CGROUP_COLUMNS :: (cgroup_line lab_args lab_cell <$> lab_rows)))
                (csv_file [BLOCK_COLUMNS; block_line lab_args lab_cell lab_result]) in
  (fun p => (fp_status p, fp_low_millicores p)) <$> ok_or [] (let* s := read in let* p := freeze_values "cpu-bound" s in Ok [p])
  = [("PASS", 500)].
Proof. vm_compute. reflexivity. Qed.
