(* ===== verification/AnalyzeData.v ===== *)
(** From the cell runner to the analysis: the rows that [run-cell.py] stores are
    what [analyze.py] summarizes. *)

From Stdlib Require Import ZArith Bool Ascii String Lia SpecFloat.
From stdpp Require Import base list strings option pretty gmap.
From S2P Require Import Prelude Eff PyStr PyFloat PyVal Json PyConv PyCsv PyDict World Files Probe Design Workloads CellRun CellRunThm CellComplete StoredRows FreezePolicies PilotData Stats Analyze.

Open Scope string_scope.
Open Scope Z_scope.

(** ** Numbers *)

Lemma digits_value_str n : 0 <= n -> digits_value (str_of_Z n) = n.
Proof. intros H. rewrite str_of_Z_nonneg by done. rewrite digits_value_pretty. lia. Qed.

(** An integer reads as the nearest float. *)
Lemma py_float_int n : 0 <= n -> py_float (str_of_Z n) = Some (flit n 1).
Proof.
  intros H. destruct (str_of_Z_nonempty n H) as [Hd Hn]. pose proof (digits_value_str n H) as Hv.
  unfold py_float. rewrite (proj1 (str_of_Z_plain n H)), drop_underscores_none by (by apply digits_decimal).
  destruct (str_of_Z n) as [|c s] eqn:E; [done|].
  assert (is_digit c = true) as Hc by (cbn [digits str_forallb] in Hd; by apply andb_true_iff in Hd as [? _]).
  destruct (Ascii.eqb_spec c "-") as [->|_]; [done|]. destruct (Ascii.eqb_spec c "+") as [->|_]; [done|].
  unfold parse_ufloat.
  assert (exists t, str_lower (String c s) = String c t) as [t ->] by (eexists; cbn; by rewrite digit_lower).
  assert (mem_string (String c t) ["inf"; "infinity"] = false) as ->.
  { apply mem_string_false. rewrite !not_elem_of_cons. repeat split; try apply not_elem_of_nil; by intros [= -> ->]. }
  assert (String.eqb (String c t) "nan" = false) as -> by (apply String.eqb_neq; by intros [= -> ->]).
  rewrite <- (str_app_nil_r (String c s)) at 1. rewrite span_digits by done. cbn [parse_exp].
  rewrite str_app_nil_r, Hn. cbn [orb negb is_empty default]. rewrite Hv. unfold float_of_dec, scale10, flit.
  change (slen "") with 0. cbn [Z.sub Z.leb]. by rewrite Z.mul_1_r.
Qed.

(** It is not negative. *)
Lemma flit_nonneg n : 0 <= n -> fltb (flit n 1) zero = false.
Proof.
  intros H. unfold flit, ratio_to_float. destruct n as [|p|p]; [done| |done].
  destruct (SFdiv_core_binary prec emax (Zpos p) 0 1 0) as [[q e] l]. unfold binary_round_aux.
  destruct (shr_fexp prec emax q e l) as [m1 e1].
  destruct (shr_fexp prec emax (round_nearest_even (shr_m m1) (loc_of_shr_record m1)) e1 loc_Exact) as [m2 e2].
  destruct (shr_m m2); [done| |done]. by destruct (Zle_bool e2 (emax - prec)).
Qed.

Lemma number_int n name : 0 <= n -> isfinite (flit n 1) = true -> number (Some (str_of_Z n)) name = Ok (flit n 1).
Proof. intros H Hf. unfold number. rewrite py_float_int by done. by rewrite Hf, flit_nonneg. Qed.

(** ** Reading a written table *)

Lemma csv_table_file path required names rows :
  fitting (names :: rows) -> forallb (fun c => mem_string c names) required = true ->
  Forall (fun row => is_text (column (zip_row names row) "protocol") PROTOCOL = true) rows ->
  csv_table path required (csv_file (names :: rows)) = Ok (zip_row names <$> rows).
Proof.
  intros Hf Hc Hp. unfold csv_table, csv_file. cbn [rbind].
  rewrite csv_file_rows by done. cbn [rbind].
  rewrite filter_none by (apply List.Forall_forall; intros c Hin; rewrite forallb_forall in Hc; by rewrite Hc).
  cbn [sort_by raise_if rbind]. apply Forall_cons_iff in Hf as [_ Hf]. rewrite dict_rows_all by done.
  assert (iterM (fun row => raise_if (negb (is_text (column row "protocol") PROTOCOL)) ValueError
    (path +:+ ": unsupported protocol " +:+ repr_opt (column row "protocol"))) (zip_row names <$> rows) = Ok tt) as ->; [|done].
  apply iterM_Ok, Forall_fmap. eapply List.Forall_impl; [|exact Hp]. intros row Hrow. cbn. by rewrite Hrow.
Qed.

(** ** The counters of one cell *)

(** The quota that is no number. *)
Definition unlimited (r : cgroup_row) : bool := String.eqb (cg_key r) "cpu.max.quota" && String.eqb (cg_value r) "max".
(** A row that the analysis can read: a count that a float can hold, or no quota. *)
Definition countable (r : cgroup_row) : Prop :=
  unlimited r = true \/ exists n, 0 <= n /\ cg_value r = str_of_Z n /\ isfinite (flit n 1) = true.

Section OneCell.
Context (args : cell_args) (cell : Cell).

Abbreviation line r := (zip_row CellRun.CGROUP_COLUMNS (cgroup_line args cell r)).

Lemma line_columns r : column (line r) "level" = Some (cg_level r) /\ column (line r) "window" = Some (cg_window r) /\
  column (line r) "key" = Some (cg_key r) /\ column (line r) "value" = Some (cg_value r) /\
  row_key (line r) = (Some (str_of_Z (ca_block_id args)), Some (cell_id cell)).
Proof. repeat split; reflexivity. Qed.

Lemma pair_decide w k window key :
  bool_decide ((Some window, Some key) = (Some w, Some k)) = String.eqb w window && String.eqb k key.
Proof. apply eq_true_iff_eq. rewrite bool_decide_eq_true, andb_true_iff, !String.eqb_eq. naive_solver. Qed.

Lemma get_value_set w k x v p window key :
  get_value {| cv_values := assoc_set (Some w, Some k) x v; cv_parameters := p |} window key =
  if String.eqb w window && String.eqb k key then Some x else get_value {| cv_values := v; cv_parameters := p |} window key.
Proof.
  rewrite <- pair_decide. unfold get_value. cbn [cv_values].
  induction v as [|[k' y] v IH]; cbn [assoc_set List.find fst]; [by case_bool_decide|].
  destruct (decide ((Some w, Some k) = k')) as [Heq|Hne]; cbn [List.find fst].
  - rewrite Heq. repeat case_bool_decide; done.
  - destruct (bool_decide ((Some window, Some key) = k')) eqn:E; [|exact IH]. apply bool_decide_eq_true in E. subst k'.
    by rewrite bool_decide_false by congruence.
Qed.

Lemma get_parameter_set k x v p key :
  get_parameter {| cv_values := v; cv_parameters := assoc_set k x p |} key =
  if String.eqb k key then Some x else get_parameter {| cv_values := v; cv_parameters := p |} key.
Proof.
  unfold get_parameter. cbn [cv_parameters]. rewrite String.eqb_sym.
  induction p as [|[k' y] p IH]; cbn [assoc_set List.find fst]; [by destruct (String.eqb key k)|].
  destruct (decide (k = k')) as [<-|Hne]; cbn [List.find fst].
  - by destruct (String.eqb key k).
  - destruct (String.eqb_spec key k') as [->|]; [|exact IH]. by rewrite (proj2 (String.eqb_neq k' k)) by congruence.
Qed.

(** The number and the parameter that a row leaves. *)
Definition stored (window key : string) (r : cgroup_row) : option string :=
  if String.eqb (cg_window r) window && String.eqb (cg_key r) key && negb (unlimited r) then Some (cg_value r) else None.
Definition parameter (key : string) (r : cgroup_row) : option string :=
  if String.eqb (cg_key r) key && (unlimited r || mem_string (cg_key r) PARAMETERS && mem_string (cg_window r) ["start"; "end"])
  then Some (cg_value r) else None.

Lemma countable_plain r : countable r -> plain_text (cg_value r).
Proof.
  intros [H|(n & Hn & -> & _)]; [|by apply str_of_Z_plain]. unfold unlimited in H.
  apply andb_true_iff in H as [_ ->%String.eqb_eq]. by split; vm_compute.
Qed.

Lemma analysis_line_step v r : countable r -> exists v', cgroup_step v (line r) = Ok v' /\
  (forall w k, get_value v' w k = match stored w k r with Some t => py_float t | None => get_value v w k end) /\
  (forall k, get_parameter v' k = match parameter k r with Some t => Some t | None => get_parameter v k end).
Proof.
  intros Hc. destruct (line_columns r) as (_ & H2 & H3 & H4 & _). pose proof (countable_plain r Hc) as [Hs _].
  unfold cgroup_step, stripped. rewrite H2, H3, H4. cbn [rbind is_text str_opt default]. rewrite Hs.
  change (String.eqb (cg_key r) "cpu.max.quota" && String.eqb (cg_value r) "max") with (unlimited r).
  unfold stored, parameter. destruct v as [vs ps]. destruct (unlimited r) eqn:Hu.
  - eexists. split; [reflexivity|]. split; [intros w k; by rewrite andb_false_r|]. intros k. cbn [orb andb cv_values cv_parameters].
    rewrite andb_true_r, get_parameter_set. apply andb_true_iff in Hu as [->%String.eqb_eq Hv%String.eqb_eq].
    rewrite Hv. by destruct (String.eqb "cpu.max.quota" k).
  - destruct Hc as [?|(n & Hn & Hv & Hf)]; [congruence|]. rewrite Hv, number_int by done. cbn [rbind orb negb andb].
    eexists. split; [reflexivity|]. split.
    + intros w k. rewrite get_value_set, andb_true_r. destruct (_ && _); [by rewrite py_float_int|done].
    + intros k. change (existsb (is_text (Some (cg_window r))) ["start"; "end"]) with (mem_string (cg_window r) ["start"; "end"]).
      cbn [cv_parameters]. destruct (mem_string (cg_key r) PARAMETERS && _); [|by rewrite andb_false_r]. rewrite get_parameter_set, andb_true_r. by destruct (String.eqb (cg_key r) k).
Qed.

Lemma analysis_lines_fold rows : Forall countable rows -> forall v, exists v',
  foldM cgroup_step v ((fun r => line r) <$> rows) = Ok v' /\
  (forall w k, get_value v' w k = match list.last (omap (stored w k) rows) with Some t => py_float t | None => get_value v w k end) /\
  (forall k, get_parameter v' k = match list.last (omap (parameter k) rows) with Some t => Some t | None => get_parameter v k end).
Proof.
  induction 1 as [|r rows Hr _ IH]; intros v; [by exists v|]. cbn [fmap list_fmap foldM].
  destruct (analysis_line_step v r Hr) as (v1 & -> & V1 & P1). cbn [rbind]. destruct (IH v1) as (v' & E & V2 & P2).
  exists v'. split; [exact E|]. split.
  - intros w k. rewrite V2, last_cons_hit. destruct (list.last _); [done|]. apply V1.
  - intros k. rewrite P2, last_cons_hit. destruct (list.last _); [done|]. apply P1.
Qed.
End OneCell.

(** ** The rows of the level that counts *)

Definition of_level (level : string) (rows : list cgroup_row) : list cgroup_row :=
  List.filter (fun r => String.eqb (cg_level r) level) rows.

Lemma rows_of_level_lines args cell level rows :
  rows_of_level ((fun r => zip_row CellRun.CGROUP_COLUMNS (cgroup_line args cell r)) <$> rows) level =
  (fun r => zip_row CellRun.CGROUP_COLUMNS (cgroup_line args cell r)) <$> of_level level rows.
Proof.
  unfold rows_of_level, of_level. induction rows as [|r rows IH]; [done|]. cbn [fmap list_fmap List.filter].
  rewrite (proj1 (line_columns args cell r)). cbn [is_text]. destruct (String.eqb (cg_level r) level); [|exact IH].
  cbn [fmap list_fmap]. by f_equal.
Qed.

Lemma stored_of_level level window key w rows : Forall (fun r => cg_window r = w) rows -> key <> "cpu.max.quota" ->
  omap (stored window key) (of_level level rows) = if String.eqb w window then omap (keyed level key) rows else [].
Proof.
  intros Hw Hk. induction Hw as [|r rows Hr _ IH]; [by destruct (String.eqb w window)|]. unfold of_level in *. cbn [List.filter].
  cbn [omap list_omap]. unfold keyed at 1. destruct (String.eqb (cg_level r) level) eqn:Hl; cbn [andb]; [|exact IH].
  cbn [omap list_omap]. rewrite IH. unfold stored, unlimited. rewrite Hr.
  destruct (String.eqb w window); cbn [andb]; [|done].
  destruct (String.eqb_spec (cg_key r) key) as [->|]; [|done]. by rewrite (proj2 (String.eqb_neq _ _) Hk).
Qed.

Lemma parameter_of_level level key w rows : Forall (fun r => cg_window r = w) rows ->
  mem_string w ["start"; "end"] = true -> mem_string key PARAMETERS = true ->
  omap (parameter key) (of_level level rows) = omap (keyed level key) rows.
Proof.
  intros Hw Hin Hk. induction Hw as [|r rows Hr _ IH]; [done|]. unfold of_level in *. cbn [List.filter].
  cbn [omap list_omap]. unfold keyed at 1. destruct (String.eqb (cg_level r) level) eqn:Hl; cbn [andb]; [|exact IH].
  cbn [omap list_omap]. rewrite IH. unfold parameter. rewrite Hr, Hin, andb_true_r.
  destruct (String.eqb_spec (cg_key r) key) as [->|]; [|done]. by rewrite Hk, orb_true_r.
Qed.

Lemma no_parameter level key rows : Forall (fun r => cg_window r = "measurement_delta" /\ unlimited r = false) rows ->
  omap (parameter key) (of_level level rows) = [].
Proof.
  induction 1 as [|r rows [Hw Hu] _ IH]; [done|]. unfold of_level in *. cbn [List.filter].
  destruct (String.eqb (cg_level r) level); [|exact IH]. cbn [omap list_omap]. unfold parameter. rewrite Hu, Hw.
  cbn. by rewrite !andb_false_r.
Qed.

(** ** The levels of rows *)

Definition level_in (ls : list pydict) (r : cgroup_row) : Prop := existsb (kind_is (cg_level r)) ls = true.

Lemma level_rows_kind t w d rows : level_rows t w (VDict d) = Ok rows -> Forall (fun r => kind_is (cg_level r) d = true) rows.
Proof.
  cbn [level_rows]. intros H. unfold kind_is. destruct (dget "kind" d) as [[| | | |kind| |]|]; try done.
  repeat (case_match; try done). apply mapM_Ok in H. induction H as [|[[key v] u] r vs rs Hv _ IH]; constructor; [|done].
  unfold value_row in Hv. destruct v; try done; apply Ok_inj in Hv as <-; apply String.eqb_refl.
Qed.

Lemma delta_rows_kind t m a x rows : delta_of m a x -> delta_level_rows t x = Ok rows ->
  Forall (fun r => kind_is (cg_level r) a = true /\ exists k, cg_key r = "cpu.stat." +:+ k) rows.
Proof.
  intros (lb & c & _ & _ & ->) Hr. unfold delta_level_rows in Hr.
  change (dget "path" _) with (Some (VStr (level_path a))) in Hr. change (dget "kind" _) with (Some (dget_none "kind" a)) in Hr.
  unfold kind_is. unfold dget_none in Hr. destruct (dget "kind" a) as [[| | | |kind| |]|]; try done.
  change (dget "cpu_stat" _) with (Some (zdict c)) in Hr. unfold zdict in Hr. apply mapM_Ok in Hr.
  induction Hr as [|k r ks rs Hv _ IH]; constructor; [|done]. repeat (case_match; try done). apply Ok_inj in Hv as <-.
  split; [apply String.eqb_refl|by exists k].
Qed.

Lemma concat_levels {A} (P : A -> cgroup_row -> Prop) (ls : list A) rss :
  Forall2 (fun l rs => Forall (P l) rs) ls rss -> Forall (fun r => exists l, l ∈ ls /\ P l r) (concat rss).
Proof.
  induction 1 as [|l rs ls rss Hl _ IH]; [constructor|]. cbn [concat]. apply Forall_app. split.
  - eapply List.Forall_impl; [|exact Hl]. intros r Hr. exists l. split; [by left|done].
  - eapply List.Forall_impl; [|exact IH]. intros r (l' & Hin & Hr). exists l'. split; [by right|done].
Qed.

Lemma level_in_intro ls r l : l ∈ ls -> kind_is (cg_level r) l = true -> level_in ls r.
Proof. intros Hin Hk. apply existsb_exists. exists l. split; [by apply list_elem_of_In|done]. Qed.

Lemma no_level level ls rows : Forall (level_in ls) rows -> existsb (kind_is level) ls = false -> of_level level rows = [].
Proof.
  intros Hl He. induction Hl as [|r rows Hr _ IH]; [done|]. unfold of_level in *. cbn [List.filter].
  destruct (String.eqb_spec (cg_level r) level) as [<-|]; [|exact IH]. unfold level_in in Hr. congruence.
Qed.

(** ** The summary of a level *)

Definition level_pressure (key : string) (l : pydict) : option Z :=
  match dget "cpu_pressure" l with
  | Some (VDict p) => match dget key p with Some (VInt n) => Some n | _ => None end
  | _ => None
  end.
(** The time that was lost between two looks at a level. *)
Definition stall (key : string) (before after : pydict) : option float :=
  match level_pressure key before, level_pressure key after with
  | Some s, Some e => Some (fsub (flit e 1) (flit s 1))
  | _, _ => None
  end.

(** The summary of a level with this growth of its counters, this quota and
    these stalls. *)
Definition level_summary (usage periods throttled time : Z) (quota : option Z) (some full : option float) : result cgroup_summary :=
  let* utilization := match quota with
                      | Some q => if fltb zero (flit q 1) && fltb zero (flit periods 1)
                                  then let* x := fdiv (flit usage 1) (fmul (flit q 1) (flit periods 1)) in Ok (Some x)
                                  else Ok None
                      | None => Ok None
                      end in
  raise_if (fltb (flit periods 1) (flit throttled 1)) ValueError "nr_throttled exceeds nr_periods" ;;;
  let* usage := seconds (Some (flit usage 1)) in
  let* ratio := throttled_ratio_of (Some (flit periods 1)) (Some (flit throttled 1)) in
  let* time := seconds (Some (flit time 1)) in
  let* some := seconds some in
  let* full := seconds full in
  Ok {| cpu_usage_seconds := usage; quota_utilization := utilization; throttled_period_ratio := ratio;
        throttled_time_seconds := time; psi_some_seconds := some; psi_full_seconds := full |}.

Lemma str_of_Z_neg_digit z : z < 0 -> exists s, str_of_Z z = String "-" s.
Proof. intros H. destruct z as [|p|p]; try lia. by eexists. Qed.

Lemma str_of_Z_count z n : 0 <= n -> str_of_Z z = str_of_Z n -> z = n.
Proof.
  intros Hn E. destruct (Z.ltb_spec z 0) as [Hz|Hz].
  - destruct (str_of_Z_neg_digit z Hz) as [s Es]. pose proof (str_of_Z_digits n Hn) as Hd. rewrite <- E, Es in Hd. done.
  - pose proof (py_int_str_of_Z z Hz) as H1. rewrite E, py_int_str_of_Z in H1 by done. by injection H1.
Qed.

Lemma countable_text r : countable r -> cg_key r <> "cpu.max.quota" ->
  exists n, 0 <= n /\ cg_value r = str_of_Z n /\ isfinite (flit n 1) = true.
Proof.
  intros [H|H] Hk; [|exact H]. unfold unlimited in H. by apply andb_true_iff in H as [?%String.eqb_eq _].
Qed.

Lemma keyed_last level key rows t : list.last (omap (keyed level key) rows) = Some t ->
  exists r, r ∈ rows /\ cg_level r = level /\ cg_key r = key /\ cg_value r = t.
Proof.
  intros H%last_Some_elem_of. apply list_elem_of_omap in H as (r & Hr & E). exists r. split; [done|]. unfold keyed in E.
  destruct (String.eqb_spec (cg_level r) level) as [<-|]; [|done]. destruct (String.eqb_spec (cg_key r) key) as [<-|]; [|done].
  by injection E.
Qed.

Lemma level_pressure_text key l : typed_level l = true -> key ∈ ["some_total_usec"; "full_total_usec"] ->
  exists p, level_pressure key l = Some p /\ pressure_text key l = str_of_Z p.
Proof.
  intros H Hk. unfold typed_level in H. repeat (apply andb_true_iff in H as [H ?]).
  match goal with Hf : counters_field "cpu_pressure" _ _ = true |- _ => destruct (counters_field_get _ _ _ Hf) as (c & Hp & Hc) end.
  rewrite Forall_forall in Hc. destruct (Hc key Hk) as [n Hn]. exists n.
  unfold level_pressure, pressure_text, dget_none. by rewrite Hp, Hn.
Qed.

Section TwoRecords.
Context (before after : pydict) (bl al : list pydict) (a b d : list cgroup_row).
Hypothesis before_levels : levels before = Ok bl.
Hypothesis after_levels : levels after = Ok al.
Hypothesis before_typed : typed_record before = true.
Hypothesis after_typed : typed_record after = true.
Hypothesis before_rows : cgroup_rows before "start" = Ok a.
Hypothesis after_rows : cgroup_rows after "end" = Ok b.
Hypothesis difference : delta_rows before after = Ok d.
Hypothesis same_kinds : forall K, existsb (kind_is K) bl = existsb (kind_is K) al.
Hypothesis counts : Forall countable (a ++ b ++ d).

Lemma snapshot_level_in record ls w rows : levels record = Ok ls -> cgroup_rows record w = Ok rows -> Forall (level_in ls) rows.
Proof.
  intros Hl Hr. destruct (snapshot_level_rows record ls w rows Hl Hr) as (t & rss & Hm & ->).
  assert (Forall2 (fun l rs => Forall (fun r => kind_is (cg_level r) l = true) rs) ls rss) as H2
    by (eapply Forall2_impl; [exact Hm|]; intros l rs H; exact (level_rows_kind _ _ _ _ H)).
  eapply List.Forall_impl; [|exact (concat_levels _ _ _ H2)]. intros r (l & Hin & Hk). by apply (level_in_intro _ _ l).
Qed.

Lemma delta_level_in : Forall (fun r => level_in al r /\ exists k, cg_key r = "cpu.stat." +:+ k) d.
Proof.
  destruct (delta_rows_levels before after bl al d before_levels after_levels difference) as (t & ds & rss & Hd & Hr & ->).
  assert (Forall2 (fun l rs => Forall (fun r => kind_is (cg_level r) l = true /\ exists k, cg_key r = "cpu.stat." +:+ k) rs) al rss) as H2.
  { clear -Hd Hr. revert rss Hr. induction Hd as [|l x ls ds Hx _ IH]; intros rss Hr.
    - apply Forall2_nil_inv_l in Hr as ->. constructor.
    - apply Forall2_cons_inv_l in Hr as (rs & rss' & Hr & Hrs & ->). constructor; [|by apply IH]. by eapply delta_rows_kind. }
  eapply List.Forall_impl; [|exact (concat_levels _ _ _ H2)]. intros r (l & Hin & Hk & Hu). split; [|done]. by apply (level_in_intro _ _ l).
Qed.

Lemma last_of_exists K ls : existsb (kind_is K) ls = match last_of K ls with Some _ => true | None => false end.
Proof.
  unfold last_of. destruct (existsb (kind_is K) ls) eqn:E.
  - apply existsb_exists in E as (l & Hin & Hk). destruct (list.last (List.filter (kind_is K) ls)) eqn:El; [done|].
    apply last_None in El. assert (In l (List.filter (kind_is K) ls)) as H by by apply List.filter_In. by rewrite El in H.
  - destruct (list.last (List.filter (kind_is K) ls)) as [l|] eqn:El; [|done]. apply last_Some_elem_of, list_elem_of_In, List.filter_In in El as [Hin Hk].
    assert (existsb (kind_is K) ls = true) by (apply existsb_exists; by exists l). congruence.
Qed.

Let rows := (a ++ b ++ d)%list.

Lemma of_level_app K : of_level K rows = (of_level K a ++ of_level K b ++ of_level K d)%list.
Proof. unfold of_level, rows. by rewrite !List.filter_app. Qed.

Lemma stored_rows K window key : key <> "cpu.max.quota" ->
  omap (stored window key) (of_level K rows) =
  ((if String.eqb "start" window then omap (keyed K key) a else []) ++
   (if String.eqb "end" window then omap (keyed K key) b else []) ++
   (if String.eqb "measurement_delta" window then omap (keyed K key) d else []))%list.
Proof.
  intros Hk. rewrite of_level_app, !omap_app.
  rewrite (stored_of_level K window key "start" a (cgroup_rows_window _ _ _ before_rows) Hk),
    (stored_of_level K window key "end" b (cgroup_rows_window _ _ _ after_rows) Hk),
    (stored_of_level K window key "measurement_delta" d
       (delta_rows_window before after bl al d before_levels after_levels difference) Hk). done.
Qed.

Lemma stored_start K key : key <> "cpu.max.quota" -> omap (stored "start" key) (of_level K rows) = omap (keyed K key) a.
Proof. intros Hk. rewrite stored_rows by done. exact (app_nil_r _). Qed.
Lemma stored_end K key : key <> "cpu.max.quota" -> omap (stored "end" key) (of_level K rows) = omap (keyed K key) b.
Proof. intros Hk. rewrite stored_rows by done. exact (app_nil_r _). Qed.
Lemma stored_difference K key : key <> "cpu.max.quota" ->
  omap (stored "measurement_delta" key) (of_level K rows) = omap (keyed K key) d.
Proof. intros Hk. by rewrite stored_rows. Qed.

(** A difference has rows of the four counters only. *)
Lemma keyed_difference K key : (forall k, "cpu.stat." +:+ k <> key) -> omap (keyed K key) d = [].
Proof.
  intros Hk. pose proof delta_level_in as Hd. revert Hd. generalize d as rs. clear -Hk.
  induction 1 as [|r rs (_ & k & Hr) _ IH]; [done|]. cbn [omap list_omap].
  rewrite IH. unfold keyed. rewrite Hr, (proj2 (String.eqb_neq _ _) (Hk k)). by rewrite andb_false_r.
Qed.

(** The numbers of the level of kind [K]. *)
Lemma stored_delta K l k : last_of K al = Some l -> k ∈ CPU_STAT_KEYS -> exists n, grown (by_path bl) k l n /\
  list.last (omap (stored "measurement_delta" ("cpu.stat." +:+ k)) (of_level K rows)) = Some (str_of_Z n).
Proof.
  intros Hl Hk. pose proof (delta_keyed before after bl al d before_levels after_levels difference k K Hk) as H. rewrite Hl in H.
  destruct H as (n & Hn & Hg). exists n. split; [done|]. by rewrite stored_difference.
Qed.

Lemma keyed_count K key rs z : key <> "cpu.max.quota" -> (forall x, x ∈ rs -> x ∈ rows) ->
  list.last (omap (keyed K key) rs) = Some (str_of_Z z) -> 0 <= z.
Proof.
  intros Hk Hin (x & Hx & _ & Ek & Ex)%keyed_last. pose proof counts as Hc. rewrite Forall_forall in Hc.
  destruct (countable_text x (Hc x (Hin x Hx)) ltac:(congruence)) as (n & Hn & E & _). rewrite Ex in E.
  by rewrite (str_of_Z_count z n Hn E).
Qed.

Lemma stored_pressure K l key : last_of K al = Some l -> key ∈ ["some_total_usec"; "full_total_usec"] ->
  exists lb s e, last_of K bl = Some lb /\ level_pressure key lb = Some s /\ level_pressure key l = Some e /\ 0 <= s /\ 0 <= e /\
    omap (stored "measurement_delta" ("cpu.pressure." +:+ key)) (of_level K rows) = [] /\
    list.last (omap (stored "start" ("cpu.pressure." +:+ key)) (of_level K rows)) = Some (str_of_Z s) /\
    list.last (omap (stored "end" ("cpu.pressure." +:+ key)) (of_level K rows)) = Some (str_of_Z e).
Proof.
  intros Hl Hk. pose proof (same_kinds K) as Hs. rewrite !last_of_exists, Hl in Hs.
  destruct (last_of K bl) as [lb|] eqn:Hlb; [|done].
  assert ("cpu.pressure." +:+ key ∈ SNAPSHOT_KEYS /\ (forall x, snapshot_text ("cpu.pressure." +:+ key) x = pressure_text key x))
    as (Hsk & Ht).
  { apply list.elem_of_cons in Hk as [->|[->|[]%not_elem_of_nil]%list.elem_of_cons];
      (split; [apply mem_string_spec; reflexivity|done]). }
  pose proof (snapshot_keyed before bl "start" a _ K before_levels before_typed before_rows Hsk) as Ha. rewrite Hlb, Ht in Ha.
  pose proof (snapshot_keyed after al "end" b _ K after_levels after_typed after_rows Hsk) as Hb. rewrite Hl, Ht in Hb.
  destruct (level_pressure_text key lb (last_of_typed _ _ _ _ before_levels before_typed Hlb) Hk) as (s & Es & Ts).
  destruct (level_pressure_text key l (last_of_typed _ _ _ _ after_levels after_typed Hl) Hk) as (e & Ee & Te).
  rewrite Ts in Ha. rewrite Te in Hb. exists lb, s, e. rewrite stored_start, stored_end, stored_difference, keyed_difference by done.
  repeat (split; [done|]). split; [|split; [|done]].
  - eapply (keyed_count K); [| |exact Ha]; [done|]. intros x Hx. apply elem_of_app. by left.
  - eapply (keyed_count K); [| |exact Hb]; [done|]. intros x Hx. apply elem_of_app. right. apply elem_of_app. by left.
Qed.

Lemma stored_parameter K l key : last_of K al = Some l -> key ∈ LIMIT_KEYS ->
  list.last (omap (parameter key) (of_level K rows)) = Some (limit_text key l).
Proof.
  intros Hl Hk. destruct (limit_snapshot key l Hk) as [Hs <-].
  assert (mem_string key PARAMETERS = true) as Hp.
  { unfold LIMIT_KEYS in Hk. by apply list.elem_of_cons in Hk as [->|[->|[]%not_elem_of_nil]%list.elem_of_cons]. }
  rewrite of_level_app, !omap_app. rewrite (parameter_of_level K key "end" b (cgroup_rows_window _ _ _ after_rows) eq_refl Hp).
  rewrite (no_parameter K key d), app_nil_r.
  - apply last_app_ne. pose proof (snapshot_keyed after al "end" b key K after_levels after_typed after_rows Hs) as H. by rewrite Hl in H.
  - pose proof (delta_rows_window before after bl al d before_levels after_levels difference) as Hw.
    eapply Forall_impl; [exact (proj2 (Forall_and _ _) (conj Hw delta_level_in))|]. intros r (Hr & _ & k & E). split; [done|].
    unfold unlimited. by rewrite E.
Qed.

Context (args : cell_args) (cell : Cell).
Abbreviation cgroup_table rs := ((fun r => zip_row CellRun.CGROUP_COLUMNS (cgroup_line args cell r)) <$> rs).

Lemma countable_level K : Forall countable (of_level K rows).
Proof.
  apply Forall_forall. intros r Hr. pose proof counts as Hc. rewrite Forall_forall in Hc. apply Hc.
  apply list_elem_of_In, List.filter_In in Hr as [Hr _]. by apply list_elem_of_In.
Qed.

Lemma quota_finite K l q : last_of K al = Some l -> quota_text l = str_of_Z q -> 0 <= q -> isfinite (flit q 1) = true.
Proof.
  intros Hl Hq Hq0. pose proof (snapshot_keyed after al "end" b "cpu.max.quota" K after_levels after_typed after_rows ltac:(by apply mem_string_spec)) as H.
  rewrite Hl in H. apply keyed_last in H as (r & Hr & _ & _ & Ev). change (snapshot_text "cpu.max.quota" l) with (quota_text l) in Ev.
  pose proof counts as Hc. rewrite Forall_forall in Hc. destruct (Hc r) as [Hu|(n & Hn & En & Hf)].
  - apply elem_of_app. right. apply elem_of_app. by left.
  - unfold unlimited in Hu. apply andb_true_iff in Hu as [_ Hu]. by rewrite Ev, Hq, str_of_Z_not_max in Hu.
  - rewrite Ev, Hq in En. by rewrite (str_of_Z_count q n Hn En).
Qed.

(** The summary of the rows of the level of kind [K]. *)
Lemma summarize_level K l : last_of K al = Some l -> exists lb u n t w v,
  last_of K bl = Some lb /\ grown (by_path bl) "usage_usec" l u /\ grown (by_path bl) "nr_periods" l n /\
  grown (by_path bl) "nr_throttled" l t /\ grown (by_path bl) "throttled_usec" l w /\
  foldM cgroup_step {| cv_values := []; cv_parameters := [] |} (cgroup_table (of_level K rows)) = Ok v /\
  summarize v = level_summary u n t w (level_quota l) (stall "some_total_usec" lb l) (stall "full_total_usec" lb l).
Proof.
  intros Hl. destruct (analysis_lines_fold args cell _ (countable_level K) {| cv_values := []; cv_parameters := [] |}) as (v & E & V & P).
  destruct (stored_delta K l "usage_usec" Hl ltac:(by apply mem_string_spec)) as (u & Gu & Du).
  destruct (stored_delta K l "nr_periods" Hl ltac:(by apply mem_string_spec)) as (n & Gn & Dn).
  destruct (stored_delta K l "nr_throttled" Hl ltac:(by apply mem_string_spec)) as (t & Gt & Dt).
  destruct (stored_delta K l "throttled_usec" Hl ltac:(by apply mem_string_spec)) as (w & Gw & Dw).
  destruct (stored_pressure K l "some_total_usec" Hl ltac:(by apply mem_string_spec)) as (lb & s1 & e1 & Hlb & S1 & E1 & Ps1 & Pe1 & N1 & A1 & B1).
  destruct (stored_pressure K l "full_total_usec" Hl ltac:(by apply mem_string_spec)) as (lb' & s2 & e2 & Hlb' & S2 & E2 & Ps2 & Pe2 & N2 & A2 & B2).
  assert (lb' = lb) as -> by congruence.
  exists lb, u, n, t, w, v. repeat (split; [done|]).
  assert (forall k x, 0 <= x -> list.last (omap (stored "measurement_delta" k) (of_level K rows)) = Some (str_of_Z x) ->
    delta v k = Some (flit x 1)) as Hd.
  { intros k x Hx Hk. unfold delta. by rewrite V, Hk, py_float_int. }
  assert (forall k x y, omap (stored "measurement_delta" k) (of_level K rows) = [] -> 0 <= x -> 0 <= y ->
    list.last (omap (stored "start" k) (of_level K rows)) = Some (str_of_Z x) ->
    list.last (omap (stored "end" k) (of_level K rows)) = Some (str_of_Z y) -> delta v k = Some (fsub (flit y 1) (flit x 1))) as Hp.
  { intros k x y Hk Hx Hy Ha Hb. unfold delta. by rewrite !V, Hk, Ha, Hb, !py_float_int. }
  unfold summarize, level_summary, stall. rewrite S1, E1, S2, E2.
  rewrite (Hd "cpu.stat.usage_usec" u (grown_nonneg _ _ _ _ Gu) Du), (Hd "cpu.stat.nr_periods" n (grown_nonneg _ _ _ _ Gn) Dn), (Hd "cpu.stat.nr_throttled" t (grown_nonneg _ _ _ _ Gt) Dt),
    (Hd "cpu.stat.throttled_usec" w (grown_nonneg _ _ _ _ Gw) Dw), (Hp "cpu.pressure.some_total_usec" s1 e1 N1 Ps1 Pe1 A1 B1), (Hp "cpu.pressure.full_total_usec" s2 e2 N2 Ps2 Pe2 A2 B2).
  f_equal. unfold utilization. rewrite !P, (stored_parameter K l "cpu.max.quota" Hl ltac:(by apply mem_string_spec)),
    (stored_parameter K l "cpu.max.period" Hl ltac:(by apply mem_string_spec)).
  change (limit_text "cpu.max.quota" l) with (quota_text l).
  destruct (typed_level_limits l (last_of_typed _ _ _ _ after_levels after_typed Hl)) as [[[Hq ->]|(q & Hq & -> & Hq0)] _].
  - by rewrite Hq.
  - rewrite Hq, str_of_Z_not_max, number_int by (done || by eapply quota_finite). done.
Qed.

Lemma selected_lines kinds :
  list.head (List.filter (fun rs => match rs with [] => false | _ => true end) (rows_of_level (cgroup_table rows) <$> kinds)) =
  match pick_level kinds al with Some (K, _) => Some (cgroup_table (of_level K rows)) | None => None end.
Proof.
  induction kinds as [|K kinds IH]; [done|]. cbn [fmap list_fmap List.filter pick_level].
  rewrite (rows_of_level_lines args cell K rows). pose proof (last_of_exists K al) as Hal. pose proof (last_of_exists K bl) as Hbl.
  destruct (last_of K al) as [l|] eqn:Hl.
  - destruct (stored_delta K l "usage_usec" Hl ltac:(by apply mem_string_spec)) as (n & _ & Hn).
    destruct (of_level K rows) as [|r rs]; [done|]. done.
  - assert (of_level K rows = []) as ->; [|exact IH]. rewrite of_level_app.
    rewrite (no_level K bl a), (no_level K al b), (no_level K al d); [done| | | | | |]; try done.
    + eapply List.Forall_impl; [|exact delta_level_in]. by intros r [? _].
    + by eapply snapshot_level_in.
    + by eapply snapshot_level_in.
    + by rewrite same_kinds.
Qed.

Lemma summary_of_lines :
  match pick_level FreezePolicies.LEVELS al with
  | None => summary_of_rows (cgroup_table rows) = Ok (None, [])
  | Some (K, l) => exists lb u n t w parameters,
      last_of K bl = Some lb /\ grown (by_path bl) "usage_usec" l u /\ grown (by_path bl) "nr_periods" l n /\
      grown (by_path bl) "nr_throttled" l t /\ grown (by_path bl) "throttled_usec" l w /\
      summary_of_rows (cgroup_table rows) =
      let* s := level_summary u n t w (level_quota l) (stall "some_total_usec" lb l) (stall "full_total_usec" lb l) in
      Ok (Some s, parameters)
  end.
Proof.
  unfold summary_of_rows, selected_rows. change ["container_leaf"; "container_scope"; "pod_slice"] with FreezePolicies.LEVELS.
  rewrite (selected_lines FreezePolicies.LEVELS).
  destruct (pick_level FreezePolicies.LEVELS al) as [[K l]|] eqn:Hp; [|done].
  assert (last_of K al = Some l) as Hl.
  { clear -Hp. revert Hp. induction FreezePolicies.LEVELS as [|K' kinds IH]; cbn [pick_level]; [done|].
    destruct (last_of K' al) eqn:E; [|exact IH]. by intros [= <- <-]. }
  destruct (summarize_level K l Hl) as (lb & u & n & t & w & v & ? & ? & ? & ? & ? & E & S).
  exists lb, u, n, t, w, (cv_parameters v). repeat (split; [done|]). rewrite E. cbn [rbind]. by rewrite S.
Qed.
End TwoRecords.

(** ** A campaign with one cell *)

Section OneCampaign.
Context (args : cell_args) (cell : Cell).
Let block := str_of_Z (ca_block_id args).

(** The campaign that the analysis sees. *)
Definition one_cell (summary : option cgroup_summary) (values : metric_values) (parameters : list (string * string)) : campaign_cells :=
  {| cc_cells := [{| cs_block := Some block; cs_cell := Some (cell_id cell); cs_workload := Some (workload cell);
                     cs_policy := Some (policy cell); cs_condition := Some (condition cell); cs_cgroup := summary;
                     cs_throughput := first_metric values (THROUGHPUT_METRICS (workload cell));
                     cs_latency := first_metric values ["latency_p99_ms"; "p99_latency_ms"];
                     cs_metrics := values; cs_parameters := parameters |}];
     cc_incomplete := [] |}.

Abbreviation cgroup_table rs := ((fun r => zip_row CellRun.CGROUP_COLUMNS (cgroup_line args cell r)) <$> rs).
Abbreviation metric_table rs := ((fun r => zip_row CellRun.METRIC_COLUMNS (metric_line_of args cell r)) <$> rs).

Lemma rows_of_key_all {A} (f : A -> csv_row) rs key : (forall r, row_key (f r) = key) -> rows_of_key (f <$> rs) key = f <$> rs.
Proof.
  intros Hk. unfold rows_of_key. induction rs as [|r rs IH]; [done|]. cbn [fmap list_fmap List.filter].
  rewrite bool_decide_true by apply Hk. f_equal. exact IH.
Qed.

Lemma sorted_one {A} (key : cell_key) (x : A) : sorted_items [(key, x)] = Ok [(key, x)].
Proof.
  unfold sorted_items. cbn [existsb fst]. assert (incomparable key key = false) as ->; [|done].
  unfold incomparable. rewrite bool_decide_true by done. by destruct (snd key).
Qed.

Lemma load_one_cell (r : CellResult) rows ms : cr_status r = "complete" -> strip (ca_phase args) = ca_phase args ->
  load_tables (ca_phase args) [zip_row CellRun.BLOCK_COLUMNS (block_line args cell r)] (cgroup_table rows) (metric_table ms) =
  let* (s, parameters) := summary_of_rows (cgroup_table rows) in
  let* values := values_of_metrics (metric_table ms) in
  Ok (one_cell s values parameters).
Proof.
  intros Hs Hp. set (row := zip_row CellRun.BLOCK_COLUMNS (block_line args cell r)).
  assert (column row "phase" = Some (ca_phase args) /\ row_key row = (Some block, Some (cell_id cell)) /\
    column row "status" = Some (cr_status r) /\ column row "workload" = Some (workload cell) /\
    column row "policy" = Some (policy cell) /\ column row "condition" = Some (condition cell))
    as (H1 & H2 & H3 & H4 & H5 & H6) by (repeat split; reflexivity).
  unfold load_tables. cbn [foldM]. unfold block_step at 1. unfold stripped. rewrite H1. cbn [rbind]. rewrite Hp, String.eqb_refl.
  assert (String.eqb (ca_phase args) "pilot" && String.eqb (ca_phase args) "confirmatory" = false) as ->.
  { destruct (String.eqb_spec (ca_phase args) "pilot") as [->|]; done. }
  cbn [negb raise_if rbind assoc_has]. rewrite H3, Hs. change (is_text (Some "complete") "complete") with true. cbn [app].
  rewrite H2. change (assoc_has _ []) with false. cbn [raise_if rbind]. rewrite sorted_one. cbn [rbind mapM]. unfold cell_of. cbn [fst snd].
  rewrite !rows_of_key_all by done. rewrite H4, H5, H6.
  destruct (summary_of_rows _) as [[s parameters]|e]; [|done]. cbn [rbind].
  destruct (values_of_metrics _) as [values|e]; done.
Qed.
End OneCampaign.

(** The three files of a campaign as the analysis reads them. *)
Definition read_campaign (phase : string) (blocks cgroups metrics : csv_stream) : result campaign_cells :=
  let* blocks := csv_table "blocks.csv" BLOCK_COLUMNS blocks in
  let* cgroups := csv_table "cgroups.csv" CGROUP_COLUMNS cgroups in
  let* metrics := csv_table "metrics.csv" METRIC_COLUMNS metrics in
  load_tables phase blocks cgroups metrics.

Lemma read_one_cell args cell (r : CellResult) rows ms : cr_status r = "complete" -> strip (ca_phase args) = ca_phase args ->
  fitting [CellRun.BLOCK_COLUMNS; block_line args cell r] ->
  fitting (CellRun.CGROUP_COLUMNS :: (cgroup_line args cell <$> rows)) ->
  fitting (CellRun.METRIC_COLUMNS :: (metric_line_of args cell <$> ms)) ->
  read_campaign (ca_phase args) (csv_file [CellRun.BLOCK_COLUMNS; block_line args cell r])
    (csv_file (CellRun.CGROUP_COLUMNS :: (cgroup_line args cell <$> rows)))
    (csv_file (CellRun.METRIC_COLUMNS :: (metric_line_of args cell <$> ms))) =
  let* (s, parameters) := summary_of_rows ((fun r => zip_row CellRun.CGROUP_COLUMNS (cgroup_line args cell r)) <$> rows) in
  let* values := values_of_metrics ((fun r => zip_row CellRun.METRIC_COLUMNS (metric_line_of args cell r)) <$> ms) in
  Ok (one_cell args cell s values parameters).
Proof.
  intros Hs Hp F1 F2 F3. unfold read_campaign.
  rewrite !csv_table_file; [|try done..]; try by (apply Forall_fmap, Forall_forall).
  - cbn [rbind]. rewrite <- !list_fmap_compose. by apply load_one_cell.
  - by constructor.
Qed.

(** C5: What a cell stores is what is analyzed.  When the files hold the rows that
    a complete cell stores for two records of the probe, the analysis sees
    exactly one cell, with the identity, workload, policy and condition of the
    run, and the summary of its counters is that of one level: the last of the
    first kind among leaf, scope and Pod, computed from the growth of its four
    counters between the records, its quota at the end and its stalls. *)
Theorem stored_cell_summarized (args : cell_args) (cell : Cell) (r : CellResult) before after bl al a b d ms :
  cr_status r = "complete" -> strip (ca_phase args) = ca_phase args ->
  typed_record before = true -> typed_record after = true -> levels before = Ok bl -> levels after = Ok al ->
  cgroup_rows before "start" = Ok a -> cgroup_rows after "end" = Ok b -> delta_rows before after = Ok d ->
  (forall K, existsb (kind_is K) bl = existsb (kind_is K) al) -> Forall countable (a ++ b ++ d) ->
  fitting [CellRun.BLOCK_COLUMNS; block_line args cell r] ->
  fitting (CellRun.CGROUP_COLUMNS :: (cgroup_line args cell <$> (a ++ b ++ d)%list)) ->
  fitting (CellRun.METRIC_COLUMNS :: (metric_line_of args cell <$> ms)) ->
  let read := read_campaign (ca_phase args) (csv_file [CellRun.BLOCK_COLUMNS; block_line args cell r])
                (csv_file (CellRun.CGROUP_COLUMNS :: (cgroup_line args cell <$> (a ++ b ++ d)%list)))
                (csv_file (CellRun.METRIC_COLUMNS :: (metric_line_of args cell <$> ms))) in
  let values := values_of_metrics ((fun r => zip_row CellRun.METRIC_COLUMNS (metric_line_of args cell r)) <$> ms) in
  match pick_level FreezePolicies.LEVELS al with
  | None => read = let* values := values in Ok (one_cell args cell None values [])
  | Some (K, l) => exists lb u n t w parameters,
      last_of K bl = Some lb /\ grown (by_path bl) "usage_usec" l u /\ grown (by_path bl) "nr_periods" l n /\
      grown (by_path bl) "nr_throttled" l t /\ grown (by_path bl) "throttled_usec" l w /\
      read = let* s := level_summary u n t w (level_quota l) (stall "some_total_usec" lb l) (stall "full_total_usec" lb l) in
             let* values := values in Ok (one_cell args cell (Some s) values parameters)
  end.
Proof.
  intros Hs Hp Htb Hta Hlb Hla Hra Hrb Hd Hk Hc F1 F2 F3 read values. unfold read. rewrite read_one_cell by done.
  pose proof (summary_of_lines before after bl al a b d Hlb Hla Htb Hta Hra Hrb Hd Hk Hc args cell) as H.
  destruct (pick_level FreezePolicies.LEVELS al) as [[K l]|]; [|by rewrite H].
  destruct H as (lb & u & n & t & w & ps & ? & ? & ? & ? & ? & E). exists lb, u, n, t, w, ps. repeat (split; [done|]).
  rewrite E. by destruct (level_summary _ _ _ _ _ _ _).
Qed.

(** ** The laboratory's cell *)

Definition countable_b (r : cgroup_row) : bool :=
  unlimited r ||
  match py_int (cg_value r) with
  | Some n => (0 <=? n) && String.eqb (cg_value r) (str_of_Z n) && isfinite (flit n 1)
  | None => false
  end.
Lemma countable_true rows : forallb countable_b rows = true -> Forall countable rows.
Proof.
  intros H. apply Forall_forall. intros r Hr. rewrite forallb_forall in H. specialize (H r (proj1 (list_elem_of_In _ _) Hr)).
  unfold countable_b in H. apply orb_true_iff in H as [H|H]; [by left|]. right. destruct (py_int (cg_value r)) as [n|]; [|done].
  apply andb_true_iff in H as [[Hn%Z.leb_le He%String.eqb_eq]%andb_true_iff Hf]. by exists n.
Qed.

Definition lab_metrics : list metric_row :=
  [{| mr_timestamp := "2026-10-24T12:00:00Z"; mr_source := "loadgen"; mr_metric := "bogo_ops_per_second"; mr_value := "12.5";
      mr_unit := "ops/s"; mr_labels := "{}" |}].
Definition lab_campaign : result campaign_cells :=
  read_campaign "pilot" (csv_file [CellRun.BLOCK_COLUMNS; block_line lab_args lab_cell lab_result])
    (csv_file (CellRun.CGROUP_COLUMNS :: (cgroup_line lab_args lab_cell <$> lab_rows)))
    (csv_file (CellRun.METRIC_COLUMNS :: (metric_line_of lab_args lab_cell <$> lab_metrics))).

Lemma stored_cell_summarized_witness : exists lb l u n t w parameters,
  pick_level FreezePolicies.LEVELS (ok_or [] (levels (probe_record 1))) = Some ("container_scope", l) /\
  grown (by_path (ok_or [] (levels (probe_record 0)))) "nr_throttled" l t /\
  lab_campaign = let* s := level_summary u n t w (level_quota l) (stall "some_total_usec" lb l) (stall "full_total_usec" lb l) in
                 Ok (one_cell lab_args lab_cell (Some s) [("bogo_ops_per_second", flit 125 10)] parameters).
Proof.
  pose proof (stored_cell_summarized lab_args lab_cell lab_result (probe_record 0) (probe_record 1)
    (ok_or [] (levels (probe_record 0))) (ok_or [] (levels (probe_record 1)))
    (ok_or [] (cgroup_rows (probe_record 0) "start")) (ok_or [] (cgroup_rows (probe_record 1) "end"))
    (ok_or [] (delta_rows (probe_record 0) (probe_record 1))) lab_metrics) as H.
  assert (exists l, pick_level FreezePolicies.LEVELS (ok_or [] (levels (probe_record 1))) = Some ("container_scope", l)) as [l Hl]
    by (eexists; vm_compute; reflexivity).
  rewrite Hl in H. destruct H as (lb & u & n & t & w & ps & _ & _ & _ & Ht & _ & Hread).
  - reflexivity.
  - reflexivity.
  - vm_compute. reflexivity.
  - vm_compute. reflexivity.
  - vm_compute. reflexivity.
  - vm_compute. reflexivity.
  - vm_compute. reflexivity.
  - vm_compute. reflexivity.
  - vm_compute. reflexivity.
  - intros K. vm_compute. reflexivity.
  - apply countable_true. vm_compute. reflexivity.
  - apply fitting_true. vm_compute. reflexivity.
  - apply fitting_true. vm_compute. reflexivity.
  - apply fitting_true. vm_compute. reflexivity.
  - exists lb, l, u, n, t, w, ps. split; [exact Hl|]. split; [exact Ht|]. exact Hread.
Defined.

(** Half a second of CPU, all of the quota used, three of ten periods throttled. *)
Example lab_summary :
  match lab_campaign with
  | Ok c => (fun c => (cs_throughput c, (fun s => (cpu_usage_seconds s, quota_utilization s, throttled_period_ratio s)) <$> cs_cgroup c)) <$> cc_cells c
  | Raise _ => []
  end = [(Some (flit 125 10), Some (Some (flit 5 10), Some (flit 1 1), Some (flit 3 10)))].
Proof. vm_compute. reflexivity. Qed.
