(* ===== verification/Quota.v ===== *)
(** [linux-sched/experiments/freeze_quota.py] and [cgroup_stats.py]: the frozen
    CPU quotas of the scheduler campaign and the counters they are based on. *)

From Stdlib Require Import ZArith Bool Ascii String Lia SpecFloat.
From stdpp Require Import base list strings option.
From S2P Require Import Prelude PyStr PyFloat PyVal Json PyConv Sha256.

Open Scope string_scope.
Open Scope Z_scope.

(** ** [cgroup_stats.py] *)

Module CgroupStats.

Definition REQUIRED : list string := ["usage_usec"; "nr_periods"; "nr_throttled"; "throttled_usec"].

(** Counters by name. *)
Definition counters : Type := list (string * Z).

Fixpoint cget (k : string) (c : counters) : option Z :=
  match c with
  | [] => None
  | (k', v) :: c' => if String.eqb k k' then Some v else cget k c'
  end.
Fixpoint cset (k : string) (v : Z) (c : counters) : counters :=
  match c with
  | [] => [(k, v)]
  | (k', v') :: c' => if String.eqb k k' then (k', v) :: c' else (k', v') :: cset k v c'
  end.

Definition stat_line (values : counters) (line : string) : result counters :=
  match words line with
  | [name; text] =>
      if mem_string name REQUIRED then
        match py_int text with
        | Some value =>
            raise_if (value <? 0) ValueError ("invalid cpu.stat counter: " +:+ name) ;;;
            Ok (cset name value values)
        | None => Raise (Exn ValueError ("invalid cpu.stat counter: " +:+ name))
        end
      else Ok values
  | _ => Ok values
  end.

Definition missing_counter {A} (name : string) : result A :=
  Raise (Exn ValueError ("missing required cpu.stat counter: " +:+ name)).

Definition parse_cpu_stat (text : string) : result counters :=
  let* values := foldM stat_line [] (splitlines text) in
  iterM (fun name => match cget name values with Some _ => Ok tt | None => missing_counter name end) REQUIRED ;;;
  Ok values.

Definition difference (before after : counters) (name : string) : result (string * Z) :=
  match cget name after, cget name before with
  | Some a, Some b =>
      raise_if (a - b <? 0) ValueError ("counter regressed: " +:+ name) ;;;
      Ok (name, a - b)
  | _, _ => missing_counter name
  end.

(** The counters of the window and the share of throttled periods. *)
Definition delta (before after : counters) : result (counters * float) :=
  let* result := mapM (difference before after) REQUIRED in
  let periods := default 0 (cget "nr_periods" result) in
  let throttled := default 0 (cget "nr_throttled" result) in
  raise_if (periods =? 0) ValueError "no quota periods observed" ;;;
  let* ratio := truediv throttled periods in
  Ok (result, ratio).

(** An item to merge: parsed counters or the text of a snapshot. *)
Definition item_counters (item : counters + string) : result counters :=
  match item with inl c => Ok c | inr text => parse_cpu_stat text end.

Definition add_stats (total item : counters) : result counters :=
  mapM (fun t => match cget (fst t) item with
                 | Some v => Ok (fst t, snd t + v)
                 | None => Raise (Exn KeyError (fst t))
                 end) total.
Definition merge_cpu_stats (items : list (counters + string)) : result counters :=
  foldM (fun total item => let* parsed := item_counters item in add_stats total parsed)
    ((fun name => (name, 0)) <$> REQUIRED) items.

(** The total that [merge_cpu_stats] returns. *)
Definition total_of (items : list counters) (name : string) : Z :=
  sum_Z ((fun c => default 0 (cget name c)) <$> items).

Definition complete (c : counters) : Prop := forall name, name ∈ REQUIRED -> is_Some (cget name c).

Lemma sum_Z_cons x l : sum_Z (x :: l) = x + sum_Z l.
Proof.
  unfold sum_Z. cbn [fold_left]. change (0 + x) with x.
  assert (forall a, fold_left Z.add l a = a + fold_left Z.add l 0) as H; [|apply H].
  induction l as [|y l IH]; intros a; cbn [fold_left]; [lia|]. rewrite IH, (IH (0 + y)). lia.
Qed.

(** A tuple of the four counters. *)
Definition four (f : string -> Z) : counters := (fun name => (name, f name)) <$> REQUIRED.

Lemma add_stats_four f c : complete c -> add_stats (four f) c = Ok (four (fun n => f n + default 0 (cget n c))).
Proof.
  intros Hc. apply mapM_Ok. unfold four. rewrite Forall2_fmap_l, Forall2_fmap_r.
  assert (forall l, (forall n, n ∈ l -> n ∈ REQUIRED) ->
    Forall2 (fun x y : string => match cget (fst (x, f x)) c with
      | Some v => Ok (fst (x, f x), snd (x, f x) + v)
      | None => Raise (Exn KeyError (fst (x, f x)))
      end = Ok (y, f y + default 0 (cget y c))) l l) as H; [|by apply H].
  intros l. induction l as [|n l IH]; intros Hl; constructor; [|apply IH; intros; apply Hl; by right].
  cbn [fst snd]. destruct (Hc n) as [v ->]; [apply Hl; left|]. done.
Qed.

Lemma merge_total items : forall f,
  Forall complete items ->
  foldM (fun total item => let* parsed := item_counters item in add_stats total parsed) (four f) (inl <$> items) =
  Ok (four (fun n => f n + total_of items n)).
Proof.
  induction items as [|c items IH]; intros f Hc; [|rewrite fmap_cons]; cbn [foldM].
  - unfold four, total_of. cbn. repeat f_equal; lia.
  - apply Forall_cons_iff in Hc as [Hc Hi]. cbn [item_counters rbind]. rewrite add_stats_four by done.
    cbn [rbind]. rewrite IH by done.
    f_equal. unfold four. apply list_fmap_ext. intros i n _. unfold total_of. cbn [fmap list_fmap].
    rewrite sum_Z_cons. f_equal. lia.
Qed.

Lemma cget_four f name : name ∈ REQUIRED -> cget name (four f) = Some (f name).
Proof.
  intros Hn. repeat (apply elem_of_cons in Hn as [->|Hn]; [reflexivity|]). by apply elem_of_nil in Hn.
Qed.

Lemma differences_four f g :
  (forall n, n ∈ REQUIRED -> f n <= g n) ->
  mapM (difference (four f) (four g)) REQUIRED = Ok (four (fun n => g n - f n)).
Proof.
  intros Hle. apply mapM_Ok. unfold four at 3. rewrite Forall2_fmap_r.
  assert (forall l, (forall n, n ∈ l -> n ∈ REQUIRED) ->
    Forall2 (fun x y => difference (four f) (four g) x = Ok (y, g y - f y)) l l) as H; [|by apply H].
  intros l. induction l as [|n l IH]; intros Hl; constructor; [|apply IH; intros; apply Hl; by right].
  assert (n ∈ REQUIRED) as Hn by (apply Hl; left). unfold difference. rewrite !cget_four by done.
  specialize (Hle n Hn). by rewrite (proj2 (Z.ltb_ge _ _)) by lia.
Qed.

(** The counter of one container over its window. *)
Definition grew (p : counters * counters) : Prop :=
  complete (fst p) /\ complete (snd p) /\
  forall n, n ∈ REQUIRED -> default 0 (cget n (fst p)) <= default 0 (cget n (snd p)).

Definition window (pairs : list (counters * counters)) (n : string) : Z :=
  sum_Z ((fun p => default 0 (cget n (snd p)) - default 0 (cget n (fst p))) <$> pairs).

Lemma window_total pairs n : window pairs n = total_of (snd <$> pairs) n - total_of (fst <$> pairs) n.
Proof.
  unfold window, total_of. induction pairs as [|p pairs IH]; [done|].
  rewrite !fmap_cons, !sum_Z_cons, IH. lia.
Qed.

Lemma window_nonneg pairs n : Forall grew pairs -> n ∈ REQUIRED -> 0 <= window pairs n.
Proof.
  intros Hp Hn. unfold window. induction Hp as [|p pairs Hg _ IH]; [done|].
  rewrite fmap_cons, sum_Z_cons. destruct Hg as (_ & _ & Hg). specialize (Hg n Hn). lia.
Qed.

(** The window of a Pod is the sum of the windows of its containers: when
    every container has all counters at both ends and none regressed, merging
    the snapshots and taking the difference succeeds with the sums of the
    differences, and fails only for a Pod without quota periods (or a ratio no
    float can hold). *)
Theorem merged_window pairs :
  Forall grew pairs ->
  exists before after,
    merge_cpu_stats (inl ∘ fst <$> pairs) = Ok before /\ merge_cpu_stats (inl ∘ snd <$> pairs) = Ok after /\
    delta before after =
      (raise_if (window pairs "nr_periods" =? 0) ValueError "no quota periods observed" ;;;
       let* ratio := truediv (window pairs "nr_throttled") (window pairs "nr_periods") in
       Ok (four (window pairs), ratio)).
Proof.
  intros Hp. set (total l n := 0 + total_of l n). exists (four (total (fst <$> pairs))), (four (total (snd <$> pairs))).
  split; [|split].
  - rewrite list_fmap_compose. apply (merge_total _ (fun _ => 0)). rewrite Forall_fmap. eapply Forall_impl; [|exact Hp]. by intros p [? _].
  - rewrite list_fmap_compose. apply (merge_total _ (fun _ => 0)). rewrite Forall_fmap. eapply Forall_impl; [|exact Hp]. by intros p (_ & ? & _).
  - unfold delta. rewrite differences_four.
    + assert (four (fun n => total (snd <$> pairs) n - total (fst <$> pairs) n) = four (window pairs)) as ->.
      { unfold four. apply list_fmap_ext. intros i n _. by rewrite window_total. }
      cbn [rbind]. rewrite !cget_four by (apply list_elem_of_In; simpl; tauto). done.
    + intros n Hn. pose proof (window_nonneg pairs n Hp Hn) as Hw. rewrite window_total in Hw. unfold total. lia.
Qed.

(** Two containers: one throttled half of its periods, one never. *)
Definition snapshot (u p t us : Z) : counters :=
  [("usage_usec", u); ("nr_periods", p); ("nr_throttled", t); ("throttled_usec", us)].
Definition sample_pairs : list (counters * counters) :=
  [(snapshot 10 0 0 0, snapshot 900 10 5 400); (snapshot 7 2 1 3, snapshot 70 12 1 3)].

Lemma snapshot_complete u p t us : complete (snapshot u p t us).
Proof. intros n Hn. repeat (apply elem_of_cons in Hn as [->|Hn]; [by eexists|]). by apply elem_of_nil in Hn. Qed.

Lemma sample_grew : Forall grew sample_pairs.
Proof.
  repeat constructor; cbn [fst snd]; try apply snapshot_complete;
    intros n Hn; repeat (apply elem_of_cons in Hn as [->|Hn]; [vm_compute; discriminate|]);
    by apply elem_of_nil in Hn.
Qed.

Lemma merged_window_witness :
  exists before after ratio,
    merge_cpu_stats (inl ∘ fst <$> sample_pairs) = Ok before /\
    merge_cpu_stats (inl ∘ snd <$> sample_pairs) = Ok after /\
    delta before after = Ok (snapshot 953 20 5 400, ratio).
Proof.
  destruct (merged_window sample_pairs sample_grew) as (before & after & H1 & H2 & H3).
  eexists before, after, _. split; [exact H1|]. split; [exact H2|]. rewrite H3. vm_compute. reflexivity.
Defined.

End CgroupStats.

(** ** [freeze_quota.py]

    The CSV file is given by its column names and rows, as [csv.DictReader]
    yields them: a row maps columns to texts, or to [None] when it is short. *)

Module FreezeQuota.

Definition TARGET_THROTTLED_RATIO : float := flit 10 100.
Definition HEALTHY_MAX_THROTTLED_RATIO : float := flit 90 100.
Definition SATURATION_WORKLOADS : list string := ["stress-ng"].
Definition CONFIRMATORY_WORKLOADS : list string :=
  ["http"; "ffmpeg"; "postgres"; "stress-ng"; "mixed-http-ffmpeg"].

Record Calibration : Type := {
  workload : string; cpu_limit : string; throttled_period_ratio : float; healthy : bool
}.

Definition parse_bool (value workload : string) : result bool :=
  let text := str_lower (strip value) in
  if mem_string text ["1"; "true"; "yes"; "y"] then Ok true
  else if mem_string text ["0"; "false"; "no"; "n"] then Ok false
  else Raise (Exn ValueError (workload +:+ ": invalid healthy value: " +:+ repr_str value)).

(** [row[k]] where a [str] method follows. *)
Definition text_field (row : pydict) (k : string) : result string :=
  let* v := dindex k row in
  match v with VStr s => Ok s | _ => Raise (Exn AttributeError "'NoneType' object has no attribute 'strip'") end.

Definition read_row (row : pydict) : result Calibration :=
  let* w := text_field row "workload" in
  let workload := strip w in
  let* limit := text_field row "cpu_limit" in
  let* v := dindex "throttled_period_ratio" row in
  let* ratio := float_of_val v in
  let* h := text_field row "healthy" in
  let* healthy := parse_bool h workload in
  Ok {| workload := workload; cpu_limit := strip limit; throttled_period_ratio := ratio; healthy := healthy |}.

Definition required_columns : list string := ["cpu_limit"; "healthy"; "throttled_period_ratio"; "workload"].

Definition read_calibrations (source : string) (fieldnames : list string) (rows : list pydict)
    : result (list Calibration) :=
  let missing := List.filter (fun c => negb (mem_string c fieldnames)) required_columns in
  raise_if (match missing with [] => false | _ => true end) ValueError
    (source +:+ ": missing required column(s): " +:+ py_repr (VList (VStr <$> missing))) ;;;
  mapM read_row rows.

(** The first row of each workload, in order, and the errors so far. *)
Definition add_row (s : list Calibration * list string) (row : Calibration) : list Calibration * list string :=
  if existsb (fun r => String.eqb (workload r) (workload row)) (fst s)
  then (fst s, (snd s ++ [workload row +:+ ": duplicate calibration row"])%list)
  else ((fst s ++ [row])%list, snd s).

Definition seen_get (seen : list Calibration) (w : string) : option Calibration :=
  List.find (fun r => String.eqb (workload r) w) seen.

Definition error_if (b : bool) (msg : string) : list string := if b then [msg] else [].

Definition row_max (max_ratio : float) (w : string) : float :=
  if mem_string w SATURATION_WORKLOADS then flit 1 1 else max_ratio.

Definition workload_errors (target_ratio max_ratio : float) (seen : list Calibration) (w : string) : list string :=
  match seen_get seen w with
  | None => [w +:+ ": no calibration row"]
  | Some row =>
      let ratio := throttled_period_ratio row in
      let row_max := row_max max_ratio w in
      (error_if (is_empty (cpu_limit row)) (w +:+ ": empty cpu_limit") ++
       error_if (negb (healthy row)) (w +:+ ": workload is not healthy under " +:+ cpu_limit row) ++
       error_if (fltb ratio target_ratio)
         (w +:+ ": throttled_period_ratio " +:+ format_f 4 ratio +:+ " < " +:+ format_f 2 target_ratio +:+
          "; tighten the limit and rerun the pilot") ++
       error_if (fltb row_max ratio)
         (w +:+ ": throttled_period_ratio " +:+ format_f 4 ratio +:+ " > " +:+ format_f 2 row_max +:+
          "; the workload is over-throttled"))%list
  end.

Definition unknown_workloads (seen : list Calibration) : list string :=
  sort_by String.leb (List.filter (fun w => negb (mem_string w CONFIRMATORY_WORKLOADS)) (workload <$> seen)).

Definition quota_json (seen : list Calibration) (w : string) : result pyval :=
  match seen_get seen w with
  | Some row =>
      Ok (VDict [ ("workload", VStr w); ("cpu_limit", VStr (cpu_limit row));
                  ("observed_throttled_period_ratio", VFloat (round_digits 6 (throttled_period_ratio row))) ])
  | None => Raise (Exn KeyError w)
  end.

Definition freeze_errors (rows : list Calibration) (target_ratio max_ratio : float) : list string :=
  let '(seen, errors) := fold_left add_row rows ([], []) in
  let unknown := unknown_workloads seen in
  (errors ++ flat_map (workload_errors target_ratio max_ratio seen) CONFIRMATORY_WORKLOADS ++
   error_if (match unknown with [] => false | _ => true end)
     ("unknown workload(s): " +:+ py_repr (VList (VStr <$> unknown))))%list.

Definition freeze (rows : list Calibration) (target_ratio max_ratio : float) : result pydict :=
  let errors := freeze_errors rows target_ratio max_ratio in
  raise_if (match errors with [] => false | _ => true end) ValueError (join "; " errors) ;;;
  let seen := fst (fold_left add_row rows ([], [])) in
  let* quotas := mapM (quota_json seen) CONFIRMATORY_WORKLOADS in
  Ok [ ("schema_version", VInt 1); ("kind", VStr "frozen-cpu-quotas");
       ("target_throttled_period_ratio", VFloat target_ratio);
       ("maximum_throttled_period_ratio", VFloat max_ratio);
       ("control_scheduler", VStr "eevdf"); ("quotas", VList quotas) ].

Definition fingerprint (payload : pydict) : string :=
  sha256_hex (bytes_of_string (json_canonical (VDict payload))).

(** [main]: the exit status, what is written to the output (with [--json]; the
    YAML writer is a third-party package), and the printed lines. *)
Definition freeze_main (source output : string) (fieldnames : list string) (rows : list pydict)
    : result (Z * option string * list string) :=
  match (let* cs := read_calibrations source fieldnames rows in
         freeze cs TARGET_THROTTLED_RATIO HEALTHY_MAX_THROTTLED_RATIO) with
  | Ok manifest =>
      Ok (0, Some (json_indent false (VDict manifest) +:+ newline),
          ["frozen quotas: " +:+ output; "manifest sha256: " +:+ fingerprint manifest])
  | Raise e =>
      if caught_by [ValueError] e then Ok (1, None, ["FAIL: " +:+ exn_msg e]) else Raise e
  end.

(** ** Theorems *)

Lemma error_if_nil b msg : error_if b msg = [] -> b = false.
Proof. by destruct b. Qed.

(** Without duplicate errors every row was kept. *)
Lemma add_rows_nodup rows : forall seen errors out,
  fold_left add_row rows (seen, errors) = (out, []) ->
  errors = [] /\ out = (seen ++ rows)%list /\
  (NoDup (workload <$> seen) -> NoDup (workload <$> (seen ++ rows)%list)).
Proof.
  induction rows as [|r rows IH]; intros seen errors out; cbn [fold_left].
  { intros [= -> ->]. by rewrite app_nil_r. }
  unfold add_row at 2. cbn [fst snd]. destruct (existsb _ seen) eqn:E; intros H.
  - apply IH in H as [H _]. by destruct errors.
  - apply IH in H as (-> & -> & Hnd). rewrite <- app_assoc in *. split; [done|]. split; [done|].
    intros Hs. apply Hnd. rewrite fmap_app. apply list.NoDup_app. split; [done|]. split; [|apply NoDup_singleton].
    intros w Hw Hin. apply list_elem_of_singleton in Hin as ->.
    apply list_elem_of_fmap in Hw as (r' & Hr & Hin). apply not_true_iff_false in E. apply E.
    apply existsb_exists. exists r'. split; [by apply list_elem_of_In|]. by rewrite <- Hr, String.eqb_refl.
Qed.

Lemma NoDup_fmap_elem {A B} (f : A -> B) l x y :
  NoDup (f <$> l) -> x ∈ l -> y ∈ l -> f x = f y -> x = y.
Proof.
  induction l as [|z l IH]; intros Hnd Hx Hy Hf; [by apply elem_of_nil in Hx|].
  rewrite fmap_cons in Hnd. apply list.NoDup_cons in Hnd as [Hz Hnd].
  apply elem_of_cons in Hx as [->|Hx], Hy as [->|Hy]; [done|..|by apply IH].
  - destruct Hz. apply list_elem_of_fmap. by exists y.
  - destruct Hz. apply list_elem_of_fmap. exists x. by rewrite Hf.
Qed.

(** A row that may be frozen. *)
Record frozen_row (target_ratio max_ratio : float) (row : Calibration) : Prop := {
  fr_limit : cpu_limit row <> "";
  fr_healthy : healthy row = true;
  fr_target : fltb (throttled_period_ratio row) target_ratio = false;
  fr_max : fltb (row_max max_ratio (workload row)) (throttled_period_ratio row) = false
}.

Lemma seen_get_Some seen w row : seen_get seen w = Some row -> row ∈ seen /\ workload row = w.
Proof.
  intros H. apply List.find_some in H as [Hin He]. apply String.eqb_eq in He.
  by split; [apply list_elem_of_In|].
Qed.

Lemma workload_errors_nil target max seen w :
  workload_errors target max seen w = [] ->
  exists row, seen_get seen w = Some row /\ frozen_row target max row.
Proof.
  unfold workload_errors. destruct (seen_get seen w) as [row|] eqn:E; [|done]. intros H.
  apply app_eq_nil in H as [H1 H]. apply app_eq_nil in H as [H2 H]. apply app_eq_nil in H as [H3 H4].
  apply error_if_nil in H1, H2, H3, H4. exists row. split; [done|].
  apply seen_get_Some in E as [_ <-]. constructor; [by intros E; rewrite E in H1|by destruct (healthy row)|done|done].
Qed.

Lemma flat_map_nil {A B} (f : A -> list B) l : flat_map f l = [] -> forall x, x ∈ l -> f x = [].
Proof.
  induction l as [|y l IH]; cbn [flat_map]; intros H x Hx; [by apply elem_of_nil in Hx|].
  apply app_eq_nil in H as [H1 H2]. apply elem_of_cons in Hx as [->|Hx]; auto.
Qed.

(** When the quotas are frozen, every confirmatory workload has exactly one
    calibration row and there are no others; the row is healthy, has a limit,
    and its throttled ratio is neither below the target nor above the maximum;
    the manifest records the limit of each workload in the fixed order. *)
Theorem freeze_sound rows target_ratio max_ratio manifest :
  freeze rows target_ratio max_ratio = Ok manifest ->
  workload <$> rows ≡ₚ CONFIRMATORY_WORKLOADS /\
  Forall (frozen_row target_ratio max_ratio) rows /\
  exists quotas, dget "quotas" manifest = Some (VList quotas) /\
    Forall2 (fun w q => exists row, row ∈ rows /\ workload row = w /\
               dget_none "cpu_limit" (match q with VDict d => d | _ => [] end) = VStr (cpu_limit row))
            CONFIRMATORY_WORKLOADS quotas.
Proof.
  unfold freeze, freeze_errors. intros H. apply rbind_Ok in H as ([] & He & H). apply raise_if_Ok in He.
  destruct (fold_left add_row rows ([], [])) as [seen errors] eqn:Ef. cbn [fst] in H.
  destruct (errors ++ _)%list eqn:Eall in He; [|done]. clear He. apply app_eq_nil in Eall as [-> Eall].
  apply app_eq_nil in Eall as [Ew Eu]. apply error_if_nil in Eu.
  apply add_rows_nodup in Ef as (_ & -> & Hnd). cbn [app] in *. specialize (Hnd (NoDup_nil_2)).
  assert (forall w, w ∈ CONFIRMATORY_WORKLOADS -> exists row, seen_get rows w = Some row /\
            frozen_row target_ratio max_ratio row) as Hrow.
  { intros w Hw. apply workload_errors_nil. by apply (flat_map_nil _ _ Ew). }
  assert (forall w, w ∈ (workload <$> rows) -> w ∈ CONFIRMATORY_WORKLOADS) as Hknown.
  { intros w Hw. destruct (mem_string w CONFIRMATORY_WORKLOADS) eqn:E; [by apply mem_string_spec|].
    exfalso. assert (w ∈ unknown_workloads rows) as Hin; [|by destruct (unknown_workloads rows); [apply elem_of_nil in Hin|]].
    unfold unknown_workloads. rewrite sort_by_perm. apply list_elem_of_In, List.filter_In.
    split; [by apply list_elem_of_In|by rewrite E]. }
  split; [|split].
  - apply NoDup_Permutation; [done|by apply has_dup_false|]. intros w. split; [apply Hknown|].
    intros Hw. destruct (Hrow w Hw) as (row & Hg & _). apply seen_get_Some in Hg as [Hin <-].
    apply list_elem_of_fmap. by exists row.
  - apply list.Forall_forall. intros row Hin.
    destruct (Hrow (workload row)) as (row' & Hg & Hf); [apply Hknown, list_elem_of_fmap; by exists row|].
    apply seen_get_Some in Hg as [Hin' Hw]. by rewrite <- (NoDup_fmap_elem workload rows row' row Hnd Hin' Hin Hw).
  - apply rbind_Ok in H as (quotas & Hq & H). injection H as <-. exists quotas. split; [done|].
    apply mapM_Ok in Hq. eapply Forall2_impl; [|exact Hq]. intros w q. unfold quota_json.
    destruct (seen_get rows w) as [row|] eqn:E; [|done]. intros [= <-]. apply seen_get_Some in E as [Hin Hw].
    by exists row.
Qed.

Definition sample_csv (ratio : string) : list pydict :=
  (fun p => [ ("workload", VStr (fst p)); ("cpu_limit", VStr (snd p));
              ("throttled_period_ratio", VStr ratio); ("healthy", VStr "Yes ") ]) <$>
  [("postgres", "1500m"); ("http", "750m"); ("ffmpeg", "2"); ("stress-ng", "1"); ("mixed-http-ffmpeg", "1750m")].

Definition sample_rows (ratio : string) : list Calibration :=
  match read_calibrations "pilot.csv" required_columns (sample_csv ratio) with Ok l => l | Raise _ => [] end.

Lemma sample_frozen ratio :
  ratio ∈ ["0.14"; "nan"] ->
  is_ok (freeze (sample_rows ratio) TARGET_THROTTLED_RATIO HEALTHY_MAX_THROTTLED_RATIO) = true.
Proof.
  intros H. repeat (apply elem_of_cons in H as [->|H]; [vm_compute; reflexivity|]). by apply elem_of_nil in H.
Qed.

Lemma freeze_sound_witness :
  workload <$> sample_rows "0.14" ≡ₚ CONFIRMATORY_WORKLOADS /\
  Forall (frozen_row TARGET_THROTTLED_RATIO HEALTHY_MAX_THROTTLED_RATIO) (sample_rows "0.14").
Proof.
  assert ("0.14" ∈ ["0.14"; "nan"]) as Hin by left. pose proof (sample_frozen "0.14" Hin) as Hok.
  destruct (freeze (sample_rows "0.14") TARGET_THROTTLED_RATIO HEALTHY_MAX_THROTTLED_RATIO) as [m|e] eqn:E;
    [|discriminate Hok].
  destruct (freeze_sound (sample_rows "0.14") TARGET_THROTTLED_RATIO HEALTHY_MAX_THROTTLED_RATIO m E)
    as (H1 & H2 & _).
  split; [exact H1|exact H2].
Defined.

(** The gate does not fail closed on NaN: a calibration file whose ratios are all
    [nan] is frozen, although no workload showed any throttling. *)
Theorem freeze_accepts_nan :
  Forall (fun r => is_nan (throttled_period_ratio r) = true) (sample_rows "nan") /\
  is_ok (freeze (sample_rows "nan") TARGET_THROTTLED_RATIO HEALTHY_MAX_THROTTLED_RATIO) = true.
Proof. split; [vm_compute; repeat constructor|]. apply sample_frozen. right. left. Qed.

End FreezeQuota.
