(* ===== verification/SchedGates.v ===== *)
(** Four small modules of [linux-sched/experiments]: [runtime_gate.py],
    [cgroup_manifest.py], [cpu_limit_policy.py] and [quota_calibration.py]. *)

From Stdlib Require Import ZArith Bool Ascii String Lia SpecFloat.
From stdpp Require Import base list strings option.
From S2P Require Import Prelude PyStr PyFloat PyVal PyConv.

Open Scope string_scope.
Open Scope Z_scope.

(** ** [runtime_gate.py]

    The only thing the gate looks at is whether the binary of a scheduler is an
    executable file: [executable] maps the names under [target/release]. *)

Module RuntimeGate.

Definition RUNTIME_SCHEDULERS : list string := ["scx_mavd"; "scx_mlfq"; "scx_nitosis"].
Definition RUNTIME_GATES : list string := ["build"; "verifier"; "attach"; "progress"; "detach"].

(** [kernel_image_contract.ARENA_SCALAR_AVAILABLE] *)
Definition ARENA_SCALAR_AVAILABLE : bool := true.

Section Gate.
Context (executable : string -> bool).

Definition check_build (name : string) : bool :=
  if negb (mem_string name RUNTIME_SCHEDULERS) then false else executable name.
Definition check_verifier (name : string) : bool :=
  if String.eqb name "scx_mavd" && negb ARENA_SCALAR_AVAILABLE then false else true.
Definition check_attach (name : string) : bool :=
  if String.eqb name "scx_mavd" && negb ARENA_SCALAR_AVAILABLE then false else true.
Definition check_progress (name : string) : bool :=
  if String.eqb name "scx_mavd" && negb ARENA_SCALAR_AVAILABLE then false else true.
Definition check_detach (name : string) : bool :=
  if String.eqb name "scx_mavd" && negb ARENA_SCALAR_AVAILABLE then false else true.

Definition gate_results (name : string) : result (list (string * bool)) :=
  raise_if (negb (mem_string name RUNTIME_SCHEDULERS)) ValueError ("unknown runtime scheduler: " +:+ name) ;;;
  Ok [ ("build", check_build name); ("verifier", check_verifier name); ("attach", check_attach name);
       ("progress", check_progress name); ("detach", check_detach name) ].

Definition all_gates_pass (name : string) : result bool :=
  let* r := gate_results name in Ok (forallb snd r).

Definition with_gate (keep : bool) : result (list string) :=
  let* rs := mapM (fun name => let* b := all_gates_pass name in Ok (name, b)) RUNTIME_SCHEDULERS in
  Ok (fst <$> List.filter (fun p => Bool.eqb (snd p) keep) rs).
Definition eligible_schedulers : result (list string) := with_gate true.
Definition blocked_schedulers : result (list string) := with_gate false.

Definition run_gate : result (list (string * list (string * bool))) :=
  mapM (fun name => let* r := gate_results name in Ok (name, r)) RUNTIME_SCHEDULERS.

(** [main]: the status, standard output and standard error. *)
Definition gate_main : result (Z * list string * list string) :=
  let* results := run_gate in
  let passed (p : string * list (string * bool)) := forallb snd (snd p) in
  let blocked := fst <$> List.filter (fun p => negb (passed p)) results in
  let line (p : string * list (string * bool)) :=
    fst p +:+ ": " +:+ (if passed p then "PASS" else "BLOCKED") +:+ " " +:+
    py_repr (VDict ((fun g => (fst g, VBool (snd g))) <$> snd p)) in
  Ok (match blocked with
      | [] => (0, ((line <$> results) ++ ["runtime integration gate OK"])%list, [])
      | _ => (1, line <$> results, ["blocked schedulers: " +:+ join ", " blocked])
      end).

End Gate.

(** Although the gate reports five checks, a scheduler is declared eligible
    exactly when its binary is executable: no scheduler is ever blocked by the
    verifier, attach, progress or detach check. *)
Theorem gate_is_build_only executable name :
  name ∈ RUNTIME_SCHEDULERS ->
  all_gates_pass executable name = Ok (executable name) /\
  exists l, eligible_schedulers executable = Ok l /\ (name ∈ l <-> executable name = true).
Proof.
  intros Hn. assert (forall n, n ∈ RUNTIME_SCHEDULERS -> all_gates_pass executable n = Ok (executable n)) as Hall.
  { intros n H. repeat (apply elem_of_cons in H as [->|H]; [cbn; by rewrite andb_true_r|]). by apply elem_of_nil in H. }
  split; [by apply Hall|]. unfold eligible_schedulers, with_gate.
  assert (mapM (fun n => let* b := all_gates_pass executable n in Ok (n, b)) RUNTIME_SCHEDULERS =
          Ok ((fun n => (n, executable n)) <$> RUNTIME_SCHEDULERS)) as ->.
  { apply mapM_Ok. unfold RUNTIME_SCHEDULERS. cbn [fmap list_fmap].
    repeat (constructor; [rewrite Hall; [done|]; unfold RUNTIME_SCHEDULERS; rewrite !elem_of_cons; tauto|]). constructor. }
  eexists. split; [reflexivity|]. rewrite list_elem_of_fmap. split.
  - intros ([n b] & -> & Hin). apply list_elem_of_In, List.filter_In in Hin as [Hin He].
    apply list_elem_of_In, list_elem_of_fmap in Hin as (n' & [= -> ->] & _). by apply eqb_prop in He.
  - intros He. exists (name, true). split; [done|]. apply list_elem_of_In, List.filter_In.
    split; [|done]. apply list_elem_of_In, list_elem_of_fmap. exists name. by rewrite He.
Qed.

Lemma gate_is_build_only_witness :
  all_gates_pass (fun n => String.eqb n "scx_mavd") "scx_mlfq" = Ok false /\
  all_gates_pass (fun _ => true) "scx_mavd" = Ok true.
Proof.
  split; [apply (gate_is_build_only (fun n => String.eqb n "scx_mavd") "scx_mlfq")|
          apply (gate_is_build_only (fun _ => true) "scx_mavd")];
    apply mem_string_spec; reflexivity.
Defined.

End RuntimeGate.

(** ** [cgroup_manifest.py] *)

Module CgroupManifest.

Definition KUBERNETES_WORKLOAD_CGROUP_PARENT : string := "/kubepods.slice".
Definition ALLOWED_CGROUP_PARENTS : list string :=
  ["/kubepods"; "/kubepods.slice"; "/sys/fs/cgroup/kubepods"; "/sys/fs/cgroup/kubepods.slice"].

Definition is_path_char (c : ascii) : bool :=
  is_lower_az c || is_upper_az c || is_digit c || mem_string (char_str c) ["_"; "."; "/"; "-"].

(** [^/[A-Za-z0-9_./-]+$]; [$] also matches before a final newline. *)
Definition cgroup_path_re (s : string) : bool :=
  let body t := match t with
                | String c t' => Ascii.eqb c "/" && negb (is_empty t') && str_forallb is_path_char t'
                | EmptyString => false
                end in
  body s || (endswith newline s && body (drop_last 1 s)).

Definition is_valid_cgroup_path (v : pyval) : bool :=
  match v with
  | VStr path => negb (is_empty path) && negb (mem_string ".." (split_on "/" path)) && cgroup_path_re path
  | _ => false
  end.

Definition validate_cgroup_parent (v : pyval) : bool :=
  if negb (is_valid_cgroup_path v) then false
  else match v with VStr path => mem_string path ALLOWED_CGROUP_PARENTS | _ => false end.

(** [path] is [VNone] when not given; [env] is the environment variable. *)
Definition resolve_nitosis_cgroup_parent (path : pyval) (env : option string) : result pyval :=
  let candidate := match path with
                   | VNone => VStr (default KUBERNETES_WORKLOAD_CGROUP_PARENT env)
                   | v => v
                   end in
  raise_if (negb (validate_cgroup_parent candidate)) ValueError
    ("narrow read-only cgroup manifest access rejected path: " +:+ py_repr candidate) ;;;
  Ok candidate.

Definition nitosis_cell_parent (env : option string) : result pyval := resolve_nitosis_cgroup_parent VNone env.

Definition read_cgroup_manifest (path : pyval) : result pyval :=
  raise_if (negb (validate_cgroup_parent path)) ValueError
    ("read-only cgroup manifest access rejected: " +:+ py_repr path) ;;;
  Ok path.

(** The syntactic test rejects nothing on the list, so the list alone decides. *)
Lemma validate_cgroup_parent_spec v :
  validate_cgroup_parent v = true <-> exists path, v = VStr path /\ path ∈ ALLOWED_CGROUP_PARENTS.
Proof.
  unfold validate_cgroup_parent. split.
  - destruct (is_valid_cgroup_path v); cbn [negb]; [|done]. destruct v as [| | | |s| |]; try done.
    intros H. exists s. split; [done|]. by apply mem_string_spec.
  - intros (path & -> & H). repeat (apply elem_of_cons in H as [->|H]; [reflexivity|]). by apply elem_of_nil in H.
Qed.

End CgroupManifest.

(** ** [cpu_limit_policy.py] *)

Module CpuLimitPolicy.

Definition DEFAULT_LIMITED_CPU : string := "500m".

Definition normalize_limit (cpu_limit : pyval) : string :=
  match cpu_limit with VNone => DEFAULT_LIMITED_CPU | v => py_str v end.

(** [s.split(sep, 1)[-1]] *)
Definition after_first (sep s : string) : string :=
  match split_on sep s with
  | [] | [_] => s
  | _ :: rest => join sep rest
  end.

Definition placeholder_block : string :=
  "        limits:" +:+ newline +:+ "          cpu: " +:+ char_str dquote +:+ "__CPU_LIMIT__" +:+
  char_str dquote +:+ newline.
Definition empty_block : string := "        limits: {}" +:+ newline.

(** [policy], [cpu_limit] and [limit] are [VNone] when [None]. *)
Definition render_cpu_limit_policy (manifest : string) (policy cpu_limit limit : pyval) : string :=
  let cpu_limit := match limit, cpu_limit with
                   | VNone, _ => cpu_limit
                   | _, VNone => limit
                   | _, _ => cpu_limit
                   end in
  let cpu_limit := normalize_limit cpu_limit in
  if py_eq policy (VStr "unlimited") || py_eq policy VNone
  then replace_all placeholder_block empty_block manifest
  else
    let rendered := replace_all "__CPU_LIMIT__" cpu_limit manifest in
    if negb (contains "limits:" rendered) ||
       negb (contains "cpu:" (str_take 80 (after_first "limits:" rendered)))
    then replace_all empty_block
           ("        limits:" +:+ newline +:+ "          cpu: " +:+ cpu_limit +:+ newline) rendered
    else rendered.

Definition render_manifest (manifest : string) (cpu_limit policy limit : pyval) : string :=
  let policy := match policy with
                | VNone => VStr (match cpu_limit with VNone => "unlimited" | _ => "limited" end)
                | p => p
                end in
  render_cpu_limit_policy manifest policy cpu_limit limit.
Definition apply_cpu_limit (manifest : string) (cpu_limit policy : pyval) : string :=
  render_cpu_limit_policy manifest policy cpu_limit VNone.
Definition inject_cpu_limit (manifest : string) (cpu_limit : pyval) : string :=
  render_cpu_limit_policy manifest (VStr "limited") cpu_limit VNone.

Definition requests_fixed (manifest : string) : bool := contains "requests:" manifest && contains "cpu:" manifest.

(** The template's block under each policy. *)
Example policy_blocks :
  render_cpu_limit_policy placeholder_block (VStr "unlimited") VNone VNone = empty_block /\
  render_cpu_limit_policy empty_block (VStr "limited") (VStr "750m") VNone =
    "        limits:" +:+ newline +:+ "          cpu: 750m" +:+ newline /\
  render_manifest placeholder_block VNone VNone (VInt 2) = empty_block.
Proof. split; [|split]; vm_compute; reflexivity. Qed.

End CpuLimitPolicy.

(** ** [quota_calibration.py] *)

Module QuotaCalibration.

Definition DEFAULT_TARGET_THROTTLED_RATIO : float := flit 10 100.

Definition to_float (s : string) : result float :=
  match py_float s with
  | Some f => Ok f
  | None => Raise (Exn ValueError ("could not convert string to float: " +:+ repr_str s))
  end.

(** Millicores of a quantity. *)
Definition parse_cpu_quantity (v : pyval) : result float :=
  let text := strip (py_str v) in
  if endswith "m" text then to_float (drop_last 1 text)
  else let* f := to_float text in Ok (fmul f (flit 1000 1)).

(** [x // 1000] when [x] is at least 1000 and [x % 1000 == 0]. *)
Definition whole_cores (x : float) : option Z :=
  match x with
  | S754_finite false m e =>
      let '(n, d) := magnitude m e in
      if (1000 * d <=? n) && (n mod (1000 * d) =? 0) then Some (n / (1000 * d)) else None
  | _ => None
  end.

Definition format_cpu_quantity (millicpu : float) : result string :=
  match whole_cores millicpu with
  | Some cores => Ok (str_of_Z cores)
  | None =>
      let* n := int_of_float millicpu in
      Ok (match fcompare_Z millicpu n with
          | Some Eq => str_of_Z n +:+ "m"
          | _ => repr_float millicpu +:+ "m"
          end)
  end.

Definition calibrate_cpu_limit (current_limit : pyval) (observed_ratio target_ratio step : float) : result string :=
  let* current := parse_cpu_quantity current_limit in
  let* current :=
    if fltb observed_ratio target_ratio then Ok (fmax (flit 1 1) (fmul current step))
    else if fltb (flit 9 10) observed_ratio then fdiv current step
    else Ok current in
  format_cpu_quantity current.

(** [main]: the status, and the line on standard output or standard error. *)
Definition calibration_main (current : string) (observed target step : float) (floor : option string)
    : result (Z * string) :=
  let* next_limit := calibrate_cpu_limit (VStr current) observed target step in
  let* below :=
    match floor with
    | None => Ok false
    | Some f => let* a := parse_cpu_quantity (VStr next_limit) in
                let* b := parse_cpu_quantity (VStr f) in
                Ok (fltb a b)
    end in
  Ok (if below then (3, "cannot reach the target above the request floor " +:+ default "" floor)
      else (0, next_limit)).

Example calibrations :
  calibrate_cpu_limit (VStr "1") (flit 5 100) DEFAULT_TARGET_THROTTLED_RATIO (flit 9 10) = Ok "900m" /\
  calibrate_cpu_limit (VStr "750m") (flit 5 100) DEFAULT_TARGET_THROTTLED_RATIO (flit 9 10) = Ok "675m" /\
  calibrate_cpu_limit (VInt 2) (flit 5 10) DEFAULT_TARGET_THROTTLED_RATIO (flit 9 10) = Ok "2" /\
  calibration_main "500m" (flit 0 1) DEFAULT_TARGET_THROTTLED_RATIO (flit 9 10) (Some "480m") =
    Ok (3, "cannot reach the target above the request floor 480m").
Proof. split; [|split; [|split]]; vm_compute; reflexivity. Qed.

(** The result never falls below one millicore when the quota is tightened. *)
Lemma tightened_at_least_one x : fleb (flit 1 1) (fmax (flit 1 1) x) = true.
Proof.
  unfold fmax. destruct (fltb (flit 1 1) x) eqn:E; [|reflexivity].
  unfold fltb, fleb, SFltb, SFleb in *. by destruct (SFcompare (flit 1 1) x) as [[]|].
Qed.

End QuotaCalibration.
