(* ===== verification/Edk2.v ===== *)
(** [scripts/edk2_esl.py] and [scripts/edk2_wire_enroll.py]: the signature lists
    of the Secure Boot enrolment driver and its wiring into an EDK2 tree. *)

From Stdlib Require Import ZArith Bool Ascii String Lia.
From stdpp Require Import base list strings option gmap.
From S2P Require Import Prelude Eff PyStr PyText PyVal Sha256 Fs.

Open Scope string_scope.
Open Scope Z_scope.

(** ** [edk2_esl.py]

    [bytes] are texts with one character per byte. *)

Definition EFI_CERT_X509_GUID : string := "a5c059a1-94e4-4aa7-87b5-ab155c2bf072".
Definition K8LABS_OWNER_GUID : string := "6b1b3c1e-6f4a-4c8e-9b2d-0f7a5c3e1d42".

(** [int(s, 16)]: blanks, a sign, [0x], digits with single underscores. *)
Fixpoint hex_digits (s : string) (acc : Z) : option Z :=
  match s with
  | EmptyString => Some acc
  | String c s' =>
      match hex_val c with
      | Some d => hex_digits s' (16 * acc + d)
      | None =>
          if Ascii.eqb c "_" then
            match s' with
            | String c2 s'' => match hex_val c2 with Some d => hex_digits s'' (16 * acc + d) | None => None end
            | EmptyString => None
            end
          else None
      end
  end.
Definition hex_unsigned (s : string) : option Z :=
  let body := if startswith "0x" s || startswith "0X" s then
                let r := str_drop 2 s in if startswith "_" r then str_drop 1 r else r
              else s in
  match body with
  | String c _ => match hex_val c with Some _ => hex_digits body 0 | None => None end
  | EmptyString => None
  end.
Definition py_int16 (s : string) : option Z :=
  match strip s with
  | String c s' => if Ascii.eqb c "-" then Z.opp <$> hex_unsigned s'
                   else if Ascii.eqb c "+" then hex_unsigned s' else hex_unsigned (String c s')
  | EmptyString => None
  end.

(** [bytes.fromhex(s)]: blanks between the pairs are skipped. *)
Fixpoint fromhex (s : string) : option string :=
  match s with
  | EmptyString => Some ""
  | String c s' =>
      if between 9 13 (code c) || (code c =? 32) then fromhex s'
      else match s' with
           | String c2 s'' =>
               match hex_val c, hex_val c2 with
               | Some a, Some b => String (chr (16 * a + b)) <$> fromhex s''
               | _, _ => None
               end
           | EmptyString => None
           end
  end.

(** A little-endian number of [n] bytes; [struct.error] when it does not fit. *)
Fixpoint le_bytes (n : nat) (z : Z) : string :=
  match n with O => "" | S n' => String (chr (z mod 256)) (le_bytes n' (z / 256)) end.
Definition pack (n : nat) (z : Z) : result string :=
  if (0 <=? z) && (z <? 256 ^ Z.of_nat n) then Ok (le_bytes n z)
  else Raise (Exn Exception "struct.error: format requires 0 <= number").

Definition or_value_error {A} (msg : string) (o : option A) : result A :=
  match o with Some a => Ok a | None => Raise (Exn ValueError msg) end.

Definition guid_bytes (value : string) : result string :=
  let invalid := "invalid GUID: " +:+ repr_str value in
  match split_on "-" (strip value) with
  | [p0; p1; p2; p3; p4] =>
      let* data1 := or_value_error "invalid literal for int() with base 16" (py_int16 p0) in
      let* data2 := or_value_error "invalid literal for int() with base 16" (py_int16 p1) in
      let* data3 := or_value_error "invalid literal for int() with base 16" (py_int16 p2) in
      let* data4 := or_value_error "non-hexadecimal number found in fromhex() arg" (fromhex (p3 +:+ p4)) in
      raise_if (negb (slen data4 =? 8)) ValueError invalid ;;;
      let* b1 := pack 4 data1 in
      let* b2 := pack 2 data2 in
      let* b3 := pack 2 data3 in
      Ok (b1 +:+ b2 +:+ b3 +:+ data4)
  | _ => Raise (Exn ValueError invalid)
  end.

Definition check_size (owner : string) (signature_size : Z) (cert : string) : result unit :=
  raise_if (negb (slen owner + slen cert =? signature_size)) ValueError
    "all certificates in one list must have equal size".

Definition build_signature_list (certificates : list string) : result string :=
  match certificates with
  | [] => Raise (Exn ValueError "at least one certificate is required")
  | first :: _ =>
      let* owner := guid_bytes K8LABS_OWNER_GUID in
      let entries := join "" ((fun cert => owner +:+ cert) <$> certificates) in
      let signature_size := slen owner + slen first in
      iterM (check_size owner signature_size) certificates ;;;
      let* guid := guid_bytes EFI_CERT_X509_GUID in
      let list_size := 16 + 4 + 4 + 4 + slen entries in
      let* w1 := pack 4 list_size in
      let* w2 := pack 4 0 in
      let* w3 := pack 4 signature_size in
      Ok (guid +:+ (w1 +:+ w2 +:+ w3) +:+ entries)
  end.

(** [base64.b64decode]: other characters are skipped; [left] and [quad] are the
    bits and the position in the group of four. *)
Definition base64_val (c : ascii) : option Z :=
  let n := code c in
  if between 65 90 n then Some (n - 65)
  else if between 97 122 n then Some (n - 71)
  else if between 48 57 n then Some (n + 4)
  else if n =? 43 then Some 62
  else if n =? 47 then Some 63
  else None.
Fixpoint b64decode (quad pads left : Z) (s : string) : result string :=
  match s with
  | EmptyString =>
      if quad =? 0 then Ok ""
      else Raise (Exn ValueError (if quad =? 1 then "Invalid base64-encoded string" else "Incorrect padding"))
  | String c s' =>
      if Ascii.eqb c "=" then
        if (2 <=? quad) && (4 <=? quad + (pads + 1)) then Ok ""
        else b64decode quad (if 2 <=? quad then pads + 1 else pads) left s'
      else
        match base64_val c with
        | None => b64decode quad pads left s'
        | Some v =>
            if quad =? 0 then b64decode 1 0 v s'
            else
              let '(byte, quad', left') :=
                if quad =? 1 then (left * 4 + v / 16, 2, v mod 16)
                else if quad =? 2 then (left * 16 + v / 4, 3, v mod 4)
                else (left * 64 + v, 0, 0) in
              let* r := b64decode quad' 0 left' s' in
              Ok (String (chr byte) r)
        end
  end.

(** The lines between the markers of a PEM file. *)
Fixpoint pem_body (inside : bool) (lines : list string) : list string :=
  match lines with
  | [] => []
  | line :: lines' =>
      if startswith "-----BEGIN CERTIFICATE-----" line then pem_body true lines'
      else if startswith "-----END CERTIFICATE-----" line then []
      else if inside then strip line :: pem_body inside lines' else pem_body inside lines'
  end.

(** [read_der_certificate] on the bytes of the file. *)
Definition read_der_certificate (path raw : string) : result string :=
  if negb (contains "-----BEGIN CERTIFICATE-----" raw) then Ok raw
  else
    raise_if (negb (str_forallb (fun c => code c <? 128) raw)) ValueError
      "'ascii' codec can't decode" ;;;
    match pem_body false (splitlines raw) with
    | [] => Raise (Exn ValueError ("no certificate body found in " +:+ path))
    | body => b64decode 0 0 0 (join "" body)
    end.

(** Twelve bytes to a line. *)
Definition byte_lines (blob : string) : list string :=
  let bytes := String.list_ascii_of_string blob in
  (fun chunk => "  " +:+ join ", " ((fun c => "0x" +:+ hex2 (code c)) <$> chunk) +:+ ",") <$>
  chunks (length bytes) 12 bytes.

Definition header_prefix : list string :=
  [ "/** @file"; "  Generated by scripts/edk2_esl.py. Do not edit."; "";
    "  SPDX-License-Identifier: BSD-2-Clause-Patent"; "**/"; "";
    "#ifndef K8LABS_SECURE_BOOT_KEYS_H_"; "#define K8LABS_SECURE_BOOT_KEYS_H_"; "" ].

Definition blob_lines (nb : string * string) : result (list string) :=
  let '(name, blob) := nb in
  raise_if (is_empty blob) ValueError ("empty signature list for " +:+ name) ;;;
  Ok (["STATIC CONST UINT8  " +:+ name +:+ "[] = {"] ++ byte_lines blob ++
      ["};"; "#define " +:+ name +:+ "_SIZE  (sizeof (" +:+ name +:+ "))"; ""])%list.

Definition to_c_header (blobs : list (string * string)) : result string :=
  let* parts := mapM blob_lines blobs in
  Ok (join newline (header_prefix ++ concat parts ++ ["#endif"; ""])%list).

(** ** [edk2_wire_enroll.py] *)

Definition DRIVER_INF : string := "OvmfPkg/K8LabsEnrollKeys/K8LabsEnrollKeys.inf".
Definition DSC_ANCHOR : string := "  OvmfPkg/EnrollDefaultKeys/EnrollDefaultKeys.inf" +:+ newline.
Definition FDF_ANCHOR : string :=
  "  INF  SecurityPkg/VariableAuthenticated/SecureBootConfigDxe/SecureBootConfigDxe.inf" +:+ newline.

Definition wire_dsc (text : string) : result string :=
  if contains DRIVER_INF text then Ok text
  else if negb (contains DSC_ANCHOR text)
  then Raise (Exn ValueError "DSC anchor (EnrollDefaultKeys.inf) not found")
  else Ok (replace_once DSC_ANCHOR (DSC_ANCHOR +:+ "  " +:+ DRIVER_INF +:+ newline) text).

Definition wire_fdf (text : string) : result string :=
  if contains ("INF  " +:+ DRIVER_INF) text then Ok text
  else if negb (contains FDF_ANCHOR text)
  then Raise (Exn ValueError "FDF anchor (SecureBootConfigDxe.inf) not found")
  else Ok (replace_once FDF_ANCHOR (FDF_ANCHOR +:+ "  INF  " +:+ DRIVER_INF +:+ newline) text).

Section Wire.
Context {Mach : Machine}.

(** [shutil.copytree(src, dst)], as one change. *)
Definition copytree (src dst : path) : F unit :=
  let! m := files in
  if negb (is_dir m src) then lift (not_found src)
  else if present m dst then lift (os_error "[Errno 17] File exists" dst)
  else call (fun m => foldr (fun k acc => match m !! k with
                                          | Some v => <[(dst ++ drop (length src) k)%list := v]> acc
                                          | None => acc
                                          end) m (tree src m)).

Definition rewrite_file (p : path) (f : string -> result string) : F unit :=
  let! m := files in
  let! text := lift (read_text m p) in
  let! text' := lift (f text) in
  write_text p text'.

Definition wire (edk2_root driver_dir : path) : F unit :=
  let dsc := (edk2_root ++ ["OvmfPkg"; "CloudHv"; "CloudHvX64.dsc"])%list in
  let fdf := (edk2_root ++ ["OvmfPkg"; "CloudHv"; "CloudHvX64.fdf"])%list in
  let header := (driver_dir ++ ["K8LabsSecureBootKeys.h"])%list in
  let! m := files in
  if negb (is_file m header)
  then throw FileNotFoundError
         ("missing generated key header: " +:+ path_text header +:+ " (run scripts/edk2_esl.py --header-out)")
  else
    let target_driver := (edk2_root ++ ["OvmfPkg"; "K8LabsEnrollKeys"])%list in
    (if present m target_driver then rmtree target_driver else ret tt) >>>
    copytree driver_dir target_driver >>>
    rewrite_file dsc wire_dsc >>>
    rewrite_file fdf wire_fdf.

End Wire.

(** ** The format the firmware reads

    An [EFI_SIGNATURE_LIST]: the type, three little-endian words (size of the
    list, of its header, of a signature), then the signatures, each an owner
    and the data. *)

Record signature_list : Type := { sl_type : string; sl_signatures : list (string * string) }.

Fixpoint le_value (n : nat) (s : string) : Z :=
  match n, s with
  | S n', String c s' => code c + 256 * le_value n' s'
  | _, _ => 0
  end.

Fixpoint str_chunks (fuel n : nat) (s : string) : list string :=
  match fuel, s with
  | S f, String _ _ => str_take n s :: str_chunks f n (str_drop n s)
  | _, _ => []
  end.

Definition read_signature_list (b : string) : option signature_list :=
  let list_size := le_value 4 (str_drop 16 b) in
  let header_size := le_value 4 (str_drop 20 b) in
  let signature_size := le_value 4 (str_drop 24 b) in
  let data := str_drop 28 b in
  if (list_size =? slen b) && (header_size =? 0) && (16 <=? signature_size) &&
     (slen data mod signature_size =? 0)
  then Some {| sl_type := str_take 16 b;
               sl_signatures := (fun e => (str_take 16 e, str_drop 16 e)) <$>
                                str_chunks (String.length data) (Z.to_nat signature_size) data |}
  else None.

Lemma code_chr n : 0 <= n < 256 -> code (chr n) = n.
Proof.
  intros Hn. unfold code, chr. rewrite N_ascii_embedding; [lia|]. lia.
Qed.

Lemma length_le_bytes n : forall z, String.length (le_bytes n z) = n.
Proof. induction n as [|n IH]; intros z; cbn [le_bytes String.length]; [done|]. by rewrite IH. Qed.

Lemma le_value_bytes n : forall z r, 0 <= z < 256 ^ Z.of_nat n -> le_value n (le_bytes n z +:+ r) = z.
Proof.
  induction n as [|n IH]; intros z r Hz; cbn [le_value le_bytes String.append].
  - change (256 ^ Z.of_nat 0) with 1 in Hz. destruct r; lia.
  - rewrite Nat2Z.inj_succ, Z.pow_succ_r in Hz by lia.
    rewrite code_chr by (apply Z.mod_pos_bound; lia). rewrite IH.
    + rewrite (Z.div_mod z 256) at 3 by lia. lia.
    + split; [apply Z.div_pos; lia|]. apply Z.div_lt_upper_bound; lia.
Qed.

Lemma pack_Ok n z w : pack n z = Ok w -> 0 <= z < 256 ^ Z.of_nat n /\ w = le_bytes n z.
Proof.
  unfold pack. destruct ((0 <=? z) && (z <? 256 ^ Z.of_nat n)) eqn:E; [|done]. intros [= <-].
  apply andb_true_iff in E as [E1 E2]. apply Z.leb_le in E1. apply Z.ltb_lt in E2. done.
Qed.

Lemma pack_fits n z : 0 <= z < 256 ^ Z.of_nat n -> pack n z = Ok (le_bytes n z).
Proof.
  intros [H1 H2]. unfold pack. apply Z.leb_le in H1. apply Z.ltb_lt in H2. by rewrite H1, H2.
Qed.

Lemma str_drop_app_length n a b : String.length a = n -> str_drop n (a +:+ b) = b.
Proof. intros <-. apply str_drop_app. Qed.
Lemma str_take_app_length n a b : String.length a = n -> str_take n (a +:+ b) = a.
Proof. intros <-. apply str_take_app. Qed.

Lemma join_cons_empty x l : join "" (x :: l) = x +:+ join "" l.
Proof. destruct l; cbn [join]; [by rewrite str_app_nil_r|done]. Qed.

Lemma str_chunks_join n l : forall fuel,
  (0 < n)%nat -> Forall (fun e => String.length e = n) l -> (length l <= fuel)%nat ->
  str_chunks fuel n (join "" l) = l.
Proof.
  induction l as [|e l IH]; intros fuel Hn Hl Hf; [by destruct fuel|].
  apply Forall_cons_iff in Hl as [He Hl]. rewrite join_cons_empty. destruct fuel as [|fuel]; [simpl in Hf; lia|].
  destruct e as [|c e]; [simpl in He; lia|].
  pose proof (str_take_app_length n (String c e) (join "" l) He) as Ht.
  pose proof (str_drop_app_length n (String c e) (join "" l) He) as Hd.
  cbn [String.append] in *. cbn [str_chunks]. rewrite Ht, Hd, IH; [done|done|done|simpl in Hf; lia].
Qed.

Lemma length_join_equal n l :
  Forall (fun e => String.length e = n) l -> String.length (join "" l) = (length l * n)%nat.
Proof.
  induction 1 as [|e l He _ IH]; [done|]. rewrite join_cons_empty, length_str_app, IH, He. simpl. lia.
Qed.

(** The two identifiers, as sixteen bytes. *)
Definition owner_bytes : string := match guid_bytes K8LABS_OWNER_GUID with Ok b => b | Raise _ => "" end.
Definition x509_bytes : string := match guid_bytes EFI_CERT_X509_GUID with Ok b => b | Raise _ => "" end.
Lemma owner_bytes_ok : guid_bytes K8LABS_OWNER_GUID = Ok owner_bytes /\ String.length owner_bytes = 16%nat.
Proof. split; vm_compute; reflexivity. Qed.
Lemma x509_bytes_ok : guid_bytes EFI_CERT_X509_GUID = Ok x509_bytes /\ String.length x509_bytes = 16%nat.
Proof. split; vm_compute; reflexivity. Qed.

#[local] Opaque guid_bytes owner_bytes x509_bytes.

Lemma iterM_Raise {A} (f : A -> result unit) l e : iterM f l = Raise e -> exists x, x ∈ l /\ f x = Raise e.
Proof.
  induction l as [|x l IH]; cbn [iterM]; [done|]. destruct (f x) as [[]|e'] eqn:E; cbn [rbind].
  - intros H. destruct (IH H) as (y & ? & ?). exists y. split; [by right|done].
  - intros [= <-]. exists x. split; [left|done].
Qed.

(** A list laid out by hand reads back. *)
Lemma read_laid_out certs n :
  certs <> [] -> Forall (fun c => String.length c = n) certs ->
  let entries := join "" ((fun c => owner_bytes +:+ c) <$> certs) in
  28 + slen entries < 256 ^ 4 -> 
  read_signature_list
    (x509_bytes +:+ (le_bytes 4 (28 + slen entries) +:+ le_bytes 4 0 +:+ le_bytes 4 (16 + Z.of_nat n)) +:+ entries) =
  Some {| sl_type := x509_bytes; sl_signatures := (fun c => (owner_bytes, c)) <$> certs |}.
Proof.
  intros Hne Hlen entries Hsize. destruct owner_bytes_ok as [_ Ho]. destruct x509_bytes_ok as [_ Hx].
  set (es := (fun c => owner_bytes +:+ c) <$> certs) in *.
  assert (Forall (fun e => String.length e = (16 + n)%nat) es) as Hes.
  { unfold es. rewrite Forall_fmap. eapply Forall_impl; [exact Hlen|]. intros c Hc. cbn.
    by rewrite length_str_app, Ho, Hc. }
  assert (String.length entries = (length es * (16 + n))%nat) as Hle by by apply length_join_equal.
  assert (0 <= 16 + Z.of_nat n < 256 ^ 4) as Hn.
  { split; [lia|]. destruct certs as [|c certs]; [done|]. unfold slen in Hsize. rewrite Hle in Hsize.
    unfold es in Hsize. rewrite length_fmap in Hsize. simpl length in Hsize. nia. }
  pose proof (slen_nonneg entries) as Hs0. pose proof (length_le_bytes 4) as Hl4.
  rewrite !str_app_assoc. set (whole := x509_bytes +:+ _).
  assert (slen whole = 28 + slen entries) as Hw.
  { unfold whole. rewrite !slen_app. unfold slen. rewrite Hx, !Hl4. lia. }
  unfold read_signature_list. rewrite Hw. unfold whole. clear Hw whole.
  assert (forall k a b, String.length a = k -> forall j, str_drop (k + j) (a +:+ b) = str_drop j b) as Hdrop.
  { intros k a b <- j. induction a as [|c a IH]; [done|]. exact IH. }
  rewrite (Hdrop 16%nat _ _ Hx 0%nat), (Hdrop 16%nat _ _ Hx 4%nat), (Hdrop 16%nat _ _ Hx 8%nat), (Hdrop 16%nat _ _ Hx 12%nat).
  rewrite (Hdrop 4%nat _ _ (Hl4 _) 0%nat), (Hdrop 4%nat _ _ (Hl4 _) 4%nat), (Hdrop 4%nat _ _ (Hl4 _) 8%nat).
  rewrite (Hdrop 4%nat _ _ (Hl4 _) 0%nat), (Hdrop 4%nat _ _ (Hl4 _) 4%nat), (Hdrop 4%nat _ _ (Hl4 _) 0%nat).
  assert (forall s, str_drop 0 s = s) as H0 by by intros []. rewrite !H0.
  rewrite !le_value_bytes by (change (Z.of_nat 4) with 4; lia).
  rewrite (str_take_app_length 16 _ _ Hx), Z.eqb_refl.
  assert (16 <=? 16 + Z.of_nat n = true) as -> by (apply Z.leb_le; lia).
  assert (slen entries mod (16 + Z.of_nat n) =? 0 = true) as ->.
  { apply Z.eqb_eq. unfold slen. rewrite Hle, Nat2Z.inj_mul, Nat2Z.inj_add. apply Z.mod_mul. lia. }
  cbn [andb Z.eqb]. replace (Z.to_nat (16 + Z.of_nat n)) with (16 + n)%nat by lia.
  unfold entries at 2. rewrite str_chunks_join; [|lia|done|rewrite Hle; nia].
  unfold es. rewrite <- list_fmap_compose. reflexivity.
Qed.

(** C22: A signature list that is built reads back, in the layout the firmware
    expects, as the given certificates under the lab's owner; building fails
    only without certificates, for certificates of different sizes, or for more
    than four gigabytes. *)
Theorem build_signature_list_roundtrip certs :
  match build_signature_list certs with
  | Ok b => read_signature_list b =
            Some {| sl_type := x509_bytes; sl_signatures := (fun c => (owner_bytes, c)) <$> certs |}
  | Raise _ => certs = [] \/ (exists c c', c ∈ certs /\ c' ∈ certs /\ slen c <> slen c') \/
               256 ^ 4 <= 28 + slen (join "" ((fun c => owner_bytes +:+ c) <$> certs))
  end.
Proof.
  destruct certs as [|first certs]; [by left|]. unfold build_signature_list.
  destruct owner_bytes_ok as [-> Ho]. destruct x509_bytes_ok as [-> Hx]. cbn [rbind].
  set (all := first :: certs). set (entries := join "" _).
  assert (slen owner_bytes = 16) as Hso by (unfold slen; by rewrite Ho).
  destruct (iterM (check_size owner_bytes (slen owner_bytes + slen first)) all) as [u|e] eqn:Ei; cbn [rbind].
  - apply iterM_Ok in Ei.
    assert (Forall (fun c => String.length c = String.length first) all) as Hlen.
    { eapply Forall_impl; [exact Ei|]. intros c Hc. unfold check_size in Hc. apply raise_if_Ok in Hc.
      apply negb_false_iff, Z.eqb_eq in Hc. unfold slen in Hc. lia. }
    replace (16 + 4 + 4 + 4 + slen entries) with (28 + slen entries) by lia.
    destruct (pack 4 (28 + slen entries)) as [w1|e1] eqn:E1; cbn [rbind].
    + apply pack_Ok in E1 as [Hs1 ->]. change (256 ^ Z.of_nat 4) with (256 ^ 4) in Hs1.
      assert (slen owner_bytes + slen first < 256 ^ 4) as Hs.
      { assert (slen owner_bytes + slen first <= slen entries); [|lia]. unfold entries, all.
        rewrite fmap_cons, join_cons_empty, !slen_app. pose proof (slen_nonneg (join "" ((fun cert => owner_bytes +:+ cert) <$> certs))). lia. }
      pose proof (slen_nonneg first).
      rewrite pack_fits by (change (256 ^ Z.of_nat 4) with (256 ^ 4); lia).
      rewrite pack_fits by (change (256 ^ Z.of_nat 4) with (256 ^ 4); lia). cbn [rbind].
      rewrite Hso. apply read_laid_out; [done|done|apply Hs1].
    + right. right. pose proof (slen_nonneg entries). destruct (Z_lt_le_dec (28 + slen entries) (256 ^ 4)); [|done].
      rewrite pack_fits in E1 by (change (256 ^ Z.of_nat 4) with (256 ^ 4); lia). done.
  - right. left. apply iterM_Raise in Ei as (c & Hc & Hr). exists c, first. split; [done|]. split; [left|].
    unfold check_size, raise_if in Hr. destruct (negb _) eqn:E; [|done]. apply negb_true_iff, Z.eqb_neq in E. lia.
Qed.

(** ** The wiring *)

Lemma replace_once_found old new s :
  contains old s = true -> exists a b, s = a +:+ old +:+ b /\ replace_once old new s = a +:+ new +:+ b.
Proof.
  induction s as [|c s IH]; cbn [contains replace_once].
  - destruct (String.prefix old "") eqn:E; [|done]. intros _. apply prefix_true in E. exists "", "".
    destruct old; [done|]. done.
  - destruct (String.prefix old (String c s)) eqn:E.
    + intros _. apply prefix_true in E. exists "", (str_drop (String.length old) (String c s)). by split.
    + intros H. destruct (IH H) as (a & b & -> & ->). by exists (String c a), b.
Qed.

Lemma contains_middle a x b : contains x (a +:+ x +:+ b) = true.
Proof. apply contains_spec. by exists a, b. Qed.

(** Wiring the driver is idempotent and adds one line: the patched component
    list mentions the driver, wiring it again changes nothing, and apart from an
    already wired text the only change is the new line after the anchor; without
    the anchor both fail. *)
Theorem wire_idempotent text :
  match wire_dsc text with
  | Ok t => contains DRIVER_INF t = true /\ wire_dsc t = Ok t /\
            (t = text \/ exists a b, text = a +:+ DSC_ANCHOR +:+ b /\
                                     t = a +:+ DSC_ANCHOR +:+ "  " +:+ DRIVER_INF +:+ newline +:+ b)
  | Raise _ => contains DSC_ANCHOR text = false
  end /\
  match wire_fdf text with
  | Ok t => contains ("INF  " +:+ DRIVER_INF) t = true /\ wire_fdf t = Ok t /\
            (t = text \/ exists a b, text = a +:+ FDF_ANCHOR +:+ b /\
                                     t = a +:+ FDF_ANCHOR +:+ "  INF  " +:+ DRIVER_INF +:+ newline +:+ b)
  | Raise _ => contains FDF_ANCHOR text = false
  end.
Proof.
  split; [unfold wire_dsc at 1|unfold wire_fdf at 1].
  - destruct (contains DRIVER_INF text) eqn:E; [unfold wire_dsc; rewrite E; auto|].
    destruct (contains DSC_ANCHOR text) eqn:Ea; cbn [negb]; [|done].
    destruct (replace_once_found _ (DSC_ANCHOR +:+ "  " +:+ DRIVER_INF +:+ newline) _ Ea) as (a & b & -> & ->).
    set (t := a +:+ _). assert (contains DRIVER_INF t = true) as Hc.
    { unfold t. replace (a +:+ (DSC_ANCHOR +:+ "  " +:+ DRIVER_INF +:+ newline) +:+ b) with
        ((a +:+ DSC_ANCHOR +:+ "  ") +:+ DRIVER_INF +:+ newline +:+ b) by by rewrite !str_app_assoc.
      apply contains_middle. }
    split; [done|]. split; [unfold wire_dsc; by rewrite Hc|]. right. exists a, b. split; [done|].
    unfold t. by rewrite !str_app_assoc.
  - destruct (contains ("INF  " +:+ DRIVER_INF) text) eqn:E; [unfold wire_fdf; rewrite E; auto|].
    destruct (contains FDF_ANCHOR text) eqn:Ea; cbn [negb]; [|done].
    destruct (replace_once_found _ (FDF_ANCHOR +:+ "  INF  " +:+ DRIVER_INF +:+ newline) _ Ea) as (a & b & -> & ->).
    set (t := a +:+ _). assert (contains ("INF  " +:+ DRIVER_INF) t = true) as Hc.
    { unfold t. replace (a +:+ (FDF_ANCHOR +:+ "  INF  " +:+ DRIVER_INF +:+ newline) +:+ b) with
        ((a +:+ FDF_ANCHOR +:+ "  ") +:+ ("INF  " +:+ DRIVER_INF) +:+ newline +:+ b) by by rewrite !str_app_assoc.
      apply contains_middle. }
    split; [done|]. split; [unfold wire_fdf; by rewrite Hc|]. right. exists a, b. split; [done|].
    unfold t. by rewrite !str_app_assoc.
Qed.
