(* ===== verification/Scripts.v ===== *)
(** Two small scripts: [scripts/normalize_manifest.py], which resolves shell
    defaults in release manifests, and [scripts/offline.py], the fail-closed
    check of network-capable targets. *)

From Stdlib Require Import ZArith Bool Ascii String Lia.
From stdpp Require Import base list strings option gmap.
From S2P Require Import Prelude Eff PyStr PyText PyVal Json Sha256 Lock Fs Cache CacheThm CacheLab.

Open Scope string_scope.
Open Scope Z_scope.

(** ** [normalize_manifest.py] *)

Module Normalize.

Definition is_name_start (c : ascii) : bool := is_lower_az c || is_upper_az c || Ascii.eqb c "_".
Definition is_name_char (c : ascii) : bool := is_name_start c || is_digit c.

(** [DEFAULT] at the start of a text: the group and the length of the match.  The
    greedy name needs no backtracking: [:] is no character of it. *)
Definition match_default (s : string) : option (string * nat) :=
  if startswith "${" s then
    let rest := str_drop 2 s in
    match rest with
    | String c _ =>
        if is_name_start c then
          let '(name, r) := span_while is_name_char rest in
          if startswith ":=" r then
            let '(value, r2) := cut_at (Ascii.eqb "}") (str_drop 2 r) in
            if is_empty r2 then None
            else Some (value, 2 + String.length name + 2 + String.length value + 1)%nat
          else None
        else None
    | EmptyString => None
    end
  else None.

(** [DEFAULT.sub]: [skip] characters of the last match are left to pass. *)
Fixpoint normalize_go (skip : nat) (s : string) : string :=
  match s with
  | EmptyString => ""
  | String c s' =>
      match skip with
      | S k => normalize_go k s'
      | O => match match_default s with
             | Some (value, n) => value +:+ normalize_go (n - 1) s'
             | None => String c (normalize_go 0 s')
             end
      end
  end.
Definition normalize (text : string) : string := normalize_go 0 text.

(** A manifest in pieces: literal text without [$], and defaults. *)
Inductive piece : Type :=
  | Literal (s : string)
  | Default (name value : string).

Definition good_piece (p : piece) : bool :=
  match p with
  | Literal s => str_forallb (fun c => negb (Ascii.eqb c "$")) s
  | Default name value =>
      match name with String c _ => is_name_start c | EmptyString => false end &&
      str_forallb is_name_char name && str_forallb (fun c => negb (Ascii.eqb c "}")) value
  end.
Definition written (p : piece) : string :=
  match p with Literal s => s | Default name value => "${" +:+ name +:+ ":=" +:+ value +:+ "}" end.
Definition resolved (p : piece) : string := match p with Literal s => s | Default _ value => value end.

Lemma match_default_no_dollar c s : Ascii.eqb c "$" = false -> match_default (String c s) = None.
Proof.
  intros Hc. unfold match_default, startswith. cbn [String.prefix].
  destruct (ascii_dec "$" c) as [<-|]; [done|done].
Qed.

Lemma normalize_literal s r :
  str_forallb (fun c => negb (Ascii.eqb c "$")) s = true -> normalize_go 0 (s +:+ r) = s +:+ normalize_go 0 r.
Proof.
  induction s as [|c s IH]; [done|]. cbn [str_forallb String.append normalize_go]. intros H. bool_hyps.
  rewrite match_default_no_dollar, IH; done.
Qed.

Lemma normalize_skip a r : forall n, String.length a = n -> normalize_go n (a +:+ r) = normalize_go 0 r.
Proof. induction a as [|c a IH]; intros n <-; [done|]. cbn [String.length String.append normalize_go]. by apply IH. Qed.

Lemma span_name name r :
  str_forallb is_name_char name = true ->
  span_while is_name_char (name +:+ String ":" r) = (name, String ":" r).
Proof.
  induction name as [|c name IH]; [done|]. cbn [str_forallb String.append span_while]. intros H. bool_hyps.
  by rewrite H, IH.
Qed.

Lemma cut_value value r :
  str_forallb (fun c => negb (Ascii.eqb c "}")) value = true ->
  cut_at (Ascii.eqb "}") (value +:+ String "}" r) = (value, String "}" r).
Proof.
  induction value as [|c value IH]; [done|]. cbn [str_forallb String.append cut_at]. intros H.
  apply andb_true_iff in H as [H1 H2]. apply negb_true_iff in H1. rewrite Ascii.eqb_sym in H1. by rewrite H1, IH.
Qed.

Lemma match_default_written name value r :
  good_piece (Default name value) = true ->
  match_default (written (Default name value) +:+ r) =
  Some (value, (2 + String.length name + 2 + String.length value + 1)%nat).
Proof.
  unfold good_piece. intros H. apply andb_true_iff in H as [H Hv]. apply andb_true_iff in H as [Hs Hn].
  destruct name as [|c name]; [done|]. cbn [written].
  assert (("${" +:+ String c name +:+ ":=" +:+ value +:+ "}") +:+ r =
          String "$" (String "{" (String c (name +:+ ":=" +:+ value +:+ String "}" r)))) as ->.
  { rewrite !str_app_assoc. done. }
  unfold match_default. change (startswith "${" _) with true. cbv iota. cbn [str_drop].
  rewrite Hs. pose proof (span_name (String c name) (String "=" (value +:+ String "}" r)) Hn) as Hspan.
  cbn [String.append] in Hspan. cbn [String.append]. rewrite Hspan. cbv beta iota.
  assert (startswith ":=" (String ":" (String "=" (value +:+ String "}" r))) = true) as -> by apply (prefix_app ":=").
  cbn [str_drop]. rewrite cut_value by done. done.
Qed.

Lemma length_written name value :
  String.length (written (Default name value)) = (2 + String.length name + 2 + String.length value + 1)%nat.
Proof. cbn [written]. rewrite !length_str_app. cbn. lia. Qed.

(** A manifest made of literal text and [${NAME:=default}] forms is
    normalised to the same text with every form replaced by its default. *)
Theorem normalize_pieces pieces :
  forallb good_piece pieces = true ->
  normalize (join "" (written <$> pieces)) = join "" (resolved <$> pieces).
Proof.
  assert (forall (x : string) l, join "" (x :: l) = x +:+ join "" l) as Hj.
  { intros x [|y l]; cbn [join]; [by rewrite str_app_nil_r|done]. }
  unfold normalize. induction pieces as [|p pieces IH]; [done|]. cbn [forallb]. intros H.
  apply andb_true_iff in H as [Hp H]. rewrite !fmap_cons, !Hj. destruct p as [s|name value].
  - rewrite normalize_literal by done. by rewrite IH.
  - cbn [resolved]. pose proof (match_default_written name value (join "" (written <$> pieces)) Hp) as Hm.
    pose proof (length_written name value) as Hl. destruct (written (Default name value)) as [|c w] eqn:Ew; [done|].
    cbn [String.append] in *. cbn [normalize_go]. rewrite Hm, normalize_skip, IH; [done|done|].
    cbn [String.length] in Hl. lia.
Qed.

Definition sample_pieces : list piece :=
  [Literal "replicas: "; Default "N" "3"; Literal ", level: "; Default "LOG_LEVEL" ""].

Lemma normalize_pieces_witness :
  normalize "replicas: ${N:=3}, level: ${LOG_LEVEL:=}" = "replicas: 3, level: ".
Proof. exact (normalize_pieces sample_pieces eq_refl). Defined.

(** Nested defaults are not resolved in one pass: the group ends at the first
    closing brace. *)
Example normalize_nested : normalize "${A:=${B:=x}}" = "${B:=x}".
Proof. reflexivity. Qed.

End Normalize.

(** ** [offline.py] *)

Module Offline.

Record offline_args : Type := {
  oa_root : path; oa_lock_digest : option string; oa_network_operation : bool
}.

Definition offline_enabled (offline : option string) : bool := String.eqb (default "0" offline) "1".

Definition system_exit {A} (msg : string) : result A := Raise (Exn SystemExit msg).

Definition require_cache (m : fs) (cache_root : path) (lock : pydict) : result path :=
  let* problems := validate_cache lock cache_root m in
  match problems with
  | [] => Ok (cache_root ++ ["locks"; lock_digest lock])%list
  | _ => system_exit ("offline cache is incomplete for lock " +:+ lock_digest lock +:+ ": " +:+ join "; " problems)
  end.

(** [main]: the printed line, if any; the status is 0. *)
Definition offline_main (document : pyval) (args : offline_args) (offline : option string) (m : fs)
    : result (option string) :=
  if offline_enabled offline && oa_network_operation args
  then system_exit "OFFLINE=1 forbids network access; use verified local cache and registry artifacts"
  else if offline_enabled offline then
    let* lock := load_lock document in
    match oa_lock_digest args with
    | Some d => raise_if (negb (String.eqb d (lock_digest lock))) SystemExit
                  "offline lock digest does not match the supplied lock"
    | None => Ok tt
    end ;;;
    let* cache := require_cache m (oa_root args) lock in
    Ok (Some (path_text cache))
  else Ok None.

(** With [OFFLINE=1] the check fails closed: it passes only for an operation
    that needs no network, a lock that loads and has the supplied digest, and a
    cache that validates for it; without it nothing is checked. *)
Theorem offline_fails_closed document args offline m line :
  offline_main document args offline m = Ok line ->
  if offline_enabled offline then
    oa_network_operation args = false /\
    exists lock, load_lock document = Ok lock /\ validate_cache lock (oa_root args) m = Ok [] /\
      line = Some (path_text (cache_dir lock (oa_root args))) /\
      forall d, oa_lock_digest args = Some d -> d = lock_digest lock
  else line = None.
Proof.
  unfold offline_main. destruct (offline_enabled offline); cbn [andb]; [|by intros [= <-]].
  destruct (oa_network_operation args); [done|]. intros H. split; [done|].
  apply rbind_Ok in H as (lock & Hl & H). apply rbind_Ok in H as (u & Hd & H).
  apply rbind_Ok in H as (cache & Hc & H). injection H as <-. unfold require_cache in Hc.
  apply rbind_Ok in Hc as (problems & Hv & Hc). destruct problems; [|done]. injection Hc as <-.
  exists lock. do 3 (split; [done|]). intros d Hd'. rewrite Hd' in Hd. apply raise_if_Ok in Hd.
  by apply negb_false_iff, String.eqb_eq in Hd.
Qed.

Definition lab_args : offline_args :=
  {| oa_root := lab_root; oa_lock_digest := None; oa_network_operation := false |}.

Lemma lab_passes : is_ok (offline_main (VDict lab_lock) lab_args (Some "1") (now (snd lab_run))) = true.
Proof. vm_compute. reflexivity. Qed.

Lemma offline_fails_closed_witness :
  oa_network_operation lab_args = false /\
  exists lock, load_lock (VDict lab_lock) = Ok lock /\
    validate_cache lock (oa_root lab_args) (now (snd lab_run)) = Ok [].
Proof.
  pose proof lab_passes as Hok.
  destruct (offline_main (VDict lab_lock) lab_args (Some "1") (now (snd lab_run))) as [line|e] eqn:E;
    [|discriminate Hok].
  destruct (offline_fails_closed (VDict lab_lock) lab_args (Some "1") (now (snd lab_run)) line E)
    as (H1 & lock & H2 & H3 & _).
  split; [exact H1|]. exists lock. split; [exact H2|exact H3].
Defined.

End Offline.
