(* ===== verification/Worker.v ===== *)
(** A worker node as [sched-core-delta/experiments/run_matrix.py] and
    [sched-core-modes/experiments/run_matrix.py] change it: the kernel's setting
    files, a module with its parameter files, cgroups and child processes.

    Everything else outside the program (clocks, other files, host names) is
    only asked.  Any call may raise instead of acting: a failure, or the
    [SystemExit] by which these programs answer a signal.  What a call answers
    is arbitrary where the node's state does not say it. *)

From Stdlib Require Import ZArith Bool Ascii String Lia SpecFloat.
From stdpp Require Import base list strings option gmap.
From S2P Require Import Prelude Eff PyStr PyFloat World.

Open Scope string_scope.
Open Scope Z_scope.

(** One look of the sampling thread: the clock, /proc/stat, the preferred mask
    and the pressure file, each as the read gave it. *)
Record look : Type := { lk_stat : result string; lk_time : float; lk_preferred : result string; lk_pressure : result string }.

(** A cgroup, by its path below the mount point. *)
Abbreviation cgroup := (list string).

Inductive call : Type -> Type :=
  | Outside {R} (o : op R) : call R
  (* setting files: exists, read, write; and read one that shows more than was written *)
  | SettingExists (path : string) : call bool
  | Setting (path : string) : call string
  | Shown (path : string) : call string
  | SetSetting (path text : string) : call unit
  (* the module: its directory, a parameter file, and the commands that load and unload it *)
  | ModuleLoaded : call bool
  | ModuleParam (name : string) : call string
  | Command (argv : list string) : call unit        (* subprocess.run(argv, check=True) *)
  (* cgroups: exists, the sub-groups, mkdir(parents=True), rmdir *)
  | GroupExists (g : cgroup) : call bool
  | GroupChildren (g : cgroup) : call (list cgroup)
  | MakeGroup (exist_ok : bool) (g : cgroup) : call unit
  | RemoveGroup (g : cgroup) : call unit
  (* child processes *)
  | Spawn (argv : list string) : call Z
  | PollChild (pid : Z) : call (option Z)
  | TerminateChild (pid : Z) : call unit
  | WaitChild (pid : Z) (timeout : float) : call Z
  | KillChild (pid : Z) : call unit
  | ChildStderr (pid : Z) : call string
  (* the sampling thread *)
  | StartSampler : call unit
  | StopSampler : call (list look)
  (* os.uname(), the CPUs of the process, the user, shutil.which, st_mtime, touch, rmtree *)
  | Uname : call (string * string)                  (* release and node name *)
  | CpuCount : call Z
  | EffectiveUser : call Z
  | Which (tool : string) : call bool
  | Mtime (path : string) : call float
  | Touch (path : string) : call unit
  | RmTree (path : string) : call unit
  | Rename (src dst : string) : call unit
  | Print (text : string) : call unit.

Record request : Type := Request { request_type : Type; request_call : call request_type }.
Arguments Request {_} _.

Record worker : Type := {
  wk_settings : gmap string string;
  wk_module : option (list (string * string));
  wk_groups : gset cgroup;
  wk_running : gset Z;
  wk_past : list request
}.

(** The node's environment: the answers, the module after a command, and the
    text that the kernel shows for a setting. *)
Class Node : Type := {
  node_answer : forall R, call R -> worker -> result R;
  node_module : list string -> worker -> option (list (string * string));
  node_shows : string -> string -> string             (* the file, what was written *)
}.
Arguments node_answer {_} R _ _.

Abbreviation W := (ST worker).

(** ** What a call does *)

Definition with_settings (w : worker) s : worker :=
  {| wk_settings := s; wk_module := wk_module w; wk_groups := wk_groups w; wk_running := wk_running w; wk_past := wk_past w |}.
Definition with_module (w : worker) m : worker :=
  {| wk_settings := wk_settings w; wk_module := m; wk_groups := wk_groups w; wk_running := wk_running w; wk_past := wk_past w |}.
Definition with_groups (w : worker) g : worker :=
  {| wk_settings := wk_settings w; wk_module := wk_module w; wk_groups := g; wk_running := wk_running w; wk_past := wk_past w |}.
Definition with_running (w : worker) r : worker :=
  {| wk_settings := wk_settings w; wk_module := wk_module w; wk_groups := wk_groups w; wk_running := r; wk_past := wk_past w |}.
Definition asked (w : worker) (r : request) : worker :=
  {| wk_settings := wk_settings w; wk_module := wk_module w; wk_groups := wk_groups w; wk_running := wk_running w;
     wk_past := (wk_past w ++ [r])%list |}.

Definition missing {A} : result A := Raise (Exn FileNotFoundError "[Errno 2] No such file or directory").

(** The groups that [mkdir(parents=True)] makes: the group and those above it. *)
Definition lineage (g : cgroup) : gset cgroup := list_to_set ((fun n => take n g) <$> seq 1 (length g)).
Definition is_child (g : cgroup) (c : cgroup) : bool :=
  bool_decide (length c = S (length g) /\ take (length g) c = g).
Definition children_of (g : cgroup) (groups : gset cgroup) : list cgroup := List.filter (is_child g) (elements groups).
Definition group_present (g : cgroup) (groups : gset cgroup) : bool :=
  match g with [] => true | _ => bool_decide (g ∈ groups) end.
(** [sorted(path.iterdir(), reverse=True)] *)
Definition cgroup_geb (a b : cgroup) : bool := String.leb (join "/" b) (join "/" a).

(** The commands that load and unload modules. *)
Definition module_command (argv : list string) : bool :=
  match argv with prog :: _ => mem_string prog ["modprobe"; "rmmod"] | [] => false end.

Section Effects.
Context `{Node}.

(** A call that was answered with [r]. *)
Definition effect {R} (c : call R) (w : worker) : R -> result R * worker :=
  match c in call R return R -> result R * worker with
  | SettingExists p => fun _ => (Ok (bool_decide (is_Some (wk_settings w !! p))), w)
  | Setting p => fun _ => (match wk_settings w !! p with Some t => Ok t | None => missing end, w)
  | Shown p => fun _ => (match wk_settings w !! p with Some t => Ok (node_shows p t) | None => missing end, w)
  | SetSetting p t => fun _ => (Ok tt, with_settings w (<[p := t]> (wk_settings w)))
  | ModuleLoaded => fun _ => (Ok (bool_decide (is_Some (wk_module w))), w)
  | ModuleParam name => fun _ =>
      (match wk_module w with
       | Some ps => match List.find (fun p => String.eqb name (fst p)) ps with Some (_, t) => Ok t | None => missing end
       | None => missing
       end, w)
  | Command argv => fun _ => (Ok tt, if module_command argv then with_module w (node_module argv w) else w)
  | GroupExists g => fun _ => (Ok (group_present g (wk_groups w)), w)
  | GroupChildren g => fun _ =>
      if group_present g (wk_groups w) then (Ok (sort_by cgroup_geb (children_of g (wk_groups w))), w) else (missing, w)
  | MakeGroup exist_ok g => fun _ =>
      if negb exist_ok && group_present g (wk_groups w) then (Raise (Exn OSError "[Errno 17] File exists"), w)
      else (Ok tt, with_groups w (lineage g ∪ wk_groups w))
  | RemoveGroup g => fun _ =>
      if negb (group_present g (wk_groups w)) then (missing, w)
      else match g, children_of g (wk_groups w) with
           | _ :: _, [] => (Ok tt, with_groups w (wk_groups w ∖ {[g]}))
           | _, _ => (Raise (Exn OSError "[Errno 16] Device or resource busy"), w)
           end
  | Spawn _ => fun pid => (Ok pid, with_running w ({[pid]} ∪ wk_running w))
  | PollChild pid => fun s =>
      (Ok s, match s with Some _ => with_running w (wk_running w ∖ {[pid]}) | None => w end)
  | WaitChild pid _ => fun s => (Ok s, with_running w (wk_running w ∖ {[pid]}))
  | KillChild pid => fun _ => (Ok tt, with_running w (wk_running w ∖ {[pid]}))
  | _ => fun r => (Ok r, w)
  end.

Definition ask {R} (c : call R) : W R := fun w =>
  let w' := asked w (Request c) in
  match node_answer R c w with
  | Raise e => (Raise e, w')
  | Ok r => effect c w' r
  end.
Definition outside {R} (o : op R) : W R := ask (Outside o).

(** The outcome of a part, as a value. *)
Definition observe {A} (m : W A) : W (result A) := fun w => let '(r, w') := m w in (Ok r, w').
End Effects.

(** ** What a program moves

    [moves R m]: wherever [m] starts and however it ends, [R] relates the node
    before and after it. *)

Definition moves (R : worker -> worker -> Prop) {A} (m : W A) : Prop := forall w, R w (snd (m w)).

Section Keeps.
Context `{Node} (R : worker -> worker -> Prop) `{!PreOrder R}.

Lemma moves_ret {A} (a : A) : moves R (ret a).
Proof. intros w. reflexivity. Qed.
Lemma moves_throw {A} c msg : moves R (throw c msg : W A).
Proof. intros w. reflexivity. Qed.
Lemma moves_lift {A} (r : result A) : moves R (lift r).
Proof. intros w. reflexivity. Qed.
Lemma moves_throw_if b c msg : moves R (throw_if b c msg).
Proof. destruct b; [apply moves_throw|apply moves_ret]. Qed.
Lemma moves_bind {A B} (m : W A) (k : A -> W B) : moves R m -> (forall a, moves R (k a)) -> moves R (mbindM m k).
Proof.
  intros Hm Hk w. unfold mbindM. specialize (Hm w). destruct (m w) as [[a|e] w1]; [|done]. cbn [snd] in Hm.
  etransitivity; [exact Hm|apply Hk].
Qed.
Lemma moves_try {A} (m : W A) cs f : moves R m -> (forall e, moves R (f e)) -> moves R (try_except m cs f).
Proof.
  intros Hm Hf w. unfold try_except. specialize (Hm w). destruct (m w) as [[a|e] w1]; [done|]. cbn [snd] in Hm.
  destruct (caught_by cs e); [|done]. etransitivity; [exact Hm|apply Hf].
Qed.
Lemma moves_finally {A} (m : W A) f : moves R m -> moves R f -> moves R (try_finally m f).
Proof.
  intros Hm Hf w. unfold try_finally. specialize (Hm w). destruct (m w) as [r w1]. cbn [snd] in Hm. specialize (Hf w1).
  destruct (f w1) as [[u|e] w2]; (etransitivity; [exact Hm|exact Hf]).
Qed.
Lemma moves_forM {A} (l : list A) body : (forall x, x ∈ l -> moves R (body x)) -> moves R (forM l body).
Proof.
  induction l as [|x l IH]; intros Hb; [apply moves_ret|]. apply moves_bind; [apply Hb; left|].
  intros _. apply IH. intros y Hy. apply Hb. by right.
Qed.
Lemma moves_loop {S A} fuel (body : S -> W (S + A)) s : (forall s, moves R (body s)) -> moves R (loop fuel body s).
Proof.
  intros Hb. revert s. induction fuel as [|f IH]; intros s; [apply moves_throw|].
  apply moves_bind; [done|]. intros [s'|a]; [apply IH|apply moves_ret].
Qed.
Lemma moves_observe {A} (m : W A) : moves R m -> moves R (observe m).
Proof. intros Hm w. unfold observe. specialize (Hm w). by destruct (m w). Qed.
Lemma moves_ask {A} (c : call A) :
  (forall w, R w (asked w (Request c))) -> (forall w r, R (asked w (Request c)) (snd (effect c (asked w (Request c)) r))) ->
  moves R (ask c).
Proof.
  intros Ha He w. unfold ask. destruct (node_answer A c w) as [r|e]; [|apply Ha]. etransitivity; [apply Ha|apply He].
Qed.
End Keeps.
