(* ===== verification/SchedScenarios.v ===== *)
(** [sched-core-delta/experiments/scenarios.py]: the scenarios of the kernel
    comparison and its predeclared metrics. *)

From Stdlib Require Import ZArith Bool Ascii String Lia.
From stdpp Require Import base list strings option.
From S2P Require Import Prelude PyStr PyVal.

Open Scope string_scope.
Open Scope Z_scope.

Definition DEFAULT_CPUS : Z := 2.
Definition PARENT_WEIGHT : Z := 10000.

Definition ARMS : list string := ["stock"; "custom"].
Definition STEAL_ARMS : list string := ["custom-nogov"; "custom-gov"].
Definition ALL_ARMS : list string := (ARMS ++ STEAL_ARMS)%list.

(** The control and the treatment arm of a contrast. *)
Definition CONTRASTS : list (string * (string * string)) :=
  [("kernel", ("stock", "custom")); ("governor", ("custom-nogov", "custom-gov"))].

Definition DEFAULT_SCENARIOS : list string := ["wakeup"; "slice"; "fairness"; "quota"; "churn"].
Definition ALL_SCENARIOS : list string := (DEFAULT_SCENARIOS ++ ["steal"])%list.

(** A group of a scenario as it is written, and a scenario. *)
Record GroupSpec : Type := {
  gs_name : string; gs_weight : Z; gs_cpu_max : option string; gs_workloads : list pydict
}.
Record Scenario : Type := { sc_description : string; sc_requires_host_steal : bool; sc_groups : list GroupSpec }.

Record Metric : Type := {
  me_scenario : string; me_group : string; me_metric : string; me_direction : string; me_expected : option string;
  me_feature : string; me_contrast : option string; me_rationale : string
}.

Definition SCENARIOS : list (string * Scenario) :=
  [("wakeup", {| sc_description := ("Two full-time CPU hogs at weight 400 plus a 1 ms timer probe at weight 100. Measures " +:+
        "the wakeup delay distribution of the probe while both vCPUs are busy.");
      sc_requires_host_steal := false;
      sc_groups := [{| gs_name := "load"; gs_weight := 400; gs_cpu_max := None; gs_workloads := [[("kind", VStr "cpu"); ("threads", VInt 2)]] |};
        {| gs_name := "probe"; gs_weight := 100; gs_cpu_max := None; gs_workloads := [[("kind", VStr "wakeup"); ("interval_us", VInt 1000)]] |}] |});
   ("slice", {| sc_description := ("Two full-time CPU hogs at weight 400 plus a 100-weight task that burns 500 us every 5 " +:+
        "ms. Measures how often the short burst is delayed or misses its next period.");
      sc_requires_host_steal := false;
      sc_groups := [{| gs_name := "load"; gs_weight := 400; gs_cpu_max := None; gs_workloads := [[("kind", VStr "cpu"); ("threads", VInt 2)]] |};
        {| gs_name := "burst"; gs_weight := 100; gs_cpu_max := None; gs_workloads := [[("kind", VStr "periodic"); ("threads", VInt 1); ("period_us", VInt 5000); ("burn_us", VInt 500)]] |}] |});
   ("fairness", {| sc_description := ("Two CPU hogs at weight 400 plus four equal-weight periodic tasks at weight 100. " +:+
        "Measures tail wakeup delay and the dispersion of per-thread completion counts.");
      sc_requires_host_steal := false;
      sc_groups := [{| gs_name := "load"; gs_weight := 400; gs_cpu_max := None; gs_workloads := [[("kind", VStr "cpu"); ("threads", VInt 2)]] |};
        {| gs_name := "fair"; gs_weight := 100; gs_cpu_max := None; gs_workloads := [[("kind", VStr "periodic"); ("threads", VInt 4); ("period_us", VInt 2000); ("burn_us", VInt 200)]] |}] |});
   ("quota", {| sc_description := ("A 100-weight group capped at 0.5 CPU with two hogs and a 1 ms timer probe, next to an " +:+
        "uncapped 100-weight group with two hogs. The null control: the net series preserves CFS " +:+
        "bandwidth enforcement, so delivered CPU and throttle ratios must not move.");
      sc_requires_host_steal := false;
      sc_groups := [{| gs_name := "limited"; gs_weight := 100; gs_cpu_max := Some "50000 100000"; gs_workloads := [[("kind", VStr "cpu"); ("threads", VInt 2)]; [("kind", VStr "wakeup"); ("interval_us", VInt 1000)]] |};
        {| gs_name := "open"; gs_weight := 100; gs_cpu_max := None; gs_workloads := [[("kind", VStr "cpu"); ("threads", VInt 2)]] |}] |});
   ("churn", {| sc_description := ("Two CPU hogs at weight 400 plus short-lived tasks created at 200 per second at weight " +:+
        "100. Measures task completion latency and scheduler context-switch overhead.");
      sc_requires_host_steal := false;
      sc_groups := [{| gs_name := "load"; gs_weight := 400; gs_cpu_max := None; gs_workloads := [[("kind", VStr "cpu"); ("threads", VInt 2)]] |};
        {| gs_name := "churn"; gs_weight := 100; gs_cpu_max := None; gs_workloads := [[("kind", VStr "churn"); ("rate", VInt 200); ("work_us", VInt 20)]] |}] |});
   ("steal", {| sc_description := ("An interacting producer/consumer pair hard-pinned one thread per vCPU plus two unpinned " +:+
        "independent burners, while the host steals CPU time. Run with the steal governor off " +:+
        "and on. The governor contracts the preferred mask and can move only the unpinned " +:+
        "burners; the pinned responder keeps its non-preferred vCPU. This tests the " +:+
        "affinity-preserving branch of the preferred-CPU contract, not pair consolidation.");
      sc_requires_host_steal := true;
      sc_groups := [{| gs_name := "pair"; gs_weight := 400; gs_cpu_max := None; gs_workloads := [[("kind", VStr "pingpong"); ("burn_us", VInt 20)]] |};
        {| gs_name := "burn"; gs_weight := 100; gs_cpu_max := None; gs_workloads := [[("kind", VStr "cpu"); ("threads", VInt 2)]] |}] |})].

Definition PRIMARY_METRICS : list Metric :=
  [{| me_scenario := "wakeup"; me_group := "probe"; me_metric := "p999_us"; me_direction := "lower"; me_expected := Some "improve";
      me_feature := "EEVDF slice protection and timer restart"; me_contrast := None;
      me_rationale := ("The series bounds how long the current entity may keep the CPU when a shorter-slice " +:+
        "entity becomes runnable. The 99.9th wakeup delay is the predeclared tail metric.") |};
   {| me_scenario := "wakeup"; me_group := "probe"; me_metric := "p99_us"; me_direction := "lower"; me_expected := Some "improve";
      me_feature := "EEVDF slice protection and timer restart"; me_contrast := None;
      me_rationale := "The same wakeup mechanism, at the 99th percentile." |};
   {| me_scenario := "wakeup"; me_group := "load"; me_metric := "iterations_per_s"; me_direction := "higher"; me_expected := Some "equivalent";
      me_feature := "EEVDF throughput"; me_contrast := None;
      me_rationale := ("A latency improvement must not be bought with a throughput loss. The null band is the " +:+
        "same 5% used by the sibling series.") |};
   {| me_scenario := "slice"; me_group := "burst"; me_metric := "p99_us"; me_direction := "lower"; me_expected := Some "improve";
      me_feature := "EEVDF slice protection"; me_contrast := None;
      me_rationale := ("A short burst is the entity that the protection changes target; its 99th start delay " +:+
        "should fall if the bound is effective.") |};
   {| me_scenario := "fairness"; me_group := "fair"; me_metric := "p99_us"; me_direction := "lower"; me_expected := Some "improve";
      me_feature := "EEVDF candidate selection"; me_contrast := None;
      me_rationale := ("Keeping the best equal-slice candidate on wakeup should not increase the tail; this " +:+
        "checks the fix does not regress it.") |};
   {| me_scenario := "fairness"; me_group := "fair"; me_metric := "thread_cv"; me_direction := "lower"; me_expected := Some "improve";
      me_feature := "EEVDF candidate selection"; me_contrast := None;
      me_rationale := ("Four equal-weight threads should complete a similar number of periods. The coefficient " +:+
        "of variation measures that fairness.") |};
   {| me_scenario := "quota"; me_group := "limited"; me_metric := "delivered_cpu_pct"; me_direction := "equivalent"; me_expected := Some "equivalent";
      me_feature := "CFS bandwidth (commits 21 and 63)"; me_contrast := None;
      me_rationale := ("The custom kernel restores the queueing branch inside the same series. It must not " +:+
        "change the quota contract or grant extra CPU.") |};
   {| me_scenario := "quota"; me_group := "limited"; me_metric := "throttled_period_pct"; me_direction := "equivalent"; me_expected := Some "equivalent";
      me_feature := "CFS bandwidth (commits 21 and 63)"; me_contrast := None;
      me_rationale := ("The limited group exhausts its 0.5 CPU cap in both kernels. A different throttle ratio " +:+
        "would mean the series changed CFS bandwidth enforcement.") |};
   {| me_scenario := "quota"; me_group := "limited"; me_metric := "p99_us"; me_direction := "lower"; me_expected := Some "equivalent";
      me_feature := "CFS bandwidth tail"; me_contrast := None;
      me_rationale := ("The timer probe inside the capped group is a descriptive check. The series is not " +:+
        "expected to remove quota-induced delay.") |};
   {| me_scenario := "churn"; me_group := "churn"; me_metric := "p99_us"; me_direction := "lower"; me_expected := Some "improve";
      me_feature := "scheduler constant overhead"; me_contrast := None;
      me_rationale := ("The augmented-rbtree and static-key changes reduce fixed work per enqueue. Short-lived " +:+
        "task completion is the closest userspace proxy for that cost.") |};
   {| me_scenario := "churn"; me_group := "churn"; me_metric := "tasks_per_s"; me_direction := "higher"; me_expected := Some "equivalent";
      me_feature := "scheduler constant overhead"; me_contrast := None;
      me_rationale := ("The series does not change the algorithmic complexity, so the completion rate is a null " +:+
        "control for a large throughput gain.") |};
   {| me_scenario := "steal"; me_group := "pair"; me_metric := "p99_us"; me_direction := "lower"; me_expected := Some "improve";
      me_feature := "steal governor"; me_contrast := Some "governor";
      me_rationale := ("Moving the unpinned burners onto the preferred CPU can free the pinned responder's " +:+
        "vCPU. The pair itself cannot migrate, so this is not a pair-consolidation effect.") |};
   {| me_scenario := "steal"; me_group := "pair"; me_metric := "round_trips_per_s"; me_direction := "higher"; me_expected := Some "improve";
      me_feature := "steal governor"; me_contrast := Some "governor";
      me_rationale := "The pair's completed round trips are the throughput view." |};
   {| me_scenario := "steal"; me_group := "burn"; me_metric := "iterations_per_s"; me_direction := "higher"; me_expected := Some "regress";
      me_feature := "steal governor trade-off"; me_contrast := Some "governor";
      me_rationale := ("The unpinned independent burners lose useful parallelism when the governor consolidates " +:+
        "them onto the preferred CPU. A measured regression is the expected trade-off, not a " +:+
        "defect in the series.") |}].

Definition DESCRIPTIVE_METRICS : list Metric :=
  [{| me_scenario := "wakeup"; me_group := "probe"; me_metric := "max_us"; me_direction := "lower"; me_expected := None;
      me_feature := "EEVDF tail"; me_contrast := None;
      me_rationale := "A single worst-case sample is reported but never decided." |};
   {| me_scenario := "slice"; me_group := "burst"; me_metric := "missed_periods"; me_direction := "lower"; me_expected := None;
      me_feature := "EEVDF slice protection"; me_contrast := None;
      me_rationale := ("A missed period is a stronger failure than a late start, but the count is often zero on " +:+
        "a short window, so it is reported without a ratio verdict.") |};
   {| me_scenario := "slice"; me_group := "burst"; me_metric := "missed_period_rate_pct"; me_direction := "lower"; me_expected := None;
      me_feature := "EEVDF slice protection"; me_contrast := None;
      me_rationale := "The rate normalises for the number of periods." |};
   {| me_scenario := "quota"; me_group := "open"; me_metric := "iterations_per_s"; me_direction := "higher"; me_expected := None;
      me_feature := "quota neighbour"; me_contrast := None;
      me_rationale := "The uncapped neighbour shows the cost of the capped group." |};
   {| me_scenario := "steal"; me_group := "pair"; me_metric := "p999_us"; me_direction := "lower"; me_expected := None;
      me_feature := "steal governor"; me_contrast := None;
      me_rationale := "The 99.9th percentile is descriptive on a small block count." |}].

Definition scenario_names : list string := fst <$> SCENARIOS.

(** A group as the runner uses it. *)
Record group : Type := { g_name : string; g_weight : Z; g_cpu_max : string; g_workloads : list pydict }.
Definition normalised (s : GroupSpec) : group :=
  {| g_name := gs_name s; g_weight := gs_weight s; g_cpu_max := default "" (gs_cpu_max s); g_workloads := gs_workloads s |}.

(** [SCENARIOS[name]] *)
Definition scenario_of (name : string) : result Scenario :=
  match List.find (fun p => String.eqb name (fst p)) SCENARIOS with
  | Some (_, s) => Ok s
  | None => Raise (Exn KeyError (repr_str name))
  end.
Definition scenario_groups (scenario : string) : result (list group) :=
  let* s := scenario_of scenario in Ok (normalised <$> sc_groups s).

Definition primary_metrics (scenario : option string) : list Metric :=
  match scenario with
  | None => PRIMARY_METRICS
  | Some s => List.filter (fun m => String.eqb (me_scenario m) s) PRIMARY_METRICS
  end.

Definition contrast_name (scenario : string) : string := if String.eqb scenario "steal" then "governor" else "kernel".
Definition contrast_arms (name : string) : option (string * string) :=
  match List.find (fun p => String.eqb name (fst p)) CONTRASTS with Some (_, a) => Some a | None => None end.
Definition contrast_for (scenario : string) : option (string * string) := contrast_arms (contrast_name scenario).

Definition expected_for (m : Metric) : string := default "descriptive" (me_expected m).

(** The loop over the scenarios, and the loop over the metrics. *)
Definition validate_scenario (p : string * Scenario) : result unit :=
  let '(scenario, spec) := p in
  let* groups := scenario_groups scenario in
  raise_if (match groups with [] => true | _ => false end) ValueError (scenario +:+ ": no groups") ;;;
  raise_if (has_dup (g_name <$> groups)) ValueError (scenario +:+ ": duplicate group names") ;;;
  iterM (fun g =>
    raise_if ((g_weight g <=? 0) || (10000 <? g_weight g)) ValueError
      (scenario +:+ "/" +:+ g_name g +:+ ": invalid cpu.weight") ;;;
    raise_if (match g_workloads g with [] => true | _ => false end) ValueError
      (scenario +:+ "/" +:+ g_name g +:+ ": no workloads")) groups ;;;
  raise_if (sc_requires_host_steal spec && negb (String.eqb scenario "steal")) ValueError
    (scenario +:+ ": host-steal marker is only valid for steal").

Definition validate_metric (m : Metric) : result unit :=
  let scenario := me_scenario m in
  raise_if (negb (mem_string scenario scenario_names)) ValueError
    ("primary metric references unknown scenario " +:+ scenario) ;;;
  let* groups := scenario_groups scenario in
  raise_if (negb (mem_string (me_group m) (g_name <$> groups)) && negb (String.eqb (me_group m) "system")) ValueError
    ("primary metric references unknown group " +:+ scenario +:+ "/" +:+ me_group m) ;;;
  raise_if (negb (mem_string (me_direction m) ["lower"; "higher"; "equivalent"])) ValueError
    (scenario +:+ ": invalid direction " +:+ me_direction m) ;;;
  raise_if (negb (mem_string (expected_for m) ["improve"; "equivalent"; "regress"; "descriptive"])) ValueError
    (scenario +:+ ": invalid expectation " +:+ expected_for m) ;;;
  let contrast := default (contrast_name scenario) (me_contrast m) in
  raise_if (negb (mem_string contrast (fst <$> CONTRASTS))) ValueError (scenario +:+ ": unknown contrast " +:+ contrast).

Definition validate : result unit :=
  raise_if (negb (forallb (fun s => mem_string s scenario_names) DEFAULT_SCENARIOS)) ValueError
    "DEFAULT_SCENARIOS references an unknown scenario" ;;;
  iterM validate_scenario SCENARIOS ;;;
  iterM validate_metric PRIMARY_METRICS ;;;
  raise_if (negb (existsb (fun m => String.eqb (expected_for m) "equivalent") (primary_metrics (Some "quota")))) ValueError
    "quota must keep at least one equivalence metric".

(** The module can be imported. *)
Example scenarios_valid : validate = Ok tt.
Proof. vm_compute. reflexivity. Qed.
