(* ===== verification/SchedHost.v ===== *)
(** [sched-core-delta/experiments/run_matrix.py]: what the runner reads of its
    node, the steal governor, the cgroups and the workloads. *)

From Stdlib Require Import ZArith Bool Ascii String Lia SpecFloat.
From stdpp Require Import base list strings option.
From S2P Require Import Prelude Eff PyStr PyFloat PyVal PyDict Json PyConv Sha256 World Worker SchedScenarios.

Open Scope string_scope.
Open Scope Z_scope.

Definition CGROUP_ROOT : cgroup := ["sched-delta"].
Definition WORK_DIR : string := "/var/tmp/sched-delta".
Definition PROC_STAT : string := "/proc/stat".
Definition BOOT_ID : string := "/proc/sys/kernel/random/boot_id".
Definition PREFERRED_FILE : string := "/sys/devices/system/cpu/preferred".
Definition PRESSURE_CPU : string := "/proc/pressure/cpu".
Definition SCHEDSTATS : string := "/proc/sys/kernel/sched_schedstats".

(** The text of a cgroup's path and of a file in it. *)
Definition cgroup_text (g : cgroup) : string := "/sys/fs/cgroup/" +:+ join "/" g.
Definition in_group (g : cgroup) (file : string) : string := cgroup_text g +:+ "/" +:+ file.

Definition CONFIG_KEYS : list string :=
  ["CONFIG_HZ"; "CONFIG_PREEMPT_LAZY"; "CONFIG_PREEMPT_DYNAMIC"; "CONFIG_SCHED_CORE"; "CONFIG_CFS_BANDWIDTH";
   "CONFIG_CGROUP_SCHED"; "CONFIG_FAIR_GROUP_SCHED"; "CONFIG_SCHED_CLASS_EXT"; "CONFIG_PREFERRED_CPU";
   "CONFIG_STEAL_GOVERNOR"; "CONFIG_SCHEDSTATS"].

Record GovernorState : Type := { loaded : bool; params : list (string * Z) }.

(** [int(s)] *)
Definition int_text (s : string) : result Z :=
  match py_int s with
  | Some n => Ok n
  | None => Raise (Exn ValueError ("invalid literal for int() with base 10: " +:+ repr_str s))
  end.
(** [l[i]] *)
Definition item (l : list string) (i : nat) : result string :=
  match l !! i with Some s => Ok s | None => Raise (Exn IndexError "list index out of range") end.
(** [s.split(sep, 1)] for a text with the separator. *)
Definition split_once (sep : string) (s : string) : string * string :=
  match split_on sep s with
  | x :: rest => (x, join sep rest)
  | [] => (s, "")
  end.
(** [d.get(k, 0)] *)
Definition get_zero (k : string) (d : list (string * Z)) : Z :=
  match List.find (fun p => String.eqb k (fst p)) d with Some (_, n) => n | None => 0 end.

(** ** Lists of CPUs, the mask and the pressure *)

Definition cpu_range (first last : Z) : list Z := (fun i => first + Z.of_nat i) <$> seq 0 (Z.to_nat (last + 1 - first)).

Fixpoint cpus_of_parts (parts : list string) : result (list Z) :=
  match parts with
  | [] => Ok []
  | part :: rest =>
      let part := strip part in
      let* here :=
        if is_empty part then Ok []
        else if contains "-" part then
          let '(start, last) := split_once "-" part in
          let* a := int_text start in let* b := int_text last in Ok (cpu_range a b)
        else let* n := int_text part in Ok [n] in
      let* later := cpus_of_parts rest in
      Ok (here ++ later)%list
  end.
Definition parse_cpulist (value : string) : result (list Z) := cpus_of_parts (split_on "," (strip value)).

Definition preferred_count (value : string) : result Z :=
  match parse_cpulist value with
  | Ok l => Ok (Z.of_nat (length l))
  | Raise e => if caught_by [ValueError] e then Ok 0 else Raise e
  end.

(** What a read of the file gives, and the value that is used. *)
Definition preferred_of (read : result string) : result string :=
  match read with
  | Ok text => Ok (strip text)
  | Raise e => if caught_by [OSError] e then Ok "" else Raise e
  end.

Definition pressure_token (token : string) : float :=
  match py_float (snd (split_once "=" token)) with Some x => x | None => fzero end.
Definition pressure_of_line (line : string) : float :=
  match List.find (startswith "avg10=") (words line) with Some token => pressure_token token | None => fzero end.
Definition pressure_of (read : result string) : result float :=
  match read with
  | Ok text => Ok (match splitlines text with line :: _ => pressure_of_line line | [] => fzero end)
  | Raise e => if caught_by [OSError; IndexError] e then Ok fzero else Raise e
  end.

(** ** CPU times *)

Record cpu_times : Type := { total : Z; idle : Z; steal : Z }.
(** [None]: the empty dictionary of a CPU whose line is too short. *)
Record cpu_stat : Type := { aggregate : option cpu_times; per_cpu : list (Z * option cpu_times); ctxt : Z }.

Definition times_of (values : list Z) : option cpu_times :=
  match values with
  | v0 :: v1 :: v2 :: v3 :: v4 :: v5 :: v6 :: v7 :: _ =>
      Some {| total := v0 + v1 + v2 + v3 + v4 + v5 + v6 + v7; idle := v3 + v4; steal := v7 |}
  | _ => None
  end.
Definition times_at (cpu : Z) (d : list (Z * option cpu_times)) : option cpu_times :=
  match List.find (fun p => cpu =? fst p) d with Some (_, t) => t | None => None end.
(** A line that is too short leaves the times that are there. *)
Definition updated (old new : option cpu_times) : option cpu_times := match new with Some t => Some t | None => old end.

Definition stat_line (s : cpu_stat) (line : string) : result cpu_stat :=
  if startswith "ctxt " line then
    let* text := item (words line) 1 in
    let* n := int_text text in
    Ok {| aggregate := aggregate s; per_cpu := per_cpu s; ctxt := n |}
  else if negb (startswith "cpu" line) then Ok s
  else
    match words line with
    | [] => Ok s
    | name :: parts =>
        if String.eqb name "cpu" then
          let* values := mapM int_text parts in
          Ok {| aggregate := updated (aggregate s) (times_of values); per_cpu := per_cpu s; ctxt := ctxt s |}
        else if str_isdigit (str_drop 3 name) then
          let* cpu := int_text (str_drop 3 name) in
          let* values := mapM int_text parts in
          Ok {| aggregate := aggregate s;
                per_cpu := assoc_set cpu (updated (times_at cpu (per_cpu s)) (times_of values)) (per_cpu s); ctxt := ctxt s |}
        else Ok s
    end.

Definition stat_of (text : string) : result cpu_stat :=
  let* s := foldM stat_line {| aggregate := None; per_cpu := []; ctxt := 0 |} (splitlines text) in
  raise_if (negb (bool_decide (is_Some (aggregate s)))) RuntimeError "no aggregate cpu line in /proc/stat" ;;;
  Ok s.

(** [100.0 * a / b if b else 0.0] *)
Definition percent (a b : Z) : result float :=
  if b =? 0 then Ok fzero
  else let* x := float_of_Z a in let* y := float_of_Z b in fdiv (fmul (flit 100 1) x) y.

(** The growth of a counter, missing ones counted as zero. *)
Definition growth (f : cpu_times -> Z) (before after : option cpu_times) : Z :=
  Z.max 0 (match after with Some t => f t | None => 0 end - match before with Some t => f t | None => 0 end).

Record stat_change : Type := {
  sd_total : Z; sd_steal : Z; sd_idle : Z; sd_steal_total : float; sd_steal_busy : float; sd_steal_max : float;
  sd_per_cpu : list (Z * float); sd_ctxt : Z
}.

(** [max(values, default=0.0)]: the first of the largest. *)
Definition float_max (l : list float) : float :=
  match l with [] => fzero | x :: l => fold_left (fun m y => if fltb m y then y else m) l x end.

(** The CPUs of both, sorted. *)
Definition common_cpus (before after : cpu_stat) : list Z :=
  sort_by Z.leb (List.filter (fun c => existsb (fun p => c =? fst p) (per_cpu after)) (fst <$> per_cpu before)).

Definition stat_delta (before after : cpu_stat) : result stat_change :=
  let total_ := growth total (aggregate before) (aggregate after) in
  let steal_ := growth steal (aggregate before) (aggregate after) in
  let idle_ := growth idle (aggregate before) (aggregate after) in
  let busy := Z.max 0 (total_ - idle_) in
  let* cpus := mapM (fun cpu =>
      let b := times_at cpu (per_cpu before) in
      let a := times_at cpu (per_cpu after) in
      let* p := percent (growth steal b a) (growth total b a) in
      Ok (cpu, p)) (common_cpus before after) in
  let* in_total := percent steal_ total_ in
  let* in_busy := percent steal_ busy in
  Ok {| sd_total := total_; sd_steal := steal_; sd_idle := idle_; sd_steal_total := in_total; sd_steal_busy := in_busy;
        sd_steal_max := float_max (snd <$> cpus); sd_per_cpu := cpus; sd_ctxt := ctxt after - ctxt before |}.

(** ** The sampler *)

Record sample : Type := {
  sm_time : float; sm_ctxt : Z; sm_total : Z; sm_steal : Z; sm_preferred : string; sm_psi : float
}.

(** [SystemSampler._read] *)
Definition read_sample (l : look) : result sample :=
  let* text := lk_stat l in
  let* s := stat_of text in
  let* preferred := preferred_of (lk_preferred l) in
  let* psi := pressure_of (lk_pressure l) in
  match aggregate s with
  | Some t => Ok {| sm_time := lk_time l; sm_ctxt := ctxt s; sm_total := total t; sm_steal := steal t;
                    sm_preferred := preferred; sm_psi := psi |}
  | None => Raise (Exn KeyError "'total'")
  end.
(** [SystemSampler._run]: the samples until the first look that raises. *)
Fixpoint sampler_run (looks : list look) : list sample :=
  match looks with
  | [] => []
  | l :: rest => match read_sample l with Ok s => s :: sampler_run rest | Raise _ => [] end
  end.

(** The changes of the mask: the rounded time, the new mask and its size. *)
Fixpoint transitions (previous : option string) (samples : list sample) : result (list pyval) :=
  match samples with
  | [] => Ok []
  | s :: rest =>
      let value := sm_preferred s in
      let* later := transitions (Some value) rest in
      match previous with
      | Some p =>
          if String.eqb value p then Ok later
          else let* n := preferred_count value in
               Ok (VDict [("t", VFloat (round_digits 6 (sm_time s))); ("preferred", VStr value); ("count", VInt n)] :: later)
      | None => Ok later
      end
  end.

Definition min_int (l : list Z) : pyval := match l with x :: l => VInt (fold_left Z.min l x) | [] => VNone end.
Definition max_int (l : list Z) : pyval := match l with x :: l => VInt (fold_left Z.max l x) | [] => VNone end.

(** [SystemSampler.summary] *)
Definition sampler_summary (supported : bool) (samples : list sample) : result pydict :=
  match samples, list.last samples with
  | first :: _, Some last =>
      let elapsed := fmax fzero (fsub (sm_time last) (sm_time first)) in
      let total_ := Z.max 0 (sm_total last - sm_total first) in
      let steal_ := Z.max 0 (sm_steal last - sm_steal first) in
      let ctxt_ := Z.max 0 (sm_ctxt last - sm_ctxt first) in
      let* counts := mapM (fun s => preferred_count (sm_preferred s)) samples in
      let* changes := transitions None samples in
      let* in_total := percent steal_ total_ in
      let* rate := if fltb fzero elapsed then let* c := float_of_Z ctxt_ in fdiv c elapsed else Ok fzero in
      Ok [("samples", VInt (Z.of_nat (length samples))); ("elapsed_s", VFloat (round_digits 6 elapsed));
          ("steal_pct_total", VFloat in_total); ("ctxt_per_s", VFloat rate);
          ("psi_some_avg10_max", VFloat (float_max (sm_psi <$> samples)));
          ("preferred_first", VStr (if supported then sm_preferred first else ""));
          ("preferred_last", VStr (if supported then sm_preferred last else ""));
          ("preferred_min", if supported then min_int counts else VNone);
          ("preferred_max", if supported then max_int counts else VNone);
          ("preferred_changes", VInt (if supported then Z.of_nat (length changes) else 0));
          ("preferred_transitions", VList (if supported then changes else []))]
  | _, _ => Ok [("samples", VInt 0)]
  end.

(** ** Counters of cgroups and processes *)

(** Lines of a name and an integer; other lines are skipped. *)
Definition counter_line (d : list (string * Z)) (line : string) : list (string * Z) :=
  match words line with
  | [name; value] => match py_int value with Some n => assoc_set name n d | None => d end
  | _ => d
  end.
Definition cpu_stat_of (path text : string) : result (list (string * Z)) :=
  let values := fold_left counter_line (splitlines text) [] in
  raise_if (negb (assoc_has "usage_usec" values)) RuntimeError ("no usage_usec in " +:+ path) ;;;
  Ok values.

Definition GROUP_COUNTERS : list string :=
  ["usage_usec"; "user_usec"; "system_usec"; "nr_periods"; "nr_throttled"; "throttled_usec"].
Definition stat_group_delta (before after : list (string * Z)) : list (string * Z) :=
  (fun key => (key, Z.max 0 (get_zero key after - get_zero key before))) <$> GROUP_COUNTERS.

Definition sched_line (d : list (string * Z)) (line : string) : list (string * Z) :=
  if contains ":" line then
    let '(key, value) := split_once ":" line in
    let key := strip key in
    if mem_string key ["se.nr_migrations"; "nr_migrations_cpu_non_preferred"]
    then match py_int (strip value) with Some n => assoc_set key n d | None => d end
    else d
  else d.
Definition proc_sched_of (read : result string) : result (list (string * Z)) :=
  match read with
  | Ok text => Ok (fold_left sched_line (splitlines text) [])
  | Raise e => if caught_by [OSError] e then Ok [] else Raise e
  end.
Definition sched_delta (before after : list (string * Z)) : list (string * Z) :=
  (fun p => (fst p, Z.max 0 (snd p - get_zero (fst p) before))) <$> after.
