(* ===== verification/SchedMatrix.v ===== *)
(** [sched-core-delta/experiments/run_matrix.py]: the operations that change
    the node, a scenario with its clean-up, and the command-line program.

    What [try ... finally] needs of an aborted body is returned by the body: the
    cgroups made, the workloads started and the outcome.  The [restored] flag of
    [main] is left out, since [restore] is called once.  A signal is a call that
    raises [SystemExit]; before the handlers are installed it ends the process. *)

From Stdlib Require Import ZArith Bool Ascii String Lia SpecFloat.
From stdpp Require Import base list strings option gmap.
From S2P Require Import Prelude Eff PyStr PyFloat PyVal PyDict Json PyConv Sha256 Cache Campaign Files World Worker SchedScenarios SchedHost.

Open Scope string_scope.
Open Scope Z_scope.

(** [argparse.Namespace] *)
Record matrix_args : Type := {
  ma_arm : string; ma_block : string; ma_reps : Z; ma_duration : float; ma_warmup : float; ma_cooldown : float;
  ma_seed : Z; ma_scenarios : string; ma_parent_weight : Z; ma_gov_interval_ms : Z; ma_gov_high : Z; ma_gov_low : Z;
  ma_out : string; ma_meta : string; ma_run_id : string; ma_plan : bool; ma_check : bool
}.

Record Workload : Type := { wl_kind : string; wl_group : string; wl_output : string; wl_pid : Z }.

(** [loaded] and [params] as [state.__dict__]. *)
Definition governor_dict (g : GovernorState) : pyval :=
  VDict [("loaded", VBool (loaded g)); ("params", VDict ((fun p => (fst p, VInt (snd p))) <$> params g))].

(** [strftime("%H:%M:%S")] and [strftime("%Y%m%dT%H%M%SZ")] *)
Definition clock_text (d : datetime) : string := join ":" (pad0 2 <$> [dt_hour d; dt_minute d; dt_second d]).
Definition run_stamp (d : datetime) : string :=
  pad0 4 (dt_year d) +:+ pad0 2 (dt_month d) +:+ pad0 2 (dt_day d) +:+ "T" +:+
  pad0 2 (dt_hour d) +:+ pad0 2 (dt_minute d) +:+ pad0 2 (dt_second d) +:+ "Z".

Section Matrix.
Context `{Node}.

(** A list built by calls, and the values built before one of them raised. *)
Fixpoint collect {A B} (l : list A) (body : A -> W B) : W (list B) :=
  match l with
  | [] => ret []
  | x :: l => let! y := body x in let! ys := collect l body in ret (y :: ys)
  end.
Fixpoint collected {A B} (l : list A) (body : A -> W B) : W (list B * result unit) :=
  match l with
  | [] => ret ([], Ok tt)
  | x :: l =>
      let! r := observe (body x) in
      match r with
      | Ok y => let! (ys, e) := collected l body in ret (y :: ys, e)
      | Raise e => ret ([], Raise e)
      end
  end.

Definition log (message : string) : W unit :=
  let! now := outside UtcNow in
  ask (Print ("[" +:+ clock_text now +:+ "] " +:+ message)).
Definition read_text (path : string) : W string := outside (ReadText path).
Definition write_text (path value : string) : W unit := outside (WriteText path value).
Definition sleep (seconds : float) : W unit := outside (Sleep seconds).

Definition read_boot_id : W string :=
  try_except (let! text := read_text BOOT_ID in ret (strip text)) [OSError] (fun _ => ret "").
Definition read_preferred : W string :=
  let! r := observe (read_text PREFERRED_FILE) in lift (preferred_of r).
Definition read_stat : W cpu_stat := let! text := read_text PROC_STAT in lift (stat_of text).
Definition read_cpu_stat (path : string) : W (list (string * Z)) :=
  let! text := read_text path in lift (cpu_stat_of path text).
Definition read_proc_sched (pid : Z) : W (list (string * Z)) :=
  let! r := observe (read_text ("/proc/" +:+ str_of_Z pid +:+ "/sched")) in lift (proc_sched_of r).

(** ** The steal governor and the schedstats setting *)

Definition GOVERNOR_PARAMETERS : list string := ["interval_ms"; "high_threshold"; "low_threshold"].

Fixpoint read_params (names : list string) : W (list (string * Z)) :=
  match names with
  | [] => ret []
  | name :: names =>
      let! here := try_except (let! text := ask (ModuleParam name) in let! n := lift (int_text (strip text)) in ret [(name, n)])
                     [OSError; ValueError] (fun _ => ret []) in
      let! later := read_params names in
      ret (here ++ later)%list
  end.
Definition read_governor_state : W GovernorState :=
  let! is_loaded := ask ModuleLoaded in
  let! ps := if is_loaded then read_params GOVERNOR_PARAMETERS else ret [] in
  ret {| loaded := is_loaded; params := ps |}.

Definition unload_governor : W unit :=
  let! is_loaded := ask ModuleLoaded in
  if is_loaded then ask (Command ["rmmod"; "steal_governor"]) else ret tt.

Definition modprobe_command (interval_ms high low : Z) : list string :=
  ["modprobe"; "steal_governor"; "interval_ms=" +:+ str_of_Z interval_ms; "high_threshold=" +:+ str_of_Z high;
   "low_threshold=" +:+ str_of_Z low].

(** The wait of three seconds, in steps of 0.05 s. *)
Definition GOVERNOR_POLLS : nat := 62.
Definition governor_poll (deadline : float) (_ : unit) : W (unit + bool) :=
  let! now := outside Monotonic in
  if negb (fltb now deadline) then ret (inr false)
  else
    let! state := read_governor_state in
    if loaded state then ret (inr true)
    else sleep (flit 5 100) >>> ret (inl tt).
Definition load_governor (interval_ms high low : Z) : W unit :=
  unload_governor >>>
  ask (Command (modprobe_command interval_ms high low)) >>>
  let! now := outside Monotonic in
  let! appeared := loop GOVERNOR_POLLS (governor_poll (fadd now (flit 3 1))) tt in
  throw_if (negb appeared) RuntimeError "steal_governor did not appear after modprobe".

Definition expected_params (args : matrix_args) : list (string * Z) :=
  [("interval_ms", ma_gov_interval_ms args); ("high_threshold", ma_gov_high args); ("low_threshold", ma_gov_low args)].

Definition apply_governor (arm : string) (args : matrix_args) : W GovernorState :=
  let! original := read_governor_state in
  if String.eqb arm "stock" then
    throw_if (loaded original) RuntimeError "stock kernel unexpectedly has steal_governor loaded" >>> ret original
  else if String.eqb arm "custom" then
    throw_if (loaded original) RuntimeError
      "the custom arm requires the steal governor to be unloaded; unload it or use the custom-nogov arm" >>>
    ret original
  else if String.eqb arm "custom-nogov" then
    unload_governor >>>
    let! state := read_governor_state in
    throw_if (loaded state) RuntimeError "steal_governor is still loaded after rmmod" >>>
    ret original
  else if String.eqb arm "custom-gov" then
    load_governor (ma_gov_interval_ms args) (ma_gov_high args) (ma_gov_low args) >>>
    let! state := read_governor_state in
    throw_if (negb (bool_decide (params state = expected_params args))) RuntimeError
      ("governor parameters are " +:+ py_repr (VDict ((fun p => (fst p, VInt (snd p))) <$> params state)) +:+ ", expected " +:+
       py_repr (VDict ((fun p => (fst p, VInt (snd p))) <$> expected_params args))) >>>
    ret original
  else throw RuntimeError ("unknown arm: " +:+ arm).

(** [original.params.get(name, default)] *)
Definition param_or (name : string) (d : Z) (g : GovernorState) : Z :=
  match List.find (fun p => String.eqb name (fst p)) (params g) with Some (_, n) => n | None => d end.

Definition restore_governor (original : GovernorState) : W unit :=
  let! current := read_governor_state in
  if loaded original then
    if loaded current && bool_decide (params current = params original) then ret tt
    else load_governor (param_or "interval_ms" 1000 original) (param_or "high_threshold" 500 original)
           (param_or "low_threshold" 200 original)
  else if loaded current then unload_governor
  else ret tt.

Definition set_schedstats (enabled : bool) : W unit :=
  try_except (ask (SetSetting SCHEDSTATS (if enabled then "1" +:+ newline else "0" +:+ newline))) [OSError]
    (fun e => throw RuntimeError ("could not set " +:+ SCHEDSTATS +:+ ": " +:+ exn_msg e)).
(** [SCHEDSTATS.read_text().strip() if SCHEDSTATS.exists() else absent] *)
Definition schedstats_text (absent : string) : W string :=
  let! present := ask (SettingExists SCHEDSTATS) in
  if present then let! text := ask (Setting SCHEDSTATS) in ret (strip text) else ret absent.

(** ** Cgroups *)

Definition ensure_root : W unit :=
  let! controllers := read_text "/sys/fs/cgroup/cgroup.controllers" in
  forM ["cpu"; "cpuset"] (fun c =>
    throw_if (negb (mem_string c (words controllers))) RuntimeError
      ("cgroup v2 controller " +:+ repr_str c +:+ " is not available")) >>>
  let! subtree := read_text "/sys/fs/cgroup/cgroup.subtree_control" in
  let missing := List.filter (fun c => negb (mem_string c (words subtree))) ["cpu"; "cpuset"] in
  throw_if (match missing with [] => false | _ => true end) RuntimeError
    ("root cgroup.subtree_control is missing " +:+ join ", " missing +:+
     "; enable it on the worker before running the matrix").

(** The fuel is the depth of the tree. *)
Fixpoint clean_go (fuel : nat) (g : cgroup) : W unit :=
  match fuel with
  | O => throw FuelExhausted ""
  | S f =>
      let! present := ask (GroupExists g) in
      if present then
        let! children := ask (GroupChildren g) in
        forM children (clean_go f) >>>
        ask (RemoveGroup g)
      else ret tt
  end.
Definition depth (groups : gset cgroup) : nat := list_max (length <$> elements groups).
Definition clean_cgroup (g : cgroup) : W unit := fun w => clean_go (S (depth (wk_groups w))) g w.

Definition ensure_parent (parent_weight cpu_count : Z) : W unit :=
  let! present := ask (GroupExists CGROUP_ROOT) in
  (if present then clean_cgroup CGROUP_ROOT else ret tt) >>>
  ask (MakeGroup false CGROUP_ROOT) >>>
  write_text (in_group CGROUP_ROOT "cpu.weight") (str_of_Z parent_weight +:+ newline) >>>
  write_text (in_group CGROUP_ROOT "cpuset.cpus") ("0-" +:+ str_of_Z (cpu_count - 1) +:+ newline) >>>
  write_text (in_group CGROUP_ROOT "cgroup.subtree_control") ("+cpu +cpuset" +:+ newline).

Definition make_group (path : cgroup) (weight : Z) (cpu_max : string) : W unit :=
  ask (MakeGroup true path) >>>
  write_text (in_group path "cpu.weight") (str_of_Z weight +:+ newline) >>>
  (if is_empty cpu_max then ret tt else write_text (in_group path "cpu.max") (cpu_max +:+ newline)).

Definition move_to_group (pid : Z) (g : cgroup) : W unit :=
  try_except (write_text (in_group g "cgroup.procs") (str_of_Z pid +:+ newline)) [OSError] (fun e =>
    ask (KillChild pid) >>>
    throw RuntimeError ("could not move pid " +:+ str_of_Z pid +:+ " to " +:+ cgroup_text g +:+ ": " +:+ exn_msg e)).

Fixpoint read_group_files (path : cgroup) (names : list string) : W (list (string * string)) :=
  match names with
  | [] => ret []
  | name :: names =>
      let! here := try_except (let! text := read_text (in_group path name) in ret [(name, strip text)]) [OSError]
                     (fun _ => ret []) in
      let! later := read_group_files path names in
      ret (here ++ later)%list
  end.
Definition read_group (path : cgroup) : W (list (string * string)) :=
  read_group_files path ["cpu.weight"; "cpu.max"; "cpuset.cpus"].

(** ** Workloads *)

Definition config_key (line : string) (d : list (string * string)) (key : string) : list (string * string) :=
  if startswith (key +:+ "=") line then assoc_set key (snd (split_once "=" line)) d else d.
Definition config_of (path text : string) : list (string * string) :=
  let lines := splitlines text in
  let result := fold_left (fun d line => fold_left (config_key line) CONFIG_KEYS d) lines [] in
  let digest := sha256_of (join "" ((fun line => line +:+ newline) <$> lines)) in
  assoc_set "path" path (assoc_set "sha256" digest result).

Fixpoint first_config (candidates : list string) : W (list (string * string)) :=
  match candidates with
  | [] => ret []
  | candidate :: rest =>
      let! present := outside (IsFile candidate) in
      if present then let! text := read_text candidate in ret (config_of candidate text) else first_config rest
  end.
Definition read_config : W (list (string * string)) :=
  let! (release, _) := ask Uname in
  first_config ["/boot/config-" +:+ release; "/usr/lib/modules/" +:+ release +:+ "/config"; "/lib/modules/" +:+ release +:+ "/config"].

Definition BINARIES : list (string * (string * (string * list string))) :=
  [("cpu", ("cpu_burn.c", ("cpu_burn", []))); ("wakeup", ("wakeup_latency.c", ("wakeup_latency", [])));
   ("periodic", ("periodic_burn.c", ("periodic_burn", ["-lm"]))); ("churn", ("task_churn.c", ("task_churn", [])));
   ("pingpong", ("pingpong.c", ("pingpong", [])))].

Definition compile_workload (base : string) (b : string * (string * (string * list string))) : W (string * string) :=
  let '(kind, (source_name, (output_name, extra))) := b in
  let source := base +:+ "/" +:+ source_name in
  let output := base +:+ "/" +:+ output_name in
  let! present := outside (PathExists output) in
  let! fresh := if present then
                  let! made := ask (Mtime output) in let! written := ask (Mtime source) in ret (fleb written made)
                else ret false in
  (if fresh then ret tt
   else ask (Command (["gcc"; "-O2"; "-std=gnu11"; "-pthread"; "-o"; output; source] ++ extra)%list)) >>>
  ret (kind, output).
Definition compile_workloads (base : string) : W (list (string * string)) := collect BINARIES (compile_workload base).

(** [str(int(spec.get(key, d)))] *)
Definition number_arg (key : string) (d : Z) (spec : pydict) : result string :=
  let* n := int_of_val (dget_or key (VInt d) spec) in Ok (str_of_Z n).

Definition workload_command (spec : pydict) (binary output : string) (duration warmup : float) (go_load go_probe : string)
    (cpus : Z) : result (list string) :=
  let* v := dindex "kind" spec in
  let kind := py_str v in
  if String.eqb kind "cpu" then
    let* threads := number_arg "threads" 1 spec in
    Ok [binary; "--threads"; threads; "--duration"; repr_float (fadd (fadd warmup duration) (flit 5 10));
        "--wait-file"; go_load; "--output"; output]
  else if String.eqb kind "wakeup" then
    let* interval := number_arg "interval_us" 1000 spec in
    Ok [binary; "--duration"; repr_float duration; "--interval-us"; interval; "--wait-file"; go_probe; "--output"; output]
  else if String.eqb kind "periodic" then
    let* threads := number_arg "threads" 1 spec in
    let* period := number_arg "period_us" 2000 spec in
    let* burn := number_arg "burn_us" 200 spec in
    Ok [binary; "--threads"; threads; "--period-us"; period; "--burn-us"; burn; "--duration"; repr_float duration;
        "--wait-file"; go_probe; "--output"; output]
  else if String.eqb kind "churn" then
    let* rate := number_arg "rate" 200 spec in
    let* work := number_arg "work_us" 20 spec in
    Ok [binary; "--rate"; rate; "--duration"; repr_float duration; "--work-us"; work; "--wait-file"; go_probe;
        "--output"; output]
  else if String.eqb kind "pingpong" then
    let* burn := number_arg "burn_us" 0 spec in
    Ok [binary; "--duration"; repr_float duration; "--burn-us"; burn; "--pin"; if 2 <=? cpus then "1" else "0";
        "--pin-cpu"; "1"; "--wait-file"; go_probe; "--output"; output]
  else Raise (Exn RuntimeError ("unknown workload kind: " +:+ kind)).

Definition parse_json (path : string) : W pydict :=
  let! r := observe (read_text path) in
  match (let* text := r in json_loads text) with
  | Ok (VDict d) => ret d
  | Ok _ => ret []
  | Raise e => if caught_by [OSError; JSONDecodeError] e then ret [] else lift (Raise e)
  end.

(** [row[key] = data[key]] for the keys that are there. *)
Definition copy_keys (keys : list string) (data row : pydict) : pydict :=
  fold_left (fun row key => match dget key data with Some v => dset key v row | None => row end) keys row.
(** [row[key] = int(data.get(key, 0))] and [float(data.get(key, 0.0))] *)
Definition set_int (key source : string) (data row : pydict) : result pydict :=
  let* n := int_of_val (dget_or source (VInt 0) data) in Ok (dset key (VInt n) row).
Definition set_float (key : string) (data row : pydict) : result pydict :=
  let* x := float_of_val (dget_or key (VFloat fzero) data) in Ok (dset key (VFloat x) row).

Definition CHURN_KEYS : list string :=
  ["rate"; "work_us"; "created"; "completed"; "tasks_per_s"; "p50_us"; "p99_us"; "p999_us"; "max_us";
   "completion_p50_us"; "completion_p99_us"; "completion_p999_us"; "completion_max_us"].

Definition merge_periodic (row data : pydict) : result pydict :=
  let* row := set_int "iterations" "iterations" data row in
  let* row := set_int "overruns" "overruns" data row in
  let* missed := int_of_val (dget_or "missed_periods" (VInt 0) data) in
  let row := dset "missed_periods" (VInt missed) row in
  let* samples := int_of_val (dget_or "samples" (VInt 0) data) in
  let* rate := percent missed (samples + missed) in
  let row := dset "missed_period_rate_pct" (VFloat rate) row in
  let* row := set_float "thread_cv" data row in
  Ok (dset "thread_iters" (dget_or "thread_iters" (VList []) data) row).
Definition merge_pingpong (row data : pydict) : result pydict :=
  let* row := set_float "round_trips_per_s" data row in
  let* row := set_int "pinned" "pinned" data row in
  let* row := set_int "failed" "failed" data row in
  set_int "burn_us" "burn_us" data row.

Definition merge_workload (row : pydict) (kind : string) (data : pydict) : result pydict :=
  if String.eqb kind "cpu" then
    let* iterations := int_of_val (dget_or "iterations" (VInt 0) data) in
    let row := dset "iterations" (VInt iterations) row in
    let* elapsed := dindex "elapsed_s" row in
    let* rate := if truthy elapsed then
                   let* e := float_of_val elapsed in let* n := float_of_Z iterations in fdiv n e
                 else Ok fzero in
    set_int "cpu_threads" "threads" data (dset "iterations_per_s" (VFloat rate) row)
  else if mem_string kind ["wakeup"; "periodic"; "pingpong"] then
    let row := copy_keys ["samples"; "round_trips"; "p50_us"; "p99_us"; "p999_us"; "max_us"] data row in
    let* row := if String.eqb kind "periodic" then merge_periodic row data else Ok row in
    if String.eqb kind "pingpong" then merge_pingpong row data else Ok row
  else if String.eqb kind "churn" then Ok (copy_keys CHURN_KEYS data row)
  else Raise (Exn RuntimeError ("unknown workload kind: " +:+ kind)).

(** ** Stopping the workloads *)

Definition stop (pid : Z) (strict : bool) : W unit :=
  let! status := ask (PollChild pid) in
  let! code := match status with
               | Some code => ret code
               | None =>
                   ask (TerminateChild pid) >>>
                   try_except (ask (WaitChild pid (flit 5 1))) [TimeoutExpired] (fun _ =>
                     ask (KillChild pid) >>> ask (WaitChild pid (flit 5 1)))
               end in
  if negb strict || (code =? 0) || (code =? -15) then ret tt
  else
    let! stderr := ask (ChildStderr pid) in
    throw RuntimeError ("workload exited " +:+ str_of_Z code +:+ ": " +:+ strip stderr).

Definition wait_for (pids : list Z) (timeout : float) : W unit :=
  let! now := outside Monotonic in
  let deadline := fadd now timeout in
  forM pids (fun pid =>
    let! status := ask (PollChild pid) in
    match status with
    | Some _ => ret tt
    | None =>
        let! now := outside Monotonic in
        let remaining := fsub deadline now in
        if fltb fzero remaining
        then try_except (ask (WaitChild pid remaining) >>> ret tt) [TimeoutExpired] (fun _ => ret tt)
        else ret tt
    end).

(** ** One scenario *)

(** The keyword arguments of [run_scenario]. *)
Record scene : Type := {
  sc_scenario : string; sc_arm : string; sc_rep : Z; sc_run_id : string; sc_block : string; sc_node : string;
  sc_kernel : string; sc_cpu_count : Z; sc_duration : float; sc_warmup : float; sc_binaries : list (string * string);
  sc_order : list string
}.

Definition scene_name (s : scene) : string := sc_scenario s +:+ "-" +:+ sc_arm s +:+ "-" +:+ str_of_Z (sc_rep s).
Definition work_of (s : scene) : string := WORK_DIR +:+ "/work-" +:+ scene_name s.
Definition group_path (s : scene) (name : string) : cgroup := (CGROUP_ROOT ++ [scene_name s +:+ "-" +:+ name])%list.
Definition output_of (work name kind : string) (index : Z) : string :=
  work +:+ "/" +:+ name +:+ "-" +:+ kind +:+ "-" +:+ str_of_Z index +:+ ".json".

(** The groups of the first loop: [created] has the one that could not be made. *)
Fixpoint make_groups (s : scene) (specs : list group) : W (list cgroup * result unit) :=
  match specs with
  | [] => ret ([], Ok tt)
  | spec :: specs =>
      let path := group_path s (g_name spec) in
      let! r := observe (make_group path (g_weight spec) (g_cpu_max spec)) in
      match r with
      | Ok _ => let! (created, e) := make_groups s specs in ret (path :: created, e)
      | Raise e => ret ([path], Raise e)
      end
  end.

(** The workloads of the second loop: the group, the position in it and the specification. *)
Definition launches (specs : list group) : list (string * Z * pydict) :=
  spec ← specs; imap (fun i w => (g_name spec, Z.of_nat i, w)) (g_workloads spec).

Definition start_workload (s : scene) (launch : string * Z * pydict) : W Workload :=
  let '(name, index, spec) := launch in
  let work := work_of s in
  let! v := lift (dindex "kind" spec) in
  let kind := py_str v in
  let output := output_of work name kind index in
  let! binary := lift (match List.find (fun p => String.eqb kind (fst p)) (sc_binaries s) with
                       | Some (_, b) => Ok b
                       | None => Raise (Exn KeyError (repr_str kind))
                       end) in
  let! command := lift (workload_command spec binary output (sc_duration s) (sc_warmup s) (work +:+ "/go-load")
                          (work +:+ "/go-probe") (sc_cpu_count s)) in
  let! pid := ask (Spawn command) in
  move_to_group pid (group_path s name) >>>
  ret {| wl_kind := kind; wl_group := name; wl_output := output; wl_pid := pid |}.

(** [d[k]] for a key that is there. *)
Definition found {K V} `{EqDecision K} (k : K) (d : list (K * list V)) : list V :=
  match List.find (fun p => bool_decide (k = fst p)) d with Some (_, v) => v | None => [] end.
Definition dict_of {K V} `{EqDecision K} (l : list (K * V)) : list (K * V) :=
  fold_left (fun d p => assoc_set (fst p) (snd p) d) l [].

(** The counters of a repetition. *)
Record observed : Type := {
  ob_stat : cpu_stat * cpu_stat;
  ob_cpu : list (string * list (string * Z)) * list (string * list (string * Z));
  ob_sched : list (Z * list (string * Z)) * list (Z * list (string * Z));
  ob_elapsed : float;
  ob_samples : list sample;
  ob_preferred : bool                                (* preferred_supported *)
}.

Definition read_cpu_stats (groups : list (string * cgroup)) : W (list (string * list (string * Z))) :=
  collect groups (fun g => let! c := read_cpu_stat (in_group (snd g) "cpu.stat") in ret (fst g, c)).
Definition read_scheds (pids : list Z) : W (list (Z * list (string * Z))) :=
  collect pids (fun pid => let! c := read_proc_sched pid in ret (pid, c)).
Definition is_pingpong (w : Workload) : bool := String.eqb (wl_kind w) "pingpong".

(** From the start of the sampler to the end of the workloads. *)
Definition observe_scene (s : scene) (groups : list (string * cgroup)) (workloads : list Workload) : W observed :=
  let! supported := outside (PathExists PREFERRED_FILE) in
  ask StartSampler >>>
  sleep (flit 5 10) >>>
  ask (Touch (work_of s +:+ "/go-load")) >>>
  sleep (sc_warmup s) >>>
  let! stat_before := read_stat in
  let! cpu_before := read_cpu_stats groups in
  let! sched_reads := read_scheds (wl_pid <$> List.filter is_pingpong workloads) in
  let sched_before := dict_of sched_reads in
  let! started := outside Monotonic in
  ask (Touch (work_of s +:+ "/go-probe")) >>>
  sleep (sc_duration s) >>>
  let! ended := outside Monotonic in
  let! stat_after := read_stat in
  let! looks := ask StopSampler in
  let! cpu_after := read_cpu_stats groups in
  let! sched_after := read_scheds (fst <$> sched_before) in
  wait_for (wl_pid <$> workloads) (flit 3 1) >>>
  forM workloads (fun w => stop (wl_pid w) true) >>>
  ret {| ob_stat := (stat_before, stat_after); ob_cpu := (cpu_before, cpu_after); ob_sched := (sched_before, sched_after);
         ob_elapsed := fsub ended started; ob_samples := sampler_run looks; ob_preferred := supported |}.

(** [{**d, **e}] and [d.update(e)] *)
Definition dupdate (d e : pydict) : pydict := fold_left (fun d p => dset (fst p) (snd p) d) e d.
(** [x / elapsed if elapsed else 0.0] *)
Definition over_elapsed (x : result float) (elapsed : float) : result float :=
  if feqb elapsed fzero then Ok fzero else let* x := x in fdiv x elapsed.

Definition system_summary (o : observed) : result pydict :=
  let* change := stat_delta (fst (ob_stat o)) (snd (ob_stat o)) in
  let* summary := sampler_summary (ob_preferred o) (ob_samples o) in
  let* rate := over_elapsed (float_of_Z (sd_ctxt change)) (ob_elapsed o) in
  Ok (dupdate summary
        [("steal_pct_total", VFloat (sd_steal_total change)); ("steal_pct_busy", VFloat (sd_steal_busy change));
         ("steal_pct_max_cpu", VFloat (sd_steal_max change)); ("ctxt", VInt (sd_ctxt change)); ("ctxt_per_s", VFloat rate);
         ("per_cpu_steal", VList ((fun p => VDict [("cpu", VInt (fst p)); ("steal_pct", VFloat (snd p))]) <$> sd_per_cpu change))]).

(** The fields that a group's row and the system's row begin with. *)
Definition row_head (s : scene) (group kind : string) : pydict :=
  [("run_id", VStr (sc_run_id s)); ("block", VStr (sc_block s)); ("arm", VStr (sc_arm s)); ("node", VStr (sc_node s));
   ("kernel", VStr (sc_kernel s)); ("cpus", VInt (sc_cpu_count s)); ("scenario", VStr (sc_scenario s));
   ("scenario_order", VStr (join "," (sc_order s))); ("rep", VInt (sc_rep s)); ("group", VStr group); ("kind", VStr kind)].

(** [100.0 * usage / (available * 1_000_000.0) if elapsed else 0.0] *)
Definition used_over (usage : Z) (elapsed : float) (available : float -> result float) : result float :=
  if feqb elapsed fzero then Ok fzero
  else
    let* u := float_of_Z usage in
    let* a := available elapsed in
    fdiv (fmul (flit 100 1) u) (fmul a (flit 1000000 1)).

Definition group_row (s : scene) (spec : group) (cpu_max : string) (o : observed) (timestamp : string) : result pydict :=
  let name := g_name spec in
  let delta := stat_group_delta (found name (fst (ob_cpu o))) (found name (snd (ob_cpu o))) in
  let elapsed := ob_elapsed o in
  let usage := get_zero "usage_usec" delta in
  let* share := used_over usage elapsed (fun e => let* n := float_of_Z (sc_cpu_count s) in Ok (fmul e n)) in
  let* delivered := used_over usage elapsed Ok in
  let* periods := percent (get_zero "nr_throttled" delta) (get_zero "nr_periods" delta) in
  let* throttled := percent (get_zero "throttled_usec" delta) usage in
  Ok (row_head s name "group" ++
      [("weight", VInt (g_weight spec)); ("cpu_max", VStr cpu_max)] ++
      ((fun p => (fst p, VInt (snd p))) <$> delta) ++
      [("elapsed_s", VFloat elapsed); ("timestamp", VStr timestamp); ("share_pct", VFloat share);
       ("delivered_cpu_pct", VFloat delivered); ("throttled_period_pct", VFloat periods);
       ("throttled_usage_pct", VFloat throttled)])%list.

(** The loop over the workloads of a group. *)
Fixpoint merge_outputs (s : scene) (name : string) (index : Z) (specs : list pydict) (row : pydict) : W pydict :=
  match specs with
  | [] => ret row
  | spec :: specs =>
      let! v := lift (dindex "kind" spec) in
      let kind := py_str v in
      let! data := parse_json (output_of (work_of s) name kind index) in
      let! row := lift (merge_workload row kind data) in
      merge_outputs s name (index + 1) specs row
  end.

(** [{str(spec["name"]): spec for spec in scenario_groups(scenario)}[name]] *)
Definition spec_named (name : string) (specs : list group) : result group :=
  match List.find (fun g => String.eqb name (g_name g)) (rev specs) with
  | Some g => Ok g
  | None => Raise (Exn KeyError (repr_str name))
  end.
Definition group_result (s : scene) (specs : list group) (o : observed) (timestamp : string) (g : string * cgroup) : W pydict :=
  let! spec := lift (spec_named (fst g) specs) in
  let! files := read_group (snd g) in
  let cpu_max := match List.find (fun p => String.eqb "cpu.max" (fst p)) files with Some (_, t) => t | None => "" end in
  let! row := lift (group_row s spec cpu_max o timestamp) in
  merge_outputs s (fst g) 0 (g_workloads spec) row.

(** The migrations of the pingpong workloads, each overwriting the one before. *)
Definition migrations (o : observed) (row : pydict) : pydict :=
  fold_left (fun row p =>
    match sched_delta (snd p) (found (fst p) (snd (ob_sched o))) with
    | [] => row
    | d => dset "pingpong_non_preferred_migrations" (VInt (get_zero "nr_migrations_cpu_non_preferred" d))
             (dset "pingpong_migrations" (VInt (get_zero "se.nr_migrations" d)) row)
    end) (fst (ob_sched o)) row.
Definition system_row (s : scene) (o : observed) (governor : GovernorState) (system : pydict) (timestamp : string) : pydict :=
  migrations o
    (dupdate (row_head s "system" "system" ++
              [("elapsed_s", VFloat (ob_elapsed o)); ("timestamp", VStr timestamp);
               ("governor_loaded", VBool (loaded governor));
               ("governor_params", VDict ((fun p => (fst p, VInt (snd p))) <$> params governor))])%list system).

Definition scene_rows (s : scene) (specs : list group) (groups : list (string * cgroup)) (o : observed) : W (list pydict) :=
  let! system := lift (system_summary o) in
  let! now := outside UtcNow in
  let timestamp := isoformat now in
  let! rows := collect groups (group_result s specs o timestamp) in
  let! governor := read_governor_state in
  ret (rows ++ [system_row s o governor system timestamp])%list.

(** The [try] body: the cgroups made, the workloads started, and the rows. *)
Definition run_scene (s : scene) : W (list cgroup * list Workload * result (list pydict)) :=
  match scenario_groups (sc_scenario s) with
  | Raise e => ret ([], [], Raise e)
  | Ok specs =>
      let! (created, made) := make_groups s specs in
      match made with
      | Raise e => ret (created, [], Raise e)
      | Ok _ =>
          let groups := dict_of ((fun spec => (g_name spec, group_path s (g_name spec))) <$> specs) in
          let! (workloads, started) := collected (launches specs) (start_workload s) in
          match started with
          | Raise e => ret (created, workloads, Raise e)
          | Ok _ =>
              let! rows := observe (let! o := observe_scene s groups workloads in scene_rows s specs groups o) in
              ret (created, workloads, rows)
          end
      end
  end.

(** The [finally] clause.  All the paths of [created] have one length. *)
Definition clean_scene (s : scene) (created : list cgroup) (workloads : list Workload) : W unit :=
  forM workloads (fun w => stop (wl_pid w) false) >>>
  forM created (fun path =>
    try_except (clean_cgroup path) [OSError] (fun e =>
      log ("warning: cgroup cleanup failed for " +:+ cgroup_text path +:+ ": " +:+ exn_msg e))) >>>
  try_except (ask (RmTree (work_of s))) [OSError] (fun _ => ret tt).

Definition run_scenario (s : scene) : W (list pydict) :=
  let work := work_of s in
  let! present := outside (PathExists work) in
  (if present then ask (RmTree work) else ret tt) >>>
  outside (MakeDirs work) >>>
  let! (created, workloads, outcome) := run_scene s in
  try_finally (lift outcome) (clean_scene s created workloads).

(** ** The program *)

Definition check_environment (arm : string) : W pydict :=
  ensure_root >>>
  let! (release, _) := ask Uname in
  let kernel_custom := contains "k8labs" release in
  let! preferred := outside (PathExists PREFERRED_FILE) in
  (if String.eqb arm "stock" then
     throw_if kernel_custom RuntimeError ("stock arm is running a custom kernel: " +:+ release) >>>
     throw_if preferred RuntimeError "stock arm exposes /sys/devices/system/cpu/preferred"
   else if startswith "custom" arm then
     throw_if (negb kernel_custom) RuntimeError ("custom arm is running a stock kernel: " +:+ release) >>>
     throw_if (negb preferred) RuntimeError "custom arm does not expose /sys/devices/system/cpu/preferred"
   else throw RuntimeError ("unknown arm: " +:+ arm)) >>>
  forM ["gcc"; "python3"; "modprobe"; "rmmod"] (fun tool =>
    let! found := ask (Which tool) in
    throw_if (negb found) RuntimeError ("required tool not found: " +:+ tool)) >>>
  let! (_, nodename) := ask Uname in
  let! cpu_count := ask CpuCount in
  let! mask := read_preferred in
  let! governor := read_governor_state in
  let! schedstats := schedstats_text "" in
  let! config := read_config in
  ret [("arm", VStr arm); ("kernel", VStr release); ("node", VStr nodename); ("cpus", VInt cpu_count);
       ("preferred", VStr mask); ("governor", governor_dict governor); ("sched_schedstats", VStr schedstats);
       ("config", VDict ((fun p => (fst p, VStr (snd p))) <$> config)); ("work_dir", VStr WORK_DIR)].

End Matrix.

Section Program.
Context `{Node} `{Rng}.

(** [order = list(scenarios); random.Random(args.seed + rep).shuffle(order)] *)
Definition scenario_order (args : matrix_args) (scenarios : list string) (rep : Z) : list string :=
  shuffle (ma_seed args + rep) scenarios.

Definition group_value (g : group) : pyval :=
  VDict [("name", VStr (g_name g)); ("weight", VInt (g_weight g)); ("cpu_max", VStr (g_cpu_max g));
         ("workloads", VList (VDict <$> g_workloads g))].

Definition plan (args : matrix_args) (scenarios : list string) : W pyval :=
  let reps := (fun rep => VDict [("rep", VInt rep);
                 ("scenario_order", VList (VStr <$> scenario_order args scenarios rep))]) <$> cpu_range 1 (ma_reps args) in
  let! groups := lift (mapM (fun name => let* gs := scenario_groups name in Ok (name, VList (group_value <$> gs))) scenarios) in
  let! cpu_count := ask CpuCount in
  let! (release, _) := ask Uname in
  let! (_, nodename) := ask Uname in
  ret (VDict [("run_id", VStr (ma_run_id args)); ("arm", VStr (ma_arm args)); ("block", VStr (ma_block args));
              ("reps", VList reps); ("scenarios", VDict (dict_of groups)); ("duration_s", VFloat (ma_duration args));
              ("warmup_s", VFloat (ma_warmup args)); ("cooldown_s", VFloat (ma_cooldown args));
              ("parent_weight", VInt (ma_parent_weight args)); ("cpus", VInt cpu_count); ("kernel", VStr release);
              ("node", VStr nodename)]).

(** The checks of the arguments, and the list of scenarios. *)
Definition check_args (args : matrix_args) : result (list string) :=
  raise_if (ma_reps args <? 1) SystemExit "--reps must be >= 1" ;;;
  raise_if (fleb (ma_duration args) fzero) SystemExit "--duration must be > 0" ;;;
  raise_if (fltb (ma_warmup args) fzero) SystemExit "--warmup must be >= 0" ;;;
  raise_if ((ma_parent_weight args <=? 0) || (10000 <? ma_parent_weight args)) SystemExit "--parent-weight must be in 1..10000" ;;;
  raise_if (negb ((100 <=? ma_gov_interval_ms args) && (ma_gov_interval_ms args <=? 100000))) SystemExit
    "--gov-interval-ms must be in 100..100000" ;;;
  raise_if (negb ((0 <=? ma_gov_low args) && (ma_gov_low args <? ma_gov_high args) && (ma_gov_high args <? 10000))) SystemExit
    "governor thresholds require 0 <= low < high < 10000" ;;;
  let scenarios := List.filter (fun name => negb (is_empty name)) (split_on "," (ma_scenarios args)) in
  raise_if (match scenarios with [] => true | _ => false end) SystemExit "at least one scenario is required" ;;;
  iterM (fun name => raise_if (negb (mem_string name scenario_names)) SystemExit ("unknown scenario: " +:+ name)) scenarios ;;;
  raise_if (mem_string "steal" scenarios && negb (startswith "custom-" (ma_arm args))) SystemExit
    "the steal scenario is a steal-governor contrast; use --arm custom-nogov or --arm custom-gov" ;;;
  Ok scenarios.

(** What [main] knows when the measurement starts. *)
Record campaign : Type := {
  ca_scenarios : list string; ca_binaries : list (string * string); ca_node : string; ca_kernel : string; ca_cpus : Z;
  ca_governor : GovernorState; ca_schedstats : string
}.
Definition steer_schedstats (args : matrix_args) (c : campaign) : bool :=
  mem_string "steal" (ca_scenarios c) && startswith "custom" (ma_arm args).

Definition scene_of (args : matrix_args) (c : campaign) (rep : Z) (order : list string) (scenario : string) : scene :=
  {| sc_scenario := scenario; sc_arm := ma_arm args; sc_rep := rep; sc_run_id := ma_run_id args; sc_block := ma_block args;
     sc_node := ca_node c; sc_kernel := ca_kernel c; sc_cpu_count := ca_cpus c; sc_duration := ma_duration args;
     sc_warmup := ma_warmup args; sc_binaries := ca_binaries c; sc_order := order |}.

(** The two loops: the rows of each repetition. *)
Definition run_repetition (args : matrix_args) (c : campaign) (rep : Z) : W (list pydict) :=
  let order := scenario_order args (ca_scenarios c) rep in
  let! blocks := collect order (fun scenario =>
    log ("rep " +:+ str_of_Z rep +:+ "/" +:+ str_of_Z (ma_reps args) +:+ ": " +:+ scenario) >>>
    let! rows := run_scenario (scene_of args c rep order scenario) in
    sleep (ma_cooldown args) >>>
    ret rows) in
  ret (mjoin blocks).
Definition run_campaign (args : matrix_args) (c : campaign) : W (list pydict) :=
  (if steer_schedstats args c then set_schedstats true else ret tt) >>>
  ensure_parent (ma_parent_weight args) (ca_cpus c) >>>
  let! blocks := collect (cpu_range 1 (ma_reps args)) (run_repetition args c) in
  ret (mjoin blocks).

Definition restore_schedstats (args : matrix_args) (c : campaign) : W unit :=
  if steer_schedstats args c then
    try_except (set_schedstats (String.eqb (ca_schedstats c) "1")) [RuntimeError] (fun e =>
      log ("warning: could not restore sched_schedstats: " +:+ exn_msg e))
  else ret tt.
Definition remove_root : W unit :=
  try_except (let! present := ask (GroupExists CGROUP_ROOT) in if present then clean_cgroup CGROUP_ROOT else ret tt) [OSError]
    (fun e => log ("warning: could not remove " +:+ cgroup_text CGROUP_ROOT +:+ ": " +:+ exn_msg e)).
Definition restore (args : matrix_args) (c : campaign) : W unit :=
  try_finally (restore_governor (ca_governor c)) (restore_schedstats args c >>> remove_root).

(** [try: ... finally: restore()] *)
Definition measured (args : matrix_args) (c : campaign) : W (list pydict) :=
  try_finally (run_campaign args c) (restore args c).

(** What is done before the [try]: the governor of the arm, and the handlers. *)
Definition prepare (args : matrix_args) (scenarios : list string) (binaries : list (string * string)) (node kernel : string)
    (cpu_count : Z) : W campaign :=
  let! governor := apply_governor (ma_arm args) args in
  let! schedstats := schedstats_text "0" in
  log ("run " +:+ ma_run_id args +:+ " arm=" +:+ ma_arm args +:+ " block=" +:+ ma_block args +:+ " node=" +:+ node +:+
       " kernel=" +:+ kernel +:+ " cpus=" +:+ str_of_Z cpu_count +:+ " scenarios=" +:+ py_repr (VList (VStr <$> scenarios))) >>>
  ret {| ca_scenarios := scenarios; ca_binaries := binaries; ca_node := node; ca_kernel := kernel; ca_cpus := cpu_count;
         ca_governor := governor; ca_schedstats := schedstats |}.

Definition rows_text (rows : list pydict) : string := join "" ((fun row => json_plain true (VDict row) +:+ newline) <$> rows).

Definition write_results (args : matrix_args) (environment : pydict) (c : campaign) (rows : list pydict) : W unit :=
  outside (MakeDirs (parent (ma_out args))) >>>
  write_text (ma_out args) (rows_text rows) >>>
  let! after := read_governor_state in
  let! schedstats := schedstats_text "" in
  let! config := lift (dindex "config" environment) in
  let! boot_id := read_boot_id in
  let! mask := read_preferred in
  let! now := outside UtcNow in
  let meta :=
    VDict [("run_id", VStr (ma_run_id args)); ("arm", VStr (ma_arm args)); ("block", VStr (ma_block args));
           ("node", VStr (ca_node c)); ("kernel", VStr (ca_kernel c)); ("cpus", VInt (ca_cpus c));
           ("scenarios", VList (VStr <$> ca_scenarios c)); ("reps", VInt (ma_reps args));
           ("duration_s", VFloat (ma_duration args)); ("warmup_s", VFloat (ma_warmup args));
           ("cooldown_s", VFloat (ma_cooldown args)); ("parent_weight", VInt (ma_parent_weight args));
           ("seed", VInt (ma_seed args));
           ("governor", VDict [("before", governor_dict (ca_governor c)); ("after", governor_dict after);
              ("parameters", VDict ((fun p => (fst p, VInt (snd p))) <$> expected_params args))]);
           ("sched_schedstats", VDict [("before", VStr (ca_schedstats c)); ("after", VStr schedstats);
              ("enabled_for_run", VBool (steer_schedstats args c))]);
           ("config", config); ("boot_id", VStr boot_id); ("preferred", VStr mask); ("finished", VStr (isoformat now));
           ("rows", VInt (Z.of_nat (length rows)))] in
  outside (MakeDirs (parent (ma_meta args))) >>>
  write_text (ma_meta args) (json_indent true meta +:+ newline) >>>
  log ("wrote " +:+ str_of_Z (Z.of_nat (length rows)) +:+ " rows to " +:+ ma_out args).

Definition with_run_id (args : matrix_args) (run_id : string) : matrix_args :=
  {| ma_arm := ma_arm args; ma_block := ma_block args; ma_reps := ma_reps args; ma_duration := ma_duration args;
     ma_warmup := ma_warmup args; ma_cooldown := ma_cooldown args; ma_seed := ma_seed args; ma_scenarios := ma_scenarios args;
     ma_parent_weight := ma_parent_weight args; ma_gov_interval_ms := ma_gov_interval_ms args; ma_gov_high := ma_gov_high args;
     ma_gov_low := ma_gov_low args; ma_out := ma_out args; ma_meta := ma_meta args; ma_run_id := run_id;
     ma_plan := ma_plan args; ma_check := ma_check args |}.

(** [main], after the arguments are parsed; [here]: the directory of the program. *)
Definition main (here : string) (args : matrix_args) : W Z :=
  let! scenarios := lift (check_args args) in
  let! args := if is_empty (ma_run_id args)
               then let! now := outside UtcNow in ret (with_run_id args (run_stamp now)) else ret args in
  if ma_plan args then
    let! p := plan args scenarios in
    ask (Print (json_indent true p)) >>> ret 0
  else
    let! user := ask EffectiveUser in
    throw_if (negb (user =? 0)) SystemExit "run_matrix.py must run as root on the worker" >>>
    outside (MakeDirs WORK_DIR) >>>
    let! environment := check_environment (ma_arm args) in
    if ma_check args then ask (Print (json_indent true (VDict environment))) >>> ret 0
    else
      let! binaries := compile_workloads here in
      let! node := lift (dindex "node" environment) in
      let! kernel := lift (dindex "kernel" environment) in
      let! cpus := lift (dindex "cpus" environment) in
      let! cpu_count := lift (int_of_val cpus) in
      let! c := prepare args scenarios binaries (py_str node) (py_str kernel) cpu_count in
      let! rows := measured args c in
      write_results args environment c rows >>>
      ret 0.
End Program.
