(* ===== verification/SchedNodeThm.v ===== *)
(** What the steal governor, the schedstats setting and the cgroups are after
    the operations of [SchedMatrix.v], when no call of the operation raises. *)

From Stdlib Require Import ZArith Bool Ascii String Lia SpecFloat.
From stdpp Require Import base list strings option gmap.
From S2P Require Import Prelude Eff PyStr PyFloat World Worker SchedHost SchedMatrix.

Open Scope string_scope.
Open Scope Z_scope.

(** ** Calls that are answered *)

(** The four parts of a node's state. *)
Definition same_node (w w' : worker) : Prop :=
  wk_settings w' = wk_settings w /\ wk_module w' = wk_module w /\ wk_groups w' = wk_groups w /\ wk_running w' = wk_running w.
#[export] Instance same_node_pre : PreOrder same_node.
Proof.
  split; [by repeat split|].
  intros a b c (? & ? & ? & ?) (? & ? & ? & ?). repeat split; congruence.
Qed.

Section Calm.
Context `{Node}.

(** From the [n]-th call on, none raises. *)
Definition calm (n : nat) : Prop :=
  forall R (c : call R) w, (n <= length (wk_past w))%nat -> exists r, node_answer R c w = Ok r.
(** Two consecutive readings of the clock are less than three seconds apart. *)
Definition prompt (n : nat) : Prop :=
  forall w w' t t', (n <= length (wk_past w))%nat ->
    node_answer _ (Outside Monotonic) w = Ok t -> wk_past w' = (wk_past w ++ [Request (Outside Monotonic)])%list ->
    node_answer _ (Outside Monotonic) w' = Ok t' -> fltb t' (fadd t (flit 3 1)) = true.

(** [m] returns [a] from [w], and the node is then as [P] says. *)
Definition returns {A} (m : W A) (w : worker) (P : A -> worker -> Prop) : Prop :=
  exists a w', m w = (Ok a, w') /\ (length (wk_past w) <= length (wk_past w'))%nat /\ P a w'.

Variable n : nat.
Hypothesis Hcalm : calm n.
Implicit Types w : worker.

Lemma returns_ret {A} (a : A) w P : P a w -> returns (ret a) w P.
Proof. intros HP. exists a, w. auto. Qed.
Lemma returns_bind {A B} (m : W A) (k : A -> W B) w P Q :
  returns m w P -> (forall a w', (length (wk_past w) <= length (wk_past w'))%nat -> P a w' -> returns (k a) w' Q) ->
  returns (mbindM m k) w Q.
Proof.
  intros (a & w1 & E & Hl & HP) Hk. destruct (Hk a w1 Hl HP) as (b & w2 & E2 & Hl2 & HQ).
  exists b, w2. split; [|split; [lia|done]]. unfold mbindM. by rewrite E.
Qed.
Lemma returns_weaken {A} (m : W A) w P Q : returns m w P -> (forall a w', P a w' -> Q a w') -> returns m w Q.
Proof. intros (a & w1 & E & Hl & HP) Hw. exists a, w1. auto. Qed.
Lemma returns_try {A} (m : W A) cs f w P : returns m w P -> returns (try_except m cs f) w P.
Proof. intros (a & w1 & E & Hl & HP). exists a, w1. split; [|done]. unfold try_except. by rewrite E. Qed.

Lemma asked_past w r : length (wk_past (asked w r)) = S (length (wk_past w)).
Proof. cbn. rewrite length_app. cbn. lia. Qed.
Lemma asked_same w r : same_node w (asked w r).
Proof. by repeat split. Qed.
Lemma effect_past {R} (c : call R) w r : wk_past (snd (effect c w r)) = wk_past w.
Proof.
  destruct c; cbn; try done.
  - by case_match.
  - by destruct (group_present g (wk_groups w)).
  - by case_match.
  - destruct (negb (group_present g (wk_groups w))); [done|]. destruct g; [done|]. by destruct (children_of _ _).
  - by destruct r.
Qed.

(** A call that is answered has its effect. *)
Lemma returns_ask {R} (c : call R) w P :
  (n <= length (wk_past w))%nat ->
  (forall r w1, same_node w w1 -> exists a, fst (effect c w1 r) = Ok a /\ P a (snd (effect c w1 r))) ->
  returns (ask c) w P.
Proof.
  intros Hn HP. unfold returns, ask. destruct (Hcalm R c w Hn) as [r ->].
  destruct (HP r (asked w (Request c)) (asked_same w _)) as (a & E & Ha).
  pose proof (effect_past c (asked w (Request c)) r) as Ep.
  destruct (effect c (asked w (Request c)) r) as [x w1]. cbn [fst snd] in E, Ha, Ep. subst x.
  exists a, w1. split; [done|]. rewrite Ep, asked_past. split; [lia|done].
Qed.
Lemma returns_outside {R} (o : op R) w : (n <= length (wk_past w))%nat -> returns (outside o) w (fun _ => same_node w).
Proof. intros Hn. apply returns_ask; [done|]. intros r w1 Hs. by exists r. Qed.

(** ** The governor *)

(** A parameter file of the module, read as a number. *)
Definition param_of (m : option (list (string * string))) (name : string) : list (string * Z) :=
  match m with
  | Some ps =>
      match List.find (fun p => String.eqb name (fst p)) ps with
      | Some (_, t) => match int_text (strip t) with Ok z => [(name, z)] | Raise _ => [] end
      | None => []
      end
  | None => []
  end.
Definition governor_of (m : option (list (string * string))) : GovernorState :=
  {| loaded := bool_decide (is_Some m); params := GOVERNOR_PARAMETERS ≫= param_of m |}.

Lemma int_text_raise s e : int_text s = Raise e -> caught_by [OSError; ValueError] e = true.
Proof. unfold int_text. case_match; [done|]. by intros [= <-]. Qed.

(** What one parameter file gives, whether the read is answered or not. *)
Definition param_read (name : string) : W (list (string * Z)) :=
  try_except (let! text := ask (ModuleParam name) in let! z := lift (int_text (strip text)) in ret [(name, z)])
    [OSError; ValueError] (fun _ => ret []).
Lemma read_params_cons name names :
  read_params (name :: names) = (let! here := param_read name in let! later := read_params names in ret (here ++ later)%list).
Proof. done. Qed.

Lemma param_read_cases name w r w' :
  param_read name w = (Ok r, w') -> same_node w w' /\ (r = [] \/ r = param_of (wk_module w) name /\ length r = 1%nat).
Proof.
  unfold param_read, try_except, mbindM, ask, lift, ret.
  destruct (node_answer _ (ModuleParam name) w) as [u|e]; cbn [effect].
  2:{ destruct (caught_by _ e); [|done]. intros [= <- <-]. split; [done|by left]. }
  unfold param_of. cbn [wk_module asked]. destruct (wk_module w) as [ps|] eqn:Em; [|intros [= <- <-]; split; [done|by left]].
  destruct (List.find _ ps) as [[k t]|]; [|intros [= <- <-]; split; [done|by left]].
  destruct (int_text (strip t)) as [z|e] eqn:E.
  - intros [= <- <-]. split; [done|]. right. by split.
  - rewrite (int_text_raise _ _ E). intros [= <- <-]. split; [done|by left].
Qed.

Lemma param_read_calm name w :
  (n <= length (wk_past w))%nat -> returns (param_read name) w (fun r w' => same_node w w' /\ r = param_of (wk_module w) name).
Proof.
  intros Hn. unfold returns, param_read, try_except, mbindM, ask, lift, ret.
  destruct (Hcalm _ (ModuleParam name) w Hn) as [u ->]. cbn [effect]. unfold param_of. cbn [wk_module asked].
  assert (forall r, r = [] \/ True -> exists a w',
    (Ok (A := list (string * Z)) r, asked w (Request (ModuleParam name))) = (Ok a, w') /\
    (length (wk_past w) <= length (wk_past w'))%nat /\ same_node w w' /\ a = r) as Hret.
  { intros r _. exists r, (asked w (Request (ModuleParam name))). rewrite asked_past. repeat split; auto. }
  destruct (wk_module w) as [ps|]; [|apply Hret; by left].
  destruct (List.find _ ps) as [[k t]|]; [|apply Hret; by left].
  destruct (int_text (strip t)) as [z|e] eqn:E; [apply Hret; by right|].
  rewrite (int_text_raise _ _ E). apply Hret. by left.
Qed.

Lemma read_params_cases names : forall w ps w',
  read_params names w = (Ok ps, w') ->
  same_node w w' /\ (length ps <= length names)%nat /\ (length ps = length names -> ps = names ≫= param_of (wk_module w)).
Proof.
  induction names as [|name names IH]; intros w ps w'.
  { intros (-> & ->)%retM_Ok. done. }
  rewrite read_params_cons. intros (here & w1 & H1 & (later & w2 & H2 & (-> & ->)%retM_Ok)%bindM_Ok)%bindM_Ok.
  apply param_read_cases in H1 as [S1 H1]. apply IH in H2 as (S2 & Hl & He). split; [by transitivity w1|].
  rewrite length_app. destruct H1 as [->|[-> H1]]; cbn [length app]; [split; [lia|]; intros; lia|].
  split; [lia|]. intros Hlen. cbn [mbind list_bind]. fold (mbind (M := list) (param_of (wk_module w))).
  rewrite He by lia. by rewrite (proj1 (proj2 S1)).
Qed.

Lemma read_params_calm names : forall w, (n <= length (wk_past w))%nat ->
  returns (read_params names) w (fun ps w' => same_node w w' /\ ps = names ≫= param_of (wk_module w)).
Proof.
  induction names as [|name names IH]; intros w Hn; [apply returns_ret; done|].
  rewrite read_params_cons. eapply returns_bind; [by apply param_read_calm|]. intros here w1 Hl1 [S1 ->].
  eapply returns_bind; [apply IH; lia|]. intros later w2 Hl2 [S2 ->]. apply returns_ret.
  split; [by transitivity w1|]. by rewrite (proj1 (proj2 S1)).
Qed.

Definition complete (g : GovernorState) : Prop := loaded g = true -> length (params g) = length GOVERNOR_PARAMETERS.

(** The state that is read is the module's, if all its parameters were read. *)
Lemma read_governor_cases w g w' :
  read_governor_state w = (Ok g, w') -> same_node w w' /\ loaded g = loaded (governor_of (wk_module w)) /\
  (complete g -> g = governor_of (wk_module w)).
Proof.
  unfold read_governor_state. intros (b & w1 & H1 & (ps & w2 & H2 & (-> & ->)%retM_Ok)%bindM_Ok)%bindM_Ok.
  unfold ask in H1. destruct (node_answer _ ModuleLoaded w) as [u|]; [|done]. cbn [effect] in H1. injection H1 as <- <-.
  cbn [wk_module asked] in H2. unfold governor_of. cbn [loaded params]. destruct (wk_module w) as [m|] eqn:Em.
  - rewrite bool_decide_true in H2 |- * by eauto. apply read_params_cases in H2 as (S2 & _ & He). cbn [wk_module asked] in He.
    split; [by transitivity (asked w (Request ModuleLoaded))|]. split; [done|]. intros Hc. f_equal. rewrite He; [by rewrite Em|].
    by apply Hc.
  - rewrite bool_decide_false in H2 |- * by (intros [? [=]]). apply retM_Ok in H2 as [-> ->]. split; [done|]. split; [done|].
    intros _. f_equal.
Qed.

Lemma read_governor_calm w : (n <= length (wk_past w))%nat ->
  returns read_governor_state w (fun g w' => same_node w w' /\ g = governor_of (wk_module w)).
Proof.
  intros Hn. unfold read_governor_state.
  apply (returns_bind _ _ _ (fun b w' => same_node w w' /\ b = bool_decide (is_Some (wk_module w)))).
  { apply returns_ask; [done|]. intros [] w1 S1; (eexists; split; [done|]); split; try done; by rewrite (proj1 (proj2 S1)). }
  intros b w1 Hl1 [S1 ->]. unfold governor_of. destruct (wk_module w) as [m|] eqn:Em.
  - rewrite bool_decide_true by eauto. eapply returns_bind; [apply read_params_calm; lia|]. intros ps w2 _ [S2 ->].
    apply returns_ret. split; [by transitivity w1|]. by rewrite (proj1 (proj2 S1)), Em.
  - rewrite bool_decide_false by (intros [? [=]]). eapply returns_bind; [by apply returns_ret with (P := fun ps w' => ps = [] /\ w' = w1)|].
    intros ps w2 _ [-> ->]. apply returns_ret. by split.
Qed.

(** What [rmmod] and [modprobe] do when they succeed: the module is gone, and
    the parameter files hold the values that were asked for. *)
Definition requested (i h l : Z) : list (string * Z) := [("interval_ms", i); ("high_threshold", h); ("low_threshold", l)].
Definition module_laws : Prop :=
  (forall w, node_module ["rmmod"; "steal_governor"] w = None) /\
  (forall i h l w, governor_of (node_module (modprobe_command i h l) w) = {| loaded := true; params := requested i h l |}).

Definition same_files (w w' : worker) : Prop :=
  wk_settings w' = wk_settings w /\ wk_groups w' = wk_groups w /\ wk_running w' = wk_running w.
#[local] Instance same_files_pre : PreOrder same_files.
Proof. split; [by repeat split|]. intros a b c (? & ? & ?) (? & ? & ?). repeat split; congruence. Qed.
Lemma same_node_files w w' : same_node w w' -> same_files w w'.
Proof. by intros (? & ? & ? & ?). Qed.

Hypothesis Hlaws : module_laws.
Hypothesis Hprompt : prompt n.

Lemma ask_command argv w : (n <= length (wk_past w))%nat -> module_command argv = true ->
  returns (ask (Command argv)) w (fun _ w' => same_files w w' /\ exists v, wk_module w' = node_module argv v).
Proof.
  intros Hn Hm. apply returns_ask; [done|]. intros r w1 (E1 & E2 & E3 & E4). exists tt. split; [done|]. cbn [effect fst snd].
  rewrite Hm. split; [done|]. by exists w1.
Qed.

Lemma unload_calm w : (n <= length (wk_past w))%nat ->
  returns unload_governor w (fun _ w' => same_files w w' /\ wk_module w' = None).
Proof.
  intros Hn. unfold unload_governor.
  apply (returns_bind _ _ _ (fun b w' => same_node w w' /\ b = bool_decide (is_Some (wk_module w)))).
  { apply returns_ask; [done|]. intros [] w1 S1; (eexists; split; [done|]); split; try done; by rewrite (proj1 (proj2 S1)). }
  intros b w1 Hl1 [S1 ->]. case_bool_decide as Hb.
  - eapply returns_weaken; [apply ask_command; [lia|done]|]. intros _ w2 [S2 (v & E)].
    split; [transitivity w1; [by apply same_node_files|done]|]. rewrite E. apply (proj1 Hlaws).
  - apply returns_ret. split; [by apply same_node_files|]. rewrite (proj1 (proj2 S1)). by destruct (wk_module w); [destruct Hb|].
Qed.

(** The clock, read twice in a row. *)
Lemma clock_calm w : (n <= length (wk_past w))%nat ->
  exists t, outside Monotonic w = (Ok t, asked w (Request (Outside Monotonic))) /\ node_answer _ (Outside Monotonic) w = Ok t.
Proof.
  intros Hn. unfold outside, ask. destruct (Hcalm _ (Outside Monotonic) w Hn) as [t E]. rewrite E. by exists t.
Qed.

Lemma load_calm i h l w : (n <= length (wk_past w))%nat ->
  returns (load_governor i h l) w
    (fun _ w' => same_files w w' /\ governor_of (wk_module w') = {| loaded := true; params := requested i h l |}).
Proof.
  intros Hn. unfold load_governor. eapply returns_bind; [by apply unload_calm|]. intros _ w1 Hl1 [S1 _].
  eapply returns_bind; [apply (ask_command (modprobe_command i h l)); [lia|done]|]. intros _ w2 Hl2 [S2 (v & Ev)].
  destruct (clock_calm w2) as (t & Et & At); [lia|]. set (w3 := asked w2 (Request (Outside Monotonic))).
  destruct (clock_calm w3) as (t' & Et' & At'); [unfold w3; rewrite asked_past; lia|].
  set (w4 := asked w3 (Request (Outside Monotonic))).
  pose proof (Hprompt w2 w3 t t' ltac:(lia) At eq_refl At') as Hlt.
  assert (length (wk_past w4) = S (S (length (wk_past w2)))) as L4 by (unfold w4, w3; by rewrite !asked_past).
  destruct (read_governor_calm w4) as (g & w5 & Eg & Hl5 & S5 & ->); [lia|].
  assert (governor_of (wk_module w4) = {| loaded := true; params := requested i h l |}) as Egov.
  { change (wk_module w4) with (wk_module w2). rewrite Ev. apply (proj2 Hlaws). }
  exists tt, w5. split; [|split; [lia|]].
  - unfold mbindM at 1. rewrite Et. change GOVERNOR_POLLS with (S 61). cbn [loop]. unfold governor_poll at 1.
    unfold mbindM at 1 2 3. fold w3. rewrite Et'. rewrite Hlt. cbn [negb]. unfold mbindM at 1. fold w4. rewrite Eg. by rewrite Egov.
  - rewrite (proj1 (proj2 S5)). split; [|exact Egov].
    transitivity w1; [exact S1|]. transitivity w2; [exact S2|]. by apply same_node_files in S5.
Qed.

Lemma complete_params g : complete g -> loaded g = true -> (fst <$> params g) = GOVERNOR_PARAMETERS ->
  requested (param_or "interval_ms" 1000 g) (param_or "high_threshold" 500 g) (param_or "low_threshold" 200 g) = params g.
Proof.
  intros _ _. destruct g as [b ps]. cbn [params]. unfold param_or. cbn [params].
  destruct ps as [|[k1 x1] [|[k2 x2] [|[k3 x3] [|]]]]; try done. by intros [= -> -> ->].
Qed.

Lemma governor_of_keys m : length (params (governor_of m)) = length GOVERNOR_PARAMETERS ->
  (fst <$> params (governor_of m)) = GOVERNOR_PARAMETERS.
Proof.
  assert (forall names, (length (names ≫= param_of m) <= length names)%nat /\
            (length (names ≫= param_of m) = length names -> (fst <$> (names ≫= param_of m)) = names)) as Hg.
  { induction names as [|name names [IHl IHe]]; [done|]. cbn [mbind list_bind] in *. rewrite length_app, fmap_app. cbn [length].
    assert (param_of m name = [] \/ exists z, param_of m name = [(name, z)]) as [->|[z ->]].
    { unfold param_of. repeat case_match; eauto. }
    - cbn [length]. unfold mbind in *. split; intros; lia.
    - cbn [length app fmap list_fmap fst]. unfold mbind in *. split; [lia|]. intros Hl. by rewrite IHe by lia. }
  apply Hg.
Qed.

(** The original state is back, whatever the state before was. *)
Lemma restore_governor_calm m w : complete (governor_of m) -> (n <= length (wk_past w))%nat ->
  returns (restore_governor (governor_of m)) w
    (fun _ w' => same_files w w' /\ governor_of (wk_module w') = governor_of m).
Proof.
  intros Hc Hn. unfold restore_governor. eapply returns_bind; [by apply read_governor_calm|]. intros g w1 Hl1 [S1 ->].
  destruct (loaded (governor_of m)) eqn:El.
  - destruct (loaded (governor_of (wk_module w)) && bool_decide (params (governor_of (wk_module w)) = params (governor_of m))) eqn:E.
    + apply returns_ret. apply andb_prop in E as [E1 E2%bool_decide_eq_true]. split; [by apply same_node_files|].
      rewrite (proj1 (proj2 S1)). destruct (governor_of (wk_module w)), (governor_of m). cbn in *. by subst.
    + eapply returns_weaken; [apply load_calm; lia|]. intros _ w2 [S2 E2].
      split; [transitivity w1; [by apply same_node_files|done]|]. rewrite E2.
      rewrite complete_params by (try done; apply governor_of_keys; by apply Hc). destruct (governor_of m). cbn in *. by subst.
  - assert (m = None) as ->. { by destruct m. }
    destruct (loaded (governor_of (wk_module w))) eqn:E.
    + eapply returns_weaken; [apply unload_calm; lia|]. intros _ w2 [S2 E2].
      split; [transitivity w1; [by apply same_node_files|done]|]. by rewrite E2.
    + apply returns_ret. split; [by apply same_node_files|]. rewrite (proj1 (proj2 S1)).
      by destruct (wk_module w).
Qed.

(** ** Cgroups *)

Lemma returns_forM_nil {A} (body : A -> W unit) w P : P tt w -> returns (forM [] body) w P.
Proof. apply returns_ret. Qed.
End Calm.

(** [x] is the group [g] or below it; a tree has the groups above its groups. *)
Definition below (g x : cgroup) : Prop := take (length g) x = g.
Definition tree_ok (groups : gset cgroup) : Prop :=
  forall x k, x ∈ groups -> (1 <= k)%nat -> take k x ≠ [] -> take k x ∈ groups.
(** Only the groups with [P] are gone. *)
Definition removed (P : cgroup -> Prop) (w w' : worker) : Prop :=
  wk_settings w' = wk_settings w /\ wk_module w' = wk_module w /\ wk_running w' = wk_running w /\
  (forall x, x ∈ wk_groups w' <-> x ∈ wk_groups w /\ ~ P x).

Lemma below_self g : below g g.
Proof. unfold below. by rewrite firstn_all. Qed.
Lemma below_take g x k : below g (take k x) -> below g x.
Proof.
  unfold below. intros E. rewrite <- E at 2. rewrite take_take. f_equal.
  apply (f_equal length) in E. rewrite !length_take in E. lia.
Qed.
Lemma below_length g x : below g x -> (length g <= length x)%nat.
Proof. unfold below. intros E. apply (f_equal length) in E. rewrite length_take in E. lia. Qed.
(** A group below [g] is [g] or below one of its children. *)
Lemma below_cases g x : below g x -> x = g \/ is_child g (take (S (length g)) x) = true /\ below (take (S (length g)) x) x.
Proof.
  intros Hb. pose proof (below_length g x Hb) as Hl. destruct (decide (length x = length g)) as [E|E].
  - left. unfold below in Hb. rewrite <- Hb. symmetry. apply take_ge. lia.
  - right. unfold is_child, below in *. rewrite length_take, Nat.min_l by lia. split; [|done].
    apply bool_decide_eq_true. split; [done|]. rewrite take_take. by rewrite Nat.min_l by lia.
Qed.
Lemma child_below g c : is_child g c = true -> below g c /\ length c = S (length g).
Proof. intros [E1 E2]%bool_decide_eq_true. by split. Qed.

Lemma removed_tree P w w' : (forall x k, P (take k x) -> P x) -> removed P w w' -> tree_ok (wk_groups w) -> tree_ok (wk_groups w').
Proof.
  intros HP (_ & _ & _ & Hr) Ht x k [Hx Hn]%Hr Hk Hne. apply Hr. split; [by apply Ht|]. intros Hp. by apply Hn, (HP _ k).
Qed.
Lemma removed_trans P Q w1 w2 w3 : removed P w1 w2 -> removed Q w2 w3 -> removed (fun x => P x \/ Q x) w1 w3.
Proof.
  intros (E1 & E2 & E3 & E4) (F1 & F2 & F3 & F4). split; [congruence|]. split; [congruence|]. split; [congruence|].
  intros x. rewrite F4, E4. tauto.
Qed.
Lemma removed_iff P Q w w' : (forall x, x ∈ wk_groups w -> P x <-> Q x) -> removed P w w' -> removed Q w w'.
Proof.
  intros HPQ (E1 & E2 & E3 & E4). split; [done|]. split; [done|]. split; [done|]. intros x. rewrite E4.
  split; intros [Hx Hn]; (split; [done|]); intros Hp; apply Hn; by apply HPQ.
Qed.
Lemma removed_none P w w' : same_node w w' -> (forall x, x ∈ wk_groups w -> ~ P x) -> removed P w w'.
Proof. intros (E1 & E2 & E3 & E4) Hn. split; [done|]. split; [done|]. split; [done|]. intros x. rewrite E3. naive_solver. Qed.
Lemma removed_same P w1 w2 w3 : same_node w1 w2 -> removed P w2 w3 -> removed P w1 w3.
Proof.
  intros (E1 & E2 & E3 & E4) (F1 & F2 & F3 & F4).
  split; [congruence|]. split; [congruence|]. split; [congruence|]. intros x. by rewrite F4, E3.
Qed.

Section Cgroups.
Context `{Node} (n : nat) (Hcalm : calm n).
Implicit Types w : worker.

Lemma ask_exists g w : (n <= length (wk_past w))%nat ->
  returns (ask (GroupExists g)) w (fun b w' => same_node w w' /\ b = group_present g (wk_groups w)).
Proof. intros Hn. apply (returns_ask n Hcalm); [done|]. intros r w1 S1. eexists. split; [done|]. by rewrite (proj1 (proj2 (proj2 S1))). Qed.

Lemma remove_leaf g w : (n <= length (wk_past w))%nat -> g ≠ [] -> g ∈ wk_groups w -> children_of g (wk_groups w) = [] ->
  returns (ask (RemoveGroup g)) w (fun _ w' => removed (eq g) w w').
Proof.
  intros Hn Hg Hin Hc. apply (returns_ask n Hcalm); [done|]. intros r w1 (E1 & E2 & E3 & E4). exists tt.
  cbn [effect]. rewrite E3. assert (group_present g (wk_groups w) = true) as ->.
  { destruct g; [done|]. cbn. by apply bool_decide_eq_true. }
  cbn [negb]. destruct g as [|s g]; [done|]. rewrite Hc. split; [done|]. unfold removed. cbn. rewrite E1, E2, E4.
  split; [done|]. split; [done|]. split; [done|]. intros x. rewrite elem_of_difference, elem_of_singleton. naive_solver.
Qed.

Lemma clean_children f (g : cgroup) (IH : forall (c : cgroup) w, (n <= length (wk_past w))%nat -> c ≠ [] -> tree_ok (wk_groups w) ->
    (forall x : cgroup, x ∈ wk_groups w -> (length x < f + length c)%nat) -> returns (clean_go (S f) c) w (fun _ => removed (below c) w)) :
  forall l w, (n <= length (wk_past w))%nat -> tree_ok (wk_groups w) -> Forall (fun c => length c = S (length g)) l ->
    (forall x : cgroup, x ∈ wk_groups w -> (length x < f + S (length g))%nat) ->
    returns (forM l (clean_go (S f))) w (fun _ => removed (fun x => exists c, c ∈ l /\ below c x) w).
Proof.
  induction l as [|c l IHl]; intros w Hn Ht Hl Hd.
  { apply returns_ret. apply removed_none; [done|]. by intros x _ (c & ?%not_elem_of_nil & _). }
  apply Forall_cons_iff in Hl as [Hc Hl]. cbn [forM].
  eapply returns_bind; [apply IH; [done|by destruct c|done|by rewrite Hc]|].
  intros [] w1 Hl1 R1. eapply returns_weaken.
  - apply IHl; [lia| |done|].
    + eapply removed_tree; [|exact R1|done]. intros x k. apply below_take.
    + intros x [Hx _]%(proj2 (proj2 (proj2 R1))). by apply Hd.
  - intros [] w2 R2. eapply removed_iff; [|exact (removed_trans _ _ _ _ _ R1 R2)]. intros x _. setoid_rewrite list.elem_of_cons.
    naive_solver.
Qed.

Lemma absent_below g groups : g ≠ [] -> tree_ok groups -> group_present g groups = false -> forall x, x ∈ groups -> ~ below g x.
Proof.
  intros Hg Ht Hp x Hx Hb. assert (g ∈ groups) as Hin.
  { rewrite <- Hb. apply Ht; [done|destruct g; [done|cbn; lia]|by rewrite Hb]. }
  destruct g; [done|]. cbn in Hp. by apply bool_decide_eq_false in Hp.
Qed.

Lemma children_lengths g groups : Forall (fun c => length c = S (length g)) (sort_by cgroup_geb (children_of g groups)).
Proof.
  rewrite sort_by_perm. apply List.Forall_forall. intros c [_ Hc]%List.filter_In. by apply child_below in Hc as [_ ?].
Qed.

(** Without the children and what is below them, only the group itself is left of it. *)
Lemma only_itself g groups w2 w : tree_ok groups -> wk_groups w = groups ->
  removed (fun x => exists c, c ∈ sort_by cgroup_geb (children_of g groups) /\ below c x) w w2 ->
  children_of g (wk_groups w2) = [] /\ (g ∈ groups -> g ∈ wk_groups w2) /\
  (forall x, x ∈ wk_groups w2 -> below g x -> x = g).
Proof.
  intros Ht Eg (_ & _ & _ & Hr). rewrite Eg in Hr.
  assert (forall x, x ∈ wk_groups w2 -> below g x -> x = g) as Hself.
  { intros x [Hx Hn]%Hr Hb. destruct (below_cases g x Hb) as [->|[Hc Hb']]; [done|]. destruct Hn. eexists. split; [|exact Hb'].
    rewrite sort_by_perm. apply list_elem_of_In, List.filter_In. split; [|done]. apply list_elem_of_In, elem_of_elements.
    apply Ht; [done|lia|]. intros E. apply child_below in Hc as [_ Hl]. rewrite E in Hl. done. }
  split; [|split; [|done]].
  - apply elem_of_nil_inv. intros c Hc. apply list_elem_of_In, List.filter_In in Hc as [Hin [Hb Hl]%child_below].
    apply list_elem_of_In, elem_of_elements in Hin. rewrite (Hself c Hin Hb) in Hl. lia.
  - intros Hin. apply Hr. split; [done|]. intros (c & Hc & Hb%below_length). rewrite sort_by_perm in Hc.
    apply list_elem_of_In, List.filter_In in Hc as [_ [_ Hl]%child_below]. lia.
Qed.

Lemma clean_go_calm f : forall g w, (n <= length (wk_past w))%nat -> g ≠ [] -> tree_ok (wk_groups w) ->
  (forall x, x ∈ wk_groups w -> (length x < f + length g)%nat) -> returns (clean_go (S f) g) w (fun _ => removed (below g) w).
Proof.
  induction f as [|f IH]; intros g w Hn Hg Ht Hd.
  all: change (clean_go (S ?f) g) with (let! present := ask (GroupExists g) in
         if present then let! children := ask (GroupChildren g) in forM children (clean_go f) >>> ask (RemoveGroup g) else ret tt).
  all: eapply returns_bind; [by apply ask_exists|]; intros b w1 Hl1 [S1 ->].
  all: destruct (group_present g (wk_groups w)) eqn:Ep;
    [|by apply returns_ret, removed_none; [done|]; apply absent_below].
  all: assert (g ∈ wk_groups w) as Hin by (destruct g; [done|]; by apply bool_decide_eq_true in Ep).
  { specialize (Hd g Hin). lia. }
  pose (children := sort_by cgroup_geb (children_of g (wk_groups w))).
  apply (returns_bind _ _ _ (fun l w' => same_node w w' /\ l = children)).
  { apply (returns_ask n Hcalm); [lia|]. intros r w2 S2. assert (wk_groups w2 = wk_groups w) as E2.
    { rewrite (proj1 (proj2 (proj2 S2))). apply S1. }
    exists children. cbn [effect]. rewrite E2, Ep. split; [done|]. split; [by transitivity w1|done]. }
  intros l w2 Hl2 [S2 ->]. assert (wk_groups w2 = wk_groups w) as E2 by apply S2.
  eapply returns_bind.
  { apply (clean_children f g IH); [lia|by rewrite E2|apply children_lengths|rewrite E2; intros x Hx; specialize (Hd x Hx); lia]. }
  intros [] w3 Hl3 R3. destruct (only_itself g (wk_groups w) w3 w2 Ht E2 R3) as (Hnil & Hg3 & Hself).
  eapply returns_weaken; [apply remove_leaf; [lia|done|by apply Hg3|done]|]. intros [] w4 R4.
  apply (removed_same _ _ _ _ S2). eapply removed_iff; [|exact (removed_trans _ _ _ _ _ R3 R4)].
  intros x Hx. rewrite E2 in Hx. split.
  - intros [(c & Hc & Hb)|<-]; [|apply below_self]. unfold children in Hc. rewrite sort_by_perm in Hc.
    apply list_elem_of_In, List.filter_In in Hc as [_ [Hgc _]%child_below].
    unfold below in *. rewrite <- Hb in Hgc. apply (below_take g x (length c)). exact Hgc.
  - intros Hb. destruct (below_cases g x Hb) as [->|[Hc Hb']]; [by right|]. left. eexists. split; [|exact Hb'].
    unfold children. rewrite sort_by_perm. apply list_elem_of_In, List.filter_In. split; [|done]. apply list_elem_of_In, elem_of_elements.
    apply Ht; [done|lia|]. intros E. apply child_below in Hc as [_ Hl]. by rewrite E in Hl.
Qed.

Lemma depth_bound groups x : x ∈ groups -> (length x <= depth groups)%nat.
Proof.
  intros Hx. unfold depth. pose proof (proj1 (List.list_max_le (length <$> elements groups) _) (Nat.le_refl _)) as Hf.
  rewrite List.Forall_forall in Hf. apply Hf, list_elem_of_In, list_elem_of_fmap. exists x. by rewrite elem_of_elements.
Qed.

(** The whole tree below a group is removed, and the fuel is enough. *)
Lemma clean_cgroup_calm g w : (n <= length (wk_past w))%nat -> g ≠ [] -> tree_ok (wk_groups w) ->
  returns (clean_cgroup g) w (fun _ => removed (below g) w).
Proof.
  intros Hn Hg Ht. unfold clean_cgroup. apply (clean_go_calm _ g w Hn Hg Ht). intros x Hx%depth_bound.
  destruct g; [done|]. cbn [length]. lia.
Qed.
(** The same behind a test that the group is there. *)
Lemma clean_present_calm g w : (n <= length (wk_past w))%nat -> g ≠ [] -> tree_ok (wk_groups w) ->
  returns (let! present := ask (GroupExists g) in if present then clean_cgroup g else ret tt) w (fun _ => removed (below g) w).
Proof.
  intros Hn Hg Ht. eapply returns_bind; [by apply ask_exists|].
  intros b w1 Hl [S1 ->]. assert (wk_groups w1 = wk_groups w) as E1 by apply S1. destruct (group_present g (wk_groups w)) eqn:Ep.
  - eapply returns_weaken; [apply clean_cgroup_calm; [lia|done|by rewrite E1]|]. intros u w2 R2. by apply (removed_same _ _ _ _ S1).
  - apply returns_ret, removed_none; [done|]. by apply absent_below.
Qed.
End Cgroups.
