(* ===== verification/SchedMatrixThm.v ===== *)
(** What [SchedMatrix.v] guarantees: the node is restored, no workload is left
    running, and the rows that are written are the ones that are planned. *)

From Stdlib Require Import ZArith Bool Ascii String Lia SpecFloat.
From stdpp Require Import base list strings option gmap.
From S2P Require Import Prelude Eff PyStr PyFloat PyVal PyDict Json PyConv Campaign Files World Worker SchedScenarios SchedHost SchedMatrix SchedNodeThm.

Open Scope string_scope.
Open Scope Z_scope.

(** ** What the parts of a run may change *)

Definition grows (w w' : worker) : Prop := exists l, wk_past w' = (wk_past w ++ l)%list.
(** The cgroups that are not at or below the root are the same. *)
Definition spared (root : cgroup) (w w' : worker) : Prop :=
  forall g, ~ below root g -> g ∈ wk_groups w' <-> g ∈ wk_groups w.
(** The settings are kept, the cgroups stay a tree and change below the root
    only; and no process is added. *)
Definition kept (root : cgroup) (w w' : worker) : Prop :=
  wk_settings w' = wk_settings w /\ (tree_ok (wk_groups w) -> tree_ok (wk_groups w')) /\ grows w w' /\ spared root w w'.
Definition settled (root : cgroup) (w w' : worker) : Prop := kept root w w' /\ wk_running w' ⊆ wk_running w.

#[export] Instance kept_pre root : PreOrder (kept root).
Proof.
  split; [intros w; repeat split; try done; by exists []; rewrite app_nil_r|].
  intros a b c (E1 & T1 & (l1 & P1) & G1) (E2 & T2 & (l2 & P2) & G2). split; [congruence|]. split; [tauto|].
  split; [exists (l1 ++ l2)%list; by rewrite P2, P1, app_assoc|]. intros g Hg. etransitivity; [by apply G2|by apply G1].
Qed.
#[export] Instance settled_pre root : PreOrder (settled root).
Proof.
  split; [intros w; split; [reflexivity|done]|].
  intros a b c [K1 S1] [K2 S2]. split; [by transitivity b|set_solver].
Qed.

Lemma moves_weaken (R R' : worker -> worker -> Prop) {A} (m : W A) : (forall w w', R w w' -> R' w w') -> moves R m -> moves R' m.
Proof. intros Hw Hm w. apply Hw, Hm. Qed.
Lemma settled_kept root {A} (m : W A) : moves (settled root) m -> moves (kept root) m.
Proof. apply moves_weaken. by intros w w' [? _]. Qed.

(** The groups that are made come with the groups above them; those with groups below stay. *)
Lemma lineage_elem g x : x ∈ lineage g <-> exists k, (1 <= k <= length g)%nat /\ x = take k g.
Proof.
  unfold lineage. rewrite elem_of_list_to_set, list_elem_of_fmap. split.
  - intros (k & -> & Hk%list_elem_of_In%in_seq). exists k. split; [lia|done].
  - intros (k & Hk & ->). exists k. split; [done|]. apply list_elem_of_In, in_seq. lia.
Qed.
Lemma make_tree g groups : tree_ok groups -> tree_ok (lineage g ∪ groups).
Proof.
  intros Ht x k [(j & Hj & ->)%lineage_elem|Hx]%elem_of_union Hk Hne; apply elem_of_union; [left|right; by apply Ht].
  apply lineage_elem. exists (k `min` j)%nat. split; [lia|]. by rewrite take_take.
Qed.
Lemma remove_tree g groups : tree_ok groups -> children_of g groups = [] -> tree_ok (groups ∖ {[g]}).
Proof.
  intros Ht Hc x k [Hx Hxg%not_elem_of_singleton]%elem_of_difference Hk Hne. apply elem_of_difference. split; [by apply Ht|].
  apply not_elem_of_singleton. intros E. destruct (below_cases g x) as [->|[Hb _]]; [|done|].
  - unfold below. rewrite <- E, length_take. destruct (Nat.min_spec k (length x)) as [[? ->]|[? ->]]; [done|].
    by rewrite !take_ge by lia.
  - apply (not_elem_of_nil (take (S (length g)) x)). rewrite <- Hc. apply list_elem_of_In, List.filter_In. split; [|done].
    apply list_elem_of_In, elem_of_elements. apply Ht; [done|lia|]. intros E0. apply child_below in Hb as [_ Hl]. by rewrite E0 in Hl.
Qed.

Definition spawns {R} (c : call R) : bool := match c with Spawn _ => true | _ => false end.
(** A call that sets something or changes a cgroup that is not below the root. *)
Definition strays (root : cgroup) {R} (c : call R) : bool :=
  match c with
  | SetSetting _ _ => true
  | MakeGroup _ g | RemoveGroup g => negb (bool_decide (take (length root) g = root))
  | _ => false
  end.

Lemma below_nil g : below [] g.
Proof. done. Qed.
Lemma below_trans a b c : below a b -> below b c -> below a c.
Proof. intros H1 H2. apply (below_take a c (length b)). unfold below in H2. by rewrite H2. Qed.

(** The roots have one part, as those of the runners do, or none. *)
Class Shallow (root : cgroup) : Prop := shallow : (length root <= 1)%nat.
#[export] Instance shallow_nil : Shallow [].
Proof. unfold Shallow. cbn. lia. Qed.
#[export] Instance shallow_root : Shallow CGROUP_ROOT.
Proof. unfold Shallow. cbn. lia. Qed.

Lemma make_spared root g w : Shallow root -> below root g -> spared root w (with_groups w (lineage g ∪ wk_groups w)).
Proof.
  intros Hs Hb x Hx. cbn. rewrite elem_of_union. split; [|by right]. intros [Hl|]; [|done]. destruct Hx.
  apply lineage_elem in Hl as (k & Hk & ->). unfold below, Shallow in *. rewrite take_take. by rewrite Nat.min_l by lia.
Qed.

Section Moves.
Context `{Node} (root : cgroup) {Hroot : Shallow root}.

Lemma kept_ask {R} (c : call R) : strays root c = false -> moves (kept root) (ask c).
Proof.
  intros Hs. apply moves_ask; [exact _|intros w; split; [done|]; split; [done|]; split; [by eexists|done]|].
  intros w r. set (v := asked w _). clearbody v.
  assert (forall v', wk_settings v' = wk_settings v -> wk_groups v' = wk_groups v -> wk_past v' = wk_past v -> kept root v v') as Hid.
  { intros v' E1 E2 E3. split; [done|]. split; [by rewrite E2|]. split; [exists []; by rewrite E3, app_nil_r|].
    intros g _. by rewrite E2. }
  destruct c; try discriminate Hs; cbn [effect snd]; try (by apply Hid).
  - case_match; by apply Hid.
  - case_match; by apply Hid.
  - case_match; [by apply Hid|]. split; [done|]. split; [apply make_tree|]. split; [exists []; by rewrite app_nil_r|].
    apply negb_false_iff, bool_decide_eq_true in Hs. by apply make_spared.
  - case_match; [by apply Hid|]. destruct g; [by apply Hid|]. case_match; [|by apply Hid].
    split; [done|]. split; [intros Ht; by apply remove_tree|]. split; [exists []; by rewrite app_nil_r|].
    apply negb_false_iff, bool_decide_eq_true in Hs. intros x Hx. cbn. rewrite elem_of_difference, not_elem_of_singleton.
    split; [by intros [? _]|]. intros Hin. split; [done|]. by intros ->.
  - case_match; by apply Hid.
Qed.
Lemma settled_ask {R} (c : call R) : strays root c = false -> spawns c = false -> moves (settled root) (ask c).
Proof.
  intros Hs Hp w. split; [by apply kept_ask|]. unfold ask. destruct (node_answer R c w) as [r|e]; [|done].
  destruct c; try discriminate; cbn; try done.
  all: repeat case_match; cbn; try done; set_solver.
Qed.

Lemma bind_after {A B} (m : W A) (k : A -> W B) w :
  snd (mbindM m k w) = match m w with (Ok a, w1) => snd (k a w1) | (Raise _, w1) => w1 end.
Proof. unfold mbindM. by destruct (m w) as [[a|e] w1]. Qed.
Lemma moves_bind_post (R : worker -> worker -> Prop) `{!PreOrder R} {A B} (m : W A) (k : A -> W B) (P : A -> Prop) :
  moves R m -> (forall w a w', m w = (Ok a, w') -> P a) -> (forall a, P a -> moves R (k a)) -> moves R (mbindM m k).
Proof.
  intros Hm Hp Hk w. unfold mbindM. specialize (Hm w). destruct (m w) as [[a|e] w1] eqn:E; [|done]. cbn [snd] in Hm.
  etransitivity; [exact Hm|]. apply Hk. by eapply Hp.
Qed.
Lemma moves_collect (R : worker -> worker -> Prop) `{!PreOrder R} {A B} (l : list A) (body : A -> W B) :
  (forall x, x ∈ l -> moves R (body x)) -> moves R (collect l body).
Proof.
  induction l as [|x l IH]; intros Hb; [by apply moves_ret|]. apply moves_bind; [done|apply Hb; left|]. intros y.
  apply moves_bind; [done|apply IH; intros z Hz; apply Hb; by right|]. intros ys. by apply moves_ret.
Qed.
Lemma moves_collected (R : worker -> worker -> Prop) `{!PreOrder R} {A B} (l : list A) (body : A -> W B) :
  (forall x, x ∈ l -> moves R (body x)) -> moves R (collected l body).
Proof.
  induction l as [|x l IH]; intros Hb; [by apply moves_ret|]. apply moves_bind; [done|apply moves_observe, Hb; left|].
  intros [y|e]; [|by apply moves_ret]. apply moves_bind; [done|apply IH; intros z Hz; apply Hb; by right|]. intros [ys e].
  by apply moves_ret.
Qed.
End Moves.

Ltac moves_step :=
  match goal with
  | |- moves _ (mbindM _ _) => apply moves_bind; [exact _| |intros ?]
  | |- moves _ (ret _) => apply moves_ret; exact _
  | |- moves _ (throw _ _) => apply moves_throw; exact _
  | |- moves _ (lift _) => apply moves_lift; exact _
  | |- moves _ (throw_if _ _ _) => apply moves_throw_if; exact _
  | |- moves _ (try_except _ _ _) => apply moves_try; [exact _| |intros ?]
  | |- moves _ (try_finally _ _) => apply moves_finally; [exact _| |]
  | |- moves _ (observe _) => apply moves_observe
  | |- moves _ (forM _ _) => apply moves_forM; [exact _|intros ? _]
  | |- moves _ (collect _ _) => apply moves_collect; [exact _|intros ? _]
  | |- moves _ (collected _ _) => apply moves_collected; [exact _|intros ? _]
  | |- moves _ (loop _ _ _) => apply moves_loop; [exact _|intros ?]
  | |- moves (settled _) (ask _) => apply settled_ask; [exact _|reflexivity|reflexivity]
  | |- moves (kept _) (ask _) => apply kept_ask; [exact _|reflexivity]
  | |- moves _ (outside _) => unfold outside
  | |- moves _ (if ?b then _ else _) => destruct b
  | |- moves _ (match ?x with _ => _ end) => destruct x
  end.
(** Follows the program down to its calls, with the known parts from the hint base. *)
Create HintDb moving.
Ltac moves_go := repeat first [solve [auto with moving nocore] | moves_step].

Section Parts.
Context `{Node} (root : cgroup) {Hroot : Shallow root}.

Lemma settled_read_text p : moves (settled root) (read_text p).
Proof. unfold read_text. moves_go. Qed.
Lemma settled_write_text p t : moves (settled root) (write_text p t).
Proof. unfold write_text. moves_go. Qed.
Lemma settled_sleep d : moves (settled root) (sleep d).
Proof. unfold sleep. moves_go. Qed.
#[local] Hint Resolve settled_read_text settled_write_text settled_sleep : moving.
Lemma settled_log t : moves (settled root) (log t).
Proof. unfold log. moves_go. Qed.
Lemma settled_read_params l : moves (settled root) (read_params l).
Proof. induction l as [|name l IH]; [apply moves_ret; exact _|]. rewrite read_params_cons. unfold param_read. moves_go. Qed.
#[local] Hint Resolve settled_log settled_read_params : moving.
Lemma settled_governor : moves (settled root) read_governor_state.
Proof. unfold read_governor_state. moves_go. Qed.
Lemma settled_schedstats s : moves (settled root) (schedstats_text s).
Proof. unfold schedstats_text. moves_go. Qed.
Lemma settled_clean_go f : forall g, below root g -> moves (settled root) (clean_go f g).
Proof.
  induction f as [|f IH]; intros g Hg; cbn [clean_go]; [moves_go|]. apply moves_bind; [exact _|moves_go|]. intros [|]; [|moves_go].
  apply (moves_bind_post _ _ _ (fun l => forall x, x ∈ l -> below g x)); [moves_go| |].
  - intros w l w'. unfold ask. destruct (node_answer _ (GroupChildren g) w); [|done]. cbn [effect].
    destruct (group_present g _); [|done]. intros [= <- _] x. rewrite sort_by_perm. unfold children_of.
    intros [_ Hc]%list_elem_of_In%List.filter_In. by apply child_below in Hc as [Hc _].
  - intros l Hl. apply moves_bind; [exact _| |intros ?].
    + apply moves_forM; [exact _|]. intros x Hx. apply IH. eapply below_trans; [exact Hg|by apply Hl].
    + apply settled_ask; [exact _| |reflexivity]. cbn. by rewrite bool_decide_true.
Qed.
Lemma settled_clean g : below root g -> moves (settled root) (clean_cgroup g).
Proof. intros Hg w. by apply settled_clean_go. Qed.
#[local] Hint Resolve settled_governor settled_schedstats settled_clean : moving.
Lemma settled_parse_json p : moves (settled root) (parse_json p).
Proof. unfold parse_json. moves_go. Qed.
#[local] Hint Resolve settled_parse_json : moving.
Lemma settled_move pid g : moves (settled root) (move_to_group pid g).
Proof. unfold move_to_group. moves_go. Qed.
Lemma settled_stop pid b : moves (settled root) (stop pid b).
Proof. unfold stop. moves_go. Qed.
Lemma settled_wait l t : moves (settled root) (wait_for l t).
Proof. unfold wait_for. moves_go. Qed.
#[local] Hint Resolve settled_stop settled_wait : moving.
Lemma settled_observe s g l : moves (settled root) (observe_scene s g l).
Proof.
  unfold observe_scene, read_cpu_stats, read_cpu_stat, read_scheds, read_proc_sched, read_stat. moves_go.
Qed.
Lemma settled_merge s name l : forall i row, moves (settled root) (merge_outputs s name i l row).
Proof. induction l as [|p l IH]; intros i row; cbn [merge_outputs]; moves_go. Qed.
Lemma settled_group_files p l : moves (settled root) (read_group_files p l).
Proof. induction l as [|f l IH]; cbn [read_group_files]; moves_go. Qed.
#[local] Hint Resolve settled_observe settled_merge settled_group_files : moving.
Lemma settled_rows s specs g o : moves (settled root) (scene_rows s specs g o).
Proof. unfold scene_rows, group_result, read_group. moves_go. Qed.
Lemma settled_clean_created s c : Forall (below root) c -> moves (settled root) (
  forM c (fun path =>
    try_except (clean_cgroup path) [OSError] (fun e =>
      log ("warning: cgroup cleanup failed for " +:+ cgroup_text path +:+ ": " +:+ exn_msg e))) >>>
  try_except (ask (RmTree (work_of s))) [OSError] (fun _ => ret tt)).
Proof.
  intros Hc. apply moves_bind; [exact _| |intros ?; moves_go].
  apply moves_forM; [exact _|]. intros g Hg. rewrite List.Forall_forall in Hc. apply moves_try; [exact _| |intros ?; moves_go].
  apply settled_clean, Hc. by apply list_elem_of_In.
Qed.
Lemma settled_clean_scene s c l : Forall (below root) c -> moves (settled root) (clean_scene s c l).
Proof. intros Hc. unfold clean_scene. apply moves_bind; [exact _|moves_go|]. intros ?. by apply settled_clean_created. Qed.
Lemma settled_measure s specs g l : moves (settled root) (let! o := observe_scene s g l in scene_rows s specs g o).
Proof. pose proof settled_rows. moves_go. Qed.
End Parts.
#[export] Hint Resolve settled_read_text settled_write_text settled_sleep settled_log settled_governor settled_schedstats
  settled_clean settled_parse_json settled_stop settled_wait settled_observe
  settled_merge settled_group_files settled_rows settled_measure settled_move below_self below_nil shallow_nil shallow_root : moving.

(** The parts that make cgroups make them below the runner's root. *)
Section Groups.
Context `{Node}.
Lemma settled_parent a b : moves (settled CGROUP_ROOT) (ensure_parent a b).
Proof. unfold ensure_parent. moves_go. Qed.
Lemma settled_make_groups s l : moves (settled CGROUP_ROOT) (make_groups s l).
Proof. induction l as [|g l IH]; cbn [make_groups]; unfold make_group; moves_go. Qed.
Lemma made_below s l w made o w' : make_groups s l w = (Ok (made, o), w') -> Forall (below CGROUP_ROOT) made.
Proof.
  revert w made o w'. induction l as [|g l IH]; intros w made o w'; cbn [make_groups].
  { intros [[= -> ->] _]%retM_Ok. constructor. }
  intros (r & w1 & _ & H2)%bindM_Ok. destruct r as [u|e].
  - apply bindM_Ok in H2 as ([made' o'] & w2 & Hm & [[= -> ->] _]%retM_Ok). constructor; [done|]. by eapply IH.
  - apply retM_Ok in H2 as [[= -> ->] _]. by repeat constructor.
Qed.
Lemma created_below s w created xs rows w' : run_scene s w = (Ok (created, xs, rows), w') -> Forall (below CGROUP_ROOT) created.
Proof.
  unfold run_scene. destruct (scenario_groups _) as [specs|e]; [|by intros [[= -> -> ->] _]%retM_Ok; constructor].
  intros ([made [u|e]] & w1 & Hm%made_below & H2)%bindM_Ok; [|by apply retM_Ok in H2 as [[= -> -> ->] _]].
  apply bindM_Ok in H2 as ([ys [u'|e]] & w2 & _ & H2); [|by apply retM_Ok in H2 as [[= -> -> ->] _]].
  by apply bindM_Ok in H2 as (r & w3 & _ & [[= -> -> ->] _]%retM_Ok).
Qed.
End Groups.
#[export] Hint Resolve settled_parent settled_make_groups : moving.

(** ** The node is as it was *)

Section Restored.
Context `{Node} `{Rng}.

Lemma kept_start s l : moves (kept CGROUP_ROOT) (start_workload s l).
Proof.
  unfold start_workload. destruct l as [[name i] spec].
  repeat first [(apply settled_kept, settled_move; exact _) | moves_step].
Qed.
Lemma kept_scene s : moves (kept CGROUP_ROOT) (run_scene s).
Proof.
  unfold run_scene. pose proof (kept_start s).
  repeat first [(apply settled_kept, settled_make_groups; exact _) | (apply settled_kept, settled_measure; exact _) | solve [auto] | moves_step].
Qed.
Lemma kept_scenario s : moves (kept CGROUP_ROOT) (run_scenario s).
Proof.
  unfold run_scenario. pose proof (kept_scene s). do 3 (apply moves_bind; [exact _|repeat moves_step|intros ?]).
  apply (moves_bind_post _ _ _ (fun p => Forall (below CGROUP_ROOT) (fst (fst p)))); [done| |].
  - intros w [[created xs] rows] w' E. by eapply created_below.
  - intros [[created xs] rows] Hc. apply moves_finally; [exact _|apply moves_lift; exact _|].
    apply settled_kept, settled_clean_scene; [exact _|exact Hc].
Qed.
Lemma kept_repetitions args c l : moves (kept CGROUP_ROOT) (collect l (run_repetition args c)).
Proof.
  unfold run_repetition. pose proof kept_scenario.
  repeat first [(apply settled_kept, settled_log; exact _) | (apply settled_kept, settled_sleep; exact _) | solve [auto] | moves_step].
Qed.

Lemma set_schedstats_effect b w : exists x, wk_settings (snd (set_schedstats b w)) = x /\
  wk_groups (snd (set_schedstats b w)) = wk_groups w /\ wk_past (snd (set_schedstats b w)) = (wk_past w ++ [Request (SetSetting SCHEDSTATS (if b then "1" +:+ newline else "0" +:+ newline))])%list.
Proof.
  eexists. split; [reflexivity|]. unfold set_schedstats, try_except, ask. destruct (node_answer _ _ w) as [r|e]; cbn [effect].
  - by destruct b.
  - destruct (caught_by _ e); by destruct b.
Qed.

(** Up to the [finally] clause the cgroups stay a tree and change below the
    runner's root only, and only a run that steers the setting changes it. *)
Lemma campaign_kept args c w :
  (tree_ok (wk_groups w) -> tree_ok (wk_groups (snd (run_campaign args c w)))) /\
  spared CGROUP_ROOT w (snd (run_campaign args c w)) /\
  (steer_schedstats args c = false -> wk_settings (snd (run_campaign args c w)) = wk_settings w).
Proof.
  unfold run_campaign.
  assert (moves (kept CGROUP_ROOT) (ensure_parent (ma_parent_weight args) (ca_cpus c) >>>
            let! blocks := collect (cpu_range 1 (ma_reps args)) (run_repetition args c) in ret (mjoin blocks))) as Hk.
  { repeat first [(apply settled_kept, settled_parent; exact _) | apply kept_repetitions | moves_step]. }
  destruct (steer_schedstats args c).
  - enough (forall w', w' = snd ((set_schedstats true >>> ensure_parent (ma_parent_weight args) (ca_cpus c) >>>
              let! blocks := collect (cpu_range 1 (ma_reps args)) (run_repetition args c) in ret (mjoin blocks)) w) ->
      (tree_ok (wk_groups w) -> tree_ok (wk_groups w')) /\ spared CGROUP_ROOT w w') as Hw
      by (destruct (Hw _ eq_refl) as [Ht Hg]; by split_and!).
    intros w' ->. rewrite bind_after. destruct (set_schedstats_effect true w) as (x & _ & E & _).
    destruct (set_schedstats true w) as [[u|e] w1]; cbn [snd] in E; [|split; [by rewrite E|intros g _; by rewrite E]].
    destruct (Hk w1) as (_ & T & _ & G). rewrite E in T. split; [exact T|]. intros g Hg. rewrite <- E. by apply G.
  - destruct (Hk w) as (E & T & _ & G). by split_and!.
Qed.

Lemma settled_apply arm args : moves (settled CGROUP_ROOT) (apply_governor arm args).
Proof. unfold apply_governor, load_governor, governor_poll, unload_governor. moves_go. Qed.
Lemma settled_prepare args scenarios binaries node kernel k : moves (settled CGROUP_ROOT) (prepare args scenarios binaries node kernel k).
Proof. unfold prepare. pose proof settled_apply. moves_go. Qed.

Lemma schedstats_reads absent w s w' : schedstats_text absent w = (Ok s, w') ->
  s = match wk_settings w !! SCHEDSTATS with Some t => strip t | None => absent end.
Proof.
  unfold schedstats_text. intros (b & w1 & H1 & H2)%bindM_Ok. unfold ask in H1.
  destruct (node_answer _ (SettingExists _) w); [|done]. cbn [effect] in H1. injection H1 as <- <-. cbn [wk_settings asked] in H2.
  destruct (wk_settings w !! SCHEDSTATS) as [t|] eqn:E.
  - rewrite bool_decide_true in H2 by eauto. apply bindM_Ok in H2 as (u & w2 & H2 & (-> & ->)%retM_Ok). unfold ask in H2.
    destruct (node_answer _ (Setting _) _); [|done]. cbn [effect wk_settings asked] in H2. rewrite E in H2. by injection H2 as <- <-.
  - rewrite bool_decide_false in H2 by (intros [? [=]]). by apply retM_Ok in H2 as [-> _].
Qed.

Lemma apply_original arm args w g w' : apply_governor arm args w = (Ok g, w') -> complete g -> g = governor_of (wk_module w).
Proof.
  unfold apply_governor. intros (original & w1 & H1 & H2)%bindM_Ok Hc.
  assert (g = original) as -> by (repeat case_match; run_hyps; done).
  apply read_governor_cases in H1 as (_ & _ & He). by apply He.
Qed.

(** What [main] found before it began. *)
Lemma prepared args scenarios binaries node kernel k w c w' :
  prepare args scenarios binaries node kernel k w = (Ok c, w') -> complete (ca_governor c) ->
  ca_governor c = governor_of (wk_module w) /\
  ca_schedstats c = match wk_settings w !! SCHEDSTATS with Some t => strip t | None => "0" end /\
  wk_settings w' = wk_settings w /\ (tree_ok (wk_groups w) -> tree_ok (wk_groups w')) /\ spared CGROUP_ROOT w w'.
Proof.
  intros Hp Hc. pose proof (settled_prepare args scenarios binaries node kernel k w) as [(Es & Ht & _ & Hg) _]. rewrite Hp in Es, Ht, Hg.
  revert Hp. unfold prepare. intros (g & w1 & H1 & (s & w2 & H2 & (u & w3 & H3 & (-> & ->)%retM_Ok)%bindM_Ok)%bindM_Ok)%bindM_Ok.
  cbn [ca_governor ca_schedstats] in *. split; [by eapply apply_original|]. split; [|done].
  rewrite (schedstats_reads _ _ _ _ H2). pose proof (settled_apply (ma_arm args) args w) as [(E1 & _) _]. rewrite H1 in E1. cbn [snd] in E1. by rewrite E1.
Qed.

Section Undisturbed.
Context (n : nat) (Hcalm : calm n).

Lemma restore_schedstats_calm args c w : (n <= length (wk_past w))%nat ->
  returns (restore_schedstats args c) w (fun _ w' =>
    wk_settings w' = (if steer_schedstats args c
                      then <[SCHEDSTATS := if String.eqb (ca_schedstats c) "1" then "1" +:+ newline else "0" +:+ newline]> (wk_settings w)
                      else wk_settings w) /\
    wk_module w' = wk_module w /\ wk_groups w' = wk_groups w).
Proof.
  intros Hn. unfold restore_schedstats. destruct (steer_schedstats args c); [|by apply returns_ret].
  apply returns_try, returns_try, (returns_ask n Hcalm); [done|]. intros r w1 (E1 & E2 & E3 & E4). exists tt. split; [done|].
  cbn [effect snd]. unfold with_settings. cbn [wk_settings wk_module wk_groups]. by rewrite E1, E2, E3.
Qed.

Lemma remove_root_calm w : (n <= length (wk_past w))%nat -> tree_ok (wk_groups w) ->
  returns remove_root w (fun _ => removed (below CGROUP_ROOT) w).
Proof.
  intros Hn Ht. unfold remove_root. apply returns_try. by apply (clean_present_calm n Hcalm).
Qed.

Lemma restore_calm args c m w : module_laws -> prompt n -> ca_governor c = governor_of m -> complete (governor_of m) ->
  tree_ok (wk_groups w) -> (n <= length (wk_past w))%nat ->
  returns (restore args c) w (fun _ w' =>
    governor_of (wk_module w') = governor_of m /\
    wk_settings w' = (if steer_schedstats args c
                      then <[SCHEDSTATS := if String.eqb (ca_schedstats c) "1" then "1" +:+ newline else "0" +:+ newline]> (wk_settings w)
                      else wk_settings w) /\
    forall x, x ∈ wk_groups w' <-> x ∈ wk_groups w /\ ~ below CGROUP_ROOT x).
Proof.
  intros Hlaws Hprompt Eg Hc Ht Hn. unfold restore. rewrite Eg.
  destruct (restore_governor_calm n Hcalm Hlaws Hprompt m w Hc Hn) as (u & w1 & E1 & L1 & (F1 & F2 & F3) & G1).
  assert (returns (restore_schedstats args c >>> remove_root) w1 (fun _ w' =>
    governor_of (wk_module w') = governor_of m /\
    wk_settings w' = (if steer_schedstats args c
                      then <[SCHEDSTATS := if String.eqb (ca_schedstats c) "1" then "1" +:+ newline else "0" +:+ newline]> (wk_settings w)
                      else wk_settings w) /\
    forall x, x ∈ wk_groups w' <-> x ∈ wk_groups w /\ ~ below CGROUP_ROOT x)) as (v & w2 & E2 & L2 & P2).
  { eapply returns_bind; [apply restore_schedstats_calm; lia|]. intros _ w2 L2 (S2 & M2 & C2).
    eapply returns_weaken; [apply remove_root_calm; [lia|by rewrite C2, F2]|]. intros _ w3 (S3 & M3 & _ & Hr).
    split; [by rewrite M3, M2|]. split; [by rewrite S3, S2, F1|]. intros x. by rewrite Hr, C2, F2. }
  exists u, w2. split; [|split; [lia|done]]. unfold try_finally. rewrite E1, E2. done.
Qed.
End Undisturbed.

(** C6: The node is left as it was found.  Suppose the parameters of the
    governor could be read, the schedstats setting was 0 or 1 and the cgroups
    were a tree.  Once the governor of the arm is set and the handlers are
    installed, the measurement may be cut short at any call by a failure or a
    signal; if the clean-up itself is not disturbed (from its first call on no
    call raises and the clock does not stall), then the steal governor is loaded
    or not and has the parameters that it had before the program, the schedstats
    setting reads as before, exactly those cgroups are there that were there
    before the program outside the runner's root, and the outcome is the
    measurement's own. *)
Theorem node_restored args scenarios binaries node kernel cpu_count w0 c w1 t :
  prepare args scenarios binaries node kernel cpu_count w0 = (Ok c, w1) ->
  complete (ca_governor c) ->
  tree_ok (wk_groups w0) ->
  wk_settings w0 !! SCHEDSTATS = Some t -> strip t = "0" \/ strip t = "1" ->
  let cut := run_campaign args c w1 in
  let n := length (wk_past (snd cut)) in
  module_laws -> calm n -> prompt n ->
  exists w', measured args c w1 = (fst cut, w') /\
    governor_of (wk_module w') = governor_of (wk_module w0) /\
    (exists t', wk_settings w' !! SCHEDSTATS = Some t' /\ strip t' = strip t) /\
    (forall g, g ∈ wk_groups w' <-> g ∈ wk_groups w0 /\ ~ below CGROUP_ROOT g).
Proof.
  intros Hp Hc Ht0 Hs Hval cut n Hlaws Hcalm Hprompt. destruct (prepared _ _ _ _ _ _ _ _ _ Hp Hc) as (Eg & Es & Ew & Et & Hg0).
  rewrite Hs in Es. destruct (campaign_kept args c w1) as (Kt & Kg & Ks).
  destruct (restore_calm n Hcalm args c (wk_module w0) (snd cut)) as (u & w' & E & _ & G & S & C); try done.
  { by rewrite <- Eg. }
  { by apply Kt, Et. }
  exists w'. split; [|split; [done|split]].
  - unfold measured, try_finally. fold cut. destruct cut as [r wm]. cbn [snd fst] in *. by rewrite E.
  - rewrite S. destruct (steer_schedstats args c) eqn:Est.
    + eexists. split; [by rewrite lookup_insert, decide_True|]. rewrite Es. destruct Hval as [->| ->]; reflexivity.
    + exists t. split; [|done]. unfold cut. rewrite Ks by done. by rewrite Ew.
  - intros g. rewrite C. split; intros [Hin Hn]; (split; [|done]); [by apply Hg0, Kg|by apply Kg, Hg0].
Qed.
End Restored.

(** ** No workload is left running *)

Section Stopped.
Context `{Node}.

(** [SystemExit], which no [except] clause of the program names. *)
Definition is_signal (e : exn) : Prop := caught_by [Exception] e = false.
(** Killing a child of one's own raises nothing, and a write [OSError], but for a signal. *)
Definition child_laws : Prop :=
  (forall pid w e, node_answer _ (KillChild pid) w = Raise e -> is_signal e) /\
  (forall p t w e, node_answer _ (Outside (WriteText p t)) w = Raise e -> caught_by [OSError] e = true \/ is_signal e).

Lemma settled_running root {A} (m : W A) w r w' : moves (settled root) m -> m w = (r, w') -> wk_running w' ⊆ wk_running w.
Proof. intros Hm E. specialize (Hm w). rewrite E in Hm. apply Hm. Qed.

Lemma stop_stopped pid b w w' : stop pid b w = (Ok tt, w') -> pid ∉ wk_running w' /\ wk_running w' ⊆ wk_running w.
Proof.
  intros E. split; [|eapply (settled_running CGROUP_ROOT); [|exact E]; auto with moving nocore]. revert E. unfold stop.
  intros (status & w1 & H1 & (code & w2 & H2 & H3)%bindM_Ok)%bindM_Ok.
  assert (wk_running w' ⊆ wk_running w2) as Hs.
  { eapply (settled_running CGROUP_ROOT); [|exact H3]. moves_go. }
  assert (pid ∉ wk_running w2); [|set_solver]. clear Hs H3.
  assert (forall t v c v', ask (WaitChild pid t) v = (Ok c, v') -> pid ∉ wk_running v') as Hwait.
  { intros t v c v'. unfold ask. destruct (node_answer _ _ v); [|done]. intros [= <- <-]. cbn. set_solver. }
  destruct status as [s|].
  - apply retM_Ok in H2 as [-> ->]. revert H1. unfold ask. destruct (node_answer _ _ w) as [[s'|]|]; [| |done]; intros [= E <-].
    cbn. set_solver.
  - apply bindM_Ok in H2 as (u & w3 & _ & [H2|(e & w4 & _ & _ & H2)]%try_except_Ok); [by eapply Hwait|].
    apply bindM_Ok in H2 as (u' & w5 & _ & H2). by eapply Hwait.
Qed.

Lemma stops_stopped {A} (pid : A -> Z) (f : A -> bool) l : forall w w',
  forM l (fun x => stop (pid x) (f x)) w = (Ok tt, w') ->
  wk_running w' ⊆ wk_running w /\ (forall x, x ∈ l -> pid x ∉ wk_running w').
Proof.
  induction l as [|x l IH]; intros w w'; cbn [forM].
  { intros [_ ->]%retM_Ok. split; [done|]. by intros y ?%not_elem_of_nil. }
  intros ([] & w1 & [H1 S1]%stop_stopped & [S2 H2]%IH)%bindM_Ok. split; [set_solver|].
  intros y [->|Hy]%list.elem_of_cons; [set_solver|by apply H2].
Qed.

Lemma oserror_no_signal e : caught_by [OSError] e = true -> is_signal e -> False.
Proof. destruct e as [[] m]; intros; by vm_compute in *. Qed.

(** A process that was started is recorded, or killed, unless a signal came:
    then at most one is left. *)
Definition left_over (o : result unit) (before after : gset Z) : Prop :=
  exists pids, after ⊆ pids ∪ before /\ (size pids <= 1)%nat /\ ((forall e, o = Raise e -> ~ is_signal e) -> pids = ∅).

Lemma none_left o before after : after ⊆ before -> left_over o before after.
Proof. intros Hs. exists ∅. rewrite size_empty. split; [set_solver|]. split; [lia|done]. Qed.
Lemma one_left e pid before after : is_signal e -> after ⊆ {[pid]} ∪ before -> left_over (Raise e) before after.
Proof. intros He Hs. exists {[pid]}. rewrite size_singleton. split; [done|]. split; [lia|]. intros Hn. by destruct (Hn e). Qed.

(** What a start leaves: the process of its value, or what an exception may leave. *)
Definition start_leaves {A} (pid : A -> Z) (w : worker) (r : result A) (w' : worker) : Prop :=
  match r with
  | Ok x => wk_running w' ⊆ {[pid x]} ∪ wk_running w
  | Raise e => left_over (Raise e) (wk_running w) (wk_running w')
  end.

(** A child that is spawned and moved to its group, by writing its number to a
    file, or killed when the write fails. *)
Lemma spawned_running {A} (pid : A -> Z) (k : Z -> A) command file msg w r w' : child_laws -> (forall p, pid (k p) = p) ->
  (let! p := ask (Spawn command) in
   try_except (write_text file (str_of_Z p +:+ newline)) [OSError] (fun e => ask (KillChild p) >>> throw RuntimeError (msg p e)) >>>
   ret (k p)) w = (r, w') -> start_leaves pid w r w'.
Proof.
  intros [Hkill Hwrite] Hk. unfold mbindM at 1. unfold ask at 1.
  destruct (node_answer _ (Spawn command) w) as [p|e]; [|intros [= <- <-]; by apply none_left].
  cbn [effect]. set (w1 := with_running _ _). unfold mbindM at 1, try_except.
  unfold write_text at 1, outside, ask at 1. destruct (node_answer _ (Outside _) w1) as [u|e] eqn:Ew; cbn [effect].
  { intros [= <- <-]. unfold start_leaves. by rewrite Hk. }
  destruct (Hwrite _ _ _ _ Ew) as [Ee|Ee].
  - rewrite Ee. unfold mbindM, ask. destruct (node_answer _ (KillChild p) _) as [u|e'] eqn:Ek; cbn [effect].
    + intros [= <- <-]. apply none_left. cbn. set_solver.
    + intros [= <- <-]. apply (one_left _ p); [by eapply Hkill|done].
  - destruct (caught_by [OSError] e) eqn:Eo; [|intros [= <- <-]; by apply (one_left _ p)].
    exfalso. by eapply oserror_no_signal.
Qed.

Lemma start_running s l w r w' : child_laws -> start_workload s l w = (r, w') -> start_leaves wl_pid w r w'.
Proof.
  intros Hlaws. destruct l as [[name index] spec]. unfold start_workload. unfold mbindM at 1 2 3, lift.
  destruct (dindex "kind" spec) as [v|e]; [|intros [= <- <-]; by apply none_left].
  destruct (List.find _ _) as [[k b]|]; [|intros [= <- <-]; by apply none_left].
  destruct (workload_command _ _ _ _ _ _ _ _) as [command|e]; [|intros [= <- <-]; by apply none_left].
  by apply spawned_running.
Qed.

Lemma left_grow o a b c : left_over o a b -> c ⊆ b -> left_over o a c.
Proof. intros (p & Hp & Hs & He) Hc. exists p. split; [set_solver|done]. Qed.

Lemma started_running {X A} (start : X -> W A) (pid : A -> Z) l :
  (forall x w r w', start x w = (r, w') -> start_leaves pid w r w') ->
  forall w xs o w', collected l start w = (Ok (xs, o), w') -> left_over o (list_to_set (pid <$> xs) ∪ wk_running w) (wk_running w').
Proof.
  intros Hstart. induction l as [|x l IH]; intros w xs o w'; cbn [collected].
  { intros [[= -> ->] ->]%retM_Ok. apply none_left. set_solver. }
  intros (r & w1 & H1 & H2)%bindM_Ok. unfold observe in H1. destruct (start x w) as [r1 v1] eqn:E1. injection H1 as <- <-.
  pose proof (Hstart x w r1 v1 E1) as Hr. destruct r1 as [y|e].
  - apply bindM_Ok in H2 as ([ys o'] & w2 & H2 & [[= -> ->] ->]%retM_Ok). destruct (IH _ _ _ _ H2) as (p & Hp & Hs).
    exists p. split; [|done]. cbn [fmap list_fmap list_to_set start_leaves] in *. set_solver.
  - apply retM_Ok in H2 as [[= -> ->] ->]. eapply left_grow; [|done]. destruct Hr as (p & Hp & Hs). exists p. split; [set_solver|done].
Qed.

(** After the recorded processes were stopped. *)
Lemma stopped_left {A} (pid : A -> Z) xs o before (after cleaned : gset Z) :
  left_over o (list_to_set (pid <$> xs) ∪ before) after -> cleaned ⊆ after -> (forall x, x ∈ xs -> pid x ∉ cleaned) ->
  (size (cleaned ∖ before) <= 1)%nat /\ ((forall e, o = Raise e -> ~ is_signal e) -> cleaned ⊆ before).
Proof.
  intros (p & Hp & Hs & He) Hc Hx. assert (cleaned ⊆ p ∪ before) as Hsub.
  { intros z Hz. assert (z ∉ pid <$> xs) as Hno.
    { intros (x & -> & Hxin)%list_elem_of_fmap. by apply (Hx x Hxin). }
    specialize (Hp z (Hc z Hz)). rewrite !elem_of_union, elem_of_list_to_set in Hp. set_solver. }
  split; [etransitivity; [|exact Hs]; apply subseteq_size; set_solver|].
  intros Hn. rewrite He in Hsub; [set_solver|done].
Qed.

(** What the [try] body leaves. *)
Lemma scene_running s w created xs rows w' : child_laws -> run_scene s w = (Ok (created, xs, rows), w') ->
  left_over (match rows with Ok _ => Ok tt | Raise e => Raise e end)
    (list_to_set (wl_pid <$> xs) ∪ wk_running w) (wk_running w').
Proof.
  intros Hlaws. unfold run_scene. destruct (scenario_groups (sc_scenario s)) as [specs|e].
  2:{ intros [[= -> -> ->] ->]%retM_Ok. apply none_left. set_solver. }
  intros ([made o] & w1 & H1 & H2)%bindM_Ok. apply (settled_running CGROUP_ROOT) in H1; [|auto with moving nocore].
  destruct o as [[]|e]; [|apply retM_Ok in H2 as [[= -> -> ->] ->]; apply none_left; set_solver].
  apply bindM_Ok in H2 as ([ys o] & w2 & H2 & H3).
  apply (started_running _ wl_pid) in H2 as (p & Hp & Hs & He); [|intros x v r v'; by apply start_running].
  destruct o as [[]|e].
  - rewrite He in Hp by done. apply bindM_Ok in H3 as (r & w3 & H3 & [[= -> -> ->] ->]%retM_Ok).
    apply (settled_running CGROUP_ROOT) in H3; [|apply moves_observe; auto with moving nocore]. apply none_left. set_solver.
  - apply retM_Ok in H3 as [[= -> -> ->] ->]. exists p. split; [set_solver|by split].
Qed.

(** C7: No workload of a scenario is left running.  Wherever the scenario is cut
    short by a failure or a signal, once its [finally] clause has run to its end
    at most one process is left that did not run before; and none is left when
    the scenario ended normally or with any exception that is not a signal. *)
Theorem scenario_stops_workloads s w created workloads rows w1 w2 :
  child_laws ->
  run_scene s w = (Ok (created, workloads, rows), w1) ->
  clean_scene s created workloads w1 = (Ok tt, w2) ->
  (size (wk_running w2 ∖ wk_running w) <= 1)%nat /\
  ((forall e, rows = Raise e -> ~ is_signal e) -> wk_running w2 ⊆ wk_running w).
Proof.
  intros Hlaws H1 H2. pose proof (created_below _ _ _ _ _ _ H1) as Hc. apply scene_running in H1; [|done].
  revert H2. unfold clean_scene. intros ([] & w3 & H2 & H3)%bindM_Ok. apply (stops_stopped wl_pid (fun _ => false)) in H2 as [S2 Hx].
  apply (settled_running CGROUP_ROOT) in H3; [|apply settled_clean_created; [exact _|exact Hc]].
  destruct (stopped_left wl_pid workloads _ _ _ (wk_running w2) H1) as [Hs Hn]; [set_solver|intros x Hxin; specialize (Hx x Hxin); set_solver|].
  split; [done|]. intros He. apply Hn. intros e E. apply He. destruct rows; [done|]. by injection E as ->.
Qed.
End Stopped.

(** ** The rows *)

Section Rows.
Context `{Node} `{Rng}.

Lemma collect_Ok {A B} (body : A -> W B) l : forall w ys w', collect l body w = (Ok ys, w') ->
  Forall2 (fun x y => exists v v', body x v = (Ok y, v')) l ys.
Proof.
  induction l as [|x l IH]; intros w ys w'; cbn [collect].
  { intros [-> ->]%retM_Ok. constructor. }
  intros (y & w1 & H1 & (zs & w2 & H2 & [-> ->]%retM_Ok)%bindM_Ok)%bindM_Ok. constructor; [by eauto|by eapply IH].
Qed.

(** What says which measurement a row is of. *)
Definition row_id (row : pydict) : option pyval * option pyval * option pyval * option pyval :=
  (dget "rep" row, dget "scenario" row, dget "scenario_order" row, dget "group" row).
Definition id_keys : list string := ["rep"; "scenario"; "scenario_order"; "group"].
Definition scene_id (s : scene) (name : string) : option pyval * option pyval * option pyval * option pyval :=
  (Some (VInt (sc_rep s)), Some (VStr (sc_scenario s)), Some (VStr (join "," (sc_order s))), Some (VStr name)).

Lemma dset_id k v row : mem_string k id_keys = false -> row_id (dset k v row) = row_id row.
Proof. intros Hk. unfold row_id. rewrite !dget_dset_ne; [done|..]; by intros <-. Qed.

Lemma copy_keys_id keys data : forallb (fun k => negb (mem_string k id_keys)) keys = true ->
  forall row, row_id (copy_keys keys data row) = row_id row.
Proof.
  unfold copy_keys. induction keys as [|k keys IH]; [done|]. cbn [forallb fold_left]. intros [Hk Hks]%andb_prop row.
  rewrite IH by done. destruct (dget k data); [|done]. apply dset_id. by apply negb_true_iff.
Qed.
Lemma set_int_id k src data row row' : mem_string k id_keys = false -> set_int k src data row = Ok row' -> row_id row' = row_id row.
Proof. intros Hk (x & _ & <-%Ok_inj)%rbind_Ok. by apply dset_id. Qed.
Lemma set_float_id k data row row' : mem_string k id_keys = false -> set_float k data row = Ok row' -> row_id row' = row_id row.
Proof. intros Hk (x & _ & <-%Ok_inj)%rbind_Ok. by apply dset_id. Qed.

Ltac id_step :=
  match goal with
  | H : set_int _ _ _ _ = Ok _ |- _ => apply set_int_id in H; [|done]
  | H : set_float _ _ _ = Ok _ |- _ => apply set_float_id in H; [|done]
  | H : rbind _ _ = Ok _ |- _ => let x := fresh "x" in let Hx := fresh "Hx" in apply rbind_Ok in H as (x & Hx & H); cbv beta in H
  | H : Ok _ = Ok _ |- _ => apply Ok_inj in H; subst
  end.
Ltac id_go := repeat id_step; rewrite ?dset_id in * by done; try congruence.

Lemma merge_periodic_id row data row' : merge_periodic row data = Ok row' -> row_id row' = row_id row.
Proof. unfold merge_periodic. cbv zeta. intros E. id_go. Qed.
Lemma merge_pingpong_id row data row' : merge_pingpong row data = Ok row' -> row_id row' = row_id row.
Proof. unfold merge_pingpong. intros E. id_go. Qed.
Lemma merge_workload_id row kind data row' : merge_workload row kind data = Ok row' -> row_id row' = row_id row.
Proof.
  unfold merge_workload. cbv zeta. destruct (String.eqb kind "cpu"); [intros E; id_go|].
  destruct (mem_string kind ["wakeup"; "periodic"; "pingpong"]).
  - intros (r & Hr & E)%rbind_Ok. assert (row_id r = row_id row) as Er.
    { destruct (String.eqb kind "periodic"); [apply merge_periodic_id in Hr|apply Ok_inj in Hr as <-]; by rewrite ?Hr, copy_keys_id. }
    destruct (String.eqb kind "pingpong"); [apply merge_pingpong_id in E|apply Ok_inj in E as <-]; congruence.
  - destruct (String.eqb kind "churn"); [|done]. intros <-%Ok_inj. by apply copy_keys_id.
Qed.
Lemma merge_outputs_id s name specs : forall i row w row' w',
  merge_outputs s name i specs row w = (Ok row', w') -> row_id row' = row_id row.
Proof.
  induction specs as [|spec specs IH]; intros i row w row' w'; cbn [merge_outputs]; [by intros [-> _]%retM_Ok|].
  intros (v & w1 & _ & (data & w2 & _ & (r & w3 & [Hr ->]%liftM_Ok & E)%bindM_Ok)%bindM_Ok)%bindM_Ok.
  apply IH in E. apply merge_workload_id in Hr. congruence.
Qed.

Lemma dupdate_id e : Forall (fun p => mem_string (fst p) id_keys = false) e -> forall d, row_id (dupdate d e) = row_id d.
Proof.
  unfold dupdate. induction 1 as [|p e Hp He IH]; intros d; [done|]. cbn [fold_left]. rewrite IH. by apply dset_id.
Qed.
Lemma dset_keys (P : string -> Prop) k v d : P k -> Forall (fun p => P (fst p)) d -> Forall (fun p => P (fst p)) (dset k v d).
Proof.
  intros Hk. induction 1 as [|[k1 v1] d Hp Hd IH]; cbn [dset]; [by repeat constructor|].
  destruct (String.eqb_spec k k1) as [<-|]; by constructor.
Qed.
Lemma dupdate_keys (P : string -> Prop) e : Forall (fun p => P (fst p)) e ->
  forall d, Forall (fun p => P (fst p)) d -> Forall (fun p => P (fst p)) (dupdate d e).
Proof.
  unfold dupdate. induction 1 as [|p e Hp He IH]; intros d Hd; [done|]. cbn [fold_left]. apply IH. by apply dset_keys.
Qed.
Lemma system_summary_keys o system : system_summary o = Ok system ->
  Forall (fun p => mem_string (fst p) id_keys = false) system.
Proof.
  unfold system_summary. intros (change & _ & (summary & Hs & (rate & _ & <-%Ok_inj)%rbind_Ok)%rbind_Ok)%rbind_Ok.
  apply (dupdate_keys (fun k => mem_string k id_keys = false)); [by repeat constructor|].
  revert Hs. unfold sampler_summary. destruct (ob_samples o) as [|first l]; [intros <-%Ok_inj; by repeat constructor|].
  destruct (list.last _); [|intros <-%Ok_inj; by repeat constructor].
  intros (? & _ & (? & _ & (? & _ & (? & _ & <-%Ok_inj)%rbind_Ok)%rbind_Ok)%rbind_Ok)%rbind_Ok. by repeat constructor.
Qed.
Lemma migrations_id o row : row_id (migrations o row) = row_id row.
Proof.
  unfold migrations. revert row. induction (fst (ob_sched o)) as [|p l IH]; intros row; [done|]. cbn [fold_left].
  rewrite IH. case_match; [done|]. by rewrite !dset_id.
Qed.

Lemma group_row_id s spec cpu_max o t row : group_row s spec cpu_max o t = Ok row -> row_id row = scene_id s (g_name spec).
Proof.
  unfold group_row. intros (? & _ & (? & _ & (? & _ & (? & _ & <-%Ok_inj)%rbind_Ok)%rbind_Ok)%rbind_Ok)%rbind_Ok. reflexivity.
Qed.
Lemma system_row_id s o g system t : Forall (fun p => mem_string (fst p) id_keys = false) system ->
  row_id (system_row s o g system t) = scene_id s "system".
Proof. intros Hs. unfold system_row. by rewrite migrations_id, dupdate_id. Qed.
Lemma group_result_id s specs o t g w row w' :
  group_result s specs o t g w = (Ok row, w') -> row_id row = scene_id s (fst g).
Proof.
  unfold group_result. intros (spec & w1 & [Hspec ->]%liftM_Ok & (files & w2 & _ & (r & w3 & [Hr ->]%liftM_Ok & E)%bindM_Ok)%bindM_Ok)%bindM_Ok.
  apply merge_outputs_id in E. rewrite E, (group_row_id _ _ _ _ _ _ Hr). unfold spec_named in Hspec.
  destruct (List.find _ _) as [x|] eqn:Ef; [|done]. apply Ok_inj in Hspec as ->. apply find_some in Ef as [_ Ef].
  by apply String.eqb_eq in Ef as ->.
Qed.

Lemma scene_rows_ids s specs groups o w rows w' : scene_rows s specs groups o w = (Ok rows, w') ->
  row_id <$> rows = scene_id s <$> ((fst <$> groups) ++ ["system"])%list.
Proof.
  unfold scene_rows. intros (system & w1 & [Hs ->]%liftM_Ok & (now & w2 & _ & (l & w3 & Hl & (g & w4 & _ & [-> ->]%retM_Ok)%bindM_Ok)%bindM_Ok)%bindM_Ok)%bindM_Ok.
  rewrite !fmap_app. f_equal; [|cbn; by rewrite system_row_id by by eapply system_summary_keys].
  apply collect_Ok in Hl. clear Hs. induction Hl as [|g' row groups rows (v & v' & Hr) Hl IH]; [done|].
  cbn [fmap list_fmap]. rewrite (group_result_id _ _ _ _ _ _ _ _ Hr). f_equal. exact IH.
Qed.

(** The groups of a scenario have different names. *)
Lemma dict_of_fresh {K V} `{EqDecision K} (l : list (K * V)) : NoDup (fst <$> l) -> dict_of l = l.
Proof.
  unfold dict_of. assert (forall d, NoDup (fst <$> (d ++ l)%list) ->
    fold_left (fun d p => assoc_set (fst p) (snd p) d) l d = (d ++ l)%list) as Hg; [|by intros Hl; apply (Hg [])].
  induction l as [|[k v] l IH]; intros d Hd; [by rewrite app_nil_r|]. cbn [fold_left fst snd].
  rewrite assoc_set_fresh.
  2:{ rewrite fmap_app in Hd. apply NoDup_app in Hd as (_ & Hn & _). intros Hk. apply (Hn k Hk). by left. }
  rewrite IH by (by rewrite <- app_assoc). by rewrite <- app_assoc.
Qed.
Lemma scenario_names_distinct name specs : scenario_groups name = Ok specs -> NoDup (g_name <$> specs).
Proof.
  unfold scenario_groups, scenario_of. intros (sc & Hs & <-%Ok_inj)%rbind_Ok. destruct (List.find _ _) as [[k x]|] eqn:Ef; [|done].
  apply Ok_inj in Hs as ->. apply find_some in Ef as [Hin _].
  assert (Forall (fun p => has_dup (g_name <$> (normalised <$> sc_groups (snd p))) = false) SCENARIOS) as Hall by by repeat constructor.
  rewrite List.Forall_forall in Hall. apply has_dup_false. exact (Hall _ Hin).
Qed.

Definition names_of (scenario : string) : list string :=
  match scenario_groups scenario with Ok specs => g_name <$> specs | Raise _ => [] end.

Lemma run_scenario_ids s w rows w' : run_scenario s w = (Ok rows, w') ->
  row_id <$> rows = scene_id s <$> (names_of (sc_scenario s) ++ ["system"])%list.
Proof.
  unfold run_scenario. intros (b & w1 & _ & (u & w2 & _ & (u' & w3 & _ & ([[created xs] out] & w4 & H1 & H2)%bindM_Ok)%bindM_Ok)%bindM_Ok)%bindM_Ok.
  apply try_finally_Ok in H2 as (w5 & [Eo _]%liftM_Ok & _). subst out. revert H1. unfold run_scene, names_of.
  destruct (scenario_groups (sc_scenario s)) as [specs|e] eqn:Es; [|by intros [[=] _]%retM_Ok].
  intros ([made [[]|e]] & w6 & _ & H1)%bindM_Ok; [|by apply retM_Ok in H1 as [[=] _]].
  apply bindM_Ok in H1 as ([ys [[]|e]] & w7 & _ & H1); [|by apply retM_Ok in H1 as [[=] _]].
  apply bindM_Ok in H1 as (r & w8 & H1 & [[= -> -> <-] ->]%retM_Ok). unfold observe in H1.
  destruct (mbindM _ _ w7) as [r v] eqn:E. injection H1 as -> ->. apply bindM_Ok in E as (o & w9 & _ & E%scene_rows_ids).
  rewrite E. f_equal. f_equal. pose proof (scenario_names_distinct _ _ Es) as Hd.
  rewrite dict_of_fresh; rewrite <- list_fmap_compose; [done|exact Hd].
Qed.

(** The rows of a plan: repetition by repetition in the shuffled order, the
    groups of the scenario and then the system. *)
Definition planned (args : matrix_args) (scenarios : list string) : list (option pyval * option pyval * option pyval * option pyval) :=
  rep ← cpu_range 1 (ma_reps args);
  let order := scenario_order args scenarios rep in
  scenario ← order;
  (fun name => (Some (VInt rep), Some (VStr scenario), Some (VStr (join "," order)), Some (VStr name))) <$>
    (names_of scenario ++ ["system"])%list.

Lemma Forall2_join {A B C} (P : A -> list B -> Prop) (f : B -> C) (g : A -> list C) l blocks :
  Forall2 P l blocks -> (forall x b, P x b -> f <$> b = g x) -> f <$> mjoin blocks = l ≫= g.
Proof.
  intros Hl Hf. induction Hl as [|x b l blocks Hb Hl IH]; [done|]. cbn. rewrite fmap_app, (Hf _ _ Hb). f_equal. exact IH.
Qed.

Lemma run_campaign_ids args c w rows w' : run_campaign args c w = (Ok rows, w') -> row_id <$> rows = planned args (ca_scenarios c).
Proof.
  unfold run_campaign. intros (u & w1 & _ & (u' & w2 & _ & (blocks & w3 & H1 & [-> ->]%retM_Ok)%bindM_Ok)%bindM_Ok)%bindM_Ok.
  apply collect_Ok in H1. unfold planned. eapply Forall2_join; [exact H1|]. cbv beta. clear.
  intros rep rows (v & v' & E). revert E. unfold run_repetition. intros (blocks & w1 & H1 & [-> ->]%retM_Ok)%bindM_Ok.
  apply collect_Ok in H1. eapply Forall2_join; [exact H1|]. cbv beta. clear.
  intros scenario rows (v & v' & (u & w1 & _ & (l & w2 & H1 & (u' & w3 & _ & [-> ->]%retM_Ok)%bindM_Ok)%bindM_Ok)%bindM_Ok).
  exact (run_scenario_ids _ _ _ _ H1).
Qed.

Lemma write_in_past p t w u w' : write_text p t w = (Ok u, w') -> Request (Outside (WriteText p t)) ∈ wk_past w'.
Proof.
  unfold write_text, outside, ask. destruct (node_answer _ _ w); [|done]. intros [= _ <-]. cbn [effect snd asked wk_past].
  apply elem_of_app. right. by left.
Qed.
Lemma past_stays {A} (m : W A) w r w' x : moves (settled CGROUP_ROOT) m -> m w = (r, w') -> x ∈ wk_past w -> x ∈ wk_past w'.
Proof.
  intros Hm E Hx. specialize (Hm w). rewrite E in Hm. destruct Hm as [(_ & _ & (l & El) & _) _]. cbn [snd] in El. rewrite El.
  apply elem_of_app. by left.
Qed.

Lemma write_results_rows args environment c rows w w' : write_results args environment c rows w = (Ok tt, w') ->
  Request (Outside (WriteText (ma_out args) (rows_text rows))) ∈ wk_past w'.
Proof.
  unfold write_results. intros (u & w1 & _ & (u' & w2 & H1%write_in_past & H2)%bindM_Ok)%bindM_Ok.
  eapply past_stays; [|exact H2|exact H1]. unfold read_boot_id, read_preferred. cbv zeta. moves_go.
Qed.

(** C8: A run writes the rows of its plan.  When the program ends normally (not
    with [--plan] or [--check]) the arguments were accepted and the rows written
    to [--out] are, in order, those of every repetition and of every scenario
    in the repetition's shuffled order: one per cgroup of the scenario and one
    for the system, each labelled with its repetition, scenario, order and
    group; every order is a permutation of the requested scenarios, and
    [--plan] prints the same orders. *)
Theorem run_writes_plan here args w w' :
  main here args w = (Ok 0, w') -> ma_plan args = false -> ma_check args = false ->
  exists scenarios rows,
    check_args args = Ok scenarios /\
    Request (Outside (WriteText (ma_out args) (rows_text rows))) ∈ wk_past w' /\
    row_id <$> rows = planned args scenarios /\
    (forall rep, scenario_order args scenarios rep ≡ₚ scenarios) /\
    (forall v p v', plan args scenarios v = (Ok p, v') ->
       py_index "reps" p = Ok (VList ((fun rep => VDict [("rep", VInt rep);
         ("scenario_order", VList (VStr <$> scenario_order args scenarios rep))]) <$> cpu_range 1 (ma_reps args)))).
Proof.
  intros Hm Hplan Hcheck. revert Hm. unfold main. intros (scenarios & w1 & [Hs ->]%liftM_Ok & (args' & w2 & Ha & Hm)%bindM_Ok)%bindM_Ok.
  assert (exists id, args' = with_run_id args id) as [id ->].
  { destruct (is_empty (ma_run_id args)); run_hyps; [by eexists|]. exists (ma_run_id args). by destruct args. }
  cbn [ma_plan ma_check with_run_id] in Hm. rewrite Hplan, Hcheck in Hm.
  apply bindM_Ok in Hm as (user & w3 & _ & (u & w4 & _ & (u' & w5 & _ & (env & w6 & _ & Hm)%bindM_Ok)%bindM_Ok)%bindM_Ok).
  apply bindM_Ok in Hm as (bins & w7 & _ & (node & w8 & _ & (kernel & w9 & _ & (cpus & w10 & _ & Hm)%bindM_Ok)%bindM_Ok)%bindM_Ok).
  apply bindM_Ok in Hm as (n & w11 & _ & (c & w12 & Hc & (rows & w13 & Hr & ([] & w14 & Hw & [_ ->]%retM_Ok)%bindM_Ok)%bindM_Ok)%bindM_Ok).
  exists scenarios, rows. split; [done|]. split; [by apply write_results_rows in Hw|].
  split; [|split; [intros rep; apply shuffle_perm|]].
  - apply try_finally_Ok in Hr as (w15 & Hr%run_campaign_ids & _). rewrite Hr. revert Hc. unfold prepare.
    intros (g & v1 & _ & (s & v2 & _ & (u2 & v3 & _ & [-> _]%retM_Ok)%bindM_Ok)%bindM_Ok)%bindM_Ok. reflexivity.
  - intros v p v'. unfold plan.
    intros (gs & v1 & _ & (k & v2 & _ & ([r1 n1] & v3 & _ & ([r2 n2] & v4 & _ & [-> _]%retM_Ok)%bindM_Ok)%bindM_Ok)%bindM_Ok)%bindM_Ok.
    reflexivity.
Qed.
End Rows.
