(* ===== verification/SchedLab.v ===== *)
(** A node for the theorems of [SchedMatrixThm.v]: every call is answered, except
    the one at which the run is cut short; and a run of the program on it. *)

From Stdlib Require Import ZArith Bool Ascii String Lia SpecFloat.
From stdpp Require Import base list strings option gmap.
From S2P Require Import Prelude Eff PyStr PyText PyFloat PyVal Json Campaign World Worker SchedScenarios SchedHost SchedMatrix SchedNodeThm SchedMatrixThm.

Open Scope string_scope.
Open Scope Z_scope.

(** ** Integers as a parameter file has them *)

Lemma int_line z : int_text (strip (str_of_Z z +:+ newline)) = Ok z.
Proof.
  destruct (int_str z) as (Hs & Hne & Hp). rewrite strip_newline by done. unfold int_text. by rewrite Hp.
Qed.

(** ** The node *)

Definition lab_date : datetime :=
  {| dt_year := 2026; dt_month := 1; dt_day := 2; dt_hour := 3; dt_minute := 4; dt_second := 5; dt_micro := 0 |}.
Definition lab_text (path : string) : string :=
  if String.eqb path PROC_STAT then "cpu  10 0 10 100 0 0 0 5" +:+ newline +:+ "ctxt 7" +:+ newline
  else if endswith "cpu.stat" path then "usage_usec 5" +:+ newline
  else if startswith "/sys/fs/cgroup/cgroup." path then "cpu cpuset" +:+ newline
  else "0-1" +:+ newline.

Definition lab_op {R} (o : op R) : result R :=
  match o in op R return result R with
  | Monotonic => Ok fzero
  | UtcNow => Ok lab_date
  | ReadText path => Ok (lab_text path)
  | TokenHex _ | MkdTemp _ | Resolve _ | ReadStderr => Ok ""
  | HttpRequest _ _ _ _ | UrlOpen _ _ => Ok (200, "")
  | Run _ _ | RunInput _ _ | Communicate _ => Ok {| returncode := 0; stdout := ""; stderr := "" |}
  | PathExists _ | Poll => Ok true
  | IsFile _ | IsDir _ => Ok false
  | IterDir _ | WalkTree _ => Ok []
  | JoinScraper _ _ => Ok ([], false)
  | Sleep _ | Popen _ | ProbeGet _ _ | Terminate | Wait _ | Kill | WriteText _ _ | MakeDirs _ | WriteBase64 _ _
  | Chmod _ _ | LoadTls _ _ _ | Log _ | AppendText _ _ | StartScraper _ => Ok tt
  end.
Definition lab_call {R} (c : call R) (w : worker) : result R :=
  match c in call R return result R with
  | Outside o => lab_op o
  | SettingExists _ | ModuleLoaded | GroupExists _ | Which _ => Ok true
  | Setting _ | Shown _ | ModuleParam _ | ChildStderr _ => Ok ""
  | GroupChildren _ => Ok []
  | Spawn _ => Ok (Z.of_nat (length (wk_past w)))
  | PollChild _ => Ok None
  | WaitChild _ _ => Ok 0
  | StopSampler => Ok []
  | Uname => Ok ("7.0-k8labs", "worker-1")
  | CpuCount => Ok 2
  | EffectiveUser => Ok 0
  | Mtime _ => Ok fzero
  | SetSetting _ _ | Command _ | MakeGroup _ _ | RemoveGroup _ | TerminateChild _ | KillChild _ | StartSampler | Touch _
  | RmTree _ | Rename _ _ | Print _ => Ok tt
  end.
Definition lab_module (argv : list string) (w : worker) : option (list (string * string)) :=
  match argv with
  | ["modprobe"; _; interval; high; low] =>
      Some [("interval_ms", str_drop 12 interval +:+ newline); ("high_threshold", str_drop 15 high +:+ newline);
            ("low_threshold", str_drop 14 low +:+ newline)]
  | _ => None
  end.
(** SIGTERM comes during the call number [cut]. *)
Definition lab_node (cut : nat) : Node :=
  {| node_answer R c w := if Nat.eqb (length (wk_past w)) cut then Raise (Exn SystemExit "143") else lab_call c w;
     node_module := lab_module; node_shows _ text := text |}.

Lemma lab_laws cut : @module_laws (lab_node cut).
Proof.
  split; [done|]. intros i h l w. unfold governor_of, GOVERNOR_PARAMETERS.
  cbn [node_module lab_node lab_module modprobe_command mbind list_bind param_of List.find fst].
  change (str_drop 12 ("interval_ms=" +:+ str_of_Z i)) with (str_of_Z i).
  change (str_drop 15 ("high_threshold=" +:+ str_of_Z h)) with (str_of_Z h).
  change (str_drop 14 ("low_threshold=" +:+ str_of_Z l)) with (str_of_Z l).
  change (String.eqb "interval_ms" "interval_ms") with true. change (String.eqb "high_threshold" "interval_ms") with false.
  change (String.eqb "high_threshold" "high_threshold") with true. change (String.eqb "low_threshold" "interval_ms") with false.
  change (String.eqb "low_threshold" "high_threshold") with false. change (String.eqb "low_threshold" "low_threshold") with true.
  cbv iota. by rewrite !int_line.
Qed.
Lemma lab_answers {R} (c : call R) w : exists r, lab_call c w = Ok r.
Proof. destruct c; try (by eexists). destruct o; by eexists. Qed.
Lemma lab_calm cut n : (cut < n)%nat -> @calm (lab_node cut) n.
Proof.
  intros Hlt R c w Hn. cbn [node_answer lab_node]. rewrite (proj2 (Nat.eqb_neq _ _)) by lia. apply lab_answers.
Qed.
Lemma lab_prompt cut n : @prompt (lab_node cut) n.
Proof.
  intros w w' t t' _ H1 _ H2. cbn [node_answer lab_node] in H1, H2. destruct (Nat.eqb _ _) in H1; [done|].
  destruct (Nat.eqb _ _) in H2; [done|]. injection H1 as <-. injection H2 as <-. vm_compute. reflexivity.
Qed.
Lemma lab_children cut : @child_laws (lab_node cut).
Proof.
  split.
  - intros pid w e. cbn [node_answer lab_node]. destruct (Nat.eqb _ _); [|done]. by intros [= <-].
  - intros p t w e. cbn [node_answer lab_node]. destruct (Nat.eqb _ _); [|done]. intros [= <-]. by right.
Qed.

#[local] Instance lab_rng : Rng.
Proof. refine {| randbelow := fun _ _ _ => 0%nat |}. done. Defined.

Definition lab_args (arm scenarios : string) : matrix_args :=
  {| ma_arm := arm; ma_block := "a"; ma_reps := 2; ma_duration := flit 8 1; ma_warmup := flit 2 1; ma_cooldown := flit 5 10;
     ma_seed := 20261024; ma_scenarios := scenarios; ma_parent_weight := 10000; ma_gov_interval_ms := 1000; ma_gov_high := 500;
     ma_gov_low := 200; ma_out := "results/rows.jsonl"; ma_meta := "results/meta.json"; ma_run_id := "r1"; ma_plan := false;
     ma_check := false |}.
(** The governor is loaded with its own parameters and the setting is off. *)
Definition lab_worker : worker :=
  {| wk_settings := {[SCHEDSTATS := "0" +:+ newline]};
     wk_module := Some [("interval_ms", "2000" +:+ newline); ("high_threshold", "600" +:+ newline); ("low_threshold", "100" +:+ newline)];
     wk_groups := {[ ["system.slice"] ]}; wk_running := ∅; wk_past := [] |}.

(** ** A run that a signal ends *)

Definition lab_scenarios : list string := ["wakeup"; "steal"].
Definition lab_binaries : list (string * string) := (fun b => (fst b, "here/" +:+ fst (snd (snd b)))) <$> BINARIES.
Definition lab_campaign : campaign :=
  {| ca_scenarios := lab_scenarios; ca_binaries := lab_binaries; ca_node := "worker-1"; ca_kernel := "7.0-k8labs"; ca_cpus := 2;
     ca_governor := {| loaded := true; params := requested 2000 600 100 |}; ca_schedstats := "0" |}.
Definition lab_cli : matrix_args := lab_args "custom-nogov" "wakeup,steal".
Definition lab_prepared (cut : nat) : result campaign * worker :=
  prepare (H := lab_node cut) lab_cli lab_scenarios lab_binaries "worker-1" "7.0-k8labs" 2 lab_worker.

(** The signal comes while the second workload of the first scenario is started. *)
Lemma node_restored_witness :
  exists w', measured (H := lab_node 40) lab_cli lab_campaign (snd (lab_prepared 40)) = (Raise (Exn SystemExit "143"), w') /\
    governor_of (wk_module w') = governor_of (wk_module lab_worker) /\ wk_module (snd (lab_prepared 40)) = None /\
    ["system.slice"] ∈ wk_groups w'.
Proof.
  destruct (node_restored (H := lab_node 40) lab_cli lab_scenarios lab_binaries "worker-1" "7.0-k8labs" 2 lab_worker lab_campaign
              (snd (lab_prepared 40)) ("0" +:+ newline)) as (w' & E & G & _ & Hg).
  - vm_compute. reflexivity.
  - intros _. reflexivity.
  - intros x k Hx Hk _. change (x ∈ ({[ ["system.slice"] ]} : gset cgroup)) in Hx. apply elem_of_singleton in Hx as ->. change (take k ["system.slice"] ∈ ({[ ["system.slice"] ]} : gset cgroup)). apply elem_of_singleton. destruct k as [|k]; [lia|]. by destruct k.
  - vm_compute. reflexivity.
  - left. vm_compute. reflexivity.
  - apply lab_laws.
  - apply lab_calm. apply Nat.ltb_lt. vm_compute. reflexivity.
  - apply lab_prompt.
  - exists w'. split; [|split; [exact G|split; [vm_compute; reflexivity|]]]; [rewrite E; vm_compute; reflexivity|].
    apply Hg. split; [|discriminate]. change (["system.slice"] ∈ ({[ ["system.slice"] ]} : gset cgroup)). by apply elem_of_singleton.
Defined.

(** Before the [try] a failure is not undone: when [modprobe] fails after
    [rmmod], the program ends and the governor stays unloaded. *)
Definition no_modprobe : Node :=
  {| node_answer R c w :=
       match c in call R return result R with
       | Command ("modprobe" :: _) => Raise (Exn SubprocessError "returned non-zero exit status 1")
       | c => lab_call c w
       end;
     node_module := lab_module; node_shows _ text := text |}.
Example failed_modprobe_unloads :
  match main (H := no_modprobe) "here" (lab_args "custom-gov" "wakeup") lab_worker with
  | (Raise e, w) => exn_cls e = SubprocessError /\ wk_module w = None /\ wk_module lab_worker ≠ None
  | _ => False
  end.
Proof. vm_compute. repeat split; discriminate. Qed.

(** ** A signal between a start and its record *)

Definition lab_scene : scene := scene_of lab_cli lab_campaign 1 lab_scenarios "wakeup".
Definition lab_cut (cut : nat) : list cgroup * list Workload * result (list pydict) * worker :=
  match run_scene (H := lab_node cut) lab_scene lab_worker with
  | (Ok r, w) => (r, w)
  | (Raise e, w) => ([], [], Raise e, w)
  end.

Definition lab_cleaned (cut : nat) : worker :=
  let '(created, xs, _, w) := lab_cut cut in snd (clean_scene (H := lab_node cut) lab_scene created xs w).

(** The second process runs on: its start was not recorded when the signal came. *)
Example signal_leaves_process : elements (wk_running (lab_cleaned 7)) = [6].
Proof. vm_compute. reflexivity. Qed.

Definition made_of (r : list cgroup * list Workload * result (list pydict) * worker) : list cgroup := fst (fst (fst r)).
Definition started_of (r : list cgroup * list Workload * result (list pydict) * worker) : list Workload := snd (fst (fst r)).
Definition outcome_of (r : list cgroup * list Workload * result (list pydict) * worker) : result (list pydict) := snd (fst r).

Lemma scenario_stops_workloads_witness :
  (size (wk_running (lab_cleaned 7) ∖ wk_running lab_worker) <= 1)%nat /\
  wk_running (lab_cleaned 10000) ⊆ wk_running lab_worker.
Proof.
  split.
  - refine (proj1 (scenario_stops_workloads (H := lab_node 7) lab_scene lab_worker (made_of (lab_cut 7)) (started_of (lab_cut 7))
                     (outcome_of (lab_cut 7)) (snd (lab_cut 7)) (lab_cleaned 7) (lab_children 7) _ _)); vm_compute; reflexivity.
  - refine (proj2 (scenario_stops_workloads (H := lab_node 10000) lab_scene lab_worker (made_of (lab_cut 10000))
                     (started_of (lab_cut 10000)) (outcome_of (lab_cut 10000)) (snd (lab_cut 10000)) (lab_cleaned 10000)
                     (lab_children 10000) _ _) _); [vm_compute; reflexivity..|].
    assert (is_ok (outcome_of (lab_cut 10000)) = true) as Ho by (vm_compute; reflexivity).
    intros e Hr. rewrite Hr in Ho. clear Hr. intros _. discriminate Ho.
Defined.

(** ** A run to its end *)

Definition lab_run : result Z * worker := main (H := lab_node 10000) "here" lab_cli lab_worker.

Lemma run_writes_plan_witness :
  exists rows, Request (Outside (WriteText "results/rows.jsonl" (rows_text rows))) ∈ wk_past (snd lab_run) /\
    length rows = 12%nat /\ row_id <$> rows = planned lab_cli lab_scenarios.
Proof.
  assert (main (H := lab_node 10000) "here" lab_cli lab_worker = (Ok 0, snd lab_run)) as E by (vm_compute; reflexivity).
  destruct (run_writes_plan (H := lab_node 10000) "here" lab_cli lab_worker (snd lab_run) E eq_refl eq_refl)
    as (scenarios & rows & Hs & Hw & Hr & _).
  assert (check_args lab_cli = Ok lab_scenarios) as Hs' by (vm_compute; reflexivity). rewrite Hs' in Hs. apply Ok_inj in Hs as <-.
  exists rows. split; [exact Hw|]. split; [|exact Hr]. rewrite <- (length_fmap row_id), Hr. vm_compute. reflexivity.
Defined.
