(* ===== verification/DeltaAnalyze.v ===== *)
(** [sched-core-delta/analysis/analyze.py]: the paired block ratios of a kernel
    comparison, their decisions and the reports.

    A set of strings is a list without repetition; where the program iterates
    over one, only the order of a dictionary that is never listed depends on it. *)

From Stdlib Require Import ZArith Bool Ascii String Lia SpecFloat.
From stdpp Require Import base list strings option.
From S2P Require Import Prelude Eff PyStr PyFloat PyVal PyDict Json PyConv Campaign Stats World SchedScenarios SchedHost SchedMatrix.

Open Scope string_scope.
Open Scope Z_scope.

Definition BAND : float := flit 5 100.
Definition DELTA_MIN_BLOCKS : Z := 3.
Definition SYSTEM_METRICS : list (string * string) :=
  [("steal_pct_total", "steal time, % of total CPU time"); ("steal_pct_busy", "steal time, % of busy CPU time");
   ("preferred_min", "preferred CPUs, minimum"); ("preferred_changes", "preferred-mask changes");
   ("ctxt_per_s", "context switches/s"); ("pingpong_non_preferred_migrations", "non-preferred migrations")].

Record block_pair : Type := { bp_block : string; bp_control : float; bp_treatment : float }.
Record Result : Type := {
  r_scenario : string; r_group : string; r_metric : string; r_feature : string; r_expected : string; r_direction : string;
  r_control : string; r_treatment : string; r_blocks : Z; r_control_median : float; r_treatment_median : float;
  r_ratio : float; r_oriented_ratio : float; r_ci_low : float; r_ci_high : float; r_decision : string; r_status : string;
  r_rationale : string; r_per_block : list block_pair
}.

Definition nan : float := S754_nan.

(** ** The rows *)

(** [read_json] and [read_jsonl], for what the read of the file gave. *)
Definition json_of (read : result string) : result pydict :=
  match (let* text := read in json_loads text) with
  | Ok (VDict d) => Ok d
  | Ok _ => Ok []
  | Raise e => if caught_by [OSError; JSONDecodeError] e then Ok [] else Raise e
  end.
Fixpoint jsonl_rows (lines : list string) : result (list pydict) :=
  match lines with
  | [] => Ok []
  | line :: lines =>
      let line := strip line in
      let* here := if is_empty line then Ok []
                   else match json_loads line with
                        | Ok (VDict d) => Ok [d]
                        | Ok _ => Ok []
                        | Raise e => if caught_by [JSONDecodeError] e then Ok [] else Raise e
                        end in
      let* later := jsonl_rows lines in
      Ok (here ++ later)%list
  end.
Definition jsonl_of (read : result string) : result (list pydict) :=
  match read with
  | Ok text => jsonl_rows (splitlines text)
  | Raise e => if caught_by [OSError] e then Ok [] else Raise e
  end.

Definition metric_names : list string :=
  remove_dups (((me_metric <$> PRIMARY_METRICS) ++ (me_metric <$> DESCRIPTIVE_METRICS)) ++ (fst <$> SYSTEM_METRICS))%list.

(** [str(row.get(key, ""))] *)
Definition text_of (key : string) (row : pydict) : string := py_str (dget_or key (VStr "") row).
(** [row.setdefault(key, value)] *)
Definition set_default (key value : string) (row : pydict) : pydict := if dmem key row then row else dset key (VStr value) row.
(** A value that counts: a finite number that is no truth value. *)
Definition finite_value (v : pyval) : result (option float) :=
  match v with
  | VInt _ | VFloat _ => let* x := float_of_num v in Ok (if isfinite x then Some x else None)
  | _ => Ok None
  end.

Definition is_system (row : pydict) : bool :=
  py_eq (dget_none "kind" row) (VStr "system") || py_eq (dget_none "group" row) (VStr "system").

Record campaign_rows : Type := { cr_groups : list pydict; cr_systems : list pydict; cr_profiles : list string }.

(** The rows of one run, filled in with the run's arm and block. *)
Definition file_row (arm block : string) (c : campaign_rows) (row : pydict) : campaign_rows :=
  let row := set_default "block" block (set_default "arm" arm row) in
  if is_system row
  then {| cr_groups := cr_groups c; cr_systems := cr_systems c ++ [row]; cr_profiles := cr_profiles c |}
  else {| cr_groups := cr_groups c ++ [row]; cr_systems := cr_systems c; cr_profiles := cr_profiles c |}.
(** One [block-*/*/run.json], with the names of its directories. *)
Definition file_run (block_dir arm_dir : string) (run : pydict) (rows : list pydict) (c : campaign_rows) : campaign_rows :=
  let profile := text_of "profile" run in
  let c := if is_empty profile then c
           else {| cr_groups := cr_groups c; cr_systems := cr_systems c; cr_profiles := cr_profiles c ++ [profile] |} in
  let arm := py_str (dget_or "arm" (VStr arm_dir) run) in
  let block := py_str (dget_or "block" (VStr (str_drop 6 block_dir)) run) in
  fold_left (file_row arm block) rows c.

(** ** Medians *)

(** Block, arm, scenario, group and metric. *)
Abbreviation cell_key := (string * string * string * string * string)%type.

(** [statistics.median] of a list that is not empty. *)
Definition median (values : list float) : float :=
  let data := sort_by fleb values in
  let n := length data in
  let at_ i := default fzero (data !! i) in
  if Nat.odd n then at_ (n / 2)%nat else fdiv_ieee (fadd (at_ (n / 2 - 1)%nat) (at_ (n / 2)%nat)) (flit 2 1).

(** [d.setdefault(key, []).append(value)] *)
Definition push {K V} `{EqDecision K} (key : K) (value : V) (d : list (K * list V)) : list (K * list V) :=
  assoc_set key (found key d ++ [value])%list d.

Definition collect_metric (row : pydict) (d : list (cell_key * list float)) (name : string) : result (list (cell_key * list float)) :=
  let* v := finite_value (dget_none name row) in
  Ok (match v with
      | Some x => push (text_of "block" row, text_of "arm" row, text_of "scenario" row, text_of "group" row, name) x d
      | None => d
      end).
Definition collect_row (names : list string) (d : list (cell_key * list float)) (row : pydict) : result (list (cell_key * list float)) :=
  foldM (collect_metric row) d names.
Definition aggregate (rows : list pydict) (names : list string) : result (list (cell_key * float)) :=
  let* collected := foldM (collect_row names) [] rows in
  Ok ((fun p => (fst p, median (snd p))) <$> collected).

Definition value_of (key : cell_key) (aggregated : list (cell_key * float)) : option float :=
  snd <$> List.find (fun p => bool_decide (key = fst p)) aggregated.

(** ** Intervals and decisions *)

Fixpoint resampled_means (draw : nat -> nat -> nat) (logs : list float) (resamples first : nat) : list float :=
  match resamples with
  | O => []
  | S r =>
      let n := length logs in
      let total := fold_left (fun t k => fadd t (default fzero (logs !! draw (first + k)%nat n))) (seq 0 n) fzero in
      fdiv_ieee total (float_len logs) :: resampled_means draw logs r (first + n)
  end.
(** [means[int(x)]]; the index is not negative. *)
Definition at_index (means : list float) (x : float) : result float :=
  let* i := int_of_float x in
  match means !! Z.to_nat i with
  | Some m => Ok m
  | None => Raise (Exn IndexError "list index out of range")
  end.

Definition bootstrap_ci `{Libm} `{Rng} (logs : list float) (resamples seed : Z) : result (float * float) :=
  match logs with
  | [] => Ok (nan, nan)
  | _ =>
      let means := sort_by (fun a b => negb (fltb b a)) (resampled_means (randbelow seed) logs (Z.to_nat resamples) 0) in
      let half_alpha := fdiv_ieee (flit 5 100) two in
      let last := flit (Z.of_nat (length means) - 1) 1 in
      let* low := at_index means (fmul half_alpha last) in
      let* high := at_index means (fmul (fsub one half_alpha) last) in
      let* low := math_exp low in
      let* high := math_exp high in
      Ok (low, high)
  end.

Definition below_band : float := fsub one BAND.
Definition above_band : float := fadd one BAND.

Definition classify (direction expected : string) (point ci_low ci_high : float) (blocks : Z) : string :=
  let inside := fleb below_band ci_low && fleb ci_high above_band in
  if String.eqb expected "descriptive" then "descriptive"
  else if blocks <? DELTA_MIN_BLOCKS then "inconclusive"
  else if String.eqb direction "equivalent" then
    if inside then "equivalent"
    else if fltb above_band ci_low || fltb ci_high below_band then "different"
    else "inconclusive"
  else if fltb one ci_low && fltb above_band point then "improved"
  else if fltb ci_high one && fltb point below_band then "regressed"
  else if inside then "equivalent"
  else "inconclusive".

Definition status_for (expected decision : string) (blocks : Z) : string :=
  if String.eqb expected "descriptive" then "descriptive"
  else if (blocks <? DELTA_MIN_BLOCKS) || mem_string decision ["inconclusive"; "missing"] then "INCONCLUSIVE"
  else if String.eqb expected "improve" then if String.eqb decision "improved" then "PASS" else "FAIL"
  else if String.eqb expected "equivalent" then if String.eqb decision "equivalent" then "PASS" else "FAIL"
  else if String.eqb expected "regress" then if String.eqb decision "regressed" then "PASS" else "FAIL"
  else "INCONCLUSIVE".

(** The pair of a block, when both arms have a value that can be compared. *)
Definition pair_of (aggregated : list (cell_key * float)) (control treatment : string) (m : Metric) (block : string) : list block_pair :=
  let key arm := (block, arm, me_scenario m, me_group m, me_metric m) in
  match value_of (key control) aggregated, value_of (key treatment) aggregated with
  | Some c, Some t =>
      if negb (String.eqb (expected_for m) "descriptive") && (fleb c fzero || fleb t fzero) then []
      else [{| bp_block := block; bp_control := c; bp_treatment := t |}]
  | _, _ => []
  end.
Definition loggable (p : block_pair) : bool := fltb fzero (bp_control p) && fltb fzero (bp_treatment p).

(** The ratio and its interval, as measured and as oriented: above one is better. *)
Record estimate : Type := { e_ratio : float; e_low : float; e_high : float; o_ratio : float; o_low : float; o_high : float }.
Definition no_estimate : estimate := {| e_ratio := nan; e_low := nan; e_high := nan; o_ratio := nan; o_low := nan; o_high := nan |}.

Definition log_ratio `{Libm} (p : block_pair) : result float :=
  let* q := fdiv (bp_treatment p) (bp_control p) in math_log q.
Definition estimate_of `{Libm} `{Rng} (direction : string) (pairs : list block_pair) (resamples seed : Z) : result estimate :=
  if negb (forallb loggable pairs) then Ok no_estimate
  else
    let* logs := mapM log_ratio pairs in
    let* ratio := math_exp (fdiv_ieee (py_sum logs) (float_len logs)) in
    let* (low, high) := bootstrap_ci logs resamples seed in
    if String.eqb direction "lower" then
      let* r := fdiv one ratio in
      let* l := fdiv one high in
      let* h := fdiv one low in
      Ok {| e_ratio := ratio; e_low := low; e_high := high; o_ratio := r; o_low := l; o_high := h |}
    else Ok {| e_ratio := ratio; e_low := low; e_high := high; o_ratio := ratio; o_low := low; o_high := high |}.

(** [str(spec.get("contrast") or contrast_name(scenario))] *)
Definition contrast_of_metric (m : Metric) : string :=
  match me_contrast m with
  | Some c => if is_empty c then contrast_name (me_scenario m) else c
  | None => contrast_name (me_scenario m)
  end.

Definition result_of (m : Metric) (control treatment : string) (pairs : list block_pair) (control_median treatment_median : float)
    (e : estimate) (decision : string) : Result :=
  let blocks := Z.of_nat (length pairs) in
  {| r_scenario := me_scenario m; r_group := me_group m; r_metric := me_metric m; r_feature := me_feature m;
     r_expected := expected_for m; r_direction := me_direction m; r_control := control; r_treatment := treatment;
     r_blocks := blocks; r_control_median := control_median; r_treatment_median := treatment_median; r_ratio := e_ratio e;
     r_oriented_ratio := o_ratio e; r_ci_low := e_low e; r_ci_high := e_high e; r_decision := decision;
     r_status := status_for (expected_for m) decision blocks; r_rationale := me_rationale m; r_per_block := pairs |}.

Definition analyse_metric `{Libm} `{Rng} (m : Metric) (aggregated : list (cell_key * float)) (blocks : list string)
    (resamples seed : Z) : result Result :=
  let contrast := contrast_of_metric m in
  match contrast_arms contrast with
  | None => Raise (Exn ValueError ("unknown contrast: " +:+ contrast))
  | Some (control, treatment) =>
      let pairs := blocks ≫= pair_of aggregated control treatment m in
      match pairs with
      | [] => Ok (result_of m control treatment [] nan nan no_estimate "missing")
      | _ =>
          let* e := estimate_of (me_direction m) pairs resamples seed in
          let decision := classify (me_direction m) (expected_for m) (o_ratio e) (o_low e) (o_high e) (Z.of_nat (length pairs)) in
          Ok (result_of m control treatment pairs (median (bp_control <$> pairs)) (median (bp_treatment <$> pairs)) e decision)
      end
  end.

(** ** Reports *)

Definition format_value (digits : nat) (x : float) : string := if isfinite x then format_f digits x else "-".
Definition format_ratio (x : float) : string := if isfinite x then format_f 3 x +:+ "x" else "-".

Record feature_row : Type := {
  fr_feature : string; fr_metrics : list string; fr_verdict : string; fr_statuses : list (string * string)
}.
Definition feature_items (results : list Result) : list (string * list Result) :=
  fold_left (fun d r => if String.eqb (r_expected r) "descriptive" then d else push (r_feature r) r d) results [].
Definition verdict_of (items : list Result) : string :=
  let statuses := r_status <$> items in
  if mem_string "FAIL" statuses then "not observed"
  else if mem_string "INCONCLUSIVE" statuses then "inconclusive"
  else "observed".
Definition metric_path (r : Result) : string := r_scenario r +:+ "/" +:+ r_group r +:+ "/" +:+ r_metric r.
Definition feature_summary (results : list Result) : list feature_row :=
  (fun p => {| fr_feature := fst p; fr_metrics := metric_path <$> snd p; fr_verdict := verdict_of (snd p);
               fr_statuses := dict_of ((fun r => (r_metric r, r_status r)) <$> snd p) |})
  <$> sort_by (fun a b => String.leb (fst a) (fst b)) (feature_items results).

(** [system_table]: the values of each arm and scenario, and their medians. *)
Abbreviation system_values := (list (string * string * list (string * float))).
Definition system_metric (supported : bool) (row : pydict) (l : list (string * float)) (m : string * string)
    : result (list (string * float)) :=
  let name := fst m in
  if startswith "preferred" name && negb supported then Ok l
  else let* v := finite_value (dget_none name row) in Ok (match v with Some x => l ++ [(name, x)] | None => l end)%list.
Definition system_row_step (blocks : list string) (d : system_values) (row : pydict) : result system_values :=
  if negb (mem_string (text_of "block" row) blocks) then Ok d
  else
    let* values := foldM (system_metric (truthy (dget_none "preferred_first" row)) row) [] SYSTEM_METRICS in
    let key := (text_of "arm" row, text_of "scenario" row) in
    Ok (match values with [] => d | _ => assoc_set key (found key d ++ values)%list d end).
Definition pair_key_leb {A} (a b : (string * string) * A) : bool :=
  let '((x1, y1), _) := a in let '((x2, y2), _) := b in
  if String.eqb x1 x2 then String.leb y1 y2 else String.leb x1 x2.
Definition system_medians (values : list (string * float)) : list (string * float) :=
  (fun m => let samples := snd <$> List.filter (fun p => String.eqb (fst m) (fst p)) values in
            (fst m, match samples with [] => nan | _ => median samples end)) <$> SYSTEM_METRICS.
Definition system_table (rows : list pydict) (blocks : list string) : result (list ((string * string) * list (string * float))) :=
  let* d := foldM (system_row_step blocks) [] rows in
  Ok ((fun p => (fst p, system_medians (snd p))) <$> sort_by pair_key_leb d).

Definition primary_line (r : Result) : list string :=
  if String.eqb (r_expected r) "descriptive" then []
  else ["| " +:+ r_scenario r +:+ " | " +:+ r_metric r +:+ " | " +:+ format_value 2 (r_control_median r) +:+ " | " +:+
        format_value 2 (r_treatment_median r) +:+ " | " +:+ format_ratio (r_ratio r) +:+ " | [" +:+ format_ratio (r_ci_low r) +:+
        ", " +:+ format_ratio (r_ci_high r) +:+ "] | " +:+ r_expected r +:+ " | " +:+ r_decision r +:+ " | " +:+ r_status r +:+ " |"].
Definition pair_text (p : block_pair) : string :=
  bp_block p +:+ ": " +:+ format_value 2 (bp_control p) +:+ "/" +:+ format_value 2 (bp_treatment p).
Definition detail_lines (r : Result) : list string :=
  ("- `" +:+ r_group r +:+ "/" +:+ r_metric r +:+ "`: " +:+ r_control r +:+ " vs " +:+ r_treatment r +:+ " = " +:+
   format_ratio (r_ratio r) +:+ " [" +:+ format_ratio (r_ci_low r) +:+ ", " +:+ format_ratio (r_ci_high r) +:+ "], " +:+
   r_decision r +:+ " (" +:+ r_status r +:+ ").") ::
  match r_per_block r with
  | [] => []
  | pairs => ["  Per block (control/treatment): " +:+ join ", " (pair_text <$> pairs) +:+ "."]
  end.
Definition scenario_lines (p : string * list Result) : list string :=
  (["### " +:+ fst p; ""] ++ (snd p ≫= detail_lines) ++ [""])%list.
Definition system_line (p : (string * string) * list (string * float)) : string :=
  "| " +:+ fst (fst p) +:+ " | " +:+ snd (fst p) +:+ " | " +:+ join " | " ((fun v => format_value 2 (snd v)) <$> snd p) +:+ " |".
Definition system_lines (rows : list ((string * string) * list (string * float))) : list string :=
  match rows with
  | [] => []
  | _ =>
      (["## System observations"; "";
        "| arm | scenario | " +:+ join " | " ((fun m => replace_all "_" " " (fst m)) <$> SYSTEM_METRICS) +:+ " |";
        "|" +:+ join "" (repeat "---|" (2 + length SYSTEM_METRICS))] ++ (system_line <$> rows) ++ [""])%list
  end.
Definition metadata_lines (metadata : list (string * string)) : list string :=
  metadata ≫= fun p => if is_empty (snd p) then [] else ["- " +:+ fst p +:+ ": `" +:+ snd p +:+ "`"].

Definition markdown (title contrast run_id : string) (blocks : list string) (results : list Result)
    (systems : list ((string * string) * list (string * float))) (warnings : list string) (metadata : list (string * string)) : string :=
  join newline
    (["# " +:+ title; ""; "- Run: `" +:+ run_id +:+ "`"; "- Contrast: " +:+ contrast;
      "- Paired blocks: " +:+ str_of_Z (Z.of_nat (length blocks));
      "- Decision band: +/-5 %; minimum blocks for a verdict: " +:+ str_of_Z DELTA_MIN_BLOCKS;
      "- Estimator: geometric mean paired ratio with a 95 % block-bootstrap interval."; ""] ++
     match warnings with [] => [] | _ => ["## Warnings"; ""] ++ ((fun w => "- " +:+ w) <$> warnings) ++ [""] end ++
     ["## Primary results"; "";
      "| scenario | metric | control | treatment | ratio | 95% CI | expected | decision | status |";
      "|---|---|---:|---:|---:|---:|---|---|---|"] ++ (results ≫= primary_line) ++ [""] ++
     ["## Feature summary"; ""; "| feature | metrics | verdict |"; "|---|---|---|"] ++
     ((fun f => "| " +:+ fr_feature f +:+ " | " +:+ join ", " (fr_metrics f) +:+ " | " +:+ fr_verdict f +:+ " |")
        <$> feature_summary results) ++ [""] ++
     ["## Per-scenario detail"; ""] ++
     (fold_left (fun d r => push (r_scenario r) r d) results [] ≫= scenario_lines) ++
     system_lines systems ++ ["## Metadata"; ""] ++ metadata_lines metadata ++ [""])%list.

(** [result.__dict__] *)
Definition pair_value (p : block_pair) : pyval :=
  VDict [("block", VStr (bp_block p)); ("control", VFloat (bp_control p)); ("treatment", VFloat (bp_treatment p))].
Definition result_value (r : Result) : pyval :=
  VDict [("scenario", VStr (r_scenario r)); ("group", VStr (r_group r)); ("metric", VStr (r_metric r));
         ("feature", VStr (r_feature r)); ("expected", VStr (r_expected r)); ("direction", VStr (r_direction r));
         ("control", VStr (r_control r)); ("treatment", VStr (r_treatment r)); ("blocks", VInt (r_blocks r));
         ("control_median", VFloat (r_control_median r)); ("treatment_median", VFloat (r_treatment_median r));
         ("ratio", VFloat (r_ratio r)); ("oriented_ratio", VFloat (r_oriented_ratio r)); ("ci_low", VFloat (r_ci_low r));
         ("ci_high", VFloat (r_ci_high r)); ("decision", VStr (r_decision r)); ("status", VStr (r_status r));
         ("rationale", VStr (r_rationale r)); ("per_block", VList (pair_value <$> r_per_block r))].
Definition csv_result (r : Result) : string :=
  join "," [r_scenario r; r_group r; r_metric r; replace_all "," " " (r_feature r); r_expected r; r_direction r; r_control r;
            r_treatment r; str_of_Z (r_blocks r); format_value 4 (r_control_median r); format_value 4 (r_treatment_median r);
            format_value 6 (r_ratio r); format_value 6 (r_oriented_ratio r); format_value 6 (r_ci_low r);
            format_value 6 (r_ci_high r); r_decision r; r_status r].
Definition csv_header : string :=
  "scenario,group,metric,feature,expected,direction,control,treatment,blocks," +:+
  "control_median,treatment_median,ratio,oriented_ratio,ci_low,ci_high,decision,status".

(** ** The program *)

(** [sorted({str(row.get(key, "")) for row in rows})] *)
Definition sorted_set (l : list string) : list string := sort_by String.leb (remove_dups l).
Definition block_names (rows : list pydict) : list string :=
  sorted_set (text_of "block" <$> List.filter (fun row => truthy (dget_none "block" row)) rows).

Definition without_verdict (r : Result) : Result :=
  if String.eqb (r_expected r) "descriptive" then r
  else {| r_scenario := r_scenario r; r_group := r_group r; r_metric := r_metric r; r_feature := r_feature r;
          r_expected := r_expected r; r_direction := r_direction r; r_control := r_control r; r_treatment := r_treatment r;
          r_blocks := r_blocks r; r_control_median := r_control_median r; r_treatment_median := r_treatment_median r;
          r_ratio := r_ratio r; r_oriented_ratio := r_oriented_ratio r; r_ci_low := r_ci_low r; r_ci_high := r_ci_high r;
          r_decision := "inconclusive"; r_status := "INCONCLUSIVE"; r_rationale := r_rationale r; r_per_block := r_per_block r |}.

(** The nodes of an arm's rows. *)
Definition nodes_of (arm : string) (rows : list pydict) : list string :=
  sorted_set (text_of "node" <$> List.filter (fun row => py_eq (dget_none "arm" row) (VStr arm)) rows).
Definition cross_node (rows : list pydict) : bool :=
  let arms := text_of "arm" <$> rows in
  let stock := nodes_of "stock" rows in
  let custom := nodes_of "custom" rows in
  mem_string "stock" arms && mem_string "custom" arms &&
  negb (bool_decide (stock = [])) && negb (bool_decide (custom = [])) && negb (bool_decide (stock = custom)).
(** Whether there are steal rows and none of them saw the mask change. *)
Definition no_transition (systems : list pydict) : result bool :=
  let rows := List.filter (fun row => py_eq (dget_none "scenario" row) (VStr "steal")) systems in
  let* changes := mapM (fun row => float_of_val (dget_or "preferred_changes" (VInt 0) row)) rows in
  Ok (match rows with [] => false | _ => fleb (float_max changes) fzero end).

Definition warnings_of (blocks : list string) (rows systems : list pydict) (pilot : bool) : result (list string) :=
  let* idle := no_transition systems in
  Ok ((if Z.of_nat (length blocks) <? DELTA_MIN_BLOCKS
       then ["Pilot only: " +:+ str_of_Z (Z.of_nat (length blocks)) +:+
             " block(s) is below the 3-block floor; no confirmatory verdict is claimed."] else []) ++
      (if cross_node rows
       then ["Cross-node campaign: the stock and custom arms ran on different VMs. Kernel is confounded with VM identity and host placement; the same-node switch described in README.md is the confirmatory design."]
       else []) ++
      (if idle
       then ["The steal scenario did not observe a preferred-mask transition; the governor was not exercised, so its mechanism rows are not evidence."]
       else []) ++
      (if pilot
       then ["Pilot profile: the run is labelled pilot (shorter repetitions); its numbers are reported for planning, but no verdict is claimed."]
       else []))%list.

Definition analysed `{Libm} `{Rng} (rows : list pydict) (aggregated : list (cell_key * float)) (blocks : list string)
    (resamples seed : Z) : result (list Result) :=
  let available := text_of "scenario" <$> rows in
  mapM (fun m => analyse_metric m aggregated blocks resamples seed)
    (List.filter (fun m => mem_string (me_scenario m) available) (PRIMARY_METRICS ++ DESCRIPTIVE_METRICS)%list).

(** What the analysis computes from the rows, before anything is written. *)
Record delta_report : Type := {
  dr_blocks : list string; dr_results : list Result; dr_warnings : list string; dr_metadata : list (string * string)
}.
Definition analyse_rows `{Libm} `{Rng} (campaign : pydict) (c : campaign_rows) (resamples seed : Z) : result delta_report :=
  let* aggregated := aggregate (cr_groups c) metric_names in
  let blocks := match block_names (cr_groups c) with [] => block_names (cr_systems c) | l => l end in
  raise_if (bool_decide (blocks = [])) SystemExit "no block identifiers in the data" ;;;
  let* results := analysed (cr_groups c) aggregated blocks resamples seed in
  let pilot := mem_string "pilot" (cr_profiles c) in
  let* warnings := warnings_of blocks (cr_groups c) (cr_systems c) pilot in
  let of_rows key := join ", " (sorted_set (text_of key <$> cr_groups c)) in
  Ok {| dr_blocks := blocks; dr_results := if pilot then without_verdict <$> results else results; dr_warnings := warnings;
        dr_metadata := [("kernels", of_rows "kernel"); ("nodes", of_rows "node");
                        ("campaign", match campaign with [] => "" | _ => json_plain true (VDict campaign) end)] |}.

Definition summary_value (run_id : string) (r : delta_report) : pyval :=
  VDict [("run_id", VStr run_id); ("blocks", VList (VStr <$> dr_blocks r)); ("results", VList (result_value <$> dr_results r));
         ("warnings", VList (VStr <$> dr_warnings r));
         ("metadata", VDict ((fun p => (fst p, VStr (snd p))) <$> dr_metadata r))].

(** [argparse.Namespace] *)
Record delta_args : Type := { da_run_dir : string; da_output_dir : string; da_resamples : Z; da_seed : Z }.

Section Program.
Context `{Env}.

Definition read_of (path : string) : M (result string) := fun h => let '(r, h') := perform (ReadText path) h in (Ok r, h').

(** The matches of [block-*/*/run.json], in the order of their paths. *)
Definition entries (path : string) : M (list string) :=
  try_except (let! names := perform (IterDir path) in ret (sort_by String.leb names)) [OSError] (fun _ => ret []).
Fixpoint load_arms (run_dir block_dir : string) (arms : list string) (c : campaign_rows) : M campaign_rows :=
  match arms with
  | [] => ret c
  | arm :: arms =>
      let dir := run_dir +:+ "/" +:+ block_dir +:+ "/" +:+ arm in
      let! present := perform (PathExists (dir +:+ "/run.json")) in
      if present then
        let! text := read_of (dir +:+ "/run.json") in
        let! run := lift (json_of text) in
        let! text := read_of (dir +:+ "/matrix.jsonl") in
        let! rows := lift (jsonl_of text) in
        load_arms run_dir block_dir arms (file_run block_dir arm run rows c)
      else load_arms run_dir block_dir arms c
  end.
Fixpoint load_blocks (run_dir : string) (blocks : list string) (c : campaign_rows) : M campaign_rows :=
  match blocks with
  | [] => ret c
  | block :: blocks =>
      if startswith "block-" block then
        let! arms := entries (run_dir +:+ "/" +:+ block) in
        let! c := load_arms run_dir block arms c in
        load_blocks run_dir blocks c
      else load_blocks run_dir blocks c
  end.
Definition load_runs (run_dir : string) : M campaign_rows :=
  let! blocks := entries run_dir in
  load_blocks run_dir blocks {| cr_groups := []; cr_systems := []; cr_profiles := [] |}.

Definition base_name (path : string) : string := default "" (list.last (split_on "/" path)).

Definition delta_main `{Libm} `{Rng} (args : delta_args) : M Z :=
  let! run_dir := perform (Resolve (da_run_dir args)) in
  let! present := perform (IsDir run_dir) in
  throw_if (negb present) SystemExit ("run directory not found: " +:+ run_dir) >>>
  let! output_dir := if is_empty (da_output_dir args) then ret (run_dir +:+ "/analysis") else perform (Resolve (da_output_dir args)) in
  perform (MakeDirs output_dir) >>>
  let! text := read_of (run_dir +:+ "/campaign.json") in
  let! campaign := lift (json_of text) in
  let run_id := py_str (dget_or "run_id" (VStr (base_name run_dir)) campaign) in
  let! c := load_runs run_dir in
  throw_if (bool_decide (length (cr_groups c) = 0%nat)) SystemExit ("no matrix rows under " +:+ run_dir) >>>
  let! r := lift (analyse_rows campaign c (da_resamples args) (da_seed args)) in
  perform (WriteText (output_dir +:+ "/summary.json") (json_indent true (summary_value run_id r) +:+ newline)) >>>
  perform (WriteText (output_dir +:+ "/summary.csv") (join newline (csv_header :: (csv_result <$> dr_results r)) +:+ newline)) >>>
  let! systems := lift (system_table (cr_systems c) (dr_blocks r)) in
  let arms := sorted_set (text_of "arm" <$> cr_groups c) in
  let governor_only := forallb (fun a => mem_string a ["custom-nogov"; "custom-gov"]) arms in
  let title := if governor_only then "Steal governor contrast on the custom kernel"
               else "Stock 7.3 versus custom kernel: scheduler delta" in
  let contrast := if governor_only then "custom-gov (treatment) versus custom-nogov (control)"
                  else "custom (treatment) versus stock (control)" in
  perform (WriteText (output_dir +:+ "/summary.md")
             (markdown title contrast run_id (dr_blocks r) (dr_results r) systems (dr_warnings r) (dr_metadata r))) >>>
  perform (Log ("  Summary: " +:+ output_dir +:+ "/summary.md")) >>>
  ret 0.
End Program.
