(* ===== verification/DeltaAnalyzeThm.v ===== *)
(** What [DeltaAnalyze.v] computes: the medians of a cell, the blocks that are
    paired, the decisions and the verdicts; and that the rows the runner writes
    are the rows that are analyzed. *)

From Stdlib Require Import ZArith Bool Ascii String Lia SpecFloat.
From stdpp Require Import base list strings option.
From S2P Require Import Prelude PyStr PyText PyFloat PyVal PyDict Json PyConv Campaign Stats SchedScenarios SchedHost SchedMatrix DeltaAnalyze.

Open Scope string_scope.
Open Scope Z_scope.

(** ** Lists under a key *)

Section Push.
Context {K V : Type} `{EqDecision K}.
Implicit Types d : list (K * list V).

Lemma find_set_key (k k' : K) (l : list V) d :
  List.find (fun p => bool_decide (k = fst p)) (assoc_set k' l d) =
  if decide (k = k') then Some (k', l) else List.find (fun p => bool_decide (k = fst p)) d.
Proof.
  induction d as [|[k1 v1] d IH]; cbn [assoc_set List.find fst].
  - by destruct (decide (k = k')) as [->|]; [rewrite bool_decide_true|rewrite bool_decide_false].
  - destruct (decide (k' = k1)) as [<-|Hne]; cbn [List.find fst].
    + by destruct (decide (k = k')) as [->|]; [rewrite bool_decide_true|rewrite !bool_decide_false].
    + rewrite IH. destruct (decide (k = k1)) as [->|]; [rewrite bool_decide_true by done|by rewrite bool_decide_false].
      by rewrite decide_False.
Qed.
Lemma found_push (k k' : K) v d : found k (push k' v d) = if decide (k = k') then (found k d ++ [v])%list else found k d.
Proof. unfold push. unfold found at 1. rewrite find_set_key. by destruct (decide (k = k')) as [->|]. Qed.
End Push.

(** ** The median of a cell *)

Definition row_cell (row : pydict) : string * string * string * string :=
  (text_of "block" row, text_of "arm" row, text_of "scenario" row, text_of "group" row).
(** The finite values of a metric in the rows of a cell, in their order. *)
Definition cell_values (cell : string * string * string * string) (name : string) (rows : list pydict) : list float :=
  omap (fun row => if bool_decide (row_cell row = cell)
                   then match finite_value (dget_none name row) with Ok v => v | Raise _ => None end
                   else None) rows.

Lemma collect_names row cell name names : forall d d',
  foldM (collect_metric row) d names = Ok d' -> NoDup names -> name ∈ names ->
  found (cell, name) d' = (found (cell, name) d ++ cell_values cell name [row])%list.
Proof.
  assert (forall names d d', foldM (collect_metric row) d names = Ok d' -> name ∉ names ->
            found (cell, name) d' = found (cell, name) d) as Hother.
  { clear. induction names as [|n names IH]; intros d d'; cbn [foldM]; [by intros <-%Ok_inj|].
    intros (d1 & H1 & H2)%rbind_Ok [Hn Hns]%list.not_elem_of_cons. rewrite (IH _ _ H2 Hns).
    unfold collect_metric in H1. apply rbind_Ok in H1 as (v & _ & <-%Ok_inj). destruct v as [x|]; [|done].
    rewrite found_push. by rewrite decide_False by congruence. }
  induction names as [|n names IH]; intros d d'; cbn [foldM]; [by intros _ _ ?%not_elem_of_nil|].
  intros (d1 & H1 & H2)%rbind_Ok [Hn Hnd]%list.NoDup_cons [<-|Hin]%list.elem_of_cons.
  - rewrite (Hother _ _ _ H2 Hn). unfold collect_metric in H1. apply rbind_Ok in H1 as (v & Hv & <-%Ok_inj).
    unfold cell_values. cbn [omap list_omap]. rewrite Hv. destruct v as [x|]; [|by destruct (bool_decide _); rewrite app_nil_r].
    rewrite found_push. unfold row_cell. case_bool_decide as Hc; [rewrite decide_True by congruence; done|].
    rewrite decide_False by congruence. by rewrite app_nil_r.
  - rewrite (IH _ _ H2 Hnd Hin). f_equal. unfold collect_metric in H1. apply rbind_Ok in H1 as (v & _ & <-%Ok_inj).
    destruct v as [x|]; [|done]. rewrite found_push. rewrite decide_False; [done|]. by intros [= _ ->].
Qed.

Lemma collect_rows cell name names rows : forall d d',
  foldM (collect_row names) d rows = Ok d' -> NoDup names -> name ∈ names ->
  found (cell, name) d' = (found (cell, name) d ++ cell_values cell name rows)%list.
Proof.
  induction rows as [|row rows IH]; intros d d'; cbn [foldM]; [intros <-%Ok_inj _ _; by rewrite app_nil_r|].
  intros (d1 & H1 & H2)%rbind_Ok Hnd Hin. rewrite (IH _ _ H2 Hnd Hin). unfold collect_row in H1.
  rewrite (collect_names _ cell name _ _ _ H1 Hnd Hin), <- app_assoc. f_equal. unfold cell_values. cbn [omap list_omap].
  by destruct (if bool_decide (row_cell row = cell) then _ else _).
Qed.

(** No cell is collected without a value. *)
Lemma collect_filled names rows : forall d d',
  foldM (collect_row names) d rows = Ok d' -> Forall (fun p => snd p ≠ []) d -> Forall (fun p => snd p ≠ []) d'.
Proof.
  assert (forall row names d d', foldM (collect_metric row) d names = Ok d' -> Forall (fun p => snd p ≠ []) d ->
            Forall (fun p => snd p ≠ []) d') as Hrow.
  { clear. intros row. induction names as [|n names IH]; intros d d'; cbn [foldM]; [by intros <-%Ok_inj|].
    intros (d1 & H1 & H2)%rbind_Ok Hd. apply (IH _ _ H2). unfold collect_metric in H1. apply rbind_Ok in H1 as (v & _ & <-%Ok_inj).
    destruct v as [x|]; [|done]. apply List.Forall_forall. intros p Hp%list_elem_of_In. unfold push in Hp.
    apply assoc_set_elem in Hp as [->|Hp]; [cbn [snd]; intros [_ [=]]%app_eq_nil|].
    rewrite List.Forall_forall in Hd. by apply Hd, list_elem_of_In. }
  induction rows as [|row rows IH]; intros d d'; cbn [foldM]; [by intros <-%Ok_inj|].
  intros (d1 & H1 & H2)%rbind_Ok Hd. apply (IH _ _ H2). by apply (Hrow _ _ _ _ H1).
Qed.

Lemma value_of_found key (d : list (cell_key * list float)) : Forall (fun p => snd p ≠ []) d ->
  value_of key ((fun p => (fst p, median (snd p))) <$> d) = match found key d with [] => None | vs => Some (median vs) end.
Proof.
  unfold value_of, found. induction 1 as [|[k vs] d Hv Hd IH]; [done|]. cbn [fmap list_fmap List.find fst].
  destruct (bool_decide (key = k)); [|exact IH]. cbn. by destruct vs.
Qed.

(** Aggregation is the median of a cell.  For every block, arm, scenario,
    group and metric name, the value that the analysis uses is the median of the
    finite numbers that the rows of that cell hold for the metric, whatever
    other rows and metrics there are; and there is none exactly when no row of
    the cell holds one. *)
Theorem aggregate_is_median rows names aggregated cell name :
  aggregate rows names = Ok aggregated -> NoDup names -> name ∈ names ->
  value_of (cell, name) aggregated =
    match cell_values cell name rows with [] => None | vs => Some (median vs) end.
Proof.
  unfold aggregate. intros (d & Hd & <-%Ok_inj)%rbind_Ok Hnd Hin. rewrite value_of_found.
  - by rewrite (collect_rows cell name _ _ _ _ Hd Hnd Hin).
  - eapply collect_filled; [exact Hd|constructor].
Qed.

(** ** The rows that are read are the rows that were written *)

Lemma one_line_int z : one_line (str_of_Z z) = true.
Proof. apply one_line_no_space, int_str. Qed.
Lemma one_line_pad n z : one_line (pad0 n z) = true.
Proof.
  unfold pad0. rewrite one_line_app, one_line_int, andb_true_r. by induction (n - _)%nat.
Qed.
Lemma one_line_join sep l : one_line sep = true -> Forall (fun s => one_line s = true) l -> one_line (join sep l) = true.
Proof.
  intros Hs. induction 1 as [|x l Hx Hl IH]; [done|]. destruct l as [|y l]; [done|].
  change (join sep (x :: y :: l)) with (x +:+ sep +:+ join sep (y :: l)). rewrite !one_line_app, Hx, Hs. exact IH.
Qed.
Lemma one_line_json_string s : one_line (json_string s) = true.
Proof.
  unfold json_string. rewrite !one_line_app, andb_true_r. induction s as [|c s IH]; [done|]. cbn [concat_map_str].
  rewrite andb_true_l in *. rewrite one_line_app, IH, andb_true_r. clear.
  destruct c as [[] [] [] [] [] [] [] []]; vm_compute; reflexivity.
Qed.
Lemma one_line_exp ds ex : one_line ds = true -> one_line (exp_form ds ex) = true.
Proof.
  intros Hd. unfold exp_form. rewrite !one_line_app, one_line_pad.
  assert (one_line match ds with String c EmptyString => ds | String c t => String c ("." +:+ t) | EmptyString => ds end = true) as ->.
  { destruct ds as [|c [|d t]]; [done|done|]. cbn in Hd |- *. by apply andb_prop in Hd as [-> ->]. }
  by destruct (ex <? 0).
Qed.
Lemma one_line_json_float f : one_line (json_float f) = true.
Proof.
  destruct f as [s|s| |s m e]; [by destruct s..|done|]. cbn [json_float]. unfold repr_float.
  destruct (magnitude m e) as [a d]. destruct (shortest_go _ _ _ _ _) as [q k]. destruct (strip_zeros_go 20 q k) as [q' k'].
  rewrite one_line_app. assert (one_line (if s then "-" else "") = true) as -> by by destruct s.
  destruct (_ || _); [apply one_line_exp, one_line_int|]. unfold fixed_form.
  destruct (0 <=? k'); rewrite !one_line_app, ?one_line_int, ?one_line_pad; done.
Qed.

Lemma one_line_json sorted v : forall lvl, one_line (json_text (plain_style sorted) lvl v) = true.
Proof.
  induction v as [|b|z|f|s|l IHl|d IHd] using pyval_nested_ind; intros lvl; cbn [json_text].
  - done.
  - by destruct b.
  - apply one_line_int.
  - apply one_line_json_float.
  - apply one_line_json_string.
  - destruct l as [|x l]; [done|]. rewrite !one_line_app.
    rewrite !andb_true_iff. split_and!; [done|done| |done|done]. apply one_line_join; [done|].
    apply List.Forall_map. eapply List.Forall_impl; [|exact IHl]. auto.
  - destruct d as [|p d]; [done|]. rewrite !one_line_app.
    rewrite !andb_true_iff. split_and!; [done|done| |done|done]. apply one_line_join; [done|]. apply List.Forall_map. rewrite order_items_perm. apply List.Forall_map.
    eapply List.Forall_impl; [|exact IHd]. intros [k w] Hw. cbn [fst snd] in *. rewrite !one_line_app, one_line_json_string, Hw. done.
Qed.

Lemma strip_json_dict d : strip (json_plain true (VDict d)) = json_plain true (VDict d).
Proof.
  unfold json_plain. destruct d as [|p d]; [reflexivity|]. cbn [json_text]. cbn [js_open js_close plain_style].
  set (body := join _ _). change (strip (String "{" (body +:+ "}")) = String "{" (body +:+ "}")).
  unfold strip. cbn [lstrip]. change (is_space "{") with false. cbv iota. exact (rstrip_closed (String "{" body) "}" eq_refl).
Qed.

(** The row as it is printed: its keys are sorted, at every depth. *)
Definition sorted_row (row : pydict) : pydict := match json_norm true (VDict row) with VDict d => d | _ => [] end.

Lemma sorted_row_loads row : json_wf (VDict row) = true -> json_loads (json_plain true (VDict row)) = Ok (VDict (sorted_row row)).
Proof.
  intros Hr. pose proof (json_loads_text (plain_style true) (VDict row) "" ltac:(auto with k8) Hr eq_refl) as E.
  rewrite str_app_nil_r in E. exact E.
Qed.
Lemma sorted_row_get row k : json_wf (VDict row) = true -> dget k (sorted_row row) = json_norm true <$> dget k row.
Proof. intros Hr. apply (dget_json_norm true k row); [done|]. unfold sorted_row. by destruct (json_norm true (VDict row)) eqn:E. Qed.

Lemma jsonl_rows_text rows : Forall (fun row => json_wf (VDict row) = true) rows ->
  jsonl_rows ((fun row => json_plain true (VDict row)) <$> rows) = Ok (sorted_row <$> rows).
Proof.
  induction 1 as [|row rows Hr Hrows IH]; [done|]. cbn [fmap list_fmap jsonl_rows]. rewrite strip_json_dict.
  assert (is_empty (json_plain true (VDict row)) = false) as -> by (unfold json_plain; by destruct row).
  rewrite sorted_row_loads by done. cbn [rbind]. rewrite IH. reflexivity.
Qed.

Lemma join_lines l : join "" ((fun s => s +:+ newline) <$> l) = match l with [] => "" | _ => join newline l +:+ newline end.
Proof.
  induction l as [|x l IH]; [done|]. destruct l as [|y l]; [done|].
  change (join newline (x :: y :: l)) with (x +:+ newline +:+ join newline (y :: l)).
  change (join "" ((fun s => s +:+ newline) <$> (x :: y :: l))) with ((x +:+ newline) +:+ "" +:+ join "" ((fun s => s +:+ newline) <$> (y :: l))).
  rewrite IH. by rewrite !str_app_assoc.
Qed.

(** The lines of the file are the rows. *)
Lemma rows_text_lines rows : splitlines (rows_text rows) = (fun row => json_plain true (VDict row)) <$> rows.
Proof.
  unfold rows_text.
  change ((fun row => json_plain true (VDict row) +:+ newline) <$> rows)
    with ((fun s => s +:+ newline) ∘ (fun row => json_plain true (VDict row)) <$> rows).
  rewrite list_fmap_compose, join_lines. destruct rows as [|row rows]; [done|]. cbn [fmap list_fmap].
  rewrite splitlines_lines; [done|done|].
  apply (proj2 (List.Forall_map (fun row => json_plain true (VDict row)) (fun s => one_line s = true) (row :: rows))).
  apply List.Forall_forall. intros r _. apply one_line_json.
Qed.

(** The analysis reads back the rows that the runner wrote.  For rows whose
    floats print and parse back (as Python's do) and whose keys are distinct, the
    text of [run_matrix.py] is read by [read_jsonl] as the same rows in the same
    order: no row is dropped or split, and every key has the value that was
    written, with the keys of nested dictionaries sorted. *)
Theorem rows_read_back rows : Forall (fun row => json_wf (VDict row) = true) rows ->
  exists rows', jsonl_of (Ok (rows_text rows)) = Ok rows' /\
    Forall2 (fun row row' => forall k, dget k row' = json_norm true <$> dget k row) rows rows'.
Proof.
  intros Hwf. exists (sorted_row <$> rows). split.
  - unfold jsonl_of. rewrite rows_text_lines. by apply jsonl_rows_text.
  - induction Hwf as [|row rows Hr Hrows IH]; constructor; [|exact IH]. intros k. by apply sorted_row_get.
Qed.

(** ** Decisions and verdicts *)

(** Both arms have a value in the block, and a ratio of them can be judged. *)
Definition comparable (aggregated : list (cell_key * float)) (control treatment : string) (m : Metric) (p : block_pair) : Prop :=
  value_of (bp_block p, control, me_scenario m, me_group m, me_metric m) aggregated = Some (bp_control p) /\
  value_of (bp_block p, treatment, me_scenario m, me_group m, me_metric m) aggregated = Some (bp_treatment p) /\
  (expected_for m ≠ "descriptive" -> fleb (bp_control p) fzero = false /\ fleb (bp_treatment p) fzero = false).

(** What an interval shows; ratios above one are improvements. *)
Definition shows_better (e : estimate) : Prop := fltb one (o_low e) = true /\ fltb above_band (o_ratio e) = true.
Definition shows_worse (e : estimate) : Prop := fltb (o_high e) one = true /\ fltb (o_ratio e) below_band = true.
Definition shows_inside (e : estimate) : Prop := fleb below_band (o_low e) = true /\ fleb (o_high e) above_band = true.
Definition shows_outside (e : estimate) : Prop := fltb above_band (o_low e) = true \/ fltb (o_high e) below_band = true.

(** The decision that an interval over enough blocks leads to, in both directions. *)
Definition decided_by (direction : string) (e : estimate) (decision : string) : Prop :=
  if decide (direction = "equivalent") then
    decision ∈ ["equivalent"; "different"; "inconclusive"] /\
    (decision = "equivalent" <-> shows_inside e) /\
    (decision = "different" <-> ~ shows_inside e /\ shows_outside e)
  else
    decision ∈ ["improved"; "regressed"; "equivalent"; "inconclusive"] /\
    (decision = "improved" <-> shows_better e) /\
    (decision = "regressed" <-> ~ shows_better e /\ shows_worse e) /\
    (decision = "equivalent" <-> ~ shows_better e /\ ~ shows_worse e /\ shows_inside e).

(** The decision that passes. *)
Definition passing (expected decision : string) : Prop :=
  (expected, decision) ∈ [("improve", "improved"); ("equivalent", "equivalent"); ("regress", "regressed")].
(** A verdict needs three blocks, a decision, and an expectation it can meet. *)
Definition has_verdict (expected decision : string) (blocks : Z) : Prop :=
  3 <= blocks /\ decision ∉ ["inconclusive"; "missing"] /\ expected ∈ ["improve"; "equivalent"; "regress"].

Lemma classify_decided direction expected e blocks : expected ≠ "descriptive" -> 3 <= blocks ->
  decided_by direction e (classify direction expected (o_ratio e) (o_low e) (o_high e) blocks).
Proof.
  intros Hexp Hb. unfold decided_by, classify, shows_better, shows_worse, shows_inside, shows_outside. cbv zeta. change DELTA_MIN_BLOCKS with 3.
  rewrite (proj2 (String.eqb_neq _ _) Hexp). rewrite (proj2 (Z.ltb_ge _ _) Hb).
  destruct (fleb below_band (o_low e)), (fleb (o_high e) above_band); cbn [andb];
    destruct (decide (direction = "equivalent")) as [->|Hd].
  1,3,5,7: rewrite String.eqb_refl; destruct (fltb above_band (o_low e)), (fltb (o_high e) below_band); cbn [orb].
  all: try (rewrite (proj2 (String.eqb_neq _ _) Hd);
    destruct (fltb one (o_low e)), (fltb above_band (o_ratio e)), (fltb (o_high e) one), (fltb (o_ratio e) below_band); cbn [andb]).
  all: rewrite !list.elem_of_cons; split_and!; intuition congruence.
Qed.

Lemma status_verdict expected decision blocks :
  (status_for expected decision blocks = "PASS" <-> has_verdict expected decision blocks /\ passing expected decision) /\
  (status_for expected decision blocks = "FAIL" <-> has_verdict expected decision blocks /\ ~ passing expected decision).
Proof.
  unfold status_for, passing, has_verdict. rewrite !list.elem_of_cons, !list.elem_of_nil.
  destruct (String.eqb_spec expected "descriptive") as [->|Hexp]; [intuition congruence|].
  destruct (Z.ltb_spec blocks DELTA_MIN_BLOCKS) as [Hb|Hb]; unfold DELTA_MIN_BLOCKS in Hb; cbn [orb]; [intuition (try congruence; lia)|].
  destruct (mem_string decision ["inconclusive"; "missing"]) eqn:Em.
  { apply mem_string_spec in Em; rewrite !list.elem_of_cons, list.elem_of_nil in Em; intuition congruence. }
  assert (~ (decision = "inconclusive" \/ decision = "missing" \/ False)) as Hd.
  { rewrite <- (list.elem_of_nil decision), <- !list.elem_of_cons, <- mem_string_spec, Em. done. }
  destruct (String.eqb_spec expected "improve") as [->|N1]; [destruct (String.eqb_spec decision "improved") as [->|]|
  destruct (String.eqb_spec expected "equivalent") as [->|N2]; [destruct (String.eqb_spec decision "equivalent") as [->|]|
  destruct (String.eqb_spec expected "regress") as [->|N3]; [destruct (String.eqb_spec decision "regressed") as [->|]|]]].
  all: intuition congruence.
Qed.

Lemma pair_of_spec aggregated control treatment m blocks p :
  p ∈ (blocks ≫= pair_of aggregated control treatment m) <-> bp_block p ∈ blocks /\ comparable aggregated control treatment m p.
Proof.
  rewrite list_elem_of_bind. unfold pair_of, comparable. split.
  - intros (b & Hp & Hb). destruct (value_of (b, control, _, _, _) aggregated) as [x|] eqn:Ec; [|by apply not_elem_of_nil in Hp].
    destruct (value_of (b, treatment, _, _, _) aggregated) as [y|] eqn:Et; [|by apply not_elem_of_nil in Hp].
    destruct (negb _ && _) eqn:E; [by apply not_elem_of_nil in Hp|]. apply list_elem_of_singleton in Hp as ->.
    cbn [bp_block bp_control bp_treatment]. split; [done|]. split; [done|]. split; [done|]. intros Hd.
    rewrite (proj2 (String.eqb_neq _ _) Hd) in E. cbn in E. by apply orb_false_elim.
  - intros (Hb & Hc & Ht & Hd). exists (bp_block p). split; [|done]. rewrite Hc, Ht.
    assert (negb (String.eqb (expected_for m) "descriptive") && (fleb (bp_control p) fzero || fleb (bp_treatment p) fzero) = false) as ->.
    { destruct (String.eqb_spec (expected_for m) "descriptive") as [|Hne]; [done|]. by destruct (Hd Hne) as [-> ->]. }
    destruct p. by apply list_elem_of_singleton.
Qed.

Section Verdicts.
Context `{Libm} `{Rng}.

(** The estimate over the pairs of blocks: the geometric mean of the ratios of
    treatment to control with its bootstrap interval, inverted where lower is
    better; none when a value is not positive or there is no pair. *)
Definition measured_by (direction : string) (pairs : list block_pair) (resamples seed : Z) (e : estimate) : Prop :=
  if decide (pairs ≠ [] /\ Forall (fun p => fltb fzero (bp_control p) = true /\ fltb fzero (bp_treatment p) = true) pairs) then
    exists logs, Forall2 (fun p x => exists q, fdiv (bp_treatment p) (bp_control p) = Ok q /\ math_log q = Ok x) pairs logs /\
      math_exp (fdiv_ieee (py_sum logs) (float_len logs)) = Ok (e_ratio e) /\
      bootstrap_ci logs resamples seed = Ok (e_low e, e_high e) /\
      if decide (direction = "lower") then
        fdiv one (e_ratio e) = Ok (o_ratio e) /\ fdiv one (e_high e) = Ok (o_low e) /\ fdiv one (e_low e) = Ok (o_high e)
      else (o_ratio e, o_low e, o_high e) = (e_ratio e, e_low e, e_high e)
  else e = no_estimate.

(** The decision and the status of a result outside a pilot. *)
Definition judged (m : Metric) (e : estimate) (x : Result) : Prop :=
  (r_decision x = "missing" <-> r_per_block x = []) /\
  (r_per_block x ≠ [] -> r_expected x = "descriptive" -> r_decision x = "descriptive") /\
  (r_per_block x ≠ [] -> r_expected x ≠ "descriptive" ->
     if decide (r_blocks x < 3) then r_decision x = "inconclusive" else decided_by (me_direction m) e (r_decision x)) /\
  (r_status x = "PASS" <-> has_verdict (r_expected x) (r_decision x) (r_blocks x) /\ passing (r_expected x) (r_decision x)) /\
  (r_status x = "FAIL" <-> has_verdict (r_expected x) (r_decision x) (r_blocks x) /\ ~ passing (r_expected x) (r_decision x)).

(** What one result says. *)
Definition result_sound (m : Metric) (aggregated : list (cell_key * float)) (blocks : list string) (resamples seed : Z)
    (pilot : bool) (x : Result) : Prop :=
  exists control treatment,
    contrast_arms (contrast_of_metric m) = Some (control, treatment) /\
    (r_scenario x, r_group x, r_metric x, r_expected x) = (me_scenario m, me_group m, me_metric m, expected_for m) /\
    (r_control x, r_treatment x) = (control, treatment) /\
    (forall p, p ∈ r_per_block x <-> bp_block p ∈ blocks /\ comparable aggregated control treatment m p) /\
    r_blocks x = Z.of_nat (length (r_per_block x)) /\
    exists e, measured_by (me_direction m) (r_per_block x) resamples seed e /\
      (r_ratio x, r_ci_low x, r_ci_high x, r_oriented_ratio x) = (e_ratio e, e_low e, e_high e, o_ratio e) /\
      if pilot && negb (String.eqb (r_expected x) "descriptive")
      then (r_decision x, r_status x) = ("inconclusive", "INCONCLUSIVE") else judged m e x.

Lemma estimate_measured direction pairs resamples seed e : pairs ≠ [] ->
  estimate_of direction pairs resamples seed = Ok e -> measured_by direction pairs resamples seed e.
Proof.
  intros Hne. unfold estimate_of, measured_by. destruct (forallb loggable pairs) eqn:Hl; cbn [negb].
  - rewrite decide_True; [|split; [done|]]; last first.
    { apply List.Forall_forall. intros p Hp. rewrite forallb_forall in Hl. specialize (Hl p Hp). by apply andb_prop in Hl. }
    intros (logs & Hlogs & (ratio & Hratio & ([low high] & Hci & E)%rbind_Ok)%rbind_Ok)%rbind_Ok. exists logs. split.
    { apply mapM_Ok in Hlogs. revert Hlogs. apply Forall2_impl. intros p x (q & Hq & Hx)%rbind_Ok. by exists q. }
    destruct (String.eqb_spec direction "lower") as [->|Hd].
    + apply rbind_Ok in E as (r & Hr & (l & Hlo & (h & Hh & <-%Ok_inj)%rbind_Ok)%rbind_Ok). rewrite decide_True by done. by split_and!.
    + apply Ok_inj in E as <-. rewrite decide_False by done. by split_and!.
  - intros <-%Ok_inj. rewrite decide_False; [done|]. intros [_ Hf]. rewrite List.Forall_forall in Hf.
    assert (forallb loggable pairs = true) as E; [|congruence]. apply forallb_forall. intros p Hp. unfold loggable.
    by destruct (Hf p Hp) as [-> ->].
Qed.

Lemma classify_not_missing direction expected point low high blocks : classify direction expected point low high blocks ≠ "missing".
Proof. unfold classify. cbv zeta. by repeat match goal with |- context [if ?b then _ else _] => destruct b end. Qed.

Lemma result_judged m control treatment pairs cm tm e decision :
  (decision = "missing" <-> pairs = []) ->
  (pairs ≠ [] -> decision = classify (me_direction m) (expected_for m) (o_ratio e) (o_low e) (o_high e) (Z.of_nat (length pairs))) ->
  judged m e (result_of m control treatment pairs cm tm e decision).
Proof.
  intros Hmiss Hcl. unfold judged. cbn. split_and!; [exact Hmiss| | |apply status_verdict..].
  - intros Hne Hexp. rewrite (Hcl Hne), Hexp. reflexivity.
  - intros Hne Hexp. rewrite (Hcl Hne). destruct (decide _) as [Hlt|Hge].
    + unfold classify. rewrite (proj2 (String.eqb_neq _ _) Hexp). change DELTA_MIN_BLOCKS with 3. by rewrite (proj2 (Z.ltb_lt _ _) Hlt).
    + apply classify_decided; [done|lia].
Qed.

Lemma analyse_metric_sound m aggregated blocks resamples seed x :
  analyse_metric m aggregated blocks resamples seed = Ok x -> result_sound m aggregated blocks resamples seed false x.
Proof.
  unfold analyse_metric, result_sound. destruct (contrast_arms _) as [[control treatment]|]; [|done]. intros E.
  exists control, treatment. split; [done|]. set (pairs := blocks ≫= pair_of aggregated control treatment m) in E.
  assert (forall p, p ∈ pairs <-> bp_block p ∈ blocks /\ comparable aggregated control treatment m p) as Hpairs by apply pair_of_spec.
  destruct pairs as [|p0 pairs0] eqn:Ep.
  - apply Ok_inj in E as <-. do 2 (split; [done|]). split; [exact Hpairs|]. split; [done|]. exists no_estimate.
    split; [by unfold measured_by; rewrite decide_False by (by intros [])|]. split; [done|]. by apply result_judged.
  - rewrite <- Ep in *. assert (pairs ≠ []) as Hne by by rewrite Ep. clear Ep. apply rbind_Ok in E as (e & He & <-%Ok_inj).
    do 2 (split; [done|]). split; [exact Hpairs|]. split; [done|]. exists e.
    split; [by apply estimate_measured|]. split; [done|]. apply result_judged; [|done].
    split; [by intros ?%classify_not_missing|done].
Qed.

Lemma without_verdict_sound m aggregated blocks resamples seed x :
  result_sound m aggregated blocks resamples seed false x -> result_sound m aggregated blocks resamples seed true (without_verdict x).
Proof.
  intros (control & treatment & Hc & Hx & Ha & Hp & Hb & e & Hm & He & Hs). exists control, treatment. unfold without_verdict.
  destruct (String.eqb (r_expected x) "descriptive") eqn:Hd; do 5 (split; [done|]); exists e.
  - rewrite Hd. by split_and!.
  - cbn [r_expected]. rewrite Hd. by split_and!.
Qed.

(** C13: What the analysis reports.  A report has one result for every declared
    metric whose scenario has rows, in the declared order.  A result pairs exactly
    the blocks of the report in which both arms have a value (a positive one,
    unless the metric is descriptive).  Its ratio is the geometric mean of the
    ratios of treatment to control over those blocks, with the bootstrap interval,
    and both are inverted for the decision where lower is better.  With three
    blocks, the decision is determined by ratio and interval, in both directions:
    better or worse when one is outside the interval and the ratio beyond the band,
    equivalent when the interval is inside the band, different (for a metric that
    is to stay equal) when it is outside, inconclusive otherwise.  A result passes
    exactly when the decision is the expected one, and fails exactly when it is
    another one; in a pilot every result is inconclusive. *)
Theorem report_sound campaign c resamples seed r :
  analyse_rows campaign c resamples seed = Ok r ->
  exists aggregated, aggregate (cr_groups c) metric_names = Ok aggregated /\
    Forall2 (fun m x => result_sound m aggregated (dr_blocks r) resamples seed (mem_string "pilot" (cr_profiles c)) x)
      (List.filter (fun m => mem_string (me_scenario m) (text_of "scenario" <$> cr_groups c)) (PRIMARY_METRICS ++ DESCRIPTIVE_METRICS)%list)
      (dr_results r).
Proof.
  unfold analyse_rows. intros (aggregated & Ha & E)%rbind_Ok. exists aggregated. split; [done|]. revert E. cbv zeta.
  set (blocks := match block_names (cr_groups c) with [] => _ | l => l end).
  intros (u & _ & (results & Hr & (ws & _ & <-%Ok_inj)%rbind_Ok)%rbind_Ok)%rbind_Ok. cbn [dr_blocks dr_results].
  unfold analysed in Hr. apply mapM_Ok in Hr.
  assert (forall l ys, Forall2 (fun m x => analyse_metric m aggregated blocks resamples seed = Ok x) l ys ->
    Forall2 (fun m x => result_sound m aggregated blocks resamples seed (mem_string "pilot" (cr_profiles c)) x) l
      (if mem_string "pilot" (cr_profiles c) then without_verdict <$> ys else ys)) as Hall; [|by apply Hall].
  intros l ys Hl. destruct (mem_string "pilot" (cr_profiles c)); induction Hl as [|m x l ys Hx Hl IH]; constructor; try exact IH.
  - by apply without_verdict_sound, analyse_metric_sound.
  - by apply analyse_metric_sound.
Qed.
End Verdicts.

(** ** A campaign of three blocks *)

#[local] Instance linear_libm : Libm :=
  {| c_log := fun x => fsub x one; c_log1p := fun x => x; c_exp := fun x => fadd x one; c_lgamma := fun x => x |}.
#[local] Instance zero_rng : Rng.
Proof. refine {| randbelow := fun _ _ _ => 0%nat |}. done. Defined.

Definition lab_row (block arm : string) (rep : Z) (p99 : Z) : pydict :=
  [("block", VStr block); ("arm", VStr arm); ("scenario", VStr "wakeup"); ("rep", VInt rep); ("group", VStr "probe");
   ("kind", VStr "group"); ("node", VStr "worker-1"); ("p99_us", VInt p99); ("max_us", VInt 0)].
Definition lab_rows : list pydict :=
  ["a"; "b"; "c"] ≫= fun block =>
    [lab_row block "stock" 1 200; lab_row block "stock" 2 220; lab_row block "custom" 1 100; lab_row block "custom" 2 110].
Definition lab_rows_of (profiles : list string) : campaign_rows := {| cr_groups := lab_rows; cr_systems := []; cr_profiles := profiles |}.

Lemma aggregate_is_median_witness :
  exists aggregated, aggregate lab_rows metric_names = Ok aggregated /\
    value_of (("a", "stock", "wakeup", "probe"), "p99_us") aggregated = Some (flit 210 1).
Proof.
  assert (exists aggregated, aggregate lab_rows metric_names = Ok aggregated) as [aggregated E]
    by (eexists; vm_compute; reflexivity).
  exists aggregated. split; [exact E|].
  rewrite (aggregate_is_median lab_rows metric_names aggregated ("a", "stock", "wakeup", "probe") "p99_us" E).
  - vm_compute. reflexivity.
  - apply NoDup_remove_dups.
  - apply elem_of_remove_dups, list_elem_of_In. vm_compute. auto 30.
Defined.

Lemma rows_read_back_witness :
  exists rows', jsonl_of (Ok (rows_text lab_rows)) = Ok rows' /\ length rows' = 12%nat /\
    (dget "p99_us" <$> head rows') = Some (Some (VInt 200)).
Proof.
  destruct (rows_read_back lab_rows) as (rows' & E & Hf).
  - apply List.Forall_forall. assert (forallb (fun row => json_wf (VDict row)) lab_rows = true) as Hb by (vm_compute; reflexivity).
    rewrite forallb_forall in Hb. exact Hb.
  - exists rows'. split; [exact E|]. split; [by rewrite <- (Forall2_length Hf)|].
    change lab_rows with (lab_row "a" "stock" 1 200 :: tail lab_rows) in Hf. inversion Hf as [|? row' ? ? Hr _]; subst.
    cbn [head fmap option_fmap option_map]. by rewrite Hr.
Defined.

(** The probe is twice as fast; the metric without positive values is descriptive only. *)
Definition lab_verdicts (profiles : list string) : result (list (string * string * string)) :=
  let* r := analyse_rows [] (lab_rows_of profiles) 100 1 in
  Ok ((fun x => (r_metric x, r_decision x, r_status x)) <$> dr_results r).
Example three_blocks : lab_verdicts [] =
  Ok [("p999_us", "missing", "INCONCLUSIVE"); ("p99_us", "improved", "PASS"); ("iterations_per_s", "missing", "INCONCLUSIVE");
      ("max_us", "descriptive", "descriptive")].
Proof. vm_compute. reflexivity. Qed.
Example pilot_profile : lab_verdicts ["pilot"] =
  Ok [("p999_us", "inconclusive", "INCONCLUSIVE"); ("p99_us", "inconclusive", "INCONCLUSIVE");
      ("iterations_per_s", "inconclusive", "INCONCLUSIVE"); ("max_us", "descriptive", "descriptive")].
Proof. vm_compute. reflexivity. Qed.

(** Equal arms are equivalent, but not when the value is zero: such blocks are
    dropped, and the metric is missing. *)
Definition zero_rows : list pydict :=
  ["a"; "b"; "c"] ≫= fun block => ["stock"; "custom"] ≫= fun arm =>
    [[("block", VStr block); ("arm", VStr arm); ("scenario", VStr "quota"); ("group", VStr "limited"); ("kind", VStr "group");
      ("throttled_period_pct", VInt 0); ("delivered_cpu_pct", VInt 50)]].
Example zero_is_missing :
  (let* r := analyse_rows [] {| cr_groups := zero_rows; cr_systems := []; cr_profiles := [] |} 100 1 in
   Ok (take 2 ((fun x => (r_metric x, r_decision x, r_status x)) <$> dr_results r))) =
  Ok [("delivered_cpu_pct", "equivalent", "PASS"); ("throttled_period_pct", "missing", "INCONCLUSIVE")].
Proof. vm_compute. reflexivity. Qed.

Lemma report_sound_witness :
  exists r x, analyse_rows [] (lab_rows_of []) 100 1 = Ok r /\ x ∈ dr_results r /\ r_status x = "PASS" /\ 3 <= r_blocks x.
Proof.
  assert (exists r, analyse_rows [] (lab_rows_of []) 100 1 = Ok r) as [r E] by (eexists; vm_compute; reflexivity).
  destruct (report_sound [] (lab_rows_of []) 100 1 r E) as (aggregated & Ha & Hf).
  assert (lab_verdicts [] = Ok ((fun x => (r_metric x, r_decision x, r_status x)) <$> dr_results r)) as Hv
    by (unfold lab_verdicts; by rewrite E).
  rewrite three_blocks in Hv. apply Ok_inj in Hv.
  destruct (dr_results r) as [|x0 [|x rest]] eqn:Er; [discriminate Hv|discriminate Hv|].
  exists r, x. split; [exact E|]. rewrite Er. split; [right; left|]. injection Hv as _ _ _ _ _ Hst _.
  split; [by rewrite <- Hst|]. apply Forall2_cons_inv_r in Hf as (m0 & l & _ & Hf & _).
  apply Forall2_cons_inv_r in Hf as (m & l' & Hx & _ & _). destruct Hx as (_ & _ & _ & _ & _ & _ & _ & e & _ & _ & Hj).
  change (mem_string "pilot" (cr_profiles (lab_rows_of []))) with false in Hj. destruct Hj as (_ & _ & _ & Hp & _).
  apply Hp. by rewrite <- Hst.
Defined.
