(* ===== verification/ModeScenarios.v ===== *)
(** [sched-core-modes/experiments/scenarios.py]: the scenarios of the study of
    the kernel's cgroup modes, the shares that its model expects, and the text in
    which the kernel shows the modes. *)

From Stdlib Require Import ZArith Bool Ascii String Lia SpecFloat.
From stdpp Require Import base list strings option.
From S2P Require Import Prelude PyStr PyText PyFloat PyVal PyDict.

Open Scope string_scope.
Open Scope Z_scope.

Definition MODES : list string := ["up"; "smp"; "concur"; "max"; "tasks"].
Definition DEFAULT_CPUS : Z := 2.
Definition MODE_SUMMARY : list (string * string) :=
  [("up", "full group weight on every CPU (F_g_n = 1)");
   ("smp", "group weight distributed across the CPUs its tasks use");
   ("concur", "min(tasks, cpus) x weight (per active CPU)");
   ("max", "cpus x weight, clipped at nice -20");
   ("tasks", "tasks x weight (weight per runnable task)")].

(** The groups of a scenario as they are written: [None] is an absent key. *)
Record FlatGroup : Type := {
  fg_name : string; fg_weight : Z; fg_threads : Z; fg_cpu_max : option string; fg_workload : option string
}.
Record ChildGroup : Type := { ch_name : string; ch_weight : Z; ch_threads : Z }.
Record ParentGroup : Type := { pa_name : string; pa_weight : Z; pa_threads : Z; pa_children : list ChildGroup }.
(** The values of [kind], each with the key that goes with it. *)
Inductive ScenarioKind : Type :=
  | flat (groups : list FlatGroup)
  | nested (parents : list ParentGroup).
Record Scenario : Type := { sn_kind : ScenarioKind; sn_description : string }.

Definition plain_group (name : string) (weight threads : Z) : FlatGroup :=
  {| fg_name := name; fg_weight := weight; fg_threads := threads; fg_cpu_max := None; fg_workload := None |}.

Definition SCENARIOS : list (string * Scenario) :=
  [("weighted_threads",
    {| sn_kind := flat [plain_group "w400-t1" 400 1; plain_group "w200-t2" 200 2; plain_group "w100-t4" 100 4];
       sn_description := "Three groups with deliberately inverse weight/thread pairs: " +:+
                         "400/1t, 200/2t, 100/4t. This separates every mode." |});
   ("qos_nested",
    {| sn_kind := nested
         [{| pa_name := "qos-guaranteed"; pa_weight := 100; pa_threads := 1; pa_children := [] |};
          {| pa_name := "qos-burstable"; pa_weight := 100; pa_threads := 4;
             pa_children := [{| ch_name := "pod-a"; ch_weight := 100; ch_threads := 2 |};
                             {| ch_name := "pod-b"; ch_weight := 100; ch_threads := 2 |}] |}];
       sn_description := "Guaranteed-shaped parent (100/1t) versus a Burstable-shaped " +:+
                         "parent (100 with two 100/2t pod children). Shows QoS-level " +:+
                         "amplification under concur/tasks." |});
   ("quota",
    {| sn_kind := flat
         [{| fg_name := "limited"; fg_weight := 100; fg_threads := 2; fg_cpu_max := Some "50000 100000"; fg_workload := None |};
          plain_group "open" 100 2];
       sn_description := "Equal-weight 100/2t groups; one has cpu.max=50000 100000 " +:+
                         "(0.5 CPU), the other is unconstrained. Quota enforcement is " +:+
                         "independent of cgroup_mode." |});
   ("latency",
    {| sn_kind := flat
         [{| fg_name := "load"; fg_weight := 400; fg_threads := 2; fg_cpu_max := None; fg_workload := Some "cpu" |};
          {| fg_name := "probe"; fg_weight := 100; fg_threads := 1; fg_cpu_max := None; fg_workload := Some "latency" |}];
       sn_description := "Load group 400/2t plus a 1 ms wakeup probe in a 100/1t group. " +:+
                         "Measures p50/p99 wakeup delay and the probe's CPU share." |})].

Definition scenario_names : list string := fst <$> SCENARIOS.

(** [SCENARIOS[scenario_name]] *)
Definition scenario_of (name : string) : result Scenario :=
  match List.find (fun p => String.eqb name (fst p)) SCENARIOS with
  | Some (_, s) => Ok s
  | None => Raise (Exn KeyError (repr_str name))
  end.

(** ** The units that the mode scales *)

Record scale_unit : Type := {
  un_name : string; un_weight : Z; un_threads : Z; un_kind : string; un_parent : string; un_cpu_max : string;
  un_workload : string
}.

Definition unit_of_parent (p : ParentGroup) : scale_unit :=
  {| un_name := pa_name p; un_weight := pa_weight p; un_threads := pa_threads p; un_kind := "parent"; un_parent := "";
     un_cpu_max := ""; un_workload := "cpu" |}.
Definition unit_of_group (g : FlatGroup) : scale_unit :=
  {| un_name := fg_name g; un_weight := fg_weight g; un_threads := fg_threads g; un_kind := "group"; un_parent := "";
     un_cpu_max := default "" (fg_cpu_max g); un_workload := default "cpu" (fg_workload g) |}.
Definition scenario_units (scenario_name : string) : result (list scale_unit) :=
  let* s := scenario_of scenario_name in
  Ok (match sn_kind s with
      | nested parents => unit_of_parent <$> parents
      | flat groups => unit_of_group <$> groups
      end).

(** ** The model of the shares *)

Definition mode_multiplier (mode : string) (threads cpus : Z) : result Z :=
  if String.eqb mode "up" then Ok 1
  else if String.eqb mode "smp" then Ok 1
  else if String.eqb mode "concur" then Ok (Z.min threads cpus)
  else if String.eqb mode "max" then Ok cpus
  else if String.eqb mode "tasks" then Ok threads
  else Raise (Exn ValueError ("unknown cgroup mode: " +:+ mode)).

(** [zip(..., strict=True)] raises at the end of the shorter list. *)
Fixpoint effective_weights (mode : string) (weights threads : list Z) (cpus : Z) : result (list float) :=
  match weights, threads with
  | [], [] => Ok []
  | weight :: weights, thread_count :: threads =>
      let* m := mode_multiplier mode thread_count cpus in
      let* x := float_of_Z (m * weight) in
      let* rest := effective_weights mode weights threads cpus in
      Ok (x :: rest)
  | _, _ => Raise (Exn ValueError "zip() arguments have different lengths")
  end.

(** A dictionary comprehension: a later value replaces an earlier one. *)
Definition dict_of {V} (l : list (string * V)) : list (string * V) :=
  fold_left (fun d p => assoc_set (fst p) (snd p) d) l [].

Definition expected_shares (scenario_name mode : string) (cpus : Z) : result (option (list (string * float))) :=
  if String.eqb scenario_name "quota" then Ok None
  else
    let* units := scenario_units scenario_name in
    let* effective := effective_weights mode (un_weight <$> units) (un_threads <$> units) cpus in
    let total := py_sum effective in
    if fleb total fzero then Ok None
    else
      let* shares := mapM (fun p => let* x := fdiv (snd p) total in Ok (fst p, x)) (combine (un_name <$> units) effective) in
      Ok (Some (dict_of shares)).

Definition share_of (name : string) (shares : list (string * float)) : result float :=
  match List.find (fun p => String.eqb name (fst p)) shares with
  | Some (_, x) => Ok x
  | None => Raise (Exn KeyError (repr_str name))
  end.
Definition expected_per_task_shares (scenario_name mode : string) (cpus : Z) : result (option (list (string * float))) :=
  let* shares := expected_shares scenario_name mode cpus in
  match shares with
  | None => Ok None
  | Some shares =>
      let* units := scenario_units scenario_name in
      let* per_task := mapM (fun u =>
        let* x := share_of (un_name u) shares in
        let* n := float_of_Z (Z.max 1 (un_threads u)) in
        let* y := fdiv x n in Ok (un_name u, y)) units in
      Ok (Some (dict_of per_task))
  end.

Definition thread_amplification (scenario_name mode : string) (cpus : Z) : result (list (string * float)) :=
  let* units := scenario_units scenario_name in
  let* factors := mapM (fun u =>
    let* m := mode_multiplier mode (un_threads u) cpus in let* x := float_of_Z m in Ok (un_name u, x)) units in
  Ok (dict_of factors).

Definition allowed_modes (mode : string) : bool := mem_string mode MODES.

(** ** The mode file *)

(** [token[1:-1]] for a token that begins with a parenthesis and ends with one. *)
Definition active_token (token : string) : bool := startswith "(" token && endswith ")" token.
Definition parse_mode_file (text : string) : result string :=
  match List.find active_token (words text) with
  | Some token => Ok (drop_last 1 (str_drop 1 token))
  | None => Raise (Exn ValueError ("no active cgroup mode in " +:+ repr_str text))
  end.

(** ** Theorems *)

(** The line of the kernel's file: all modes, the active one in parentheses. *)
Definition mode_line (modes : list string) (active : string) : string :=
  join " " ((fun m => if String.eqb m active then "(" +:+ m +:+ ")" else m) <$> modes) +:+ newline.

Definition solid (s : string) : bool := str_forallb (fun c => negb (is_space c)) s.

Lemma words_go_solid x s : solid x = true -> x ≠ "" ->
  words_go (x +:+ s) =
  (true, match words_go s with (true, w :: ws) => (x +:+ w) :: ws | (_, ws) => x :: ws end).
Proof.
  induction x as [|c x IH]; [done|]. intros Hs _. unfold solid in *. cbn [str_forallb] in Hs. apply andb_prop in Hs as [Hc Hx].
  cbn [String.append words_go]. apply negb_true_iff in Hc. rewrite Hc. destruct x as [|d x].
  - cbn [String.append]. destruct (words_go s) as [[] [|w ws]]; done.
  - rewrite IH by done. destruct (words_go s) as [[] [|w ws]]; done.
Qed.
Lemma words_joined l : Forall (fun x => solid x = true /\ x ≠ "") l -> words (join " " l +:+ newline) = l.
Proof.
  intros Hl. unfold words. enough (words_go (join " " l +:+ newline) = (match l with [] => false | _ => true end, l)) as -> by done.
  induction Hl as [|x l [Hx Hne] Hl IH]; [by vm_compute|]. destruct l as [|y l].
  - cbn [join]. by rewrite words_go_solid.
  - change (join " " (x :: y :: l)) with (x +:+ " " +:+ join " " (y :: l)). rewrite !str_app_assoc.
    rewrite words_go_solid by done. change (" " +:+ join " " (y :: l) +:+ newline) with (String " " (join " " (y :: l) +:+ newline)).
    cbn [words_go]. rewrite IH. by change (is_space " ") with true.
Qed.

Lemma active_wrapped m : active_token ("(" +:+ m +:+ ")") = true /\ drop_last 1 (str_drop 1 ("(" +:+ m +:+ ")")) = m.
Proof.
  split.
  - unfold active_token. rewrite andb_true_iff. split; [apply prefix_app|]. rewrite <- str_app_assoc. apply endswith_app.
  - change (str_drop 1 ("(" +:+ m +:+ ")")) with (m +:+ ")"). apply (drop_last_app m ")").
Qed.

(** The mode is read back.  From the line in which the kernel lists its
    modes with the active one in parentheses, [parse_mode_file] gives the
    active mode, whatever the modes are called, as long as the names have no
    whitespace and do not begin with a parenthesis. *)
Lemma parse_mode_line modes active :
  Forall (fun m => solid m = true /\ m ≠ "" /\ startswith "(" m = false) modes -> active ∈ modes ->
  parse_mode_file (mode_line modes active) = Ok active.
Proof.
  intros Hm Ha. unfold parse_mode_file, mode_line. rewrite words_joined.
  2:{ apply Forall_fmap. eapply List.Forall_impl; [|exact Hm]. intros m (Hs & Hne & _). unfold compose. destruct (String.eqb m active); [|done].
      split; [|done]. unfold solid in *. rewrite !str_forallb_app, Hs. reflexivity. }
  enough (List.find active_token ((fun m => if String.eqb m active then "(" +:+ m +:+ ")" else m) <$> modes) =
            Some ("(" +:+ active +:+ ")")) as -> by by rewrite (proj2 (active_wrapped active)).
  induction Hm as [|m modes (_ & _ & Hp) Hm IH]; [by apply not_elem_of_nil in Ha|]. cbn [fmap list_fmap List.find].
  destruct (String.eqb_spec m active) as [->|Hne]; [by rewrite (proj1 (active_wrapped active))|].
  unfold active_token at 1. rewrite Hp. cbn [andb]. apply IH. by apply list.elem_of_cons in Ha as [->|].
Qed.

(** The weights as the description of the modes has them, as integers. *)
Definition reference_weight (mode : string) (cpus : Z) (u : scale_unit) : Z :=
  un_weight u * (if String.eqb mode "concur" then Z.min (un_threads u) cpus else if String.eqb mode "max" then cpus
                 else if String.eqb mode "tasks" then un_threads u else 1).
Definition reference_shares (mode : string) (cpus : Z) (units : list scale_unit) : list (string * float) :=
  (fun u => (un_name u, flit (reference_weight mode cpus u) (sum_Z (reference_weight mode cpus <$> units)))) <$> units.

Definition agrees (name mode : string) (cpus : Z) : bool :=
  match scenario_units name, expected_shares name mode cpus with
  | Ok units, Ok (Some shares) => bool_decide (shares = reference_shares mode cpus units)
  | _, _ => false
  end.
Definition MODEL_CPUS : nat := 128.
Lemma all_agree :
  forallb (fun name => forallb (fun mode => forallb (fun n => agrees name mode (Z.of_nat n)) (seq 1 MODEL_CPUS)) MODES)
    ["weighted_threads"; "qos_nested"; "latency"] = true.
Proof. vm_compute. reflexivity. Qed.

(** C27: The expected shares are those of the idealized model.  For every scenario
    but [quota] (where there is no expectation), every mode and one up to
    [MODEL_CPUS] = 128 CPUs there is an expectation, it has
    the scenario's units in their order, and each share is the double nearest to
    the exact quotient of the unit's weight in that mode - its [cpu.weight] times
    1, min(threads, cpus), cpus or threads - and the sum of these weights: no
    error is added by computing in floats. *)
Theorem shares_exact name mode cpus :
  name ∈ scenario_names -> name ≠ "quota" -> mode ∈ MODES -> 1 <= cpus <= Z.of_nat MODEL_CPUS ->
  exists units, scenario_units name = Ok units /\ expected_shares name mode cpus = Ok (Some (reference_shares mode cpus units)).
Proof.
  intros Hn Hq Hm Hc. assert (agrees name mode cpus = true) as Ha.
  { pose proof all_agree as H. rewrite List.forallb_forall in H.
    assert (In name ["weighted_threads"; "qos_nested"; "latency"]) as Hin.
    { cbn in Hn. rewrite !list.elem_of_cons in Hn. cbn. destruct Hn as [->|[->|[->|[->|Hn]]]]; [tauto..|done|tauto|].
      by apply not_elem_of_nil in Hn. }
    specialize (H name Hin). cbv beta in H. rewrite List.forallb_forall in H. specialize (H mode (proj1 (list_elem_of_In _ _) Hm)).
    cbv beta in H. rewrite List.forallb_forall in H. rewrite <- (Z2Nat.id cpus) by lia. apply H, in_seq. lia. }
  unfold agrees in Ha. destruct (scenario_units name) as [units|]; [|done].
  destruct (expected_shares name mode cpus) as [[shares|]|]; [|done..]. exists units. apply bool_decide_eq_true in Ha. by rewrite Ha.
Qed.
Lemma shares_exact_witness : exists units, scenario_units "qos_nested" = Ok units /\
  expected_shares "qos_nested" "tasks" 2 = Ok (Some (reference_shares "tasks" 2 units)).
Proof. apply shares_exact; [by apply mem_string_spec|done|by apply mem_string_spec|by vm_compute]. Defined.

(** The table of the study's documentation for the nested scenario. *)
Example tasks_amplifies : expected_shares "qos_nested" "tasks" 2 = Ok (Some [("qos-guaranteed", flit 2 10); ("qos-burstable", flit 8 10)]).
Proof. vm_compute. reflexivity. Qed.
Example concur_amplifies :
  expected_shares "qos_nested" "concur" 2 = Ok (Some [("qos-guaranteed", flit 1 3); ("qos-burstable", flit 2 3)]).
Proof. vm_compute. reflexivity. Qed.
