(* ===== verification/ModeMatrix.v ===== *)
(** [sched-core-modes/experiments/run_matrix.py]: the runner of the cgroup-mode
    study on a worker.

    The node is the one of [Worker.v].  The functions that have the same text as
    in the sibling study are those of [SchedHost.v] and [SchedMatrix.v]: [log],
    [read_text], [write_text], [read_boot_id], [read_cpu_stat], the deltas of the
    counters ([stat_group_delta] there), [clean_cgroup] and [stop].  The mode file
    is a setting that shows more than was written to it.  As in [SchedMatrix.v],
    what [try ... finally] needs of an aborted body is returned by the body. *)

From Stdlib Require Import ZArith Bool Ascii String Lia SpecFloat.
From stdpp Require Import base list strings option gmap.
From S2P Require Import Prelude Eff PyStr PyFloat PyVal PyDict Json PyConv Campaign Files World Worker SchedHost SchedMatrix ModeScenarios.

Open Scope string_scope.
Open Scope Z_scope.

(** The environment variables that say where the node's trees are mounted. *)
Class Mounts : Type := { CGROUP_MOUNT : string; SCHED_DEBUGFS : string }.

Definition CGROUP_ROOT : cgroup := ["sched-modes"].
Definition WORK_DIR : string := "/var/tmp/sched-modes".

(** [argparse.Namespace] *)
Record mode_args : Type := {
  mo_reps : Z; mo_duration : float; mo_warmup : float; mo_cooldown : float; mo_seed : Z; mo_scenarios : string;
  mo_modes : string; mo_out : string; mo_meta : string; mo_parent_weight : Z; mo_run_id : string; mo_plan : bool;
  mo_check : bool
}.

(** ** The cgroups of a scenario *)

Record spec : Type := {
  sp_name : string; sp_kind : string; sp_parent : string; sp_weight : Z; sp_threads : Z; sp_cpu_max : string;
  sp_workload : string; sp_subtree : bool
}.

Definition spec_of_parent (p : ParentGroup) : spec :=
  {| sp_name := pa_name p; sp_kind := "parent"; sp_parent := ""; sp_weight := pa_weight p; sp_threads := pa_threads p;
     sp_cpu_max := ""; sp_workload := match pa_children p with [] => "cpu" | _ => "none" end;
     sp_subtree := match pa_children p with [] => false | _ => true end |}.
Definition spec_of_child (p : ParentGroup) (c : ChildGroup) : spec :=
  {| sp_name := pa_name p +:+ "-" +:+ ch_name c; sp_kind := "child"; sp_parent := pa_name p; sp_weight := ch_weight c;
     sp_threads := ch_threads c; sp_cpu_max := ""; sp_workload := "cpu"; sp_subtree := false |}.
Definition spec_of_group (g : FlatGroup) : spec :=
  {| sp_name := fg_name g; sp_kind := "group"; sp_parent := ""; sp_weight := fg_weight g; sp_threads := fg_threads g;
     sp_cpu_max := default "" (fg_cpu_max g); sp_workload := default "cpu" (fg_workload g); sp_subtree := false |}.
Definition group_specs (scenario_name : string) : result (list spec) :=
  let* s := scenario_of scenario_name in
  Ok (match sn_kind s with
      | nested parents => p ← parents; spec_of_parent p :: (spec_of_child p <$> pa_children p)
      | flat groups => spec_of_group <$> groups
      end).

(** [dict.update(data)]: [data] is a mapping, or is iterated for pairs.  (A key
    that is no string would make the sorted dump of the row fail; here the update
    fails.) *)
Definition pair_of (v : pyval) : result (string * pyval) :=
  let* items := py_iter v in
  match items with
  | [VStr k; x] => Ok (k, x)
  | [_; _] => Raise (Exn TypeError "'<' not supported between instances")
  | _ => Raise (Exn ValueError "dictionary update sequence element has the wrong length; 2 is required")
  end.
Definition update_row (row : pydict) (data : pyval) : result pydict :=
  match data with
  | VDict d => Ok (dupdate row d)
  | _ => let* items := py_iter data in let* pairs := mapM pair_of items in Ok (dupdate row pairs)
  end.

(** The first line that begins with ["ctxt "]. *)
Definition ctxt_of (text : string) : result Z :=
  match List.find (startswith "ctxt ") (splitlines text) with
  | Some line => let* value := item (words line) 1 in int_text value
  | None => Raise (Exn RuntimeError "no ctxt line in /proc/stat")
  end.

(** [mode_file]: the debugfs file of the modes. *)
Definition MODE_FILE `{Mounts} : string := SCHED_DEBUGFS +:+ "/sched/cgroup_mode".
(** The text of a cgroup's path and of a file in it. *)
Definition mode_group_text `{Mounts} (g : cgroup) : string := CGROUP_MOUNT +:+ "/" +:+ join "/" g.
Definition mode_in_group `{Mounts} (g : cgroup) (file : string) : string := mode_group_text g +:+ "/" +:+ file.

Section Modes.
Context `{Node} `{Mounts}.

(** ** The mode *)

Definition read_mode : W string := let! text := ask (Shown MODE_FILE) in lift (parse_mode_file text).

Definition set_mode (mode : string) : W unit :=
  throw_if (negb (mem_string mode MODES)) RuntimeError ("refusing to write unknown cgroup mode " +:+ repr_str mode) >>>
  ask (SetSetting MODE_FILE (mode +:+ newline)) >>>
  sleep (flit 5 10) >>>
  let! actual := read_mode in
  throw_if (negb (String.eqb actual mode)) RuntimeError
    ("mode write requested " +:+ repr_str mode +:+ ", read back " +:+ repr_str actual).

Definition read_ctxt : W Z := let! text := read_text PROC_STAT in lift (ctxt_of text).

Definition parse_json (path : string) : W pyval :=
  let! r := observe (read_text path) in
  match (let* text := r in json_loads text) with
  | Ok v => ret v
  | Raise e => if caught_by [OSError; JSONDecodeError] e then ret (VDict []) else lift (Raise e)
  end.

(** ** Cgroups *)

Definition ensure_root : W unit :=
  let! controllers := read_text (CGROUP_MOUNT +:+ "/cgroup.controllers") in
  forM ["cpu"; "cpuset"] (fun c =>
    throw_if (negb (mem_string c (words controllers))) RuntimeError
      ("cgroup v2 controller " +:+ repr_str c +:+ " is not available")) >>>
  let! subtree := read_text (CGROUP_MOUNT +:+ "/cgroup.subtree_control") in
  let missing := List.filter (fun c => negb (mem_string c (words subtree))) ["cpu"; "cpuset"] in
  throw_if (match missing with [] => false | _ => true end) RuntimeError
    ("root cgroup.subtree_control is missing " +:+ join ", " missing +:+
     "; enable it on the worker before running the matrix").

Definition clean_root : W unit :=
  let! present := ask (GroupExists CGROUP_ROOT) in if present then clean_cgroup CGROUP_ROOT else ret tt.

Definition ensure_parent (parent_weight : Z) (cpuset : string) : W unit :=
  clean_root >>>
  ask (MakeGroup false CGROUP_ROOT) >>>
  write_text (mode_in_group CGROUP_ROOT "cpu.weight") (str_of_Z parent_weight +:+ newline) >>>
  write_text (mode_in_group CGROUP_ROOT "cpuset.cpus") (cpuset +:+ newline) >>>
  write_text (mode_in_group CGROUP_ROOT "cgroup.subtree_control") ("+cpu +cpuset" +:+ newline).

Definition make_group (path : cgroup) (weight : Z) (cpu_max : string) (subtree : bool) : W unit :=
  ask (MakeGroup true path) >>>
  write_text (mode_in_group path "cpu.weight") (str_of_Z weight +:+ newline) >>>
  (if is_empty cpu_max then ret tt else write_text (mode_in_group path "cpu.max") (cpu_max +:+ newline)) >>>
  (if subtree then write_text (mode_in_group path "cgroup.subtree_control") ("+cpu +cpuset" +:+ newline) else ret tt).

Fixpoint group_files (path : cgroup) (names : list string) : W (list (string * string)) :=
  match names with
  | [] => ret []
  | name :: names =>
      let! here := try_except (let! text := read_text (mode_in_group path name) in ret [(name, strip text)]) [OSError]
                     (fun _ => ret []) in
      let! later := group_files path names in
      ret (here ++ later)%list
  end.
Definition read_group (path : cgroup) : W (list (string * string)) :=
  group_files path ["cpu.weight"; "cpu.max"; "cpuset.cpus"].
(** [read_group(path).get(name, d)] *)
Definition group_file (path : cgroup) (name : string) : W string :=
  let! files := read_group path in
  ret (match List.find (fun p => String.eqb name (fst p)) files with Some (_, t) => t | None => "" end).

(** ** Workloads *)

Definition start (command : list string) (g : cgroup) : W Z :=
  let! pid := ask (Spawn command) in
  try_except (write_text (mode_in_group g "cgroup.procs") (str_of_Z pid +:+ newline)) [OSError] (fun e =>
    ask (KillChild pid) >>>
    throw RuntimeError ("could not move pid " +:+ str_of_Z pid +:+ " to " +:+ mode_group_text g +:+ ": " +:+ exn_msg e)) >>>
  ret pid.

Definition wait_for (pids : list Z) (timeout : float) : W unit :=
  let! now := outside Monotonic in
  let deadline := fadd now timeout in
  forM pids (fun pid =>
    let! now := outside Monotonic in
    let remaining := fsub deadline now in
    let! status := ask (PollChild pid) in
    match status with
    | Some _ => ret tt
    | None =>
        if fltb fzero remaining
        then try_except (ask (WaitChild pid remaining) >>> ret tt) [TimeoutExpired] (fun _ => ret tt)
        else ret tt
    end).

(** The source and the binary of each workload. *)
Definition PROGRAMS : list (string * string) := [("cpu_burn.c", "cpu_burn"); ("wakeup_latency.c", "wakeup_latency")].

(** A binary that is there and not older than its source. *)
Definition up_to_date (base : string) (p : string * string) : W bool :=
  let! present := outside (PathExists (base +:+ "/" +:+ snd p)) in
  if present then
    let! made := ask (Mtime (base +:+ "/" +:+ snd p)) in
    let! written := ask (Mtime (base +:+ "/" +:+ fst p)) in
    ret (fleb written made)
  else ret false.

Fixpoint need_compiler (base : string) (programs : list (string * string)) : W bool :=
  match programs with
  | [] => ret false
  | p :: programs => let! fresh := up_to_date base p in if fresh then need_compiler base programs else ret true
  end.
Definition workloads_need_compiler (base : string) : W bool := need_compiler base PROGRAMS.

Definition compile_workloads (base : string) : W (string * string) :=
  forM PROGRAMS (fun p =>
    let! fresh := up_to_date base p in
    if fresh then ret tt
    else ask (Command ["gcc"; "-O2"; "-pthread"; "-o"; base +:+ "/" +:+ snd p; base +:+ "/" +:+ fst p])) >>>
  ret (base +:+ "/cpu_burn", base +:+ "/wakeup_latency").

(** ** One scenario *)

(** The keyword arguments of [run_scenario]. *)
Record scene : Type := {
  se_scenario : string; se_mode : string; se_rep : Z; se_duration : float; se_warmup : float; se_run_id : string;
  se_node : string; se_kernel : string; se_cpu_count : Z; se_cpu_burn : string; se_wakeup : string; se_order : list string
}.
Record proc : Type := { pr_name : string; pr_pid : Z; pr_output : string }.

Definition scene_name (s : scene) : string := se_scenario s +:+ "-" +:+ se_mode s +:+ "-" +:+ str_of_Z (se_rep s).
Definition work_of (s : scene) : string := WORK_DIR +:+ "/work-" +:+ scene_name s.
Definition output_of (s : scene) (name : string) : string := work_of s +:+ "/" +:+ name +:+ ".json".

(** [name.removeprefix(prefix)] and [groups[name]] *)
Definition remove_prefix (prefix name : string) : string :=
  if startswith prefix name then str_drop (String.length prefix) name else name.
Definition group_named {A} (name : string) (groups : list (string * A)) : result A :=
  match List.find (fun p => String.eqb name (fst p)) groups with
  | Some (_, g) => Ok g
  | None => Raise (Exn KeyError (repr_str name))
  end.
Definition spec_path (s : scene) (groups : list (string * cgroup)) (sp : spec) : result cgroup :=
  if is_empty (sp_parent sp) then Ok (CGROUP_ROOT ++ [scene_name s +:+ "-" +:+ sp_name sp])%list
  else
    let* parent := group_named (sp_parent sp) groups in
    Ok (parent ++ [remove_prefix (sp_parent sp +:+ "-") (sp_name sp)])%list.

(** The loop over [add_group]: [created] has the group that could not be made. *)
Fixpoint add_groups (s : scene) (specs : list spec) (groups : list (string * cgroup))
    : W (list cgroup * result (list (string * cgroup))) :=
  match specs with
  | [] => ret ([], Ok groups)
  | sp :: specs =>
      match spec_path s groups sp with
      | Raise e => ret ([], Raise e)
      | Ok path =>
          let! r := observe (make_group path (sp_weight sp) (sp_cpu_max sp) (sp_subtree sp)) in
          match r with
          | Ok _ =>
              let! (created, made) := add_groups s specs (assoc_set (sp_name sp) path groups) in
              ret (path :: created, made)
          | Raise e => ret ([path], Raise e)
          end
      end
  end.

Definition workload_command (s : scene) (sp : spec) : result (list string) :=
  let output := output_of s (sp_name sp) in
  if String.eqb (sp_workload sp) "latency" then
    Ok [se_wakeup s; "--duration"; repr_float (se_duration s); "--interval-us"; "1000"; "--wait-file";
        work_of s +:+ "/go-probe"; "--output"; output]
  else if String.eqb (sp_workload sp) "cpu" then
    Ok [se_cpu_burn s; "--threads"; str_of_Z (sp_threads sp); "--duration"; repr_float (fadd (se_warmup s) (se_duration s));
        "--wait-file"; work_of s +:+ "/go-load"; "--output"; output]
  else Raise (Exn RuntimeError ("unknown workload " +:+ repr_str (sp_workload sp) +:+ " in " +:+ se_scenario s)).

Definition start_spec (s : scene) (groups : list (string * cgroup)) (sp : spec) : W proc :=
  let! command := lift (workload_command s sp) in
  let! path := lift (group_named (sp_name sp) groups) in
  let! pid := start command path in
  ret {| pr_name := sp_name sp; pr_pid := pid; pr_output := output_of s (sp_name sp) |}.
Definition working (specs : list spec) : list spec := List.filter (fun sp => negb (String.eqb (sp_workload sp) "none")) specs.

(** The counters of a repetition. *)
Record measured_counters : Type := {
  mc_before : list (string * list (string * Z)); mc_after : list (string * list (string * Z)); mc_ctxt : Z
}.

Definition read_cpu_stats (groups : list (string * cgroup)) : W (list (string * list (string * Z))) :=
  collect groups (fun g => let! c := read_cpu_stat (mode_in_group (snd g) "cpu.stat") in ret (fst g, c)).

(** From the start of the load to the end of the workloads. *)
Definition measure (s : scene) (groups : list (string * cgroup)) (procs : list proc) : W measured_counters :=
  sleep (flit 5 10) >>>
  ask (Touch (work_of s +:+ "/go-load")) >>>
  sleep (se_warmup s) >>>
  let! before := read_cpu_stats groups in
  let! ctxt_before := read_ctxt in
  (if String.eqb (se_scenario s) "latency" then ask (Touch (work_of s +:+ "/go-probe")) else ret tt) >>>
  sleep (se_duration s) >>>
  let! after := read_cpu_stats groups in
  let! ctxt_after := read_ctxt in
  wait_for (pr_pid <$> procs) (flit 3 1) >>>
  forM procs (fun p => stop (pr_pid p) true) >>>
  ret {| mc_before := before; mc_after := after; mc_ctxt := ctxt_after - ctxt_before |}.

Definition base_row (s : scene) (sp : spec) (cpu_max cpu_weight : string) (m : measured_counters) (timestamp : string) : pydict :=
  let name := sp_name sp in
  let delta := stat_group_delta (found name (mc_before m)) (found name (mc_after m)) in
  ([("run_id", VStr (se_run_id s)); ("node", VStr (se_node s)); ("kernel", VStr (se_kernel s)); ("cpus", VInt (se_cpu_count s));
    ("mode", VStr (se_mode s)); ("mode_order", VStr (join "," (se_order s))); ("scenario", VStr (se_scenario s));
    ("rep", VInt (se_rep s)); ("group", VStr name); ("kind", VStr (sp_kind sp)); ("parent", VStr (sp_parent sp));
    ("weight", VInt (sp_weight sp)); ("threads", VInt (sp_threads sp)); ("cpu_max", VStr cpu_max);
    ("cpu_weight_read", VStr cpu_weight)] ++
   ((fun p => (fst p, VInt (snd p))) <$> delta) ++
   [("ctxt", VInt (mc_ctxt m)); ("elapsed_s", VFloat (se_duration s)); ("timestamp", VStr timestamp)])%list.

(** [by_name[name]] *)
Definition spec_named (name : string) (specs : list spec) : result spec :=
  match List.find (fun sp => String.eqb name (sp_name sp)) (rev specs) with
  | Some sp => Ok sp
  | None => Raise (Exn KeyError (repr_str name))
  end.
Definition group_row (s : scene) (specs : list spec) (m : measured_counters) (timestamp : string) (g : string * cgroup) : W pydict :=
  let! sp := lift (spec_named (fst g) specs) in
  let! cpu_max := group_file (snd g) "cpu.max" in
  let! cpu_weight := group_file (snd g) "cpu.weight" in
  let row := base_row s sp cpu_max cpu_weight m timestamp in
  let! present := outside (PathExists (output_of s (fst g))) in
  if present then let! data := parse_json (output_of s (fst g)) in lift (update_row row data) else ret row.

Definition scene_rows (s : scene) (specs : list spec) (groups : list (string * cgroup)) (m : measured_counters) : W (list pydict) :=
  let! now := outside UtcNow in
  collect groups (group_row s specs m (isoformat now)).

(** The [try] body: the cgroups made, the processes started, and the rows. *)
Definition run_scene (s : scene) : W (list cgroup * list proc * result (list pydict)) :=
  match group_specs (se_scenario s) with
  | Raise e => ret ([], [], Raise e)
  | Ok specs =>
      let! (created, made) := add_groups s specs [] in
      match made with
      | Raise e => ret (created, [], Raise e)
      | Ok groups =>
          let! (procs, started) := collected (working specs) (start_spec s groups) in
          match started with
          | Raise e => ret (created, procs, Raise e)
          | Ok _ =>
              let! rows := observe (let! m := measure s groups procs in scene_rows s specs groups m) in
              ret (created, procs, rows)
          end
      end
  end.

(** [sorted(created, key=lambda p: len(p.parts), reverse=True)] *)
Definition deepest_first (created : list cgroup) : list cgroup :=
  sort_by (fun a b : cgroup => (length b <=? length a)%nat) created.
(** The [finally] clause. *)
Definition clean_scene (s : scene) (created : list cgroup) (procs : list proc) : W unit :=
  forM procs (fun p => stop (pr_pid p) false) >>>
  forM (deepest_first created) (fun path =>
    try_except (clean_cgroup path) [OSError] (fun e =>
      log ("warning: cgroup cleanup failed for " +:+ mode_group_text path +:+ ": " +:+ exn_msg e))) >>>
  try_except (ask (RmTree (work_of s))) [OSError] (fun _ => ret tt).

Definition run_scenario (s : scene) : W (list pydict) :=
  let work := work_of s in
  let! present := outside (PathExists work) in
  (if present then ask (RmTree work) else ret tt) >>>
  outside (MakeDirs work) >>>
  let! (created, procs, outcome) := run_scene s in
  try_finally (lift outcome) (clean_scene s created procs).

(** ** The program *)

Definition check_environment : W pydict :=
  ensure_root >>>
  let! present := ask (SettingExists MODE_FILE) in
  throw_if (negb present) RuntimeError ("cgroup_mode is not available: " +:+ MODE_FILE) >>>
  let! compiler := workloads_need_compiler WORK_DIR in
  forM (["python3"] ++ if compiler then ["gcc"] else [])%list (fun tool =>
    let! found := ask (Which tool) in
    throw_if (negb found) RuntimeError ("required tool not found: " +:+ tool)) >>>
  let! mode := read_mode in
  let! cpus := ask CpuCount in
  let! (release, _) := ask Uname in
  let! (_, nodename) := ask Uname in
  let! boot_id := read_boot_id in
  let! weighted := outside (IsFile (mode_in_group CGROUP_ROOT "cpu.weight")) in
  let! cpu_weight := if weighted then let! text := read_text (mode_in_group CGROUP_ROOT "cpu.weight") in ret (strip text)
                     else ret "" in
  ret [("mode", VStr mode); ("cpus", VInt cpus); ("kernel", VStr release); ("node", VStr nodename); ("boot_id", VStr boot_id);
       ("cgroup_mount", VStr CGROUP_MOUNT); ("cpu_weight", VStr cpu_weight); ("work_dir", VStr WORK_DIR);
       ("cpu_burn", VStr (WORK_DIR +:+ "/cpu_burn")); ("wakeup_latency", VStr (WORK_DIR +:+ "/wakeup_latency"))].
End Modes.

Section Program.
Context `{Node} `{Mounts} `{Rng}.

(** [order = list(modes); random.Random(args.seed + rep).shuffle(order)] *)
Definition mode_order (args : mode_args) (modes : list string) (rep : Z) : list string := shuffle (mo_seed args + rep) modes.

Definition spec_value (sp : spec) : pyval :=
  VDict [("name", VStr (sp_name sp)); ("kind", VStr (sp_kind sp)); ("parent", VStr (sp_parent sp)); ("weight", VInt (sp_weight sp));
         ("threads", VInt (sp_threads sp)); ("cpu_max", VStr (sp_cpu_max sp)); ("workload", VStr (sp_workload sp));
         ("subtree", VBool (sp_subtree sp))].

Definition plan (args : mode_args) (scenarios modes : list string) : W pyval :=
  let reps := (fun rep => VDict [("rep", VInt rep); ("mode_order", VList (VStr <$> mode_order args modes rep))])
                <$> cpu_range 1 (mo_reps args) in
  let! groups := lift (mapM (fun name => let* specs := group_specs name in Ok (name, VList (spec_value <$> specs))) scenarios) in
  let! cpus := ask CpuCount in
  let! (release, _) := ask Uname in
  let! (_, nodename) := ask Uname in
  ret (VDict [("run_id", VStr (mo_run_id args)); ("reps", VList reps); ("scenarios", VDict (SchedMatrix.dict_of groups));
              ("duration_s", VFloat (mo_duration args)); ("warmup_s", VFloat (mo_warmup args));
              ("cooldown_s", VFloat (mo_cooldown args)); ("modes", VList (VStr <$> modes)); ("cpus", VInt cpus);
              ("kernel", VStr release); ("node", VStr nodename)]).

(** The checks of the arguments, the scenarios and the modes. *)
Definition check_args (args : mode_args) : result (list string * list string) :=
  raise_if (mo_reps args <? 1) SystemExit "--reps must be >= 1" ;;;
  raise_if (fleb (mo_duration args) fzero) SystemExit "--duration must be > 0" ;;;
  raise_if (fltb (mo_warmup args) fzero) SystemExit "--warmup must be >= 0" ;;;
  raise_if (fltb (mo_cooldown args) fzero) SystemExit "--cooldown must be >= 0" ;;;
  let scenarios := List.filter (fun name => negb (is_empty name)) (split_on "," (mo_scenarios args)) in
  let modes := List.filter (fun name => negb (is_empty name)) (split_on "," (mo_modes args)) in
  raise_if (match scenarios with [] => true | _ => false end) SystemExit "at least one scenario is required" ;;;
  raise_if (match modes with [] => true | _ => false end) SystemExit "at least one mode is required" ;;;
  iterM (fun name => raise_if (negb (mem_string name scenario_names)) SystemExit ("unknown scenario: " +:+ name)) scenarios ;;;
  iterM (fun mode => raise_if (negb (mem_string mode MODES)) SystemExit ("unknown mode: " +:+ mode)) modes ;;;
  Ok (scenarios, modes).

(** What [main] knows when the measurement starts. *)
Record campaign : Type := {
  cm_scenarios : list string; cm_modes : list string; cm_cpu_burn : string; cm_wakeup : string; cm_node : string;
  cm_kernel : string; cm_cpus : Z; cm_original : string
}.

Definition scene_of (args : mode_args) (c : campaign) (rep : Z) (order : list string) (mode scenario : string) : scene :=
  {| se_scenario := scenario; se_mode := mode; se_rep := rep; se_duration := mo_duration args; se_warmup := mo_warmup args;
     se_run_id := mo_run_id args; se_node := cm_node c; se_kernel := cm_kernel c; se_cpu_count := cm_cpus c;
     se_cpu_burn := cm_cpu_burn c; se_wakeup := cm_wakeup c; se_order := order |}.

(** The loop over the scenarios; [index]: the position of the first of them. *)
Fixpoint run_scenarios (args : mode_args) (c : campaign) (rep : Z) (order : list string) (mode : string) (scenarios : list string)
    : W (list pydict) :=
  match scenarios with
  | [] => ret []
  | scenario :: later =>
      log ("    scenario=" +:+ scenario) >>>
      let! rows := run_scenario (scene_of args c rep order mode scenario) in
      (match later with [] => ret tt | _ => sleep (mo_cooldown args) end) >>>
      let! more := run_scenarios args c rep order mode later in
      ret (rows ++ more)%list
  end.
Definition run_mode (args : mode_args) (c : campaign) (rep : Z) (order : list string) (mode : string) : W (list pydict) :=
  set_mode mode >>>
  let! actual := read_mode in
  log ("  mode=" +:+ mode +:+ " readback=" +:+ actual) >>>
  run_scenarios args c rep order mode (cm_scenarios c).
Definition run_repetition (args : mode_args) (c : campaign) (rep : Z) : W (list pydict) :=
  let order := mode_order args (cm_modes c) rep in
  log ("rep " +:+ str_of_Z rep +:+ "/" +:+ str_of_Z (mo_reps args) +:+ " mode order: " +:+ join " " order) >>>
  let! blocks := collect order (run_mode args c rep order) in
  set_mode (cm_original c) >>>
  ret (mjoin blocks).
(** The [try] body: the rows, and the value of [restored_mode], which every
    repetition sets. *)
Definition run_campaign (args : mode_args) (c : campaign) : W (list pydict * string) :=
  let! blocks := collect (cpu_range 1 (mo_reps args)) (run_repetition args c) in
  ret (mjoin blocks, if mo_reps args <? 1 then "" else cm_original c).

(** The [finally] clause; whether it has set the mode. *)
Definition restore (c : campaign) : W bool :=
  let! set := try_except (set_mode (cm_original c) >>> ret true) [Exception] (fun e =>
    log ("warning: could not restore mode " +:+ cm_original c +:+ ": " +:+ exn_msg e) >>> ret false) in
  try_except clean_root [OSError] (fun e =>
    log ("warning: could not remove " +:+ mode_group_text CGROUP_ROOT +:+ ": " +:+ exn_msg e)) >>>
  ret set.

(** [try: ... finally: ...], with what both assign to [restored_mode]. *)
Definition measured (args : mode_args) (c : campaign) : W (list pydict * string) := fun w =>
  let '(r, w1) := run_campaign args c w in
  match restore c w1 with
  | (Ok set, w2) => ((let* (rows, mode) := r in Ok (rows, if set then cm_original c else mode)), w2)
  | (Raise e, w2) => (Raise e, w2)
  end.

Definition rows_text (rows : list pydict) : string := join "" ((fun row => json_plain true (VDict row) +:+ newline) <$> rows).

(** The metadata of a run of [count] rows. *)
Definition run_meta (args : mode_args) (c : campaign) (boot_id : pyval) (restored_mode started finished : string) (count : nat) : pydict :=
  [("run_id", VStr (mo_run_id args)); ("node", VStr (cm_node c)); ("kernel", VStr (cm_kernel c)); ("cpus", VInt (cm_cpus c));
   ("boot_id", boot_id); ("reps", VInt (mo_reps args)); ("duration_s", VFloat (mo_duration args));
   ("warmup_s", VFloat (mo_warmup args)); ("cooldown_s", VFloat (mo_cooldown args)); ("seed", VInt (mo_seed args));
   ("modes", VList (VStr <$> cm_modes c)); ("scenarios", VList (VStr <$> cm_scenarios c));
   ("parent_weight", VInt (mo_parent_weight args)); ("original_mode", VStr (cm_original c));
   ("restored_mode", VStr restored_mode); ("started", VStr started); ("finished", VStr finished);
   ("rows", VInt (Z.of_nat count))].

Definition write_results (args : mode_args) (environment : pydict) (c : campaign) (started : string) (rows : list pydict)
    (restored_mode : string) : W unit :=
  outside (MakeDirs (parent (mo_out args))) >>>
  write_text (mo_out args +:+ ".tmp") (rows_text rows) >>>
  ask (Rename (mo_out args +:+ ".tmp") (mo_out args)) >>>
  let! boot_id := lift (dindex "boot_id" environment) in
  let! now := outside UtcNow in
  write_text (mo_meta args)
    (json_indent true (VDict (run_meta args c boot_id restored_mode started (isoformat now) (length rows))) +:+ newline) >>>
  log ("wrote " +:+ str_of_Z (Z.of_nat (length rows)) +:+ " rows to " +:+ mo_out args).

Definition with_run_id (args : mode_args) (run_id : string) : mode_args :=
  {| mo_reps := mo_reps args; mo_duration := mo_duration args; mo_warmup := mo_warmup args; mo_cooldown := mo_cooldown args;
     mo_seed := mo_seed args; mo_scenarios := mo_scenarios args; mo_modes := mo_modes args; mo_out := mo_out args;
     mo_meta := mo_meta args; mo_parent_weight := mo_parent_weight args; mo_run_id := run_id; mo_plan := mo_plan args;
     mo_check := mo_check args |}.

(** What is done before the [try]. *)
Definition prepare (here : string) (args : mode_args) (scenarios modes : list string) (environment : pydict) : W (campaign * string) :=
  let! (cpu_burn, wakeup) := compile_workloads here in
  let! node := lift (dindex "node" environment) in
  let! kernel := lift (dindex "kernel" environment) in
  let! cpus := lift (dindex "cpus" environment) in
  let! cpu_count := lift (int_of_val cpus) in
  let! mode := lift (dindex "mode" environment) in
  let! now := outside UtcNow in
  let c := {| cm_scenarios := scenarios; cm_modes := modes; cm_cpu_burn := cpu_burn; cm_wakeup := wakeup; cm_node := py_str node;
              cm_kernel := py_str kernel; cm_cpus := cpu_count; cm_original := py_str mode |} in
  log ("run " +:+ mo_run_id args +:+ " node=" +:+ cm_node c +:+ " kernel=" +:+ cm_kernel c +:+ " cpus=" +:+ str_of_Z cpu_count +:+
       " modes=" +:+ py_repr (VList (VStr <$> modes)) +:+ " scenarios=" +:+ py_repr (VList (VStr <$> scenarios))) >>>
  ensure_parent (mo_parent_weight args) ("0-" +:+ str_of_Z (cpu_count - 1)) >>>
  ret (c, isoformat now).

(** [main], after the arguments are parsed; [here]: the directory of the program. *)
Definition main (here : string) (args : mode_args) : W Z :=
  let! (scenarios, modes) := lift (check_args args) in
  let! args := if is_empty (mo_run_id args)
               then let! now := outside UtcNow in ret (with_run_id args (run_stamp now)) else ret args in
  if mo_plan args then
    let! p := plan args scenarios modes in
    ask (Print (json_indent true p)) >>> ret 0
  else
    let! user := ask EffectiveUser in
    throw_if (negb (user =? 0)) SystemExit "run_matrix.py must run as root on the worker" >>>
    outside (MakeDirs WORK_DIR) >>>
    let! environment := check_environment in
    if mo_check args then ask (Print (json_indent true (VDict environment))) >>> ret 0
    else
      let! (c, started) := prepare here args scenarios modes environment in
      let! (rows, restored_mode) := measured args c in
      write_results args environment c started rows restored_mode >>>
      ret 0.
End Program.
