(* ===== verification/ModeThm.v ===== *)
(** What [ModeMatrix.v] guarantees: the mode is restored and the cgroups are
    removed, no workload is left running, and the rows that are written are
    those of the plan, each measured in the mode that it names. *)

From Stdlib Require Import ZArith Bool Ascii String Lia SpecFloat.
From stdpp Require Import base list strings option gmap.
From S2P Require Import Prelude Eff PyStr PyFloat PyVal PyDict Json PyConv Campaign Files World Worker SchedHost SchedMatrix SchedNodeThm SchedMatrixThm ModeScenarios ModeMatrix.

Open Scope string_scope.
Open Scope Z_scope.

(** ** What the parts of a run may change *)

(** No setting but the mode is changed and the cgroups stay a tree; the history grows. *)
Definition ruled `{Mounts} (w w' : worker) : Prop :=
  (forall p, p ≠ MODE_FILE -> wk_settings w' !! p = wk_settings w !! p) /\
  (tree_ok (wk_groups w) -> tree_ok (wk_groups w')) /\ grows w w'.
#[export] Instance ruled_pre `{Mounts} : PreOrder ruled.
Proof.
  split; [intros w; split; [done|split; [done|exists []; by rewrite app_nil_r]]|].
  intros a b c (S1 & T1 & l1 & P1) (S2 & T2 & l2 & P2). split; [intros p Hp; by rewrite S2, S1|]. split; [tauto|].
  exists (l1 ++ l2)%list. by rewrite P2, P1, app_assoc.
Qed.
Lemma kept_ruled `{Mounts} {A} (m : W A) : moves (kept []) m -> moves ruled m.
Proof. apply moves_weaken. intros w w' (E & T & G & _). split; [by rewrite E|done]. Qed.

Section Parts.
Context `{Node} `{Mounts}.

Lemma settled_read_mode : moves (settled []) read_mode.
Proof. unfold read_mode. moves_go. Qed.
Lemma settled_read_ctxt : moves (settled []) read_ctxt.
Proof. unfold read_ctxt. moves_go. Qed.
Lemma settled_mode_json p : moves (settled []) (ModeMatrix.parse_json p).
Proof. unfold ModeMatrix.parse_json. moves_go. Qed.
Lemma settled_files p l : moves (settled []) (group_files p l).
Proof. induction l as [|f l IH]; cbn [group_files]; moves_go. Qed.
#[local] Hint Resolve settled_read_mode settled_read_ctxt settled_mode_json settled_files : moving.
Lemma settled_group_file p f : moves (settled []) (group_file p f).
Proof. unfold group_file, ModeMatrix.read_group. moves_go. Qed.
Lemma settled_add_groups s l : forall groups, moves (settled []) (add_groups s l groups).
Proof. induction l as [|g l IH]; intros groups; cbn [add_groups]; unfold ModeMatrix.make_group; moves_go. Qed.
Lemma settled_mode_wait l t : moves (settled []) (ModeMatrix.wait_for l t).
Proof. unfold ModeMatrix.wait_for. moves_go. Qed.
#[local] Hint Resolve settled_group_file settled_add_groups settled_mode_wait : moving.
Lemma settled_mode_measure s g l : moves (settled []) (measure s g l).
Proof. unfold measure, ModeMatrix.read_cpu_stats, read_cpu_stat. moves_go. Qed.
Lemma settled_mode_rows s specs g m : moves (settled []) (ModeMatrix.scene_rows s specs g m).
Proof. unfold ModeMatrix.scene_rows, ModeMatrix.group_row. moves_go. Qed.
#[local] Hint Resolve settled_mode_measure settled_mode_rows : moving.
Lemma settled_mode_body s specs g l : moves (settled []) (let! m := measure s g l in ModeMatrix.scene_rows s specs g m).
Proof. moves_go. Qed.
Lemma settled_mode_clean s c l : moves (settled []) (ModeMatrix.clean_scene s c l).
Proof. unfold ModeMatrix.clean_scene. moves_go. Qed.
Lemma settled_clean_root : moves (settled []) clean_root.
Proof. unfold clean_root. moves_go. Qed.
#[local] Hint Resolve settled_clean_root : moving.
Lemma settled_mode_parent a b : moves (settled []) (ModeMatrix.ensure_parent a b).
Proof. unfold ModeMatrix.ensure_parent. moves_go. Qed.
Lemma settled_fresh base p : moves (settled []) (up_to_date base p).
Proof. unfold up_to_date. moves_go. Qed.
#[local] Hint Resolve settled_mode_parent settled_fresh : moving.
Lemma settled_mode_compile base : moves (settled []) (ModeMatrix.compile_workloads base).
Proof. unfold ModeMatrix.compile_workloads. moves_go. Qed.
Lemma settled_need base l : moves (settled []) (need_compiler base l).
Proof. induction l as [|p l IH]; cbn [need_compiler]; moves_go. Qed.
#[local] Hint Resolve settled_mode_compile settled_need : moving.
Lemma settled_mode_prepare here args l m env : moves (settled []) (ModeMatrix.prepare here args l m env).
Proof. unfold ModeMatrix.prepare. moves_go. Qed.
Lemma settled_environment : moves (settled []) ModeMatrix.check_environment.
Proof. unfold ModeMatrix.check_environment, ModeMatrix.ensure_root, workloads_need_compiler, read_boot_id. moves_go. Qed.

Lemma kept_start_spec s groups sp : moves (kept []) (start_spec s groups sp).
Proof.
  unfold start_spec, start. repeat first [(apply settled_kept, settled_write_text; exact _) | moves_step].
Qed.
Lemma kept_run_scene s : moves (kept []) (ModeMatrix.run_scene s).
Proof.
  unfold ModeMatrix.run_scene. pose proof (kept_start_spec s).
  repeat first [(apply settled_kept, settled_add_groups; exact _) | (apply settled_kept, settled_mode_body; exact _) | solve [auto] | moves_step].
Qed.
Lemma kept_run_scenario s : moves (kept []) (ModeMatrix.run_scenario s).
Proof.
  unfold ModeMatrix.run_scenario. pose proof (kept_run_scene s).
  repeat first [(apply settled_kept, settled_mode_clean; exact _) | solve [auto] | moves_step].
Qed.
Lemma kept_log t : moves (kept []) (log t).
Proof. apply settled_kept, settled_log; exact _. Qed.
Lemma kept_sleep t : moves (kept []) (sleep t).
Proof. apply settled_kept, settled_sleep; exact _. Qed.

Lemma ruled_mode_file text : moves ruled (ask (SetSetting MODE_FILE text)).
Proof.
  intros w. unfold ask. destruct (node_answer _ _ w); (split; [|by split; [|eexists]]); [|done].
  intros p Hp. cbn. by rewrite lookup_insert_ne.
Qed.
Lemma ruled_set_mode mode : moves ruled (set_mode mode).
Proof.
  unfold set_mode. repeat first [apply ruled_mode_file | apply kept_ruled, kept_sleep | (apply kept_ruled, settled_kept, settled_read_mode; exact _) | moves_step].
Qed.

Section Loops.
Context `{Rng}.

Lemma kept_run_scenarios args c rep order mode l : moves (kept []) (run_scenarios args c rep order mode l).
Proof.
  pose proof kept_log. pose proof kept_sleep. pose proof kept_run_scenario.
  induction l as [|scenario l IH]; cbn [run_scenarios]; repeat first [solve [auto] | moves_step].
Qed.
Lemma ruled_run_campaign args c : moves ruled (ModeMatrix.run_campaign args c).
Proof.
  pose proof ruled_set_mode.
  unfold ModeMatrix.run_campaign, ModeMatrix.run_repetition, run_mode.
  repeat first [apply kept_ruled, kept_log | (apply kept_ruled, settled_kept, settled_read_mode; exact _)
               | apply kept_ruled, kept_run_scenarios | solve [auto] | moves_step].
Qed.
End Loops.
End Parts.

(** ** The mode is as it was *)

(** What the kernel's file shows after a mode was written to it. *)
Definition mode_file_law `{Node} `{Mounts} : Prop :=
  forall m, m ∈ MODES -> node_shows MODE_FILE (m +:+ newline) = mode_line MODES m.

Section Restored.
Context `{Node} `{Mounts} (n : nat) (Hcalm : calm n).
Implicit Types w : worker.

Lemma shown_mode m : mode_file_law -> m ∈ MODES -> parse_mode_file (node_shows MODE_FILE (m +:+ newline)) = Ok m.
Proof.
  intros Hl Hm. rewrite Hl by done. apply parse_mode_line; [repeat constructor; by vm_compute|done].
Qed.

Lemma read_mode_calm m w : wk_settings w !! MODE_FILE = Some (m +:+ newline) -> mode_file_law -> m ∈ MODES ->
  (n <= length (wk_past w))%nat -> returns read_mode w (fun a w' => a = m /\ same_node w w').
Proof.
  intros Es Hl Hm Hn. unfold read_mode.
  apply (returns_bind _ _ _ (fun t w' => t = node_shows MODE_FILE (m +:+ newline) /\ same_node w w')).
  { apply (returns_ask n Hcalm); [done|]. intros r w1 S1. eexists. cbn [effect].
    rewrite (proj1 S1), Es. split; [done|]. split; [done|exact S1]. }
  intros t w1 _ [-> S1]. rewrite shown_mode by done. by apply (returns_ret m).
Qed.

Definition mode_set (m : string) w w' : Prop :=
  wk_settings w' = <[MODE_FILE := m +:+ newline]> (wk_settings w) /\ wk_module w' = wk_module w /\
  wk_groups w' = wk_groups w /\ wk_running w' = wk_running w.

Lemma set_mode_calm m w : mode_file_law -> m ∈ MODES -> (n <= length (wk_past w))%nat ->
  returns (set_mode m) w (fun _ => mode_set m w).
Proof.
  intros Hl Hm Hn. unfold set_mode. rewrite (proj2 (mem_string_spec m MODES) Hm). unfold negb, throw_if.
  eapply returns_bind; [by apply (returns_ret tt) with (P := fun _ w' => w' = w)|]. intros _ ? _ ->.
  apply (returns_bind _ _ _ (fun _ => mode_set m w)).
  { apply (returns_ask n Hcalm); [done|]. intros r w1 (E1 & E2 & E3 & E4). exists tt. split; [done|]. unfold mode_set. cbn.
    by rewrite E1, E2, E3, E4. }
  intros ? w1 L1 S1. eapply returns_bind; [apply (returns_outside n Hcalm); lia|]. intros ? w2 L2 S2.
  assert (wk_settings w2 !! MODE_FILE = Some (m +:+ newline)) as Es.
  { rewrite (proj1 S2), (proj1 S1). by rewrite lookup_insert, decide_True. }
  eapply returns_bind; [apply read_mode_calm; [exact Es|done..|lia]|]. intros shown w3 L3 [-> S3].
  rewrite String.eqb_refl. apply (returns_ret tt). destruct S1 as (A1 & A2 & A3 & A4), S2 as (B1 & B2 & B3 & B4), S3 as (C1 & C2 & C3 & C4).
  unfold mode_set. by rewrite C1, C2, C3, C4, B1, B2, B3, B4.
Qed.

Lemma mode_restore_calm c w : mode_file_law -> cm_original c ∈ MODES -> tree_ok (wk_groups w) -> (n <= length (wk_past w))%nat ->
  returns (ModeMatrix.restore c) w (fun set w' => set = true /\
    wk_settings w' = <[MODE_FILE := cm_original c +:+ newline]> (wk_settings w) /\
    forall x : cgroup, x ∈ wk_groups w' <-> x ∈ wk_groups w /\ ~ below ModeMatrix.CGROUP_ROOT x).
Proof.
  intros Hl Hm Ht Hn. unfold ModeMatrix.restore. apply (returns_bind _ _ _ (fun set w' => set = true /\ mode_set (cm_original c) w w')).
  { apply returns_try. eapply returns_bind; [by apply set_mode_calm|]. intros ? w1 L1 S1. by apply returns_ret. }
  intros set1 w1 L1 [-> (S1 & _ & G1 & _)]. eapply returns_bind.
  - apply returns_try, (clean_present_calm n Hcalm); [lia|done|by rewrite G1].
  - intros [] w2 L2 (S2 & _ & _ & G2). apply returns_ret. split; [done|]. split; [by rewrite S2|]. intros x. by rewrite G2, G1.
Qed.
End Restored.

(** The mode that [check_environment] found is the one [main] restores. *)
Section Found.
Context `{Node} `{Mounts}.

Lemma read_mode_shown w m w' : read_mode w = (Ok m, w') -> exists t,
  wk_settings w !! MODE_FILE = Some t /\ parse_mode_file (node_shows MODE_FILE t) = Ok m /\ same_node w w'.
Proof.
  unfold read_mode. intros (text & w1 & H1 & [H2 ->]%liftM_Ok)%bindM_Ok. unfold ask in H1.
  destruct (node_answer _ _ w); [|done]. cbn [effect wk_settings asked] in H1.
  destruct (wk_settings w !! MODE_FILE) as [t|] eqn:E; [|done]. injection H1 as <- <-. by exists t.
Qed.

Lemma environment_mode w env w' : ModeMatrix.check_environment w = (Ok env, w') -> exists m t,
  dget "mode" env = Some (VStr m) /\ wk_settings w !! MODE_FILE = Some t /\ parse_mode_file (node_shows MODE_FILE t) = Ok m.
Proof.
  unfold ModeMatrix.check_environment.
  intros (u & w1 & H1 & (b & w2 & H2 & (u2 & w3 & H3 & (c & w4 & H4 & (u3 & w5 & H5 & Hr)%bindM_Ok)%bindM_Ok)%bindM_Ok)%bindM_Ok)%bindM_Ok.
  assert (wk_settings w5 = wk_settings w) as Es.
  { assert (forall A (m : W A) v r v', moves (settled []) m -> m v = (r, v') -> wk_settings v' = wk_settings v) as Hk.
    { intros A m v r v' Hm E. specialize (Hm v). rewrite E in Hm. apply Hm. }
    apply Hk in H5; [|moves_go]. apply Hk in H4; [|apply settled_need]. apply Hk in H3; [|moves_go].
    apply Hk in H2; [|moves_go]. apply Hk in H1; [|unfold ModeMatrix.ensure_root; moves_go]. congruence. }
  revert Hr. intros (m & w6 & (t & Et & Ep & _)%read_mode_shown & Hr)%bindM_Ok. exists m, t. rewrite <- Es. split; [|done].
  revert Hr. intros (n & w7 & _ & ([r1 n1] & w8 & _ & ([r2 n2] & w9 & _ & (i & w10 & _ & (x & w11 & _ &
    (y & w12 & _ & [-> _]%retM_Ok)%bindM_Ok)%bindM_Ok)%bindM_Ok)%bindM_Ok)%bindM_Ok)%bindM_Ok. reflexivity.
Qed.

Lemma prepared_original here args l ms env w c started w' m : ModeMatrix.prepare here args l ms env w = (Ok (c, started), w') ->
  dget "mode" env = Some (VStr m) -> cm_original c = m /\ cm_scenarios c = l /\ cm_modes c = ms.
Proof.
  unfold ModeMatrix.prepare. intros ([b1 b2] & w1 & _ & (v1 & w2 & _ & (v2 & w3 & _ & (v3 & w4 & _ & (k & w5 & _ & (v4 & w6 & [H4 _]%liftM_Ok &
    (d & w7 & _ & (u & w8 & _ & (u2 & w9 & _ & [[= -> ->] _]%retM_Ok)%bindM_Ok)%bindM_Ok)%bindM_Ok)%bindM_Ok)%bindM_Ok)%bindM_Ok)%bindM_Ok)%bindM_Ok)%bindM_Ok Hm.
  cbn [cm_original cm_scenarios cm_modes]. unfold dindex in H4. rewrite Hm in H4. apply Ok_inj in H4 as <-. done.
Qed.
End Found.

Section Program.
Context `{Node} `{Mounts} `{Rng}.

(** C9: The cgroup mode is left as it was found.  When [check_environment] found
    the kernel in one of the five modes, the measurement that follows may be cut
    short at any call by a failure or a signal; if the clean-up itself is not
    disturbed (from its first call on no call raises) and the kernel's file shows
    the mode written to it, then the file shows the same mode as before, every other setting
    is as it was, no cgroup of the runner is left and of the others none was
    removed by the clean-up, and the outcome is the measurement's own, the mode
    that was found being reported as restored. *)
Theorem mode_restored here args scenarios modes w0 env wa c started w1 t m :
  ModeMatrix.check_environment w0 = (Ok env, wa) ->
  ModeMatrix.prepare here args scenarios modes env wa = (Ok (c, started), w1) ->
  wk_settings w0 !! MODE_FILE = Some t -> parse_mode_file (node_shows MODE_FILE t) = Ok m -> m ∈ MODES ->
  tree_ok (wk_groups w0) ->
  let cut := ModeMatrix.run_campaign args c w1 in
  mode_file_law -> calm (length (wk_past (snd cut))) ->
  exists w' t', ModeMatrix.measured args c w1 = ((let* (rows, _) := fst cut in Ok (rows, m)), w') /\
    wk_settings w' !! MODE_FILE = Some t' /\ parse_mode_file (node_shows MODE_FILE t') = Ok m /\
    (forall p, p ≠ MODE_FILE -> wk_settings w' !! p = wk_settings w0 !! p) /\
    (forall x : cgroup, x ∈ wk_groups w' <-> x ∈ wk_groups (snd cut) /\ ~ below ModeMatrix.CGROUP_ROOT x).
Proof.
  intros He Hp Et Em Hm Ht cut Hl Hcalm.
  destruct (environment_mode _ _ _ He) as (m' & t0 & Hd & Et' & Em'). assert (m' = m) as -> by congruence.
  destruct (prepared_original _ _ _ _ _ _ _ _ _ _ Hp Hd) as [Eo _].
  pose proof (settled_environment w0) as [(S0 & T0 & _) _]. rewrite He in S0, T0. cbn [snd] in S0, T0.
  pose proof (settled_mode_prepare here args scenarios modes env wa) as [(S1 & T1 & _) _]. rewrite Hp in S1, T1. cbn [snd] in S1, T1.
  pose proof (ruled_run_campaign args c w1) as (S2 & T2 & _). fold cut in S2, T2.
  destruct (mode_restore_calm _ Hcalm c (snd cut) Hl) as (set & w' & Er & _ & -> & Hs & Hg);
    [by rewrite Eo|by apply T2, T1, T0|done|].
  exists w', (m +:+ newline). rewrite Hs, Eo. split.
  { unfold ModeMatrix.measured. fold cut. destruct cut as [r wc]. cbn [fst snd] in *. rewrite Er. cbn. rewrite <- Eo. by destruct r as [[rows m1]|e]. }
  split; [by rewrite lookup_insert, decide_True|]. split; [by apply shown_mode|]. split; [|exact Hg].
  intros p Hne. by rewrite lookup_insert_ne, S2, S1, S0 by done.
Qed.
End Program.

(** ** No workload is left running *)

Section Stopped.
Context `{Node} `{Mounts}.

Lemma mode_start_running s groups sp w r w' : child_laws -> start_spec s groups sp w = (r, w') -> start_leaves pr_pid w r w'.
Proof.
  intros Hlaws. unfold start_spec. unfold mbindM at 1 2, lift.
  destruct (ModeMatrix.workload_command s sp) as [command|e]; [|intros [= <- <-]; by apply none_left].
  destruct (group_named (sp_name sp) groups) as [path|e]; [|intros [= <- <-]; by apply none_left].
  unfold mbindM at 1. destruct (start command path w) as [[pid|e] w1] eqn:Es.
  - intros [= <- <-]. cbn [start_leaves pr_pid]. by apply (spawned_running (fun p => p) (fun p => p)) in Es.
  - intros [= <- <-]. by apply (spawned_running (fun p => p) (fun p => p)) in Es.
Qed.

Lemma mode_scene_running s w created procs rows w' : child_laws -> ModeMatrix.run_scene s w = (Ok (created, procs, rows), w') ->
  left_over (match rows with Ok _ => Ok tt | Raise e => Raise e end)
    (list_to_set (pr_pid <$> procs) ∪ wk_running w) (wk_running w').
Proof.
  intros Hlaws. unfold ModeMatrix.run_scene. destruct (group_specs (se_scenario s)) as [specs|e].
  2:{ intros [[= -> -> ->] ->]%retM_Ok. apply none_left. set_solver. }
  intros ([made o] & w1 & H1 & H2)%bindM_Ok. apply (settled_running []) in H1; [|apply settled_add_groups].
  destruct o as [groups|e]; [|apply retM_Ok in H2 as [[= -> -> ->] ->]; apply none_left; set_solver].
  apply bindM_Ok in H2 as ([ys o] & w2 & H2 & H3).
  apply (started_running _ pr_pid) in H2 as (p & Hp & Hs & He); [|intros x v r v'; by apply mode_start_running].
  destruct o as [[]|e].
  - rewrite He in Hp by done. apply bindM_Ok in H3 as (r & w3 & H3 & [[= -> -> ->] ->]%retM_Ok).
    apply (settled_running []) in H3; [|apply moves_observe, settled_mode_body]. apply none_left. set_solver.
  - apply retM_Ok in H3 as [[= -> -> ->] ->]. exists p. split; [set_solver|by split].
Qed.

(** No workload of a scenario is left running in the cgroup-mode study.
    Wherever the scenario is cut short by a failure or a signal, once its
    [finally] clause has run to its end at most one process is left that did not
    run before; and none is left when the scenario ended normally or with any
    exception that is not a signal. *)
Theorem mode_scenario_stops s w created procs rows w1 w2 :
  child_laws ->
  ModeMatrix.run_scene s w = (Ok (created, procs, rows), w1) ->
  ModeMatrix.clean_scene s created procs w1 = (Ok tt, w2) ->
  (size (wk_running w2 ∖ wk_running w) <= 1)%nat /\
  ((forall e, rows = Raise e -> ~ is_signal e) -> wk_running w2 ⊆ wk_running w).
Proof.
  intros Hlaws H1 H2. apply mode_scene_running in H1; [|done].
  revert H2. unfold ModeMatrix.clean_scene. intros ([] & w3 & H2 & H3)%bindM_Ok. apply (stops_stopped pr_pid (fun _ => false)) in H2 as [S2 Hx].
  apply (settled_running []) in H3; [|moves_go].
  destruct (stopped_left pr_pid procs _ _ _ (wk_running w2) H1) as [Hs Hn]; [set_solver|intros x Hxin; specialize (Hx x Hxin); set_solver|].
  split; [done|]. intros He. apply Hn. intros e E. apply He. destruct rows; [done|]. by injection E as ->.
Qed.
End Stopped.

(** ** The rows *)

(** What says which measurement a row is of. *)
Definition mode_keys : list string := ["rep"; "mode"; "mode_order"; "scenario"; "group"; "weight"; "threads"].
Definition labels (row : pydict) : list (option pyval) := (fun k => dget k row) <$> mode_keys.
Definition scene_labels (s : scene) (sp : spec) : list (option pyval) :=
  Some <$> [VInt (se_rep s); VStr (se_mode s); VStr (join "," (se_order s)); VStr (se_scenario s); VStr (sp_name sp);
            VInt (sp_weight sp); VInt (sp_threads sp)].

(** A row of the scene and the group, updated with what the workload wrote, if anything. *)
Definition recorded (s : scene) (sp : spec) (row : pydict) : Prop :=
  exists cpu_max cpu_weight m timestamp,
    let base := base_row s sp cpu_max cpu_weight m timestamp in row = base \/ exists data, update_row base data = Ok row.
Lemma base_labels s sp a b m t : labels (base_row s sp a b m t) = scene_labels s sp.
Proof. reflexivity. Qed.

Section Rows.
Context `{Node} `{Mounts}.

Lemma specs_distinct name specs : group_specs name = Ok specs -> NoDup (sp_name <$> specs).
Proof.
  unfold group_specs, scenario_of. intros (sc & Hs & <-%Ok_inj)%rbind_Ok. destruct (List.find _ _) as [[k x]|] eqn:Ef; [|done].
  apply Ok_inj in Hs as ->. apply find_some in Ef as [Hin _].
  assert (Forall (fun p => has_dup (sp_name <$> match sn_kind (snd p) with
      | nested parents => p ← parents; spec_of_parent p :: (spec_of_child p <$> pa_children p)
      | flat groups => spec_of_group <$> groups end) = false) ModeScenarios.SCENARIOS) as Hall by by repeat constructor.
  rewrite List.Forall_forall in Hall. apply has_dup_false. exact (Hall _ Hin).
Qed.

Lemma add_groups_names s specs : forall groups w created groups' w',
  add_groups s specs groups w = (Ok (created, Ok groups'), w') ->
  NoDup ((fst <$> groups) ++ (sp_name <$> specs)) -> fst <$> groups' = ((fst <$> groups) ++ (sp_name <$> specs))%list.
Proof.
  induction specs as [|sp specs IH]; intros groups w created groups' w'; cbn [add_groups].
  { intros [[= -> ->] _]%retM_Ok _. by rewrite app_nil_r. }
  destruct (spec_path s groups sp) as [path|e]; [|by intros [[=] _]%retM_Ok].
  intros ([[]|e] & w1 & _ & H1)%bindM_Ok Hd; [|by apply retM_Ok in H1 as [[=] _]].
  apply bindM_Ok in H1 as ([created' made] & w2 & H1 & [[= _ <-] _]%retM_Ok).
  cbn [fmap list_fmap] in Hd |- *. rewrite assoc_set_fresh in H1.
  2:{ apply NoDup_app in Hd as (_ & Hn & _). intros Hk. apply (Hn _ Hk). by left. }
  apply IH in H1; rewrite ?fmap_app; cbn [fmap list_fmap fst]; rewrite <- ?app_assoc; [|exact Hd].
  rewrite H1, fmap_app. cbn [fmap list_fmap fst]. by rewrite <- app_assoc.
Qed.

Lemma spec_named_distinct specs sp : NoDup (sp_name <$> specs) -> forall x,
  ModeMatrix.spec_named (sp_name sp) specs = Ok x -> sp ∈ specs -> x = sp.
Proof.
  intros Hd x. unfold ModeMatrix.spec_named. destruct (List.find _ _) as [y|] eqn:Ef; [|done]. intros <-%Ok_inj Hsp.
  apply find_some in Ef as [Hy En%String.eqb_eq]. apply in_rev, list_elem_of_In in Hy.
  apply list_elem_of_lookup in Hsp as [i Hi], Hy as [j Hj].
  assert (i = j) as -> by (eapply NoDup_lookup; [exact Hd| |]; rewrite list_lookup_fmap; [by rewrite Hi|by rewrite Hj, En]).
  congruence.
Qed.

Lemma group_row_recorded s specs m t g sp w row w' : NoDup (sp_name <$> specs) -> sp ∈ specs -> fst g = sp_name sp ->
  ModeMatrix.group_row s specs m t g w = (Ok row, w') -> recorded s sp row.
Proof.
  intros Hd Hsp Eg. unfold ModeMatrix.group_row.
  intros (x & w1 & [Hx _]%liftM_Ok & (a & w2 & _ & (b & w3 & _ & Hr)%bindM_Ok)%bindM_Ok)%bindM_Ok.
  rewrite Eg in Hx. apply spec_named_distinct in Hx as ->; [|done..]. exists a, b, m, t.
  apply bindM_Ok in Hr as (present & w4 & _ & Hr). destruct present.
  - right. apply bindM_Ok in Hr as (data & w5 & _ & [Hr _]%liftM_Ok). by exists data.
  - left. by apply retM_Ok in Hr as [-> _].
Qed.

Lemma run_scenario_recorded s w rows w' : ModeMatrix.run_scenario s w = (Ok rows, w') ->
  exists specs, group_specs (se_scenario s) = Ok specs /\ Forall2 (recorded s) specs rows.
Proof.
  unfold ModeMatrix.run_scenario.
  intros (b & w1 & _ & (u & w2 & _ & (u' & w3 & _ & ([[created xs] out] & w4 & H1 & H2)%bindM_Ok)%bindM_Ok)%bindM_Ok)%bindM_Ok.
  apply try_finally_Ok in H2 as (w5 & [Eo _]%liftM_Ok & _). subst out. revert H1. unfold ModeMatrix.run_scene.
  destruct (group_specs (se_scenario s)) as [specs|e] eqn:Es; [|by intros [[=] _]%retM_Ok].
  intros ([made [groups|e]] & w6 & Hg & H1)%bindM_Ok; [|by apply retM_Ok in H1 as [[=] _]].
  apply bindM_Ok in H1 as ([ys [[]|e]] & w7 & _ & H1); [|by apply retM_Ok in H1 as [[=] _]].
  apply bindM_Ok in H1 as (r & w8 & H1 & [[= -> -> <-] ->]%retM_Ok). unfold observe in H1.
  destruct (mbindM _ _ w7) as [r v] eqn:E. injection H1 as -> ->.
  apply bindM_Ok in E as (m & w9 & _ & (now & w10 & _ & E%collect_Ok)%bindM_Ok).
  exists specs. split; [done|]. pose proof (specs_distinct _ _ Es) as Hd. apply add_groups_names in Hg; [|exact Hd].
  cbn [fmap list_fmap app] in Hg. apply Forall2_same_length_lookup. split.
  { rewrite <- (Forall2_length _ _ _ E), <- (length_fmap fst groups), Hg. by rewrite length_fmap. }
  intros i sp row Hsp Hrow.
  assert (exists g, groups !! i = Some g /\ fst g = sp_name sp) as (g & Hgi & Eg).
  { pose proof (f_equal (fun l => l !! i) Hg) as Hi. cbv beta in Hi. rewrite !list_lookup_fmap, Hsp in Hi.
    destruct (groups !! i) as [g|]; [|done]. exists g. split; [done|]. by injection Hi. }
  destruct (Forall2_lookup_lr _ _ _ _ _ _ E Hgi Hrow) as (v1 & v2 & Hr).
  eapply group_row_recorded; [exact Hd|by eapply list_elem_of_lookup_2|exact Eg|exact Hr].
Qed.

Lemma set_mode_Ok m w u w' : set_mode m w = (Ok u, w') -> wk_settings w' !! MODE_FILE = Some (m +:+ newline).
Proof.
  unfold set_mode. intros (u1 & w1 & [_ ->]%throw_if_Ok & (u2 & w2 & H2 & H3)%bindM_Ok)%bindM_Ok.
  assert (moves (kept []) (sleep (flit 5 10) >>> let! actual := read_mode in
    throw_if (negb (String.eqb actual m)) RuntimeError
      ("mode write requested " +:+ repr_str m +:+ ", read back " +:+ repr_str actual))) as Hk.
  { apply settled_kept. pose proof settled_read_mode. moves_go. }
  specialize (Hk w2). rewrite H3 in Hk. destruct Hk as [Es _]. cbn [snd] in Es. rewrite Es.
  unfold ask in H2. destruct (node_answer _ _ w); [|done]. injection H2 as _ <-. cbn. by rewrite lookup_insert, decide_True.
Qed.

Context {rng : Rng}.

(** A block of rows that was measured while the kernel was in the mode it names. *)
Definition in_mode (s : scene) (block : list pydict) : Prop :=
  exists specs w w', group_specs (se_scenario s) = Ok specs /\ Forall2 (recorded s) specs block /\
    ModeMatrix.run_scenario s w = (Ok block, w') /\
    wk_settings w !! MODE_FILE = Some (se_mode s +:+ newline) /\ wk_settings w' !! MODE_FILE = Some (se_mode s +:+ newline).

Lemma run_scenarios_blocks args c rep order mode l : forall w rows w',
  run_scenarios args c rep order mode l w = (Ok rows, w') -> wk_settings w !! MODE_FILE = Some (mode +:+ newline) ->
  exists blocks, rows = mjoin blocks /\ Forall2 in_mode (scene_of args c rep order mode <$> l) blocks.
Proof.
  induction l as [|scenario l IH]; intros w rows w'; cbn [run_scenarios].
  { intros [-> _]%retM_Ok _. exists []. by split. }
  intros (u & w1 & R1 & (block & w2 & R2 & (u2 & w3 & R3 & (more & w4 & R4 & [-> _]%retM_Ok)%bindM_Ok)%bindM_Ok)%bindM_Ok)%bindM_Ok Hm.
  pose proof (kept_log ("    scenario=" +:+ scenario) w) as [E1 _]. rewrite R1 in E1. cbn [snd] in E1.
  pose proof (kept_run_scenario (scene_of args c rep order mode scenario) w1) as [E2 _]. rewrite R2 in E2. cbn [snd] in E2.
  assert (moves (kept []) (match l with [] => ret tt | _ => sleep (mo_cooldown args) end : W unit)) as Hk.
  { destruct l; [apply moves_ret; exact _|apply kept_sleep]. }
  destruct (Hk w2) as [E3 _]. rewrite R3 in E3. cbn [snd] in E3.
  destruct (IH _ _ _ R4) as (blocks & -> & Hb); [by rewrite E3, E2, E1|].
  exists (block :: blocks). split; [done|]. constructor; [|exact Hb].
  destruct (run_scenario_recorded _ _ _ _ R2) as (specs & Hs & Hr). exists specs, w1, w2.
  split; [done|]. split; [done|]. split; [done|]. cbn [se_mode scene_of]. by rewrite E2, E1.
Qed.

(** The scenes of a plan: by repetition, mode and scenario. *)
Definition planned_modes (args : mode_args) (c : campaign) (rep : Z) : list scene :=
  mode ← mode_order args (cm_modes c) rep;
  scene_of args c rep (mode_order args (cm_modes c) rep) mode <$> cm_scenarios c.
Definition planned_scenes (args : mode_args) (c : campaign) : list scene := cpu_range 1 (mo_reps args) ≫= planned_modes args c.

Lemma Forall2_blocks {A B C} (P : A -> list B -> Prop) (Q : C -> list B -> Prop) (f : A -> list C) l blocks :
  Forall2 P l blocks -> (forall x b, P x b -> exists bs, b = mjoin bs /\ Forall2 Q (f x) bs) ->
  exists bs, mjoin blocks = mjoin bs /\ Forall2 Q (l ≫= f) bs.
Proof.
  intros Hl Hf. induction Hl as [|x b l blocks Hb Hl (bs & E & Hq)]; [by exists []|].
  destruct (Hf _ _ Hb) as (bs1 & -> & H1). exists (bs1 ++ bs)%list. split; [|by apply Forall2_app].
  change (mjoin (mjoin bs1 :: blocks)) with (mjoin bs1 ++ mjoin blocks)%list. by rewrite E, join_app.
Qed.

Lemma run_campaign_blocks args c w rows m w' : ModeMatrix.run_campaign args c w = (Ok (rows, m), w') ->
  exists blocks, rows = mjoin blocks /\ Forall2 in_mode (planned_scenes args c) blocks.
Proof.
  unfold ModeMatrix.run_campaign. intros (blocks & w1 & H1%collect_Ok & [[= -> ->] _]%retM_Ok)%bindM_Ok.
  eapply Forall2_blocks; [exact H1|]. intros rep rows (v & v' & E). revert E. unfold ModeMatrix.run_repetition, planned_modes.
  intros (u1 & v1 & _ & (bs & v2 & H2%collect_Ok & (u4 & v3 & _ & [-> _]%retM_Ok)%bindM_Ok)%bindM_Ok)%bindM_Ok.
  eapply Forall2_blocks; [exact H2|]. intros mode rows (x & x' & E). revert E. unfold run_mode.
  intros (u2 & x1 & Hm%set_mode_Ok & (a & x2 & H3 & (u3 & x3 & H4 & H5)%bindM_Ok)%bindM_Ok)%bindM_Ok.
  eapply run_scenarios_blocks; [exact H5|].
  pose proof (settled_read_mode x1) as [[E1 _] _]. rewrite H3 in E1. cbn [snd] in E1.
  pose proof (kept_log ("  mode=" +:+ mode +:+ " readback=" +:+ a) x2) as [E2 _]. rewrite H4 in E2. cbn [snd] in E2.
  by rewrite E2, E1.
Qed.
End Rows.

Section Written.
Context `{Node} `{Mounts} {rng : Rng}.

Lemma past_member {A} (m : W A) w r w' x : moves ruled m -> m w = (r, w') -> x ∈ wk_past w -> x ∈ wk_past w'.
Proof.
  intros Hm E Hx. specialize (Hm w). rewrite E in Hm. destruct Hm as (_ & _ & l & El). cbn [snd] in El. rewrite El.
  apply elem_of_app. by left.
Qed.
Lemma asked_member {R} (c : call R) w r w' : ask c w = (Ok r, w') -> Request c ∈ wk_past w'.
Proof.
  unfold ask. pose proof (effect_past c (asked w (Request c))) as Hp. destruct (node_answer R c w) as [a|e]; [|done].
  specialize (Hp a). destruct (effect _ _ _) as [x v]. cbn [snd] in Hp. intros [= _ <-]. rewrite Hp. cbn. apply elem_of_app. right. by left.
Qed.

Lemma measured_Ok args c w rows m w' : ModeMatrix.measured args c w = (Ok (rows, m), w') ->
  exists m1 w1, ModeMatrix.run_campaign args c w = (Ok (rows, m1), w1).
Proof.
  unfold ModeMatrix.measured. destruct (ModeMatrix.run_campaign args c w) as [[[rows1 m1]|e] w1]; destruct (ModeMatrix.restore c w1) as [[]?]; try done.
  all: intros [= -> _ _]; by exists m1, w1.
Qed.
Lemma mode_results_written args env c started rows m w w' : ModeMatrix.write_results args env c started rows m w = (Ok tt, w') ->
  Request (Outside (WriteText (mo_out args +:+ ".tmp") (ModeMatrix.rows_text rows))) ∈ wk_past w' /\
  Request (Rename (mo_out args +:+ ".tmp") (mo_out args)) ∈ wk_past w'.
Proof.
  unfold ModeMatrix.write_results. intros (u & w1 & _ & (u1 & w2 & H1 & (u2 & w3 & H2 & H3)%bindM_Ok)%bindM_Ok)%bindM_Ok.
  assert (wk_past w3 ⊆ wk_past w') as Hsub.
  { intros x Hx. eapply past_member; [|exact H3|exact Hx]. apply kept_ruled, settled_kept. moves_go. }
  split; apply Hsub; [|by eapply asked_member].
  eapply past_member; [|exact H2|]; [apply kept_ruled, kept_ask; [exact _|reflexivity]|].
  unfold write_text, outside in H1. by apply asked_member in H1.
Qed.

(** C10: A run of the cgroup-mode study writes the rows of its plan, each measured
    in the mode that it names.  When the program ends normally (not with
    [--plan] or [--check]) the arguments were accepted, and the rows written
    beside [--out] and moved to it are, in order, those of every repetition, of
    every mode in the repetition's shuffled order and of every scenario: one per
    cgroup of the scenario, with the repetition, mode, order, scenario, group,
    weight and threads of the plan and the counters of the cgroup, updated with
    what the workload wrote; the
    kernel's mode file held the mode of the scene when it began and when it
    ended; and every order is a permutation of the requested modes. *)
Theorem mode_run_writes here args w w' :
  ModeMatrix.main here args w = (Ok 0, w') -> mo_plan args = false -> mo_check args = false ->
  exists scenarios modes run_id c blocks,
    ModeMatrix.check_args args = Ok (scenarios, modes) /\ cm_scenarios c = scenarios /\ cm_modes c = modes /\
    Request (Outside (WriteText (mo_out args +:+ ".tmp") (ModeMatrix.rows_text (mjoin blocks)))) ∈ wk_past w' /\
    Request (Rename (mo_out args +:+ ".tmp") (mo_out args)) ∈ wk_past w' /\
    Forall2 in_mode (planned_scenes (ModeMatrix.with_run_id args run_id) c) blocks /\
    (forall rep, mode_order args modes rep ≡ₚ modes).
Proof.
  intros Hm Hplan Hcheck. revert Hm. unfold ModeMatrix.main.
  intros ([scenarios modes] & w1 & [Hs ->]%liftM_Ok & (args' & w2 & Ha & Hm)%bindM_Ok)%bindM_Ok.
  assert (exists id, args' = ModeMatrix.with_run_id args id) as [id ->].
  { destruct (is_empty (mo_run_id args)); run_hyps; [by eexists|]. exists (mo_run_id args). by destruct args. }
  cbn [mo_plan mo_check ModeMatrix.with_run_id] in Hm. rewrite Hplan, Hcheck in Hm.
  apply bindM_Ok in Hm as (user & w3 & _ & (u & w4 & _ & (u' & w5 & _ & (env & w6 & He & Hm)%bindM_Ok)%bindM_Ok)%bindM_Ok).
  apply bindM_Ok in Hm as ([c started] & w7 & Hc & ([rows m] & w8 & Hr & ([] & w9 & Hw & [_ ->]%retM_Ok)%bindM_Ok)%bindM_Ok).
  destruct (environment_mode _ _ _ He) as (m0 & t0 & Hd & _). destruct (prepared_original _ _ _ _ _ _ _ _ _ _ Hc Hd) as (_ & El & Em).
  apply measured_Ok in Hr as (m1 & w10 & (blocks & -> & Hb)%run_campaign_blocks). apply mode_results_written in Hw as [W1 W2].
  exists scenarios, modes, id, c, blocks. split; [done|]. split; [done|]. split; [done|]. split; [exact W1|]. split; [exact W2|].
  split; [exact Hb|]. intros rep. apply shuffle_perm.
Qed.
End Written.
