(* ===== verification/ModeLab.v ===== *)
(** A node for the theorems of [ModeThm.v]: every call is answered, except the
    one at which the run is cut short; runs of the program on it, and what the
    program does not prevent. *)

From Stdlib Require Import ZArith Bool Ascii String Lia SpecFloat.
From stdpp Require Import base list strings option gmap.
From S2P Require Import Prelude Eff PyStr PyText PyFloat PyVal Json Campaign World Worker SchedHost SchedMatrix SchedNodeThm SchedMatrixThm SchedLab ModeScenarios ModeMatrix ModeThm.

Open Scope string_scope.
Open Scope Z_scope.

#[local] Instance lab_mounts : Mounts := {| CGROUP_MOUNT := "/sys/fs/cgroup"; SCHED_DEBUGFS := "/sys/kernel/debug" |}.
#[local] Instance lab_rng : Rng.
Proof. refine {| randbelow := fun _ _ _ => 0%nat |}. done. Defined.

(** A kernel with these modes, and a node on which SIGTERM comes during the call
    number [cut]. *)
Definition kernel_shows (modes : list string) (path text : string) : string :=
  if String.eqb path MODE_FILE then mode_line modes (strip text) else text.
Definition mode_node (cut : nat) : Node :=
  {| node_answer R c w := if Nat.eqb (length (wk_past w)) cut then Raise (Exn SystemExit "143") else lab_call c w;
     node_module := lab_module; node_shows := kernel_shows MODES |}.

Lemma mode_node_law cut : @mode_file_law (mode_node cut) lab_mounts.
Proof.
  intros m Hm. repeat (apply list.elem_of_cons in Hm as [->|Hm]; [vm_compute; reflexivity|]). by apply not_elem_of_nil in Hm.
Qed.
Lemma mode_node_calm cut n : (cut < n)%nat -> @calm (mode_node cut) n.
Proof.
  intros Hlt R c w Hn. cbn [node_answer mode_node]. rewrite (proj2 (Nat.eqb_neq _ _)) by lia. apply lab_answers.
Qed.
Lemma mode_node_children cut : @child_laws (mode_node cut).
Proof.
  split.
  - intros pid w e. cbn [node_answer mode_node]. destruct (Nat.eqb _ _); [|done]. by intros [= <-].
  - intros p t w e. cbn [node_answer mode_node]. destruct (Nat.eqb _ _); [|done]. intros [= <-]. by right.
Qed.

Definition mode_cli : mode_args :=
  {| mo_reps := 2; mo_duration := flit 3 1; mo_warmup := flit 1 1; mo_cooldown := flit 1 1; mo_seed := 20261024;
     mo_scenarios := "qos_nested,quota"; mo_modes := "up,tasks"; mo_out := "results/matrix.jsonl"; mo_meta := "results/meta.json";
     mo_parent_weight := 300; mo_run_id := "r1"; mo_plan := false; mo_check := false |}.
Definition mode_worker (mode : string) : worker :=
  {| wk_settings := {[MODE_FILE := mode +:+ newline]}; wk_module := None; wk_groups := ∅; wk_running := ∅; wk_past := [] |}.

(** ** A run that a signal ends *)

Definition lab_checked (cut : nat) : result pydict * worker := ModeMatrix.check_environment (H := mode_node cut) (mode_worker "concur").
Definition lab_env (cut : nat) : pydict := match fst (lab_checked cut) with Ok d => d | Raise _ => [] end.
Definition lab_started (cut : nat) : result (campaign * string) * worker :=
  ModeMatrix.prepare (H := mode_node cut) "here" mode_cli ["qos_nested"; "quota"] ["up"; "tasks"] (lab_env cut) (snd (lab_checked cut)).
Definition mode_campaign : campaign :=
  {| cm_scenarios := ["qos_nested"; "quota"]; cm_modes := ["up"; "tasks"]; cm_cpu_burn := "here/cpu_burn";
     cm_wakeup := "here/wakeup_latency"; cm_node := "worker-1"; cm_kernel := "7.0-k8labs"; cm_cpus := 2; cm_original := "concur" |}.

(** The signal comes in the first scenario, in mode [tasks]. *)
Lemma mode_restored_witness :
  exists w', ModeMatrix.measured (H := mode_node 120) mode_cli mode_campaign (snd (lab_started 120)) = (Raise (Exn SystemExit "143"), w') /\
    wk_settings (snd (ModeMatrix.run_campaign (H := mode_node 120) mode_cli mode_campaign (snd (lab_started 120)))) !! MODE_FILE =
      Some ("tasks" +:+ newline) /\
    exists t', wk_settings w' !! MODE_FILE = Some t' /\ parse_mode_file (kernel_shows MODES MODE_FILE t') = Ok "concur".
Proof.
  destruct (mode_restored (H := mode_node 120) "here" mode_cli ["qos_nested"; "quota"] ["up"; "tasks"] (mode_worker "concur") (lab_env 120)
              (snd (lab_checked 120)) mode_campaign (isoformat lab_date) (snd (lab_started 120)) ("concur" +:+ newline) "concur")
    as (w' & t' & E & Et & Em & _).
  - apply (ran (lab_checked 120)). vm_compute. reflexivity.
  - apply (ran (lab_started 120)). vm_compute. reflexivity.
  - vm_compute. reflexivity.
  - vm_compute. reflexivity.
  - apply mem_string_spec. vm_compute. reflexivity.
  - intros x k Hx. by apply elem_of_empty in Hx.
  - apply mode_node_law.
  - apply mode_node_calm. apply Nat.ltb_lt. vm_compute. reflexivity.
  - exists w'. split; [rewrite E; vm_compute; reflexivity|]. split; [vm_compute; reflexivity|]. exists t'. split; [exact Et|exact Em].
Defined.

(** ** A scenario that a signal ends *)

Definition mode_scene : scene := scene_of mode_cli mode_campaign 1 ["up"; "tasks"] "up" "qos_nested".
Definition mode_cut (cut : nat) : list cgroup * list proc * result (list pydict) * worker :=
  match ModeMatrix.run_scene (H := mode_node cut) mode_scene (mode_worker "up") with
  | (Ok r, w) => (r, w)
  | (Raise e, w) => ([], [], Raise e, w)
  end.
Definition cut_created (cut : nat) : list cgroup := fst (fst (fst (mode_cut cut))).
Definition cut_procs (cut : nat) : list proc := snd (fst (fst (mode_cut cut))).
Definition cut_rows (cut : nat) : result (list pydict) := snd (fst (mode_cut cut)).
Definition cut_cleaned (cut : nat) : worker :=
  snd (ModeMatrix.clean_scene (H := mode_node cut) mode_scene (cut_created cut) (cut_procs cut) (snd (mode_cut cut))).

(** The signal of call 12 comes while the second process is moved to its cgroup. *)
Lemma mode_scenario_stops_witness :
  (size (wk_running (cut_cleaned 12) ∖ wk_running (mode_worker "up")) <= 1)%nat /\
  wk_running (cut_cleaned 10000) ⊆ wk_running (mode_worker "up").
Proof.
  split.
  - refine (proj1 (mode_scenario_stops (H := mode_node 12) mode_scene (mode_worker "up") (cut_created 12) (cut_procs 12) (cut_rows 12)
                     (snd (mode_cut 12)) (cut_cleaned 12) (mode_node_children 12) _ _)); vm_compute; reflexivity.
  - refine (proj2 (mode_scenario_stops (H := mode_node 10000) mode_scene (mode_worker "up") (cut_created 10000) (cut_procs 10000)
                     (cut_rows 10000) (snd (mode_cut 10000)) (cut_cleaned 10000) (mode_node_children 10000) _ _) _);
      [vm_compute; reflexivity..|].
    assert (is_ok (cut_rows 10000) = true) as Ho by (vm_compute; reflexivity).
    intros e Hr. rewrite Hr in Ho. clear Hr. intros _. discriminate Ho.
Defined.
Example signal_leaves_one : size (wk_running (cut_cleaned 12)) = 1%nat.
Proof. vm_compute. reflexivity. Qed.

(** ** A run to its end *)

Definition mode_run : result Z * worker := ModeMatrix.main (H := mode_node 10000) "here" mode_cli (mode_worker "concur").

Lemma mode_run_writes_witness :
  exists blocks, Request (Outside (WriteText "results/matrix.jsonl.tmp" (ModeMatrix.rows_text (mjoin blocks)))) ∈ wk_past (snd mode_run) /\
    length blocks = 8%nat.
Proof.
  assert (fst mode_run = Ok 0) as Ef by (vm_compute; reflexivity). apply ran in Ef.
  destruct (mode_run_writes (H := mode_node 10000) "here" mode_cli (mode_worker "concur") (snd mode_run) Ef eq_refl eq_refl)
    as (scenarios & modes & id & c & blocks & Hs & Es & Em & Hw & _ & Hb & _).
  exists blocks. split; [exact Hw|]. apply Forall2_length in Hb. rewrite <- Hb. clear Ef Hw Hb.
  assert (ModeMatrix.check_args mode_cli = Ok (["qos_nested"; "quota"], ["up"; "tasks"])) as Hs' by (vm_compute; reflexivity).
  rewrite Hs' in Hs. injection Hs as <- <-. destruct c. cbn in Es, Em. subst. vm_compute. reflexivity.
Defined.

(** ** What the program does not prevent *)

(** A kernel whose mode is not one of the five: a whole repetition is measured
    before [set_mode] refuses to write the original mode back; the rows are lost
    and the node stays in the last mode of that repetition. *)
Definition other_kernel : Node :=
  {| node_answer R c w := lab_call c w; node_module := lab_module; node_shows := kernel_shows (MODES ++ ["auto"])%list |}.
Example unknown_mode_not_restored :
  match ModeMatrix.main (H := other_kernel) "here" mode_cli (mode_worker "auto") with
  | (Raise e, w) =>
      exn_msg e = "refusing to write unknown cgroup mode 'auto'" /\ wk_settings w !! MODE_FILE = Some ("up" +:+ newline) /\
      existsb (fun r => match r with Request (Rename _ _) => true | _ => false end) (wk_past w) = false
  | _ => False
  end.
Proof. vm_compute. repeat split; reflexivity. Qed.

(** The parent group is made before the [try]: when its set-up fails, it stays. *)
Definition no_cpuset : Node :=
  {| node_answer R c w :=
       match c in call R return result R with
       | Outside o =>
           match o in op R return result R with
           | WriteText path text => if endswith "cpuset.cpus" path then Raise (Exn OSError "[Errno 22] Invalid argument") else Ok tt
           | o => lab_op o
           end
       | c => lab_call c w
       end;
     node_module := lab_module; node_shows := kernel_shows MODES |}.
Example failed_parent_stays :
  match ModeMatrix.main (H := no_cpuset) "here" mode_cli (mode_worker "concur") with
  | (Raise e, w) => exn_cls e = OSError /\ wk_groups w = {[ModeMatrix.CGROUP_ROOT]}
  | _ => False
  end.
Proof. vm_compute. split; reflexivity. Qed.

(** The binaries that [check_environment] looks for are not the ones that are
    used: with both prebuilt beside the program a run still needs a compiler. *)
Definition no_compiler : Node :=
  {| node_answer R c w :=
       match c in call R return result R with
       | Outside o =>
           match o in op R return result R with
           | PathExists path => Ok (startswith "here/" path)
           | o => lab_op o
           end
       | Which tool => Ok (String.eqb tool "python3")
       | c => lab_call c w
       end;
     node_module := lab_module; node_shows := kernel_shows MODES |}.
Example prebuilt_needs_gcc :
  fst (ModeMatrix.compile_workloads (H := no_compiler) "here" (mode_worker "concur")) = Ok ("here/cpu_burn", "here/wakeup_latency") /\
  fst (workloads_need_compiler (H := no_compiler) "here" (mode_worker "concur")) = Ok false /\
  fst (ModeMatrix.main (H := no_compiler) "here" mode_cli (mode_worker "concur")) =
    Raise (Exn RuntimeError "required tool not found: gcc").
Proof. vm_compute. repeat split; reflexivity. Qed.

(** What a workload wrote replaces the labels of its row, and a value that is no
    mapping ends the run. *)
Example output_replaces_label row :
  update_row (dset "mode" (VStr "tasks") row) (VDict [("mode", VStr "smp")]) = Ok (dset "mode" (VStr "smp") (dset "mode" (VStr "tasks") row)) /\
  update_row row (VInt 0) = Raise (Exn TypeError "object is not iterable").
Proof. split; reflexivity. Qed.
