(* ===== verification/ModeAnalyze.v ===== *)
(** [sched-core-modes/experiments/analyze.py]: a run of the cgroup-mode study is
    read, checked and summarized.  The program without its report [summary.md]
    ([build_markdown], [build_findings]); [fail] raises [SystemExit]. *)

From Stdlib Require Import ZArith Bool Ascii String Lia SpecFloat.
From stdpp Require Import base list strings option.
From S2P Require Import Prelude PyStr PyFloat PyVal PyDict Json PyConv PyCsv SchedHost SchedMatrix DeltaAnalyze ModeScenarios.

Open Scope string_scope.
Open Scope Z_scope.

Definition REQUIRED_ROW : list string :=
  ["scenario"; "mode"; "group"; "kind"; "rep"; "usage_usec"; "elapsed_s"; "weight"; "threads"; "cpus"].
Definition REQUIRED_META : list string :=
  ["run_id"; "node"; "kernel"; "cpus"; "reps"; "modes"; "scenarios"; "rows"; "duration_s"; "warmup_s"].

Definition fail {A} (message : string) : result A := Raise (Exn SystemExit ("analyze: " +:+ message)).

(** [int(row[key])] and [str(row[key])], [int(row.get(key, d))] and [float(row.get(key, 0.0))] *)
Definition int_at (key : string) (row : pydict) : result Z := let* v := dindex key row in int_of_val v.
Definition str_at (key : string) (row : pydict) : result string := let* v := dindex key row in Ok (py_str v).
Definition int_or (key : string) (d : Z) (row : pydict) : result Z := int_of_val (dget_or key (VInt d) row).
Definition float_or_zero (key : string) (row : pydict) : result float := float_of_val (dget_or key (VFloat fzero) row).

(** ** Reading a run *)

Definition sort_names (l : list string) : list string := sort_by String.leb l.

(** One line of the matrix: no row for a blank one. *)
Definition matrix_line (path : string) (number : Z) (line : string) : result (list pydict) :=
  if is_blank line then Ok []
  else
    let place := path +:+ ":" +:+ str_of_Z number in
    match json_loads line with
    | Raise e =>
        if caught_by [JSONDecodeError] e then fail (place +:+ ": invalid JSON: " +:+ exn_msg e) else Raise e
    | Ok (VDict row) =>
        match List.filter (fun k => negb (dmem k row)) REQUIRED_ROW with
        | [] => Ok [row]
        | missing => fail (place +:+ ": missing keys: " +:+ py_repr (VList (VStr <$> sort_names missing)))
        end
    | Ok _ => fail (place +:+ ": row is not an object")
    end.
Fixpoint matrix_lines (path : string) (number : Z) (lines : list string) : result (list pydict) :=
  match lines with
  | [] => Ok []
  | line :: lines =>
      let* here := matrix_line path number line in
      let* later := matrix_lines path (number + 1) lines in
      Ok (here ++ later)%list
  end.
(** [load_matrix] and [load_meta]; [file]: [None] when the path is no file, else
    what its read gives. *)
Definition load_matrix (path : string) (file : option (result string)) : result (list pydict) :=
  match file with
  | None => fail ("matrix file not found: " +:+ path)
  | Some read =>
      let* text := read in
      let* rows := matrix_lines path 1 (splitlines text) in
      match rows with [] => fail ("matrix file is empty: " +:+ path) | _ => Ok rows end
  end.

Definition load_meta (path : string) (file : option (result string)) : result pydict :=
  match file with
  | None => fail ("meta file not found: " +:+ path)
  | Some read =>
      let* text := read in
      match json_loads text with
      | Raise e => if caught_by [JSONDecodeError] e then fail (path +:+ ": invalid JSON: " +:+ exn_msg e) else Raise e
      | Ok (VDict meta) =>
          iterM (fun key => if dmem key meta then Ok tt else fail (path +:+ ": missing meta key " +:+ repr_str key)) REQUIRED_META ;;;
          Ok meta
      | Ok _ => fail (path +:+ ": meta is not an object")
      end
  end.

(** [v in SCENARIOS], for a dictionary, and [v in MODES], for a tuple. *)
Definition known_scenario (v : pyval) : result bool :=
  match v with
  | VStr s => Ok (mem_string s scenario_names)
  | VList _ | VDict _ => Raise (Exn TypeError "unhashable type")
  | _ => Ok false
  end.
Definition known_mode (v : pyval) : bool := existsb (fun m => py_eq v (VStr m)) MODES.

(** [any(row["scenario"] == scenario and row["mode"] == mode and int(row["rep"]) == rep ...)] *)
Fixpoint any_row (scenario mode : pyval) (rep : Z) (rows : list pydict) : result bool :=
  match rows with
  | [] => Ok false
  | row :: rows =>
      let* s := dindex "scenario" row in
      let* m := if py_eq s scenario then let* m := dindex "mode" row in Ok (py_eq m mode) else Ok false in
      let* here := if m then let* r := int_at "rep" row in Ok (r =? rep) else Ok false in
      if here then Ok true else any_row scenario mode rep rows
  end.

Definition validate (rows : list pydict) (meta : pydict) : result unit :=
  let* declared := dindex "rows" meta in
  let* count := int_of_val declared in
  (if count =? Z.of_nat (length rows) then Ok tt
   else fail ("meta says " +:+ py_str declared +:+ " rows but the matrix has " +:+ str_of_Z (Z.of_nat (length rows)) +:+
              "; the run was truncated")) ;;;
  let* v := dindex "scenarios" meta in let* scenarios := py_iter v in
  let* v := dindex "modes" meta in let* modes := py_iter v in
  iterM (fun s => let* known := known_scenario s in if known then Ok tt else fail ("unknown scenario in meta: " +:+ py_str s)) scenarios ;;;
  iterM (fun m => if known_mode m then Ok tt else fail ("unknown mode in meta: " +:+ py_str m)) modes ;;;
  let* reps := int_at "reps" meta in
  (if reps <? 1 then fail "meta reps must be >= 1" else Ok tt) ;;;
  let* cpus := int_at "cpus" meta in
  (if cpus <? 1 then fail "meta cpus must be >= 1" else Ok tt) ;;;
  iterM (fun scenario => iterM (fun mode => iterM (fun rep =>
    let* present := any_row scenario mode rep rows in
    if present then Ok tt
    else fail ("missing data for " +:+ py_str scenario +:+ "/" +:+ py_str mode +:+ "/rep" +:+ str_of_Z rep))
    (cpu_range 1 reps)) modes) scenarios.

(** ** The rows of a repetition *)

(** Mean, sample deviation and count; zeros for no values. *)
Definition mean_sd (values : list float) : result (float * float * Z) :=
  match values with
  | [] => Ok (fzero, fzero, 0)
  | _ =>
      let* mean := fmean values in
      let* sd := if (1 <? length values)%nat then stdev values else Ok fzero in
      Ok (mean, sd, Z.of_nat (length values))
  end.

(** Scenario, mode and repetition. *)
Abbreviation rep_key := (string * string * Z)%type.

Definition index_row (index : list (rep_key * list pydict)) (row : pydict) : result (list (rep_key * list pydict)) :=
  let* scenario := str_at "scenario" row in
  let* mode := str_at "mode" row in
  let* rep := int_at "rep" row in
  Ok (push (scenario, mode, rep) row index).
Definition index_rows (rows : list pydict) : result (list (rep_key * list pydict)) := foldM index_row [] rows.

(** [[row for row in rows if str(row["kind"]) == kind]] *)
Fixpoint of_kind (kind : string) (rows : list pydict) : result (list pydict) :=
  match rows with
  | [] => Ok []
  | row :: rows =>
      let* k := str_at "kind" row in
      let* later := of_kind kind rows in
      Ok (if String.eqb k kind then row :: later else later)
  end.
Definition total_usage (rows : list pydict) : result Z := let* us := mapM (int_at "usage_usec") rows in Ok (sum_Z us).

(** [{str(row["group"]): int(row["usage_usec"]) / total for row in rows}] *)
Definition usage_shares (total : Z) (rows : list pydict) : result (list (string * float)) :=
  let* shares := mapM (fun row =>
    let* group := str_at "group" row in
    let* usage := int_at "usage_usec" row in
    let* x := truediv usage total in Ok (group, x)) rows in
  Ok (ModeScenarios.dict_of shares).
Definition level_share (rows : list pydict) (kind : string) : result (list (string * float)) :=
  let* selected := of_kind kind rows in
  let* total := total_usage selected in
  if total <=? 0 then fail ("no CPU usage for kind=" +:+ kind) else usage_shares total selected.

Fixpoint children_named (name : string) (children : list pydict) : result (list pydict) :=
  match children with
  | [] => Ok []
  | row :: children =>
      let* parent := str_at "parent" row in
      let* later := children_named name children in
      Ok (if String.eqb parent name then row :: later else later)
  end.
Definition pod_shares (rows : list pydict) : result (list (string * list (string * float))) :=
  let* parents := of_kind "parent" rows in
  let* children := of_kind "child" rows in
  foldM (fun d parent =>
    let* name := str_at "group" parent in
    let* kids := children_named name children in
    let* total := total_usage kids in
    if total <=? 0 then Ok d
    else let* shares := usage_shares total kids in Ok (assoc_set name shares d)) [] parents.

Fixpoint find_row (group kind : string) (rows : list pydict) : result (option pydict) :=
  match rows with
  | [] => Ok None
  | row :: rows =>
      let* g := str_at "group" row in
      let* k := if String.eqb g group then let* k := str_at "kind" row in Ok (String.eqb k kind) else Ok false in
      if k then Ok (Some row) else find_row group kind rows
  end.

(** ** Records *)

Definition round3 : float -> float := round_digits 3.
Definition pct3 (x : float) : float := round3 (fmul x (flit 100 1)).
Definition opt_rounded (k : Z) (x : option float) : pyval := match x with Some x => VFloat (round_digits k x) | None => VStr "" end.

(** What a metric is of. *)
Record subject : Type := {
  su_scenario : string; su_mode : string; su_group : string; su_kind : string; su_parent : string; su_weight : Z;
  su_threads : Z; su_cpu_max : string
}.
Definition metric_record (s : subject) (metric : string) (mean sd : float) (n : Z) (unit_name : string) (expected : option float)
    (note : string) : pydict :=
  [("scenario", VStr (su_scenario s)); ("mode", VStr (su_mode s)); ("group", VStr (su_group s)); ("kind", VStr (su_kind s));
   ("parent", VStr (su_parent s)); ("weight", VInt (su_weight s)); ("threads", VInt (su_threads s)); ("cpu_max", VStr (su_cpu_max s));
   ("metric", VStr metric); ("mean", VFloat (round_digits 6 mean)); ("sd", VFloat (round_digits 6 sd)); ("n", VInt n);
   ("unit", VStr unit_name); ("expected", opt_rounded 6 expected); ("delta", opt_rounded 6 (fsub mean <$> expected));
   ("note", VStr note)].

Definition scenario_subject (scenario mode group : string) : subject :=
  {| su_scenario := scenario; su_mode := mode; su_group := group; su_kind := "scenario"; su_parent := ""; su_weight := 0;
     su_threads := 0; su_cpu_max := "" |}.

(** ** The analysis *)

Record tables : Type := {
  tb_index : list (rep_key * list pydict);
  tb_shares : list (rep_key * list (string * float));
  tb_pods : list (rep_key * list (string * list (string * float)))
}.

Definition is_nested (scenario : string) : result bool :=
  let* s := scenario_of scenario in Ok (match sn_kind s with nested _ => true | flat _ => false end).

Definition cache_rep (scenario : string) (is_parent : bool) (mode : string) (t : tables) (rep : Z) : result tables :=
  let key := (scenario, mode, rep) in
  let rows := found key (tb_index t) in
  let* shares := level_share rows (if is_parent then "parent" else "group") in
  let* pods := if is_parent then let* p := pod_shares rows in Ok (assoc_set key p (tb_pods t)) else Ok (tb_pods t) in
  Ok {| tb_index := tb_index t; tb_shares := assoc_set key shares (tb_shares t); tb_pods := pods |}.
Definition cache_scenario (modes : list string) (reps : list Z) (t : tables) (scenario : string) : result tables :=
  let* is_parent := is_nested scenario in
  foldM (fun t mode => foldM (cache_rep scenario is_parent mode) t reps) t modes.

(** [share_cache[(scenario, mode, rep)][name]] *)
Definition share_at (t : tables) (scenario mode name : string) (rep : Z) : result float :=
  share_of name (found (scenario, mode, rep) (tb_shares t)).

(** The ratios to [smp], over the repetitions in which it was measured. *)
Fixpoint smp_ratios (t : tables) (scenario mode name : string) (reps : list Z) : result (list float) :=
  match reps with
  | [] => Ok []
  | rep :: reps =>
      let* baseline := share_at t scenario "smp" name rep in
      let* here := if fltb fzero baseline
                   then let* x := share_at t scenario mode name rep in let* r := fdiv x baseline in Ok [r] else Ok [] in
      let* later := smp_ratios t scenario mode name reps in
      Ok (here ++ later)%list
  end.

(** Iterations per second, and per second and thread. *)
Fixpoint throughputs (t : tables) (scenario mode name kind : string) (reps : list Z) : result (list (float * float)) :=
  match reps with
  | [] => Ok []
  | rep :: reps =>
      let* row := find_row name kind (found (scenario, mode, rep) (tb_index t)) in
      let* here :=
        match row with
        | None => Ok []
        | Some row =>
            let* elapsed := float_or_zero "elapsed_s" row in
            let* threads := int_or "threads" 1 row in
            let* iterations := int_or "iterations" 0 row in
            if fltb fzero elapsed && (0 <? iterations) then
              let* n := float_of_Z iterations in let* x := fdiv n elapsed in
              let* k := float_of_Z (Z.max 1 threads) in let* y := fdiv x k in
              Ok [(x, y)]
            else Ok []
        end in
      let* later := throughputs t scenario mode name kind reps in
      Ok (here ++ later)%list
  end.

Definition unit_subject (scenario mode : string) (u : scale_unit) : subject :=
  {| su_scenario := scenario; su_mode := mode; su_group := un_name u; su_kind := un_kind u; su_parent := un_parent u;
     su_weight := un_weight u; su_threads := un_threads u; su_cpu_max := un_cpu_max u |}.

(** [None if d is None else d[name]] *)
Definition expectation (name : string) (d : option (list (string * float))) : result (option float) :=
  match d with None => Ok None | Some d => let* x := share_of name d in Ok (Some x) end.

(** The row of a unit in [shares.csv] and its metrics. *)
Definition unit_result (t : tables) (modes : list string) (reps : list Z) (scenario mode : string)
    (expected expected_task : option (list (string * float))) (u : scale_unit) : result (pydict * list pydict) :=
  let name := un_name u in
  let s := unit_subject scenario mode u in
  let* values := mapM (share_at t scenario mode name) reps in
  let* (mean, sd, n) := mean_sd values in
  let* tasks := float_of_Z (Z.max 1 (un_threads u)) in
  let* per_task_values := mapM (fun x => fdiv x tasks) values in
  let* (per_task_mean, per_task_sd, _) := mean_sd per_task_values in
  let* expected_share := expectation name expected in
  let* expected_task_share := expectation name expected_task in
  let expected_share := if String.eqb scenario "latency" then None else expected_share in
  let expected_task_share := if String.eqb scenario "latency" then None else expected_task_share in
  let* ratios := if mem_string "smp" modes then smp_ratios t scenario mode name reps else Ok [] in
  let* (ratio_mean, ratio_sd, _) := mean_sd ratios in
  let* throughput := throughputs t scenario mode name (un_kind u) reps in
  let* (throughput_mean, throughput_sd, _) := mean_sd (fst <$> throughput) in
  let* (per_thread_mean, per_thread_sd, _) := mean_sd (snd <$> throughput) in
  let if_ratios (x : pyval) := match ratios with [] => VStr "" | _ => x end in
  let wide :=
    [("scenario", VStr scenario); ("mode", VStr mode); ("group", VStr name); ("kind", VStr (un_kind u)); ("parent", VStr (un_parent u));
     ("weight", VInt (un_weight u)); ("threads", VInt (un_threads u)); ("cpu_max", VStr (un_cpu_max u));
     ("share_mean_pct", VFloat (pct3 mean)); ("share_sd_pct", VFloat (pct3 sd)); ("share_n", VInt n);
     ("expected_pct", match expected_share with Some x => VFloat (pct3 x) | None => VStr "" end);
     ("delta_pp", match expected_share with Some x => VFloat (pct3 (fsub mean x)) | None => VStr "" end);
     ("relative_to_smp", if_ratios (VFloat (round_digits 4 ratio_mean)));
     ("relative_to_smp_sd", if_ratios (VFloat (round_digits 4 ratio_sd)));
     ("per_task_mean_pct", VFloat (pct3 per_task_mean)); ("per_task_sd_pct", VFloat (pct3 per_task_sd));
     ("per_task_expected_pct", match expected_task_share with Some x => VFloat (pct3 x) | None => VStr "" end);
     ("iterations_per_s", VFloat (round_digits 1 throughput_mean)); ("iterations_per_s_sd", VFloat (round_digits 1 throughput_sd));
     ("iterations_per_thread_s", VFloat (round_digits 1 per_thread_mean));
     ("iterations_per_thread_s_sd", VFloat (round_digits 1 per_thread_sd))] in
  let hundred x := fmul x (flit 100 1) in
  let measured_n := Z.of_nat (length throughput) in
  Ok (wide,
      ([metric_record s "cpu_share_pct" (hundred mean) (hundred sd) n "percent" (hundred <$> expected_share)
          (match expected_share with Some _ => "idealized full-concurrency model" | None => "quota-capped; no mode expectation" end);
        metric_record s "per_task_share_pct" (hundred per_task_mean) (hundred per_task_sd) n "percent" (hundred <$> expected_task_share)
          "CPU share divided by the group's thread count"] ++
       match ratios with
       | [] => []
       | _ => [metric_record s "relative_to_smp" ratio_mean ratio_sd (Z.of_nat (length ratios)) "ratio" (Some (flit 1 1))
                 "paired by repetition against the smp baseline"]
       end ++
       match throughput with
       | [] => []
       | _ => [metric_record s "iterations_per_s" throughput_mean throughput_sd measured_n "iterations/s" None "";
               metric_record s "iterations_per_thread_s" per_thread_mean per_thread_sd measured_n "iterations/s/thread" None ""]
       end)%list).

(** ** Metrics of a scenario *)

(** A metric of the values that were measured; none for no values. *)
Definition metric_of (s : subject) (metric : string) (values : list float) (unit_name : string) (expected : option float)
    (note : string) : result (list pydict) :=
  let* (mean, sd, n) := mean_sd values in
  Ok (if n =? 0 then [] else [metric_record s metric mean sd n unit_name expected note]).

(** The values that the repetitions give, in order. *)
Definition rep_values (reps : list Z) (f : Z -> result (list float)) : result (list float) :=
  let* values := mapM f reps in Ok (mjoin values).

Definition ctxt_rate (t : tables) (scenario mode : string) (rep : Z) : result (list float) :=
  match found (scenario, mode, rep) (tb_index t) with
  | [] => Ok []
  | row :: _ =>
      let* elapsed := float_or_zero "elapsed_s" row in
      if fltb fzero elapsed then
        let* n := int_or "ctxt" 0 row in let* x := float_of_Z n in let* r := fdiv x elapsed in Ok [r]
      else Ok []
  end.

(** [shares.get(name, 0.0)] *)
Definition share_or_zero (name : string) (shares : list (string * float)) : float :=
  match List.find (fun p => String.eqb name (fst p)) shares with Some (_, x) => x | None => fzero end.
Definition qos_ratio_at (t : tables) (scenario mode : string) (rep : Z) : result (list float) :=
  let shares := found (scenario, mode, rep) (tb_shares t) in
  let guaranteed := share_or_zero "qos-guaranteed" shares in
  if fltb fzero guaranteed then let* r := fdiv (share_or_zero "qos-burstable" shares) guaranteed in Ok [r] else Ok [].

Definition qos_metrics (t : tables) (reps : list Z) (scenario mode : string) (model : option (list (string * float))) : result (list pydict) :=
  let* values := rep_values reps (qos_ratio_at t scenario mode) in
  let* (mean, sd, n) := mean_sd values in
  if n =? 0 then Ok []
  else
    let* expected := match model with
                     | Some d =>
                         let* b := share_of "qos-burstable" d in let* g := share_of "qos-guaranteed" d in
                         let* r := fdiv b g in Ok (Some r)
                     | None => Ok None
                     end in
    Ok [metric_record (scenario_subject scenario mode "qos-burstable/qos-guaranteed") "qos_ratio" mean sd n "ratio" expected
          "QoS-class CPU ratio"].

(** A child's share of its parent, and of the scenario, in one repetition. *)
Definition within_at (t : tables) (scenario mode parent child : string) (rep : Z) : result (list float) :=
  let shares := found parent (found (scenario, mode, rep) (tb_pods t)) in
  Ok (match List.find (fun p => String.eqb child (fst p)) shares with Some (_, x) => [x] | None => [] end).
Definition machine_at (t : tables) (scenario mode child : string) (rep : Z) : result (list float) :=
  let rows := found (scenario, mode, rep) (tb_index t) in
  let* parents := of_kind "parent" rows in
  let* usage := total_usage parents in
  let* row := find_row child "child" rows in
  match row with
  | Some row => if 0 <? usage then let* u := int_at "usage_usec" row in let* x := truediv u usage in Ok [x] else Ok []
  | None => Ok []
  end.

Definition pod_result (t : tables) (reps : list Z) (scenario mode parent : string) (c : ChildGroup) : result (pydict * list pydict) :=
  let child := parent +:+ "-" +:+ ch_name c in
  let* within := rep_values reps (within_at t scenario mode parent child) in
  let* machine := rep_values reps (machine_at t scenario mode child) in
  let* (within_mean, within_sd, within_n) := mean_sd within in
  let* (machine_mean, machine_sd, _) := mean_sd machine in
  let s := {| su_scenario := scenario; su_mode := mode; su_group := child; su_kind := "child"; su_parent := parent;
              su_weight := ch_weight c; su_threads := ch_threads c; su_cpu_max := "" |} in
  Ok ([("scenario", VStr scenario); ("mode", VStr mode); ("parent", VStr parent); ("child", VStr child);
       ("weight", VInt (ch_weight c)); ("threads", VInt (ch_threads c));
       ("share_within_parent_pct", VFloat (pct3 within_mean)); ("share_within_parent_sd_pct", VFloat (pct3 within_sd));
       ("share_of_machine_pct", VFloat (pct3 machine_mean)); ("share_of_machine_sd_pct", VFloat (pct3 machine_sd));
       ("n", VInt within_n)],
      [metric_record s "pod_share_within_parent_pct" (fmul within_mean (flit 100 1)) (fmul within_sd (flit 100 1)) within_n
         "percent" (Some (flit 50 1)) "equal pod weights and thread counts"]).
Definition pod_results (t : tables) (reps : list Z) (scenario mode : string) : result (list (pydict * list pydict)) :=
  let* s := scenario_of scenario in
  match sn_kind s with
  | nested parents => mapM (fun p => pod_result t reps scenario mode (fst p) (snd p)) (p ← parents; (fun c => (pa_name p, c)) <$> pa_children p)
  | flat _ => Raise (Exn KeyError "'parents'")
  end.

(** Throttling per usage, wall time and periods, in one repetition. *)
Record throttling : Type := { th_usage : list float; th_wall : list float; th_periods : list float }.
Definition throttle_at (t : tables) (scenario mode : string) (rep : Z) : result throttling :=
  let* row := find_row "limited" "group" (found (scenario, mode, rep) (tb_index t)) in
  match row with
  | None => Ok {| th_usage := []; th_wall := []; th_periods := [] |}
  | Some limited =>
      let* usage := int_or "usage_usec" 0 limited in
      let* throttled := int_or "throttled_usec" 0 limited in
      let* periods := int_or "nr_periods" 0 limited in
      let* throttled_periods := int_or "nr_throttled" 0 limited in
      let* elapsed := float_or_zero "elapsed_s" limited in
      let hundred x := fmul x (flit 100 1) in
      let* by_usage := if 0 <? usage then let* x := truediv throttled usage in Ok [hundred x] else Ok [] in
      let* by_wall := if fltb fzero elapsed
                      then let* n := float_of_Z throttled in let* x := fdiv n (fmul elapsed (flit 1000000 1)) in Ok [hundred x]
                      else Ok [] in
      let* by_period := if 0 <? periods then let* x := truediv throttled_periods periods in Ok [hundred x] else Ok [] in
      Ok {| th_usage := by_usage; th_wall := by_wall; th_periods := by_period |}
  end.
Definition quota_metrics (t : tables) (reps : list Z) (scenario mode : string) : result (list pydict) :=
  let* reads := mapM (throttle_at t scenario mode) reps in
  let s := {| su_scenario := scenario; su_mode := mode; su_group := "limited"; su_kind := "group"; su_parent := ""; su_weight := 100;
              su_threads := 2; su_cpu_max := "50000 100000" |} in
  let* by_usage := metric_of s "throttled_usage_pct" (reads ≫= th_usage) "percent" None "throttled_usec / usage_usec" in
  let* by_wall := metric_of s "throttled_wall_pct" (reads ≫= th_wall) "percent" None "throttled_usec / wall time" in
  let* by_period := metric_of s "throttled_periods_pct" (reads ≫= th_periods) "percent" None "nr_throttled / nr_periods" in
  Ok (by_usage ++ by_wall ++ by_period)%list.

Definition LATENCY_METRICS : list (string * string) :=
  [("p50_us", "wakeup_p50_us"); ("p99_us", "wakeup_p99_us"); ("p999_us", "wakeup_p999_us"); ("max_us", "wakeup_max_us")].
Definition probe_value (t : tables) (scenario mode field : string) (rep : Z) : result (list float) :=
  let* probe := find_row "probe" "group" (found (scenario, mode, rep) (tb_index t)) in
  match probe with
  | Some row => match dget field row with Some v => let* x := float_of_val v in Ok [x] | None => Ok [] end
  | None => Ok []
  end.
Definition latency_metrics (t : tables) (reps : list Z) (scenario mode : string) : result (list pydict) :=
  let s := {| su_scenario := scenario; su_mode := mode; su_group := "probe"; su_kind := "group"; su_parent := ""; su_weight := 100;
              su_threads := 1; su_cpu_max := "" |} in
  let* metrics := mapM (fun f =>
    let* values := rep_values reps (probe_value t scenario mode (fst f)) in
    metric_of s (snd f) values "microseconds" None "1 ms timer") LATENCY_METRICS in
  Ok (mjoin metrics).

(** ** The result *)

(** The tables: [wide], [metrics] and [pods]. *)
Record summary : Type := { sm_wide : list pydict; sm_metrics : list pydict; sm_pods : list pydict }.
Definition add_summary (a b : summary) : summary :=
  {| sm_wide := sm_wide a ++ sm_wide b; sm_metrics := sm_metrics a ++ sm_metrics b; sm_pods := sm_pods a ++ sm_pods b |}.
Definition no_summary : summary := {| sm_wide := []; sm_metrics := []; sm_pods := [] |}.

Definition mode_summary (t : tables) (modes : list string) (reps : list Z) (scenario : string) (units : list scale_unit)
    (m : string * (option (list (string * float)) * option (list (string * float)))) : result summary :=
  let '(mode, (expected, expected_task)) := m in
  let* of_units := mapM (unit_result t modes reps scenario mode expected expected_task) units in
  let* rates := rep_values reps (ctxt_rate t scenario mode) in
  let* ctxt := metric_of (scenario_subject scenario mode "") "ctxt_per_s" rates "context switches/s" None
                 "whole-node counter during the measurement window" in
  let* qos := if String.eqb scenario "qos_nested" then qos_metrics t reps scenario mode expected else Ok [] in
  let* pods := if String.eqb scenario "qos_nested" then pod_results t reps scenario mode else Ok [] in
  let* quota := if String.eqb scenario "quota" then quota_metrics t reps scenario mode else Ok [] in
  let* latency := if String.eqb scenario "latency" then latency_metrics t reps scenario mode else Ok [] in
  Ok {| sm_wide := fst <$> of_units;
        sm_metrics := (of_units ≫= snd) ++ ctxt ++ qos ++ (pods ≫= snd) ++ quota ++ latency;
        sm_pods := fst <$> pods |}.

(** The expectations of all modes come before the first mode is summarized. *)
Definition scenario_summary (t : tables) (cpus : Z) (modes : list string) (reps : list Z) (scenario : string) : result summary :=
  let* units := scenario_units scenario in
  let* model := mapM (fun mode => expected_shares scenario mode cpus) modes in
  let* model_per_task := mapM (fun mode => expected_per_task_shares scenario mode cpus) modes in
  let* parts := mapM (mode_summary t modes reps scenario units) (combine modes (combine model model_per_task)) in
  Ok (fold_left add_summary parts no_summary).

Definition cached (rows : list pydict) (modes : list string) (reps : list Z) (scenarios : list string) : result tables :=
  let* index := index_rows rows in
  foldM (cache_scenario modes reps) {| tb_index := index; tb_shares := []; tb_pods := [] |} scenarios.

(** [[str(x) for x in meta[key]]] *)
Definition names_at (key : string) (meta : pydict) : result (list string) :=
  let* v := dindex key meta in let* l := py_iter v in Ok (py_str <$> l).

Definition analyze (rows : list pydict) (meta : pydict) : result (summary * pydict) :=
  let* cpus := int_at "cpus" meta in
  let* count := int_at "reps" meta in
  let reps := cpu_range 1 count in
  let* scenarios := names_at "scenarios" meta in
  let* modes := names_at "modes" meta in
  let* t := cached rows modes reps scenarios in
  let* parts := mapM (scenario_summary t cpus modes reps) scenarios in
  let s := fold_left add_summary parts no_summary in
  let* run_id := dindex "run_id" meta in
  let* node := dindex "node" meta in
  let* kernel := dindex "kernel" meta in
  let* declared_reps := dindex "reps" meta in
  let* duration := dindex "duration_s" meta in
  let* warmup := dindex "warmup_s" meta in
  Ok (s, [("run_id", run_id); ("node", node); ("kernel", kernel); ("cpus", VInt cpus); ("reps", declared_reps);
          ("duration_s", duration); ("warmup_s", warmup); ("modes", VList (VStr <$> modes)); ("scenarios", VList (VStr <$> scenarios));
          ("original_mode", dget_or "original_mode" (VStr "") meta); ("restored_mode", dget_or "restored_mode" (VStr "") meta);
          ("mode_summary", VDict ((fun p => (fst p, VStr (snd p))) <$> MODE_SUMMARY)); ("wide", VList (VDict <$> sm_wide s));
          ("metrics", VList (VDict <$> sm_metrics s)); ("pods", VList (VDict <$> sm_pods s))]).

(** [write_csv]: the text of the file. *)
Definition cell_text (v : pyval) : string := match v with VNone => "" | v => py_str v end.
Definition csv_cells (names : list string) (row : pydict) : result (list string) :=
  raise_if (existsb (fun k => negb (mem_string k names)) (dkeys row)) ValueError "dict contains fields not in fieldnames" ;;;
  Ok ((fun k => cell_text (dget_or k (VStr "") row)) <$> names).
Definition csv_file (rows : list pydict) : result string :=
  match rows with
  | [] => Ok ""
  | first :: _ => let* cells := mapM (csv_cells (dkeys first)) rows in Ok (csv_write (dkeys first :: cells))
  end.
