(* ===== verification/ModeAnalyzeThm.v ===== *)
(** What [ModeAnalyze.v] guarantees: it accepts what a complete run wrote, and
    its shares are those of the repetitions. *)

From Stdlib Require Import ZArith Bool Ascii String Lia SpecFloat.
From stdpp Require Import base list strings option.
From S2P Require Import Prelude Eff PyStr PyText PyFloat PyVal PyDict Json PyConv Campaign SchedHost SchedMatrix SchedMatrixThm DeltaAnalyze DeltaAnalyzeThm ModeScenarios ModeMatrix ModeThm ModeAnalyze.

Open Scope string_scope.
Open Scope Z_scope.

(** ** A complete run is accepted *)

Definition has_required (row : pydict) : Prop := Forall (fun k => dmem k row = true) REQUIRED_ROW.

Lemma dmem_dget k d : dmem k d = true <-> is_Some (dget k d).
Proof. unfold dmem. destruct (dget k d); split; (done || intros [? [=]] || eauto). Qed.
Lemma dmem_dset k k' v d : dmem k d = true -> dmem k (dset k' v d) = true.
Proof.
  rewrite !dmem_dget. intros Hk. destruct (decide (k = k')) as [<-|Hne]; [rewrite dget_dset; eauto|by rewrite dget_dset_ne].
Qed.
Lemma dmem_dupdate k e : forall d, dmem k d = true -> dmem k (dupdate d e) = true.
Proof. unfold dupdate. induction e as [|p e IH]; intros d Hd; [done|]. cbn [fold_left]. by apply IH, dmem_dset. Qed.
Lemma update_row_mem k row data row' : update_row row data = Ok row' -> dmem k row = true -> dmem k row' = true.
Proof.
  unfold update_row. destruct data; try (intros (items & _ & (pairs & _ & <-%Ok_inj)%rbind_Ok)%rbind_Ok; apply dmem_dupdate).
  intros <-%Ok_inj. apply dmem_dupdate.
Qed.
Lemma recorded_required s sp row : recorded s sp row -> has_required row.
Proof.
  intros (a & b & m & t & Hr). assert (has_required (base_row s sp a b m t)) as Hb by by repeat constructor.
  destruct Hr as [->|[data Hu]]; [done|]. eapply List.Forall_impl; [|exact Hb]. intros k. by eapply update_row_mem.
Qed.

(** What the workload wrote leaves the labels of the row as they are. *)
Definition labelled (s : scene) (sp : spec) (row : pydict) : Prop := recorded s sp row /\ labels row = scene_labels s sp.
(** The blocks of a complete run. *)
Definition complete_blocks : list scene -> list (list pydict) -> Prop :=
  Forall2 (fun s block => exists specs, group_specs (se_scenario s) = Ok specs /\ Forall2 (labelled s) specs block).

Definition coordinates (scenario mode : string) (rep : Z) (row : pydict) : Prop :=
  dget "scenario" row = Some (VStr scenario) /\ dget "mode" row = Some (VStr mode) /\ dget "rep" row = Some (VInt rep).

Lemma labels_coordinates s sp row : labels row = scene_labels s sp -> coordinates (se_scenario s) (se_mode s) (se_rep s) row.
Proof. intros E. unfold labels, scene_labels in E. cbn in E. injection E as E1 E2 _ E4 _ _ _. by repeat split. Qed.
Lemma sorted_coordinates scenario mode rep row : json_wf (VDict row) = true ->
  coordinates scenario mode rep row -> coordinates scenario mode rep (sorted_row row).
Proof. intros Hr (E1 & E2 & E3). repeat split; rewrite sorted_row_get by done; by rewrite ?E1, ?E2, ?E3. Qed.

Lemma matrix_line_row path n row : json_wf (VDict row) = true -> has_required row ->
  matrix_line path n (json_plain true (VDict row)) = Ok [sorted_row row].
Proof.
  intros Hr Hk. unfold matrix_line, is_blank. rewrite strip_json_dict.
  assert (is_empty (json_plain true (VDict row)) = false) as -> by (unfold json_plain; by destruct row).
  rewrite sorted_row_loads by done. enough (List.filter (fun k => negb (dmem k (sorted_row row))) REQUIRED_ROW = []) as -> by done.
  unfold has_required in Hk. induction Hk as [|k keys Hk Hks IH]; [done|]. cbn [List.filter].
  assert (dmem k (sorted_row row) = true) as ->; [|exact IH].
  apply dmem_dget. rewrite sorted_row_get by done. apply dmem_dget in Hk as [v ->]. by eexists.
Qed.
Lemma matrix_lines_rows path rows : Forall (fun row => json_wf (VDict row) = true) rows -> Forall has_required rows -> forall n,
  matrix_lines path n ((fun row => json_plain true (VDict row)) <$> rows) = Ok (sorted_row <$> rows).
Proof.
  intros Hr Hk. induction Hr as [|row rows Hrow Hr IH]; intros n; [done|]. apply Forall_cons_iff in Hk as [Hk Hks].
  cbn [fmap list_fmap matrix_lines]. rewrite matrix_line_row by done. cbn [rbind]. by rewrite IH.
Qed.

(** The rows are found again, in any order of the repetitions. *)
Lemma any_row_here scenario mode rep rows :
  Forall (fun row => exists s m r, coordinates s m r row) rows ->
  (exists row, row ∈ rows /\ coordinates scenario mode rep row) -> any_row (VStr scenario) (VStr mode) rep rows = Ok true.
Proof.
  induction 1 as [|row rows (s & m & r & E1 & E2 & E3) Hrows IH]; intros (x & Hx & Hc); [by apply not_elem_of_nil in Hx|].
  cbn [any_row]. unfold dindex, int_at, dindex. rewrite E1, E2, E3. cbn [rbind py_eq int_of_val].
  assert (any_row (VStr scenario) (VStr mode) rep rows = Ok true \/ s = scenario /\ m = mode /\ r = rep) as Hor.
  { apply list.elem_of_cons in Hx as [->|Hx]; [|left; apply IH; by exists x]. right.
    destruct Hc as (C1 & C2 & C3). rewrite E1 in C1. rewrite E2 in C2. rewrite E3 in C3. split_and!; congruence. }
  destruct (String.eqb_spec s scenario) as [<-|Hs]; [|cbn [rbind]; destruct Hor as [?|(? & _)]; done].
  cbn [rbind]. destruct (String.eqb_spec m mode) as [<-|Hm]; [|cbn [rbind]; destruct Hor as [?|(_ & ? & _)]; done].
  cbn [rbind]. destruct (Z.eqb_spec r rep) as [<-|Hz]; [done|]. destruct Hor as [?|(_ & _ & ?)]; done.
Qed.

Section Accepted.
Context `{Rng}.

Lemma planned_member args c rep mode scenario : rep ∈ cpu_range 1 (mo_reps args) -> mode ∈ cm_modes c -> scenario ∈ cm_scenarios c ->
  exists s, s ∈ planned_scenes args c /\ se_rep s = rep /\ se_mode s = mode /\ se_scenario s = scenario.
Proof.
  intros Hr Hm Hs. exists (scene_of args c rep (mode_order args (cm_modes c) rep) mode scenario). split; [|done].
  apply list_elem_of_bind. exists rep. split; [|done]. apply list_elem_of_bind. exists mode. split.
  - apply list_elem_of_fmap. by exists scenario.
  - unfold mode_order. by rewrite shuffle_perm.
Qed.

Lemma group_specs_some name specs : group_specs name = Ok specs -> specs ≠ [].
Proof.
  unfold group_specs, scenario_of. intros (sc & Hs & <-%Ok_inj)%rbind_Ok. destruct (List.find _ _) as [[k x]|] eqn:Ef; [|done].
  apply Ok_inj in Hs as ->. apply find_some in Ef as [Hin _]. revert Hin. cbn. intros [[= <- <-]|[[= <- <-]|[[= <- <-]|[[= <- <-]|[]]]]]; done.
Qed.

Lemma block_member scenes blocks s : complete_blocks scenes blocks -> s ∈ scenes ->
  exists row, row ∈ mjoin blocks /\ coordinates (se_scenario s) (se_mode s) (se_rep s) row.
Proof.
  intros Hb Hs. apply list_elem_of_lookup in Hs as [i Hi]. destruct (Forall2_lookup_l _ _ _ _ _ Hb Hi) as (block & Hbi & specs & Hg & Hf).
  pose proof (group_specs_some _ _ Hg) as Hne. destruct Hf as [|sp row specs block [_ Hl] Hf]; [done|]. exists row. split.
  - apply list_elem_of_join. exists (row :: block). split; [by left|by eapply list_elem_of_lookup_2].
  - by eapply labels_coordinates.
Qed.
Lemma blocks_all scenes blocks (P : pydict -> Prop) : complete_blocks scenes blocks ->
  (forall s sp row, labelled s sp row -> P row) -> Forall P (mjoin blocks).
Proof.
  intros Hb HP. apply List.Forall_forall. intros row Hrow%list_elem_of_In. apply list_elem_of_join in Hrow as (block & Hrow & Hblock).
  apply list_elem_of_lookup in Hblock as [i Hi]. destruct (Forall2_lookup_r _ _ _ _ _ Hb Hi) as (s & _ & specs & _ & Hf).
  apply list_elem_of_lookup in Hrow as [j Hj]. destruct (Forall2_lookup_r _ _ _ _ _ Hf Hj) as (sp & _ & Hl). by eapply HP.
Qed.

Lemma known_all l : Forall (fun s => s ∈ scenario_names) l ->
  iterM (fun s => let* known := known_scenario s in if known then Ok tt else fail ("unknown scenario in meta: " +:+ py_str s)) (VStr <$> l) = Ok tt.
Proof.
  induction 1 as [|s l Hs Hl IH]; [done|]. cbn [fmap list_fmap iterM known_scenario]. rewrite (proj2 (mem_string_spec _ _) Hs). exact IH.
Qed.
Lemma modes_all l : Forall (fun m => m ∈ MODES) l ->
  iterM (fun m => if known_mode m then Ok tt else fail ("unknown mode in meta: " +:+ py_str m)) (VStr <$> l) = Ok tt.
Proof.
  induction 1 as [|m l Hm Hl IH]; [done|]. cbn [fmap list_fmap iterM]. assert (known_mode (VStr m) = true) as ->; [|exact IH].
  repeat (apply list.elem_of_cons in Hm as [->|Hm]; [reflexivity|]). by apply not_elem_of_nil in Hm.
Qed.
Lemma iterM_all {A} (f : A -> result unit) l : (forall x, x ∈ l -> f x = Ok tt) -> iterM f l = Ok tt.
Proof.
  induction l as [|x l IH]; intros Hf; [done|]. cbn [iterM]. rewrite (Hf x) by by left. cbn [rbind]. apply IH. intros y Hy. apply Hf. by right.
Qed.

(** C12: The analysis accepts what a complete run wrote.  Take the rows of a run
    of [run_matrix.py] - a block for every planned scene, as [mode_run_writes]
    gives them, whose labels the workloads left alone - and its metadata, both
    printable as JSON.  Then [load_matrix] reads from the file the same rows in
    the same order, [load_meta] reads the metadata, and [validate] finds the count
    right and every scenario, mode and repetition present. *)
Theorem run_accepted args c boot_id restored started finished path meta_path blocks :
  let rows := mjoin blocks in
  let meta := run_meta args c boot_id restored started finished (length rows) in
  complete_blocks (planned_scenes args c) blocks ->
  1 <= mo_reps args -> 1 <= cm_cpus c -> cm_modes c ≠ [] -> cm_scenarios c ≠ [] ->
  Forall (fun s => s ∈ scenario_names) (cm_scenarios c) -> Forall (fun m => m ∈ MODES) (cm_modes c) ->
  Forall (fun row => json_wf (VDict row) = true) rows -> json_wf (VDict meta) = true ->
  exists rows' meta',
    load_matrix path (Some (Ok (rows_text rows))) = Ok rows' /\
    load_meta meta_path (Some (Ok (json_indent true (VDict meta) +:+ newline))) = Ok meta' /\
    validate rows' meta' = Ok tt /\
    Forall2 (fun row row' => forall k, dget k row' = json_norm true <$> dget k row) rows rows'.
Proof.
  intros rows meta Hb Hreps Hcpus Hmodes Hscen Hs Hm Hwf Hmeta.
  assert (Forall has_required rows) as Hreq by (eapply blocks_all; [exact Hb|]; intros s sp row [Hr _]; by eapply recorded_required).
  assert (Forall (fun row => exists s m r, coordinates s m r row) rows) as Hall.
  { eapply blocks_all; [exact Hb|]. intros s sp row [_ Hl%labels_coordinates]. by eauto. }
  assert (forall k, dget k (sorted_row meta) = json_norm true <$> dget k meta) as Hget by (intros k; by apply sorted_row_get).
  assert (forall rep mode scenario, rep ∈ cpu_range 1 (mo_reps args) -> mode ∈ cm_modes c -> scenario ∈ cm_scenarios c ->
    exists row, row ∈ rows /\ coordinates scenario mode rep row) as Hin.
  { intros rep mode scenario H1 H2 H3. destruct (planned_member args c rep mode scenario H1 H2 H3) as (s & Hp & <- & <- & <-).
    by eapply block_member. }
  exists (sorted_row <$> rows), (sorted_row meta). split; [|split; [|split]].
  - unfold load_matrix. cbn [rbind]. change (rows_text rows) with (SchedMatrix.rows_text rows). rewrite rows_text_lines, matrix_lines_rows by done.
    cbn [rbind]. destruct (cm_modes c) as [|m ms]; [done|]. destruct (cm_scenarios c) as [|s ss]; [done|].
    destruct (Hin 1 m s) as (row & Hrow & _); [apply list_elem_of_fmap; exists 0%nat; split; [done|apply list_elem_of_In, in_seq; lia]|by left..|].
    destruct rows; [by apply not_elem_of_nil in Hrow|done].
  - unfold load_meta. cbn [rbind].
    assert (json_loads (json_indent true (VDict meta) +:+ newline) = Ok (VDict (sorted_row meta))) as ->.
    { exact (json_loads_text (indent_style true) (VDict meta) newline (indent_style_ok true) Hmeta eq_refl). }
    rewrite iterM_all; [done|]. intros k Hk. assert (is_Some (dget k meta)) as [v Hv].
    { repeat (apply list.elem_of_cons in Hk as [->|Hk]; [by eexists|]). by apply not_elem_of_nil in Hk. }
    assert (dmem k (sorted_row meta) = true) as ->; [|done]. apply dmem_dget. rewrite Hget, Hv. by eexists.
  - unfold validate, int_at, dindex. rewrite !Hget. change (dget "rows" meta) with (Some (VInt (Z.of_nat (length rows)))).
    change (dget "scenarios" meta) with (Some (VList (VStr <$> cm_scenarios c))).
    change (dget "modes" meta) with (Some (VList (VStr <$> cm_modes c))). change (dget "reps" meta) with (Some (VInt (mo_reps args))).
    change (dget "cpus" meta) with (Some (VInt (cm_cpus c))).
    cbn [fmap option_fmap option_map json_norm rbind int_of_val py_iter].
    assert (forall l, json_norm true <$> (VStr <$> l) = VStr <$> l) as Hn by (intros l; rewrite <- list_fmap_compose; by apply list_fmap_ext).
    rewrite length_fmap, Z.eqb_refl, !Hn, known_all, modes_all by done. cbn [rbind].
    rewrite (proj2 (Z.ltb_ge _ _)) by lia. cbn [rbind]. rewrite (proj2 (Z.ltb_ge _ _)) by lia. cbn [rbind].
    apply iterM_all. intros v (scenario & -> & Hsc)%list_elem_of_fmap. apply iterM_all. intros v (mode & -> & Hmo)%list_elem_of_fmap.
    apply iterM_all. intros rep Hrep. destruct (Hin rep mode scenario Hrep Hmo Hsc) as (row & Hrow & Hco).
    rewrite any_row_here; [done| |].
    + apply Forall_fmap. rewrite List.Forall_forall in Hall, Hwf |- *. intros x Hx. destruct (Hall x Hx) as (s & m & r & Hc).
      exists s, m, r. apply sorted_coordinates; [by apply Hwf|exact Hc].
    + exists (sorted_row row). split; [by apply list_elem_of_fmap_2|]. apply sorted_coordinates; [|done].
      rewrite List.Forall_forall in Hwf. by apply Hwf, list_elem_of_In.
  - clear -Hwf. induction Hwf as [|row rows Hr Hrows IH]; constructor; [|exact IH]. intros k. by apply sorted_row_get.
Qed.
End Accepted.

(** ** The shares *)

(** The rows of a scenario, a mode and a repetition. *)
Definition matrix_key (row : pydict) : option rep_key :=
  match str_at "scenario" row, str_at "mode" row, int_at "rep" row with
  | Ok s, Ok m, Ok r => Some (s, m, r)
  | _, _, _ => None
  end.
Definition rep_rows (rows : list pydict) (key : rep_key) : list pydict :=
  List.filter (fun row => bool_decide (matrix_key row = Some key)) rows.

Lemma index_found rows key : forall index index', foldM index_row index rows = Ok index' ->
  found key index' = (found key index ++ rep_rows rows key)%list.
Proof.
  induction rows as [|row rows IH]; intros index index'; cbn [foldM]; [intros <-%Ok_inj; by rewrite app_nil_r|].
  intros (i1 & H1 & H2)%rbind_Ok. rewrite (IH _ _ H2). unfold index_row in H1.
  apply rbind_Ok in H1 as (s & Es & (m & Em & (r & Er & <-%Ok_inj)%rbind_Ok)%rbind_Ok).
  assert (matrix_key row = Some (s, m, r)) as Ek by (unfold matrix_key; by rewrite Es, Em, Er).
  rewrite found_push. unfold rep_rows. cbn [List.filter]. rewrite Ek.
  destruct (decide (key = (s, m, r))) as [->|Hne].
  - rewrite bool_decide_true by done. by rewrite <- app_assoc.
  - rewrite bool_decide_false; [done|]. intros [= <-]. done.
Qed.

(** The rows whose usage is compared: the groups, or the parents. *)
Definition level_kind (scenario : string) : string := match is_nested scenario with Ok true => "parent" | _ => "group" end.

Definition rows_of_kind (kind : string) (rows : list pydict) : list pydict :=
  List.filter (fun row => match str_at "kind" row with Ok k => String.eqb k kind | Raise _ => false end) rows.

Lemma of_kind_filter kind rows : forall selected, of_kind kind rows = Ok selected -> selected = rows_of_kind kind rows.
Proof.
  induction rows as [|row rows IH]; intros selected; cbn [of_kind]; [by intros <-%Ok_inj|].
  intros (k & Hk & (later & Hl & <-%Ok_inj)%rbind_Ok)%rbind_Ok. unfold rows_of_kind. cbn [List.filter]. rewrite Hk.
  rewrite (IH _ Hl). by destruct (String.eqb k kind).
Qed.

(** A share: the usage of a row of the group over that of all rows of the level. *)
Definition is_share (rows : list pydict) (scenario mode name : string) (rep : Z) (x : float) : Prop :=
  let level := rows_of_kind (level_kind scenario) (rep_rows rows (scenario, mode, rep)) in
  exists usages total row usage,
    mapM (int_at "usage_usec") level = Ok usages /\ total = sum_Z usages /\ 0 < total /\
    row ∈ level /\ str_at "group" row = Ok name /\ int_at "usage_usec" row = Ok usage /\ truediv usage total = Ok x.

Lemma dict_of_elem {V} (l : list (string * V)) p : p ∈ ModeScenarios.dict_of l -> p ∈ l.
Proof.
  unfold ModeScenarios.dict_of. enough (forall d, p ∈ fold_left (fun d p => assoc_set (fst p) (snd p) d) l d -> p ∈ d \/ p ∈ l) as Hg.
  { intros [[]%not_elem_of_nil|]%Hg; done. }
  induction l as [|[k v] l IH]; intros d; [by left|]. cbn [fold_left fst snd]. rewrite list.elem_of_cons.
  intros [[->|]%assoc_set_elem|]%IH; auto.
Qed.
Lemma level_share_elem rows kind shares name x : level_share rows kind = Ok shares -> share_of name shares = Ok x ->
  let level := rows_of_kind kind rows in
  exists usages total row usage, mapM (int_at "usage_usec") level = Ok usages /\ total = sum_Z usages /\ 0 < total /\
    row ∈ level /\ str_at "group" row = Ok name /\ int_at "usage_usec" row = Ok usage /\ truediv usage total = Ok x.
Proof.
  unfold level_share. intros (selected & ->%of_kind_filter & (total & (usages & Et & <-%Ok_inj)%rbind_Ok & H)%rbind_Ok)%rbind_Ok.
  set (level := rows_of_kind kind rows) in *. set (total := sum_Z usages) in *. destruct (Z.leb_spec total 0) as [|Hpos]; [done|].
  unfold usage_shares in H. apply rbind_Ok in H as (l & Hl & <-%Ok_inj). unfold share_of.
  destruct (List.find _ _) as [[k y]|] eqn:Ef; [|done]. intros <-%Ok_inj. apply find_some in Ef as [Hin ->%String.eqb_eq]. cbn [fst] in *.
  apply list_elem_of_In, dict_of_elem in Hin. apply mapM_Ok in Hl. apply list_elem_of_lookup in Hin as [i Hi].
  destruct (Forall2_lookup_r _ _ _ _ _ Hl Hi) as (row & Hrow & (g & Eg & (u & Eu & (q & Eq & [= -> ->]%Ok_inj)%rbind_Ok)%rbind_Ok)%rbind_Ok).
  exists usages, total, row, u. split_and!; try done. by eapply list_elem_of_lookup_2.
Qed.

Lemma found_set {K V} `{EqDecision K} (k k' : K) (l : list V) d :
  found k (assoc_set k' l d) = if decide (k = k') then l else found k d.
Proof. unfold found. rewrite find_set_key. by destruct (decide (k = k')). Qed.

(** The caches hold, for the repetitions that were visited, the shares of their level. *)
Definition holds (index : list (rep_key * list pydict)) (t : tables) (key : rep_key) : Prop :=
  level_share (found key index) (level_kind (fst (fst key))) = Ok (found key (tb_shares t)).
Definition caches (index : list (rep_key * list pydict)) (seen : list rep_key) (t : tables) : Prop :=
  tb_index t = index /\ Forall (holds index t) seen.

Lemma cache_rep_holds index seen scenario b mode t rep t' : caches index seen t -> is_nested scenario = Ok b ->
  cache_rep scenario b mode t rep = Ok t' -> caches index ((scenario, mode, rep) :: seen) t'.
Proof.
  intros [Ei Hs] Hb. unfold cache_rep. rewrite Ei. intros (shares & Hl & (pods & _ & <-%Ok_inj)%rbind_Ok)%rbind_Ok. split; [done|].
  assert (holds index {| tb_index := index; tb_shares := assoc_set (scenario, mode, rep) shares (tb_shares t); tb_pods := pods |}
            (scenario, mode, rep)) as Hnew.
  { unfold holds, level_kind. cbn [fst tb_shares]. rewrite Hb, found_set, decide_True by done. by destruct b. }
  constructor; [exact Hnew|]. eapply List.Forall_impl; [|exact Hs]. intros key Hk.
  destruct (decide (key = (scenario, mode, rep))) as [->|Hne]; [exact Hnew|].
  unfold holds in *. cbn [tb_shares]. by rewrite found_set, decide_False.
Qed.
Lemma foldM_caches {X} index (step : tables -> X -> result tables) (keys : X -> list rep_key) l :
  (forall seen t x t', caches index seen t -> step t x = Ok t' -> caches index (keys x ++ seen)%list t') ->
  forall seen t t', caches index seen t -> foldM step t l = Ok t' -> caches index ((rev l ≫= keys) ++ seen)%list t'.
Proof.
  intros Hstep. induction l as [|x l IH]; intros seen t t' Hc; cbn [foldM]; [by intros <-%Ok_inj|].
  intros (t1 & H1 & H2)%rbind_Ok. specialize (IH _ _ _ (Hstep _ _ _ _ Hc H1) H2). cbn [rev].
  rewrite bind_app. cbn [mbind list_bind]. by rewrite app_nil_r, <- app_assoc.
Qed.

Lemma elem_of_rev {A} (x : A) l : x ∈ l -> x ∈ rev l.
Proof. intros Hx. apply list_elem_of_In, (proj1 (in_rev _ _)). by apply list_elem_of_In. Qed.

Lemma cached_holds rows modes reps scenarios t : cached rows modes reps scenarios = Ok t ->
  (forall key, found key (tb_index t) = rep_rows rows key) /\
  forall scenario mode rep, scenario ∈ scenarios -> mode ∈ modes -> rep ∈ reps ->
    level_share (rep_rows rows (scenario, mode, rep)) (level_kind scenario) = Ok (found (scenario, mode, rep) (tb_shares t)).
Proof.
  unfold cached. intros (index & Hi & Hf)%rbind_Ok.
  assert (forall key, found key index = rep_rows rows key) as Hrows by (intros key; by rewrite (index_found _ key _ _ Hi)).
  apply (foldM_caches index _ (fun scenario => rev modes ≫= fun mode => (fun rep => (scenario, mode, rep)) <$> rev reps) _) with (seen := []) in Hf
    as [Ei Hall]; [|clear; intros seen t scenario t' Hc|by split].
  - split; [by rewrite Ei|]. intros scenario mode rep Hs Hm Hr. rewrite <- Hrows. rewrite List.Forall_forall in Hall.
    apply (Hall (scenario, mode, rep)), list_elem_of_In. rewrite app_nil_r. apply list_elem_of_bind. exists scenario.
    split; [|by apply elem_of_rev]. apply list_elem_of_bind. exists mode. split; [|by apply elem_of_rev].
    apply list_elem_of_fmap. exists rep. split; [done|by apply elem_of_rev].
  - unfold cache_scenario. intros (b & Hb & H)%rbind_Ok.
    apply (foldM_caches index _ (fun mode => (fun rep => (scenario, mode, rep)) <$> rev reps) _) with (seen := seen) in H; [exact H| |exact Hc].
    clear -Hb. intros seen t mode t' Hc H.
    apply (foldM_caches index _ (fun rep => [(scenario, mode, rep)]) _) with (seen := seen) in H; [|clear -Hb; intros seen t rep t' Hc; by apply cache_rep_holds|exact Hc].
    replace ((fun rep => (scenario, mode, rep)) <$> rev reps) with (rev reps ≫= fun rep => [(scenario, mode, rep)]); [exact H|].
    clear. by induction (rev reps) as [|r l IH]; [|cbn in *; rewrite IH].
Qed.

(** The cells of [shares.csv], in order. *)
Definition units_of (scenario : string) : list scale_unit := match scenario_units scenario with Ok us => us | Raise _ => [] end.
Definition share_cells (scenarios modes : list string) : list (string * string * scale_unit) :=
  scenario ← scenarios; mode ← modes; (fun u => (scenario, mode, u)) <$> units_of scenario.

(** A row of [shares.csv]: the statistics of a unit's shares, one of each repetition. *)
Definition share_row (rows : list pydict) (reps : list Z) (cell : string * string * scale_unit) (row : pydict) : Prop :=
  let '(scenario, mode, u) := cell in
  exists values mean sd n,
    Forall2 (is_share rows scenario mode (un_name u)) reps values /\ mean_sd values = Ok (mean, sd, n) /\
    dget "scenario" row = Some (VStr scenario) /\ dget "mode" row = Some (VStr mode) /\ dget "group" row = Some (VStr (un_name u)) /\
    dget "share_mean_pct" row = Some (VFloat (pct3 mean)) /\ dget "share_sd_pct" row = Some (VFloat (pct3 sd)) /\
    dget "share_n" row = Some (VInt n).

Lemma unit_result_shares t modes reps scenario mode e et u wide metrics : unit_result t modes reps scenario mode e et u = Ok (wide, metrics) ->
  exists values mean sd n, mapM (share_at t scenario mode (un_name u)) reps = Ok values /\ mean_sd values = Ok (mean, sd, n) /\
    dget "scenario" wide = Some (VStr scenario) /\ dget "mode" wide = Some (VStr mode) /\ dget "group" wide = Some (VStr (un_name u)) /\
    dget "share_mean_pct" wide = Some (VFloat (pct3 mean)) /\ dget "share_sd_pct" wide = Some (VFloat (pct3 sd)) /\
    dget "share_n" wide = Some (VInt n).
Proof.
  unfold unit_result. cbv zeta. intros (values & Hv & ([[mean sd] n] & Hm & H)%rbind_Ok)%rbind_Ok. exists values, mean, sd, n.
  split; [done|]. split; [done|].
  apply rbind_Ok in H as (tasks & _ & (pt & _ & ([[m2 s2] n2] & _ & (es & _ & (ets & _ & H)%rbind_Ok)%rbind_Ok)%rbind_Ok)%rbind_Ok).
  apply rbind_Ok in H as (ratios & _ & ([[m3 s3] n3] & _ & (th & _ & ([[m4 s4] n4] & _ & ([[m5 s5] n5] & _ & H)%rbind_Ok)%rbind_Ok)%rbind_Ok)%rbind_Ok).
  apply Ok_inj in H. injection H as <- _. by repeat split.
Qed.

Lemma Forall2_concat {A B C} (P : A -> list B -> Prop) (Q : C -> B -> Prop) (f : A -> list C) l blocks :
  Forall2 P l blocks -> (forall x b, x ∈ l -> P x b -> Forall2 Q (f x) b) -> Forall2 Q (l ≫= f) (mjoin blocks).
Proof.
  intros Hl. induction Hl as [|x b l blocks Hb Hl IH]; intros Hf; [constructor|].
  apply Forall2_app; [apply Hf; [by left|done]|]. apply IH. intros y c Hy. apply Hf. by right.
Qed.
Lemma summaries_wide parts : forall s, sm_wide (fold_left add_summary parts s) = (sm_wide s ++ mjoin (sm_wide <$> parts))%list.
Proof.
  induction parts as [|p parts IH]; intros s; [by rewrite app_nil_r|]. cbn [fold_left]. rewrite IH. cbn [sm_wide add_summary].
  by rewrite <- app_assoc.
Qed.

Lemma combine_fst {A B} (l : list A) (k : list B) : length k = length l -> (fst <$> combine l k) = l.
Proof. revert k. induction l as [|x l IH]; intros [|y k]; try done. intros [= E]. cbn [combine fmap list_fmap fst]. f_equal. by apply IH. Qed.

Section Cells.
Variables (rows : list pydict) (modes : list string) (reps : list Z) (scenarios : list string) (t : tables).
Hypothesis Hcached : cached rows modes reps scenarios = Ok t.

Lemma share_at_is_share scenario mode name rep x : scenario ∈ scenarios -> mode ∈ modes -> rep ∈ reps ->
  share_at t scenario mode name rep = Ok x -> is_share rows scenario mode name rep x.
Proof.
  intros Hs Hm Hr Hx. destruct (cached_holds _ _ _ _ _ Hcached) as [_ Hl]. specialize (Hl _ _ _ Hs Hm Hr).
  exact (level_share_elem _ _ _ _ _ Hl Hx).
Qed.

Lemma unit_share_row scenario mode e et u wide metrics : scenario ∈ scenarios -> mode ∈ modes ->
  unit_result t modes reps scenario mode e et u = Ok (wide, metrics) -> share_row rows reps (scenario, mode, u) wide.
Proof.
  intros Hs Hm (values & mean & sd & n & Hv & Hrest)%unit_result_shares. exists values, mean, sd, n. split; [|exact Hrest].
  apply mapM_Ok in Hv. apply Forall2_same_length_lookup. split; [by eapply Forall2_length|]. intros i rep x Hrep Hx.
  apply share_at_is_share; [done|done|by eapply list_elem_of_lookup_2|]. exact (Forall2_lookup_lr _ _ _ _ _ _ Hv Hrep Hx).
Qed.

Lemma scenario_wide cpus scenario s : scenario ∈ scenarios -> scenario_summary t cpus modes reps scenario = Ok s ->
  Forall2 (share_row rows reps) (mode ← modes; (fun u => (scenario, mode, u)) <$> units_of scenario) (sm_wide s).
Proof.
  intros Hs. unfold scenario_summary, units_of. intros (units & -> & (model & Hm & (per_task & Hp & (parts & Hparts & <-%Ok_inj)%rbind_Ok)%rbind_Ok)%rbind_Ok)%rbind_Ok.
  rewrite summaries_wide. cbn [sm_wide no_summary app].
  apply mapM_length in Hm, Hp. assert (length (combine model per_task) = length modes) as Hlen by (rewrite length_combine; lia).
  apply mapM_Ok in Hparts.
  assert (forall l parts, Forall2 (fun m p => mode_summary t modes reps scenario units m = Ok p) l parts -> (forall m, m ∈ (fst <$> l) -> m ∈ modes) ->
    Forall2 (share_row rows reps) ((fst <$> l) ≫= fun mode => (fun u => (scenario, mode, u)) <$> units) (mjoin (sm_wide <$> parts))) as Hg.
  { clear -Hcached Hs. induction 1 as [|[mode [e et]] p l parts Hp Hl IH]; intros Hin; [constructor|]. cbn [fmap list_fmap fst].
    apply Forall2_app; [|apply IH; intros m Hm; apply Hin; by right].
    revert Hp. unfold mode_summary. intros (of_units & Hu%mapM_Ok & Hrest)%rbind_Ok.
    assert (sm_wide p = fst <$> of_units) as ->.
    { apply rbind_Ok in Hrest as (a & _ & (b & _ & (c & _ & (d & _ & (f & _ & (g & _ & <-%Ok_inj)%rbind_Ok)%rbind_Ok)%rbind_Ok)%rbind_Ok)%rbind_Ok). done. }
    apply Forall2_fmap_2. eapply Forall2_impl; [|exact Hu]. intros u [wide metrics] Hr. cbn [fst].
    eapply unit_share_row; [exact Hs|apply Hin; by left|exact Hr]. }
  specialize (Hg _ _ Hparts). rewrite combine_fst in Hg by done. by apply Hg.
Qed.
End Cells.

(** C11: The shares that are reported.  When the analysis succeeds, [shares.csv] has
    one row for every scenario, mode and unit of the metadata, in that order; the
    row's mean, deviation and count are those of one value per repetition, and
    the value of a repetition is the usage of a row of that scenario, mode,
    repetition and group over the total usage of exactly the rows of its level
    (the groups, or the parents of a nested scenario), correctly rounded. *)
Theorem analyzed_shares rows meta s r :
  analyze rows meta = Ok (s, r) ->
  exists count scenarios modes, int_at "reps" meta = Ok count /\ names_at "scenarios" meta = Ok scenarios /\
    names_at "modes" meta = Ok modes /\
    Forall2 (share_row rows (cpu_range 1 count)) (share_cells scenarios modes) (sm_wide s).
Proof.
  unfold analyze. cbv zeta.
  intros (cpus & _ & (count & Hc & (scenarios & Hs & (modes & Hm & (t & Ht & (parts & Hp & H)%rbind_Ok)%rbind_Ok)%rbind_Ok)%rbind_Ok)%rbind_Ok)%rbind_Ok.
  exists count, scenarios, modes. split; [done|]. split; [done|]. split; [done|].
  assert (sm_wide s = mjoin (sm_wide <$> parts)) as ->.
  { apply rbind_Ok in H as (a & _ & (b & _ & (c & _ & (d & _ & (e & _ & (f & _ & [= <- _]%Ok_inj)%rbind_Ok)%rbind_Ok)%rbind_Ok)%rbind_Ok)%rbind_Ok).
    apply (summaries_wide parts no_summary). }
  apply mapM_Ok in Hp. unfold share_cells.
  eapply (Forall2_concat (fun scenario b => exists p, b = sm_wide p /\ scenario_summary t cpus modes (cpu_range 1 count) scenario = Ok p)).
  - clear -Hp. induction Hp as [|scenario p l parts H Hp IH]; constructor; [by exists p|exact IH].
  - intros scenario b Hin (p & -> & Hsum). by eapply scenario_wide.
Qed.

(** ** A complete run *)

#[local] Instance lab_rng : Rng.
Proof. refine {| randbelow := fun _ _ _ => 0%nat |}. done. Defined.

Definition lab_usage (sp : spec) : Z := if String.eqb (sp_name sp) "qos-burstable" then 600 else 100 * sp_threads sp.
Definition lab_counters (specs : list spec) : measured_counters :=
  {| mc_before := (fun sp => (sp_name sp, [("usage_usec", 0)])) <$> specs;
     mc_after := (fun sp => (sp_name sp, [("usage_usec", lab_usage sp)])) <$> specs; mc_ctxt := 4000 |}.
Definition lab_block (s : scene) : list pydict :=
  match group_specs (se_scenario s) with
  | Ok specs => (fun sp => base_row s sp (sp_cpu_max sp) (str_of_Z (sp_weight sp)) (lab_counters specs) "2026-01-02T03:04:05+00:00") <$> specs
  | Raise _ => []
  end.
Definition lab_args : mode_args :=
  {| mo_reps := 2; mo_duration := flit 4 1; mo_warmup := flit 1 1; mo_cooldown := flit 1 1; mo_seed := 7;
     mo_scenarios := "qos_nested,latency"; mo_modes := "smp,tasks"; mo_out := "m.jsonl"; mo_meta := "m.json"; mo_parent_weight := 300;
     mo_run_id := "r1"; mo_plan := false; mo_check := false |}.
Definition lab_campaign : campaign :=
  {| cm_scenarios := ["qos_nested"; "latency"]; cm_modes := ["smp"; "tasks"]; cm_cpu_burn := "cpu_burn"; cm_wakeup := "wakeup_latency";
     cm_node := "worker-1"; cm_kernel := "7.0-k8labs"; cm_cpus := 2; cm_original := "concur" |}.
Definition lab_blocks : list (list pydict) := lab_block <$> planned_scenes lab_args lab_campaign.
Definition lab_meta : pydict := run_meta lab_args lab_campaign (VStr "b") "concur" "t0" "t1" (length (mjoin lab_blocks)).

Lemma lab_complete scenes : forallb (fun s => is_ok (group_specs (se_scenario s))) scenes = true -> complete_blocks scenes (lab_block <$> scenes).
Proof.
  induction scenes as [|s scenes IH]; cbn [forallb]; intros H; [constructor|]. apply andb_prop in H as [H1 H2]. constructor; [|by apply IH].
  unfold lab_block. destruct (group_specs (se_scenario s)) as [specs|]; [|done]. exists specs. split; [done|].
  apply Forall2_fmap_r, Forall_Forall2_diag, List.Forall_forall. intros sp _. split; [|apply base_labels]. eexists _, _, _, _. by left.
Qed.

Lemma run_accepted_witness :
  exists rows' meta', load_matrix "m.jsonl" (Some (Ok (rows_text (mjoin lab_blocks)))) = Ok rows' /\
    load_meta "m.json" (Some (Ok (json_indent true (VDict lab_meta) +:+ newline))) = Ok meta' /\ validate rows' meta' = Ok tt /\
    length rows' = 24%nat.
Proof.
  destruct (run_accepted lab_args lab_campaign (VStr "b") "concur" "t0" "t1" "m.jsonl" "m.json" lab_blocks) as (rows' & meta' & H1 & H2 & H3 & H4).
  - apply lab_complete. vm_compute. reflexivity.
  - vm_compute. discriminate.
  - vm_compute. discriminate.
  - discriminate.
  - discriminate.
  - repeat constructor; apply mem_string_spec; reflexivity.
  - repeat constructor; apply mem_string_spec; reflexivity.
  - apply List.Forall_forall, List.forallb_forall. vm_compute. reflexivity.
  - vm_compute. reflexivity.
  - exists rows', meta'. split; [exact H1|]. split; [exact H2|]. split; [exact H3|]. apply Forall2_length in H4. rewrite <- H4.
    clear H1 H2 H3 H4. vm_compute. reflexivity.
Defined.

Definition unwrap {A} (d : A) (r : result A) : A := match r with Ok a => a | Raise _ => d end.
Lemma unwrapped {A B} (x : result (A * B)) d : is_ok x = true -> x = Ok (fst (unwrap d x), snd (unwrap d x)).
Proof. by destruct x as [[y z]|]. Qed.
(** The summary of an analysis that succeeds. *)
Definition summary_of (rows : list pydict) (meta : pydict) : summary := fst (unwrap (no_summary, []) (analyze rows meta)).
Lemma summary_ok rows meta : is_ok (analyze rows meta) = true -> exists r, analyze rows meta = Ok (summary_of rows meta, r).
Proof. intros H. eexists. exact (unwrapped (analyze rows meta) (no_summary, []) H). Qed.
Lemma lab_succeeds : is_ok (analyze (mjoin lab_blocks) lab_meta) = true.
Proof. vm_compute. reflexivity. Qed.

Lemma analyzed_shares_witness :
  exists scenarios modes, names_at "scenarios" lab_meta = Ok scenarios /\ names_at "modes" lab_meta = Ok modes /\
    Forall2 (share_row (mjoin lab_blocks) (cpu_range 1 2)) (share_cells scenarios modes) (sm_wide (summary_of (mjoin lab_blocks) lab_meta)).
Proof.
  destruct (summary_ok _ _ lab_succeeds) as [r Hr]. destruct (analyzed_shares _ _ _ _ Hr) as (count & scenarios & modes & Hc & Hs & Hm & Hf).
  assert (int_at "reps" lab_meta = Ok 2) as Hc' by (vm_compute; reflexivity). rewrite Hc' in Hc. apply Ok_inj in Hc. subst count.
  exists scenarios, modes. split; [exact Hs|]. split; [exact Hm|exact Hf].
Defined.
Example lab_rows_of_shares : length (sm_wide (summary_of (mjoin lab_blocks) lab_meta)) = 8%nat.
Proof. vm_compute. reflexivity. Qed.

(** The latency scenario has no quota, and its rows say it has. *)
Definition share_notes (metrics : list pydict) : list (option pyval * option pyval) :=
  (fun m => (dget "scenario" m, dget "note" m)) <$>
    List.filter (fun m => py_eq (dget_none "metric" m) (VStr "cpu_share_pct") && py_eq (dget_none "scenario" m) (VStr "latency")) metrics.
Example latency_note :
  share_notes (sm_metrics (summary_of (mjoin lab_blocks) lab_meta)) = replicate 4 (Some (VStr "latency"), Some (VStr "quota-capped; no mode expectation")).
Proof. vm_compute. reflexivity. Qed.

(** Of two rows of one group the share is that of the second, and the two are
    counted in the total: the shares of the level no longer add up to one. *)
Example duplicate_rows_counted_twice :
  let row (group : string) (usage : Z) : pydict := [("kind", VStr "group"); ("group", VStr group); ("usage_usec", VInt usage)] in
  level_share [row "limited" 100; row "open" 100; row "open" 200] "group" =
    Ok [("limited", flit 1 4); ("open", flit 1 2)].
Proof. vm_compute. reflexivity. Qed.
