(* ===== verification/KernelSource.v ===== *)
(** [scripts/kernel_source_gate.py]: the gate that compares a kernel source tree
    with the pinned linux-next commit and the interfaces the schedulers need.

    The gate only reads: every operation is a function of the file system of
    [Fs.v].  Outside the file are the environment variables, the YAML loader
    (a third-party package), the [git] program and the regular expressions that
    are more than literals, classes, escapes and simple repetition; they are the
    fields of [GateHost]. *)

From Stdlib Require Import ZArith Bool Ascii String Lia.
From stdpp Require Import base list strings option gmap.
From S2P Require Import Prelude Eff PyStr PyRe PyText PyVal Json Fs.

Open Scope string_scope.
Open Scope Z_scope.

(** ** The pinned source *)

Definition SCHEMA_VERSION : Z := 1.
Definition PINNED_COMMIT : string := "2efb7a11f1aa4d2dc285fe2680cca22cb9f72f64".
Definition PINNED_TAG : string := "next-20261016".
Definition PINNED_DATE : string := "2026-10-16".
Definition UPSTREAM_REPO : string := "https://git.kernel.org/pub/scm/linux/kernel/git/next/linux-next.git".

Definition REQUIRED_INTERFACES : list pydict := [
  [ ("id", VStr "bpf_f_arena_scalar"); ("name", VStr "bpf_f_arena_scalar");
    ("description", VStr "BPF_F_ARENA_SCALAR prog-flag definition");
    ("file", VStr "include/uapi/linux/bpf.h"); ("path", VStr "include/uapi/linux/bpf.h");
    ("pattern", VStr "#define\s+BPF_F_ARENA_SCALAR\b"); ("symbol", VStr "BPF_F_ARENA_SCALAR") ];
  [ ("id", VStr "bpf_jit_supports_arena_scalar_x86"); ("name", VStr "bpf_jit_supports_arena_scalar_x86");
    ("description", VStr "x86 JIT support for arena scalar");
    ("file", VStr "arch/x86/net/bpf_jit_comp.c"); ("path", VStr "arch/x86/net/bpf_jit_comp.c");
    ("pattern", VStr "bpf_jit_supports_arena_scalar"); ("symbol", VStr "bpf_jit_supports_arena_scalar") ];
  [ ("id", VStr "sched_ext_ops_sub_cid_sched_updated"); ("name", VStr "sched_ext_ops_sub_cid_sched_updated");
    ("description", VStr "sched_ext_ops.sub_cid_sched_updated() callback");
    ("file", VStr "kernel/sched/ext/internal.h"); ("path", VStr "kernel/sched/ext/internal.h");
    ("pattern", VStr "sub_cid_sched_updated"); ("symbol", VStr "sub_cid_sched_updated") ] ].

Definition embedded_pinned : pydict :=
  let interfaces := VList (VDict <$> REQUIRED_INTERFACES) in
  [ ("schema_version", VInt SCHEMA_VERSION); ("kind", VStr "kernel-source-gate");
    ("pinned_commit", VStr PINNED_COMMIT); ("commit", VStr PINNED_COMMIT);
    ("kernel_commit", VStr PINNED_COMMIT); ("linux_next_commit", VStr PINNED_COMMIT);
    ("source_commit", VStr PINNED_COMMIT); ("revision", VStr PINNED_COMMIT);
    ("pinned_tag", VStr PINNED_TAG); ("tag", VStr PINNED_TAG); ("linux_next_tag", VStr PINNED_TAG);
    ("pinned_date", VStr PINNED_DATE); ("date", VStr PINNED_DATE);
    ("upstream_repo", VStr UPSTREAM_REPO); ("repository", VStr UPSTREAM_REPO);
    ("required_interfaces", interfaces); ("interfaces", interfaces); ("requirements", interfaces) ].

(** ** Paths with [..] *)

(** The directory or file a path leads to from [at]: [..] leaves a directory. *)
Fixpoint locate_go (m : fs) (here : path) (p : list string) : option path :=
  match p with
  | [] => Some here
  | c :: p' => if String.eqb c ".." then (if is_dir m here then locate_go m (parent here) p' else None)
               else locate_go m (here ++ [c])%list p'
  end.
Definition locate (m : fs) (p : path) : option path := locate_go m [] p.

Definition is_file_at (m : fs) (p : path) : bool :=
  match locate m p with Some q => is_file m q | None => false end.
Definition is_dir_at (m : fs) (p : path) : bool :=
  match locate m p with Some q => is_dir m q | None => false end.
Definition exists_at (m : fs) (p : path) : bool := is_file_at m p || is_dir_at m p.
Definition read_text_at (m : fs) (p : path) : result string :=
  match locate m p with Some q => read_text m q | None => not_found p end.

(** [read_text(encoding="utf-8", errors="replace")]: a byte that starts no
    character of the model becomes a control character, which like U+FFFD is
    neither a letter nor a blank. *)
Fixpoint utf8_replace (s : string) : string :=
  match s with
  | EmptyString => ""
  | String c s' =>
      if code c <? 128 then String c (utf8_replace s')
      else match s' with
           | String c2 s'' =>
               if between 194 195 (code c) && between 128 191 (code c2)
               then String (chr ((code c - 192) * 64 + (code c2 - 128))) (utf8_replace s'')
               else String (chr 26) (utf8_replace s')
           | EmptyString => char_str (chr 26)
           end
  end.
Definition read_replacing (m : fs) (p : path) : result string :=
  match locate m p with
  | Some q => let* s := read_bytes m q in Ok (utf8_replace s)
  | None => not_found p
  end.

(** [str(Path(s))] *)
Definition path_show (s : string) : string :=
  let parts := join "/" (path_parts s) in
  if path_absolute s then
    (if startswith "//" s && negb (startswith "///" s) then "//" else "/") +:+ parts
  else if is_empty parts then "." else parts.

(** [Path.suffix] of a name. *)
Definition suffix (name : string) : string :=
  match rpartition "." name with
  | Some (stem, ext) => if is_empty stem || is_empty ext then "" else "." +:+ ext
  | None => ""
  end.

(** ** Patterns *)

(** [re.escape(s)] *)
Definition is_special (c : ascii) : bool :=
  contains (char_str c) "()[]{}?*+-|^$\.&~# " || between 9 13 (code c).
Definition re_escape (s : string) : string :=
  concat_map_str (fun c => if is_special c then String "\" (char_str c) else char_str c) s.

Definition is_meta (c : ascii) : bool := contains (char_str c) ".*+?[](){}\|^$".

(** The class or the literal after a backslash; [None] for the others. *)
Definition escape_re (c : ascii) : option re :=
  if Ascii.eqb c "s" then Some space
  else if Ascii.eqb c "S" then Some nonspace
  else if Ascii.eqb c "d" then Some digit
  else if Ascii.eqb c "w" then Some (Set_ is_word)
  else if Ascii.eqb c "b" then Some WordEdge
  else if is_digit c || is_lower_az c || is_upper_az c then None
  else Some (Set_ (Ascii.eqb c)).

(** A repeated character or class: [+], [*] or [?] not followed by another. *)
Definition repeated (a : re) (s : string) : option (re * string) :=
  match s with
  | String c s' =>
      let greedy r := if match s' with String d _ => contains (char_str d) "+*?{" | _ => false end
                      then None else match a with Set_ _ => Some (r, s') | _ => None end in
      if Ascii.eqb c "+" then greedy (Plus a)
      else if Ascii.eqb c "*" then greedy (Star true a)
      else if Ascii.eqb c "?" then greedy (Opt a)
      else Some (a, s)
  | EmptyString => Some (a, s)
  end.

(** The patterns made of literals, classes, escapes and repetition. *)
Fixpoint compile_go (fuel : nat) (s : string) : option re :=
  match fuel, s with
  | O, _ => None
  | _, EmptyString => Some Eps
  | S f, String c s' =>
      let then_ a rest := '(r, rest') ← repeated a rest; k ← compile_go f rest'; Some (Seq r k) in
      if Ascii.eqb c "\" then
        match s' with
        | String d s'' => a ← escape_re d; then_ a s''
        | EmptyString => None
        end
      else if Ascii.eqb c "." then then_ anychar s'
      else if is_meta c then None
      else then_ (Set_ (Ascii.eqb c)) s'
  end.
Definition compile (s : string) : option re := compile_go (S (String.length s)) s.

Class GateHost : Type := {
  getenv : string -> option string;
  yaml : option (string -> result pyval);                (* yaml.safe_load; [None]: not installed *)
  rev_parse : fs -> path -> option string;               (* git -C p rev-parse HEAD; [None]: it failed *)
  other_search : string -> string -> result bool;        (* re.search for the other patterns *)
  cwd : path;
  script_dir : path                                      (* Path(__file__).resolve().parent *)
}.

Definition at_path `{GateHost} (s : string) : path := slash cwd s.

(** [re.search(pattern, text) is not None] *)
Definition found `{GateHost} (pattern text : string) : result bool :=
  match compile pattern with
  | Some r => Ok (match re_search r text with Some _ => true | None => false end)
  | None => other_search pattern text
  end.

(** ** Interfaces *)

Record interface : Type := {
  if_id : string; if_name : string; if_description : string; if_file : string; if_path : string;
  if_pattern : string; if_symbol : string
}.
Definition interface_value (i : interface) : pyval :=
  VDict [ ("id", VStr (if_id i)); ("name", VStr (if_name i)); ("description", VStr (if_description i));
          ("file", VStr (if_file i)); ("path", VStr (if_path i)); ("pattern", VStr (if_pattern i));
          ("symbol", VStr (if_symbol i)) ].

(** [d.get(k1) or ... or d.get(kn) or ""] *)
Definition first_of (d : pydict) (keys : list string) : pyval :=
  fold_right (fun k rest => py_or (dget_none k d) rest) (VStr "") keys.

(** [any(ch in v for ch in ".*+?[](){}\\|^$")] *)
Definition metacharacters : list string :=
  ["."; "*"; "+"; "?"; "["; "]"; "("; ")"; "{"; "}"; "\"; "|"; "^"; "$"].
Definition has_meta (v : pyval) : result bool :=
  match v with
  | VStr s => Ok (existsb (fun ch => contains ch s) metacharacters)
  | VList l => Ok (existsb (fun ch => existsb (py_eq (VStr ch)) l) metacharacters)
  | VDict d => Ok (existsb (fun ch => dmem ch d) metacharacters)
  | _ => Raise (Exn TypeError "argument is not iterable")
  end.
Definition escape_value (v : pyval) : result pyval :=
  match v with
  | VStr s => Ok (VStr (re_escape s))
  | _ => Raise (Exn TypeError "decoding to str: need a bytes-like object")
  end.

Definition normalise_interface (v : pyval) : result interface :=
  let entry := match v with VDict d => d | _ => [] end in
  let file_path := first_of entry ["file"; "path"; "source_file"; "location"] in
  let pattern := first_of entry ["pattern"; "symbol"; "regex"; "match"] in
  let* pattern :=
    (if truthy pattern then
       let* meta := has_meta pattern in
       if meta then Ok pattern else escape_value pattern
     else Ok pattern) in
  let identifier :=
    fold_right (fun k rest => py_or (dget_none k entry) rest) file_path ["id"; "name"; "interface"; "symbol"] in
  Ok {| if_id := py_str identifier; if_name := py_str identifier;
        if_description := py_str (first_of entry ["description"; "desc"]);
        if_file := py_str file_path; if_path := py_str file_path; if_pattern := py_str pattern;
        if_symbol := py_str (first_of entry ["symbol"; "id"; "name"]) |}.

(** The loop of [_get_commit]: [value.strip()] of the first non-blank string. *)
Fixpoint first_text (d : pydict) (keys : list string) : string :=
  match keys with
  | [] => ""
  | k :: ks => match dget_none k d with
               | VStr s => if is_empty (strip s) then first_text d ks else strip s
               | _ => first_text d ks
               end
  end.
Definition get_commit (pinned : pydict) : string :=
  first_text pinned ["pinned_commit"; "commit"; "kernel_commit"; "linux_next_commit"; "source_commit"; "revision"].

(** The first of the keys that holds a list. *)
Fixpoint first_list (d : pydict) (keys : list string) : option (list pyval) :=
  match keys with
  | [] => None
  | k :: ks => match dget_none k d with VList l => Some l | _ => first_list d ks end
  end.
Definition default_interfaces : list pyval := VDict <$> REQUIRED_INTERFACES.
Definition get_interfaces (pinned : pydict) : result (list pyval) :=
  match first_list pinned ["required_interfaces"; "interfaces"; "requirements"; "required"] with
  | None => Ok default_interfaces
  | Some raw =>
      let* normalised := mapM normalise_interface raw in
      if match normalised with [] => true | _ => false end ||
         forallb (fun i => is_empty (if_file i)) normalised
      then Ok default_interfaces
      else Ok (interface_value <$> normalised)
  end.

(** ** The pinned data *)

Section Gate.
Context {Host : GateHost}.
Implicit Types m : fs.

(** [(start, *start.parents)] *)
Definition ancestors (p : path) : list path := (fun n => take n p) <$> rev (seq 0 (S (length p))).

Definition find_project_root m (start : path) : path :=
  match List.find (fun c => is_file m (c ++ ["pyproject.toml"])%list) (ancestors start) with
  | Some c => c
  | None => parent start
  end.
Definition PROJECT_ROOT m : path := find_project_root m script_dir.

Definition data_names : list string :=
  [ "kernel_source_pinned.yaml"; "kernel_source_pinned.yml"; "kernel_source_pinned.json";
    "kernel_source.lock.yaml"; "kernel_source.lock.yml"; "kernel_source.lock.json";
    "kernel-source-pinned.yaml"; "pinned_kernel_source.yaml"; "kernel_source.yaml" ].

(** The candidates, without repetition: the set [seen] is the list so far. *)
Definition data_candidates m : list path :=
  fold_left (fun candidates p => if decide (p ∈ candidates) then candidates else (candidates ++ [p])%list)
    (flat_map (fun base : path => (fun name => (base ++ [name])%list) <$> data_names) [script_dir; PROJECT_ROOT m])
    [].

(** [merged.update(...)], then the lists of the file. *)
Definition merge_pinned (data : pydict) : pydict :=
  let updated := fold_left (fun d p => match snd p with VNone => d | v => dset (fst p) v d end)
                   data embedded_pinned in
  fold_left (fun d key => match dget_none key data with VList l => dset key (VList l) d | _ => d end)
    ["required_interfaces"; "interfaces"; "requirements"] updated.

Definition parse_pinned (name text : string) : result pyval :=
  if String.eqb (str_lower (suffix name)) ".json" then json_loads text
  else match yaml with
       | None => Ok VNone
       | Some safe_load =>
           match safe_load text with
           | Ok v => Ok v
           | Raise e => if caught_by [OSError; ValueError; RuntimeError; TypeError] e
                        then Ok VNone else Raise e
           end
       end.

(** The loop of [load_pinned]: the first candidate that reads as a mapping. *)
Fixpoint load_from m (candidates : list path) : result pydict :=
  match candidates with
  | [] => Ok embedded_pinned
  | candidate :: rest =>
      if negb (is_file_at m candidate) then load_from m rest
      else match read_text_at m candidate with
           | Raise e => if caught_by [OSError] e then load_from m rest else Raise e
           | Ok text =>
               match parse_pinned (List.last candidate "") text with
               | Ok (VDict data) => Ok (merge_pinned data)
               | Ok _ => load_from m rest
               | Raise e => if caught_by [OSError; ValueError; TypeError; RuntimeError] e
                            then load_from m rest else Raise e
               end
           end
  end.

Definition load_pinned m (pinned : option string) : result pydict :=
  load_from m (match pinned with
               | Some p => [at_path p]
               | None => List.filter (is_file m) (data_candidates m)
               end).

(** ** The source tree *)

(** The line of [packed-refs] that names the reference. *)
Fixpoint packed_ref (ref : string) (lines : list string) : result (option string) :=
  match lines with
  | [] => Ok None
  | line :: rest =>
      if endswith (" " +:+ ref) line then
        match words line with
        | w :: _ => Ok (Some w)
        | [] => Raise (Exn IndexError "list index out of range")
        end
      else packed_ref ref rest
  end.

Definition or_none (s : string) : option string := if is_empty s then None else Some s.

(** The head read from the files of [.git]. *)
Definition head_file m (root : path) : result (option string) :=
  let git := (root ++ [".git"])%list in
  let* raw := read_text_at m (git ++ ["HEAD"])%list in
  let content := strip raw in
  if is_empty content then Ok None
  else if startswith "ref:" content then
    let ref := strip (str_drop 4 content) in
    let ref_path := slash git ref in
    if is_file_at m ref_path then
      let* text := read_text_at m ref_path in Ok (or_none (strip text))
    else
      let packed := (git ++ ["packed-refs"])%list in
      if is_file_at m packed then
        let* text := read_text_at m packed in packed_ref ref (splitlines text)
      else Ok None
  else Ok (Some content).

Definition git_head m (root : path) : result (option string) :=
  if negb (exists_at m (root ++ [".git"])%list) then Ok None
  else match rev_parse m root with
       | Some out =>
           if is_empty (strip out)
           then match head_file m root with
                | Raise e => if caught_by [OSError] e then Ok None else Raise e
                | r => r
                end
           else Ok (Some (strip out))
       | None => match head_file m root with
                 | Raise e => if caught_by [OSError] e then Ok None else Raise e
                 | r => r
                 end
       end.

Record detail : Type := { d_id : string; d_file : string; d_present : bool }.
Record inspection : Type := {
  ins_state : string;
  ins_root : option string;
  ins_present : list string;
  ins_missing : list string;
  ins_interfaces : list detail
}.

(** Whether the file of an interface is there and its pattern occurs. *)
Definition inspect_interface m (root : path) (v : pyval) : result detail :=
  let* i := normalise_interface v in
  let relative := if_file i in
  let file := if is_empty relative then root else slash root relative in
  let* ok :=
    (if is_file_at m file then
       let* text := match read_replacing m file with
                    | Raise e => if caught_by [OSError] e then Ok "" else Raise e
                    | r => r
                    end in
       found (if_pattern i) text
     else Ok false) in
  Ok {| d_id := if_id i; d_file := relative; d_present := ok |}.

(** The lists and the state, from the details of [total] interfaces. *)
Definition inspection_of (s : string) (total : nat) (details : list detail) : inspection :=
  let present := d_id <$> List.filter d_present details in
  let missing := d_id <$> List.filter (fun d => negb (d_present d)) details in
  {| ins_state := if (total =? 0)%nat || (length present =? 0)%nat then "missing"
                  else if (length present =? total)%nat then "complete" else "partial";
     ins_root := Some (path_show s); ins_present := present; ins_missing := missing;
     ins_interfaces := details |}.

Definition inspect_source m (source_root : option string) : result inspection :=
  match source_root with
  | None => Ok {| ins_state := "missing"; ins_root := None; ins_present := []; ins_missing := [];
                  ins_interfaces := [] |}
  | Some s =>
      let root := at_path s in
      if negb (is_dir_at m root) then
        Ok {| ins_state := "missing"; ins_root := Some (path_show s); ins_present := [];
              ins_missing := (fun e => py_str (dget_none "id" e)) <$> REQUIRED_INTERFACES;
              ins_interfaces := [] |}
      else
        let* pinned := load_pinned m None in
        let* interfaces := get_interfaces pinned in
        let* details := mapM (inspect_interface m root) interfaces in
        Ok (inspection_of s (length interfaces) details)
  end.

Definition is_complete m (source_root : option string) : result bool :=
  let* i := inspect_source m source_root in Ok (String.eqb (ins_state i) "complete").
Definition source_state m (source_root : option string) : result string :=
  let* i := inspect_source m source_root in Ok (ins_state i).

(** ** The check *)

Definition interface_errors (v : pyval) : result (list string) :=
  let* i := normalise_interface v in
  Ok ((if is_empty (if_file i) then ["required interface " +:+ if_id i +:+ " has no source file"] else []) ++
      (if is_empty (if_pattern i) then ["required interface " +:+ if_id i +:+ " has no match pattern"] else []))%list.

Definition commit_errors (commit : string) : list string :=
  if is_empty commit then ["pinned kernel source commit is missing"]
  else if negb (slen commit =? 40)
  then ["pinned kernel source commit is not a 40-char hash: " +:+ repr_str commit] else [].

(** [os.environ.get(a) or os.environ.get(b)] *)
Definition env_root : option string :=
  let get k := match getenv k with Some s => or_none s | None => None end in
  match get "KERNEL_SOURCE_ROOT" with Some s => Some s | None => get "LINUX_SOURCE_ROOT" end.

Definition tree_errors m (s commit : string) : result (list string) :=
  if negb (is_dir_at m (at_path s)) then Ok ["kernel source root not found: " +:+ path_show s]
  else
    let* i := inspect_source m (Some s) in
    let* head := git_head m (at_path s) in
    Ok (((fun x => "missing required interface: " +:+ x) <$> ins_missing i) ++
        match head with
        | Some h => if String.eqb h commit then []
                    else ["kernel source HEAD " +:+ h +:+ " != pinned commit " +:+ commit]
        | None => []
        end)%list.

Definition check m (source_root pinned_path : option string) : result (list string) :=
  let* pinned := load_pinned m pinned_path in
  let commit := get_commit pinned in
  let tag := py_or (dget_none "pinned_tag" pinned)
               (py_or (dget_none "tag" pinned) (dget_none "linux_next_tag" pinned)) in
  let* interfaces := get_interfaces pinned in
  let* declared := mapM interface_errors interfaces in
  let* tree :=
    match (match source_root with Some s => Some s | None => env_root end) with
    | Some s => tree_errors m s commit
    | None => Ok []
    end in
  Ok (commit_errors commit ++
      (if truthy tag then [] else ["pinned linux-next tag is missing"]) ++
      match interfaces with [] => ["no required interfaces declared"] | _ => [] end ++
      concat declared ++ tree)%list.

Definition resolve m (source_root : option string) : result (string * list string * option inspection) :=
  let* state := source_state m source_root in
  let* errors := check m source_root None in
  match source_root with
  | Some _ => let* i := inspect_source m source_root in Ok (state, errors, Some i)
  | None => Ok (state, errors, None)
  end.

(** [main]: the exit status, the lines printed and the lines of standard error. *)
Record arguments : Type := { source_root : option string; pinned_file : option string; print_pinned : bool }.
Definition main m (args : arguments) : result (Z * list string * list string) :=
  if print_pinned args then Ok (0, [PINNED_COMMIT +:+ " " +:+ PINNED_TAG], [])
  else
    let* errors := check m (source_root args) (pinned_file args) in
    match errors with
    | [] => Ok (0, ["kernel source gate OK"], [])
    | _ => Ok (1, [], (fun e => "FAIL: " +:+ e) <$> errors)
    end.

End Gate.
