(* ===== verification/KernelSourceThm.v ===== *)
(** The kernel source gate of [KernelSource.v]: what its search finds, what a
    pass means, how it classifies a tree, and which parts of the pinned data it
    does not look at. *)

From Stdlib Require Import ZArith Bool Ascii String Lia.
From stdpp Require Import base list strings option gmap.
From S2P Require Import Prelude Eff PyStr PyRe PyText PyVal Json Fs KernelSource.

Open Scope string_scope.
Open Scope Z_scope.

(** ** Escaped texts are searched for literally *)

Lemma rmatch_Lit s : forall prev t g k,
  rmatch (Lit s) prev t g k =
  if String.prefix s t then k (last_char prev s) (str_drop (String.length s) t) g else None.
Proof.
  induction s as [|c s IH]; intros prev t g k; [by destruct t|].
  cbn [Lit rmatch]. destruct t as [|d t]; [done|]. cbn [last_char String.prefix String.length str_drop].
  destruct (ascii_dec c d) as [->|n].
  - by rewrite Ascii.eqb_refl, IH.
  - apply Ascii.eqb_neq in n as ->. done.
Qed.

Lemma search_from_Lit s t : forall prev,
  (match search_from (Lit s) prev t with Some _ => true | None => false end) = contains s t.
Proof.
  induction t as [|d t IH]; intros prev; cbn [search_from contains]; unfold match_at, startswith;
    rewrite rmatch_Lit.
  - by destruct (String.prefix s "").
  - destruct (String.prefix s (String d t)); [done|]. cbn [mbind option_bind orb].
    rewrite <- (IH (Some d)). by destruct (search_from (Lit s) (Some d) t).
Qed.

Lemma special_escape c : is_special c = true -> escape_re c = Some (Set_ (Ascii.eqb c)).
Proof. destruct c as [[] [] [] [] [] [] [] []]; vm_compute; intros; try done. Qed.

(** A character that [re.escape] leaves alone stands for itself. *)
Lemma plain_char c : is_special c = false -> Ascii.eqb c "\" = false /\ Ascii.eqb c "." = false /\ is_meta c = false.
Proof. destruct c as [[] [] [] [] [] [] [] []]; vm_compute; intros; done. Qed.

Definition starts_plain (s : string) : bool :=
  match s with String c _ => negb (contains (char_str c) "+*?") | EmptyString => true end.

Lemma re_escape_cons c s :
  re_escape (String c s) = (if is_special c then String "\" (char_str c) else char_str c) +:+ re_escape s.
Proof. done. Qed.

Lemma re_escape_plain s : starts_plain (re_escape s) = true.
Proof.
  destruct s as [|c s]; [done|]. rewrite re_escape_cons. destruct (is_special c) eqn:E; [done|].
  revert E. destruct c as [[] [] [] [] [] [] [] []]; vm_compute; intros; done.
Qed.

Lemma repeated_plain p s : starts_plain s = true -> repeated (Set_ p) s = Some (Set_ p, s).
Proof.
  unfold repeated. destruct s as [|c s]; [done|]. unfold starts_plain.
  destruct (Ascii.eqb c "+") eqn:E1; [by apply Ascii.eqb_eq in E1 as ->|].
  destruct (Ascii.eqb c "*") eqn:E2; [by apply Ascii.eqb_eq in E2 as ->|].
  destruct (Ascii.eqb c "?") eqn:E3; [by apply Ascii.eqb_eq in E3 as ->|]. done.
Qed.

Lemma compile_escape s : forall fuel, (String.length (re_escape s) < fuel)%nat ->
  compile_go fuel (re_escape s) = Some (Lit s).
Proof.
  induction s as [|c s IH]; intros fuel Hf; [by destruct fuel; [simpl in Hf; lia|]|].
  rewrite re_escape_cons in *. destruct fuel as [|f]; [lia|]. destruct (is_special c) eqn:E.
  - cbn [String.append compile_go] in *. unfold char_str in *. cbn [String.append String.length] in *.
    replace (Ascii.eqb "\" "\") with true by done. rewrite (special_escape _ E). cbn [mbind option_bind].
    rewrite repeated_plain by apply re_escape_plain. cbn [mbind option_bind]. rewrite IH by lia. done.
  - destruct (plain_char _ E) as (E1 & E2 & E3). unfold char_str in *. cbn [String.append compile_go String.length] in *.
    rewrite E1, E2, E3. rewrite repeated_plain by apply re_escape_plain. cbn [mbind option_bind].
    rewrite IH by lia. done.
Qed.

Lemma found_escape {Host : GateHost} s text : found (re_escape s) text = Ok (contains s text).
Proof.
  unfold found, compile. rewrite compile_escape by lia. unfold re_search. by rewrite search_from_Lit.
Qed.

(** A requirement given by a text without regular-expression characters - the
    usual symbol name - is met by a file exactly when the text occurs in it:
    normalising the requirement escapes the text, and searching for the escaped
    pattern is the search for the text. *)
Theorem plain_pattern_is_contained {Host : GateHost} d s i text :
  first_of d ["pattern"; "symbol"; "regex"; "match"] = VStr s -> s <> "" ->
  existsb (fun ch => contains ch s) metacharacters = false ->
  normalise_interface (VDict d) = Ok i ->
  found (if_pattern i) text = Ok (contains s text).
Proof.
  intros Hp Hs Hm. unfold normalise_interface. rewrite Hp. cbn [truthy].
  assert (is_empty s = false) as -> by by apply String.eqb_neq. cbn [negb has_meta].
  cbn [rbind]. rewrite Hm. cbn [rbind escape_value]. intros [= <-]. cbn [if_pattern py_str]. apply found_escape.
Qed.

(** ** Classification of a tree *)

Section Trees.
Context {Host : GateHost}.
Implicit Types m : fs.

Lemma get_interfaces_nonempty pinned l : get_interfaces pinned = Ok l -> l <> [].
Proof.
  unfold get_interfaces. destruct (first_list _ _) as [raw|]; [|by intros [= <-]].
  intros H. apply rbind_Ok in H as (n & _ & H). destruct n as [|i n]; [by injection H as <-|].
  destruct (_ || _); injection H as <-; done.
Qed.

Lemma inspect_source_Ok m s i :
  is_dir_at m (at_path s) = true -> inspect_source m (Some s) = Ok i -> exists pinned required details,
  load_pinned m None = Ok pinned /\ get_interfaces pinned = Ok required /\
  mapM (inspect_interface m (at_path s)) required = Ok details /\ i = inspection_of s (length required) details.
Proof.
  intros Hd. unfold inspect_source. rewrite Hd. unfold negb.
  intros (p & Hp & (r & Hr & (ds & Hm & H)%rbind_Ok)%rbind_Ok)%rbind_Ok. injection H as <-. by exists p, r, ds.
Qed.

Lemma filter_split_perm {A} (f : A -> bool) l : List.filter f l ++ List.filter (fun x => negb (f x)) l ≡ₚ l.
Proof.
  induction l as [|x l IH]; [done|]. cbn. destruct (f x); cbn; [by rewrite IH|].
  by rewrite <- Permutation_middle, IH.
Qed.

Lemma inspection_of_sorts s details : details <> [] ->
  let i := inspection_of s (length details) details in
  (ins_present i ++ ins_missing i ≡ₚ d_id <$> ins_interfaces i) /\
  (ins_state i = "complete" <-> ins_missing i = []) /\
  (ins_state i = "missing" <-> ins_present i = []) /\
  (ins_state i = "partial" <-> ins_present i <> [] /\ ins_missing i <> []).
Proof.
  intros Hne i. pose proof (filter_split_perm d_present details) as Hs. subst i. unfold inspection_of.
  cbn [ins_present ins_missing ins_interfaces ins_state]. rewrite !length_fmap.
  assert (length details <> 0%nat) as H0 by by destruct details.
  destruct (Nat.eqb_spec (length details) 0); [lia|]. cbn [orb].
  split; [by rewrite <- fmap_app, Hs|]. apply Permutation_length in Hs. rewrite length_app in Hs. revert Hs.
  generalize (List.filter d_present details) as P, (List.filter (fun d => negb (d_present d)) details) as Q.
  intros P Q Hs. destruct P as [|p P]; cbn [length fmap list_fmap] in *.
  - destruct Q as [|q Q]; cbn [length] in *; [lia|]. cbn. repeat split; first [done | by intros [? ?]].
  - change (S (length P) =? 0)%nat with false. cbn [orb]. destruct Q as [|q Q]; cbn [length] in *.
    + rewrite (proj2 (Nat.eqb_eq (S (length P)) (length details))) by lia.
      repeat split; first [done | by intros [? ?]].
    + rewrite (proj2 (Nat.eqb_neq (S (length P)) (length details))) by lia.
      repeat split; first [done | by intros [? ?]].
Qed.

(** Inspecting a directory sorts the required interfaces: every one is
    reported as present or as missing and none twice, the state is [complete]
    exactly when none is missing, [missing] exactly when none is present, and
    [partial] otherwise. *)
Theorem inspection_classifies m s i :
  is_dir_at m (at_path s) = true -> inspect_source m (Some s) = Ok i ->
  (ins_present i ++ ins_missing i ≡ₚ d_id <$> ins_interfaces i) /\
  (ins_state i = "complete" <-> ins_missing i = []) /\
  (ins_state i = "missing" <-> ins_present i = []) /\
  (ins_state i = "partial" <-> ins_present i <> [] /\ ins_missing i <> []).
Proof.
  intros Hd H. destruct (inspect_source_Ok _ _ _ Hd H) as (p & r & ds & _ & Hi & Hm & ->).
  rewrite <- (mapM_length _ _ _ Hm). apply inspection_of_sorts.
  apply get_interfaces_nonempty in Hi. apply mapM_length in Hm. by destruct ds, r.
Qed.

(** ** What a pass means *)

Definition interface_file (root : path) (i : interface) : path :=
  if is_empty (if_file i) then root else slash root (if_file i).

Definition interface_met m (root : path) (v : pyval) : Prop :=
  exists i text, normalise_interface v = Ok i /\ is_file_at m (interface_file root i) = true /\
    read_replacing m (interface_file root i) = Ok text /\ found (if_pattern i) text = Ok true.

Definition interface_declared (v : pyval) : Prop :=
  exists i, normalise_interface v = Ok i /\ if_file i <> "" /\ if_pattern i <> "".

Lemma is_file_reads m p : is_file_at m p = true -> exists text, read_replacing m p = Ok text.
Proof.
  unfold is_file_at, read_replacing. destruct (locate m p) as [q|]; [|done]. unfold is_file, read_bytes.
  destruct (m !! q) as [[d|]|]; try done. by eexists.
Qed.

Lemma inspect_interface_met m root v : (exists d, inspect_interface m root v = Ok d /\ d_present d = true) <-> interface_met m root v.
Proof.
  unfold inspect_interface, interface_met, interface_file. split.
  - intros (d & H & Hp). inv_ok. cbn in Hp. subst x0. exists x. destruct (is_file_at m _) eqn:E; [|done].
    destruct (is_file_reads _ _ E) as [t Ht]. rewrite Ht in Hx0. exists t. done.
  - intros (i & t & -> & Hf & Hr & Hm). cbn [rbind]. rewrite Hf, Hr. cbn [rbind]. rewrite Hm. by eexists.
Qed.

Lemma inspection_of_complete s n details :
  ins_missing (inspection_of s n details) = [] <-> Forall (fun d => d_present d = true) details.
Proof.
  unfold inspection_of, ins_missing. induction details as [|d l IH]; [by split|].
  rewrite Forall_cons_iff, <- IH. cbn. destruct (d_present d); cbn; naive_solver.
Qed.

Lemma concat_nil {A} (l : list (list A)) : concat l = [] <-> Forall (fun x => x = []) l.
Proof.
  induction l as [|x l IH]; [by split|]. cbn. rewrite Forall_cons_iff, <- IH.
  split; [apply app_nil|by intros [-> ->]].
Qed.

Lemma interface_errors_none v : interface_errors v = Ok [] <-> interface_declared v.
Proof.
  unfold interface_errors, interface_declared. split.
  - intros (i & Hi & H)%rbind_Ok. exists i. split; [done|].
    destruct (is_empty (if_file i)) eqn:E1; [done|]. destruct (is_empty (if_pattern i)) eqn:E2; [done|].
    split; by apply String.eqb_neq.
  - intros (i & Hi & H1 & H2). rewrite Hi. cbn [rbind]. unfold is_empty.
    by rewrite (proj2 (String.eqb_neq _ _) H1), (proj2 (String.eqb_neq _ _) H2).
Qed.

Lemma declared_none l : (exists errs, mapM interface_errors l = Ok errs /\ concat errs = []) <-> Forall interface_declared l.
Proof.
  split.
  - intros (errs & H%mapM_Ok & He%concat_nil). induction H as [|v e l k Hv H IH]; [constructor|].
    apply Forall_cons_iff in He as [-> He]. constructor; [by apply interface_errors_none|by apply IH].
  - induction 1 as [|v l Hv Hl (errs & IH & He)]; [by exists []|].
    exists ([] :: errs). cbn. rewrite (proj2 (interface_errors_none v) Hv). cbn. by rewrite IH.
Qed.

Lemma details_met m root l : (exists ds, mapM (inspect_interface m root) l = Ok ds /\
    Forall (fun d => d_present d = true) ds) <-> Forall (interface_met m root) l.
Proof.
  split.
  - intros (ds & H%mapM_Ok & Hp). induction H as [|v d l k Hv H IH]; [constructor|].
    apply Forall_cons_iff in Hp as [Hd Hp]. constructor; [apply inspect_interface_met; eauto|by apply IH].
  - induction 1 as [|v l (d & Hd & Hp)%inspect_interface_met Hl (ds & IH & H)]; [by exists []|].
    exists (d :: ds). cbn. rewrite Hd. cbn. rewrite IH. split; [done|by constructor].
Qed.

(** The head is not known, or it is the pinned commit. *)
Definition head_agrees m (root : path) (commit : string) : Prop :=
  exists head, git_head m root = Ok head /\ (head = None \/ head = Some commit).

(** The tree at [s] has every interface the gate's own data requires. *)
Definition tree_verified m (s commit : string) : Prop :=
  is_dir_at m (at_path s) = true /\
  (exists own required, load_pinned m None = Ok own /\ get_interfaces own = Ok required /\
     Forall (interface_met m (at_path s)) required) /\
  head_agrees m (at_path s) commit.

Lemma tree_errors_none m s commit : tree_errors m s commit = Ok [] <-> tree_verified m s commit.
Proof.
  unfold tree_errors, tree_verified, head_agrees. destruct (is_dir_at m (at_path s)) eqn:Hd; unfold negb;
    [|split; [done|by intros [? _]]].
  split.
  - intros (i & Hi & (h & Hh & H)%rbind_Ok)%rbind_Ok. apply Ok_inj, app_nil in H as [H1%fmap_nil_inv H2].
    destruct (inspect_source_Ok _ _ _ Hd Hi) as (own & req & ds & Ho & Hr & Hm & ->).
    apply inspection_of_complete in H1. split; [done|]. split.
    + exists own, req. split_and!; [done..|]. apply details_met. eauto.
    + exists h. split; [done|]. destruct h as [h|]; [|by left]. destruct (String.eqb_spec h commit) as [->|]; [by right|done].
  - intros (_ & (own & req & Ho & Hr & Hf) & h & Hh & Hc). apply details_met in Hf as (ds & Hm & Hp).
    unfold inspect_source. rewrite Hd. unfold negb. rewrite Ho. cbn [rbind]. rewrite Hr. cbn [rbind]. rewrite Hm.
    cbn [rbind]. rewrite Hh. cbn [rbind]. rewrite (proj2 (inspection_of_complete _ _ _) Hp).
    destruct Hc as [->| ->]; [done|]. by rewrite String.eqb_refl.
Qed.

Lemma tag_truthy d a b c :
  truthy (py_or (dget_none a d) (py_or (dget_none b d) (dget_none c d))) = truthy (first_of d [a; b; c]).
Proof.
  unfold first_of, fold_right, py_or. destruct (truthy (dget_none a d)) eqn:E1; [by rewrite E1|].
  destruct (truthy (dget_none b d)) eqn:E2; [by rewrite E2|].
  by destruct (truthy (dget_none c d)) eqn:E3.
Qed.

(** The gate passes a source tree exactly when the pinned data names a
    commit of forty characters and a tag, every interface it declares has a file
    and a pattern, the tree is a directory in which every interface of the
    gate's own data - not of the file given on the command line - is met by a
    file that contains its pattern, and the tree's head is unknown or is the
    pinned commit. *)
Theorem check_passes_iff m s pin :
  check m (Some s) pin = Ok [] <->
  exists pinned declared, load_pinned m pin = Ok pinned /\ get_interfaces pinned = Ok declared /\
    slen (get_commit pinned) = 40 /\
    truthy (first_of pinned ["pinned_tag"; "tag"; "linux_next_tag"]) = true /\
    Forall interface_declared declared /\ tree_verified m s (get_commit pinned).
Proof.
  unfold check. split.
  - intros (p & Hp & (l & Hl & (errs & He & (te & Ht & H)%rbind_Ok)%rbind_Ok)%rbind_Ok)%rbind_Ok.
    apply Ok_inj in H. apply app_nil in H as [H1 H]. apply app_nil in H as [H2 H]. apply app_nil in H as [H3 H].
    apply app_nil in H as [H4 ->]. exists p, l. split; [done|]. split; [done|]. split_and!.
    + unfold commit_errors in H1. destruct (is_empty _); [done|].
      destruct (Z.eqb_spec (slen (get_commit p)) 40); [done|done].
    + rewrite tag_truthy in H2. by destruct (truthy (first_of p _)).
    + apply declared_none. eauto.
    + by apply tree_errors_none.
  - intros (p & l & -> & Hl & Hc & Ht & Hd & Hv). cbn [rbind]. rewrite Hl. cbn [rbind].
    apply declared_none in Hd as (errs & -> & He). cbn [rbind]. rewrite (proj2 (tree_errors_none _ _ _) Hv).
    cbn [rbind]. rewrite He. unfold commit_errors. rewrite Hc.
    assert (is_empty (get_commit p) = false) as -> by (destruct (get_commit p); [discriminate Hc|done]).
    rewrite Z.eqb_refl. cbn [negb]. pose proof (get_interfaces_nonempty _ _ Hl). destruct l; [done|].
    by rewrite tag_truthy, Ht.
Qed.
End Trees.

(** ** What the gate overlooks *)

Section Overlooked.
Context {Host : GateHost}.
Implicit Types m : fs.

(** An interface that is declared with a file and a name passes the check of
    the declarations even when it has no pattern: the check normalises it a
    second time, and takes the name for the pattern. *)
Theorem named_interface_passes i :
  if_file i <> "" -> if_symbol i <> "" ->
  interface_errors (interface_value i) = Ok [].
Proof.
  intros Hf Hs. apply interface_errors_none. unfold interface_declared, normalise_interface, interface_value.
  assert (forall s, truthy (VStr s) = negb (is_empty s)) as Ht by done.
  set (p := first_of _ ["pattern"; "symbol"; "regex"; "match"]).
  assert (exists s, p = VStr s /\ s <> "") as (s & -> & Hne).
  { subst p. unfold first_of, py_or. cbn [fold_right]. unfold dget_none. cbn -[truthy is_empty].
    rewrite !Ht. destruct (is_empty (if_pattern i)) eqn:E; cbn [negb].
    - destruct (is_empty (if_symbol i)) eqn:E2; [by apply String.eqb_eq in E2|]. cbn [negb]. eauto.
    - exists (if_pattern i). split; [done|]. by apply String.eqb_neq. }
  rewrite Ht. unfold is_empty at 1. rewrite (proj2 (String.eqb_neq _ _) Hne). cbn [negb has_meta rbind].
  assert (forall q, py_str (first_of [("id", VStr (if_id i)); ("name", VStr (if_name i));
     ("description", VStr (if_description i)); ("file", VStr (if_file i)); ("path", VStr (if_path i));
     ("pattern", VStr q); ("symbol", VStr (if_symbol i))] ["file"; "path"; "source_file"; "location"]) = if_file i) as Hfile.
  { intros q. unfold first_of, py_or. cbn [fold_right]. unfold dget_none. cbn -[truthy is_empty].
    rewrite !Ht. unfold is_empty. by rewrite (proj2 (String.eqb_neq _ _) Hf). }
  destruct (existsb _ _); cbn [escape_value rbind]; eexists; (split; [reflexivity|]); cbn [if_file if_pattern py_str];
    rewrite Hfile; (split; [done|]); [done|]. destruct s as [|c s]; [done|]. rewrite re_escape_cons. by destruct (is_special c).
Qed.

(** Keys that the file does not hold keep the embedded values. *)
Lemma update_keeps k (data : pydict) : dmem k data = false -> forall d,
  dget k (fold_left (fun d p => match snd p with VNone => d | v => dset (fst p) v d end) data d) = dget k d.
Proof.
  unfold dmem. induction data as [|[k' v] data IH]; intros Hk d; [done|]. cbn [dget fold_left fst snd] in *.
  destruct (String.eqb_spec k k') as [->|Hne]; [done|]. rewrite IH by done. destruct v; [done|..]; by apply dget_dset_ne.
Qed.

Lemma lists_keep k (data : pydict) keys : dmem k data = false -> forall d,
  dget k (fold_left (fun d key => match dget_none key data with VList l => dset key (VList l) d | _ => d end) keys d)
  = dget k d.
Proof.
  intros Hk. induction keys as [|key keys IH]; intros d; [done|]. cbn [fold_left]. rewrite IH.
  unfold dmem in Hk. unfold dget_none. destruct (String.eqb_spec k key) as [<-|Hne].
  - by destruct (dget k data).
  - destruct (default VNone (dget key data)); try done. by apply dget_dset_ne.
Qed.

Lemma merge_keeps k data : dmem k data = false -> dget k (merge_pinned data) = dget k embedded_pinned.
Proof. intros Hk. unfold merge_pinned. by rewrite lists_keep, update_keeps. Qed.

(** A data file that gives the commit or the interfaces under one of the
    other names the gate reads ([commit], [revision], [interfaces],
    [requirements], ...) changes nothing: the embedded [pinned_commit] and
    [required_interfaces] are read first. *)
Theorem other_names_ignored data :
  (dmem "pinned_commit" data = false -> get_commit (merge_pinned data) = PINNED_COMMIT) /\
  (dmem "required_interfaces" data = false -> get_interfaces (merge_pinned data) = get_interfaces embedded_pinned).
Proof.
  split; intros Hk%merge_keeps.
  - unfold get_commit, first_text, dget_none. rewrite Hk. reflexivity.
  - unfold get_interfaces, first_list, dget_none. rewrite Hk. reflexivity.
Qed.

(** A pinned-data file that does not exist is not an error: the gate, given
    no source tree, answers that all is well. *)
Theorem absent_pin_file_passes m p :
  is_file_at m (at_path p) = false -> env_root = None ->
  main m {| source_root := None; pinned_file := Some p; print_pinned := false |} =
  Ok (0, ["kernel source gate OK"], []).
Proof.
  intros Hp He. unfold main, print_pinned, source_root, pinned_file, check, load_pinned, load_from.
  rewrite Hp. cbn [negb rbind]. rewrite He. reflexivity.
Qed.
End Overlooked.

(** ** A tree *)

Module KernelTree.

(** Nothing but the files: no YAML package, no [git], no variable. *)
Definition host : GateHost := {|
  getenv := fun _ => None; yaml := None; rev_parse := fun _ _ => None;
  other_search := fun _ _ => Raise (Exn Exception "re.error"); cwd := ["w"]; script_dir := ["repo"; "scripts"]
|}.
#[local] Existing Instance host.

Definition bpf_h : string := "#define BPF_F_ARENA_SCALAR (1U << 8)" +:+ newline.
Definition tree (head : string) : fs := list_to_map [
  ([], Dir); (["w"], Dir); (["w"; "linux"], Dir); (["w"; "linux"; ".git"], Dir);
  (["w"; "linux"; ".git"; "HEAD"], File ("ref: refs/heads/main" +:+ newline));
  (["w"; "linux"; ".git"; "packed-refs"], File ("# pack-refs" +:+ newline +:+ head +:+ " refs/heads/main" +:+ newline));
  (["w"; "linux"; "include"; "uapi"; "linux"; "bpf.h"], File bpf_h);
  (["w"; "linux"; "arch"; "x86"; "net"; "bpf_jit_comp.c"], File "bool bpf_jit_supports_arena_scalar(void)");
  (["w"; "linux"; "kernel"; "sched"; "ext"; "internal.h"], File "void (*sub_cid_sched_updated)(s32 cid);")
].

Example pinned_tree_passes : check (tree PINNED_COMMIT) (Some "linux") None = Ok [].
Proof. vm_compute. reflexivity. Qed.

Example other_head_refused :
  check (tree "0123") (Some "./linux") None =
  Ok ["kernel source HEAD 0123 != pinned commit 2efb7a11f1aa4d2dc285fe2680cca22cb9f72f64"].
Proof. vm_compute. reflexivity. Qed.

Example other_symbol_refused :
  check (<[ ["w"; "linux"; "include"; "uapi"; "linux"; "bpf.h"] := File "#define BPF_F_ARENA_SCALARS" ]> (tree PINNED_COMMIT))
    (Some "linux") None = Ok ["missing required interface: bpf_f_arena_scalar"].
Proof. vm_compute. reflexivity. Qed.

Lemma plain_pattern_is_contained_witness :
  exists i, normalise_interface (VDict [("symbol", VStr "a-b")]) = Ok i /\
    found (if_pattern i) "xa-by" = Ok (contains "a-b" "xa-by").
Proof.
  eexists. split; [reflexivity|].
  apply (plain_pattern_is_contained [("symbol", VStr "a-b")] "a-b"); [reflexivity|discriminate|reflexivity|reflexivity].
Defined.

Lemma inspection_classifies_witness : exists i,
  inspect_source (tree PINNED_COMMIT) (Some "linux") = Ok i /\
  (ins_present i ++ ins_missing i ≡ₚ d_id <$> ins_interfaces i).
Proof.
  eexists. split; [vm_compute; reflexivity|].
  apply (inspection_classifies (tree PINNED_COMMIT) "linux"); vm_compute; reflexivity.
Defined.

Lemma named_interface_passes_witness :
  exists i, normalise_interface (VDict [("id", VStr "x"); ("file", VStr "f")]) = Ok i /\
    if_pattern i = "" /\ interface_errors (interface_value i) = Ok [].
Proof.
  eexists. split; [reflexivity|]. split; [reflexivity|].
  apply named_interface_passes; discriminate.
Defined.

End KernelTree.
