(* ===== verification/KernelHarness.v ===== *)
(** [scripts/kernel_build_harness.py]: the reproducible build of the pinned
    kernel.  The pinned switches, environment and package names, the checks of
    the configuration fragment, the name-version-release the build must emit, the
    Git LFS tracking of the packages, the build lock and the hashes of the
    artifacts it locks, and the check that puts them together.

    Reading functions take the file system, writing ones run on the disk of
    [Fs.v].  Outside the file, in [Harness], are what [GateHost] has of the
    interpreter's surroundings, the YAML printer, the programs [git-lfs] and [git]
    and the help text of [argparse]. *)

From Stdlib Require Import ZArith Bool Ascii String Lia.
From stdpp Require Import base list strings option gmap.
From S2P Require Import Prelude Eff PyStr PyText PyVal Json Sha256 Fs KernelSource.

Open Scope string_scope.
Open Scope Z_scope.

(** ** The pinned build *)

Definition PINNED_SOURCE_COMMIT : string := "2efb7a11f1aa4d2dc285fe2680cca22cb9f72f64".
Definition FEDORA_VERSION : string := "44".
Definition FEDORA_IMAGE : string :=
  "registry.fedoraproject.org/fedora@sha256:10667e171df877cedd245b7065238143e09eaae7da4656d3e62eb7c094378011".

Definition RPMBUILD_OPTS : list string :=
  [ "--without debug"; "--without doc"; "--without headers"; "--without cross_headers"; "--without perf";
    "--without libperf"; "--without tools"; "--without ynl"; "--without kmap";
    "--without kernel_abi_stablelists"; "--without selftests" ].
Definition FORBIDDEN_RPMBUILD_OPTS : list string := ["--without debuginfo"].

Definition REPRODUCIBLE_BUILD_EPOCH : Z := 1792368000.
Definition REPRODUCIBLE_BUILD_TIMESTAMP : string := "Mon Oct 19 00:00:00 UTC 2026".
Definition KBUILD_BUILD_USER : string := "k8labs".
Definition KBUILD_BUILD_HOST : string := "k8labs-build".
Definition RPM_MACROS_LINE : string := "%_buildtime " +:+ str_of_Z REPRODUCIBLE_BUILD_EPOCH.
Definition TAR_OPTIONS : string :=
  "--mtime=@" +:+ str_of_Z REPRODUCIBLE_BUILD_EPOCH +:+ " --owner=0 --group=0 --numeric-owner --sort=name".

Definition reproducible_build_env : list (string * string) :=
  [ ("SOURCE_DATE_EPOCH", str_of_Z REPRODUCIBLE_BUILD_EPOCH);
    ("KBUILD_BUILD_TIMESTAMP", REPRODUCIBLE_BUILD_TIMESTAMP);
    ("KBUILD_BUILD_USER", KBUILD_BUILD_USER); ("KBUILD_BUILD_HOST", KBUILD_BUILD_HOST);
    ("TAR_OPTIONS", TAR_OPTIONS) ].
Definition reproducible_build_macros : string := RPM_MACROS_LINE +:+ newline.

Definition RUNTIME_RPMS : list string :=
  ["kernel-core"; "kernel-modules"; "kernel-modules-core"; "kernel-modules-extra"].

Definition NVR_VERSION_BASE : string := "7.3.0".
Definition NVR_NEXT_TAG_DATE : string := "20261016".
Definition NVR_UPSTREAM_BUILD : string := "0.0.next." +:+ NVR_NEXT_TAG_DATE +:+ ".".
Definition NVR_ARK_BUILD : string := "64".
Definition NVR_LOCALVERSION_PREFIX : string := ".k8.".
Definition NVR_LOCALVERSION_HASH_LEN : nat := 7.

Definition REQUIRED_CONFIG_OPTIONS : list string :=
  [ "CONFIG_SCHED_CLASS_EXT"; "CONFIG_BPF_SYSCALL"; "CONFIG_BPF_JIT"; "CONFIG_DEBUG_INFO_BTF";
    "CONFIG_CGROUPS"; "CONFIG_CGROUP_SCHED"; "CONFIG_CFS_BANDWIDTH"; "CONFIG_FAIR_GROUP_SCHED";
    "CONFIG_DEBUG_FS"; "CONFIG_PREEMPT_DYNAMIC"; "CONFIG_EFI_STUB"; "CONFIG_MODULE_SIG" ].

Record NVR : Type := { nvr_name : string; nvr_version : string; nvr_release : string }.
Definition nvr_str (n : NVR) : string := nvr_name n +:+ "-" +:+ nvr_version n +:+ "-" +:+ nvr_release n.

(** ** The configuration fragment *)

Definition carriage_return : string := char_str (chr 13).

(** [s.rstrip("\n")] *)
Fixpoint rstrip_newlines (s : string) : string :=
  match s with
  | EmptyString => ""
  | String c s' => match rstrip_newlines s' with
                   | EmptyString => if code c =? 10 then "" else char_str c
                   | t => String c t
                   end
  end.

Definition normalize_config_fragment (text : string) : string :=
  rstrip_newlines (replace_all carriage_return newline (replace_all (carriage_return +:+ newline) newline text))
    +:+ newline.

(** The option a line enables. *)
Definition option_of (line : string) : option string :=
  let line := strip line in
  if is_empty line || startswith "#" line then None
  else let '(name, _, value) := partition_char "=" line in
       if String.eqb (strip value) "y" then Some (strip name) else None.
Definition config_fragment_options (text : string) : gset string :=
  list_to_set (omap option_of (splitlines (normalize_config_fragment text))).

Definition missing_in (content : string) : list string :=
  let enabled := config_fragment_options content in
  List.filter (fun o => negb (bool_decide (o ∈ enabled))) REQUIRED_CONFIG_OPTIONS.

Definition hash_of_fragment (content : string) : string :=
  sha256_hex (bytes_of_string (utf8_encode (normalize_config_fragment content))).

(** ** The recipe *)

Fixpoint env_get (k : string) (env : list (string * string)) : option string :=
  match env with
  | [] => None
  | (k', v) :: env' => if String.eqb k k' then Some v else env_get k env'
  end.

Definition assert_reproducible_recipe (env : option (list (string * string))) (macros : option string) : result unit :=
  let env := default reproducible_build_env env in
  let macros := default reproducible_build_macros macros in
  let tar_options := default "" (env_get "TAR_OPTIONS" env) in
  iterM (fun required => raise_if (negb (contains required tar_options)) ValueError
                           ("TAR_OPTIONS is missing " +:+ repr_str required))
    ["--mtime=@"; "--owner=0"; "--group=0"; "--sort=name"] ;;;
  iterM (fun key => raise_if (is_empty (default "" (env_get key env))) ValueError (key +:+ " is not pinned"))
    ["KBUILD_BUILD_TIMESTAMP"; "KBUILD_BUILD_USER"; "KBUILD_BUILD_HOST"] ;;;
  raise_if (negb (contains ("%_buildtime " +:+ str_of_Z REPRODUCIBLE_BUILD_EPOCH) macros)) ValueError
    "%_buildtime is not pinned in the rpm macros".

(** The switches, as one text or as a list. *)
Inductive switches : Type := OneText (s : string) | Many (l : list string).
Definition forbidden_rpmbuild_opts (opts : option switches) : list string :=
  let text := match default (Many RPMBUILD_OPTS) opts with OneText s => s | Many l => join " " l end in
  List.filter (fun flag => contains flag text) FORBIDDEN_RPMBUILD_OPTS.
Definition assert_rpmbuild_opts (opts : option switches) : result unit :=
  let bad := forbidden_rpmbuild_opts opts in
  raise_if (match bad with [] => false | _ => true end) ValueError
    ("rpmbuild options drop BTF/sched_ext and are forbidden: " +:+ join ", " bad).

(** ** The name, version and release *)

Definition short (value : string) (length : nat) : string := str_take length (strip value).

(** [s or default] for a text that may be missing. *)
Definition text_or (s : option string) (d : string) : string :=
  match s with Some t => if is_empty t then d else t | None => d end.

Definition derive_nvr (source_commit config_hash name : string)
    (version release_prefix config_fragment commit : option string) : result string :=
  let source_commit := default source_commit commit in
  raise_if (negb (String.eqb source_commit PINNED_SOURCE_COMMIT)) ValueError
    ("source commit " +:+ repr_str source_commit +:+ " is not the pinned source " +:+
     repr_str PINNED_SOURCE_COMMIT) ;;;
  let config_hash := match config_fragment with Some t => hash_of_fragment t | None => config_hash end in
  let version := text_or version NVR_VERSION_BASE in
  let release_prefix := text_or release_prefix NVR_UPSTREAM_BUILD in
  let localversion := NVR_LOCALVERSION_PREFIX +:+ short config_hash NVR_LOCALVERSION_HASH_LEN in
  let release := release_prefix +:+ NVR_ARK_BUILD +:+ localversion +:+ ".fc" +:+ FEDORA_VERSION in
  Ok (name +:+ "-" +:+ version +:+ "-" +:+ release).

(** [value.split("-", 2)] *)
Definition split_dash2 (value : string) : list string :=
  let '(a, more, rest) := partition_char "-" value in
  if negb more then [a]
  else let '(b, more', rest') := partition_char "-" rest in
       if negb more' then [a; b] else [a; b; rest'].
Definition parse_nvr (value : string) : result NVR :=
  match split_dash2 value with
  | [name; version; release] => Ok {| nvr_name := name; nvr_version := version; nvr_release := release |}
  | _ => Raise (Exn ValueError "not enough values to unpack (expected 3)")
  end.

(** ** Git LFS tracking *)

Definition lfs_line (rpm : string) : string := rpm +:+ "-*.rpm filter=lfs diff=lfs merge=lfs -text".
Definition lfs_text : string :=
  join newline ("# Reproducible kernel build: only the four runtime RPMs are in Git LFS." ::
                (lfs_line <$> RUNTIME_RPMS)) +:+ newline.
Definition text_has_lfs (text : string) : bool :=
  forallb (fun rpm => contains (rpm +:+ "-") text && contains "filter=lfs" text) RUNTIME_RPMS.

(** ** The build lock *)

Definition dicts_of (v : pyval) : list pydict :=
  match v with VList l => omap (fun x => match x with VDict d => Some d | _ => None end) l | _ => [] end.

Definition artifact_entries (lock : pydict) : list pydict :=
  (match dget_none "artifacts" lock with
   | VDict groups => flat_map (fun p => dicts_of (snd p)) groups
   | v => dicts_of v
   end ++
   flat_map (fun key => dicts_of (dget_none key lock))
     ["non_lfs_artifacts"; "out_of_lfs"; "locked_artifacts"; "non_lfs"] ++
   List.filter (dmem "sha256") (dicts_of (dget_none "runtime_rpms" lock)))%list.

Definition sha256_file (m : fs) (p : path) : result string :=
  match locate m p with
  | Some q => let* s := read_bytes m q in Ok (sha256_hex (bytes_of_string s))
  | None => not_found p
  end.

(** The error of one entry: none without a hash, a location and a file. *)
Definition entry_error (m : fs) (base : path) (entry : pydict) : result (list string) :=
  match dget_none "sha256" entry with
  | VStr expected =>
      match py_or (dget_none "cache_path" entry) (py_or (dget_none "path" entry) (dget_none "file" entry)) with
      | VStr location =>
          let candidate := slash base location in
          if negb (is_file_at m candidate) then Ok []
          else
            let* actual := sha256_file m candidate in
            if String.eqb actual (str_lower expected) then Ok []
            else Ok ["hash mismatch: " +:+ location +:+ " expected " +:+ expected +:+ " got " +:+ actual]
      | _ => Ok []
      end
  | _ => Ok []
  end.

(** ** The operations on the repository *)

Class Harness : Type := {
  gate_host :: GateHost;
  safe_dump : pydict -> result string;             (* yaml.safe_dump(data, sort_keys=True) *)
  which_git_lfs : bool;                            (* shutil.which("git-lfs") *)
  git_lfs_version : fs -> path -> bool;            (* git -C p lfs version ends with status 0 *)
  format_help : string;                            (* the help text of the parser *)
  machine :: Machine
}.

Section Repository.
Context {Hst : Harness}.
Implicit Types m : fs.

(** [Path(__file__).resolve().parents[1]] *)
Definition REPO : path := parent script_dir.
Definition CONFIG_FRAGMENT_CANDIDATES : list path :=
  [ REPO ++ ["configs"; "fedora-44-kernel.config-fragment"]; REPO ++ ["configs"; "kernel.config-fragment"];
    REPO ++ ["kernel.config-fragment"]; REPO ++ ["packer"; "kernel.config-fragment"] ]%list.
Definition LOCK_FILE : path := (REPO ++ ["kernel_build_lock.yaml"])%list.
Definition PROVISIONER : path := (REPO ++ ["packer"; "scripts"; "01-configure-system.sh"])%list.

Definition first_existing m (paths : list path) : path :=
  match List.find (is_file_at m) paths with Some p => p | None => hd [] paths end.
Definition resolve_config_fragment m (p : option string) : path :=
  match p with Some s => at_path s | None => first_existing m CONFIG_FRAGMENT_CANDIDATES end.
Definition read_config_fragment m (p : option string) : result string :=
  read_text_at m (resolve_config_fragment m p).

Definition missing_required_options m (p content : option string) : result (list string) :=
  let* content := match content with Some c => Ok c | None => read_config_fragment m p end in
  Ok (missing_in content).

Definition config_fragment_hash m (p content text : option string) : result string :=
  let content := match content with Some c => Some c | None => text end in
  let* content := match content with Some c => Ok c | None => read_config_fragment m p end in
  Ok (hash_of_fragment content).

Definition derive_nvr_from_paths m (source_commit : string) (config_path : option string) : result string :=
  let* h := config_fragment_hash m config_path None None in
  derive_nvr source_commit h "kernel" None None None None.

Definition env_is_zero (k : string) : bool :=
  match getenv k with Some v => String.eqb v "0" | None => false end.
Definition lfs_available m (root : option path) : bool :=
  negb (env_is_zero "K8LABS_LFS_AVAILABLE") && negb (env_is_zero "GIT_LFS_AVAILABLE") && which_git_lfs &&
  git_lfs_version m (default REPO root) && negb (env_is_zero "K8LABS_LFS_STORAGE_AVAILABLE").
Definition ensure_lfs_available m (root : option path) : result unit :=
  raise_if (negb (lfs_available m root)) LFSUnavailableError "Git LFS storage is unavailable".

Definition gitattributes_has_lfs m (p : path) : result bool :=
  if negb (is_file_at m p) then Ok false
  else let* text := read_text_at m p in Ok (text_has_lfs text).

Definition provisioner_fail_closed m : result bool :=
  if negb (is_file_at m PROVISIONER) then Ok false
  else
    let* text := read_text_at m PROVISIONER in
    if contains "Exact kernel" text && contains "is unavailable" text then Ok false
    else Ok (contains "kernel-modules-extra-" text).

Definition is_json (p : path) : bool := String.eqb (str_lower (suffix (List.last p ""))) ".json".

Definition load_lock_at m (target : path) : result pydict :=
  if negb (is_file_at m target) then Ok []
  else
    let* text := read_text_at m target in
    let* data :=
      (if is_json target then json_loads text
       else match yaml with
            | Some safe_load => match safe_load text with
                                | Ok v => Ok v
                                | Raise e => if caught_by [Exception] e then Ok VNone else Raise e
                                end
            | None => Ok VNone
            end) in
    Ok (match data with VDict d => d | _ => [] end).
Definition load_lock m (p : option string) : result pydict :=
  load_lock_at m (match p with Some s => at_path s | None => LOCK_FILE end).

(** [verify_artifact_hashes]: a text names a file, anything else is the lock. *)
Definition verify_artifact_hashes m (lock : pyval) (artifact_dir root : option string) : result (list string) :=
  let* data := match lock with
               | VStr p => load_lock m (Some p)
               | VDict d => Ok d
               | _ => Ok []
               end in
  let base := match root with
              | Some r => at_path r
              | None => match artifact_dir with Some d => at_path d | None => REPO end
              end in
  let* errors := mapM (entry_error m base) (artifact_entries data) in
  Ok (concat errors).
Definition assert_artifact_hashes m (lock : pyval) (artifact_dir root : option string) : result unit :=
  let* errors := verify_artifact_hashes m lock artifact_dir root in
  raise_if (match errors with [] => false | _ => true end) HashMismatchError (join "; " errors).

(** ** The check *)

(** [try: f() except ValueError as exc: errors.append(str(exc))] *)
Definition failure (cs : list exn_class) (r : result unit) (msg : string -> string) : result (list string) :=
  match r with
  | Ok _ => Ok []
  | Raise e => if caught_by cs e then Ok [msg (exn_msg e)] else Raise e
  end.

Definition fragment_errors m : result (list string) :=
  if negb (is_file_at m (resolve_config_fragment m None)) then Ok ["Fedora config fragment is missing"]
  else
    let* missing := missing_required_options m None None in
    Ok ((fun o => "config fragment does not enable " +:+ o) <$> missing).
Definition nvr_errors m : result (list string) :=
  match (let* h := config_fragment_hash m None None None in
         derive_nvr PINNED_SOURCE_COMMIT h "kernel" None None None None) with
  | Ok nvr => Ok (if startswith "kernel-" nvr then [] else ["derived NVR is invalid"])
  | Raise e => if caught_by [Exception] e then Ok ["NVR derivation failed: " +:+ exn_msg e] else Raise e
  end.
Definition lock_errors (lock : pydict) : list string :=
  let differs k v := negb (py_eq (dget_none k lock) VNone || py_eq (dget_none k lock) (VStr v)) in
  match lock with
  | [] => []
  | _ => (if differs "source_commit" PINNED_SOURCE_COMMIT
          then ["kernel build lock source_commit does not match pinned source"] else []) ++
         (if differs "fedora_image" FEDORA_IMAGE
          then ["kernel build lock Fedora image is not digest-pinned"] else [])
  end%list.

Definition check m (root lfs_root : option string) : result (list string) :=
  let target := match root with Some r => at_path r | None => REPO end in
  let* e1 := fragment_errors m in
  let* e2 := nvr_errors m in
  let* e3 := failure [ValueError] (assert_rpmbuild_opts None) id in
  let* e4 := failure [ValueError] (assert_reproducible_recipe None None) id in
  let* tracked := gitattributes_has_lfs m (target ++ [".gitattributes"])%list in
  let e5 := if tracked then [] else ["Git LFS tracking for the four runtime RPMs is missing"] in
  let lfs := match lfs_root with
             | Some r => if is_empty r then target else at_path r
             | None => target
             end in
  let* e6 := failure [LFSUnavailableError] (ensure_lfs_available m (Some lfs)) id in
  let* closed := provisioner_fail_closed m in
  let e7 := if closed then [] else ["RPM install path is not fail-closed on exact package hashes"] in
  let* lock := load_lock_at m LOCK_FILE in
  Ok (e1 ++ e2 ++ e3 ++ e4 ++ e5 ++ e6 ++ e7 ++ lock_errors lock)%list.

(** ** Writing *)

(** [p.write_text(s)]: a [..] below a directory that is not there is a missing
    file. *)
Definition write_text_at (p : path) (s : string) : F unit :=
  let! m := files in
  match locate m p with Some q => write_text q s | None => lift (not_found p) end.
Definition mkdirs_at (p : path) : F unit :=
  let! m := files in
  match locate m p with Some q => mkdirs q | None => lift (not_found p) end.

Definition track_runtime_rpms_in_lfs (gitattributes_path : option string) : F path :=
  let p := match gitattributes_path with
           | Some s => at_path s
           | None => (REPO ++ [".gitattributes"])%list
           end in
  write_text_at p lfs_text >>> ret p.

Definition json_lock (data : pydict) : string := json_indent true (VDict data) +:+ newline.
Definition save_lock (data : pydict) (p : option string) : F path :=
  let target := match p with Some s => at_path s | None => LOCK_FILE end in
  mkdirs_at (parent target) >>>
  (if is_json target then write_text_at target (json_lock data)
   else match yaml with
        | Some _ => try_except (let! text := lift (safe_dump data) in write_text_at target text) [Exception]
                      (fun _ => write_text_at target (json_lock data))
        | None => write_text_at target (json_lock data)
        end) >>>
  ret target.

(** [main]: the exit status; both streams are printed. *)
Record arguments : Type := {
  a_check : bool; a_derive_nvr : bool; a_source_commit : string; a_config_fragment : option string;
  a_ensure_lfs : bool; a_write_gitattributes : bool
}.

Definition main_check : F Z :=
  let! m := files in
  let! errors := lift (check m None None) in
  match errors with
  | [] => print "kernel build harness OK" >>> ret 0
  | _ => forM errors (fun e => print ("FAIL: " +:+ e)) >>> ret 1
  end.
Definition main_actions (args : arguments) : F Z :=
  if a_derive_nvr args then
    let! m := files in
    let! fragment_hash := lift (config_fragment_hash m (a_config_fragment args) None None) in
    let! nvr := lift (derive_nvr (a_source_commit args) fragment_hash "kernel" None None None None) in
    print nvr >>> ret 0
  else if a_check args then main_check
  else print format_help >>> ret 0.

Definition main (args : arguments) : F Z :=
  (if a_write_gitattributes args
   then let! _ := track_runtime_rpms_in_lfs None in print "wrote .gitattributes"
   else ret tt) >>>
  (if a_ensure_lfs args then
     let! m := files in
     match ensure_lfs_available m None with
     | Raise e => if caught_by [LFSUnavailableError] e then print ("FAIL: " +:+ exn_msg e) >>> ret 1
                  else lift (Raise e)
     | Ok _ =>
         print "Git LFS storage available" >>>
         (if negb (a_check args || a_derive_nvr args || a_write_gitattributes args) then ret 0
          else main_actions args)
     end
   else main_actions args).

End Repository.
