(* ===== verification/KernelHarnessThm.v ===== *)
(** The kernel build harness of [KernelHarness.v]: the hash of a configuration
    fragment does not depend on its line ends, names of packages read back into
    their parts, the hashes of an artifact lock are checked, locks and tracking
    files that were written are read back, and what a pass of the check means. *)

From Stdlib Require Import ZArith Bool Ascii String Lia.
From stdpp Require Import base list strings option gmap.
From S2P Require Import Prelude Eff PyStr PyText PyVal Json Sha256 Fs KernelSource KernelHarness.

Open Scope string_scope.
Open Scope Z_scope.

(** ** Line ends *)

Abbreviation CR := (chr 13).
Abbreviation LF := (chr 10).
Abbreviation crlf := (carriage_return +:+ newline).

Lemma crlf_prefix c s : Ascii.eqb CR c && startswith newline s = false -> String.prefix crlf (String c s) = false.
Proof.
  change (String.prefix crlf (String c s)) with (if ascii_dec CR c then startswith newline s else false).
  destruct (ascii_dec CR c) as [->|]; [|done]. by rewrite Ascii.eqb_refl.
Qed.

Lemma split_crlf_none s : without CR s = true -> split_go crlf 0 s = [s].
Proof.
  induction s as [|c s IH]; [done|]. intros [Hc Hs]%andb_true_iff. apply negb_true_iff in Hc.
  cbn [split_go]. rewrite crlf_prefix by by rewrite Hc. by rewrite IH.
Qed.

Lemma replace_crlf_none s : without CR s = true -> replace_all crlf newline s = s.
Proof. intros Hs. unfold replace_all, split_on. by rewrite split_crlf_none. Qed.

Lemma split_go_crlf t : split_go crlf 0 (crlf +:+ t) = "" :: split_go crlf 0 t.
Proof.
  pose proof (prefix_app crlf t) as Hp. unfold carriage_return, newline, char_str in *. cbn [String.append] in *.
  cbn [split_go]. rewrite Hp. reflexivity.
Qed.

(** The lines of a text with the other line ends. *)
Lemma split_crlf s : without CR s = true ->
  split_go crlf 0 (replace_all newline crlf s) = split_on newline s.
Proof.
  unfold newline. rewrite replace_char. unfold split_on.
  induction s as [|c s IH]; [done|]. intros [Hc Hs]%andb_true_iff. apply negb_true_iff in Hc. specialize (IH Hs).
  cbn [concat_map_str split_go]. rewrite prefix_char. destruct (Ascii.eqb LF c) eqn:E.
  - change (String.length (char_str LF) - 1)%nat with 0%nat. rewrite <- IH. apply split_go_crlf.
  - rewrite <- IH. change (char_str c +:+ ?t) with (String c t). cbn [split_go]. by rewrite crlf_prefix by by rewrite Hc.
Qed.

Lemma replace_crlf s : without CR s = true -> replace_all crlf newline (replace_all newline crlf s) = s.
Proof.
  intros Hs. unfold replace_all at 1. unfold split_on. rewrite split_crlf by done. by apply split_on_join.
Qed.

Lemma replace_cr_none s : without CR s = true -> replace_all carriage_return newline s = s.
Proof. intros Hs. unfold replace_all, carriage_return. by rewrite split_on_none. Qed.

Lemma without_replaced s new : without LF new = true -> without LF (replace_all newline new s) = true.
Proof.
  intros Hn. unfold newline. rewrite replace_char. apply str_forallb_concat. intros c.
  destruct (Ascii.eqb LF c) eqn:E; [done|]. unfold char_str. cbn [str_forallb]. by rewrite E.
Qed.

(** Without a line feed there is no pair to replace. *)
Lemma split_crlf_no_lf s : without LF s = true -> split_go crlf 0 s = [s].
Proof.
  induction s as [|c s IH]; [done|]. intros [Hc Hs]%andb_true_iff. apply negb_true_iff in Hc.
  cbn [split_go]. rewrite crlf_prefix, IH; [done..|]. apply andb_false_iff. right.
  destruct s as [|d s]; [done|]. apply andb_true_iff in Hs as [Hd _]. apply negb_true_iff in Hd.
  unfold startswith, newline. by rewrite prefix_char.
Qed.

Lemma replace_cr s : without CR s = true ->
  replace_all carriage_return newline (replace_all newline carriage_return s) = s.
Proof.
  intros Hs. unfold newline, carriage_return. rewrite !replace_char, concat_map_concat.
  induction s as [|c s IH]; [done|]. apply andb_true_iff in Hs as [Hc Hs]. apply negb_true_iff in Hc.
  cbn [concat_map_str]. rewrite IH by done. destruct (Ascii.eqb LF c) eqn:E.
  - by apply Ascii.eqb_eq in E as <-.
  - cbn [concat_map_str char_str]. by rewrite Hc.
Qed.

Lemma rstrip_newlines_app s : rstrip_newlines (s +:+ newline) = rstrip_newlines s.
Proof. induction s as [|c s IH]; [done|]. cbn [String.append rstrip_newlines]. by rewrite IH. Qed.

Lemma rstrip_newlines_idem s : rstrip_newlines (rstrip_newlines s) = rstrip_newlines s.
Proof.
  induction s as [|c s IH]; [done|]. cbn [rstrip_newlines].
  destruct (rstrip_newlines s) as [|d t] eqn:E.
  - destruct (code c =? 10) eqn:Ec; [done|]. cbn. by rewrite Ec.
  - cbn [rstrip_newlines] in *. by rewrite IH.
Qed.

Lemma normalize_without_cr t : without CR t = true -> normalize_config_fragment t = rstrip_newlines t +:+ newline.
Proof. intros Ht. unfold normalize_config_fragment. by rewrite replace_crlf_none, replace_cr_none. Qed.

(** The hash of a configuration fragment is the hash of its lines: it is the
    same with Windows and with old Macintosh line ends and with any number of
    final newlines. *)
Theorem fragment_hash_line_ends t n : without CR t = true ->
  hash_of_fragment (replace_all newline crlf t) = hash_of_fragment t /\
  hash_of_fragment (replace_all newline carriage_return t) = hash_of_fragment t /\
  hash_of_fragment (t +:+ Nat.iter n (fun s => s +:+ newline) "") = hash_of_fragment t.
Proof.
  intros Ht. unfold hash_of_fragment.
  assert (normalize_config_fragment (replace_all newline crlf t) = normalize_config_fragment t) as ->.
  { unfold normalize_config_fragment. by rewrite replace_crlf, replace_crlf_none. }
  assert (normalize_config_fragment (replace_all newline carriage_return t) = normalize_config_fragment t) as ->.
  { unfold normalize_config_fragment. rewrite (replace_crlf_none t), (replace_cr_none t) by done.
    unfold replace_all at 2. unfold split_on. rewrite split_crlf_no_lf by by apply without_replaced.
    cbn [join]. by rewrite replace_cr. }
  split_and!; [done..|]. do 3 f_equal.
  assert (forall k, without CR (Nat.iter k (fun s => s +:+ newline) "") = true) as Hk.
  { intros k. induction k as [|k IH]; [done|]. rewrite Nat.iter_succ. by rewrite without_app, IH. }
  rewrite !normalize_without_cr; [|done|by rewrite without_app, Ht, Hk]. f_equal.
  induction n as [|n IH]; [by rewrite str_app_nil_r|]. rewrite Nat.iter_succ. by rewrite <- str_app_assoc, rstrip_newlines_app.
Qed.

(** ** Names of packages *)

Lemma cut_at_none c s : without c s = true -> cut_at (Ascii.eqb c) s = (s, "").
Proof.
  induction s as [|d s IH]; [done|]. intros [Hd Hs]%andb_true_iff. apply negb_true_iff in Hd. cbn [cut_at].
  by rewrite Hd, IH.
Qed.
Lemma cut_at_found c s t : without c s = true -> cut_at (Ascii.eqb c) (s +:+ String c t) = (s, String c t).
Proof.
  induction s as [|d s IH]; [cbn; by rewrite Ascii.eqb_refl|]. intros [Hd Hs]%andb_true_iff. apply negb_true_iff in Hd.
  cbn [String.append cut_at]. by rewrite Hd, IH.
Qed.
Lemma cut_at_join c s : forall a b, cut_at (Ascii.eqb c) s = (a, b) -> b <> "" -> s = a +:+ char_str c +:+ str_drop 1 b.
Proof.
  induction s as [|d s IH]; intros a b; cbn [cut_at]; [by intros [= <- <-]|].
  destruct (Ascii.eqb c d) eqn:E.
  - intros [= <- <-] _. by apply Ascii.eqb_eq in E as ->.
  - destruct (cut_at (Ascii.eqb c) s) as [a' b'] eqn:Ec. intros [= <- <-] Hb. cbn [String.append]. by rewrite <- (IH a' b').
Qed.

Lemma partition_dash s t : without "-" s = true -> partition_char "-" (s +:+ "-" +:+ t) = (s, true, t).
Proof. intros Hs. unfold partition_char. change ("-" +:+ t) with (String "-" t). by rewrite cut_at_found. Qed.
Lemma partition_join c s a t : partition_char c s = (a, true, t) -> s = a +:+ char_str c +:+ t.
Proof.
  unfold partition_char. destruct (cut_at _ s) as [x b] eqn:E. intros [= <- Hb <-].
  apply (cut_at_join _ _ _ _ E). intros ->. done.
Qed.

Lemma parse_nvr_str value n : parse_nvr value = Ok n -> nvr_str n = value.
Proof.
  unfold parse_nvr, split_dash2. destruct (partition_char "-" value) as [[a [|]] rest] eqn:E1; [|done].
  destruct (partition_char "-" rest) as [[b [|]] rest'] eqn:E2; [|done]. cbn. intros [= <-].
  apply partition_join in E1 as ->. by apply partition_join in E2 as ->.
Qed.
Lemma parse_nvr_parts n : without "-" (nvr_name n) = true -> without "-" (nvr_version n) = true ->
  parse_nvr (nvr_str n) = Ok n.
Proof.
  intros H1 H2. unfold parse_nvr, split_dash2, nvr_str. rewrite (partition_dash _ _ H1). cbn [negb].
  rewrite (partition_dash _ _ H2). cbn [negb]. by destruct n.
Qed.

(** A derived package name reads back into its parts when neither the name
    nor the version has a dash: the name, the version, and a release made of the
    prefix, the packaging revision, the first seven characters of the hash and
    the Fedora release.  Deriving for any other commit than the pinned one
    fails, and what is parsed prints back to the text it came from. *)
Theorem nvr_roundtrip source_commit config_hash name version prefix :
  match derive_nvr source_commit config_hash name version prefix None None with
  | Raise e => source_commit <> PINNED_SOURCE_COMMIT /\ exn_cls e = ValueError
  | Ok nvr =>
      source_commit = PINNED_SOURCE_COMMIT /\
      (without "-" name = true -> without "-" (text_or version NVR_VERSION_BASE) = true ->
       parse_nvr nvr = Ok {| nvr_name := name; nvr_version := text_or version NVR_VERSION_BASE;
                             nvr_release := text_or prefix NVR_UPSTREAM_BUILD +:+ NVR_ARK_BUILD +:+
                               (NVR_LOCALVERSION_PREFIX +:+ str_take 7 (strip config_hash)) +:+ ".fc" +:+ FEDORA_VERSION |}) /\
      (forall n, parse_nvr nvr = Ok n -> nvr_str n = nvr)
  end.
Proof.
  unfold derive_nvr, from_option, id. destruct (String.eqb_spec source_commit PINNED_SOURCE_COMMIT) as [->|Hne]; cbn [negb raise_if rbind].
  - split; [done|]. split; [|intros n; apply parse_nvr_str].
    intros H1 H2. exact (parse_nvr_parts {| nvr_name := name; nvr_version := _; nvr_release := _ |} H1 H2).
  - by split.
Qed.

(** ** Options *)

(** No required option is missing from a fragment exactly when for each of
    them some line of it sets it to [y]. *)
Theorem no_option_missing content :
  missing_in content = [] <->
  forall o, o ∈ REQUIRED_CONFIG_OPTIONS ->
    exists line, line ∈ splitlines (normalize_config_fragment content) /\ option_of line = Some o.
Proof.
  unfold missing_in. set (enabled := config_fragment_options content).
  assert (forall o, o ∈ enabled <-> exists line, line ∈ splitlines (normalize_config_fragment content) /\ option_of line = Some o) as He.
  { intros o. subst enabled. unfold config_fragment_options. by rewrite elem_of_list_to_set, list_elem_of_omap. }
  setoid_rewrite <- He. generalize REQUIRED_CONFIG_OPTIONS as l. intros l. split.
  - intros H o Ho. destruct (decide (o ∈ enabled)) as [|Hn]; [done|].
    assert (o ∈ List.filter (fun o => negb (bool_decide (o ∈ enabled))) l) as Hin; [|by rewrite H in Hin; apply not_elem_of_nil in Hin].
    apply list_elem_of_In, filter_In. split; [by apply list_elem_of_In|]. by rewrite bool_decide_false.
  - intros H. apply filter_none, Forall_forall. intros o Ho. by rewrite bool_decide_true by auto.
Qed.

(** ** Hashes of artifacts *)

Section Checks.
Context {Hst : Harness}.
Implicit Types m : fs.

(** The place and the hash of an entry, when it has both. *)
Definition entry_target (base : path) (entry : pydict) : option (path * string) :=
  match dget_none "sha256" entry, py_or (dget_none "cache_path" entry) (py_or (dget_none "path" entry) (dget_none "file" entry)) with
  | VStr expected, VStr location => Some (slash base location, expected)
  | _, _ => None
  end.

(** The file at the place of the entry, if there is one, has the hash. *)
Definition entry_matches m (base : path) (entry : pydict) : Prop :=
  match entry_target base entry with
  | Some (p, expected) => forall q data, locate m p = Some q -> m !! q = Some (File data) ->
      sha256_hex (bytes_of_string data) = str_lower expected
  | None => True
  end.

Lemma is_file_at_spec m p : is_file_at m p = true <-> exists q data, locate m p = Some q /\ m !! q = Some (File data).
Proof.
  unfold is_file_at, is_file. destruct (locate m p) as [q|]; [|split; [done|by intros (? & ? & ? & _)]].
  destruct (m !! q) as [[d|]|] eqn:E; split; try done; [by exists q, d|naive_solver|naive_solver].
Qed.

Lemma entry_error_spec m base entry : exists errs, entry_error m base entry = Ok errs /\ (errs = [] <-> entry_matches m base entry).
Proof.
  unfold entry_error, entry_matches, entry_target.
  destruct (dget_none "sha256" entry) as [| | | |expected| |]; try (by exists []).
  destruct (py_or _ _) as [| | | |location| |]; try (by exists []).
  destruct (is_file_at m (slash base location)) eqn:Ef; cbn [negb].
  - apply is_file_at_spec in Ef as (q & data & Hq & Hd). unfold sha256_file, read_bytes. rewrite Hq, Hd. cbn [rbind].
    destruct (String.eqb_spec (sha256_hex (bytes_of_string data)) (str_lower expected)) as [E|E]; eexists; (split; [reflexivity|]).
    + split; [|done]. intros _ q' d' Hq' Hd'. congruence.
    + split; [done|]. intros H. by destruct E, (H q data).
  - exists []. split; [done|]. split; [|done]. intros _ q d Hq Hd.
    assert (is_file_at m (slash base location) = true) as E by (apply is_file_at_spec; eauto). congruence.
Qed.

(** Verifying a lock always gives an answer, and it gives no error exactly
    when every file that is at the place of an entry with a hash has that hash,
    whatever the case of its letters; entries whose file is absent do not count.
    The assertion raises exactly when there is an error. *)
Theorem artifact_hashes_verified m lock artifact_dir root :
  let base := match root with
              | Some r => at_path r
              | None => match artifact_dir with Some d => at_path d | None => REPO end
              end in
  exists errors, verify_artifact_hashes m (VDict lock) artifact_dir root = Ok errors /\
    (errors = [] <-> Forall (entry_matches m base) (artifact_entries lock)) /\
    (assert_artifact_hashes m (VDict lock) artifact_dir root = Ok tt <-> errors = []).
Proof.
  intros base. unfold assert_artifact_hashes, verify_artifact_hashes. cbn [rbind]. fold base.
  assert (forall l, exists ess, mapM (entry_error m base) l = Ok ess /\ (concat ess = [] <-> Forall (entry_matches m base) l)) as H.
  { induction l as [|e l (ess & IH & Hl)]; [by exists []|].
    destruct (entry_error_spec m base e) as (es & He & Hs). exists (es :: ess). cbn. rewrite He. cbn. rewrite IH.
    split; [done|]. rewrite Forall_cons_iff, <- Hs, <- Hl. split; [apply app_nil|by intros [-> ->]]. }
  destruct (H (artifact_entries lock)) as (ess & -> & Hs). cbn [rbind]. exists (concat ess).
  split; [done|]. split; [done|]. by destruct (concat ess).
Qed.
End Checks.

(** ** Written files are read back *)

Lemma utf8_pair c : (code c <? 128) = false ->
  let c1 := chr (192 + code c / 64) in let c2 := chr (128 + code c mod 64) in
  (code c1 <? 128) = false /\ between 194 195 (code c1) && between 128 191 (code c2) = true /\
  chr ((code c1 - 192) * 64 + (code c2 - 128)) = c.
Proof. destruct c as [[] [] [] [] [] [] [] []]; vm_compute; intros; done. Qed.

Lemma utf8_roundtrip s : utf8_decode (utf8_encode s) = Some s.
Proof.
  induction s as [|c s IH]; [done|]. cbn [utf8_encode]. destruct (code c <? 128) eqn:E.
  - cbn [utf8_decode]. by rewrite E, IH.
  - destruct (utf8_pair c E) as (E1 & E2 & E3). cbn [utf8_decode]. by rewrite E1, E2, E3, IH.
Qed.

Lemma write_text_Ok {M : Machine} q s d u d' : write_text q s d = (Ok u, d') ->
  is_dir (now d) q = false /\ now d' = <[q := File (utf8_encode s)]> (now d).
Proof.
  unfold write_text, write_bytes, create. intros (v & d1 & H1 & H2)%bindM_Ok.
  apply bindM_Ok in H1 as (m & d0 & Hm & H1). injection Hm as <- <-.
  destruct (is_dir (now d) q) eqn:Hd; [done|]. split; [done|]. destruct (negb _); [done|].
  unfold call in H1. destruct (strike d) as [[? ?]|]; [done|]. injection H1 as <-.
  unfold Fs.append in H2. destruct (strike _) as [[? ?]|]; [done|]. injection H2 as H2. 
  subst d1 d'. cbn [now Fs.change]. unfold contents. rewrite lookup_insert_eq. by rewrite insert_insert_eq.
Qed.

(** Writing a file leads no path elsewhere. *)
Lemma is_dir_insert_file (m : fs) q s p : is_dir m q = false -> is_dir (<[q := File s]> m) p = is_dir m p.
Proof.
  intros Hq. unfold is_dir in *. destruct p as [|c p]; [done|]. destruct (decide (c :: p = q)) as [<-|Hne].
  - by rewrite lookup_insert_eq, Hq.
  - by rewrite lookup_insert_ne by congruence.
Qed.
Lemma locate_insert_file (m : fs) q s p : is_dir m q = false -> locate (<[q := File s]> m) p = locate m p.
Proof.
  intros Hq. unfold locate. generalize (@nil string) as here. induction p as [|c p IH]; intros here; [done|].
  cbn [locate_go]. rewrite is_dir_insert_file by done. by rewrite !IH.
Qed.

Lemma write_text_at_Ok {Hst : Harness} p s d u d' : write_text_at p s d = (Ok u, d') ->
  is_file_at (now d') p = true /\ read_text_at (now d') p = Ok s.
Proof.
  unfold write_text_at. intros (m & d0 & Hm & H)%bindM_Ok. injection Hm as <- <-.
  destruct (locate (now d) p) as [q|] eqn:Hq; [|done]. apply write_text_Ok in H as [Hd ->].
  unfold is_file_at, read_text_at. rewrite locate_insert_file, Hq by done. unfold is_file, read_text, read_bytes.
  rewrite lookup_insert_eq. cbn [rbind]. by rewrite utf8_roundtrip.
Qed.

Section Written.
Context {Hst : Harness}.

(** After the tracking file was written, the check finds the four runtime
    packages in it. *)
Theorem tracking_is_found s d p d' :
  track_runtime_rpms_in_lfs s d = (Ok p, d') -> gitattributes_has_lfs (now d') p = Ok true.
Proof.
  unfold track_runtime_rpms_in_lfs. intros (u & d1 & H & (-> & ->)%retM_Ok)%bindM_Ok.
  apply write_text_at_Ok in H as [Hf Hr]. unfold gitattributes_has_lfs. rewrite Hf, Hr. reflexivity.
Qed.

(** A build lock saved in a JSON file loads back as the same mapping, with
    its keys in order. *)
Theorem saved_lock_loads data s d p d' data' :
  json_wf (VDict data) = true -> json_norm true (VDict data) = VDict data' -> is_json (at_path s) = true ->
  save_lock data (Some s) d = (Ok p, d') -> load_lock (now d') (Some s) = Ok data'.
Proof.
  intros Hwf Hn Hj. unfold save_lock, load_lock, load_lock_at. rewrite Hj.
  intros (u & d1 & _ & (v & d2 & H & (-> & ->)%retM_Ok)%bindM_Ok)%bindM_Ok.
  apply write_text_at_Ok in H as [Hf Hr]. rewrite Hf, Hr. cbn [negb rbind]. unfold json_lock, json_indent.
  rewrite json_loads_text by (done || apply indent_style_ok). cbn [rbind].
  change (js_sorted (indent_style true)) with true. by rewrite Hn.
Qed.
End Written.

(** ** What a pass of the check means *)

Section Passes.
Context {Hst : Harness}.
Implicit Types m : fs.

Definition lock_agrees (lock : pydict) (k v : string) : Prop :=
  py_eq (dget_none k lock) VNone = true \/ py_eq (dget_none k lock) (VStr v) = true.

Lemma lock_errors_none lock : lock_errors lock = [] <->
  lock = [] \/ (lock_agrees lock "source_commit" PINNED_SOURCE_COMMIT /\ lock_agrees lock "fedora_image" FEDORA_IMAGE).
Proof.
  unfold lock_errors, lock_agrees. destruct lock as [|p lock]; [naive_solver|].
  rewrite <- !orb_true_iff. destruct (_ || _); destruct (_ || _); cbn; naive_solver.
Qed.

Lemma derive_pinned h : exists rest, derive_nvr PINNED_SOURCE_COMMIT h "kernel" None None None None = Ok ("kernel-" +:+ rest).
Proof.
  unfold derive_nvr, from_option, id. rewrite String.eqb_refl. cbn [negb raise_if rbind].
  match goal with |- exists rest, Ok ("kernel" +:+ "-" +:+ ?x) = _ => exists x; generalize x end. done.
Qed.

Lemma nvr_errors_read m text : read_config_fragment m None = Ok text -> nvr_errors m = Ok [].
Proof.
  intros H. unfold nvr_errors, config_fragment_hash. rewrite H. cbn [rbind].
  destruct (derive_pinned (hash_of_fragment text)) as [rest ->]. unfold startswith. by rewrite prefix_app.
Qed.

Lemma recipe_ok : failure [ValueError] (assert_rpmbuild_opts None) id = Ok [] /\
  failure [ValueError] (assert_reproducible_recipe None None) id = Ok [].
Proof. split; vm_compute; reflexivity. Qed.

Lemma fragment_errors_none m : fragment_errors m = Ok [] <->
  is_file_at m (resolve_config_fragment m None) = true /\
  exists text, read_config_fragment m None = Ok text /\ missing_in text = [].
Proof.
  unfold fragment_errors, missing_required_options. destruct (is_file_at m _); cbn [negb]; [|naive_solver].
  destruct (read_config_fragment m None) as [text|e]; cbn [rbind]; [|naive_solver].
  split.
  - intros H%Ok_inj%fmap_nil_inv. eauto.
  - intros (_ & t & [= <-] & ->). done.
Qed.

(** The check of the build harness passes exactly when the configuration
    fragment is there, reads and enables every required option, the tracking
    file names the four runtime packages, Git LFS is available, the provisioner
    is fail-closed, and the build lock, where it says something of them, names
    the pinned source commit and the pinned image. *)
Theorem harness_passes_iff m root lfs_root :
  let target := match root with Some r => at_path r | None => REPO end in
  let lfs := match lfs_root with Some r => if is_empty r then target else at_path r | None => target end in
  check m root lfs_root = Ok [] <->
  (is_file_at m (resolve_config_fragment m None) = true /\
   exists text, read_config_fragment m None = Ok text /\ missing_in text = []) /\
  gitattributes_has_lfs m (target ++ [".gitattributes"])%list = Ok true /\
  lfs_available m (Some lfs) = true /\ provisioner_fail_closed m = Ok true /\
  exists lock, load_lock_at m LOCK_FILE = Ok lock /\
    (lock = [] \/ lock_agrees lock "source_commit" PINNED_SOURCE_COMMIT /\ lock_agrees lock "fedora_image" FEDORA_IMAGE).
Proof.
  intros target lfs. destruct recipe_ok as [R1 R2]. rewrite <- fragment_errors_none. setoid_rewrite <- lock_errors_none.
  unfold check. fold target lfs. rewrite R1, R2. unfold ensure_lfs_available. split.
  - intros (e1 & H1 & (e2 & H2 & (e3 & [= <-] & (e4 & [= <-] & (tr & Ht & (e6 & H6 & (cl & Hc & (lock & Hl & H)%rbind_Ok)%rbind_Ok)%rbind_Ok)%rbind_Ok)%rbind_Ok)%rbind_Ok)%rbind_Ok)%rbind_Ok.
    apply Ok_inj in H. repeat (apply app_nil in H as [? H]). subst e1 e2 e6. split; [done|].
    destruct tr; [|done]. destruct cl; [|done]. split; [done|]. split; [by destruct (lfs_available m (Some lfs))|]. eauto.
  - intros (H1 & Ht & Ha & Hc & lock & Hl & He). rewrite H1. cbn [rbind].
    apply fragment_errors_none in H1 as (_ & text & Hr & _). rewrite (nvr_errors_read _ _ Hr). cbn [rbind].
    rewrite Ht. cbn [rbind]. rewrite Ha. cbn [negb raise_if failure rbind]. rewrite Hc. cbn [rbind]. rewrite Hl.
    cbn [rbind]. by rewrite He.
Qed.
End Passes.

(** ** A repository *)

Module KernelRepo.

Definition disk_machine : Machine.
Proof.
  refine {| strike := fun _ => None; urlopen := fun _ _ => Raise (Exn OSError "offline"); tmp_suffix := fun _ => "0";
            skopeo := fun d _ _ => (NoProgram, now d) |}.
  intros; reflexivity.
Defined.

Definition repo_host : Harness := {|
  gate_host := {| getenv := fun _ => None; yaml := None; rev_parse := fun _ _ => None;
                  other_search := fun _ _ => Raise (Exn Exception "re.error"); cwd := ["w"];
                  script_dir := ["repo"; "scripts"] |};
  safe_dump := fun _ => Raise (Exn Exception "no YAML"); which_git_lfs := true; git_lfs_version := fun _ _ => true;
  format_help := "usage"; machine := disk_machine
|}.
#[local] Existing Instance repo_host.

Definition fragment : string := join newline ((fun o => o +:+ "=y") <$> REQUIRED_CONFIG_OPTIONS) +:+ newline.
Definition repo : disk := {| now := list_to_map [
    ([], Dir); (["w"], Dir); (["repo"], Dir); (["repo"; "configs"], Dir);
    (["repo"; "configs"; "fedora-44-kernel.config-fragment"], File fragment);
    (["repo"; ".gitattributes"], File lfs_text);
    (["repo"; "packer"; "scripts"; "01-configure-system.sh"], File "dnf install kernel-modules-extra-$NVR")
  ]; past := []; printed := [] |}.

Example repo_passes : check (now repo) None None = Ok [].
Proof. vm_compute. reflexivity. Qed.

(** A line for each of the other packages is enough: the name of [kernel-modules]
    with a dash is a part of theirs. *)
Example modules_line_not_needed :
  text_has_lfs (join newline (lfs_line <$> ["kernel-core"; "kernel-modules-core"; "kernel-modules-extra"])) = true.
Proof. vm_compute. reflexivity. Qed.

(** An option that a later line turns off again counts as enabled. *)
Example later_line_not_seen : missing_in (fragment +:+ "CONFIG_BPF_JIT=n" +:+ newline) = [].
Proof. vm_compute. reflexivity. Qed.

Example fragment_without_btf :
  missing_in (replace_all "CONFIG_DEBUG_INFO_BTF=y" "# CONFIG_DEBUG_INFO_BTF is not set" fragment) = ["CONFIG_DEBUG_INFO_BTF"].
Proof. vm_compute. reflexivity. Qed.

Lemma fragment_hash_line_ends_witness :
  hash_of_fragment (replace_all newline (carriage_return +:+ newline) fragment) = hash_of_fragment fragment.
Proof. exact (proj1 (fragment_hash_line_ends fragment 0 eq_refl)). Defined.

(** A run and the value it returned. *)
Lemma tracking_is_found_witness :
  gitattributes_has_lfs (now (snd (track_runtime_rpms_in_lfs (Some "attributes") repo))) ["w"; "attributes"] = Ok true.
Proof.
  eapply (tracking_is_found (Some "attributes") repo). apply ran. vm_compute. reflexivity.
Defined.

Definition lock_data : pydict := [("source_commit", VStr PINNED_SOURCE_COMMIT); ("artifacts", VList [VDict [("sha256", VStr "AB")]])].

Lemma saved_lock_loads_witness :
  load_lock (now (snd (save_lock lock_data (Some "new/lock.json") repo))) (Some "new/lock.json") =
  Ok [("artifacts", VList [VDict [("sha256", VStr "AB")]]); ("source_commit", VStr PINNED_SOURCE_COMMIT)].
Proof.
  eapply (saved_lock_loads lock_data "new/lock.json" repo ["w"; "new"; "lock.json"]);
    [vm_compute; reflexivity..|apply ran; vm_compute; reflexivity].
Defined.

End KernelRepo.
