(* ===== verification/PyNormal.v ===== *)
(** The quantile of the normal distribution ([statistics.NormalDist().inv_cdf]),
    sums that may hold special values, small powers, and the [csv] writer with
    line feeds. *)

From Stdlib Require Import ZArith Bool Ascii String Lia SpecFloat.
From stdpp Require Import base list strings option.
From S2P Require Import Prelude PyStr PyFloat PyCsv Stats.

Open Scope string_scope.
Open Scope Z_scope.

(** ** [math.fsum] and [statistics.fmean] of any floats

    Values that are not finite are summed apart; two infinities of opposite
    signs have no sum. *)

Definition is_inf (s : bool) (x : float) : bool := match x with S754_infinity s' => Bool.eqb s s' | _ => false end.
Definition fsum_any (l : list float) : result float :=
  if forallb isfinite l then fsum l
  else if existsb (is_inf false) l && existsb (is_inf true) l then Raise (Exn ValueError "-inf + inf in fsum")
  else Ok (if existsb is_nan l then S754_nan else S754_infinity (existsb (is_inf true) l)).
Definition fmean_any (l : list float) : result float :=
  match l with
  | [] => Raise (Exn ValueError "fmean requires at least one data point")
  | _ => let* s := fsum_any l in fdiv s (float_len l)
  end.

Lemma fmean_any_finite l : forallb isfinite l = true -> fmean_any l = fmean l.
Proof. intros H. unfold fmean_any, fmean, fsum_any. rewrite H. by destruct l. Qed.

(** ** Polynomials and powers *)

(** [(...(c0 * x + c1) * x + ...) * x + cn] *)
Definition horner (cs : list float) (x : float) : float :=
  match cs with [] => fzero | c :: cs => fold_left (fun acc c => fadd (fmul acc x) c) cs c end.

(** [pow] of the C library for finite arguments. *)
Class Pow : Type := c_pow : float -> Z -> float.
(** [x ** n] for a small positive integer [n]. *)
Definition py_pow `{Pow} (x : float) (n : Z) : result float :=
  match x with
  | S754_nan => Ok x
  | S754_infinity s => Ok (S754_infinity (s && Z.odd n))
  | _ => match c_pow x n with
         | S754_infinity _ => Raise (Exn OverflowError "(34, 'Numerical result out of range')")
         | y => Ok y
         end
  end.

(** [math.sqrt(x)] *)
Definition math_sqrt (x : float) : result float := if fltb x fzero then domain_error else Ok (fsqrt x).

(** ** The normal quantile *)

(** A decimal literal: an integer over a power of ten, in either direction. *)
Definition dec (n e : Z) : float := if 0 <=? e then flit (n * 10 ^ e) 1 else flit n (10 ^ (- e)).

(** Wichura's algorithm AS241: numerators and denominators of its three pieces. *)
Definition center_num : list float := [dec 250908092873012267270 (-17); dec 334305755835881281050 (-16); dec 672657709270087008530 (-16); dec 459219539315498714570 (-16); dec 137316937655094611250 (-16); dec 197159095030655144270 (-17); dec 133141667891784377450 (-18); dec 338713287279636660800 (-20)].
Definition center_den : list float := [dec 522649527885285456100 (-17); dec 287290857357219426740 (-16); dec 393078958000927106100 (-16); dec 212137943015865958670 (-16); dec 539419602142475110770 (-17); dec 687187007492057908300 (-18); dec 423133307016009112520 (-19); dec 1 0].
Definition middle_num : list float := [dec 774545014278341407640 (-24); dec 227238449892691845833 (-22); dec 241780725177450611770 (-21); dec 127045825245236838258 (-20); dec 364784832476320460504 (-20); dec 576949722146069140550 (-20); dec 463033784615654529590 (-20); dec 142343711074968357734 (-20)].
Definition middle_den : list float := [dec 105075007164441684324 (-29); dec 547593808499534494600 (-24); dec 151986665636164571966 (-22); dec 148103976427480074590 (-21); dec 689767334985100004550 (-21); dec 167638483018380384940 (-20); dec 205319162663775882187 (-20); dec 1 0].
Definition far_num : list float := [dec 201033439929228813265 (-27); dec 271155556874348757815 (-25); dec 124266094738807843860 (-23); dec 265321895265761230930 (-22); dec 296560571828504891230 (-21); dec 178482653991729133580 (-20); dec 546378491116411436990 (-20); dec 665790464350110377720 (-20)].
Definition far_den : list float := [dec 204426310338993978564 (-35); dec 142151175831644588870 (-27); dec 184631831751005468180 (-25); dec 786869131145613259100 (-24); dec 148753612908506148525 (-22); dec 136929880922735805310 (-21); dec 599832206555887937690 (-21); dec 1 0].

(** [NormalDist().inv_cdf(p)]; its [StatisticsError] is a [ValueError]. *)
Definition inv_cdf `{Libm} (p : float) : result float :=
  if fleb p zero || fleb one p then Raise (Exn ValueError "p must be in the range 0.0 < p < 1.0")
  else
    let q := fsub p half in
    if fleb (fabs q) (flit 425 1000) then
      let r := fsub (flit 180625 1000000) (fmul q q) in
      let* x := fdiv (fmul (horner center_num r) q) (horner center_den r) in
      Ok (fadd zero (fmul x one))
    else
      let r := fsqrt (fopp (c_log (if fleb q zero then p else fsub one p))) in
      let* x :=
        if fleb r (flit 5 1) then let r := fsub r (flit 16 10) in fdiv (horner middle_num r) (horner middle_den r)
        else let r := fsub r (flit 5 1) in fdiv (horner far_num r) (horner far_den r) in
      Ok (fadd zero (fmul (if fltb q zero then fopp x else x) one)).

(** ** [csv.writer(handle, lineterminator="\n")] *)

Definition special_lf (c : ascii) : bool := Ascii.eqb c comma || Ascii.eqb c dquote || Ascii.eqb c LF.
Definition csv_field_lf (s : string) : string :=
  if str_forallb (fun c => negb (special_lf c)) s then s else char_str dquote +:+ concat_map_str quote_char s +:+ char_str dquote.
(** Lines of at least two fields. *)
Definition csv_write_lf (rows : list (list string)) : string :=
  join "" ((fun row => join "," (csv_field_lf <$> row) +:+ newline) <$> rows).

Example csv_write_lf_example : csv_write_lf [["a"; "b,c"]; [""; "1"]] = "a," +:+ csv_field_lf "b,c" +:+ newline +:+ ",1" +:+ newline.
Proof. vm_compute. reflexivity. Qed.

Example inv_cdf_values (L : Libm) :
  inv_cdf (flit 9 10) = Ok (dec 12815515655446008 (-16)) /\ inv_cdf (flit 3 10) = Ok (dec (-5244005127080407) (-16)).
Proof. split; vm_compute; reflexivity. Qed.

(** ** A C library for witnesses

    An executable instance of the C library's functions for witnesses: [log]
    and [exp] by power series after reduction of the argument, powers by
    multiplication.  Theorems do not depend on it. *)

Definition quotient (a b : float) : float := fdiv_ieee a b.
Definition ln2 : float := flit 6931471805599453 (10 ^ 16).

(** [y + y^3/3 + y^5/5 + ...], [n] terms. *)
Fixpoint atanh_series (n : nat) (k : Z) (power square : float) : float :=
  match n with
  | O => fzero
  | S n => fadd (quotient power (flit k 1)) (atanh_series n (k + 2) (fmul power square) square)
  end.
Definition series_log (x : float) : float :=
  match x with
  | S754_finite false m e =>
      let d := Zpos (digits2_pos m) in
      let f := flit (Zpos m) (2 ^ d) in
      let y := quotient (fsub f one) (fadd f one) in
      fadd (fmul (flit (e + d) 1) ln2) (fmul two (atanh_series 20 1 y (fmul y y)))
  | _ => fzero
  end.

(** [1 + x + x^2/2 + ...] *)
Fixpoint exp_series (n : nat) (k : Z) (term x : float) : float :=
  match n with O => fzero | S n => fadd term (exp_series n (k + 1) (quotient (fmul term x) (flit k 1)) x) end.
Definition series_exp (x : float) : float :=
  let k := match int_of_float (quotient x ln2) with Ok k => k | Raise _ => 0 end in
  let r := fsub x (fmul (flit k 1) ln2) in
  fmul (exp_series 20 1 one r) (if 0 <=? k then flit (2 ^ k) 1 else flit 1 (2 ^ (- k))).

Definition series_libm : Libm :=
  {| c_log := series_log; c_log1p := fun x => series_log (fadd one x); c_exp := series_exp; c_lgamma := fun _ => fzero |}.
Definition power_by_multiplication : Pow := fun x n => Nat.iter (Z.to_nat n) (fmul x) one.

Definition near (x y : float) : bool := fltb (fabs (fsub x y)) (flit 1 (10 ^ 14)).
Example series_values :
  near (series_log (flit 25 10000)) (flit (-5991464547107982) (10 ^ 15)) && near (series_exp one) (flit 2718281828459045 (10 ^ 15)) = true.
Proof. vm_compute. reflexivity. Qed.
