(* ===== verification/SchedAnalysis.v ===== *)
(** [linux-sched/analysis/sched_analysis.py]: paired log ratios against the
    control scheduler, their t statistics, Holm's step-down correction over the
    planned family, the decisions, and the two summaries.

    [random.Random] is [Campaign.Rng]; the functions of the C library are
    [Stats.Libm] and [PyNormal.Pow]. *)

From Stdlib Require Import ZArith Bool Ascii String Lia SpecFloat.
From stdpp Require Import base list strings option.
From S2P Require Import Prelude Eff PyStr PyFloat PyCsv PyVal PyDict Json PyConv Campaign World Stats PyNormal.

Open Scope string_scope.
Open Scope Z_scope.

Definition CONTROL_SCHEDULER : string := "eevdf".
Definition PRACTICAL_EFFECT : float := flit 5 100.
Definition DEFAULT_POWER : float := flit 80 100.
Definition DEFAULT_ALPHA : float := flit 5 100.
Definition BOOTSTRAP_RESAMPLES : Z := 10000.
Definition BOOTSTRAP_SEED : Z := 20261015.
Definition PRIMARY_CONTRASTS : Z := 10.
Definition PRACTICAL_EFFECT_BY_METRIC : list (string * float) := [("latency_p99_ms", flit 20 100)].
Definition DESCRIPTIVE_WORKLOADS : list string := ["mixed-http-ffmpeg"].
Definition MIN_BLOCKS_FOR_VERDICT : Z := 3.
Definition LOWER_IS_BETTER : list string :=
  ["latency_p99_ms"; "latency_p50_ms"; "submit_to_scheduled_p99_ms"; "runqlat_p99_us"; "runqlen_p99"].

Definition practical_effect (metric : string) : float :=
  match List.find (fun p => String.eqb metric (fst p)) PRACTICAL_EFFECT_BY_METRIC with Some (_, x) => x | None => PRACTICAL_EFFECT end.
Definition is_descriptive (workload : string) : bool := mem_string workload DESCRIPTIVE_WORKLOADS.

(** ** Records *)

Record Observation : Type := {
  ob_block : string; ob_workload : string; ob_metric : string; ob_scheduler : string; ob_value : float; ob_direction : option string
}.
Record Verdict : Type := {
  vd_workload : string; vd_metric : string; vd_scheduler : string; vd_blocks : Z; vd_ratio : float;
  vd_ci_low : float; vd_ci_high : float; vd_bootstrap_low : float; vd_bootstrap_high : float;
  vd_decision : string; vd_effect : float; vd_descriptive : bool
}.
Record AnalysisResult : Type := { verdicts : list Verdict; skipped : list pydict }.

(** Groups of observations, the values of an arm by block, and the frozen counts: a
    dictionary by scenario and metric of any type, the latest entry first. *)
Abbreviation group_key := (string * string * option string)%type.
Abbreviation blocks_of := (list (string * float)).
Abbreviation by_scheduler := (list (string * blocks_of)).
Abbreviation frozen_counts := (list ((pyval * pyval) * Z)).

(** ** Quantiles *)

(** Acklam's coefficients. *)
Definition acklam_a : list float := [dec (-3969683028665376) (-14); dec 2209460984245205 (-13); dec (-2759285104469687) (-13);
  dec 1383577518672690 (-13); dec (-3066479806614716) (-14); dec 2506628277459239 (-15)].
Definition acklam_b : list float := [dec (-5447609879822406) (-14); dec 1615858368580409 (-13); dec (-1556989798598866) (-13);
  dec 6680131188771972 (-14); dec (-1328068155288572) (-14); one].
Definition acklam_c : list float := [dec (-7784894002430293) (-18); dec (-3223964580411365) (-16); dec (-2400758277161838) (-15);
  dec (-2549732539343734) (-15); dec 4374664141464968 (-15); dec 2938163982698783 (-15)].
Definition acklam_d : list float := [dec 7784695709041462 (-18); dec 3224671290700398 (-16); dec 2445134137142996 (-15);
  dec 3754408661907416 (-15); one].

Section Analysis.
Context `{L : Libm} `{P : Pow}.

Definition in_unit (p : float) : bool := fltb zero p && fltb p one.

Definition normal_ppf (p : float) : result float :=
  raise_if (negb (in_unit p)) ValueError "p must be in (0, 1)" ;;;
  let low := flit 2425 100000 in
  let high := fsub one low in
  if fltb p low then
    let* l := math_log p in
    let* q := math_sqrt (fmul (flit (-2) 1) l) in
    fdiv (horner acklam_c q) (horner acklam_d q)
  else if fltb high p then
    let* l := math_log (fsub one p) in
    let* q := math_sqrt (fmul (flit (-2) 1) l) in
    fdiv (fopp (horner acklam_c q)) (horner acklam_d q)
  else
    let q := fsub p half in
    let r := fmul q q in
    fdiv (fmul (horner acklam_a r) q) (horner acklam_b r).

Definition t_ppf (probability : float) (degrees_of_freedom : Z) : result float :=
  raise_if (negb (in_unit probability)) ValueError "probability must be in (0, 1)" ;;;
  raise_if (degrees_of_freedom <? 2) ValueError "Cornish-Fisher t approximation requires df >= 2" ;;;
  let* z := inv_cdf probability in
  let* d := float_of_Z degrees_of_freedom in
  let z2 := fmul z z in
  let z3 := fmul z2 z in
  let z5 := fmul z3 z2 in
  let z7 := fmul z5 z2 in
  let k (n : Z) (x : float) := fmul (flit n 1) x in
  let* t1 := fdiv (fadd z3 z) (k 4 d) in
  let* t2 := fdiv (fadd (fadd (k 5 z5) (k 16 z3)) (k 3 z)) (fmul (k 96 d) d) in
  let* t3 := fdiv (fsub (fadd (fadd (k 3 z7) (k 19 z5)) (k 17 z3)) (k 15 z)) (fmul (fmul (k 384 d) d) d) in
  Ok (fadd (fadd (fadd z t1) t2) t3).

(** ** The sample size

    [q] is the quantile function: [t_ppf], or that of the sibling module. *)

Section Quantile.
Variable q : float -> Z -> result float.

(** The count that [n] blocks would require. *)
Definition n_required (sd delta alpha power : float) (n : Z) : result float :=
  let* a2 := fdiv alpha two in
  let* t_alpha := q (fsub one a2) (n - 1) in
  let* t_beta := q power (n - 1) in
  let* x := fdiv (fmul (fadd t_alpha t_beta) sd) delta in
  py_pow x 2.
(** [turns]: how often [n] may still grow. *)
Fixpoint required_loop (sd delta alpha power : float) (max_n : Z) (turns : nat) (n : Z) : result Z :=
  match turns with
  | O => Raise (Exn ValueError ("required paired blocks exceed " +:+ str_of_Z max_n +:+
           "; the effect is too small for this variance to be resolved, so the count is not silently capped"))
  | S turns =>
      let* required := n_required sd delta alpha power n in
      if fleb_Z required n then Ok n else required_loop sd delta alpha power max_n turns (n + 1)
  end.
Definition required_n_paired (sd practical_effect alpha power : float) (max_n : Z) : result Z :=
  if fleb sd zero then Ok MIN_BLOCKS_FOR_VERDICT
  else
    let* delta := math_log (fadd one practical_effect) in
    required_loop sd delta alpha power max_n (Z.to_nat (max_n + 1 - MIN_BLOCKS_FOR_VERDICT)) MIN_BLOCKS_FOR_VERDICT.
End Quantile.

(** ** Reading the blocks *)

(** [(row.get(k) or "").strip() or None] *)
Definition optional_text (k : string) (row : csv_row) : option string :=
  match row_get k row with
  | Some (Some s) => let t := strip s in if is_empty t then None else Some t
  | _ => None
  end.
(** [row[k].strip()] *)
Definition stripped (k : string) (row : csv_row) : result string :=
  match row_get k row with
  | Some (Some s) => Ok (strip s)
  | Some None => Raise (Exn AttributeError "'NoneType' object has no attribute 'strip'")
  | None => Raise (Exn KeyError (repr_str k))
  end.
(** [float(row[k])] *)
Definition number (k : string) (row : csv_row) : result float :=
  match row_get k row with
  | Some (Some s) => float_of_val (VStr s)
  | Some None => float_of_val VNone
  | None => Raise (Exn KeyError (repr_str k))
  end.

Definition valid_direction (d : option string) : bool :=
  match d with None => true | Some d => mem_string d ["lower-is-better"; "higher-is-better"] end.
Definition REQUIRED_COLUMNS : list string := ["block_id"; "scheduler"; "workload"; "metric"; "value"].

Definition direction_of (path : string) (row : csv_row) : result (option string) :=
  let d := optional_text "direction" row in
  raise_if (negb (valid_direction d)) ValueError
    (path +:+ ": invalid direction: " +:+ match d with Some d => repr_str d | None => "None" end) ;;;
  Ok d.
Definition observation_of (path : string) (row : csv_row) : result Observation :=
  let* direction := direction_of path row in
  let* block := stripped "block_id" row in
  let* workload := stripped "workload" row in
  let* metric := stripped "metric" row in
  let* scheduler := stripped "scheduler" row in
  let* value := number "value" row in
  Ok {| ob_block := block; ob_workload := workload; ob_metric := metric; ob_scheduler := scheduler; ob_value := value;
        ob_direction := direction |}.

(** The rows of a [csv.DictReader] with the required columns, each read by
    [parse]; an error of the reader comes after the rows before it. *)
Definition missing_columns (path : string) (names : list string) : result unit :=
  match List.filter (fun c => negb (mem_string c names)) REQUIRED_COLUMNS with
  | [] => Ok tt
  | missing => Raise (Exn ValueError (path +:+ ": missing required column(s): " +:+
                                      py_repr (VList (VStr <$> sort_by String.leb missing))))
  end.
Definition read_table {A} (parse : csv_row -> result A) (path text : string) : result (list A) :=
  match csv_read false text with
  | ([], Some e) => Raise e
  | ([], None) => missing_columns path [] ;;; Ok []
  | (names :: rows, stop) =>
      missing_columns path names ;;;
      let* items := mapM parse (dict_rows names rows) in
      match stop with Some e => Raise e | None => Ok items end
  end.
Definition read_blocks (path text : string) : result (list Observation) := read_table (observation_of path) path text.

(** ** Ratios *)

Definition is_lower_better (metric : string) (direction : option string) : bool :=
  match direction with
  | Some d => if String.eqb d "lower-is-better" then true
              else if String.eqb d "higher-is-better" then false else mem_string metric LOWER_IS_BETTER
  | None => mem_string metric LOWER_IS_BETTER
  end.

Definition oriented_log_ratio (control arm : float) (lower_is_better : bool) : result float :=
  if fleb control zero || fleb arm zero then Raise (Exn ValueError "metric values must be strictly positive")
  else
    let* ratio := fdiv arm control in
    let* l := math_log ratio in
    Ok (if lower_is_better then fopp l else l).

(** The uncorrected reading of one interval. *)
Definition decision (ci_low_log ci_high_log point_log effect : float) : result string :=
  let* band := math_log (fadd one effect) in
  Ok (if fltb zero ci_low_log && fleb band point_log then "improvement"
      else if fltb ci_high_log zero && fleb point_log (fopp band) then "regression"
      else if fleb (fopp band) ci_low_log && fleb ci_high_log band then "equivalent"
      else "inconclusive").

(** ** Holm's correction *)

(** [sorted(range(n), key=lambda i: scores[i], reverse=True)] *)
Definition score_order (scores : list float) : list nat :=
  sort_by (fun i j => negb (fltb (value_at scores i) (value_at scores j))) (seq 0 (length scores)).

Section StepDown.
Variable q : float -> Z -> result float.

(** What the hypothesis at a position of the order must reach. *)
Definition critical_value (alpha : float) (sided m position df : Z) : result float :=
  let* k := float_of_Z (sided * (m - position + 1)) in
  let* adjusted := fdiv alpha k in
  q (fsub one adjusted) df.

Fixpoint step_down (scores : list float) (dfs : list Z) (alpha : float) (sided m position : Z) (order : list nat)
    (rejected : list bool) : result (list bool) :=
  match order with
  | [] => Ok rejected
  | index :: order =>
      let* critical := critical_value alpha sided m position (default 0 (dfs !! index)) in
      if fleb critical (value_at scores index)
      then step_down scores dfs alpha sided m (position + 1) order (<[index := true]> rejected)
      else Ok rejected
  end.
Definition holm_step_down (scores : list float) (dfs : list Z) (alpha : float) (sided : Z) (family_size : option Z) : result (list bool) :=
  let m := default (Z.of_nat (length scores)) family_size in
  step_down scores dfs alpha sided m 1 (score_order scores) (replicate (length scores) false).
End StepDown.

(** ** Contrasts *)

Record Contrast : Type := {
  ct_workload : string; ct_metric : string; ct_scheduler : string; ct_n : Z; ct_df : Z; ct_mean : float; ct_sd : float; ct_se : float;
  ct_t_two : float; ct_t_lower : float; ct_t_upper : float; ct_effect : float; ct_descriptive : bool; ct_incomplete : bool
}.
Definition is_tested (c : Contrast) : bool := negb (ct_descriptive c) && negb (ct_incomplete c).
Definition untested_decision (c : Contrast) : string :=
  if ct_incomplete c then "incomplete" else if ct_descriptive c then "descriptive" else "inconclusive".

(** The decision of a tested contrast, from the two corrected tests. *)
Definition corrected_decision (c : Contrast) (no_effect equivalent : bool) : result string :=
  let* band := math_log (fadd one (ct_effect c)) in
  Ok (if no_effect && fleb band (ct_mean c) then "improvement"
      else if no_effect && fleb (ct_mean c) (fopp band) then "regression"
      else if equivalent then "equivalent" else "inconclusive").

(** The decisions of the tested contrasts at their places. *)
Fixpoint place_decisions {C} (stat : C -> Contrast) (cs : list C) (rejects_no_effect rejects_tost : list bool) : result (list string) :=
  match cs with
  | [] => Ok []
  | c :: cs =>
      if is_tested (stat c) then
        let* d := corrected_decision (stat c) (default false (head rejects_no_effect)) (default false (head rejects_tost)) in
        let* ds := place_decisions stat cs (tail rejects_no_effect) (tail rejects_tost) in
        Ok (d :: ds)
      else
        let* ds := place_decisions stat cs rejects_no_effect rejects_tost in
        Ok (untested_decision (stat c) :: ds)
  end.

Definition abs_t (cs : list Contrast) : list float := (fun c => fabs (ct_t_two c)) <$> cs.
Definition tost_scores (cs : list Contrast) : list float := (fun c => fmin (ct_t_lower c) (fopp (ct_t_upper c))) <$> cs.

Definition holm_decisions (comparisons : list Contrast) (alpha : float) : result (list string) :=
  let tested := List.filter is_tested comparisons in
  match tested with
  | [] => Ok (untested_decision <$> comparisons)
  | _ =>
      let dfs := ct_df <$> tested in
      let* rejects_no_effect := holm_step_down t_ppf (abs_t tested) dfs alpha 2 (Some PRIMARY_CONTRASTS) in
      let* rejects_tost := holm_step_down t_ppf (tost_scores tested) dfs alpha 1 (Some PRIMARY_CONTRASTS) in
      place_decisions (fun c => c) comparisons rejects_no_effect rejects_tost
  end.

(** ** Observations by workload, metric and direction, scheduler and block *)


Definition group_step (grouped : list (group_key * by_scheduler)) (o : Observation) : result (list (group_key * by_scheduler)) :=
  let key := (ob_workload o, ob_metric o, ob_direction o) in
  let schedulers := default [] (assoc_get key grouped) in
  let blocks := default [] (assoc_get (ob_scheduler o) schedulers) in
  if assoc_has (ob_block o) blocks
  then Raise (Exn ValueError ("duplicate observation for block=" +:+ repr_str (ob_block o) +:+ " scheduler=" +:+ repr_str (ob_scheduler o) +:+
                              " metric=" +:+ repr_str (ob_metric o)))
  else Ok (assoc_set key (assoc_set (ob_scheduler o) (assoc_set (ob_block o) (ob_value o) blocks) schedulers) grouped).
Definition group_observations (observations : list Observation) : result (list (group_key * by_scheduler)) :=
  foldM group_step [] observations.

(** [sorted(items, key=lambda item: (item[0][0], item[0][1]))], and by name. *)
Definition key_order {V} (a b : group_key * V) : bool :=
  let '(w1, m1, _) := fst a in let '(w2, m2, _) := fst b in
  if String.eqb w1 w2 then String.leb m1 m2 else String.leb w1 w2.
Definition name_order {V} (a b : string * V) : bool := String.leb (fst a) (fst b).

(** [sorted(set(a) & set(b))] *)
Definition shared_blocks (a b : blocks_of) : list string := sort_by String.leb (List.filter (fun k => assoc_has k b) (fst <$> a)).

(** [d[k]] *)
Definition block_value (d : blocks_of) (k : string) : result float :=
  match assoc_get k d with Some x => Ok x | None => Raise (Exn KeyError (repr_str k)) end.
Definition paired_logs (control arm : blocks_of) (lower_is_better : bool) (shared : list string) : result (list float) :=
  mapM (fun b => let* c := block_value control b in let* a := block_value arm b in oriented_log_ratio c a lower_is_better) shared.

(** ** One contrast *)

(** The limit of [numerator / se] when nothing varies. *)
Definition t_of (se numerator : float) : result float :=
  if fltb zero se then fdiv numerator se
  else Ok (if fltb zero numerator then S754_infinity false else if fltb numerator zero then S754_infinity true else zero).

Definition contrast_of (workload metric scheduler : string) (logs : list float) (effect : float) (descriptive : bool) : result Contrast :=
  let n := Z.of_nat (length logs) in
  let* mean := fmean_any logs in
  let* sd := stdev logs in
  let* root := math_sqrt (flit n 1) in
  let* se := fdiv sd root in
  let* band_low := math_log (fsub one effect) in
  let* band_high := math_log (fadd one effect) in
  let* t_two := t_of se mean in
  let* t_lower := t_of se (fsub mean band_low) in
  let* t_upper := t_of se (fsub mean band_high) in
  Ok {| ct_workload := workload; ct_metric := metric; ct_scheduler := scheduler; ct_n := n; ct_df := n - 1; ct_mean := mean; ct_sd := sd;
        ct_se := se; ct_t_two := t_two; ct_t_lower := t_lower; ct_t_upper := t_upper; ct_effect := effect;
        ct_descriptive := descriptive; ct_incomplete := false |}.

(** [means[int(x)]] *)
Definition quantile_of (means : list float) (fraction : float) : result float :=
  at_floor means (fmul fraction (flit (Z.of_nat (length means) - 1) 1)).
Definition bootstrap `{Rng} (logs : list float) (resamples seed : Z) : result (list float) :=
  let* means := resample_means (randbelow seed) logs (Z.to_nat resamples) 0 in
  Ok (sort_by (fun a b => negb (fltb b a)) means).
Definition bootstrap_bounds (means : list float) : result (float * float) :=
  let* low := quantile_of means (flit 25 1000) in
  let* low := math_exp low in
  let* high := quantile_of means (flit 975 1000) in
  let* high := math_exp high in
  Ok (low, high).

(** The verdict of an unfinished scenario. *)
Definition incomplete_verdict (workload metric scheduler : string) (logs : list float) (effect : float) (descriptive : bool) : result Verdict :=
  let* mean := fmean_any logs in
  let* ratio := math_exp mean in
  Ok {| vd_workload := workload; vd_metric := metric; vd_scheduler := scheduler; vd_blocks := Z.of_nat (length logs); vd_ratio := ratio;
        vd_ci_low := S754_nan; vd_ci_high := S754_nan; vd_bootstrap_low := S754_nan; vd_bootstrap_high := S754_nan;
        vd_decision := "incomplete"; vd_effect := effect; vd_descriptive := descriptive |}.

(** The verdict of a contrast, with its bootstrap bounds and decision. *)
Definition verdict_of (q : float -> Z -> result float) (alpha : float) (c : Contrast) (boot : float * float) (d : string) : result Verdict :=
  let* a2 := fdiv alpha two in
  let* t := q (fsub one a2) (ct_df c) in
  let half_width := fmul t (ct_se c) in
  let* ratio := math_exp (ct_mean c) in
  let* low := math_exp (fsub (ct_mean c) half_width) in
  let* high := math_exp (fadd (ct_mean c) half_width) in
  Ok {| vd_workload := ct_workload c; vd_metric := ct_metric c; vd_scheduler := ct_scheduler c; vd_blocks := ct_n c; vd_ratio := ratio;
        vd_ci_low := low; vd_ci_high := high; vd_bootstrap_low := fst boot; vd_bootstrap_high := snd boot;
        vd_decision := d; vd_effect := ct_effect c; vd_descriptive := ct_descriptive c |}.

(** ** The analysis *)

Definition wanted (required : frozen_counts) (workload metric : string) : option Z :=
  snd <$> List.find (fun e => py_eq (fst (fst e)) (VStr workload) && py_eq (snd (fst e)) (VStr metric)) required.
Definition falls_short (required : frozen_counts) (workload metric : string) (n : nat) : bool :=
  match wanted required workload metric with Some k => Z.of_nat n <? k | None => false end.

(** What the first pass leaves: verdicts of unfinished scenarios, skipped
    comparisons, contrasts with their bootstrap bounds. *)
Record pass : Type := { ps_verdicts : list Verdict; ps_skipped : list pydict; ps_stats : list (Contrast * (float * float)) }.
Definition skip (entry : pydict) (p : pass) : pass :=
  {| ps_verdicts := ps_verdicts p; ps_skipped := (ps_skipped p ++ [entry])%list; ps_stats := ps_stats p |}.
Definition too_few (workload metric scheduler : string) (n : nat) : pydict :=
  [("workload", VStr workload); ("metric", VStr metric); ("scheduler", VStr scheduler);
   ("reason", VStr ("fewer than " +:+ str_of_Z MIN_BLOCKS_FOR_VERDICT +:+ " paired blocks")); ("shared_blocks", VInt (Z.of_nat n))].
Definition no_control (workload metric : string) : pydict :=
  [("workload", VStr workload); ("metric", VStr metric); ("reason", VStr "no control arm")].

Section Passes.
Context `{Rng}.
Variables (required : frozen_counts) (resamples seed : Z).

Definition compare_arm (workload metric : string) (lower : bool) (control : blocks_of) (p : pass) (arm : string * blocks_of) : result pass :=
  let '(scheduler, values) := arm in
  if String.eqb scheduler CONTROL_SCHEDULER then Ok p
  else
    let shared := shared_blocks control values in
    if Z.of_nat (length shared) <? MIN_BLOCKS_FOR_VERDICT then Ok (skip (too_few workload metric scheduler (length shared)) p)
    else
      let* logs := paired_logs control values lower shared in
      let effect := practical_effect metric in
      if falls_short required workload metric (length logs) then
        let* v := incomplete_verdict workload metric scheduler logs effect (is_descriptive workload) in
        Ok {| ps_verdicts := (ps_verdicts p ++ [v])%list; ps_skipped := ps_skipped p; ps_stats := ps_stats p |}
      else
        let* c := contrast_of workload metric scheduler logs effect (is_descriptive workload) in
        let* means := bootstrap logs resamples seed in
        let* bounds := bootstrap_bounds means in
        Ok {| ps_verdicts := ps_verdicts p; ps_skipped := ps_skipped p; ps_stats := (ps_stats p ++ [(c, bounds)])%list |}.

Definition compare_group (p : pass) (g : group_key * by_scheduler) : result pass :=
  let '(workload, metric, direction, schedulers) := g in
  match assoc_get CONTROL_SCHEDULER schedulers with
  | None | Some [] => Ok (skip (no_control workload metric) p)
  | Some control => foldM (compare_arm workload metric (is_lower_better metric direction) control) p (sort_by name_order schedulers)
  end.
Definition first_pass (observations : list Observation) : result pass :=
  let* grouped := group_observations observations in
  foldM compare_group {| ps_verdicts := []; ps_skipped := []; ps_stats := [] |} (sort_by key_order grouped).

Fixpoint second_pass (alpha : float) (stats : list (Contrast * (float * float))) (decisions : list string) : result (list Verdict) :=
  match stats, decisions with
  | (c, boot) :: stats, d :: decisions =>
      let* v := verdict_of t_ppf alpha c boot d in
      let* vs := second_pass alpha stats decisions in
      Ok (v :: vs)
  | _, _ => Ok []
  end.

Definition analyse (observations : list Observation) (alpha : float) : result AnalysisResult :=
  let* p := first_pass observations in
  let* decisions := holm_decisions (fst <$> ps_stats p) alpha in
  let* vs := second_pass alpha (ps_stats p) decisions in
  Ok {| verdicts := (ps_verdicts p ++ vs)%list; skipped := ps_skipped p |}.
End Passes.
End Analysis.

(** ** The summaries *)

Definition SUMMARY_COLUMNS : list string :=
  ["workload"; "metric"; "scheduler"; "blocks"; "geometric_mean_ratio"; "ci_low"; "ci_high"; "bootstrap_low"; "bootstrap_high";
   "decision"; "effect"; "descriptive"].
Definition verdict_cells (v : Verdict) : list string :=
  [vd_workload v; vd_metric v; vd_scheduler v; str_of_Z (vd_blocks v); format_f 6 (vd_ratio v); format_f 6 (vd_ci_low v);
   format_f 6 (vd_ci_high v); format_f 6 (vd_bootstrap_low v); format_f 6 (vd_bootstrap_high v); vd_decision v; format_f 2 (vd_effect v);
   if vd_descriptive v then "yes" else "no"].
Definition summary_csv (r : AnalysisResult) : string := csv_write_lf (SUMMARY_COLUMNS :: (verdict_cells <$> verdicts r)).

Definition round6 (x : float) : pyval := VFloat (round_digits 6 x).
Definition verdict_items (v : Verdict) : pydict :=
  [("workload", VStr (vd_workload v)); ("metric", VStr (vd_metric v)); ("scheduler", VStr (vd_scheduler v)); ("blocks", VInt (vd_blocks v));
   ("geometric_mean_ratio", round6 (vd_ratio v)); ("ci_low", round6 (vd_ci_low v)); ("ci_high", round6 (vd_ci_high v));
   ("bootstrap_low", round6 (vd_bootstrap_low v)); ("bootstrap_high", round6 (vd_bootstrap_high v)); ("decision", VStr (vd_decision v));
   ("effect", VFloat (vd_effect v)); ("descriptive", VBool (vd_descriptive v))].
Definition strings (l : list string) : pyval := VList (VStr <$> l).
Definition payload (r : AnalysisResult) : pydict :=
  [("schema_version", VInt 2); ("control_scheduler", VStr CONTROL_SCHEDULER); ("practical_effect", VFloat PRACTICAL_EFFECT);
   ("practical_effect_by_metric", VDict ((fun p => (fst p, VFloat (snd p))) <$> PRACTICAL_EFFECT_BY_METRIC));
   ("descriptive_workloads", strings DESCRIPTIVE_WORKLOADS); ("min_blocks_for_verdict", VInt MIN_BLOCKS_FOR_VERDICT);
   ("primary_contrasts", VInt PRIMARY_CONTRASTS); ("multiplicity", VStr "holm step-down over the predeclared family");
   ("lower_is_better_fallback", strings (sort_by String.leb LOWER_IS_BETTER)); ("bootstrap_resamples", VInt BOOTSTRAP_RESAMPLES);
   ("bootstrap_seed", VInt BOOTSTRAP_SEED); ("verdicts", VList ((fun v => VDict (verdict_items v)) <$> verdicts r));
   ("skipped", VList (VDict <$> skipped r))].
Definition summary_json (r : AnalysisResult) : string := json_indent false (VDict (payload r)) +:+ newline.

(** ** The program *)

Definition hashable_value (v : pyval) : result pyval :=
  match v with
  | VList _ => Raise (Exn TypeError "unhashable type: 'list'")
  | VDict _ => Raise (Exn TypeError "unhashable type: 'dict'")
  | _ => Ok v
  end.
(** An entry with a count: [required[(scenario, metric)] = int(frozen)]. *)
Definition frozen_entry (required : frozen_counts) (entry : pyval) : result frozen_counts :=
  let* frozen := attr_get "confirmatory_blocks" entry in
  if truthy frozen then
    let* n := int_of_val frozen in
    let* s := py_index "scenario" entry in
    let* m := py_index "metric" entry in
    let* s := hashable_value s in
    let* m := hashable_value m in
    Ok (((s, m), n) :: required)
  else Ok required.
Definition frozen_counts_of (text : string) : result frozen_counts :=
  let* record := json_loads text in
  let* scenarios := attr_get_or "scenarios" (VList []) record in
  let* entries := py_iter scenarios in
  foldM frozen_entry [] entries.

Record analysis_args : Type := { an_blocks : string; an_output_dir : string; an_sample_size : option string }.

Section Program.
Context `{L : Libm} `{P : Pow} `{R : Rng} `{E : Env}.

Definition parent_dir (path : string) : string := join "/" (let parts := split_on "/" path in take (length parts - 1) parts).
(** The record of the frozen counts: the argument, else the one beside the data. *)
Definition sample_size_path (args : analysis_args) : M (option string) :=
  match an_sample_size args with
  | Some path => ret (Some path)
  | None =>
      let! blocks := perform (Resolve (an_blocks args)) in
      let beside := parent_dir (parent_dir blocks) +:+ "/sample-size.json" in
      let! there := perform (IsFile beside) in
      ret (if there then Some beside else None)
  end.
Definition frozen_required (args : analysis_args) : M frozen_counts :=
  let! path := sample_size_path args in
  match path with
  | None => ret []
  | Some path =>
      let! there := perform (IsFile path) in
      if there then let! text := perform (ReadText path) in lift (frozen_counts_of text) else ret []
  end.

Definition analysis_main (args : analysis_args) : M Z :=
  let! text := perform (ReadText (an_blocks args)) in
  let! observations := lift (read_blocks (an_blocks args) text) in
  let! required := frozen_required args in
  let! r := lift (analyse required BOOTSTRAP_RESAMPLES BOOTSTRAP_SEED observations DEFAULT_ALPHA) in
  perform (MakeDirs (an_output_dir args)) >>>
  perform (WriteText (an_output_dir args +:+ "/summary.csv") (summary_csv r)) >>>
  perform (WriteText (an_output_dir args +:+ "/summary.json") (summary_json r)) >>>
  forM (skipped r) (fun entry => perform (Log ("skipped: " +:+ py_repr (VDict entry)))) >>>
  match verdicts r with
  | [] => perform (Log "ERROR: no comparable paired blocks produced a verdict (see skipped entries above)") >>> ret 1
  | _ => ret 0
  end.
End Program.
