(* ===== verification/StepDown.v ===== *)
(** Holm's step-down correction of the scheduler analyses ([step_down] of
    [SchedAnalysis.v]): which hypotheses are rejected, and that leaving out a
    contrast does not help the others.  The family size is planned, so that it
    does not shrink with the data. *)

From Stdlib Require Import ZArith Bool Ascii String Lia SpecFloat Sorted.
From stdpp Require Import base list strings option.
From S2P Require Import Prelude PyStr PyFloat Stats StatsThm PyNormal SchedAnalysis.

Open Scope string_scope.
Open Scope Z_scope.

(** ** Floats that are no NaN *)

Lemma fle_trans x y z : fleb x y = true -> fleb y z = true -> fleb x z = true.
Proof.
  intros H1 H2.
  assert (is_nan x = false /\ is_nan y = false /\ is_nan z = false) as (Hx & Hy & Hz).
  { unfold fleb, SFleb in H1, H2. destruct (SFcompare x y) eqn:E1; [|done]. destruct (SFcompare y z) eqn:E2; [|done].
    destruct (is_nan x) eqn:Ex; [by rewrite (proj2 (fcompare_None x y)) in E1 by (by rewrite Ex)|].
    destruct (is_nan y) eqn:Ey; [by rewrite (proj2 (fcompare_None x y)) in E1 by (by rewrite Ex, Ey)|].
    destruct (is_nan z) eqn:Ez; [by rewrite (proj2 (fcompare_None y z)) in E2 by (by rewrite Ey, Ez)|]. done. }
  apply not_flt_fle; [done..|]. apply not_flt_fle in H1, H2; try done.
  destruct (fltb z x) eqn:E; [|done]. destruct (flt_weak_trans z y x) as [|]; try done; congruence.
Qed.

(** ** The order of the scores *)

Section Order.
Context (scores : list float) (Hnan : Forall (fun x => is_nan x = false) scores).
#[local] Notation v := (value_at scores).

Lemma score_leb_total i j : negb (fltb (v i) (v j)) = true \/ negb (fltb (v j) (v i)) = true.
Proof. destruct (fltb (v i) (v j)) eqn:E; [|by left]. right. apply flt_not_eq in E as [_ ->]. done. Qed.
Lemma score_leb_trans i j k : negb (fltb (v i) (v j)) = true -> negb (fltb (v j) (v k)) = true -> negb (fltb (v i) (v k)) = true.
Proof.
  rewrite !negb_true_iff. intros H1 H2. destruct (fltb (v i) (v k)) eqn:E; [|done].
  destruct (flt_weak_trans (v i) (v j) (v k)) as [|]; try apply value_not_nan; try done; congruence.
Qed.
Lemma score_order_sorted : StronglySorted (fun i j => negb (fltb (v i) (v j)) = true) (score_order scores).
Proof. apply sort_by_sorted; [exact score_leb_total|exact score_leb_trans]. Qed.
End Order.

Lemma score_order_perm scores : score_order scores ≡ₚ seq 0 (length scores).
Proof. apply sort_by_perm. Qed.
Lemma score_order_elem scores i : i ∈ score_order scores <-> (i < length scores)%nat.
Proof. rewrite score_order_perm, elem_of_seq. lia. Qed.

(** ** The prefix that passes *)

Section Passing.
Context {A : Type} (ok : Z -> A -> bool).
Fixpoint passing (position : Z) (l : list A) : list A :=
  match l with
  | [] => []
  | x :: l => if ok position x then x :: passing (position + 1) l else []
  end.

Lemma passing_elem i : forall l p, i ∈ passing p l <->
  exists k, l !! k = Some i /\ forall j y, (j <= k)%nat -> l !! j = Some y -> ok (p + Z.of_nat j) y = true.
Proof.
  induction l as [|x l IH]; intros p; cbn [passing].
  - split; [by intros []%not_elem_of_nil|by intros (k & Hk & _)].
  - destruct (ok p x) eqn:E.
    + rewrite list.elem_of_cons, IH. split.
      * intros [->|(k & Hk & Hok)].
        -- exists 0%nat. split; [done|]. intros [|j] y Hj; [|lia]. intros [= <-]. by rewrite Z.add_0_r.
        -- exists (S k). split; [done|]. intros [|j] y Hj Hy; [injection Hy as <-; by rewrite Z.add_0_r|].
           replace (p + Z.of_nat (S j)) with (p + 1 + Z.of_nat j) by lia. apply Hok; [lia|done].
      * intros ([|k] & Hk & Hok); [left; by injection Hk|]. right. exists k. split; [done|]. intros j y Hj Hy.
        replace (p + 1 + Z.of_nat j) with (p + Z.of_nat (S j)) by lia. apply Hok; [lia|done].
    + split; [by intros []%not_elem_of_nil|]. intros (k & _ & Hok). specialize (Hok 0%nat x (Nat.le_0_l _) eq_refl).
      rewrite Z.add_0_r in Hok. congruence.
Qed.

Hypothesis eases : forall p y, ok p y = true -> ok (p + 1) y = true.

(** The elements that pass do so with one more before them, if that passes
    wherever they do. *)
Lemma passing_later l : forall p i, i ∈ passing p l -> i ∈ passing (p + 1) l.
Proof.
  induction l as [|x l IH]; intros p i; cbn [passing]; [done|]. destruct (ok p x) eqn:E; [|by intros []%not_elem_of_nil].
  rewrite (eases _ _ E), !list.elem_of_cons. intros [->|H]; [by left|right; by apply IH].
Qed.
Lemma passing_insert x l2 : (forall p y, y ∈ l2 -> ok p y = true -> ok p x = true) ->
  forall l1 p i, i ∈ passing p (l1 ++ l2) -> i ∈ passing p (l1 ++ x :: l2).
Proof.
  intros Hx. induction l1 as [|y l1 IH]; intros p i; cbn [passing app].
  - destruct l2 as [|y l2]; [by intros []%not_elem_of_nil|]. intros Hi. cbn [passing] in Hi.
    destruct (ok p y) eqn:E; [|by apply not_elem_of_nil in Hi].
    rewrite (Hx p y) by (done || by left). apply list.elem_of_cons. right. apply passing_later. cbn [passing]. by rewrite E.
  - destruct (ok p y); [|done]. rewrite !list.elem_of_cons. intros [->|H]; [by left|right; by apply IH].
Qed.
End Passing.

Lemma passing_map {A B} (ok : Z -> B -> bool) (f : A -> B) l : forall p,
  passing ok p (f <$> l) = f <$> passing (fun p x => ok p (f x)) p l.
Proof. induction l as [|x l IH]; intros p; [done|]. cbn [fmap list_fmap passing]. destruct (ok p (f x)); cbn [fmap list_fmap]; [by rewrite <- IH|done]. Qed.
Lemma passing_ext {A} (ok ok' : Z -> A -> bool) l : forall p,
  (forall k x, (k < length l)%nat -> x ∈ l -> ok (p + Z.of_nat k) x = ok' (p + Z.of_nat k) x) -> passing ok p l = passing ok' p l.
Proof.
  induction l as [|x l IH]; intros p H; [done|]. cbn [passing]. assert (ok p x = ok' p x) as ->.
  { specialize (H 0%nat x (Nat.lt_0_succ _) (list_elem_of_here _ _)). by rewrite Z.add_0_r in H. }
  destruct (ok' p x); [|done]. f_equal. apply IH. intros k y Hk Hy. replace (p + 1 + Z.of_nat k) with (p + Z.of_nat (S k)) by lia.
  apply H; [cbn; lia|by right].
Qed.

(** ** What is rejected *)

Section Rejected.
Variables (q : float -> Z -> result float) (alpha : float) (sided m : Z).

(** A score reaches the quantile for its position, the [k]-th of [m]. *)
Definition reaches (k df : Z) (score : float) : bool :=
  match (let* n := float_of_Z (sided * (m - k + 1)) in let* adjusted := fdiv alpha n in q (fsub one adjusted) df) with
  | Ok critical => fleb critical score
  | Raise _ => false
  end.

Lemma step_down_passing scores dfs order : forall position rejected r,
  Forall (fun i => (i < length rejected)%nat) order ->
  step_down q scores dfs alpha sided m position order rejected = Ok r ->
  length r = length rejected /\
  forall i, r !! i = Some true <->
    i ∈ passing (fun k i => reaches k (default 0 (dfs !! i)) (value_at scores i)) position order \/ rejected !! i = Some true.
Proof.
  induction order as [|i order IH]; intros position rejected r Hin; cbn [step_down passing].
  - intros <-%Ok_inj. split; [done|]. intros i. split; [by right|]. by intros [[]%not_elem_of_nil|].
  - apply Forall_cons_iff in Hin as [Hi Hin]. intros (critical & Hc & H)%rbind_Ok.
    assert (reaches position (default 0 (dfs !! i)) (value_at scores i) = fleb critical (value_at scores i)) as ->
      by (unfold reaches, critical_value in *; by rewrite Hc).
    destruct (fleb critical (value_at scores i)).
    + apply IH in H as [Hl Hr]; [|by rewrite length_insert].
      rewrite length_insert in Hl. split; [done|]. intros j. rewrite Hr, list.elem_of_cons.
      destruct (decide (j = i)) as [->|Hne]; [rewrite list_lookup_insert_eq by done|rewrite list_lookup_insert_ne by done]; tauto.
    + apply Ok_inj in H as <-. split; [done|]. intros j. split; [by right|]. by intros [[]%not_elem_of_nil|].
Qed.

Definition rejected_by (scores : list float) (dfs : list Z) (i : nat) : Prop :=
  i ∈ passing (fun k i => reaches k (default 0 (dfs !! i)) (value_at scores i)) 1 (score_order scores).

Lemma holm_rejected scores dfs r : holm_step_down q scores dfs alpha sided (Some m) = Ok r ->
  length r = length scores /\ forall i, r !! i = Some true <-> rejected_by scores dfs i.
Proof.
  unfold holm_step_down. cbn [default]. intros H. apply step_down_passing in H as [Hl Hr].
  - rewrite length_replicate in Hl. split; [done|]. intros i. rewrite Hr. unfold rejected_by. split; [|by left].
    intros [|[? _]%lookup_replicate]; done.
  - apply List.Forall_forall. intros i Hi%list_elem_of_In. rewrite length_replicate. by apply score_order_elem.
Qed.
End Rejected.

(** ** The correction *)

(** C17: Holm's correction.  The correction over a planned family returns one
    flag per score; a hypothesis is rejected exactly if it and every one that is
    at least as extreme in the (stable, descending) order reaches the critical
    value of its place, the quantile at [1 - alpha / (sided * (m - k + 1))] for
    the [k]-th place. *)
Theorem holm_step_down_sound q scores dfs alpha sided m r :
  Forall (fun x => is_nan x = false) scores ->
  holm_step_down q scores dfs alpha sided (Some m) = Ok r ->
  exists order, order ≡ₚ seq 0 (length scores) /\
    StronglySorted (fun i j => negb (fltb (value_at scores i) (value_at scores j)) = true) order /\
    length r = length scores /\
    forall i, r !! i = Some true <->
      exists k, order !! k = Some i /\
        forall j y, (j <= k)%nat -> order !! j = Some y ->
          reaches q alpha sided m (Z.of_nat j + 1) (default 0 (dfs !! y)) (value_at scores y) = true.
Proof.
  intros Hnan [Hl Hr]%holm_rejected. exists (score_order scores). split; [apply score_order_perm|]. split; [|split; [done|]].
  - by apply score_order_sorted.
  - intros i. rewrite Hr. unfold rejected_by. rewrite passing_elem.
    split; intros (k & Hk & H); exists k; (split; [done|]); intros j y Hj Hy; specialize (H j y Hj Hy);
      [rewrite Z.add_comm|rewrite Z.add_comm in H]; exact H.
Qed.

Definition critical_at (q : float -> Z -> result float) (alpha : float) (sided m df k : Z) : result float :=
  let* n := float_of_Z (sided * (m - k + 1)) in
  let* adjusted := fdiv alpha n in
  q (fsub one adjusted) df.
Definition family_eases (q : float -> Z -> result float) (alpha : float) (sided m df : Z) : Prop :=
  forall k c, 1 <= k < m -> critical_at q alpha sided m df k = Ok c ->
    exists c', critical_at q alpha sided m df (k + 1) = Ok c' /\ fleb c' c = true.

(** The place of an index when one more score is put at place [at]. *)
Definition shifted (at_ i : nat) : nat := if (i <? at_)%nat then i else S i.

Lemma shifted_value (s1 s2 : list float) x i : value_at (s1 ++ s2) i = value_at (s1 ++ x :: s2) (shifted (length s1) i).
Proof.
  unfold value_at, shifted. destruct (Nat.ltb_spec i (length s1)) as [H|H].
  - by rewrite !lookup_app_l by done.
  - rewrite !lookup_app_r by lia. by replace (S i - length s1)%nat with (S (i - length s1)) by lia.
Qed.
Lemma shifted_seq a n : (a <= n)%nat -> shifted a <$> seq 0 n = List.filter (fun i => negb (Nat.eqb i a)) (seq 0 (S n)).
Proof.
  intros H. replace n with (a + (n - a))%nat at 1 by lia. replace (S n) with (a + S (n - a))%nat by lia.
  rewrite !seq_app, fmap_app, List.filter_app. f_equal; cbn [Nat.add seq List.filter].
  - rewrite filter_all.
    + rewrite <- (list_fmap_id (seq 0 a)) at 2. apply list_fmap_ext. intros k i [-> Hi]%lookup_seq. unfold shifted.
      by rewrite (proj2 (Nat.ltb_lt _ _)) by lia.
    + apply List.Forall_forall. intros i [_ Hi]%in_seq. rewrite (proj2 (Nat.eqb_neq i a)) by lia. done.
  - rewrite Nat.eqb_refl. cbn [negb]. rewrite filter_all.
    + rewrite <- (fmap_S_seq a). apply list_fmap_ext. intros k i [-> Hi]%lookup_seq. unfold shifted.
      by rewrite (proj2 (Nat.ltb_ge _ _)) by lia.
    + apply List.Forall_forall. intros i [Hi _]%in_seq. rewrite (proj2 (Nat.eqb_neq i a)) by lia. done.
Qed.

Lemma sort_by_map {A B} (leb : B -> B -> bool) (f : A -> B) l : sort_by leb (f <$> l) = f <$> sort_by (fun a b => leb (f a) (f b)) l.
Proof.
  assert (forall x l, insert_sorted leb (f x) (f <$> l) = f <$> insert_sorted (fun a b => leb (f a) (f b)) x l) as Hi.
  { intros x k. induction k as [|y k IH]; [done|]. cbn [fmap list_fmap insert_sorted]. destruct (leb (f x) (f y)); [done|].
    cbn [fmap list_fmap]. by rewrite <- IH. }
  induction l as [|x l IH]; [done|]. cbn [fmap list_fmap sort_by foldr]. fold (sort_by leb (f <$> l)). by rewrite IH, Hi.
Qed.
Lemma sort_by_leb_ext {A} (leb leb' : A -> A -> bool) l : (forall a b, leb a b = leb' a b) -> sort_by leb l = sort_by leb' l.
Proof.
  intros H. assert (forall x l, insert_sorted leb x l = insert_sorted leb' x l) as Hi.
  { intros x k. induction k as [|y k IH]; [done|]. cbn [insert_sorted]. rewrite H. destruct (leb' x y); [done|by rewrite IH]. }
  induction l as [|x l IH]; [done|]. cbn [sort_by foldr]. fold (sort_by leb l). by rewrite IH, Hi.
Qed.

(** The order without a score is the order with it, left out. *)
Lemma score_order_drop s1 x s2 : Forall (fun x => is_nan x = false) (s1 ++ x :: s2) ->
  shifted (length s1) <$> score_order (s1 ++ s2) = List.filter (fun i => negb (Nat.eqb i (length s1))) (score_order (s1 ++ x :: s2)).
Proof.
  intros Hnan. unfold score_order at 2. rewrite filter_sort_by by (intros *; by first [apply score_leb_total|apply score_leb_trans]).
  rewrite length_app. cbn [length]. rewrite Nat.add_succ_r, <- shifted_seq by lia. rewrite sort_by_map. f_equal.
  unfold score_order. rewrite length_app. apply sort_by_leb_ext. intros i j. by rewrite !(shifted_value s1 s2 x).
Qed.

Section LeaveOut.
Variables (q : float -> Z -> result float) (alpha : float) (sided m df : Z).
Hypothesis Heases : family_eases q alpha sided m df.

Lemma reaches_critical k s : reaches q alpha sided m k df s = true <-> exists c, critical_at q alpha sided m df k = Ok c /\ fleb c s = true.
Proof.
  unfold reaches. fold (critical_at q alpha sided m df k). destruct (critical_at q alpha sided m df k) as [c|e].
  - split; [by eauto|]. by intros (c' & <-%Ok_inj & ?).
  - by split; [|intros (? & ? & _)].
Qed.
Lemma reaches_above k s s' : reaches q alpha sided m k df s = true -> fleb s s' = true -> reaches q alpha sided m k df s' = true.
Proof. rewrite !reaches_critical. intros (c & Hc & Hs) Hle. exists c. split; [done|]. by eapply fle_trans. Qed.
Lemma reaches_next k s : 1 <= k < m -> reaches q alpha sided m k df s = true -> reaches q alpha sided m (k + 1) df s = true.
Proof.
  intros Hk. rewrite !reaches_critical. intros (c & Hc & Hs). destruct (Heases _ _ Hk Hc) as (c' & Hc' & Hle). exists c'.
  split; [done|]. by eapply fle_trans.
Qed.

(** The places of the family: beyond its ends, those at its ends. *)
Definition place (k : Z) : Z := Z.max 1 (Z.min k m).

Lemma rejected_placed scores dfs i : Z.of_nat (length scores) <= m -> dfs = replicate (length scores) df ->
  rejected_by q alpha sided m scores dfs i <->
  i ∈ passing (fun k i => reaches q alpha sided m (place k) df (value_at scores i)) 1 (score_order scores).
Proof.
  intros Hm ->. unfold rejected_by. erewrite passing_ext; [done|]. intros k j Hk Hj.
  assert (length (score_order scores) = length scores) as El by (rewrite score_order_perm; apply length_seq).
  rewrite El in Hk. apply score_order_elem in Hj. cbn beta. rewrite lookup_replicate_2 by done. cbn [default].
  unfold place. by replace (Z.max 1 (Z.min (1 + Z.of_nat k) m)) with (1 + Z.of_nat k) by lia.
Qed.

Lemma left_out_rejected s1 x s2 i : Forall (fun x => is_nan x = false) (s1 ++ x :: s2) -> Z.of_nat (length (s1 ++ x :: s2)) <= m ->
  rejected_by q alpha sided m (s1 ++ s2) (replicate (length (s1 ++ s2)) df) i ->
  rejected_by q alpha sided m (s1 ++ x :: s2) (replicate (length (s1 ++ x :: s2)) df) (shifted (length s1) i).
Proof.
  intros Hnan Hm. pose proof Hm as Hm'. rewrite length_app in Hm'. cbn [length] in Hm'.
  assert (Z.of_nat (length (s1 ++ s2)) <= m) as Hm2 by (rewrite length_app; lia).
  rewrite !rejected_placed by done. intros Hi.
  apply (list_elem_of_fmap_2 (shifted (length s1))) in Hi.
  rewrite (passing_ext _ (fun k j => reaches q alpha sided m (place k) df (value_at (s1 ++ x :: s2) (shifted (length s1) j)))) in Hi
    by (intros k j _ _; by rewrite (shifted_value s1 s2 x)).
  rewrite <- (passing_map (fun k j => reaches q alpha sided m (place k) df (value_at (s1 ++ x :: s2) j))), (score_order_drop s1 x s2) in Hi by done.
  pose proof (score_order_sorted _ Hnan) as Hs. pose proof (score_order_perm (s1 ++ x :: s2)) as Hp.
  assert (length s1 ∈ score_order (s1 ++ x :: s2)) as (A & B & EO)%list_elem_of_split
    by (apply score_order_elem; rewrite length_app; cbn; lia).
  rewrite EO in Hi, Hs, Hp |- *. assert (NoDup (A ++ length s1 :: B)) as Hnd by (rewrite Hp; apply NoDup_seq).
  apply list.NoDup_app in Hnd as (_ & HA & [HB _]%list.NoDup_cons). rewrite List.filter_app in Hi. cbn [List.filter] in Hi.
  rewrite Nat.eqb_refl in Hi. cbn [negb] in Hi. rewrite !filter_all in Hi.
  - apply passing_insert; [| |exact Hi].
    + intros k y Hk. unfold place in *. destruct (decide (Z.max 1 (Z.min (k + 1) m) = Z.max 1 (Z.min k m))) as [->|Hne]; [done|].
      replace (Z.max 1 (Z.min (k + 1) m)) with (Z.max 1 (Z.min k m) + 1) by lia. apply reaches_next; [lia|done].
    + intros k y Hy Hk. apply sorted_split in Hs as [_ Hs]. rewrite List.Forall_forall in Hs. apply list_elem_of_In in Hy.
      specialize (Hs _ Hy). apply negb_true_iff in Hs. eapply reaches_above; [exact Hk|].
      apply not_flt_fle; [by apply value_not_nan..|done].
  - apply List.Forall_forall. intros y Hy%list_elem_of_In. apply negb_true_iff, Nat.eqb_neq. intros ->. done.
  - apply List.Forall_forall. intros y Hy%list_elem_of_In. apply negb_true_iff, Nat.eqb_neq. intros ->. apply (HA _ Hy). by left.
Qed.
End LeaveOut.

(** Leaving out a contrast does not help the others.  For hypotheses of one
    number of degrees of freedom in a planned family that is large enough, and
    critical values that do not grow along the family, what is rejected without
    some contrast is also rejected with it. *)
Theorem missing_contrast_no_easier q alpha sided m df s1 x s2 r r' :
  Forall (fun x => is_nan x = false) (s1 ++ x :: s2) -> Z.of_nat (length (s1 ++ x :: s2)) <= m ->
  family_eases q alpha sided m df ->
  holm_step_down q (s1 ++ x :: s2) (replicate (length (s1 ++ x :: s2)) df) alpha sided (Some m) = Ok r ->
  holm_step_down q (s1 ++ s2) (replicate (length (s1 ++ s2)) df) alpha sided (Some m) = Ok r' ->
  forall i, r' !! i = Some true -> r !! shifted (length s1) i = Some true.
Proof.
  intros Hnan Hm Heases [_ Hr]%holm_rejected [_ Hr']%holm_rejected i. rewrite Hr, Hr'. by apply left_out_rejected.
Qed.

(** ** Witnesses *)

#[local] Existing Instance series_libm.

(** The critical values of the two tests of the families of 10 and 20. *)
Definition eases_at (m df : Z) (k : Z) : bool :=
  match critical_at t_ppf DEFAULT_ALPHA 2 m df k, critical_at t_ppf DEFAULT_ALPHA 2 m df (k + 1) with
  | Ok c, Ok c' => fleb c' c
  | _, _ => false
  end.
Lemma eases_by_cases m df : forallb (eases_at m df) (Z.of_nat <$> seq 1 (Z.to_nat m - 1)) = true -> family_eases t_ppf DEFAULT_ALPHA 2 m df.
Proof.
  intros H k c Hk Hc. rewrite List.forallb_forall in H. specialize (H k). unfold eases_at in H. rewrite Hc in H.
  destruct (critical_at t_ppf DEFAULT_ALPHA 2 m df (k + 1)) as [c'|e].
  - exists c'. split; [done|]. apply H. apply list_elem_of_In, list_elem_of_fmap. exists (Z.to_nat k). split; [lia|]. apply elem_of_seq. lia.
  - assert (false = true); [|done]. apply H. apply list_elem_of_In, list_elem_of_fmap. exists (Z.to_nat k). split; [lia|]. apply elem_of_seq. lia.
Qed.

(** Four contrasts of eight blocks each, in a family of ten. *)
Definition four_scores : list float := [flit 52 10; flit 31 10; flit 71 10; flit 45 10].

Lemma holm_step_down_sound_witness :
  holm_step_down t_ppf four_scores (replicate 4 7) DEFAULT_ALPHA 2 (Some 10) = Ok [true; false; true; true] /\
  exists order, order ≡ₚ seq 0 4 /\ StronglySorted (fun i j => negb (fltb (value_at four_scores i) (value_at four_scores j)) = true) order /\
    forall i, [true; false; true; true] !! i = Some true <->
      exists k, order !! k = Some i /\
        forall j y, (j <= k)%nat -> order !! j = Some y ->
          reaches t_ppf DEFAULT_ALPHA 2 10 (Z.of_nat j + 1) (default 0 (replicate 4 7 !! y)) (value_at four_scores y) = true.
Proof.
  assert (holm_step_down t_ppf four_scores (replicate 4 7) DEFAULT_ALPHA 2 (Some 10) = Ok [true; false; true; true]) as H
    by (vm_compute; reflexivity).
  split; [exact H|]. destruct (holm_step_down_sound t_ppf four_scores (replicate 4 7) DEFAULT_ALPHA 2 10 [true; false; true; true])
    as (order & Hp & Hs & _ & Hr); [by repeat constructor|exact H|].
  exists order. split; [exact Hp|]. split; [exact Hs|exact Hr].
Defined.

Lemma missing_contrast_no_easier_witness :
  exists r', holm_step_down t_ppf [flit 52 10; flit 31 10; flit 45 10] (replicate 3 7) DEFAULT_ALPHA 2 (Some 10) = Ok r' /\
    forall i, r' !! i = Some true -> [true; false; true; true] !! shifted 2 i = Some true.
Proof.
  exists [true; false; true]. split; [vm_compute; reflexivity|].
  apply (missing_contrast_no_easier t_ppf DEFAULT_ALPHA 2 10 7 [flit 52 10; flit 31 10] (flit 71 10) [flit 45 10]).
  - by repeat constructor.
  - vm_compute. discriminate.
  - apply eases_by_cases. vm_compute. reflexivity.
  - vm_compute. reflexivity.
  - vm_compute. reflexivity.
Defined.

(** Contrasts are ordered by their statistics, not by their p-values.  With
    different numbers of blocks a missing contrast can help: beside the contrast
    of three blocks nothing is rejected, without it the other one is. *)
Example missing_contrast_helps :
  holm_step_down t_ppf [flit 9 1; flit 6 1] [2; 30] DEFAULT_ALPHA 2 (Some 10) = Ok [false; false] /\
  holm_step_down t_ppf [flit 6 1] [30] DEFAULT_ALPHA 2 (Some 10) = Ok [true].
Proof. split; vm_compute; reflexivity. Qed.

(** A family that is larger than planned: once all its planned places are
    rejected, the next place divides by zero. *)
Example family_overrun :
  holm_step_down t_ppf (replicate 11 (flit 90 1)) (replicate 11 7) DEFAULT_ALPHA 2 (Some 10) =
    Raise (Exn ZeroDivisionError "float division by zero").
Proof. vm_compute. reflexivity. Qed.
