(* ===== verification/SampleSize.v ===== *)
(** [linux-sched/analysis/sample_size.py]: the block counts that are frozen from
    the variance of a pilot, before any confirmatory run. *)

From Stdlib Require Import ZArith Bool Ascii String Lia SpecFloat Sorted.
From stdpp Require Import base list strings option.
From S2P Require Import Prelude Eff PyStr PyText PyFloat PyCsv PyVal PyDict Json PyConv World Stats PyNormal SchedAnalysis.

Open Scope string_scope.
Open Scope Z_scope.

Definition BALANCE : Z := 3.
Definition MIN_PILOT_PAIRED_BLOCKS : Z := 3.
Definition CONFIRMATORY_FLOOR_BLOCKS : Z := 5.
Definition MAX_N : Z := 100000.

Definition round_up_to_multiple (value multiple : Z) : Z := (value + multiple - 1) / multiple * multiple.

Section Plan.
Context `{L : Libm} `{P : Pow}.

(** ** The variance bound *)

Section Bound.
Variable normal : float -> result float.

Definition chi2_lower (p : float) (df : Z) : result float :=
  let* z := normal p in
  let d := flit df 1 in
  let* x := fdiv two (fmul (flit 9 1) d) in
  let* root := math_sqrt x in
  let* cube := py_pow (fadd (fsub one x) (fmul z root)) 3 in
  Ok (fmul d cube).
Definition sd_upper_bound (sd : float) (n : Z) (p : float) : result float :=
  if (n <? 2) || fleb sd zero then Ok sd
  else
    let* c := chi2_lower p (n - 1) in
    let* x := fdiv (flit (n - 1) 1) c in
    let* root := math_sqrt x in
    Ok (fmul sd root).
End Bound.

(** ** The plan *)

(** Of repeated observations the last one counts. *)
Definition pilot_step (grouped : list (group_key * by_scheduler)) (o : Observation) : list (group_key * by_scheduler) :=
  let key := (ob_workload o, ob_metric o, ob_direction o) in
  let schedulers := default [] (assoc_get key grouped) in
  let blocks := default [] (assoc_get (ob_scheduler o) schedulers) in
  assoc_set key (assoc_set (ob_scheduler o) (assoc_set (ob_block o) (ob_value o) blocks) schedulers) grouped.

Record planned_contrast : Type := {
  pc_scheduler : string; pc_blocks : Z; pc_effect : float; pc_sd : float; pc_required : Z; pc_upper : float; pc_required_upper : Z
}.
Definition family_alpha (contrasts : Z) : result float := let* k := float_of_Z contrasts in fdiv DEFAULT_ALPHA k.

Definition plan_contrast (workload metric scheduler : string) (logs : list float) : result planned_contrast :=
  let* sd := stdev logs in
  let n := Z.of_nat (length logs) in
  let* upper := sd_upper_bound normal_ppf sd n (flit 5 100) in
  let effect := practical_effect metric in
  let* alpha := family_alpha PRIMARY_CONTRASTS in
  let* required := required_n_paired t_ppf sd effect alpha DEFAULT_POWER MAX_N in
  let* required_upper := required_n_paired t_ppf upper effect alpha DEFAULT_POWER MAX_N in
  Ok {| pc_scheduler := scheduler; pc_blocks := n; pc_effect := effect; pc_sd := sd; pc_required := required; pc_upper := upper;
        pc_required_upper := required_upper |}.

Definition too_few_pairs (workload scheduler : string) (n : nat) : exn :=
  Exn ValueError ("pilot for " +:+ workload +:+ "/" +:+ scheduler +:+ " has " +:+ str_of_Z (Z.of_nat n) +:+ " paired blocks; " +:+
                  str_of_Z MIN_PILOT_PAIRED_BLOCKS +:+ " are required to estimate variance").
Definition plan_arm (workload metric : string) (lower : bool) (control : blocks_of) (arm : string * blocks_of) : result (list planned_contrast) :=
  let '(scheduler, values) := arm in
  if String.eqb scheduler CONTROL_SCHEDULER then Ok []
  else
    let shared := shared_blocks control values in
    if Z.of_nat (length shared) <? MIN_PILOT_PAIRED_BLOCKS then Raise (too_few_pairs workload scheduler (length shared))
    else
      let* logs := paired_logs control values lower shared in
      let* c := plan_contrast workload metric scheduler logs in
      Ok [c].

(** [max(...)] *)
Definition py_max (l : list Z) : result Z :=
  match l with [] => Raise (Exn ValueError "max() arg is an empty sequence") | x :: l => Ok (fold_left Z.max l x) end.

(** A scenario of the plan. *)
Record planned_scenario : Type := {
  pn_scenario : string; pn_metric : string; pn_descriptive : bool; pn_contrasts : list planned_contrast; pn_raw : Z; pn_floored : Z;
  pn_confirmatory : option Z; pn_upper : option Z
}.
Definition plan_scenario (g : group_key * by_scheduler) : result planned_scenario :=
  let '(workload, metric, direction, schedulers) := g in
  match assoc_get CONTROL_SCHEDULER schedulers with
  | None | Some [] => Raise (Exn ValueError ("pilot for " +:+ workload +:+ "/" +:+ metric +:+ " has no control arm"))
  | Some control =>
      let* blocks := mapM (plan_arm workload metric (is_lower_better metric direction) control) (sort_by name_order schedulers) in
      let contrasts := mjoin blocks in
      let descriptive := is_descriptive workload in
      let* raw := py_max (pc_required <$> contrasts) in
      let floored := Z.max raw CONFIRMATORY_FLOOR_BLOCKS in
      let* upper := if descriptive then Ok None
                    else let* u := py_max (pc_required_upper <$> contrasts) in Ok (Some (round_up_to_multiple u BALANCE)) in
      Ok {| pn_scenario := workload; pn_metric := metric; pn_descriptive := descriptive; pn_contrasts := contrasts; pn_raw := raw;
            pn_floored := floored; pn_confirmatory := if descriptive then None else Some (round_up_to_multiple floored BALANCE);
            pn_upper := upper |}
  end.
Definition plan_scenarios (observations : list Observation) : result (list planned_scenario) :=
  mapM plan_scenario (sort_by key_order (fold_left pilot_step observations [])).

(** ** The record *)

Definition opt_int (z : option Z) : pyval := match z with Some z => VInt z | None => VNone end.
Definition contrast_items (c : planned_contrast) : pydict :=
  [("scheduler", VStr (pc_scheduler c)); ("paired_blocks", VInt (pc_blocks c)); ("effect", VFloat (pc_effect c));
   ("sd_log_ratio", round6 (pc_sd c)); ("required_n", VInt (pc_required c)); ("sd_upper95_log_ratio", round6 (pc_upper c));
   ("required_n_upper95", VInt (pc_required_upper c))].
Definition scenario_items (s : planned_scenario) : pydict :=
  [("scenario", VStr (pn_scenario s)); ("metric", VStr (pn_metric s)); ("descriptive", VBool (pn_descriptive s));
   ("contrasts", VList ((fun c => VDict (contrast_items c)) <$> pn_contrasts s)); ("required_n_raw", VInt (pn_raw s));
   ("required_n_floored", VInt (pn_floored s)); ("confirmatory_blocks", opt_int (pn_confirmatory s));
   ("confirmatory_blocks_upper95", opt_int (pn_upper s)); ("balanced_multiple", VInt BALANCE)].
Definition plan (observations : list Observation) : result pydict :=
  let* scenarios := plan_scenarios observations in
  let* alpha := family_alpha PRIMARY_CONTRASTS in
  Ok [("schema_version", VInt 1); ("control_scheduler", VStr CONTROL_SCHEDULER);
      ("practical_effect_by_metric", VDict ((fun p => (fst p, VFloat (snd p))) <$> PRACTICAL_EFFECT_BY_METRIC));
      ("power", VFloat DEFAULT_POWER); ("alpha", VFloat DEFAULT_ALPHA); ("primary_contrasts", VInt PRIMARY_CONTRASTS);
      ("alpha_per_contrast", VFloat alpha); ("min_blocks", VInt CONFIRMATORY_FLOOR_BLOCKS); ("balance_multiple", VInt BALANCE);
      ("scenarios", VList ((fun s => VDict (scenario_items s)) <$> scenarios))].
Definition record_text (record : pydict) : string := json_indent false (VDict record) +:+ newline.

Definition sample_size_main `{E : Env} (pilot_blocks output : string) : M Z :=
  let! text := perform (ReadText pilot_blocks) in
  let! observations := lift (read_blocks pilot_blocks text) in
  let! record := lift (plan observations) in
  perform (MakeDirs (parent_dir output)) >>>
  perform (WriteText output (record_text record)) >>>
  ret 0.
End Plan.

(** ** What is frozen

    The sample sizes of the scheduler campaigns ([SampleSize.v],
    [FactorialSize.v]): the count that is searched is the least one, and the
    counts that a plan freezes are those that the analysis asks for. *)

(** ** The search *)

Section Search.
Context `{L : Libm} `{P : Pow} (q : float -> Z -> result float) (sd delta alpha power : float) (max_n : Z).

(** [n] blocks are enough: the count they require is at most [n]. *)
Definition enough (n : Z) : option bool :=
  match n_required q sd delta alpha power n with Ok x => Some (fleb_Z x n) | Raise _ => None end.

Lemma required_loop_least turns : forall n k, required_loop q sd delta alpha power max_n turns n = Ok k ->
  n <= k < n + Z.of_nat turns /\ enough k = Some true /\ forall j, n <= j < k -> enough j = Some false.
Proof.
  induction turns as [|turns IH]; intros n k; cbn [required_loop]; [done|]. intros (x & Hx & H)%rbind_Ok.
  destruct (fleb_Z x n) eqn:E.
  - apply Ok_inj in H as <-. split; [lia|]. split; [unfold enough; by rewrite Hx, E|]. intros j Hj. lia.
  - apply IH in H as (Hk & Hek & Hj). split; [lia|]. split; [done|]. intros j Hj'. destruct (decide (j = n)) as [->|Hne].
    + unfold enough. by rewrite Hx, E.
    + apply Hj. lia.
Qed.
(** The search is cut off only when no count up to the limit is enough. *)
Lemma required_loop_error turns : forall n e, required_loop q sd delta alpha power max_n turns n = Raise e ->
  (exists k, n <= k < n + Z.of_nat turns /\ enough k = None) \/ forall k, n <= k < n + Z.of_nat turns -> enough k = Some false.
Proof.
  induction turns as [|turns IH]; intros n e; cbn [required_loop]; [intros _; right; intros k; lia|].
  destruct (n_required q sd delta alpha power n) as [x|e'] eqn:E; cbn [rbind].
  - destruct (fleb_Z x n) eqn:Ex; [done|]. intros H. apply IH in H as [(k & Hk & He)|Hall]; [left; exists k; split; [lia|done]|].
    right. intros k Hk. destruct (decide (k = n)) as [->|Hne]; [unfold enough; by rewrite E, Ex|]. apply Hall. lia.
  - intros _. left. exists n. split; [lia|]. unfold enough. by rewrite E.
Qed.
End Search.

(** C19: The required count.  For a positive deviation the returned count is
    between three and the limit, it is enough for the t quantiles of its own
    degrees of freedom, and no smaller one is; when the search raises, either a
    quantile could not be computed or no count up to the limit is enough: the
    count is never capped. *)
Theorem required_n_least (L : Libm) (P : Pow) q sd effect alpha power max_n delta :
  fleb sd zero = false -> math_log (fadd one effect) = Ok delta -> 2 <= max_n ->
  match required_n_paired q sd effect alpha power max_n with
  | Ok n => MIN_BLOCKS_FOR_VERDICT <= n <= max_n /\ enough q sd delta alpha power n = Some true /\
            forall j, MIN_BLOCKS_FOR_VERDICT <= j < n -> enough q sd delta alpha power j = Some false
  | Raise _ => (exists k, MIN_BLOCKS_FOR_VERDICT <= k <= max_n /\ enough q sd delta alpha power k = None) \/
               forall k, MIN_BLOCKS_FOR_VERDICT <= k <= max_n -> enough q sd delta alpha power k = Some false
  end.
Proof.
  intros Hsd Hd Hmax. unfold required_n_paired. rewrite Hsd, Hd. cbn [rbind]. unfold MIN_BLOCKS_FOR_VERDICT in *.
  destruct (required_loop _ _ _ _ _ _ _ _) as [n|e] eqn:E.
  - apply required_loop_least in E as (Hn & H1 & H2). split; [lia|]. done.
  - apply required_loop_error in E as [(k & Hk & He)|Hall]; [left; exists k; split; [lia|done]|]. right. intros k Hk. apply Hall. lia.
Qed.

(** ** The frozen counts *)

(** An entry of a record: a scenario, its metric and its count. *)
Definition entry_of (s m : string) (c : option Z) (e : pyval) : Prop :=
  attr_get "confirmatory_blocks" e = Ok (opt_int c) /\ py_index "scenario" e = Ok (VStr s) /\ py_index "metric" e = Ok (VStr m).
Definition frozen_of (p : string * string * option Z) : frozen_counts :=
  match p with (s, m, Some c) => [((VStr s, VStr m), c)] | _ => [] end.

Lemma frozen_fold entries triples : Forall2 (fun p e => entry_of (fst (fst p)) (snd (fst p)) (snd p) e) triples entries ->
  Forall (fun p => match snd p with Some c => 0 < c | None => True end) triples ->
  forall acc, foldM frozen_entry acc entries = Ok (rev (triples ≫= frozen_of) ++ acc)%list.
Proof.
  induction 1 as [|[[s m] c] e triples entries (Hc & Hs & Hm) _ IH]; intros Hpos acc; [done|]. apply Forall_cons_iff in Hpos as [Hpos0 Hpos].
  cbn [foldM]. unfold frozen_entry. rewrite Hc. cbn [rbind fst snd] in *. destruct c as [c|]; cbn [opt_int truthy].
  - rewrite (proj2 (Z.eqb_neq c 0)) by lia. cbn [negb int_of_val rbind]. rewrite Hs, Hm. cbn [rbind hashable_value].
    rewrite IH by done. cbn. rewrite <- app_assoc. done.
  - cbn [rbind]. by rewrite IH.
Qed.

(** The count of a scenario: that of its last entry. *)
Definition last_count (s m : string) (triples : list (string * string * option Z)) : option Z :=
  list.last (omap (fun p => if String.eqb (fst (fst p)) s && String.eqb (snd (fst p)) m then snd p else None) triples).

Lemma wanted_app a b s m : wanted (a ++ b)%list s m = match wanted a s m with Some c => Some c | None => wanted b s m end.
Proof. unfold wanted. induction a as [|x a IH]; [done|]. cbn [app List.find]. by destruct (py_eq _ _ && py_eq _ _). Qed.
Lemma wanted_frozen triples s m : wanted (rev (triples ≫= frozen_of)) s m = last_count s m triples.
Proof.
  unfold last_count. induction triples as [|[[s' m'] c] triples IH] using rev_ind; [done|].
  rewrite bind_app, rev_app_distr, wanted_app, IH, omap_app. cbn [mbind list_bind omap list_omap fst snd].
  destruct c as [c|]; cbn [frozen_of app rev].
  - unfold wanted. cbn [List.find fst snd py_eq]. destruct (String.eqb s' s && String.eqb m' m); cbn; [by rewrite last_snoc|].
    by rewrite app_nil_r.
  - cbn. destruct (String.eqb s' s && String.eqb m' m); by rewrite app_nil_r.
Qed.

(** A record that was written reads back as the counts of its entries. *)
Lemma frozen_counts_text d entries triples : json_wf (VDict d) = true -> dget "scenarios" d = Some (VList entries) ->
  Forall2 (fun p e => entry_of (fst (fst p)) (snd (fst p)) (snd p) (json_norm false e)) triples entries ->
  Forall (fun p => match snd p with Some c => 0 < c | None => True end) triples ->
  frozen_counts_of (record_text d) = Ok (rev (triples ≫= frozen_of)).
Proof.
  intros Hwf Hd He Hpos. unfold frozen_counts_of, record_text, json_indent.
  rewrite (json_loads_text (indent_style false) _ newline (indent_style_ok false) Hwf eq_refl).
  cbn [rbind json_norm js_sorted indent_style order_items attr_get_or]. unfold dget_or. rewrite dget_map, Hd.
  cbn [fmap option_fmap option_map default id json_norm rbind py_iter]. rewrite (frozen_fold _ triples); [by rewrite app_nil_r| |done].
  by apply Forall2_fmap_r.
Qed.

(** ** The plan *)

Lemma round_up v k : 0 < k -> v <= round_up_to_multiple v k < v + k /\ round_up_to_multiple v k mod k = 0.
Proof.
  intros Hk. unfold round_up_to_multiple. split; [|apply Z.mod_mul; lia].
  pose proof (Z.mul_div_le (v + k - 1) k Hk) as H1. pose proof (Z.mul_succ_div_gt (v + k - 1) k Hk) as H2.
  rewrite Z.mul_comm. lia.
Qed.
(** The least multiple of [k] that is at least [floor] and every element. *)
Definition least_multiple (k floor : Z) (l : list Z) (c : Z) : Prop :=
  let fine c := c mod k = 0 /\ floor <= c /\ forall x, x ∈ l -> x <= c in
  fine c /\ forall c', fine c' -> c <= c'.

Lemma round_up_least k floor l m : 0 < k -> (m ∈ l \/ m <= floor) -> (forall x, x ∈ l -> x <= m) ->
  least_multiple k floor l (round_up_to_multiple (Z.max m floor) k).
Proof.
  intros Hk Hm Hl. destruct (round_up (Z.max m floor) k Hk) as [Hr Hmod]. split.
  - split; [done|]. split; [lia|]. intros x Hx. specialize (Hl x Hx). lia.
  - intros c' (Hc & Hf & Hall). assert (Z.max m floor <= c') as Hc'.
    { destruct Hm as [Hm|Hm]; [specialize (Hall m Hm); lia|lia]. }
    apply Z.mod_divide in Hc as [a Ha]; [|lia]. apply Z.mod_divide in Hmod as [b Hb]; [|lia].
    rewrite Ha, Hb in *. assert (b < a + 1) by (apply (Z.mul_lt_mono_pos_r k); lia). apply Z.mul_le_mono_nonneg_r; lia.
Qed.

Lemma fold_max l : forall x, fold_left Z.max l x ∈ x :: l /\ forall y, y ∈ x :: l -> y <= fold_left Z.max l x.
Proof.
  induction l as [|z l IH]; intros x; cbn [fold_left]; [split; [by left|intros y ->%list_elem_of_singleton; lia]|].
  destruct (IH (Z.max x z)) as [Hin Hle]. split.
  - apply list.elem_of_cons in Hin as [->|Hin]; [|by do 2 right]. destruct (Z.max_spec x z) as [[_ ->]|[_ ->]]; [right; by left|by left].
  - intros y Hy. specialize (Hle (Z.max x z) (list_elem_of_here _ _)) as Hm.
    apply list.elem_of_cons in Hy as [->|[->|Hy]%list.elem_of_cons]; [lia|lia|]. apply Hle. by right.
Qed.
Lemma py_max_spec l m : py_max l = Ok m -> m ∈ l /\ forall x, x ∈ l -> x <= m.
Proof. destruct l as [|x l]; [done|]. intros <-%Ok_inj. apply fold_max. Qed.

Section Plan.
Context `{L : Libm} `{P : Pow}.

Definition count_of (s : planned_scenario) : string * string * option Z := (pn_scenario s, pn_metric s, pn_confirmatory s).
Definition frozen_well (s : planned_scenario) : Prop :=
  if pn_descriptive s then pn_confirmatory s = None
  else exists c, pn_confirmatory s = Some c /\ least_multiple BALANCE CONFIRMATORY_FLOOR_BLOCKS (pc_required <$> pn_contrasts s) c.

Lemma plan_scenario_well g s : plan_scenario g = Ok s -> frozen_well s.
Proof.
  destruct g as [[[w m] d] schedulers]. unfold plan_scenario. destruct (assoc_get _ _) as [[|c0 control]|]; [done| |done].
  intros (blocks & _ & (raw & Hraw & (upper & _ & <-%Ok_inj)%rbind_Ok)%rbind_Ok)%rbind_Ok. unfold frozen_well. cbn [pn_descriptive pn_confirmatory pn_contrasts].
  destruct (is_descriptive w); [done|]. eexists. split; [done|]. apply py_max_spec in Hraw as [Hin Hle].
  apply round_up_least; [done|by left|done].
Qed.

Lemma scenario_entry s : entry_of (pn_scenario s) (pn_metric s) (pn_confirmatory s) (json_norm false (VDict (scenario_items s))).
Proof. unfold entry_of, scenario_items. split_and!; [|done..]. by destruct (pn_confirmatory s). Qed.

Lemma frozen_well_positive s : frozen_well s -> match pn_confirmatory s with Some c => 0 < c | None => True end.
Proof.
  unfold frozen_well. destruct (pn_descriptive s); [by intros ->|]. intros (c & -> & (_ & Hc & _) & _). unfold CONFIRMATORY_FLOOR_BLOCKS in Hc. lia.
Qed.

(** C16: The frozen counts are enforced.  A record that a plan writes reads back
    in the analysis as the counts of its scenarios, by scenario and metric, the
    last entry deciding: descriptive workloads have none, and every other count
    is the least multiple of the balance that reaches the floor and the count
    required for each of its contrasts. *)
Theorem frozen_counts_read observations record :
  plan observations = Ok record -> json_wf (VDict record) = true ->
  exists scenarios required,
    plan_scenarios observations = Ok scenarios /\ frozen_counts_of (record_text record) = Ok required /\
    (forall w m, wanted required w m = last_count w m (count_of <$> scenarios)) /\ Forall frozen_well scenarios.
Proof.
  unfold plan. intros (scenarios & Hs & (alpha & _ & <-%Ok_inj)%rbind_Ok)%rbind_Ok Hwf.
  assert (Forall frozen_well scenarios) as Hwell.
  { apply List.Forall_forall. intros s Hin%list_elem_of_In. unfold plan_scenarios in Hs. apply mapM_Ok in Hs.
    apply list_elem_of_lookup in Hin as [i Hi]. destruct (Forall2_lookup_r _ _ _ _ _ Hs Hi) as (g & _ & Hg). by eapply plan_scenario_well. }
  exists scenarios, (rev ((count_of <$> scenarios) ≫= frozen_of)). split; [done|]. split; [|split; [|done]].
  - eapply frozen_counts_text; [exact Hwf|done| |].
    + apply Forall2_fmap_2, Forall_Forall2_diag, List.Forall_forall. intros s _. apply scenario_entry.
    + apply Forall_fmap. eapply List.Forall_impl; [|exact Hwell]. intros s. apply frozen_well_positive.
  - intros w m. apply wanted_frozen.
Qed.
End Plan.

(** ** Witnesses *)

#[local] Existing Instance series_libm.
#[local] Existing Instance power_by_multiplication.

(** A deviation of 4 percent and an effect of 5 percent. *)
Lemma required_n_least_witness :
  let delta := series_log (fadd one (flit 5 100)) in
  required_n_paired t_ppf (flit 4 100) (flit 5 100) (flit 5 1000) DEFAULT_POWER MAX_N = Ok 13 /\
  (forall j, 3 <= j < 13 -> enough t_ppf (flit 4 100) delta (flit 5 1000) DEFAULT_POWER j = Some false).
Proof.
  cbv zeta. assert (required_n_paired t_ppf (flit 4 100) (flit 5 100) (flit 5 1000) DEFAULT_POWER MAX_N = Ok 13) as E by (vm_compute; reflexivity).
  split; [exact E|]. pose proof (required_n_least series_libm power_by_multiplication t_ppf (flit 4 100) (flit 5 100) (flit 5 1000) DEFAULT_POWER
    MAX_N (series_log (fadd one (flit 5 100)))) as H. rewrite E in H. apply H; [vm_compute; reflexivity|vm_compute; reflexivity|discriminate].
Defined.

Definition piloted (workload metric : string) (values : list (string * (Z * Z))) : list Observation :=
  v ← values; let '(block, (c, a)) := v in
  let o (scheduler : string) (x : Z) : Observation :=
    {| ob_block := block; ob_workload := workload; ob_metric := metric; ob_scheduler := scheduler; ob_value := flit x 100; ob_direction := None |} in
  [o "eevdf" c; o "scx_lavd" a].
Definition lab_pilot : list Observation :=
  (piloted "http" "latency_p99_ms" [("b1", (100, 120)); ("b2", (100, 124)); ("b3", (101, 119))] ++
   piloted "video" "frames_per_s" [("b1", (100, 100)); ("b2", (100, 101)); ("b3", (101, 101))] ++
   piloted "mixed-http-ffmpeg" "latency_p99_ms" [("b1", (100, 120)); ("b2", (100, 121)); ("b3", (101, 121))])%list.
Definition no_record : pydict := [].
Definition record_of (observations : list Observation) : pydict := match plan observations with Ok r => r | Raise _ => no_record end.
Lemma record_ok observations : is_ok (plan observations) = true -> plan observations = Ok (record_of observations).
Proof. unfold record_of. by destruct (plan observations). Qed.
Definition counts_of (observations : list Observation) : list (string * string * option Z) :=
  match plan_scenarios observations with Ok l => count_of <$> l | Raise _ => [] end.

Lemma frozen_counts_read_witness :
  exists required, frozen_counts_of (record_text (record_of lab_pilot)) = Ok required /\
    falls_short required "http" "latency_p99_ms" 5 = true /\ falls_short required "mixed-http-ffmpeg" "latency_p99_ms" 5 = false.
Proof.
  destruct (frozen_counts_read lab_pilot (record_of lab_pilot)) as (scenarios & required & Hs & Hr & Hw & _).
  - apply record_ok. vm_compute. reflexivity.
  - vm_compute. reflexivity.
  - exists required. split; [exact Hr|]. assert (count_of <$> scenarios = counts_of lab_pilot) as E by (unfold counts_of; rewrite Hs; reflexivity).
    rewrite E in Hw. unfold falls_short. rewrite !Hw. clear. split; vm_compute; reflexivity.
Defined.

(** The count at the variance bound has no floor: for little variance it is
    below the count that is frozen. *)
Example upper_count_below_frozen :
  match plan_scenarios (piloted "video" "frames_per_s" [("b1", (100, 100)); ("b2", (100, 100)); ("b3", (100, 100))]) with
  | Ok [s] => (pn_confirmatory s, pn_upper s)
  | _ => (None, None)
  end = (Some 6, Some 3).
Proof. vm_compute. reflexivity. Qed.
(** A pilot with the control alone ends in an error of [max]. *)
Example control_only_pilot :
  match plan (List.filter (fun o => String.eqb (ob_scheduler o) CONTROL_SCHEDULER) lab_pilot) with Ok _ => "" | Raise e => exn_msg e end =
  "max() arg is an empty sequence".
Proof. vm_compute. reflexivity. Qed.
