(* ===== verification/Factorial.v ===== *)
(** [linux-sched/analysis/factorial_analysis.py]: the analysis of the campaign
    that crosses schedulers with CPU quotas, with one family of contrasts per
    question.  What is textually the same as in [sched_analysis.py] is taken
    from [SchedAnalysis.v]. *)

From Stdlib Require Import ZArith Bool Ascii String Lia SpecFloat.
From stdpp Require Import base list strings option.
From S2P Require Import Prelude Eff PyStr PyFloat PyCsv PyVal PyDict Json PyConv Campaign World Stats PyNormal SchedAnalysis.

Open Scope string_scope.
Open Scope Z_scope.

Definition PERFORMANCE_EFFECT : float := flit 5 100.
Definition THROTTLE_EFFECT : float := flit 10 100.
Definition PRACTICAL_EFFECT_BY_METRIC : list (string * float) :=
  (fun m => (m, THROTTLE_EFFECT)) <$>
    ["throttled_period_ratio"; "throttled_usec"; "throttled_time_ms"; "throttled_time_us"; "throttled_time"].
Definition DEFAULT_POWER : float := flit 90 100.
Definition POLICIES : list string := ["unlimited"; "limited"].
Definition QUOTA_CAPABLE_SCHEDULERS : list string := ["scx_lavd"; "scx_mavd"].
Definition FAMILY_SCHEDULER_UNLIMITED : string := "scheduler_unlimited".
Definition FAMILY_QUOTA_INTERACTION : string := "quota_interaction".
Definition FAMILY_THROTTLING : string := "throttling".
Definition FAMILY_SIZES : list (string * Z) :=
  [(FAMILY_SCHEDULER_UNLIMITED, 25); (FAMILY_QUOTA_INTERACTION, 10); (FAMILY_THROTTLING, 20)].
Definition PRIMARY_CONTRASTS : Z := sum_Z (snd <$> FAMILY_SIZES).
Definition DESCRIPTIVE_WORKLOADS : list string := [].
Definition LOWER_IS_BETTER : list string :=
  ["latency_p99_ms"; "latency_p50_ms"; "submit_to_scheduled_p99_ms"; "runqlat_p99_us"; "runqlen_p99";
   "throttled_period_ratio"; "throttled_usec"; "throttled_time_ms"; "throttled_time_us"].

Definition honours_quota (scheduler : string) : bool :=
  let name := str_lower (strip scheduler) in
  mem_string name QUOTA_CAPABLE_SCHEDULERS || mem_string name ["lavd"; "mavd"].

Definition is_throttle (metric : string) : bool := contains "throttl" (str_lower metric).
Definition practical_effect (metric : string) : float :=
  match assoc_get metric PRACTICAL_EFFECT_BY_METRIC with
  | Some x => x
  | None => if is_throttle metric then THROTTLE_EFFECT else PERFORMANCE_EFFECT
  end.
Definition is_descriptive (workload : string) : bool := mem_string workload DESCRIPTIVE_WORKLOADS.
Definition is_lower_better (metric : string) (direction : option string) : bool :=
  match direction with
  | Some d => if String.eqb d "lower-is-better" then true
              else if String.eqb d "higher-is-better" then false else mem_string metric LOWER_IS_BETTER
  | None => mem_string metric LOWER_IS_BETTER
  end.

(** ** Records: those of the sibling module with the fields it does not have *)

Record Observation : Type := { fo_base : SchedAnalysis.Observation; fo_policy : option string }.
Record Verdict : Type := { fv_base : SchedAnalysis.Verdict; fv_contrast : string; fv_policy : option string; fv_family : string }.
Record Contrast : Type := { fc_stat : SchedAnalysis.Contrast; fc_contrast : string; fc_policy : option string; fc_family : string }.
Record AnalysisResult : Type := { verdicts : list Verdict; skipped : list pydict }.

(** The blocks of a scheduler by policy, and the schedulers of a group. *)
Abbreviation policy_blocks := (list (option string * blocks_of)).
Abbreviation schedulers_of := (list (string * policy_blocks)).

Definition observation_of (path : string) (row : csv_row) : result Observation :=
  let* base := SchedAnalysis.observation_of path row in
  Ok {| fo_base := base; fo_policy := optional_text "policy" row |}.
Definition read_blocks (path text : string) : result (list Observation) := read_table (observation_of path) path text.

Section Factorial.
Context `{L : Libm} `{P : Pow}.
(** Whether [sched_analysis] could be imported. *)
Variable imported : bool.

(** ** Quantiles: the imported functions, or the copies of the module *)

Definition normal_ppf (p : float) : result float :=
  if imported then SchedAnalysis.normal_ppf p
  else
    raise_if (negb (in_unit p)) ValueError "p must be in (0, 1)" ;;;
    let low := flit 2425 100000 in
    let high := fsub one low in
    if fltb p low then
      let* l := math_log p in
      let* q := math_sqrt (fmul (flit (-2) 1) l) in
      Ok (horner acklam_c q)
    else if fltb high p then
      let* l := math_log (fsub one p) in
      let* q := math_sqrt (fmul (flit (-2) 1) l) in
      Ok (fopp (horner acklam_c q))
    else
      let q := fsub p half in
      let r := fmul q q in
      fdiv (fmul (horner acklam_a r) q) (horner acklam_b r).
Definition t_ppf (probability : float) (df : Z) : result float :=
  if imported then
    match SchedAnalysis.t_ppf probability df with
    | Ok x => Ok x
    | Raise e => if caught_by [Exception] e then SchedAnalysis.t_ppf probability df else Raise e
    end
  else SchedAnalysis.t_ppf probability df.

Definition required_n_paired (sd practical_effect alpha power : float) (max_n : Z) : result Z :=
  SchedAnalysis.required_n_paired t_ppf sd practical_effect alpha power max_n.

(** ** Holm's correction, family by family *)

Definition holm_step_down (scores : list float) (dfs : list Z) (alpha : float) (sided : Z) (family_size : option Z) : result (list bool) :=
  let m := default (Z.of_nat (length scores)) family_size in
  if m =? 0 then Ok [] else step_down t_ppf scores dfs alpha sided m 1 (score_order scores) (replicate (length scores) false).

(** The positions of the tested contrasts by family, the families in the order
    of their first contrast. *)
Definition add_position (families : list (string * list nat)) (p : nat * Contrast) : list (string * list nat) :=
  let '(position, c) := p in
  assoc_set (fc_family c) (default [] (assoc_get (fc_family c) families) ++ [position])%list families.
Definition families_of (tested : list Contrast) : list (string * list nat) :=
  fold_left add_position (zip (seq 0 (length tested)) tested) [].

(** [rejects[position] = flags[k]] for the positions in order. *)
Fixpoint mark (positions : list nat) (flags rejects : list bool) : result (list bool) :=
  match positions, flags with
  | [], _ => Ok rejects
  | _ :: _, [] => Raise (Exn IndexError "list index out of range")
  | p :: positions, f :: flags => mark positions flags (<[p := f]> rejects)
  end.

Definition stats_at (tested : list Contrast) (positions : list nat) : list SchedAnalysis.Contrast :=
  omap (fun p => fc_stat <$> tested !! p) positions.
Definition family_size (family : string) (positions : list nat) : Z :=
  default (Z.of_nat (length positions)) (assoc_get family FAMILY_SIZES).
Definition family_step (tested : list Contrast) (alpha : float) (rejects : list bool * list bool) (f : string * list nat)
    : result (list bool * list bool) :=
  let '(family, positions) := f in
  let stats := stats_at tested positions in
  let dfs := ct_df <$> stats in
  let size := Some (family_size family positions) in
  let* no_effect := holm_step_down (abs_t stats) dfs alpha 2 size in
  let* equivalent := holm_step_down (tost_scores stats) dfs alpha 1 size in
  let* rejects_no_effect := mark positions no_effect (fst rejects) in
  let* rejects_tost := mark positions equivalent (snd rejects) in
  Ok (rejects_no_effect, rejects_tost).

Definition holm_decisions (comparisons : list Contrast) (alpha : float) : result (list string) :=
  let tested := List.filter (fun c => is_tested (fc_stat c)) comparisons in
  match tested with
  | [] => Ok ((fun c => untested_decision (fc_stat c)) <$> comparisons)
  | _ =>
      let none := replicate (length tested) false in
      let* rejects := foldM (family_step tested alpha) (none, none) (families_of tested) in
      place_decisions fc_stat comparisons (fst rejects) (snd rejects)
  end.

(** ** Observations by workload, metric and direction, scheduler, policy and block *)

Definition group_step (grouped : list (group_key * schedulers_of)) (o : Observation) : result (list (group_key * schedulers_of)) :=
  let b := fo_base o in
  let key := (ob_workload b, ob_metric b, ob_direction b) in
  let schedulers := default [] (assoc_get key grouped) in
  let policies := default [] (assoc_get (ob_scheduler b) schedulers) in
  let blocks := default [] (assoc_get (fo_policy o) policies) in
  if assoc_has (ob_block b) blocks
  then Raise (Exn ValueError ("duplicate observation for block=" +:+ repr_str (ob_block b) +:+ " scheduler=" +:+ repr_str (ob_scheduler b) +:+
                              " metric=" +:+ repr_str (ob_metric b) +:+ " policy=" +:+
                              match fo_policy o with Some p => repr_str p | None => "None" end))
  else Ok (assoc_set key (assoc_set (ob_scheduler b) (assoc_set (fo_policy o) (assoc_set (ob_block b) (ob_value b) blocks) policies) schedulers)
             grouped).
Definition group_observations (observations : list Observation) : result (list (group_key * schedulers_of)) :=
  foldM group_step [] observations.

Definition policies_present (schedulers : schedulers_of) : list (option string) :=
  remove_dups (schedulers ≫= fun s => fst <$> snd s).
(** [sorted(..., key=lambda x: (x is None, x))] *)
Definition policy_leb (a b : option string) : bool :=
  match a, b with
  | Some a, Some b => String.leb a b
  | Some _, None => true
  | None, Some _ => false
  | None, None => true
  end.
Definition has_policies (d : policy_blocks) : bool := forallb (fun p => assoc_has (Some p) d) POLICIES.
Definition blocks_under (policy : option string) (d : policy_blocks) : blocks_of := default [] (assoc_get policy d).

(** The blocks that both schedulers have under both policies. *)
Definition interaction_blocks (control arm : policy_blocks) : list string :=
  if has_policies control && has_policies arm then
    let under (p : string) (d : policy_blocks) := blocks_under (Some p) d in
    sort_by String.leb
      (List.filter (fun k => assoc_has k (under "limited" control) && assoc_has k (under "unlimited" arm) && assoc_has k (under "limited" arm))
                   (fst <$> under "unlimited" control))
  else [].
Definition interaction_logs (control arm : policy_blocks) (lower : bool) (blocks : list string) : result (list float) :=
  mapM (fun b =>
    let* c := block_value (blocks_under (Some "unlimited") control) b in
    let* a := block_value (blocks_under (Some "unlimited") arm) b in
    let* r_unlim := oriented_log_ratio c a lower in
    let* c := block_value (blocks_under (Some "limited") control) b in
    let* a := block_value (blocks_under (Some "limited") arm) b in
    let* r_lim := oriented_log_ratio c a lower in
    Ok (fsub r_lim r_unlim)) blocks.

(** ** The passes *)

Record pass : Type := { ps_verdicts : list Verdict; ps_skipped : list pydict; ps_stats : list (Contrast * (float * float)) }.
Definition skip (entry : pydict) (p : pass) : pass :=
  {| ps_verdicts := ps_verdicts p; ps_skipped := (ps_skipped p ++ [entry])%list; ps_stats := ps_stats p |}.
Definition no_quota (workload metric scheduler : string) : pydict :=
  [("workload", VStr workload); ("metric", VStr metric); ("scheduler", VStr scheduler); ("reason", VStr "scheduler cannot honour cpu.max")].

Section Passes.
Context `{Rng}.
Variables (required : frozen_counts) (resamples seed : Z).

Definition append_contrast (workload metric scheduler : string) (logs : list float) (contrast : string) (policy : option string)
    (family : string) (p : pass) : result pass :=
  let effect := practical_effect metric in
  let descriptive := is_descriptive workload in
  if falls_short required workload metric (length logs) then
    let* v := incomplete_verdict workload metric scheduler logs effect descriptive in
    Ok {| ps_verdicts := (ps_verdicts p ++ [{| fv_base := v; fv_contrast := contrast; fv_policy := policy; fv_family := family |}])%list;
          ps_skipped := ps_skipped p; ps_stats := ps_stats p |}
  else
    let* c := contrast_of workload metric scheduler logs effect descriptive in
    let* means := bootstrap logs resamples seed in
    let* bounds := bootstrap_bounds means in
    Ok {| ps_verdicts := ps_verdicts p; ps_skipped := ps_skipped p;
          ps_stats := (ps_stats p ++ [({| fc_stat := c; fc_contrast := contrast; fc_policy := policy; fc_family := family |}, bounds)])%list |}.

(** A contrast over the blocks that both arms have; too few are skipped. *)
Definition compare_blocks (workload metric scheduler : string) (lower : bool) (control arm : blocks_of) (contrast : string)
    (policy : option string) (family : string) (p : pass) : result pass :=
  let shared := shared_blocks control arm in
  if Z.of_nat (length shared) <? MIN_BLOCKS_FOR_VERDICT then Ok (skip (too_few workload metric scheduler (length shared)) p)
  else
    let* logs := paired_logs control arm lower shared in
    append_contrast workload metric scheduler logs contrast policy family p.

(** The policy of the throttling contrast. *)
Definition target_policy (policies : list (option string)) : option string :=
  if bool_decide (Some "limited" ∈ policies) then Some "limited"
  else match sort_by policy_leb policies with [] => None | p :: _ => p end.
Definition compare_throttling (workload metric scheduler : string) (lower : bool) (policies : list (option string))
    (control arm : policy_blocks) (p : pass) : result pass :=
  if negb (honours_quota scheduler) then Ok (skip (no_quota workload metric scheduler) p)
  else
    let policy := target_policy policies in
    compare_blocks workload metric scheduler lower (blocks_under policy control) (blocks_under policy arm) "throttling" policy
      FAMILY_THROTTLING p.

(** The comparison without a quota; for data of a single policy, one for it. *)
Definition compare_performance (workload metric scheduler : string) (lower : bool) (policies : list (option string))
    (control arm : policy_blocks) (p : pass) : result pass :=
  let unlimited := Some "unlimited" in
  match blocks_under unlimited control, blocks_under unlimited arm with
  | (_ :: _) as c, (_ :: _) as a =>
      compare_blocks workload metric scheduler lower c a "performance" unlimited FAMILY_SCHEDULER_UNLIMITED p
  | _, _ =>
      if (length policies <=? 1)%nat then
        foldM (fun p item =>
          compare_blocks workload metric scheduler lower (blocks_under (fst item) control) (snd item) "performance" (fst item)
            FAMILY_SCHEDULER_UNLIMITED p) p (sort_by (fun a b => policy_leb (fst a) (fst b)) arm)
      else Ok p
  end.

Definition compare_interaction (workload metric scheduler : string) (lower : bool) (policies : list (option string))
    (control arm : policy_blocks) (p : pass) : result pass :=
  if honours_quota scheduler && (2 <=? length policies)%nat && forallb (fun x => bool_decide (Some x ∈ policies)) POLICIES
     && has_policies control && has_policies arm then
    let blocks := interaction_blocks control arm in
    if Z.of_nat (length blocks) <? MIN_BLOCKS_FOR_VERDICT then Ok (skip (too_few workload metric scheduler (length blocks)) p)
    else
      let* logs := interaction_logs control arm lower blocks in
      append_contrast workload metric scheduler logs "performance_interaction" None FAMILY_QUOTA_INTERACTION p
  else Ok p.

Definition compare_arm (workload metric : string) (lower : bool) (policies : list (option string)) (control : policy_blocks) (p : pass)
    (arm : string * policy_blocks) : result pass :=
  let '(scheduler, by_policy) := arm in
  if String.eqb scheduler CONTROL_SCHEDULER then Ok p
  else if is_throttle metric then compare_throttling workload metric scheduler lower policies control by_policy p
  else
    let* p := compare_performance workload metric scheduler lower policies control by_policy p in
    compare_interaction workload metric scheduler lower policies control by_policy p.

Definition compare_group (p : pass) (g : group_key * schedulers_of) : result pass :=
  let '(workload, metric, direction, schedulers) := g in
  match assoc_get CONTROL_SCHEDULER schedulers with
  | None | Some [] => Ok (skip (no_control workload metric) p)
  | Some control =>
      foldM (compare_arm workload metric (is_lower_better metric direction) (policies_present schedulers) control) p
        (sort_by name_order schedulers)
  end.
Definition first_pass (observations : list Observation) : result pass :=
  let* grouped := group_observations observations in
  foldM compare_group {| ps_verdicts := []; ps_skipped := []; ps_stats := [] |} (sort_by key_order grouped).

Fixpoint second_pass (alpha : float) (stats : list (Contrast * (float * float))) (decisions : list string) : result (list Verdict) :=
  match stats, decisions with
  | (c, boot) :: stats, d :: decisions =>
      let* v := verdict_of t_ppf alpha (fc_stat c) boot d in
      let* vs := second_pass alpha stats decisions in
      Ok ({| fv_base := v; fv_contrast := fc_contrast c; fv_policy := fc_policy c; fv_family := fc_family c |} :: vs)
  | _, _ => Ok []
  end.

Definition analyse (observations : list Observation) (alpha : float) : result AnalysisResult :=
  let* p := first_pass observations in
  let* decisions := holm_decisions (fst <$> ps_stats p) alpha in
  let* vs := second_pass alpha (ps_stats p) decisions in
  Ok {| verdicts := (ps_verdicts p ++ vs)%list; skipped := ps_skipped p |}.
End Passes.
End Factorial.

(** ** The summaries *)

Definition SUMMARY_COLUMNS : list string := (SchedAnalysis.SUMMARY_COLUMNS ++ ["contrast"; "policy"; "family"])%list.
Definition verdict_cells (v : Verdict) : list string :=
  (SchedAnalysis.verdict_cells (fv_base v) ++ [fv_contrast v; default "" (fv_policy v); fv_family v])%list.
Definition summary_csv (r : AnalysisResult) : string := csv_write_lf (SUMMARY_COLUMNS :: (verdict_cells <$> verdicts r)).

Definition opt_str (s : option string) : pyval := match s with Some s => VStr s | None => VNone end.
Definition verdict_items (v : Verdict) : pydict :=
  (SchedAnalysis.verdict_items (fv_base v) ++
   [("contrast", VStr (fv_contrast v)); ("policy", opt_str (fv_policy v)); ("family", VStr (fv_family v))])%list.
Definition payload (r : AnalysisResult) : pydict :=
  [("schema_version", VInt 2); ("control_scheduler", VStr CONTROL_SCHEDULER); ("performance_effect", VFloat PERFORMANCE_EFFECT);
   ("throttle_effect", VFloat THROTTLE_EFFECT); ("practical_effect", VFloat PERFORMANCE_EFFECT);
   ("descriptive_workloads", strings DESCRIPTIVE_WORKLOADS); ("min_blocks_for_verdict", VInt MIN_BLOCKS_FOR_VERDICT);
   ("primary_contrasts", VInt PRIMARY_CONTRASTS); ("families", VDict ((fun f => (fst f, VInt (snd f))) <$> FAMILY_SIZES));
   ("quota_capable_schedulers", strings QUOTA_CAPABLE_SCHEDULERS); ("policies", strings POLICIES);
   ("multiplicity", VStr "holm step-down within each pre-registered family"); ("bootstrap_resamples", VInt BOOTSTRAP_RESAMPLES);
   ("bootstrap_seed", VInt BOOTSTRAP_SEED); ("power", VFloat DEFAULT_POWER); ("alpha", VFloat DEFAULT_ALPHA);
   ("verdicts", VList ((fun v => VDict (verdict_items v)) <$> verdicts r)); ("skipped", VList (VDict <$> skipped r))].
Definition summary_json (r : AnalysisResult) : string := json_indent false (VDict (payload r)) +:+ newline.

Section Program.
Context `{L : Libm} `{P : Pow} `{R : Rng} `{E : Env}.

Definition factorial_main (imported : bool) (args : analysis_args) : M Z :=
  let! text := perform (ReadText (an_blocks args)) in
  let! observations := lift (read_blocks (an_blocks args) text) in
  let! required := frozen_required args in
  let! r := lift (analyse imported required BOOTSTRAP_RESAMPLES BOOTSTRAP_SEED observations DEFAULT_ALPHA) in
  perform (MakeDirs (an_output_dir args)) >>>
  perform (WriteText (an_output_dir args +:+ "/summary.csv") (summary_csv r)) >>>
  perform (WriteText (an_output_dir args +:+ "/summary.json") (summary_json r)) >>>
  forM (skipped r) (fun entry => perform (Log ("skipped: " +:+ py_repr (VDict entry)))) >>>
  match verdicts r with
  | [] => perform (Log "ERROR: no comparable paired blocks produced a verdict") >>> ret 1
  | _ => ret 0
  end.
End Program.
