(* ===== verification/Families.v ===== *)
(** The families of the factorial analysis ([Factorial.v]): the decision of a
    contrast depends on the contrasts of its own family only. *)

From Stdlib Require Import ZArith Bool Ascii String Lia SpecFloat Sorted.
From stdpp Require Import base list strings option.
From S2P Require Import Prelude PyStr PyFloat PyDict Stats StatsThm PyNormal SchedAnalysis StepDown Factorial.

Open Scope string_scope.
Open Scope Z_scope.
#[local] Open Scope list_scope.

(** ** Selections *)

(** The elements of [F] beside those of [T] that satisfy [g]. *)
Definition select {A B} (g : A -> bool) (T : list A) (F : list B) : list B := snd <$> List.filter (fun p => g (fst p)) (zip T F).
Definition positions_of {A} (g : A -> bool) (k : nat) (T : list A) : list nat := fst <$> List.filter (fun p => g (snd p)) (zip (seq k (length T)) T).

Section Selections.
Context {A B : Type} (g : A -> bool).

Lemma positions_cons k x T : positions_of g k (x :: T) = (if g x then [k] else []) ++ positions_of g (S k) T.
Proof. unfold positions_of. cbn [length seq zip zip_with List.filter snd]. by destruct (g x). Qed.
Lemma positions_range k T p : p ∈ positions_of g k T -> (k <= p < k + length T)%nat /\ exists x, T !! (p - k)%nat = Some x /\ g x = true.
Proof.
  revert k. induction T as [|x T IH]; intros k; [by intros []%not_elem_of_nil|]. rewrite positions_cons, elem_of_app. intros [H|H].
  - destruct (g x) eqn:E; [|by apply not_elem_of_nil in H]. apply list_elem_of_singleton in H as ->. rewrite Nat.sub_diag. cbn.
    split; [lia|by exists x].
  - destruct (IH _ H) as (Hr & y & Hy & Hg). cbn [length]. split; [lia|]. exists y. split; [|done].
    by replace (p - k)%nat with (S (p - S k)) by lia.
Qed.
Lemma positions_NoDup T : forall k, NoDup (positions_of g k T).
Proof.
  induction T as [|x T IH]; intros k; [by constructor|]. rewrite positions_cons. destruct (g x); [|apply IH]. cbn [app].
  apply list.NoDup_cons. split; [|apply IH]. intros [? _]%positions_range. lia.
Qed.
Lemma positions_lookup T : forall k (pre : list A), length pre = k -> omap (fun p => (pre ++ T) !! p) (positions_of g k T) = List.filter g T.
Proof.
  induction T as [|x T IH]; intros k pre Hk; [done|]. rewrite positions_cons. cbn [List.filter].
  specialize (IH (S k) (pre ++ [x])). rewrite <- app_assoc in IH. cbn [app] in IH. rewrite omap_app, IH by (rewrite length_app; cbn; lia).
  destruct (g x); [|done]. cbn. rewrite lookup_app_r by lia. by replace (k - length pre)%nat with 0%nat by lia.
Qed.
Lemma positions_select T : forall k (pre F : list B), length pre = k -> length F = length T ->
  omap (fun p => (pre ++ F) !! p) (positions_of g k T) = select g T F.
Proof.
  induction T as [|x T IH]; intros k pre [|y F] Hk HF; try done. rewrite positions_cons. unfold select. cbn [zip zip_with List.filter fst].
  specialize (IH (S k) (pre ++ [y]) F). rewrite <- app_assoc in IH. cbn [app] in IH.
  rewrite omap_app, IH by (first [rewrite length_app; cbn; lia|by injection HF]). destruct (g x); [|done]. cbn.
  rewrite lookup_app_r by lia. by replace (k - length pre)%nat with 0%nat by lia.
Qed.
Lemma positions_length T k : length (positions_of g k T) = length (List.filter g T).
Proof.
  revert k. induction T as [|x T IH]; intros k; [done|]. rewrite positions_cons, length_app, IH. cbn [List.filter]. by destruct (g x).
Qed.
End Selections.

Lemma positions_all {A} (g : A -> bool) T : Forall (fun x => g x = true) T -> forall k, positions_of g k T = seq k (length T).
Proof. induction 1 as [|x T Hx HT IH]; intros k; [done|]. rewrite positions_cons, Hx, IH. done. Qed.

Lemma omap_flags {B} (F fl : list B) ps : length ps = length fl -> (forall k p, ps !! k = Some p -> F !! p = fl !! k) -> omap (fun p => F !! p) ps = fl.
Proof.
  revert fl. induction ps as [|p ps IH]; intros [|f fl] Hl H; try done. cbn. rewrite (H 0%nat p eq_refl). cbn. f_equal.
  apply IH; [by injection Hl|]. intros k q Hk. exact (H (S k) q Hk).
Qed.

Lemma mark_spec ps : forall flags rejects r, NoDup ps -> Forall (fun p => (p < length rejects)%nat) ps -> mark ps flags rejects = Ok r ->
  length r = length rejects /\ (length ps <= length flags)%nat /\ (forall k p, ps !! k = Some p -> r !! p = flags !! k) /\
  (forall p, p ∉ ps -> r !! p = rejects !! p).
Proof.
  induction ps as [|p ps IH]; intros flags rejects r Hn Hlt; cbn [mark].
  - intros <-%Ok_inj. repeat split; [cbn; lia|done].
  - destruct flags as [|f flags]; [done|]. apply list.NoDup_cons in Hn as [Hp Hn]. apply Forall_cons_iff in Hlt as [Hlt1 Hlt].
    intros H. apply IH in H as (Hl & Hle & H1 & H2); [|done|by rewrite length_insert]. rewrite length_insert in Hl.
    split; [done|]. split; [cbn; lia|]. split.
    + intros [|k] q; [|apply H1]. intros [= <-]. rewrite H2 by done. by rewrite list_lookup_insert_eq.
    + intros q [Hne Hq]%list.not_elem_of_cons. rewrite H2 by done. by rewrite list_lookup_insert_ne.
Qed.

(** ** The families *)

Definition in_family (f : string) (c : Contrast) : bool := String.eqb (fc_family c) f.

Lemma families_inv (L : list (nat * Contrast)) :
  let d := fold_left add_position L [] in
  NoDup (fst <$> d) /\
  forall f, assoc_get f d = match fst <$> List.filter (fun p => in_family f (snd p)) L with [] => None | ps => Some ps end.
Proof.
  induction L as [|[p c] L IH] using rev_ind; cbn zeta; [by split; [constructor|]|].
  rewrite fold_left_app. cbn [fold_left add_position]. cbn zeta in IH. set (d := fold_left add_position L []) in *. destruct IH as [Hn IH].
  split; [by apply assoc_set_keys|]. intros f. rewrite assoc_get_set, List.filter_app, fmap_app. cbn [List.filter snd].
  unfold in_family at 2. destruct (String.eqb_spec (fc_family c) f) as [E|Hne].
  - rewrite decide_True by done. rewrite E, IH. cbn [fmap list_fmap fst].
    by destruct (fst <$> List.filter _ L).
  - rewrite decide_False by done. cbn [fmap list_fmap]. by rewrite app_nil_r, IH.
Qed.
Lemma families_elem T f ps : (f, ps) ∈ families_of T <-> ps = positions_of (in_family f) 0 T /\ ps <> [].
Proof.
  destruct (families_inv (zip (seq 0 (length T)) T)) as [Hn Hg]. fold (families_of T) in Hn, Hg.
  rewrite assoc_get_elem, Hg by done. unfold positions_of. destruct (fst <$> List.filter _ _); naive_solver.
Qed.
Lemma families_NoDup T : NoDup (fst <$> families_of T).
Proof. by destruct (families_inv (zip (seq 0 (length T)) T)). Qed.

(** ** The flags of a family *)

Section Flags.
Context `{L : Libm} `{P : Pow} (imported : bool) (alpha : float).

Definition members (f : string) (T : list Contrast) : list SchedAnalysis.Contrast := fc_stat <$> List.filter (in_family f) T.
Definition flags_of (f : string) (T : list Contrast) (sided : Z) (scores : list SchedAnalysis.Contrast -> list float) : result (list bool) :=
  holm_step_down imported (scores (members f T)) (ct_df <$> members f T) alpha sided (Some (family_size f (positions_of (in_family f) 0 T))).

Lemma stats_at_members f T : stats_at T (positions_of (in_family f) 0 T) = members f T.
Proof.
  unfold stats_at, members. rewrite <- (positions_lookup (in_family f) T 0 []) by done. cbn [app].
  induction (positions_of (in_family f) 0 T) as [|p ps IH]; [done|]. cbn. rewrite IH. by destruct (T !! p).
Qed.

Lemma family_size_positive f ps : ps <> [] -> family_size f ps <> 0.
Proof.
  intros Hne. unfold family_size. destruct (assoc_get f FAMILY_SIZES) as [k|] eqn:E; cbn [default].
  - unfold assoc_get, FAMILY_SIZES in E. cbn [List.find fst] in E. repeat (case_bool_decide; [by injection E as <-|]). done.
  - destruct ps; [done|]. cbn. lia.
Qed.
Lemma flags_length scores dfs sided m r : m <> 0 -> holm_step_down imported scores dfs alpha sided (Some m) = Ok r -> length r = length scores.
Proof.
  intros Hm. unfold holm_step_down. cbv zeta. cbn [default id]. rewrite (proj2 (Z.eqb_neq m 0)) by done.
  intros H. apply step_down_passing in H as [Hl _]; [by rewrite length_replicate in Hl|].
  apply List.Forall_forall. intros i Hi%list_elem_of_In. rewrite length_replicate. by apply score_order_elem.
Qed.

(** What a step leaves in the list of flags of one test. *)
Definition marked (T : list Contrast) (f : string) (r r' flags : list bool) : Prop :=
  length r' = length T /\ select (in_family f) T r' = flags /\ forall p, p ∉ positions_of (in_family f) 0 T -> r' !! p = r !! p.

Lemma mark_marked T f flags r r' : length r = length T -> length flags = length (positions_of (in_family f) 0 T) ->
  mark (positions_of (in_family f) 0 T) flags r = Ok r' -> marked T f r r' flags.
Proof.
  intros Hr Hl H. apply mark_spec in H as (Hr' & _ & H1 & H2); [|apply positions_NoDup|].
  - split; [by rewrite Hr'|]. split; [|done]. rewrite <- (positions_select (in_family f) T 0 [] r') by (done || by rewrite Hr').
    cbn [app]. apply omap_flags; [done|]. intros k p Hk. by apply H1.
  - apply List.Forall_forall. intros p Hp%list_elem_of_In. apply positions_range in Hp as [? _]. rewrite Hr. lia.
Qed.

Lemma family_step_marks T f rejects r : positions_of (in_family f) 0 T <> [] ->
  length (fst rejects) = length T -> length (snd rejects) = length T ->
  family_step imported T alpha rejects (f, positions_of (in_family f) 0 T) = Ok r ->
  exists a b, flags_of f T 2 abs_t = Ok a /\ flags_of f T 1 tost_scores = Ok b /\
    marked T f (fst rejects) (fst r) a /\ marked T f (snd rejects) (snd r) b.
Proof.
  intros Hne H1 H2. unfold family_step. rewrite stats_at_members.
  intros (a & Ha & (b & Hb & (r1 & Hr1 & (r2 & Hr2 & <-%Ok_inj)%rbind_Ok)%rbind_Ok)%rbind_Ok)%rbind_Ok.
  exists a, b. split; [exact Ha|]. split; [exact Hb|]. pose proof (family_size_positive f _ Hne) as Hsize.
  assert (forall scores : list SchedAnalysis.Contrast -> list float, (forall l, length (scores l) = length l) ->
    length (scores (members f T)) = length (positions_of (in_family f) 0 T)) as Hs.
  { intros scores E. by rewrite E, positions_length; unfold members; rewrite length_fmap. }
  split; apply mark_marked; try done.
  - rewrite (flags_length _ _ _ _ _ Hsize Ha). apply Hs. intros l. unfold abs_t. by rewrite length_fmap.
  - rewrite (flags_length _ _ _ _ _ Hsize Hb). apply Hs. intros l. unfold tost_scores. by rewrite length_fmap.
Qed.

Lemma positions_disjoint T f g p : p ∈ positions_of (in_family f) 0 T -> p ∈ positions_of (in_family g) 0 T -> f = g.
Proof.
  intros (_ & x & Hx & Hf)%positions_range (_ & y & Hy & Hg)%positions_range. rewrite Hx in Hy. injection Hy as <-.
  unfold in_family in *. apply String.eqb_eq in Hf, Hg. congruence.
Qed.
Lemma select_lookups T f (r r' : list bool) : length r = length T -> length r' = length T ->
  (forall p, p ∈ positions_of (in_family f) 0 T -> r' !! p = r !! p) -> select (in_family f) T r' = select (in_family f) T r.
Proof.
  intros Hr Hr' H. rewrite <- !(positions_select (in_family f) T 0 []) by done. cbn [app].
  revert H. generalize (positions_of (in_family f) 0 T). intros ps. induction ps as [|p ps IH]; intros H; [done|]. cbn.
  rewrite (H p) by (by left). rewrite IH; [done|]. intros q Hq. apply H. by right.
Qed.

(** After all families, the flags of each are those of its own correction. *)
Definition flags_stand (T : list Contrast) (f : string) (r : list bool * list bool) : Prop :=
  flags_of f T 2 abs_t = Ok (select (in_family f) T (fst r)) /\ flags_of f T 1 tost_scores = Ok (select (in_family f) T (snd r)).

Lemma families_fold T l : forall rejects r, NoDup (fst <$> l) ->
  (forall f ps, (f, ps) ∈ l -> ps = positions_of (in_family f) 0 T /\ ps <> []) ->
  length (fst rejects) = length T -> length (snd rejects) = length T ->
  foldM (family_step imported T alpha) rejects l = Ok r ->
  length (fst r) = length T /\ length (snd r) = length T /\
  (forall f, f ∈ fst <$> l -> flags_stand T f r) /\
  (forall f p, f ∉ fst <$> l -> p ∈ positions_of (in_family f) 0 T -> fst r !! p = fst rejects !! p /\ snd r !! p = snd rejects !! p).
Proof.
  induction l as [|[f ps] l IH]; intros rejects r Hn Hl H1 H2; cbn [foldM fmap list_fmap fst].
  - intros <-%Ok_inj. split; [done|]. split; [done|]. split; [by intros f []%not_elem_of_nil|done].
  - apply list.NoDup_cons in Hn as [Hf Hn]. destruct (Hl f ps (list_elem_of_here _ _)) as [-> Hne].
    intros (r1 & Hr1 & H)%rbind_Ok. apply family_step_marks in Hr1 as (a & b & Ha & Hb & (L1 & S1 & K1) & (L2 & S2 & K2)); try done.
    apply IH in H as (L1' & L2' & Hs & Hk); try done; [|by intros; apply Hl; right]. split; [done|]. split; [done|]. split.
    + intros g [->|Hg]%list.elem_of_cons; [|by apply Hs]. split.
      * rewrite Ha, <- S1. f_equal. symmetry. apply select_lookups; try done. intros p Hp. by apply (Hk f p).
      * rewrite Hb, <- S2. f_equal. symmetry. apply select_lookups; try done. intros p Hp. by apply (Hk f p).
    + intros g p [Hne' Hg]%list.not_elem_of_cons Hp. destruct (Hk g p Hg Hp) as [-> ->].
      split; [apply K1|apply K2]; intros Hp'; apply Hne'; by eapply positions_disjoint.
Qed.

(** ** The decisions *)

Lemma select_cons {A B} (g : A -> bool) x T (y : B) F : select g (x :: T) (y :: F) = if g x then y :: select g T F else select g T F.
Proof. unfold select. cbn. by destruct (g x). Qed.

Lemma select_length {A B} (g : A -> bool) T : forall F : list B, length F = length T -> length (select g T F) = length (List.filter g T).
Proof.
  induction T as [|x T IH]; intros [|y F] Hl; try done. rewrite select_cons. cbn [List.filter]. injection Hl as Hl.
  destruct (g x); cbn; by rewrite IH.
Qed.

Lemma place_select (g : Contrast -> bool) cs : forall F1 F2 ds,
  let T := List.filter (fun c => is_tested (fc_stat c)) cs in
  length F1 = length T -> length F2 = length T -> place_decisions fc_stat cs F1 F2 = Ok ds ->
  place_decisions fc_stat (List.filter g cs) (select g T F1) (select g T F2) = Ok (select g cs ds).
Proof.
  induction cs as [|c cs IH]; intros F1 F2 ds; cbn zeta; cbn [List.filter place_decisions]; [by intros _ _ <-%Ok_inj|].
  destruct (is_tested (fc_stat c)) eqn:Ec.
  - destruct F1 as [|f1 F1], F2 as [|f2 F2]; try done. intros [= H1] [= H2]. cbn [head tail default].
    intros (d & Hd & (ds' & Hds & <-%Ok_inj)%rbind_Ok)%rbind_Ok. specialize (IH _ _ _ H1 H2 Hds). rewrite !select_cons.
    destruct (g c); [|exact IH]. cbn [place_decisions]. rewrite Ec. cbn [head tail default]. rewrite Hd. cbn [rbind]. by rewrite IH.
  - intros H1 H2 (ds' & Hds & <-%Ok_inj)%rbind_Ok. specialize (IH _ _ _ H1 H2 Hds). rewrite !select_cons.
    destruct (g c); [|exact IH]. cbn [place_decisions]. rewrite Ec. by rewrite IH.
Qed.
Lemma place_untested cs F1 F2 : List.filter (fun c => is_tested (fc_stat c)) cs = [] ->
  place_decisions fc_stat cs F1 F2 = Ok ((fun c => untested_decision (fc_stat c)) <$> cs).
Proof.
  induction cs as [|c cs IH]; cbn [List.filter place_decisions]; [done|]. destruct (is_tested (fc_stat c)); [done|]. intros H. by rewrite IH.
Qed.

Lemma mark_all flags : forall pre r, length r = length flags -> mark (seq (length pre) (length flags)) flags (pre ++ r) = Ok (pre ++ flags).
Proof.
  induction flags as [|f flags IH]; intros pre [|x r] Hl; try done. injection Hl as Hl. cbn [length seq mark].
  rewrite insert_app_r_alt by lia. rewrite Nat.sub_diag. cbn.
  specialize (IH (pre ++ [f]) r Hl). rewrite length_app, <- !app_assoc in IH. cbn in IH. by rewrite Nat.add_1_r in IH.
Qed.

Lemma filter_comm {A} (f g : A -> bool) l : List.filter f (List.filter g l) = List.filter g (List.filter f l).
Proof. induction l as [|x l IH]; [done|]. cbn. destruct (f x) eqn:Ef, (g x) eqn:Eg; cbn; rewrite ?Ef, ?Eg, IH; done. Qed.

Lemma single_family f T : T <> [] -> Forall (fun c => in_family f c = true) T -> families_of T = [(f, seq 0 (length T))].
Proof.
  intros Hne Hall. pose proof (families_NoDup T) as Hn.
  assert ((f, seq 0 (length T)) ∈ families_of T) as Hin.
  { apply families_elem. rewrite positions_all by done. split; [done|]. by destruct T. }
  assert (forall g ps, (g, ps) ∈ families_of T -> g = f) as Hf.
  { intros g ps [-> Hps]%families_elem. destruct (positions_of (in_family g) 0 T) as [|p ps] eqn:E; [done|].
    assert (p ∈ positions_of (in_family g) 0 T) as (_ & x & Hx & Hg)%positions_range by (rewrite E; by left).
    rewrite List.Forall_forall in Hall. specialize (Hall x). unfold in_family in *. apply String.eqb_eq in Hg. rewrite <- Hg.
    apply String.eqb_eq, Hall, list_elem_of_In. by eapply list_elem_of_lookup_2. }
  destruct (families_of T) as [|[g ps] l]; [by apply not_elem_of_nil in Hin|].
  assert (l = []) as ->.
  { destruct l as [|[h qs] l]; [done|]. cbn [fmap list_fmap fst] in Hn. apply list.NoDup_cons in Hn as [Hn _]. destruct Hn.
    rewrite (Hf g ps) by (by left). rewrite (Hf h qs) by (by right; left). by left. }
  by apply list_elem_of_singleton in Hin as [= <- <-].
Qed.

(** The decisions of one family are those of it alone. *)
Lemma families_apart f cs ds :
  holm_decisions imported cs alpha = Ok ds ->
  holm_decisions imported (List.filter (in_family f) cs) alpha = Ok (select (in_family f) cs ds).
Proof.
  unfold holm_decisions. set (tested := fun c => is_tested (fc_stat c)). rewrite (filter_comm tested). set (T := List.filter tested cs).
  assert (forall rejects, length (fst rejects) = length T -> length (snd rejects) = length T ->
    place_decisions fc_stat cs (fst rejects) (snd rejects) = Ok ds ->
    place_decisions fc_stat (List.filter (in_family f) cs) (select (in_family f) T (fst rejects)) (select (in_family f) T (snd rejects)) =
      Ok (select (in_family f) cs ds)) as Hplace by (intros; by apply place_select).
  destruct T as [|c0 T0] eqn:ET.
  { intros H. cbn [List.filter]. cbn zeta. specialize (Hplace ([], []) eq_refl eq_refl). rewrite place_untested in Hplace by exact ET.
    specialize (Hplace H). rewrite place_untested in Hplace; [exact Hplace|]. fold tested. rewrite filter_comm. by fold T; rewrite ET. }
  rewrite <- ET in *. assert (Forall (fun c => in_family f c = true) (List.filter (in_family f) T)) as Hall.
  { apply List.Forall_forall. by intros c [_ Hc]%List.filter_In. }
  intros (rejects & Hr & Hd)%rbind_Ok.
  apply families_fold in Hr as (L1 & L2 & Hs & _); [|apply families_NoDup|by intros g ps; apply families_elem|by cbn [fst snd]; rewrite length_replicate..].
  specialize (Hplace _ L1 L2 Hd). destruct (List.filter (in_family f) T) as [|c1 T1] eqn:EF.
  { rewrite place_untested in Hplace; [done|]. fold tested. rewrite filter_comm. fold T. exact EF. }
  rewrite <- EF in *. rewrite (single_family f) by (done || by rewrite EF). cbn [foldM rbind].
  destruct (Hs f) as [Ha Hb].
  { apply list_elem_of_fmap. exists (f, positions_of (in_family f) 0 T). split; [done|]. apply families_elem. split; [done|].
    intros E. apply (f_equal length) in E. rewrite positions_length, EF in E. done. }
  unfold family_step. assert (stats_at (List.filter (in_family f) T) (seq 0 (length (List.filter (in_family f) T))) = members f T) as ->.
  { rewrite <- (positions_all (in_family f)), stats_at_members by done. unfold members. by rewrite filter_all. }
  unfold flags_of in Ha, Hb. assert (family_size f (seq 0 (length (List.filter (in_family f) T))) =
    family_size f (positions_of (in_family f) 0 T)) as -> by (unfold family_size; by rewrite length_seq, positions_length).
  rewrite Ha, Hb. cbn [rbind fst snd].
  pose proof (mark_all (select (in_family f) T (fst rejects)) [] (replicate (length (List.filter (in_family f) T)) false)) as Hm1.
  pose proof (mark_all (select (in_family f) T (snd rejects)) [] (replicate (length (List.filter (in_family f) T)) false)) as Hm2.
  rewrite select_length, length_replicate in Hm1, Hm2 by done. cbn [app length] in Hm1, Hm2. rewrite Hm1, Hm2 by done. cbn [rbind fst snd]. exact Hplace.
Qed.

(** The number of contrasts that a family is planned to have. *)
Definition planned_size (f : string) (tested : list Contrast) : Z :=
  if String.eqb f "scheduler_unlimited" then 25
  else if String.eqb f "quota_interaction" then 10
  else if String.eqb f "throttling" then 20
  else Z.of_nat (length tested).

(** A contrast with its two flags is an improvement or a regression when the
    test of no effect is rejected and its mean is beyond the band of its own
    margin, equivalent when the equivalence test is, and else inconclusive. *)
Definition decided (c : Contrast) (no_effect equivalent : bool) (d : string) : Prop :=
  exists band, math_log (fadd one (ct_effect (fc_stat c))) = Ok band /\
    d = if no_effect && fleb band (ct_mean (fc_stat c)) then "improvement"
        else if no_effect && fleb (ct_mean (fc_stat c)) (fopp band) then "regression"
        else if equivalent then "equivalent" else "inconclusive".

(** The decisions of a family corrected with its planned size: the flags of
    the two tests are those of the step-down procedure ([rejected_by]) over the
    statistics of the tested contrasts of the family. *)
Definition corrected (f : string) (cs : list Contrast) (ds : list string) : Prop :=
  let tested c := is_tested (fc_stat c) in
  let T := List.filter tested cs in
  let dfs := (fun c => ct_df (fc_stat c)) <$> T in
  length ds = length cs /\
  (forall i c, cs !! i = Some c -> tested c = false ->
     ds !! i = Some (if ct_incomplete (fc_stat c) then "incomplete" else "descriptive")) /\
  exists no_effect equivalent : list bool, length no_effect = length T /\ length equivalent = length T /\
    (forall i, no_effect !! i = Some true <->
       rejected_by (t_ppf imported) alpha 2 (planned_size f T) ((fun c => fabs (ct_t_two (fc_stat c))) <$> T) dfs i) /\
    (forall i, equivalent !! i = Some true <->
       rejected_by (t_ppf imported) alpha 1 (planned_size f T)
         ((fun c => fmin (ct_t_lower (fc_stat c)) (fopp (ct_t_upper (fc_stat c)))) <$> T) dfs i) /\
    forall i c x y, T !! i = Some c -> no_effect !! i = Some x -> equivalent !! i = Some y ->
      exists d, select tested cs ds !! i = Some d /\ decided c x y d.

Lemma place_tested cs : forall F1 F2 ds, place_decisions fc_stat cs F1 F2 = Ok ds ->
  length ds = length cs /\
  (forall i c, cs !! i = Some c -> is_tested (fc_stat c) = false ->
     ds !! i = Some (if ct_incomplete (fc_stat c) then "incomplete" else "descriptive")) /\
  forall i c x y, List.filter (fun c => is_tested (fc_stat c)) cs !! i = Some c -> F1 !! i = Some x -> F2 !! i = Some y ->
    exists d, select (fun c => is_tested (fc_stat c)) cs ds !! i = Some d /\ decided c x y d.
Proof.
  induction cs as [|c cs IH]; intros F1 F2 ds; cbn [place_decisions]; [by intros <-%Ok_inj|].
  cbn [List.filter]. destruct (is_tested (fc_stat c)) eqn:Ec.
  - intros (d & Hd & (ds' & (Hl & Hu & Ht)%IH & <-%Ok_inj)%rbind_Ok)%rbind_Ok. rewrite select_cons, Ec.
    split; [cbn; by rewrite Hl|]. split; [intros [|i] c'; [intros [= <-]; by rewrite Ec|apply Hu]|].
    intros [|i] c' x y; cbn [lookup list_lookup].
    + intros [= <-] Hx Hy. exists d. split; [done|]. apply rbind_Ok in Hd as (band & Hband & <-%Ok_inj). exists band. split; [done|].
      destruct F1, F2; try done. injection Hx as ->. by injection Hy as ->.
    + intros Hc Hx Hy. apply (Ht i c' x y); [done|by destruct F1|by destruct F2].
  - intros (ds' & (Hl & Hu & Ht)%IH & <-%Ok_inj)%rbind_Ok. rewrite select_cons, Ec. split; [cbn; by rewrite Hl|]. split; [|exact Ht].
    intros [|i] c'; [|apply Hu]. intros [= <-] _. unfold untested_decision, is_tested in *. cbn.
    destruct (ct_incomplete (fc_stat c)), (ct_descriptive (fc_stat c)); done.
Qed.

Lemma planned_family_size f T ps : length ps = length T -> family_size f ps = planned_size f T.
Proof.
  intros Hl. unfold family_size, planned_size. rewrite Hl.
  destruct (String.eqb_spec f "scheduler_unlimited") as [->|H1]; [done|].
  destruct (String.eqb_spec f "quota_interaction") as [->|H2]; [done|].
  destruct (String.eqb_spec f "throttling") as [->|H3]; [done|].
  unfold FAMILY_SIZES, assoc_get. cbn [List.find fst]. by rewrite !bool_decide_false by done.
Qed.

Lemma step_down_rejected scores dfs sided m r : m <> 0 -> holm_step_down imported scores dfs alpha sided (Some m) = Ok r ->
  length r = length scores /\ forall i, r !! i = Some true <-> rejected_by (t_ppf imported) alpha sided m scores dfs i.
Proof.
  intros Hm H. apply (holm_rejected (t_ppf imported)). unfold holm_step_down in H. cbv zeta in H. cbn [default id] in H.
  rewrite (proj2 (Z.eqb_neq m 0)) in H by done. exact H.
Qed.

Lemma marked_all T f r r' flags : Forall (fun c => in_family f c = true) T -> marked T f r r' flags -> flags = r'.
Proof.
  intros HT (Hl & <- & _). revert r' Hl. induction HT as [|c T Hc HT IH]; intros [|x r'] Hl; try done.
  rewrite select_cons, Hc. f_equal. apply IH. by injection Hl.
Qed.

Lemma single_corrected f cs ds : Forall (fun c => in_family f c = true) cs -> holm_decisions imported cs alpha = Ok ds -> corrected f cs ds.
Proof.
  intros Hall. unfold holm_decisions, corrected. cbv zeta. set (T := List.filter _ cs).
  assert (T = [] \/ T <> []) as [ET|Hne] by (destruct T; auto).
  { rewrite ET. intros <-%Ok_inj.
    destruct (place_tested cs [] [] _ (place_untested cs [] [] ET)) as (Hl & Hu & _). split; [exact Hl|]. split; [exact Hu|].
    exists [], []. do 2 (split; [done|]). unfold rejected_by.
    split_and!; [intros i; split; [done|by intros []%not_elem_of_nil]..|]. intros i c x y Hc. by rewrite lookup_nil in Hc. }
  assert (Forall (fun c => in_family f c = true) T) as HT
    by (rewrite List.Forall_forall in *; intros c [Hc _]%List.filter_In; by apply Hall).
  assert (match T with [] => Ok ((fun c => untested_decision (fc_stat c)) <$> cs) | _ :: _ =>
    let* rejects := foldM (family_step imported T alpha) (replicate (length T) false, replicate (length T) false) (families_of T) in
    place_decisions fc_stat cs (fst rejects) (snd rejects) end =
    let* rejects := foldM (family_step imported T alpha) (replicate (length T) false, replicate (length T) false) (families_of T) in
    place_decisions fc_stat cs (fst rejects) (snd rejects)) as -> by by destruct T.
  rewrite (single_family f) by done. cbn [foldM]. intros (rejects & (r & Hr & <-%Ok_inj)%rbind_Ok & Hd)%rbind_Ok.
  rewrite <- (positions_all (in_family f) T HT) in Hr.
  assert (positions_of (in_family f) 0 T <> []) as Hps by (rewrite positions_all by done; by destruct T).
  apply family_step_marks in Hr as (a & b & Ha & Hb & Hma & Hmb); [|done|by cbn [fst snd]; rewrite length_replicate..].
  apply (marked_all _ _ _ _ _ HT) in Hma as ->, Hmb as ->.
  pose proof (family_size_positive f _ Hps) as Hsize. unfold flags_of in Ha, Hb.
  assert (members f T = fc_stat <$> T) as Em by (unfold members; by rewrite filter_all).
  rewrite Em in Ha, Hb. rewrite (planned_family_size f T) in Ha, Hb, Hsize by (by rewrite positions_all, length_seq).
  apply step_down_rejected in Ha as [La Ha], Hb as [Lb Hb]; [|done..].
  unfold abs_t, tost_scores in *. rewrite <- !list_fmap_compose in *. rewrite length_fmap in La, Lb.
  destruct (place_tested _ _ _ _ Hd) as (Hl & Hu & Ht). split; [exact Hl|]. split; [exact Hu|].
  exists (fst r), (snd r). by split_and!.
Qed.

(** C15: The families are separate, each with its own planned size.  When the
    corrected decisions of a set of contrasts exist, those of the contrasts of
    one family alone exist and are the same: the decision of a contrast,
    whatever its place, depends only on the contrasts of its own family.  They
    are the decisions of Holm's step-down procedure over the statistics of the
    tested contrasts of that family, with 25 planned contrasts for the schedulers
    without a limit, 10 for the interaction with the quota, 20 for throttling, and
    the number of tested contrasts for any other family. *)
Theorem families_are_separate f cs ds :
  holm_decisions imported cs alpha = Ok ds ->
  holm_decisions imported (List.filter (in_family f) cs) alpha = Ok (select (in_family f) cs ds) /\
  corrected f (List.filter (in_family f) cs) (select (in_family f) cs ds).
Proof.
  intros H. pose proof (families_apart f cs ds H) as Hf. split; [exact Hf|]. apply single_corrected; [|exact Hf].
  apply List.Forall_forall. by intros c [_ Hc]%List.filter_In.
Qed.
End Flags.
