(* ===== verification/FactorialSize.v ===== *)
(** [linux-sched/analysis/factorial_sample_size.py]: the block counts frozen for
    the campaign with quotas.  The variance bound and the rounding are those of
    [SampleSize.v]. *)

From Stdlib Require Import ZArith Bool Ascii String Lia SpecFloat Sorted.
From stdpp Require Import base list strings option.
From S2P Require Import Prelude Eff PyStr PyText PyFloat PyCsv PyVal PyDict Json PyConv World Stats PyNormal SchedAnalysis SampleSize Factorial.

Open Scope string_scope.
Open Scope Z_scope.

Definition BALANCE : Z := 12.
Definition CONFIRMATORY_FLOOR_BLOCKS : Z := 12.

Section Plan.
Context `{L : Libm} `{P : Pow}.
Variable imported : bool.

(** Of repeated observations the last one counts. *)
Definition pilot_step (grouped : list (group_key * schedulers_of)) (o : Observation) : list (group_key * schedulers_of) :=
  let b := fo_base o in
  let key := (ob_workload b, ob_metric b, ob_direction b) in
  let schedulers := default [] (assoc_get key grouped) in
  let policies := default [] (assoc_get (ob_scheduler b) schedulers) in
  let blocks := default [] (assoc_get (fo_policy o) policies) in
  assoc_set key (assoc_set (ob_scheduler b) (assoc_set (fo_policy o) (assoc_set (ob_block b) (ob_value b) blocks) policies) schedulers) grouped.

(** A contrast; [None] for one without a policy entry. *)
Record planned_contrast : Type := { pq_base : SampleSize.planned_contrast; pq_contrast : string; pq_policy : option (option string) }.

Definition required_for_logs (metric scheduler : string) (logs : list float) : result SampleSize.planned_contrast :=
  let* sd := stdev logs in
  let n := Z.of_nat (length logs) in
  let* upper := sd_upper_bound (normal_ppf imported) sd n (flit 5 100) in
  let effect := practical_effect metric in
  let* alpha := family_alpha PRIMARY_CONTRASTS in
  let* required := required_n_paired imported sd effect alpha DEFAULT_POWER MAX_N in
  let* required_upper := required_n_paired imported upper effect alpha DEFAULT_POWER MAX_N in
  Ok {| pc_scheduler := scheduler; pc_blocks := n; pc_effect := effect; pc_sd := sd; pc_required := required; pc_upper := upper;
        pc_required_upper := required_upper |}.
Definition plan_blocks (workload metric scheduler : string) (lower : bool) (control arm : blocks_of) (contrast : string)
    (policy : option string) : result (list planned_contrast) :=
  let shared := shared_blocks control arm in
  if Z.of_nat (length shared) <? MIN_PILOT_PAIRED_BLOCKS then Raise (too_few_pairs workload scheduler (length shared))
  else
    let* logs := paired_logs control arm lower shared in
    let* c := required_for_logs metric scheduler logs in
    Ok [{| pq_base := c; pq_contrast := contrast; pq_policy := Some policy |}].

Definition plan_throttling (workload metric : string) (lower : bool) (policies : list (option string)) (control : policy_blocks)
    (scheduler : string) (arm : policy_blocks) : result (list planned_contrast) :=
  let policy := target_policy policies in
  plan_blocks workload metric scheduler lower (blocks_under policy control) (blocks_under policy arm) "throttling" policy.
Definition plan_interaction (workload metric : string) (lower : bool) (control : policy_blocks) (scheduler : string) (arm : policy_blocks)
    : result (list planned_contrast) :=
  if has_policies arm then
    let shared := interaction_blocks control arm in
    if Z.of_nat (length shared) <? MIN_PILOT_PAIRED_BLOCKS then Raise (too_few_pairs workload scheduler (length shared))
    else
      let* logs := interaction_logs control arm lower shared in
      let* c := required_for_logs metric scheduler logs in
      Ok [{| pq_base := c; pq_contrast := "performance_interaction"; pq_policy := None |}]
  else Ok [].
Definition plan_performance (workload metric : string) (lower : bool) (control : policy_blocks) (scheduler : string) (arm : policy_blocks)
    : result (list planned_contrast) :=
  let* blocks := mapM (fun item =>
    plan_blocks workload metric scheduler lower (blocks_under (fst item) control) (snd item) "performance" (fst item))
    (sort_by (fun a b => policy_leb (fst a) (fst b)) arm) in
  Ok (mjoin blocks).

(** Which contrast an arm is planned for. *)
Definition plan_arm (workload metric : string) (lower : bool) (policies : list (option string)) (control : policy_blocks)
    (arm : string * policy_blocks) : result (list planned_contrast) :=
  let '(scheduler, by_policy) := arm in
  if String.eqb scheduler CONTROL_SCHEDULER then Ok []
  else if is_throttle metric then plan_throttling workload metric lower policies control scheduler by_policy
  else if (2 <=? length policies)%nat && forallb (fun x => bool_decide (Some x ∈ policies)) POLICIES && has_policies control
  then plan_interaction workload metric lower control scheduler by_policy
  else plan_performance workload metric lower control scheduler by_policy.

Definition max_or_zero (l : list Z) : Z := match l with [] => 0 | x :: l => fold_left Z.max l x end.

Record planned_scenario : Type := {
  ps_scenario : string; ps_metric : string; ps_descriptive : bool; ps_contrasts : list planned_contrast; ps_raw : Z; ps_floored : Z;
  ps_confirmatory : option Z; ps_upper : option Z
}.
Definition plan_scenario (g : group_key * schedulers_of) : result planned_scenario :=
  let '(workload, metric, direction, schedulers) := g in
  match assoc_get CONTROL_SCHEDULER schedulers with
  | None | Some [] => Raise (Exn ValueError ("pilot for " +:+ workload +:+ "/" +:+ metric +:+ " has no control arm"))
  | Some control =>
      let* blocks := mapM (plan_arm workload metric (is_lower_better metric direction) (policies_present schedulers) control)
                       (sort_by name_order schedulers) in
      let contrasts := mjoin blocks in
      let descriptive := is_descriptive workload in
      let raw := max_or_zero ((fun c => pc_required (pq_base c)) <$> contrasts) in
      let raw_upper := max_or_zero ((fun c => pc_required_upper (pq_base c)) <$> contrasts) in
      let floored := Z.max raw CONFIRMATORY_FLOOR_BLOCKS in
      let frozen (n : Z) := if descriptive then None else Some (round_up_to_multiple n BALANCE) in
      Ok {| ps_scenario := workload; ps_metric := metric; ps_descriptive := descriptive; ps_contrasts := contrasts; ps_raw := raw;
            ps_floored := floored; ps_confirmatory := frozen floored; ps_upper := frozen (Z.max raw_upper CONFIRMATORY_FLOOR_BLOCKS) |}
  end.
Definition plan_scenarios (observations : list Observation) : result (list planned_scenario) :=
  mapM plan_scenario (sort_by key_order (fold_left pilot_step observations [])).

(** ** The record *)

Definition contrast_items (c : planned_contrast) : pydict :=
  let b := pq_base c in
  ([("scheduler", VStr (pc_scheduler b))] ++
   match pq_policy c with Some p => [("policy", opt_str p)] | None => [] end ++
   [("contrast", VStr (pq_contrast c)); ("paired_blocks", VInt (pc_blocks b)); ("effect", VFloat (pc_effect b));
    ("sd_log_ratio", round6 (pc_sd b)); ("required_n", VInt (pc_required b)); ("sd_upper95_log_ratio", round6 (pc_upper b));
    ("required_n_upper95", VInt (pc_required_upper b))])%list.
Definition scenario_items (s : planned_scenario) : pydict :=
  [("scenario", VStr (ps_scenario s)); ("metric", VStr (ps_metric s)); ("descriptive", VBool (ps_descriptive s));
   ("contrasts", VList ((fun c => VDict (contrast_items c)) <$> ps_contrasts s)); ("required_n_raw", VInt (ps_raw s));
   ("required_n_floored", VInt (ps_floored s)); ("confirmatory_blocks", opt_int (ps_confirmatory s));
   ("confirmatory_blocks_upper95", opt_int (ps_upper s)); ("balanced_multiple", VInt BALANCE)].
Definition plan (observations : list Observation) : result pydict :=
  let* scenarios := plan_scenarios observations in
  let* alpha := family_alpha PRIMARY_CONTRASTS in
  Ok [("schema_version", VInt 1); ("control_scheduler", VStr CONTROL_SCHEDULER); ("performance_effect", VFloat PERFORMANCE_EFFECT);
      ("throttle_effect", VFloat THROTTLE_EFFECT); ("practical_effect_by_metric", VDict []); ("power", VFloat DEFAULT_POWER);
      ("alpha", VFloat DEFAULT_ALPHA); ("primary_contrasts", VInt PRIMARY_CONTRASTS); ("alpha_per_contrast", VFloat alpha);
      ("min_blocks", VInt CONFIRMATORY_FLOOR_BLOCKS); ("balance_multiple", VInt BALANCE); ("policies", strings POLICIES);
      ("scenarios", VList ((fun s => VDict (scenario_items s)) <$> scenarios))].

Definition factorial_size_main `{E : Env} (pilot_blocks output : string) : M Z :=
  let! text := perform (ReadText pilot_blocks) in
  let! observations := lift (read_blocks pilot_blocks text) in
  let! record := lift (plan observations) in
  perform (MakeDirs (parent_dir output)) >>>
  perform (WriteText output (record_text record)) >>>
  ret 0.
End Plan.

(** ** What the analysis reads back

    The frozen counts of the campaign with quotas ([FactorialSize.v]) are those
    that [Factorial.v] asks for; and what its plan leaves out. *)

Lemma max_or_zero_spec l : (max_or_zero l ∈ l \/ max_or_zero l <= 0) /\ forall x, x ∈ l -> x <= max_or_zero l.
Proof.
  destruct l as [|x l]; cbn [max_or_zero]; [split; [by right|by intros x ?%not_elem_of_nil]|].
  destruct (fold_max l x) as [H1 H2]. split; [by left|done].
Qed.

Section Plan.
Context `{L : Libm} `{P : Pow} (imported : bool).

Definition count_of (s : planned_scenario) : string * string * option Z := (ps_scenario s, ps_metric s, ps_confirmatory s).
Definition frozen_well (s : planned_scenario) : Prop :=
  if ps_descriptive s then ps_confirmatory s = None
  else exists c, ps_confirmatory s = Some c /\
    least_multiple BALANCE CONFIRMATORY_FLOOR_BLOCKS ((fun c => pc_required (pq_base c)) <$> ps_contrasts s) c.

Lemma quota_plan_well g s : plan_scenario imported g = Ok s -> frozen_well s.
Proof.
  destruct g as [[[w m] d] schedulers]. unfold plan_scenario. destruct (assoc_get _ _) as [[|c0 control]|]; [done| |done].
  cbv zeta. intros (blocks & _ & <-%Ok_inj)%rbind_Ok. unfold frozen_well. cbn [ps_descriptive ps_confirmatory ps_contrasts].
  destruct (is_descriptive w); [done|]. eexists. split; [done|].
  destruct (max_or_zero_spec ((fun c => pc_required (pq_base c)) <$> mjoin blocks)) as [Hin Hle].
  apply round_up_least; [done| |done]. destruct Hin as [|Hz]; [by left|]. right. unfold CONFIRMATORY_FLOOR_BLOCKS. lia.
Qed.
Lemma quota_scenario_entry s : entry_of (ps_scenario s) (ps_metric s) (ps_confirmatory s) (json_norm false (VDict (scenario_items s))).
Proof. unfold entry_of, scenario_items. split_and!; [|done..]. by destruct (ps_confirmatory s). Qed.
Lemma quota_frozen_positive s : frozen_well s -> match ps_confirmatory s with Some c => 0 < c | None => True end.
Proof.
  unfold frozen_well. destruct (ps_descriptive s); [by intros ->|]. intros (c & -> & (_ & Hc & _) & _). unfold CONFIRMATORY_FLOOR_BLOCKS in Hc. lia.
Qed.

(** The record of a plan reads back as its counts, each the least multiple of
    twelve that reaches twelve and the counts required for its contrasts. *)
Theorem quota_counts_read observations record :
  FactorialSize.plan imported observations = Ok record -> json_wf (VDict record) = true ->
  exists scenarios required,
    plan_scenarios imported observations = Ok scenarios /\ frozen_counts_of (record_text record) = Ok required /\
    (forall w m, wanted required w m = last_count w m (count_of <$> scenarios)) /\ Forall frozen_well scenarios.
Proof.
  unfold FactorialSize.plan. intros (scenarios & Hs & (alpha & _ & <-%Ok_inj)%rbind_Ok)%rbind_Ok Hwf.
  assert (Forall frozen_well scenarios) as Hwell.
  { apply List.Forall_forall. intros s Hin%list_elem_of_In. unfold plan_scenarios in Hs. apply mapM_Ok in Hs.
    apply list_elem_of_lookup in Hin as [i Hi]. destruct (Forall2_lookup_r _ _ _ _ _ Hs Hi) as (g & _ & Hg). by eapply quota_plan_well. }
  exists scenarios, (rev ((count_of <$> scenarios) ≫= frozen_of)). split; [done|]. split; [|split; [intros w m; apply wanted_frozen|done]].
  eapply frozen_counts_text; [exact Hwf|done| |].
  - apply Forall2_fmap_2, Forall_Forall2_diag, List.Forall_forall. intros s _. apply quota_scenario_entry.
  - apply Forall_fmap. eapply List.Forall_impl; [|exact Hwell]. intros s. apply quota_frozen_positive.
Qed.
End Plan.

(** ** What the plan and the analysis disagree on *)

#[local] Existing Instance series_libm.
#[local] Existing Instance power_by_multiplication.

Definition piloted (metric policy scheduler : string) (values : list Z) : list Observation :=
  imap (fun k x => {| fo_base := {| ob_block := str_of_Z (Z.of_nat k); ob_workload := "http"; ob_metric := metric; ob_scheduler := scheduler;
                                    ob_value := flit x 100; ob_direction := None |}; fo_policy := Some policy |}) values.
Definition quota_pilot : list Observation :=
  (piloted "requests_per_s" "unlimited" "eevdf" [100; 101; 100] ++ piloted "requests_per_s" "limited" "eevdf" [90; 91; 90] ++
   piloted "requests_per_s" "unlimited" "scx_mlfq" [100; 100; 101] ++ piloted "requests_per_s" "limited" "scx_mlfq" [90; 91; 91] ++
   piloted "throttled_usec" "limited" "eevdf" [50; 51; 50] ++ piloted "throttled_usec" "limited" "scx_mlfq" [51; 52; 50])%list.
Definition planned (observations : list Observation) : list (string * string) :=
  match plan_scenarios true observations with
  | Ok l => s ← l; (fun c => (pc_scheduler (pq_base c), pq_contrast c)) <$> ps_contrasts s
  | Raise _ => []
  end.
(** [scx_mlfq] does not honour quotas: the analysis compares it without a quota
    only, while the plan is made from its interaction and its throttling. *)
Example plan_of_other_contrasts :
  honours_quota "scx_mlfq" = false /\
  planned quota_pilot = [("scx_mlfq", "performance_interaction"); ("scx_mlfq", "throttling")].
Proof. split; vm_compute; reflexivity. Qed.
