(* ===== verification/FactorialThm.v ===== *)
(** What the verdicts of the factorial analysis rest on ([Factorial.v]): the
    observations of the blocks that both arms have, their log ratios, and the
    corrected tests. *)

From Stdlib Require Import ZArith Bool Ascii String Lia SpecFloat Sorted.
From stdpp Require Import base list strings option.
From S2P Require Import Prelude PyStr PyFloat PyVal PyDict Campaign Stats PyNormal SchedAnalysis Factorial Families.

Open Scope string_scope.
Open Scope Z_scope.
#[local] Open Scope list_scope.

(** ** The grouped observations *)

(** An observation with this key, scheduler, policy, block and value. *)
Definition observed (obs : list Observation) (key : group_key) (scheduler : string) (policy : option string) (block : string) (x : float) : Prop :=
  exists o, o ∈ obs /\ (ob_workload (fo_base o), ob_metric (fo_base o), ob_direction (fo_base o)) = key /\
    ob_scheduler (fo_base o) = scheduler /\ fo_policy o = policy /\ ob_block (fo_base o) = block /\ ob_value (fo_base o) = x.

Definition value_in (grouped : list (group_key * schedulers_of)) (key : group_key) (scheduler : string) (policy : option string) (block : string) :
    option float :=
  assoc_get block (default [] (assoc_get policy (default [] (assoc_get scheduler (default [] (assoc_get key grouped)))))).

Definition blocks_wf (d : blocks_of) : Prop := dict_wf (fun _ => True) d.
Definition policies_wf (d : policy_blocks) : Prop := dict_wf blocks_wf d.
Definition schedulers_wf (d : schedulers_of) : Prop := dict_wf policies_wf d.
Definition grouped_wf (d : list (group_key * schedulers_of)) : Prop := dict_wf schedulers_wf d.

Lemma default_wf {K K' V} `{EqDecision K} `{EqDecision K'} (Q : V -> Prop) k (d : list (K * list (K' * V))) :
  dict_wf (dict_wf Q) d -> dict_wf Q (default [] (assoc_get k d)).
Proof. intros Hd. destruct (assoc_get k d) as [v|] eqn:E; [by eapply dict_wf_get|apply dict_wf_nil]. Qed.

Lemma group_step_wf grouped o grouped' : group_step grouped o = Ok grouped' -> grouped_wf grouped -> grouped_wf grouped'.
Proof.
  unfold group_step. cbv zeta. destruct (assoc_has _ _); [done|]. intros <-%Ok_inj Hw.
  repeat (apply dict_wf_set; [by repeat apply default_wf|]). done.
Qed.

Lemma group_step_value grouped o grouped' key s p b x : group_step grouped o = Ok grouped' ->
  value_in grouped' key s p b = Some x <-> value_in grouped key s p b = Some x \/ observed [o] key s p b x.
Proof.
  unfold group_step. cbv zeta. destruct (assoc_has _ _) eqn:Ehas; [done|]. intros <-%Ok_inj. apply assoc_get_none in Ehas.
  assert (observed [o] key s p b x <-> (ob_workload (fo_base o), ob_metric (fo_base o), ob_direction (fo_base o)) = key /\
    ob_scheduler (fo_base o) = s /\ fo_policy o = p /\ ob_block (fo_base o) = b /\ ob_value (fo_base o) = x) as ->.
  { split; [by intros (o' & ->%list_elem_of_singleton & H)|]. intros H. exists o. split; [by left|done]. }
  unfold value_in in *. rewrite assoc_get_set. destruct (decide (key = _)) as [->|Hne]; [|naive_solver]. cbn [default id].
  rewrite assoc_get_set. destruct (decide (s = _)) as [->|Hne]; [|naive_solver]. cbn [default id].
  rewrite assoc_get_set. destruct (decide (p = _)) as [->|Hne]; [|naive_solver]. cbn [default id].
  rewrite assoc_get_set. destruct (decide (b = _)) as [->|Hne]; [|naive_solver]. rewrite Ehas. naive_solver.
Qed.

Lemma seen_cons o obs key s p b x : observed (o :: obs) key s p b x <-> observed [o] key s p b x \/ observed obs key s p b x.
Proof.
  unfold observed. split.
  - intros (o' & [->|H]%list.elem_of_cons & H'); [left; exists o; split; [by left|done]|right; by exists o'].
  - intros [(o' & ->%list_elem_of_singleton & H)|(o' & Ho & H)]; [exists o; split; [by left|done]|exists o'; split; [by right|done]].
Qed.

Lemma group_fold obs : forall grouped grouped', foldM group_step grouped obs = Ok grouped' -> grouped_wf grouped ->
  grouped_wf grouped' /\ forall key s p b x, value_in grouped' key s p b = Some x <-> value_in grouped key s p b = Some x \/ observed obs key s p b x.
Proof.
  induction obs as [|o obs IH]; intros grouped grouped'; cbn [foldM].
  - intros <-%Ok_inj Hw. split; [done|]. intros. split; [by left|]. by intros [|(o & ?%not_elem_of_nil & _)].
  - intros (g1 & H1 & H)%rbind_Ok Hw. destruct (IH _ _ H) as [Hw' Hv]; [by eapply group_step_wf|]. split; [done|].
    intros. rewrite Hv, (group_step_value _ _ _ _ _ _ _ _ H1), (seen_cons o obs). tauto.
Qed.

Lemma grouped_observed obs grouped : group_observations obs = Ok grouped ->
  grouped_wf grouped /\ forall key s p b x, value_in grouped key s p b = Some x <-> observed obs key s p b x.
Proof.
  intros H. destruct (group_fold obs [] grouped H) as [Hw Hv]; [apply dict_wf_nil|]. split; [done|]. intros. rewrite Hv. split; [|by right].
  by intros [|].
Qed.

(** ** Pairs of blocks *)

Lemma shared_elem (a b : blocks_of) k : k ∈ shared_blocks a b <-> is_Some (assoc_get k a) /\ is_Some (assoc_get k b).
Proof.
  unfold shared_blocks. rewrite sort_by_perm, list_elem_of_In, List.filter_In, <- list_elem_of_In, assoc_has_get.
  rewrite <- (assoc_has_get k a). unfold assoc_has. rewrite existsb_exists. setoid_rewrite bool_decide_eq_true.
  split; intros [H1 H2]; (split; [|done]).
  - apply list_elem_of_fmap in H1 as (p & -> & Hp). exists p. split; [by apply list_elem_of_In|done].
  - destruct H1 as (p & Hp & ->). apply list_elem_of_fmap. exists p. split; [done|by apply list_elem_of_In].
Qed.
Lemma keys_filter_NoDup {V} (f : string -> bool) (a : list (string * V)) : NoDup (fst <$> a) -> NoDup (sort_by String.leb (List.filter f (fst <$> a))).
Proof.
  intros H. rewrite sort_by_perm. induction (fst <$> a) as [|k l IH]; [constructor|]. apply list.NoDup_cons in H as [Hk H].
  cbn [List.filter]. destruct (f k); [|by apply IH]. apply list.NoDup_cons. split; [|by apply IH].
  intros [Hin _]%list_elem_of_In%List.filter_In. apply Hk. by apply list_elem_of_In.
Qed.
Lemma shared_NoDup (a b : blocks_of) : blocks_wf a -> NoDup (shared_blocks a b).
Proof. intros [Hn _]. by apply keys_filter_NoDup. Qed.
Lemma interaction_elem control arm k : k ∈ interaction_blocks control arm <->
  forall p, p ∈ POLICIES -> is_Some (assoc_get k (blocks_under (Some p) control)) /\ is_Some (assoc_get k (blocks_under (Some p) arm)).
Proof.
  assert (forall p d x, assoc_get k (blocks_under (Some p) d) = Some x -> assoc_has (Some p) d = true) as Hhas.
  { unfold blocks_under. intros p d x. destruct (assoc_get (Some p) d) as [bs|] eqn:E; [|done]. intros _. apply assoc_has_get. by exists bs. }
  unfold interaction_blocks. destruct (has_policies control && has_policies arm) eqn:Eh.
  - assert (forall l : list string, k ∈ sort_by String.leb (List.filter (fun k => assoc_has k (blocks_under (Some "limited") control) &&
      assoc_has k (blocks_under (Some "unlimited") arm) && assoc_has k (blocks_under (Some "limited") arm)) l) <->
      k ∈ l /\ is_Some (assoc_get k (blocks_under (Some "limited") control)) /\ is_Some (assoc_get k (blocks_under (Some "unlimited") arm)) /\
      is_Some (assoc_get k (blocks_under (Some "limited") arm))) as ->.
    { intros l. rewrite sort_by_perm, list_elem_of_In, List.filter_In, <- list_elem_of_In, !andb_true_iff, !assoc_has_get. tauto. }
    assert (k ∈ fst <$> blocks_under (Some "unlimited") control <-> is_Some (assoc_get k (blocks_under (Some "unlimited") control))) as ->.
    { rewrite <- assoc_has_get. unfold assoc_has. rewrite existsb_exists. setoid_rewrite bool_decide_eq_true. rewrite list_elem_of_fmap.
      split; intros (p & H1 & H2); exists p; [split; [by apply list_elem_of_In|done]|split; [done|by apply list_elem_of_In]]. }
    split.
    + intros (H1 & H2 & H3 & H4) p [->|[->|[]%not_elem_of_nil]%list.elem_of_cons]%list.elem_of_cons; done.
    + intros H. destruct (H "unlimited") as [H1 H2]; [by left|]. destruct (H "limited") as [H3 H4]; [by right; left|]. done.
  - split; [by intros []%not_elem_of_nil|]. intros H. exfalso. assert (has_policies control && has_policies arm = true); [|congruence].
    unfold has_policies. rewrite !andb_true_iff, !List.forallb_forall.
    split; intros p Hp%list_elem_of_In; destruct (H p Hp) as [[x Hx] [y Hy]]; by eapply Hhas.
Qed.

(** ** What a contrast rests on *)

Section Basis.
Context `{L : Libm} `{P : Pow} (imported : bool) `{R : Rng}.
Variables (required : frozen_counts) (resamples seed : Z) (obs : list Observation).

(** The log ratio of a block: of the values of both arms under one policy. *)
Definition oriented (key : group_key) (scheduler : string) (policy : option string) (b : string) (l : float) : Prop :=
  exists c a, observed obs key CONTROL_SCHEDULER policy b c /\ observed obs key scheduler policy b a /\
    oriented_log_ratio c a (is_lower_better (snd (fst key)) (snd key)) = Ok l.
Definition in_both (key : group_key) (scheduler : string) (policy : option string) (b : string) : Prop :=
  (exists x, observed obs key CONTROL_SCHEDULER policy b x) /\ (exists x, observed obs key scheduler policy b x).

(** The logs of a contrast: one for each block that both arms have, under the
    policy of the contrast, or under both policies for an interaction. *)
Definition basis (key : group_key) (scheduler contrast : string) (policy : option string) (logs : list float) : Prop :=
  exists blocks, NoDup blocks /\
    if String.eqb contrast "performance_interaction" then
      policy = None /\
      (forall b, b ∈ blocks <-> forall p, p ∈ POLICIES -> in_both key scheduler (Some p) b) /\
      Forall2 (fun b l => exists u v, oriented key scheduler (Some "unlimited") b u /\ oriented key scheduler (Some "limited") b v /\ l = fsub v u)
        blocks logs
    else
      (forall b, b ∈ blocks <-> in_both key scheduler policy b) /\ Forall2 (oriented key scheduler policy) blocks logs.

(** The three kinds of contrasts and their families. *)
Definition kind_ok (metric scheduler contrast family : string) : Prop :=
  (contrast = "throttling" /\ family = FAMILY_THROTTLING /\ is_throttle metric = true /\ honours_quota scheduler = true) \/
  (contrast = "performance" /\ family = FAMILY_SCHEDULER_UNLIMITED /\ is_throttle metric = false) \/
  (contrast = "performance_interaction" /\ family = FAMILY_QUOTA_INTERACTION /\ is_throttle metric = false /\ honours_quota scheduler = true).

Definition rests (workload metric scheduler contrast : string) (policy : option string) (family : string) (logs : list float) : Prop :=
  (exists direction, basis (workload, metric, direction) scheduler contrast policy logs) /\ scheduler <> CONTROL_SCHEDULER /\
  kind_ok metric scheduler contrast family /\ (3 <= length logs)%nat.

Definition stat_ok (c : Contrast) : Prop :=
  let s := fc_stat c in
  exists logs, rests (ct_workload s) (ct_metric s) (ct_scheduler s) (fc_contrast c) (fc_policy c) (fc_family c) logs /\
    falls_short required (ct_workload s) (ct_metric s) (length logs) = false /\
    contrast_of (ct_workload s) (ct_metric s) (ct_scheduler s) logs (practical_effect (ct_metric s)) false = Ok s.
Definition unfinished_ok (v : Verdict) : Prop :=
  let s := fv_base v in
  exists logs, rests (vd_workload s) (vd_metric s) (vd_scheduler s) (fv_contrast v) (fv_policy v) (fv_family v) logs /\
    falls_short required (vd_workload s) (vd_metric s) (length logs) = true /\
    incomplete_verdict (vd_workload s) (vd_metric s) (vd_scheduler s) logs (practical_effect (vd_metric s)) false = Ok s.
Definition pass_ok (p : pass) : Prop := Forall unfinished_ok (ps_verdicts p) /\ Forall (fun c => stat_ok (fst c)) (ps_stats p).

Lemma skip_ok e p : pass_ok p -> pass_ok (skip e p).
Proof. done. Qed.

Lemma contrast_of_names w m s logs e d c : contrast_of w m s logs e d = Ok c ->
  ct_workload c = w /\ ct_metric c = m /\ ct_scheduler c = s /\ ct_n c = Z.of_nat (length logs) /\ ct_effect c = e /\ ct_descriptive c = d /\
  ct_incomplete c = false /\ fmean_any logs = Ok (ct_mean c).
Proof.
  unfold contrast_of. cbv zeta. intros (mean & Hm & (sd & _ & (root & _ & (se & _ & H)%rbind_Ok)%rbind_Ok)%rbind_Ok)%rbind_Ok.
  apply rbind_Ok in H as (lo & _ & (hi & _ & (t2 & _ & (tl & _ & (tu & _ & <-%Ok_inj)%rbind_Ok)%rbind_Ok)%rbind_Ok)%rbind_Ok). done.
Qed.
Lemma incomplete_names w m s logs e d v : incomplete_verdict w m s logs e d = Ok v ->
  vd_workload v = w /\ vd_metric v = m /\ vd_scheduler v = s /\ vd_blocks v = Z.of_nat (length logs) /\ vd_effect v = e /\
  vd_decision v = "incomplete" /\ exists mean, fmean_any logs = Ok mean /\ math_exp mean = Ok (vd_ratio v).
Proof. unfold incomplete_verdict. intros (mean & Hm & (ratio & Hr & <-%Ok_inj)%rbind_Ok)%rbind_Ok. repeat split. by exists mean. Qed.

Lemma append_ok w m s logs contrast policy family p p' : rests w m s contrast policy family logs -> pass_ok p ->
  append_contrast required resamples seed w m s logs contrast policy family p = Ok p' -> pass_ok p'.
Proof.
  intros Hrest [Hv Hs]. unfold append_contrast. cbv zeta. destruct (falls_short required w m (length logs)) eqn:Ef.
  - intros (v & Hinc & <-%Ok_inj)%rbind_Ok. split; [|done]. apply Forall_app. split; [done|]. constructor; [|constructor].
    destruct (incomplete_names _ _ _ _ _ _ _ Hinc) as (<- & <- & <- & _). by exists logs.
  - intros (c & Hc & (means & _ & (bounds & _ & <-%Ok_inj)%rbind_Ok)%rbind_Ok)%rbind_Ok. split; [done|]. apply Forall_app. split; [done|].
    constructor; [|constructor]. destruct (contrast_of_names _ _ _ _ _ _ _ Hc) as (<- & <- & <- & _). by exists logs.
Qed.

(** ** The arms of a group *)

Variables (grouped : list (group_key * schedulers_of)).
Hypothesis Hgrouped : group_observations obs = Ok grouped.

(** The blocks of [d] are those that were observed of this scheduler. *)
Definition arm_of (key : group_key) (scheduler : string) (d : policy_blocks) : Prop :=
  policies_wf d /\ forall p b x, assoc_get b (blocks_under p d) = Some x <-> observed obs key scheduler p b x.

Lemma group_arm key schedulers scheduler d : (key, schedulers) ∈ grouped -> (scheduler, d) ∈ schedulers -> arm_of key scheduler d.
Proof.
  destruct (grouped_observed _ _ Hgrouped) as [Hw Hv]. intros Hk Hs. pose proof (proj2 Hw _ _ Hk) as Hws.
  split; [by apply (proj2 Hws _ _ Hs)|]. intros p b x. rewrite <- Hv. unfold value_in, blocks_under.
  apply (dict_wf_elem _ _ _ _ Hw) in Hk. apply (dict_wf_elem _ _ _ _ Hws) in Hs. rewrite Hk. cbn [default id]. by rewrite Hs.
Qed.

Lemma arm_some key scheduler d p b : arm_of key scheduler d -> is_Some (assoc_get b (blocks_under p d)) <-> exists x, observed obs key scheduler p b x.
Proof. intros [_ H]. split; intros [x Hx]; exists x; by apply H. Qed.
Lemma arm_value key scheduler d p b x : arm_of key scheduler d -> block_value (blocks_under p d) b = Ok x -> observed obs key scheduler p b x.
Proof.
  intros [_ H]. unfold block_value. destruct (assoc_get b (blocks_under p d)) as [y|] eqn:E; [|done]. intros <-%Ok_inj. by apply H.
Qed.
Lemma arm_blocks_wf key scheduler d p : arm_of key scheduler d -> blocks_wf (blocks_under p d).
Proof. intros [Hw _]. by apply default_wf. Qed.

Section Arms.
Variables (key : group_key) (scheduler : string) (control arm : policy_blocks).
Hypotheses (Hcontrol : arm_of key CONTROL_SCHEDULER control) (Harm : arm_of key scheduler arm) (Hother : scheduler <> CONTROL_SCHEDULER).
#[local] Notation lower := (is_lower_better (snd (fst key)) (snd key)).

Lemma logs_oriented p b l :
  (let* c := block_value (blocks_under p control) b in let* a := block_value (blocks_under p arm) b in oriented_log_ratio c a lower) = Ok l ->
  oriented key scheduler p b l.
Proof. intros (c & Hc & (a & Ha & Hl)%rbind_Ok)%rbind_Ok. exists c, a. split_and!; [by eapply arm_value..|done]. Qed.

Lemma shared_basis contrast p logs : contrast <> "performance_interaction" ->
  paired_logs (blocks_under p control) (blocks_under p arm) lower (shared_blocks (blocks_under p control) (blocks_under p arm)) = Ok logs ->
  basis key scheduler contrast p logs.
Proof.
  intros Hne Hl. exists (shared_blocks (blocks_under p control) (blocks_under p arm)).
  split; [by eapply shared_NoDup, arm_blocks_wf|]. rewrite (proj2 (String.eqb_neq _ _)) by done. split.
  - intros b. rewrite shared_elem. unfold in_both. by rewrite (arm_some _ _ _ _ _ Hcontrol), (arm_some _ _ _ _ _ Harm).
  - apply mapM_Ok in Hl. eapply Forall2_impl; [|exact Hl]. intros b l. apply logs_oriented.
Qed.
Lemma interaction_basis logs : interaction_logs control arm lower (interaction_blocks control arm) = Ok logs ->
  basis key scheduler "performance_interaction" None logs.
Proof.
  intros Hl. exists (interaction_blocks control arm). split.
  { unfold interaction_blocks. destruct (_ && _); [|constructor]. apply keys_filter_NoDup. by apply (arm_blocks_wf _ _ _ (Some "unlimited") Hcontrol). }
  rewrite String.eqb_refl. split; [done|]. split.
  - intros b. rewrite interaction_elem. unfold in_both.
    split; intros H p Hp; specialize (H p Hp); by rewrite <- ?(arm_some _ _ _ _ _ Hcontrol), <- ?(arm_some _ _ _ _ _ Harm) in *.
  - apply mapM_Ok in Hl. eapply Forall2_impl; [|exact Hl]. cbn beta.
    intros b l (c & Hc & (a & Ha & (u & Hu & (c' & Hc' & (a' & Ha' & (v & Hv & <-%Ok_inj)%rbind_Ok)%rbind_Ok)%rbind_Ok)%rbind_Ok)%rbind_Ok)%rbind_Ok.
    exists u, v. split_and!; [| |done]; apply logs_oriented; [by rewrite Hc; cbn; rewrite Ha|by rewrite Hc'; cbn; rewrite Ha'].
Qed.

Lemma key_eta (k : group_key) : (fst (fst k), snd (fst k), snd k) = k.
Proof. by destruct k as [[w m] d]. Qed.
Lemma Forall2_long {A B} (Q : A -> B -> Prop) l k : Forall2 Q l k -> (Z.of_nat (length l) <? MIN_BLOCKS_FOR_VERDICT) = false -> (3 <= length k)%nat.
Proof. intros H%Forall2_length. unfold MIN_BLOCKS_FOR_VERDICT. rewrite Z.ltb_ge. lia. Qed.

Lemma compare_blocks_ok contrast p family acc acc' : contrast <> "performance_interaction" ->
  kind_ok (snd (fst key)) scheduler contrast family -> pass_ok acc ->
  compare_blocks required resamples seed (fst (fst key)) (snd (fst key)) scheduler lower (blocks_under p control) (blocks_under p arm)
    contrast p family acc = Ok acc' -> pass_ok acc'.
Proof.
  intros Hne Hk Hp. unfold compare_blocks. cbv zeta. destruct (Z.of_nat _ <? _) eqn:El; [by intros <-%Ok_inj|].
  intros (logs & Hl & H)%rbind_Ok. eapply append_ok; [|exact Hp|exact H]. split; [|split; [done|split; [done|]]].
  - exists (snd key). rewrite key_eta. by apply shared_basis.
  - apply mapM_Ok in Hl. by eapply Forall2_long.
Qed.

Lemma compare_performance_ok policies acc acc' : is_throttle (snd (fst key)) = false -> pass_ok acc ->
  compare_performance required resamples seed (fst (fst key)) (snd (fst key)) scheduler lower policies control arm acc = Ok acc' -> pass_ok acc'.
Proof.
  intros Ht Hp. assert (kind_ok (snd (fst key)) scheduler "performance" FAMILY_SCHEDULER_UNLIMITED) as Hk by (right; by left).
  pose proof (compare_blocks_ok "performance" (Some "unlimited") FAMILY_SCHEDULER_UNLIMITED acc acc' ltac:(done) Hk Hp) as Hu.
  assert ((if (length policies <=? 1)%nat then
        foldM (fun p item =>
          compare_blocks required resamples seed (fst (fst key)) (snd (fst key)) scheduler lower (blocks_under (fst item) control) (snd item)
            "performance" (fst item) FAMILY_SCHEDULER_UNLIMITED p) acc (sort_by (fun a b => policy_leb (fst a) (fst b)) arm)
      else Ok acc) = Ok acc' -> pass_ok acc') as Hlegacy.
  { destruct (length policies <=? 1)%nat; [|by intros <-%Ok_inj]. apply foldM_inv; [|done]. intros p1 [policy bs] p2 Hin H1.
    cbn [fst snd]. assert (bs = blocks_under policy arm) as ->; [|by apply compare_blocks_ok].
    rewrite sort_by_perm in Hin. apply (dict_wf_elem _ _ _ _ (proj1 Harm)) in Hin. unfold blocks_under. by rewrite Hin. }
  unfold compare_performance. cbv zeta. destruct (blocks_under (Some "unlimited") control); [exact Hlegacy|].
  by destruct (blocks_under (Some "unlimited") arm).
Qed.

Lemma compare_interaction_ok policies acc acc' : is_throttle (snd (fst key)) = false -> pass_ok acc ->
  compare_interaction required resamples seed (fst (fst key)) (snd (fst key)) scheduler lower policies control arm acc = Ok acc' -> pass_ok acc'.
Proof.
  intros Ht Hp. unfold compare_interaction. cbv zeta. destruct (honours_quota scheduler && _ && _ && _ && _) eqn:Eh; [|by intros <-%Ok_inj].
  repeat apply andb_prop in Eh as [Eh _]. destruct (Z.of_nat _ <? _) eqn:El; [by intros <-%Ok_inj|].
  intros (logs & Hl & H)%rbind_Ok. eapply append_ok; [|exact Hp|exact H]. split; [|split; [done|split; [by right; right|]]].
  - exists (snd key). rewrite key_eta. by apply interaction_basis.
  - apply mapM_Ok in Hl. by eapply Forall2_long.
Qed.
End Arms.

Lemma compare_group_ok acc g acc' : g ∈ grouped -> pass_ok acc -> compare_group required resamples seed acc g = Ok acc' -> pass_ok acc'.
Proof.
  destruct g as [[[workload metric] direction] schedulers]. intros Hg Hp. unfold compare_group.
  destruct (assoc_get CONTROL_SCHEDULER schedulers) as [[|c0 control0]|] eqn:Ec; [by intros <-%Ok_inj| |by intros <-%Ok_inj].
  set (control := c0 :: control0) in *. set (key := (workload, metric, direction)) in *.
  pose proof (proj2 (proj1 (grouped_observed _ _ Hgrouped)) _ _ Hg) as Hws.
  assert (arm_of key CONTROL_SCHEDULER control) as Hcontrol.
  { eapply group_arm; [exact Hg|]. by apply (dict_wf_elem _ _ _ _ Hws). }
  apply foldM_inv; [|done]. intros p1 [scheduler arm] p2 Hin H1. rewrite sort_by_perm in Hin. pose proof (group_arm _ _ _ _ Hg Hin) as Harm.
  unfold compare_arm. destruct (String.eqb_spec scheduler CONTROL_SCHEDULER) as [|Hne]; [by intros <-%Ok_inj|].
  destruct (is_throttle metric) eqn:Et.
  - unfold compare_throttling. destruct (honours_quota scheduler) eqn:Eq; cbn [negb]; [|by intros <-%Ok_inj]. cbv zeta.
    apply (compare_blocks_ok key scheduler control arm Hcontrol Harm Hne); [done|by left|done].
  - intros (p3 & H3 & H4)%rbind_Ok.
    eapply (compare_interaction_ok key scheduler control arm Hcontrol Harm Hne); [done| |exact H4].
    by eapply (compare_performance_ok key scheduler control arm Hcontrol Harm Hne).
Qed.
End Basis.

(** ** The verdicts *)

Section Verdicts.
Context `{L : Libm} `{P : Pow} (imported : bool) `{R : Rng}.
Variables (required : frozen_counts) (resamples seed : Z) (obs : list Observation).

(** A decision of a tested contrast: an effect is claimed only for a mean
    beyond the practical effect. *)
Definition fits (c : Contrast) (d : string) : Prop :=
  exists band, math_log (fadd one (ct_effect (fc_stat c))) = Ok band /\
    ((d = "improvement" /\ fleb band (ct_mean (fc_stat c)) = true) \/ (d = "regression" /\ fleb (ct_mean (fc_stat c)) (fopp band) = true) \/
     d = "equivalent" \/ d = "inconclusive").

Lemma place_fits cs : forall F1 F2 ds, place_decisions fc_stat cs F1 F2 = Ok ds ->
  Forall2 (fun c d => is_tested (fc_stat c) = true -> fits c d) cs ds.
Proof.
  induction cs as [|c cs IH]; intros F1 F2 ds; cbn [place_decisions]; [by intros <-%Ok_inj|]. destruct (is_tested (fc_stat c)) eqn:Et.
  - intros (d & Hd & (ds' & Hds & <-%Ok_inj)%rbind_Ok)%rbind_Ok. constructor; [|by eapply IH]. intros _.
    unfold corrected_decision in Hd. apply rbind_Ok in Hd as (band & Hb & <-%Ok_inj). exists band. split; [done|].
    destruct (_ && fleb band _) eqn:E1; [apply andb_prop in E1 as [_ ?]; by left|].
    destruct (_ && fleb _ (fopp band)) eqn:E2; [apply andb_prop in E2 as [_ ?]; by right; left|]. right; right. destruct (default false (head F2)); [by left|by right].
  - intros (ds' & Hds & <-%Ok_inj)%rbind_Ok. constructor; [|by eapply IH]. congruence.
Qed.
Lemma untested_fits (cs : list Contrast) : List.filter (fun c => is_tested (fc_stat c)) cs = [] ->
  Forall2 (fun c d => is_tested (fc_stat c) = true -> fits c d) cs ((fun c => untested_decision (fc_stat c)) <$> cs).
Proof.
  induction cs as [|c cs IH]; cbn [List.filter fmap list_fmap]; [constructor|]. destruct (is_tested (fc_stat c)) eqn:E; [done|].
  intros H. constructor; [congruence|by apply IH].
Qed.
Lemma holm_fits cs alpha ds : holm_decisions imported cs alpha = Ok ds -> Forall2 (fun c d => is_tested (fc_stat c) = true -> fits c d) cs ds.
Proof.
  unfold holm_decisions. cbv zeta. destruct (List.filter _ cs) as [|c0 T] eqn:ET; [intros <-%Ok_inj; by apply untested_fits|].
  intros (rejects & _ & H)%rbind_Ok. by eapply place_fits.
Qed.

(** The verdict of a contrast and its decision. *)
Definition concludes (cd : Contrast * string) (v : Verdict) : Prop :=
  let '(c, d) := cd in let s := fc_stat c in let w := fv_base v in
  vd_workload w = ct_workload s /\ vd_metric w = ct_metric s /\ vd_scheduler w = ct_scheduler s /\ vd_blocks w = ct_n s /\
  vd_effect w = ct_effect s /\ vd_decision w = d /\ math_exp (ct_mean s) = Ok (vd_ratio w) /\
  fv_contrast v = fc_contrast c /\ fv_policy v = fc_policy c /\ fv_family v = fc_family c.

Lemma second_pass_concludes alpha stats : forall ds vs, length ds = length stats -> second_pass imported alpha stats ds = Ok vs ->
  Forall2 concludes (zip (fst <$> stats) ds) vs.
Proof.
  induction stats as [|[c boot] stats IH]; intros [|d ds] vs Hl; try done; cbn [second_pass]; [by intros <-%Ok_inj|].
  intros (v & Hv & (vs' & Hvs & <-%Ok_inj)%rbind_Ok)%rbind_Ok. cbn [fmap list_fmap fst zip zip_with]. constructor; [|apply IH; [by injection Hl|done]].
  unfold verdict_of in Hv. cbv zeta in Hv.
  apply rbind_Ok in Hv as (a2 & _ & (t & _ & (ratio & Hr & (low & _ & (high & _ & <-%Ok_inj)%rbind_Ok)%rbind_Ok)%rbind_Ok)%rbind_Ok). done.
Qed.

Lemma stat_tested c : stat_ok required obs c -> is_tested (fc_stat c) = true.
Proof. intros (logs & _ & _ & Hc). apply contrast_of_names in Hc as (_ & _ & _ & _ & _ & Hd & Hi & _). unfold is_tested. by rewrite Hd, Hi. Qed.

(** C14: The verdicts of the factorial analysis.  When the analysis succeeds, its
    verdicts are those of the unfinished comparisons, which have fewer blocks
    than were frozen for them, followed by one for each tested contrast, whose
    decision is that of Holm's correction over the contrasts.  Each rests on at
    least three blocks, exactly those observed of both arms under the policy of
    the contrast (under both policies for an interaction), and on their oriented
    log ratios, of which the reported ratio is the exponential of the mean; an
    improvement or a regression is claimed only beyond the practical effect, and
    throttling and interactions only for schedulers that honour quotas. *)
Theorem factorial_verdicts alpha r :
  analyse imported required resamples seed obs alpha = Ok r ->
  exists unfinished concluded contrasts decisions,
    verdicts r = unfinished ++ concluded /\ Forall (unfinished_ok required obs) unfinished /\
    Forall (stat_ok required obs) contrasts /\ holm_decisions imported contrasts alpha = Ok decisions /\
    Forall2 fits contrasts decisions /\ Forall2 concludes (zip contrasts decisions) concluded.
Proof.
  unfold analyse. intros (p & Hp & (ds & Hd & (vs & Hv & <-%Ok_inj)%rbind_Ok)%rbind_Ok)%rbind_Ok. cbn [verdicts].
  unfold first_pass in Hp. apply rbind_Ok in Hp as (grouped & Hg & Hp).
  assert (pass_ok required obs p) as [Hu Hs].
  { revert Hp. apply foldM_inv; [|by split]. intros p1 g p2 Hin H1. rewrite sort_by_perm in Hin.
    by apply (compare_group_ok required resamples seed obs grouped Hg). }
  exists (ps_verdicts p), vs, (fst <$> ps_stats p), ds. split; [done|]. split; [done|].
  assert (Forall (stat_ok required obs) (fst <$> ps_stats p)) as Hs' by (by apply Forall_fmap). split; [done|]. split; [done|].
  pose proof (holm_fits _ _ _ Hd) as Hf. split.
  - apply Forall2_same_length_lookup. split; [by eapply Forall2_length|]. intros i c d Hc Hdi.
    apply (Forall2_lookup_lr _ _ _ _ _ _ Hf Hc Hdi), stat_tested. exact (proj1 (Forall_lookup _ _) Hs' _ _ Hc).
  - apply second_pass_concludes with (alpha := alpha); [|done]. apply Forall2_length in Hf. by rewrite length_fmap in Hf.
Qed.
End Verdicts.

(** ** A small campaign

    A campaign for the theorems on the factorial analysis: two workloads,
    three arms, two policies and four blocks; what the analysis decides on it,
    and inputs that end it. *)

#[local] Existing Instance series_libm.
#[local] Existing Instance power_by_multiplication.
#[local] Instance lab_rng : Rng.
Proof. refine {| randbelow := fun _ k n => (7 * k + 3) mod n |}%nat. intros _ k n Hn. by apply Nat.mod_upper_bound, not_eq_sym, Nat.lt_neq. Defined.

Definition seen (workload metric scheduler policy block : string) (x : float) : Observation :=
  {| fo_base := {| ob_block := block; ob_workload := workload; ob_metric := metric; ob_scheduler := scheduler; ob_value := x;
                   ob_direction := None |}; fo_policy := Some policy |}.
(** Values per block: of the control, and of [scx_lavd] and [scx_mlfq]. *)
Definition rows_of (workload metric policy : string) (values : list (string * (Z * Z * Z))) : list Observation :=
  v ← values; let '(block, (c, a, b)) := v in
  [seen workload metric "eevdf" policy block (flit c 100); seen workload metric "scx_lavd" policy block (flit a 100);
   seen workload metric "scx_mlfq" policy block (flit b 100)].
Definition lab_observations : list Observation :=
  (rows_of "http" "requests_per_s" "unlimited" [("b1", (100, 131, 101)); ("b2", (100, 130, 99)); ("b3", (101, 132, 101)); ("b4", (99, 130, 100))] ++
   rows_of "http" "requests_per_s" "limited" [("b1", (90, 92, 91)); ("b2", (91, 93, 91)); ("b3", (90, 93, 90)); ("b4", (90, 92, 91))] ++
   rows_of "http" "throttled_period_ratio" "limited" [("b1", (20, 26, 20)); ("b2", (21, 27, 21)); ("b3", (20, 27, 20)); ("b4", (21, 28, 20))] ++
   rows_of "video" "frames_per_s" "unlimited" [("b1", (50, 51, 50)); ("b2", (50, 50, 50)); ("b3", (51, 51, 50)); ("b4", (50, 50, 51))])%list.
Definition lab_required : frozen_counts := [((VStr "video", VStr "frames_per_s"), 12)].

Definition no_result : AnalysisResult := {| verdicts := []; skipped := [] |}.
(** The result of an analysis that succeeds. *)
Definition factorial_result_of (obs : list Observation) : AnalysisResult :=
  match analyse true lab_required 20 1 obs DEFAULT_ALPHA with Ok r => r | Raise _ => no_result end.
Lemma result_ok obs : is_ok (analyse true lab_required 20 1 obs DEFAULT_ALPHA) = true ->
  analyse true lab_required 20 1 obs DEFAULT_ALPHA = Ok (factorial_result_of obs).
Proof. unfold factorial_result_of. by destruct (analyse true lab_required 20 1 obs DEFAULT_ALPHA). Qed.
Lemma factorial_lab_succeeds : is_ok (analyse true lab_required 20 1 lab_observations DEFAULT_ALPHA) = true.
Proof. vm_compute. reflexivity. Qed.

(** The decisions of the campaign: an improvement that the quota takes away,
    more throttling, and a scenario without its frozen blocks. *)
Definition decided (v : Verdict) : string * string * string := (vd_scheduler (fv_base v), fv_family v, vd_decision (fv_base v)).
Example lab_decisions :
  decided <$> verdicts (factorial_result_of lab_observations) =
    [("scx_lavd", FAMILY_SCHEDULER_UNLIMITED, "incomplete"); ("scx_mlfq", FAMILY_SCHEDULER_UNLIMITED, "incomplete");
     ("scx_lavd", FAMILY_SCHEDULER_UNLIMITED, "improvement"); ("scx_lavd", FAMILY_QUOTA_INTERACTION, "regression");
     ("scx_mlfq", FAMILY_SCHEDULER_UNLIMITED, "equivalent"); ("scx_lavd", FAMILY_THROTTLING, "regression")].
Proof. vm_compute. reflexivity. Qed.

Lemma factorial_verdicts_witness :
  exists unfinished concluded contrasts decisions,
    verdicts (factorial_result_of lab_observations) = (unfinished ++ concluded)%list /\ Forall (unfinished_ok lab_required lab_observations) unfinished /\
    Forall (stat_ok lab_required lab_observations) contrasts /\ holm_decisions true contrasts DEFAULT_ALPHA = Ok decisions /\
    Forall2 fits contrasts decisions /\ Forall2 concludes (zip contrasts decisions) concluded.
Proof.
  exact (factorial_verdicts true lab_required 20 1 lab_observations DEFAULT_ALPHA _ (result_ok lab_observations factorial_lab_succeeds)).
Defined.

(** Contrasts of two families. *)
Definition contrast (family scheduler : string) (mean t : Z) : Contrast :=
  {| fc_stat := {| ct_workload := "http"; ct_metric := "requests_per_s"; ct_scheduler := scheduler; ct_n := 8; ct_df := 7; ct_mean := flit mean 100;
                   ct_sd := flit 1 100; ct_se := flit 1 100; ct_t_two := flit t 10; ct_t_lower := flit (t + 50) 10; ct_t_upper := flit (t - 50) 10;
                   ct_effect := flit 5 100; ct_descriptive := false; ct_incomplete := false |};
     fc_contrast := "performance"; fc_policy := None; fc_family := family |}.
Definition lab_contrasts : list Contrast :=
  [contrast FAMILY_SCHEDULER_UNLIMITED "scx_lavd" 9 90; contrast FAMILY_QUOTA_INTERACTION "scx_lavd" (-8) (-80);
   contrast FAMILY_SCHEDULER_UNLIMITED "scx_mlfq" 1 12; contrast FAMILY_QUOTA_INTERACTION "scx_mavd" 6 31].

Lemma families_are_separate_witness :
  holm_decisions true (List.filter (in_family FAMILY_QUOTA_INTERACTION) lab_contrasts) DEFAULT_ALPHA = Ok ["regression"; "inconclusive"] /\
  corrected true DEFAULT_ALPHA "quota_interaction" (List.filter (in_family "quota_interaction") lab_contrasts) ["regression"; "inconclusive"].
Proof.
  assert (holm_decisions true lab_contrasts DEFAULT_ALPHA = Ok ["improvement"; "regression"; "inconclusive"; "inconclusive"]) as H
    by (vm_compute; reflexivity).
  exact (families_are_separate true DEFAULT_ALPHA FAMILY_QUOTA_INTERACTION _ _ H).
Defined.

(** ** What ends the analysis *)

(** A block that was not throttled has the ratio zero, which has no logarithm. *)
Example unthrottled_block_ends_analysis :
  analyse true [] 20 1
    (rows_of "http" "throttled_period_ratio" "limited" [("b1", (20, 10, 20)); ("b2", (21, 0, 21)); ("b3", (20, 10, 20))]) DEFAULT_ALPHA =
  Raise (Exn ValueError "metric values must be strictly positive").
Proof. vm_compute. reflexivity. Qed.

(** [nan] is read as a value, passes the test for positive values and has no
    standard deviation. *)
Example nan_ends_analysis :
  analyse true [] 20 1
    ([seen "http" "requests_per_s" "scx_lavd" "unlimited" "b4" S754_nan; seen "http" "requests_per_s" "eevdf" "unlimited" "b4" one] ++
     rows_of "http" "requests_per_s" "unlimited" [("b1", (20, 10, 20)); ("b2", (21, 10, 21)); ("b3", (20, 10, 20))]) DEFAULT_ALPHA =
  Raise (Exn AttributeError "numerator").
Proof. vm_compute. reflexivity. Qed.

(** Without [sched_analysis] the module's own copy of the normal quantile is
    used, which does not divide in the tails. *)
Example copied_quantile_differs :
  (match normal_ppf true (flit 1 100), normal_ppf false (flit 1 100) with
   | Ok a, Ok b => fltb a (flit (-23) 10) && fltb (flit (-24) 10) a && fltb b (flit (-100) 10)
   | _, _ => false
   end) = true.
Proof. vm_compute. reflexivity. Qed.
