(* ===== verification/PruneData.v ===== *)
(** [linux-sched/analysis/prune_data.py]: which raw evidence of old blocks is
    removed from the data of a campaign, and that nothing else ever is.

    Files are those of [Fs.v], where a path has no links; [rglob] and [iterdir]
    list a directory in an order of their own. *)

From Stdlib Require Import ZArith Bool Ascii String Lia SpecFloat Sorted.
From stdpp Require Import base list strings option gmap.
From S2P Require Import Prelude Eff PyStr PyFloat Json Stats StatsThm Fs.

Open Scope string_scope.
Open Scope Z_scope.

Definition BULK_PATTERNS : list string := ["perf.data*"; "sched-trace.csv.gz"; "sched-trace.txt*"].
Definition NEVER_REMOVE : list string := ["blocks.csv"; "analysis"].

(** [p.name] *)
Definition name_of (p : path) : string := default "" (list.last p).
(** A name against a pattern: a star at the end stands for any text. *)
Definition matches (pattern name : string) : bool :=
  if endswith "*" pattern then startswith (str_take (String.length pattern - 1) pattern) name else String.eqb name pattern.
(** [sorted] on paths: part by part. *)
Fixpoint path_leb (a b : path) : bool :=
  match a, b with
  | [], _ => true
  | _ :: _, [] => false
  | x :: a, y :: b => if String.eqb x y then path_leb a b else String.leb x y
  end.
(** [p.rglob("*")] *)
Definition below (p : path) (m : fs) : list path :=
  List.filter (fun k => bool_decide (p `prefix_of` k) && negb (bool_decide (k = p))) (fst <$> map_to_list m).

Definition directories (p : path) (m : fs) : list path := List.filter (fun k => is_dir m k) (children p m).
Definition block_dirs (p : path) (m : fs) : list path := List.filter (fun k => startswith "block-" (name_of k)) (directories p m).
Definition has_blocks (m : fs) (p : path) : bool := match block_dirs p m with [] => false | _ => true end.

Definition scenario_dirs (m : fs) (data_root : path) : list path :=
  child ← sort_by path_leb (directories data_root m);
  if mem_string (name_of child) NEVER_REMOVE then []
  else if has_blocks m child then [child]
  else List.filter (fun g => negb (mem_string (name_of g) NEVER_REMOVE) && has_blocks m g) (sort_by path_leb (directories child m)).

Definition block_sort_key (p : path) : Z * string :=
  let name := name_of p in
  let suffix := if startswith "block-" name then str_drop 6 name else name in
  match py_int suffix with Some z => (z, name) | None => (10 ^ 9, name) end.
Definition key_leb (a b : Z * string) : bool :=
  if Z.eqb (fst a) (fst b) then String.leb (snd a) (snd b) else Z.leb (fst a) (fst b).
Definition blocks_in (m : fs) (scenario : path) : list path :=
  sort_by (fun a b => key_leb (block_sort_key a) (block_sort_key b)) (block_dirs scenario m).

Definition bulk_files (m : fs) (block_dir : path) : list path :=
  pattern ← BULK_PATTERNS; sort_by path_leb (List.filter (fun k => matches pattern (name_of k) && is_file m k) (below block_dir m)).

(** [blocks[-keep_blocks:]] *)
Definition newest (keep_blocks : Z) (blocks : list path) : list path :=
  if 0 <? keep_blocks then drop (length blocks - Z.to_nat keep_blocks) blocks else [].

Record pruning : Type := { pr_files : list path; pr_bytes : Z; pr_kept : Z }.
Definition size_of (m : fs) (p : path) : Z := slen (contents m p).
Definition plan_file (m : fs) (remove_here : list path) (s : pruning) (p : path) : pruning :=
  if negb (is_file m p) then s
  else if bool_decide (p ∈ remove_here)
  then {| pr_files := (pr_files s ++ [p])%list; pr_bytes := pr_bytes s + size_of m p; pr_kept := pr_kept s |}
  else {| pr_files := pr_files s; pr_bytes := pr_bytes s; pr_kept := pr_kept s + size_of m p |}.
Definition plan_block (m : fs) (keep : list path) (s : pruning) (block_dir : path) : pruning :=
  let remove_here := if bool_decide (block_dir ∈ keep) then [] else bulk_files m block_dir in
  fold_left (plan_file m remove_here) (below block_dir m) s.
Definition plan_scenario (m : fs) (keep_blocks : Z) (s : pruning) (scenario : path) : pruning :=
  let blocks := blocks_in m scenario in
  fold_left (plan_block m (newest keep_blocks blocks)) blocks s.
Definition plan_pruning (m : fs) (data_root : path) (keep_blocks : Z) : result (pruning * list path) :=
  if negb (is_dir m data_root) then Raise (Exn FileNotFoundError ("no data root at " +:+ path_text data_root))
  else
    let scenarios := scenario_dirs m data_root in
    Ok (fold_left (plan_scenario m keep_blocks) scenarios {| pr_files := []; pr_bytes := 0; pr_kept := 0 |}, scenarios).

(** [f"{value:.1f} {unit}"], dividing by 1024 up to the last unit. *)
Fixpoint human_units (value : float) (units : list string) : string :=
  match units with
  | [] => format_f 1 value +:+ " TiB"
  | unit :: units =>
      if fltb value (flit 1024 1) || String.eqb unit "TiB" then format_f 1 value +:+ " " +:+ unit
      else human_units (fdiv_ieee value (flit 1024 1)) units
  end.
Definition human (count : Z) : result string :=
  let* value := float_of_Z count in Ok (human_units value ["B"; "KiB"; "MiB"; "GiB"; "TiB"]).

Record prune_args : Type := { pa_root : path; pa_keep : Z; pa_apply : bool }.

Section Prune.
Context {Mach : Machine}.

(** [path.unlink()] *)
Definition unlink_present (p : path) : F unit :=
  let! m := files in
  if present m p then unlink p else lift (not_found p).

(** The removal: how many files were there. *)
Fixpoint remove_files (l : list path) (removed : Z) : F Z :=
  match l with
  | [] => ret removed
  | p :: l =>
      let! gone := try_except (unlink_present p >>> ret 1) [FileNotFoundError] (fun _ => ret 0) in
      remove_files l (removed + gone)
  end.

Definition prune_main (args : prune_args) : F Z :=
  let! m := files in
  let! (s, scenarios) := lift (plan_pruning m (pa_root args) (pa_keep args)) in
  let! total := lift (human (pr_bytes s + pr_kept s)) in
  let! kept := lift (human (pr_kept s)) in
  let! bulk := lift (human (pr_bytes s)) in
  print ("data root: " +:+ path_text (pa_root args) +:+ newline +:+
         "  scenarios walked " +:+ str_of_Z (Z.of_nat (length scenarios)) +:+ newline +:+
         "  total            " +:+ total +:+ newline +:+
         "  retained in blocks " +:+ kept +:+ newline +:+
         "  prunable (bulk)  " +:+ bulk +:+ " in " +:+ str_of_Z (Z.of_nat (length (pr_files s))) +:+ " file(s)") >>>
  (match scenarios with
   | [] => print "warning: no block directories found; the layout is <root>/<phase>/<scenario>/block-NN (or <root>/<scenario>/block-NN)"
   | _ => ret tt
   end) >>>
  if negb (pa_apply args) then print "report only; pass --apply to remove the prunable files" >>> ret 0
  else
    let! removed := remove_files (pr_files s) 0 in
    print ("removed " +:+ str_of_Z removed +:+ " file(s), freeing about " +:+ bulk) >>> ret 0.
End Prune.

(** ** What is removed

    Pruning the data of a campaign ([PruneData.v]) removes raw evidence of
    superseded blocks only, on every path through the program, and all of it
    when it returns. *)

(** *** The layout of a data root, and what may go *)

Section Layout.
Variables (m0 : fs) (root : path).

(** A block of a scenario: a directory named [block-...] in it. *)
Definition block (scenario : path) (name : string) : Prop :=
  startswith "block-" name = true /\ m0 !! (scenario ++ [name])%list = Some Dir.
Definition reserved (name : string) : Prop := name = "blocks.csv" \/ name = "analysis".
(** The directories of scenarios, in either layout: a directory with blocks
    under the root, or under a directory of the root that has none itself. *)
Definition scenario_of (scenario : path) : Prop :=
  (exists name, block scenario name) /\ m0 !! scenario = Some Dir /\
  ((exists name, scenario = (root ++ [name])%list /\ ~ reserved name) \/
   (exists phase name, scenario = (root ++ [phase; name])%list /\ ~ reserved phase /\ ~ reserved name /\
      m0 !! (root ++ [phase])%list = Some Dir /\ forall n, ~ block (root ++ [phase])%list n)).
(** Blocks are ordered by the number after [block-], those without one last,
    and then by their names. *)
Definition block_number (name : string) : Z :=
  match py_int (str_drop 6 name) with Some z => z | None => 1000000000 end.
Definition newer_than (name newer : string) : Prop :=
  newer <> name /\
  (block_number name < block_number newer \/ (block_number name = block_number newer /\ String.leb name newer = true)).
(** Raw evidence by its name. *)
Definition evidence (name : string) : Prop :=
  startswith "perf.data" name = true \/ name = "sched-trace.csv.gz" \/ startswith "sched-trace.txt" name = true.

(** A file of raw evidence, at any depth of a block that has [keep] newer ones in
    its scenario. *)
Definition outdated (keep : Z) (q : path) : Prop :=
  exists scenario name sub newer, scenario_of scenario /\ block scenario name /\
    NoDup newer /\ length newer = Z.to_nat keep /\ Forall (fun n => block scenario n /\ newer_than name n) newer /\
    q = (scenario ++ [name] ++ sub)%list /\ is_file m0 q = true /\ exists n, list.last sub = Some n /\ evidence n.

Lemma children_elem p k : k ∈ children p m0 <-> (exists n, k = (p ++ [n])%list) /\ is_Some (m0 !! k).
Proof.
  unfold children. rewrite list_elem_of_In, List.filter_In, <- list_elem_of_In, andb_true_iff, negb_true_iff, bool_decide_eq_true, bool_decide_eq_false.
  rewrite list_elem_of_fmap. unfold parent. split.
  - intros ([[k' v] [-> Hin]] & Hp & Hne). cbn [fst] in *. apply elem_of_map_to_list in Hin. split; [|by exists v].
    destruct k' as [|x l _] using rev_ind; [by subst|]. exists x. rewrite length_app in Hp. cbn in Hp.
    rewrite Nat.add_sub, take_app_length in Hp. by subst.
  - intros [[n ->] [v Hv]]. split; [exists (p ++ [n], v)%list; split; [done|by apply elem_of_map_to_list]|].
    rewrite length_app. cbn. rewrite Nat.add_sub, take_app_length. split; [done|]. intros E. apply (f_equal length) in E.
    rewrite length_app in E. cbn in E. lia.
Qed.
Lemma directories_elem p k : k ∈ directories p m0 <-> (exists n, k = (p ++ [n])%list) /\ m0 !! k = Some Dir.
Proof.
  unfold directories. rewrite list_elem_of_In, List.filter_In, <- list_elem_of_In, children_elem. split.
  - intros ([[n ->] _] & H). split; [by exists n|]. unfold is_dir in H. destruct p; cbn in *; by destruct (m0 !! _) as [[]|].
  - intros [[n ->] H]. split; [split; [by exists n|by exists Dir]|]. unfold is_dir. revert H; destruct p; cbn [app]; intros H; exact (f_equal (fun o => match o with Some Dir => true | _ => false end) H).
Qed.
Lemma sorted_directories p k : k ∈ sort_by path_leb (directories p m0) <-> (exists n, k = (p ++ [n])%list) /\ m0 !! k = Some Dir.
Proof. by rewrite sort_by_perm, directories_elem. Qed.
Lemma name_of_snoc (p : path) n : name_of (p ++ [n])%list = n.
Proof. unfold name_of. by rewrite last_snoc. Qed.
Lemma block_dirs_elem p k : k ∈ block_dirs p m0 <-> exists n, k = (p ++ [n])%list /\ block p n.
Proof.
  unfold block_dirs, block. rewrite list_elem_of_In, List.filter_In, <- list_elem_of_In, directories_elem. split.
  - intros ([[n ->] H] & Hs). rewrite name_of_snoc in Hs. by exists n.
  - intros (n & -> & Hs & H). rewrite name_of_snoc. split; [split; [by exists n|done]|done].
Qed.
Lemma has_blocks_spec p : has_blocks m0 p = true <-> exists n, block p n.
Proof.
  unfold has_blocks. pose proof (block_dirs_elem p) as H. destruct (block_dirs p m0) as [|k l].
  - split; [done|]. intros [n Hn]. assert ((p ++ [n])%list ∈ @nil path) as []%not_elem_of_nil. apply H. by exists n.
  - split; [|done]. intros _. destruct (proj1 (H k)) as (n & _ & Hn); [by left|]. by exists n.
Qed.
Lemma reserved_spec n : mem_string n NEVER_REMOVE = true <-> reserved n.
Proof. rewrite mem_string_spec. unfold NEVER_REMOVE, reserved. rewrite !list.elem_of_cons, list.elem_of_nil. intuition. Qed.
Lemma reserved_false n : mem_string n NEVER_REMOVE = false <-> ~ reserved n.
Proof. rewrite <- reserved_spec. by destruct (mem_string n NEVER_REMOVE). Qed.

Lemma scenario_dirs_elem s : s ∈ scenario_dirs m0 root <-> scenario_of s.
Proof.
  unfold scenario_dirs, scenario_of. rewrite list_elem_of_bind. setoid_rewrite sorted_directories. split.
  - intros (child & Hs & [name ->] & Hd). rewrite name_of_snoc in Hs. destruct (mem_string name NEVER_REMOVE) eqn:Er; [by apply not_elem_of_nil in Hs|].
    apply reserved_false in Er. destruct (has_blocks m0 (root ++ [name])%list) eqn:Eb.
    + apply list_elem_of_singleton in Hs as ->. apply has_blocks_spec in Eb. split; [done|]. split; [done|]. left. by exists name.
    + apply list_elem_of_In, List.filter_In in Hs as [Hs%list_elem_of_In Hg]. rewrite sorted_directories in Hs.
      destruct Hs as [[n ->] Hd']. rewrite name_of_snoc in Hg. apply andb_true_iff in Hg as [Hr%negb_true_iff%reserved_false Hb%has_blocks_spec].
      split; [done|]. split; [done|]. right. exists name, n. rewrite <- app_assoc. split_and!; try done.
      intros k Hk. rewrite (proj2 (has_blocks_spec _)) in Eb; [done|by exists k].
  - intros (Hb & Hd & [(name & -> & Hr)|(phase & name & -> & Hp & Hr & Hpd & Hnb)]).
    + exists (root ++ [name])%list. rewrite name_of_snoc, (proj2 (reserved_false _) Hr), (proj2 (has_blocks_spec _) Hb).
      split; [by apply list_elem_of_singleton|]. split; [by exists name|done].
    + exists (root ++ [phase])%list. rewrite name_of_snoc, (proj2 (reserved_false _) Hp). split; [|split; [by exists phase|done]].
      destruct (has_blocks m0 (root ++ [phase])%list) eqn:Eb; [by apply has_blocks_spec in Eb as [k []%Hnb]|].
      apply list_elem_of_In, List.filter_In. rewrite <- list_elem_of_In, sorted_directories.
      replace (root ++ [phase; name])%list with ((root ++ [phase]) ++ [name])%list in * by by rewrite <- app_assoc.
      rewrite name_of_snoc, (proj2 (reserved_false _) Hr), (proj2 (has_blocks_spec _) Hb). split; [split; [by exists name|done]|done].
Qed.
End Layout.

(** *** The newest blocks *)

Section Newest.
Variables (m0 : fs) (keep : Z) (scenario : path).
Implicit Types n : string.

Lemma blocks_elem k : k ∈ blocks_in m0 scenario <-> exists n, k = (scenario ++ [n])%list /\ block m0 scenario n.
Proof. unfold blocks_in. rewrite sort_by_perm. apply block_dirs_elem. Qed.

Lemma block_key_total a b : key_leb a b = true \/ key_leb b a = true.
Proof.
  unfold key_leb. destruct (Z.eqb_spec (fst a) (fst b)) as [E|Hne].
  - rewrite (proj2 (Z.eqb_eq (fst b) (fst a))) by done. apply String.leb_total.
  - rewrite (proj2 (Z.eqb_neq (fst b) (fst a))) by congruence. rewrite !Z.leb_le. lia.
Qed.
Lemma block_key_trans a b c : key_leb a b = true -> key_leb b c = true -> key_leb a c = true.
Proof.
  unfold key_leb. destruct (Z.eqb_spec (fst a) (fst b)) as [E1|N1], (Z.eqb_spec (fst b) (fst c)) as [E2|N2],
    (Z.eqb_spec (fst a) (fst c)) as [E3|N3]; rewrite ?Z.leb_le; try lia; try (intros; lia). apply string_leb_trans.
Qed.
Lemma blocks_sorted : StronglySorted (fun a b => key_leb (block_sort_key a) (block_sort_key b) = true) (blocks_in m0 scenario).
Proof. apply sort_by_sorted; intros *; [apply block_key_total|apply block_key_trans]. Qed.
Lemma NoDup_list_filter {A} (f : A -> bool) l : NoDup l -> NoDup (List.filter f l).
Proof.
  induction 1 as [|x l Hx Hl IH]; [constructor|]. cbn [List.filter]. destruct (f x); [|done]. constructor; [|done].
  intros [Hin _]%list_elem_of_In%List.filter_In. apply Hx. by apply list_elem_of_In.
Qed.
Lemma blocks_NoDup : NoDup (blocks_in m0 scenario).
Proof. unfold blocks_in. rewrite sort_by_perm. repeat apply NoDup_list_filter. apply NoDup_fst_map_to_list. Qed.

Lemma block_key n : block m0 scenario n -> block_sort_key (scenario ++ [n])%list = (block_number n, n).
Proof. intros [Hs _]. unfold block_sort_key. rewrite name_of_snoc, Hs. unfold block_number. by destruct (py_int _). Qed.
Lemma newer_key n n' : block m0 scenario n -> block m0 scenario n' -> n' <> n ->
  key_leb (block_sort_key (scenario ++ [n])%list) (block_sort_key (scenario ++ [n'])%list) = true <-> newer_than n n'.
Proof.
  intros Hn Hn' Hne. rewrite !block_key by done. unfold key_leb, newer_than. cbn [fst snd].
  destruct (Z.eqb_spec (block_number n) (block_number n')) as [->|H]; [|rewrite Z.leb_le]; intuition lia.
Qed.
Lemma newer_antisym n n' : newer_than n n' -> newer_than n' n -> False.
Proof.
  unfold newer_than. intros [H1 H] [_ H']. assert (block_number n = block_number n') as E by lia.
  destruct H as [H|[_ H]], H' as [H'|[_ H']]; try lia. apply H1. by apply String.leb_antisym.
Qed.

Lemma newer_after older newer n n' : blocks_in m0 scenario = (older ++ (scenario ++ [n]) :: newer)%list ->
  block m0 scenario n -> block m0 scenario n' -> newer_than n n' <-> (scenario ++ [n'])%list ∈ newer.
Proof.
  intros El Hn Hn'. pose proof blocks_sorted as Hs. pose proof blocks_NoDup as Hd. rewrite El in Hs, Hd.
  apply sorted_split in Hs as [Hold Hnew]. rewrite List.Forall_forall in Hold, Hnew. split.
  - intros Hnw. assert ((scenario ++ [n'])%list ∈ blocks_in m0 scenario) as Hin by (apply blocks_elem; by exists n').
    rewrite El, elem_of_app, list.elem_of_cons in Hin. destruct Hin as [Hin|[E|Hin]]; [|by apply app_inj_2 in E as [_ [= ->]]; destruct Hnw|done].
    exfalso. apply (newer_antisym n n'); [done|]. apply newer_key; [done..|by intros ->; destruct Hnw|]. apply Hold. by apply list_elem_of_In.
  - intros Hin. apply newer_key; [done..| |apply Hnew; by apply list_elem_of_In]. intros ->.
    apply list.NoDup_app in Hd as (_ & _ & [Hd _]%list.NoDup_cons). done.
Qed.
Lemma newest_place (older newer : list path) x : NoDup (older ++ x :: newer) ->
  x ∉ newest keep (older ++ x :: newer) <-> (Z.to_nat keep <= length newer)%nat.
Proof.
  intros Hd. unfold newest. destruct (Z.ltb_spec 0 keep) as [Hk|Hk]; [|split; [lia|by intros _ ?%not_elem_of_nil]].
  rewrite length_app. cbn [length]. destruct (Nat.le_gt_cases (Z.to_nat keep) (length newer)) as [Hle|Hgt]; (split; [|lia || intros _]); [done| |].
  - intros Hin. apply list.NoDup_app in Hd as (_ & _ & [Hd _]%list.NoDup_cons).
    rewrite drop_app_ge in Hin by lia.
    replace (length older + S (length newer) - Z.to_nat keep - length older)%nat with (S (length newer - Z.to_nat keep)) in Hin by lia.
    cbn [drop] in Hin. apply Hd. by eapply (subseteq_drop _ newer).
  - intros Hnot. destruct Hnot. rewrite drop_app_le by lia. apply elem_of_app. right. by left.
Qed.

(** A block is not kept exactly when it has as many newer ones as are kept. *)
Lemma not_newest n : block m0 scenario n ->
  (scenario ++ [n])%list ∉ newest keep (blocks_in m0 scenario) <->
  exists newer, NoDup newer /\ length newer = Z.to_nat keep /\ Forall (fun n' => block m0 scenario n' /\ newer_than n n') newer.
Proof.
  intros Hn. pose proof blocks_NoDup as Hd.
  assert ((scenario ++ [n])%list ∈ blocks_in m0 scenario) as (older & newer & El)%list_elem_of_split by (apply blocks_elem; by exists n).
  rewrite El in Hd.
  assert (forall n', block m0 scenario n' -> newer_than n n' <-> (scenario ++ [n'])%list ∈ newer) as Hafter
    by (intros n' Hn'; by apply (newer_after older newer)).
  transitivity (Z.to_nat keep <= length newer)%nat.
  - rewrite El. by apply newest_place.
  - split.
    + intros Hk. exists (name_of <$> take (Z.to_nat keep) newer).
      assert (Forall (fun k => exists n', k = (scenario ++ [n'])%list /\ block m0 scenario n') newer) as Hnew.
      { apply List.Forall_forall. intros k Hin. apply blocks_elem. rewrite El. apply list_elem_of_In, in_app_iff. right. by right. }
      apply list.NoDup_app in Hd as (_ & _ & [_ Hd]%list.NoDup_cons).
      rewrite <- (take_drop (Z.to_nat keep) newer) in Hd, Hnew, Hafter. apply list.NoDup_app in Hd as (Hd & _).
      apply List.Forall_app in Hnew as [Hnew _]. split; [|split; [by rewrite length_fmap, length_take_le|]].
      * apply NoDup_fmap_2_strong; [|done]. intros x y Hx Hy. rewrite List.Forall_forall in Hnew.
        destruct (Hnew x) as (a & -> & _), (Hnew y) as (b & -> & _); [by apply list_elem_of_In..|]. by rewrite !name_of_snoc; intros ->.
      * apply List.Forall_map, List.Forall_forall. intros k Hin. rewrite List.Forall_forall in Hnew. destruct (Hnew k Hin) as (n' & -> & Hb).
        rewrite name_of_snoc. split; [done|]. apply Hafter; [done|]. apply elem_of_app. left. by apply list_elem_of_In.
    + intros (names & Hnd & <- & Hall). rewrite <- (length_fmap (fun n' => scenario ++ [n'])%list names).
      apply submseteq_length, NoDup_submseteq.
      * apply NoDup_fmap_2; [|done]. by intros a b [_ [= ->]]%app_inj_2.
      * intros k (n' & -> & Hin)%list_elem_of_fmap. rewrite List.Forall_forall in Hall. destruct (Hall n') as [Hb Hnw]; [by apply list_elem_of_In|].
        by apply Hafter.
Qed.
End Newest.

Section Plan.
Variables (m0 : fs) (root : path) (keep : Z).

Lemma evidence_spec n : (exists pattern, pattern ∈ BULK_PATTERNS /\ matches pattern n = true) <-> evidence n.
Proof.
  unfold BULK_PATTERNS, evidence. setoid_rewrite list.elem_of_cons. setoid_rewrite list.elem_of_cons. setoid_rewrite list_elem_of_singleton.
  split.
  - intros (p & [->|[->| ->]] & H); [by left|right; left; by apply String.eqb_eq in H|by right; right].
  - intros [H|[->|H]]; [exists "perf.data*"|exists "sched-trace.csv.gz"|exists "sched-trace.txt*"]; (split; [tauto|done]).
Qed.
Lemma bulk_files_elem b q : q ∈ bulk_files m0 b <-> q ∈ below b m0 /\ is_file m0 q = true /\ evidence (name_of q).
Proof.
  unfold bulk_files. rewrite list_elem_of_bind, <- evidence_spec. setoid_rewrite sort_by_perm.
  setoid_rewrite list_elem_of_In at 1. setoid_rewrite List.filter_In. setoid_rewrite andb_true_iff. setoid_rewrite <- list_elem_of_In.
  split; [intros (p & (H1 & H2 & H3) & H4); split_and!; try done; by exists p|intros (H1 & H2 & p & H3 & H4); by exists p].
Qed.

Lemma plan_file_elem remove l : forall s q, q ∈ pr_files (fold_left (plan_file m0 remove) l s) <->
  q ∈ pr_files s \/ (q ∈ l /\ is_file m0 q = true /\ q ∈ remove).
Proof.
  induction l as [|p l IH]; intros s q; cbn [fold_left]; [split; [by left|by intros [|[?%not_elem_of_nil _]]]|].
  rewrite IH, list.elem_of_cons. unfold plan_file. destruct (is_file m0 p) eqn:Ef; cbn [negb].
  - case_bool_decide as Hr; cbn [pr_files]; [rewrite elem_of_app, list_elem_of_singleton|]; split; intuition congruence.
  - split; intuition congruence.
Qed.
Lemma plan_block_elem kept l : forall s q, q ∈ pr_files (fold_left (plan_block m0 kept) l s) <->
  q ∈ pr_files s \/ exists b, b ∈ l /\ b ∉ kept /\ q ∈ below b m0 /\ is_file m0 q = true /\ evidence (name_of q).
Proof.
  induction l as [|b l IH]; intros s q; cbn [fold_left]; [split; [by left|by intros [|(? & ?%not_elem_of_nil & _)]]|].
  rewrite IH. unfold plan_block at 1. rewrite plan_file_elem. setoid_rewrite list.elem_of_cons. case_bool_decide as Hk.
  - split; [intros [[|(_ & _ & ?%not_elem_of_nil)]|(b' & H)]; [by left|done|right; exists b'; naive_solver]|].
    intros [|(b' & [->|Hb] & H)]; [by left; left|naive_solver|right; by exists b'].
  - rewrite bulk_files_elem. split; [intros [[|H]|(b' & H)]; [by left|right; exists b; naive_solver|right; exists b'; naive_solver]|].
    intros [|(b' & [->|Hb] & H)]; [by left; left|left; right; naive_solver|right; by exists b'].
Qed.
Lemma below_elem p q : is_file m0 q = true -> q ∈ below p m0 <-> exists sub, sub <> [] /\ q = (p ++ sub)%list.
Proof.
  intros Hf. unfold below. rewrite list_elem_of_In, List.filter_In, <- list_elem_of_In, andb_true_iff, negb_true_iff, bool_decide_eq_true, bool_decide_eq_false.
  rewrite list_elem_of_fmap. split.
  - intros (_ & [sub ->] & Hne). exists sub. split; [intros ->; apply Hne, app_nil_r|done].
  - intros (sub & Hne & ->). split; [|split; [by apply prefix_app_r|]].
    + unfold is_file in Hf. destruct (m0 !! _) as [v|] eqn:E; [|done]. exists ((p ++ sub)%list, v). split; [done|by apply elem_of_map_to_list].
    + intros E. apply (f_equal length) in E. rewrite length_app in E. destruct sub; [done|]. cbn in E. lia.
Qed.
Lemma plan_elem s scenarios q : plan_pruning m0 root keep = Ok (s, scenarios) -> q ∈ pr_files s <-> outdated m0 root keep q.
Proof.
  unfold plan_pruning. destruct (negb _); [done|]. intros [= <- _].
  transitivity (exists scenario b, scenario ∈ scenario_dirs m0 root /\ b ∈ blocks_in m0 scenario /\
    b ∉ newest keep (blocks_in m0 scenario) /\ q ∈ below b m0 /\ is_file m0 q = true /\ evidence (name_of q)).
  - generalize (scenario_dirs m0 root). intros l.
    assert (forall s, q ∈ pr_files (fold_left (plan_scenario m0 keep) l s) <-> q ∈ pr_files s \/ exists scenario b, scenario ∈ l /\
      b ∈ blocks_in m0 scenario /\ b ∉ newest keep (blocks_in m0 scenario) /\ q ∈ below b m0 /\ is_file m0 q = true /\
      evidence (name_of q)) as ->.
    { induction l as [|x l IH]; intros s; cbn [fold_left]; [split; [by left|by intros [|(? & ? & ?%not_elem_of_nil & _)]]|].
      rewrite IH. unfold plan_scenario. rewrite plan_block_elem. setoid_rewrite list.elem_of_cons. split.
      - intros [[|(b & H)]|(y & b & H)]; [by left|right; exists x, b; naive_solver|right; exists y, b; naive_solver].
      - intros [|(y & b & [->|Hy] & H)]; [by left; left|left; right; by exists b|right; by exists y, b]. }
    cbn [pr_files]. split; [by intros [?%not_elem_of_nil|]|by right].
  - unfold outdated. split.
    + intros (scenario & b & Hs%scenario_dirs_elem & (n & -> & Hb)%blocks_elem & Hk & Hin & Hf & He).
      apply not_newest in Hk as (newer & Hnd & Hl & Hall); [|done]. apply below_elem in Hin as (sub & Hne & ->); [|done].
      exists scenario, n, sub, newer. rewrite <- app_assoc in *. split_and!; try done. destruct sub as [|x sub _] using rev_ind; [done|].
      exists x. rewrite last_snoc. split; [done|]. by rewrite !app_assoc, name_of_snoc in He.
    + intros (scenario & n & sub & newer & Hs & Hb & Hnd & Hl & Hall & -> & Hf & x & Hx & He).
      exists scenario, (scenario ++ [n])%list. rewrite scenario_dirs_elem, blocks_elem. split; [done|]. split; [by exists n|].
      split; [apply not_newest; [done|by exists newer]|]. split; [|split; [done|]].
      * apply below_elem; [done|]. exists sub. split; [by intros ->|by rewrite <- app_assoc].
      * unfold name_of. rewrite !last_app, Hx. done.
Qed.

(** ** The removal *)

Context {Mach : Machine}.

Definition pruned (m : fs) : Prop := forall q, m !! q = m0 !! q \/ (m !! q = None /\ outdated m0 root keep q).
Lemma lose_outdated m q : outdated m0 root keep q -> pruned m -> pruned (delete q m).
Proof.
  intros Hq Hm k. destruct (decide (k = q)) as [->|Hne]; [right; by rewrite lookup_delete_eq|]. rewrite lookup_delete_ne by done. apply Hm.
Qed.

Lemma wp_remove_files l : Forall (outdated m0 root keep) l -> forall removed d, pruned (now d) ->
  wp pruned (remove_files l removed)
    (fun r d' => pruned (now d') /\ (forall q, now d !! q = None -> now d' !! q = None) /\
       (forall k, r = Ok k -> forall q, q ∈ l -> now d' !! q = None)) d.
Proof.
  induction 1 as [|p l Hp Hl IH]; intros removed d Hd; cbn [remove_files].
  { apply wp_ret. split; [done|]. split; [done|]. by intros k _ q ?%not_elem_of_nil. }
  pose proof (lose_outdated _ _ Hp Hd) as Hd1. apply wp_bind, wp_try_except, wp_bind.
  assert (now d !! p = Some Dir -> False) as Hnodir.
  { intros E. destruct Hp as (_ & _ & _ & _ & _ & _ & _ & _ & _ & _ & Hf & _). destruct (Hd p) as [E'|[E' _]]; [|congruence].
    unfold is_file in Hf. by rewrite <- E', E in Hf. }
  assert (forall removed d1, pruned (now d1) -> (forall q, now d !! q = None -> now d1 !! q = None) -> now d1 !! p = None ->
    wp pruned (remove_files l removed) (fun r d' => pruned (now d') /\ (forall q, now d !! q = None -> now d' !! q = None) /\
       (forall k, r = Ok k -> forall q, q ∈ p :: l -> now d' !! q = None)) d1) as Hrest.
  { intros n d1 H1 H2 H3. eapply wp_mono; [by apply IH|]. intros r d' (H4 & H5 & H6). split; [done|]. split; [auto|].
    intros k Hk q [->|Hq]%list.elem_of_cons; [by apply H5|by eapply H6]. }
  unfold unlink_present. apply wp_files. destruct (present (now d) p) eqn:E.
  - unfold unlink. apply wp_files. destruct (now d !! p) as [[t|]|] eqn:El; [|by destruct Hnodir|].
    + apply wp_call; [..|done|].
      * intros msg. cbn. split; [done|]. split; [auto|]. intros k Hk. discriminate Hk.
      * apply wp_ret, Hrest; [done|intros q Hq; cbn [now change]; apply lookup_delete_None; auto|cbn [now change]; apply lookup_delete_eq].
    + apply wp_ret, wp_ret. by apply Hrest.
  - unfold not_found. apply wp_lift. cbn. apply wp_ret, Hrest; [done|done|].
    unfold present, is_file, is_dir in E. destruct p; [by rewrite orb_true_r in E|]. by destruct (now d !! _) as [[]|].
Qed.
End Plan.

(** C18: Pruning keeps the records.  On every run, whatever fails on the way:
    without [--apply] no file changes; with it, every state of the disk has each
    path as it was, or has lost a file of raw evidence (by its name, at any depth)
    of a block that has [keep] newer blocks in its scenario ([outdated]).  The
    scenarios are the directories with blocks in both layouts, directly under the
    root or under a phase, and never [analysis] or [blocks.csv].  A run that
    returns has returned 0, over a data root that exists, and with [--apply] has
    removed every such file. *)
Theorem prune_keeps_records `{Machine} args d r d' :
  prune_main args d = (r, d') ->
  let gone q := pa_apply args = true /\ outdated (now d) (pa_root args) (pa_keep args) q in
  (exists new, states d' = (new ++ states d)%list /\
     Forall (fun m => forall q, m !! q = now d !! q \/ (m !! q = None /\ gone q)) (now d' :: new)) /\
  (forall k, r = Ok k -> k = 0 /\ is_dir (now d) (pa_root args) = true /\ forall q, gone q -> now d' !! q = None).
Proof.
  intros Hrun gone. assert (forall q, now d !! q = now d !! q \/ (now d !! q = None /\ gone q)) as Hd by (by left).
  pose (I := fun m : fs => forall q, m !! q = now d !! q \/ (m !! q = None /\ gone q)).
  pose (Q := fun (r : result Z) (d' : disk) => I (now d') /\
    forall k, r = Ok k -> k = 0 /\ is_dir (now d) (pa_root args) = true /\ forall q, gone q -> now d' !! q = None).
  assert (wp I (prune_main args) Q d) as Hwp.
  { unfold prune_main. apply wp_files, wp_bind, wp_lift.
    destruct (plan_pruning _ _ _) as [[s scenarios]|e] eqn:Ep; [|by split].
    assert (is_dir (now d) (pa_root args) = true) as Hroot by (unfold plan_pruning in Ep; by destruct (is_dir _ _)).
    pose proof (fun q => plan_elem _ _ _ s scenarios q Ep) as Hplan.
    do 3 (apply wp_bind, wp_lift; destruct (human _); [|by split]). apply wp_bind, wp_print, wp_bind.
    apply (wp_mono I _ (fun r d1 => now d1 = now d /\ r = Ok tt)); [destruct scenarios; [by apply wp_print|by apply wp_ret]|].
    intros ? d1 [Hd1 ->]. destruct (pa_apply args) eqn:Ea; cbn [negb].
    - apply wp_bind. eapply wp_mono; [apply (wp_weaken (pruned (now d) (pa_root args) (pa_keep args)))|].
      + intros m Hm q. destruct (Hm q) as [|[? ?]]; [by left|right]. split; [done|]. by split.
      + apply wp_remove_files; [apply list.Forall_forall; intros q; by rewrite Hplan|]. rewrite Hd1. by left.
      + intros r1 d2 (H1 & _ & H2). assert (I (now d2)) by (intros q; destruct (H1 q) as [|[? ?]]; [by left|right; split; [done|by split]]).
        destruct r1 as [n|e]; [|by split]. apply wp_bind, wp_print, wp_ret. split; [done|]. intros k [= <-].
        split; [done|]. split; [done|]. intros q [_ Hq]. apply (H2 n eq_refl). by apply Hplan.
    - apply wp_bind, wp_print, wp_ret. cbn [now]. unfold Q. cbn [now]. rewrite Hd1. split; [done|]. intros k [= <-].
      split; [done|]. split; [done|]. intros q [Hq _]. congruence. }
  destruct (wp_run _ _ _ _ _ _ Hwp Hrun) as [(new & E & Hn) [Hi Hq]]. split; [|done].
  exists new. split; [done|]. by constructor.
Qed.

(** ** A data root with three blocks of a scenario and one of a pilot *)

Definition quiet : Machine := {|
  strike := fun _ => None;
  urlopen := fun _ _ => Raise (Exn OSError "no network");
  tmp_suffix := fun _ => "x";
  skopeo := fun d _ _ => (NoProgram, now d);
  skopeo_local := fun _ _ _ _ _ => eq_refl
|}.

Definition block_of (scenario : path) (name : string) : list (path * node) :=
  let block := (scenario ++ [name])%list in
  [(block, Dir); ((block ++ ["metadata.json"])%list, File "{}"); ((block ++ ["control"])%list, Dir);
   ((block ++ ["control"; "perf.data.1"])%list, File "samples"); ((block ++ ["control"; "sched-trace.csv.gz"])%list, File "events");
   ((block ++ ["control"; "runq.json"])%list, File "[]")].
Definition campaign_data : disk := {|
  now := list_to_map ([(["data"], Dir); (["data"; "analysis"], Dir); (["data"; "analysis"; "perf.data"], File "kept");
                       (["data"; "pilot"], Dir); (["data"; "pilot"; "cpu"], Dir); (["data"; "pilot"; "cpu"; "blocks.csv"], File "block")] ++
                      block_of ["data"; "pilot"; "cpu"] "block-1" ++ [(["data"; "idle"], Dir)] ++
                      block_of ["data"; "idle"] "block-2" ++ block_of ["data"; "idle"] "block-10" ++ block_of ["data"; "idle"] "block-9")%list;
  past := []; printed := [] |}.
Definition newest_one (apply : bool) : prune_args := {| pa_root := ["data"]; pa_keep := 1; pa_apply := apply |}.
Definition run_of (apply : bool) : result Z * disk := @prune_main quiet (newest_one apply) campaign_data.
(** The files that a run has removed. *)
Definition removed_by (out : result Z * disk) : list string :=
  sort_by String.leb (path_text <$> List.filter (fun q => negb (is_file (now (snd out)) q))
    (List.filter (fun q => is_file (now campaign_data) q) (fst <$> map_to_list (now campaign_data)))).

(** Block 10 is the newest one of its scenario: its name is read as a number. *)
Example newest_block_is_kept :
  removed_by (run_of true) =
    ["/data/idle/block-2/control/perf.data.1"; "/data/idle/block-2/control/sched-trace.csv.gz";
     "/data/idle/block-9/control/perf.data.1"; "/data/idle/block-9/control/sched-trace.csv.gz"] /\
  removed_by (run_of false) = [].
Proof. vm_compute. split; reflexivity. Qed.

(** The samples of block 2 may go: block 10 is newer. *)
Definition old_samples : path := ["data"; "idle"; "block-2"; "control"; "perf.data.1"].
Example old_samples_outdated : outdated (now campaign_data) ["data"] 1 old_samples.
Proof.
  exists ["data"; "idle"], "block-2", ["control"; "perf.data.1"], ["block-10"].
  assert (forall n, startswith "block-" n = true -> now campaign_data !! ["data"; "idle"; n] = Some Dir ->
    block (now campaign_data) ["data"; "idle"] n) as Hb by (intros n H1 H2; by split).
  assert (block (now campaign_data) ["data"; "idle"] "block-2") as H2 by (apply Hb; vm_compute; reflexivity).
  assert (block (now campaign_data) ["data"; "idle"] "block-10") as H10 by (apply Hb; vm_compute; reflexivity).
  split; [split; [by exists "block-2"|]; split; [vm_compute; reflexivity|left; exists "idle"; split; [done|by intros [[=]|[=]]]]|].
  split; [done|]. split; [by repeat constructor; intros ?%not_elem_of_nil|]. split; [done|]. split.
  { apply List.Forall_cons; [|apply List.Forall_nil]. split; [exact H10|]. split; [done|]. left. vm_compute. reflexivity. }
  split; [done|]. split; [vm_compute; reflexivity|]. exists "perf.data.1". split; [done|]. left. vm_compute. reflexivity.
Qed.

Lemma prune_keeps_records_witness :
  fst (run_of true) = Ok 0 /\ forall q, outdated (now campaign_data) ["data"] 1 q -> now (snd (run_of true)) !! q = None.
Proof.
  assert (fst (run_of true) = Ok 0) as Hr by (vm_compute; reflexivity). split; [exact Hr|]. intros q Hq.
  exact (proj2 (proj2 (proj2 (@prune_keeps_records quiet (newest_one true) campaign_data _ _ (surjective_pairing _)) 0 Hr)) q (conj eq_refl Hq)).
Defined.
